(* ===== verification/_CoqProject ===== *)
-Q . S2P
Prelude.v
Golang.v
Sdk.v
Reference.v
CoinswapTypes.v
Coinswap.v
CoinswapFacts.v
CoinswapLiquidity.v
CoinswapStore.v
Epochs.v
EpochsFacts.v
Inflation.v
InflationFacts.v
Ethereum.v
Erc20Types.v
Erc20.v
ReferenceEvm.v
Erc20Facts.v
Erc20Store.v
Csr.v
CsrFacts.v
Ibc.v
CoinswapTrade.v
Onboarding.v
OnboardingFacts.v
Govshuttle.v
GovshuttleFacts.v
Ante.v
AnteFacts.v
Tps.v
Upgrades.v
Wire.v
WireFacts.v
WireCodec.v
WireSdk.v
CoinswapCodec.v
CsrCodec.v
EpochsCodec.v
InflationCodec.v
OnboardingCodec.v
GovshuttleCodec.v
Erc20Codec.v
Grpc.v
CoinswapService.v
CsrService.v
EpochsService.v
Erc20Service.v
GovshuttleService.v
InflationService.v
OnboardingService.v
ByteStore.v
Codecs.v
App.v
AppFacts.v
Export.v
Queries.v
Services.v
Pulsar.v
Reflect.v
ApiSame.v
ApiCoinswap.v
ApiCsr.v
ApiEpochs.v
ApiErc20.v
ApiGovshuttle.v
ApiInflation.v
ApiOnboarding.v
Api.v
