(* ===== verification/Prelude.v ===== *)
(** * Verification library for the Tucana/Canto chain application

    The repository is the application of a Cosmos SDK chain with an EVM.  Its own
    logic is in the modules under src/x, the admission of transactions under
    src/app/ante, their composition in src/app, and small packages they share
    (src/ibc, src/types); around it there is generated code: the encodings and
    services of the modules (.pb.go and .pb.gw.go files under src/x) and package api
    (src/api).  This library translates those parts into Rocq functions and proves
    what makes them correct.

    ** The program and how its parts interact

    - x/coinswap is a constant-product exchange between a standard coin and other
      coins, with pools whose shares are coins of their own;
    - x/epochs counts epochs in the begin blocker and calls hooks;
    - x/inflation mints a provision at the end of its epoch, called by x/epochs;
    - x/erc20 converts between coins and ERC20 tokens of the EVM, by messages and
      by a hook on the logs of EVM transactions;
    - x/csr splits the fee of an EVM transaction between a contract and burning,
      in a hook after the transaction;
    - x/onboarding swaps and converts coins received over IBC, a client of
      x/coinswap and x/erc20, as a middleware of the transfer application;
    - x/govshuttle writes governance proposals into a contract, a client of x/erc20;
    - app/ante chooses the checks of a transaction and limits authz messages,
      app/sigverify.go charges gas for signatures, app/tps_counter.go reports the
      rate of transactions, app/upgrades holds the upgrade handlers;
    - app/app.go builds the keepers on each other, connects their hooks and the IBC
      stack and fixes the order of the modules in a block; app/export.go prepares
      the state of a new genesis file;
    - keepers store, and clients send, the protobuf encodings of records and
      messages; requests reach the modules through generated clients, handlers and
      a REST gateway; package api has the same messages again, with reflection,
      for clients and for reading the signers of messages.

    ** Conventions of the model

    A keeper method is a function of the monad [M] below: it reads and writes a
    state and ends in a value, an error or a panic ([outcome]).  The state of a
    module is a [Chain W K]: [W] is the state of everything outside the
    repository (bank, accounts, EVM), [K] the store of the module, a Record with
    one field per kind of entry, and the events emitted.  Writes before an error
    stay, as in the code; [deliver] is the transaction runner, which undoes them,
    and [cached] a cached context.  Code outside the repository is a parameter: a
    class of operations per package and a class of laws that state its documented
    behaviour (Sdk.v, Ethereum.v, Ibc.v, and next to the modules).  Reference.v
    and ReferenceEvm.v give executable instances with the laws proved; only the
    witnesses of theorems use them.  Amounts are integers with the overflow checks
    of cosmossdk.io/math written out, decimals are integers scaled by 10^18,
    machine integers wrap at their width, strings and byte slices are byte
    strings, stores are finite maps iterated in key order.  Errors are compared by
    identity, not by message; logging, telemetry and gas are left out.

    ** Files

    - Prelude.v: outcomes, the monad, tactics ([minv], [breflect], [readonly]), the
      hint database [chain]; Golang.v: strings, numbers, ordered iteration and
      range variables of Go; Sdk.v: interfaces of the SDK, [bank_delta] (how
      balances and supplies change) and its automation; Reference.v: an instance.
    - CoinswapTypes.v (x/coinswap/types), Coinswap.v (x/coinswap/keeper),
      CoinswapFacts.v (prices and swaps), CoinswapLiquidity.v (deposits and
      withdrawals, the pool creation fee), CoinswapStore.v (names and keys, pool index,
      genesis, deadlines), CoinswapTrade.v (a failed buy order leaves no trace).
    - Epochs.v, EpochsFacts.v: x/epochs, with the abstract transition [tick] that
      the begin blocker refines.
    - Inflation.v, InflationFacts.v: x/inflation, also as the hook of x/epochs.
    - Ethereum.v (interfaces of the EVM), Erc20Types.v and Erc20.v (x/erc20),
      ReferenceEvm.v (an instance), Erc20Facts.v (conversions, hook), Erc20Store.v
      (pairs and indexes, registration, genesis, names).
    - Csr.v, CsrFacts.v: x/csr.
    - Ibc.v (src/ibc/utils.go, src/types/utils.go), Onboarding.v (x/onboarding over
      the interfaces [CoinwapKeeper] and [Erc20Keeper] of its types/interfaces.go),
      OnboardingFacts.v (theorems against the laws of these interfaces, and the
      instances that discharge them with Coinswap.v and Erc20.v).
    - Govshuttle.v, GovshuttleFacts.v: x/govshuttle over its interface to x/erc20.
    - Ante.v, AnteFacts.v (app/ante, app/sigverify.go), Tps.v
      (app/tps_counter.go), Upgrades.v (app/upgrades).
    - Wire.v (the fragments the generated encodings are made of), WireFacts.v and
      WireCodec.v (their lemmas; [CodecLaws] is what a message promises to the
      messages that contain it), WireSdk.v (types of other packages),
      CoinswapCodec.v, CsrCodec.v, EpochsCodec.v, InflationCodec.v,
      OnboardingCodec.v, GovshuttleCodec.v, Erc20Codec.v (the messages of the
      .pb.go files), Codecs.v (the theorems on all of them).
    - Grpc.v (connections, stubs and the routers of messages and queries),
      CoinswapService.v and the six like it (the clients, handlers, service
      descriptions and gateways of a module), Services.v (registration in the
      module.go files, and what callers get).
    - ByteStore.v (setters and getters on the bytes in the stores, which refine the
      typed stores of the keepers), Queries.v (paginated queries).
    - App.v, AppFacts.v (app/app.go: the state of the whole chain and every way it
      changes), Export.v (app/export.go).
    - Pulsar.v (the fragments of the encodings of package api), Reflect.v (its
      reflection), ApiSame.v (how messages of both kinds of code are compared),
      ApiCoinswap.v and the six like it (the messages of the .pulsar.go files), Api.v (the
      theorems on all of them).

    ** What the theorems show

    - Exchange: the price functions give the best price that keeps the product of the
      reserves when the fee is left out of it; orders move exactly the coins they say
      within the limits of message and parameters; deposits do not dilute,
      withdrawals are proportional, and going back and forth makes no profit, unless
      coins were sent to a pool without liquidity; which deadlines have passed.
    - Conversions: coins taken and tokens given match exactly, for the four kinds of
      conversion and for every log the hook is given, in every denomination but the
      one of the EVM, which its own state mirrors; which transfers the hook leaves
      stranded; a proposal reaches the port with all its fields.
    - Fees: the fee of a transaction is split without loss; when the hook fails it.
    - Issuance: an epoch mints its provision once and distributes all of it; the
      provision is defined and bounded.
    - Time: the begin blocker refines a pure transition; epochs stay on schedule and
      catch up after a halt.
    - Stores: the pool index, the token pair indexes and the register of contracts
      stay consistent over every sequence of transactions; genesis export and
      import are inverse to each other; the port of x/govshuttle never changes.
    - Composition: a packet received over IBC never costs its recipient more than
      it brought, whatever x/coinswap and x/erc20 do with it.
    - Admission: the authz limiter terminates and accepts exactly the clean
      transactions; admitted transactions have passed the checks of their route; the
      gas of signatures; the transaction counter reports everything once, over every
      interleaving of its atomic steps.
    - Application: the store invariants of x/coinswap, x/erc20 and x/csr and valid
      parameters of x/onboarding hold together in every state the chain reaches, over
      any order of transactions, packets, proposals and blocks; transactions find the
      Turnstile; the hooks of a transaction together; what a block mints; what the
      state exported for height zero is.
    - Encodings: what is stored or sent is read back, decoding ends in a value or an
      error on every input, and byte stores refine the typed ones; following the
      pages of a query lists everything once.
    - Services: in whatever order the modules are registered, messages are routed to
      the method of their type, and query clients and the gateway get the answer of
      the method they name.
    - Package api: its messages have the encodings of those of the modules, keep
      the fields they do not know, and reflection misses no field.

    ** Bounds and fuel

    Prices are proved total for amounts below 2^98, where no product leaves 256
    bits; above it the code may panic, and what it returns is still exact.  The
    provision of x/inflation is proved defined under the bounds stated with it.
    The transaction counter is exact below 2^63 transactions.  Fuel occurs in
    [IsBlank] (the length of the text is enough, every round drops a byte), in
    [checkDisabledMsgs] (seven levels are enough, [authz_check_terminates]), in
    writing an integer of 64 bits (ten rounds of seven bits) and reading one (the
    code refuses the eleventh byte), and in skipping and decoding (one round more
    than there are bytes: every round moves on, or ends); all other recursion is
    structural.  Encodings are proved right below 2^63 bytes, the largest slice.

    ** Not modelled, and why

    - In src/app/app.go the construction of keepers of libraries, codecs and
      accessors; in the module.go files the methods that only pass on calls to the
      SDK.  They have no logic of their own.
    - Of the generated code: file descriptors (compressed data) and registration
      with protobuf; String, Reset, the getters and the slow reflection of package
      api, which only call protobuf; its gRPC stubs, which repeat those of the
      modules; the URL patterns and the HTTP plumbing of the gateway, which belong
      to its runtime.
    - Clients, command line, simulation and test code.
    - src/contracts: Solidity and the variables that embed it; contracts run in
      the EVM, which is outside the repository. *)

From stdpp Require Import base gmap strings list pretty sorting.

#[local] Open Scope Z_scope.

(** ** Errors and outcomes *)

(** An error value of the Go code.  [errorsmod.Register codespace code _]
    gives a [Registered] error; [errorsmod.Wrap]/[Wrapf] keep the identity of
    the error they wrap, so the wrapping text is not part of the model.
    [Foreign] is a sentinel error of a package outside the repository, by
    name; [Plain] is the result of [fmt.Errorf] or [errors.New]. *)
Inductive error :=
| Registered (codespace : string) (code : Z)
| Foreign (name : string)
| Plain (text : string).

(** What a Go call ends in: a value, an error value, or a panic. *)
Inductive outcome (A : Type) :=
| Ok (a : A)
| Err (e : error)
| Panic.
Arguments Ok {A} a.
Arguments Err {A} e.
Arguments Panic {A}.

#[export] Instance error_eq_dec : EqDecision error.
Proof. solve_decision. Defined.

#[export] Instance outcome_eq_dec A `{EqDecision A} : EqDecision (outcome A).
Proof. solve_decision. Defined.

Definition obind {A B} (o : outcome A) (k : A -> outcome B) : outcome B :=
  match o with Ok a => k a | Err e => Err e | Panic => Panic end.

Definition is_Ok {A} (o : outcome A) : bool :=
  match o with Ok _ => true | _ => false end.

(** ** The state-passing monad of the keepers

    A keeper method reads and writes the stores reachable from its [ctx] and
    returns a value, an error, or panics.  Writes made before an error stay in
    the state: only the transaction runner ([deliver]) or a cached context
    ([cached]) rolls them back. *)
Definition M (S A : Type) : Type := S -> outcome A * S.

Definition ret {S A} (a : A) : M S A := fun s => (Ok a, s).
Definition fail {S A} (e : error) : M S A := fun s => (Err e, s).
Definition panic {S A} : M S A := fun s => (Panic, s).
Definition lift {S A} (o : outcome A) : M S A := fun s => (o, s).
Definition gets {S A} (f : S -> A) : M S A := fun s => (Ok (f s), s).
Definition modify {S} (f : S -> S) : M S unit := fun s => (Ok tt, f s).

Definition bind {S A B} (m : M S A) (k : A -> M S B) : M S B := fun s =>
  match m s with
  | (Ok a, s') => k a s'
  | (Err e, s') => (Err e, s')
  | (Panic, s') => (Panic, s')
  end.

(** [if cond { return err }]. *)
Definition reject {S} (cond : bool) (e : error) : M S unit :=
  if cond then fail e else ret tt.

(** [v, err := m(...)] where the caller goes on with either result; a panic
    still propagates. *)
Definition attempt {S A} (m : M S A) : M S (A + error) := fun s =>
  match m s with
  | (Ok a, s') => (Ok (inl a), s')
  | (Err e, s') => (Ok (inr e), s')
  | (Panic, s') => (Panic, s')
  end.

(** [cacheCtx, write := ctx.CacheContext()], [write()] on success only. *)
Definition cached {S A} (m : M S A) : M S (A + error) := fun s =>
  match m s with
  | (Ok a, s') => (Ok (inl a), s')
  | (Err e, _) => (Ok (inr e), s)
  | (Panic, s') => (Panic, s')
  end.

(** Running a message: errors and panics discard every write. *)
Definition deliver {S A} (m : M S A) : M S A := fun s =>
  match m s with
  | (Ok a, s') => (Ok a, s')
  | (Err e, _) => (Err e, s)
  | (Panic, _) => (Panic, s)
  end.

(** Running a computation on a part of the state. *)
Definition zoom {S T A} (get : S -> T) (put : T -> S -> S) (m : M T A) : M S A := fun s =>
  let '(r, t) := m (get s) in (r, put t s).

(** [for _, x := range l { ... }] whose body may return an error. *)
Fixpoint for_each {S A} (l : list A) (f : A -> M S unit) : M S unit :=
  match l with
  | [] => ret tt
  | x :: l' => bind (f x) (fun _ => for_each l' f)
  end.

Declare Scope go_scope.
Delimit Scope go_scope with go.
Notation "'let*' x ':=' m 'in' k" := (bind m (fun x => k))
  (at level 10, x name, m at level 100, k at level 200) : go_scope.
Notation "'let*' ' x ':=' m 'in' k" := (bind m (fun x => k))
  (at level 10, x strict pattern, m at level 100, k at level 200) : go_scope.
Notation "'do!' m ; k" := (bind m (fun _ => k))
  (at level 10, m at level 100, k at level 200) : go_scope.
Notation "'let?' x ':=' o 'in' k" := (obind o (fun x => k))
  (at level 10, x name, o at level 100, k at level 200) : go_scope.
Notation "'let?' ' x ':=' o 'in' k" := (obind o (fun x => k))
  (at level 10, x strict pattern, o at level 100, k at level 200) : go_scope.

(** ** Machine integers *)

(** [uint64] and [int64] arithmetic wraps around. *)
Definition wrap64 (z : Z) : Z := z mod 2 ^ 64.
Definition sint64 (z : Z) : Z := (z + 2 ^ 63) mod 2 ^ 64 - 2 ^ 63.
Definition uint8 (z : Z) : Z := z mod 2 ^ 8.
Definition sint32 (z : Z) : Z := (z + 2 ^ 31) mod 2 ^ 32 - 2 ^ 31.

Definition is_uint64 (z : Z) : Prop := 0 <= z < 2 ^ 64.
Definition is_int64 (z : Z) : Prop := - 2 ^ 63 <= z < 2 ^ 63.

(** ** Lemmas and tactics on outcomes *)

Lemma obind_Ok {A B} (o : outcome A) (k : A -> outcome B) b :
  obind o k = Ok b -> ∃ a, o = Ok a ∧ k a = Ok b.
Proof. destruct o; simpl; intros; [eauto|done|done]. Qed.

Lemma bind_Ok {S A B} (m : M S A) (k : A -> M S B) s b s' :
  bind m k s = (Ok b, s') -> ∃ a s1, m s = (Ok a, s1) ∧ k a s1 = (Ok b, s').
Proof. unfold bind. destruct (m s) as [[a|e|] s1]; intros; simplify_eq; eauto. Qed.

Lemma bind_run {S A B} (m : M S A) (k : A -> M S B) s a s1 :
  m s = (Ok a, s1) -> bind m k s = k a s1.
Proof. unfold bind. by intros ->. Qed.

Lemma ret_Ok {S A} (a b : A) (s s' : S) : ret a s = (Ok b, s') -> a = b ∧ s = s'.
Proof. unfold ret. naive_solver. Qed.

Lemma gets_Ok {S A} (f : S -> A) b (s s' : S) :
  gets f s = (Ok b, s') -> b = f s ∧ s' = s.
Proof. unfold gets. naive_solver. Qed.

Lemma modify_Ok {S} (f : S -> S) (u : unit) (s s' : S) :
  modify f s = (Ok u, s') -> s' = f s.
Proof. unfold modify. naive_solver. Qed.

Lemma lift_Ok {S A} (o : outcome A) b (s s' : S) :
  lift o s = (Ok b, s') -> o = Ok b ∧ s' = s.
Proof. unfold lift. naive_solver. Qed.

Lemma reject_Ok {S} (c : bool) e (u : unit) (s s' : S) :
  reject c e s = (Ok u, s') -> c = false ∧ s' = s.
Proof. unfold reject, fail, ret. destruct c; naive_solver. Qed.

Lemma attempt_Ok {S A} (m : M S A) r (s s' : S) :
  attempt m s = (Ok r, s') ->
  match r with inl a => m s = (Ok a, s') | inr e => m s = (Err e, s') end.
Proof. unfold attempt. destruct (m s) as [[a|e|] s1]; intros; by simplify_eq. Qed.

Lemma cached_Ok {S A} (m : M S A) r (s s' : S) :
  cached m s = (Ok r, s') ->
  match r with
  | inl a => m s = (Ok a, s')
  | inr e => s' = s ∧ ∃ s1, m s = (Err e, s1)
  end.
Proof. unfold cached. destruct (m s) as [[a|e|] s1]; intros; simplify_eq; eauto. Qed.

Lemma deliver_Ok {S A} (m : M S A) a (s s' : S) :
  deliver m s = (Ok a, s') <-> m s = (Ok a, s').
Proof. unfold deliver. destruct (m s) as [[b|e|] s1]; naive_solver. Qed.

(** A message that does not succeed leaves no trace. *)
Lemma deliver_revert {S A} (m : M S A) (s : S) :
  is_Ok (deliver m s).1 = false -> (deliver m s).2 = s.
Proof. unfold deliver. destruct (m s) as [[b|e|] s1]; simpl; done. Qed.

Lemma zoom_Ok {S T A} (get : S -> T) put (m : M T A) a (s s' : S) :
  zoom get put m s = (Ok a, s') -> ∃ t, m (get s) = (Ok a, t) ∧ s' = put t s.
Proof. unfold zoom. destruct (m (get s)) as [r t]. naive_solver. Qed.

(** Splitting a run into its result and its state. *)
Lemma run_Ok {S A} (m : M S A) a (s : S) : (m s).1 = Ok a -> m s = (Ok a, (m s).2).
Proof. destruct (m s). cbn. by intros ->. Qed.

Lemma for_each_app {S A} (l l' : list A) (f : A -> M S unit) (s s' : S) :
  for_each (l ++ l') f s = (Ok tt, s') <->
  ∃ s1, for_each l f s = (Ok tt, s1) ∧ for_each l' f s1 = (Ok tt, s').
Proof.
  revert s. induction l as [|x l IH]; intros s; cbn.
  - split; [intros E; by exists s|]. intros (s1 & [= <-] & E). done.
  - unfold bind. destruct (f x s) as [[u|e|] s1]; [apply IH|naive_solver|naive_solver].
Qed.

(** ** Errors along a sequence *)

Lemma bind_Err {S A B} (m : M S A) (k : A -> M S B) e s s' :
  bind m k s = (Err e, s') ->
  m s = (Err e, s') ∨ ∃ a s1, m s = (Ok a, s1) ∧ k a s1 = (Err e, s').
Proof. unfold bind. destruct (m s) as [[a|e'|] s1]; naive_solver. Qed.

(** Computations that never change the state, whatever they end in. *)
Definition readonly {S A} (m : M S A) : Prop := ∀ s, (m s).2 = s.

Section readonly.
Context {S : Type}.

Lemma readonly_ret {A} (a : A) : readonly (S:=S) (ret a).
Proof. done. Qed.
Lemma readonly_fail {A} e : readonly (S:=S) (A:=A) (fail e).
Proof. done. Qed.
Lemma readonly_panic {A} : readonly (S:=S) (A:=A) panic.
Proof. done. Qed.
Lemma readonly_lift {A} (o : outcome A) : readonly (S:=S) (lift o).
Proof. done. Qed.
Lemma readonly_gets {A} (f : S -> A) : readonly (gets f).
Proof. done. Qed.
Lemma readonly_reject c e : readonly (S:=S) (reject c e).
Proof. intros s. by destruct c. Qed.
Lemma readonly_bind {A B} (m : M S A) (k : A -> M S B) :
  readonly m -> (∀ a, readonly (k a)) -> readonly (bind m k).
Proof.
  intros Hm Hk s. unfold bind. specialize (Hm s). destruct (m s) as [[a|e|] s1]; cbn in Hm; subst; try done.
  apply Hk.
Qed.
Lemma readonly_attempt {A} (m : M S A) : readonly m -> readonly (attempt m).
Proof. intros Hm s. specialize (Hm s). unfold attempt. by destruct (m s) as [[a|e|] s1]. Qed.

Lemma readonly_run {A} (m : M S A) r s s' : readonly m -> m s = (r, s') -> s' = s.
Proof. intros Hm E. specialize (Hm s). by rewrite E in Hm. Qed.

Lemma readonly_bind_Err {A B} (m : M S A) (k : A -> M S B) e s s' :
  readonly m -> bind m k s = (Err e, s') ->
  s' = s ∨ ∃ a, m s = (Ok a, s) ∧ k a s = (Err e, s').
Proof.
  intros Hm [E|(a & s1 & E & E')]%bind_Err.
  - left. by eapply readonly_run.
  - right. pose proof (readonly_run _ _ _ _ Hm E) as ->. by exists a.
Qed.

End readonly.

(** Properties of the state that successful runs keep. *)
Definition invariant {S A} (P : S -> Prop) (m : M S A) : Prop :=
  ∀ s a s', P s -> m s = (Ok a, s') -> P s'.

Section invariant.
Context {S : Type} (P : S -> Prop).

Lemma invariant_readonly {A} (m : M S A) : readonly m -> invariant P m.
Proof. intros Hm s a s' Hs E. by rewrite (readonly_run _ _ _ _ Hm E). Qed.
Lemma invariant_modify (f : S -> S) : (∀ s, P s -> P (f s)) -> invariant P (modify f).
Proof. intros Hf s a s' Hs ->%modify_Ok. by apply Hf. Qed.
Lemma invariant_bind {A B} (m : M S A) (k : A -> M S B) :
  invariant P m -> (∀ a, invariant P (k a)) -> invariant P (bind m k).
Proof. intros Hm Hk s b s' Hs (a & s1 & E1 & E2)%bind_Ok. by eapply Hk, E2; eapply Hm, E1. Qed.
Lemma invariant_cached {A} (m : M S A) : invariant P m -> invariant P (cached m).
Proof. intros Hm s r s' Hs E%cached_Ok. destruct r as [a|e]; [by eapply Hm|by destruct E as [-> _]]. Qed.
(** A caller that goes on after an error sees what was written before it. *)
Lemma invariant_attempt {A} (m : M S A) : (∀ s, P s -> P (m s).2) -> invariant P (attempt m).
Proof. intros Hm s r s' Hs E%attempt_Ok. specialize (Hm s Hs). destruct r; by rewrite E in Hm. Qed.
Lemma invariant_for_each {A} (l : list A) (f : A -> M S unit) :
  (∀ x, invariant P (f x)) -> invariant P (for_each l f).
Proof.
  intros Hf. induction l as [|x l IH]; cbn; [by apply invariant_readonly|]. by apply invariant_bind; [|intros _].
Qed.
(** A part of the state that [P] does not depend on. *)
Lemma invariant_zoom {T A} (get : S -> T) put (m : M T A) :
  (∀ s t, P s -> P (put t s)) -> invariant P (zoom get put m).
Proof. intros Hp s a s' Hs (t & _ & ->)%zoom_Ok. by apply Hp. Qed.
(** A delivered message keeps what its successful runs keep. *)
Lemma invariant_deliver {A} (m : M S A) s : invariant P m -> P s -> P (deliver m s).2.
Proof. intros Hm Hs. unfold deliver. destruct (m s) as [[a|e|] s'] eqn:E; cbn; [|done|done]. by eapply Hm. Qed.

End invariant.

(** [minv] inverts every successful run in the context. *)
Ltac minv1 :=
  match goal with
  | H : bind _ _ _ = (Ok _, _) |- _ =>
      let a := fresh "v" in let s := fresh "s" in let E := fresh "E" in
      apply bind_Ok in H as (a & s & E & H)
  | H : obind _ _ = Ok _ |- _ =>
      let a := fresh "v" in let E := fresh "E" in
      apply obind_Ok in H as (a & E & H)
  | u : unit |- _ => destruct u
  | H : ret _ _ = (Ok _, _) |- _ => apply ret_Ok in H as [? ?]; subst
  | H : gets _ _ = (Ok _, _) |- _ => apply gets_Ok in H as [? ?]; subst
  | H : modify _ _ = (Ok _, _) |- _ => apply modify_Ok in H; subst
  | H : lift _ _ = (Ok _, _) |- _ => apply lift_Ok in H as [? ?]; subst
  | H : reject _ _ _ = (Ok _, _) |- _ => apply reject_Ok in H as [? ?]; subst
  | H : fail _ _ = (Ok _, _) |- _ => discriminate H
  | H : panic _ = (Ok _, _) |- _ => discriminate H
  | H : (Ok _, _) = (Ok _, _) |- _ => injection H; clear H; intros; subst
  | H : Ok _ = Ok _ |- _ => injection H; clear H; intros; subst
  | H : Err _ = Ok _ |- _ => discriminate H
  | H : Panic = Ok _ |- _ => discriminate H
  | H : (Err _, _) = (Ok _, _) |- _ => discriminate H
  | H : (Panic, _) = (Ok _, _) |- _ => discriminate H
  | H1 : ?o = Ok _, H2 : ?o = Ok _ |- _ =>
      rewrite H1 in H2; injection H2; clear H2; intros; subst
  end.
Ltac minv := repeat (minv1; simpl in * ).

(** Boolean tests of the code, turned into propositions. *)
Lemma string_eqb_true (a b : string) : String.eqb a b = true <-> a = b.
Proof. apply String.eqb_eq. Qed.

Lemma string_eqb_false (a b : string) : String.eqb a b = false <-> a ≠ b.
Proof. apply String.eqb_neq. Qed.

Ltac breflect :=
  repeat match goal with
  | H : (_ && _)%bool = true |- _ => apply andb_true_iff in H as [? ?]
  | H : (_ || _)%bool = false |- _ => apply orb_false_iff in H as [? ?]
  | H : (_ && _)%bool = false |- _ => apply andb_false_iff in H
  | H : (_ || _)%bool = true |- _ => apply orb_true_iff in H
  | H : negb _ = true |- _ => apply negb_true_iff in H
  | H : negb _ = false |- _ => apply negb_false_iff in H
  | H : (_ <? _) = true |- _ => apply Z.ltb_lt in H
  | H : (_ <? _) = false |- _ => apply Z.ltb_ge in H
  | H : (_ <=? _) = true |- _ => apply Z.leb_le in H
  | H : (_ <=? _) = false |- _ => apply Z.leb_gt in H
  | H : (_ =? _) = true |- _ => apply Z.eqb_eq in H
  | H : (_ =? _) = false |- _ => apply Z.eqb_neq in H
  | H : String.eqb _ _ = true |- _ => apply String.eqb_eq in H
  | H : String.eqb _ _ = false |- _ => apply String.eqb_neq in H
  end.

Lemma wrap64_small z : is_uint64 z -> wrap64 z = z.
Proof. unfold is_uint64, wrap64. intros. by apply Z.mod_small. Qed.

Lemma sint64_small z : is_int64 z -> sint64 z = z.
Proof. unfold is_int64, sint64. intros. rewrite Z.mod_small; lia. Qed.

Lemma wrap64_range z : is_uint64 (wrap64 z).
Proof. unfold is_uint64, wrap64. apply Z.mod_pos_bound. lia. Qed.

Lemma sint64_range z : is_int64 (sint64 z).
Proof.
  unfold is_int64, sint64.
  pose proof (Z.mod_pos_bound (z + 2 ^ 63) (2 ^ 64)). lia.
Qed.

(** Storing an [int64] as the [uint64] with the same bits loses nothing. *)
Lemma sint64_wrap64 z : is_int64 z -> sint64 (wrap64 z) = z.
Proof.
  unfold is_int64, sint64, wrap64. intros. rewrite Zplus_mod_idemp_l, Z.mod_small; lia.
Qed.

(** The hints of the development: ranges of machine integers and the facts
    that discharge the side conditions of the interfaces' laws. *)
Create HintDb chain discriminated.
#[export] Hint Resolve wrap64_range sint64_range : chain.
#[export] Hint Resolve wrap64_small sint64_small : chain.
#[export] Hint Resolve readonly_ret readonly_fail readonly_panic readonly_lift readonly_gets
  readonly_reject : chain.

(** Proving [readonly] of a composed computation. *)
Ltac readonly :=
  repeat first
  [ solve [eauto with chain]
  | apply readonly_bind; [|intros]
  | apply readonly_attempt
  | match goal with
    | |- readonly (match ?x with _ => _ end) => destruct x
    end ].

(** Proving [invariant] of a composed computation. *)
#[export] Hint Resolve invariant_readonly : chain.
Ltac invariants :=
  repeat first
  [ solve [eauto with chain]
  | apply invariant_bind; [|intros]
  | apply invariant_cached
  | apply invariant_for_each; intros
  | match goal with
    | |- invariant _ (match ?x with _ => _ end) => destruct x
    end ].
