(* ===== verification/Golang.v ===== *)
(** * The parts of the Go language and its standard library the modules use

    Byte strings ([strings], [strconv], [fmt.Sprintf] with one verb), the
    ordered iteration of a key-value store, and the pointer semantics of a
    [range] variable.  Go strings are byte strings and so are Rocq's. *)

From Stdlib Require Import Ascii.
From stdpp Require Import base gmap strings list pretty sorting.
From S2P Require Import Prelude.

#[local] Open Scope Z_scope.

(** ** Package strings *)

(** [strings.HasPrefix(s, p)] *)
Definition HasPrefix (s p : string) : bool := String.prefix p s.

(** [s[n:]] *)
Fixpoint drop_bytes (n : nat) (s : string) : string :=
  match n, s with
  | O, _ => s
  | S n, String _ s => drop_bytes n s
  | S _, EmptyString => EmptyString
  end.

(** [s[:n]] *)
Fixpoint take_bytes (n : nat) (s : string) : string :=
  match n, s with
  | S n, String c s => String c (take_bytes n s)
  | _, _ => EmptyString
  end.

(** [strings.Contains(s, sub)] *)
Fixpoint Contains (s sub : string) : bool :=
  HasPrefix s sub ||
  match s with String _ s' => Contains s' sub | EmptyString => false end.

(** [strings.Split(s, sep)] for a separator of one byte: [cur] is the part
    read since the last separator. *)
Fixpoint split_from (cur : string) (sep : ascii) (s : string) : list string :=
  match s with
  | EmptyString => [cur]
  | String c s' =>
      if Ascii.eqb c sep then cur :: split_from "" sep s'
      else split_from (cur +:+ String c "") sep s'
  end.
Definition Split (s : string) (sep : ascii) : list string := split_from "" sep s.

(** [strings.SplitN(s, sep, 2)] for a separator of one byte. *)
Fixpoint split2_from (cur : string) (sep : ascii) (s : string) : list string :=
  match s with
  | EmptyString => [cur]
  | String c s' =>
      if Ascii.eqb c sep then [cur; s']
      else split2_from (cur +:+ String c "") sep s'
  end.
Definition SplitN2 (s : string) (sep : ascii) : list string := split2_from "" sep s.

(** The number of bytes of the white-space rune [s] starts with, 0 if it does
    not start with one ([unicode.IsSpace], UTF-8 encoded). *)
Definition space_width (s : string) : nat :=
  match String.list_ascii_of_string s with
  | a :: l =>
      let x := N_of_ascii a in
      if ((9 <=? x) && (x <=? 13) || (x =? 32))%N then 1%nat else
      match l with
      | b :: l' =>
          let y := N_of_ascii b in
          if ((x =? 194) && ((y =? 133) || (y =? 160)))%N then 2%nat else
          match l' with
          | c :: _ =>
              let z := N_of_ascii c in
              if ((x =? 225) && (y =? 154) && (z =? 128)
                  || (x =? 226) && (y =? 128)
                     && ((128 <=? z) && (z <=? 138) || (z =? 168) || (z =? 169) || (z =? 175))
                  || (x =? 226) && (y =? 129) && (z =? 159)
                  || (x =? 227) && (y =? 128) && (z =? 128))%N
              then 3%nat else 0%nat
          | [] => 0%nat
          end
      | [] => 0%nat
      end
  | [] => 0%nat
  end.

Fixpoint trim_left (fuel : nat) (s : string) : string :=
  match fuel with
  | O => s
  | S fuel =>
      match space_width s with
      | O => s
      | n => trim_left fuel (drop_bytes n s)
      end
  end.

(** [strings.TrimSpace(s) == ""].  Every white-space rune takes at least one
    byte, so [String.length s] rounds are enough. *)
Definition IsBlank (s : string) : bool :=
  String.eqb (trim_left (String.length s) s) "".

(** [strings.ToLower(s)] on the ASCII letters (the comparisons of the code are
    against ASCII words). *)
Definition lower_byte (c : ascii) : ascii :=
  let x := N_of_ascii c in
  if ((65 <=? x) && (x <=? 90))%N then ascii_of_N (x + 32) else c.
Fixpoint ToLower (s : string) : string :=
  match s with
  | EmptyString => EmptyString
  | String c s' => String (lower_byte c) (ToLower s')
  end.

(** ** Package strconv and the %d verb *)

Definition digit_of (c : ascii) : option Z :=
  let x := Z.of_N (N_of_ascii c) in
  if (48 <=? x) && (x <=? 57) then Some (x - 48) else None.

Fixpoint parse_digits (s : string) (acc : Z) : option Z :=
  match s with
  | EmptyString => Some acc
  | String c s' =>
      match digit_of c with
      | Some d => parse_digits s' (acc * 10 + d)
      | None => None
      end
  end.

(** [strconv.ParseUint(s, 10, 64)] *)
Definition ParseUint64 (s : string) : outcome Z :=
  if String.eqb s "" then Err (Plain "strconv.ErrSyntax")
  else match parse_digits s 0 with
       | None => Err (Plain "strconv.ErrSyntax")
       | Some n => if n <? 2 ^ 64 then Ok n else Err (Plain "strconv.ErrRange")
       end.

(** [fmt.Sprintf("%d", n)] for an unsigned integer. *)
Definition Decimal (n : Z) : string := pretty (Z.to_N n).

(** ** Ordered iteration of a store

    A store iterator visits the keys in ascending byte order. *)
Definition entry_le {V} (a b : string * V) : Prop := String.le a.1 b.1.

#[export] Instance entry_le_dec {V} : RelDecision (@entry_le V).
Proof. intros a b. unfold entry_le. apply _. Defined.

Definition kv_iterate {V} (m : gmap string V) : list (string * V) :=
  merge_sort entry_le (map_to_list m).

(** ** Pointers to a range variable

    In Go before 1.22 the variable of [for _, x := range l] is one cell that
    every iteration overwrites, so pointers taken to it in the body all read
    the last element after the loop.  [go.mod] selects Go 1.21.  The cell is
    the entry [cell] of the explicit heap [h]; a pointer is an index into the
    heap, and the loop allocates one cell. *)
Fixpoint range_addresses {A} (l : list A) (cell : nat) (h : list A) (acc : list nat)
    : list nat * list A :=
  match l with
  | [] => (acc, h)
  | x :: l' => range_addresses l' cell (<[cell := x]> h) (acc ++ [cell])
  end.

(** The values read through the collected pointers once the loop is over. *)
Definition range_pointers {A} (l : list A) : list A :=
  match l with
  | [] => []
  | x :: _ =>
      let '(ptrs, h) := range_addresses l 0 [x] [] in
      omap (fun p => h !! p) ptrs
  end.

(** ** Lemmas *)

Lemma append_cons c (a b : string) : String c a +:+ b = String c (a +:+ b).
Proof. done. Qed.

Lemma prefix_app (p s : string) : String.prefix p (p +:+ s) = true.
Proof.
  induction p as [|c p IH]; [by destruct s|]. rewrite append_cons. cbn.
  destruct (ascii_dec c c); [apply IH|done].
Qed.

Lemma append_assoc (a b c : string) : (a +:+ b) +:+ c = a +:+ (b +:+ c).
Proof. induction a as [|x a IH]; [done|]. rewrite !append_cons. by f_equal. Qed.

Lemma append_nil_r (a : string) : a +:+ "" = a.
Proof. induction a as [|x a IH]; [done|]. rewrite append_cons. by f_equal. Qed.

Lemma append_inj_l (a b c : string) : a +:+ b = a +:+ c -> b = c.
Proof. apply String.app_inj. Qed.

Lemma append_length (a b : string) :
  String.length (a +:+ b) = (String.length a + String.length b)%nat.
Proof. induction a as [|c a IH]; [done|]. cbn. by rewrite <-IH. Qed.

Lemma take_bytes_length n s : (n <= String.length s)%nat -> String.length (take_bytes n s) = n.
Proof.
  revert s. induction n as [|n IH]; intros s Hs; [done|].
  destruct s as [|c s]; cbn in *; [lia|]. rewrite IH; lia.
Qed.

Lemma take_bytes_app s t : take_bytes (String.length s) (s +:+ t) = s.
Proof. induction s as [|c s IH]; [by destruct t|]. rewrite append_cons. cbn. by rewrite IH. Qed.

Lemma drop_bytes_app (p s : string) : drop_bytes (String.length p) (p +:+ s) = s.
Proof. induction p as [|c p IH]; [by destruct s|]. apply IH. Qed.

Lemma drop_bytes_length n s : String.length (drop_bytes n s) = (String.length s - n)%nat.
Proof. revert s. induction n as [|n IH]; intros [|c s]; cbn; auto. Qed.

Definition is_digit (c : ascii) : bool := if digit_of c is Some _ then true else false.
Fixpoint all_digits (s : string) : bool :=
  match s with EmptyString => true | String c s' => is_digit c && all_digits s' end.

Lemma digit_of_pretty (d : N) :
  (d < 10)%N -> digit_of (pretty_N_char d) = Some (Z.of_N d).
Proof.
  intros. assert (d = 0 ∨ d = 1 ∨ d = 2 ∨ d = 3 ∨ d = 4 ∨ d = 5 ∨ d = 6 ∨ d = 7 ∨ d = 8 ∨ d = 9)%N
    as Hd by lia.
  by destruct Hd as [->|[->|[->|[->|[->|[->|[->|[->|[->| ->]]]]]]]]].
Qed.

Lemma parse_digits_go (n : N) s :
  parse_digits (pretty_N_go n s) 0 = parse_digits s (Z.of_N n).
Proof.
  revert s. induction (N.lt_wf_0 n) as [n _ IH]; intros s.
  destruct (decide (n = 0)%N) as [->|Hn]; [done|].
  rewrite pretty_N_go_step, IH by (try apply N.div_lt; lia). cbn [parse_digits].
  rewrite digit_of_pretty by (apply N.mod_lt; lia). f_equal.
  rewrite (N.div_mod n 10) at 3 by lia. lia.
Qed.

Lemma all_digits_go (n : N) s : all_digits s = true -> all_digits (pretty_N_go n s) = true.
Proof.
  revert s. induction (N.lt_wf_0 n) as [n _ IH]; intros s Hs.
  destruct (decide (n = 0)%N) as [->|Hn]; [done|].
  rewrite pretty_N_go_step by lia. apply IH; [apply N.div_lt; lia|].
  cbn. unfold is_digit. rewrite digit_of_pretty by (apply N.mod_lt; lia). done.
Qed.

Lemma Decimal_digits n : all_digits (Decimal n) = true.
Proof.
  unfold Decimal, pretty, pretty_N. case_decide; [done|]. by apply all_digits_go.
Qed.

Lemma Decimal_parse n : 0 <= n -> parse_digits (Decimal n) 0 = Some n.
Proof.
  intros. unfold Decimal, pretty, pretty_N. case_decide as E.
  - change (Some 0 = Some n). f_equal. lia.
  - rewrite parse_digits_go. unfold parse_digits. f_equal. lia.
Qed.

Lemma Decimal_nonempty n : Decimal n ≠ "".
Proof.
  unfold Decimal, pretty, pretty_N. case_decide as E; [done|].
  intros H. pose proof (parse_digits_go (Z.to_N n) "") as P. rewrite H in P.
  injection P as P. lia.
Qed.

Lemma Decimal_inj a b : 0 <= a -> 0 <= b -> Decimal a = Decimal b -> a = b.
Proof. unfold Decimal. intros ?? H%(inj (pretty (A:=N))). lia. Qed.

(** Printing a 64-bit number and parsing it back is the identity. *)
Lemma ParseUint64_Decimal n : is_uint64 n -> ParseUint64 (Decimal n) = Ok n.
Proof.
  intros [??]. unfold ParseUint64.
  destruct (String.eqb_spec (Decimal n) "") as [E|_]; [by destruct (Decimal_nonempty n)|].
  rewrite Decimal_parse by done. by destruct (Z.ltb_spec n (2 ^ 64)); [|lia].
Qed.

Lemma ParseUint64_range s n : ParseUint64 s = Ok n -> n < 2 ^ 64.
Proof.
  unfold ParseUint64. repeat case_match; intros; simplify_eq; breflect; done.
Qed.

Lemma split_from_digits cur s :
  all_digits s = true -> split_from cur "-"%char s = [cur +:+ s].
Proof.
  revert cur. induction s as [|c s IH]; intros cur Hs; cbn in *.
  - by rewrite append_nil_r.
  - apply andb_true_iff in Hs as [Hc Hs].
    destruct (Ascii.eqb_spec c "-") as [->|_]; [by vm_compute in Hc|].
    rewrite IH by done. by rewrite append_assoc.
Qed.

(** ** Store iteration *)

Lemma kv_iterate_Permutation {V} (m : gmap string V) : kv_iterate m ≡ₚ map_to_list m.
Proof. apply merge_sort_Permutation. Qed.

Lemma elem_of_kv_iterate {V} (m : gmap string V) k v :
  (k, v) ∈ kv_iterate m <-> m !! k = Some v.
Proof. rewrite kv_iterate_Permutation. apply elem_of_map_to_list. Qed.

Lemma kv_iterate_NoDup {V} (m : gmap string V) : NoDup (kv_iterate m).*1.
Proof. rewrite kv_iterate_Permutation. apply NoDup_fst_map_to_list. Qed.

Lemma kv_iterate_sorted {V} (m : gmap string V) : Sorted entry_le (kv_iterate m).
Proof.
  apply Sorted_merge_sort. intros a b. unfold entry_le. apply String.le_total.
Qed.

(** Rebuilding a store from its iteration gives it back. *)
Lemma kv_iterate_list_to_map {V} (m : gmap string V) :
  list_to_map (kv_iterate m) = m.
Proof.
  rewrite (list_to_map_proper (kv_iterate m) (map_to_list m));
    [apply list_to_map_to_list|apply kv_iterate_NoDup|apply kv_iterate_Permutation].
Qed.

(** Inserting the entries one by one, as an import does. *)
Lemma foldl_insert_kv {V} (l : list (string * V)) (m : gmap string V) :
  NoDup l.*1 -> foldl (fun m e => <[e.1 := e.2]> m) m l = list_to_map l ∪ m.
Proof.
  revert m. induction l as [|[k v] l IH]; intros m Hn; cbn.
  - by rewrite (left_id_L ∅ (∪)).
  - apply NoDup_cons in Hn as [Hk Hn]. rewrite IH by done.
    rewrite <-insert_union_l, insert_union_r; [done|]. by apply not_elem_of_list_to_map_1.
Qed.

Lemma foldl_kv_iterate {V} (m : gmap string V) :
  foldl (fun m e => <[e.1 := e.2]> m) ∅ (kv_iterate m) = m.
Proof.
  rewrite foldl_insert_kv by apply kv_iterate_NoDup.
  by rewrite kv_iterate_list_to_map, (right_id_L ∅ (∪)).
Qed.

(** ** Range pointers *)

Lemma range_addresses_spec {A} (l : list A) (c : A) acc :
  range_addresses l 0 [c] acc = (acc ++ replicate (length l) 0%nat, [default c (last l)]).
Proof.
  revert c acc. induction l as [|x l IH]; intros c acc; cbn.
  - by rewrite app_nil_r.
  - rewrite IH. f_equal; [by rewrite <-app_assoc|]. f_equal. destruct l as [|y l]; [done|]. cbn. by destruct (last (y :: l)) eqn:E; [|rewrite last_None in E].
Qed.

(** Every pointer reads the last element. *)
Lemma range_pointers_spec {A} (l : list A) :
  range_pointers l = if last l is Some x then replicate (length l) x else [].
Proof.
  destruct l as [|x l]; [done|]. unfold range_pointers.
  rewrite range_addresses_spec, app_nil_l.
  destruct (last (x :: l)) as [y|] eqn:E; [|by rewrite last_None in E].
  generalize (length (x :: l)) as n. induction n as [|n IH]; [done|]. cbn. by f_equal.
Qed.
