(* ===== verification/Sdk.v ===== *)
(** * What the modules rely on from code outside the repository

    The modules call the Cosmos SDK (cosmossdk.io/math, types, x/bank, x/auth,
    x/params), CometBFT's hash and go-ethereum.  None of it is part of the
    repository, so it is a parameter here: a class of operations per package,
    and a class of laws stating the documented behaviour the modules rely on.
    [Reference.v] gives one executable instance of every class and proves its
    laws; it is used by the witnesses only.

    Data types that only carry data (coins, accounts, events) are given by
    their public fields. *)

From stdpp Require Import base gmap strings list.
From S2P Require Import Prelude Golang.

#[local] Open Scope Z_scope.

(** ** Data *)

(** [sdk.Coin]; [sdk.Coins] is [[]Coin]. *)
Record Coin := mkCoin { Denom : string; Amount : Z }.

#[export] Instance Coin_eq_dec : EqDecision Coin.
Proof. solve_decision. Defined.

(** The total amount of a denomination in a list of coins. *)
Fixpoint amount_of (cs : list Coin) (d : string) : Z :=
  match cs with
  | [] => 0
  | c :: cs' => (if String.eqb (Denom c) d then Amount c else 0) + amount_of cs' d
  end.

(** [sdk.Event]: integers and decimals are recorded by value, their text is
    what [String()] prints. *)
Inductive AttrValue :=
| AStr (s : string)
| AInt (z : Z)
| ADec (z : Z)
| ABool (b : bool).
Record Event := mkEvent { ev_type : string; ev_attrs : list (string * AttrValue) }.

(** An account of x/auth. *)
Record Account := mkAccount { acc_address : string; acc_is_module : bool }.

(** ** cosmossdk.io/math

    [Int] is an integer of at most 256 bits, [LegacyDec] a decimal with 18
    digits after the point, represented by the integer [BigInt()] returns:
    the value scaled by [10^18].  Operations panic on overflow and on
    division by zero. *)
Definition dec_unit : Z := 10 ^ 18.
Definition LegacyNewDec (i : Z) : Z := i * dec_unit.
Definition LegacyNewDecWithPrec (i p : Z) : Z := i * 10 ^ (18 - p).
Definition NewIntWithDecimal (n d : Z) : Z := n * 10 ^ d.

Class SdkMath := {
  int_Add : Z -> Z -> outcome Z;
  int_Sub : Z -> Z -> outcome Z;
  int_Mul : Z -> Z -> outcome Z;
  int_Quo : Z -> Z -> outcome Z;
  dec_Add : Z -> Z -> outcome Z;
  dec_Sub : Z -> Z -> outcome Z;
  dec_Mul : Z -> Z -> outcome Z;
  dec_Quo : Z -> Z -> outcome Z;
  dec_QuoInt : Z -> Z -> outcome Z;
  dec_Power : Z -> Z -> outcome Z;
  dec_FromInt : Z -> outcome Z;
  dec_TruncateInt : Z -> outcome Z;
  dec_String : Z -> string
}.

Definition int_fits (z : Z) : bool := Z.abs z <? 2 ^ 256.
Definition checked_int (z : Z) : outcome Z := if int_fits z then Ok z else Panic.

(** A decimal result is exact when it stays below this bound. *)
Definition dec_fits (z : Z) : Prop := Z.abs z < 2 ^ 315.

(** Division by [10^18], to the nearest integer, ties to even. *)
Definition bankers (n : Z) : Z :=
  let q := Z.abs n / dec_unit in
  let r := Z.abs n mod dec_unit in
  let q' := if 2 * r <? dec_unit then q
            else if dec_unit <? 2 * r then q + 1
            else if Z.even q then q else q + 1 in
  Z.sgn n * q'.

Class SdkMathLaws `{SdkMath} : Prop := {
  int_Add_spec a b : int_Add a b = checked_int (a + b);
  int_Sub_spec a b : int_Sub a b = checked_int (a - b);
  int_Mul_spec a b : int_Mul a b = checked_int (a * b);
  int_Quo_spec a b : b ≠ 0 -> int_Quo a b = Ok (Z.quot a b);
  int_Quo_zero a : int_Quo a 0 = Panic;
  dec_Add_spec a b : dec_fits (a + b) -> dec_Add a b = Ok (a + b);
  dec_Sub_spec a b : dec_fits (a - b) -> dec_Sub a b = Ok (a - b);
  dec_Mul_spec a b : dec_fits (bankers (a * b)) -> dec_Mul a b = Ok (bankers (a * b));
  dec_Quo_spec a b : b ≠ 0 -> dec_fits (bankers (Z.quot (a * dec_unit * dec_unit) b)) ->
    dec_Quo a b = Ok (bankers (Z.quot (a * dec_unit * dec_unit) b));
  (** a result that is returned is the exact one: operations panic instead of
      truncating *)
  dec_Add_Ok a b r : dec_Add a b = Ok r -> r = a + b;
  dec_Sub_Ok a b r : dec_Sub a b = Ok r -> r = a - b;
  dec_Mul_Ok a b r : dec_Mul a b = Ok r -> r = bankers (a * b);
  dec_Quo_Ok a b r : dec_Quo a b = Ok r ->
    b ≠ 0 ∧ r = bankers (Z.quot (a * dec_unit * dec_unit) b);
  dec_FromInt_Ok a r : dec_FromInt a = Ok r -> r = a * dec_unit;
  dec_TruncateInt_Ok a r : dec_TruncateInt a = Ok r -> r = Z.quot a dec_unit;
  dec_QuoInt_spec a b : b ≠ 0 -> dec_QuoInt a b = Ok (Z.quot a b);
  dec_Power_0 a : dec_Power a 0 = Ok dec_unit;
  dec_Power_1 a : dec_fits a -> dec_Power a 1 = Ok a;
  dec_Power_unit a n : 0 <= a <= dec_unit -> is_uint64 n ->
    ∃ r, dec_Power a n = Ok r ∧ 0 <= r <= dec_unit;
  dec_FromInt_spec a : int_fits a = true -> dec_FromInt a = Ok (a * dec_unit);
  dec_TruncateInt_spec a : dec_fits a -> dec_TruncateInt a = Ok (Z.quot a dec_unit)
}.

(** ** github.com/cosmos/cosmos-sdk/types *)
Class SdkTypes := {
  DefaultBondDenom : string;
  (** [ValidateDenom(d) == nil] *)
  ValidateDenom : string -> bool;
  NewCoin : string -> Z -> outcome Coin;
  NewCoins : list Coin -> outcome (list Coin);
  Coins_AmountOf : list Coin -> string -> outcome Z;
  (** [coins.Validate() == nil], which is [coins.IsValid()] *)
  Coins_IsValid : list Coin -> bool;
  Coin_IsValid : Coin -> bool;
  Coin_Add : Coin -> Coin -> outcome Coin;
  Coin_Sub : Coin -> Coin -> outcome Coin;
  AccAddressFromBech32 : string -> outcome string;
  AccAddress_String : string -> string
}.

(** An account address of x/auth has between 1 and 255 bytes. *)
Definition acc_address_ok (a : string) : Prop := a ≠ "" ∧ (String.length a <= 255)%nat.

Class SdkTypesLaws `{SdkTypes} : Prop := {
  NewCoin_spec d a :
    NewCoin d a = if ValidateDenom d && (0 <=? a) then Ok (mkCoin d a) else Panic;
  NewCoins_effect cs cs' : NewCoins cs = Ok cs' ->
    Coins_IsValid cs' = true ∧ ∀ d, amount_of cs' d = amount_of cs d;
  NewCoins_total cs :
    Forall (fun c => ValidateDenom (Denom c) = true ∧ 0 <= Amount c) cs ->
    NoDup (Denom <$> cs) -> ∃ cs', NewCoins cs = Ok cs';
  Coins_AmountOf_spec cs d : Coins_IsValid cs = true ->
    Coins_AmountOf cs d = if ValidateDenom d then Ok (amount_of cs d) else Panic;
  Coins_IsValid_sound cs : Coins_IsValid cs = true ->
    Forall (fun c => ValidateDenom (Denom c) = true ∧ 0 < Amount c) cs ∧ NoDup (Denom <$> cs);
  Coins_IsValid_single c :
    Coins_IsValid [c] = ValidateDenom (Denom c) && (0 <? Amount c);
  Coin_IsValid_spec c : Coin_IsValid c = ValidateDenom (Denom c) && (0 <=? Amount c);
  Coin_Add_effect a b c : Coin_Add a b = Ok c ->
    Denom a = Denom b ∧ c = mkCoin (Denom a) (Amount a + Amount b);
  Coin_Sub_effect a b c : Coin_Sub a b = Ok c ->
    Denom a = Denom b ∧ c = mkCoin (Denom a) (Amount a - Amount b) ∧ 0 <= Amount c;
  bech32_roundtrip a : acc_address_ok a -> AccAddressFromBech32 (AccAddress_String a) = Ok a;
  bech32_sound s a : AccAddressFromBech32 s = Ok a -> acc_address_ok a
}.

(** ** Hashes: crypto.AddressHash and tmhash.Sum of CometBFT *)
Class Hashes := {
  AddressHash : string -> string;
  tmhash_Sum : string -> string
}.

Class HashesLaws `{Hashes} : Prop := {
  AddressHash_address s : String.length (AddressHash s) = 20%nat;
  tmhash_Sum_nonempty s : tmhash_Sum s ≠ ""
}.

(** ** x/params: the validation pass of [Subspace.SetParamSet]

    Given the result of the validator of every parameter, [SetParamSet] panics
    at the first one that is an error. *)
Class ParamSubspace := { SetParamSet_check : list (outcome unit) -> outcome unit }.

Class ParamSubspaceLaws `{ParamSubspace} : Prop := {
  SetParamSet_all rs : Forall (fun r => r = Ok tt) rs -> SetParamSet_check rs = Ok tt;
  SetParamSet_sound rs : SetParamSet_check rs = Ok tt -> Forall (fun r => r = Ok tt) rs;
  SetParamSet_no_error rs e : SetParamSet_check rs ≠ Err e
}.

(** ** x/auth and x/bank, over the state [W] they keep *)
Class AccountKeeper (W : Type) := {
  GetAccount : W -> string -> option Account;
  GetSequence : W -> string -> outcome Z;
  (** module accounts are fixed when the application is built *)
  GetModuleAddress : string -> option string
}.

Class BankKeeper (W : Type) := {
  GetBalance : W -> string -> string -> Z;
  GetSupply : W -> string -> Z;
  GetAllBalances : W -> string -> list Coin;
  SpendableCoins : W -> string -> list Coin;
  BlockedAddr : string -> bool;
  SendCoins : string -> string -> list Coin -> M W unit;
  SendCoinsFromModuleToAccount : string -> string -> list Coin -> M W unit;
  SendCoinsFromAccountToModule : string -> string -> list Coin -> M W unit;
  SendCoinsFromModuleToModule : string -> string -> list Coin -> M W unit;
  MintCoins : string -> list Coin -> M W unit;
  BurnCoins : string -> list Coin -> M W unit
}.

(** What an account and the supply gain, as a function of address and
    denomination. *)
Definition gain (cs : list Coin) (who a d : string) : Z :=
  if String.eqb a who then amount_of cs d else 0.

Section bank_effects.
Context {W : Type} {AK : AccountKeeper W} {BK : BankKeeper W}.

(** [w'] is [w] with every balance changed by [δ] and every supply by [σ];
    accounts are not removed. *)
Record bank_delta (w w' : W) (δ : string -> string -> Z) (σ : string -> Z) : Prop := {
  delta_balance a d : GetBalance w' a d = GetBalance w a d + δ a d;
  delta_supply d : GetSupply w' d = GetSupply w d + σ d;
  delta_accounts a : is_Some (GetAccount w a) -> is_Some (GetAccount w' a)
}.

Definition δ_send (f t : string) (cs : list Coin) (a d : string) : Z :=
  gain cs t a d - gain cs f a d.
Definition δ_mint (m : string) (cs : list Coin) (a d : string) : Z := gain cs m a d.
Definition δ_burn (m : string) (cs : list Coin) (a d : string) : Z := - gain cs m a d.

End bank_effects.

Class BankLaws (W : Type) `{AccountKeeper W, BankKeeper W, SdkTypes} : Prop := {
  GetBalance_nonneg w a d : 0 <= GetBalance w a d;
  GetSupply_nonneg w d : 0 <= GetSupply w d;
  GetAllBalances_valid w a : Coins_IsValid (GetAllBalances w a) = true;
  GetAllBalances_spec w a d : ValidateDenom d = true ->
    amount_of (GetAllBalances w a) d = GetBalance w a d;
  SpendableCoins_valid w a : Coins_IsValid (SpendableCoins w a) = true;
  SpendableCoins_le w a d : amount_of (SpendableCoins w a) d <= GetBalance w a d;
  GetAccount_address w a acc : GetAccount w a = Some acc -> acc_address acc = a;

  SendCoins_effect f t cs w w' : SendCoins f t cs w = (Ok tt, w') ->
    bank_delta w w' (δ_send f t cs) (fun _ => 0) ∧
    (∀ d, amount_of cs d <= GetBalance w f d) ∧ is_Some (GetAccount w' t);
  SendCoins_valid f t cs w w' : SendCoins f t cs w = (Ok tt, w') -> Coins_IsValid cs = true;
  SendCoins_total f t cs w : Coins_IsValid cs = true ->
    (∀ d, amount_of cs d <= amount_of (SpendableCoins w f) d) ->
    ∃ w', SendCoins f t cs w = (Ok tt, w');

  ModuleToAccount_effect m t cs w w' :
    SendCoinsFromModuleToAccount m t cs w = (Ok tt, w') ->
    ∃ f, GetModuleAddress m = Some f ∧ BlockedAddr t = false ∧
         SendCoins f t cs w = (Ok tt, w');
  AccountToModule_effect f m cs w w' :
    SendCoinsFromAccountToModule f m cs w = (Ok tt, w') ->
    ∃ t, GetModuleAddress m = Some t ∧ SendCoins f t cs w = (Ok tt, w');
  ModuleToModule_effect m n cs w w' :
    SendCoinsFromModuleToModule m n cs w = (Ok tt, w') ->
    ∃ f t, GetModuleAddress m = Some f ∧ GetModuleAddress n = Some t ∧
           SendCoins f t cs w = (Ok tt, w');
  MintCoins_effect m cs w w' : MintCoins m cs w = (Ok tt, w') ->
    ∃ a, GetModuleAddress m = Some a ∧ Coins_IsValid cs = true ∧
         bank_delta w w' (δ_mint a cs) (amount_of cs);
  BurnCoins_effect m cs w w' : BurnCoins m cs w = (Ok tt, w') ->
    ∃ a, GetModuleAddress m = Some a ∧ Coins_IsValid cs = true ∧
         bank_delta w w' (δ_burn a cs) (fun d => - amount_of cs d) ∧
         (∀ d, amount_of cs d <= GetBalance w a d)
}.

(** ** The context of a keeper

    [W] is the state of the modules outside the repository, [K] the store of
    the module itself, [events] what the event manager has collected. *)
Record Chain (W K : Type) := mkChain { world : W; store : K; events : list Event }.
Arguments mkChain {W K} world store events.
Arguments world {W K} _.
Arguments store {W K} _.
Arguments events {W K} _.

(** The header fields of the block being executed; time in nanoseconds since
    the Unix epoch. *)
Record BlockCtx := mkBlockCtx { BlockTime : Z; BlockHeight : Z }.

Section chain_ops.
Context {W K : Type}.

Definition set_world (w : W) (c : Chain W K) : Chain W K := mkChain w (store c) (events c).
Definition set_store (k : K) (c : Chain W K) : Chain W K := mkChain (world c) k (events c).

(** A call of a keeper outside the repository. *)
Definition ext {A} (m : M W A) : M (Chain W K) A := zoom world set_world m.
Definition get_store {A} (f : K -> A) : M (Chain W K) A := gets (fun c => f (store c)).
Definition get_world {A} (f : W -> A) : M (Chain W K) A := gets (fun c => f (world c)).
Definition mod_store (f : K -> K) : M (Chain W K) unit :=
  modify (fun c => set_store (f (store c)) c).

(** [ctx.EventManager().EmitEvent(e)] *)
Definition emit (e : Event) : M (Chain W K) unit :=
  modify (fun c => mkChain (world c) (store c) (events c ++ [e])).

End chain_ops.

(** ** Lemmas *)

Lemma amount_of_app cs cs' d : amount_of (cs ++ cs') d = amount_of cs d + amount_of cs' d.
Proof. induction cs as [|c cs IH]; simpl; lia. Qed.

Lemma amount_of_single c d : amount_of [c] d = if String.eqb (Denom c) d then Amount c else 0.
Proof. simpl. lia. Qed.

Lemma amount_of_nonneg cs d : Forall (fun c => 0 <= Amount c) cs -> 0 <= amount_of cs d.
Proof. induction 1; simpl; [done|]. case_match; lia. Qed.

Lemma amount_of_perm cs cs' d : cs ≡ₚ cs' -> amount_of cs d = amount_of cs' d.
Proof. induction 1; simpl; lia. Qed.

Lemma amount_of_notin cs d : d ∉ (Denom <$> cs) -> amount_of cs d = 0.
Proof.
  induction cs as [|c cs IH]; simpl; [done|]. rewrite not_elem_of_cons. intros [Hne ?].
  rewrite IH by done. destruct (String.eqb_spec (Denom c) d); [by subst|lia].
Qed.

Section bank_lemmas.
Context {W : Type} `{BL : BankLaws W}.

Lemma bank_delta_refl w : bank_delta w w (fun _ _ => 0) (fun _ => 0).
Proof. split; intros; [lia|lia|done]. Qed.

Lemma bank_delta_trans w1 w2 w3 δ1 δ2 σ1 σ2 :
  bank_delta w1 w2 δ1 σ1 -> bank_delta w2 w3 δ2 σ2 ->
  bank_delta w1 w3 (fun a d => δ1 a d + δ2 a d) (fun d => σ1 d + σ2 d).
Proof.
  intros [B1 S1 A1] [B2 S2 A2]. split; intros.
  - rewrite B2, B1. lia.
  - rewrite S2, S1. lia.
  - by apply A2, A1.
Qed.

(** Changes are compared pointwise. *)
#[export] Instance bank_delta_proper (w w' : W) :
  Proper (pointwise_relation string (pointwise_relation string eq)
          ==> pointwise_relation string eq ==> iff) (bank_delta w w').
Proof.
  intros δ δ' Hδ σ σ' Hσ. split; intros [B S A]; split; eauto; intros.
  - by rewrite B, Hδ.
  - by rewrite S, Hσ.
  - by rewrite B, Hδ.
  - by rewrite S, Hσ.
Qed.

Lemma bank_delta_ext w w' δ δ' σ σ' :
  bank_delta w w' δ σ -> (∀ a d, δ a d = δ' a d) -> (∀ d, σ d = σ' d) ->
  bank_delta w w' δ' σ'.
Proof.
  intros HB Hδ Hσ. eapply bank_delta_proper; [| |exact HB].
  - intros a d. by rewrite Hδ.
  - intros d. by rewrite Hσ.
Qed.

Lemma gain_ext cs cs' who a d :
  (∀ d, amount_of cs d = amount_of cs' d) -> gain cs who a d = gain cs' who a d.
Proof. intros E. unfold gain. by rewrite E. Qed.

(** Sending what [NewCoins] made of a list. *)
Lemma send_NewCoins `{!SdkTypesLaws} f t cs cs' w w' :
  NewCoins cs = Ok cs' -> SendCoins f t cs' w = (Ok tt, w') ->
  bank_delta w w' (δ_send f t cs) (fun _ => 0) ∧ ∀ d, amount_of cs d <= GetBalance w f d.
Proof.
  intros [_ Hn]%NewCoins_effect (HB & Hle & _)%SendCoins_effect. split.
  - eapply bank_delta_ext; [exact HB| |done]. intros a d. unfold δ_send.
    by rewrite !(gain_ext cs' cs) by done.
  - intros d. rewrite <-Hn. apply Hle.
Qed.

Lemma mint_NewCoins `{!SdkTypesLaws} m cs cs' w w' :
  NewCoins cs = Ok cs' -> MintCoins m cs' w = (Ok tt, w') ->
  ∃ a, GetModuleAddress m = Some a ∧ bank_delta w w' (δ_mint a cs) (amount_of cs).
Proof.
  intros [_ Hn]%NewCoins_effect (a & Ha & _ & HB)%MintCoins_effect. exists a. split; [done|].
  eapply bank_delta_ext; [exact HB| |done]. intros ? d. by apply gain_ext.
Qed.

Lemma burn_NewCoins `{!SdkTypesLaws} m cs cs' w w' :
  NewCoins cs = Ok cs' -> BurnCoins m cs' w = (Ok tt, w') ->
  ∃ a, GetModuleAddress m = Some a ∧ bank_delta w w' (δ_burn a cs) (fun d => - amount_of cs d).
Proof.
  intros [_ Hn]%NewCoins_effect (a & Ha & _ & HB & _)%BurnCoins_effect. exists a. split; [done|].
  eapply bank_delta_ext; [exact HB| |intros d; cbn; by rewrite Hn].
  intros ? d. unfold δ_burn. f_equal. by apply gain_ext.
Qed.

Lemma NewCoin_Ok `{!SdkTypesLaws} d a c :
  NewCoin d a = Ok c -> c = mkCoin d a ∧ 0 <= a ∧ ValidateDenom d = true.
Proof. rewrite NewCoin_spec. case_match; [|done]. intros [= <-]. by breflect. Qed.

Lemma valid_nonneg `{!SdkTypesLaws} cs d : Coins_IsValid cs = true -> 0 <= amount_of cs d.
Proof.
  intros [Hf _]%Coins_IsValid_sound. apply amount_of_nonneg.
  eapply Forall_impl; [exact Hf|]. simpl. intros ? [? ?]. lia.
Qed.

End bank_lemmas.

(** [bank_inv] turns the successful bank calls of the context into
    [bank_delta] facts, [bank_chain] composes those along a run. *)
Ltac bank_inv :=
  repeat match goal with
  | H : SendCoinsFromModuleToAccount _ _ _ _ = (Ok tt, _) |- _ =>
      apply ModuleToAccount_effect in H as (? & ? & ? & H)
  | H : SendCoinsFromAccountToModule _ _ _ _ = (Ok tt, _) |- _ =>
      apply AccountToModule_effect in H as (? & ? & H)
  | H : SendCoinsFromModuleToModule _ _ _ _ = (Ok tt, _) |- _ =>
      apply ModuleToModule_effect in H as (? & ? & ? & ? & H)
  | HN : NewCoins _ = Ok ?cs, HS : SendCoins _ _ ?cs _ = (Ok tt, _) |- _ =>
      destruct (send_NewCoins _ _ _ _ _ _ HN HS); clear HS
  | HN : NewCoins _ = Ok ?cs, HM : MintCoins _ ?cs _ = (Ok tt, _) |- _ =>
      destruct (mint_NewCoins _ _ _ _ _ HN HM) as (? & ? & ?); clear HM
  | HN : NewCoins _ = Ok ?cs, HM : BurnCoins _ ?cs _ = (Ok tt, _) |- _ =>
      destruct (burn_NewCoins _ _ _ _ _ HN HM) as (? & ? & ?); clear HM
  end; simplify_eq.
Ltac bank_chain :=
  eapply bank_delta_ext;
  [repeat (first [eassumption | eapply bank_delta_trans; [eassumption|]]) | intros; cbn .. ].

Lemma ext_Ok {W K A} (m : M W A) a (c c' : Chain W K) :
  ext m c = (Ok a, c') -> ∃ w', m (world c) = (Ok a, w') ∧ c' = set_world w' c.
Proof. apply zoom_Ok. Qed.

Lemma get_store_Ok {W K A} (f : K -> A) a (c c' : Chain W K) :
  get_store f c = (Ok a, c') -> a = f (store c) ∧ c' = c.
Proof. intros H. by apply gets_Ok in H. Qed.

Lemma get_world_Ok {W K A} (f : W -> A) a (c c' : Chain W K) :
  get_world f c = (Ok a, c') -> a = f (world c) ∧ c' = c.
Proof. intros H. by apply gets_Ok in H. Qed.

Lemma mod_store_Ok {W K} (f : K -> K) u (c c' : Chain W K) :
  mod_store f c = (Ok u, c') -> c' = set_store (f (store c)) c.
Proof. intros H. by apply modify_Ok in H. Qed.

Lemma emit_Ok {W K} e u (c c' : Chain W K) :
  emit e c = (Ok u, c') -> c' = mkChain (world c) (store c) (events c ++ [e]).
Proof. intros H. by apply modify_Ok in H. Qed.

(** [cinv] extends [minv] with the operations on a [Chain]. *)
Ltac cinv1 :=
  match goal with
  | H : ext _ _ = (Ok _, _) |- _ =>
      let w := fresh "w" in let E := fresh "X" in
      apply ext_Ok in H as (w & E & ?); subst
  | H : get_store _ _ = (Ok _, _) |- _ => apply get_store_Ok in H as [? ?]; subst
  | H : get_world _ _ = (Ok _, _) |- _ => apply get_world_Ok in H as [? ?]; subst
  | H : mod_store _ _ = (Ok _, _) |- _ => apply mod_store_Ok in H; subst
  | H : emit _ _ = (Ok _, _) |- _ => apply emit_Ok in H; subst
  end.
Ltac cinv := repeat ((minv1 || cinv1); simpl in * ).

(** ** Computations that do not write to the module's own store

    [keeps_store m] holds whatever [m] ends in, so it also covers partial
    writes before an error. *)
Definition keeps_store {W K A} (m : M (Chain W K) A) : Prop := ∀ c, store (m c).2 = store c.

Section keeps_store.
Context {W K : Type}.

Lemma keeps_ret {A} (a : A) : keeps_store (W:=W) (K:=K) (ret a).
Proof. done. Qed.
Lemma keeps_fail {A} e : keeps_store (W:=W) (K:=K) (A:=A) (fail e).
Proof. done. Qed.
Lemma keeps_panic {A} : keeps_store (W:=W) (K:=K) (A:=A) panic.
Proof. done. Qed.
Lemma keeps_lift {A} (o : outcome A) : keeps_store (W:=W) (K:=K) (lift o).
Proof. done. Qed.
Lemma keeps_reject b e : keeps_store (W:=W) (K:=K) (reject b e).
Proof. intros c. by destruct b. Qed.
Lemma keeps_gets {A} (f : Chain W K -> A) : keeps_store (gets f).
Proof. done. Qed.
Lemma keeps_get_store {A} (f : K -> A) : keeps_store (W:=W) (get_store f).
Proof. done. Qed.
Lemma keeps_get_world {A} (f : W -> A) : keeps_store (K:=K) (get_world f).
Proof. done. Qed.
Lemma keeps_emit e : keeps_store (W:=W) (K:=K) (emit e).
Proof. done. Qed.
Lemma keeps_ext {A} (m : M W A) : keeps_store (K:=K) (ext m).
Proof. intros c. unfold ext, zoom. by destruct (m (world c)). Qed.
Lemma keeps_bind {A B} (m : M (Chain W K) A) (k : A -> M (Chain W K) B) :
  keeps_store m -> (∀ a, keeps_store (k a)) -> keeps_store (bind m k).
Proof.
  intros Hm Hk c. specialize (Hm c). unfold bind. destruct (m c) as [[a|e|] c1]; [|done|done].
  rewrite Hk. exact Hm.
Qed.
Lemma keeps_attempt {A} (m : M (Chain W K) A) : keeps_store m -> keeps_store (attempt m).
Proof. intros Hm c. specialize (Hm c). unfold attempt. by destruct (m c) as [[a|e|] c1]. Qed.
Lemma keeps_cached {A} (m : M (Chain W K) A) : keeps_store m -> keeps_store (cached m).
Proof. intros Hm c. specialize (Hm c). unfold cached. by destruct (m c) as [[a|e|] c1]. Qed.
Lemma keeps_for_each {A} (l : list A) (f : A -> M (Chain W K) unit) :
  (∀ x, keeps_store (f x)) -> keeps_store (for_each l f).
Proof. intros Hf. induction l as [|x l IH]; [done|]. by apply keeps_bind. Qed.

Lemma keeps_store_run {A} (m : M (Chain W K) A) r c c' : keeps_store m -> m c = (r, c') -> store c' = store c.
Proof. intros Hm E. specialize (Hm c). by rewrite E in Hm. Qed.

End keeps_store.

Lemma readonly_get_store {W K A} (f : K -> A) : readonly (S:=Chain W K) (get_store f).
Proof. done. Qed.
Lemma readonly_get_world {W K A} (f : W -> A) : readonly (S:=Chain W K) (get_world f).
Proof. done. Qed.

#[export] Hint Resolve readonly_get_store readonly_get_world : chain.
#[export] Hint Resolve keeps_ret keeps_fail keeps_panic keeps_lift keeps_reject keeps_gets
  keeps_get_store keeps_get_world keeps_emit keeps_ext : chain.

(** Proving [keeps_store] of a composed computation. *)
Ltac keeps :=
  repeat first
  [ solve [eauto with chain]
  | apply keeps_bind; [|intros]
  | apply keeps_attempt
  | apply keeps_cached
  | apply keeps_for_each; intros
  | match goal with
    | |- keeps_store (match ?x with _ => _ end) => destruct x
    end ].

Section math_lemmas.
Context `{SML : SdkMathLaws}.

Lemma checked_int_Ok z v : checked_int z = Ok v -> v = z.
Proof. unfold checked_int. case_match; naive_solver. Qed.

Lemma checked_int_fits z : Z.abs z < 2 ^ 256 -> checked_int z = Ok z.
Proof. unfold checked_int, int_fits. intros ?%Z.ltb_lt. by case_match. Qed.

Lemma int_Add_Ok a b v : int_Add a b = Ok v -> v = a + b.
Proof. rewrite int_Add_spec. apply checked_int_Ok. Qed.
Lemma int_Sub_Ok a b v : int_Sub a b = Ok v -> v = a - b.
Proof. rewrite int_Sub_spec. apply checked_int_Ok. Qed.
Lemma int_Mul_Ok a b v : int_Mul a b = Ok v -> v = a * b.
Proof. rewrite int_Mul_spec. apply checked_int_Ok. Qed.
Lemma int_Quo_Ok a b v : int_Quo a b = Ok v -> b ≠ 0 ∧ v = Z.quot a b.
Proof.
  destruct (decide (b = 0)) as [->|Hb]; [by rewrite int_Quo_zero|].
  rewrite int_Quo_spec by done. naive_solver.
Qed.

(** Rounding is exact on multiples of the unit. *)
Lemma bankers_exact n : bankers (n * dec_unit) = n.
Proof.
  unfold bankers. rewrite Z.abs_mul, (Z.abs_eq dec_unit), Z.sgn_mul by (unfold dec_unit; lia).
  rewrite Z.div_mul, Z_mod_mult by (unfold dec_unit; lia).
  change (Z.sgn dec_unit) with 1. change (2 * 0 <? dec_unit) with true. cbn -[Z.mul].
  rewrite Z.mul_1_r, Z.mul_comm. apply Z.abs_sgn.
Qed.

Lemma bankers_nonneg n : 0 <= n -> 0 <= bankers n.
Proof.
  intros. unfold bankers. pose proof (Z.sgn_nonneg n).
  assert (0 <= Z.abs n / dec_unit) by (apply Z.div_pos; unfold dec_unit; lia).
  apply Z.mul_nonneg_nonneg; [lia|]. repeat case_match; lia.
Qed.

(** Rounding errs by at most half a unit. *)
Lemma bankers_bound n : 0 <= n ->
  2 * n - dec_unit <= 2 * dec_unit * bankers n <= 2 * n + dec_unit.
Proof.
  intros Hn. unfold bankers. rewrite (Z.abs_eq n) by done.
  destruct (decide (n = 0)) as [->|Hne]; [unfold dec_unit; cbn; lia|].
  rewrite Z.sgn_pos, Z.mul_1_l by lia.
  pose proof (Z.div_mod n dec_unit ltac:(unfold dec_unit; lia)).
  pose proof (Z.mod_pos_bound n dec_unit ltac:(unfold dec_unit; lia)).
  repeat case_match; breflect; lia.
Qed.

End math_lemmas.

(** Rewriting the results of successful arithmetic. *)
Ltac arith_inv :=
  repeat match goal with
  | H : int_Add _ _ = Ok _ |- _ => apply int_Add_Ok in H; subst
  | H : int_Sub _ _ = Ok _ |- _ => apply int_Sub_Ok in H; subst
  | H : int_Mul _ _ = Ok _ |- _ => apply int_Mul_Ok in H; subst
  | H : int_Quo _ _ = Ok _ |- _ => apply int_Quo_Ok in H as [? ?]; subst
  | H : dec_Add _ _ = Ok _ |- _ => apply dec_Add_Ok in H; subst
  | H : dec_Sub _ _ = Ok _ |- _ => apply dec_Sub_Ok in H; subst
  | H : dec_Mul _ _ = Ok _ |- _ => apply dec_Mul_Ok in H; subst
  | H : dec_Quo _ _ = Ok _ |- _ => apply dec_Quo_Ok in H as [? ?]; subst
  | H : dec_FromInt _ = Ok _ |- _ => apply dec_FromInt_Ok in H; subst
  | H : dec_TruncateInt _ = Ok _ |- _ => apply dec_TruncateInt_Ok in H; subst
  end.
