(* ===== verification/Reference.v ===== *)
(** * An executable instance of the interfaces of [Sdk.v]

    Small models of the packages outside the repository, with the laws of
    [Sdk.v] proved for them.  They show that the laws can hold together and
    give the witnesses something to run; no theorem about the modules depends
    on them. *)

From Stdlib Require Import Ascii.
From stdpp Require Import base gmap strings list sorting.
From S2P Require Import Prelude Golang Sdk.

#[local] Open Scope Z_scope.
#[local] Open Scope go_scope.

(** ** Arithmetic *)

Definition checked_dec (z : Z) : outcome Z := if Z.abs z <? 2 ^ 315 then Ok z else Panic.
Definition ref_mul (a b : Z) : outcome Z := checked_dec (bankers (a * b)).

Fixpoint ref_power_loop (fuel : nat) (i d tmp : Z) : outcome Z :=
  if i <=? 1 then ref_mul d tmp
  else match fuel with
       | O => Panic
       | S fuel =>
           let? tmp' := (if Z.odd i then ref_mul tmp d else Ok tmp) in
           let? d' := ref_mul d d in
           ref_power_loop fuel (i / 2) d' tmp'
       end.

#[export] Instance ref_math : SdkMath := {
  int_Add a b := checked_int (a + b);
  int_Sub a b := checked_int (a - b);
  int_Mul a b := checked_int (a * b);
  int_Quo a b := if b =? 0 then Panic else Ok (Z.quot a b);
  dec_Add a b := checked_dec (a + b);
  dec_Sub a b := checked_dec (a - b);
  dec_Mul := ref_mul;
  dec_Quo a b := if b =? 0 then Panic
                 else checked_dec (bankers (Z.quot (a * dec_unit * dec_unit) b));
  dec_QuoInt a b := if b =? 0 then Panic else Ok (Z.quot a b);
  dec_Power a n := if n =? 0 then Ok dec_unit else ref_power_loop 64 n a dec_unit;
  dec_FromInt a := Ok (a * dec_unit);
  dec_TruncateInt a := Ok (Z.quot a dec_unit);
  dec_String := Decimal
}.

(** ** Types *)

Definition is_letter (c : ascii) : bool :=
  let x := N_of_ascii c in ((65 <=? x) && (x <=? 90) || (97 <=? x) && (x <=? 122))%N.
Definition is_denom_char (c : ascii) : bool :=
  is_letter c || is_digit c ||
  bool_decide (c ∈ ["/"; ":"; "."; "_"; "-"]%char).
Definition ref_validate_denom (d : string) : bool :=
  match String.list_ascii_of_string d with
  | c :: l => is_letter c && forallb is_denom_char l && (2 <=? length l)%nat && (length l <=? 127)%nat
  | [] => false
  end.

Definition coin_le (a b : Coin) : Prop := String.le (Denom a) (Denom b).
#[export] Instance coin_le_dec : RelDecision coin_le.
Proof. intros a b. unfold coin_le. apply _. Defined.

Fixpoint sortedb (cs : list Coin) : bool :=
  match cs with
  | a :: (b :: _) as l => bool_decide (coin_le a b) && sortedb l
  | _ => true
  end.

Definition ref_is_valid (cs : list Coin) : bool :=
  forallb (fun c => ref_validate_denom (Denom c) && (0 <? Amount c)) cs
  && bool_decide (NoDup (Denom <$> cs)) && sortedb cs.

Definition ref_new_coins (cs : list Coin) : outcome (list Coin) :=
  let cs' := merge_sort coin_le (filter (fun c => Amount c ≠ 0) cs) in
  if ref_is_valid cs' then Ok cs' else Panic.

Definition ref_from_bech32 (s : string) : outcome string :=
  let a := drop_bytes 4 s in
  if HasPrefix s "tuc1" && negb (String.eqb a "") && (String.length a <=? 255)%nat
  then Ok a else Err (Plain "invalid address").

#[export] Instance ref_types : SdkTypes := {
  DefaultBondDenom := "stake";
  ValidateDenom := ref_validate_denom;
  NewCoin d a := if ref_validate_denom d && (0 <=? a) then Ok (mkCoin d a) else Panic;
  NewCoins := ref_new_coins;
  Coins_AmountOf cs d := if ref_validate_denom d then Ok (amount_of cs d) else Panic;
  Coins_IsValid := ref_is_valid;
  Coin_IsValid c := ref_validate_denom (Denom c) && (0 <=? Amount c);
  Coin_Add a b := if String.eqb (Denom a) (Denom b)
                  then Ok (mkCoin (Denom a) (Amount a + Amount b)) else Panic;
  Coin_Sub a b := if String.eqb (Denom a) (Denom b) && (0 <=? Amount a - Amount b)
                  then Ok (mkCoin (Denom a) (Amount a - Amount b)) else Panic;
  AccAddressFromBech32 := ref_from_bech32;
  AccAddress_String a := "tuc1" +:+ a
}.

#[export] Instance ref_hashes : Hashes := {
  AddressHash s := take_bytes 20 (s +:+ "....................");
  tmhash_Sum s := "#" +:+ s
}.

Fixpoint ref_params_check (rs : list (outcome unit)) : outcome unit :=
  match rs with
  | [] => Ok tt
  | Ok _ :: rs' => ref_params_check rs'
  | _ :: _ => Panic
  end.
#[export] Instance ref_params : ParamSubspace := { SetParamSet_check := ref_params_check }.

(** ** Accounts and bank *)

Record RefWorld := mkRefWorld {
  rw_bal : gmap (string * string) N;
  rw_supply : gmap string N;
  rw_accounts : gmap string bool
}.

Definition ref_module_address (m : string) : option string := Some ("module:" +:+ m).

#[export] Instance ref_accounts : AccountKeeper RefWorld := {
  GetAccount w a := mkAccount a <$> rw_accounts w !! a;
  GetSequence w a := if rw_accounts w !! a is Some _ then Ok 0 else Err (Foreign "ErrUnknownAddress");
  GetModuleAddress := ref_module_address
}.

Definition ref_balance (w : RefWorld) (a d : string) : Z :=
  Z.of_N (default 0%N (rw_bal w !! (a, d))).
Definition ref_supply (w : RefWorld) (d : string) : Z :=
  Z.of_N (default 0%N (rw_supply w !! d)).

Definition balance_entry (a : string) (e : string * string * N) : option Coin :=
  let '((a', d), n) := e in
  if String.eqb a' a && ref_validate_denom d && negb (n =? 0)%N
  then Some (mkCoin d (Z.of_N n)) else None.
Definition ref_all_balances (w : RefWorld) (a : string) : list Coin :=
  merge_sort coin_le (omap (balance_entry a) (map_to_list (rw_bal w))).

(** Adding a (possibly negative) amount to one balance, or to a supply. *)
Definition bump_balance (a d : string) (z : Z) (w : RefWorld) : RefWorld :=
  mkRefWorld (<[(a, d) := Z.to_N (ref_balance w a d + z)]> (rw_bal w)) (rw_supply w) (rw_accounts w).
Definition bump_supply (d : string) (z : Z) (w : RefWorld) : RefWorld :=
  mkRefWorld (rw_bal w) (<[d := Z.to_N (ref_supply w d + z)]> (rw_supply w)) (rw_accounts w).
Definition touch_account (a : string) (w : RefWorld) : RefWorld :=
  mkRefWorld (rw_bal w) (rw_supply w)
    (<[a := default false (rw_accounts w !! a)]> (rw_accounts w)).

Definition add_coins (s : Z) (a : string) (cs : list Coin) (w : RefWorld) : RefWorld :=
  foldr (fun c => bump_balance a (Denom c) (s * Amount c)) w cs.
Definition add_supply (s : Z) (cs : list Coin) (w : RefWorld) : RefWorld :=
  foldr (fun c => bump_supply (Denom c) (s * Amount c)) w cs.

Definition covered (w : RefWorld) (a : string) (cs : list Coin) : bool :=
  forallb (fun c => amount_of cs (Denom c) <=? ref_balance w a (Denom c)) cs.

Definition ref_send (f t : string) (cs : list Coin) : M RefWorld unit := fun w =>
  if negb (ref_is_valid cs) then (Err (Foreign "ErrInvalidCoins"), w)
  else if negb (covered w f cs) then (Err (Foreign "ErrInsufficientFunds"), w)
  else (Ok tt, touch_account t (add_coins 1 t cs (add_coins (-1) f cs w))).

Definition with_module {A} (m : string) (k : string -> M RefWorld A) : M RefWorld A :=
  match ref_module_address m with Some a => k a | None => panic end.

Definition ref_mint (m : string) (cs : list Coin) : M RefWorld unit := with_module m (fun a w =>
  if negb (ref_is_valid cs) then (Err (Foreign "ErrInvalidCoins"), w)
  else (Ok tt, add_supply 1 cs (add_coins 1 a cs w))).

Definition supply_covered (w : RefWorld) (cs : list Coin) : bool :=
  forallb (fun c => amount_of cs (Denom c) <=? ref_supply w (Denom c)) cs.

Definition ref_burn (m : string) (cs : list Coin) : M RefWorld unit := with_module m (fun a w =>
  if negb (ref_is_valid cs) then (Err (Foreign "ErrInvalidCoins"), w)
  else if negb (covered w a cs && supply_covered w cs)
  then (Err (Foreign "ErrInsufficientFunds"), w)
  else (Ok tt, add_supply (-1) cs (add_coins (-1) a cs w))).

Definition ref_blocked (a : string) : bool := HasPrefix a "module:".

#[export] Instance ref_bank : BankKeeper RefWorld := {
  GetBalance := ref_balance;
  GetSupply := ref_supply;
  GetAllBalances := ref_all_balances;
  SpendableCoins := ref_all_balances;
  BlockedAddr := ref_blocked;
  SendCoins := ref_send;
  SendCoinsFromModuleToAccount m t cs := with_module m (fun f =>
    if ref_blocked t then fail (Foreign "ErrUnauthorized") else ref_send f t cs);
  SendCoinsFromAccountToModule f m cs := with_module m (fun t => ref_send f t cs);
  SendCoinsFromModuleToModule m n cs :=
    with_module m (fun f => with_module n (fun t => ref_send f t cs));
  MintCoins := ref_mint;
  BurnCoins := ref_burn
}.

(** ** The laws *)

Lemma checked_dec_fits z : dec_fits z -> checked_dec z = Ok z.
Proof. unfold dec_fits, checked_dec. intros ?%Z.ltb_lt. by case_match. Qed.

Lemma unit_fits z : 0 <= z <= dec_unit -> dec_fits z.
Proof. unfold dec_fits, dec_unit. lia. Qed.

Lemma bankers_unit a b :
  0 <= a <= dec_unit -> 0 <= b <= dec_unit -> 0 <= bankers (a * b) <= dec_unit.
Proof.
  intros. split; [apply bankers_nonneg; nia|].
  pose proof (bankers_bound (a * b) ltac:(nia)).
  assert (a * b <= dec_unit * dec_unit) by nia. unfold dec_unit in *. lia.
Qed.

Lemma ref_mul_unit a b :
  0 <= a <= dec_unit -> 0 <= b <= dec_unit ->
  ∃ r, ref_mul a b = Ok r ∧ 0 <= r <= dec_unit.
Proof.
  intros. exists (bankers (a * b)). split; [|by apply bankers_unit].
  apply checked_dec_fits, unit_fits. by apply bankers_unit.
Qed.

Lemma ref_power_loop_unit fuel i d tmp :
  0 <= d <= dec_unit -> 0 <= tmp <= dec_unit -> i < 2 ^ (Z.of_nat fuel + 1) ->
  ∃ r, ref_power_loop fuel i d tmp = Ok r ∧ 0 <= r <= dec_unit.
Proof.
  revert i d tmp. induction fuel as [|fuel IH]; intros i d tmp Hd Ht Hi; cbn [ref_power_loop].
  - destruct (Z.leb_spec i 1); [by apply ref_mul_unit|]. change (2 ^ (Z.of_nat 0 + 1)) with 2 in Hi. lia.
  - destruct (Z.leb_spec i 1); [by apply ref_mul_unit|].
    assert (∃ t, (if Z.odd i then ref_mul tmp d else Ok tmp) = Ok t ∧ 0 <= t <= dec_unit)
      as (t & -> & Ht'). { case_match; [by apply ref_mul_unit|eauto]. }
    destruct (ref_mul_unit d d Hd Hd) as (d' & -> & Hd'). cbn [obind].
    apply IH; [done|done|]. apply Z.div_lt_upper_bound; [lia|].
    replace (Z.of_nat (S fuel) + 1) with (Z.of_nat fuel + 1 + 1) in Hi by lia.
    rewrite Z.pow_add_r in Hi by lia. lia.
Qed.

Lemma checked_dec_Ok z r : checked_dec z = Ok r -> r = z.
Proof. unfold checked_dec. case_match; [|done]. by intros [= <-]. Qed.

#[export] Instance ref_math_laws : SdkMathLaws.
Proof.
  split; cbn -[Z.pow dec_unit bankers Z.quot ref_power_loop]; intros; try done;
    try (by apply checked_dec_fits); try (by apply checked_dec_Ok); try congruence.
  - by rewrite (proj2 (Z.eqb_neq b 0)).
  - rewrite (proj2 (Z.eqb_neq b 0)) by done. by apply checked_dec_fits.
  - destruct (Z.eqb_spec b 0); [done|]. split; [done|]. by apply checked_dec_Ok.
  - by rewrite (proj2 (Z.eqb_neq b 0)).
  - unfold ref_power_loop. cbn -[dec_unit bankers]. unfold ref_mul.
    rewrite bankers_exact. by apply checked_dec_fits.
  - destruct (Z.eqb_spec n 0); [exists dec_unit; unfold dec_unit; split; [done|lia]|].
    apply ref_power_loop_unit; [done|unfold dec_unit; lia|].
    match goal with Hn : is_uint64 n |- _ => destruct Hn end.
    change (Z.of_nat 64 + 1) with 65. lia.
Qed.

(** *** Coins *)

Lemma sortedb_Sorted cs : Sorted coin_le cs -> sortedb cs = true.
Proof.
  induction 1 as [|c cs Hs IH Hh]; [done|]. destruct cs as [|c' cs]; [done|].
  inversion Hh; subst. change (bool_decide (coin_le c c') && sortedb (c' :: cs) = true).
  by rewrite bool_decide_true, IH.
Qed.

#[export] Instance coin_le_total : Total coin_le.
Proof. intros a b. apply String.le_total. Qed.

Lemma filter_nonzero_amount cs d :
  amount_of (filter (fun c => Amount c ≠ 0) cs) d = amount_of cs d.
Proof.
  induction cs as [|c cs IH]; [done|]. rewrite filter_cons. case_decide as E; simpl; rewrite IH; [done|].
  case_match; lia.
Qed.

Lemma new_coins_perm cs :
  merge_sort coin_le (filter (fun c => Amount c ≠ 0) cs) ≡ₚ filter (fun c => Amount c ≠ 0) cs.
Proof. apply merge_sort_Permutation. Qed.

Lemma ref_is_valid_iff cs :
  ref_is_valid cs = true <->
  Forall (fun c => ref_validate_denom (Denom c) = true ∧ 0 < Amount c) cs ∧
  NoDup (Denom <$> cs) ∧ sortedb cs = true.
Proof.
  unfold ref_is_valid. rewrite !andb_true_iff, bool_decide_eq_true, forallb_forall, Forall_forall.
  setoid_rewrite list_elem_of_In. setoid_rewrite andb_true_iff. setoid_rewrite Z.ltb_lt. tauto.
Qed.

Lemma sorted_coins_valid cs :
  Forall (fun c => ref_validate_denom (Denom c) = true ∧ 0 < Amount c) cs ->
  NoDup (Denom <$> cs) -> ref_is_valid (merge_sort coin_le cs) = true.
Proof.
  intros Hf Hn. apply ref_is_valid_iff.
  pose proof (merge_sort_Permutation coin_le cs) as Hp. split_and!.
  - by rewrite Hp.
  - by rewrite Hp.
  - apply sortedb_Sorted, Sorted_merge_sort; apply _.
Qed.

Lemma ref_bech32_roundtrip a : acc_address_ok a -> ref_from_bech32 ("tuc1" +:+ a) = Ok a.
Proof.
  intros [Ha Hl]. unfold ref_from_bech32.
  change (drop_bytes 4 ("tuc1" +:+ a)) with a.
  unfold HasPrefix. rewrite prefix_app, (proj2 (String.eqb_neq _ _)) by done.
  apply Nat.leb_le in Hl. rewrite Hl. done.
Qed.

Lemma ref_bech32_sound s a : ref_from_bech32 s = Ok a -> acc_address_ok a.
Proof.
  unfold ref_from_bech32. generalize (drop_bytes 4 s) as b. intros b. cbv zeta.
  case_match eqn:E; [|done]. intros [= ->].
  apply andb_true_iff in E as [[_ E1]%andb_true_iff E2]. split.
  - by intros ->.
  - by apply Nat.leb_le.
Qed.

#[export] Instance ref_types_laws : SdkTypesLaws.
Proof.
  split; cbn -[merge_sort ref_validate_denom ref_is_valid ref_from_bech32].
  - done.
  - intros cs cs'. unfold ref_new_coins. case_match; [|done]. intros ?; simplify_eq. split; [done|].
    intros d. rewrite (amount_of_perm _ _ _ (new_coins_perm cs)). apply filter_nonzero_amount.
  - intros cs Hf Hn. unfold ref_new_coins. rewrite sorted_coins_valid; [eauto| |].
    + apply Forall_forall. intros c [Hz Hc]%list_elem_of_filter.
      rewrite Forall_forall in Hf. destruct (Hf _ Hc). split; [done|lia].
    + eapply sublist_NoDup; [exact Hn|]. apply fmap_sublist, sublist_filter.
  - done.
  - intros cs (?&?&?)%ref_is_valid_iff. done.
  - intros c. apply eq_true_iff_eq. rewrite ref_is_valid_iff, andb_true_iff, Forall_singleton, Z.ltb_lt.
    split; [naive_solver|]. intros [? ?]. split_and!; [done|done|apply NoDup_singleton|done].
  - done.
  - intros a b c. case_match; [|done]. intros; simplify_eq. by breflect.
  - intros a b c. case_match; [|done]. intros; simplify_eq. breflect. done.
  - apply ref_bech32_roundtrip.
  - apply ref_bech32_sound.
Qed.

(** *** Hashes and parameters *)

#[export] Instance ref_hashes_laws : HashesLaws.
Proof.
  split; [|done]. intros s. apply take_bytes_length. rewrite append_length. cbn [String.length]. lia.
Qed.

#[export] Instance ref_params_laws : ParamSubspaceLaws.
Proof.
  split; cbn; intros rs.
  - induction 1 as [|r rs -> _ IH]; done.
  - induction rs as [|[[]|e|] rs IH]; cbn; try done. intros. constructor; [done|by apply IH].
  - intros e. induction rs as [|[[]|e'|] rs IH]; cbn; done.
Qed.

(** *** The bank *)

Lemma bump_balance_spec a d z w a' d' :
  0 <= ref_balance w a d + z ->
  ref_balance (bump_balance a d z w) a' d'
  = ref_balance w a' d' + (if String.eqb a' a && String.eqb d d' then z else 0).
Proof.
  intros Hz. unfold ref_balance at 1, bump_balance. cbn [rw_bal].
  destruct (String.eqb_spec a' a) as [->|Ha]; [destruct (String.eqb_spec d d') as [<-|Hd]|];
    cbn [andb].
  - rewrite lookup_insert_eq. cbn. lia.
  - rewrite lookup_insert_ne by congruence. unfold ref_balance. lia.
  - rewrite lookup_insert_ne by congruence. unfold ref_balance. lia.
Qed.

Lemma bump_supply_spec d z w d' :
  0 <= ref_supply w d + z ->
  ref_supply (bump_supply d z w) d' = ref_supply w d' + (if String.eqb d d' then z else 0).
Proof.
  intros Hz. unfold ref_supply at 1, bump_supply. cbn [rw_supply].
  destruct (String.eqb_spec d d') as [<-|Hd].
  - rewrite lookup_insert_eq. cbn. lia.
  - rewrite lookup_insert_ne by congruence. unfold ref_supply. lia.
Qed.

Lemma ref_balance_nonneg w a d : 0 <= ref_balance w a d.
Proof. unfold ref_balance. lia. Qed.
Lemma ref_supply_nonneg w d : 0 <= ref_supply w d.
Proof. unfold ref_supply. lia. Qed.

(** Adding or removing coins that are positive, distinct and covered. *)
Lemma add_coins_spec s a cs w a' d' :
  Forall (fun c => 0 < Amount c) cs ->
  (∀ d, 0 <= ref_balance w a d + s * amount_of cs d) ->
  -1 <= s <= 1 ->
  ref_balance (add_coins s a cs w) a' d'
  = ref_balance w a' d' + (if String.eqb a' a then s * amount_of cs d' else 0).
Proof.
  intros Hf Hc Hs. revert a' d'. induction Hf as [|c cs Hp Hf IH]; intros a' d'; cbn.
  - case_match; lia.
  - assert (∀ a' d', ref_balance (add_coins s a cs w) a' d' =
      ref_balance w a' d' + (if String.eqb a' a then s * amount_of cs d' else 0)) as IH'.
    { apply IH. intros d. specialize (Hc d). cbn in Hc. pose proof (ref_balance_nonneg w a d).
      assert (0 <= amount_of cs d) by (apply amount_of_nonneg; eapply Forall_impl; [exact Hf|]; cbn; lia).
      case_match; nia. }
    rewrite bump_balance_spec.
    + rewrite IH'. repeat case_match; cbn; lia.
    + rewrite IH', String.eqb_refl. specialize (Hc (Denom c)). cbn in Hc.
      rewrite String.eqb_refl in Hc. lia.
Qed.

Lemma add_coins_supply s a cs w d : ref_supply (add_coins s a cs w) d = ref_supply w d.
Proof. induction cs; done. Qed.
Lemma add_coins_accounts s a cs w : rw_accounts (add_coins s a cs w) = rw_accounts w.
Proof. induction cs; done. Qed.
Lemma add_supply_balance s cs w a d : ref_balance (add_supply s cs w) a d = ref_balance w a d.
Proof. induction cs; done. Qed.
Lemma add_supply_accounts s cs w : rw_accounts (add_supply s cs w) = rw_accounts w.
Proof. induction cs; done. Qed.

Lemma add_supply_spec s cs w d' :
  Forall (fun c => 0 < Amount c) cs ->
  (∀ d, 0 <= ref_supply w d + s * amount_of cs d) -> -1 <= s <= 1 ->
  ref_supply (add_supply s cs w) d' = ref_supply w d' + s * amount_of cs d'.
Proof.
  intros Hf Hc Hs. revert d'. induction Hf as [|c cs Hp Hf IH]; intros d'; cbn; [lia|].
  assert (∀ d', ref_supply (add_supply s cs w) d' = ref_supply w d' + s * amount_of cs d') as IH'.
  { apply IH. intros d. specialize (Hc d). cbn in Hc. pose proof (ref_supply_nonneg w d).
    assert (0 <= amount_of cs d) by (apply amount_of_nonneg; eapply Forall_impl; [exact Hf|]; cbn; lia).
    case_match; nia. }
  rewrite bump_supply_spec.
  - rewrite IH'. case_match; lia.
  - rewrite IH'. specialize (Hc (Denom c)). cbn in Hc. rewrite String.eqb_refl in Hc. lia.
Qed.

Lemma valid_positive cs : ref_is_valid cs = true -> Forall (fun c => 0 < Amount c) cs.
Proof. intros (Hf&_)%ref_is_valid_iff. eapply Forall_impl; [exact Hf|]. naive_solver. Qed.

Lemma covered_spec w a cs d : covered w a cs = true -> amount_of cs d <= ref_balance w a d.
Proof.
  unfold covered. rewrite forallb_forall. intros Hc.
  destruct (decide (d ∈ Denom <$> cs)) as [(c&->&Hin)%list_elem_of_fmap|Hn].
  - apply Z.leb_le, Hc. by apply list_elem_of_In.
  - rewrite amount_of_notin by done. apply ref_balance_nonneg.
Qed.

Lemma supply_covered_spec w cs d : supply_covered w cs = true -> amount_of cs d <= ref_supply w d.
Proof.
  unfold supply_covered. rewrite forallb_forall. intros Hc.
  destruct (decide (d ∈ Denom <$> cs)) as [(c&->&Hin)%list_elem_of_fmap|Hn].
  - apply Z.leb_le, Hc. by apply list_elem_of_In.
  - rewrite amount_of_notin by done. apply ref_supply_nonneg.
Qed.

(** The coins listed for an account are its non-zero valid balances. *)
Lemma balance_entry_spec a e c : balance_entry a e = Some c ->
  e = ((a, Denom c), Z.to_N (Amount c)) ∧ 0 < Amount c ∧ ref_validate_denom (Denom c) = true.
Proof.
  destruct e as [[a' d] n]. unfold balance_entry. case_match eqn:E; [|done].
  intros [= <-]. cbn. breflect. apply N.eqb_neq in H0. subst.
  split_and!; [|lia|done]. by rewrite N2Z.id.
Qed.

Lemma omap_entry_denoms a (l : list (string * string * N)) d :
  d ∈ Denom <$> omap (balance_entry a) l -> (a, d) ∈ l.*1.
Proof.
  rewrite list_elem_of_fmap. intros (c & -> & (e & He & Hc)%list_elem_of_omap).
  apply balance_entry_spec in Hc as (-> & _ & _).
  apply list_elem_of_fmap. exists (a, Denom c, Z.to_N (Amount c)). done.
Qed.

Lemma omap_entry_NoDup a (l : list (string * string * N)) :
  NoDup l.*1 -> NoDup (Denom <$> omap (balance_entry a) l).
Proof.
  induction l as [|e l IH]; intros Hn; [apply NoDup_nil_2|].
  apply NoDup_cons in Hn as [Hin Hn]. cbn. destruct (balance_entry a e) as [c|] eqn:E; [|by apply IH].
  cbn. apply NoDup_cons. split; [|by apply IH]. intros Hd%omap_entry_denoms.
  apply balance_entry_spec in E as (-> & _ & _). done.
Qed.

Lemma ref_all_balances_valid w a : ref_is_valid (ref_all_balances w a) = true.
Proof.
  apply sorted_coins_valid.
  - apply Forall_forall. intros c (e & _ & Hc)%list_elem_of_omap.
    by apply balance_entry_spec in Hc as (_ & ? & ?).
  - apply omap_entry_NoDup, NoDup_fst_map_to_list.
Qed.

Lemma omap_entry_amount a (l : list (string * string * N)) d :
  NoDup l.*1 -> ref_validate_denom d = true ->
  amount_of (omap (balance_entry a) l) d
  = Z.of_N (default 0%N ((list_to_map l : gmap (string * string) N) !! (a, d))).
Proof.
  intros Hn Hd. induction l as [|[[a' d'] n] l IH]; [done|].
  apply NoDup_cons in Hn as [Hin Hn]. specialize (IH Hn). cbn [omap list_omap list_to_map fold_right fst snd].
  change (fold_right _ _ l) with (list_to_map l : gmap (string * string) N).
  destruct (decide ((a', d') = (a, d))) as [[= -> ->]|Hne].
  - rewrite lookup_insert_eq. cbn [from_option id]. unfold balance_entry at 1.
    rewrite String.eqb_refl, Hd. rewrite (not_elem_of_list_to_map_1 l) in IH by done.
    cbn in IH. destruct (N.eqb_spec n 0) as [->|]; cbn; [done|]. rewrite String.eqb_refl. cbn in IH. lia.
  - rewrite lookup_insert_ne by done. rewrite <-IH.
    destruct (balance_entry a (a', d', n)) as [c|] eqn:E; [|done].
    apply balance_entry_spec in E as ([= -> -> ?] & _ & _). cbn.
    destruct (String.eqb_spec (Denom c) d); [congruence|lia].
Qed.

Lemma ref_all_balances_amount w a d :
  ref_validate_denom d = true -> amount_of (ref_all_balances w a) d = ref_balance w a d.
Proof.
  intros Hd. unfold ref_all_balances.
  rewrite (amount_of_perm _ _ _ (merge_sort_Permutation coin_le _)).
  rewrite omap_entry_amount by (done || apply NoDup_fst_map_to_list).
  by rewrite list_to_map_to_list.
Qed.

Lemma ref_all_balances_le w a d : amount_of (ref_all_balances w a) d <= ref_balance w a d.
Proof.
  destruct (ref_validate_denom d) eqn:E; [by rewrite ref_all_balances_amount|].
  rewrite amount_of_notin; [apply ref_balance_nonneg|].
  intros (c & -> & Hc)%list_elem_of_fmap.
  pose proof (ref_all_balances_valid w a) as (Hf & _)%ref_is_valid_iff.
  rewrite Forall_forall in Hf. apply Hf in Hc as [Hc _]. congruence.
Qed.

Lemma ref_send_Ok f t cs w w' :
  ref_send f t cs w = (Ok tt, w') ->
  ref_is_valid cs = true ∧ covered w f cs = true ∧
  w' = touch_account t (add_coins 1 t cs (add_coins (-1) f cs w)).
Proof. unfold ref_send. repeat case_match; intros; simplify_eq; breflect; done. Qed.

Lemma ref_send_effect f t cs w w' :
  ref_send f t cs w = (Ok tt, w') ->
  bank_delta w w' (δ_send f t cs) (fun _ => 0) ∧
  (∀ d, amount_of cs d <= ref_balance w f d) ∧ is_Some (GetAccount w' t).
Proof.
  intros (Hv & Hc & ->)%ref_send_Ok. pose proof (valid_positive _ Hv) as Hp.
  assert (∀ d, amount_of cs d <= ref_balance w f d) as Hle by (intros; by apply covered_spec).
  assert (∀ d, 0 <= amount_of cs d) as Hnn.
  { intros. apply amount_of_nonneg. eapply Forall_impl; [exact Hp|]. cbn. lia. }
  assert (∀ a d, ref_balance (add_coins (-1) f cs w) a d
    = ref_balance w a d + (if String.eqb a f then -1 * amount_of cs d else 0)) as H1.
  { intros. apply add_coins_spec; [done| |lia]. intros d'. specialize (Hle d'). lia. }
  split_and!; [split|done|].
  - intros a d. cbn [GetBalance ref_bank]. unfold δ_send, gain.
    transitivity (ref_balance (add_coins 1 t cs (add_coins (-1) f cs w)) a d); [done|].
    rewrite add_coins_spec; [|done| |lia].
    + rewrite H1. repeat case_match; lia.
    + intros d'. rewrite H1. specialize (Hle d'). specialize (Hnn d').
      pose proof (ref_balance_nonneg w t d'). destruct (String.eqb_spec t f) as [->|]; lia.
  - intros d. transitivity (ref_supply (add_coins 1 t cs (add_coins (-1) f cs w)) d); [done|].
    rewrite !add_coins_supply. cbn. lia.
  - intros a. cbn. rewrite !add_coins_accounts, !fmap_is_Some.
    intros. rewrite lookup_insert_is_Some'. by right.
  - cbn. rewrite fmap_is_Some, lookup_insert_eq. done.
Qed.

Lemma ref_mint_effect m cs w w' : ref_mint m cs w = (Ok tt, w') ->
  ∃ a, ref_module_address m = Some a ∧ ref_is_valid cs = true ∧
       bank_delta w w' (δ_mint a cs) (amount_of cs).
Proof.
  unfold ref_mint, with_module. cbn [ref_module_address]. case_match eqn:E; [done|].
  intros [= <-]. breflect. exists ("module:" +:+ m). split_and!; [done|done|].
  pose proof (valid_positive _ E) as Hp.
  assert (∀ d, 0 <= amount_of cs d) as Hnn.
  { intros. apply amount_of_nonneg. eapply Forall_impl; [exact Hp|]. cbn. lia. }
  split.
  - intros a d. cbn [GetBalance ref_bank]. rewrite add_supply_balance, add_coins_spec; [|done| |lia].
    + unfold δ_mint, gain. case_match; lia.
    + intros d'. pose proof (ref_balance_nonneg w ("module:" +:+ m) d'). specialize (Hnn d'). lia.
  - intros d. cbn [GetSupply ref_bank]. rewrite add_supply_spec; [|done| |lia].
    + rewrite add_coins_supply. lia.
    + intros d'. rewrite add_coins_supply. pose proof (ref_supply_nonneg w d').
      specialize (Hnn d'). lia.
  - intros a. cbn. by rewrite add_supply_accounts, add_coins_accounts.
Qed.

Lemma ref_burn_effect m cs w w' : ref_burn m cs w = (Ok tt, w') ->
  ∃ a, ref_module_address m = Some a ∧ ref_is_valid cs = true ∧
       bank_delta w w' (δ_burn a cs) (fun d => - amount_of cs d) ∧
       (∀ d, amount_of cs d <= ref_balance w a d).
Proof.
  unfold ref_burn, with_module. cbn [ref_module_address].
  case_match eqn:E; [done|]. case_match eqn:E2; [done|].
  intros [= <-]. breflect. exists ("module:" +:+ m).
  pose proof (valid_positive _ E) as Hp.
  assert (∀ d, amount_of cs d <= ref_balance w ("module:" +:+ m) d) as Hle
    by (intros; by apply covered_spec).
  assert (∀ d, amount_of cs d <= ref_supply w d) as Hsu by (intros; by apply supply_covered_spec).
  split_and!; [done|done| |done]. split.
  - intros a d. cbn [GetBalance ref_bank]. rewrite add_supply_balance, add_coins_spec; [|done| |lia].
    + unfold δ_burn, gain. case_match; lia.
    + intros d'. specialize (Hle d'). lia.
  - intros d. cbn [GetSupply ref_bank]. rewrite add_supply_spec; [|done| |lia].
    + rewrite add_coins_supply. lia.
    + intros d'. rewrite add_coins_supply. specialize (Hsu d'). lia.
  - intros a. cbn. by rewrite add_supply_accounts, add_coins_accounts.
Qed.

#[export] Instance ref_bank_laws : BankLaws RefWorld.
Proof.
  split; cbn [GetBalance GetSupply GetAllBalances SpendableCoins BlockedAddr SendCoins
    SendCoinsFromModuleToAccount SendCoinsFromAccountToModule SendCoinsFromModuleToModule
    MintCoins BurnCoins GetModuleAddress GetAccount ref_bank ref_accounts ref_types
    Coins_IsValid ValidateDenom].
  - apply ref_balance_nonneg.
  - apply ref_supply_nonneg.
  - apply ref_all_balances_valid.
  - apply ref_all_balances_amount.
  - apply ref_all_balances_valid.
  - apply ref_all_balances_le.
  - intros w a acc. destruct (rw_accounts w !! a); [|done]. by intros [= <-].
  - apply ref_send_effect.
  - intros f t cs w w' (? & _ & _)%ref_send_Ok. done.
  - intros f t cs w Hv Hc. unfold ref_send. rewrite Hv. cbn [negb].
    replace (covered w f cs) with true; [eauto|]. symmetry. apply forallb_forall. intros c _.
    apply Z.leb_le. etrans; [apply Hc|apply ref_all_balances_le].
  - intros m t cs w w'. unfold with_module. cbn [ref_module_address].
    destruct (ref_blocked t) eqn:Et; [done|]. eauto.
  - intros f m cs w w'. unfold with_module. cbn [ref_module_address]. eauto.
  - intros m n cs w w'. unfold with_module. cbn [ref_module_address]. eauto 10.
  - apply ref_mint_effect.
  - apply ref_burn_effect.
Qed.
