(* ===== verification/CoinswapTypes.v ===== *)
(** * x/coinswap/types: data, store keys, parameters and validation *)

From Stdlib Require Import Ascii.
From stdpp Require Import base gmap strings list.
From S2P Require Import Prelude Golang Sdk.

#[local] Open Scope Z_scope.
#[local] Open Scope go_scope.

(** ** Constants *)

Definition ModuleName : string := "coinswap".
Definition KeyNextPoolSequence : string := "nextPoolSequence".
Definition KeyPool : string := "pool".
Definition KeyPoolLptDenom : string := "lptDenom".
Definition KeyStandardDenom : string := "StandardDenom".
Definition LptTokenPrefix : string := "lpt".

Definition ErrReservePoolNotExists : error := Registered ModuleName 2.
Definition ErrEqualDenom : error := Registered ModuleName 3.
Definition ErrNotContainStandardDenom : error := Registered ModuleName 4.
Definition ErrMustStandardDenom : error := Registered ModuleName 5.
Definition ErrInvalidDenom : error := Registered ModuleName 6.
Definition ErrInvalidDeadline : error := Registered ModuleName 7.
Definition ErrConstraintNotMet : error := Registered ModuleName 8.
Definition ErrInsufficientFunds : error := Registered ModuleName 9.
Definition ErrMaxedStandardDenom : error := Registered ModuleName 10.

Definition EventTypeSwap : string := "swap".
Definition EventTypeAddLiquidity : string := "add_liquidity".
Definition EventTypeRemoveLiquidity : string := "remove_liquidity".
Definition AttributeValueAmount : string := "amount".
Definition AttributeValueSender : string := "sender".
Definition AttributeValueRecipient : string := "recipient".
Definition AttributeValueIsBuyOrder : string := "is_buy_order".
Definition AttributeValueTokenPair : string := "token_pair".

(** ** Data *)

Record Pool := mkPool {
  Pool_Id : string;
  Pool_StandardDenom : string;
  Pool_CounterpartyDenom : string;
  Pool_EscrowAddress : string;
  Pool_LptDenom : string
}.

Record Params := mkParams {
  Fee : Z;
  PoolCreationFee : Coin;
  TaxRate : Z;
  MaxStandardCoinPerPool : Z;
  MaxSwapAmount : list Coin
}.

Record Input := mkInput { Input_Address : string; Input_Coin : Coin }.
Record Output := mkOutput { Output_Address : string; Output_Coin : Coin }.

Record MsgSwapOrder := mkMsgSwapOrder {
  Swap_Input : Input;
  Swap_Output : Output;
  Swap_Deadline : Z;
  Swap_IsBuyOrder : bool
}.

Record MsgAddLiquidity := mkMsgAddLiquidity {
  Add_MaxToken : Coin;
  Add_ExactStandardAmt : Z;
  Add_MinLiquidity : Z;
  Add_Deadline : Z;
  Add_Sender : string
}.

Record MsgRemoveLiquidity := mkMsgRemoveLiquidity {
  Rem_WithdrawLiquidity : Coin;
  Rem_MinToken : Z;
  Rem_MinStandardAmt : Z;
  Rem_Deadline : Z;
  Rem_Sender : string
}.

(** *** msgs.go *)

Definition NewMsgSwapOrder (input : Input) (output : Output) (deadline : Z) (isBuyOrder : bool) : MsgSwapOrder :=
  mkMsgSwapOrder input output deadline isBuyOrder.
Definition NewMsgAddLiquidity (maxToken : Coin) (exactStandardAmt minLiquidity deadline : Z) (sender : string) : MsgAddLiquidity :=
  mkMsgAddLiquidity maxToken exactStandardAmt minLiquidity deadline sender.
Definition NewMsgRemoveLiquidity (minToken : Z) (withdrawLiquidity : Coin) (minStandardAmt deadline : Z) (sender : string)
    : MsgRemoveLiquidity :=
  mkMsgRemoveLiquidity withdrawLiquidity minToken minStandardAmt deadline sender.

(** The signer of a swap order, by its message in package api: [None] is a message
    of another type, and its field [Input] is a pointer, which is dereferenced.
    [StringToBytes] is the method of [options.AddressCodec]. *)
Definition CreateGetSignersFromMsgSwapOrderV2 (StringToBytes : string -> outcome string) (msg : option (option Input))
    : outcome (list string) :=
  match msg with
  | None => Err (Plain "invalid x/coinswap/MsgSwapOrder msg v2")
  | Some None => Panic
  | Some (Some input) => let? addr := StringToBytes (Input_Address input) in Ok [addr]
  end.

Record MsgUpdateParams := mkMsgUpdateParams { Upd_Authority : string; Upd_Params : Params }.

Record GenesisState := mkGenesisState {
  Gen_Params : Params;
  Gen_StandardDenom : string;
  Gen_Pool : list Pool;
  Gen_Sequence : Z
}.

#[export] Instance Pool_eq_dec : EqDecision Pool.
Proof. solve_decision. Defined.
#[export] Instance Params_eq_dec : EqDecision Params.
Proof. solve_decision. Defined.
#[export] Instance GenesisState_eq_dec : EqDecision GenesisState.
Proof. solve_decision. Defined.

(** ** Keys and names *)

Definition GetPoolKey (pooId : string) : string := KeyPool +:+ "/" +:+ pooId.
Definition GetLptDenomKey (lptDenom : string) : string := KeyPoolLptDenom +:+ "/" +:+ lptDenom.

Definition GetTokenPairByDenom (inputDenom outputDenom : string) : string :=
  outputDenom +:+ "-" +:+ inputDenom.
Definition GetPoolId (counterpartyDenom : string) : string := "pool-" +:+ counterpartyDenom.
Definition GetLptDenom (sequence : Z) : string := "lpt-" +:+ Decimal sequence.

Definition ParseLptDenom (lptDenom : string) : outcome Z :=
  match Split lptDenom "-"%char with
  | [_; n] => ParseUint64 n
  | _ => Err (Plain "invalid lpt denom")
  end.

(** ** Validation *)

(** The [error] result of a validator: [nil] is [Ok tt]. *)
Definition ValidateLptDenom (lptDenom : string) : outcome unit :=
  match ParseLptDenom lptDenom with Ok _ => Ok tt | _ => Err ErrInvalidDenom end.

Definition ValidateDeadline (deadline : Z) : outcome unit :=
  if deadline <=? 0 then Err (Foreign "ErrInvalidRequest") else Ok tt.

Definition ValidateExactStandardAmt (standardAmt : Z) : outcome unit :=
  if negb (0 <? standardAmt) then Err (Foreign "ErrInvalidRequest") else Ok tt.

Definition ValidateMinLiquidity (minLiquidity : Z) : outcome unit :=
  if minLiquidity <? 0 then Err (Foreign "ErrInvalidRequest") else Ok tt.

Definition ValidateMinToken (minToken : Z) : outcome unit :=
  if minToken <? 0 then Err (Foreign "ErrInvalidCoins") else Ok tt.

Definition ValidateMinStandardAmt (minStandardAmt : Z) : outcome unit :=
  if minStandardAmt <? 0 then Err (Foreign "ErrInvalidRequest") else Ok tt.

Section types.
Context `{SdkTypes} `{Hashes}.

(** [GetReservePoolAddr(lptDenom)], a raw account address. *)
Definition GetReservePoolAddr (lptDenom : string) : string := AddressHash lptDenom.

Definition IsPositive (c : Coin) : bool := 0 <? Amount c.

Definition ValidateInput (input : Input) : outcome unit :=
  if negb (Coin_IsValid (Input_Coin input) && IsPositive (Input_Coin input))
  then Err (Foreign "ErrInvalidCoins")
  else if HasPrefix (Denom (Input_Coin input)) LptTokenPrefix
  then Err (Foreign "ErrInvalidRequest")
  else match AccAddressFromBech32 (Input_Address input) with
       | Ok _ => Ok tt
       | Err _ => Err (Foreign "ErrInvalidAddress")
       | Panic => Panic
       end.

Definition ValidateOutput (output : Output) : outcome unit :=
  if negb (Coin_IsValid (Output_Coin output) && IsPositive (Output_Coin output))
  then Err (Foreign "ErrInvalidCoins")
  else if HasPrefix (Denom (Output_Coin output)) LptTokenPrefix
  then Err (Foreign "ErrInvalidRequest")
  else match AccAddressFromBech32 (Output_Address output) with
       | Ok _ => Ok tt
       | Err _ => Err (Foreign "ErrInvalidAddress")
       | Panic => Panic
       end.

Definition ValidateMaxToken (maxToken : Coin) : outcome unit :=
  if negb (Coin_IsValid maxToken && IsPositive maxToken)
  then Err (Foreign "ErrInvalidCoins")
  else if HasPrefix (Denom maxToken) LptTokenPrefix
  then Err (Foreign "ErrInvalidRequest")
  else Ok tt.

Definition ValidateWithdrawLiquidity (liquidity : Coin) : outcome unit :=
  if negb (Coin_IsValid liquidity) || negb (IsPositive liquidity)
  then Err (Foreign "ErrInvalidCoins")
  else ValidateLptDenom (Denom liquidity).

(** ** Parameters

    The validators take [interface{}]; the type assertion they start with
    always holds on the fields of a [Params], which is what the typed argument
    says. *)

Definition DefaultFee : Z := LegacyNewDecWithPrec 0 0.
Definition DefaultPoolCreationFee : outcome Coin := NewCoin DefaultBondDenom 0.
Definition DefaultTaxRate : Z := LegacyNewDecWithPrec 0 0.
Definition DefaultMaxStandardCoinPerPool : Z := NewIntWithDecimal 10000 18.
Definition UsdcIBCDenom : string :=
  "ibc/17CD484EE7D9723B847D95015FA3EBD1572FD13BC84FB838F55B18A57450F25B".
Definition UsdtIBCDenom : string :=
  "ibc/4F6A2DEFEA52CD8D90966ADCB2BD0593D3993AB0DF7F6AEB3EFD6167D79237B0".
Definition EthIBCDenom : string :=
  "ibc/DC186CA7A8C009B43774EBDC825C935CABA9743504CE6037507E6E5CCE12858A".
Definition DefaultMaxSwapAmount : outcome (list Coin) :=
  let? usdc := NewCoin UsdcIBCDenom (NewIntWithDecimal 10 6) in
  let? usdt := NewCoin UsdtIBCDenom (NewIntWithDecimal 10 6) in
  let? eth := NewCoin EthIBCDenom (NewIntWithDecimal 1 16) in
  NewCoins [usdc; usdt; eth].

Definition NewParams (fee taxRate : Z) (poolCreationFee : Coin)
    (maxStandardCoinPerPool : Z) (maxSwapAmount : list Coin) : Params :=
  mkParams fee poolCreationFee taxRate maxStandardCoinPerPool maxSwapAmount.

Definition DefaultParams : outcome Params :=
  let? creationFee := DefaultPoolCreationFee in
  let? maxSwapAmount := DefaultMaxSwapAmount in
  Ok (mkParams DefaultFee creationFee DefaultTaxRate DefaultMaxStandardCoinPerPool maxSwapAmount).

Definition Params_Validate (p : Params) : outcome unit :=
  if (Fee p <? 0) || negb (Fee p <? dec_unit)
  then Err (Plain "fee must be positive and less than 1") else Ok tt.

Definition validateFee (v : Z) : outcome unit :=
  if (v <? 0) || negb (v <? dec_unit)
  then Err (Plain "fee must be positive and less than 1") else Ok tt.

Definition validatePoolCreationFee (v : Coin) : outcome unit :=
  if Amount v <? 0 then Err (Plain "poolCreationFee must be positive") else Ok tt.

Definition validateTaxRate (v : Z) : outcome unit :=
  if (v <? 0) || negb (v <? dec_unit)
  then Err (Plain "fee must be positive and less than 1") else Ok tt.

Definition validateMaxStandardCoinPerPool (v : Z) : outcome unit :=
  if negb (0 <? v) then Err (Plain "maxStandardCoinPerPool must be positive") else Ok tt.

Fixpoint validate_swap_coins (v : list Coin) : outcome unit :=
  match v with
  | [] => Ok tt
  | coin :: v' =>
      if negb (ValidateDenom (Denom coin)) then Err (Plain "invalid denom")
      else if Amount coin <? 0 then Err (Plain "coin amount must be positive")
      else validate_swap_coins v'
  end.

Definition validateMaxSwapAmount (v : list Coin) : outcome unit :=
  if negb (Coins_IsValid v) then Err (Plain "invalid coins") else validate_swap_coins v.

(** The validator results of [ParamSetPairs], in its order. *)
Definition ParamSetPairs (p : Params) : list (outcome unit) :=
  [validateFee (Fee p); validatePoolCreationFee (PoolCreationFee p);
   validateTaxRate (TaxRate p); validateMaxStandardCoinPerPool (MaxStandardCoinPerPool p);
   validateMaxSwapAmount (MaxSwapAmount p)].

(** ** Genesis *)

Definition NewGenesisState (params : Params) (denom : string) : GenesisState :=
  mkGenesisState params denom [] 0.

Definition DefaultGenesisState : outcome GenesisState :=
  let? params := DefaultParams in Ok (mkGenesisState params DefaultBondDenom [] 1).

(** The loop over [data.Pool]: the sets of identifiers and liquidity
    denominations seen so far and the highest sequence. *)
Fixpoint validate_pools (pools : list Pool) (poolIds lptDenoms : gset string)
    (maxSequence : Z) : outcome Z :=
  match pools with
  | [] => Ok maxSequence
  | pool :: pools' =>
      if bool_decide (Pool_Id pool ∈ poolIds) then Err (Plain "duplicate pool")
      else if bool_decide (Pool_LptDenom pool ∈ lptDenoms) then Err (Plain "duplicate lptDenom")
      else
        let? seq := ParseLptDenom (Pool_LptDenom pool) in
        if negb (ValidateDenom (Pool_CounterpartyDenom pool)) then Err (Plain "invalid denom")
        else if negb (ValidateDenom (Pool_StandardDenom pool)) then Err (Plain "invalid denom")
        else
          let? _ := AccAddressFromBech32 (Pool_EscrowAddress pool) in
          validate_pools pools' ({[Pool_Id pool]} ∪ poolIds)
            ({[Pool_LptDenom pool]} ∪ lptDenoms)
            (if maxSequence <? seq then seq else maxSequence)
  end.

Definition ValidateGenesis (data : GenesisState) : outcome unit :=
  if negb (ValidateDenom (Gen_StandardDenom data)) then Err (Plain "invalid denom")
  else
    let? maxSequence := validate_pools (Gen_Pool data) ∅ ∅ 0 in
    if negb (wrap64 (maxSequence + 1) =? Gen_Sequence data)
    then Err (Plain "invalid sequence")
    else Params_Validate (Gen_Params data).

End types.

(** ** Lemmas *)

(** Splitting the name of a liquidity token at the dash gives its prefix and
    its number. *)
Lemma Split_GetLptDenom n : Split (GetLptDenom n) "-"%char = ["lpt"; Decimal n].
Proof.
  unfold Split, GetLptDenom. do 4 (rewrite append_cons; cbn [split_from]).
  change (Ascii.eqb "l"%char "-"%char) with false. change (Ascii.eqb "p"%char "-"%char) with false.
  change (Ascii.eqb "t"%char "-"%char) with false. change (Ascii.eqb "-"%char "-"%char) with true.
  cbn iota. change ("" +:+ Decimal n) with (Decimal n).
  rewrite split_from_digits by apply Decimal_digits. done.
Qed.

Lemma GetLptDenom_inj a b : 0 <= a -> 0 <= b -> GetLptDenom a = GetLptDenom b -> a = b.
Proof. unfold GetLptDenom. intros ?? Hab%append_inj_l. by apply Decimal_inj. Qed.

Lemma GetPoolId_inj a b : GetPoolId a = GetPoolId b -> a = b.
Proof. apply append_inj_l. Qed.

Lemma GetPoolKey_inj a b : GetPoolKey a = GetPoolKey b -> a = b.
Proof. unfold GetPoolKey. intros Hab%append_inj_l%append_inj_l. done. Qed.

Lemma GetLptDenomKey_inj a b : GetLptDenomKey a = GetLptDenomKey b -> a = b.
Proof. unfold GetLptDenomKey. intros Hab%append_inj_l%append_inj_l. done. Qed.
