(* ===== verification/Coinswap.v ===== *)
(** * x/coinswap/keeper: the constant-product exchange

    [Store] is the module's key-value store and parameter space.  The pools and
    the index by liquidity denomination are keyed by the keys the code writes
    ([GetPoolKey], [GetLptDenomKey]).  Every keeper method is a computation on
    [Chain W Store], where [W] is the state of x/auth and x/bank. *)

From stdpp Require Import base gmap strings list.
From S2P Require Import Prelude Golang Sdk CoinswapTypes.

#[local] Open Scope Z_scope.
#[local] Open Scope go_scope.

Record Store := mkStore {
  st_params : option Params;
  st_standardDenom : option string;
  st_sequence : option Z;
  st_pools : gmap string Pool;
  st_lptDenoms : gmap string string
}.

(** The fields of [Keeper] that are not other keepers or codecs. *)
Record Keeper := mkKeeper {
  feeCollectorName : string;
  blockedAddrs : gset string;
  authority : string
}.

Record PoolInfo := mkPoolInfo {
  Info_Id : string;
  Info_EscrowAddress : string;
  Info_Standard : Coin;
  Info_Token : Coin;
  Info_Lpt : Coin;
  Info_Fee : string
}.

(** ** Prices (swap.go) *)
Section prices.
Context `{SdkMath}.

(** [GetInputPrice]: the amount bought for an exact input. *)
Definition GetInputPrice (inputAmt inputReserve outputReserve fee : Z) : outcome Z :=
  let? deltaFee := dec_Sub dec_unit fee in
  let? inputAmtWithFee := int_Mul inputAmt deltaFee in
  let? numerator := int_Mul inputAmtWithFee outputReserve in
  let? scaledReserve := int_Mul inputReserve (NewIntWithDecimal 1 18) in
  let? denominator := int_Add scaledReserve inputAmtWithFee in
  int_Quo numerator denominator.

(** [GetOutputPrice]: the amount sold for an exact output. *)
Definition GetOutputPrice (outputAmt inputReserve outputReserve fee : Z) : outcome Z :=
  let? deltaFee := dec_Sub dec_unit fee in
  let? product := int_Mul inputReserve outputAmt in
  let? numerator := int_Mul product (NewIntWithDecimal 1 18) in
  let? remaining := int_Sub outputReserve outputAmt in
  let? denominator := int_Mul remaining deltaFee in
  let? quotient := int_Quo numerator denominator in
  int_Add quotient 1.

End prices.

Section keeper.
Context {W : Type} `{SdkMath} `{SdkTypes} `{Hashes} `{ParamSubspace}.
Context {AK : AccountKeeper W} {BK : BankKeeper W}.
#[local] Abbreviation C := (Chain W Store).

(** ** keeper.go *)

Definition NewKeeper (blocked : gset string) (feeCollector auth : string) : outcome Keeper :=
  match GetModuleAddress ModuleName with
  | None => Panic
  | Some _ => Ok (mkKeeper feeCollector blocked auth)
  end.

Definition GetAuthority (k : Keeper) : string := authority k.

Definition GetParams : M C Params :=
  let* p := get_store st_params in
  match p with Some p => ret p | None => panic end.

Definition SetParams (params : Params) : M C unit :=
  do! lift (SetParamSet_check (ParamSetPairs params));
  mod_store (fun s => mkStore (Some params) (st_standardDenom s) (st_sequence s)
                        (st_pools s) (st_lptDenoms s)).

Definition SetStandardDenom (denom : string) : M C unit :=
  mod_store (fun s => mkStore (st_params s) (Some denom) (st_sequence s)
                        (st_pools s) (st_lptDenoms s)).

(** A missing (or empty) entry reads as the empty string. *)
Definition GetStandardDenom : M C string :=
  get_store (fun s => default "" (st_standardDenom s)).

(** ** pool.go *)

Definition getSequence : M C Z := get_store (fun s => default 1 (st_sequence s)).

Definition setSequence (sequence : Z) : M C unit :=
  mod_store (fun s => mkStore (st_params s) (st_standardDenom s) (Some sequence)
                        (st_pools s) (st_lptDenoms s)).

Definition setPool (pool : Pool) : M C unit :=
  do! mod_store (fun s => mkStore (st_params s) (st_standardDenom s) (st_sequence s)
                   (<[GetPoolKey (Pool_Id pool) := pool]> (st_pools s)) (st_lptDenoms s));
  mod_store (fun s => mkStore (st_params s) (st_standardDenom s) (st_sequence s)
               (st_pools s)
               (<[GetLptDenomKey (Pool_LptDenom pool) := Pool_Id pool]> (st_lptDenoms s))).

Definition GetPool (poolId : string) : M C (option Pool) :=
  get_store (fun s => st_pools s !! GetPoolKey poolId).

Definition GetAllPools : M C (list Pool) :=
  get_store (fun s => (kv_iterate (st_pools s)).*2).

Definition GetPoolByLptDenom (lptDenom : string) : M C (option Pool) :=
  let* id := get_store (fun s => st_lptDenoms s !! GetLptDenomKey lptDenom) in
  match id with None => ret None | Some poolId => GetPool poolId end.

Definition CreatePool (counterpartyDenom : string) : M C Pool :=
  let* standardDenom := GetStandardDenom in
  let* sequence := getSequence in
  let lptDenom := GetLptDenom sequence in
  let pool := mkPool (GetPoolId counterpartyDenom) standardDenom counterpartyDenom
                (AccAddress_String (GetReservePoolAddr lptDenom)) lptDenom in
  do! setSequence (wrap64 (sequence + 1));
  do! setPool pool;
  ret pool.

Definition GetPoolBalances (escrowAddress : string) : M C (list Coin) :=
  let* address := lift (AccAddressFromBech32 escrowAddress) in
  let* acc := get_world (fun w => GetAccount w address) in
  match acc with
  | None => fail ErrReservePoolNotExists
  | Some acc => get_world (fun w => GetAllBalances w (acc_address acc))
  end.

Definition GetPoolBalancesByLptDenom (lptDenom : string) : M C (list Coin) :=
  let address := GetReservePoolAddr lptDenom in
  let* acc := get_world (fun w => GetAccount w address) in
  match acc with
  | None => fail ErrReservePoolNotExists
  | Some acc => get_world (fun w => GetAllBalances w (acc_address acc))
  end.

Definition GetLptDenomFromDenoms (denom1 denom2 : string) : M C string :=
  do! reject (String.eqb denom1 denom2) ErrEqualDenom;
  let* standardDenom := GetStandardDenom in
  do! reject (negb (String.eqb denom1 standardDenom) && negb (String.eqb denom2 standardDenom))
        ErrNotContainStandardDenom;
  let counterpartyDenom := if String.eqb denom1 standardDenom then denom2 else denom1 in
  let* pool := GetPool (GetPoolId counterpartyDenom) in
  match pool with
  | None => fail ErrReservePoolNotExists
  | Some pool => ret (Pool_LptDenom pool)
  end.

Definition ValidatePool (lptDenom : string) : M C unit :=
  do! lift (ValidateLptDenom lptDenom);
  let* pool := GetPoolByLptDenom lptDenom in
  match pool with
  | None => fail ErrReservePoolNotExists
  | Some pool => do! GetPoolBalances (Pool_EscrowAddress pool); ret tt
  end.

(** ** fees.go *)

Definition DeductPoolCreationFee (k : Keeper) (creator : string) : M C unit :=
  let* params := GetParams in
  let poolCreationFee := PoolCreationFee params in
  let* feeDec := lift (dec_FromInt (Amount poolCreationFee)) in
  let* taxDec := lift (dec_Mul feeDec (TaxRate params)) in
  let* tax := lift (dec_TruncateInt taxDec) in
  let* communityTaxCoin := lift (NewCoin (Denom poolCreationFee) tax) in
  let* burned := lift (Coin_Sub poolCreationFee communityTaxCoin) in
  let* burnedCoins := lift (NewCoins [burned]) in
  let* feeCoins := lift (NewCoins [poolCreationFee]) in
  do! ext (SendCoinsFromAccountToModule creator ModuleName feeCoins);
  let* taxCoins := lift (NewCoins [communityTaxCoin]) in
  do! ext (SendCoinsFromModuleToModule ModuleName (feeCollectorName k) taxCoins);
  ext (BurnCoins ModuleName burnedCoins).

(** ** swap.go *)

Definition swapCoins (sender recipient : string) (coinSold coinBought : Coin) : M C unit :=
  let* lptDenom := GetLptDenomFromDenoms (Denom coinSold) (Denom coinBought) in
  let poolAddr := GetReservePoolAddr lptDenom in
  let* sold := lift (NewCoins [coinSold]) in
  do! ext (SendCoins sender poolAddr sold);
  let recipient := if String.eqb recipient "" then sender else recipient in
  let* bought := lift (NewCoins [coinBought]) in
  ext (SendCoins poolAddr recipient bought).

Definition calculateWithExactInput (exactSoldCoin : Coin) (boughtTokenDenom : string) : M C Z :=
  let* lptDenom := GetLptDenomFromDenoms (Denom exactSoldCoin) boughtTokenDenom in
  let reservePoolAddress := AccAddress_String (GetReservePoolAddr lptDenom) in
  let* reservePool := GetPoolBalances reservePoolAddress in
  let* inputReserve := lift (Coins_AmountOf reservePool (Denom exactSoldCoin)) in
  let* outputReserve := lift (Coins_AmountOf reservePool boughtTokenDenom) in
  do! reject (negb (0 <? inputReserve)) ErrInsufficientFunds;
  do! reject (negb (0 <? outputReserve)) ErrInsufficientFunds;
  let* param := GetParams in
  lift (GetInputPrice (Amount exactSoldCoin) inputReserve outputReserve (Fee param)).

Definition calculateWithExactOutput (exactBoughtCoin : Coin) (soldTokenDenom : string) : M C Z :=
  let* lptDenom := GetLptDenomFromDenoms (Denom exactBoughtCoin) soldTokenDenom in
  let poolAddr := AccAddress_String (GetReservePoolAddr lptDenom) in
  let* reservePool := GetPoolBalances poolAddr in
  let* outputReserve := lift (Coins_AmountOf reservePool (Denom exactBoughtCoin)) in
  let* inputReserve := lift (Coins_AmountOf reservePool soldTokenDenom) in
  do! reject (negb (0 <? inputReserve)) ErrInsufficientFunds;
  do! reject (negb (0 <? outputReserve)) ErrInsufficientFunds;
  do! reject (outputReserve <=? Amount exactBoughtCoin) ErrInsufficientFunds;
  let* param := GetParams in
  lift (GetOutputPrice (Amount exactBoughtCoin) inputReserve outputReserve (Fee param)).

Fixpoint find_coin (denom : string) (cs : list Coin) : option Coin :=
  match cs with
  | [] => None
  | coin :: cs' => if String.eqb (Denom coin) denom then Some coin else find_coin denom cs'
  end.

Definition GetMaximumSwapAmount (denom : string) : M C Coin :=
  let* params := GetParams in
  match find_coin denom (MaxSwapAmount params) with
  | Some coin => ret coin
  | None => fail ErrInvalidDenom
  end.

Definition TradeExactInputForOutput (input : Input) (output : Output) : M C Z :=
  let* boughtTokenAmt := calculateWithExactInput (Input_Coin input) (Denom (Output_Coin output)) in
  do! reject (boughtTokenAmt <? Amount (Output_Coin output)) ErrConstraintNotMet;
  let* boughtToken := lift (NewCoin (Denom (Output_Coin output)) boughtTokenAmt) in
  let* inputAddress := lift (AccAddressFromBech32 (Input_Address input)) in
  let* outputAddress := lift (AccAddressFromBech32 (Output_Address output)) in
  let* standardDenom := GetStandardDenom in
  let quoteCoinToSwap :=
    if negb (String.eqb (Denom boughtToken) standardDenom) then boughtToken
    else Input_Coin input in
  let* maxSwapAmount := GetMaximumSwapAmount (Denom quoteCoinToSwap) in
  do! reject (Amount maxSwapAmount <? Amount quoteCoinToSwap) ErrConstraintNotMet;
  do! swapCoins inputAddress outputAddress (Input_Coin input) boughtToken;
  ret boughtTokenAmt.

Definition TradeInputForExactOutput (input : Input) (output : Output) : M C Z :=
  let* soldTokenAmt := calculateWithExactOutput (Output_Coin output) (Denom (Input_Coin input)) in
  do! reject (Amount (Input_Coin input) <? soldTokenAmt) ErrConstraintNotMet;
  let* soldToken := lift (NewCoin (Denom (Input_Coin input)) soldTokenAmt) in
  let* inputAddress := lift (AccAddressFromBech32 (Input_Address input)) in
  let* outputAddress := lift (AccAddressFromBech32 (Output_Address output)) in
  let* standardDenom := GetStandardDenom in
  let quoteCoinToSwap :=
    if negb (String.eqb (Denom soldToken) standardDenom) then soldToken
    else Output_Coin output in
  let* maxSwapAmount := GetMaximumSwapAmount (Denom quoteCoinToSwap) in
  do! reject (Amount maxSwapAmount <? Amount quoteCoinToSwap) ErrConstraintNotMet;
  do! swapCoins inputAddress outputAddress soldToken (Output_Coin output);
  ret soldTokenAmt.

(** ** keeper.go: Swap, AddLiquidity, RemoveLiquidity *)

Definition Swap (msg : MsgSwapOrder) : M C unit :=
  let* standardDenom := GetStandardDenom in
  let input := Swap_Input msg in
  let output := Swap_Output msg in
  let isDoubleSwap := negb (String.eqb (Denom (Input_Coin input)) standardDenom)
                      && negb (String.eqb (Denom (Output_Coin output)) standardDenom) in
  do! reject isDoubleSwap ErrNotContainStandardDenom;
  let* amount := if Swap_IsBuyOrder msg then TradeInputForExactOutput input output
                 else TradeExactInputForOutput input output in
  emit (mkEvent EventTypeSwap
    [(AttributeValueAmount, AInt amount);
     (AttributeValueSender, AStr (Input_Address input));
     (AttributeValueRecipient, AStr (Output_Address output));
     (AttributeValueIsBuyOrder, ABool (Swap_IsBuyOrder msg));
     (AttributeValueTokenPair,
       AStr (GetTokenPairByDenom (Denom (Input_Coin input)) (Denom (Output_Coin output))))]).

Definition addLiquidity (sender reservePoolAddress : string) (standardCoin token : Coin)
    (lptDenom : string) (mintLiquidityAmt : Z) : M C Coin :=
  let* depositedTokens := lift (NewCoins [standardCoin; token]) in
  do! ext (SendCoins sender reservePoolAddress depositedTokens);
  let* mintToken := lift (NewCoin lptDenom mintLiquidityAmt) in
  let* mintTokens := lift (NewCoins [mintToken]) in
  do! ext (MintCoins ModuleName mintTokens);
  do! ext (SendCoinsFromModuleToAccount ModuleName sender mintTokens);
  ret mintToken.

(** The checks shared by a new pool and an existing pool without liquidity:
    the liquidity minted is the standard amount deposited. *)
Definition check_initial_liquidity (params : Params) (msg : MsgAddLiquidity) : M C unit :=
  let mintLiquidityAmt := Add_ExactStandardAmt msg in
  do! reject (MaxStandardCoinPerPool params <? mintLiquidityAmt) ErrMaxedStandardDenom;
  reject (mintLiquidityAmt <? Add_MinLiquidity msg) ErrConstraintNotMet.

(** The deposit into a pool that holds liquidity. *)
Definition quote_deposit (params : Params) (msg : MsgAddLiquidity) (standardDenom : string)
    (standardReserveAmt tokenReserveAmt liquidity : Z) : M C (Z * Coin * Coin) :=
  do! reject (MaxStandardCoinPerPool params <=? standardReserveAmt) ErrMaxedStandardDenom;
  let* room := lift (int_Sub (MaxStandardCoinPerPool params) standardReserveAmt) in
  let maxStandardInputAmt := Z.min (Add_ExactStandardAmt msg) room in
  let* share := lift (int_Mul liquidity maxStandardInputAmt) in
  let* mintLiquidityAmt := lift (int_Quo share standardReserveAmt) in
  do! reject (mintLiquidityAmt <? Add_MinLiquidity msg) ErrConstraintNotMet;
  let* tokenShare := lift (int_Mul tokenReserveAmt maxStandardInputAmt) in
  let* tokenQuo := lift (int_Quo tokenShare standardReserveAmt) in
  let* depositAmt := lift (int_Add tokenQuo 1) in
  let* depositToken := lift (NewCoin (Denom (Add_MaxToken msg)) depositAmt) in
  let* standardCoin := lift (NewCoin standardDenom maxStandardInputAmt) in
  do! reject (Amount (Add_MaxToken msg) <? depositAmt) ErrConstraintNotMet;
  ret (mintLiquidityAmt, depositToken, standardCoin).

Definition AddLiquidity (k : Keeper) (msg : MsgAddLiquidity) : M C Coin :=
  let* standardDenom := GetStandardDenom in
  do! reject (String.eqb standardDenom (Denom (Add_MaxToken msg))) ErrInvalidDenom;
  let* params := GetParams in
  let* whitelisted := lift (Coins_AmountOf (MaxSwapAmount params) (Denom (Add_MaxToken msg))) in
  do! reject (negb (0 <? whitelisted)) ErrInvalidDenom;
  let* standardCoin := lift (NewCoin standardDenom (Add_ExactStandardAmt msg)) in
  let poolId := GetPoolId (Denom (Add_MaxToken msg)) in
  let* found := GetPool poolId in
  let* sender := lift (AccAddressFromBech32 (Add_Sender msg)) in
  let* 'quote :=
    match found with
    | None =>
        do! DeductPoolCreationFee k sender;
        do! check_initial_liquidity params msg;
        let* depositToken := lift (NewCoin (Denom (Add_MaxToken msg)) (Amount (Add_MaxToken msg))) in
        let* pool := CreatePool (Denom (Add_MaxToken msg)) in
        ret (pool, Add_ExactStandardAmt msg, depositToken, standardCoin)
    | Some pool =>
        let* balances := GetPoolBalances (Pool_EscrowAddress pool) in
        let* standardReserveAmt := lift (Coins_AmountOf balances standardDenom) in
        let* tokenReserveAmt := lift (Coins_AmountOf balances (Denom (Add_MaxToken msg))) in
        let* liquidity := get_world (fun w => GetSupply w (Pool_LptDenom pool)) in
        if liquidity =? 0 then
          do! check_initial_liquidity params msg;
          let* depositToken := lift (NewCoin (Denom (Add_MaxToken msg)) (Amount (Add_MaxToken msg))) in
          ret (pool, Add_ExactStandardAmt msg, depositToken, standardCoin)
        else
          let* 'q := quote_deposit params msg standardDenom standardReserveAmt
                       tokenReserveAmt liquidity in
          let '(mintLiquidityAmt, depositToken, standardCoin) := q in
          ret (pool, mintLiquidityAmt, depositToken, standardCoin)
    end in
  let '(pool, mintLiquidityAmt, depositToken, standardCoin) := quote in
  let* reservePoolAddress := lift (AccAddressFromBech32 (Pool_EscrowAddress pool)) in
  do! emit (mkEvent EventTypeAddLiquidity
    [(AttributeValueSender, AStr (Add_Sender msg));
     (AttributeValueTokenPair,
       AStr (GetTokenPairByDenom (Denom (Add_MaxToken msg)) standardDenom))]);
  addLiquidity sender reservePoolAddress standardCoin depositToken
    (Pool_LptDenom pool) mintLiquidityAmt.

Definition removeLiquidity (poolAddr sender : string)
    (deductUniCoin standardWithdrawCoin tokenWithdrawCoin : Coin) : M C (list Coin) :=
  let* deltaCoins := lift (NewCoins [deductUniCoin]) in
  do! ext (SendCoinsFromAccountToModule sender ModuleName deltaCoins);
  do! ext (BurnCoins ModuleName deltaCoins);
  let* coins := lift (NewCoins [standardWithdrawCoin; tokenWithdrawCoin]) in
  do! ext (SendCoins poolAddr sender coins);
  ret coins.

Definition RemoveLiquidity (msg : MsgRemoveLiquidity) : M C (list Coin) :=
  let* standardDenom := GetStandardDenom in
  let* found := GetPoolByLptDenom (Denom (Rem_WithdrawLiquidity msg)) in
  match found with
  | None => fail ErrReservePoolNotExists
  | Some pool =>
    let* balances := GetPoolBalances (Pool_EscrowAddress pool) in
    let lptDenom := Denom (Rem_WithdrawLiquidity msg) in
    let minTokenDenom := Pool_CounterpartyDenom pool in
    let* standardReserveAmt := lift (Coins_AmountOf balances standardDenom) in
    let* tokenReserveAmt := lift (Coins_AmountOf balances minTokenDenom) in
    let* liquidityReserve := get_world (fun w => GetSupply w lptDenom) in
    do! reject (standardReserveAmt <? Rem_MinStandardAmt msg) ErrInsufficientFunds;
    do! reject (tokenReserveAmt <? Rem_MinToken msg) ErrInsufficientFunds;
    do! reject (liquidityReserve <? Amount (Rem_WithdrawLiquidity msg)) ErrInsufficientFunds;
    let* standardShare := lift (int_Mul (Amount (Rem_WithdrawLiquidity msg)) standardReserveAmt) in
    let* standardWithdrawAmt := lift (int_Quo standardShare liquidityReserve) in
    let* tokenShare := lift (int_Mul (Amount (Rem_WithdrawLiquidity msg)) tokenReserveAmt) in
    let* tokenWithdrawnAmt := lift (int_Quo tokenShare liquidityReserve) in
    let* standardWithdrawCoin := lift (NewCoin standardDenom standardWithdrawAmt) in
    let* tokenWithdrawCoin := lift (NewCoin minTokenDenom tokenWithdrawnAmt) in
    let deductUniCoin := Rem_WithdrawLiquidity msg in
    do! reject (Amount standardWithdrawCoin <? Rem_MinStandardAmt msg) ErrConstraintNotMet;
    do! reject (Amount tokenWithdrawCoin <? Rem_MinToken msg) ErrConstraintNotMet;
    do! emit (mkEvent EventTypeRemoveLiquidity
      [(AttributeValueSender, AStr (Rem_Sender msg));
       (AttributeValueTokenPair, AStr (GetTokenPairByDenom minTokenDenom standardDenom))]);
    let* sender := lift (AccAddressFromBech32 (Rem_Sender msg)) in
    let* poolAddr := lift (AccAddressFromBech32 (Pool_EscrowAddress pool)) in
    removeLiquidity poolAddr sender deductUniCoin standardWithdrawCoin tokenWithdrawCoin
  end.

(** ** genesis.go *)

Definition InitGenesis (genState : GenesisState) : M C unit :=
  do! match ValidateGenesis genState with Ok _ => ret tt | _ => panic end;
  do! SetParams (Gen_Params genState);
  do! SetStandardDenom (Gen_StandardDenom genState);
  do! setSequence (Gen_Sequence genState);
  for_each (Gen_Pool genState) setPool.

Definition ExportGenesis : M C GenesisState :=
  let* params := GetParams in
  let* standardDenom := GetStandardDenom in
  let* pools := GetAllPools in
  let* sequence := getSequence in
  ret (mkGenesisState params standardDenom pools sequence).

(** ** msg_server.go *)

(** The seconds of package time count from the year 1, in an int64. *)
Definition unixToInternal : Z := 62135596800.

(** [ctx.BlockHeader().Time.After(time.Unix(deadline, 0))] *)
Definition deadline_passed (ctx : BlockCtx) (deadline : Z) : bool :=
  let sec := sint64 (BlockTime ctx / 10 ^ 9 + unixToInternal) in
  let nsec := BlockTime ctx mod 10 ^ 9 in
  let limit := sint64 (deadline + unixToInternal) in
  (limit <? sec) || ((sec =? limit) && (0 <? nsec)).

(** [if _, err := sdk.AccAddressFromBech32(s); err != nil { return ErrInvalidAddress }] *)
Definition check_address (s : string) : M C unit :=
  match AccAddressFromBech32 s with
  | Ok _ => ret tt
  | Err _ => fail (Foreign "ErrInvalidAddress")
  | Panic => panic
  end.

Definition msg_AddLiquidity (k : Keeper) (ctx : BlockCtx) (msg : MsgAddLiquidity) : M C Coin :=
  do! lift (ValidateMaxToken (Add_MaxToken msg));
  do! lift (ValidateExactStandardAmt (Add_ExactStandardAmt msg));
  do! lift (ValidateMinLiquidity (Add_MinLiquidity msg));
  do! lift (ValidateDeadline (Add_Deadline msg));
  do! check_address (Add_Sender msg);
  do! reject (deadline_passed ctx (Add_Deadline msg)) ErrInvalidDeadline;
  AddLiquidity k msg.

(** The response carries the pointers collected by the [range] loop. *)
Definition msg_RemoveLiquidity (ctx : BlockCtx) (msg : MsgRemoveLiquidity) : M C (list Coin) :=
  do! lift (ValidateMinToken (Rem_MinToken msg));
  do! lift (ValidateWithdrawLiquidity (Rem_WithdrawLiquidity msg));
  do! lift (ValidateMinStandardAmt (Rem_MinStandardAmt msg));
  do! lift (ValidateDeadline (Rem_Deadline msg));
  do! check_address (Rem_Sender msg);
  do! reject (deadline_passed ctx (Rem_Deadline msg)) ErrInvalidDeadline;
  let* withdrawCoins := RemoveLiquidity msg in
  ret (range_pointers withdrawCoins).

Definition msg_SwapCoin (k : Keeper) (ctx : BlockCtx) (msg : MsgSwapOrder) : M C unit :=
  do! lift (ValidateInput (Swap_Input msg));
  do! lift (ValidateOutput (Swap_Output msg));
  do! reject (String.eqb (Denom (Input_Coin (Swap_Input msg)))
                (Denom (Output_Coin (Swap_Output msg)))) ErrEqualDenom;
  do! lift (ValidateDeadline (Swap_Deadline msg));
  do! reject (deadline_passed ctx (Swap_Deadline msg)) ErrInvalidDeadline;
  do! reject (bool_decide (Output_Address (Swap_Output msg) ∈ blockedAddrs k))
        (Foreign "ErrUnauthorized");
  Swap msg.

Definition msg_UpdateParams (k : Keeper) (req : MsgUpdateParams) : M C unit :=
  do! reject (negb (String.eqb (GetAuthority k) (Upd_Authority req))) (Foreign "ErrInvalidSigner");
  do! lift (Params_Validate (Upd_Params req));
  SetParams (Upd_Params req).

(** ** grpc_query.go *)

Definition query_Params : M C Params := GetParams.

Definition query_LiquidityPool (lptDenom : string) : M C PoolInfo :=
  let* found := GetPoolByLptDenom lptDenom in
  match found with
  | None => fail ErrReservePoolNotExists
  | Some pool =>
    let* balances := GetPoolBalancesByLptDenom (Pool_LptDenom pool) in
    let* standardAmt := lift (Coins_AmountOf balances (Pool_StandardDenom pool)) in
    let* standard := lift (NewCoin (Pool_StandardDenom pool) standardAmt) in
    let* tokenAmt := lift (Coins_AmountOf balances (Pool_CounterpartyDenom pool)) in
    let* token := lift (NewCoin (Pool_CounterpartyDenom pool) tokenAmt) in
    let* liquidity := get_world (fun w => mkCoin (Pool_LptDenom pool) (GetSupply w (Pool_LptDenom pool))) in
    let* params := GetParams in
    ret (mkPoolInfo (Pool_Id pool) (Pool_EscrowAddress pool) standard token liquidity (dec_String (Fee params)))
  end.

End keeper.
