(* ===== verification/CoinswapFacts.v ===== *)
(** * Theorems about x/coinswap

    Prices, the effect of every message on balances, supply and store, the
    consistency of the pool index over every reachable state, and the genesis
    round trip. *)

From stdpp Require Import base gmap strings list.
From S2P Require Import Prelude Golang Sdk CoinswapTypes Coinswap Reference.

#[local] Open Scope Z_scope.
#[local] Open Scope go_scope.

(** ** Prices *)
Section price_facts.
Context `{SML : SdkMathLaws}.

Definition price_bound : Z := 2 ^ 98.
Definition valid_fee (fee : Z) : Prop := 0 <= fee < dec_unit.

Lemma delta_fee fee : valid_fee fee -> dec_Sub dec_unit fee = Ok (dec_unit - fee).
Proof. intros [? ?]. apply dec_Sub_spec. unfold dec_fits, dec_unit in *. lia. Qed.

Lemma scale_unit : NewIntWithDecimal 1 18 = dec_unit.
Proof. done. Qed.

Lemma mul_bound a b m n : 0 <= a < 2 ^ m -> 0 <= b < 2 ^ n -> 0 <= m -> 0 <= n ->
  0 <= a * b < 2 ^ (m + n).
Proof. intros. rewrite Z.pow_add_r by done. nia. Qed.

Lemma input_price_value a x y fee r :
  valid_fee fee -> 0 <= a -> 0 < x -> 0 <= y ->
  GetInputPrice a x y fee = Ok r ->
  r = (a * (dec_unit - fee) * y) / (x * dec_unit + a * (dec_unit - fee)).
Proof.
  intros Hf ??? E. unfold GetInputPrice in E. rewrite delta_fee, scale_unit in E by done.
  minv. arith_inv. destruct Hf.
  assert (0 < dec_unit) by (unfold dec_unit; lia).
  assert (0 <= a * (dec_unit - fee)) by (apply Z.mul_nonneg_nonneg; lia).
  apply Z.quot_div_nonneg; [by apply Z.mul_nonneg_nonneg|nia].
Qed.

Lemma output_price_value a x y fee r :
  valid_fee fee -> 0 <= a -> 0 <= x -> a < y ->
  GetOutputPrice a x y fee = Ok r ->
  r = (x * a * dec_unit) / ((y - a) * (dec_unit - fee)) + 1.
Proof.
  intros Hf ??? E. unfold GetOutputPrice in E. rewrite delta_fee, scale_unit in E by done.
  minv. arith_inv. destruct Hf. f_equal.
  assert (0 < dec_unit) by (unfold dec_unit; lia).
  apply Z.quot_div_nonneg; [|nia]. repeat apply Z.mul_nonneg_nonneg; lia.
Qed.

(** The exchange bound with the fee taken out of the input, and the constant
    product it implies. *)
Lemma input_price_product a x y fee r :
  valid_fee fee -> 0 <= a -> 0 < x -> 0 < y ->
  r = (a * (dec_unit - fee) * y) / (x * dec_unit + a * (dec_unit - fee)) ->
  0 <= r < y ∧ x * dec_unit * y <= (x * dec_unit + a * (dec_unit - fee)) * (y - r) ∧
  x * y <= (x + a) * (y - r).
Proof.
  intros [Hf0 Hf1] Ha Hx Hy ->. set (u := dec_unit) in *. set (δ := u - fee).
  assert (0 < u) by (unfold u, dec_unit; lia). assert (0 < δ <= u) by lia.
  assert (0 <= a * δ) by nia. assert (0 < x * u) by nia.
  set (D := x * u + a * δ). assert (0 < D) by (unfold D; lia).
  pose proof (Z.div_mod (a * δ * y) D ltac:(lia)) as Hdm.
  pose proof (Z.mod_pos_bound (a * δ * y) D ltac:(lia)) as Hmod.
  set (r := a * δ * y / D) in *.
  assert (0 <= r) by (apply Z.div_pos; nia).
  assert (r < y) by (apply Z.div_lt_upper_bound; unfold D; nia).
  assert (x * u * y <= D * (y - r)) as Hp by (unfold D in *; nia).
  split_and!; [done|done|exact Hp|].
  assert (D * (y - r) <= (x + a) * u * (y - r)) by (apply Z.mul_le_mono_nonneg_r; unfold D; nia).
  apply (Z.mul_le_mono_pos_l _ _ u); [done|]. nia.
Qed.

Lemma output_price_product a x y fee r :
  valid_fee fee -> 0 <= a < y -> 0 < x ->
  r = (x * a * dec_unit) / ((y - a) * (dec_unit - fee)) + 1 ->
  0 < r ∧ x * dec_unit * y < (x * dec_unit + r * (dec_unit - fee)) * (y - a) ∧
  x * y < (x + r) * (y - a).
Proof.
  intros [Hf0 Hf1] [Ha Hay] Hx ->. set (u := dec_unit) in *. set (δ := u - fee).
  assert (0 < u) by (unfold u, dec_unit; lia). assert (0 < δ <= u) by lia.
  set (D := (y - a) * δ). assert (0 < D) by (unfold D; nia).
  pose proof (Z.div_mod (x * a * u) D ltac:(lia)) as Hdm.
  pose proof (Z.mod_pos_bound (x * a * u) D ltac:(lia)) as Hmod.
  set (q := x * a * u / D) in *. assert (0 <= q) by (apply Z.div_pos; [|done]; nia).
  assert (x * a * u < (q + 1) * D) as Hp by lia.
  assert (x * u * y < (x * u + (q + 1) * δ) * (y - a)) by (unfold D in *; nia).
  split_and!; [lia|done|].
  assert ((x * u + (q + 1) * δ) * (y - a) <= (x + (q + 1)) * u * (y - a))
    by (apply Z.mul_le_mono_nonneg_r; nia).
  apply (Z.mul_lt_mono_pos_l u); [done|]. nia.
Qed.

(** What a rounded quotient is the largest of. *)
Lemma le_div_iff a b q : 0 < b -> q <= a / b <-> q * b <= a.
Proof.
  intros Hb. split; [|by apply Zdiv_le_lower_bound]. intros Hq. pose proof (Z.mul_div_le a b Hb). nia.
Qed.

Lemma dec_unit_bound : 0 < dec_unit < 2 ^ 60.
Proof. unfold dec_unit. lia. Qed.

Lemma GetInputPrice_total a x y fee :
  valid_fee fee -> 0 <= a < price_bound -> 0 < x < price_bound -> 0 <= y < price_bound ->
  ∃ r, GetInputPrice a x y fee = Ok r.
Proof.
  intros Hf Ha Hx Hy. unfold GetInputPrice, price_bound in *.
  rewrite delta_fee, scale_unit by done. destruct Hf. pose proof dec_unit_bound.
  pose proof (mul_bound a (dec_unit - fee) 98 60 ltac:(lia) ltac:(lia) ltac:(lia) ltac:(lia)).
  pose proof (mul_bound _ y (98 + 60) 98 ltac:(eassumption) ltac:(lia) ltac:(lia) ltac:(lia)).
  pose proof (mul_bound x dec_unit 98 60 ltac:(lia) ltac:(lia) ltac:(lia) ltac:(lia)).
  cbn [obind]. rewrite int_Mul_spec, checked_int_fits by lia. cbn [obind].
  rewrite int_Mul_spec, checked_int_fits by lia. cbn [obind].
  rewrite int_Mul_spec, checked_int_fits by lia. cbn [obind].
  rewrite int_Add_spec, checked_int_fits by lia. cbn [obind].
  rewrite int_Quo_spec by nia. eauto.
Qed.

Lemma GetOutputPrice_total a x y fee :
  valid_fee fee -> 0 <= a < y -> 0 <= x < price_bound -> y < price_bound ->
  ∃ r, GetOutputPrice a x y fee = Ok r.
Proof.
  intros Hf Ha Hx Hy. unfold GetOutputPrice, price_bound in *.
  rewrite delta_fee, scale_unit by done. destruct Hf. pose proof dec_unit_bound.
  pose proof (mul_bound x a 98 98 ltac:(lia) ltac:(lia) ltac:(lia) ltac:(lia)).
  assert (0 <= x * a * dec_unit <= 2 ^ (98 + 98) * 10 ^ 18) by (unfold dec_unit; lia).
  pose proof (mul_bound (y - a) (dec_unit - fee) 98 60 ltac:(lia) ltac:(lia) ltac:(lia) ltac:(lia)).
  cbn [obind]. rewrite int_Mul_spec, checked_int_fits by lia. cbn [obind].
  rewrite int_Mul_spec, checked_int_fits by lia. cbn [obind].
  rewrite int_Sub_spec, checked_int_fits by lia. cbn [obind].
  rewrite int_Mul_spec, checked_int_fits by lia. cbn [obind].
  assert (0 < (y - a) * (dec_unit - fee)) by (apply Z.mul_pos_pos; lia).
  rewrite int_Quo_spec by lia. cbn [obind]. rewrite Z.quot_div_nonneg by lia.
  pose proof (Z.div_pos (x * a * dec_unit) ((y - a) * (dec_unit - fee)) ltac:(lia) ltac:(lia)).
  assert (x * a * dec_unit / ((y - a) * (dec_unit - fee)) <= x * a * dec_unit)
    by (apply Z.div_le_upper_bound; [lia|]; nia).
  rewrite int_Add_spec, checked_int_fits by lia. eauto.
Qed.

(** C13: the sell price is total on reserves and amounts below 2^98, pays less
    than the output reserve, never lowers the product of the reserves, and is
    exactly the largest payment that keeps the product when only the input less
    the fee is added to the reserve: the payments up to it keep it, and every
    payment above it lowers it. *)
Theorem input_price_correct a x y fee :
  valid_fee fee -> 0 < a < price_bound -> 0 < x < price_bound -> 0 < y < price_bound ->
  ∃ r, GetInputPrice a x y fee = Ok r ∧ 0 <= r < y ∧ x * y <= (x + a) * (y - r) ∧
    ∀ q, q <= r <-> x * dec_unit * y <= (x * dec_unit + a * (dec_unit - fee)) * (y - q).
Proof.
  intros Hf Ha Hx Hy. destruct (GetInputPrice_total a x y fee) as [r E]; [done|lia..|].
  exists r. split; [done|]. pose proof (input_price_value a x y fee r Hf ltac:(lia) ltac:(lia) ltac:(lia) E) as Er.
  destruct (input_price_product a x y fee r Hf ltac:(lia) ltac:(lia) ltac:(lia) Er) as (?&?&?).
  split_and!; [lia|lia|done|]. destruct Hf. pose proof dec_unit_bound.
  set (δ := dec_unit - fee) in *. assert (0 <= a * δ) by nia. intros q.
  rewrite Er, le_div_iff by nia. nia.
Qed.

(** C14: the buy price is total on reserves below 2^98, is positive, strictly
    raises the product of the reserves, and is exactly the smallest payment that
    strictly raises it when only the payment less the fee is added to the reserve:
    this payment and every larger one raise it, and no smaller one does. *)
Theorem output_price_correct a x y fee :
  valid_fee fee -> 0 < a < y -> 0 < x < price_bound -> y < price_bound ->
  ∃ r, GetOutputPrice a x y fee = Ok r ∧ 0 < r ∧ x * y < (x + r) * (y - a) ∧
    ∀ q, r <= q <-> x * dec_unit * y < (x * dec_unit + q * (dec_unit - fee)) * (y - a).
Proof.
  intros Hf Ha Hx Hy. destruct (GetOutputPrice_total a x y fee) as [r E]; [done|lia..|].
  exists r. split; [done|]. pose proof (output_price_value a x y fee r Hf ltac:(lia) ltac:(lia) ltac:(lia) E) as Er.
  destruct (output_price_product a x y fee r Hf ltac:(lia) ltac:(lia) Er) as (?&?&?).
  split_and!; [done|done|]. destruct Hf. pose proof dec_unit_bound.
  set (δ := dec_unit - fee) in *. intros q.
  pose proof (le_div_iff (x * a * dec_unit) ((y - a) * δ) q ltac:(nia)). nia.
Qed.

End price_facts.

Lemma input_price_correct_witness :
  valid_fee (3 * 10 ^ 15) ∧ ∃ r, GetInputPrice 1000 100000 50000 (3 * 10 ^ 15) = Ok r ∧ 0 <= r < 50000 ∧
    100000 * 50000 <= (100000 + 1000) * (50000 - r) ∧
    ∀ q, q <= r <-> 100000 * dec_unit * 50000 <= (100000 * dec_unit + 1000 * (dec_unit - 3 * 10 ^ 15)) * (50000 - q).
Proof.
  split; [unfold valid_fee, dec_unit; lia|].
  apply (input_price_correct 1000 100000 50000 (3 * 10 ^ 15)); unfold valid_fee, dec_unit, price_bound; lia.
Defined.

Lemma output_price_correct_witness :
  ∃ r, GetOutputPrice 1000 100000 50000 (3 * 10 ^ 15) = Ok r ∧ 0 < r ∧
    100000 * 50000 < (100000 + r) * (50000 - 1000) ∧
    ∀ q, r <= q <-> 100000 * dec_unit * 50000 < (100000 * dec_unit + q * (dec_unit - 3 * 10 ^ 15)) * (50000 - 1000).
Proof.
  apply (output_price_correct 1000 100000 50000 (3 * 10 ^ 15)); unfold valid_fee, dec_unit, price_bound; lia.
Defined.

(** ** The keeper *)
Section keeper_facts.
Context {W : Type} {SM : SdkMath} {SML : SdkMathLaws} {ST : SdkTypes} {STL : SdkTypesLaws}.
Context {HA : Hashes} {HAL : HashesLaws} {PS : ParamSubspace} {PSL : ParamSubspaceLaws}.
Context {AK : AccountKeeper W} {BK : BankKeeper W} {BL : BankLaws W}.
#[local] Abbreviation C := (Chain W Store).

Lemma GetParams_Ok p (c c' : C) : GetParams c = (Ok p, c') -> c' = c ∧ st_params (store c) = Some p.
Proof. unfold GetParams. intros E. cinv. by case_match; cinv. Qed.

Lemma GetStandardDenom_Ok d (c c' : C) :
  GetStandardDenom c = (Ok d, c') -> c' = c ∧ d = default "" (st_standardDenom (store c)).
Proof. unfold GetStandardDenom. intros E. by cinv. Qed.

Lemma GetPool_Ok id r (c c' : C) :
  GetPool id c = (Ok r, c') -> c' = c ∧ r = st_pools (store c) !! GetPoolKey id.
Proof. unfold GetPool. intros E. by cinv. Qed.

Lemma GetPoolByLptDenom_Ok l r (c c' : C) :
  GetPoolByLptDenom l c = (Ok r, c') ->
  c' = c ∧ r = (st_lptDenoms (store c) !! GetLptDenomKey l ≫= fun id => st_pools (store c) !! GetPoolKey id).
Proof.
  unfold GetPoolByLptDenom. intros E. cinv. destruct (_ !! GetLptDenomKey l); cbn.
  - by apply GetPool_Ok in E as [-> ->].
  - by cinv.
Qed.

Lemma GetPoolBalances_Ok addr bs (c c' : C) :
  GetPoolBalances addr c = (Ok bs, c') ->
  c' = c ∧ ∃ a, AccAddressFromBech32 addr = Ok a ∧ bs = GetAllBalances (world c) a.
Proof.
  unfold GetPoolBalances. intros E. cinv.
  destruct (GetAccount _ _) as [acc|] eqn:Ea; cinv.
  apply GetAccount_address in Ea. subst. split; [done|]. by exists (acc_address acc).
Qed.

Lemma reserve_Ok w a d v :
  Coins_AmountOf (GetAllBalances w a) d = Ok v ->
  v = GetBalance w a d ∧ ValidateDenom d = true.
Proof.
  rewrite Coins_AmountOf_spec by apply GetAllBalances_valid. case_match; [|done].
  intros [= <-]. split; [|done]. by apply GetAllBalances_spec.
Qed.

Lemma NewCoins_Ok cs cs' : NewCoins cs = Ok cs' -> ∀ d, amount_of cs' d = amount_of cs d.
Proof. intros E. by apply NewCoins_effect in E as [_ ?]. Qed.

Lemma reserve_address_ok l : acc_address_ok (GetReservePoolAddr l).
Proof.
  unfold GetReservePoolAddr, acc_address_ok. pose proof (AddressHash_address l) as Hl. split.
  - intros E. by rewrite E in Hl.
  - rewrite Hl. lia.
Qed.

Lemma escrow_roundtrip l a :
  AccAddressFromBech32 (AccAddress_String (GetReservePoolAddr l)) = Ok a -> a = GetReservePoolAddr l.
Proof. rewrite bech32_roundtrip by apply reserve_address_ok. by intros [= <-]. Qed.

Lemma check_address_Ok a u (c c' : C) : check_address a c = (Ok u, c') -> c' = c.
Proof. unfold check_address. intros E. by case_match; cinv. Qed.

End keeper_facts.

(** [kinv] extends [cinv] with the read-only methods of the keeper. *)
Ltac kinv1 :=
  match goal with
  | H : GetParams _ = (Ok _, _) |- _ => apply GetParams_Ok in H as [? H]; subst
  | H : GetStandardDenom _ = (Ok _, _) |- _ => apply GetStandardDenom_Ok in H as [? ?]; subst
  | H : GetPool _ _ = (Ok _, _) |- _ => apply GetPool_Ok in H as [? ?]; subst
  | H : GetPoolByLptDenom _ _ = (Ok _, _) |- _ => apply GetPoolByLptDenom_Ok in H as [? ?]; subst
  | H : GetPoolBalances _ _ = (Ok _, _) |- _ =>
      let a := fresh "addr" in apply GetPoolBalances_Ok in H as (? & a & H & ?); subst
  | H : check_address _ _ = (Ok _, _) |- _ => apply check_address_Ok in H; subst
  | H : NewCoin _ _ = Ok _ |- _ => apply NewCoin_Ok in H as (? & ? & ?); subst
  | H : Coins_AmountOf (GetAllBalances _ _) _ = Ok _ |- _ => apply reserve_Ok in H as [? ?]; subst
  end.
Ltac kinv := repeat ((minv1 || cinv1 || kinv1); simpl in * ).

(** ** Swaps *)
Section swap_facts.
Context {W : Type} {SM : SdkMath} {SML : SdkMathLaws} {ST : SdkTypes} {STL : SdkTypesLaws}.
Context {HA : Hashes} {HAL : HashesLaws} {PS : ParamSubspace} {PSL : ParamSubspaceLaws}.
Context {AK : AccountKeeper W} {BK : BankKeeper W} {BL : BankLaws W}.
#[local] Abbreviation C := (Chain W Store).

(** The other denomination of a pair that contains the standard one. *)
Definition counterparty (standard denom1 denom2 : string) : string :=
  if String.eqb denom1 standard then denom2 else denom1.

Lemma GetLptDenomFromDenoms_Ok d1 d2 l (c c' : C) :
  GetLptDenomFromDenoms d1 d2 c = (Ok l, c') ->
  c' = c ∧ d1 ≠ d2 ∧
  ∃ std pool, std = default "" (st_standardDenom (store c)) ∧ (d1 = std ∨ d2 = std) ∧
    st_pools (store c) !! GetPoolKey (GetPoolId (counterparty std d1 d2)) = Some pool ∧
    l = Pool_LptDenom pool.
Proof.
  unfold GetLptDenomFromDenoms. intros E. kinv.
  destruct (st_pools _ !! _) as [pool|] eqn:Ep; kinv. breflect. split_and!; [done|done|].
  eexists _, pool. split_and!; [done| |exact Ep|done].
  match goal with H : _ \/ _ |- _ => destruct H; breflect; auto end.
Qed.

Lemma from_bech32_nonempty s a : AccAddressFromBech32 s = Ok a -> a ≠ "".
Proof. by intros [? _]%bech32_sound. Qed.

(** The pool that trades a pair of denominations. *)
Definition trading_pool (c : C) (d1 d2 : string) (pool : Pool) : Prop :=
  let std := default "" (st_standardDenom (store c)) in
  d1 ≠ d2 ∧ (d1 = std ∨ d2 = std) ∧
  st_pools (store c) !! GetPoolKey (GetPoolId (counterparty std d1 d2)) = Some pool.

(** What a swap moves: the sold coin to the pool, the bought one out of it. *)
Definition δ_swap (sender pool recipient : string) (sold bought : Coin) (a d : string) : Z :=
  δ_send sender pool [sold] a d + δ_send pool recipient [bought] a d.

Lemma lpt_trading_pool d1 d2 l (c c' : C) :
  GetLptDenomFromDenoms d1 d2 c = (Ok l, c') ->
  c' = c ∧ ∃ pool, trading_pool c d1 d2 pool ∧ l = Pool_LptDenom pool.
Proof.
  intros (-> & Hne & std & pool & -> & Hor & Hl & ->)%GetLptDenomFromDenoms_Ok.
  split; [done|]. by exists pool.
Qed.

Lemma swapCoins_Ok s r sold bought (c c' : C) :
  r ≠ "" -> swapCoins s r sold bought c = (Ok tt, c') ->
  store c' = store c ∧ events c' = events c ∧
  ∃ pool, trading_pool c (Denom sold) (Denom bought) pool ∧
    bank_delta (world c) (world c')
      (δ_swap s (GetReservePoolAddr (Pool_LptDenom pool)) r sold bought) (fun _ => 0).
Proof.
  intros Hr E. unfold swapCoins in E. rewrite (proj2 (String.eqb_neq r "") Hr) in E. minv1.
  apply lpt_trading_pool in E0 as (-> & pool & Hp & ->). kinv.
  split_and!; [done..|]. exists pool. split; [done|].
  bank_inv. bank_chain; done.
Qed.

Lemma find_coin_Ok d cs coin : find_coin d cs = Some coin -> Denom coin = d ∧ coin ∈ cs.
Proof.
  induction cs as [|x cs IH]; [done|]. cbn. destruct (String.eqb_spec (Denom x) d).
  - intros [= <-]. split; [done|]. left.
  - intros [? ?]%IH. split; [done|]. by right.
Qed.

Lemma GetMaximumSwapAmount_Ok d m (c c' : C) :
  GetMaximumSwapAmount d c = (Ok m, c') ->
  c' = c ∧ ∃ p, st_params (store c) = Some p ∧ find_coin d (MaxSwapAmount p) = Some m.
Proof.
  unfold GetMaximumSwapAmount. intros E. kinv. destruct (find_coin _ _) eqn:Ef; kinv. eauto.
Qed.

(** Every stored parameter has passed its validator. *)
Definition params_ok (s : Store) : Prop :=
  ∀ p, st_params s = Some p -> Forall (fun r => r = Ok tt) (ParamSetPairs p).

Lemma params_ok_fee s p : params_ok s -> st_params s = Some p -> valid_fee (Fee p).
Proof.
  intros Hok Hp. specialize (Hok p Hp). apply Forall_cons in Hok as [Hf _].
  unfold validateFee in Hf. case_match eqn:E; [done|]. unfold valid_fee. breflect. lia.
Qed.

Definition reserve (c : C) (pool : Pool) (d : string) : Z :=
  GetBalance (world c) (GetReservePoolAddr (Pool_LptDenom pool)) d.

Lemma calculateWithExactInput_Ok sold d r (c c' : C) :
  params_ok (store c) -> 0 < Amount sold ->
  calculateWithExactInput sold d c = (Ok r, c') ->
  c' = c ∧ ∃ pool, trading_pool c (Denom sold) d pool ∧
    let x := reserve c pool (Denom sold) in let y := reserve c pool d in
    0 <= r < y ∧ x * y <= (x + Amount sold) * (y - r).
Proof.
  intros Hok Ha E. unfold calculateWithExactInput in E. minv1.
  apply lpt_trading_pool in E0 as (-> & pool & Hp & ->). kinv.
  match goal with H : AccAddressFromBech32 _ = _ |- _ => apply escrow_roundtrip in H; subst end.
  kinv. breflect. split; [done|]. exists pool. split; [done|].
  match goal with H : st_params _ = Some _ |- _ => pose proof (params_ok_fee _ _ Hok H) as Hf end.
  match goal with H : GetInputPrice _ _ _ _ = Ok _ |- _ =>
    apply input_price_value in H; [|done|lia..] end.
  unfold reserve. edestruct input_price_product as (? & _ & ?); [exact Hf| | | |eassumption|]; [lia..|].
  done.
Qed.

Lemma calculateWithExactOutput_Ok bought d r (c c' : C) :
  params_ok (store c) -> 0 < Amount bought ->
  calculateWithExactOutput bought d c = (Ok r, c') ->
  c' = c ∧ ∃ pool, trading_pool c (Denom bought) d pool ∧
    let x := reserve c pool d in let y := reserve c pool (Denom bought) in
    Amount bought < y ∧ 0 < r ∧ x * y < (x + r) * (y - Amount bought).
Proof.
  intros Hok Ha E. unfold calculateWithExactOutput in E. minv1.
  apply lpt_trading_pool in E0 as (-> & pool & Hp & ->). kinv.
  match goal with H : AccAddressFromBech32 _ = _ |- _ => apply escrow_roundtrip in H; subst end.
  kinv. breflect. split; [done|]. exists pool. split; [done|].
  match goal with H : st_params _ = Some _ |- _ => pose proof (params_ok_fee _ _ Hok H) as Hf end.
  match goal with H : GetOutputPrice _ _ _ _ = Ok _ |- _ =>
    apply output_price_value in H; [|done|lia..] end.
  unfold reserve. edestruct output_price_product as (? & _ & ?); [exact Hf| | |eassumption|]; [lia..|].
  done.
Qed.

Lemma trading_pool_sym c d1 d2 pool : trading_pool c d1 d2 pool -> trading_pool c d2 d1 pool.
Proof.
  unfold trading_pool, counterparty. intros (Hne & Hor & Hl). split_and!; [done|tauto|].
  rewrite <-Hl. do 3 f_equal. repeat case_match; breflect; naive_solver.
Qed.

(** Exactly one side of the pair is the standard denomination. *)
Lemma traded_quote_coin {A} c d1 d2 pool (x y : A) : trading_pool c d1 d2 pool ->
  let std := default "" (st_standardDenom (store c)) in
  (if negb (String.eqb d1 std) then x else y) = (if String.eqb d2 std then x else y).
Proof.
  cbn zeta. intros (Hne & Hor & _).
  destruct (String.eqb_spec d1 (default "" (st_standardDenom (store c))));
    destruct (String.eqb_spec d2 (default "" (st_standardDenom (store c)))); cbn;
    [congruence|done|done|tauto].
Qed.

Lemma trading_pool_fun c d1 d2 p q : trading_pool c d1 d2 p -> trading_pool c d1 d2 q -> p = q.
Proof. intros (_ & _ & H1) (_ & _ & H2). congruence. Qed.

(** The reserves after a swap whose price keeps the product keep the product,
    whoever receives the bought coin. *)
Lemma swap_keeps_product (c c' : C) pool sender recipient sold bought :
  let addr := GetReservePoolAddr (Pool_LptDenom pool) in
  let x := reserve c pool (Denom sold) in let y := reserve c pool (Denom bought) in
  Denom sold ≠ Denom bought -> sender ≠ addr -> 0 <= Amount sold -> 0 <= Amount bought ->
  bank_delta (world c) (world c') (δ_swap sender addr recipient sold bought) (fun _ => 0) ->
  x * y <= (x + Amount sold) * (y - Amount bought) ->
  x * y <= reserve c' pool (Denom sold) * reserve c' pool (Denom bought).
Proof.
  cbn zeta. intros Hne Hs Ha Hb [B _ _] Hk. unfold reserve in *. rewrite !B.
  unfold δ_swap, δ_send, gain. rewrite !amount_of_single, !String.eqb_refl.
  rewrite (proj2 (String.eqb_neq _ sender)) by done.
  rewrite (proj2 (String.eqb_neq (Denom sold) (Denom bought))) by done.
  rewrite (proj2 (String.eqb_neq (Denom bought) (Denom sold))) by done.
  pose proof (GetBalance_nonneg (world c) (GetReservePoolAddr (Pool_LptDenom pool)) (Denom sold)).
  pose proof (GetBalance_nonneg (world c) (GetReservePoolAddr (Pool_LptDenom pool)) (Denom bought)).
  destruct (String.eqb _ recipient); nia.
Qed.

(** A coin does not exceed the maximum swap amount of its denomination. *)
Definition within_limit (c : C) (coin : Coin) : Prop :=
  ∃ p m, st_params (store c) = Some p ∧ find_coin (Denom coin) (MaxSwapAmount p) = Some m ∧
    Amount coin <= Amount m.

(** What a successful order does: [sold] and [bought] are the coins moved. *)
Definition swap_done (msg : MsgSwapOrder) (c c' : C) (sold bought : Coin) : Prop :=
  ∃ pool sender recipient,
    let addr := GetReservePoolAddr (Pool_LptDenom pool) in
    AccAddressFromBech32 (Input_Address (Swap_Input msg)) = Ok sender ∧
    AccAddressFromBech32 (Output_Address (Swap_Output msg)) = Ok recipient ∧
    trading_pool c (Denom sold) (Denom bought) pool ∧
    within_limit c (if String.eqb (Denom bought) (default "" (st_standardDenom (store c)))
                    then sold else bought) ∧
    store c' = store c ∧
    bank_delta (world c) (world c') (δ_swap sender addr recipient sold bought) (fun _ => 0) ∧
    Amount bought < reserve c pool (Denom bought) ∧
    (sender ≠ addr ->
     reserve c pool (Denom sold) * reserve c pool (Denom bought)
     <= reserve c' pool (Denom sold) * reserve c' pool (Denom bought)).

Lemma TradeExactInputForOutput_Ok msg r (c c' : C) :
  params_ok (store c) -> 0 < Amount (Input_Coin (Swap_Input msg)) ->
  TradeExactInputForOutput (Swap_Input msg) (Swap_Output msg) c = (Ok r, c') ->
  Amount (Output_Coin (Swap_Output msg)) <= r ∧
  swap_done msg c c' (Input_Coin (Swap_Input msg)) (mkCoin (Denom (Output_Coin (Swap_Output msg))) r).
Proof.
  intros Hok Ha E. unfold TradeExactInputForOutput in E. minv1.
  apply calculateWithExactInput_Ok in E0 as (-> & pool & Hp & Hr & Hk); [|done..]. kinv. breflect.
  match goal with HG : GetMaximumSwapAmount _ _ = _ |- _ =>
    apply GetMaximumSwapAmount_Ok in HG as (-> & p & Hpp & Hm) end.
  match goal with HS : swapCoins _ _ _ _ _ = _ |- _ =>
    apply swapCoins_Ok in HS as (Hst & Hev & pool' & Hp' & HB); [|by eapply from_bech32_nonempty] end.
  assert (pool' = pool) as -> by (by eapply trading_pool_fun).
  split; [done|]. eexists pool, _, _. split_and!; try done.
  - eexists p, _. split_and!; [done| |]; cbn; destruct (String.eqb _ _); eassumption.
  - cbn. lia.
  - intros Hs. eapply swap_keeps_product; try done; [by destruct Hp|lia].
Qed.

Lemma TradeInputForExactOutput_Ok msg r (c c' : C) :
  params_ok (store c) -> 0 < Amount (Output_Coin (Swap_Output msg)) ->
  TradeInputForExactOutput (Swap_Input msg) (Swap_Output msg) c = (Ok r, c') ->
  0 <= r <= Amount (Input_Coin (Swap_Input msg)) ∧
  swap_done msg c c' (mkCoin (Denom (Input_Coin (Swap_Input msg))) r) (Output_Coin (Swap_Output msg)).
Proof.
  intros Hok Ha E. unfold TradeInputForExactOutput in E. minv1.
  apply calculateWithExactOutput_Ok in E0 as (-> & pool & Hp & Hr & Hr0 & Hk); [|done..]. kinv. breflect.
  match goal with HG : GetMaximumSwapAmount _ _ = _ |- _ =>
    apply GetMaximumSwapAmount_Ok in HG as (-> & p & Hpp & Hm) end.
  match goal with HS : swapCoins _ _ _ _ _ = _ |- _ =>
    apply swapCoins_Ok in HS as (Hst & Hev & pool' & Hp' & HB); [|by eapply from_bech32_nonempty] end.
  assert (pool' = pool) as -> by (eapply trading_pool_fun; [done|]; by apply trading_pool_sym).
  split; [lia|]. eexists pool, _, _. split_and!; try done.
  - rewrite <-(traded_quote_coin _ _ _ _ _ _ Hp'). by eexists p, _.
  - intros Hs. eapply swap_keeps_product; try done; [by destruct Hp'|lia|cbn; lia].
Qed.

Lemma validated_coin input : ValidateInput input = Ok tt -> 0 < Amount (Input_Coin input).
Proof.
  unfold ValidateInput, IsPositive. case_match eqn:E; [done|]. intros _. by breflect.
Qed.

Lemma validated_output output : ValidateOutput output = Ok tt -> 0 < Amount (Output_Coin output).
Proof.
  unfold ValidateOutput, IsPositive. case_match eqn:E; [done|]. intros _. by breflect.
Qed.

Lemma emit_world e (c c' : C) : emit e c = (Ok tt, c') ->
  world c' = world c ∧ store c' = store c.
Proof. intros E. by cinv. Qed.

Lemma swap_done_emit msg (c c1 c2 : C) sold bought :
  world c2 = world c1 -> store c2 = store c1 ->
  swap_done msg c c1 sold bought -> swap_done msg c c2 sold bought.
Proof. unfold swap_done, reserve. by intros -> ->. Qed.

(** C1: a successful sell order moves exactly the input coin to the pool of the
    pair and pays at least the requested minimum, within the swap limit and
    below the reserve; no other balance, supply or stored entry changes, and
    the product of the two reserves does not fall. *)
Theorem sell_order_effect k ctx msg (c c' : C) :
  params_ok (store c) -> Swap_IsBuyOrder msg = false ->
  msg_SwapCoin k ctx msg c = (Ok tt, c') ->
  ∃ r, Amount (Output_Coin (Swap_Output msg)) <= r ∧
    swap_done msg c c' (Input_Coin (Swap_Input msg))
      (mkCoin (Denom (Output_Coin (Swap_Output msg))) r).
Proof.
  intros Hok Hbuy E. unfold msg_SwapCoin, Swap in E. rewrite Hbuy in E. kinv.
  match goal with HT : TradeExactInputForOutput _ _ _ = (Ok ?r, _) |- _ =>
    apply TradeExactInputForOutput_Ok in HT as [? Hd]; [|done|by apply validated_coin]; exists r end.
  split; [done|]. by eapply swap_done_emit; [..|exact Hd].
Qed.

(** C2: a successful buy order pays out exactly the requested coin and takes at
    most the offered maximum, with the same guarantees on limit, reserves,
    other balances and the product of the reserves. *)
Theorem buy_order_effect k ctx msg (c c' : C) :
  params_ok (store c) -> Swap_IsBuyOrder msg = true ->
  msg_SwapCoin k ctx msg c = (Ok tt, c') ->
  ∃ r, 0 <= r <= Amount (Input_Coin (Swap_Input msg)) ∧
    swap_done msg c c' (mkCoin (Denom (Input_Coin (Swap_Input msg))) r)
      (Output_Coin (Swap_Output msg)).
Proof.
  intros Hok Hbuy E. unfold msg_SwapCoin, Swap in E. rewrite Hbuy in E. kinv.
  match goal with HT : TradeInputForExactOutput _ _ _ = (Ok ?r, _) |- _ =>
    apply TradeInputForExactOutput_Ok in HT as (? & Hd); [|done|by apply validated_output];
    exists r end.
  split; [done|]. by eapply swap_done_emit; [..|exact Hd].
Qed.

End swap_facts.

(** ** A concrete chain for the witnesses

    One pool ("atucana" against "usdc") created by genesis data and funded by
    the messages themselves. *)
Definition ex_params : Params :=
  mkParams (3 * 10 ^ 15) (mkCoin "atucana" 1000) (4 * 10 ^ 17) 1000000
    [mkCoin "usdc" 5000].
Definition ex_keeper : Keeper := mkKeeper "fee_collector" ∅ "tuc1gov".
Definition ex_alice : string := "tuc1alice".
Definition ex_bob : string := "tuc1bob".
Definition ex_genesis : GenesisState := mkGenesisState ex_params "atucana" [] 1.
Definition ex_world : RefWorld :=
  mkRefWorld {[("alice", "atucana") := 500000%N; ("alice", "usdc") := 500000%N;
               ("bob", "usdc") := 10000%N; ("bob", "atucana") := 10000%N]}
    {[ "atucana" := 510000%N; "usdc" := 510000%N ]} {[ "alice" := false; "bob" := false ]}.
Definition ex_empty : Store := mkStore None None None ∅ ∅.
Definition ex_ctx : BlockCtx := mkBlockCtx 0 1.
Definition ex_start : Chain RefWorld Store := (InitGenesis ex_genesis (mkChain ex_world ex_empty [])).2.
Definition ex_add : MsgAddLiquidity := mkMsgAddLiquidity (mkCoin "usdc" 200000) 100000 1 10 ex_alice.
Definition ex_pooled : Chain RefWorld Store := (msg_AddLiquidity ex_keeper ex_ctx ex_add ex_start).2.
Definition ex_sell : MsgSwapOrder :=
  mkMsgSwapOrder (mkInput ex_bob (mkCoin "usdc" 1000)) (mkOutput ex_bob (mkCoin "atucana" 400)) 10 false.
Definition ex_buy : MsgSwapOrder :=
  mkMsgSwapOrder (mkInput ex_bob (mkCoin "usdc" 1000)) (mkOutput ex_bob (mkCoin "atucana" 400)) 10 true.

Lemma ex_params_ok s : st_params s = Some ex_params -> params_ok s.
Proof. intros E p Hp. simplify_eq. repeat constructor. Qed.

Lemma sell_order_effect_witness :
  ∃ r, 400 <= r ∧
    swap_done ex_sell ex_pooled (msg_SwapCoin ex_keeper ex_ctx ex_sell ex_pooled).2
      (mkCoin "usdc" 1000) (mkCoin "atucana" r).
Proof.
  apply (sell_order_effect ex_keeper ex_ctx ex_sell ex_pooled).
  - apply ex_params_ok. vm_compute. reflexivity.
  - reflexivity.
  - apply run_Ok. vm_compute. reflexivity.
Defined.

Lemma buy_order_effect_witness :
  ∃ r, 0 <= r <= 1000 ∧
    swap_done ex_buy ex_pooled (msg_SwapCoin ex_keeper ex_ctx ex_buy ex_pooled).2
      (mkCoin "usdc" r) (mkCoin "atucana" 400).
Proof.
  apply (buy_order_effect ex_keeper ex_ctx ex_buy ex_pooled).
  - apply ex_params_ok. vm_compute. reflexivity.
  - reflexivity.
  - apply run_Ok. vm_compute. reflexivity.
Defined.
