(* ===== verification/CoinswapLiquidity.v ===== *)
(** * Theorems about x/coinswap: liquidity

    Deposits and withdrawals, the fee of a new pool, and the bound on what a
    deposit followed by a withdrawal can return. *)

From stdpp Require Import base gmap strings list.
From S2P Require Import Prelude Golang Sdk CoinswapTypes Coinswap Reference CoinswapFacts.

#[local] Open Scope Z_scope.
#[local] Open Scope go_scope.

Section liquidity_facts.
Context {W : Type} {SM : SdkMath} {SML : SdkMathLaws} {ST : SdkTypes} {STL : SdkTypesLaws}.
Context {HA : Hashes} {HAL : HashesLaws} {PS : ParamSubspace} {PSL : ParamSubspaceLaws}.
Context {AK : AccountKeeper W} {BK : BankKeeper W} {BL : BankLaws W}.
#[local] Abbreviation C := (Chain W Store).

(** What [addLiquidity] moves: the deposit to the pool, the minted liquidity to
    the sender, where the supply grows by it. *)
Definition δ_deposit (sender addr : string) (coins : list Coin) (lp : Coin) (a d : string) : Z :=
  δ_send sender addr coins a d + gain [lp] sender a d.

Lemma addLiquidity_Ok sender addr std tok lptDenom m lp (c c' : C) :
  addLiquidity sender addr std tok lptDenom m c = (Ok lp, c') ->
  lp = mkCoin lptDenom m ∧ 0 <= m ∧ store c' = store c ∧
  bank_delta (world c) (world c') (δ_deposit sender addr [std; tok] lp) (amount_of [lp]).
Proof.
  unfold addLiquidity. intros E. kinv. bank_inv. split_and!; [done|done|done|].
  bank_chain; [|lia]. unfold δ_deposit, δ_send, δ_mint, gain. lia.
Qed.

Lemma bankers_tax a r : bankers (a * dec_unit * r) = a * r.
Proof. replace (a * dec_unit * r) with (a * r * dec_unit) by ring. apply bankers_exact. Qed.

Lemma DeductPoolCreationFee_Ok k creator (c c' : C) :
  DeductPoolCreationFee k creator c = (Ok tt, c') ->
  store c' = store c ∧ ∃ p collector,
    st_params (store c) = Some p ∧ GetModuleAddress (feeCollectorName k) = Some collector ∧
    let fee := PoolCreationFee p in
    let tax := Z.quot (Amount fee * TaxRate p) dec_unit in
    0 <= tax <= Amount fee ∧
    bank_delta (world c) (world c')
      (fun a d => gain [mkCoin (Denom fee) tax] collector a d - gain [fee] creator a d)
      (fun d => - amount_of [mkCoin (Denom fee) (Amount fee - tax)] d).
Proof.
  unfold DeductPoolCreationFee. intros E. kinv.
  match goal with H : Coin_Sub _ _ = Ok _ |- _ => apply Coin_Sub_effect in H as (_ & -> & ?) end.
  cbn in *. bank_inv. arith_inv. rewrite bankers_tax in *. split; [done|].
  eexists _, _. split_and!; [done|done|lia|lia|].
  bank_chain; [|lia]. unfold δ_send, δ_burn, gain. cbn. repeat case_match; lia.
Qed.

(** The creation fee of a pool is split without loss: the creator pays the
    whole fee, the tax [fee * TaxRate] (rounded down) reaches the fee collector,
    the rest is burned from the supply, and the module keeps nothing. *)
Theorem pool_creation_fee_split k creator (c c' : C) :
  DeductPoolCreationFee k creator c = (Ok tt, c') ->
  store c' = store c ∧ ∃ p collector,
    st_params (store c) = Some p ∧ GetModuleAddress (feeCollectorName k) = Some collector ∧
    let fee := PoolCreationFee p in
    let tax := Z.quot (Amount fee * TaxRate p) dec_unit in
    0 <= tax <= Amount fee ∧
    bank_delta (world c) (world c')
      (fun a d => gain [mkCoin (Denom fee) tax] collector a d - gain [fee] creator a d)
      (fun d => - amount_of [mkCoin (Denom fee) (Amount fee - tax)] d).
Proof. apply DeductPoolCreationFee_Ok. Qed.

(** The amounts of a deposit into a pool with liquidity [L] and reserves [x]
    (standard) and [y] (token): [m] is minted for [dx] and [dt]. *)
Record fair_deposit (L x y dx dt m : Z) : Prop := {
  fair_standard : m * x <= L * dx;
  fair_token : m * y <= L * dt;
  fair_positive : 0 <= m ∧ 0 <= dx ∧ 0 < dt
}.

Lemma deposit_fair L x y dx :
  0 < L -> 0 < x -> 0 <= y -> 0 <= dx ->
  fair_deposit L x y dx (Z.quot (y * dx) x + 1) (Z.quot (L * dx) x).
Proof.
  intros HL Hx Hy Hdx. rewrite !Z.quot_div_nonneg by nia.
  pose proof (Z.mul_div_le (L * dx) x Hx). pose proof (Z.mul_succ_div_gt (y * dx) x Hx).
  assert (0 <= L * dx / x) by (apply Z.div_pos; nia).
  assert (0 <= y * dx / x) by (apply Z.div_pos; nia).
  set (m := L * dx / x) in *. set (q := y * dx / x) in *.
  split; [lia| |lia]. apply (Z.mul_le_mono_pos_l _ _ x Hx). nia.
Qed.

Lemma quote_deposit_Ok p msg std x y L m tok sc (c c' : C) :
  0 <= x -> 0 <= y -> 0 < L -> 0 < Add_ExactStandardAmt msg ->
  quote_deposit p msg std x y L c = (Ok (m, tok, sc), c') ->
  c' = c ∧ ∃ dx dt, tok = mkCoin (Denom (Add_MaxToken msg)) dt ∧ sc = mkCoin std dx ∧
    fair_deposit L x y dx dt m ∧ 0 < dx <= Add_ExactStandardAmt msg ∧
    x + dx <= MaxStandardCoinPerPool p ∧ dt <= Amount (Add_MaxToken msg) ∧
    Add_MinLiquidity msg <= m.
Proof.
  unfold quote_deposit. intros Hx Hy HL Hs E. kinv. simplify_eq. arith_inv. breflect. split; [done|].
  eexists _, _. split_and!; [done|done|apply deposit_fair; lia|lia|lia|lia|lia|lia].
Qed.

(** A deposit of [dx] and [dt] into an existing pool, which mints [lp]. *)
Definition deposit_done (msg : MsgAddLiquidity) (c c' : C) (pool : Pool) (p : Params)
    (sender addr : string) (dx dt : Z) (lp : Coin) : Prop :=
  AccAddressFromBech32 (Add_Sender msg) = Ok sender ∧
  AccAddressFromBech32 (Pool_EscrowAddress pool) = Ok addr ∧
  let std := default "" (st_standardDenom (store c)) in
  let tok := Denom (Add_MaxToken msg) in
  std ≠ tok ∧ Denom lp = Pool_LptDenom pool ∧ store c' = store c ∧
  bank_delta (world c) (world c')
    (δ_deposit sender addr [mkCoin std dx; mkCoin tok dt] lp) (amount_of [lp]) ∧
  0 < dx <= Add_ExactStandardAmt msg ∧ dt <= Amount (Add_MaxToken msg) ∧
  Add_MinLiquidity msg <= Amount lp ∧
  GetBalance (world c) addr std + dx <= MaxStandardCoinPerPool p ∧
  fair_deposit (GetSupply (world c) (Pool_LptDenom pool))
    (GetBalance (world c) addr std) (GetBalance (world c) addr tok) dx dt (Amount lp).

Lemma exact_amount_positive z : ValidateExactStandardAmt z = Ok tt -> 0 < z.
Proof. unfold ValidateExactStandardAmt. case_match; [done|]. intros _. by breflect. Qed.

Lemma max_token_prefix coin :
  ValidateMaxToken coin = Ok tt -> HasPrefix (Denom coin) LptTokenPrefix = false.
Proof. unfold ValidateMaxToken. by repeat case_match. Qed.

Lemma msg_AddLiquidity_existing k ctx msg pool lp (c c' : C) :
  st_pools (store c) !! GetPoolKey (GetPoolId (Denom (Add_MaxToken msg))) = Some pool ->
  GetSupply (world c) (Pool_LptDenom pool) ≠ 0 ->
  msg_AddLiquidity k ctx msg c = (Ok lp, c') ->
  ∃ p sender addr dx dt, st_params (store c) = Some p ∧
    deposit_done msg c c' pool p sender addr dx dt lp.
Proof.
  intros Hpool HL E. unfold msg_AddLiquidity, AddLiquidity in E. kinv.
  match goal with H : match st_pools _ !! _ with _ => _ end _ = _ |- _ => rename H into EQ end.
  rewrite Hpool in EQ. kinv. rewrite (proj2 (Z.eqb_neq _ _) HL) in EQ. kinv.
  match goal with H : quote_deposit _ _ _ _ _ _ _ = (Ok ?v, _) |- _ => destruct v as [[m tok] sc];
    apply quote_deposit_Ok in H as (-> & dx & dt & -> & -> & Hf & ? & ? & ? & ?) end;
    [|apply GetBalance_nonneg|apply GetBalance_nonneg| |by apply exact_amount_positive];
    [|pose proof (GetSupply_nonneg (world c) (Pool_LptDenom pool)); lia].
  kinv. match goal with H : addLiquidity _ _ _ _ _ _ _ = _ |- _ =>
    apply addLiquidity_Ok in H as (-> & ? & ? & ?) end.
  simplify_eq. breflect. eexists _, _, _, dx, dt. split; [done|]. unfold deposit_done. split_and!; done || lia.
Qed.

(** C23: a deposit into a pool that holds liquidity mints at most the share the
    deposit adds to either reserve, so it never dilutes the other providers;
    it takes at most the amounts offered, keeps the standard reserve within
    [MaxStandardCoinPerPool], mints at least the requested minimum, and changes
    nothing but the balances of sender and pool and the supply of the liquidity
    denomination. *)
Theorem deposit_does_not_dilute k ctx msg pool lp (c c' : C) :
  st_pools (store c) !! GetPoolKey (GetPoolId (Denom (Add_MaxToken msg))) = Some pool ->
  GetSupply (world c) (Pool_LptDenom pool) ≠ 0 ->
  msg_AddLiquidity k ctx msg c = (Ok lp, c') ->
  ∃ p sender addr dx dt, st_params (store c) = Some p ∧
    deposit_done msg c c' pool p sender addr dx dt lp.
Proof. apply msg_AddLiquidity_existing. Qed.

(** A withdrawal of the liquidity [lp]: [wx] and [wt] leave the pool. *)
Definition withdrawal_done (msg : MsgRemoveLiquidity) (c c' : C) (pool : Pool)
    (sender addr : string) (wx wt : Z) : Prop :=
  AccAddressFromBech32 (Rem_Sender msg) = Ok sender ∧
  AccAddressFromBech32 (Pool_EscrowAddress pool) = Ok addr ∧
  let std := default "" (st_standardDenom (store c)) in
  let tok := Pool_CounterpartyDenom pool in
  let lp := Rem_WithdrawLiquidity msg in
  let L := GetSupply (world c) (Denom lp) in
  store c' = store c ∧
  bank_delta (world c) (world c')
    (fun a d => δ_send addr sender [mkCoin std wx; mkCoin tok wt] a d - gain [lp] sender a d)
    (fun d => - amount_of [lp] d) ∧
  0 < Amount lp <= L ∧ Rem_MinStandardAmt msg <= wx ∧ Rem_MinToken msg <= wt ∧
  wx = Amount lp * GetBalance (world c) addr std / L ∧
  wt = Amount lp * GetBalance (world c) addr tok / L.

Lemma removeLiquidity_Ok addr sender lp sc tc cs (c c' : C) :
  removeLiquidity addr sender lp sc tc c = (Ok cs, c') ->
  NewCoins [sc; tc] = Ok cs ∧ store c' = store c ∧
  bank_delta (world c) (world c')
    (fun a d => δ_send addr sender [sc; tc] a d - gain [lp] sender a d)
    (fun d => - amount_of [lp] d).
Proof.
  unfold removeLiquidity. intros E. kinv. bank_inv. split_and!; [done|done|].
  bank_chain; [|lia]. unfold δ_send, δ_burn, gain. cbn. lia.
Qed.

Lemma withdraw_positive lp : ValidateWithdrawLiquidity lp = Ok tt -> 0 < Amount lp.
Proof.
  unfold ValidateWithdrawLiquidity, IsPositive. case_match eqn:E; [done|]. intros _. by breflect.
Qed.

Lemma RemoveLiquidity_Ok msg cs (c c' : C) :
  0 < Amount (Rem_WithdrawLiquidity msg) -> RemoveLiquidity msg c = (Ok cs, c') ->
  ∃ id pool sender addr wx wt,
    st_lptDenoms (store c) !! GetLptDenomKey (Denom (Rem_WithdrawLiquidity msg)) = Some id ∧
    st_pools (store c) !! GetPoolKey id = Some pool ∧
    withdrawal_done msg c c' pool sender addr wx wt ∧
    NewCoins [mkCoin (default "" (st_standardDenom (store c))) wx;
              mkCoin (Pool_CounterpartyDenom pool) wt] = Ok cs.
Proof.
  intros Hpos E. unfold RemoveLiquidity in E. kinv.
  destruct (st_lptDenoms (store c) !! _) as [id|] eqn:Eid; cbn in E; kinv.
  destruct (st_pools (store c) !! GetPoolKey id) as [pool|] eqn:Ep; kinv.
  match goal with H : removeLiquidity _ _ _ _ _ _ = _ |- _ =>
    apply removeLiquidity_Ok in H as (? & ? & ?) end.
  arith_inv. breflect. eexists id, pool, _, _, _, _. split_and!; [done|done| |eassumption].
  assert (∀ w a d, 0 <= GetBalance w a d) as Hn by apply GetBalance_nonneg.
  unfold withdrawal_done. split_and!; try done; try lia;
    (apply Z.quot_div_nonneg; [apply Z.mul_nonneg_nonneg; [lia|apply Hn]|lia]).
Qed.

Lemma msg_RemoveLiquidity_Ok ctx msg resp (c c' : C) :
  msg_RemoveLiquidity ctx msg c = (Ok resp, c') ->
  0 < Amount (Rem_WithdrawLiquidity msg) ∧
  ∃ cs, RemoveLiquidity msg c = (Ok cs, c') ∧ resp = range_pointers cs.
Proof.
  unfold msg_RemoveLiquidity. intros E. kinv. split; [by apply withdraw_positive|]. eauto.
Qed.

(** C22: a withdrawal burns exactly the given liquidity and pays, out of the pool
    of that liquidity denomination, the proportional share of each reserve
    rounded down, at least the requested minima; what remains per unit of
    liquidity does not fall, and no other balance or stored entry changes. *)
Theorem withdrawal_is_proportional ctx msg resp (c c' : C) :
  msg_RemoveLiquidity ctx msg c = (Ok resp, c') ->
  ∃ id pool sender addr wx wt,
    st_lptDenoms (store c) !! GetLptDenomKey (Denom (Rem_WithdrawLiquidity msg)) = Some id ∧
    st_pools (store c) !! GetPoolKey id = Some pool ∧
    withdrawal_done msg c c' pool sender addr wx wt ∧
    let std := default "" (st_standardDenom (store c)) in
    let L := GetSupply (world c) (Denom (Rem_WithdrawLiquidity msg)) in
    GetBalance (world c) addr std * (L - Amount (Rem_WithdrawLiquidity msg))
    <= (GetBalance (world c) addr std - wx) * L.
Proof.
  intros (Hpos & cs & (id & pool & sender & addr & wx & wt & ? & ? & Hw & _)%RemoveLiquidity_Ok & _)%msg_RemoveLiquidity_Ok; [|done].
  exists id, pool, sender, addr, wx, wt. split_and!; [done|done|done|].
  destruct Hw as (_ & _ & _ & _ & HL & _ & _ & -> & _). cbn zeta in *.
  match goal with |- _ <= (_ - ?n / ?L) * _ => pose proof (Z.mul_div_le n L ltac:(lia)) end. lia.
Qed.

(** The response of a withdrawal does not list the withdrawn coins: every
    entry is the last of them, because the handler takes the address of the
    loop variable. *)
Theorem withdrawal_response_repeats_last ctx msg resp (c c' : C) :
  msg_RemoveLiquidity ctx msg c = (Ok resp, c') ->
  ∃ cs, RemoveLiquidity msg c = (Ok cs, c') ∧
    resp = if last cs is Some coin then replicate (length cs) coin else [].
Proof.
  intros (_ & cs & E & ->)%msg_RemoveLiquidity_Ok. exists cs. split; [done|].
  apply range_pointers_spec.
Qed.

Lemma share_bound m dx x L : 0 <= m -> 0 < L -> m * x <= L * dx ->
  m * (x + dx) / (L + m) <= dx.
Proof. intros. apply Z.div_le_upper_bound; nia. Qed.

(** The bank's view of a deposit followed by the withdrawal of what it minted. *)
Lemma round_trip_bound (w w1 w2 : W) sender addr std tok lp dx dt wx wt σ :
  let L := GetSupply w (Denom lp) in
  sender ≠ addr -> std ≠ tok -> Denom lp ≠ std -> Denom lp ≠ tok -> L ≠ 0 ->
  fair_deposit L (GetBalance w addr std) (GetBalance w addr tok) dx dt (Amount lp) ->
  bank_delta w w1 (δ_deposit sender addr [mkCoin std dx; mkCoin tok dt] lp) (amount_of [lp]) ->
  bank_delta w1 w2
    (fun a d => δ_send addr sender [mkCoin std wx; mkCoin tok wt] a d - gain [lp] sender a d) σ ->
  wx = Amount lp * GetBalance w1 addr std / GetSupply w1 (Denom lp) ->
  wt = Amount lp * GetBalance w1 addr tok / GetSupply w1 (Denom lp) ->
  GetBalance w2 sender std <= GetBalance w sender std ∧
  GetBalance w2 sender tok <= GetBalance w sender tok.
Proof.
  cbn zeta. intros Hsa Hst Hls Hlt HL [F1 F2 (Fm & Fx & Ft)] [B1 S1 _] [B2 _ _] Hwx Hwt.
  assert (0 < GetSupply w (Denom lp)) as HL0 by (pose proof (GetSupply_nonneg w (Denom lp)); lia).
  assert (addr ≠ sender) by congruence. assert (tok ≠ std) by congruence.
  rewrite S1 in Hwx, Hwt. rewrite !B2, !B1. rewrite !B1 in Hwx, Hwt.
  unfold δ_deposit, δ_send, gain in *. cbn in *. rewrite ?String.eqb_refl in *.
  repeat match goal with H : ?a ≠ ?b |- _ =>
    match type of a with string => apply String.eqb_neq in H; rewrite ?H in *; revert H end end.
  intros _ _ _ _ _ _. rewrite ?Z.add_0_r, ?Z.add_0_l, ?Z.sub_0_r in *.
   pose proof (share_bound (Amount lp) dx _ (GetSupply w (Denom lp)) Fm HL0 F1).
  pose proof (share_bound (Amount lp) dt _ (GetSupply w (Denom lp)) Fm HL0 F2).
  rewrite <-Hwx, <-Hwt in *. lia.
Qed.

Lemma GetLptDenom_prefix n d : HasPrefix d LptTokenPrefix = false -> GetLptDenom n ≠ d.
Proof. by intros Hd <-. Qed.

(** A deposit into a pool without liquidity mints the standard amount, whatever the
    escrow account holds. *)
Lemma msg_AddLiquidity_empty k ctx msg pool lp (c c' : C) :
  st_pools (store c) !! GetPoolKey (GetPoolId (Denom (Add_MaxToken msg))) = Some pool ->
  GetSupply (world c) (Pool_LptDenom pool) = 0 ->
  msg_AddLiquidity k ctx msg c = (Ok lp, c') ->
  ∃ sender addr, AccAddressFromBech32 (Add_Sender msg) = Ok sender ∧
    AccAddressFromBech32 (Pool_EscrowAddress pool) = Ok addr ∧
    let std := default "" (st_standardDenom (store c)) in
    std ≠ Denom (Add_MaxToken msg) ∧ lp = mkCoin (Pool_LptDenom pool) (Add_ExactStandardAmt msg) ∧
    store c' = store c ∧
    bank_delta (world c) (world c')
      (δ_deposit sender addr [mkCoin std (Add_ExactStandardAmt msg); Add_MaxToken msg] lp) (amount_of [lp]).
Proof.
  intros Hpool HL E. unfold msg_AddLiquidity, AddLiquidity in E. kinv.
  match goal with H : match st_pools _ !! _ with _ => _ end _ = _ |- _ => rename H into EQ end.
  rewrite Hpool in EQ. kinv. rewrite HL in EQ. cbn in EQ. unfold check_initial_liquidity in EQ. kinv.
  match goal with H : addLiquidity _ _ _ _ _ _ _ = _ |- _ =>
    apply addLiquidity_Ok in H as (-> & ? & ? & ?) end.
  simplify_eq. breflect. eexists _, _. split_and!; try done.
Qed.

(** The bank's view of the round trip through a pool that had no liquidity: the
    withdrawal pays out all the escrow account holds. *)
Lemma round_trip_empty (w w1 w2 : W) sender addr std tok lp dx dt wx wt σ :
  sender ≠ addr -> std ≠ tok -> Denom lp ≠ std -> Denom lp ≠ tok -> GetSupply w (Denom lp) = 0 -> 0 < Amount lp ->
  bank_delta w w1 (δ_deposit sender addr [mkCoin std dx; mkCoin tok dt] lp) (amount_of [lp]) ->
  bank_delta w1 w2
    (fun a d => δ_send addr sender [mkCoin std wx; mkCoin tok wt] a d - gain [lp] sender a d) σ ->
  wx = Amount lp * GetBalance w1 addr std / GetSupply w1 (Denom lp) ->
  wt = Amount lp * GetBalance w1 addr tok / GetSupply w1 (Denom lp) ->
  GetBalance w2 sender std = GetBalance w sender std + GetBalance w addr std ∧
  GetBalance w2 sender tok = GetBalance w sender tok + GetBalance w addr tok.
Proof.
  intros Hsa Hst Hls Hlt HL Hm [B1 S1 _] [B2 _ _] Hwx Hwt.
  assert (addr ≠ sender) by congruence. assert (tok ≠ std) by congruence.
  rewrite S1, HL in Hwx, Hwt. rewrite !B2, !B1. rewrite !B1 in Hwx, Hwt.
  unfold δ_deposit, δ_send, gain in *. cbn in *. rewrite ?String.eqb_refl in *.
  repeat match goal with H : ?a ≠ ?b |- _ =>
    match type of a with string => apply String.eqb_neq in H; rewrite ?H in *; revert H end end.
  intros _ _ _ _ _ _. rewrite ?Z.add_0_r, ?Z.add_0_l, ?Z.sub_0_r in *.
  rewrite (Z.mul_comm (Amount lp)), Z.div_mul in Hwx, Hwt by lia. lia.
Qed.

(** C24: providing liquidity and withdrawing all of it at once.  The pool and its
    index entry are as [store_ok] of CoinswapStore.v keeps them, and the standard
    denomination is no liquidity denomination.  Into a pool with liquidity this
    never leaves the provider with more of either coin than before.  Into a pool
    all of whose liquidity was withdrawn it leaves the provider with exactly the
    balances before and what the escrow account held: coins sent to an emptied pool
    go to the next provider. *)
Theorem deposit_then_withdraw_no_profit k ctx m1 m2 pool lp resp n sender addr (c c1 c2 : C) :
  let std := default "" (st_standardDenom (store c)) in
  let tok := Denom (Add_MaxToken m1) in
  st_pools (store c) !! GetPoolKey (GetPoolId tok) = Some pool ->
  st_lptDenoms (store c) !! GetLptDenomKey (Pool_LptDenom pool) = Some (GetPoolId tok) ->
  Pool_CounterpartyDenom pool = tok -> Pool_LptDenom pool = GetLptDenom n ->
  HasPrefix std LptTokenPrefix = false ->
  Rem_WithdrawLiquidity m2 = lp -> Rem_Sender m2 = Add_Sender m1 ->
  AccAddressFromBech32 (Add_Sender m1) = Ok sender ->
  AccAddressFromBech32 (Pool_EscrowAddress pool) = Ok addr -> sender ≠ addr ->
  msg_AddLiquidity k ctx m1 c = (Ok lp, c1) ->
  msg_RemoveLiquidity ctx m2 c1 = (Ok resp, c2) ->
  if GetSupply (world c) (Pool_LptDenom pool) =? 0 then
    GetBalance (world c2) sender std = GetBalance (world c) sender std + GetBalance (world c) addr std ∧
    GetBalance (world c2) sender tok = GetBalance (world c) sender tok + GetBalance (world c) addr tok
  else
    GetBalance (world c2) sender std <= GetBalance (world c) sender std ∧
    GetBalance (world c2) sender tok <= GetBalance (world c) sender tok.
Proof.
  cbn zeta. intros Hpool Hidx Hcp Hlpt Hstd <- Hsnd Hs Ha Hsa E1 E2.
  assert (HasPrefix (Denom (Add_MaxToken m1)) LptTokenPrefix = false) as Htok.
  { unfold msg_AddLiquidity in E1. minv. by apply max_token_prefix. }
  apply msg_RemoveLiquidity_Ok in E2 as (Hpos & cs & E2 & _).
  apply RemoveLiquidity_Ok in E2 as (id & pool' & s'' & a'' & wx & wt & Hi & Hp' & Hw & _); [|done].
  destruct (Z.eqb_spec (GetSupply (world c) (Pool_LptDenom pool)) 0) as [HL|HL].
  - apply msg_AddLiquidity_empty with (pool := pool) in E1 as (s' & a' & Es & Ea & Hne & Hd & Hst & HB1); [|done..].
    cbn zeta in *. minv. rewrite Hd in Hi, Hpos. cbn in Hi, Hpos. rewrite Hst, Hidx in Hi. simplify_eq.
    rewrite Hst, Hpool in Hp'. simplify_eq.
    destruct Hw as (Es2 & Ea2 & _ & HB2 & HLr & _ & _ & Hwx & Hwt). rewrite Hsnd in Es2. cbn zeta in *. minv.
    rewrite Hst, Hcp in *. destruct (Add_MaxToken m1) as [tok dt] eqn:Etok. cbn [Denom] in *.
    eapply round_trip_empty with (w := world c) (w1 := world c1) (lp := Rem_WithdrawLiquidity m2);
      [exact Hsa|exact Hne| | | | |exact HB1|exact HB2|done|done]; rewrite Hd; cbn; try done;
      rewrite Hlpt; by apply GetLptDenom_prefix.
  - apply msg_AddLiquidity_existing with (pool := pool) in E1
      as (p & s' & a' & dx & dt & _ & Es & Ea & Hne & Hd & Hst & HB1 & _ & _ & _ & _ & [F1 F2 Fp]); [|done..].
    cbn zeta in *. minv. rewrite Hst, Hd, Hidx in Hi. simplify_eq. rewrite Hst, Hpool in Hp'. simplify_eq.
    destruct Hw as (Es2 & Ea2 & _ & HB2 & HLr & _ & _ & Hwx & Hwt). rewrite Hsnd in Es2. cbn zeta in *. minv.
    rewrite Hst, Hcp in *.
    eapply round_trip_bound with (w := world c) (w1 := world c1) (lp := Rem_WithdrawLiquidity m2);
      [exact Hsa|exact Hne| | | | |exact HB1|exact HB2|done|done]; rewrite Hd; try done;
      rewrite Hlpt; by apply GetLptDenom_prefix.
Qed.

End liquidity_facts.

(** ** Witnesses *)

Definition ex_pool : Pool :=
  mkPool "pool-usdc" "atucana" "usdc" "tuc1lpt-1..............." "lpt-1".
Definition ex_deposit : MsgAddLiquidity := mkMsgAddLiquidity (mkCoin "usdc" 7000) 3001 1 10 ex_bob.
Definition ex_withdraw : MsgRemoveLiquidity :=
  mkMsgRemoveLiquidity (mkCoin "lpt-1" 3001) 1 1 10 ex_bob.
Definition ex_withdraw_alice : MsgRemoveLiquidity :=
  mkMsgRemoveLiquidity (mkCoin "lpt-1" 50000) 1 1 10 ex_alice.

Lemma pool_creation_fee_split_witness :
  store (DeductPoolCreationFee ex_keeper "alice" ex_start).2 = store ex_start ∧
  ∃ p collector,
    st_params (store ex_start) = Some p ∧
    GetModuleAddress (feeCollectorName ex_keeper) = Some collector ∧
    let fee := PoolCreationFee p in
    let tax := Z.quot (Amount fee * TaxRate p) dec_unit in
    0 <= tax <= Amount fee ∧
    bank_delta (world ex_start) (world (DeductPoolCreationFee ex_keeper "alice" ex_start).2)
      (fun a d => gain [mkCoin (Denom fee) tax] collector a d - gain [fee] "alice" a d)
      (fun d => - amount_of [mkCoin (Denom fee) (Amount fee - tax)] d).
Proof. apply (pool_creation_fee_split ex_keeper "alice" ex_start). apply run_Ok. vm_compute. reflexivity. Defined.

Lemma deposit_does_not_dilute_witness :
  ∃ p sender addr dx dt, st_params (store ex_pooled) = Some p ∧
    deposit_done ex_deposit ex_pooled (msg_AddLiquidity ex_keeper ex_ctx ex_deposit ex_pooled).2
      ex_pool p sender addr dx dt (mkCoin "lpt-1" 3001).
Proof.
  apply (deposit_does_not_dilute ex_keeper ex_ctx ex_deposit ex_pool).
  - vm_compute. reflexivity.
  - vm_compute. discriminate.
  - apply run_Ok. vm_compute. reflexivity.
Defined.

Lemma withdrawal_is_proportional_witness :
  ∃ id pool sender addr wx wt,
    st_lptDenoms (store ex_pooled) !! GetLptDenomKey "lpt-1" = Some id ∧
    st_pools (store ex_pooled) !! GetPoolKey id = Some pool ∧
    withdrawal_done ex_withdraw_alice ex_pooled
      (msg_RemoveLiquidity ex_ctx ex_withdraw_alice ex_pooled).2 pool sender addr wx wt ∧
    let std := default "" (st_standardDenom (store ex_pooled)) in
    let L := GetSupply (world ex_pooled) "lpt-1" in
    GetBalance (world ex_pooled) addr std * (L - 50000)
    <= (GetBalance (world ex_pooled) addr std - wx) * L.
Proof.
  apply (withdrawal_is_proportional ex_ctx ex_withdraw_alice
    [mkCoin "usdc" 100000; mkCoin "usdc" 100000] ex_pooled).
  apply run_Ok. vm_compute. reflexivity.
Defined.

Lemma withdrawal_response_repeats_last_witness :
  ∃ cs, RemoveLiquidity ex_withdraw_alice ex_pooled
        = (Ok cs, (msg_RemoveLiquidity ex_ctx ex_withdraw_alice ex_pooled).2) ∧
    [mkCoin "usdc" 100000; mkCoin "usdc" 100000]
    = if last cs is Some coin then replicate (length cs) coin else [].
Proof.
  apply (withdrawal_response_repeats_last ex_ctx ex_withdraw_alice). apply run_Ok. vm_compute. reflexivity.
Defined.

(** All liquidity is withdrawn, and alice sends 700 to the escrow account. *)
Definition ex_emptied : Chain RefWorld Store :=
  let all := mkMsgRemoveLiquidity (mkCoin "lpt-1" 100000) 1 1 10 ex_alice in
  let c := (msg_RemoveLiquidity ex_ctx all ex_pooled).2 in
  set_world (SendCoins "alice" "lpt-1..............." [mkCoin "usdc" 700] (world c)).2 c.

Definition ex_round (c : Chain RefWorld Store) : Chain RefWorld Store * Chain RefWorld Store :=
  let c1 := (msg_AddLiquidity ex_keeper ex_ctx ex_deposit c).2 in
  (c1, (msg_RemoveLiquidity ex_ctx ex_withdraw c1).2).

Lemma deposit_then_withdraw_no_profit_witness :
  GetBalance (world (ex_round ex_pooled).2) "bob" "usdc" <= GetBalance (world ex_pooled) "bob" "usdc" ∧
  GetBalance (world (ex_round ex_emptied).2) "bob" "usdc" = GetBalance (world ex_emptied) "bob" "usdc" + 700.
Proof.
  assert ((GetSupply (world ex_pooled) (Pool_LptDenom ex_pool) =? 0) = false) as L1 by (vm_compute; reflexivity).
  assert ((GetSupply (world ex_emptied) (Pool_LptDenom ex_pool) =? 0) = true) as L2 by (vm_compute; reflexivity).
  assert (GetBalance (world ex_emptied) "lpt-1..............." (Denom (Add_MaxToken ex_deposit)) = 700) as R
    by (vm_compute; reflexivity).
  pose proof (fun h1 h2 h3 h4 h5 h6 h7 h8 h9 h10 h11 h12 =>
    deposit_then_withdraw_no_profit ex_keeper ex_ctx ex_deposit ex_withdraw ex_pool
      (mkCoin "lpt-1" 3001) [mkCoin "usdc" 6002; mkCoin "usdc" 6002] 1 "bob" "lpt-1..............."
      ex_pooled (ex_round ex_pooled).1 (ex_round ex_pooled).2 h1 h2 h3 h4 h5 h6 h7 h8 h9 h10 h11 h12) as H1.
  pose proof (fun h1 h2 h3 h4 h5 h6 h7 h8 h9 h10 h11 h12 =>
    deposit_then_withdraw_no_profit ex_keeper ex_ctx ex_deposit ex_withdraw ex_pool
      (mkCoin "lpt-1" 3001) [mkCoin "usdc" 7700; mkCoin "usdc" 7700] 1 "bob" "lpt-1..............."
      ex_emptied (ex_round ex_emptied).1 (ex_round ex_emptied).2 h1 h2 h3 h4 h5 h6 h7 h8 h9 h10 h11 h12) as H2.
  rewrite L1 in H1. rewrite L2, R in H2.
  split; [apply H1|apply H2]; try (vm_compute; reflexivity); vm_compute; discriminate.
Defined.
