(* ===== verification/CoinswapStore.v ===== *)
(** * Theorems about x/coinswap: the store

    The pool table and its index by liquidity denomination stay consistent over
    every sequence of messages; genesis export after import; names and keys;
    rejected messages. *)

From Stdlib Require Import Ascii.
From stdpp Require Import base gmap strings list.
From S2P Require Import Prelude Golang Sdk CoinswapTypes Coinswap Reference CoinswapFacts CoinswapLiquidity.

#[local] Open Scope Z_scope.
#[local] Open Scope go_scope.

(** ** Names and keys *)

(** The name of the n-th liquidity denomination is read back as n, for every
    64-bit number, and passes the validation of withdrawals. *)
Lemma lpt_denom_roundtrip n : is_uint64 n ->
  ParseLptDenom (GetLptDenom n) = Ok n ∧ ValidateLptDenom (GetLptDenom n) = Ok tt.
Proof.
  intros Hn. unfold ValidateLptDenom, ParseLptDenom.
  by rewrite Split_GetLptDenom, ParseUint64_Decimal.
Qed.

(** The four kinds of entries the module keeps in its single key-value store
    never share a key: pools, the index by liquidity denomination, the next
    sequence and the standard denomination. *)
Lemma coinswap_keys_disjoint a b :
  GetPoolKey a ≠ GetLptDenomKey b ∧
  GetPoolKey a ≠ KeyNextPoolSequence ∧ GetPoolKey a ≠ KeyStandardDenom ∧
  GetLptDenomKey b ≠ KeyNextPoolSequence ∧ GetLptDenomKey b ≠ KeyStandardDenom ∧
  KeyNextPoolSequence ≠ KeyStandardDenom ∧
  (GetPoolKey a = GetPoolKey b -> a = b) ∧ (GetLptDenomKey a = GetLptDenomKey b -> a = b).
Proof. split_and!; [done..|apply GetPoolKey_inj|apply GetLptDenomKey_inj]. Qed.

(** ** The pool index *)
Section store_facts.
Context {W : Type} {SM : SdkMath} {SML : SdkMathLaws} {ST : SdkTypes} {STL : SdkTypesLaws}.
Context {HA : Hashes} {HAL : HashesLaws} {PS : ParamSubspace} {PSL : ParamSubspaceLaws}.
Context {AK : AccountKeeper W} {BK : BankKeeper W} {BL : BankLaws W}.
#[local] Abbreviation C := (Chain W Store).

(** Every pool is stored under its identifier, is found through the index of its
    liquidity denomination, whose number is below the next sequence, and the
    index points to nothing else. *)
Record store_ok (s : Store) : Prop := {
  ok_params : params_ok s;
  ok_sequence : is_uint64 (default 1 (st_sequence s));
  ok_pools key pool : st_pools s !! key = Some pool ->
    key = GetPoolKey (Pool_Id pool) ∧
    st_lptDenoms s !! GetLptDenomKey (Pool_LptDenom pool) = Some (Pool_Id pool) ∧
    ∃ n, ParseLptDenom (Pool_LptDenom pool) = Ok n ∧ n < default 1 (st_sequence s);
  ok_index key id : st_lptDenoms s !! key = Some id ->
    ∃ pool, st_pools s !! GetPoolKey id = Some pool ∧ Pool_Id pool = id ∧
      key = GetLptDenomKey (Pool_LptDenom pool)
}.

Definition next_sequence (s : Store) : Z := default 1 (st_sequence s).

(** Adding a pool whose identifier and liquidity denomination are not in use. *)
Definition with_pool (pool : Pool) (seq : Z) (s : Store) : Store :=
  mkStore (st_params s) (st_standardDenom s) (Some seq)
    (<[GetPoolKey (Pool_Id pool) := pool]> (st_pools s))
    (<[GetLptDenomKey (Pool_LptDenom pool) := Pool_Id pool]> (st_lptDenoms s)).

Lemma with_pool_ok pool seq n s :
  store_ok s -> is_uint64 seq -> next_sequence s <= seq ->
  st_pools s !! GetPoolKey (Pool_Id pool) = None ->
  ParseLptDenom (Pool_LptDenom pool) = Ok n -> n < seq ->
  (∀ p key, st_pools s !! key = Some p -> Pool_LptDenom p ≠ Pool_LptDenom pool) ->
  store_ok (with_pool pool seq s).
Proof.
  intros [Op Os Opl Oi] Hseq Hle Hnone Hparse Hn Hfresh. split; cbn; [done|done| |].
  - intros key p [[<- <-]|[Hne Hl]]%lookup_insert_Some.
    + rewrite lookup_insert_eq. eauto.
    + destruct (Opl _ _ Hl) as (-> & Hix & m & Hm & Hlt). split_and!; [done| |].
      * rewrite lookup_insert_ne; [done|]. intros E%GetLptDenomKey_inj. by eapply Hfresh.
      * exists m. unfold next_sequence in Hle. split; [done|lia].
  - intros key id [[<- <-]|[Hne Hl]]%lookup_insert_Some.
    + exists pool. by rewrite lookup_insert_eq.
    + destruct (Oi _ _ Hl) as (p & Hp & Hid & ->). exists p. split_and!; [|done|done].
      rewrite lookup_insert_ne; [done|]. intros E. rewrite <-E in Hp. congruence.
Qed.

Lemma CreatePool_Ok denom pool (c c' : C) :
  CreatePool denom c = (Ok pool, c') ->
  world c' = world c ∧
  pool = mkPool (GetPoolId denom) (default "" (st_standardDenom (store c))) denom
           (AccAddress_String (GetReservePoolAddr (GetLptDenom (next_sequence (store c)))))
           (GetLptDenom (next_sequence (store c))) ∧
  store c' = with_pool pool (wrap64 (next_sequence (store c) + 1)) (store c).
Proof. unfold CreatePool, getSequence, setSequence, setPool. intros E. kinv. done. Qed.

Lemma CreatePool_store_ok denom pool (c c' : C) :
  store_ok (store c) -> next_sequence (store c) + 1 < 2 ^ 64 ->
  st_pools (store c) !! GetPoolKey (GetPoolId denom) = None ->
  CreatePool denom c = (Ok pool, c') ->
  store_ok (store c') ∧ next_sequence (store c') = next_sequence (store c) + 1.
Proof.
  intros Hok Hlt Hnone (_ & -> & ->)%CreatePool_Ok. pose proof (ok_sequence _ Hok) as Hs.
  fold (next_sequence (store c)) in Hs. assert (is_uint64 (next_sequence (store c) + 1)) by (unfold is_uint64 in *; lia).
  rewrite wrap64_small by done. split; [|done].
  assert (ParseLptDenom (GetLptDenom (next_sequence (store c))) = Ok (next_sequence (store c))) as Hp.
  { unfold ParseLptDenom. by rewrite Split_GetLptDenom, ParseUint64_Decimal. }
  eapply with_pool_ok; [done|done|lia|done|exact Hp|lia|].
  cbn. intros p key (_ & _ & m & Hm & Hml)%(ok_pools _ Hok) E. rewrite E, Hp in Hm. simplify_eq.
  unfold next_sequence in *. lia.
Qed.

Lemma same_store_ok (c c' : C) : store c' = store c -> store_ok (store c) -> store_ok (store c').
Proof. by intros ->. Qed.

(** Only a deposit for a pair without a pool changes the pools. *)
Lemma msg_AddLiquidity_store k ctx msg lp (c c' : C) :
  msg_AddLiquidity k ctx msg c = (Ok lp, c') ->
  store c' = store c ∨
  st_pools (store c) !! GetPoolKey (GetPoolId (Denom (Add_MaxToken msg))) = None ∧
  ∃ pool (c1 c2 : C), store c1 = store c ∧
    CreatePool (Denom (Add_MaxToken msg)) c1 = (Ok pool, c2) ∧ store c' = store c2.
Proof.
  intros E. unfold msg_AddLiquidity, AddLiquidity in E. kinv.
  match goal with H : match st_pools _ !! _ with _ => _ end _ = (Ok ?v, _) |- _ =>
    rename H into EQ; destruct v as [[[pool m] dt] sc] end.
  kinv. match goal with H : addLiquidity _ _ _ _ _ _ _ = _ |- _ =>
    apply addLiquidity_Ok in H as (-> & _ & Hst & _) end.
  destruct (st_pools _ !! _) as [p|] eqn:Ep; [left|right].
  - rewrite Hst. cbn. kinv. destruct (_ =? 0).
    + unfold check_initial_liquidity in EQ. kinv. done.
    + unfold quote_deposit in EQ. kinv. done.
  - unfold check_initial_liquidity in EQ. kinv. split; [done|].
    match goal with H : DeductPoolCreationFee _ _ _ = _ |- _ =>
      apply DeductPoolCreationFee_Ok in H as [? _] end.
    simplify_eq. by eexists _, _, _.
Qed.

Lemma msg_SwapCoin_store k ctx msg (c c' : C) :
  params_ok (store c) -> msg_SwapCoin k ctx msg c = (Ok tt, c') -> store c' = store c.
Proof.
  intros Hok E. unfold msg_SwapCoin, Swap in E. kinv. destruct (Swap_IsBuyOrder msg).
  - match goal with H : TradeInputForExactOutput _ _ _ = _ |- _ =>
      apply TradeInputForExactOutput_Ok in H as (_ & ? & ? & ? & _ & _ & _ & _ & ? & _) end;
      [done|done|by apply validated_output].
  - match goal with H : TradeExactInputForOutput _ _ _ = _ |- _ =>
      apply TradeExactInputForOutput_Ok in H as (_ & ? & ? & ? & _ & _ & _ & _ & ? & _) end;
      [done|done|by apply validated_coin].
Qed.

Lemma msg_RemoveLiquidity_store ctx msg resp (c c' : C) :
  msg_RemoveLiquidity ctx msg c = (Ok resp, c') -> store c' = store c.
Proof.
  intros (Hpos & cs & E & _)%msg_RemoveLiquidity_Ok.
  apply RemoveLiquidity_Ok in E as (? & ? & ? & ? & ? & ? & _ & _ & Hw & _); [|done].
  by destruct Hw as (_ & _ & ? & _).
Qed.

Lemma SetParams_Ok p (c c' : C) : SetParams p c = (Ok tt, c') ->
  Forall (fun r => r = Ok tt) (ParamSetPairs p) ∧
  store c' = mkStore (Some p) (st_standardDenom (store c)) (st_sequence (store c))
               (st_pools (store c)) (st_lptDenoms (store c)) ∧ world c' = world c.
Proof.
  unfold SetParams. intros E. kinv. split_and!; [|done|done]. by apply SetParamSet_sound.
Qed.

Lemma msg_UpdateParams_store k msg (c c' : C) :
  store_ok (store c) -> msg_UpdateParams k msg c = (Ok tt, c') ->
  store_ok (store c') ∧ next_sequence (store c') = next_sequence (store c).
Proof.
  intros [Op Os Opl Oi] E. unfold msg_UpdateParams in E. kinv.
  match goal with H : SetParams _ _ = _ |- _ => apply SetParams_Ok in H as (Hall & -> & _) end.
  split; [|done]. split; cbn; [|done|done|done]. intros p' Hp. cbn in Hp. by simplify_eq.
Qed.

(** One transaction of the chain: a message of the module, run to completion or
    reverted, or anything the rest of the application does to the bank. *)
Inductive step (k : Keeper) : C -> C -> Prop :=
| step_add ctx msg c : step k c (deliver (msg_AddLiquidity k ctx msg) c).2
| step_remove ctx msg c : step k c (deliver (msg_RemoveLiquidity ctx msg) c).2
| step_swap ctx msg c : step k c (deliver (msg_SwapCoin k ctx msg) c).2
| step_params msg c : step k c (deliver (msg_UpdateParams k msg) c).2
| step_world w c : step k c (set_world w c).

(** [reach k c n c']: [n] transactions lead from [c] to [c']. *)
Inductive reach (k : Keeper) (c : C) : nat -> C -> Prop :=
| reach_refl : reach k c 0 c
| reach_step n c1 c2 : reach k c n c1 -> step k c1 c2 -> reach k c (S n) c2.

Lemma deliver_cases {A} (m : M C A) (c : C) :
  (deliver m c).2 = c ∨ ∃ a, m c = (Ok a, (deliver m c).2).
Proof. unfold deliver. destruct (m c) as [[a|e|] c1]; cbn; eauto. Qed.

Lemma step_store_ok k (c c' : C) :
  step k c c' -> store_ok (store c) -> next_sequence (store c) + 1 < 2 ^ 64 ->
  store_ok (store c') ∧ next_sequence (store c') <= next_sequence (store c) + 1.
Proof.
  intros Hs Hok Hlt. assert (∀ c1 : C, store c1 = store c ->
    store_ok (store c1) ∧ next_sequence (store c1) <= next_sequence (store c) + 1) as Same
    by (intros ? ->; split; [done|lia]).
  destruct Hs as [ctx msg c|ctx msg c|ctx msg c|msg c|w c]; [..|by apply Same];
    (match goal with |- context [deliver ?m ?c] => destruct (deliver_cases m c) as [->|[a E]] end;
     [by apply Same|]).
  - apply msg_AddLiquidity_store in E as [E|(Hn & pool & c1 & c2 & E1 & E2 & ->)]; [by apply Same|].
    rewrite <-E1 in *. apply CreatePool_store_ok in E2 as [? ->]; [|done..]. split; [done|lia].
  - apply msg_RemoveLiquidity_store in E. by apply Same.
  - destruct a. apply msg_SwapCoin_store in E; [by apply Same|apply Hok].
  - destruct a. apply msg_UpdateParams_store in E as [? ->]; [|done]. split; [done|lia].
Qed.

(** C10: from a consistent store, every sequence of [n] transactions (while the
    64-bit sequence has room) ends in a consistent store: each pool is stored
    under its identifier and found through the index of its liquidity
    denomination, each index entry leads to its pool, numbers of liquidity
    denominations in use stay below the next one, and the parameters in force
    have passed validation. *)
Theorem pool_index_invariant k n (c c' : C) :
  reach k c n c' -> store_ok (store c) -> next_sequence (store c) + Z.of_nat n < 2 ^ 64 ->
  store_ok (store c').
Proof.
  intros Hr Hok Hn.
  assert (store_ok (store c') ∧ next_sequence (store c') <= next_sequence (store c) + Z.of_nat n)
    as [? _]; [|done].
  induction Hr as [|n c1 c2 Hr IH Hs]; [split; [done|lia]|].
  destruct IH as [IH1 IH2]; [lia|].
  apply step_store_ok in Hs as [? ?]; [split; [done|lia]|done|lia].
Qed.

(** ** Genesis *)

Lemma setPool_store pool seq (c c' : C) :
  st_sequence (store c) = Some seq -> setPool pool c = (Ok tt, c') ->
  store c' = with_pool pool seq (store c) ∧ world c' = world c.
Proof. unfold setPool, with_pool. intros Hs E. kinv. by rewrite Hs. Qed.

Lemma validate_pools_max pools ids lpts mx mx' :
  validate_pools pools ids lpts mx = Ok mx' -> mx <= mx'.
Proof.
  revert ids lpts mx. induction pools as [|p pools IH]; intros ids lpts mx E; cbn in E; [minv; lia|].
  repeat case_match; minv; repeat case_match; minv.
  all: apply IH in E; try case_match; breflect; lia.
Qed.

Lemma ParseLptDenom_range d n : ParseLptDenom d = Ok n -> n < 2 ^ 64.
Proof. unfold ParseLptDenom. repeat case_match; try done. apply ParseUint64_range. Qed.

Lemma validate_pools_bound pools ids lpts mx mx' :
  validate_pools pools ids lpts mx = Ok mx' -> mx < 2 ^ 64 -> mx' < 2 ^ 64.
Proof.
  revert ids lpts mx. induction pools as [|p pools IH]; intros ids lpts mx E Hm; cbn in E; [by minv|].
  repeat case_match; try done; minv; repeat case_match; try done; minv;
    (eapply IH; [exact E|]); try done; by eapply ParseLptDenom_range.
Qed.

(** The next sequence of validated genesis data, zero only when every number is used up. *)
Lemma genesis_sequence mx seq :
  0 <= mx < 2 ^ 64 -> wrap64 (mx + 1) = seq -> seq ≠ 0 -> mx < seq ∧ is_uint64 seq.
Proof.
  intros Hm <- Hne. split; [|auto with chain]. unfold wrap64 in *.
  destruct (decide (mx + 1 = 2 ^ 64)) as [E|]; [by rewrite E in Hne|].
  rewrite Z.mod_small; lia.
Qed.

(** Loading validated pools one by one. *)
Lemma load_pools pools ids lpts mx mx' seq (c c' : C) :
  validate_pools pools ids lpts mx = Ok mx' -> mx' < seq ->
  store_ok (store c) -> st_sequence (store c) = Some seq ->
  (∀ key p, st_pools (store c) !! key = Some p -> Pool_Id p ∈ ids ∧ Pool_LptDenom p ∈ lpts) ->
  for_each pools setPool c = (Ok tt, c') ->
  store_ok (store c') ∧ st_params (store c') = st_params (store c) ∧
  st_standardDenom (store c') = st_standardDenom (store c) ∧ st_sequence (store c') = Some seq ∧
  world c' = world c ∧
  (map_to_list (st_pools (store c'))).*2 ≡ₚ pools ++ (map_to_list (st_pools (store c))).*2.
Proof.
  revert ids lpts mx c. induction pools as [|p pools IH]; intros ids lpts mx c Hv Hlt Hok Hseq Hin E;
    cbn [for_each validate_pools] in E, Hv; [kinv; done|].
  minv1. destruct v. apply setPool_store with (seq := seq) in E0 as [Hst Hw]; [|done].
  destruct (bool_decide_reflect (Pool_Id p ∈ ids)) as [|Hid]; [done|].
  destruct (bool_decide_reflect (Pool_LptDenom p ∈ lpts)) as [|Hl]; [done|].
  minv. case_match; [done|]. case_match; [done|]. minv.
  assert (st_pools (store c) !! GetPoolKey (Pool_Id p) = None) as Hnone.
  { apply eq_None_not_Some. intros [q Hq]. pose proof (ok_pools _ Hok _ _ Hq) as (Ek%GetPoolKey_inj & _).
    apply Hin in Hq as [Hq _]. congruence. }
  pose proof (validate_pools_max _ _ _ _ _ Hv) as Hmax.
  pose proof (ok_sequence _ Hok) as Hs. rewrite Hseq in Hs. cbn in Hs.
  apply IH with (ids := {[Pool_Id p]} ∪ ids) (lpts := {[Pool_LptDenom p]} ∪ lpts) (mx := if mx <? v then v else mx) in E
    as (? & -> & -> & ? & -> & Hperm); rewrite ?Hst; cbn.
  - split_and!; [done|done|done|done|done|]. rewrite Hperm, Hst. cbn.
    rewrite map_to_list_insert by done. cbn. symmetry. apply Permutation_middle.
  - done.
  - done.
  - eapply with_pool_ok; [done|done|by unfold next_sequence; rewrite Hseq|done|done| |].
    + case_match; breflect; lia.
    + intros q key [_ Hq]%Hin Eq. congruence.
  - done.
  - intros key q [[<- <-]|[_ Hq]]%lookup_insert_Some; [set_solver|]. apply Hin in Hq. set_solver.
Qed.

Lemma InitGenesis_Ok g (c c' : C) :
  st_pools (store c) = ∅ -> st_lptDenoms (store c) = ∅ -> Gen_Sequence g ≠ 0 ->
  InitGenesis g c = (Ok tt, c') ->
  store_ok (store c') ∧ st_params (store c') = Some (Gen_Params g) ∧
  st_standardDenom (store c') = Some (Gen_StandardDenom g) ∧
  st_sequence (store c') = Some (Gen_Sequence g) ∧ world c' = world c ∧
  (map_to_list (st_pools (store c'))).*2 ≡ₚ Gen_Pool g.
Proof.
  intros Hp Hl Hseq E. unfold InitGenesis, ValidateGenesis in E. minv1. case_match eqn:Ev; minv.
  case_match eqn:Ed; minv. case_match eqn:Eq; minv. breflect.
  match goal with H : SetParams _ _ = _ |- _ => apply SetParams_Ok in H as (Hall & Hst & Hw) end.
  unfold SetStandardDenom, setSequence in *. kinv.
  match goal with Hv : validate_pools _ _ _ _ = Ok ?mx |- _ =>
    pose proof (validate_pools_max _ _ _ _ _ Hv);
    pose proof (validate_pools_bound _ _ _ _ _ Hv ltac:(lia));
    destruct (genesis_sequence mx (Gen_Sequence g)) as [Hmx Hu64]; [lia|done|done|];
    eapply load_pools in E; [|exact Hv|exact Hmx|..] end.
  - cbn in E. rewrite Hst, Hw in E. cbn in E. rewrite Hp, map_to_list_empty, app_nil_r in E. done.
  - split; cbn; rewrite ?Hst; cbn; rewrite ?Hp, ?Hl; try done.
    intros p Hps. cbn in Hps. by simplify_eq.
  - done.
  - cbn. rewrite Hst. cbn. by rewrite Hp.
Qed.

(** Genesis data that is accepted on an empty store (and whose next sequence
    is not the wrapped-around zero) sets up a consistent store: parameters,
    standard denomination and sequence as given, every pool reachable through
    both keys.  With [pool_index_invariant] this makes consistency hold for
    every state after genesis. *)
Theorem genesis_establishes_index g (c c' : C) :
  st_pools (store c) = ∅ -> st_lptDenoms (store c) = ∅ -> Gen_Sequence g ≠ 0 ->
  InitGenesis g c = (Ok tt, c') -> store_ok (store c').
Proof. intros. eapply InitGenesis_Ok; eauto. Qed.

(** Exporting right after importing gives the same genesis data back, the
    pools listed in key order. *)
Theorem genesis_roundtrip g (c c' : C) :
  st_pools (store c) = ∅ -> st_lptDenoms (store c) = ∅ -> Gen_Sequence g ≠ 0 ->
  InitGenesis g c = (Ok tt, c') ->
  ∃ g', ExportGenesis c' = (Ok g', c') ∧ Gen_Params g' = Gen_Params g ∧
    Gen_StandardDenom g' = Gen_StandardDenom g ∧ Gen_Sequence g' = Gen_Sequence g ∧
    Gen_Pool g' ≡ₚ Gen_Pool g.
Proof.
  intros Hp Hl Hs E. destruct (InitGenesis_Ok g c c') as (_ & Epar & Estd & Eseq & _ & Hperm); [done..|].
  unfold ExportGenesis, GetParams, GetStandardDenom, GetAllPools, getSequence, get_store, gets, bind, ret.
  rewrite Epar, Estd, Eseq. eexists. split; [done|]. cbn.
  split_and!; [done|done|done|]. by rewrite kv_iterate_Permutation.
Qed.

(** ** Rejected messages *)

Lemma bind_not_Ok {A B} (m : M C A) (k : A -> M C B) (c : C) :
  (∀ a c1, m c = (Ok a, c1) -> is_Ok (k a c1).1 = false) -> is_Ok (bind m k c).1 = false.
Proof. unfold bind. destruct (m c) as [[a|e|] c1]; intros Hk; [by apply Hk|done|done]. Qed.

Lemma reject_true e (c : C) {A} (k : unit -> M C A) : is_Ok (bind (reject true e) k c).1 = false.
Proof. done. Qed.

Lemma failed_delivery {A} (m : M C A) (c : C) : is_Ok (m c).1 = false ->
  is_Ok (deliver m c).1 = false ∧ (deliver m c).2 = c.
Proof. unfold deliver. by destruct (m c) as [[a|e|] c1]. Qed.

(** The comparison is the one of the times, as long as their seconds, counted from
    the year 1, fit in an int64. *)
Lemma deadline_passed_spec ctx deadline :
  is_int64 (BlockTime ctx / 10 ^ 9 + unixToInternal) -> is_int64 (deadline + unixToInternal) ->
  deadline_passed ctx deadline = (deadline * 10 ^ 9 <? BlockTime ctx).
Proof.
  intros Hb Hd. unfold deadline_passed. rewrite !sint64_small by done.
  pose proof (Z.div_mod (BlockTime ctx) (10 ^ 9) ltac:(lia)).
  pose proof (Z.mod_pos_bound (BlockTime ctx) (10 ^ 9) ltac:(lia)).
  apply eq_true_iff_eq. rewrite orb_true_iff, andb_true_iff, !Z.ltb_lt, Z.eqb_eq. lia.
Qed.

(** A deadline in the last 62135596800 seconds of the int64 counts as passed at
    every block time from 1970 on: [time.Unix] wraps around. *)
Theorem far_deadline_has_passed ctx deadline :
  2 ^ 63 - unixToInternal <= deadline < 2 ^ 63 ->
  0 <= BlockTime ctx / 10 ^ 9 < 2 ^ 63 - unixToInternal ->
  deadline_passed ctx deadline = true.
Proof.
  intros Hd Hb. unfold deadline_passed, unixToInternal in *.
  rewrite (sint64_small (BlockTime ctx / 10 ^ 9 + _)) by (unfold is_int64; lia).
  assert (sint64 (deadline + 62135596800) < 0) as Hl.
  { unfold sint64. rewrite <-(Z.mod_add _ (-1)), Z.mod_small by lia. lia. }
  apply orb_true_iff. left. apply Z.ltb_lt. lia.
Qed.

(** Once the block time is past the deadline of a message, none of the three
    trading messages succeeds and delivering it changes no state at all. *)
Theorem expired_messages_do_nothing k ctx add rem swp (c : C) :
  (deadline_passed ctx (Add_Deadline add) = true ->
   is_Ok (deliver (msg_AddLiquidity k ctx add) c).1 = false ∧
   (deliver (msg_AddLiquidity k ctx add) c).2 = c) ∧
  (deadline_passed ctx (Rem_Deadline rem) = true ->
   is_Ok (deliver (msg_RemoveLiquidity ctx rem) c).1 = false ∧
   (deliver (msg_RemoveLiquidity ctx rem) c).2 = c) ∧
  (deadline_passed ctx (Swap_Deadline swp) = true ->
   is_Ok (deliver (msg_SwapCoin k ctx swp) c).1 = false ∧
   (deliver (msg_SwapCoin k ctx swp) c).2 = c).
Proof.
  split_and!; intros Hd; apply failed_delivery;
    unfold msg_AddLiquidity, msg_RemoveLiquidity, msg_SwapCoin; rewrite Hd;
    repeat (apply bind_not_Ok; intros; first [apply reject_true|idtac]); try done.
Qed.


End store_facts.

(** ** Witnesses *)

Definition ex_genesis_pools : GenesisState :=
  mkGenesisState ex_params "atucana"
    [ex_pool; mkPool "pool-eth" "atucana" "eth" "tuc1lpt-7" "lpt-7"] 8.
Definition ex_blank : Chain RefWorld Store := mkChain ex_world ex_empty [].

Lemma genesis_establishes_index_witness :
  store_ok (store (InitGenesis ex_genesis_pools ex_blank).2).
Proof.
  apply (genesis_establishes_index ex_genesis_pools ex_blank); [reflexivity|reflexivity|discriminate|].
  apply run_Ok. vm_compute. reflexivity.
Defined.

Lemma genesis_roundtrip_witness :
  let c' := (InitGenesis ex_genesis_pools ex_blank).2 in
  ∃ g', ExportGenesis c' = (Ok g', c') ∧ Gen_Params g' = ex_params ∧
    Gen_StandardDenom g' = "atucana" ∧ Gen_Sequence g' = 8 ∧
    Gen_Pool g' ≡ₚ Gen_Pool ex_genesis_pools.
Proof.
  apply (genesis_roundtrip ex_genesis_pools ex_blank); [reflexivity|reflexivity|discriminate|].
  apply run_Ok. vm_compute. reflexivity.
Defined.

Lemma ex_start_ok : store_ok (store ex_start).
Proof.
  apply (InitGenesis_Ok ex_genesis ex_blank); [done|done|done|]. apply run_Ok. vm_compute. reflexivity.
Qed.

Lemma pool_index_invariant_witness :
  store_ok (store (deliver (msg_SwapCoin ex_keeper ex_ctx ex_sell)
    (deliver (msg_AddLiquidity ex_keeper ex_ctx ex_add) ex_start).2).2).
Proof.
  apply (pool_index_invariant ex_keeper 2 ex_start).
  - eapply reach_step; [eapply reach_step; [apply reach_refl|apply step_add]|apply step_swap].
  - apply ex_start_ok.
  - vm_compute. reflexivity.
Defined.
