(* ===== verification/Epochs.v ===== *)
(** * x/epochs: timed epochs and their hooks

    [Store] is the module's key-value store: epoch infos keyed by identifier
    (under the single prefix [KeyPrefixEpoch]).  Times are nanoseconds since the
    Unix epoch, durations nanoseconds.  The hooks are computations on the state
    [W] of the other modules: no hook of the application holds the store key of
    x/epochs. *)

From stdpp Require Import base gmap strings list.
From S2P Require Import Prelude Golang Sdk.

#[local] Open Scope Z_scope.
#[local] Open Scope go_scope.

(** ** types *)

Definition ModuleName : string := "epochs".
Definition WeekEpochID : string := "week".
Definition DayEpochID : string := "day".
Definition HourEpochID : string := "hour".
Definition EventTypeEpochEnd : string := "epoch_end".
Definition EventTypeEpochStart : string := "epoch_start".
Definition AttributeEpochNumber : string := "epoch_number".
Definition AttributeEpochStartTime : string := "start_time".

Record EpochInfo := mkEpochInfo {
  Identifier : string;
  StartTime : Z;
  Duration : Z;
  CurrentEpoch : Z;
  CurrentEpochStartTime : Z;
  EpochCountingStarted : bool;
  CurrentEpochStartHeight : Z
}.

#[export] Instance EpochInfo_eq_dec : EqDecision EpochInfo.
Proof. solve_decision. Defined.

(** [time.Time{}], the first of January of year 1. *)
Definition zero_time : Z := - 62135596800 * 10 ^ 9.
(** [t.Unix()] *)
Definition Unix (t : Z) : Z := t / 10 ^ 9.
Definition Hour : Z := 3600 * 10 ^ 9.

Definition StartInitialEpoch (ei : EpochInfo) : EpochInfo :=
  mkEpochInfo (Identifier ei) (StartTime ei) (Duration ei) 1 (StartTime ei) true
    (CurrentEpochStartHeight ei).

Definition EndEpoch (ei : EpochInfo) : EpochInfo :=
  mkEpochInfo (Identifier ei) (StartTime ei) (Duration ei) (sint64 (CurrentEpoch ei + 1))
    (CurrentEpochStartTime ei + Duration ei) (EpochCountingStarted ei) (CurrentEpochStartHeight ei).

Definition EpochInfo_Validate (ei : EpochInfo) : outcome unit :=
  if IsBlank (Identifier ei) then Err (Plain "epoch identifier cannot be blank")
  else if Duration ei =? 0 then Err (Plain "epoch duration cannot be 0")
  else if CurrentEpoch ei <? 0 then Err (Plain "current epoch cannot be negative")
  else if CurrentEpochStartHeight ei <? 0
  then Err (Plain "current epoch start height cannot be negative")
  else Ok tt.

Definition ValidateEpochIdentifierString (s : string) : outcome unit :=
  if IsBlank s then Err (Plain "blank epoch identifier") else Ok tt.

Record GenesisState := mkGenesisState { Epochs : list EpochInfo }.

Definition NewGenesisState (epochs : list EpochInfo) : GenesisState := mkGenesisState epochs.

Definition DefaultGenesisState : GenesisState :=
  NewGenesisState
    [mkEpochInfo WeekEpochID zero_time (Hour * 24 * 7) 0 zero_time false 0;
     mkEpochInfo DayEpochID zero_time (Hour * 24) 0 zero_time false 0].

(** The loop of [GenesisState.Validate] over the identifiers seen so far. *)
Fixpoint validate_epochs (epochs : list EpochInfo) (epochIdentifiers : gset string) : outcome unit :=
  match epochs with
  | [] => Ok tt
  | epoch :: epochs' =>
      if bool_decide (Identifier epoch ∈ epochIdentifiers)
      then Err (Plain "duplicated epoch entry")
      else
        let? _ := EpochInfo_Validate epoch in
        validate_epochs epochs' ({[Identifier epoch]} ∪ epochIdentifiers)
  end.

Definition GenesisState_Validate (gs : GenesisState) : outcome unit :=
  validate_epochs (Epochs gs) ∅.

(** ** keeper *)

Abbreviation Store := (gmap string EpochInfo).

(** The [EpochHooks] interface; [MultiEpochHooks] is a list of them. *)
Record EpochHooks (W : Type) := mkEpochHooks {
  hook_AfterEpochEnd : string -> Z -> M W unit;
  hook_BeforeEpochStart : string -> Z -> M W unit
}.
Arguments mkEpochHooks {W} _ _.
Arguments hook_AfterEpochEnd {W} _ _ _.
Arguments hook_BeforeEpochStart {W} _ _ _.

Section keeper.
Context {W : Type}.
#[local] Abbreviation C := (Chain W Store).

(** [keeper.hooks]: set once. *)
Record Keeper := mkKeeper { hooks : option (list (EpochHooks W)) }.

Definition NewKeeper : Keeper := mkKeeper None.

Definition SetHooks (k : Keeper) (eh : list (EpochHooks W)) : outcome Keeper :=
  match hooks k with Some _ => Panic | None => Ok (mkKeeper (Some eh)) end.

Definition Multi_AfterEpochEnd (mh : list (EpochHooks W)) (id : string) (n : Z) : M W unit :=
  for_each mh (fun h => hook_AfterEpochEnd h id n).

Definition Multi_BeforeEpochStart (mh : list (EpochHooks W)) (id : string) (n : Z) : M W unit :=
  for_each mh (fun h => hook_BeforeEpochStart h id n).

(** Calling a method of a nil interface panics. *)
Definition AfterEpochEnd (k : Keeper) (id : string) (n : Z) : M C unit :=
  match hooks k with Some mh => ext (Multi_AfterEpochEnd mh id n) | None => panic end.

Definition BeforeEpochStart (k : Keeper) (id : string) (n : Z) : M C unit :=
  match hooks k with Some mh => ext (Multi_BeforeEpochStart mh id n) | None => panic end.

Definition GetEpochInfo (identifier : string) : M C (option EpochInfo) :=
  get_store (fun s => s !! identifier).

Definition SetEpochInfo (epoch : EpochInfo) : M C unit :=
  mod_store (fun s => <[Identifier epoch := epoch]> s).

Definition DeleteEpochInfo (identifier : string) : M C unit :=
  mod_store (fun s => delete identifier s).

(** The iterator visits the entries present when it is opened, in key order;
    callbacks only overwrite the entry they were given. *)
Definition IterateEpochInfo (fn : EpochInfo -> M C unit) : M C unit :=
  let* infos := get_store (fun s => (kv_iterate s).*2) in
  for_each infos fn.

Definition AllEpochInfos : M C (list EpochInfo) := get_store (fun s => (kv_iterate s).*2).

(** The body of the callback of [BeginBlocker]. *)
Definition process_epoch (k : Keeper) (ctx : BlockCtx) (epochInfo : EpochInfo) : M C unit :=
  let notBeforeStart := negb (BlockTime ctx <? StartTime epochInfo) in
  let shouldInitialEpochStart := negb (EpochCountingStarted epochInfo) && notBeforeStart in
  let epochEndTime := CurrentEpochStartTime epochInfo + Duration epochInfo in
  let shouldEpochEnd :=
    (epochEndTime <? BlockTime ctx) && negb shouldInitialEpochStart && notBeforeStart in
  let epochInfo :=
    mkEpochInfo (Identifier epochInfo) (StartTime epochInfo) (Duration epochInfo)
      (CurrentEpoch epochInfo) (CurrentEpochStartTime epochInfo)
      (EpochCountingStarted epochInfo) (BlockHeight ctx) in
  let start (epochInfo : EpochInfo) : M C unit :=
    do! SetEpochInfo epochInfo;
    do! emit (mkEvent EventTypeEpochStart
      [(AttributeEpochNumber, AInt (CurrentEpoch epochInfo));
       (AttributeEpochStartTime, AInt (Unix (CurrentEpochStartTime epochInfo)))]);
    BeforeEpochStart k (Identifier epochInfo) (CurrentEpoch epochInfo) in
  if shouldInitialEpochStart then start (StartInitialEpoch epochInfo)
  else if shouldEpochEnd then
    let epochInfo := EndEpoch epochInfo in
    do! emit (mkEvent EventTypeEpochEnd [(AttributeEpochNumber, AInt (CurrentEpoch epochInfo))]);
    do! AfterEpochEnd k (Identifier epochInfo) (CurrentEpoch epochInfo);
    start epochInfo
  else ret tt.

Definition BeginBlocker (k : Keeper) (ctx : BlockCtx) : M C unit :=
  IterateEpochInfo (process_epoch k ctx).

(** ** genesis.go *)

Definition init_epoch (ctx : BlockCtx) (epoch : EpochInfo) : EpochInfo :=
  mkEpochInfo (Identifier epoch)
    (if StartTime epoch =? zero_time then BlockTime ctx else StartTime epoch)
    (Duration epoch) (CurrentEpoch epoch) (CurrentEpochStartTime epoch)
    (EpochCountingStarted epoch) (BlockHeight ctx).

Definition InitGenesis (ctx : BlockCtx) (genState : GenesisState) : M C unit :=
  for_each (Epochs genState) (fun epoch => SetEpochInfo (init_epoch ctx epoch)).

Definition ExportGenesis : M C GenesisState :=
  let* epochs := AllEpochInfos in ret (mkGenesisState epochs).

(** ** grpc_query.go *)

(** [None] is a nil request. *)
Definition query_CurrentEpoch (req : option string) : M C Z :=
  match req with
  | None => fail (Foreign "codes.InvalidArgument")
  | Some identifier =>
      let* info := GetEpochInfo identifier in
      match info with
      | None => fail (Foreign "codes.NotFound")
      | Some info => ret (CurrentEpoch info)
      end
  end.

End keeper.
Arguments Keeper : clear implicits.
