(* ===== verification/EpochsFacts.v ===== *)
(** * Theorems about x/epochs

    [BeginBlocker] is shown to be a pointwise update of the stored epochs by a
    pure transition [tick], together with an exact sequence of hook calls; the
    schedule of epochs, the one-step-per-block rule, catching up after a halt and
    the genesis round trip follow. *)

From stdpp Require Import base gmap strings list.
From S2P Require Import Prelude Golang Sdk Epochs.

#[local] Open Scope Z_scope.
#[local] Open Scope go_scope.

(** ** The abstract transition of one epoch *)

(** What one block does to an epoch. *)
Inductive phase := Waiting | Starting | Ending.

Definition epoch_phase (ctx : BlockCtx) (ei : EpochInfo) : phase :=
  if BlockTime ctx <? StartTime ei then Waiting
  else if negb (EpochCountingStarted ei) then Starting
  else if CurrentEpochStartTime ei + Duration ei <? BlockTime ctx then Ending
  else Waiting.

Definition tick (ctx : BlockCtx) (ei : EpochInfo) : EpochInfo :=
  match epoch_phase ctx ei with
  | Waiting => ei
  | Starting => mkEpochInfo (Identifier ei) (StartTime ei) (Duration ei) 1 (StartTime ei) true
                  (BlockHeight ctx)
  | Ending => mkEpochInfo (Identifier ei) (StartTime ei) (Duration ei)
                (sint64 (CurrentEpoch ei + 1)) (CurrentEpochStartTime ei + Duration ei) true
                (BlockHeight ctx)
  end.

(** The calls of the hooks, in order. *)
Inductive HookCall :=
| CallAfterEpochEnd (id : string) (n : Z)
| CallBeforeEpochStart (id : string) (n : Z).

Definition tick_calls (ctx : BlockCtx) (ei : EpochInfo) : list HookCall :=
  match epoch_phase ctx ei with
  | Waiting => []
  | Starting => [CallBeforeEpochStart (Identifier ei) 1]
  | Ending => [CallAfterEpochEnd (Identifier ei) (sint64 (CurrentEpoch ei + 1));
               CallBeforeEpochStart (Identifier ei) (sint64 (CurrentEpoch ei + 1))]
  end.

Definition start_event (n t : Z) : Event :=
  mkEvent EventTypeEpochStart [(AttributeEpochNumber, AInt n); (AttributeEpochStartTime, AInt (Unix t))].
Definition tick_events (ctx : BlockCtx) (ei : EpochInfo) : list Event :=
  match epoch_phase ctx ei with
  | Waiting => []
  | Starting => [start_event 1 (StartTime ei)]
  | Ending => [mkEvent EventTypeEpochEnd [(AttributeEpochNumber, AInt (sint64 (CurrentEpoch ei + 1)))];
               start_event (sint64 (CurrentEpoch ei + 1)) (CurrentEpochStartTime ei + Duration ei)]
  end.

(** Closes an equivalence between two runs whose results are explicit. *)
Ltac run_cases :=
  unfold ret, panic; split; [intros ?; simplify_eq; eexists; split; reflexivity
         |intros (? & ? & ?); simplify_eq; reflexivity].

Section facts.
Context {W : Type}.
#[local] Abbreviation C := (Chain W Store).

Definition run_call (k : Keeper W) (call : HookCall) : M W unit :=
  match hooks k with
  | None => panic
  | Some mh =>
      match call with
      | CallAfterEpochEnd id n => Multi_AfterEpochEnd mh id n
      | CallBeforeEpochStart id n => Multi_BeforeEpochStart mh id n
      end
  end.

(** Storing the new info, or nothing when the epoch waits. *)
Definition put_tick (ctx : BlockCtx) (ei : EpochInfo) (s : Store) : Store :=
  match epoch_phase ctx ei with Waiting => s | _ => <[Identifier ei := tick ctx ei]> s end.

Lemma process_epoch_Ok k ctx ei (c c' : C) :
  process_epoch k ctx ei c = (Ok tt, c') <->
  ∃ w, for_each (tick_calls ctx ei) (run_call k) (world c) = (Ok tt, w) ∧
    c' = mkChain w (put_tick ctx ei (store c)) (events c ++ tick_events ctx ei).
Proof.
  unfold process_epoch, put_tick, tick_calls, tick_events, tick, epoch_phase.
  destruct (BlockTime ctx <? StartTime ei); cbn [negb andb].
  { rewrite !andb_false_r. destruct c. cbn. rewrite app_nil_r. run_cases. }
  destruct (EpochCountingStarted ei) eqn:Ecs; cbn [negb andb].
  - rewrite !andb_true_r. destruct (_ <? BlockTime ctx).
    + unfold AfterEpochEnd, BeforeEpochStart, run_call, bind, emit, SetEpochInfo, mod_store, modify, ext, zoom.
      cbn. unfold bind, ret. destruct (hooks k) as [mh|]; cbn; [|run_cases].
      destruct (Multi_AfterEpochEnd _ _ _ _) as [[[]|e|] w1]; cbn; [|run_cases..].
      destruct (Multi_BeforeEpochStart _ _ _ _) as [[[]|e|] w2]; cbn; [|run_cases..].
      rewrite <-app_assoc. run_cases.
    + destruct c. cbn. rewrite app_nil_r. run_cases.
  - unfold BeforeEpochStart, run_call, bind, emit, SetEpochInfo, mod_store, modify, ext, zoom.
    cbn. unfold bind, ret. destruct (hooks k) as [mh|]; cbn; [|run_cases].
    destruct (Multi_BeforeEpochStart _ _ _ _) as [[[]|e|] w2]; cbn; run_cases.
Qed.

Lemma process_all k ctx l (c c' : C) :
  for_each l (process_epoch k ctx) c = (Ok tt, c') <->
  ∃ w, for_each (l ≫= tick_calls ctx) (run_call k) (world c) = (Ok tt, w) ∧
    c' = mkChain w (foldl (fun s ei => put_tick ctx ei s) (store c) l)
           (events c ++ (l ≫= tick_events ctx)).
Proof.
  revert c. induction l as [|ei l IH]; intros c.
  { cbn. destruct c. cbn. rewrite app_nil_r. run_cases. }
  rewrite !bind_cons. setoid_rewrite for_each_app. cbn [for_each foldl]. split.
  - intros ([] & c1 & (w & Hw & ->)%process_epoch_Ok & (w' & Hw' & ->)%IH)%bind_Ok.
    exists w'. cbn in *. split; [eauto|]. by rewrite app_assoc.
  - intros (w' & (w & Hw & Hw') & ->).
    erewrite bind_run; [|apply process_epoch_Ok; eauto]. apply IH. cbn.
    exists w'. split; [done|]. by rewrite app_assoc.
Qed.

(** Entries are stored under their identifier. *)
Definition store_wf (s : Store) : Prop := ∀ key ei, s !! key = Some ei -> Identifier ei = key.

Lemma tick_Identifier ctx ei : Identifier (tick ctx ei) = Identifier ei.
Proof. unfold tick. by case_match. Qed.

Lemma put_tick_lookup ctx ei s key :
  s !! Identifier ei = Some ei ->
  put_tick ctx ei s !! key = if decide (key = Identifier ei) then Some (tick ctx ei) else s !! key.
Proof.
  intros Hs. unfold put_tick, tick. destruct (epoch_phase ctx ei); case_decide; subst;
    rewrite ?lookup_insert_eq, ?lookup_insert_ne by congruence; done.
Qed.

Lemma foldl_put_tick ctx l s key :
  NoDup (Identifier <$> l) -> (∀ ei, ei ∈ l -> s !! Identifier ei = Some ei) ->
  foldl (fun s ei => put_tick ctx ei s) s l !! key
  = if decide (key ∈ Identifier <$> l) then tick ctx <$> s !! key else s !! key.
Proof.
  revert s. induction l as [|ei l IH]; intros s Hn Hs; cbn [foldl fmap list_fmap]; [done|].
  apply NoDup_cons in Hn as [Hni Hn].
  assert (s !! Identifier ei = Some ei) as He by (apply Hs; left).
  rewrite IH; [|done|].
  - rewrite put_tick_lookup by done. destruct (decide (key = Identifier ei)) as [->|Hne].
    + rewrite decide_False, decide_True by (done || left). by rewrite He.
    + destruct (decide (key ∈ Identifier <$> l)) as [Hin|Hin].
      * by rewrite decide_True by (by right).
      * rewrite decide_False; [done|]. by intros [|]%elem_of_cons.
  - intros e He'. rewrite put_tick_lookup by done. rewrite decide_False; [apply Hs; by right|].
    intros E. apply Hni. rewrite <-E. by apply list_elem_of_fmap_2.
Qed.

Lemma kv_iterate_identifiers s : store_wf s -> Identifier <$> (kv_iterate s).*2 = (kv_iterate s).*1.
Proof.
  intros Hwf. rewrite <-list_fmap_compose. apply list_fmap_ext. intros i [key ei] Hi.
  cbn. apply Hwf. apply elem_of_kv_iterate. by eapply list_elem_of_lookup_2.
Qed.

Lemma put_all_ticks ctx s : store_wf s ->
  foldl (fun s ei => put_tick ctx ei s) s (kv_iterate s).*2 = tick ctx <$> s.
Proof.
  intros Hwf. apply map_eq. intros key. rewrite lookup_fmap, foldl_put_tick.
  - rewrite kv_iterate_identifiers by done. case_decide as Hin; [done|].
    destruct (s !! key) as [ei|] eqn:E; [|done]. destruct Hin.
    apply list_elem_of_fmap. exists (key, ei). split; [done|]. by apply elem_of_kv_iterate.
  - rewrite kv_iterate_identifiers by done. apply kv_iterate_NoDup.
  - intros ei ([key' e] & -> & Hin%elem_of_kv_iterate)%list_elem_of_fmap. cbn.
    by rewrite (Hwf _ _ Hin).
Qed.

Lemma BeginBlocker_Ok k ctx (c c' : C) :
  store_wf (store c) ->
  BeginBlocker k ctx c = (Ok tt, c') <->
  ∃ w, for_each ((kv_iterate (store c)).*2 ≫= tick_calls ctx) (run_call k) (world c) = (Ok tt, w) ∧
    c' = mkChain w (tick ctx <$> store c)
           (events c ++ ((kv_iterate (store c)).*2 ≫= tick_events ctx)).
Proof.
  intros Hwf. unfold BeginBlocker, IterateEpochInfo.
  rewrite (bind_run _ _ _ (kv_iterate (store c)).*2 c) by done.
  rewrite process_all. by rewrite put_all_ticks.
Qed.

Lemma tick_store_wf ctx s : store_wf s -> store_wf (tick ctx <$> s).
Proof.
  intros Hwf key ei. rewrite lookup_fmap, fmap_Some. intros (e & He & ->).
  rewrite tick_Identifier. by apply Hwf.
Qed.

Lemma BeginBlocker_wf k ctx (c c' : C) :
  store_wf (store c) -> BeginBlocker k ctx c = (Ok tt, c') -> store_wf (store c').
Proof. intros Hwf (w & _ & ->)%BeginBlocker_Ok; [|done]. by apply tick_store_wf. Qed.

(** C7: [BeginBlocker] refines the abstract transition: it succeeds exactly when
    the hook calls of all epochs, made in the order of their identifiers,
    succeed one after the other on the state of the other modules; then every
    stored epoch has made its one [tick], and the events are those of the ticks
    in the same order.  An epoch that ends passes its new number, not the number
    of the epoch that ended, to [AfterEpochEnd]. *)
Theorem begin_blocker_refines_tick k ctx (c c' : C) :
  store_wf (store c) ->
  BeginBlocker k ctx c = (Ok tt, c') <->
  ∃ w, for_each ((kv_iterate (store c)).*2 ≫= tick_calls ctx) (run_call k) (world c) = (Ok tt, w) ∧
    c' = mkChain w (tick ctx <$> store c)
           (events c ++ ((kv_iterate (store c)).*2 ≫= tick_events ctx)).
Proof. apply BeginBlocker_Ok. Qed.

(** ** Sequences of blocks *)

Definition run_blocks (k : Keeper W) (blocks : list BlockCtx) : M C unit :=
  for_each blocks (BeginBlocker k).

(** What a run of blocks does to one entry. *)
Definition ticks (blocks : list BlockCtx) (ei : EpochInfo) : EpochInfo :=
  foldl (fun ei ctx => tick ctx ei) ei blocks.

Lemma run_blocks_Ok k blocks (c c' : C) :
  store_wf (store c) -> run_blocks k blocks c = (Ok tt, c') ->
  store c' = ticks blocks <$> store c.
Proof.
  revert c. induction blocks as [|ctx blocks IH]; intros c Hwf E; cbn in E.
  - minv. symmetry. apply map_fmap_id.
  - minv1. destruct v. apply BeginBlocker_Ok in E0 as (w & _ & ->); [|done].
    apply IH in E; [|by apply tick_store_wf]. rewrite E. cbn.
    rewrite <-map_fmap_compose. by apply map_fmap_ext.
Qed.

(** The schedule: epoch [n] of a started counter began [n - 1] durations after
    the start time. *)
Definition on_schedule (ei : EpochInfo) : Prop :=
  EpochCountingStarted ei = true ->
  1 <= CurrentEpoch ei ∧
  CurrentEpochStartTime ei = StartTime ei + (CurrentEpoch ei - 1) * Duration ei.

(** How one entry can have changed after [n] blocks. *)
Record advanced (n : Z) (ei ei' : EpochInfo) : Prop := {
  adv_same : Identifier ei' = Identifier ei ∧ StartTime ei' = StartTime ei ∧ Duration ei' = Duration ei;
  adv_started : EpochCountingStarted ei = true ->
    EpochCountingStarted ei' = true ∧ CurrentEpoch ei <= CurrentEpoch ei';
  adv_bound : Z.max 1 (CurrentEpoch ei') <= Z.max 1 (CurrentEpoch ei) + n;
  adv_schedule : on_schedule ei -> on_schedule ei'
}.

Lemma tick_advanced ctx ei :
  0 <= CurrentEpoch ei -> CurrentEpoch ei + 1 < 2 ^ 63 ->
  advanced 1 ei (tick ctx ei) ∧ 0 <= CurrentEpoch (tick ctx ei).
Proof.
  intros H0 H1. unfold tick, epoch_phase.
  destruct (BlockTime ctx <? StartTime ei); [split; [split|]; cbn; lia || done|].
  destruct (EpochCountingStarted ei) eqn:Es; cbn [negb].
  - destruct (_ <? BlockTime ctx); [|split; [split|]; cbn; lia || done].
    assert (sint64 (CurrentEpoch ei + 1) = CurrentEpoch ei + 1) as E
      by (apply sint64_small; unfold is_int64; lia).
    split; [split|]; cbn; rewrite ?E; try (lia || done).
    intros Hs. unfold on_schedule in *. cbn. intros _. destruct (Hs Es) as [? ->]. lia.
  - split; [split|]; cbn; try (lia || done || (intros; congruence)). intros _. unfold on_schedule. cbn. lia.
Qed.

Lemma advanced_trans n m a b c : advanced n a b -> advanced m b c -> advanced (n + m) a c.
Proof.
  intros [(?&?&?) S1 B1 P1] [(?&?&?) S2 B2 P2]. split; [split_and!; congruence| |lia|auto].
  intros Hs. destruct (S1 Hs) as [Hs' ?]. destruct (S2 Hs') as [? ?]. split; [done|lia].
Qed.

Lemma ticks_advanced blocks ei :
  0 <= CurrentEpoch ei -> Z.max 1 (CurrentEpoch ei) + Z.of_nat (length blocks) < 2 ^ 63 ->
  advanced (Z.of_nat (length blocks)) ei (ticks blocks ei).
Proof.
  revert ei. induction blocks as [|ctx blocks IH]; intros ei H0 H1; cbn in *.
  - split; done || lia.
  - destruct (tick_advanced ctx ei) as [Ha Hc]; [lia..|]. pose proof (adv_bound _ _ _ Ha).
    pose proof (advanced_trans _ _ _ _ _ Ha (IH _ Hc ltac:(lia))) as Ht.
    by replace (1 + Z.of_nat (length blocks)) with (Z.of_nat (S (length blocks))) in Ht by lia.
Qed.

(** C30: over any number of blocks (below the int64 range of the counter) an epoch
    keeps its identifier, start time and duration, advances by at most one epoch
    per block, never goes back once started, and stays on schedule: epoch [n]
    is recorded as having begun exactly [n - 1] durations after the start time,
    however late its blocks came. *)
Theorem epochs_stay_on_schedule k blocks (c c' : C) key ei' :
  store_wf (store c) ->
  (∀ key ei, store c !! key = Some ei -> 0 <= CurrentEpoch ei ∧
    Z.max 1 (CurrentEpoch ei) + Z.of_nat (length blocks) < 2 ^ 63) ->
  run_blocks k blocks c = (Ok tt, c') -> store c' !! key = Some ei' ->
  ∃ ei, store c !! key = Some ei ∧ advanced (Z.of_nat (length blocks)) ei ei'.
Proof.
  intros Hwf Hb ->%run_blocks_Ok; [|done]. rewrite lookup_fmap, fmap_Some.
  intros (ei & He & ->). exists ei. split; [done|]. destruct (Hb _ _ He). by apply ticks_advanced.
Qed.

(** ** Catching up *)

Lemma ticks_catch_up t blocks ei :
  EpochCountingStarted ei = true -> 0 < Duration ei -> StartTime ei <= t ->
  Forall (fun ctx => t <= BlockTime ctx) blocks ->
  t - (CurrentEpochStartTime ei + Duration ei) <= Z.of_nat (length blocks) * Duration ei ->
  t <= CurrentEpochStartTime (ticks blocks ei) + Duration (ticks blocks ei).
Proof.
  intros Hs Hd Ht Hall. revert ei Hs Hd Ht. induction Hall as [|ctx blocks Hc Hall IH];
    intros ei Hs Hd Ht Hgap; cbn in *; [lia|].
  unfold tick at 2 4. unfold epoch_phase. rewrite Hs. cbn [negb].
  destruct (Z.ltb_spec (BlockTime ctx) (StartTime ei)); [lia|].
  destruct (Z.ltb_spec (CurrentEpochStartTime ei + Duration ei) (BlockTime ctx)); apply IH; cbn; lia || done.
Qed.

(** C31: a chain that fell behind catches up: if every block of a run comes at or
    after [t], then as many blocks as there are missed epochs before [t] bring
    the current epoch to cover [t]. *)
Theorem epochs_catch_up k t blocks (c c' : C) key ei :
  store_wf (store c) -> store c !! key = Some ei ->
  EpochCountingStarted ei = true -> 0 < Duration ei -> StartTime ei <= t ->
  Forall (fun ctx => t <= BlockTime ctx) blocks ->
  t - (CurrentEpochStartTime ei + Duration ei) <= Z.of_nat (length blocks) * Duration ei ->
  run_blocks k blocks c = (Ok tt, c') ->
  ∃ ei', store c' !! key = Some ei' ∧ t <= CurrentEpochStartTime ei' + Duration ei'.
Proof.
  intros Hwf He Hs Hd Ht Hall Hgap ->%run_blocks_Ok; [|done].
  exists (ticks blocks ei). rewrite lookup_fmap, He. split; [done|]. by apply ticks_catch_up.
Qed.

(** ** Genesis *)

Lemma InitGenesis_store ctx epochs (c c' : C) ids :
  validate_epochs epochs ids = Ok tt ->
  (∀ key ei, store c !! key = Some ei -> Identifier ei = key ∧ key ∈ ids) ->
  for_each epochs (fun epoch => SetEpochInfo (init_epoch ctx epoch)) c = (Ok tt, c') ->
  world c' = world c ∧ store_wf (store c') ∧
  (map_to_list (store c')).*2 ≡ₚ (init_epoch ctx <$> epochs) ++ (map_to_list (store c)).*2.
Proof.
  revert ids c. induction epochs as [|e epochs IH]; intros ids c Hv Hin E; cbn [for_each validate_epochs] in *.
  { cinv. split_and!; [done| |done]. intros key ei Hl. by destruct (Hin _ _ Hl). }
  unfold SetEpochInfo in E at 1. cinv.
  destruct (bool_decide_reflect (Identifier e ∈ ids)) as [|Hni]; [done|]. cinv.
  assert (store c !! Identifier e = None) as Hnone.
  { apply eq_None_not_Some. intros [x Hx]. by apply Hin in Hx as [_ ?]. }
  eapply IH in E as (? & ? & Hp); [|exact Hv|].
  - split_and!; [done|done|]. rewrite Hp. cbn. rewrite map_to_list_insert by done.
    cbn. symmetry. apply Permutation_middle.
  - cbn. intros key ei [[<- <-]|[? Hl]]%lookup_insert_Some; [set_solver|].
    destruct (Hin _ _ Hl). set_solver.
Qed.

Lemma InitGenesis_wf ctx gs (c c' : C) :
  store c = ∅ -> GenesisState_Validate gs = Ok tt -> InitGenesis ctx gs c = (Ok tt, c') ->
  store_wf (store c').
Proof. intros Hs Hv E. by eapply InitGenesis_store in E as (_ & ? & _); [|exact Hv|rewrite Hs]. Qed.

(** Importing validated genesis data into an empty store and exporting gives
    the same epochs back, with the block time filled in for unset start times
    and the block height as start height, and every entry stored under its
    identifier. *)
Theorem epochs_genesis_roundtrip ctx gs (c c' : C) :
  store c = ∅ -> GenesisState_Validate gs = Ok tt -> InitGenesis ctx gs c = (Ok tt, c') ->
  store_wf (store c') ∧
  ∃ gs', ExportGenesis c' = (Ok gs', c') ∧ Epochs gs' ≡ₚ init_epoch ctx <$> Epochs gs.
Proof.
  intros Hs Hv E. eapply InitGenesis_store in E as (_ & Hwf & Hp); [|exact Hv|by rewrite Hs].
  split; [done|]. eexists. split; [done|]. cbn. rewrite kv_iterate_Permutation, Hp, Hs.
  by rewrite map_to_list_empty, app_nil_r.
Qed.

End facts.

(** ** Witnesses: hooks that record their calls *)

Definition ex_hooks : EpochHooks (list HookCall) :=
  mkEpochHooks (fun id n => modify (fun w => w ++ [CallAfterEpochEnd id n]))
    (fun id n => modify (fun w => w ++ [CallBeforeEpochStart id n])).
Definition ex_keeper : Keeper (list HookCall) := mkKeeper (Some [ex_hooks]).
Definition ex_ctx (day : Z) : BlockCtx := mkBlockCtx (day * Hour * 24 + 1) (day + 1).
Definition ex_blank : Chain (list HookCall) Store := mkChain [] ∅ [].
Definition ex_init : Chain (list HookCall) Store := (InitGenesis (ex_ctx 0) DefaultGenesisState ex_blank).2.
(** Both epochs started; then a block ten days later. *)
Definition ex_started : Chain (list HookCall) Store := (BeginBlocker ex_keeper (ex_ctx 0) ex_init).2.

Lemma ex_init_wf : store_wf (store ex_init).
Proof.
  apply (InitGenesis_wf (ex_ctx 0) DefaultGenesisState ex_blank); [done|vm_compute; reflexivity|].
  apply run_Ok. vm_compute. reflexivity.
Qed.

Lemma ex_started_wf : store_wf (store ex_started).
Proof.
  apply (BeginBlocker_wf ex_keeper (ex_ctx 0) ex_init); [apply ex_init_wf|].
  apply run_Ok. vm_compute. reflexivity.
Qed.

Lemma begin_blocker_refines_tick_witness :
  ∃ w, for_each ((kv_iterate (store ex_started)).*2 ≫= tick_calls (ex_ctx 10)) (run_call ex_keeper)
         (world ex_started) = (Ok tt, w) ∧
    (BeginBlocker ex_keeper (ex_ctx 10) ex_started).2
    = mkChain w (tick (ex_ctx 10) <$> store ex_started)
        (events ex_started ++ ((kv_iterate (store ex_started)).*2 ≫= tick_events (ex_ctx 10))).
Proof.
  apply (begin_blocker_refines_tick ex_keeper (ex_ctx 10) ex_started); [apply ex_started_wf|].
  apply run_Ok. vm_compute. reflexivity.
Defined.

(** The day epoch is ended once, and the hook is told number 2. *)
Example ex_hook_calls :
  world (BeginBlocker ex_keeper (ex_ctx 10) ex_started).2
  = [CallBeforeEpochStart "day" 1; CallBeforeEpochStart "week" 1;
     CallAfterEpochEnd "day" 2; CallBeforeEpochStart "day" 2;
     CallAfterEpochEnd "week" 2; CallBeforeEpochStart "week" 2].
Proof. vm_compute. reflexivity. Qed.

Lemma epochs_stay_on_schedule_witness :
  ∃ ei, store ex_init !! DayEpochID = Some ei ∧
    advanced 3 ei (mkEpochInfo DayEpochID 1 (Hour * 24) 3 (1 + 2 * (Hour * 24)) true 12).
Proof.
  apply (epochs_stay_on_schedule ex_keeper [ex_ctx 0; ex_ctx 10; ex_ctx 11] ex_init
    (run_blocks ex_keeper [ex_ctx 0; ex_ctx 10; ex_ctx 11] ex_init).2).
  - apply ex_init_wf.
  - assert (map_Forall (fun _ ei => 0 <= CurrentEpoch ei ∧ Z.max 1 (CurrentEpoch ei) + 3 < 2 ^ 63)
      (store ex_init)) as Hall by (apply (bool_decide_unpack _); vm_compute; exact I).
    exact Hall.
  - apply run_Ok. vm_compute. reflexivity.
  - vm_compute. reflexivity.
Defined.

Lemma epochs_catch_up_witness :
  ∃ ei', store (run_blocks ex_keeper [ex_ctx 2; ex_ctx 2] ex_started).2 !! DayEpochID = Some ei' ∧
    2 * Hour * 24 + 1 <= CurrentEpochStartTime ei' + Duration ei'.
Proof.
  apply (epochs_catch_up ex_keeper (2 * Hour * 24 + 1) [ex_ctx 2; ex_ctx 2] ex_started _ _
    (mkEpochInfo DayEpochID 1 (Hour * 24) 1 1 true 1)).
  - apply ex_started_wf.
  - vm_compute. reflexivity.
  - reflexivity.
  - reflexivity.
  - cbn. unfold Hour. lia.
  - repeat constructor; cbn; unfold Hour; lia.
  - cbn. unfold Hour. lia.
  - apply run_Ok. vm_compute. reflexivity.
Defined.

Lemma epochs_genesis_roundtrip_witness :
  store_wf (store ex_init) ∧
  ∃ gs', ExportGenesis ex_init = (Ok gs', ex_init) ∧
    Epochs gs' ≡ₚ init_epoch (ex_ctx 0) <$> Epochs DefaultGenesisState.
Proof.
  apply (epochs_genesis_roundtrip (ex_ctx 0) DefaultGenesisState ex_blank ex_init);
    [reflexivity|vm_compute; reflexivity|]. apply run_Ok. vm_compute. reflexivity.
Defined.
