(* ===== verification/Inflation.v ===== *)
(** * x/inflation: minting per epoch

    [Store] is the module's key-value store (five single-byte keys, one field
    each; counters are kept as the 64-bit words the code writes) and its
    parameter space.  The staking and distribution keepers of the SDK and
    ethermint's [PowerReduction] are the class [InflationDeps]. *)

From stdpp Require Import base gmap strings list.
From S2P Require Import Prelude Golang Sdk Epochs.

#[local] Open Scope Z_scope.
#[local] Open Scope go_scope.

(** ** types *)

Definition ModuleName : string := "inflation".
Definition EventTypeMint : string := ModuleName.
Definition AttributeKeyEpochProvisions : string := "epoch_provisions".
Definition AttributeEpochNumber : string := "epoch_number".
Definition AttributeKeyAmount : string := "amount".

Record ExponentialCalculation := mkExponentialCalculation {
  Exp_A : Z;
  Exp_R : Z;
  Exp_C : Z;
  Exp_BondingTarget : Z;
  Exp_MaxVariance : Z
}.

Record InflationDistribution := mkInflationDistribution {
  StakingRewards : Z;
  CommunityPool : Z
}.

Record Params := mkParams {
  MintDenom : string;
  ExponentialCalc : ExponentialCalculation;
  Distribution : InflationDistribution;
  EnableInflation : bool
}.

Record GenesisState := mkGenesisState {
  Gen_Params : Params;
  Gen_Period : Z;
  Gen_EpochIdentifier : string;
  Gen_EpochsPerPeriod : Z;
  Gen_SkippedEpochs : Z
}.

Record MsgUpdateParams := mkMsgUpdateParams { Upd_Authority : string; Upd_Params : Params }.

(** The keepers and constants of other packages. *)
Class InflationDeps (W : Type) := {
  (** x/auth: creates the account on first use *)
  GetModuleAccount : string -> M W (option Account);
  (** x/distribution *)
  FundCommunityPool : list Coin -> string -> M W unit;
  (** x/staking *)
  StakingTokenSupply : W -> outcome Z;
  TotalBondedTokens : W -> outcome Z;
  (** ethermint *)
  PowerReduction : Z;
  (** cosmos-sdk/types: a decimal coin, for responses only *)
  NewDecCoinFromDec : string -> Z -> outcome (string * Z)
}.

Class InflationDepsLaws (W : Type) `{AccountKeeper W, BankKeeper W, InflationDeps W} : Prop := {
  GetModuleAccount_effect m w r w' : GetModuleAccount m w = (Ok r, w') ->
    bank_delta w w' (fun _ _ => 0) (fun _ => 0);
  FundCommunityPool_effect cs from w w' : FundCommunityPool cs from w = (Ok tt, w') ->
    ∃ pool, GetModuleAddress "distribution" = Some pool ∧
      bank_delta w w' (δ_send from pool cs) (fun _ => 0);
  PowerReduction_value : PowerReduction = 10 ^ 18
}.

Section types.
Context `{SdkMath} `{SdkTypes}.

Definition DefaultInflationDenom : string := "atuc".

Definition NewParams (mintDenom : string) (exponentialCalculation : ExponentialCalculation)
    (inflationDistribution : InflationDistribution) (enableInflation : bool) : Params :=
  mkParams mintDenom exponentialCalculation inflationDistribution enableInflation.

Definition DefaultParams : Params :=
  mkParams "atuc"
    (mkExponentialCalculation (LegacyNewDec 16304348) (LegacyNewDecWithPrec 35 2) 0
       (LegacyNewDecWithPrec 80 2) 0)
    (mkInflationDistribution (LegacyNewDecWithPrec 1000000000 9) 0)
    false.

Definition validateMintDenom (v : string) : outcome unit :=
  if IsBlank v then Err (Plain "mint denom cannot be blank")
  else if negb (ValidateDenom v) then Err (Plain "invalid denom")
  else Ok tt.

Definition validateExponentialCalculation (v : ExponentialCalculation) : outcome unit :=
  if Exp_A v <? 0 then Err (Plain "initial value cannot be negative")
  else if LegacyNewDec 1 <? Exp_R v then Err (Plain "reduction factor cannot be greater than 1")
  else if Exp_R v <? 0 then Err (Plain "reduction factor cannot be negative")
  else if Exp_C v <? 0 then Err (Plain "long term inflation cannot be negative")
  else if LegacyNewDec 1 <? Exp_BondingTarget v
  then Err (Plain "bonded target cannot be greater than 1")
  else if negb (0 <? Exp_BondingTarget v)
  then Err (Plain "bonded target cannot be zero or negative")
  else if Exp_MaxVariance v <? 0 then Err (Plain "max variance cannot be negative")
  else Ok tt.

Definition validateInflationDistribution (v : InflationDistribution) : outcome unit :=
  if StakingRewards v <? 0
  then Err (Plain "staking distribution ratio must not be negative")
  else if CommunityPool v <? 0
  then Err (Plain "community pool distribution ratio must not be negative")
  else
    let? totalProportions := dec_Add (StakingRewards v) (CommunityPool v) in
    if negb (totalProportions =? LegacyNewDec 1)
    then Err (Plain "total distributions ratio should be 1") else Ok tt.

Definition validateBool (v : bool) : outcome unit := Ok tt.

Definition Params_Validate (p : Params) : outcome unit :=
  let? _ := validateMintDenom (MintDenom p) in
  let? _ := validateExponentialCalculation (ExponentialCalc p) in
  let? _ := validateInflationDistribution (Distribution p) in
  validateBool (EnableInflation p).

Definition ParamSetPairs (p : Params) : list (outcome unit) :=
  [validateMintDenom (MintDenom p); validateExponentialCalculation (ExponentialCalc p);
   validateInflationDistribution (Distribution p); validateBool (EnableInflation p)].

Definition NewGenesisState (params : Params) (period : Z) (epochIdentifier : string)
    (epochsPerPeriod skippedEpochs : Z) : GenesisState :=
  mkGenesisState params period epochIdentifier epochsPerPeriod skippedEpochs.

Definition DefaultGenesisState : GenesisState :=
  mkGenesisState DefaultParams 0 DayEpochID 30 0.

Definition validateEpochsPerPeriod (v : Z) : outcome unit :=
  if v <=? 0 then Err (Plain "epochs per period must be positive") else Ok tt.

Definition validateSkippedEpochs (v : Z) : outcome unit := Ok tt.

Definition GenesisState_Validate (gs : GenesisState) : outcome unit :=
  let? _ := ValidateEpochIdentifierString (Gen_EpochIdentifier gs) in
  let? _ := validateEpochsPerPeriod (Gen_EpochsPerPeriod gs) in
  let? _ := validateSkippedEpochs (Gen_SkippedEpochs gs) in
  Params_Validate (Gen_Params gs).

(** [a * (1 - r) ^ period + c], times the bonding incentive, per epoch, in the
    smallest unit; [powerReduction] is ethermint's constant. *)
Definition CalculateEpochMintProvision (powerReduction : Z) (params : Params) (period : Z)
    (epochsPerPeriod : Z) (bondedRatio : Z) : outcome Z :=
  let a := Exp_A (ExponentialCalc params) in
  let r := Exp_R (ExponentialCalc params) in
  let c := Exp_C (ExponentialCalc params) in
  let bTarget := Exp_BondingTarget (ExponentialCalc params) in
  let maxVariance := Exp_MaxVariance (ExponentialCalc params) in
  let? decay := dec_Sub dec_unit r in
  let? decayPower := dec_Power decay period in
  let? initial := dec_Mul a decayPower in
  let? exponentialDecay := dec_Add initial c in
  let bondedRatio := if bTarget <=? bondedRatio then bTarget else bondedRatio in
  let? varianceQuo := dec_Quo maxVariance bTarget in
  let? sub := dec_Mul bondedRatio varianceQuo in
  let? incentiveMax := dec_Add dec_unit maxVariance in
  let? bondingIncentive := dec_Sub incentiveMax sub in
  let? periodProvision := dec_Mul exponentialDecay bondingIncentive in
  let? epochProvision := dec_Quo periodProvision (LegacyNewDec epochsPerPeriod) in
  let? reduction := dec_FromInt powerReduction in
  dec_Mul epochProvision reduction.

End types.

(** ** keeper *)

Record Store := mkStore {
  st_params : option Params;
  st_period : option Z;
  st_epochMintProvision : option Z;
  st_epochIdentifier : option string;
  st_epochsPerPeriod : option Z;
  st_skippedEpochs : option Z
}.

Record Keeper := mkKeeper { feeCollectorName : string; authority : string }.

Section keeper.
Context {W : Type} `{SdkMath} `{SdkTypes} `{ParamSubspace}.
Context {AK : AccountKeeper W} {BK : BankKeeper W} {ID : InflationDeps W}.
#[local] Abbreviation C := (Chain W Store).

Definition NewKeeper (feeCollector auth : string) : outcome Keeper :=
  match GetModuleAddress ModuleName with
  | None => Panic
  | Some _ => Ok (mkKeeper feeCollector auth)
  end.

Definition GetAuthority (k : Keeper) : string := authority k.

Definition GetParams : M C Params :=
  let* p := get_store st_params in
  match p with Some p => ret p | None => panic end.

Definition SetParams (params : Params) : M C unit :=
  do! lift (SetParamSet_check (ParamSetPairs params));
  mod_store (fun s => mkStore (Some params) (st_period s) (st_epochMintProvision s)
                        (st_epochIdentifier s) (st_epochsPerPeriod s) (st_skippedEpochs s)).

Definition GetPeriod : M C Z := get_store (fun s => default 0 (st_period s)).

Definition SetPeriod (period : Z) : M C unit :=
  mod_store (fun s => mkStore (st_params s) (Some period) (st_epochMintProvision s)
                        (st_epochIdentifier s) (st_epochsPerPeriod s) (st_skippedEpochs s)).

(** The value and whether it was found. *)
Definition GetEpochMintProvision : M C (Z * bool) :=
  get_store (fun s => match st_epochMintProvision s with Some p => (p, true) | None => (0, false) end).

Definition SetEpochMintProvision (provision : Z) : M C unit :=
  mod_store (fun s => mkStore (st_params s) (st_period s) (Some provision)
                        (st_epochIdentifier s) (st_epochsPerPeriod s) (st_skippedEpochs s)).

Definition GetEpochIdentifier : M C string :=
  get_store (fun s => default "" (st_epochIdentifier s)).

Definition SetEpochIdentifier (epochIdentifier : string) : M C unit :=
  mod_store (fun s => mkStore (st_params s) (st_period s) (st_epochMintProvision s)
                        (Some epochIdentifier) (st_epochsPerPeriod s) (st_skippedEpochs s)).

(** Stored as the [uint64] with the same bits. *)
Definition GetEpochsPerPeriod : M C Z :=
  get_store (fun s => match st_epochsPerPeriod s with Some w => sint64 w | None => 0 end).

Definition SetEpochsPerPeriod (epochsPerPeriod : Z) : M C unit :=
  mod_store (fun s => mkStore (st_params s) (st_period s) (st_epochMintProvision s)
                        (st_epochIdentifier s) (Some (wrap64 epochsPerPeriod)) (st_skippedEpochs s)).

Definition GetSkippedEpochs : M C Z := get_store (fun s => default 0 (st_skippedEpochs s)).

Definition SetSkippedEpochs (skippedEpochs : Z) : M C unit :=
  mod_store (fun s => mkStore (st_params s) (st_period s) (st_epochMintProvision s)
                        (st_epochIdentifier s) (st_epochsPerPeriod s) (Some skippedEpochs)).

(** ** inflation.go *)

Definition MintCoins (coin : Coin) : M C unit :=
  let* coins := lift (NewCoins [coin]) in
  match coins with
  | [] => ret tt
  | _ => ext (Sdk.MintCoins ModuleName coins)
  end.

Definition GetProportions (coin : Coin) (distribution : Z) : outcome Coin :=
  let? amount := dec_FromInt (Amount coin) in
  let? share := dec_Mul amount distribution in
  let? truncated := dec_TruncateInt share in
  NewCoin (Denom coin) truncated.

Definition AllocateExponentialInflation (k : Keeper) (mintedCoin : Coin)
    : M C (list Coin * list Coin) :=
  let* params := GetParams in
  let proportions := Distribution params in
  let* stakingCoin := lift (GetProportions mintedCoin (StakingRewards proportions)) in
  let* staking := lift (NewCoins [stakingCoin]) in
  do! ext (SendCoinsFromModuleToModule ModuleName (feeCollectorName k) staking);
  let moduleAddr := default "" (GetModuleAddress ModuleName) in
  let* communityPool := get_world (fun w => GetAllBalances w moduleAddr) in
  do! ext (FundCommunityPool communityPool moduleAddr);
  ret (staking, communityPool).

Definition MintAndAllocateInflation (k : Keeper) (coin : Coin) : M C (list Coin * list Coin) :=
  do! MintCoins coin;
  AllocateExponentialInflation k coin.

Definition BondedRatio : M C Z :=
  let* stakeSupply := get_world StakingTokenSupply in
  match stakeSupply with
  | Panic => panic
  | Err _ => ret 0
  | Ok stakeSupply =>
      if negb (0 <? stakeSupply) then ret 0
      else
        let* totalBonded := get_world TotalBondedTokens in
        match totalBonded with
        | Panic => panic
        | Err _ => ret 0
        | Ok totalBonded =>
            let* bonded := lift (dec_FromInt totalBonded) in
            lift (dec_QuoInt bonded stakeSupply)
        end
  end.

Definition GetCirculatingSupply : M C Z :=
  let* params := GetParams in
  let* supply := get_world (fun w => GetSupply w (MintDenom params)) in
  lift (dec_FromInt supply).

Definition GetInflationRate : M C Z :=
  let* '(epochMintProvision, _) := GetEpochMintProvision in
  if epochMintProvision =? 0 then ret 0
  else
    let* epp := GetEpochsPerPeriod in
    if epp =? 0 then ret 0
    else
      let epochsPerPeriod := LegacyNewDec epp in
      let* circulatingSupply := GetCirculatingSupply in
      if circulatingSupply =? 0 then ret 0
      else
        let* yearly := lift (dec_Mul epochMintProvision epochsPerPeriod) in
        let* rate := lift (dec_Quo yearly circulatingSupply) in
        lift (dec_Mul rate (LegacyNewDec 100)).

(** ** hooks.go *)

Definition BeforeEpochStart (epochIdentifier : string) (epochNumber : Z) : M C unit := ret tt.

(** [epochNumber-epochsPerPeriod*int64(period)-int64(skippedEpochs) > epochsPerPeriod] *)
Definition period_passed (epochNumber epochsPerPeriod period skippedEpochs : Z) : bool :=
  epochsPerPeriod <?
  sint64 (sint64 (epochNumber - sint64 (epochsPerPeriod * sint64 period)) - sint64 skippedEpochs).

Definition AfterEpochEnd (k : Keeper) (epochIdentifier : string) (epochNumber : Z) : M C unit :=
  let* params := GetParams in
  let* skippedEpochs := GetSkippedEpochs in
  if negb (EnableInflation params) then
    if negb (String.eqb epochIdentifier DayEpochID) then ret tt
    else SetSkippedEpochs (wrap64 (skippedEpochs + 1))
  else
    let* expEpochID := GetEpochIdentifier in
    if negb (String.eqb epochIdentifier expEpochID) then ret tt
    else
      let* '(epochMintProvision, found) := GetEpochMintProvision in
      if negb found then panic
      else
        let* amount := lift (dec_TruncateInt epochMintProvision) in
        let* mintedCoin := lift (NewCoin (MintDenom params) amount) in
        let* allocated := attempt (MintAndAllocateInflation k mintedCoin) in
        match allocated with
        | inr _ => panic
        | inl _ =>
            let* period := GetPeriod in
            let* epochsPerPeriod := GetEpochsPerPeriod in
            let* newProvision :=
              (if period_passed epochNumber epochsPerPeriod period skippedEpochs then
                 do! SetPeriod (wrap64 (period + 1));
                 let* period := GetPeriod in
                 let* bondedRatio := BondedRatio in
                 let* newProvision := lift (CalculateEpochMintProvision PowerReduction params
                                              period epochsPerPeriod bondedRatio) in
                 do! SetEpochMintProvision newProvision;
                 ret newProvision
               else ret epochMintProvision) in
            emit (mkEvent EventTypeMint
              [(AttributeEpochNumber, AInt epochNumber);
               (AttributeKeyEpochProvisions, ADec newProvision);
               (AttributeKeyAmount, AInt (Amount mintedCoin))])
        end.

(** [k.Hooks()]: what x/epochs calls. *)
Definition Hooks (k : Keeper) : EpochHooks C :=
  mkEpochHooks (fun id n => AfterEpochEnd k id n) (fun id n => BeforeEpochStart id n).

(** ** msg_server.go, grpc_query.go, genesis.go, migrations *)

Definition msg_UpdateParams (k : Keeper) (req : MsgUpdateParams) : M C unit :=
  do! reject (negb (String.eqb (GetAuthority k) (Upd_Authority req))) (Foreign "ErrInvalidSigner");
  do! lift (Params_Validate (Upd_Params req));
  SetParams (Upd_Params req).

Definition query_Period : M C Z := GetPeriod.
Definition query_EpochMintProvision : M C (string * Z) :=
  let* '(provision, found) := GetEpochMintProvision in
  if negb found then fail (Foreign "codes.NotFound")
  else
    let* params := GetParams in
    lift (NewDecCoinFromDec (MintDenom params) provision).
Definition query_SkippedEpochs : M C Z := GetSkippedEpochs.
Definition query_InflationRate : M C Z := GetInflationRate.
Definition query_CirculatingSupply : M C (string * Z) :=
  let* supply := GetCirculatingSupply in
  let* params := GetParams in
  lift (NewDecCoinFromDec (MintDenom params) supply).
Definition query_Params : M C Params := GetParams.

Definition InitGenesis (data : GenesisState) : M C unit :=
  let* acc := ext (GetModuleAccount ModuleName) in
  match acc with
  | None => panic
  | Some _ =>
      let params := Gen_Params data in
      do! SetParams params;
      do! SetPeriod (Gen_Period data);
      do! SetEpochIdentifier (Gen_EpochIdentifier data);
      do! SetEpochsPerPeriod (Gen_EpochsPerPeriod data);
      do! SetSkippedEpochs (Gen_SkippedEpochs data);
      let* bondedRatio := BondedRatio in
      let* epochMintProvision := lift (CalculateEpochMintProvision PowerReduction params
        (Gen_Period data) (Gen_EpochsPerPeriod data) bondedRatio) in
      SetEpochMintProvision epochMintProvision
  end.

Definition ExportGenesis : M C GenesisState :=
  let* params := GetParams in
  let* period := GetPeriod in
  let* epochIdentifier := GetEpochIdentifier in
  let* epochsPerPeriod := GetEpochsPerPeriod in
  let* skippedEpochs := GetSkippedEpochs in
  ret (mkGenesisState params period epochIdentifier epochsPerPeriod skippedEpochs).

(** [migrations/v2.UpdateParams], run by [Migrate1to2]. *)
Definition Migrate1to2 : M C unit :=
  let* params := GetParams in
  let newExp := mkExponentialCalculation (LegacyNewDec 16304348) (LegacyNewDecWithPrec 35 2) 0
                  (LegacyNewDecWithPrec 80 2) 0 in
  let params := mkParams (MintDenom params) newExp (Distribution params) (EnableInflation params) in
  do! SetParams params;
  do! SetEpochsPerPeriod 30;
  let* provision := lift (CalculateEpochMintProvision PowerReduction params 0 30 (LegacyNewDec 1)) in
  SetEpochMintProvision provision.

End keeper.
