(* ===== verification/InflationFacts.v ===== *)
(** * Theorems about x/inflation

    The mint provision is total and non-negative on validated parameters; an
    ended epoch mints exactly the provision and distributes all of it; epochs
    without inflation only count; genesis; and, together with x/epochs, a block
    mints once per ended epoch of the configured identifier. *)

From stdpp Require Import base gmap strings list.
From S2P Require Import Prelude Golang Sdk Reference Epochs EpochsFacts Inflation.

#[local] Open Scope Z_scope.
#[local] Open Scope go_scope.

(** ** The mint provision *)
Section provision_facts.
Context {SM : SdkMath} {SML : SdkMathLaws} {ST : SdkTypes}.

Definition provision_bound : Z := 2 ^ 128.

(** What validation guarantees about the calculation parameters. *)
Record valid_calculation (e : ExponentialCalculation) : Prop := {
  vc_A : 0 <= Exp_A e;
  vc_R : 0 <= Exp_R e <= dec_unit;
  vc_C : 0 <= Exp_C e;
  vc_target : 0 < Exp_BondingTarget e <= dec_unit;
  vc_variance : 0 <= Exp_MaxVariance e
}.

Lemma validateExponentialCalculation_Ok e :
  validateExponentialCalculation e = Ok tt <-> valid_calculation e.
Proof.
  unfold validateExponentialCalculation. change (LegacyNewDec 1) with dec_unit. split.
  - repeat (case_match; [done|]). intros _. breflect. split; lia.
  - intros [? [? ?] ? [? ?] ?]. repeat (case_match; [breflect; lia|]). done.
Qed.

Lemma dec_unit_pos : 0 < dec_unit < 2 ^ 60.
Proof. unfold dec_unit. lia. Qed.

(** Multiplying by a factor of at most one does not increase. *)
Lemma bankers_mul_unit a b : 0 <= a -> 0 <= b <= dec_unit -> 0 <= bankers (a * b) <= a.
Proof.
  intros Ha Hb. pose proof dec_unit_pos. split; [apply bankers_nonneg; nia|].
  pose proof (bankers_bound (a * b) ltac:(nia)).
  assert (2 * dec_unit * bankers (a * b) < 2 * dec_unit * (a + 1)) by nia. nia.
Qed.

Lemma bankers_le a b : 0 <= a <= b * dec_unit -> 0 <= bankers a <= b.
Proof.
  intros Ha. pose proof dec_unit_pos. split; [apply bankers_nonneg; lia|].
  pose proof (bankers_bound a ltac:(lia)). nia.
Qed.

(** [bonded * (variance / target)] exceeds [variance] by less than one unit of
    the last place when [bonded <= target]. *)
Lemma incentive_bound v t b : 0 <= v -> 0 < t <= dec_unit -> 0 <= b <= t ->
  0 <= bankers (b * bankers (Z.quot (v * dec_unit * dec_unit) t)) <= v + 1.
Proof.
  intros Hv Ht Hb. pose proof dec_unit_pos. rewrite Z.quot_div_nonneg by nia.
  set (n := v * dec_unit * dec_unit / t).
  assert (0 <= n) by (apply Z.div_pos; nia).
  assert (t * n <= v * dec_unit * dec_unit) by (apply Z.mul_div_le; lia).
  pose proof (bankers_bound n ltac:(lia)). pose proof (bankers_nonneg n ltac:(lia)).
  set (q := bankers n) in *. assert (0 <= b * q) by nia.
  apply bankers_le. split; [done|].
  assert (b * q <= t * q) by nia.
  assert (2 * dec_unit * (t * q) <= 2 * (v * dec_unit * dec_unit) + t * dec_unit) by nia.
  nia.
Qed.

Lemma fits_bound z b : 0 <= z <= b -> b < 2 ^ 315 -> dec_fits z.
Proof. unfold dec_fits. lia. Qed.

(** Dividing a period's provision into [n] epochs. *)
Lemma per_epoch_bound P n : 0 <= P -> 0 < n ->
  let E := bankers (Z.quot (P * dec_unit * dec_unit) (LegacyNewDec n)) in
  0 <= E <= P ∧ 2 * (E * n) <= 2 * P + n.
Proof.
  intros HP Hn. pose proof dec_unit_pos. unfold LegacyNewDec. cbn zeta.
  rewrite Z.quot_div_nonneg by nia. rewrite Z.div_mul_cancel_r by lia.
  set (q := P * dec_unit / n).
  assert (0 <= q) by (apply Z.div_pos; nia).
  assert (n * q <= P * dec_unit) by (apply Z.mul_div_le; lia).
  split; [apply bankers_le; split; [done|nia]|].
  pose proof (bankers_bound q ltac:(lia)). nia.
Qed.

(** The last steps of the calculation: incentive, epochs, power reduction. *)
Lemma provision_tail D I n :
  0 <= D <= 2 ^ 129 -> 0 <= I <= 2 ^ 129 -> 0 < n < 2 ^ 63 ->
  ∃ E, (let? periodProvision := dec_Mul D I in
        let? epochProvision := dec_Quo periodProvision (LegacyNewDec n) in
        let? reduction := dec_FromInt (10 ^ 18) in
        dec_Mul epochProvision reduction) = Ok (E * 10 ^ 18) ∧
    0 <= E ∧ E * n * dec_unit <= D * I + (n + 1) * dec_unit.
Proof.
  intros HD HI Hn. pose proof dec_unit_pos.
  assert (0 <= D * I <= 2 ^ 258) as HDI by (split; [nia|]; change (2 ^ 258) with (2 ^ 129 * 2 ^ 129); nia).
  pose proof (bankers_bound (D * I) ltac:(lia)) as HP. pose proof (bankers_nonneg (D * I) ltac:(lia)) as HP0.
  set (P := bankers (D * I)) in *.
  assert (P <= 2 ^ 200) by (unfold dec_unit in *; lia).
  destruct (per_epoch_bound P n HP0 ltac:(lia)) as [HE1 HE2]. cbn zeta in *.
  set (E := bankers (Z.quot (P * dec_unit * dec_unit) (LegacyNewDec n))) in *.
  exists E. split_and!; [|lia|nia].
  rewrite dec_Mul_spec by (eapply (fits_bound _ (2 ^ 200)); fold P; lia). fold P. cbn [obind].
  rewrite dec_Quo_spec; fold E; [|unfold LegacyNewDec; lia|eapply (fits_bound _ (2 ^ 200)); lia].
  cbn [obind]. rewrite dec_FromInt_spec by done. cbn [obind].
  replace (E * (10 ^ 18 * dec_unit)) with (E * 10 ^ 18 * dec_unit) by ring.
  rewrite dec_Mul_spec; replace (E * (10 ^ 18 * dec_unit)) with (E * 10 ^ 18 * dec_unit) by ring;
    rewrite bankers_exact; [done|]. eapply (fits_bound _ (2 ^ 260)); lia.
Qed.

(** C29: on parameters that pass validation (magnitudes below 2^128) the mint
    provision of every period is defined and never negative, so minting it
    cannot panic, and over all epochs of a period it stays within
    [(A + C) * (1 + MaxVariance)] up to rounding. *)
Theorem provision_defined_and_bounded params period epp ratio :
  let e := ExponentialCalc params in
  validateExponentialCalculation e = Ok tt ->
  Exp_A e <= provision_bound -> Exp_C e <= provision_bound -> Exp_MaxVariance e <= provision_bound ->
  is_uint64 period -> 0 < epp < 2 ^ 63 -> 0 <= ratio ->
  ∃ E, CalculateEpochMintProvision (10 ^ 18) params period epp ratio = Ok (E * 10 ^ 18) ∧
    0 <= E ∧ E * epp * dec_unit <= (Exp_A e + Exp_C e) * (dec_unit + Exp_MaxVariance e) + (epp + 1) * dec_unit.
Proof.
  cbn zeta. intros [HA HR HC HT HV]%validateExponentialCalculation_Ok HA' HC' HV' Hp Hn Hb.
  unfold CalculateEpochMintProvision, provision_bound in *. pose proof dec_unit_pos.
  set (e := ExponentialCalc params) in *.
  rewrite dec_Sub_spec by (eapply (fits_bound _ dec_unit); lia). cbn [obind].
  destruct (dec_Power_unit (dec_unit - Exp_R e) period ltac:(lia) Hp) as (pw & -> & Hpw). cbn [obind].
  pose proof (bankers_mul_unit (Exp_A e) pw HA Hpw) as Hi. set (i := bankers (Exp_A e * pw)) in *.
  rewrite dec_Mul_spec by (eapply (fits_bound _ (2 ^ 128)); fold i; lia). fold i. cbn [obind].
  rewrite dec_Add_spec by (eapply (fits_bound _ (2 ^ 129)); lia). cbn [obind].
  set (D := i + Exp_C e). set (t := Exp_BondingTarget e) in *. set (v := Exp_MaxVariance e) in *.
  set (b := if t <=? ratio then t else ratio).
  assert (0 <= b <= t) as Hbt by (unfold b; case_match; breflect; lia).
  pose proof (incentive_bound v t b HV HT Hbt) as Hs.
  assert (0 <= bankers (Z.quot (v * dec_unit * dec_unit) t) <= 2 ^ 188) as Hq.
  { apply bankers_le. rewrite Z.quot_div_nonneg by nia. split; [apply Z.div_pos; nia|].
    apply Z.div_le_upper_bound; [lia|]. nia. }
  set (q := bankers (Z.quot (v * dec_unit * dec_unit) t)) in *. set (sb := bankers (b * q)) in *.
  rewrite dec_Quo_spec by (lia || (eapply (fits_bound _ (2 ^ 188)); fold q; lia)). fold q. cbn [obind].
  rewrite dec_Mul_spec by (eapply (fits_bound _ (2 ^ 129)); fold sb; lia). fold sb. cbn [obind].
  rewrite dec_Add_spec by (eapply (fits_bound _ (2 ^ 129)); lia). cbn [obind].
  rewrite dec_Sub_spec by (eapply (fits_bound _ (2 ^ 129)); lia). cbn [obind].
  set (I := dec_unit + v - sb). assert (0 <= I <= dec_unit + v) as HI by (unfold I; lia).
  destruct (provision_tail D I epp) as (E & -> & HE & Hle); [unfold D; lia|lia|lia|].
  exists E. split_and!; [done|done|]. assert (0 <= D <= Exp_A e + Exp_C e) by (unfold D; lia).
  assert (D * I <= (Exp_A e + Exp_C e) * (dec_unit + v)) by (apply Z.mul_le_mono_nonneg; lia). lia.
Qed.

End provision_facts.

(** ** The keeper *)
Section keeper_facts.
Context {W : Type} {SM : SdkMath} {SML : SdkMathLaws} {ST : SdkTypes} {STL : SdkTypesLaws}.
Context {PS : ParamSubspace} {PSL : ParamSubspaceLaws}.
Context {AK : AccountKeeper W} {BK : BankKeeper W} {BL : BankLaws W}.
Context {ID : InflationDeps W} {IDL : InflationDepsLaws W}.
#[local] Abbreviation C := (Chain W Store).

Lemma inflation_GetParams_Ok p (c c' : C) : GetParams c = (Ok p, c') -> c' = c ∧ st_params (store c) = Some p.
Proof. unfold GetParams. intros E. cinv. by case_match; cinv. Qed.

(** Minting an amount that may be zero. *)
Lemma MintCoins_Ok coin maddr (c c' : C) :
  GetModuleAddress ModuleName = Some maddr -> MintCoins coin c = (Ok tt, c') ->
  store c' = store c ∧ bank_delta (world c) (world c') (δ_mint maddr [coin]) (amount_of [coin]).
Proof.
  intros Hm E. unfold MintCoins in E. cinv.
  match goal with H : NewCoins _ = Ok ?cs |- _ => destruct cs as [|x cs] end; cinv.
  - split; [done|]. match goal with H : NewCoins _ = Ok _ |- _ => apply NewCoins_effect in H as [_ Hn] end.
    eapply bank_delta_ext; [apply bank_delta_refl| |exact Hn].
    intros a d. unfold δ_mint, gain. rewrite <-(Hn d). by case_match.
  - bank_inv. split; [done|]. done.
Qed.

Lemma GetProportions_Ok coin r s :
  GetProportions coin r = Ok s ->
  s = mkCoin (Denom coin) (Z.quot (Amount coin * r) dec_unit) ∧ 0 <= Amount s.
Proof.
  unfold GetProportions. intros E. minv. arith_inv.
  match goal with H : NewCoin _ _ = Ok _ |- _ => apply NewCoin_Ok in H as (-> & ? & _) end.
  replace (Amount coin * dec_unit * r) with (Amount coin * r * dec_unit) in * by ring.
  by rewrite bankers_exact in *.
Qed.

(** The movements of one minting: [s] to the fee collector, the whole remaining
    balance of the module to the community pool. *)
Definition minted_and_allocated (k : Keeper) (w w' : W) (minted : Coin) (ratio : Z) : Prop :=
  ∃ maddr collector distr pool,
    GetModuleAddress ModuleName = Some maddr ∧
    GetModuleAddress (feeCollectorName k) = Some collector ∧
    GetModuleAddress "distribution" = Some distr ∧
    let staking := mkCoin (Denom minted) (Z.quot (Amount minted * ratio) dec_unit) in
    0 <= Amount staking ∧
    (maddr ≠ collector -> ∀ d, ValidateDenom d = true ->
      amount_of pool d = GetBalance w maddr d + amount_of [minted] d - amount_of [staking] d) ∧
    bank_delta w w'
      (fun a d => δ_mint maddr [minted] a d + δ_send maddr collector [staking] a d
                  + δ_send maddr distr pool a d)
      (amount_of [minted]).

Lemma MintAndAllocateInflation_Ok k coin r (c c' : C) :
  MintAndAllocateInflation k coin c = (Ok r, c') ->
  store c' = store c ∧ ∃ p, st_params (store c) = Some p ∧
    minted_and_allocated k (world c) (world c') coin (StakingRewards (Distribution p)).
Proof.
  unfold MintAndAllocateInflation, AllocateExponentialInflation. intros E. minv1. destruct v.
  minv1. apply inflation_GetParams_Ok in E1 as [-> Hp]. cinv.
  match goal with H : GetProportions _ _ = Ok _ |- _ => apply GetProportions_Ok in H as [-> Hs] end.
  bank_inv.
  match goal with H : GetModuleAddress ModuleName = Some ?a |- _ => rename a into maddr; rename H into Hm end.
  apply MintCoins_Ok with (maddr := maddr) in E0 as [Hst B1]; [|done]. rewrite Hst in Hp.
  split; [done|]. exists v. split; [done|]. rewrite Hm in *. cbn in *.
  match goal with H : FundCommunityPool _ _ _ = _ |- _ =>
    apply FundCommunityPool_effect in H as (distr & Hd & B3) end.
  match type of B3 with bank_delta _ _ (δ_send _ _ ?pool) _ => eexists maddr, _, distr, pool end.
  cbn zeta. split_and!; [done|eassumption|done|exact Hs| |bank_chain; lia].
  - intros Hne d Hv. rewrite GetAllBalances_spec by done.
    match goal with B2 : bank_delta (world s) _ _ _ |- _ => rewrite (delta_balance _ _ _ _ B2) end.
    rewrite (delta_balance _ _ _ _ B1). unfold δ_mint, δ_send, gain. cbn.
    rewrite String.eqb_refl, (proj2 (String.eqb_neq maddr _)) by done. cbn. lia.
Qed.

Lemma BondedRatio_Ok r (c c' : C) : BondedRatio c = (Ok r, c') -> c' = c.
Proof.
  unfold BondedRatio. intros E. cinv. destruct (StakingTokenSupply _) as [sup|e|]; [|by cinv|by cinv].
  destruct (negb _); [by cinv|]. cinv. destruct (TotalBondedTokens _); by cinv.
Qed.

(** The period counter and the provision after an epoch that minted. *)
Definition period_update (p : Params) (n : Z) (s s' : Store) : Prop :=
  let period := default 0 (st_period s) in
  let epp := match st_epochsPerPeriod s with Some w => sint64 w | None => 0 end in
  if period_passed n epp period (default 0 (st_skippedEpochs s)) then
    ∃ ratio provision,
      CalculateEpochMintProvision PowerReduction p (wrap64 (period + 1)) epp ratio = Ok provision ∧
      s' = mkStore (st_params s) (Some (wrap64 (period + 1))) (Some provision)
             (st_epochIdentifier s) (st_epochsPerPeriod s) (st_skippedEpochs s)
  else s' = s.

Lemma AfterEpochEnd_minting k n p (c c' : C) :
  st_params (store c) = Some p -> EnableInflation p = true ->
  AfterEpochEnd k (default "" (st_epochIdentifier (store c))) n c = (Ok tt, c') ->
  ∃ provision, st_epochMintProvision (store c) = Some provision ∧
    let minted := mkCoin (MintDenom p) (Z.quot provision dec_unit) in
    0 <= Amount minted ∧ ValidateDenom (MintDenom p) = true ∧
    minted_and_allocated k (world c) (world c') minted (StakingRewards (Distribution p)) ∧
    period_update p n (store c) (store c').
Proof.
  intros Hp Hen E. unfold AfterEpochEnd in E. minv1. apply inflation_GetParams_Ok in E0 as [-> Hv]. simplify_eq.
  unfold GetSkippedEpochs, GetEpochIdentifier in E. cinv. rewrite Hen in E. cbn [negb] in E. cinv. rewrite String.eqb_refl in E.
  cbn [negb] in E. unfold GetEpochMintProvision in E. cinv.
  destruct (st_epochMintProvision (store c)) as [provision|] eqn:Epr; cbn beta iota delta [negb] in E; cinv.
  arith_inv. match goal with H : NewCoin _ _ = Ok _ |- _ => apply NewCoin_Ok in H as (-> & Ham & Hvd) end.
  exists provision. split; [done|].
  match goal with H : attempt _ _ = (Ok ?r, _) |- _ => apply attempt_Ok in H; destruct r as [x|e] end; [|by cinv].
  match goal with H : MintAndAllocateInflation _ _ _ = _ |- _ =>
    apply MintAndAllocateInflation_Ok in H as (Hst & p' & Hp' & Hmin) end. simplify_eq.
  unfold GetPeriod, GetEpochsPerPeriod in E. cinv.
  match goal with H : (if period_passed ?a ?b ?c ?d then _ else _) _ = _ |- _ => rename H into EU end.
  cbn in *. rewrite Hst in *.
  unfold period_update. destruct (period_passed _ _ _ _) eqn:Epp.
  - unfold SetPeriod, SetEpochMintProvision in EU. cinv.
    match goal with H : BondedRatio _ = _ |- _ => apply BondedRatio_Ok in H; subst end.
    cbn in *. rewrite Hst. split_and!; [done|done|done|]. eauto.
  - cinv. split_and!; [done|done|done|]. done.
Qed.

(** The balances after one minting, when the three accounts involved differ. *)
Lemma minted_balances k w w' minted ratio :
  minted_and_allocated k w w' minted ratio ->
  ∃ maddr collector distr,
    GetModuleAddress ModuleName = Some maddr ∧
    GetModuleAddress (feeCollectorName k) = Some collector ∧
    GetModuleAddress "distribution" = Some distr ∧
    (maddr ≠ collector -> maddr ≠ distr -> collector ≠ distr ->
     let staking := mkCoin (Denom minted) (Z.quot (Amount minted * ratio) dec_unit) in
     ∀ d, ValidateDenom d = true ->
      GetSupply w' d = GetSupply w d + amount_of [minted] d ∧
      GetBalance w' maddr d = 0 ∧
      GetBalance w' collector d = GetBalance w collector d + amount_of [staking] d ∧
      GetBalance w' distr d
      = GetBalance w distr d + GetBalance w maddr d + amount_of [minted] d - amount_of [staking] d ∧
      ∀ a, a ≠ maddr -> a ≠ collector -> a ≠ distr -> GetBalance w' a d = GetBalance w a d).
Proof.
  intros (maddr & collector & distr & pool & Hm & Hc & Hd & _ & Hpool & [B S _]).
  exists maddr, collector, distr. split_and!; [done|done|done|].
  intros N1 N2 N3. cbn zeta. intros d Hv. specialize (Hpool N1 d Hv). rewrite S, !B.
  unfold δ_mint, δ_send, gain in *. rewrite ?String.eqb_refl.
  assert (collector ≠ maddr) as N1' by done. assert (distr ≠ maddr) as N2' by done.
  assert (distr ≠ collector) as N3' by done.
  apply String.eqb_neq in N1, N2, N3, N1', N2', N3'. rewrite ?N1, ?N2, ?N3, ?N1', ?N2', ?N3'.
  split_and!; [done|lia|lia|lia|]. intros a A1 A2 A3. rewrite B.
  apply String.eqb_neq in A1, A2, A3. rewrite A1, A2, A3. lia.
Qed.


Lemma AfterEpochEnd_idle k id n p (c : C) :
  st_params (store c) = Some p ->
  (EnableInflation p = true -> id ≠ default "" (st_epochIdentifier (store c)) ->
   AfterEpochEnd k id n c = (Ok tt, c)) ∧
  (EnableInflation p = false -> id ≠ DayEpochID -> AfterEpochEnd k id n c = (Ok tt, c)) ∧
  (EnableInflation p = false -> AfterEpochEnd k DayEpochID n c
     = (Ok tt, set_store (mkStore (st_params (store c)) (st_period (store c))
          (st_epochMintProvision (store c)) (st_epochIdentifier (store c))
          (st_epochsPerPeriod (store c))
          (Some (wrap64 (default 0 (st_skippedEpochs (store c)) + 1)))) c)).
Proof.
  intros Hp. unfold AfterEpochEnd, GetParams, GetSkippedEpochs, GetEpochIdentifier, SetSkippedEpochs,
    mod_store, get_store, gets, modify, bind, ret.
  rewrite Hp. split_and!; intros Hen; rewrite Hen; cbn [negb]; [intros Hid|intros Hid|by rewrite <-Hp];
    by rewrite (proj2 (String.eqb_neq _ _) Hid).
Qed.

(** Epochs that must not mint do not: with inflation on, any epoch other than
    the configured one leaves the state as it is; with inflation off, only the
    day epoch has an effect, and that is to count one skipped epoch. *)
Theorem other_epochs_do_not_mint k id n p (c : C) :
  st_params (store c) = Some p ->
  (EnableInflation p = true -> id ≠ default "" (st_epochIdentifier (store c)) ->
   AfterEpochEnd k id n c = (Ok tt, c)) ∧
  (EnableInflation p = false -> id ≠ DayEpochID -> AfterEpochEnd k id n c = (Ok tt, c)) ∧
  (EnableInflation p = false -> AfterEpochEnd k DayEpochID n c
     = (Ok tt, set_store (mkStore (st_params (store c)) (st_period (store c))
          (st_epochMintProvision (store c)) (st_epochIdentifier (store c))
          (st_epochsPerPeriod (store c))
          (Some (wrap64 (default 0 (st_skippedEpochs (store c)) + 1)))) c)).
Proof. apply AfterEpochEnd_idle. Qed.

(** ** With x/epochs *)

Lemma run_call_inflation k call (c c' : C) :
  run_call (Epochs.mkKeeper (Some [Hooks k])) call c = (Ok tt, c') <->
  match call with
  | CallAfterEpochEnd id n => AfterEpochEnd k id n c = (Ok tt, c')
  | CallBeforeEpochStart _ _ => c' = c
  end.
Proof.
  destruct call as [id n|id n]; cbn; unfold Multi_AfterEpochEnd, Multi_BeforeEpochStart; cbn; unfold bind, ret.
  - destruct (AfterEpochEnd k id n c) as [[[]|e|] c1]; split; intros; by simplify_eq.
  - split; intros; by simplify_eq.
Qed.

(** The amount the configured epoch mints in one block. *)
Definition block_mint (ctx : BlockCtx) (eid : string) (epochs : list EpochInfo) (m : Z) : Z :=
  if existsb (fun ei => String.eqb (Identifier ei) eid
                        && match epoch_phase ctx ei with Ending => true | _ => false end) epochs
  then m else 0.

(** The part of the store the hook reads before it mints. *)
Definition same_config (s s' : Store) : Prop :=
  st_params s' = st_params s ∧ st_epochIdentifier s' = st_epochIdentifier s.

Lemma period_update_config p n s s' : period_update p n s s' ->
  same_config s s' ∧ (is_Some (st_epochMintProvision s) -> is_Some (st_epochMintProvision s')).
Proof.
  unfold period_update, same_config. case_match; [|by intros ->]. intros (? & ? & _ & ->). by split_and!.
Qed.

Lemma minted_supply k w w' minted r d : minted_and_allocated k w w' minted r ->
  GetSupply w' d = GetSupply w d + amount_of [minted] d.
Proof. intros (? & ? & ? & ? & _ & _ & _ & _ & _ & B). apply B. Qed.

(** One epoch's calls: it mints when it is the configured one and ends. *)
Lemma epoch_calls_mint k ctx ei p provision (c c' : C) :
  st_params (store c) = Some p -> EnableInflation p = true ->
  st_epochMintProvision (store c) = Some provision ->
  for_each (tick_calls ctx ei) (run_call (Epochs.mkKeeper (Some [Hooks k]))) c = (Ok tt, c') ->
  let eid := default "" (st_epochIdentifier (store c)) in
  same_config (store c) (store c') ∧ is_Some (st_epochMintProvision (store c')) ∧
  (Identifier ei ≠ eid -> c' = c) ∧
  ∀ d, GetSupply (world c') d = GetSupply (world c) d
    + amount_of [mkCoin (MintDenom p) (block_mint ctx eid [ei] (Z.quot provision dec_unit))] d.
Proof.
  intros Hp Hen Hpr E. unfold block_mint, tick_calls, same_config in *. cbn [existsb]. rewrite orb_false_r.
  assert (∀ d, GetSupply (world c) d = GetSupply (world c) d
    + amount_of [mkCoin (MintDenom p) 0] d) as Z0
    by (intros d; rewrite amount_of_single; cbn [Denom Amount]; destruct (String.eqb _ _); lia).
  destruct (epoch_phase ctx ei); cbn [for_each] in E; minv;
    repeat match goal with H : run_call _ _ _ = (Ok _, _) |- _ => apply run_call_inflation in H; cbn in H; subst end;
    rewrite ?andb_false_r; [by split_and!; eauto|by split_and!; eauto|].
  rewrite andb_true_r. destruct (String.eqb_spec (Identifier ei) (default "" (st_epochIdentifier (store c)))) as [Hid|Hid].
  - rewrite Hid in *. match goal with H : AfterEpochEnd _ _ _ _ = _ |- _ =>
      apply (AfterEpochEnd_minting k _ p) in H as (pr & Hpr' & _ & _ & Hmin & Hu); [|done..] end.
    simplify_eq. apply period_update_config in Hu as [[? ?] Hs].
    split_and!; [done|done|by apply Hs|done|]. intros d. exact (minted_supply _ _ _ _ _ d Hmin).
  - destruct (AfterEpochEnd_idle k (Identifier ei) (sint64 (CurrentEpoch ei + 1)) p c Hp) as [Hi _].
    match goal with H : AfterEpochEnd _ _ _ _ = _ |- _ => rewrite (Hi Hen Hid) in H end.
    simplify_eq. by split_and!; eauto.
Qed.

Lemma block_mint_cons ctx eid ei epochs m :
  block_mint ctx eid (ei :: epochs) m
  = if String.eqb (Identifier ei) eid
    then (if block_mint ctx eid [ei] 1 =? 0 then block_mint ctx eid epochs m else m)
    else block_mint ctx eid epochs m.
Proof.
  unfold block_mint. cbn. destruct (String.eqb _ _); cbn; [|done]. by destruct (epoch_phase ctx ei).
Qed.

Lemma block_mint_notin ctx eid epochs m :
  eid ∉ Identifier <$> epochs -> block_mint ctx eid epochs m = 0.
Proof.
  induction epochs as [|ei epochs IH]; [done|]. rewrite fmap_cons, not_elem_of_cons. intros [Hne Hni].
  rewrite block_mint_cons, (proj2 (String.eqb_neq _ _)) by done. by apply IH.
Qed.

Lemma block_calls_mint k ctx epochs p provision (c c' : C) :
  let eid := default "" (st_epochIdentifier (store c)) in
  NoDup (Identifier <$> epochs) ->
  st_params (store c) = Some p -> EnableInflation p = true ->
  st_epochMintProvision (store c) = Some provision ->
  for_each (epochs ≫= tick_calls ctx) (run_call (Epochs.mkKeeper (Some [Hooks k]))) c = (Ok tt, c') ->
  (eid ∉ Identifier <$> epochs -> c' = c) ∧
  ∀ d, GetSupply (world c') d = GetSupply (world c) d
    + amount_of [mkCoin (MintDenom p) (block_mint ctx eid epochs (Z.quot provision dec_unit))] d.
Proof.
  cbn zeta. revert c provision.
  induction epochs as [|ei epochs IH]; intros c provision Hn Hp Hen Hpr E.
  { cbn in E. minv. split; [done|]. intros d. destruct (String.eqb _ _); cbn; lia. }
  rewrite bind_cons in E. apply for_each_app in E as (c1 & E1 & E2).
  rewrite fmap_cons in *. apply NoDup_cons in Hn as [Hni Hn].
  destruct (epoch_calls_mint k ctx ei p provision c c1 Hp Hen Hpr E1)
    as ([Hp1 Hid1] & [pr1 Hpr1] & Hsame & Hsup). rewrite not_elem_of_cons.
  destruct (String.eqb_spec (Identifier ei) (default "" (st_epochIdentifier (store c)))) as [Hid|Hid].
  - destruct (IH c1 pr1 Hn ltac:(congruence) Hen Hpr1 E2) as [IH1 _]. rewrite Hid1, <-Hid in IH1.
    rewrite IH1 by done. split; [naive_solver|]. intros d. rewrite Hsup, <-Hid, (block_mint_cons _ _ ei epochs), String.eqb_refl.
    rewrite (block_mint_notin _ _ epochs) by done. f_equal. unfold block_mint. cbn.
    rewrite String.eqb_refl. by destruct (epoch_phase ctx ei).
  - rewrite (Hsame Hid) in *. destruct (IH c provision Hn Hp Hen Hpr E2) as [IH1 IH2].
    split; [intros [_ ?]; by apply IH1|]. intros d.
    rewrite IH2, block_mint_cons, (proj2 (String.eqb_neq _ _)) by done. done.
Qed.

Lemma block_mint_lookup ctx eid (s : gmap string EpochInfo) m : store_wf s ->
  block_mint ctx eid (kv_iterate s).*2 m
  = match s !! eid with
    | Some ei => match epoch_phase ctx ei with Ending => m | _ => 0 end
    | None => 0
    end.
Proof.
  intros Hwf. unfold block_mint. destruct (existsb _ _) eqn:E.
  - apply existsb_exists in E as (ei & Hin & Hb). apply list_elem_of_In in Hin.
    apply list_elem_of_fmap in Hin as ([key e] & -> & Hin%elem_of_kv_iterate). cbn in *.
    apply andb_true_iff in Hb as [<-%String.eqb_eq Hph]. rewrite (Hwf _ _ Hin), Hin. by case_match.
  - destruct (s !! eid) as [ei|] eqn:El; [|done]. destruct (epoch_phase ctx ei) eqn:Eph; [done|done|].
    rewrite <-not_true_iff_false, existsb_exists in E. destruct E. exists ei.
    rewrite <-list_elem_of_In, (Hwf _ _ El), String.eqb_refl, Eph. split; [|done].
    apply list_elem_of_fmap. exists (eid, ei). split; [done|]. by apply elem_of_kv_iterate.
Qed.

(** With inflation off no epoch touches anything but the count of skipped epochs. *)
Lemma block_calls_disabled k p w calls :
  EnableInflation p = false ->
  invariant (fun c : C => st_params (store c) = Some p ∧ world c = w)
    (for_each calls (run_call (Epochs.mkKeeper (Some [Hooks k])))).
Proof.
  intros Hoff. apply invariant_for_each. intros call c [] c' [Hp Hw] E%run_call_inflation.
  destruct call as [id n|id n]; [|by subst].
  destruct (AfterEpochEnd_idle k id n p c Hp) as (_ & Hother & Hday).
  destruct (decide (id = DayEpochID)) as [->|Hne]; [rewrite Hday in E by done|rewrite Hother in E by done]; by simplify_eq.
Qed.

(** C40: in the assembled chain, where x/epochs runs the inflation hook, one
    [BeginBlocker] raises the supply of the mint denomination by exactly the
    integer part of the provision if inflation is enabled and the configured
    epoch ends in this block (it has started, and its duration has passed), and
    by nothing otherwise, whatever other epochs start or end; no other supply
    changes. *)
Theorem block_mints_once_per_ended_epoch k ctx p provision
    (c c' : Chain (Chain W Store) (gmap string EpochInfo)) d :
  store_wf (store c) ->
  st_params (store (world c)) = Some p ->
  (EnableInflation p = true -> st_epochMintProvision (store (world c)) = Some provision) ->
  BeginBlocker (Epochs.mkKeeper (Some [Hooks k])) ctx c = (Ok tt, c') ->
  let eid := default "" (st_epochIdentifier (store (world c))) in
  GetSupply (world (world c')) d
  = GetSupply (world (world c)) d
    + (if EnableInflation p && String.eqb (MintDenom p) d then
         match store c !! eid with
         | Some ei => match epoch_phase ctx ei with Ending => Z.quot provision dec_unit | _ => 0 end
         | None => 0
         end
       else 0).
Proof.
  cbn zeta. intros Hwf Hp Hpr (w & Hrun & ->)%BeginBlocker_Ok; [|done]. cbn [world].
  destruct (EnableInflation p) eqn:Hen; cbn [andb].
  - destruct (block_calls_mint k ctx _ p provision _ _ ltac:(rewrite kv_iterate_identifiers by done; apply kv_iterate_NoDup)
      Hp Hen (Hpr eq_refl) Hrun) as [_ Hs].
    rewrite Hs, amount_of_single. cbn [Denom Amount]. f_equal. case_match; [|done].
    by apply block_mint_lookup.
  - destruct (block_calls_disabled k p (world (world c)) _ Hen _ _ _ (conj Hp eq_refl) Hrun) as [_ ->]. lia.
Qed.

(** ** Parameters and genesis *)

Lemma SetParams_valid p (c : C) : Params_Validate p = Ok tt ->
  SetParams p c = (Ok tt, set_store (mkStore (Some p) (st_period (store c))
    (st_epochMintProvision (store c)) (st_epochIdentifier (store c))
    (st_epochsPerPeriod (store c)) (st_skippedEpochs (store c))) c).
Proof.
  intros Hv. unfold SetParams. erewrite bind_run; [done|]. unfold lift. f_equal. apply SetParamSet_all.
  unfold Params_Validate in Hv. minv. by repeat constructor.
Qed.

(** A parameter update is refused with the signer error unless it comes from
    the authority, is refused with the error of the first invalid parameter,
    and otherwise replaces exactly the parameters; it never panics. *)
Theorem update_params_behaviour k req (c : C) :
  msg_UpdateParams k req c =
  if String.eqb (GetAuthority k) (Upd_Authority req) then
    match Params_Validate (Upd_Params req) with
    | Ok _ => (Ok tt, set_store (mkStore (Some (Upd_Params req)) (st_period (store c))
                (st_epochMintProvision (store c)) (st_epochIdentifier (store c))
                (st_epochsPerPeriod (store c)) (st_skippedEpochs (store c))) c)
    | Err e => (Err e, c)
    | Panic => (Panic, c)
    end
  else (Err (Foreign "ErrInvalidSigner"), c).
Proof.
  unfold msg_UpdateParams. destruct (String.eqb _ _); [|done]. cbn [negb].
  unfold bind at 1, reject, ret. unfold bind, lift.
  destruct (Params_Validate (Upd_Params req)) as [[]|e|] eqn:Ev; [|done|done]. by apply SetParams_valid.
Qed.

(** Exporting after importing gives the inflation genesis data back, with
    counters at their full 64-bit range. *)
Theorem inflation_genesis_roundtrip g (c c' : C) :
  is_uint64 (Gen_Period g) -> is_int64 (Gen_EpochsPerPeriod g) -> is_uint64 (Gen_SkippedEpochs g) ->
  InitGenesis g c = (Ok tt, c') ->
  ExportGenesis c' = (Ok g, c') ∧ is_Some (st_epochMintProvision (store c')).
Proof.
  intros Hp He Hs E. unfold InitGenesis in E. cinv.
  match goal with H : match ?acc with Some _ => _ | None => _ end _ = _ |- _ => destruct acc end; [|by cinv].
  unfold SetParams, SetPeriod, SetEpochIdentifier, SetEpochsPerPeriod, SetSkippedEpochs, SetEpochMintProvision in E.
  cinv. match goal with H : BondedRatio _ = _ |- _ => apply BondedRatio_Ok in H; subst end.
  split; [|eauto]. unfold ExportGenesis, GetParams, GetPeriod, GetEpochIdentifier, GetEpochsPerPeriod,
    GetSkippedEpochs, get_store, gets, bind, ret. cbn. rewrite sint64_wrap64 by done. by destruct g.
Qed.

End keeper_facts.

(** ** Witnesses *)

#[export] Instance ref_inflation : InflationDeps RefWorld := {
  GetModuleAccount m := ret (Some (mkAccount ("module:" +:+ m) true));
  FundCommunityPool cs from := ref_send from "module:distribution" cs;
  StakingTokenSupply _ := Ok 1000;
  TotalBondedTokens _ := Ok 500;
  PowerReduction := 10 ^ 18;
  NewDecCoinFromDec d a := if ref_validate_denom d && (0 <=? a) then Ok (d, a) else Panic
}.

#[export] Instance ref_inflation_laws : InflationDepsLaws RefWorld.
Proof.
  split.
  - intros m w r w' E. cbn in E. minv. apply bank_delta_refl.
  - intros cs from w w' E. cbn in E. apply ref_send_effect in E as (? & _ & _).
    by exists "module:distribution".
  - done.
Qed.

Definition ex_params : Params :=
  mkParams "atuc" (ExponentialCalc DefaultParams) (mkInflationDistribution (9 * 10 ^ 17) (10 ^ 17)) true.
Definition ex_keeper : Keeper := mkKeeper "fee_collector" "tuc1gov".
Definition ex_genesis : GenesisState := mkGenesisState ex_params 0 DayEpochID 30 0.
Definition ex_blank : Chain RefWorld Store :=
  mkChain (mkRefWorld {[("module:inflation", "atuc") := 7%N]} {["atuc" := 7%N]} ∅)
    (mkStore None None None None None None) [].
Definition ex_init : Chain RefWorld Store := (InitGenesis ex_genesis ex_blank).2.
(** Epoch 31 is the first of the second period. *)
Definition ex_minted : Chain RefWorld Store := (AfterEpochEnd ex_keeper DayEpochID 31 ex_init).2.

Lemma provision_defined_and_bounded_witness :
  ∃ E, CalculateEpochMintProvision (10 ^ 18) ex_params 1 30 (5 * 10 ^ 17) = Ok (E * 10 ^ 18) ∧ 0 <= E ∧
    E * 30 * dec_unit <= (Exp_A (ExponentialCalc ex_params) + Exp_C (ExponentialCalc ex_params))
      * (dec_unit + Exp_MaxVariance (ExponentialCalc ex_params)) + (30 + 1) * dec_unit.
Proof.
  apply (provision_defined_and_bounded ex_params 1 30 (5 * 10 ^ 17)).
  - reflexivity.
  - vm_compute. discriminate.
  - vm_compute. discriminate.
  - vm_compute. discriminate.
  - unfold is_uint64. lia.
  - lia.
  - lia.
Defined.


Lemma other_epochs_do_not_mint_witness : AfterEpochEnd ex_keeper "week" 1 ex_init = (Ok tt, ex_init).
Proof.
  pose proof (other_epochs_do_not_mint ex_keeper "week" 1 ex_params ex_init ltac:(vm_compute; reflexivity))
    as [Hi _].
  apply Hi; [reflexivity|]. vm_compute. discriminate.
Defined.

Lemma update_params_behaviour_witness :
  let req := mkMsgUpdateParams "tuc1gov" DefaultParams in
  msg_UpdateParams ex_keeper req ex_init =
  if String.eqb (GetAuthority ex_keeper) (Upd_Authority req) then
    match Params_Validate (Upd_Params req) with
    | Ok _ => (Ok tt, set_store (mkStore (Some (Upd_Params req)) (st_period (store ex_init))
                (st_epochMintProvision (store ex_init)) (st_epochIdentifier (store ex_init))
                (st_epochsPerPeriod (store ex_init)) (st_skippedEpochs (store ex_init))) ex_init)
    | Err e => (Err e, ex_init)
    | Panic => (Panic, ex_init)
    end
  else (Err (Foreign "ErrInvalidSigner"), ex_init).
Proof. exact (update_params_behaviour ex_keeper (mkMsgUpdateParams "tuc1gov" DefaultParams) ex_init). Defined.

Lemma inflation_genesis_roundtrip_witness :
  ExportGenesis ex_init = (Ok ex_genesis, ex_init) ∧ is_Some (st_epochMintProvision (store ex_init)).
Proof.
  apply (inflation_genesis_roundtrip ex_genesis ex_blank ex_init);
    [unfold is_uint64; cbn; lia|unfold is_int64; cbn; lia|unfold is_uint64; cbn; lia|].
  apply run_Ok. vm_compute. reflexivity.
Defined.

(** The day epoch, running since 1970, under the inflation hook. *)
Definition ex_chain : Chain (Chain RefWorld Store) (gmap string EpochInfo) :=
  mkChain ex_init
    {[DayEpochID := mkEpochInfo DayEpochID 0 (Hour * 24) 30 (29 * (Hour * 24)) true 1]} [].
Definition ex_block : BlockCtx := mkBlockCtx (30 * (Hour * 24) + 1) 100.

Lemma block_mints_once_per_ended_epoch_witness :
  let c' := (BeginBlocker (Epochs.mkKeeper (Some [Hooks ex_keeper])) ex_block ex_chain).2 in
  GetSupply (world (world c')) "atuc" = GetSupply (world (world ex_chain)) "atuc" + 543478266666666666666667.
Proof.
  cbn zeta.
  rewrite (block_mints_once_per_ended_epoch ex_keeper ex_block ex_params
    543478266666666666666667000000000000000000 ex_chain
    (BeginBlocker (Epochs.mkKeeper (Some [Hooks ex_keeper])) ex_block ex_chain).2 "atuc").
  - vm_compute. reflexivity.
  - intros key ei Hl. unfold ex_chain in Hl. cbn [store] in Hl. apply lookup_singleton_Some in Hl as [<- <-]. reflexivity.
  - vm_compute. reflexivity.
  - intros _. vm_compute. reflexivity.
  - apply run_Ok. vm_compute. reflexivity.
Defined.
