(* ===== verification/Ethereum.v ===== *)
(** * What the modules rely on from go-ethereum and ethermint

    Addresses and their text forms, the ABI codec, hashes, and the EVM keeper of
    x/evm, as classes of operations with laws; [ReferenceEvm.v] gives an
    executable instance.  An address and every byte slice is a byte string. *)

From stdpp Require Import base gmap strings list.
From S2P Require Import Prelude Golang Sdk.

#[local] Open Scope Z_scope.

(** ** common, crypto *)
Class EthTypes := {
  HexToAddress : string -> string;
  (** [addr.String()], the checksummed text *)
  Address_String : string -> string;
  IsHexAddress : string -> bool;
  BytesToAddress : string -> string;
  CreateAddress : string -> Z -> string;
  (** [crypto.Keccak256Hash(b).Hex()] *)
  Keccak256Hash_Hex : string -> string;
  (** ethermint's [ValidateAddress] and ibc-go's [ValidateIBCDenom] *)
  ValidateAddress : string -> outcome unit;
  ValidateIBCDenom : string -> outcome unit;
  (** [authtypes.NewModuleAddress] *)
  NewModuleAddress : string -> string
}.

Definition address_ok (a : string) : Prop := String.length a = 20%nat.

Class EthTypesLaws `{EthTypes} : Prop := {
  HexToAddress_ok s : address_ok (HexToAddress s);
  HexToAddress_String a : address_ok a -> HexToAddress (Address_String a) = a;
  IsHexAddress_String a : address_ok a -> IsHexAddress (Address_String a) = true;
  (** "0x" and two digits per byte *)
  Address_String_length a : address_ok a -> String.length (Address_String a) = 42%nat;
  BytesToAddress_ok s : address_ok (BytesToAddress s);
  BytesToAddress_id a : address_ok a -> BytesToAddress a = a;
  CreateAddress_ok a n : address_ok (CreateAddress a n);
  NewModuleAddress_ok m : address_ok (NewModuleAddress m)
}.

(** ** accounts/abi *)

(** A value of a contract call. *)
Inductive AbiArg :=
| ArgAddress (a : string)
| ArgBig (z : Z)
| ArgUint8 (z : Z)
| ArgString (s : string)
| ArgBool (b : bool)
| ArgAddresses (l : list string)
| ArgBigs (l : list Z)
| ArgStrings (l : list string)
| ArgByteArrays (l : list string).

#[export] Instance AbiArg_eq_dec : EqDecision AbiArg.
Proof. solve_decision. Defined.

(** The ABI of a contract, named after its Go variable; method "" is the
    constructor. *)
Class Abi := {
  abi_Pack : string -> string -> list AbiArg -> outcome string;
  abi_Unpack : string -> string -> string -> outcome (list AbiArg);
  (** [UnpackIntoInterface] into a struct with one field of the given type *)
  abi_UnpackString : string -> string -> string -> outcome string;
  abi_UnpackUint8 : string -> string -> string -> outcome Z;
  abi_UnpackBool : string -> string -> string -> outcome bool;
  (** [EventByID(topic).Name] *)
  abi_EventByID : string -> string -> outcome string;
  (** the creation code of the compiled contract *)
  abi_Bin : string -> string
}.

(** ** x/evm *)

Record EthLog := mkEthLog {
  log_Address : string;
  log_Topics : list string;
  log_Data : string
}.

Record EthMessage := mkEthMessage {
  msg_From : string;
  msg_To : option string;
  msg_Nonce : Z;
  msg_Amount : Z;
  msg_GasLimit : Z;
  msg_GasPrice : Z;
  msg_Data : string;
  msg_IsFake : bool
}.

Record EvmResponse := mkEvmResponse {
  res_Ret : string;
  res_VmError : string;
  res_Logs : list EthLog
}.

(** [res.Failed()] *)
Definition res_Failed (res : EvmResponse) : bool := negb (String.eqb (res_VmError res) "").

Class EvmKeeper (W : Type) := {
  (** [GetAccountWithoutBalance(addr)] and [acc.IsContract()] *)
  GetAccountWithoutBalance : W -> string -> option bool;
  EstimateGas : W -> string -> option string -> string -> outcome Z;
  ApplyMessage : EthMessage -> bool -> M W EvmResponse;
  DefaultGasCap : Z;
  (** the denomination of native EVM balances, a parameter of x/evm *)
  EvmDenom : string
}.

(** Calls without commit have the same outcome in [w'] as in [w]. *)
Definition evm_kept {W} `{AccountKeeper W, EvmKeeper W} (w w' : W) : Prop :=
  (∀ msg, (ApplyMessage msg false w').1 = (ApplyMessage msg false w).1) ∧
  ∀ a n, GetSequence w a = Ok n -> GetSequence w' a = Ok n.

(** A call without commit leaves no trace; a committed one moves no coin but the
    native EVM denomination.  Coins of other denominations are no part of the state
    contracts see: moving, minting and burning them changes no call. *)
Class EvmLaws (W : Type) `{AccountKeeper W, BankKeeper W, EvmKeeper W} : Prop := {
  ApplyMessage_call msg w r w' : ApplyMessage msg false w = (r, w') -> w' = w;
  ApplyMessage_balance msg w r w' a d :
    ApplyMessage msg true w = (Ok r, w') -> d ≠ EvmDenom -> GetBalance w' a d = GetBalance w a d;
  ApplyMessage_supply msg w r w' d :
    ApplyMessage msg true w = (Ok r, w') -> d ≠ EvmDenom -> GetSupply w' d = GetSupply w d;
  SendCoins_evm f t cs w w' : SendCoins f t cs w = (Ok tt, w') ->
    Forall (fun coin => Denom coin ≠ EvmDenom) cs -> evm_kept w w';
  MintCoins_evm m cs w w' : MintCoins m cs w = (Ok tt, w') ->
    Forall (fun coin => Denom coin ≠ EvmDenom) cs -> evm_kept w w';
  BurnCoins_evm m cs w w' : BurnCoins m cs w = (Ok tt, w') ->
    Forall (fun coin => Denom coin ≠ EvmDenom) cs -> evm_kept w w'
}.
