(* ===== verification/Erc20Types.v ===== *)
(** * x/erc20/types: token pairs, metadata, names and proposals *)

From Stdlib Require Import Ascii.
From stdpp Require Import base gmap strings list.
From S2P Require Import Prelude Golang Sdk Ethereum.

#[local] Open Scope Z_scope.
#[local] Open Scope go_scope.

(** ** Constants *)

Definition ModuleName : string := "erc20".

Definition ErrERC20Disabled : error := Registered ModuleName 2.
Definition ErrInternalTokenPair : error := Registered ModuleName 3.
Definition ErrTokenPairNotFound : error := Registered ModuleName 4.
Definition ErrTokenPairAlreadyExists : error := Registered ModuleName 5.
Definition ErrUndefinedOwner : error := Registered ModuleName 6.
Definition ErrBalanceInvariance : error := Registered ModuleName 7.
Definition ErrUnexpectedEvent : error := Registered ModuleName 8.
Definition ErrABIPack : error := Registered ModuleName 9.
Definition ErrABIUnpack : error := Registered ModuleName 10.
Definition ErrEVMDenom : error := Registered ModuleName 11.
Definition ErrEVMCall : error := Registered ModuleName 12.
Definition ErrERC20TokenPairDisabled : error := Registered ModuleName 13.

Definition EventTypeConvertCoin : string := "convert_coin".
Definition EventTypeConvertERC20 : string := "convert_erc20".
Definition AttributeKeyCosmosCoin : string := "cosmos_coin".
Definition AttributeKeyERC20Token : string := "erc20_token".
Definition AttributeKeyReceiver : string := "receiver".
Definition AttributeKeySender : string := "sender".
Definition AttributeKeyAmount : string := "amount".
Definition ERC20EventTransfer : string := "Transfer".

(** ** Data *)

Inductive Owner := OWNER_UNSPECIFIED | OWNER_MODULE | OWNER_EXTERNAL.

Record TokenPair := mkTokenPair {
  Erc20Address : string;
  Pair_Denom : string;
  Enabled : bool;
  ContractOwner : Owner
}.

Record Params := mkParams { EnableErc20 : bool; EnableEVMHook : bool }.

Record TokenPairDenomIndex := mkTokenPairDenomIndex { DIdx_Denom : string; DIdx_TokenPairId : string }.
Record TokenPairERC20AddressIndex := mkTokenPairERC20AddressIndex {
  EIdx_Erc20Address : string;
  EIdx_TokenPairId : string
}.

Record GenesisState := mkGenesisState {
  Gen_Params : Params;
  Gen_TokenPairs : list TokenPair;
  Gen_DenomIndexes : list TokenPairDenomIndex;
  Gen_Erc20AddressIndexes : list TokenPairERC20AddressIndex
}.

(** [banktypes.DenomUnit] and [banktypes.Metadata] of the SDK. *)
Record DenomUnit := mkDenomUnit { Unit_Denom : string; Unit_Exponent : Z; Unit_Aliases : list string }.
Record Metadata := mkMetadata {
  Meta_Description : string;
  Meta_DenomUnits : list DenomUnit;
  Meta_Base : string;
  Meta_Display : string;
  Meta_Name : string;
  Meta_Symbol : string;
  Meta_URI : string;
  Meta_URIHash : string
}.

Record ERC20Data := mkERC20Data { Data_Name : string; Data_Symbol : string; Data_Decimals : Z }.

Record MsgConvertCoin := mkMsgConvertCoin { CC_Coin : Coin; CC_Receiver : string; CC_Sender : string }.
Record MsgConvertERC20 := mkMsgConvertERC20 {
  CE_ContractAddress : string;
  CE_Amount : Z;
  CE_Receiver : string;
  CE_Sender : string
}.
Record MsgRegisterCoin := mkMsgRegisterCoin {
  RC_Authority : string;
  RC_Title : string;
  RC_Description : string;
  RC_Metadata : Metadata
}.
Record MsgRegisterERC20 := mkMsgRegisterERC20 {
  RE_Authority : string;
  RE_Title : string;
  RE_Description : string;
  RE_Erc20Address : string
}.
Record MsgToggleTokenConversion := mkMsgToggle {
  TC_Authority : string;
  TC_Title : string;
  TC_Description : string;
  TC_Token : string
}.
Record MsgUpdateParams := mkMsgUpdateParams { Upd_Authority : string; Upd_Params : Params }.

#[export] Instance Owner_eq_dec : EqDecision Owner.
Proof. solve_decision. Defined.
#[export] Instance TokenPair_eq_dec : EqDecision TokenPair.
Proof. solve_decision. Defined.
#[export] Instance DenomUnit_eq_dec : EqDecision DenomUnit.
Proof. solve_decision. Defined.
#[export] Instance Metadata_eq_dec : EqDecision Metadata.
Proof. solve_decision. Defined.

(** ** utils.go *)

Definition is_letter (c : ascii) : bool :=
  let x := N_of_ascii c in ((65 <=? x) && (x <=? 90) || (97 <=? x) && (x <=? 122))%N.
Definition is_newline (c : ascii) : bool := (N_of_ascii c =? 10)%N.

(** [(?m)^(\d+)] replaced by nothing: [bol] says that only digits were read
    since the last line start. *)
Fixpoint remove_leading_numbers_from (bol : bool) (s : string) : string :=
  match s with
  | EmptyString => EmptyString
  | String c s' =>
      if bol && is_digit c then remove_leading_numbers_from true s'
      else String c (remove_leading_numbers_from (is_newline c) s')
  end.
Definition removeLeadingNumbers (str : string) : string := remove_leading_numbers_from true str.

(** The characters [[a-zA-Z0-9/-]]. *)
Definition is_denom_rune (c : ascii) : bool :=
  is_letter c || is_digit c || Ascii.eqb c "/"%char || Ascii.eqb c "-"%char.

Fixpoint keep_denom_runes (s : string) : string :=
  match s with
  | EmptyString => EmptyString
  | String c s' => if is_denom_rune c then String c (keep_denom_runes s') else keep_denom_runes s'
  end.

(** [^[^A-Za-z]|[^a-zA-Z0-9/-]] replaced by nothing: the first alternative only
    applies to the first character.  A character outside ASCII is a sequence of
    bytes that are all removed. *)
Definition removeSpecialChars (str : string) : string :=
  match str with
  | EmptyString => EmptyString
  | String c s' => if is_letter c then String c (keep_denom_runes s') else keep_denom_runes s'
  end.

(** Every call drops at least four bytes, so the length is enough fuel. *)
Fixpoint remove_invalid_prefixes (fuel : nat) (str : string) : string :=
  match fuel with
  | O => str
  | S fuel =>
      if HasPrefix str "ibc/" then remove_invalid_prefixes fuel (drop_bytes 4 str)
      else if HasPrefix str "erc20/" then remove_invalid_prefixes fuel (drop_bytes 6 str)
      else str
  end.
Definition removeInvalidPrefixes (str : string) : string :=
  remove_invalid_prefixes (String.length str) str.

Definition SanitizeERC20Name (name : string) : string :=
  let name := removeLeadingNumbers name in
  let name := removeSpecialChars name in
  let name := if (128 <? String.length name)%nat then take_bytes 128 name else name in
  removeInvalidPrefixes name.

Fixpoint equal_strings (a b : list string) : bool :=
  match a, b with
  | x :: a', y :: b' => String.eqb x y && equal_strings a' b'
  | _, _ => true
  end.

Definition EqualStringSlice (aliasesA aliasesB : list string) : bool :=
  if negb (length aliasesA =? length aliasesB)%nat then false else equal_strings aliasesA aliasesB.

(** The loop over the denomination units, of equal length. *)
Fixpoint equal_units (a b : list DenomUnit) : outcome unit :=
  match a, b with
  | v :: a', u :: b' =>
      if negb (Unit_Exponent v =? Unit_Exponent u)
         || negb (String.eqb (Unit_Denom v) (Unit_Denom u))
         || negb (EqualStringSlice (Unit_Aliases v) (Unit_Aliases u))
      then Err (Plain "metadata provided has different denom unit from stored")
      else equal_units a' b'
  | _, _ => Ok tt
  end.

Definition EqualMetadata (a b : Metadata) : outcome unit :=
  if String.eqb (Meta_Base a) (Meta_Base b)
     && String.eqb (Meta_Description a) (Meta_Description b)
     && String.eqb (Meta_Display a) (Meta_Display b)
     && String.eqb (Meta_Name a) (Meta_Name b)
     && String.eqb (Meta_Symbol a) (Meta_Symbol b)
  then
    if negb (length (Meta_DenomUnits a) =? length (Meta_DenomUnits b))%nat
    then Err (Plain "metadata provided has different denom units from stored")
    else equal_units (Meta_DenomUnits a) (Meta_DenomUnits b)
  else Err (Plain "metadata provided is different from stored").

(** ** proposal.go, msg.go, token_pair.go, params.go, genesis.go *)

Definition CreateDenomDescription (address : string) : string :=
  "Cosmos coin token representation of " +:+ address.
Definition CreateDenom (address : string) : string := ModuleName +:+ "/" +:+ address.

Definition NewERC20Data (name symbol : string) (decimals : Z) : ERC20Data :=
  mkERC20Data name symbol decimals.

Definition NewParams (enableErc20 enableEVMHook : bool) : Params := mkParams enableErc20 enableEVMHook.
Definition DefaultParams : Params := mkParams true true.
Definition validateBool (v : bool) : outcome unit := Ok tt.
Definition Params_Validate (p : Params) : outcome unit := Ok tt.
Definition ParamSetPairs (p : Params) : list (outcome unit) :=
  [validateBool (EnableErc20 p); validateBool (EnableEVMHook p)].

Definition NewGenesisState (params : Params) (pairs : list TokenPair)
    (denomIndexes : list TokenPairDenomIndex)
    (erc20AddrIndexes : list TokenPairERC20AddressIndex) : GenesisState :=
  mkGenesisState params pairs denomIndexes erc20AddrIndexes.
Definition DefaultGenesisState : GenesisState := mkGenesisState DefaultParams [] [] [].

Definition IsNativeCoin (tp : TokenPair) : bool := bool_decide (ContractOwner tp = OWNER_MODULE).
Definition IsNativeERC20 (tp : TokenPair) : bool := bool_decide (ContractOwner tp = OWNER_EXTERNAL).

Section types.
Context `{SdkTypes} `{Hashes} `{EthTypes}.

(** The address of the module account, as an EVM address. *)
Definition ModuleAddress : string := BytesToAddress (NewModuleAddress ModuleName).

(** The [enabled] argument is not used. *)
Definition NewTokenPair (erc20Address denom : string) (enabled : bool) (contractOwner : Owner)
    : TokenPair :=
  mkTokenPair (Address_String erc20Address) denom true contractOwner.

Definition GetID (tp : TokenPair) : string :=
  tmhash_Sum (Erc20Address tp +:+ "|" +:+ Pair_Denom tp).

Definition GetERC20Contract (tp : TokenPair) : string := HexToAddress (Erc20Address tp).

Definition TokenPair_Validate (tp : TokenPair) : outcome unit :=
  if negb (ValidateDenom (Pair_Denom tp)) then Err (Plain "invalid denom")
  else ValidateAddress (Erc20Address tp).

(** *** msg.go *)

Definition NewMsgConvertCoin (coin : Coin) (receiver sender : string) : MsgConvertCoin :=
  mkMsgConvertCoin coin (Address_String receiver) (AccAddress_String sender).
Definition NewMsgConvertERC20 (amount : Z) (receiver contract sender : string) : MsgConvertERC20 :=
  mkMsgConvertERC20 (Address_String contract) amount (AccAddress_String receiver) (Address_String sender).

Definition ValidateErc20Denom (denom : string) : outcome unit :=
  match SplitN2 denom "/"%char with
  | [p; rest] =>
      if String.eqb p ModuleName then ValidateAddress rest
      else Err (Plain "invalid denom")
  | _ => Err (Plain "invalid denom")
  end.

(** [ibctransfertypes.DenomPrefix] *)
Definition validateIBCVoucherMetadata (metadata : Metadata) : outcome unit :=
  let denomSplit := SplitN2 (Meta_Base metadata) "/"%char in
  let first := default "" (head denomSplit) in
  if String.eqb first (Meta_Base metadata) && negb (IsBlank (Meta_Base metadata)) then Ok tt
  else if negb (length denomSplit =? 2)%nat || negb (String.eqb first "ibc")
  then Err (Plain "invalid metadata")
  else Ok tt.

(** The loop of [GenesisState.Validate]. *)
Fixpoint validate_token_pairs (pairs : list TokenPair) (seenErc20 seenDenom : gset string)
    : outcome unit :=
  match pairs with
  | [] => Ok tt
  | b :: pairs' =>
      if bool_decide (Erc20Address b ∈ seenErc20)
      then Err (Plain "token ERC20 contract duplicated on genesis")
      else if bool_decide (Pair_Denom b ∈ seenDenom)
      then Err (Plain "coin denomination duplicated on genesis")
      else
        let? _ := TokenPair_Validate b in
        validate_token_pairs pairs' ({[Erc20Address b]} ∪ seenErc20) ({[Pair_Denom b]} ∪ seenDenom)
  end.

Definition GenesisState_Validate (gs : GenesisState) : outcome unit :=
  let? _ := validate_token_pairs (Gen_TokenPairs gs) ∅ ∅ in
  Params_Validate (Gen_Params gs).

(** [MsgConvertERC20.GetSigners] *)
Definition ConvertERC20_GetSigners (msg : MsgConvertERC20) : list string := [HexToAddress (CE_Sender msg)].

(** By the message of package api, of which only the sender is read; [None] is a
    message of another type. *)
Definition GetSignersFromMsgConvertERC20V2 (sender : option string) : outcome (list string) :=
  match sender with
  | None => Ok []
  | Some sender => Ok (ConvertERC20_GetSigners (mkMsgConvertERC20 "" 0 "" sender))
  end.

(** The governance proposals; [validateAbstract] is [govtypes.ValidateAbstract]
    on the title and the description, [metadataValidate] is [Metadata.Validate]. *)
Context (validateAbstract : string -> string -> outcome unit).
Context (metadataValidate : Metadata -> outcome unit).

Definition RegisterCoinProposal_ValidateBasic (title description : string) (m : Metadata) : outcome unit :=
  let? _ := metadataValidate m in
  let? _ := ValidateIBCDenom (Meta_Base m) in
  let? _ := validateIBCVoucherMetadata m in
  validateAbstract title description.

Definition RegisterERC20Proposal_ValidateBasic (title description erc20Addr : string) : outcome unit :=
  let? _ := ValidateAddress erc20Addr in
  validateAbstract title description.

Definition ToggleTokenConversionProposal_ValidateBasic (title description token : string) : outcome unit :=
  let? _ := match ValidateAddress token with
            | Ok _ => Ok tt
            | Panic => Panic
            | Err _ => if ValidateDenom token then Ok tt else Err (Plain "invalid denom")
            end in
  validateAbstract title description.

End types.
