(* ===== verification/Erc20.v ===== *)
(** * x/erc20/keeper: conversion between coins and ERC20 tokens

    [Store] is the module's key-value store, one map per key prefix: the pairs by
    identifier, and the identifiers by contract address and by denomination.
    The EVM runs on the world [W]. *)

From stdpp Require Import base gmap strings list.
From S2P Require Import Prelude Golang Sdk Ethereum Erc20Types.

#[local] Open Scope Z_scope.
#[local] Open Scope go_scope.

(** The bank methods only this module uses, and the validation of metadata. *)
Class BankMetadata (W : Type) := {
  IsSendEnabledCoin : W -> Coin -> bool;
  HasSupply : W -> string -> bool;
  GetDenomMetaData : W -> string -> option Metadata;
  SetDenomMetaData : Metadata -> M W unit;
  Metadata_Validate : Metadata -> outcome unit;
  Erc20_GetModuleAccount : string -> M W (option Account)
}.

Class BankMetadataLaws (W : Type) `{AccountKeeper W, BankKeeper W, BankMetadata W} : Prop := {
  SetDenomMetaData_bank m w : ∃ w', SetDenomMetaData m w = (Ok tt, w') ∧
    bank_delta w w' (fun _ _ => 0) (fun _ => 0);
  (** a blocked recipient is refused before anything is moved *)
  ModuleToAccount_blocked m a t cs w : GetModuleAddress m = Some a -> BlockedAddr t = true ->
    SendCoinsFromModuleToAccount m t cs w = (Err (Foreign "ErrUnauthorized"), w)
}.

Record Store := mkStore {
  st_params : option Params;
  st_pairs : gmap string TokenPair;
  st_byErc20 : gmap string string;
  st_byDenom : gmap string string
}.

Record Keeper := mkKeeper { authority : string }.

(** The variable [contracts.ERC20MinterBurnerDecimalsContract]. *)
Definition erc20_abi : string := "ERC20MinterBurnerDecimalsContract".

Section keeper.
Context {W : Type} `{SdkTypes} `{Hashes} `{ParamSubspace} `{EthTypes} `{Abi}.
Context {AK : AccountKeeper W} {BK : BankKeeper W} {BM : BankMetadata W} {EK : EvmKeeper W}.
#[local] Abbreviation C := (Chain W Store).

(** ** keeper.go, params.go *)

Definition NewKeeper (auth : string) : Keeper := mkKeeper auth.
Definition GetAuthority (k : Keeper) : string := authority k.

Definition GetParams : M C Params :=
  let* p := get_store st_params in
  match p with Some p => ret p | None => panic end.

Definition SetParams (params : Params) : M C unit :=
  do! lift (SetParamSet_check (ParamSetPairs params));
  mod_store (fun s => mkStore (Some params) (st_pairs s) (st_byErc20 s) (st_byDenom s)).

(** ** token_pairs.go *)

Definition set_pairs (f : gmap string TokenPair -> gmap string TokenPair) : M C unit :=
  mod_store (fun s => mkStore (st_params s) (f (st_pairs s)) (st_byErc20 s) (st_byDenom s)).
Definition set_byErc20 (f : gmap string string -> gmap string string) : M C unit :=
  mod_store (fun s => mkStore (st_params s) (st_pairs s) (f (st_byErc20 s)) (st_byDenom s)).
Definition set_byDenom (f : gmap string string -> gmap string string) : M C unit :=
  mod_store (fun s => mkStore (st_params s) (st_pairs s) (st_byErc20 s) (f (st_byDenom s))).

Definition GetTokenPairs : M C (list TokenPair) := get_store (fun s => (kv_iterate (st_pairs s)).*2).

(** Identifiers are byte slices; a missing entry is the nil slice. *)
Definition GetTokenPairIdByERC20Addr (erc20 : string) : M C (option string) :=
  get_store (fun s => st_byErc20 s !! erc20).
Definition GetTokenPairIdByDenom (denom : string) : M C (option string) :=
  get_store (fun s => st_byDenom s !! denom).

Definition GetTokenPairID (token : string) : M C (option string) :=
  if IsHexAddress token then GetTokenPairIdByERC20Addr (HexToAddress token)
  else GetTokenPairIdByDenom token.

Definition GetTokenPair (id : option string) : M C (option TokenPair) :=
  match id with
  | None => ret None
  | Some id => get_store (fun s => st_pairs s !! id)
  end.

Definition SetTokenPair (tokenPair : TokenPair) : M C unit :=
  set_pairs (fun m => <[GetID tokenPair := tokenPair]> m).
Definition deleteTokenPair (id : string) : M C unit := set_pairs (fun m => delete id m).
Definition SetTokenPairIdByERC20Addr (erc20 id : string) : M C unit :=
  set_byErc20 (fun m => <[erc20 := id]> m).
Definition deleteTokenPairIdByERC20Addr (erc20 : string) : M C unit :=
  set_byErc20 (fun m => delete erc20 m).
Definition SetTokenPairIdByDenom (denom id : string) : M C unit :=
  set_byDenom (fun m => <[denom := id]> m).
Definition deleteTokenPairIdByDenom (denom : string) : M C unit :=
  set_byDenom (fun m => delete denom m).

Definition DeleteTokenPair (tokenPair : TokenPair) : M C unit :=
  let id := GetID tokenPair in
  do! deleteTokenPair id;
  do! deleteTokenPairIdByERC20Addr (GetERC20Contract tokenPair);
  deleteTokenPairIdByDenom (Pair_Denom tokenPair).

Definition has {V} (m : gmap string V) (key : string) : bool := bool_decide (is_Some (m !! key)).
Definition IsTokenPairRegistered (id : string) : M C bool := get_store (fun s => has (st_pairs s) id).
Definition IsERC20Registered (erc20 : string) : M C bool := get_store (fun s => has (st_byErc20 s) erc20).
Definition IsDenomRegistered (denom : string) : M C bool := get_store (fun s => has (st_byDenom s) denom).

Definition GetAllTokenPairDenomIndexes : M C (list TokenPairDenomIndex) :=
  get_store (fun s => (fun e => mkTokenPairDenomIndex e.1 e.2) <$> kv_iterate (st_byDenom s)).
Definition GetAllTokenPairERC20AddressIndexes : M C (list TokenPairERC20AddressIndex) :=
  get_store (fun s => (fun e => mkTokenPairERC20AddressIndex (BytesToAddress e.1) e.2)
                      <$> kv_iterate (st_byErc20 s)).

(** ** evm.go *)

Definition CallEVMWithData (from : string) (contract : option string) (data : string) (commit : bool)
    : M C EvmResponse :=
  let* nonce := get_world (fun w => GetSequence w from) in
  let* nonce := lift nonce in
  let* gasCap :=
    (if commit then
       let* gas := get_world (fun w => EstimateGas w from contract data) in lift gas
     else ret DefaultGasCap) in
  let* res := ext (ApplyMessage (mkEthMessage from contract nonce 0 gasCap 0 data (negb commit)) commit) in
  do! reject (res_Failed res) (Foreign "ErrVMExecution");
  ret res.

(** [CallEVM(ctx, erc20, from, contract, commit, method, args...)] *)
Definition CallEVM (abi from contract : string) (commit : bool) (method : string) (args : list AbiArg)
    : M C EvmResponse :=
  match abi_Pack abi method args with
  | Ok data => CallEVMWithData from (Some contract) data commit
  | Err _ => fail ErrABIPack
  | Panic => panic
  end.

(** The [*big.Int] result is nil when anything fails. *)
Definition BalanceOf (abi contract account : string) : M C (option Z) :=
  let* res := attempt (CallEVM abi ModuleAddress contract false "balanceOf" [ArgAddress account]) in
  match res with
  | inr _ => ret None
  | inl res =>
      match abi_Unpack abi "balanceOf" (res_Ret res) with
      | Ok (ArgBig balance :: _) => ret (Some balance)
      | Panic => panic
      | _ => ret None
      end
  end.

(** [if err := erc20.UnpackIntoInterface(...); err != nil { return e }] *)
Definition unpack_or {A} (o : outcome A) (e : error) : M C A :=
  match o with Ok a => ret a | Err _ => fail e | Panic => panic end.

Definition QueryERC20 (contract : string) : M C ERC20Data :=
  let* res := CallEVM erc20_abi ModuleAddress contract false "name" [] in
  let* name := unpack_or (abi_UnpackString erc20_abi "name" (res_Ret res)) ErrABIUnpack in
  let* res := CallEVM erc20_abi ModuleAddress contract false "symbol" [] in
  let* symbol := unpack_or (abi_UnpackString erc20_abi "symbol" (res_Ret res)) ErrABIUnpack in
  let* res := CallEVM erc20_abi ModuleAddress contract false "decimals" [] in
  let* decimals := unpack_or (abi_UnpackUint8 erc20_abi "decimals" (res_Ret res)) ErrABIUnpack in
  ret (NewERC20Data name symbol decimals).

Definition DeployERC20Contract (coinMetadata : Metadata) : M C string :=
  let decimals := match last (Meta_DenomUnits coinMetadata) with
                  | Some u => uint8 (Unit_Exponent u)
                  | None => 0
                  end in
  let* ctorArgs := unpack_or (abi_Pack erc20_abi ""
    [ArgString (Meta_Name coinMetadata); ArgString (Meta_Symbol coinMetadata); ArgUint8 decimals]) ErrABIPack in
  let data := abi_Bin erc20_abi +:+ ctorArgs in
  let* nonce := get_world (fun w => GetSequence w ModuleAddress) in
  let* nonce := lift nonce in
  let contractAddr := CreateAddress ModuleAddress nonce in
  do! CallEVMWithData ModuleAddress None data true;
  ret contractAddr.

(** Reading [log.Topics[0]] of a log without topics panics. *)
Fixpoint monitor_logs (logs : list EthLog) (logApprovalSigHash : string) : outcome unit :=
  match logs with
  | [] => Ok tt
  | log :: logs' =>
      match log_Topics log with
      | [] => Panic
      | topic :: _ =>
          if String.eqb topic logApprovalSigHash then Err ErrUnexpectedEvent
          else monitor_logs logs' logApprovalSigHash
      end
  end.

Definition monitorApprovalEvent (res : EvmResponse) : outcome unit :=
  match res_Logs res with
  | [] => Ok tt
  | logs => monitor_logs logs (Keccak256Hash_Hex "Approval(address,address,uint256)")
  end.

(** ** mint.go *)

(** Accounts are compared by their bytes. *)
Definition MintingEnabled (sender receiver token : string) : M C TokenPair :=
  let* params := GetParams in
  do! reject (negb (EnableErc20 params)) ErrERC20Disabled;
  let* id := GetTokenPairID token in
  do! reject (String.eqb (default "" id) "") ErrTokenPairNotFound;
  let* found := GetTokenPair id in
  match found with
  | None => fail ErrTokenPairNotFound
  | Some tp =>
      do! reject (negb (Enabled tp)) ErrERC20TokenPairDisabled;
      do! reject (BlockedAddr receiver) (Foreign "ErrUnauthorized");
      let* sendEnabled := get_world (fun w => IsSendEnabledCoin w (mkCoin (Pair_Denom tp) 0)) in
      do! reject (negb (String.eqb sender receiver) && negb sendEnabled) (Foreign "ErrSendDisabled");
      ret tp
  end.

(** ** proposals.go *)

Definition verifyMetadata (coinMetadata : Metadata) : M C unit :=
  let* found := get_world (fun w => GetDenomMetaData w (Meta_Base coinMetadata)) in
  match found with
  | None => ext (SetDenomMetaData coinMetadata)
  | Some meta => lift (EqualMetadata meta coinMetadata)
  end.

Definition store_pair (tp : TokenPair) : M C unit :=
  do! SetTokenPair tp;
  do! SetTokenPairIdByDenom (Pair_Denom tp) (GetID tp);
  SetTokenPairIdByERC20Addr (HexToAddress (Erc20Address tp)) (GetID tp).

Definition RegisterCoin (coinMetadata : Metadata) : M C TokenPair :=
  let* params := GetParams in
  do! reject (negb (EnableErc20 params)) ErrERC20Disabled;
  do! reject (Contains (Meta_Base coinMetadata) "CANTO") ErrEVMDenom;
  let* registered := IsDenomRegistered (Meta_Base coinMetadata) in
  do! reject registered ErrTokenPairAlreadyExists;
  let* supplied := get_world (fun w => HasSupply w (Meta_Base coinMetadata)) in
  do! reject (negb supplied) (Foreign "ErrInvalidCoins");
  let* verified := attempt (verifyMetadata coinMetadata) in
  do! reject (if verified is inr _ then true else false) ErrInternalTokenPair;
  let* addr := DeployERC20Contract coinMetadata in
  let tp := NewTokenPair addr (Meta_Base coinMetadata) true OWNER_MODULE in
  do! store_pair tp;
  ret tp.

Definition CreateCoinMetadata (contract : string) : M C Metadata :=
  let strContract := Address_String contract in
  let* erc20Data := QueryERC20 contract in
  let* found := get_world (fun w => GetDenomMetaData w (CreateDenom strContract)) in
  do! reject (if found is Some _ then true else false) ErrInternalTokenPair;
  let* registered := IsDenomRegistered (CreateDenom strContract) in
  do! reject registered ErrInternalTokenPair;
  let base := CreateDenom strContract in
  let nameSanitized := SanitizeERC20Name (Data_Name erc20Data) in
  let positive := 0 <? Data_Decimals erc20Data in
  let metadata := mkMetadata (CreateDenomDescription strContract)
    (mkDenomUnit base 0 [] ::
       (if positive then [mkDenomUnit nameSanitized (Data_Decimals erc20Data) []] else []))
    base (if positive then nameSanitized else base) (CreateDenom strContract)
    (Data_Symbol erc20Data) "" "" in
  do! lift (Metadata_Validate metadata);
  do! ext (SetDenomMetaData metadata);
  ret metadata.

Definition RegisterERC20 (contract : string) : M C TokenPair :=
  let* params := GetParams in
  do! reject (negb (EnableErc20 params)) ErrERC20Disabled;
  let* registered := IsERC20Registered contract in
  do! reject registered ErrTokenPairAlreadyExists;
  let* metadata := CreateCoinMetadata contract in
  let tp := NewTokenPair contract (Meta_Name metadata) true OWNER_EXTERNAL in
  do! store_pair tp;
  ret tp.

Definition ToggleConversion (token : string) : M C TokenPair :=
  let* id := GetTokenPairID token in
  do! reject (String.eqb (default "" id) "") ErrTokenPairNotFound;
  let* found := GetTokenPair id in
  match found with
  | None => fail ErrTokenPairNotFound
  | Some tp =>
      let tp := mkTokenPair (Erc20Address tp) (Pair_Denom tp) (negb (Enabled tp))
                    (ContractOwner tp) in
      do! SetTokenPair tp;
      ret tp
  end.

(** ** msg_server.go: the four conversions *)

Definition emit_convert (type sender receiver : string) (amount : Z) (coin token : string) : M C unit :=
  emit (mkEvent type
    [(AttributeKeySender, AStr sender); (AttributeKeyReceiver, AStr receiver);
     (AttributeKeyAmount, AInt amount); (AttributeKeyCosmosCoin, AStr coin);
     (AttributeKeyERC20Token, AStr token)]).

(** [if balance == nil { return ErrEVMCall }] *)
Definition some_balance (b : option Z) : M C Z :=
  match b with Some z => ret z | None => fail ErrEVMCall end.

Definition convertCoinNativeCoin (tp : TokenPair) (msg : MsgConvertCoin) (receiver sender : string)
    : M C unit :=
  let coins := [CC_Coin msg] in
  let contract := GetERC20Contract tp in
  let* balanceToken := BalanceOf erc20_abi contract receiver in
  let* balanceToken := some_balance balanceToken in
  do! ext (SendCoinsFromAccountToModule sender ModuleName coins);
  do! CallEVM erc20_abi ModuleAddress contract true "mint"
        [ArgAddress receiver; ArgBig (Amount (CC_Coin msg))];
  let tokens := Amount (CC_Coin msg) in
  let* balanceTokenAfter := BalanceOf erc20_abi contract receiver in
  let* balanceTokenAfter := some_balance balanceTokenAfter in
  let expToken := balanceToken + tokens in
  do! reject (negb (balanceTokenAfter =? expToken)) ErrBalanceInvariance;
  emit_convert EventTypeConvertCoin (CC_Sender msg) (CC_Receiver msg) (Amount (CC_Coin msg))
    (Denom (CC_Coin msg)) (Erc20Address tp).

Definition convertERC20NativeCoin (tp : TokenPair) (msg : MsgConvertERC20) (receiver sender : string)
    : M C unit :=
  let coin := mkCoin (Pair_Denom tp) (CE_Amount msg) in
  let coins := [coin] in
  let contract := GetERC20Contract tp in
  let* balanceCoin := get_world (fun w => mkCoin (Pair_Denom tp) (GetBalance w receiver (Pair_Denom tp))) in
  let* balanceToken := BalanceOf erc20_abi contract sender in
  let* balanceToken := some_balance balanceToken in
  do! CallEVM erc20_abi ModuleAddress contract true "burnCoins"
        [ArgAddress sender; ArgBig (CE_Amount msg)];
  do! ext (SendCoinsFromModuleToAccount ModuleName receiver coins);
  let* balanceCoinAfter := get_world (fun w => mkCoin (Pair_Denom tp) (GetBalance w receiver (Pair_Denom tp))) in
  let* expCoin := lift (Coin_Add balanceCoin coin) in
  do! reject (negb (bool_decide (balanceCoinAfter = expCoin))) ErrBalanceInvariance;
  let tokens := CE_Amount msg in
  let* balanceTokenAfter := BalanceOf erc20_abi contract sender in
  let* balanceTokenAfter := some_balance balanceTokenAfter in
  let expToken := balanceToken - tokens in
  do! reject (negb (balanceTokenAfter =? expToken)) ErrBalanceInvariance;
  emit_convert EventTypeConvertERC20 (CE_Sender msg) (CE_Receiver msg) (CE_Amount msg)
    (Pair_Denom tp) (CE_ContractAddress msg).

Definition convertERC20NativeToken (tp : TokenPair) (msg : MsgConvertERC20) (receiver sender : string)
    : M C unit :=
  let coin := mkCoin (Pair_Denom tp) (CE_Amount msg) in
  let coins := [coin] in
  let contract := GetERC20Contract tp in
  let* balanceCoin := get_world (fun w => mkCoin (Pair_Denom tp) (GetBalance w receiver (Pair_Denom tp))) in
  let* balanceToken := BalanceOf erc20_abi contract ModuleAddress in
  let* balanceToken := some_balance balanceToken in
  let* transferData := lift (abi_Pack erc20_abi "transfer"
    [ArgAddress ModuleAddress; ArgBig (CE_Amount msg)]) in
  let* res := CallEVMWithData sender (Some contract) transferData true in
  let* unpackedRet := lift (abi_UnpackBool erc20_abi "transfer" (res_Ret res)) in
  do! reject (negb unpackedRet) (Foreign "ErrLogic");
  let tokens := CE_Amount msg in
  let* balanceTokenAfter := BalanceOf erc20_abi contract ModuleAddress in
  let* balanceTokenAfter := some_balance balanceTokenAfter in
  let expToken := balanceToken + tokens in
  do! reject (negb (balanceTokenAfter =? expToken)) ErrBalanceInvariance;
  do! ext (MintCoins ModuleName coins);
  do! ext (SendCoinsFromModuleToAccount ModuleName receiver coins);
  let* balanceCoinAfter := get_world (fun w => mkCoin (Pair_Denom tp) (GetBalance w receiver (Pair_Denom tp))) in
  let* expCoin := lift (Coin_Add balanceCoin coin) in
  do! reject (negb (bool_decide (balanceCoinAfter = expCoin))) ErrBalanceInvariance;
  do! lift (monitorApprovalEvent res);
  emit_convert EventTypeConvertERC20 (CE_Sender msg) (CE_Receiver msg) (CE_Amount msg)
    (Pair_Denom tp) (CE_ContractAddress msg).

Definition convertCoinNativeERC20 (tp : TokenPair) (msg : MsgConvertCoin) (receiver sender : string)
    : M C unit :=
  let coins := [CC_Coin msg] in
  let contract := GetERC20Contract tp in
  let* balanceToken := BalanceOf erc20_abi contract receiver in
  let* balanceToken := some_balance balanceToken in
  do! ext (SendCoinsFromAccountToModule sender ModuleName coins);
  let* res := CallEVM erc20_abi ModuleAddress contract true "transfer"
    [ArgAddress receiver; ArgBig (Amount (CC_Coin msg))] in
  let* unpackedRet := lift (abi_UnpackBool erc20_abi "transfer" (res_Ret res)) in
  do! reject (negb unpackedRet) (Foreign "ErrLogic");
  let tokens := Amount (CC_Coin msg) in
  let* balanceTokenAfter := BalanceOf erc20_abi contract receiver in
  let* balanceTokenAfter := some_balance balanceTokenAfter in
  let exp := balanceToken + tokens in
  do! reject (negb (balanceTokenAfter =? exp)) ErrBalanceInvariance;
  do! ext (BurnCoins ModuleName coins);
  do! lift (monitorApprovalEvent res);
  emit_convert EventTypeConvertCoin (CC_Sender msg) (CC_Receiver msg) (Amount (CC_Coin msg))
    (Denom (CC_Coin msg)) (Erc20Address tp).

(** [acc == nil || !acc.IsContract()] *)
Definition is_contract (addr : string) : M C bool :=
  get_world (fun w => match GetAccountWithoutBalance w addr with Some true => true | _ => false end).

(** [if _, err := AccAddressFromBech32(s); err != nil { return err }] *)
Definition bech32 (s : string) : M C string := lift (AccAddressFromBech32 s).

Definition ConvertCoin (msg : MsgConvertCoin) : M C unit :=
  do! match ValidateErc20Denom (Denom (CC_Coin msg)) with
      | Ok _ => ret tt
      | Panic => panic
      | Err _ => lift (ValidateIBCDenom (Denom (CC_Coin msg)))
      end;
  do! reject (negb (0 <? Amount (CC_Coin msg))) (Foreign "ErrInvalidCoins");
  let* sender := bech32 (CC_Sender msg) in
  do! reject (negb (IsHexAddress (CC_Receiver msg))) (Foreign "ErrInvalidAddress");
  let receiver := HexToAddress (CC_Receiver msg) in
  let* tp := MintingEnabled sender receiver (Denom (CC_Coin msg)) in
  let* contract := is_contract (HexToAddress (Erc20Address tp)) in
  if negb contract then DeleteTokenPair tp
  else if IsNativeCoin tp then convertCoinNativeCoin tp msg receiver sender
  else if IsNativeERC20 tp then convertCoinNativeERC20 tp msg receiver sender
  else fail ErrUndefinedOwner.

Definition ConvertERC20 (msg : MsgConvertERC20) : M C unit :=
  do! reject (negb (IsHexAddress (CE_ContractAddress msg))) (Foreign "ErrInvalidAddress");
  do! reject (negb (0 <? CE_Amount msg)) (Foreign "ErrInvalidCoins");
  let* receiver := bech32 (CE_Receiver msg) in
  do! reject (negb (IsHexAddress (CE_Sender msg))) (Foreign "ErrInvalidAddress");
  let sender := HexToAddress (CE_Sender msg) in
  let* tp := MintingEnabled sender receiver (CE_ContractAddress msg) in
  let* contract := is_contract (HexToAddress (Erc20Address tp)) in
  if negb contract then DeleteTokenPair tp
  else if IsNativeCoin tp then convertERC20NativeCoin tp msg receiver sender
  else if IsNativeERC20 tp then convertERC20NativeToken tp msg receiver sender
  else fail ErrUndefinedOwner.

(** ** msg_server.go: governance messages *)

Definition check_authority (k : Keeper) (a : string) : M C unit :=
  reject (negb (String.eqb (GetAuthority k) a)) (Foreign "ErrInvalidSigner").

Definition msg_UpdateParams (k : Keeper) (req : MsgUpdateParams) : M C unit :=
  do! check_authority k (Upd_Authority req);
  do! lift (Params_Validate (Upd_Params req));
  SetParams (Upd_Params req).

Definition RegisterCoinProposal (k : Keeper) (req : MsgRegisterCoin) : M C unit :=
  do! check_authority k (RC_Authority req);
  do! RegisterCoin (RC_Metadata req);
  ret tt.

Definition RegisterERC20Proposal (k : Keeper) (req : MsgRegisterERC20) : M C unit :=
  do! check_authority k (RE_Authority req);
  do! RegisterERC20 (HexToAddress (RE_Erc20Address req));
  ret tt.

Definition ToggleTokenConversionProposal (k : Keeper) (req : MsgToggleTokenConversion) : M C unit :=
  do! check_authority k (TC_Authority req);
  do! ToggleConversion (TC_Token req);
  ret tt.

(** ** evm_hooks.go *)

(** The conversion of one log, [None] where the loop body continues early. *)
Definition decode_transfer (log : EthLog) : outcome (option (string * string * Z)) :=
  match log_Topics log with
  | [eventID; fromTopic; toTopic] =>
      match abi_EventByID erc20_abi eventID with
      | Panic => Panic
      | Err _ => Ok None
      | Ok name =>
          if negb (String.eqb name ERC20EventTransfer) then Ok None
          else match abi_Unpack erc20_abi name (log_Data log) with
               | Panic => Panic
               | Ok (ArgBig tokens :: _) =>
                   if 0 <? tokens then Ok (Some (fromTopic, toTopic, tokens)) else Ok None
               | _ => Ok None
               end
      end
  | _ => Ok None
  end.

Definition process_log (log : EthLog) : M C unit :=
  let* transfer := lift (decode_transfer log) in
  match transfer with
  | None => ret tt
  | Some (fromTopic, toTopic, tokens) =>
      let contractAddr := log_Address log in
      let* id := GetTokenPairIdByERC20Addr contractAddr in
      if String.eqb (default "" id) "" then ret tt
      else
        let* found := GetTokenPair id in
        match found with
        | None => ret tt
        | Some tp =>
            if negb (String.eqb (BytesToAddress toTopic) ModuleAddress) then ret tt
            else if negb (Enabled tp) then ret tt
            else
              let coins := [mkCoin (Pair_Denom tp) tokens] in
              let* converted := attempt
                match ContractOwner tp with
                | OWNER_MODULE =>
                    do! CallEVM erc20_abi ModuleAddress contractAddr true "burn" [ArgBig tokens]; ret tt
                | OWNER_EXTERNAL => ext (MintCoins ModuleName coins)
                | OWNER_UNSPECIFIED => fail ErrUndefinedOwner
                end in
              match converted with
              | inr _ => ret tt
              | inl _ =>
                  let recipient := BytesToAddress fromTopic in
                  do! attempt (ext (SendCoinsFromModuleToAccount ModuleName recipient coins));
                  ret tt
              end
        end
  end.

Definition PostTxProcessing (logs : list EthLog) : M C unit :=
  let* params := GetParams in
  if negb (EnableErc20 params) || negb (EnableEVMHook params) then ret tt
  else for_each logs process_log.

(** ** grpc_query.go, genesis.go, migrations *)

Definition query_TokenPair (req : option string) : M C TokenPair :=
  match req with
  | None => fail (Foreign "codes.InvalidArgument")
  | Some token =>
      do! match ValidateAddress token with
          | Ok _ => ret tt
          | Panic => panic
          | Err _ => reject (negb (ValidateDenom token)) (Foreign "codes.InvalidArgument")
          end;
      let* id := GetTokenPairID token in
      do! reject (String.eqb (default "" id) "") (Foreign "codes.NotFound");
      let* found := GetTokenPair id in
      match found with Some tp => ret tp | None => fail (Foreign "codes.NotFound") end
  end.

Definition query_Params : M C Params := GetParams.

Definition InitGenesis (data : GenesisState) : M C unit :=
  do! SetParams (Gen_Params data);
  let* acc := ext (Erc20_GetModuleAccount ModuleName) in
  match acc with
  | None => panic
  | Some _ =>
      do! for_each (Gen_TokenPairs data) SetTokenPair;
      do! for_each (Gen_DenomIndexes data)
            (fun idx => SetTokenPairIdByDenom (DIdx_Denom idx) (DIdx_TokenPairId idx));
      for_each (Gen_Erc20AddressIndexes data)
        (fun idx => SetTokenPairIdByERC20Addr (BytesToAddress (EIdx_Erc20Address idx)) (EIdx_TokenPairId idx))
  end.

Definition ExportGenesis : M C GenesisState :=
  let* params := GetParams in
  let* pairs := GetTokenPairs in
  let* denomIndexes := GetAllTokenPairDenomIndexes in
  let* erc20AddressIndexes := GetAllTokenPairERC20AddressIndexes in
  ret (mkGenesisState params pairs denomIndexes erc20AddressIndexes).

(** [migrations/v2.UpdateParams]: both flags on. *)
Definition Migrate1to2 : M C unit :=
  mod_store (fun s => mkStore (Some (mkParams true true)) (st_pairs s) (st_byErc20 s) (st_byDenom s)).

End keeper.
