(* ===== verification/ReferenceEvm.v ===== *)
(** * An executable instance of the interfaces of [Ethereum.v] and of x/erc20

    The world is the one of [Reference.v] beside a small EVM state: nonces, the
    deployed tokens and their ledgers, and the metadata the bank keeps.  Calls are
    encoded as a method letter, an address and a decimal number.  As in
    [Reference.v], only witnesses use it. *)

From Stdlib Require Import Ascii.
From stdpp Require Import base gmap strings list.
From S2P Require Import Prelude Golang Sdk Reference Ethereum Erc20Types Erc20.

#[local] Open Scope Z_scope.
#[local] Open Scope go_scope.

(** ** Addresses *)

Definition hex_digit (n : N) : ascii := if (n <? 10)%N then ascii_of_N (48 + n) else ascii_of_N (87 + n).
Definition of_hex_digit (c : ascii) : option N :=
  let x := N_of_ascii c in
  if ((48 <=? x) && (x <=? 57))%N then Some (x - 48)%N
  else if ((97 <=? x) && (x <=? 102))%N then Some (x - 87)%N
  else if ((65 <=? x) && (x <=? 70))%N then Some (x - 55)%N
  else None.

Fixpoint to_hex (s : string) : string :=
  match s with
  | EmptyString => EmptyString
  | String c s' =>
      let x := N_of_ascii c in String (hex_digit (x / 16)) (String (hex_digit (x mod 16)) (to_hex s'))
  end.
Fixpoint of_hex (s : string) : option string :=
  match s with
  | EmptyString => Some EmptyString
  | String h (String l s') =>
      match of_hex_digit h, of_hex_digit l, of_hex s' with
      | Some x, Some y, Some r => Some (String (ascii_of_N (16 * x + y)) r)
      | _, _, _ => None
      end
  | _ => None
  end.

(** Exactly twenty bytes, padded on the right. *)
Definition pad20 (s : string) : string := take_bytes 20 (s +:+ "....................").

Definition ref_hex_to_address (s : string) : string :=
  pad20 (default "" (of_hex (if HasPrefix s "0x" then drop_bytes 2 s else s))).
Definition ref_is_hex (s : string) : bool :=
  match of_hex (if HasPrefix s "0x" then drop_bytes 2 s else s) with
  | Some b => (String.length b =? 20)%nat
  | None => false
  end.

#[export] Instance ref_eth : EthTypes := {
  HexToAddress := ref_hex_to_address;
  Address_String a := "0x" +:+ to_hex a;
  IsHexAddress := ref_is_hex;
  BytesToAddress := pad20;
  CreateAddress a n := pad20 ("c" +:+ Decimal n +:+ a);
  Keccak256Hash_Hex s := s;
  ValidateAddress s := if ref_is_hex s then Ok tt else Err (Plain "not an address");
  ValidateIBCDenom s := if ref_validate_denom s then Ok tt else Err (Plain "invalid denom");
  NewModuleAddress m := pad20 ("module:" +:+ m)
}.

Lemma pad20_ok s : address_ok (pad20 s).
Proof. unfold address_ok, pad20. apply take_bytes_length. rewrite append_length. cbn. lia. Qed.

Lemma pad20_id s : address_ok s -> pad20 s = s.
Proof. unfold address_ok, pad20. intros <-. apply take_bytes_app. Qed.

Lemma of_to_hex s : of_hex (to_hex s) = Some s.
Proof.
  induction s as [|c s IH]; [done|]. cbn [to_hex of_hex]. rewrite IH.
  by destruct c as [[] [] [] [] [] [] [] []].
Qed.

Lemma to_hex_length s : String.length (to_hex s) = (2 * String.length s)%nat.
Proof. induction s as [|c s IH]; [done|]. cbn [to_hex String.length]. rewrite IH. lia. Qed.

Lemma strip_0x s : (if HasPrefix ("0x" +:+ s) "0x" then drop_bytes 2 ("0x" +:+ s) else "0x" +:+ s) = s.
Proof. unfold HasPrefix. by rewrite prefix_app. Qed.

#[export] Instance ref_eth_laws : EthTypesLaws.
Proof.
  split; cbn [HexToAddress Address_String IsHexAddress BytesToAddress CreateAddress NewModuleAddress ref_eth].
  - intros. apply pad20_ok.
  - intros a Ha. unfold ref_hex_to_address. rewrite strip_0x, of_to_hex. by apply pad20_id.
  - intros a Ha. unfold ref_is_hex. rewrite strip_0x, of_to_hex. rewrite Ha. done.
  - intros a Ha. rewrite append_length, to_hex_length, Ha. done.
  - apply pad20_ok.
  - apply pad20_id.
  - intros. apply pad20_ok.
  - intros. apply pad20_ok.
Qed.

(** ** Contract calls *)

Definition method_letter (m : string) : string :=
  if String.eqb m "balanceOf" then "b"
  else if String.eqb m "mint" then "m"
  else if String.eqb m "burnCoins" then "B"
  else if String.eqb m "transfer" then "t"
  else if String.eqb m "burn" then "u"
  else if String.eqb m "name" then "n"
  else if String.eqb m "symbol" then "s"
  else if String.eqb m "decimals" then "d"
  else if String.eqb m "AddProposal" then "a"
  else "c".

Definition pack_arg (x : AbiArg) : string :=
  match x with
  | ArgAddress a => a
  | ArgBig z | ArgUint8 z => Decimal z
  | ArgString s => s +:+ ";"
  | _ => ""
  end.

#[export] Instance ref_abi : Abi := {
  abi_Pack _ m args := Ok (method_letter m +:+ String.concat "" (pack_arg <$> args));
  abi_Unpack _ _ data :=
    match parse_digits data 0 with
    | Some n => if String.eqb data "" then Err (Plain "abi: empty") else Ok [ArgBig n]
    | None => Err (Plain "abi: not a number")
    end;
  abi_UnpackString _ _ data := Ok data;
  abi_UnpackUint8 _ _ data :=
    match parse_digits data 0 with Some n => Ok n | None => Err (Plain "abi: not a number") end;
  abi_UnpackBool _ _ data := Ok (String.eqb data "1");
  abi_EventByID _ topic := if String.eqb topic "T" then Ok "Transfer" else Err (Plain "no event");
  abi_Bin _ := ""
}.

(** ** The EVM beside the bank *)

Record RefToken := mkRefToken { tok_name : string; tok_symbol : string; tok_decimals : Z }.

Record EvmState := mkEvmState {
  evm_nonce : gmap string Z;
  evm_tokens : gmap string RefToken;
  evm_ledger : gmap (string * string) Z;
  evm_meta : gmap string Metadata
}.

Abbreviation EvmWorld := (RefWorld * EvmState)%type.

Definition token_balance (s : EvmState) (contract a : string) : Z :=
  default 0 (evm_ledger s !! (contract, a)).
Definition credit (contract a : string) (z : Z) (s : EvmState) : EvmState :=
  mkEvmState (evm_nonce s) (evm_tokens s)
    (<[(contract, a) := token_balance s contract a + z]> (evm_ledger s)) (evm_meta s).
Definition next_nonce (a : string) (s : EvmState) : EvmState :=
  mkEvmState (<[a := default 0 (evm_nonce s !! a) + 1]> (evm_nonce s)) (evm_tokens s)
    (evm_ledger s) (evm_meta s).
Definition deploy (contract : string) (t : RefToken) (s : EvmState) : EvmState :=
  mkEvmState (evm_nonce s) (<[contract := t]> (evm_tokens s)) (evm_ledger s) (evm_meta s).

(** A call of the token [contract]: what it returns and the new state. *)
Definition run_token (t : RefToken) (contract from data : string) (s : EvmState)
    : option (string * EvmState) :=
  let m := take_bytes 1 data in
  let a := take_bytes 20 (drop_bytes 1 data) in
  let n := default 0 (parse_digits (drop_bytes 21 data) 0) in
  if String.eqb m "b" then Some (Decimal (token_balance s contract a), s)
  else if String.eqb m "n" then Some (tok_name t, s)
  else if String.eqb m "s" then Some (tok_symbol t, s)
  else if String.eqb m "d" then Some (Decimal (tok_decimals t), s)
  else if String.eqb m "a" then Some ("", s)
  else if String.eqb m "m" then Some ("", credit contract a n s)
  else if String.eqb m "B" then
    if token_balance s contract a <? n then None else Some ("", credit contract a (- n) s)
  else if String.eqb m "t" then
    if token_balance s contract from <? n then None
    else Some ("1", credit contract a n (credit contract from (- n) s))
  else if String.eqb m "u" then
    let n := default 0 (parse_digits (drop_bytes 1 data) 0) in
    if token_balance s contract from <? n then None else Some ("", credit contract from (- n) s)
  else None.

Definition apply_message (msg : EthMessage) (s : EvmState) : EvmResponse * EvmState :=
  let s1 := next_nonce (msg_From msg) s in
  match msg_To msg with
  | None =>
      let contract := CreateAddress (msg_From msg) (msg_Nonce msg) in
      (mkEvmResponse "" "" [], deploy contract (mkRefToken (msg_Data msg) "" 0) s1)
  | Some contract =>
      match evm_tokens s !! contract with
      | None => (mkEvmResponse "" "" [], s1)
      | Some t =>
          match run_token t contract (msg_From msg) (msg_Data msg) s1 with
          | Some (r, s') => (mkEvmResponse r "" [], s')
          | None => (mkEvmResponse "" "execution reverted" [], s1)
          end
      end
  end.

#[export] Instance ref_evm : EvmKeeper EvmWorld := {
  GetAccountWithoutBalance w a := if evm_tokens w.2 !! a is Some _ then Some true else None;
  EstimateGas _ _ _ _ := Ok 21000;
  ApplyMessage msg commit := fun w =>
    let '(r, s') := apply_message msg w.2 in (Ok r, if commit then (w.1, s') else w);
  DefaultGasCap := 25000000;
  EvmDenom := "atuc"
}.

Definition on_bank {A} (m : M RefWorld A) : M EvmWorld A := zoom fst (fun b w => (b, w.2)) m.

#[export] Instance ref_evm_accounts : AccountKeeper EvmWorld := {
  GetAccount w := GetAccount w.1;
  GetSequence w a := Ok (default 0 (evm_nonce w.2 !! a));
  GetModuleAddress := ref_module_address
}.

#[export] Instance ref_evm_bank : BankKeeper EvmWorld := {
  GetBalance w := ref_balance w.1;
  GetSupply w := ref_supply w.1;
  GetAllBalances w := ref_all_balances w.1;
  SpendableCoins w := ref_all_balances w.1;
  BlockedAddr := ref_blocked;
  SendCoins f t cs := on_bank (SendCoins f t cs);
  SendCoinsFromModuleToAccount m t cs := on_bank (SendCoinsFromModuleToAccount m t cs);
  SendCoinsFromAccountToModule f m cs := on_bank (SendCoinsFromAccountToModule f m cs);
  SendCoinsFromModuleToModule m n cs := on_bank (SendCoinsFromModuleToModule m n cs);
  MintCoins m cs := on_bank (MintCoins m cs);
  BurnCoins m cs := on_bank (BurnCoins m cs)
}.

Definition set_meta (m : Metadata) (w : EvmWorld) : EvmWorld :=
  (w.1, mkEvmState (evm_nonce w.2) (evm_tokens w.2) (evm_ledger w.2) (<[Meta_Base m := m]> (evm_meta w.2))).

#[export] Instance ref_metadata : BankMetadata EvmWorld := {
  IsSendEnabledCoin _ _ := true;
  HasSupply w d := 0 <? ref_supply w.1 d;
  GetDenomMetaData w d := evm_meta w.2 !! d;
  SetDenomMetaData m := modify (set_meta m);
  Metadata_Validate m := if String.eqb (Meta_Base m) "" then Err (Plain "blank base") else Ok tt;
  Erc20_GetModuleAccount m := ret (Some (mkAccount (default "" (ref_module_address m)) true))
}.

(** ** The laws *)

Lemma on_bank_Ok {A} (m : M RefWorld A) a (w w' : EvmWorld) :
  on_bank m w = (Ok a, w') -> m w.1 = (Ok a, w'.1) ∧ w'.2 = w.2.
Proof. intros (b & E & ->)%zoom_Ok. done. Qed.

Lemma on_bank_run {A} (m : M RefWorld A) a b (w : EvmWorld) :
  m w.1 = (Ok a, b) -> on_bank m w = (Ok a, (b, w.2)).
Proof. unfold on_bank, zoom. by intros ->. Qed.

Lemma lift_delta (w w' : EvmWorld) δ σ : bank_delta w.1 w'.1 δ σ -> bank_delta w w' δ σ.
Proof. intros [B S A]. split; [apply B|apply S|apply A]. Qed.

#[export] Instance ref_evm_bank_laws : BankLaws EvmWorld.
Proof.
  pose proof ref_bank_laws as L.
  split; cbn -[ref_bank ref_accounts ref_balance ref_supply ref_all_balances].
  - intros [w s] a d. apply ref_balance_nonneg.
  - intros [w s] d. apply ref_supply_nonneg.
  - intros [w s] a. apply ref_all_balances_valid.
  - intros [w s] a d. apply ref_all_balances_amount.
  - intros [w s] a. apply ref_all_balances_valid.
  - intros [w s] a d. apply ref_all_balances_le.
  - intros [w s] a acc. apply (GetAccount_address w).
  - intros f t cs w w' [(HB & Hle & HA)%SendCoins_effect _]%on_bank_Ok.
    split_and!; [by apply lift_delta|exact Hle|exact HA].
  - intros f t cs w w' [E _]%on_bank_Ok. exact (SendCoins_valid _ _ _ _ _ E).
  - intros f t cs [w s] Hv Hc. pose proof (SendCoins_total f t cs w) as HT.
    destruct (HT Hv Hc) as [w' E].
    exists (w', s). by apply on_bank_run.
  - intros m t cs w w' (b & (f & ? & ? & E)%ModuleToAccount_effect & ->)%zoom_Ok.
    exists f. split_and!; [done|done|]. by apply on_bank_run.
  - intros f m cs w w' (b & (t & ? & E)%AccountToModule_effect & ->)%zoom_Ok.
    exists t. split; [done|]. by apply on_bank_run.
  - intros m n cs w w' (b & (f & t & ? & ? & E)%ModuleToModule_effect & ->)%zoom_Ok.
    exists f, t. split_and!; [done|done|]. by apply on_bank_run.
  - intros m cs w w' [(a & ? & ? & HB)%MintCoins_effect _]%on_bank_Ok.
    exists a. split_and!; [done|done|by apply lift_delta].
  - intros m cs w w' [(a & ? & ? & HB & Hle)%BurnCoins_effect _]%on_bank_Ok.
    exists a. split_and!; [done|done|by apply lift_delta|exact Hle].
Qed.

Lemma same_evm_kept (w w' : EvmWorld) : w'.2 = w.2 -> evm_kept w w'.
Proof.
  intros E. split; cbn -[apply_message]; [intros msg|intros a n]; rewrite E; [|done].
  by destruct (apply_message msg w.2).
Qed.

#[export] Instance ref_evm_laws : EvmLaws EvmWorld.
Proof.
  split; [cbn -[apply_message]; intros msg w r w'; destruct (apply_message msg w.2) as [r1 s1]..| | |].
  - by intros [= _ <-].
  - intros a d. by intros [= _ <-].
  - intros d. by intros [= _ <-].
  - intros f t cs w w' [_ E]%on_bank_Ok _. by apply same_evm_kept.
  - intros m cs w w' [_ E]%on_bank_Ok _. by apply same_evm_kept.
  - intros m cs w w' [_ E]%on_bank_Ok _. by apply same_evm_kept.
Qed.

#[export] Instance ref_metadata_laws : BankMetadataLaws EvmWorld.
Proof.
  split.
  - intros m w. exists (set_meta m w). split; [done|]. apply (lift_delta w (set_meta m w)), bank_delta_refl.
  - intros m a t cs [w s] _ Hb. cbn in *. unfold on_bank, zoom, with_module. cbn. by rewrite Hb.
Qed.
