(* ===== verification/Erc20Facts.v ===== *)
(** * Theorems about x/erc20: conversions and the EVM hook

    What the four conversions do to the coins and the tokens, and what the hook
    does with the logs of a transaction. *)

From stdpp Require Import base gmap strings list.
From S2P Require Import Prelude Golang Sdk Ethereum Erc20Types Erc20 Reference ReferenceEvm.

#[local] Open Scope Z_scope.
#[local] Open Scope go_scope.

Section conversions.
Context {W : Type} {ST : SdkTypes} {STL : SdkTypesLaws} {HA : Hashes} {HAL : HashesLaws}.
Context {PS : ParamSubspace} {PSL : ParamSubspaceLaws} {ET : EthTypes} {ETL : EthTypesLaws} {AB : Abi}.
Context {AK : AccountKeeper W} {BK : BankKeeper W} {BL : BankLaws W}.
Context {BM : BankMetadata W} {BML : BankMetadataLaws W} {EK : EvmKeeper W} {EL : EvmLaws W}.
#[local] Abbreviation C := (Chain W Store).

(** ** Vocabulary *)

(** Balances and supplies move by [δ] and [σ], in every denomination but the one
    the EVM itself keeps. *)
Definition bank_moves (w w' : W) (δ : string -> string -> Z) (σ : string -> Z) : Prop :=
  ∀ d, d ≠ EvmDenom ->
    (∀ a, GetBalance w' a d = GetBalance w a d + δ a d) ∧ GetSupply w' d = GetSupply w d + σ d.

(** What the contract answers to [balanceOf] in the world [w]. *)
Definition token_balance_at (w : W) (contract a : string) : option Z :=
  match (BalanceOf erc20_abi contract a (mkChain w (mkStore None ∅ ∅ ∅) [])).1 with
  | Ok b => b
  | _ => None
  end.

(** The pair a token name, an address or a denomination, leads to. *)
Definition pair_by_token (s : Store) (token : string) : option TokenPair :=
  (if IsHexAddress token then st_byErc20 s !! HexToAddress token else st_byDenom s !! token)
    ≫= (fun id => st_pairs s !! id).

(** The store without a pair. *)
Definition remove_pair (tp : TokenPair) (s : Store) : Store :=
  mkStore (st_params s) (delete (GetID tp) (st_pairs s))
    (delete (GetERC20Contract tp) (st_byErc20 s)) (delete (Pair_Denom tp) (st_byDenom s)).

(** ** Lemmas *)

Lemma bank_moves_delta w w' δ σ : bank_delta w w' δ σ -> bank_moves w w' δ σ.
Proof. intros [B S _] d _. split; [intros a; apply B|apply S]. Qed.

Lemma bank_moves_trans w1 w2 w3 δ1 δ2 σ1 σ2 :
  bank_moves w1 w2 δ1 σ1 -> bank_moves w2 w3 δ2 σ2 ->
  bank_moves w1 w3 (fun a d => δ1 a d + δ2 a d) (fun d => σ1 d + σ2 d).
Proof.
  intros M1 M2 d Hd. destruct (M1 d Hd) as [B1 S1]. destruct (M2 d Hd) as [B2 S2].
  split; [intros a|]; rewrite ?B2, ?B1, ?S2, ?S1; lia.
Qed.

Lemma bank_moves_ext w w' δ δ' σ σ' :
  bank_moves w w' δ σ -> (∀ a d, δ a d = δ' a d) -> (∀ d, σ d = σ' d) -> bank_moves w w' δ' σ'.
Proof.
  intros HM Hδ Hσ d Hd. destruct (HM d Hd) as [B S]. rewrite <-Hσ. split; [|done].
  intros a. by rewrite <-Hδ.
Qed.

(** A committed contract call leaves the coins of the bank alone. *)
Lemma CallEVMWithData_commit from contract data res (c c' : C) :
  CallEVMWithData from contract data true c = (Ok res, c') ->
  store c' = store c ∧ events c' = events c ∧ bank_moves (world c) (world c') (fun _ _ => 0) (fun _ => 0).
Proof.
  unfold CallEVMWithData. intros E. cinv. split_and!; [done|done|].
  match goal with H : ApplyMessage _ true _ = _ |- _ => rename H into HA' end.
  intros d Hd. split.
  - intros a. rewrite (ApplyMessage_balance _ _ _ _ a d HA' Hd). lia.
  - rewrite (ApplyMessage_supply _ _ _ _ d HA' Hd). lia.
Qed.

Lemma CallEVM_commit abi from contract method args res (c c' : C) :
  CallEVM abi from contract true method args c = (Ok res, c') ->
  store c' = store c ∧ events c' = events c ∧ bank_moves (world c) (world c') (fun _ _ => 0) (fun _ => 0).
Proof.
  unfold CallEVM. destruct (abi_Pack abi method args); [|done|done]. apply CallEVMWithData_commit.
Qed.

(** A call without commit leaves no trace, whatever its outcome. *)
Lemma CallEVMWithData_view from contract data (c : C) :
  (CallEVMWithData from contract data false c).2 = c.
Proof.
  unfold CallEVMWithData, bind, get_world, gets, lift, ret, ext, zoom, reject, fail.
  destruct (GetSequence (world c) from) as [nonce|e|]; [|done|done].
  destruct (ApplyMessage _ false (world c)) as [r w'] eqn:E.
  apply ApplyMessage_call in E. subst w'. destruct c as [w s ev]. cbn.
  destruct r as [res| |]; [|done|done]. by destruct (res_Failed res).
Qed.

Lemma CallEVM_view abi from contract method args (c : C) :
  (CallEVM abi from contract false method args c).2 = c.
Proof.
  unfold CallEVM. destruct (abi_Pack abi method args); [|done|done]. apply CallEVMWithData_view.
Qed.

(** The outcome of a call without commit depends on the world only. *)
Lemma CallEVM_view_world abi from contract method args (c1 c2 : C) :
  world c1 = world c2 ->
  (CallEVM abi from contract false method args c1).1 = (CallEVM abi from contract false method args c2).1.
Proof.
  intros E. unfold CallEVM. destruct (abi_Pack abi method args) as [data| |]; [|done|done].
  unfold CallEVMWithData, bind, get_world, gets, lift, ret, ext, zoom, reject, fail. rewrite E.
  destruct (GetSequence (world c2) from) as [nonce|e|]; [|done|done]. cbn.
  destruct (ApplyMessage _ false (world c2)) as [[res| |] w']; [|done|done].
  by destruct (res_Failed res).
Qed.

Lemma BalanceOf_world abi contract a (c1 c2 : C) :
  world c1 = world c2 -> (BalanceOf abi contract a c1).1 = (BalanceOf abi contract a c2).1.
Proof.
  intros E. unfold BalanceOf, bind, attempt.
  pose proof (CallEVM_view_world abi ModuleAddress contract "balanceOf" [ArgAddress a] c1 c2 E) as Hv.
  destruct (CallEVM _ _ _ _ _ _ c1) as [r1 c1'], (CallEVM _ _ _ _ _ _ c2) as [r2 c2'].
  cbn in Hv. subst r2. destruct r1 as [res| |]; [|done|done].
  by destruct (abi_Unpack _ _ _) as [[|[] ?]| |].
Qed.

Lemma BalanceOf_Ok contract a b (c c' : C) :
  BalanceOf erc20_abi contract a c = (Ok b, c') ->
  c' = c ∧ token_balance_at (world c) contract a = b.
Proof.
  intros E. split.
  - revert E. unfold BalanceOf, bind, attempt.
    pose proof (CallEVM_view erc20_abi ModuleAddress contract "balanceOf" [ArgAddress a] c) as Hv.
    destruct (CallEVM _ _ _ _ _ _ c) as [r1 c1]. cbn in Hv. subst c1.
    destruct r1 as [res| |]; [|by intros [= _ <-]|done].
    by destruct (abi_Unpack _ _ _) as [[|[] ?]| |]; intros [= _ <-].
  - unfold token_balance_at.
    rewrite (BalanceOf_world erc20_abi contract a (mkChain (world c) _ _) c) by done. by rewrite E.
Qed.

(** Operations that change no call leave the tokens of every contract alone. *)
Lemma token_balance_kept (w w' : W) contract a b :
  evm_kept w w' -> token_balance_at w contract a = Some b -> token_balance_at w' contract a = Some b.
Proof.
  intros [HA' HS]. unfold token_balance_at, BalanceOf, CallEVM, bind, attempt.
  destruct (abi_Pack _ _ _) as [data| |]; [|done|done].
  unfold CallEVMWithData, bind, get_world, gets, lift, ret, ext, zoom, reject, fail. cbn.
  destruct (GetSequence w ModuleAddress) as [nonce|e|] eqn:Es; [|done|done]. rewrite (HS _ _ Es).
  set (msg := mkEthMessage _ _ _ _ _ _ _ _). specialize (HA' msg).
  destruct (ApplyMessage msg false w') as [r' w1'], (ApplyMessage msg false w) as [r w1]. cbn in HA'. subst r'.
  destruct r as [res| |]; [|done|done]. destruct (res_Failed res); [done|].
  cbn. by destruct (abi_Unpack erc20_abi "balanceOf" (res_Ret res)) as [[|[] ?]| |].
Qed.

Lemma evm_kept_trans (w1 w2 w3 : W) : evm_kept w1 w2 -> evm_kept w2 w3 -> evm_kept w1 w3.
Proof. intros [A1 S1] [A2 S2]. split; [intros msg; by rewrite A2, A1|auto]. Qed.

Lemma some_balance_Ok b z (c c' : C) : some_balance b c = (Ok z, c') -> b = Some z ∧ c' = c.
Proof. destruct b; cbn; [|done]. intros [-> ->]%ret_Ok. done. Qed.

Lemma emit_convert_Ok type sender receiver n coin token u (c c' : C) :
  emit_convert type sender receiver n coin token c = (Ok u, c') ->
  world c' = world c ∧ store c' = store c.
Proof. intros ->%emit_Ok. done. Qed.

Lemma MintingEnabled_Ok sender receiver token tp (c c' : C) :
  MintingEnabled sender receiver token c = (Ok tp, c') ->
  c' = c ∧ pair_by_token (store c) token = Some tp ∧ Enabled tp = true ∧ BlockedAddr receiver = false.
Proof.
  unfold MintingEnabled, GetParams, GetTokenPairID, GetTokenPairIdByERC20Addr, GetTokenPairIdByDenom, GetTokenPair.
  intros E. unfold pair_by_token.
  destruct (IsHexAddress token); cinv; destruct (st_params (store c)); cinv;
    match goal with H : String.eqb (default "" ?o) "" = false |- _ => destruct o eqn:Eo; cbn in H; [|done] end;
    cinv; case_match; cinv; breflect; done.
Qed.

Lemma is_contract_Ok addr b (c c' : C) : is_contract addr c = (Ok b, c') ->
  c' = c ∧ b = match GetAccountWithoutBalance (world c) addr with Some true => true | _ => false end.
Proof. unfold is_contract. intros E. by cinv. Qed.

End conversions.

(** Inverting the calls of a conversion. *)
Ltac einv1 :=
  match goal with
  | H : BalanceOf _ _ _ _ = (Ok _, _) |- _ => apply BalanceOf_Ok in H as [? ?]; subst
  | H : some_balance _ _ = (Ok _, _) |- _ => apply some_balance_Ok in H as [? ?]; subst
  | H : CallEVM _ _ _ true _ _ _ = (Ok _, _) |- _ => apply CallEVM_commit in H as (? & ? & ?)
  | H : CallEVMWithData _ _ _ true _ = (Ok _, _) |- _ => apply CallEVMWithData_commit in H as (? & ? & ?)
  | H : emit_convert _ _ _ _ _ _ _ = (Ok _, _) |- _ => apply emit_convert_Ok in H as [? ?]
  | H : MintingEnabled _ _ _ _ = (Ok _, _) |- _ => apply MintingEnabled_Ok in H as (? & ? & ? & ?); subst
  | H : is_contract _ _ = (Ok _, _) |- _ => apply is_contract_Ok in H as [? ?]; subst
  | H : bech32 _ _ = (Ok _, _) |- _ => apply lift_Ok in H as [? ?]; subst
  end.
Ltac einv := repeat ((minv1 || cinv1 || einv1); simpl in * ).

Section conversion_effects.
Context {W : Type} {ST : SdkTypes} {STL : SdkTypesLaws} {HA : Hashes} {HAL : HashesLaws}.
Context {PS : ParamSubspace} {PSL : ParamSubspaceLaws} {ET : EthTypes} {ETL : EthTypesLaws} {AB : Abi}.
Context {AK : AccountKeeper W} {BK : BankKeeper W} {BL : BankLaws W}.
Context {BM : BankMetadata W} {BML : BankMetadataLaws W} {EK : EvmKeeper W} {EL : EvmLaws W}.
#[local] Abbreviation C := (Chain W Store).

Lemma send_moves f t cs w w' : SendCoins f t cs w = (Ok tt, w') ->
  bank_moves w w' (δ_send f t cs) (fun _ => 0).
Proof. intros (HB & _)%SendCoins_effect. by apply bank_moves_delta. Qed.

Lemma mint_moves m a cs w w' : GetModuleAddress m = Some a -> MintCoins m cs w = (Ok tt, w') ->
  bank_moves w w' (δ_mint a cs) (amount_of cs).
Proof. intros ? (b & ? & _ & HB)%MintCoins_effect. simplify_eq. by apply bank_moves_delta. Qed.

Lemma burn_moves m a cs w w' : GetModuleAddress m = Some a -> BurnCoins m cs w = (Ok tt, w') ->
  bank_moves w w' (δ_burn a cs) (fun d => - amount_of cs d).
Proof. intros ? (b & ? & _ & HB & _)%BurnCoins_effect. simplify_eq. by apply bank_moves_delta. Qed.

(** Turning the bank calls of a run into moves, and composing those. *)
Ltac moves_inv :=
  bank_inv;
  repeat match goal with
  | H : SendCoins _ _ _ _ = (Ok tt, _) |- _ => apply send_moves in H
  | Hm : GetModuleAddress ?m = Some _, H : MintCoins ?m _ _ = (Ok tt, _) |- _ => apply (mint_moves _ _ _ _ _ Hm) in H
  | Hm : GetModuleAddress ?m = Some _, H : BurnCoins ?m _ _ = (Ok tt, _) |- _ => apply (burn_moves _ _ _ _ _ Hm) in H
  end.
Ltac moves_chain :=
  eapply bank_moves_ext;
  [repeat (first [eassumption | eapply bank_moves_trans; [eassumption|]])
  |intros; unfold δ_send, δ_mint, δ_burn; cbn -[gain]; lia..].

Lemma convertCoinNativeCoin_Ok tp msg receiver sender (c c' : C) :
  convertCoinNativeCoin tp msg receiver sender c = (Ok tt, c') ->
  ∃ m b, GetModuleAddress ModuleName = Some m ∧ store c' = store c ∧
    token_balance_at (world c) (GetERC20Contract tp) receiver = Some b ∧
    token_balance_at (world c') (GetERC20Contract tp) receiver = Some (b + Amount (CC_Coin msg)) ∧
    bank_moves (world c) (world c') (δ_send sender m [CC_Coin msg]) (fun _ => 0).
Proof.
  unfold convertCoinNativeCoin. intros E. einv. moves_inv. breflect. subst.
  do 2 eexists. split_and!; try done; try congruence.
  replace (world c') with (world s2). moves_chain.
Qed.

(** The comparison of the receiver's coins before and after. *)
Lemma coin_check d x y n coin : 
  bool_decide (mkCoin d y = coin) = true -> Coin_Add (mkCoin d x) (mkCoin d n) = Ok coin -> y = x + n.
Proof. intros <-%bool_decide_eq_true [_ E]%Coin_Add_effect. by simplify_eq/=. Qed.

Lemma convertERC20NativeCoin_Ok tp msg receiver sender (c c' : C) :
  convertERC20NativeCoin tp msg receiver sender c = (Ok tt, c') ->
  ∃ m b, GetModuleAddress ModuleName = Some m ∧ store c' = store c ∧
    token_balance_at (world c) (GetERC20Contract tp) sender = Some b ∧
    token_balance_at (world c') (GetERC20Contract tp) sender = Some (b - CE_Amount msg) ∧
    GetBalance (world c') receiver (Pair_Denom tp)
      = GetBalance (world c) receiver (Pair_Denom tp) + CE_Amount msg ∧
    bank_moves (world c) (world c') (δ_send m receiver [mkCoin (Pair_Denom tp) (CE_Amount msg)]) (fun _ => 0).
Proof.
  unfold convertERC20NativeCoin. intros E. einv. moves_inv. breflect. subst.
  match goal with H : bool_decide _ = true |- _ => eapply coin_check in H; [|done] end.
  exists x, v1. split_and!; try done; try congruence; moves_chain.
Qed.

Lemma convertERC20NativeToken_Ok tp msg receiver sender (c c' : C) :
  convertERC20NativeToken tp msg receiver sender c = (Ok tt, c') ->
  ∃ b w1, store c' = store c ∧
    token_balance_at (world c) (GetERC20Contract tp) ModuleAddress = Some b ∧
    token_balance_at w1 (GetERC20Contract tp) ModuleAddress = Some (b + CE_Amount msg) ∧
    bank_moves (world c) w1 (fun _ _ => 0) (fun _ => 0) ∧
    (Pair_Denom tp ≠ EvmDenom -> evm_kept w1 (world c')) ∧
    GetBalance (world c') receiver (Pair_Denom tp)
      = GetBalance (world c) receiver (Pair_Denom tp) + CE_Amount msg ∧
    bank_moves (world c) (world c') (gain [mkCoin (Pair_Denom tp) (CE_Amount msg)] receiver)
      (amount_of [mkCoin (Pair_Denom tp) (CE_Amount msg)]).
Proof.
  unfold convertERC20NativeToken. intros E. einv.
  assert (Pair_Denom tp ≠ EvmDenom -> evm_kept (world s3) (world c')) as Hk.
  { intros Hd. bank_inv.
    eapply evm_kept_trans; [eapply MintCoins_evm|eapply SendCoins_evm]; try done; by repeat constructor. }
  moves_inv. breflect. subst.
  match goal with H : bool_decide _ = true |- _ => eapply coin_check in H; [|done] end.
  exists v1, (world s3). split_and!; try done; try congruence; moves_chain.
Qed.

Lemma convertCoinNativeERC20_Ok tp msg receiver sender (c c' : C) :
  convertCoinNativeERC20 tp msg receiver sender c = (Ok tt, c') ->
  ∃ m b w1, GetModuleAddress ModuleName = Some m ∧ store c' = store c ∧
    token_balance_at (world c) (GetERC20Contract tp) receiver = Some b ∧
    token_balance_at w1 (GetERC20Contract tp) receiver = Some (b + Amount (CC_Coin msg)) ∧
    bank_moves (world c) w1 (δ_send sender m [CC_Coin msg]) (fun _ => 0) ∧
    BurnCoins ModuleName [CC_Coin msg] w1 = (Ok tt, world c') ∧
    bank_moves (world c) (world c') (fun a d => - gain [CC_Coin msg] sender a d)
      (fun d => - amount_of [CC_Coin msg] d).
Proof.
  unfold convertCoinNativeERC20. intros E. einv.
  assert (∃ u, BurnCoins ModuleName [CC_Coin msg] (world s2) = (Ok u, world c')) as [[] Hburn].
  { eexists. etrans; [eassumption|]. f_equal. congruence. }
  revert Hburn. moves_inv. breflect. subst. intros Hburn.
  exists x, v0, (world s2). split_and!; try done; try congruence; moves_chain.
Qed.

Lemma DeleteTokenPair_Ok tp u (c c' : C) : DeleteTokenPair tp c = (Ok u, c') ->
  c' = set_store (remove_pair tp (store c)) c.
Proof.
  unfold DeleteTokenPair, deleteTokenPair, deleteTokenPairIdByERC20Addr, deleteTokenPairIdByDenom,
    set_pairs, set_byErc20, set_byDenom. intros E. by cinv.
Qed.

(** [acc == nil || !acc.IsContract()] for the contract of a pair. *)
Definition has_code (w : W) (tp : TokenPair) : bool :=
  match GetAccountWithoutBalance w (GetERC20Contract tp) with Some true => true | _ => false end.

(** What a successful conversion of coins into tokens does, by the kind of pair:
    the sender's coins are escrowed with the module, or leave circulation, and
    the receiver has exactly that many more tokens.  Burning the coins is the last
    step; it leaves the tokens alone unless they are of the denomination of the
    EVM. *)
Definition coin_converted (tp : TokenPair) (msg : MsgConvertCoin) (sender : string) (c c' : C) : Prop :=
  let coin := CC_Coin msg in
  let receiver := HexToAddress (CC_Receiver msg) in
  let contract := GetERC20Contract tp in
  store c' = store c ∧
  ∃ m b w1, GetModuleAddress ModuleName = Some m ∧
    token_balance_at (world c) contract receiver = Some b ∧
    token_balance_at w1 contract receiver = Some (b + Amount coin) ∧
    bank_moves (world c) w1 (δ_send sender m [coin]) (fun _ => 0) ∧
    match ContractOwner tp with
    | OWNER_MODULE => world c' = w1
    | OWNER_EXTERNAL =>
        BurnCoins ModuleName [coin] w1 = (Ok tt, world c') ∧
        (Denom coin ≠ EvmDenom -> token_balance_at (world c') contract receiver = Some (b + Amount coin)) ∧
        bank_moves (world c) (world c') (fun a d => - gain [coin] sender a d) (fun d => - amount_of [coin] d)
    | OWNER_UNSPECIFIED => False
    end.

Lemma convert_coin_run msg (c c' : C) :
  ConvertCoin msg c = (Ok tt, c') ->
  ∃ tp sender, AccAddressFromBech32 (CC_Sender msg) = Ok sender ∧
    pair_by_token (store c) (Denom (CC_Coin msg)) = Some tp ∧ Enabled tp = true ∧
    0 < Amount (CC_Coin msg) ∧ BlockedAddr (HexToAddress (CC_Receiver msg)) = false ∧
    if has_code (world c) tp then coin_converted tp msg sender c c'
    else c' = set_store (remove_pair tp (store c)) c.
Proof.
  unfold ConvertCoin. intros E. apply bind_Ok in E as (u & s0 & Ev & E).
  assert (s0 = c) as -> by (destruct (ValidateErc20Denom _); by einv).
  einv. breflect. eexists _, _. split_and!; try done. unfold has_code, GetERC20Contract.
  destruct (GetAccountWithoutBalance _ _) as [[]|]; cbn [negb] in E;
    [|by apply DeleteTokenPair_Ok in E..].
  unfold IsNativeCoin, IsNativeERC20 in E. unfold coin_converted.
  destruct (ContractOwner _) eqn:Eo; cbn in E; [done| |].
  - apply convertCoinNativeCoin_Ok in E as (m & b & ? & ? & ? & ? & ?). split; [done|].
    exists m, b, (world c'). done.
  - apply convertCoinNativeERC20_Ok in E as (m & b & w1 & ? & ? & ? & ? & ? & Hburn & ?). split; [done|].
    exists m, b, w1. split_and!; try done. intros Hd. eapply token_balance_kept; [|done].
    eapply BurnCoins_evm; [done|by repeat constructor].
Qed.

(** C3: a conversion of coins that succeeds is of a registered and enabled pair,
    of a positive amount, to an address that may receive coins.  If the pair's
    contract no longer has code, the pair is removed and nothing is moved.
    Otherwise, in the state it ends in, the receiver's token balance is exactly
    the amount higher, and the coins of the sender are held by the module (coins
    native to the chain) or burnt (coins standing for an external token); no other
    balance of any denomination but the EVM's own changes.  If the coins burnt are
    themselves of the EVM's denomination, the token balance is that of the state
    just before the burning. *)
Theorem convert_coin_effect msg (c c' : C) :
  ConvertCoin msg c = (Ok tt, c') ->
  ∃ tp sender, AccAddressFromBech32 (CC_Sender msg) = Ok sender ∧
    pair_by_token (store c) (Denom (CC_Coin msg)) = Some tp ∧ Enabled tp = true ∧
    0 < Amount (CC_Coin msg) ∧ BlockedAddr (HexToAddress (CC_Receiver msg)) = false ∧
    if has_code (world c) tp then coin_converted tp msg sender c c'
    else c' = set_store (remove_pair tp (store c)) c.
Proof. apply convert_coin_run. Qed.

(** What a successful conversion of tokens into coins does. *)
Definition erc20_converted (tp : TokenPair) (msg : MsgConvertERC20) (receiver : string) (c c' : C) : Prop :=
  let coin := mkCoin (Pair_Denom tp) (CE_Amount msg) in
  let sender := HexToAddress (CE_Sender msg) in
  let contract := GetERC20Contract tp in
  store c' = store c ∧
  GetBalance (world c') receiver (Pair_Denom tp) = GetBalance (world c) receiver (Pair_Denom tp) + CE_Amount msg ∧
  match ContractOwner tp with
  | OWNER_MODULE => ∃ m b, GetModuleAddress ModuleName = Some m ∧
      token_balance_at (world c) contract sender = Some b ∧
      token_balance_at (world c') contract sender = Some (b - CE_Amount msg) ∧
      bank_moves (world c) (world c') (δ_send m receiver [coin]) (fun _ => 0)
  | OWNER_EXTERNAL => ∃ b,
      token_balance_at (world c) contract ModuleAddress = Some b ∧
      (Pair_Denom tp ≠ EvmDenom -> token_balance_at (world c') contract ModuleAddress = Some (b + CE_Amount msg)) ∧
      bank_moves (world c) (world c') (gain [coin] receiver) (amount_of [coin])
  | OWNER_UNSPECIFIED => False
  end.

Lemma convert_erc20_run msg (c c' : C) :
  ConvertERC20 msg c = (Ok tt, c') ->
  ∃ tp receiver, AccAddressFromBech32 (CE_Receiver msg) = Ok receiver ∧
    pair_by_token (store c) (CE_ContractAddress msg) = Some tp ∧ Enabled tp = true ∧
    0 < CE_Amount msg ∧ BlockedAddr receiver = false ∧
    if has_code (world c) tp then erc20_converted tp msg receiver c c'
    else c' = set_store (remove_pair tp (store c)) c.
Proof.
  unfold ConvertERC20. intros E. einv. breflect. eexists _, _. split_and!; try done.
  unfold has_code, GetERC20Contract.
  destruct (GetAccountWithoutBalance _ _) as [[]|]; cbn [negb] in E;
    [|by apply DeleteTokenPair_Ok in E..].
  unfold IsNativeCoin, IsNativeERC20 in E. unfold erc20_converted.
  destruct (ContractOwner _) eqn:Eo; cbn in E; [done| |].
  - apply convertERC20NativeCoin_Ok in E as (m & b & ? & ? & ? & ? & ? & ?). split_and!; [done|done|].
    exists m, b. done.
  - apply convertERC20NativeToken_Ok in E as (b & w1 & ? & ? & ? & ? & Hk & ? & ?). split_and!; [done|done|].
    exists b. split_and!; [done| |done]. intros Hd. by eapply token_balance_kept; [apply Hk|].
Qed.

(** C4: a conversion of tokens that succeeds is of a registered and enabled pair
    and of a positive amount.  If the contract has no code the pair is removed
    and nothing is moved.  Otherwise the receiver has exactly the amount more
    coins, and in the same final state either the sender has exactly the amount
    fewer tokens and the coins came out of the module's escrow (chain-native
    coins), or the module's own token balance is exactly the amount higher and the
    coins are newly minted (external tokens, whose coins are not of the EVM's
    denomination); no other balance of any denomination but the EVM's changes. *)
Theorem convert_erc20_effect msg (c c' : C) :
  ConvertERC20 msg c = (Ok tt, c') ->
  ∃ tp receiver, AccAddressFromBech32 (CE_Receiver msg) = Ok receiver ∧
    pair_by_token (store c) (CE_ContractAddress msg) = Some tp ∧ Enabled tp = true ∧
    0 < CE_Amount msg ∧ BlockedAddr receiver = false ∧
    if has_code (world c) tp then erc20_converted tp msg receiver c c'
    else c' = set_store (remove_pair tp (store c)) c.
Proof. apply convert_erc20_run. Qed.

(** ** The hook *)

(** A log that calls for a conversion: the event Transfer of a registered and
    enabled token, from the address in its second topic to the module's, in its
    third, of a positive amount, the first value of its data. *)
Record converted_transfer (s : Store) (log : EthLog) (tp : TokenPair) (from : string) (tokens : Z) : Prop := {
  transfer_event : ∃ eventID fromTopic toTopic rest, log_Topics log = [eventID; fromTopic; toTopic] ∧
    abi_EventByID erc20_abi eventID = Ok "Transfer" ∧ from = BytesToAddress fromTopic ∧
    BytesToAddress toTopic = ModuleAddress ∧
    abi_Unpack erc20_abi "Transfer" (log_Data log) = Ok (ArgBig tokens :: rest);
  transfer_positive : 0 < tokens;
  transfer_pair : ∃ id, id ≠ "" ∧ st_byErc20 s !! log_Address log = Some id ∧ st_pairs s !! id = Some tp;
  transfer_enabled : Enabled tp = true
}.

(** The decoders of logs return errors, they do not panic. *)
Definition abi_total : Prop :=
  (∀ eventID, abi_EventByID erc20_abi eventID ≠ Panic) ∧ ∀ name data, abi_Unpack erc20_abi name data ≠ Panic.

(** The same as a function of the log, for the proofs. *)
Definition hook_target (s : Store) (log : EthLog) : option (TokenPair * string * Z) :=
  match decode_transfer log with
  | Ok (Some (from, to, tokens)) =>
      match st_byErc20 s !! log_Address log ≫= (fun id => if String.eqb id "" then None else st_pairs s !! id) with
      | Some tp =>
          if String.eqb (BytesToAddress to) ModuleAddress && Enabled tp
          then Some (tp, BytesToAddress from, tokens) else None
      | None => None
      end
  | _ => None
  end.

Lemma decode_transfer_Some log from to tokens : decode_transfer log = Ok (Some (from, to, tokens)) <->
  (∃ eventID rest, log_Topics log = [eventID; from; to] ∧ abi_EventByID erc20_abi eventID = Ok "Transfer" ∧
     abi_Unpack erc20_abi "Transfer" (log_Data log) = Ok (ArgBig tokens :: rest)) ∧ 0 < tokens.
Proof.
  unfold decode_transfer, ERC20EventTransfer. split.
  - intros E. repeat (case_match; try discriminate). simplify_eq. breflect. subst. split; [eauto 6|done].
  - intros [(id & rest & -> & -> & E) Hp]. cbn. rewrite E. by rewrite (proj2 (Z.ltb_lt _ _) Hp).
Qed.

Lemma hook_target_spec s log tp from tokens :
  hook_target s log = Some (tp, from, tokens) <-> converted_transfer s log tp from tokens.
Proof.
  unfold hook_target. split.
  - destruct (decode_transfer log) as [[[[f t] n]|]| |] eqn:Ed; try done.
    apply decode_transfer_Some in Ed as [(eid & rest & ? & ? & ?) Hp].
    destruct (st_byErc20 s !! _) as [id|] eqn:Ei; [|done]. cbn. destruct (String.eqb_spec id "") as [|Hid]; [done|].
    destruct (st_pairs s !! id) as [tp'|] eqn:Etp; [|done].
    destruct (String.eqb_spec (BytesToAddress t) ModuleAddress); [|done]. cbn.
    destruct (Enabled tp') eqn:Een; [|done]. intros [= -> <- ->]. split; eauto 10.
  - intros [(eid & f & t & rest & ? & ? & -> & Ht & ?) Hp (id & Hid & Ei & Etp) Hen].
    rewrite (proj2 (decode_transfer_Some log f t tokens)) by (split; [eauto 6|done]).
    rewrite Ei. cbn. rewrite (proj2 (String.eqb_neq _ _) Hid), Etp, Ht, String.eqb_refl, Hen. done.
Qed.

Lemma hook_target_None s log :
  hook_target s log = None <-> ¬ ∃ tp from tokens, converted_transfer s log tp from tokens.
Proof.
  split.
  - intros E (tp & from & tokens & H%hook_target_spec). congruence.
  - intros H. destruct (hook_target s log) as [[[tp from] tokens]|] eqn:E; [|done].
    destruct H. exists tp, from, tokens. by apply hook_target_spec.
Qed.

Lemma decode_transfer_total log : abi_total -> decode_transfer log ≠ Panic.
Proof.
  intros [H1 H2]. unfold decode_transfer. repeat (case_match; try discriminate); intros _;
    [by eapply H2|by eapply H1].
Qed.

(** What [process_log] does for a target. *)
Definition hook_credit (log : EthLog) (tp : TokenPair) (recipient : string) (tokens : Z) : M C unit :=
  let coins := [mkCoin (Pair_Denom tp) tokens] in
  let* converted := attempt
    match ContractOwner tp with
    | OWNER_MODULE =>
        do! CallEVM erc20_abi ModuleAddress (log_Address log) true "burn" [ArgBig tokens]; ret tt
    | OWNER_EXTERNAL => ext (MintCoins ModuleName coins)
    | OWNER_UNSPECIFIED => fail ErrUndefinedOwner
    end in
  match converted with
  | inr _ => ret tt
  | inl _ => do! attempt (ext (SendCoinsFromModuleToAccount ModuleName recipient coins)); ret tt
  end.

Lemma process_log_spec log (c : C) : decode_transfer log ≠ Panic ->
  process_log log c =
  match hook_target (store c) log with
  | Some (tp, recipient, tokens) => hook_credit log tp recipient tokens c
  | None => (Ok tt, c)
  end.
Proof.
  intros Hd. unfold process_log, hook_target, hook_credit, GetTokenPairIdByERC20Addr, GetTokenPair.
  unfold bind at 1, lift. destruct (decode_transfer log) as [[[[from to] tokens]|]|e|] eqn:Ed; try done.
  - unfold bind at 1, get_store, gets.
    destruct (st_byErc20 (store c) !! log_Address log) as [id|]; cbn [default]; [|done].
    cbn. destruct (String.eqb id ""); [done|]. unfold bind at 1.
    destruct (st_pairs (store c) !! id) as [tp|]; [|done].
    destruct (String.eqb (BytesToAddress to) ModuleAddress); [|done]. by destruct (Enabled tp).
  - (* decoding returns no error *) revert Ed. unfold decode_transfer. clear.
    repeat (case_match; try discriminate).
Qed.

Lemma attempt_not_Err {S A} (m : M S A) (s : S) e : (attempt m s).1 ≠ Err e.
Proof. unfold attempt. by destruct (m s) as [[]]. Qed.

Lemma bind_not_Err {S A B} (m : M S A) (k : A -> M S B) (s : S) e :
  (m s).1 ≠ Err e -> (∀ a s1, (k a s1).1 ≠ Err e) -> (bind m k s).1 ≠ Err e.
Proof. unfold bind. destruct (m s) as [[a|e'|] s1]; cbn; intros H1 H2; [apply H2| |done]. congruence. Qed.

Lemma decode_transfer_not_Err log e : decode_transfer log ≠ Err e.
Proof. unfold decode_transfer. repeat (case_match; try discriminate). Qed.

Lemma process_log_not_Err log (c : C) e : (process_log log c).1 ≠ Err e.
Proof.
  destruct (decide (decode_transfer log = Panic)) as [Hp|Hp].
  - unfold process_log, bind, lift. by rewrite Hp.
  - rewrite process_log_spec by done. repeat case_match; try done.
    apply bind_not_Err; [apply attempt_not_Err|]. intros [] s1; [|done].
    apply bind_not_Err; [apply attempt_not_Err|done].
Qed.

(** The hook of a transaction never returns an error, so a conversion that
    does not go through cannot make the transaction itself fail; it can only
    succeed or panic (unset parameters, or a library that panics). *)
Lemma erc20_hook_not_Err logs (c : C) e : (PostTxProcessing logs c).1 ≠ Err e.
Proof.
  unfold PostTxProcessing, GetParams. apply bind_not_Err.
  - unfold bind, get_store, gets. by destruct (st_params (store c)).
  - intros params s1. case_match; [done|]. revert s1.
    induction logs as [|log logs IH]; intros s1; [done|]. cbn.
    apply bind_not_Err; [apply process_log_not_Err|]. intros _ s2. apply IH.
Qed.

(** Logs that are not a transfer of a registered, enabled token to the
    module's address change nothing at all. *)
Theorem hook_ignores_other_logs logs params (c : C) :
  abi_total -> st_params (store c) = Some params ->
  Forall (fun log => ¬ ∃ tp from tokens, converted_transfer (store c) log tp from tokens) logs ->
  PostTxProcessing logs c = (Ok tt, c).
Proof.
  intros Ht Hp Hf. unfold PostTxProcessing, GetParams, bind at 1 2, get_store, gets. rewrite Hp. cbn.
  case_match; [done|]. induction Hf as [|log logs Hn _ IH]; [done|].
  cbn. unfold bind at 1. rewrite process_log_spec by by apply decode_transfer_total.
  apply hook_target_None in Hn. rewrite Hn. exact IH.
Qed.

Lemma hook_single log tp recipient tokens (c : C) :
  st_params (store c) = Some (mkParams true true) ->
  hook_target (store c) log = Some (tp, recipient, tokens) ->
  PostTxProcessing [log] c = hook_credit log tp recipient tokens c.
Proof.
  intros Hp Ht. unfold PostTxProcessing, GetParams, bind at 1 2, get_store, gets. rewrite Hp. cbn.
  assert (decode_transfer log ≠ Panic) as Hd by (intros E; unfold hook_target in Ht; by rewrite E in Ht).
  unfold bind. rewrite process_log_spec, Ht by done.
  pose proof (process_log_not_Err log c) as Hne. rewrite process_log_spec, Ht in Hne by done.
  destruct (hook_credit _ _ _ _ c) as [[[]|e|] c1]; [done| |done]. by destruct (Hne e).
Qed.

(** What the first step of a conversion does: the tokens of the module are burnt,
    or coins are minted for it. *)
Definition redeemed (log : EthLog) (tp : TokenPair) (tokens : Z) (w w1 : W) (r : outcome unit) : Prop :=
  match ContractOwner tp with
  | OWNER_MODULE => ∃ (c c1 : C) res, world c = w ∧ world c1 = w1 ∧ r = (let? _ := res in Ok tt) ∧
      CallEVM erc20_abi ModuleAddress (log_Address log) true "burn" [ArgBig tokens] c = (res, c1)
  | OWNER_EXTERNAL => MintCoins ModuleName [mkCoin (Pair_Denom tp) tokens] w = (r, w1)
  | OWNER_UNSPECIFIED => r = Err ErrUndefinedOwner ∧ w1 = w
  end.

(** What the logs of a receipt do, one after the other.  A log that calls for no
    conversion does nothing.  Otherwise the sender is paid in full, out of the
    escrow or with new coins; or the first step returned an error and is where it
    ends; or the payment returned an error after it. *)
Inductive hook_run (s : Store) : list EthLog -> W -> W -> Prop :=
| run_end w : hook_run s [] w w
| run_other log logs w w' :
    (¬ ∃ tp from tokens, converted_transfer s log tp from tokens) ->
    hook_run s logs w w' -> hook_run s (log :: logs) w w'
| run_credited log logs tp from tokens m w w0 w1 w' :
    converted_transfer s log tp from tokens -> GetModuleAddress ModuleName = Some m ->
    redeemed log tp tokens w w0 (Ok tt) ->
    (let coins := [mkCoin (Pair_Denom tp) tokens] in
     match ContractOwner tp with
     | OWNER_MODULE => bank_moves w w1 (δ_send m from coins) (fun _ => 0)
     | _ => bank_moves w w1 (gain coins from) (amount_of coins)
     end) ->
    hook_run s logs w1 w' -> hook_run s (log :: logs) w w'
| run_not_redeemed log logs tp from tokens e w w1 w' :
    converted_transfer s log tp from tokens -> redeemed log tp tokens w w1 (Err e) ->
    hook_run s logs w1 w' -> hook_run s (log :: logs) w w'
| run_not_paid log logs tp from tokens e w w0 w1 w' :
    converted_transfer s log tp from tokens -> redeemed log tp tokens w w0 (Ok tt) ->
    SendCoinsFromModuleToAccount ModuleName from [mkCoin (Pair_Denom tp) tokens] w0 = (Err e, w1) ->
    hook_run s logs w1 w' -> hook_run s (log :: logs) w w'.

Lemma keeps_CallEVMWithData from contract data b :
  keeps_store (W:=W) (K:=Store) (CallEVMWithData from contract data b).
Proof. unfold CallEVMWithData. keeps. Qed.

Lemma keeps_process_log log : keeps_store (W:=W) (process_log log).
Proof.
  pose proof keeps_CallEVMWithData as Hcall.
  unfold process_log, GetTokenPairIdByERC20Addr, GetTokenPair, CallEVM. keeps.
Qed.

(** The payment that follows the first step, as moves of the bank. *)
Lemma credited_moves log tp from tokens w w0 w1 :
  let coins := [mkCoin (Pair_Denom tp) tokens] in
  redeemed log tp tokens w w0 (Ok tt) -> SendCoinsFromModuleToAccount ModuleName from coins w0 = (Ok tt, w1) ->
  ∃ m, GetModuleAddress ModuleName = Some m ∧
  match ContractOwner tp with
  | OWNER_MODULE => bank_moves w w1 (δ_send m from coins) (fun _ => 0)
  | _ => bank_moves w w1 (gain coins from) (amount_of coins)
  end.
Proof.
  intros coins Hr Hs. unfold redeemed in Hr. apply ModuleToAccount_effect in Hs as (m & Hm & _ & Hs%send_moves).
  exists m. split; [done|]. destruct (ContractOwner tp).
  - by destruct Hr.
  - destruct Hr as (c & c1 & [res| |] & <- & <- & Hr & Hc); try done.
    apply CallEVM_commit in Hc as (_ & _ & HM). subst coins. moves_chain.
  - apply (mint_moves _ _ _ _ _ Hm) in Hr. subst coins. moves_chain.
Qed.

Lemma redeem_run log tp tokens first (c c0 : C) :
  attempt match ContractOwner tp with
    | OWNER_MODULE =>
        do! CallEVM erc20_abi ModuleAddress (log_Address log) true "burn" [ArgBig tokens]; ret tt
    | OWNER_EXTERNAL => ext (MintCoins ModuleName [mkCoin (Pair_Denom tp) tokens])
    | OWNER_UNSPECIFIED => fail ErrUndefinedOwner
    end c = (Ok first, c0) ->
  redeemed log tp tokens (world c) (world c0) (match first with inl _ => Ok tt | inr e => Err e end).
Proof.
  unfold attempt, redeemed. destruct (ContractOwner tp).
  - unfold fail. intros E. by simplify_eq.
  - unfold bind. destruct (CallEVM _ _ _ _ _ _ c) as [[res|e|] c2] eqn:Ec; [| |done]; intros E; simplify_eq/=.
    + by exists c, c0, (Ok res).
    + by exists c, c0, (Err e).
  - unfold ext, zoom. destruct (MintCoins _ _ (world c)) as [[[]|e|] w1] eqn:Em; intros E; by simplify_eq/=.
Qed.

Lemma hook_credit_run s log logs tp from tokens (c c1 : C) w' :
  converted_transfer s log tp from tokens -> hook_credit log tp from tokens c = (Ok tt, c1) ->
  hook_run s logs (world c1) w' -> hook_run s (log :: logs) (world c) w'.
Proof.
  intros Ht E Hr. unfold hook_credit in E. apply bind_Ok in E as (first & c0 & E0%redeem_run & E).
  destruct first as [[]|e].
  - unfold bind, attempt, ext, zoom in E.
    destruct (SendCoinsFromModuleToAccount _ _ _ (world c0)) as [[[]|e|] w1] eqn:Es; [| |done];
      apply ret_Ok in E as [_ <-].
    + destruct (credited_moves _ _ _ _ _ _ _ E0 Es) as (m & Hm & HB). 
      exact (run_credited s log logs tp from tokens m _ _ _ _ Ht Hm E0 HB Hr).
    + exact (run_not_paid s log logs tp from tokens _ _ _ _ _ Ht E0 Es Hr).
  - apply ret_Ok in E as [_ ->]. exact (run_not_redeemed s log logs tp from tokens _ _ _ _ Ht E0 Hr).
Qed.

Lemma logs_run s logs (c c' : C) :
  abi_total -> store c = s -> for_each logs process_log c = (Ok tt, c') -> hook_run s logs (world c) (world c').
Proof.
  intros Ht. revert c. induction logs as [|log logs IH]; intros c Hc E; cbn in E.
  { apply ret_Ok in E as [_ ->]. constructor. }
  apply bind_Ok in E as ([] & c1 & E1 & E).
  assert (store c1 = s) as Hc1 by (rewrite <-Hc; eapply keeps_store_run; [apply keeps_process_log|exact E1]).
  specialize (IH c1 Hc1 E). rewrite process_log_spec in E1 by by apply decode_transfer_total.
  rewrite Hc in E1. destruct (hook_target s log) as [[[tp from] tokens]|] eqn:Et.
  - apply hook_target_spec in Et. by eapply hook_credit_run.
  - injection E1 as <-. apply run_other; [by apply hook_target_None|done].
Qed.

(** A conversion that panics: a call of the bank or the EVM did. *)
Definition conversion_panics (log : EthLog) (tp : TokenPair) (from : string) (tokens : Z) : Prop :=
  ∃ w w1, redeemed log tp tokens w w1 Panic ∨
    SendCoinsFromModuleToAccount ModuleName from [mkCoin (Pair_Denom tp) tokens] w = (Panic, w1).

Lemma hook_credit_panic log tp from tokens (c : C) :
  (hook_credit log tp from tokens c).1 = Panic -> conversion_panics log tp from tokens.
Proof.
  unfold hook_credit, bind at 1, attempt at 1, conversion_panics, redeemed. destruct (ContractOwner tp); [done|..].
  - unfold bind at 1. destruct (CallEVM _ _ _ _ _ _ c) as [[res|e|] c1] eqn:Ec; cbn; [|done|].
    + unfold bind, attempt, ext, zoom. destruct (SendCoinsFromModuleToAccount _ _ _ (world c1)) as [[[]|e|] w1] eqn:Es; [done..|].
      intros _. exists (world c1), w1. by right.
    + intros _. exists (world c), (world c1). left. by exists c, c1, Panic.
  - unfold ext at 1, zoom at 1. destruct (MintCoins _ _ (world c)) as [[[]|e|] w1] eqn:Em; cbn; [|done|].
    + unfold bind, attempt, ext, zoom. destruct (SendCoinsFromModuleToAccount _ _ _ _) as [[[]|e|] w2] eqn:Es; [done..|].
      intros _. eexists _, w2. right. exact Es.
    + intros _. exists (world c), w1. by left.
Qed.

Lemma logs_panic s logs (c : C) :
  abi_total -> store c = s -> (for_each logs process_log c).1 = Panic ->
  ∃ log tp from tokens, log ∈ logs ∧ converted_transfer s log tp from tokens ∧ conversion_panics log tp from tokens.
Proof.
  intros Ht. revert c. induction logs as [|log logs IH]; intros c Hc E; cbn in E; [done|].
  unfold bind in E. destruct (process_log log c) as [[[]|e|] c1] eqn:E1; [|done|].
  - assert (store c1 = s) as Hc1 by (rewrite <-Hc; eapply keeps_store_run; [apply keeps_process_log|exact E1]).
    destruct (IH c1 Hc1 E) as (l & tp & from & tokens & Hl & H). exists l, tp, from, tokens. split; [by right|done].
  - rewrite process_log_spec in E1 by by apply decode_transfer_total. rewrite Hc in E1.
    destruct (hook_target s log) as [[[tp from] tokens]|] eqn:Et; [|done].
    exists log, tp, from, tokens. split_and!; [left|by apply hook_target_spec|].
    eapply (hook_credit_panic _ _ _ _ c). by rewrite E1.
Qed.


(** Tokens an address the bank blocks sends to the module are converted into
    coins that stay with the module: the coins are minted, the payment is
    refused, and the hook neither undoes the minting nor reports the refusal, so
    the sender has lost the tokens and received nothing. *)
Theorem hook_strands_blocked_sender log tp recipient tokens w1 (c : C) :
  st_params (store c) = Some (mkParams true true) ->
  converted_transfer (store c) log tp recipient tokens ->
  ContractOwner tp = OWNER_EXTERNAL -> BlockedAddr recipient = true ->
  MintCoins ModuleName [mkCoin (Pair_Denom tp) tokens] (world c) = (Ok tt, w1) ->
  ∃ m, GetModuleAddress ModuleName = Some m ∧
    PostTxProcessing [log] c = (Ok tt, set_world w1 c) ∧
    bank_delta (world c) w1 (gain [mkCoin (Pair_Denom tp) tokens] m)
      (amount_of [mkCoin (Pair_Denom tp) tokens]).
Proof.
  intros Hp Ht%hook_target_spec Ho Hb Hm. rewrite (hook_single _ _ _ _ _ Hp Ht). unfold hook_credit, bind, attempt.
  rewrite Ho. unfold ext, zoom at 1. rewrite Hm. cbn. unfold zoom. cbn.
  apply MintCoins_effect in Hm as (m & Hm & _ & HB).
  rewrite (ModuleToAccount_blocked _ m) by done. exists m. done.
Qed.

End conversion_effects.

(** ** Witnesses *)

Definition ex_alice : string := pad20 "alice".
Definition ex_native : string := pad20 "native".
Definition ex_external : string := pad20 "external".
Definition ex_native_pair : TokenPair := NewTokenPair ex_native "ibc/ABC" true OWNER_MODULE.
Definition ex_external_pair : TokenPair :=
  NewTokenPair ex_external (CreateDenom (Address_String ex_external)) true OWNER_EXTERNAL.

Definition ex_erc20_store : Store :=
  mkStore (Some (mkParams true true))
    {[GetID ex_native_pair := ex_native_pair; GetID ex_external_pair := ex_external_pair]}
    {[ex_native := GetID ex_native_pair; ex_external := GetID ex_external_pair]}
    {["ibc/ABC" := GetID ex_native_pair; Pair_Denom ex_external_pair := GetID ex_external_pair]}.

Definition ex_erc20_world : EvmWorld :=
  (mkRefWorld {[(ex_alice, "ibc/ABC") := 1000%N]} {["ibc/ABC" := 1000%N]} {[ex_alice := false]},
   mkEvmState ∅ {[ex_native := mkRefToken "abc" "ABC" 6; ex_external := mkRefToken "ext" "EXT" 18]}
     {[(ex_external, ex_alice) := 500; (ex_external, ModuleAddress) := 40]} ∅).

Definition ex_erc20 : Chain EvmWorld Store := mkChain ex_erc20_world ex_erc20_store [].

Definition ex_convert_coin : MsgConvertCoin :=
  mkMsgConvertCoin (mkCoin "ibc/ABC" 300) (Address_String ex_alice) (AccAddress_String ex_alice).
Definition ex_convert_erc20 : MsgConvertERC20 :=
  mkMsgConvertERC20 (Address_String ex_external) 200 (AccAddress_String ex_alice) (Address_String ex_alice).

Lemma convert_coin_effect_witness :
  coin_converted ex_native_pair ex_convert_coin ex_alice ex_erc20 (ConvertCoin ex_convert_coin ex_erc20).2.
Proof.
  destruct (convert_coin_effect ex_convert_coin ex_erc20 (ConvertCoin ex_convert_coin ex_erc20).2)
    as (tp & sender & Hs & Htp & _ & _ & _ & H).
  - apply run_Ok. vm_compute. reflexivity.
  - vm_compute in Hs. injection Hs as <-. vm_compute in Htp. injection Htp as <-. exact H.
Defined.

Lemma convert_erc20_effect_witness :
  erc20_converted ex_external_pair ex_convert_erc20 ex_alice ex_erc20
    (ConvertERC20 ex_convert_erc20 ex_erc20).2.
Proof.
  destruct (convert_erc20_effect ex_convert_erc20 ex_erc20 (ConvertERC20 ex_convert_erc20 ex_erc20).2)
    as (tp & receiver & Hs & Htp & _ & _ & _ & H).
  - apply run_Ok. vm_compute. reflexivity.
  - vm_compute in Hs. injection Hs as <-. vm_compute in Htp. injection Htp as <-. exact H.
Defined.

(** A transfer of 70 external tokens to the module's address, by [from]. *)
Definition ex_transfer_log (from : string) : EthLog :=
  mkEthLog ex_external ["T"; from; ModuleAddress] "70".
Definition ex_other_log : EthLog := mkEthLog ex_external ["T"; ex_alice; ex_alice] "70".

Lemma ex_abi_total : abi_total.
Proof. split; intros; cbn; repeat case_match; discriminate. Qed.
Lemma ex_not_converted log : hook_target ex_erc20_store log = None ->
  ¬ ∃ tp from tokens, converted_transfer ex_erc20_store log tp from tokens.
Proof. apply hook_target_None. Qed.

Lemma hook_ignores_other_logs_witness :
  PostTxProcessing [ex_other_log; mkEthLog ex_native [] ""] ex_erc20 = (Ok tt, ex_erc20).
Proof.
  apply (hook_ignores_other_logs _ (mkParams true true)); [exact ex_abi_total|reflexivity|].
  repeat constructor; apply ex_not_converted; vm_compute; reflexivity.
Defined.

Definition ex_coins : list Coin := [mkCoin (Pair_Denom ex_external_pair) 70].
Definition ex_minted : EvmWorld := (MintCoins ModuleName ex_coins ex_erc20_world).2.

Lemma ex_transfer_converted from : address_ok from ->
  converted_transfer ex_erc20_store (ex_transfer_log from) ex_external_pair from 70.
Proof.
  intros Hf. split.
  - exists "T", from, ModuleAddress, []. split_and!; try (vm_compute; reflexivity). symmetry. by apply pad20_id.
  - lia.
  - exists (GetID ex_external_pair). split_and!; [discriminate|vm_compute; reflexivity..].
  - reflexivity.
Qed.


(** The distribution module sends 70 tokens: blocked by the bank. *)
Definition ex_blocked : string := NewModuleAddress "distribution".

Lemma hook_strands_blocked_sender_witness :
  ∃ m, GetModuleAddress ModuleName = Some m ∧
    PostTxProcessing [ex_transfer_log ex_blocked] ex_erc20 = (Ok tt, set_world ex_minted ex_erc20) ∧
    bank_delta ex_erc20_world ex_minted (gain ex_coins m) (amount_of ex_coins).
Proof.
  apply (hook_strands_blocked_sender (ex_transfer_log ex_blocked) ex_external_pair ex_blocked 70
    ex_minted ex_erc20).
  - reflexivity.
  - apply ex_transfer_converted. vm_compute. reflexivity.
  - reflexivity.
  - vm_compute. reflexivity.
  - apply (run_Ok (MintCoins ModuleName ex_coins)). vm_compute. reflexivity.
Defined.
