(* ===== verification/Erc20Store.v ===== *)
(** * Theorems about x/erc20: the token pairs, names and genesis

    The pairs and their two indexes stay consistent over every sequence of
    messages; registration, lookup and switching; sanitized names and compared
    metadata; genesis export and import. *)

From Stdlib Require Import Ascii.
From stdpp Require Import base gmap strings list.
From S2P Require Import Prelude Golang Sdk Ethereum Erc20Types Erc20 Reference ReferenceEvm Erc20Facts.

#[local] Open Scope Z_scope.
#[local] Open Scope go_scope.

Section index.
Context {W : Type} {ST : SdkTypes} {STL : SdkTypesLaws} {HA : Hashes} {HAL : HashesLaws}.
Context {PS : ParamSubspace} {PSL : ParamSubspaceLaws} {ET : EthTypes} {ETL : EthTypesLaws} {AB : Abi}.
Context {AK : AccountKeeper W} {BK : BankKeeper W} {BL : BankLaws W}.
Context {BM : BankMetadata W} {BML : BankMetadataLaws W} {EK : EvmKeeper W} {EL : EvmLaws W}.
#[local] Abbreviation C := (Chain W Store).

(** ** The invariant *)

(** The text of the contract address is the canonical one. *)
Definition canonical (tp : TokenPair) : Prop := Erc20Address tp = Address_String (GetERC20Contract tp).

(** Every pair is stored under its identifier and both indexes lead to it; an
    index entry leads to a pair with that denomination or contract.  So no two
    pairs share a denomination or a contract. *)
Record pairs_ok (s : Store) : Prop := {
  ok_pair id tp : st_pairs s !! id = Some tp ->
    id = GetID tp ∧ canonical tp ∧
    st_byDenom s !! Pair_Denom tp = Some id ∧ st_byErc20 s !! GetERC20Contract tp = Some id;
  ok_byDenom d id : st_byDenom s !! d = Some id ->
    ∃ tp, st_pairs s !! id = Some tp ∧ Pair_Denom tp = d;
  ok_byErc20 a id : st_byErc20 s !! a = Some id ->
    ∃ tp, st_pairs s !! id = Some tp ∧ GetERC20Contract tp = a
}.

Definition pair_key (tp : TokenPair) : string := Erc20Address tp +:+ "|" +:+ Pair_Denom tp.

(** The hash of a new pair is not that of a stored pair with another key. *)
Definition no_collision (s : Store) (tp : TokenPair) : Prop :=
  ∀ tp', st_pairs s !! GetID tp' = Some tp' -> GetID tp' = GetID tp -> pair_key tp' = pair_key tp.

Definition add_pair (tp : TokenPair) (s : Store) : Store :=
  mkStore (st_params s) (<[GetID tp := tp]> (st_pairs s))
    (<[GetERC20Contract tp := GetID tp]> (st_byErc20 s)) (<[Pair_Denom tp := GetID tp]> (st_byDenom s)).

Definition flip_pair (tp : TokenPair) : TokenPair :=
  mkTokenPair (Erc20Address tp) (Pair_Denom tp) (negb (Enabled tp)) (ContractOwner tp).

(** ** Lemmas *)

Lemma append_same_length (a b x y : string) :
  String.length a = String.length b -> a +:+ x = b +:+ y -> a = b ∧ x = y.
Proof.
  revert b. induction a as [|c a IH]; intros [|c' b]; cbn; try done.
  rewrite !append_cons. intros [= Hl] [= -> E]. destruct (IH _ Hl E) as [-> ->]. done.
Qed.

(** Pairs with the same key have the same contract and denomination. *)
Lemma pair_key_inj tp tp' : canonical tp -> canonical tp' -> pair_key tp = pair_key tp' ->
  Erc20Address tp = Erc20Address tp' ∧ Pair_Denom tp = Pair_Denom tp'.
Proof.
  intros Hc Hc' E. apply append_same_length in E as [? E].
  - split; [done|]. by apply append_inj_l in E.
  - rewrite Hc, Hc'. rewrite !Address_String_length; [done| |]; apply HexToAddress_ok.
Qed.

Lemma add_pair_ok tp s :
  pairs_ok s -> canonical tp -> no_collision s tp ->
  st_byDenom s !! Pair_Denom tp = None -> st_byErc20 s !! GetERC20Contract tp = None ->
  pairs_ok (add_pair tp s).
Proof.
  intros [Op Od Oe] Hcan Hnc Hd He.
  assert (st_pairs s !! GetID tp = None) as Hnew.
  { apply eq_None_not_Some. intros [tp' Hl]. destruct (Op _ _ Hl) as (Hid & Hcan' & Hd' & _).
    rewrite Hid in Hl. destruct (pair_key_inj tp' tp) as [_ E]; [done|done|by apply Hnc|]. congruence. }
  split; cbn.
  - intros id tp' [[<- <-]|[Hne Hl]]%lookup_insert_Some.
    + by rewrite !lookup_insert_eq.
    + destruct (Op _ _ Hl) as (? & ? & Hd' & He').
      rewrite !lookup_insert_ne by congruence. done.
  - intros d id [[<- <-]|[Hne Hl]]%lookup_insert_Some.
    + exists tp. by rewrite lookup_insert_eq.
    + destruct (Od _ _ Hl) as (tp' & Hl' & ?). exists tp'. by rewrite lookup_insert_ne by congruence.
  - intros a id [[<- <-]|[Hne Hl]]%lookup_insert_Some.
    + exists tp. by rewrite lookup_insert_eq.
    + destruct (Oe _ _ Hl) as (tp' & Hl' & ?). exists tp'. by rewrite lookup_insert_ne by congruence.
Qed.

Lemma remove_pair_ok tp s :
  pairs_ok s -> st_pairs s !! GetID tp = Some tp -> pairs_ok (remove_pair tp s).
Proof.
  intros [Op Od Oe] Htp. destruct (Op _ _ Htp) as (_ & _ & Hd & He). split; cbn.
  - intros id tp' [Hne Hl]%lookup_delete_Some. destruct (Op _ _ Hl) as (-> & Hc & Hd' & He').
    rewrite !lookup_delete_ne by congruence. done.
  - intros d id [Hne Hl]%lookup_delete_Some. destruct (Od _ _ Hl) as (tp' & Hl' & <-). exists tp'.
    split; [|done]. apply lookup_delete_Some. split; [|done]. intros <-. simplify_eq.
  - intros a id [Hne Hl]%lookup_delete_Some. destruct (Oe _ _ Hl) as (tp' & Hl' & <-). exists tp'.
    split; [|done]. apply lookup_delete_Some. split; [|done]. intros <-. simplify_eq.
Qed.

Definition set_pair (tp : TokenPair) (s : Store) : Store :=
  mkStore (st_params s) (<[GetID tp := tp]> (st_pairs s)) (st_byErc20 s) (st_byDenom s).

Lemma flip_pair_ok tp s :
  pairs_ok s -> st_pairs s !! GetID tp = Some tp -> pairs_ok (set_pair (flip_pair tp) s).
Proof.
  intros [Op Od Oe] Htp. change (GetID tp) with (GetID (flip_pair tp)) in Htp.
  assert (∀ id tp', st_pairs s !! id = Some tp' ->
    ∃ tp'', <[GetID (flip_pair tp) := flip_pair tp]> (st_pairs s) !! id = Some tp'' ∧
      Pair_Denom tp'' = Pair_Denom tp' ∧ GetERC20Contract tp'' = GetERC20Contract tp') as Hkeep.
  { intros id tp' Hl. destruct (decide (id = GetID (flip_pair tp))) as [->|Hne].
    - rewrite lookup_insert_eq. rewrite Htp in Hl. injection Hl as <-. by eexists.
    - rewrite lookup_insert_ne by done. eauto. }
  split; cbn.
  - intros id tp' [[<- <-]|[Hne Hl]]%lookup_insert_Some; [|by apply Op].
    destruct (Op _ _ Htp) as (_ & ? & ? & ?). done.
  - intros d id (tp' & Hl & <-)%Od. destruct (Hkeep _ _ Hl) as (? & ? & ? & _). eauto.
  - intros a id (tp' & Hl & <-)%Oe. destruct (Hkeep _ _ Hl) as (? & ? & _ & ?). eauto.
Qed.

Lemma pair_by_token_stored s token tp :
  pairs_ok s -> pair_by_token s token = Some tp -> st_pairs s !! GetID tp = Some tp.
Proof.
  intros Hok. unfold pair_by_token. intros (id & _ & Hl)%bind_Some.
  destruct (ok_pair _ Hok _ _ Hl) as (-> & _). done.
Qed.

Lemma params_ok_store f (s : Store) : pairs_ok s -> pairs_ok (mkStore f (st_pairs s) (st_byErc20 s) (st_byDenom s)).
Proof. intros [Op Od Oe]. split; [exact Op|exact Od|exact Oe]. Qed.

(** ** The operations on the store *)

Lemma store_pair_Ok tp u (c c' : C) : store_pair tp c = (Ok u, c') ->
  c' = set_store (add_pair tp (store c)) c.
Proof.
  unfold store_pair, SetTokenPair, SetTokenPairIdByDenom, SetTokenPairIdByERC20Addr,
    set_pairs, set_byErc20, set_byDenom. intros E. by cinv.
Qed.

Lemma has_false {V} (m : gmap string V) key : has m key = false -> m !! key = None.
Proof. unfold has. intros H%bool_decide_eq_false. by apply eq_None_not_Some. Qed.

Lemma NewTokenPair_canonical a d b o : address_ok a ->
  canonical (NewTokenPair a d b o) ∧ GetERC20Contract (NewTokenPair a d b o) = a.
Proof.
  intros Ha. unfold canonical, GetERC20Contract, NewTokenPair. cbn. by rewrite HexToAddress_String.
Qed.

Lemma DeployERC20Contract_Ok m addr (c c' : C) : DeployERC20Contract m c = (Ok addr, c') ->
  store c' = store c ∧ address_ok addr.
Proof.
  unfold DeployERC20Contract, unpack_or. intros E. apply bind_Ok in E as (v & s1 & E1 & E).
  destruct (abi_Pack _ _ _); [|done|done]. einv. split; [done|]. apply CreateAddress_ok.
Qed.

Lemma verifyMetadata_store m u (c c' : C) : verifyMetadata m c = (Ok u, c') -> store c' = store c.
Proof. unfold verifyMetadata. intros E. minv1. cinv1. case_match; by cinv. Qed.

Lemma erc20_GetParams_Ok p (c c' : C) : GetParams c = (Ok p, c') -> st_params (store c) = Some p ∧ c' = c.
Proof. unfold GetParams. intros E. cinv. by case_match; cinv. Qed.

Lemma RegisterCoin_Ok m tp (c c' : C) : RegisterCoin m c = (Ok tp, c') ->
  store c' = add_pair tp (store c) ∧ canonical tp ∧ Pair_Denom tp = Meta_Base m ∧
  Enabled tp = true ∧ ContractOwner tp = OWNER_MODULE ∧
  st_byDenom (store c) !! Pair_Denom tp = None.
Proof.
  unfold RegisterCoin, IsDenomRegistered. intros E. minv1.
  match goal with H : GetParams _ = _ |- _ => apply erc20_GetParams_Ok in H as [? ->] end. cinv.
  match goal with H : attempt _ _ = _ |- _ => apply attempt_Ok in H end. case_match; [|done].
  repeat match goal with
  | H : verifyMetadata _ _ = _ |- _ => apply verifyMetadata_store in H
  | H : DeployERC20Contract _ _ = _ |- _ => apply DeployERC20Contract_Ok in H as [? ?]
  | H : store_pair _ _ = _ |- _ => apply store_pair_Ok in H as ->
  | H : false = has _ _ |- _ => symmetry in H; apply has_false in H
  end.
  cbn [store set_store]. split_and!; try done; [congruence|].
  by apply NewTokenPair_canonical.
Qed.

Lemma CallEVM_view_Ok abi from contract method args res (c c' : C) :
  CallEVM abi from contract false method args c = (Ok res, c') -> c' = c.
Proof. intros E. pose proof (CallEVM_view abi from contract method args c) as H. by rewrite E in H. Qed.

Lemma QueryERC20_Ok contract d (c c' : C) : QueryERC20 contract c = (Ok d, c') -> c' = c.
Proof.
  unfold QueryERC20, unpack_or. intros E. minv;
  repeat match goal with H : CallEVM _ _ _ false _ _ _ = _ |- _ => apply CallEVM_view_Ok in H end;
  repeat (case_match; minv); congruence.
Qed.

Lemma CreateCoinMetadata_Ok contract m (c c' : C) : CreateCoinMetadata contract c = (Ok m, c') ->
  store c' = store c ∧ Meta_Name m = CreateDenom (Address_String contract) ∧
  st_byDenom (store c) !! CreateDenom (Address_String contract) = None.
Proof.
  unfold CreateCoinMetadata, IsDenomRegistered. intros E. minv1.
  match goal with H : QueryERC20 _ _ = _ |- _ => apply QueryERC20_Ok in H as -> end.
  cinv. split_and!; [done|done|]. by apply has_false.
Qed.

Lemma RegisterERC20_Ok contract tp (c c' : C) : address_ok contract ->
  RegisterERC20 contract c = (Ok tp, c') ->
  store c' = add_pair tp (store c) ∧ canonical tp ∧ GetERC20Contract tp = contract ∧
  Pair_Denom tp = CreateDenom (Address_String contract) ∧
  Enabled tp = true ∧ ContractOwner tp = OWNER_EXTERNAL ∧
  st_byDenom (store c) !! Pair_Denom tp = None ∧ st_byErc20 (store c) !! GetERC20Contract tp = None.
Proof.
  intros Ha. unfold RegisterERC20, IsERC20Registered. intros E. minv1.
  match goal with H : GetParams _ = _ |- _ => apply erc20_GetParams_Ok in H as [? ->] end. cinv.
  repeat match goal with
  | H : CreateCoinMetadata _ _ = _ |- _ => apply CreateCoinMetadata_Ok in H as (? & ? & ?)
  | H : store_pair _ _ = _ |- _ => apply store_pair_Ok in H as ->
  | H : false = has _ _ |- _ => symmetry in H; apply has_false in H
  end.
  match goal with H : Meta_Name _ = _ |- _ => rewrite H in * end.
  destruct (NewTokenPair_canonical contract (CreateDenom (Address_String contract)) true OWNER_EXTERNAL Ha)
    as [Hc Hg]. rewrite Hg. cbn [store set_store]. split_and!; try done. congruence.
Qed.

Lemma ToggleConversion_Ok token tp' (c c' : C) : ToggleConversion token c = (Ok tp', c') ->
  ∃ tp, pair_by_token (store c) token = Some tp ∧ tp' = flip_pair tp ∧
    c' = set_store (set_pair tp' (store c)) c.
Proof.
  unfold ToggleConversion, GetTokenPairID, GetTokenPairIdByERC20Addr, GetTokenPairIdByDenom, GetTokenPair,
    SetTokenPair, set_pairs, pair_by_token. intros E.
  destruct (IsHexAddress token); cinv;
    match goal with H : String.eqb (default "" ?o) "" = false |- _ => destruct o eqn:Eo; cbn in H; [|done] end;
    cinv; case_match; cinv; eexists; split_and!; done.
Qed.

(** The hook does not write to the store. *)
Lemma keeps_PostTxProcessing logs : keeps_store (W:=W) (PostTxProcessing logs).
Proof.
  pose proof keeps_process_log as Hlog. unfold PostTxProcessing, GetParams. keeps.
Qed.

(** ** Sequences of messages *)

(** One delivered message or transaction hook.  A new pair is assumed not to hash
    to the identifier of a different stored pair, and a contract the module
    deploys not to be at an address that is already registered. *)
Inductive erc20_step (k : Keeper) (c : C) : C -> Prop :=
| erc20_convert_coin msg : erc20_step k c (deliver (ConvertCoin msg) c).2
| erc20_convert_erc20 msg : erc20_step k c (deliver (ConvertERC20 msg) c).2
| erc20_register_coin req :
    (∀ tp c', RegisterCoin (RC_Metadata req) c = (Ok tp, c') ->
       no_collision (store c) tp ∧ st_byErc20 (store c) !! GetERC20Contract tp = None) ->
    erc20_step k c (deliver (RegisterCoinProposal k req) c).2
| erc20_register_erc20 req :
    (∀ tp c', RegisterERC20 (HexToAddress (RE_Erc20Address req)) c = (Ok tp, c') -> no_collision (store c) tp) ->
    erc20_step k c (deliver (RegisterERC20Proposal k req) c).2
| erc20_toggle req : erc20_step k c (deliver (ToggleTokenConversionProposal k req) c).2
| erc20_update_params req : erc20_step k c (deliver (msg_UpdateParams k req) c).2
| erc20_hook logs : erc20_step k c (PostTxProcessing logs c).2.

Inductive erc20_reach (k : Keeper) (c : C) : C -> Prop :=
| erc20_reach_refl : erc20_reach k c c
| erc20_reach_step c1 c2 : erc20_reach k c c1 -> erc20_step k c1 c2 -> erc20_reach k c c2.

(** A delivered message keeps what its successful runs keep. *)
Lemma deliver_keeps {A} (P : C -> Prop) (m : M C A) (c : C) :
  P c -> (∀ a c', m c = (Ok a, c') -> P c') -> P (deliver m c).2.
Proof. intros Hc Hm. unfold deliver. destruct (m c) as [[a|e|] c1] eqn:E; cbn; eauto. Qed.

Lemma ConvertCoin_ok msg u (c c' : C) :
  pairs_ok (store c) -> ConvertCoin msg c = (Ok u, c') -> pairs_ok (store c').
Proof.
  intros Hok E. destruct u. apply convert_coin_run in E as (tp & sender & _ & Htp & _ & _ & _ & E).
  case_match; [destruct E as [-> _]; done|]. subst c'.
  eapply remove_pair_ok; [done|]. by eapply pair_by_token_stored.
Qed.

Lemma ConvertERC20_ok msg u (c c' : C) :
  pairs_ok (store c) -> ConvertERC20 msg c = (Ok u, c') -> pairs_ok (store c').
Proof.
  intros Hok E. destruct u. apply convert_erc20_run in E as (tp & r & _ & Htp & _ & _ & _ & E).
  case_match; [destruct E as [-> _]; done|]. subst c'.
  eapply remove_pair_ok; [done|]. by eapply pair_by_token_stored.
Qed.

Lemma erc20_step_ok k (c c' : C) : erc20_step k c c' -> pairs_ok (store c) -> pairs_ok (store c').
Proof.
  intros Hs Hok. destruct Hs as [msg|msg|req Hf|req Hf|req|req|logs].
  - apply (deliver_keeps (fun c => pairs_ok (store c))); [done|]. intros. by eapply ConvertCoin_ok.
  - apply (deliver_keeps (fun c => pairs_ok (store c))); [done|]. intros. by eapply ConvertERC20_ok.
  - apply (deliver_keeps (fun c => pairs_ok (store c))); [done|].
    unfold RegisterCoinProposal, check_authority. intros u c' E. minv.
    destruct (Hf _ _ E1) as [Hn Ha]. apply RegisterCoin_Ok in E1 as (-> & ? & _ & _ & _ & ?).
    by apply add_pair_ok.
  - apply (deliver_keeps (fun c => pairs_ok (store c))); [done|].
    unfold RegisterERC20Proposal, check_authority. intros u c' E. minv.
    pose proof (Hf _ _ E1) as Hn.
    apply RegisterERC20_Ok in E1 as (-> & ? & _ & _ & _ & _ & ? & ?); [|apply HexToAddress_ok].
    by apply add_pair_ok.
  - apply (deliver_keeps (fun c => pairs_ok (store c))); [done|].
    unfold ToggleTokenConversionProposal, check_authority. intros u c' E. minv.
    apply ToggleConversion_Ok in E1 as (tp & Htp & -> & ->). apply flip_pair_ok; [done|].
    by eapply pair_by_token_stored.
  - apply (deliver_keeps (fun c => pairs_ok (store c))); [done|].
    unfold msg_UpdateParams, check_authority, SetParams. intros u c' E. cinv. by apply params_ok_store.
  - by rewrite keeps_PostTxProcessing.
Qed.

(** C11: the table of pairs and its two indexes stay consistent over every
    sequence of conversions, registrations, switches, parameter updates and
    transaction hooks: each pair is found by its denomination and by its
    contract, the indexes lead nowhere else, and so no denomination and no
    contract is ever in two pairs. *)
Theorem token_pairs_consistent k (c c' : C) :
  erc20_reach k c c' -> pairs_ok (store c) -> pairs_ok (store c').
Proof. intros Hr Hok. induction Hr as [|c1 c2 _ IH Hs]; [done|]. by eapply erc20_step_ok. Qed.

(** ** Registration, lookup, switching *)

(** Looking a token up, as every handler does. *)
Definition find_pair (token : string) : M C (option TokenPair) :=
  let* id := GetTokenPairID token in GetTokenPair id.

Lemma find_pair_spec token (c : C) : find_pair token c = (Ok (pair_by_token (store c) token), c).
Proof.
  unfold find_pair, GetTokenPairID, pair_by_token, GetTokenPairIdByERC20Addr, GetTokenPairIdByDenom,
    bind, get_store, gets. destruct (IsHexAddress token).
  - by destruct (st_byErc20 (store c) !! HexToAddress token).
  - by destruct (st_byDenom (store c) !! token).
Qed.

Lemma add_pair_found tp s : canonical tp ->
  pair_by_token (add_pair tp s) (Erc20Address tp) = Some tp ∧
  (IsHexAddress (Pair_Denom tp) = false -> pair_by_token (add_pair tp s) (Pair_Denom tp) = Some tp).
Proof.
  intros Hc. unfold pair_by_token. cbn. split.
  - rewrite Hc, IsHexAddress_String by apply HexToAddress_ok.
    rewrite HexToAddress_String by apply HexToAddress_ok. rewrite lookup_insert_eq. cbn. by rewrite lookup_insert_eq.
  - intros ->. rewrite lookup_insert_eq. cbn. by rewrite lookup_insert_eq.
Qed.

Lemma has_true {V} (m : gmap string V) key : is_Some (m !! key) -> has m key = true.
Proof. intros. by apply bool_decide_eq_true. Qed.

(** The checks before anything is looked up or written. *)
Lemma RegisterCoin_guards m tp (c c' : C) : RegisterCoin m c = (Ok tp, c') ->
  ∃ p, st_params (store c) = Some p ∧ EnableErc20 p = true ∧ Contains (Meta_Base m) "CANTO" = false.
Proof.
  unfold RegisterCoin. intros E. minv1. apply erc20_GetParams_Ok in E0 as [Hp ->]. cinv. breflect. eauto.
Qed.

Lemma RegisterCoin_exists m p (c : C) :
  st_params (store c) = Some p -> EnableErc20 p = true -> Contains (Meta_Base m) "CANTO" = false ->
  is_Some (st_byDenom (store c) !! Meta_Base m) -> RegisterCoin m c = (Err ErrTokenPairAlreadyExists, c).
Proof.
  intros Hp He Hx Hd. unfold RegisterCoin, GetParams, IsDenomRegistered, bind, get_store, gets, reject.
  rewrite Hp. cbn -[Contains]. rewrite He, Hx. cbn. by rewrite has_true.
Qed.

Lemma RegisterERC20_guards contract tp (c c' : C) : RegisterERC20 contract c = (Ok tp, c') ->
  ∃ p, st_params (store c) = Some p ∧ EnableErc20 p = true.
Proof.
  unfold RegisterERC20. intros E. minv1. apply erc20_GetParams_Ok in E0 as [Hp ->]. cinv. breflect. eauto.
Qed.

Lemma RegisterERC20_exists contract p (c : C) :
  st_params (store c) = Some p -> EnableErc20 p = true ->
  is_Some (st_byErc20 (store c) !! contract) -> RegisterERC20 contract c = (Err ErrTokenPairAlreadyExists, c).
Proof.
  intros Hp He Hd. unfold RegisterERC20, GetParams, IsERC20Registered, bind, get_store, gets, reject.
  rewrite Hp. cbn. rewrite He. cbn. by rewrite has_true.
Qed.

(** A pair that was registered, for a coin or for a contract, is found by its
    contract address and by its denomination (unless that text is itself a hex
    address), is enabled, and has the right owner.  Registering the same coin
    again is refused, as is registering the same contract. *)
Theorem registration_is_found m contract tp tp' (c c1 c2 : C) :
  address_ok contract ->
  RegisterCoin m c = (Ok tp, c1) -> RegisterERC20 contract c = (Ok tp', c2) ->
  IsHexAddress (Pair_Denom tp) = false -> IsHexAddress (Pair_Denom tp') = false ->
  (find_pair (Erc20Address tp) c1 = (Ok (Some tp), c1) ∧ find_pair (Meta_Base m) c1 = (Ok (Some tp), c1) ∧
   Enabled tp = true ∧ ContractOwner tp = OWNER_MODULE ∧
   RegisterCoin m c1 = (Err ErrTokenPairAlreadyExists, c1)) ∧
  (find_pair (Address_String contract) c2 = (Ok (Some tp'), c2) ∧
   find_pair (CreateDenom (Address_String contract)) c2 = (Ok (Some tp'), c2) ∧
   Enabled tp' = true ∧ ContractOwner tp' = OWNER_EXTERNAL ∧
   RegisterERC20 contract c2 = (Err ErrTokenPairAlreadyExists, c2)).
Proof.
  intros Ha E1 E2 Hx Hx'. pose proof E1 as E1'. pose proof E2 as E2'.
  apply RegisterCoin_Ok in E1' as (Hs & Hc & Hd & He & Ho & _).
  apply RegisterERC20_Ok in E2' as (Hs' & Hc' & Hg & Hd' & He' & Ho' & _); [|done].
  destruct (add_pair_found tp (store c) Hc) as [F1 F2].
  destruct (add_pair_found tp' (store c) Hc') as [F1' F2'].
  rewrite !find_pair_spec, Hs, Hs', F1, <-Hd, F2 by done.
  rewrite <-Hg, <-Hc', F1', Hc', Hg, <-Hd', F2' by done.
  split; (split_and!; [done..|]).
  - apply RegisterCoin_guards in E1 as (p & Hp & He1 & Hx1).
    apply (RegisterCoin_exists _ p); rewrite ?Hs; cbn; [done..|]. rewrite Hd. by rewrite lookup_insert_eq.
  - apply RegisterERC20_guards in E2 as (p & Hp & He2).
    apply (RegisterERC20_exists _ p); rewrite ?Hs'; cbn; [done..|]. rewrite Hg. by rewrite lookup_insert_eq.
Qed.

Lemma GetTokenPairID_found token tp (c : C) :
  pairs_ok (store c) -> pair_by_token (store c) token = Some tp ->
  GetTokenPairID token c = (Ok (Some (GetID tp)), c) ∧ st_pairs (store c) !! GetID tp = Some tp ∧
  String.eqb (GetID tp) "" = false.
Proof.
  intros Hok Hf. unfold pair_by_token in Hf. apply bind_Some in Hf as (id & Hi & Hl).
  destruct (ok_pair _ Hok _ _ Hl) as (-> & _). split_and!; [|done|].
  - unfold GetTokenPairID, GetTokenPairIdByERC20Addr, GetTokenPairIdByDenom, get_store, gets.
    destruct (IsHexAddress token); by rewrite Hi.
  - apply String.eqb_neq, tmhash_Sum_nonempty.
Qed.

Lemma pair_by_token_flip token tp s :
  pairs_ok s -> pair_by_token s token = Some tp ->
  pair_by_token (set_pair (flip_pair tp) s) token = Some (flip_pair tp).
Proof.
  intros Hok Hf. unfold pair_by_token in *. apply bind_Some in Hf as (id & Hi & Hl).
  destruct (ok_pair _ Hok _ _ Hl) as (-> & _). cbn. rewrite Hi. cbn.
  change (GetID (flip_pair tp)) with (GetID tp). apply lookup_insert_eq.
Qed.

Lemma ToggleConversion_run token tp (c : C) :
  pairs_ok (store c) -> pair_by_token (store c) token = Some tp ->
  ToggleConversion token c = (Ok (flip_pair tp), set_store (set_pair (flip_pair tp) (store c)) c).
Proof.
  intros Hok Hf. destruct (GetTokenPairID_found _ _ _ Hok Hf) as (Hid & Hl & Hne).
  unfold ToggleConversion. rewrite (bind_run _ _ _ _ _ Hid). unfold bind, reject. cbn -[String.eqb].
  rewrite Hne. cbn. by rewrite Hl.
Qed.

Lemma MintingEnabled_disabled sender receiver token p tp (c : C) :
  pairs_ok (store c) -> pair_by_token (store c) token = Some tp ->
  st_params (store c) = Some p -> EnableErc20 p = true -> Enabled tp = false ->
  MintingEnabled sender receiver token c = (Err ErrERC20TokenPairDisabled, c).
Proof.
  intros Hok Hf Hp Hen He. destruct (GetTokenPairID_found _ _ _ Hok Hf) as (Hid & Hl & Hne).
  unfold MintingEnabled, GetParams. unfold bind at 1 2, get_store at 1, gets. rewrite Hp. cbn.
  unfold bind at 1, reject at 1. rewrite Hen. cbn.
  rewrite (bind_run _ _ _ _ _ Hid). unfold bind, reject. cbn -[String.eqb].
  rewrite Hne. cbn. by rewrite Hl, He.
Qed.

(** Switching a pair off is seen at once, by either name: conversions of it
    are refused, and nothing else of the pair changes.  Switching it again
    restores the very state before. *)
Theorem toggle_switches token sender receiver tp p (c : C) :
  pairs_ok (store c) -> pair_by_token (store c) token = Some tp ->
  st_params (store c) = Some p -> EnableErc20 p = true ->
  ∃ c1, ToggleConversion token c = (Ok (flip_pair tp), c1) ∧ world c1 = world c ∧
    find_pair token c1 = (Ok (Some (flip_pair tp)), c1) ∧
    (Enabled tp = true ->
     MintingEnabled sender receiver token c1 = (Err ErrERC20TokenPairDisabled, c1)) ∧
    ToggleConversion token c1 = (Ok tp, c).
Proof.
  intros Hok Hf Hp Hen. exists (set_store (set_pair (flip_pair tp) (store c)) c).
  pose proof (pair_by_token_stored _ _ _ Hok Hf) as Hst.
  assert (flip_pair (flip_pair tp) = tp) as Hff by (destruct tp as [? ? [] ?]; done).
  split_and!; [by apply ToggleConversion_run|done| | |].
  - rewrite find_pair_spec. cbn [store set_store]. by rewrite pair_by_token_flip.
  - intros He. apply MintingEnabled_disabled with (p := p) (tp := flip_pair tp); try done.
    + by apply flip_pair_ok.
    + by apply pair_by_token_flip.
    + cbn. by rewrite He.
  - rewrite (ToggleConversion_run _ (flip_pair tp)).
    + rewrite Hff. f_equal. unfold set_pair, set_store. destruct c as [w [pa ps be bd] ev]. cbn in *.
      by rewrite insert_insert_eq, insert_id.
    + by apply flip_pair_ok.
    + by apply pair_by_token_flip.
Qed.

(** ** Genesis *)

Lemma for_each_mod_store {A} (f : A -> Store -> Store) l (c : C) :
  for_each l (fun x => mod_store (f x)) c = (Ok tt, set_store (foldl (fun s x => f x s) (store c) l) c).
Proof.
  revert c. induction l as [|x l IH]; intros c; [by destruct c|]. cbn. unfold bind. cbn. by rewrite IH.
Qed.

(** Loading values into one of the three tables, given as what is inserted. *)
Lemma foldl_table {A V} (put : gmap string V -> Store -> Store) (tbl : Store -> gmap string V)
    (key : A -> string) (val : A -> V) (l : list A) (s : Store) :
  (∀ m s, tbl (put m s) = m) -> (∀ m m' s, put m (put m' s) = put m s) -> (∀ s, put (tbl s) s = s) ->
  foldl (fun s x => put (<[key x := val x]> (tbl s)) s) s l
  = put (foldl (fun m e => <[e.1 := e.2]> m) (tbl s) ((fun x => (key x, val x)) <$> l)) s.
Proof.
  intros Ht Hp Hid. revert s. induction l as [|x l IH]; intros s; cbn; [by rewrite Hid|].
  by rewrite IH, Ht, Hp.
Qed.

Definition put_pairs (m : gmap string TokenPair) (s : Store) : Store :=
  mkStore (st_params s) m (st_byErc20 s) (st_byDenom s).
Definition put_byErc20 (m : gmap string string) (s : Store) : Store :=
  mkStore (st_params s) (st_pairs s) m (st_byDenom s).
Definition put_byDenom (m : gmap string string) (s : Store) : Store :=
  mkStore (st_params s) (st_pairs s) (st_byErc20 s) m.

Lemma load_pairs l (c : C) : for_each l SetTokenPair c =
  (Ok tt, set_store (put_pairs (foldl (fun m e => <[e.1 := e.2]> m) (st_pairs (store c))
    ((fun tp => (GetID tp, tp)) <$> l)) (store c)) c).
Proof.
  unfold SetTokenPair, set_pairs. rewrite for_each_mod_store.
  by rewrite <-(foldl_table put_pairs st_pairs GetID id) by (by intros; try destruct s).
Qed.

Lemma load_byDenom l (c : C) :
  for_each l (fun idx => SetTokenPairIdByDenom (DIdx_Denom idx) (DIdx_TokenPairId idx)) c =
  (Ok tt, set_store (put_byDenom (foldl (fun m e => <[e.1 := e.2]> m) (st_byDenom (store c))
    ((fun idx => (DIdx_Denom idx, DIdx_TokenPairId idx)) <$> l)) (store c)) c).
Proof.
  unfold SetTokenPairIdByDenom, set_byDenom. rewrite for_each_mod_store.
  by rewrite <-(foldl_table put_byDenom st_byDenom) by (by intros; try destruct s).
Qed.

Lemma load_byErc20 l (c : C) :
  for_each l (fun idx => SetTokenPairIdByERC20Addr (BytesToAddress (EIdx_Erc20Address idx)) (EIdx_TokenPairId idx)) c =
  (Ok tt, set_store (put_byErc20 (foldl (fun m e => <[e.1 := e.2]> m) (st_byErc20 (store c))
    ((fun idx => (BytesToAddress (EIdx_Erc20Address idx), EIdx_TokenPairId idx)) <$> l)) (store c)) c).
Proof.
  unfold SetTokenPairIdByERC20Addr, set_byErc20. rewrite for_each_mod_store.
  by rewrite <-(foldl_table put_byErc20 st_byErc20 (fun idx => BytesToAddress (EIdx_Erc20Address idx)))
    by (by intros; try destruct s).
Qed.

(** The three lists of an export are the tables they come from. *)
Lemma export_pairs s : pairs_ok s ->
  (fun tp => (GetID tp, tp)) <$> (kv_iterate (st_pairs s)).*2 = kv_iterate (st_pairs s).
Proof.
  intros Hok. rewrite <-list_fmap_compose. rewrite <-(list_fmap_id (kv_iterate (st_pairs s))) at 2.
  apply list_fmap_ext. intros i [id tp] Hl. cbn.
  apply list_elem_of_lookup_2, elem_of_kv_iterate in Hl. by destruct (ok_pair _ Hok _ _ Hl) as (-> & _).
Qed.

Lemma export_byErc20 s : pairs_ok s ->
  (fun idx => (BytesToAddress (EIdx_Erc20Address idx), EIdx_TokenPairId idx)) <$>
    ((fun e => mkTokenPairERC20AddressIndex (BytesToAddress e.1) e.2) <$> kv_iterate (st_byErc20 s))
  = kv_iterate (st_byErc20 s).
Proof.
  intros Hok. rewrite <-list_fmap_compose. rewrite <-(list_fmap_id (kv_iterate (st_byErc20 s))) at 2.
  apply list_fmap_ext. intros i [a id] Hl. cbn.
  apply list_elem_of_lookup_2, elem_of_kv_iterate in Hl. destruct (ok_byErc20 _ Hok _ _ Hl) as (tp & _ & <-).
  rewrite (BytesToAddress_id (BytesToAddress _)) by apply BytesToAddress_ok.
  by rewrite BytesToAddress_id by apply HexToAddress_ok.
Qed.

Lemma export_byDenom s :
  (fun idx => (DIdx_Denom idx, DIdx_TokenPairId idx)) <$>
    ((fun e => mkTokenPairDenomIndex e.1 e.2) <$> kv_iterate (st_byDenom s)) = kv_iterate (st_byDenom s).
Proof.
  rewrite <-list_fmap_compose. rewrite <-(list_fmap_id (kv_iterate (st_byDenom s))) at 2.
  apply list_fmap_ext. by intros i [d id] Hl.
Qed.

(** Exporting a consistent state and importing the result on an empty store
    gives back the whole store: parameters, pairs and both indexes. *)
Theorem erc20_genesis_roundtrip p acc w1 (c c0 : C) :
  pairs_ok (store c) -> st_params (store c) = Some p ->
  store c0 = mkStore None ∅ ∅ ∅ ->
  Erc20_GetModuleAccount ModuleName (world c0) = (Ok (Some acc), w1) ->
  ∃ g, ExportGenesis c = (Ok g, c) ∧ InitGenesis g c0 = (Ok tt, mkChain w1 (store c) (events c0)).
Proof.
  intros Hok Hp H0 Hacc. unfold ExportGenesis, GetParams, GetTokenPairs, GetAllTokenPairDenomIndexes,
    GetAllTokenPairERC20AddressIndexes, bind, get_store, gets. rewrite Hp. eexists. split; [done|].
  unfold InitGenesis, SetParams, bind at 1 2, lift.
  rewrite SetParamSet_all by (repeat constructor). cbn [Gen_Params Gen_TokenPairs Gen_DenomIndexes Gen_Erc20AddressIndexes].
  unfold mod_store, modify at 1. rewrite H0. cbn.
  unfold bind at 1, ext, zoom. cbn. rewrite Hacc.
  rewrite (bind_run _ _ _ _ _ (load_pairs _ _)), (bind_run _ _ _ _ _ (load_byDenom _ _)), load_byErc20. cbn.
  rewrite export_pairs, export_byDenom, export_byErc20, !foldl_kv_iterate by done.
  unfold set_store, put_pairs, put_byDenom, put_byErc20. cbn. rewrite <-Hp. by destruct (store c).
Qed.

End index.

(** ** Names *)

Fixpoint all_denom_runes (s : string) : bool :=
  match s with EmptyString => true | String c s' => is_denom_rune c && all_denom_runes s' end.

Definition starts_with_letter (s : string) : bool :=
  match s with EmptyString => true | String c _ => Erc20Types.is_letter c end.

Lemma keep_denom_runes_spec s : all_denom_runes (keep_denom_runes s) = true.
Proof. induction s as [|c s IH]; [done|]. cbn. destruct (is_denom_rune c) eqn:E; [cbn; by rewrite E|done]. Qed.

Lemma removeSpecialChars_spec s : all_denom_runes (removeSpecialChars s) = true.
Proof.
  destruct s as [|c s]; [done|]. cbn. destruct (Erc20Types.is_letter c) eqn:E; [|apply keep_denom_runes_spec].
  cbn. unfold is_denom_rune. rewrite E. apply keep_denom_runes_spec.
Qed.

Lemma take_bytes_runes n s : all_denom_runes s = true -> all_denom_runes (take_bytes n s) = true.
Proof.
  revert s. induction n as [|n IH]; intros [|c s]; cbn; try done.
  rewrite !andb_true_iff. intros [? ?]. auto.
Qed.

Lemma drop_bytes_runes n s : all_denom_runes s = true -> all_denom_runes (drop_bytes n s) = true.
Proof.
  revert s. induction n as [|n IH]; intros [|c s]; cbn; try done.
  rewrite andb_true_iff. intros [? ?]. auto.
Qed.

(** The recursion stops at a name without either prefix. *)
Lemma remove_invalid_prefixes_spec fuel s : (String.length s <= fuel)%nat ->
  let r := remove_invalid_prefixes fuel s in
  HasPrefix r "ibc/" = false ∧ HasPrefix r "erc20/" = false ∧ (String.length r <= String.length s)%nat ∧
  (all_denom_runes s = true -> all_denom_runes r = true).
Proof.
  revert s. induction fuel as [|fuel IH]; intros s Hf; cbn [remove_invalid_prefixes].
  - by destruct s; [|cbn in Hf; lia].
  - destruct (HasPrefix s "ibc/") eqn:E1; [|destruct (HasPrefix s "erc20/") eqn:E2].
    + destruct (IH (drop_bytes 4 s)) as (? & ? & Hl & Hr); [|split_and!; [done|done| |]].
      * destruct s; [done|]. rewrite drop_bytes_length. cbn in *. lia.
      * rewrite drop_bytes_length in Hl. lia.
      * intros. by apply Hr, drop_bytes_runes.
    + destruct (IH (drop_bytes 6 s)) as (? & ? & Hl & Hr); [|split_and!; [done|done| |]].
      * destruct s; [done|]. rewrite drop_bytes_length. cbn in *. lia.
      * rewrite drop_bytes_length in Hl. lia.
      * intros. by apply Hr, drop_bytes_runes.
    + done.
Qed.

Lemma removeLeadingNumbers_clean s (bol : bool) : all_denom_runes s = true ->
  (if bol then starts_with_letter s else true) = true -> remove_leading_numbers_from bol s = s.
Proof.
  revert bol. induction s as [|c s IH]; intros bol Hr Hl; [done|]. cbn in *.
  apply andb_true_iff in Hr as [Hc Hr].
  assert (is_newline c = false) as -> by (destruct c as [[] [] [] [] [] [] [] []]; done).
  assert (bol && is_digit c = false) as ->.
  { destruct bol; [|done]. cbn. destruct c as [[] [] [] [] [] [] [] []]; done. }
  by rewrite IH.
Qed.

Lemma keep_denom_runes_clean s : all_denom_runes s = true -> keep_denom_runes s = s.
Proof.
  induction s as [|c s IH]; [done|]. cbn. intros [-> Hr]%andb_true_iff. by rewrite IH.
Qed.

(** The sanitized name of a token has at most 128 bytes, all of them letters,
    digits, slashes or dashes, and does not start with the prefix of an IBC or an
    ERC20 denomination; a name that is already like that and starts with a letter
    is not changed. *)
Theorem sanitized_name_is_clean name :
  let r := SanitizeERC20Name name in
  all_denom_runes r = true ∧ (String.length r <= 128)%nat ∧
  HasPrefix r "ibc/" = false ∧ HasPrefix r "erc20/" = false ∧
  (all_denom_runes name = true -> starts_with_letter name = true -> (String.length name <= 128)%nat ->
   HasPrefix name "ibc/" = false -> HasPrefix name "erc20/" = false -> r = name).
Proof.
  cbv zeta. unfold SanitizeERC20Name, removeInvalidPrefixes.
  pose proof (removeSpecialChars_spec (removeLeadingNumbers name)) as Hr.
  set (n := removeSpecialChars _) in *.
  set (t := if (128 <? String.length n)%nat then take_bytes 128 n else n).
  assert (all_denom_runes t = true ∧ (String.length t <= 128)%nat) as [Ht Hl].
  { unfold t. destruct (Nat.ltb_spec 128 (String.length n)).
    - split; [by apply take_bytes_runes|]. rewrite take_bytes_length; lia.
    - done. }
  destruct (remove_invalid_prefixes_spec (String.length t) t) as (? & ? & ? & Hrr); [done|].
  split_and!; [by apply Hrr|lia|done|done|].
  intros N1 N2 N3 N4 N5. assert (t = name) as ->.
  { unfold t, n, removeLeadingNumbers. rewrite removeLeadingNumbers_clean by done.
    assert (removeSpecialChars name = name) as ->.
    { destruct name as [|c s]; [done|]. cbn in *. rewrite N2.
      apply andb_true_iff in N1 as [_ N1]. by rewrite keep_denom_runes_clean. }
    by destruct (Nat.ltb_spec 128 (String.length name)); [lia|]. }
  destruct name as [|c s]; [done|]. cbn [String.length remove_invalid_prefixes]. by rewrite N4, N5.
Qed.

(** ** Metadata *)

Lemma equal_strings_spec a b : length a = length b -> equal_strings a b = true <-> a = b.
Proof.
  revert b. induction a as [|x a IH]; intros [|y b]; cbn; try done. intros [= Hl].
  rewrite andb_true_iff, String.eqb_eq, (IH b Hl). naive_solver.
Qed.

Lemma EqualStringSlice_spec a b : EqualStringSlice a b = true <-> a = b.
Proof.
  unfold EqualStringSlice. destruct (Nat.eqb_spec (length a) (length b)) as [Hl|Hl]; cbn.
  - by apply equal_strings_spec.
  - split; [done|]. by intros ->.
Qed.

Lemma equal_units_spec a b : length a = length b -> equal_units a b = Ok tt <-> a = b.
Proof.
  revert b. induction a as [|v a IH]; intros [|u b]; cbn; try done. intros [= Hl].
  destruct (negb _ || negb _ || negb _) eqn:E.
  - split; [done|]. intros [= -> ->]. rewrite Z.eqb_refl, String.eqb_refl in E. cbn in E.
    by rewrite (proj2 (EqualStringSlice_spec _ _) eq_refl) in E.
  - apply orb_false_iff in E as [[H1 H2]%orb_false_iff H3].
    apply negb_false_iff in H1, H2, H3. apply Z.eqb_eq in H1. apply String.eqb_eq in H2.
    apply EqualStringSlice_spec in H3. rewrite (IH b Hl). destruct v, u; cbn in *. naive_solver.
Qed.

(** A coin whose metadata is already stored can be registered exactly with
    metadata that agrees in base, description, display, name, symbol and every
    denomination unit, with its aliases in order.  The two URI fields are not
    compared. *)
Theorem equal_metadata_spec a b :
  EqualMetadata a b = Ok tt <->
  Meta_Base a = Meta_Base b ∧ Meta_Description a = Meta_Description b ∧ Meta_Display a = Meta_Display b ∧
  Meta_Name a = Meta_Name b ∧ Meta_Symbol a = Meta_Symbol b ∧ Meta_DenomUnits a = Meta_DenomUnits b.
Proof.
  unfold EqualMetadata. case_match eqn:E.
  - rewrite !andb_true_iff, !String.eqb_eq in E.
    destruct (Nat.eqb_spec (length (Meta_DenomUnits a)) (length (Meta_DenomUnits b))) as [Hl|Hl]; cbn.
    + rewrite equal_units_spec by done. tauto.
    + split; [done|]. intros (_ & _ & _ & _ & _ & Hu). by rewrite Hu in Hl.
  - split; [done|]. intros (H1 & H2 & H3 & H4 & H5 & _).
    by rewrite H1, H2, H3, H4, H5, !String.eqb_refl in E.
Qed.

(** The rule for the first character only removes one character, so a digit that
    follows it becomes the first one. *)
Example sanitized_name_may_start_with_digit : SanitizeERC20Name "$1abc" = "1abc".
Proof. reflexivity. Qed.

(** ** Witnesses *)

Definition ex_blank_store : Store := mkStore (Some (mkParams true true)) ∅ ∅ ∅.

Lemma ex_erc20_store_ok : pairs_ok ex_erc20_store.
Proof.
  assert (ex_erc20_store = add_pair ex_native_pair (add_pair ex_external_pair ex_blank_store)) as ->
    by (vm_compute; reflexivity).
  apply add_pair_ok; [apply add_pair_ok|..]; try (vm_compute; reflexivity).
  - by split.
  - by intros tp ?.
  - intros tp _ E. by apply append_inj_l in E.
Qed.

(** A token contract that is not registered yet, and a coin without a pair. *)
Definition ex_new : string := pad20 "fresh".
Definition ex_register_world : EvmWorld :=
  (mkRefWorld {[(ex_alice, "ibc/NEW") := 5%N]} {["ibc/NEW" := 5%N]} {[ex_alice := false]},
   mkEvmState ∅ {[ex_new := mkRefToken "New token" "NEW" 8]} ∅ ∅).
Definition ex_register : Chain EvmWorld Store := mkChain ex_register_world ex_erc20_store [].
Definition ex_meta : Metadata := mkMetadata "a coin" [mkDenomUnit "ibc/NEW" 0 []] "ibc/NEW" "ibc/NEW" "new" "NEW" "" "".

Definition ex_keeper : Keeper := mkKeeper "gov".

Lemma ref_no_collision (s : Store) tp : no_collision s tp.
Proof. intros tp' _ E. by apply append_inj_l in E. Qed.

Definition ex_steps : Chain EvmWorld Store :=
  (deliver (ToggleTokenConversionProposal ex_keeper (mkMsgToggle "gov" "" "" "ibc/ABC"))
    (deliver (RegisterERC20Proposal ex_keeper (mkMsgRegisterERC20 "gov" "" "" (Address_String ex_new))) ex_register).2).2.

Lemma token_pairs_consistent_witness :
  pairs_ok (store ex_steps) ∧ size (st_pairs (store ex_steps)) = 3%nat.
Proof.
  split; [|vm_compute; reflexivity].
  apply (token_pairs_consistent ex_keeper ex_register); [|exact ex_erc20_store_ok].
  eapply erc20_reach_step; [eapply erc20_reach_step; [apply erc20_reach_refl|]|apply erc20_toggle].
  apply erc20_register_erc20. intros. apply ref_no_collision.
Defined.

Lemma registration_is_found_witness :
  let tp := NewTokenPair (CreateAddress ModuleAddress 0) "ibc/NEW" true OWNER_MODULE in
  let c1 := (RegisterCoin ex_meta ex_register).2 in
  find_pair "ibc/NEW" c1 = (Ok (Some tp), c1) ∧
  RegisterCoin ex_meta c1 = (Err ErrTokenPairAlreadyExists, c1).
Proof.
  destruct (registration_is_found ex_meta ex_new
    (NewTokenPair (CreateAddress ModuleAddress 0) "ibc/NEW" true OWNER_MODULE)
    (NewTokenPair ex_new (CreateDenom (Address_String ex_new)) true OWNER_EXTERNAL)
    ex_register (RegisterCoin ex_meta ex_register).2 (RegisterERC20 ex_new ex_register).2)
    as [(_ & H1 & _ & _ & H2) _].
  - apply pad20_ok.
  - apply run_Ok. vm_compute. reflexivity.
  - apply run_Ok. vm_compute. reflexivity.
  - vm_compute. reflexivity.
  - vm_compute. reflexivity.
  - split; [exact H1|exact H2].
Defined.

Lemma toggle_switches_witness :
  ∃ c1, ToggleConversion "ibc/ABC" ex_erc20 = (Ok (flip_pair ex_native_pair), c1) ∧ world c1 = ex_erc20_world ∧
    find_pair "ibc/ABC" c1 = (Ok (Some (flip_pair ex_native_pair)), c1) ∧
    (true = true -> MintingEnabled ex_alice ex_alice "ibc/ABC" c1 = (Err ErrERC20TokenPairDisabled, c1)) ∧
    ToggleConversion "ibc/ABC" c1 = (Ok ex_native_pair, ex_erc20).
Proof.
  apply (toggle_switches "ibc/ABC" ex_alice ex_alice ex_native_pair (mkParams true true) ex_erc20).
  - exact ex_erc20_store_ok.
  - vm_compute. reflexivity.
  - reflexivity.
  - reflexivity.
Defined.

Lemma erc20_genesis_roundtrip_witness :
  ∃ g, ExportGenesis ex_erc20 = (Ok g, ex_erc20) ∧
    InitGenesis g (mkChain ex_register_world (mkStore None ∅ ∅ ∅) [])
    = (Ok tt, mkChain ex_register_world ex_erc20_store []).
Proof.
  apply (erc20_genesis_roundtrip (mkParams true true) (mkAccount "module:erc20" true) ex_register_world
    ex_erc20 (mkChain ex_register_world (mkStore None ∅ ∅ ∅) [])).
  - exact ex_erc20_store_ok.
  - reflexivity.
  - reflexivity.
  - reflexivity.
Defined.

Lemma sanitized_name_is_clean_witness : SanitizeERC20Name "USD-Coin" = "USD-Coin".
Proof. apply (sanitized_name_is_clean "USD-Coin"); vm_compute; try reflexivity. lia. Defined.
