(* ===== verification/Csr.v ===== *)
(** * x/csr: contract secured revenue

    A share of the fee of a transaction to a registered contract goes to the
    Turnstile contract, the rest is burnt.  [Store] keeps the CSR objects by the
    bytes of their NFT number, the NFT of every registered contract, and the
    address of the Turnstile. *)

From Stdlib Require Import Ascii.
From stdpp Require Import base gmap strings list.
From S2P Require Import Prelude Golang Sdk Ethereum.

#[local] Open Scope Z_scope.
#[local] Open Scope go_scope.

(** ** Types *)

Definition ModuleName : string := "csr".

Definition ErrSmartContractSupply : error := Registered ModuleName 1000.
Definition ErrDuplicateSmartContracts : error := Registered ModuleName 1001.
Definition ErrInvalidSmartContractAddress : error := Registered ModuleName 1002.
Definition ErrInvalidParams : error := Registered ModuleName 1003.

Definition ErrPrevRegisteredSmartContract : error := Registered ModuleName 2000.
Definition ErrFeeDistribution : error := Registered ModuleName 2001.
Definition ErrContractDeployments : error := Registered ModuleName 2004.
Definition ErrMethodCall : error := Registered ModuleName 2005.
Definition ErrRegisterInvalidContract : error := Registered ModuleName 2007.
Definition ErrNonexistentCSR : error := Registered ModuleName 2009.
Definition ErrNFTNotFound : error := Registered ModuleName 2010.
Definition ErrDuplicateNFTID : error := Registered ModuleName 2011.

Definition TurnstileEventRegister : string := "Register".
Definition TurnstileEventUpdate : string := "Assign".

Record CSR := mkCSR { Contracts : list string; Id : Z; Txs : Z; Revenue : Z }.
Record Params := mkParams { EnableCsr : bool; CsrShares : Z }.
Record GenesisState := mkGenesisState { Gen_Params : Params; Gen_Csrs : list CSR; Gen_TurnstileAddress : string }.
Record MsgUpdateParams := mkMsgUpdateParams { Upd_Authority : string; Upd_Params : Params }.
Record RegisterCSREvent := mkRegisterCSREvent { Reg_SmartContract : string; Reg_Recipient : string; Reg_TokenId : Z }.
Record UpdateCSREvent := mkUpdateCSREvent { Ass_SmartContract : string; Ass_TokenId : Z }.

#[export] Instance CSR_eq_dec : EqDecision CSR.
Proof. solve_decision. Defined.

(** What only this module uses of ethermint: the validation of addresses, the
    decoding of the Turnstile's events, and [evmKeeper.GetAccount(addr)] with
    [acc.IsContract()]. *)
Class CsrDeps (W : Type) := {
  ValidateNonZeroAddress : string -> outcome unit;
  UnpackRegister : string -> outcome RegisterCSREvent;
  UnpackUpdate : string -> outcome UpdateCSREvent;
  Evm_GetAccount : W -> string -> option bool;
  Csr_GetModuleAccount : string -> M W (option Account)
}.

(** The parts of a receipt and of a message the hook reads. *)
Record Receipt := mkReceipt { rcpt_GasUsed : Z; rcpt_Logs : list EthLog }.
Record TxMessage := mkTxMessage { tx_To : option string; tx_GasPrice : Z }.

(** *** csr.go, params.go, genesis.go of types *)

Definition NewCSR (contracts : list string) (id : Z) : CSR := mkCSR contracts id 0 0.

Definition DefaultEnableCSR : bool := false.
Definition DefaultCSRShares : Z := LegacyNewDecWithPrec 20 2.
Definition NewParams (enableCSR : bool) (csrShares : Z) : Params := mkParams enableCSR csrShares.
Definition DefaultParams : Params := NewParams DefaultEnableCSR DefaultCSRShares.
Definition ValidateEnableCSR (b : bool) : outcome unit := Ok tt.
Definition ValidateShares (v : Z) : outcome unit :=
  if v <? 0 then Err ErrInvalidParams
  else if dec_unit <? v then Err ErrInvalidParams
  else Ok tt.
Definition ParamSetPairs (p : Params) : list (outcome unit) :=
  [ValidateEnableCSR (EnableCsr p); ValidateShares (CsrShares p)].
Definition Params_Validate (p : Params) : outcome unit :=
  let? _ := ValidateEnableCSR (EnableCsr p) in
  ValidateShares (CsrShares p).

Definition NewGenesisState (params : Params) (csrs : list CSR) (turnstileAddress : string) : GenesisState :=
  mkGenesisState params csrs turnstileAddress.
Definition DefaultGenesis : GenesisState := NewGenesisState DefaultParams [] "".
Definition GenesisState_Validate (gs : GenesisState) : outcome unit := Params_Validate (Gen_Params gs).

Section validate.
Context {W : Type} `{CsrDeps W}.

Fixpoint validate_contracts (contracts : list string) (seen : gset string) : outcome unit :=
  match contracts with
  | [] => Ok tt
  | c :: contracts' =>
      match ValidateNonZeroAddress c with
      | Panic => Panic
      | Err _ => Err ErrInvalidSmartContractAddress
      | Ok _ =>
          if bool_decide (c ∈ seen) then Err ErrDuplicateSmartContracts
          else validate_contracts contracts' ({[c]} ∪ seen)
      end
  end.

Definition CSR_Validate (csr : CSR) : outcome unit :=
  let? _ := validate_contracts (Contracts csr) ∅ in
  if (length (Contracts csr) <? 1)%nat then Err ErrSmartContractSupply else Ok tt.

End validate.

(** *** Number keys: little-endian, eight bytes *)

Fixpoint le_bytes (n : nat) (z : Z) : string :=
  match n with
  | O => EmptyString
  | S n => String (ascii_of_N (Z.to_N (z mod 256))) (le_bytes n (z / 256))
  end.
Fixpoint of_le_bytes (s : string) : Z :=
  match s with
  | EmptyString => 0
  | String c s' => Z.of_N (N_of_ascii c) + 256 * of_le_bytes s'
  end.
Definition UInt64ToBytes (number : Z) : string := le_bytes 8 number.
(** [LittleEndian.Uint64] reads the first eight bytes and panics on fewer. *)
Definition BytesToUInt64 (bz : string) : outcome Z :=
  if (String.length bz <? 8)%nat then Panic else Ok (of_le_bytes (take_bytes 8 bz)).

(** ** The keeper *)

Record Store := mkStore {
  st_params : option Params;
  st_csrs : gmap string CSR;
  st_contracts : gmap string string;
  st_turnstile : option string
}.

Record Keeper := mkKeeper { FeeCollectorName : string; authority : string }.

(** The variable [contracts.TurnstileContract]. *)
Definition turnstile_abi : string := "TurnstileContract".

Section keeper.
Context {W : Type} `{SdkMath} `{SdkTypes} `{ParamSubspace} `{EthTypes} `{Abi}.
Context {AK : AccountKeeper W} {BK : BankKeeper W} {EK : EvmKeeper W} {CD : CsrDeps W}.
#[local] Abbreviation C := (Chain W Store).

Definition ModuleAddress : string := BytesToAddress (NewModuleAddress ModuleName).

(** *** keeper.go, params.go, csr.go *)

Definition NewKeeper (feeCollectorName auth : string) : Keeper := mkKeeper feeCollectorName auth.
Definition GetAuthority (k : Keeper) : string := authority k.

Definition GetParams : M C Params :=
  let* p := get_store st_params in
  match p with Some p => ret p | None => panic end.

Definition GetDefaultParams : Params := DefaultParams.

Definition SetParams (params : Params) : M C unit :=
  do! lift (SetParamSet_check (ParamSetPairs params));
  mod_store (fun s => mkStore (Some params) (st_csrs s) (st_contracts s) (st_turnstile s)).

Definition GetCSR (nftId : Z) : M C (option CSR) := get_store (fun s => st_csrs s !! UInt64ToBytes nftId).

Definition GetAllCSRs : M C (list CSR) := get_store (fun s => (kv_iterate (st_csrs s)).*2).

Definition GetNFTByContract (address : string) : M C (option Z) :=
  let* bz := get_store (fun s => st_contracts s !! address) in
  match bz with
  | None => ret None
  | Some bz =>
      if String.eqb bz "" then ret None
      else let* nftId := lift (BytesToUInt64 bz) in ret (Some nftId)
  end.

Definition SetCSR (csr : CSR) : M C unit :=
  let nftId := UInt64ToBytes (Id csr) in
  do! mod_store (fun s => mkStore (st_params s) (<[nftId := csr]> (st_csrs s)) (st_contracts s) (st_turnstile s));
  for_each (Contracts csr) (fun contract =>
    mod_store (fun s => mkStore (st_params s) (st_csrs s) (<[contract := nftId]> (st_contracts s)) (st_turnstile s))).

Definition GetTurnstile : M C (option string) :=
  let* bz := get_store st_turnstile in
  match bz with
  | None => ret None
  | Some bz => if String.eqb bz "" then ret None else ret (Some (BytesToAddress bz))
  end.

Definition SetTurnstile (turnstile : string) : M C unit :=
  mod_store (fun s => mkStore (st_params s) (st_csrs s) (st_contracts s) (Some turnstile)).

(** *** event_handler.go *)

Definition ValidateContract (contract : string) : M C unit :=
  let* found := GetNFTByContract (Address_String contract) in
  do! reject (if found is Some _ then true else false) ErrPrevRegisteredSmartContract;
  let* account := get_world (fun w => Evm_GetAccount w contract) in
  reject (match account with Some true => false | _ => true end) ErrRegisterInvalidContract.

(** [big.Int.Uint64] keeps the low 64 bits. *)
Definition RegisterEvent (data : string) : M C unit :=
  let* event := lift (UnpackRegister data) in
  do! ValidateContract (Reg_SmartContract event);
  let nftID := wrap64 (Reg_TokenId event) in
  let* found := GetCSR nftID in
  do! reject (if found is Some _ then true else false) ErrDuplicateNFTID;
  let csr := NewCSR [Address_String (Reg_SmartContract event)] nftID in
  do! lift (CSR_Validate csr);
  SetCSR csr.

Definition UpdateEvent (data : string) : M C unit :=
  let* event := lift (UnpackUpdate data) in
  do! ValidateContract (Ass_SmartContract event);
  let nftID := wrap64 (Ass_TokenId event) in
  let* found := GetCSR nftID in
  match found with
  | None => fail ErrNFTNotFound
  | Some csr =>
      let csr := mkCSR (Contracts csr ++ [Address_String (Ass_SmartContract event)]) (Id csr) (Txs csr) (Revenue csr) in
      do! lift (CSR_Validate csr);
      SetCSR csr
  end.

(** *** evm.go *)

Definition DefaultGasLimit : Z := 30000000.

Definition CallEVM (from : string) (to : option string) (amount : Z) (data : string) (commit : bool)
    : M C EvmResponse :=
  let* nonce := get_world (fun w => GetSequence w from) in
  let* nonce := lift nonce in
  let* res := ext (ApplyMessage
    (mkEthMessage from to nonce amount DefaultGasLimit 0 data (negb commit)) commit) in
  do! reject (res_Failed res) (Foreign "ErrVMExecution");
  ret res.

(** An error of [m] is replaced by the one it is wrapped in as text. *)
Definition or_fail {A} (m : M C A) (e : error) : M C A :=
  let* r := attempt m in
  match r with inl a => ret a | inr _ => fail e end.

Definition CallMethod (method abi from : string) (contractAddr : string) (amount : Z) (args : list AbiArg)
    : M C EvmResponse :=
  let* data := or_fail (lift (abi_Pack abi method args)) ErrMethodCall in
  or_fail (CallEVM from (Some contractAddr) amount data true) ErrMethodCall.

Definition DeployContract (abi : string) (args : list AbiArg) : M C string :=
  let* ctorArgs := or_fail (lift (abi_Pack abi "" args)) ErrContractDeployments in
  let data := abi_Bin abi +:+ ctorArgs in
  let* nonce := get_world (fun w => GetSequence w ModuleAddress) in
  let* nonce := or_fail (lift nonce) ErrContractDeployments in
  do! or_fail (CallEVM ModuleAddress None 0 data true) ErrContractDeployments;
  ret (CreateAddress ModuleAddress nonce).

Definition DeployTurnstile : M C string := or_fail (DeployContract turnstile_abi []) ErrContractDeployments.

(** *** evm_hooks.go *)

(** The loop of [processEvents], from the log that is read next. *)
Fixpoint process_logs (turnstileAddress : string) (logs : list EthLog) : M C unit :=
  match logs with
  | [] => ret tt
  | log :: logs' =>
      match log_Topics log with
      | [] => process_logs turnstileAddress logs'
      | eventID :: _ =>
          if negb (String.eqb (log_Address log) turnstileAddress) then process_logs turnstileAddress logs'
          else
            match abi_EventByID turnstile_abi eventID with
            | Panic => panic
            | Err _ => ret tt
            | Ok name =>
                let* r := attempt
                  (if String.eqb name TurnstileEventRegister then RegisterEvent (log_Data log)
                   else if String.eqb name TurnstileEventUpdate then UpdateEvent (log_Data log)
                   else ret tt) in
                match r with
                | inr _ => ret tt
                | inl _ => process_logs turnstileAddress logs'
                end
            end
      end
  end.

Definition processEvents (receipt : Receipt) : M C unit :=
  let* turnstile := GetTurnstile in
  match turnstile with
  | None => panic
  | Some turnstileAddress => process_logs turnstileAddress (rcpt_Logs receipt)
  end.

Definition burn_fees (coins : list Coin) : M C unit :=
  or_fail (ext (BurnCoins ModuleName coins)) ErrFeeDistribution.

(** The fee of a transaction to a contract of the CSR [nftID]. *)
Definition distribute_fee (params : Params) (fee nftID : Z) : M C unit :=
  let* found := GetCSR nftID in
  match found with
  | None => fail ErrNonexistentCSR
  | Some csr =>
      let* feeDec := lift (dec_FromInt fee) in
      let* share := lift (dec_Mul feeDec (CsrShares params)) in
      let* csrFee := lift (dec_TruncateInt share) in
      let* remainingFee := lift (int_Sub fee csrFee) in
      let burnRemainingFees := [mkCoin EvmDenom remainingFee] in
      let* turnstile := GetTurnstile in
      match turnstile with
      | None => fail ErrContractDeployments
      | Some turnstileAddress =>
          do! or_fail (CallMethod "distributeFees" turnstile_abi ModuleAddress turnstileAddress csrFee
                         [ArgBig nftID]) ErrFeeDistribution;
          do! burn_fees burnRemainingFees;
          let* revenue := lift (int_Add (Revenue csr) csrFee) in
          SetCSR (mkCSR (Contracts csr) (Id csr) (wrap64 (Txs csr + 1)) revenue)
      end
  end.

Definition PostTxProcessing (k : Keeper) (msg : TxMessage) (receipt : Receipt) : M C unit :=
  let* params := GetParams in
  if negb (EnableCsr params) then ret tt
  else
    do! processEvents receipt;
    if rcpt_GasUsed receipt =? 0 then ret tt
    else
      let* fee := lift (int_Mul (rcpt_GasUsed receipt) (tx_GasPrice msg)) in
      let fees := [mkCoin EvmDenom fee] in
      do! or_fail (ext (SendCoinsFromModuleToModule (FeeCollectorName k) ModuleName fees)) ErrFeeDistribution;
      match tx_To msg with
      | None => burn_fees fees
      | Some contract =>
          let* nft := GetNFTByContract (Address_String contract) in
          match nft with
          | None => burn_fees fees
          | Some nftID => distribute_fee params fee nftID
          end
      end.

(** *** msg_server.go, grpc_query.go, genesis.go *)

Definition msg_UpdateParams (k : Keeper) (req : MsgUpdateParams) : M C unit :=
  do! reject (negb (String.eqb (GetAuthority k) (Upd_Authority req))) (Foreign "ErrInvalidSigner");
  do! lift (Params_Validate (Upd_Params req));
  SetParams (Upd_Params req).

Definition query_Params : M C Params := GetParams.

Definition query_CSRByNFT (request : option Z) : M C CSR :=
  match request with
  | None => fail (Foreign "codes.InvalidArgument")
  | Some nftId =>
      let* found := GetCSR nftId in
      match found with Some csr => ret csr | None => fail (Foreign "codes.NotFound") end
  end.

(** The CSR is dereferenced without looking whether it was found. *)
Definition query_CSRByContract (request : option string) : M C CSR :=
  match request with
  | None => fail (Foreign "codes.InvalidArgument")
  | Some address =>
      do! reject (IsBlank address) (Foreign "codes.InvalidArgument");
      do! match ValidateNonZeroAddress address with
          | Ok _ => ret tt
          | Panic => panic
          | Err _ => fail (Foreign "codes.InvalidArgument")
          end;
      let* nft := GetNFTByContract address in
      match nft with
      | None => fail (Foreign "codes.NotFound")
      | Some nft =>
          let* found := GetCSR nft in
          match found with Some csr => ret csr | None => panic end
      end
  end.

Definition query_Turnstile : M C string :=
  let* address := GetTurnstile in
  match address with
  | None => fail (Foreign "codes.NotFound")
  | Some address => ret (Address_String address)
  end.

(** *** module.go *)

Definition BeginBlock : M C unit :=
  let* found := GetTurnstile in
  match found with
  | Some _ => ret tt
  | None =>
      let* params := GetParams in
      if EnableCsr params then
        let* turnstile := attempt DeployTurnstile in
        match turnstile with
        | inr _ => panic
        | inl turnstile => SetTurnstile turnstile
        end
      else ret tt
  end.

Definition InitGenesis (genState : GenesisState) : M C unit :=
  do! SetParams (Gen_Params genState);
  do! for_each (Gen_Csrs genState) SetCSR;
  do! (if negb (String.eqb (Gen_TurnstileAddress genState) "")
       then SetTurnstile (HexToAddress (Gen_TurnstileAddress genState)) else ret tt);
  let* acc := ext (Csr_GetModuleAccount ModuleName) in
  match acc with None => panic | Some _ => ret tt end.

Definition ExportGenesis : M C GenesisState :=
  let* params := GetParams in
  let* csrs := GetAllCSRs in
  let* turnstile := GetTurnstile in
  ret (mkGenesisState params csrs
    (match turnstile with Some addr => Address_String addr | None => Gen_TurnstileAddress DefaultGenesis end)).

End keeper.
