(* ===== verification/CsrFacts.v ===== *)
(** * Theorems about x/csr

    The register of contracts stays consistent; the fee of a transaction is split
    without loss; which transactions the hook makes fail; genesis. *)

From Stdlib Require Import Ascii.
From stdpp Require Import base gmap strings list.
From S2P Require Import Prelude Golang Sdk Ethereum Csr Reference ReferenceEvm.

#[local] Open Scope Z_scope.
#[local] Open Scope go_scope.

(** ** Number keys *)

Lemma ascii_N_byte z : 0 <= z < 256 -> Z.of_N (N_of_ascii (ascii_of_N (Z.to_N z))) = z.
Proof. intros. rewrite N_ascii_embedding; lia. Qed.

Lemma of_le_bytes_le n z : 0 <= z < 256 ^ Z.of_nat n -> of_le_bytes (le_bytes n z) = z.
Proof.
  revert z. induction n as [|n IH]; intros z Hz; cbn [le_bytes of_le_bytes]; [cbn in Hz; lia|].
  rewrite ascii_N_byte by (apply Z.mod_pos_bound; lia).
  rewrite Nat2Z.inj_succ, Z.pow_succ_r in Hz by lia.
  rewrite IH; [pose proof (Z.div_mod z 256); lia|].
  split; [apply Z.div_pos; lia|apply Z.div_lt_upper_bound; lia].
Qed.

Lemma le_bytes_length n z : String.length (le_bytes n z) = n.
Proof. revert z. induction n as [|n IH]; intros z; cbn; [done|]. by rewrite IH. Qed.

Lemma bytes_roundtrip n : is_uint64 n -> BytesToUInt64 (UInt64ToBytes n) = Ok n.
Proof.
  intros Hn. unfold BytesToUInt64, UInt64ToBytes. rewrite le_bytes_length. cbn [Nat.ltb Nat.leb].
  f_equal. rewrite <-(le_bytes_length 8 n) at 1. rewrite <-(append_nil_r (le_bytes 8 n)) at 2.
  rewrite take_bytes_app. apply of_le_bytes_le. exact Hn.
Qed.

Lemma UInt64ToBytes_inj a b : is_uint64 a -> is_uint64 b -> UInt64ToBytes a = UInt64ToBytes b -> a = b.
Proof. intros Ha Hb E. apply bytes_roundtrip in Ha, Hb. rewrite E in Ha. congruence. Qed.

Lemma UInt64ToBytes_nonempty n : String.eqb (UInt64ToBytes n) "" = false.
Proof. done. Qed.

Section csr_facts.
Context {W : Type} {SM : SdkMath} {SML : SdkMathLaws} {ST : SdkTypes} {STL : SdkTypesLaws}.
Context {PS : ParamSubspace} {PSL : ParamSubspaceLaws} {ET : EthTypes} {ETL : EthTypesLaws} {AB : Abi}.
Context {AK : AccountKeeper W} {BK : BankKeeper W} {BL : BankLaws W} {EK : EvmKeeper W} {CD : CsrDeps W}.
#[local] Abbreviation C := (Chain W Store).

(** ** The register *)

(** Every CSR is stored under its number and lists contracts, each once, that
    are all registered to it; a registered contract is listed by its CSR. *)
Record csrs_ok (s : Store) : Prop := {
  ok_csr key csr : st_csrs s !! key = Some csr ->
    key = UInt64ToBytes (Id csr) ∧ is_uint64 (Id csr) ∧ NoDup (Contracts csr) ∧ Contracts csr ≠ [] ∧
    ∀ a, a ∈ Contracts csr -> st_contracts s !! a = Some key;
  ok_contract a key : st_contracts s !! a = Some key ->
    ∃ csr, st_csrs s !! key = Some csr ∧ a ∈ Contracts csr
}.

Definition index_contracts (key : string) (contracts : list string) (m : gmap string string) : gmap string string :=
  foldl (fun m a => <[a := key]> m) m contracts.

Definition put_csr (csr : CSR) (s : Store) : Store :=
  mkStore (st_params s) (<[UInt64ToBytes (Id csr) := csr]> (st_csrs s))
    (index_contracts (UInt64ToBytes (Id csr)) (Contracts csr) (st_contracts s)) (st_turnstile s).

Lemma index_contracts_lookup key contracts m a :
  index_contracts key contracts m !! a = if decide (a ∈ contracts) then Some key else m !! a.
Proof.
  unfold index_contracts. revert m. induction contracts as [|b contracts IH]; intros m; cbn.
  - case_decide; [by apply not_elem_of_nil in H|done].
  - rewrite IH. destruct (decide (a ∈ contracts)); [rewrite decide_True; [done|set_solver]|].
    destruct (decide (a = b)) as [->|Hne].
    + rewrite lookup_insert_eq, decide_True; [done|set_solver].
    + rewrite lookup_insert_ne, decide_False by set_solver. done.
Qed.

Lemma SetCSR_run csr (c : C) : SetCSR csr c = (Ok tt, set_store (put_csr csr (store c)) c).
Proof.
  unfold SetCSR, bind, mod_store at 1, modify. unfold put_csr, index_contracts.
  assert (∀ l (c : C), for_each l (fun contract => mod_store (fun s => mkStore (st_params s) (st_csrs s)
      (<[contract := UInt64ToBytes (Id csr)]> (st_contracts s)) (st_turnstile s))) c =
    (Ok tt, set_store (mkStore (st_params (store c)) (st_csrs (store c))
      (foldl (fun m a => <[a := UInt64ToBytes (Id csr)]> m) (st_contracts (store c)) l)
      (st_turnstile (store c))) c)) as Hl.
  { clear. induction l as [|a l IH]; intros c; cbn.
    - by destruct c as [w [] ev].
    - unfold bind. cbn. by rewrite IH. }
  rewrite Hl. done.
Qed.

Lemma put_csr_ok csr s :
  csrs_ok s -> is_uint64 (Id csr) -> NoDup (Contracts csr) -> Contracts csr ≠ [] ->
  (∀ old a, st_csrs s !! UInt64ToBytes (Id csr) = Some old -> a ∈ Contracts old -> a ∈ Contracts csr) ->
  (∀ a key, a ∈ Contracts csr -> st_contracts s !! a = Some key -> key = UInt64ToBytes (Id csr)) ->
  csrs_ok (put_csr csr s).
Proof.
  intros [Oc Oi] Hid Hnd Hne Hold Hfree. split; cbn.
  - intros key csr' [[<- <-]|[Hk Hl]]%lookup_insert_Some.
    + split_and!; try done. intros a Ha. rewrite index_contracts_lookup. by rewrite decide_True.
    + destruct (Oc _ _ Hl) as (? & ? & ? & ? & Hin). split_and!; try done.
      intros a Ha. rewrite index_contracts_lookup. case_decide as Hd; [|by apply Hin].
      destruct Hk. symmetry. apply (Hfree a key Hd). by apply Hin.
  - intros a key. rewrite index_contracts_lookup. case_decide as Hd.
    + intros [= <-]. exists csr. by rewrite lookup_insert_eq.
    + intros Hl. destruct (Oi _ _ Hl) as (old & Ho & Ha).
      destruct (decide (key = UInt64ToBytes (Id csr))) as [->|Hk].
      * exists csr. rewrite lookup_insert_eq. split; [done|]. by eapply Hold.
      * exists old. by rewrite lookup_insert_ne by done.
Qed.

Lemma GetCSR_Ok n r (c c' : C) : GetCSR n c = (Ok r, c') -> c' = c ∧ r = st_csrs (store c) !! UInt64ToBytes n.
Proof. unfold GetCSR. intros E. by cinv. Qed.

Lemma GetNFTByContract_run a (c : C) : csrs_ok (store c) ->
  (GetNFTByContract a c).2 = c ∧
  match st_contracts (store c) !! a with
  | None => GetNFTByContract a c = (Ok None, c)
  | Some key => ∃ csr, st_csrs (store c) !! key = Some csr ∧ key = UInt64ToBytes (Id csr) ∧
      a ∈ Contracts csr ∧ GetNFTByContract a c = (Ok (Some (Id csr)), c)
  end.
Proof.
  intros Hok. unfold GetNFTByContract, bind, get_store, gets.
  destruct (st_contracts (store c) !! a) as [key|] eqn:E; [|done].
  destruct (ok_contract _ Hok _ _ E) as (csr & Hl & Ha).
  destruct (ok_csr _ Hok _ _ Hl) as (-> & Hid & _). rewrite UInt64ToBytes_nonempty.
  unfold lift. rewrite bytes_roundtrip by done. cbn. split; [done|]. by exists csr.
Qed.

Lemma validate_contracts_NoDup l seen :
  validate_contracts l seen = Ok tt -> NoDup l ∧ ∀ a, a ∈ l -> a ∉ seen.
Proof.
  revert seen. induction l as [|a l IH]; intros seen E; cbn in E.
  - split; [constructor|]. intros a Ha. by apply not_elem_of_nil in Ha.
  - destruct (ValidateNonZeroAddress a); [|done|done].
    destruct (bool_decide_reflect (a ∈ seen)) as [|Hn]; [done|].
    apply IH in E as [Hnd Hs]. split.
    + constructor; [|done]. intros Ha. apply (Hs a Ha). set_solver.
    + intros b Hb. apply elem_of_cons in Hb as [->|Hb]; [done|]. specialize (Hs b Hb). set_solver.
Qed.

Lemma CSR_Validate_Ok csr : CSR_Validate csr = Ok tt -> NoDup (Contracts csr) ∧ Contracts csr ≠ [].
Proof.
  unfold CSR_Validate. intros E. minv. apply validate_contracts_NoDup in E0 as [Hnd _]. split; [done|].
  intros Hn. by rewrite Hn in E.
Qed.

Lemma ValidateContract_Ok a u (c c' : C) : csrs_ok (store c) -> ValidateContract a c = (Ok u, c') ->
  c' = c ∧ st_contracts (store c) !! Address_String a = None.
Proof.
  intros Hok. unfold ValidateContract. intros E. minv1.
  destruct (GetNFTByContract_run (Address_String a) c Hok) as [_ Hr].
  destruct (st_contracts (store c) !! Address_String a) as [key|].
  - destruct Hr as (csr & _ & _ & _ & Er). rewrite Er in E0. by cinv.
  - rewrite Hr in E0. by cinv.
Qed.

(** What processing events may change: the register, consistently. *)
Definition register_only (c c' : C) : Prop :=
  csrs_ok (store c') ∧ world c' = world c ∧
  st_params (store c') = st_params (store c) ∧ st_turnstile (store c') = st_turnstile (store c).

Lemma RegisterEvent_ok data u (c c' : C) : csrs_ok (store c) -> RegisterEvent data c = (Ok u, c') ->
  register_only c c'.
Proof.
  intros Hok. unfold RegisterEvent. intros E. cinv.
  match goal with H : ValidateContract _ _ = _ |- _ => apply ValidateContract_Ok in H as [-> Hfree]; [|done] end.
  match goal with H : GetCSR _ _ = _ |- _ => apply GetCSR_Ok in H as [? ?]; subst end.
  rewrite SetCSR_run in E. injection E as <-. split; [|done]. cbn [store set_store].
  match goal with H : CSR_Validate _ = _ |- _ => apply CSR_Validate_Ok in H as [Hnd Hne] end.
  case_match eqn:Hnew; [done|].
  apply put_csr_ok; [done|apply wrap64_range|done|done| |].
  - cbn [Id NewCSR]. intros old a Ho. congruence.
  - cbn [Id NewCSR Contracts]. intros a key ->%list_elem_of_singleton. congruence.
Qed.

Lemma UpdateEvent_ok data u (c c' : C) : csrs_ok (store c) -> UpdateEvent data c = (Ok u, c') ->
  register_only c c'.
Proof.
  intros Hok. unfold UpdateEvent. intros E. cinv.
  match goal with H : ValidateContract _ _ = _ |- _ => apply ValidateContract_Ok in H as [-> Hfree]; [|done] end.
  match goal with H : GetCSR _ _ = _ |- _ => apply GetCSR_Ok in H as [? ?]; subst end.
  destruct (st_csrs (store c) !! _) as [csr|] eqn:Hl; [|done].
  cinv. rewrite SetCSR_run in E. injection E as <-. split; [|done]. cbn [store set_store].
  match goal with H : CSR_Validate _ = _ |- _ => apply CSR_Validate_Ok in H as [Hnd Hne] end.
  destruct (ok_csr _ Hok _ _ Hl) as (Hk & Hid & _ & _ & Hin).
  apply put_csr_ok; [done|done|done|done| |].
  - cbn [Id Contracts]. rewrite <-Hk. intros old a Ho Ha. rewrite Hl in Ho. injection Ho as <-. set_solver.
  - cbn [Id Contracts]. rewrite <-Hk. intros a key [Ha|Ha%list_elem_of_singleton]%elem_of_app Hc.
    + rewrite (Hin _ Ha) in Hc. congruence.
    + congruence.
Qed.

(** *** Events *)

(** Reading leaves the state alone; an event that is refused has written
    nothing. *)
Definition reads {A} (m : M C A) : Prop := ∀ c, (m c).2 = c.
Definition refuses_cleanly {A} (m : M C A) : Prop := ∀ c e c', m c = (Err e, c') -> c' = c.

Lemma refuses_bind {A B} (m : M C A) (k : A -> M C B) :
  reads m -> (∀ a, refuses_cleanly (k a)) -> refuses_cleanly (bind m k).
Proof.
  intros Hm Hk c e c'. specialize (Hm c). unfold bind.
  destruct (m c) as [[a|e1|] c1]; cbn in Hm; subst; [apply Hk| |done]. by intros [= _ <-].
Qed.

Lemma reads_bind {A B} (m : M C A) (k : A -> M C B) : reads m -> (∀ a, reads (k a)) -> reads (bind m k).
Proof.
  intros Hm Hk c. specialize (Hm c). unfold bind.
  destruct (m c) as [[a|e1|] c1]; cbn in Hm; subst; [apply Hk|done|done].
Qed.

Lemma reads_GetNFT a : reads (GetNFTByContract a).
Proof.
  unfold GetNFTByContract. apply reads_bind; [done|]. intros [bz|]; [|done].
  case_match; [done|]. by apply reads_bind.
Qed.

Lemma reads_ValidateContract a : reads (ValidateContract a).
Proof.
  unfold ValidateContract. apply reads_bind; [apply reads_GetNFT|]. intros r.
  apply reads_bind; [by destruct r|]. intros _. apply reads_bind; [done|]. intros [[]|]; done.
Qed.

Lemma refuses_SetCSR csr : refuses_cleanly (SetCSR csr).
Proof. intros c e c'. by rewrite SetCSR_run. Qed.

Lemma refuses_RegisterEvent data : refuses_cleanly (RegisterEvent data).
Proof.
  apply refuses_bind; [done|]. intros event. apply refuses_bind; [apply reads_ValidateContract|]. intros _.
  apply refuses_bind; [done|]. intros r. apply refuses_bind; [by destruct r|]. intros _.
  apply refuses_bind; [done|]. intros _. apply refuses_SetCSR.
Qed.

Lemma refuses_UpdateEvent data : refuses_cleanly (UpdateEvent data).
Proof.
  apply refuses_bind; [done|]. intros event. apply refuses_bind; [apply reads_ValidateContract|]. intros _.
  apply refuses_bind; [done|]. intros [csr|]; [|intros c e c' E; by injection E as _ <-].
  apply refuses_bind; [done|]. intros _. apply refuses_SetCSR.
Qed.

Lemma process_logs_ok turnstile logs u (c c' : C) :
  csrs_ok (store c) -> process_logs turnstile logs c = (Ok u, c') -> register_only c c'.
Proof.
  revert c. induction logs as [|log logs IH]; intros c Hok E; cbn [process_logs] in E; [by cinv|].
  destruct (log_Topics log) as [|eventID ?]; [by apply IH|].
  destruct (negb _); [by apply IH|].
  destruct (abi_EventByID _ _) as [name| |]; [|by cinv|done].
  apply bind_Ok in E as (r & c1 & Ea & E). apply attempt_Ok in Ea. destruct r as [[]|e].
  - assert (register_only c c1) as (Hok1 & Hw & Hp & Ht).
    { destruct (String.eqb name TurnstileEventRegister); [by eapply RegisterEvent_ok|].
      destruct (String.eqb name TurnstileEventUpdate); [by eapply UpdateEvent_ok|by cinv]. }
    destruct (IH _ Hok1 E) as (? & ? & ? & ?). split_and!; [done|congruence..].
  - apply ret_Ok in E as [_ <-]. assert (c1 = c) as ->; [|done].
    destruct (String.eqb name TurnstileEventRegister); [by eapply refuses_RegisterEvent|].
    destruct (String.eqb name TurnstileEventUpdate); [by eapply refuses_UpdateEvent|done].
Qed.

Lemma processEvents_ok receipt u (c c' : C) :
  csrs_ok (store c) -> processEvents receipt c = (Ok u, c') -> register_only c c'.
Proof.
  intros Hok. unfold processEvents, GetTurnstile. intros E. cinv.
  destruct (st_turnstile (store c)) as [t|]; [|by cinv].
  destruct (String.eqb t ""); [by cinv|]. cinv. by eapply process_logs_ok.
Qed.

(** ** Fees *)

Lemma or_fail_Ok {A} (m : M C A) e a (c c' : C) : or_fail m e c = (Ok a, c') -> m c = (Ok a, c').
Proof. unfold or_fail. intros E. minv1. apply attempt_Ok in E0. by case_match; minv. Qed.

(** The share is exact: the floor of [fee * CsrShares / 10^18]. *)
Lemma csr_share fee shares v1 v2 v3 :
  dec_FromInt fee = Ok v1 -> dec_Mul v1 shares = Ok v2 -> dec_TruncateInt v2 = Ok v3 ->
  v3 = Z.quot (fee * shares) dec_unit.
Proof.
  intros. arith_inv. replace (fee * dec_unit * shares) with (fee * shares * dec_unit) by ring.
  by rewrite bankers_exact.
Qed.

Lemma CallMethod_Ok method abi from to amount args res (c c' : C) :
  CallMethod method abi from to amount args c = (Ok res, c') ->
  ∃ data nonce w', abi_Pack abi method args = Ok data ∧
    ApplyMessage (mkEthMessage from (Some to) nonce amount DefaultGasLimit 0 data false) true (world c)
      = (Ok res, w') ∧ c' = set_world w' c.
Proof.
  unfold CallMethod. intros E. minv1. apply or_fail_Ok in E0, E. unfold CallEVM in E. cinv.
  by repeat eexists.
Qed.

(** The NFT of the contract a transaction calls, if it is registered. *)
Definition called_csr (s : Store) (msg : TxMessage) : option CSR :=
  to ← tx_To msg; key ← st_contracts s !! Address_String to; st_csrs s !! key.

Definition record_fee (csr : CSR) (csrFee : Z) : CSR :=
  mkCSR (Contracts csr) (Id csr) (wrap64 (Txs csr + 1)) (Revenue csr + csrFee).

(** What happens to the fee after it reached the module account [m] in [w1]. *)
Definition fee_handled (params : Params) (msg : TxMessage) (fee : Z) (m : string) (s1 : Store) (w1 : W)
    (c' : C) : Prop :=
  match called_csr s1 msg with
  | None =>
      store c' = s1 ∧
      bank_delta w1 (world c') (δ_burn m [mkCoin EvmDenom fee]) (fun d => - amount_of [mkCoin EvmDenom fee] d)
  | Some csr =>
      let csrFee := Z.quot (fee * CsrShares params) dec_unit in
      let rest := [mkCoin EvmDenom (fee - csrFee)] in
      0 < fee - csrFee ∧ store c' = put_csr (record_fee csr csrFee) s1 ∧
      ∃ t data nonce res w2, st_turnstile s1 = Some t ∧
        abi_Pack turnstile_abi "distributeFees" [ArgBig (Id csr)] = Ok data ∧
        ApplyMessage (mkEthMessage ModuleAddress (Some (BytesToAddress t)) nonce csrFee DefaultGasLimit 0 data false)
          true w1 = (Ok res, w2) ∧
        bank_delta w2 (world c') (δ_burn m rest) (fun d => - amount_of rest d)
  end.

Lemma burn_fees_Ok n u (c c' : C) : burn_fees [mkCoin EvmDenom n] c = (Ok u, c') ->
  ∃ m, GetModuleAddress ModuleName = Some m ∧ store c' = store c ∧ 0 < n ∧
    bank_delta (world c) (world c') (δ_burn m [mkCoin EvmDenom n]) (fun d => - amount_of [mkCoin EvmDenom n] d).
Proof.
  unfold burn_fees. intros E%or_fail_Ok. cinv. apply BurnCoins_effect in X as (m & ? & Hv & ? & _).
  rewrite Coins_IsValid_single in Hv. breflect. by exists m.
Qed.

Lemma GetTurnstile_Ok r (c c' : C) : GetTurnstile c = (Ok r, c') ->
  c' = c ∧ ∀ t', r = Some t' -> ∃ t, st_turnstile (store c) = Some t ∧ t' = BytesToAddress t.
Proof.
  unfold GetTurnstile. intros E. minv1. cinv1.
  destruct (st_turnstile (store c)) as [t|]; [destruct (String.eqb t "")|]; cinv; naive_solver.
Qed.

Lemma distribute_fee_Ok params fee csr u (c c' : C) msg m :
  st_csrs (store c) !! UInt64ToBytes (Id csr) = Some csr -> called_csr (store c) msg = Some csr ->
  GetModuleAddress ModuleName = Some m ->
  distribute_fee params fee (Id csr) c = (Ok u, c') ->
  fee_handled params msg fee m (store c) (world c) c'.
Proof.
  intros Hl Hc Hm. unfold distribute_fee, GetCSR. intros E. apply bind_Ok in E as (r & s0 & E0 & E).
  cinv1. rewrite Hl in E. unfold fee_handled. rewrite Hc. minv.
  match goal with H : GetTurnstile _ = _ |- _ => apply GetTurnstile_Ok in H as [-> Ht] end.
  match goal with H : match ?o with _ => _ end _ = _ |- _ => destruct o as [t'|]; [|done] end.
  destruct (Ht t' eq_refl) as (t & Hst & ->). minv.
  repeat match goal with H : or_fail _ _ _ = _ |- _ => apply or_fail_Ok in H end.
  match goal with H : CallMethod _ _ _ _ _ _ _ = _ |- _ => apply CallMethod_Ok in H as (data & nonce & w2 & Hp & Ha & ->) end.
  match goal with H : burn_fees _ _ = _ |- _ => apply burn_fees_Ok in H as (m' & Hm' & Hs & Hpos & HB) end.
  rewrite SetCSR_run in E. injection E as <-. simplify_eq.
  match goal with H : dec_TruncateInt _ = Ok _ |- _ => eapply csr_share in H; [|eassumption..]; subst end.
  arith_inv. split_and!; [done| |].
  - cbn [store set_store]. rewrite Hs. done.
  - exists t, data, nonce. do 2 eexists. split_and!; [done|done|exact Ha|exact HB].
Qed.

Lemma called_csr_spec s msg to : csrs_ok s -> tx_To msg = Some to ->
  called_csr s msg = st_contracts s !! Address_String to ≫= (fun key => st_csrs s !! key).
Proof. intros Hok E. unfold called_csr. by rewrite E. Qed.

Lemma PostTxProcessing_Ok k msg receipt params (c c' : C) :
  csrs_ok (store c) -> st_params (store c) = Some params -> EnableCsr params = true ->
  rcpt_GasUsed receipt ≠ 0 ->
  PostTxProcessing k msg receipt c = (Ok tt, c') ->
  let fee := rcpt_GasUsed receipt * tx_GasPrice msg in
  ∃ collector m c1 w1, GetModuleAddress (FeeCollectorName k) = Some collector ∧
    GetModuleAddress ModuleName = Some m ∧ 0 < fee ∧
    processEvents receipt c = (Ok tt, c1) ∧ register_only c c1 ∧
    bank_delta (world c) w1 (δ_send collector m [mkCoin EvmDenom fee]) (fun _ => 0) ∧
    fee_handled params msg fee m (store c1) w1 c'.
Proof.
  intros Hok Hp Hen Hg. unfold PostTxProcessing, GetParams. intros E.
  unfold bind at 1 2, get_store, gets in E. rewrite Hp in E. cbn [negb] in E. unfold ret at 1 in E.
  rewrite Hen in E. cbn [negb] in E. apply bind_Ok in E as ([] & c1 & Hev & E).
  pose proof (processEvents_ok _ _ _ _ Hok Hev) as Hreg. pose proof Hreg as (Hok1 & Hw1 & _).
  rewrite (proj2 (Z.eqb_neq _ _) Hg) in E. minv1. minv1. minv1. minv1. arith_inv.
  match goal with H : or_fail _ _ _ = _ |- _ => apply or_fail_Ok in H; cinv end.
  apply ModuleToModule_effect in X as (f & m & Hf & Hm & X). rewrite Hw1 in X.
  pose proof (SendCoins_valid _ _ _ _ _ X) as Hv. rewrite Coins_IsValid_single in Hv. breflect.
  apply SendCoins_effect in X as (HB & _ & _).
  exists f, m, c1, w. split_and!; try done. clear Hev Hreg HB. 
  assert (∀ c0, world c0 = w -> store c0 = store c1 -> called_csr (store c1) msg = None ->
    burn_fees [mkCoin EvmDenom (rcpt_GasUsed receipt * tx_GasPrice msg)] c0 = (Ok tt, c') ->
    fee_handled params msg (rcpt_GasUsed receipt * tx_GasPrice msg) m (store c1) w c') as Hburn.
  { intros c0 <- Hs0 Hn (m' & Hm' & Hs & _ & HB)%burn_fees_Ok. unfold fee_handled. rewrite Hn.
    simplify_eq. by rewrite Hs. }
  destruct (tx_To msg) as [to|] eqn:Eto; [|eapply Hburn; [| | |exact E]; [done|done|by unfold called_csr; rewrite Eto]].
  minv1. destruct (GetNFTByContract_run (Address_String to) (set_world w c1) Hok1) as [_ Hnft].
  pose proof (called_csr_spec _ _ _ Hok1 Eto) as Hcall. cbn [store set_world] in Hnft.
  destruct (st_contracts (store c1) !! Address_String to) as [key|] eqn:Ec.
  - destruct Hnft as (csr & Hl & -> & _ & Hrun). rewrite Hrun in E0. injection E0 as <- <-.
    eapply (distribute_fee_Ok _ _ csr tt (set_world w c1)); [done| |done|exact E].
    cbn [store set_world]. rewrite Hcall. exact Hl.
  - rewrite Hnft in E0. injection E0 as <- <-. eapply Hburn; [| | |exact E]; done.
Qed.

(** *** The theorems *)


(** The hook fails, and with it the whole transaction, in two cases the
    parameters allow: a transaction with gas price zero, whose fee of zero the
    bank refuses to move; and, when the share is the whole fee, every transaction
    to a registered contract, since a remainder of zero cannot be burnt. *)
Theorem csr_zero_amounts_fail k msg receipt params (c : C) :
  csrs_ok (store c) -> st_params (store c) = Some params -> EnableCsr params = true ->
  rcpt_GasUsed receipt ≠ 0 ->
  tx_GasPrice msg = 0 ∨
  CsrShares params = dec_unit ∧
    (∀ c1, processEvents receipt c = (Ok tt, c1) -> is_Some (called_csr (store c1) msg)) ->
  is_Ok (PostTxProcessing k msg receipt c).1 = false.
Proof.
  intros Hok Hp Hen Hg Hcase. destruct (PostTxProcessing k msg receipt c) as [[[]|e|] c'] eqn:E; [|done|done].
  destruct (PostTxProcessing_Ok _ _ _ _ _ _ Hok Hp Hen Hg E) as (f & m & c1 & w1 & _ & _ & Hpos & Hev & _ & _ & Hfee).
  destruct Hcase as [Hz|[Hs Hreg]]; [rewrite Hz in Hpos; lia|].
  destruct (Hreg _ Hev) as [csr Hc]. unfold fee_handled in Hfee. rewrite Hc, Hs in Hfee.
  destruct Hfee as [Hrest _]. rewrite Z.quot_mul in Hrest by done. lia.
Qed.

(** One delivered transaction hook, parameter update or start of a block. *)
Inductive csr_step (k : Keeper) (c : C) : C -> Prop :=
| csr_hook msg receipt : csr_step k c (deliver (PostTxProcessing k msg receipt) c).2
| csr_update_params req : csr_step k c (deliver (msg_UpdateParams k req) c).2
| csr_begin_block : csr_step k c (deliver BeginBlock c).2.

Inductive csr_reach (k : Keeper) (c : C) : C -> Prop :=
| csr_reach_refl : csr_reach k c c
| csr_reach_step c1 c2 : csr_reach k c c1 -> csr_step k c1 c2 -> csr_reach k c c2.

Lemma record_fee_ok s csr key n : csrs_ok s -> st_csrs s !! key = Some csr -> csrs_ok (put_csr (record_fee csr n) s).
Proof.
  intros Hok Hl. destruct (ok_csr _ Hok _ _ Hl) as (-> & ? & ? & ? & Hin).
  apply put_csr_ok; cbn [Id Contracts record_fee]; try done.
  - intros old a Ho. rewrite Hl in Ho. by injection Ho as <-.
  - intros a key Ha Hc. rewrite (Hin _ Ha) in Hc. congruence.
Qed.

(** A transaction keeps the register consistent, the parameters and the Turnstile. *)
Lemma PostTxProcessing_frame k msg receipt u (c c' : C) :
  csrs_ok (store c) -> PostTxProcessing k msg receipt c = (Ok u, c') ->
  csrs_ok (store c') ∧ st_params (store c') = st_params (store c) ∧ st_turnstile (store c') = st_turnstile (store c).
Proof.
  intros Hok E. destruct u. destruct (st_params (store c)) as [params|] eqn:Hp.
  2: { unfold PostTxProcessing, GetParams, bind, get_store, gets in E. by rewrite Hp in E. }
  destruct (EnableCsr params) eqn:Hen.
  2: { unfold PostTxProcessing, GetParams, bind, get_store, gets in E. rewrite Hp in E. cbn in E.
       rewrite Hen in E. cbn [negb] in E. by injection E as <-. }
  destruct (decide (rcpt_GasUsed receipt = 0)) as [Hg|Hg].
  - unfold PostTxProcessing, GetParams in E. unfold bind at 1 2, get_store, gets in E. rewrite Hp in E.
    unfold ret at 1 in E. rewrite Hen in E. cbn [negb] in E. apply bind_Ok in E as (u & c1 & Hev & E).
    rewrite Hg in E. minv. apply processEvents_ok in Hev as (? & _ & ? & ?); [|done]. by rewrite <-Hp.
  - destruct (PostTxProcessing_Ok _ _ _ _ _ _ Hok Hp Hen Hg E)
      as (f & m & c1 & w1 & _ & _ & _ & _ & (Hok1 & _ & Hp1 & Ht1) & _ & Hfee).
    rewrite Hp in Hp1. unfold fee_handled in Hfee. destruct (called_csr (store c1) msg) as [csr|] eqn:Hc.
    + destruct Hfee as (_ & -> & _). unfold called_csr in Hc.
      apply bind_Some in Hc as (to & _ & (key & _ & Hl)%bind_Some). split; [by eapply record_fee_ok|done].
    + by destruct Hfee as [-> _].
Qed.

(** *** The Turnstile *)

(** The address [GetTurnstile] returns. *)
Definition turnstile_of (s : Store) : option string :=
  match st_turnstile s with
  | None => None
  | Some bz => if String.eqb bz "" then None else Some (BytesToAddress bz)
  end.

Lemma GetTurnstile_run (c : C) : GetTurnstile c = (Ok (turnstile_of (store c)), c).
Proof.
  unfold GetTurnstile, turnstile_of, bind, get_store, gets. destruct (st_turnstile (store c)) as [t|]; [|done].
  by destruct (String.eqb t "").
Qed.

(** Whoever enables CSR finds the Turnstile. *)
Definition csr_ready (s : Store) : Prop :=
  ∀ p, st_params s = Some p -> EnableCsr p = true -> is_Some (turnstile_of s).

Lemma DeployTurnstile_Ok t (c c' : C) : DeployTurnstile c = (Ok t, c') -> store c' = store c ∧ address_ok t.
Proof.
  unfold DeployTurnstile, DeployContract. intros E%or_fail_Ok. minv.
  repeat match goal with H : or_fail _ _ _ = _ |- _ => apply or_fail_Ok in H end.
  unfold CallEVM in *. cinv. split; [done|apply CreateAddress_ok].
Qed.

(** The start of a block adds the Turnstile if it is missing and CSR is enabled,
    and changes nothing else of the store. *)
Lemma BeginBlock_Ok u (c c' : C) : BeginBlock c = (Ok u, c') ->
  csr_ready (store c') ∧
  (store c' = store c ∨
   turnstile_of (store c) = None ∧ ∃ t, address_ok t ∧
   store c' = mkStore (st_params (store c)) (st_csrs (store c)) (st_contracts (store c)) (Some t)).
Proof.
  unfold BeginBlock. intros E. rewrite (bind_run _ _ _ _ _ (GetTurnstile_run c)) in E.
  destruct (turnstile_of (store c)) as [t|] eqn:Ht; [cinv; split; [by exists t|by left]|].
  apply bind_Ok in E as (p & c1 & Ep & E). unfold GetParams in Ep. cinv.
  destruct (st_params (store c)) as [p'|] eqn:Hp; [|done]. cinv.
  destruct (EnableCsr p) eqn:Hen; [|cinv; split; [|by left]; intros p' E' Hen'; congruence].
  cinv. match goal with H : attempt _ _ = _ |- _ => apply attempt_Ok in H end.
  match goal with H : match ?r with _ => _ end |- _ => destruct r as [t|e]; [|done] end.
  match goal with H : DeployTurnstile _ = _ |- _ => apply DeployTurnstile_Ok in H as [Hs Hta] end.
  unfold SetTurnstile in E. cinv. rewrite Hs, Hp. split.
  - intros p' _ _. unfold turnstile_of. cbn. destruct (String.eqb_spec t "") as [->|]; [done|by eexists].
  - right. split; [done|]. by exists t.
Qed.

(** What a step of the module keeps. *)
Lemma csr_step_ok k (c c' : C) : csr_step k c c' -> csrs_ok (store c) ->
  csrs_ok (store c') ∧ ∀ t, turnstile_of (store c) = Some t -> turnstile_of (store c') = Some t.
Proof.
  intros Hs Hok. destruct Hs as [msg receipt|req|]; unfold deliver.
  - destruct (PostTxProcessing k msg receipt c) as [[u|e|] c2] eqn:E; [|done|done].
    apply PostTxProcessing_frame in E as (? & _ & Ht); [|done]. unfold turnstile_of. cbn. by rewrite Ht.
  - destruct (msg_UpdateParams k req c) as [[u|e|] c2] eqn:E; [|done|done].
    unfold msg_UpdateParams, SetParams in E. cinv. destruct Hok as [Oc Oi]. by split.
  - destruct (BeginBlock c) as [[u|e|] c2] eqn:E; [|done|done]. cbn.
    apply BeginBlock_Ok in E as [_ [->|(Hn & t & _ & ->)]]; [done|].
    destruct Hok as [Oc Oi]. split; [by split|]. intros t'. by rewrite Hn.
Qed.

(** C12: the register of contracts stays consistent over every sequence of
    transactions, parameter updates and blocks, whatever events contracts emit:
    each contract belongs to exactly the CSR that lists it, and only once. *)
Theorem csr_register_consistent k (c c' : C) :
  csr_reach k c c' -> csrs_ok (store c) -> csrs_ok (store c').
Proof.
  intros Hr Hok. induction Hr as [|c1 c2 _ IH Hs]; [done|]. by apply csr_step_ok in Hs as [? _].
Qed.

(** ** Genesis *)

Lemma for_each_SetCSR l (c : C) :
  for_each l SetCSR c = (Ok tt, set_store (foldl (fun s csr => put_csr csr s) (store c) l) c).
Proof.
  revert c. induction l as [|csr l IH]; intros c; [by destruct c|].
  cbn [for_each foldl]. unfold bind. by rewrite SetCSR_run, IH.
Qed.

Lemma foldl_put_csr_params l s :
  st_params (foldl (fun s csr => put_csr csr s) s l) = st_params s ∧
  st_turnstile (foldl (fun s csr => put_csr csr s) s l) = st_turnstile s.
Proof. revert s. induction l as [|csr l IH]; intros s; [done|]. cbn [foldl]. by destruct (IH (put_csr csr s)) as [-> ->]. Qed.

(** Loading entries [(key, csr)] that are stored under their own keys. *)
Lemma foldl_put_csr_csrs (l : list (string * CSR)) s :
  Forall (fun e => e.1 = UInt64ToBytes (Id e.2)) l ->
  st_csrs (foldl (fun s csr => put_csr csr s) s l.*2) = foldl (fun m e => <[e.1 := e.2]> m) (st_csrs s) l.
Proof.
  revert s. induction l as [|[key csr] l IH]; intros s Hf; [done|]. cbn [foldl fmap list_fmap].
  apply Forall_cons in Hf as [Hk Hf]. cbn in Hk. rewrite Hk. apply (IH (put_csr csr s) Hf).
Qed.

(** Each contract of the loaded CSRs is entered for its CSR. *)
Lemma foldl_put_csr_contracts (key_of : string -> option string) l s a :
  Forall (fun csr => ∀ a, a ∈ Contracts csr -> key_of a = Some (UInt64ToBytes (Id csr))) l ->
  st_contracts (foldl (fun s csr => put_csr csr s) s l) !! a =
  if decide (Exists (fun csr => a ∈ Contracts csr) l) then key_of a else st_contracts s !! a.
Proof.
  revert s. induction l as [|csr l IH]; intros s Hf; cbn [foldl].
  - rewrite decide_False; [done|]. by intros H%Exists_nil.
  - apply Forall_cons in Hf as [Hc Hf]. rewrite IH by done. cbn [st_contracts put_csr].
    rewrite index_contracts_lookup. destruct (decide (Exists _ l)) as [He|He].
    + rewrite decide_True; [done|]. by constructor.
    + destruct (decide (a ∈ Contracts csr)) as [Ha|Ha].
      * rewrite decide_True by (by constructor). by rewrite Hc.
      * rewrite decide_False; [done|]. rewrite Exists_cons. tauto.
Qed.

Lemma reload_csrs s : csrs_ok s ->
  foldl (fun s csr => put_csr csr s) (mkStore (st_params s) ∅ ∅ None) (kv_iterate (st_csrs s)).*2
  = mkStore (st_params s) (st_csrs s) (st_contracts s) None.
Proof.
  intros Hok. set (s0 := mkStore _ ∅ ∅ None). set (l := kv_iterate (st_csrs s)).
  assert (Forall (fun e => e.1 = UInt64ToBytes (Id e.2)) l) as Hkeys.
  { apply Forall_forall. intros [key csr] Hl%elem_of_kv_iterate. by destruct (ok_csr _ Hok _ _ Hl) as (-> & _). }
  destruct (foldl_put_csr_params l.*2 s0) as [Hp Ht]. 
  assert (st_csrs (foldl (fun s csr => put_csr csr s) s0 l.*2) = st_csrs s) as Hcs
    by (rewrite foldl_put_csr_csrs by done; apply foldl_kv_iterate).
  assert (st_contracts (foldl (fun s csr => put_csr csr s) s0 l.*2) = st_contracts s) as Hco.
  { apply map_eq. intros a. rewrite (foldl_put_csr_contracts (fun a => st_contracts s !! a)).
    - case_decide as He; [done|]. cbn. rewrite lookup_empty. symmetry. apply eq_None_not_Some. intros [key Hk].
      destruct (ok_contract _ Hok _ _ Hk) as (csr & Hl & Ha). apply He, Exists_exists. exists csr. split; [|done].
      apply list_elem_of_fmap. exists (key, csr). split; [done|]. by apply elem_of_kv_iterate.
    - apply Forall_forall. intros csr Hc. apply list_elem_of_fmap in Hc as ([key csr'] & -> & Hl%elem_of_kv_iterate).
      destruct (ok_csr _ Hok _ _ Hl) as (-> & _ & _ & _ & Hin). exact Hin. }
  destruct (foldl _ s0 l.*2). cbn in *. by subst.
Qed.

Lemma export_turnstile (c : C) : (∀ t, st_turnstile (store c) = Some t -> address_ok t) ->
  ∃ r, GetTurnstile c = (Ok r, c) ∧
    let t := match r with Some addr => Address_String addr | None => "" end in
    (if negb (String.eqb t "") then Some (HexToAddress t) else None) = st_turnstile (store c).
Proof.
  intros Hta. unfold GetTurnstile, bind, get_store, gets. destruct (st_turnstile (store c)) as [t|]; [|by exists None].
  specialize (Hta t eq_refl). destruct (String.eqb_spec t "") as [->|_]; [done|].
  exists (Some (BytesToAddress t)). split; [done|]. cbv zeta. rewrite BytesToAddress_id by done.
  rewrite (proj2 (String.eqb_neq _ _)); [cbn; by rewrite HexToAddress_String|].
  intros E. pose proof (Address_String_length t Hta) as Hl. by rewrite E in Hl.
Qed.

(** Exporting a consistent state and importing the result on an empty store
    gives back the whole store: parameters, CSRs, the register of contracts (which
    is not part of the exported data) and the Turnstile's address. *)
Theorem csr_genesis_roundtrip p acc w1 (c c0 : C) :
  csrs_ok (store c) -> st_params (store c) = Some p -> Params_Validate p = Ok tt ->
  (∀ t, st_turnstile (store c) = Some t -> address_ok t) ->
  store c0 = mkStore None ∅ ∅ None ->
  Csr_GetModuleAccount ModuleName (world c0) = (Ok (Some acc), w1) ->
  ∃ g, ExportGenesis c = (Ok g, c) ∧ InitGenesis g c0 = (Ok tt, mkChain w1 (store c) (events c0)).
Proof.
  intros Hok Hp Hv Hta H0 Hacc. destruct (export_turnstile c Hta) as (r & Hr & Ht).
  exists (mkGenesisState p (kv_iterate (st_csrs (store c))).*2
            (match r with Some addr => Address_String addr | None => "" end)). split.
  - unfold ExportGenesis, GetParams, GetAllCSRs. unfold bind at 1 2, get_store at 1, gets. rewrite Hp.
    unfold bind at 1, ret at 1. unfold bind, get_store, gets. by rewrite Hr.
  - unfold InitGenesis, SetParams. unfold bind at 1 2, lift.
    rewrite SetParamSet_all; [|unfold Params_Validate in Hv; minv; by repeat constructor].
    unfold mod_store, modify at 1. cbn [Gen_Params Gen_Csrs Gen_TurnstileAddress].
    rewrite (bind_run _ _ _ _ _ (for_each_SetCSR _ _)), H0. cbn [store set_store st_csrs st_contracts st_turnstile].
    rewrite <-Hp, reload_csrs by done. cbv zeta in Ht. unfold SetTurnstile, mod_store, modify, ret.
    destruct (negb _); unfold bind, ext, zoom; cbn; rewrite Hacc, Hp; cbn; rewrite <-Hp, Ht; by destruct (store c).
Qed.

End csr_facts.

(** ** Witnesses *)

(** Events carry a contract address and the number of the NFT as decimal text. *)
#[export] Instance ref_csr : CsrDeps EvmWorld := {
  ValidateNonZeroAddress s := if ref_is_hex s then Ok tt else Err (Plain "not an address");
  UnpackRegister data :=
    match parse_digits (drop_bytes 20 data) 0 with
    | Some n => Ok (mkRegisterCSREvent (take_bytes 20 data) "" n)
    | None => Err (Plain "abi: cannot unpack")
    end;
  UnpackUpdate data :=
    match parse_digits (drop_bytes 20 data) 0 with
    | Some n => Ok (mkUpdateCSREvent (take_bytes 20 data) n)
    | None => Err (Plain "abi: cannot unpack")
    end;
  Evm_GetAccount w a := if evm_tokens w.2 !! a is Some _ then Some true else None;
  Csr_GetModuleAccount m := ret (Some (mkAccount (default "" (ref_module_address m)) true))
}.

(** The Turnstile's ABI: topic "R" is a Register event, "A" an Assign event. *)
Definition ref_turnstile_abi : Abi := {|
  abi_Pack := fun _ m args => Ok (method_letter m +:+ String.concat "" (pack_arg <$> args));
  abi_Unpack := fun _ _ _ => Err (Plain "unused");
  abi_UnpackString := fun _ _ _ => Err (Plain "unused");
  abi_UnpackUint8 := fun _ _ _ => Err (Plain "unused");
  abi_UnpackBool := fun _ _ _ => Err (Plain "unused");
  abi_EventByID := fun _ topic =>
    if String.eqb topic "R" then Ok "Register" else if String.eqb topic "A" then Ok "Assign"
    else Err (Plain "no event");
  abi_Bin := fun _ => ""
|}.
#[local] Existing Instance ref_turnstile_abi.

Definition ex_turnstile : string := pad20 "turnstile".
Definition ex_app1 : string := pad20 "app-one".
Definition ex_app2 : string := pad20 "app-two".
Definition ex_csr : CSR := mkCSR [Address_String ex_app1] 7 3 100.

Definition ex_csr_store (shares : Z) : Store :=
  mkStore (Some (mkParams true shares)) {[UInt64ToBytes 7 := ex_csr]}
    {[Address_String ex_app1 := UInt64ToBytes 7]} (Some ex_turnstile).
Definition ex_csr_world : EvmWorld :=
  (mkRefWorld {[("module:fee_collector", "atuc") := 5000000%N]} {["atuc" := 9000000%N]} ∅,
   mkEvmState ∅ {[ex_app1 := mkRefToken "one" "ONE" 0; ex_app2 := mkRefToken "two" "TWO" 0]} ∅ ∅).
Definition ex_csr_chain (shares : Z) : Chain EvmWorld Store := mkChain ex_csr_world (ex_csr_store shares) [].
Definition ex_csr_keeper : Keeper := mkKeeper "fee_collector" "gov".

Lemma ex_csr_store_ok shares : csrs_ok (ex_csr_store shares).
Proof.
  assert (ex_csr_store shares = put_csr ex_csr (mkStore (Some (mkParams true shares)) ∅ ∅ (Some ex_turnstile))) as ->
    by (vm_compute; reflexivity).
  apply put_csr_ok.
  - by split.
  - by vm_compute.
  - apply NoDup_singleton.
  - done.
  - by intros old a.
  - by intros a key.
Qed.

(** A call of the registered contract that used 21000 gas at price 10. *)
Definition ex_call : TxMessage := mkTxMessage (Some ex_app1) 10.
Definition ex_receipt : Receipt := mkReceipt 21000 [].
(** A transaction in which the Turnstile assigns a second contract to NFT 7. *)
Definition ex_assign_receipt : Receipt :=
  mkReceipt 21000 [mkEthLog ex_turnstile ["A"] (ex_app2 +:+ "7")].


Lemma csr_zero_amounts_fail_witness :
  is_Ok (PostTxProcessing ex_csr_keeper ex_call ex_receipt (ex_csr_chain dec_unit)).1 = false ∧
  is_Ok (PostTxProcessing ex_csr_keeper (mkTxMessage None 0) ex_receipt (ex_csr_chain 0)).1 = false.
Proof.
  split.
  - apply (csr_zero_amounts_fail ex_csr_keeper ex_call ex_receipt (mkParams true dec_unit));
      [apply ex_csr_store_ok|reflexivity|reflexivity|discriminate|].
    right. split; [reflexivity|]. intros c1 E. vm_compute in E. injection E as <-.
    exists ex_csr. vm_compute. reflexivity.
  - apply (csr_zero_amounts_fail ex_csr_keeper (mkTxMessage None 0) ex_receipt (mkParams true 0));
      [apply ex_csr_store_ok|reflexivity|reflexivity|discriminate|]. left. reflexivity.
Defined.

Definition ex_assigned : Chain EvmWorld Store :=
  (deliver (PostTxProcessing ex_csr_keeper ex_call ex_assign_receipt) (ex_csr_chain (2 * 10 ^ 17))).2.

Lemma csr_register_consistent_witness :
  csrs_ok (store ex_assigned) ∧
  Contracts <$> (st_csrs (store ex_assigned) !! UInt64ToBytes 7)
  = Some [Address_String ex_app1; Address_String ex_app2].
Proof.
  split; [|vm_compute; reflexivity].
  apply (csr_register_consistent ex_csr_keeper (ex_csr_chain (2 * 10 ^ 17))); [|apply ex_csr_store_ok].
  eapply csr_reach_step; [apply csr_reach_refl|apply csr_hook].
Defined.

Lemma csr_genesis_roundtrip_witness :
  ∃ g, ExportGenesis (ex_csr_chain 0) = (Ok g, ex_csr_chain 0) ∧
    InitGenesis g (mkChain ex_csr_world (mkStore None ∅ ∅ None) []) = (Ok tt, ex_csr_chain 0).
Proof.
  apply (csr_genesis_roundtrip (mkParams true 0) (mkAccount "module:csr" true) ex_csr_world (ex_csr_chain 0)
    (mkChain ex_csr_world (mkStore None ∅ ∅ None) [])).
  - apply ex_csr_store_ok.
  - reflexivity.
  - reflexivity.
  - intros t [= <-]. apply pad20_ok.
  - reflexivity.
  - reflexivity.
Defined.
