(* ===== verification/Ibc.v ===== *)
(** * The ibc package, types/utils.go, and what they rely on from ibc-go

    [Packet], [FungibleTokenPacketData] and [Acknowledgement] carry the public
    fields of ibc-go's types that the code reads; the codec, the bech32 decoding
    and the denomination traces are parameters. *)

From Stdlib Require Import Ascii.
From stdpp Require Import base gmap strings list.
From S2P Require Import Prelude Golang Sdk.

#[local] Open Scope Z_scope.
#[local] Open Scope go_scope.

(** ** ibc-go *)

Record Packet := mkPacket {
  SourcePort : string;
  SourceChannel : string;
  DestinationPort : string;
  DestinationChannel : string;
  Packet_Data : string
}.

Record FungibleTokenPacketData := mkFungibleTokenPacketData {
  FT_Denom : string;
  FT_Amount : string;
  FT_Sender : string;
  FT_Receiver : string
}.

Inductive Acknowledgement :=
| AckResult (result : string)
| AckError (e : error).

Definition Ack_Success (ack : Acknowledgement) : bool :=
  match ack with AckResult _ => true | AckError _ => false end.
Definition NewErrorAcknowledgement (e : error) : Acknowledgement := AckError e.

Record DenomTrace := mkDenomTrace { Trace_Path : string; Trace_BaseDenom : string }.

Class IbcTypes := {
  (** [transfertypes.ModuleCdc.UnmarshalJSON] into a [FungibleTokenPacketData] *)
  UnmarshalPacketData : string -> outcome FungibleTokenPacketData;
  ReceiverChainIsSource : string -> string -> string -> bool;
  GetDenomPrefix : string -> string -> string;
  ParseDenomTrace : string -> DenomTrace;
  IBCDenom : DenomTrace -> string;
  (** [sdkmath.NewIntFromString], [None] for the result that is not ok *)
  NewIntFromString : string -> option Z;
  (** [sdk.GetFromBech32(address, prefix)] and [sdk.VerifyAddressFormat] *)
  GetFromBech32 : string -> string -> outcome string;
  VerifyAddressFormat : string -> outcome unit;
  AttributeKeySrcChannel : string;
  AttributeKeySrcPort : string;
  AttributeKeyDstChannel : string;
  AttributeKeyDstPort : string
}.

(** A denomination that returns to its source starts with the prefix of the
    channel it left on; an address that passes the format check is not empty and
    has at most 255 bytes. *)
Class IbcLaws `{IbcTypes} : Prop := {
  ReceiverChainIsSource_prefix p ch d : ReceiverChainIsSource p ch d = HasPrefix d (GetDenomPrefix p ch);
  VerifyAddressFormat_ok a : VerifyAddressFormat a = Ok tt -> acc_address_ok a
}.

(** ** types/utils.go *)

Definition MainnetChainID : string := "tuc_9001".
Definition TestnetChainID : string := "tuc_9000".
Definition IsMainnet (chainID : string) : bool := HasPrefix chainID MainnetChainID.
Definition IsTestnet (chainID : string) : bool := HasPrefix chainID TestnetChainID.

(** The dynamic type of a public key, as far as the type switch looks. *)
Inductive PubKey :=
| PkEthSecp256k1
| PkEd25519
| PkMultisig (keys : list PubKey)
| PkOther.

Definition single_key (pk : PubKey) : bool :=
  match pk with PkEthSecp256k1 | PkEd25519 => true | _ => false end.

Definition IsSupportedKey (pubkey : PubKey) : bool :=
  match pubkey with
  | PkEthSecp256k1 | PkEd25519 => true
  | PkMultisig [] => false
  | PkMultisig keys => forallb single_key keys
  | PkOther => false
  end.

Section ibc.
Context `{IbcTypes}.

(** The first element of what [SplitN] returns always exists. *)
Definition GetcantoAddressFromBech32 (address : string) : outcome string :=
  let bech32Prefix := default "" (head (SplitN2 address "1"%char)) in
  if String.eqb bech32Prefix address then Err (Foreign "ErrInvalidAddress")
  else
    match GetFromBech32 address bech32Prefix with
    | Panic => Panic
    | Err _ => Err (Foreign "ErrInvalidAddress")
    | Ok addressBz => let? _ := VerifyAddressFormat addressBz in Ok addressBz
    end.

(** ** ibc/utils.go *)

(** [UnmarshalJSON] with its error replaced. *)
Definition decode_data (packet : Packet) (e : error) : outcome FungibleTokenPacketData :=
  match UnmarshalPacketData (Packet_Data packet) with
  | Panic => Panic
  | Err _ => Err e
  | Ok data => Ok data
  end.

(** Sender and recipient, and both as they stand in the packet. *)
Definition GetTransferSenderRecipient (packet : Packet) : outcome (string * string * string * string) :=
  let? data := decode_data packet (Foreign "ErrUnknownRequest") in
  let? sender := GetcantoAddressFromBech32 (FT_Sender data) in
  let? recipient := GetcantoAddressFromBech32 (FT_Receiver data) in
  Ok (sender, recipient, FT_Sender data, FT_Receiver data).

Definition GetTransferAmount (packet : Packet) : outcome string :=
  let? data := decode_data packet (Foreign "ErrUnknownRequest") in
  if String.eqb (FT_Amount data) "" then Err (Foreign "ErrInvalidCoins")
  else match NewIntFromString (FT_Amount data) with
       | None => Err (Foreign "ErrInvalidCoins")
       | Some _ => Ok (FT_Amount data)
       end.

(** The denomination, and the amount; an amount that does not parse leaves the
    zero value of [sdkmath.Int], a nil pointer. *)
Definition GetReceivedCoin (srcPort srcChannel dstPort dstChannel rawDenom rawAmt : string)
    : string * option Z :=
  let amount := NewIntFromString rawAmt in
  if ReceiverChainIsSource srcPort srcChannel rawDenom then
    let voucherPrefix := GetDenomPrefix srcPort srcChannel in
    let unprefixedDenom := drop_bytes (String.length voucherPrefix) rawDenom in
    let denomTrace := ParseDenomTrace unprefixedDenom in
    let denom := if negb (String.eqb (Trace_Path denomTrace) "") then IBCDenom denomTrace
                 else unprefixedDenom in
    (denom, amount)
  else
    let sourcePrefix := GetDenomPrefix dstPort dstChannel in
    let prefixedDenom := sourcePrefix +:+ rawDenom in
    let denomTrace := ParseDenomTrace prefixedDenom in
    (IBCDenom denomTrace, amount).

End ibc.

(** ** Lemmas *)
Section ibc_lemmas.
Context {IB : IbcTypes} {IBL : IbcLaws}.

Lemma canto_address_ok s a : GetcantoAddressFromBech32 s = Ok a -> acc_address_ok a.
Proof.
  unfold GetcantoAddressFromBech32. repeat case_match; try done. intros E. minv.
  by apply VerifyAddressFormat_ok.
Qed.

Lemma split2_from_head cur sep s :
  ∃ rest, head (split2_from cur sep s) = Some (cur +:+ rest) ∧
    (rest = s ∨ ∃ s', s = rest +:+ String sep s').
Proof.
  revert cur. induction s as [|c s IH]; intros cur; cbn.
  - exists "". rewrite append_nil_r. auto.
  - destruct (Ascii.eqb_spec c sep) as [->|].
    + exists "". rewrite append_nil_r. split; [done|]. right. by exists s.
    + destruct (IH (cur +:+ String c "")) as (rest & -> & Hr). exists (String c rest).
      rewrite append_assoc. split; [done|]. destruct Hr as [->|[s' ->]]; [by left|right].
      by exists s'.
Qed.

(** A text without the separator has no human readable part and is refused. *)
Lemma canto_address_separator s a :
  GetcantoAddressFromBech32 s = Ok a ->
  ∃ hrp rest, s = hrp +:+ String "1"%char rest ∧ GetFromBech32 s hrp = Ok a.
Proof.
  unfold GetcantoAddressFromBech32, SplitN2.
  destruct (split2_from_head "" "1"%char s) as (hrp & -> & Hr). cbn [default].
  change ("" +:+ hrp) with hrp. unfold default, id.
  destruct (String.eqb_spec hrp s) as [|Hne]; [done|].
  destruct Hr as [->|[rest ->]]; [done|]. destruct (GetFromBech32 _ _) eqn:E; [|done|done].
  intros E'. minv. by eexists _, _.
Qed.

(** A voucher sent back over the channel it came from is received under the
    denomination it had before: the prefix is removed, for tokens native to this
    chain. *)
Lemma received_native srcPort srcChannel dstPort dstChannel denom amt :
  Trace_Path (ParseDenomTrace denom) = "" ->
  GetReceivedCoin srcPort srcChannel dstPort dstChannel (GetDenomPrefix srcPort srcChannel +:+ denom) amt
  = (denom, NewIntFromString amt).
Proof.
  intros Hp. unfold GetReceivedCoin. rewrite ReceiverChainIsSource_prefix.
  unfold HasPrefix. rewrite prefix_app, drop_bytes_app, Hp. done.
Qed.

End ibc_lemmas.

(** ** src/ibc/module.go

    ibc-go's [porttypes.IBCModule] over the state [S]; the arguments of a callback
    of the handshake are one value of type [A]. *)
Record IBCModule (S A : Type) := mkIBCModule {
  OnChanOpenInit : A -> M S string;
  OnChanOpenTry : A -> M S string;
  OnChanOpenAck : A -> M S unit;
  OnChanOpenConfirm : A -> M S unit;
  OnChanCloseInit : A -> M S unit;
  OnChanCloseConfirm : A -> M S unit;
  (** the packet and the relayer; nil for an application that answers later *)
  OnRecvPacket : Packet -> string -> M S (option Acknowledgement);
  OnAcknowledgementPacket : Packet -> string -> string -> M S unit;
  OnTimeoutPacket : Packet -> string -> M S unit
}.
Arguments mkIBCModule {S A} _ _ _ _ _ _ _ _ _.
Arguments OnChanOpenInit {S A} _ _.
Arguments OnChanOpenTry {S A} _ _.
Arguments OnChanOpenAck {S A} _ _.
Arguments OnChanOpenConfirm {S A} _ _.
Arguments OnChanCloseInit {S A} _ _.
Arguments OnChanCloseConfirm {S A} _ _.
Arguments OnRecvPacket {S A} _ _ _.
Arguments OnAcknowledgementPacket {S A} _ _ _ _.
Arguments OnTimeoutPacket {S A} _ _ _.

(** [Module] passes every callback on to the application it holds. *)
Record Module_ (S A : Type) := mkModule { module_app : IBCModule S A }.
Arguments mkModule {S A} _.
Arguments module_app {S A} _.

Section forward.
Context {S A : Type}.
Definition NewModule (app : IBCModule S A) : Module_ S A := mkModule app.
Definition Module_OnChanOpenInit (im : Module_ S A) (args : A) : M S string := OnChanOpenInit (module_app im) args.
Definition Module_OnChanOpenTry (im : Module_ S A) (args : A) : M S string := OnChanOpenTry (module_app im) args.
Definition Module_OnChanOpenAck (im : Module_ S A) (args : A) : M S unit := OnChanOpenAck (module_app im) args.
Definition Module_OnChanOpenConfirm (im : Module_ S A) (args : A) : M S unit := OnChanOpenConfirm (module_app im) args.
Definition Module_OnChanCloseInit (im : Module_ S A) (args : A) : M S unit := OnChanCloseInit (module_app im) args.
Definition Module_OnChanCloseConfirm (im : Module_ S A) (args : A) : M S unit := OnChanCloseConfirm (module_app im) args.
Definition Module_OnRecvPacket (im : Module_ S A) (packet : Packet) (relayer : string) : M S (option Acknowledgement) :=
  OnRecvPacket (module_app im) packet relayer.
Definition Module_OnAcknowledgementPacket (im : Module_ S A) (packet : Packet) (acknowledgement relayer : string) : M S unit :=
  OnAcknowledgementPacket (module_app im) packet acknowledgement relayer.
Definition Module_OnTimeoutPacket (im : Module_ S A) (packet : Packet) (relayer : string) : M S unit :=
  OnTimeoutPacket (module_app im) packet relayer.
End forward.
