(* ===== verification/CoinswapTrade.v ===== *)
(** * A buy order that fails leaves no trace

    x/onboarding calls [TradeInputForExactOutput] outside of a message and in its
    own context, so nothing rolls back what the trade wrote before an error.
    Nothing has to be: every check comes before the first transfer, and once the
    sold coin has reached the reserve the payment cannot fail. *)

From stdpp Require Import base gmap strings list.
From S2P Require Import Prelude Golang Sdk CoinswapTypes Coinswap CoinswapFacts.

#[local] Open Scope Z_scope.
#[local] Open Scope go_scope.

(** What this needs of x/bank beyond [BankLaws]: a transfer of at most one coin
    that fails does so before it writes, and the coins of the reserve accounts,
    whose addresses nobody has a key for, are not locked by a vesting schedule. *)
Class ReserveLaws (W : Type) `{SdkTypes, Hashes, AccountKeeper W, BankKeeper W} : Prop := {
  SendCoins_single_fails f t cs e w w' :
    (length cs <= 1)%nat -> SendCoins f t cs w = (Err e, w') -> w' = w;
  reserve_unlocked w lpt d : ValidateDenom d = true ->
    amount_of (SpendableCoins w (GetReservePoolAddr lpt)) d = GetBalance w (GetReservePoolAddr lpt) d
}.

Section trade.
Context {W : Type} {SM : SdkMath} {SML : SdkMathLaws} {ST : SdkTypes} {STL : SdkTypesLaws}.
Context {HA : Hashes} {HAL : HashesLaws} {PS : ParamSubspace} {PSL : ParamSubspaceLaws}.
Context {AK : AccountKeeper W} {BK : BankKeeper W} {BL : BankLaws W} {RL : ReserveLaws W}.
#[local] Abbreviation C := (Chain W Store).

Lemma readonly_GetParams : readonly (S:=C) GetParams.
Proof. unfold GetParams. readonly. Qed.
Lemma readonly_GetLptDenomFromDenoms d1 d2 : readonly (S:=C) (GetLptDenomFromDenoms d1 d2).
Proof. unfold GetLptDenomFromDenoms, GetStandardDenom, GetPool. readonly. Qed.
Lemma readonly_GetMaximumSwapAmount d : readonly (S:=C) (GetMaximumSwapAmount d).
Proof. unfold GetMaximumSwapAmount, GetParams. readonly. Qed.
Lemma readonly_GetPoolBalances a : readonly (S:=C) (GetPoolBalances a).
Proof. unfold GetPoolBalances. readonly. Qed.
#[local] Hint Resolve readonly_GetParams readonly_GetLptDenomFromDenoms readonly_GetMaximumSwapAmount
  readonly_GetPoolBalances : chain.
Lemma readonly_calculateWithExactOutput b d : readonly (S:=C) (calculateWithExactOutput b d).
Proof. unfold calculateWithExactOutput. readonly. Qed.
#[local] Hint Resolve readonly_calculateWithExactOutput : chain.

(** [NewCoins] of one coin has at most one coin. *)
Lemma NewCoins_single_length c cs : NewCoins [c] = Ok cs -> (length cs <= 1)%nat.
Proof.
  intros [Hv Ha]%NewCoins_effect. apply Coins_IsValid_sound in Hv as [Hf Hn].
  assert (∀ x, x ∈ cs -> Denom x = Denom c) as Hd.
  { intros x Hx. destruct (decide (Denom x = Denom c)) as [|Hne]; [done|exfalso].
    specialize (Ha (Denom x)). rewrite amount_of_single, (proj2 (String.eqb_neq _ _)) in Ha by done.
    clear Hn. induction Hf as [|y cs [_ Hy] Hf IH]; [by apply not_elem_of_nil in Hx|]. cbn in Ha.
    assert (0 <= amount_of cs (Denom x)).
    { apply amount_of_nonneg. eapply Forall_impl; [exact Hf|]. cbn. intros ? [_ ?]. lia. }
    apply elem_of_cons in Hx as [<-|Hx].
    - rewrite String.eqb_refl in Ha. lia.
    - apply IH; try done. destruct (String.eqb _ _); lia. }
  destruct cs as [|x [|y cs]]; cbn; [lia|lia|]. exfalso.
  apply NoDup_cons in Hn as [Hx _]. apply Hx. rewrite (Hd x), <-(Hd y) by set_solver. left.
Qed.

(** Paying out of a reserve that has received a coin. *)
Lemma pay_from_reserve s r lpt sold bought cs cs' (w w1 : W) :
  NewCoins [sold] = Ok cs -> SendCoins s (GetReservePoolAddr lpt) cs w = (Ok tt, w1) ->
  0 <= Amount sold -> NewCoins [bought] = Ok cs' -> ValidateDenom (Denom bought) = true ->
  Amount bought <= GetBalance w (GetReservePoolAddr lpt) (Denom bought) ->
  ∃ w2, SendCoins (GetReservePoolAddr lpt) r cs' w1 = (Ok tt, w2).
Proof.
  intros HN HS Hs HN' Hv Hle. pose proof (NewCoins_effect _ _ HN') as [Hv' Ha'].
  destruct (send_NewCoins _ _ _ _ _ _ HN HS) as [[HB _ _] _]. apply SendCoins_total; [done|].
  intros d. rewrite Ha', amount_of_single. destruct (String.eqb_spec (Denom bought) d) as [<-|].
  - rewrite reserve_unlocked, HB by done. unfold δ_send, gain. rewrite String.eqb_refl, amount_of_single.
    repeat case_match; lia.
  - apply valid_nonneg, SpendableCoins_valid.
Qed.

Lemma swapCoins_fails s r sold bought e pool (c c' : C) :
  trading_pool c (Denom sold) (Denom bought) pool ->
  0 <= Amount sold -> ValidateDenom (Denom bought) = true ->
  0 <= Amount bought <= reserve c pool (Denom bought) ->
  swapCoins s r sold bought c = (Err e, c') -> c' = c.
Proof.
  intros Hp Hs Hv Hb E. unfold swapCoins in E.
  apply readonly_bind_Err in E as [->|(l & El & E)]; [done| |auto with chain].
  apply lpt_trading_pool in El as (_ & pool' & Hp' & ->).
  assert (pool' = pool) as -> by (by eapply trading_pool_fun).
  apply readonly_bind_Err in E as [->|(cs & Ecs & E)]; [done| |auto with chain]. minv.
  apply bind_Err in E as [E|([] & c1 & E1 & E)].
  { unfold ext, zoom in E. destruct (SendCoins _ _ _ _) as [r1 w1] eqn:Es.
    injection E as -> <-. apply SendCoins_single_fails in Es as ->; [by destruct c|].
    by eapply NewCoins_single_length. }
  cinv. destruct (NewCoins_total [bought]) as [cs' HN'].
  { constructor; [|done]. split; [done|lia]. }
  { apply NoDup_singleton. }
  rewrite HN' in E. cbn in E. match goal with HN : NewCoins [sold] = Ok _, HS : SendCoins _ _ _ _ = (Ok tt, _) |- _ =>
    destruct (pay_from_reserve _ (if String.eqb r "" then s else r) _ _ _ _ _ _ _ HN HS Hs HN' Hv)
      as [w2 HS2]; [apply Hb|] end.
  unfold ext, zoom in E. cbn in E. rewrite HS2 in E. done.
Qed.

Lemma TradeInputForExactOutput_Err input output e (c c' : C) :
  params_ok (store c) -> 0 < Amount (Output_Coin output) ->
  ValidateDenom (Denom (Output_Coin output)) = true ->
  TradeInputForExactOutput input output c = (Err e, c') -> c' = c.
Proof.
  intros Hok Ha Hv E. unfold TradeInputForExactOutput in E.
  apply readonly_bind_Err in E as [->|(sold & Es & E)]; [done| |auto with chain].
  apply calculateWithExactOutput_Ok in Es as (_ & pool & Hp & Hr & Hr0 & _); [|done..].
  do 4 (apply readonly_bind_Err in E as [->|(? & ? & E)]; [done| |auto with chain]).
  apply readonly_bind_Err in E as [->|(std & Hstd & E)]; [done| |unfold GetStandardDenom; auto with chain].
  do 2 (apply readonly_bind_Err in E as [->|(? & ? & E)]; [done| |auto with chain]).
  apply bind_Err in E as [E|([] & c1 & _ & E)]; [|done]. kinv.
  eapply swapCoins_fails in E; [done|apply trading_pool_sym, Hp|cbn; lia|done|lia].
Qed.

End trade.
