(* ===== verification/Onboarding.v ===== *)
(** * x/onboarding: swap and conversion of coins received over IBC

    The keeper is a client of x/coinswap and x/erc20 through the interfaces of
    types/interfaces.go, the classes [CoinwapKeeper] and [Erc20Keeper] here.  [X]
    is the store of those modules, next to the parameters of this one. *)

From stdpp Require Import base gmap strings list.
From S2P Require Import Prelude Golang Sdk Ethereum Ibc CoinswapTypes Erc20Types.

#[local] Open Scope Z_scope.
#[local] Open Scope go_scope.

(** ** Types *)

Definition ModuleName : string := "onboarding".
Definition ErrBlockedAddress : error := Registered ModuleName 2.
Definition ErrInvalidType : error := Registered ModuleName 3.
Definition EventTypeOnboarding : string := "onboarding".
Definition AttributeKeySwapAmount : string := "swap_amount".
Definition AttributeKeyConvertAmount : string := "convert_amount".

Record Params := mkParams {
  EnableOnboarding : bool;
  AutoSwapThreshold : Z;
  WhitelistedChannels : list string
}.
Record GenesisState := mkGenesisState { Gen_Params : Params }.
Record MsgUpdateParams := mkMsgUpdateParams { Upd_Authority : string; Upd_Params : Params }.

Definition DefaultAutoSwapThreshold : Z := NewIntWithDecimal 4 18.
Definition DefaultWhitelistedChannels : list string := ["channel-0"].
Definition NewParams (enable : bool) (threshold : Z) (channels : list string) : Params :=
  mkParams enable threshold channels.
Definition DefaultParams : Params := mkParams true DefaultAutoSwapThreshold DefaultWhitelistedChannels.
Definition validateWhitelistedChannels (l : list string) : outcome unit := Ok tt.
Definition validateBool (b : bool) : outcome unit := Ok tt.
Definition validateAutoSwapThreshold (v : Z) : outcome unit :=
  if v <? 0 then Err (Plain "auto swap threshold must be positive") else Ok tt.
Definition ParamSetPairs (p : Params) : list (outcome unit) :=
  [validateBool (EnableOnboarding p); validateAutoSwapThreshold (AutoSwapThreshold p);
   validateWhitelistedChannels (WhitelistedChannels p)].
Definition Params_Validate (p : Params) : outcome unit :=
  let? _ := validateBool (EnableOnboarding p) in
  validateAutoSwapThreshold (AutoSwapThreshold p).
Definition NewGenesisState (params : Params) : GenesisState := mkGenesisState params.
Definition DefaultGenesisState : GenesisState := mkGenesisState DefaultParams.
Definition GenesisState_Validate (gs : GenesisState) : outcome unit := Params_Validate (Gen_Params gs).

(** *** interfaces.go: the methods the keeper calls *)

Class CoinwapKeeper (W X : Type) := {
  TradeInputForExactOutput : Input -> Output -> M (Chain W X) Z;
  GetStandardDenom : M (Chain W X) string
}.

Class Erc20Keeper (W X : Type) := {
  ConvertCoin : MsgConvertCoin -> M (Chain W X) unit;
  GetTokenPairID : string -> M (Chain W X) (option string);
  GetTokenPair : option string -> M (Chain W X) (option TokenPair)
}.

(** ** The keeper *)

Record Store (X : Type) := mkStore { st_params : option Params; st_modules : X }.
Arguments mkStore {X} st_params st_modules.
Arguments st_params {X} _.
Arguments st_modules {X} _.

(** ibc-go's [porttypes.ICS4Wrapper] over the state [S]; arguments the keeper
    passes through are one value of type [A]. *)
Record ICS4Wrapper (S A : Type) := mkICS4Wrapper {
  ics4_SendPacket : A -> M S Z;
  ics4_WriteAcknowledgement : A -> M S unit;
  ics4_GetAppVersion : S -> string -> string -> option string
}.
Arguments ics4_SendPacket {S A} _ _.
Arguments ics4_WriteAcknowledgement {S A} _ _.
Arguments ics4_GetAppVersion {S A} _ _ _ _.

Record Keeper (S A : Type) := mkKeeper {
  authority : string;
  ics4Wrapper : option (ICS4Wrapper S A)
}.
Arguments mkKeeper {S A} authority ics4Wrapper.
Arguments authority {S A} _.
Arguments ics4Wrapper {S A} _.

Section keeper.
Context {W X A : Type} `{SdkMath} `{SdkTypes} `{ParamSubspace} `{EthTypes} `{IbcTypes}.
Context {AK : AccountKeeper W} {BK : BankKeeper W} {CK : CoinwapKeeper W X} {EK : Erc20Keeper W X}.
#[local] Abbreviation C := (Chain W (Store X)).
#[local] Abbreviation K := (Keeper C A).

(** A call of x/coinswap or x/erc20: they share the bank, the EVM and the event
    manager of the context. *)
Definition modules_of (c : C) : Chain W X := mkChain (world c) (st_modules (store c)) (events c).
Definition set_modules (m : Chain W X) (c : C) : C :=
  mkChain (world m) (mkStore (st_params (store c)) (store m)) (events m).
Definition call {R} (m : M (Chain W X) R) : M C R := zoom modules_of set_modules m.

(** *** keeper.go, params.go *)

Definition NewKeeper (auth : string) : K := mkKeeper auth None.
Definition GetAuthority (k : K) : string := authority k.
Definition SetICS4Wrapper (k : K) (w : ICS4Wrapper C A) : outcome K :=
  match ics4Wrapper k with Some _ => Panic | None => Ok (mkKeeper (authority k) (Some w)) end.

(** Calling a method of the interface value nil panics. *)
Definition SendPacket (k : K) (args : A) : M C Z :=
  match ics4Wrapper k with Some w => ics4_SendPacket w args | None => panic end.
Definition WriteAcknowledgement (k : K) (args : A) : M C unit :=
  match ics4Wrapper k with Some w => ics4_WriteAcknowledgement w args | None => panic end.
Definition GetAppVersion (k : K) (portID channelID : string) : M C (option string) :=
  match ics4Wrapper k with
  | Some w => gets (fun s => ics4_GetAppVersion w s portID channelID)
  | None => panic
  end.

Definition GetParams : M C Params :=
  let* p := get_store st_params in
  match p with Some p => ret p | None => panic end.
Definition SetParams (params : Params) : M C unit :=
  do! lift (SetParamSet_check (ParamSetPairs params));
  mod_store (fun s => mkStore (Some params) (st_modules s)).

(** *** ibc_callbacks.go *)

(** The first use of an amount that is a nil pointer panics.  The transfer
    application has refused packets with such amounts. *)
Definition amount_of_received (amount : option Z) : M C Z :=
  match amount with Some z => ret z | None => panic end.

(** The swap: the recipient buys the threshold of the standard coin for at most
    the coins just received, if it has less than that.  The trade runs in the
    context itself, so what it wrote before an error stays. *)
Definition swap_received (standardDenom recipient denom : string) (amount : option Z) : M C Z :=
  let* params := GetParams in
  let autoSwapThreshold := AutoSwapThreshold params in
  let* swapCoins := lift (NewCoin standardDenom autoSwapThreshold) in
  let* spendable := get_world (fun w => SpendableCoins w recipient) in
  let* standardCoinBalance := lift (Coins_AmountOf spendable standardDenom) in
  if standardCoinBalance <? autoSwapThreshold then
    let* amount := amount_of_received amount in
    let* r := attempt (call (TradeInputForExactOutput
      (mkInput (AccAddress_String recipient) (mkCoin denom amount))
      (mkOutput (AccAddress_String recipient) swapCoins))) in
    match r with
    | inr _ => ret 0
    | inl swappedAmount =>
        do! emit (mkEvent EventTypeSwap
          [(AttributeValueAmount, AInt swappedAmount);
           (AttributeValueSender, AStr (AccAddress_String recipient));
           (AttributeValueRecipient, AStr (AccAddress_String recipient));
           (AttributeValueIsBuyOrder, ABool true);
           (AttributeValueTokenPair, AStr (GetTokenPairByDenom denom (Denom swapCoins)))]);
        ret swappedAmount
    end
  else ret 0.

Definition emit_onboarding (packet : Packet) (senderBech32 recipientBech32 : string)
    (swappedAmount convertAmount : Z) : M C unit :=
  emit (mkEvent EventTypeOnboarding
    [(AttributeKeySender, AStr senderBech32); (AttributeKeyReceiver, AStr recipientBech32);
     (AttributeKeySrcChannel, AStr (SourceChannel packet)); (AttributeKeySrcPort, AStr (SourcePort packet));
     (AttributeKeyDstPort, AStr (DestinationPort packet));
     (AttributeKeyDstChannel, AStr (DestinationChannel packet));
     (AttributeKeySwapAmount, AInt swappedAmount); (AttributeKeyConvertAmount, AInt convertAmount)]).

(** The conversion of what the swap left of the received coins, in a context of
    its own.  [pair, _ := GetTokenPair] of a missing pair is the zero pair, which
    is not enabled. *)
Definition convert_received (packet : Packet) (senderBech32 recipientBech32 recipient denom : string)
    (amount : option Z) (swappedAmount : Z) : M C unit :=
  let* pairID := call (GetTokenPairID denom) in
  if String.eqb (default "" pairID) "" then ret tt
  else
    let* pair := call (GetTokenPair pairID) in
    if negb (match pair with Some tp => Enabled tp | None => false end) then ret tt
    else
      let* amount := amount_of_received amount in
      let* rest := lift (int_Sub amount swappedAmount) in
      let* convertCoin := lift (NewCoin denom rest) in
      let convertMsg := NewMsgConvertCoin convertCoin (BytesToAddress recipient) recipient in
      let* r := cached (call (ConvertCoin convertMsg)) in
      let* convertCoin := match r with inl _ => ret convertCoin | inr _ => lift (NewCoin denom 0) end in
      emit_onboarding packet senderBech32 recipientBech32 swappedAmount (Amount convertCoin).

Definition is_module_account (acc : option Account) : bool :=
  match acc with Some a => acc_is_module a | None => false end.

Definition whitelisted (params : Params) (channel : string) : bool :=
  existsb (fun s => String.eqb s channel) (WhitelistedChannels params).

Definition OnRecvPacket (packet : Packet) (ack : Acknowledgement) : M C Acknowledgement :=
  let* params := GetParams in
  if negb (EnableOnboarding params) then ret ack
  else if negb (whitelisted params (DestinationChannel packet)) then ret ack
  else
    match GetTransferSenderRecipient packet with
    | Panic => panic
    | Err e => ret (NewErrorAcknowledgement e)
    | Ok (_, recipient, senderBech32, recipientBech32) =>
        let* account := get_world (fun w => GetAccount w recipient) in
        if is_module_account account then ret ack
        else
          let* standardDenom := attempt (call GetStandardDenom) in
          match standardDenom with
          | inr _ => ret ack
          | inl standardDenom =>
              match UnmarshalPacketData (Packet_Data packet) with
              | Panic => panic
              | Err _ => ret (NewErrorAcknowledgement ErrInvalidType)
              | Ok data =>
                  let '(denom, amount) := GetReceivedCoin (SourcePort packet) (SourceChannel packet)
                    (DestinationPort packet) (DestinationChannel packet) (FT_Denom data) (FT_Amount data) in
                  let* swappedAmount := swap_received standardDenom recipient denom amount in
                  do! convert_received packet senderBech32 recipientBech32 recipient denom amount swappedAmount;
                  ret ack
              end
          end
    end.

(** *** ibc_middleware.go

    [app] is [OnRecvPacket] of the application below in the stack, for the
    relayer's packet; an application may answer later and return nil here, on
    which [Success] panics. *)
Definition Middleware_OnRecvPacket (app : Packet -> M C (option Acknowledgement)) (packet : Packet)
    : M C Acknowledgement :=
  let* ack := app packet in
  match ack with
  | None => panic
  | Some ack => if negb (Ack_Success ack) then ret ack else OnRecvPacket packet ack
  end.

(** The middleware as a module of the stack: it embeds [ibc.Module], whose
    callbacks it keeps but for [OnRecvPacket]. *)
Definition NewIBCMiddleware {B} (app : IBCModule C B) : IBCModule C B :=
  let im := NewModule app in
  mkIBCModule (Module_OnChanOpenInit im) (Module_OnChanOpenTry im) (Module_OnChanOpenAck im)
    (Module_OnChanOpenConfirm im) (Module_OnChanCloseInit im) (Module_OnChanCloseConfirm im)
    (fun packet relayer =>
       let* ack := Middleware_OnRecvPacket (fun packet => Module_OnRecvPacket im packet relayer) packet in
       ret (Some ack))
    (Module_OnAcknowledgementPacket im) (Module_OnTimeoutPacket im).

(** The middleware is also an [ICS4Wrapper], through its keeper. *)
Definition IBCMiddleware_SendPacket (k : K) (args : A) : M C Z := SendPacket k args.
Definition IBCMiddleware_WriteAcknowledgement (k : K) (args : A) : M C unit := WriteAcknowledgement k args.
Definition IBCMiddleware_GetAppVersion (k : K) (portID channelID : string) : M C (option string) :=
  GetAppVersion k portID channelID.

(** *** msg_server.go, grpc_query.go, genesis.go *)

Definition msg_UpdateParams (k : K) (req : MsgUpdateParams) : M C unit :=
  do! reject (negb (String.eqb (GetAuthority k) (Upd_Authority req))) (Foreign "ErrInvalidSigner");
  do! lift (Params_Validate (Upd_Params req));
  SetParams (Upd_Params req).

Definition query_Params : M C Params := GetParams.
Definition InitGenesis (data : GenesisState) : M C unit := SetParams (Gen_Params data).
Definition ExportGenesis : M C GenesisState :=
  let* params := GetParams in ret (mkGenesisState params).

End keeper.
