(* ===== verification/OnboardingFacts.v ===== *)
(** * Theorems about x/onboarding

    First against the interfaces: what the keeper promises given what x/coinswap
    and x/erc20 promise ([CoinwapLaws], [Erc20Laws]).  Then those promises are
    discharged by the two modules as they are modelled here, and the theorems
    are stated for the three modules together. *)

From Stdlib Require Import Ascii.
From stdpp Require Import base gmap strings list.
From S2P Require Import Prelude Golang Sdk Ethereum Ibc CoinswapTypes Erc20Types Onboarding.
From S2P Require Import Coinswap CoinswapFacts CoinswapTrade Erc20 Erc20Facts Reference ReferenceEvm.
From S2P Require Import Onboarding.

#[local] Open Scope Z_scope.
#[local] Open Scope go_scope.

(** ** Vocabulary *)

Section vocabulary.
Context {W X : Type} {ST : SdkTypes} {AK : AccountKeeper W} {BK : BankKeeper W} {EV : EvmKeeper W}.
#[local] Abbreviation MC := (Chain W X).

(** A buy order paid with [r] of the input coin. *)
Definition traded (input : Input) (output : Output) (r : Z) (c c' : MC) : Prop :=
  0 <= r <= Amount (Input_Coin input) ∧ store c' = store c ∧
  ∃ sender recipient pool,
    AccAddressFromBech32 (Input_Address input) = Ok sender ∧
    AccAddressFromBech32 (Output_Address output) = Ok recipient ∧
    bank_delta (world c) (world c')
      (δ_swap sender pool recipient (mkCoin (Denom (Input_Coin input)) r) (Output_Coin output)) (fun _ => 0).

(** A conversion took the coin from its sender: to the escrow of x/erc20 or out
    of circulation. *)
Definition taken (sender : string) (coin : Coin) (w w' : W) : Prop :=
  (∃ escrow, bank_moves w w' (δ_send sender escrow [coin]) (fun _ => 0)) ∨
  bank_moves w w' (fun a d => - gain [coin] sender a d) (fun d => - amount_of [coin] d).

End vocabulary.

(** ** What the keeper relies on from the two modules *)

Class CoinwapLaws (W X : Type) (ready : X -> Prop) `{SdkTypes, AccountKeeper W, BankKeeper W, CoinwapKeeper W X}
    : Prop := {
  Trade_Ok input output r (c c' : Chain W X) : ready (store c) -> 0 < Amount (Output_Coin output) ->
    TradeInputForExactOutput input output c = (Ok r, c') -> traded input output r c c';
  Trade_Err input output e (c c' : Chain W X) : ready (store c) -> 0 < Amount (Output_Coin output) ->
    ValidateDenom (Denom (Output_Coin output)) = true ->
    TradeInputForExactOutput input output c = (Err e, c') -> c' = c;
  StandardDenom_readonly : readonly (S:=Chain W X) GetStandardDenom
}.

Class Erc20Laws (W X : Type) `{SdkTypes, AccountKeeper W, BankKeeper W, EvmKeeper W, Erc20Keeper W X} : Prop := {
  ConvertCoin_Ok msg (c c' : Chain W X) : ConvertCoin msg c = (Ok tt, c') ->
    0 < Amount (CC_Coin msg) ∧ ∃ sender, AccAddressFromBech32 (CC_Sender msg) = Ok sender ∧
      (world c' = world c ∨ store c' = store c ∧ taken sender (CC_Coin msg) (world c) (world c'));
  GetTokenPairID_readonly token : readonly (S:=Chain W X) (GetTokenPairID token);
  GetTokenPair_readonly id : readonly (S:=Chain W X) (GetTokenPair id)
}.

(** ** Against the interfaces *)

Section onboarding_facts.
Context {W X A : Type} {SM : SdkMath} {SML : SdkMathLaws} {ST : SdkTypes} {STL : SdkTypesLaws}.
Context {PS : ParamSubspace} {PSL : ParamSubspaceLaws} {ET : EthTypes} {ETL : EthTypesLaws}.
Context {IB : IbcTypes} {IBL : IbcLaws}.
Context {AK : AccountKeeper W} {BK : BankKeeper W} {BL : BankLaws W} {EV : EvmKeeper W}.
Context {CK : CoinwapKeeper W X} {EK : Erc20Keeper W X}.
Context {ready : X -> Prop} {CKL : CoinwapLaws W X ready} {EKL : Erc20Laws W X}.
#[local] Abbreviation C := (Chain W (Store X)).

(** Parameters that have passed their validators, and a coinswap store as its
    own operations leave it. *)
Definition onboarding_ok (c : C) : Prop :=
  ready (st_modules (store c)) ∧
  ∀ p, st_params (store c) = Some p -> Params_Validate p = Ok tt.

(** The callback goes on to the swap for this recipient and coin. *)
Definition eligible (packet : Packet) (c : C) (recipient denom : string) (amount : Z) : Prop :=
  ∃ p sender s r data,
    st_params (store c) = Some p ∧ EnableOnboarding p = true ∧
    DestinationChannel packet ∈ WhitelistedChannels p ∧
    GetTransferSenderRecipient packet = Ok (sender, recipient, s, r) ∧
    is_module_account (GetAccount (world c) recipient) = false ∧
    UnmarshalPacketData (Packet_Data packet) = Ok data ∧
    GetReceivedCoin (SourcePort packet) (SourceChannel packet) (DestinationPort packet)
      (DestinationChannel packet) (FT_Denom data) (FT_Amount data) = (denom, Some amount).

(** The result of the swap: [swapped] of the received coin went to a pool for
    exactly the threshold of the standard coin, or nothing happened. *)
Definition swap_result (standard recipient denom : string) (amount threshold : Z) (c c1 : C) (swapped : Z)
    : Prop :=
  let rich := threshold <=? amount_of (SpendableCoins (world c) recipient) standard in
  let trade := TradeInputForExactOutput (mkInput (AccAddress_String recipient) (mkCoin denom amount))
    (mkOutput (AccAddress_String recipient) (mkCoin standard threshold)) (modules_of c) in
  (swapped = 0 ∧ c1 = c ∧ (rich = true ∨ is_Ok trade.1 = false)) ∨
  (rich = false ∧ trade.1 = Ok swapped ∧ 0 <= swapped <= amount ∧ store c1 = store c ∧
   ∃ pool, bank_delta (world c) (world c1)
     (δ_swap recipient pool recipient (mkCoin denom swapped) (mkCoin standard threshold)) (fun _ => 0)).

(** The result of the conversion: all of the rest was converted, or nothing, or
    x/erc20 removed the pair since its contract is gone. *)
Definition convert_result (recipient denom : string) (rest : Z) (c1 c' : C) : Prop :=
  (world c' = world c1 ∧ st_params (store c') = st_params (store c1)) ∨
  (0 < rest ∧ store c' = store c1 ∧ taken recipient (mkCoin denom rest) (world c1) (world c')).

Lemma call_Ok {R} (m : M (Chain W X) R) a (c c' : C) :
  call m c = (Ok a, c') -> ∃ mc, m (modules_of c) = (Ok a, mc) ∧ c' = set_modules mc c.
Proof. apply zoom_Ok. Qed.

Lemma set_modules_of (c : C) : set_modules (modules_of c) c = c.
Proof. by destruct c as [w [p x] e]. Qed.

Lemma readonly_call {R} (m : M (Chain W X) R) : readonly m -> readonly (call m).
Proof.
  intros Hm c. specialize (Hm (modules_of c)). unfold call, zoom.
  destruct (m (modules_of c)) as [r mc]. cbn in *. subst. apply set_modules_of.
Qed.

Lemma Onboarding_GetParams_Ok p (c c' : C) :
  Onboarding.GetParams c = (Ok p, c') -> c' = c ∧ st_params (store c) = Some p.
Proof. unfold Onboarding.GetParams. intros E. cinv. case_match; cinv; done. Qed.

(** The swap, on every path that does not panic. *)
Lemma swap_received_Ok standard recipient denom amount swapped p (c c1 : C) :
  onboarding_ok c -> st_params (store c) = Some p -> acc_address_ok recipient ->
  swap_received standard recipient denom (Some amount) c = (Ok swapped, c1) ->
  swap_result standard recipient denom amount (AutoSwapThreshold p) c c1 swapped.
Proof.
  intros [Hr Hv] Hp Hrec E. unfold swap_received in E. minv1.
  apply Onboarding_GetParams_Ok in E0 as [-> Hp']. simplify_eq. cinv.
  match goal with |- swap_result _ _ _ _ _ ?c0 _ _ => rename c0 into c end.
  match goal with H : NewCoin _ _ = _ |- _ => apply NewCoin_Ok in H as (-> & Ht & Hd) end.
  match goal with H : Coins_AmountOf _ _ = Ok _ |- _ =>
    rewrite Coins_AmountOf_spec, Hd in H by apply SpendableCoins_valid; injection H as <- end.
  unfold swap_result. rewrite Z.leb_antisym.
  destruct (Z.ltb_spec (amount_of (SpendableCoins (world c) recipient) standard) (AutoSwapThreshold p)) as [Hlt|];
    [|cinv; left; auto].
  assert (0 < AutoSwapThreshold p) as Ht'.
  { pose proof (valid_nonneg (SpendableCoins (world c) recipient) standard
                  (SpendableCoins_valid _ _)). lia. }
  apply bind_Ok in E as (z & c2 & [<- <-]%ret_Ok & E). apply bind_Ok in E as (v & c3 & Ea & E).
  apply attempt_Ok in Ea. destruct v as [r|e]; cinv.
  - apply call_Ok in Ea as (mc & Et & ->). right.
    pose proof Et as (Hb & Hst & s1 & r1 & pool & Hs1 & Hr1 & HB)%Trade_Ok; [|done|done].
    cbn in *. rewrite bech32_roundtrip in Hs1, Hr1 by done. simplify_eq.
    rewrite Et. split_and!; try done; [lia|lia| |by exists pool]. rewrite Hst. by destruct (store c).
  - left. unfold call, zoom in Ea.
    destruct (TradeInputForExactOutput _ _ (modules_of c)) as [r mc] eqn:Et. injection Ea as -> <-.
    pose proof Et as ->%Trade_Err; [|done..]. split_and!; [done|apply set_modules_of|by right].
Qed.

Lemma amount_of_received_Ok a z (c c' : C) : amount_of_received a c = (Ok z, c') -> a = Some z ∧ c' = c.
Proof. unfold amount_of_received. case_match; intros E; cinv; done. Qed.

(** The conversion, on every path that does not panic. *)
Lemma convert_received_Ok packet s r recipient denom amount swapped (c1 c' : C) :
  acc_address_ok recipient ->
  convert_received packet s r recipient denom (Some amount) swapped c1 = (Ok tt, c') ->
  convert_result recipient denom (amount - swapped) c1 c'.
Proof.
  intros Hrec E. unfold convert_received in E. minv1.
  pose proof (readonly_run _ _ _ _ (readonly_call _ (GetTokenPairID_readonly denom)) E0) as ->.
  case_match; [cinv; by left|]. minv1.
  pose proof (readonly_run _ _ _ _ (readonly_call _ (GetTokenPair_readonly _)) E1) as ->.
  case_match; [cinv; by left|]. cinv.
  arith_inv. match goal with H : NewCoin _ _ = _ |- _ => apply NewCoin_Ok in H as (-> & ? & ?) end.
  match goal with H : cached _ _ = _ |- _ => apply cached_Ok in H; rename H into Ec end.
  match goal with |- convert_result _ _ _ ?c0 _ => rename c0 into c1 end.
  unfold emit_onboarding in E. match type of Ec with match ?x with _ => _ end => destruct x as [[]|e] end;
    cinv.
  - apply call_Ok in Ec as (mc & Hc & ->).
    apply ConvertCoin_Ok in Hc as (Hpos & sender & Hs & [Hw|[Hst HT]]); cbn in *.
    + left. by rewrite Hw.
    + right. rewrite bech32_roundtrip in Hs by done. simplify_eq. split_and!; [done| |done].
      rewrite Hst. by destruct (store c1).
  - destruct Ec as [<- _]. by left.
Qed.

Lemma whitelisted_spec p ch : whitelisted p ch = true <-> ch ∈ WhitelistedChannels p.
Proof.
  unfold whitelisted. rewrite existsb_exists. split.
  - intros (x & Hx & <-%String.eqb_eq). by apply list_elem_of_In.
  - intros Hx. exists ch. rewrite String.eqb_refl. by rewrite <-list_elem_of_In.
Qed.

Lemma transfer_recipient_ok packet sender recipient s r :
  GetTransferSenderRecipient packet = Ok (sender, recipient, s, r) -> acc_address_ok recipient.
Proof.
  unfold GetTransferSenderRecipient. intros E. minv. by eapply canto_address_ok.
Qed.

Lemma transfer_data_ok packet x :
  GetTransferSenderRecipient packet = Ok x -> is_Ok (UnmarshalPacketData (Packet_Data packet)) = true.
Proof. unfold GetTransferSenderRecipient, decode_data. intros E. minv. by case_match. Qed.

(** The run for a packet that is neither ignored nor refused. *)
Lemma OnRecvPacket_run packet ack a p sender recipient s r data denom amount (c c' : C) :
  st_params (store c) = Some p -> EnableOnboarding p = true -> DestinationChannel packet ∈ WhitelistedChannels p ->
  GetTransferSenderRecipient packet = Ok (sender, recipient, s, r) ->
  is_module_account (GetAccount (world c) recipient) = false ->
  UnmarshalPacketData (Packet_Data packet) = Ok data ->
  GetReceivedCoin (SourcePort packet) (SourceChannel packet) (DestinationPort packet)
    (DestinationChannel packet) (FT_Denom data) (FT_Amount data) = (denom, amount) ->
  is_Ok (GetStandardDenom (modules_of c)).1 = true ->
  OnRecvPacket packet ack c = (Ok a, c') ->
  a = ack ∧ ∃ std swapped c1, GetStandardDenom (modules_of c) = (Ok std, modules_of c) ∧
    swap_received std recipient denom amount c = (Ok swapped, c1) ∧
    convert_received packet s r recipient denom amount swapped c1 = (Ok tt, c').
Proof.
  intros Hp Hen Hw%whitelisted_spec Hsr Hm Hd Hg Hstd E. unfold OnRecvPacket in E.
  minv1. apply Onboarding_GetParams_Ok in E0 as [-> Hp']. simplify_eq.
  rewrite Hen, Hw, Hsr in E. cbn [negb] in E. apply bind_Ok in E as (acc & c0 & [-> ->]%get_world_Ok & E).
  rewrite Hm in E. destruct (GetStandardDenom (modules_of c)) as [[std|e|] mc] eqn:Hs; [|done|done].
  pose proof (readonly_run _ _ _ _ StandardDenom_readonly Hs) as ->.
  unfold attempt, call, zoom in E. unfold bind in E at 1. rewrite Hs, Hd, Hg, set_modules_of in E.
  apply bind_Ok in E as (swapped & c1 & Hswap & E). apply bind_Ok in E as ([] & c2 & Hconv & E).
  apply ret_Ok in E as [-> ->]. split; [done|]. by exists std, swapped, c1.
Qed.

Lemma OnRecvPacket_ack packet ack a (c c' : C) :
  OnRecvPacket packet ack c = (Ok a, c') -> a = ack ∨
  c' = c ∧ ∃ e, GetTransferSenderRecipient packet = Err e ∧ a = NewErrorAcknowledgement e.
Proof.
  intros E. unfold OnRecvPacket in E. minv1. apply Onboarding_GetParams_Ok in E0 as [-> Hp].
  case_match; [cinv; by left|]. case_match; [cinv; by left|].
  destruct (GetTransferSenderRecipient packet) as [[[[sender recipient] s] r]|e|] eqn:Hsr; [|cinv|done].
  2: { right. eauto. }
  apply transfer_data_ok in Hsr. cinv. left. case_match; cinv; [done|]. case_match; cinv; [|done].
  case_match; [|done..]. case_match. cinv. done.
Qed.

Lemma threshold_nonneg p (c : C) :
  onboarding_ok c -> st_params (store c) = Some p -> 0 <= AutoSwapThreshold p.
Proof.
  intros [_ Hv] Hp. specialize (Hv p Hp). cbn in Hv. unfold validateAutoSwapThreshold in Hv.
  case_match; [done|]. by breflect.
Qed.

(** What swap and conversion leave of a balance of the recipient. *)
Lemma swap_result_balance standard recipient denom amount threshold (c c1 : C) swapped d :
  0 <= threshold -> swap_result standard recipient denom amount threshold c c1 swapped ->
  (swapped = 0 ∨ 0 <= swapped <= amount) ∧
  GetBalance (world c) recipient d - (if String.eqb denom d then swapped else 0)
  <= GetBalance (world c1) recipient d.
Proof.
  intros Ht [(-> & -> & _)|(_ & _ & Hb & _ & pool & [HB _ _])].
  - split; [by left|]. case_match; lia.
  - split; [by right|]. rewrite HB. unfold δ_swap, δ_send, gain.
    rewrite String.eqb_refl, !amount_of_single. cbn. repeat case_match; lia.
Qed.

Lemma convert_result_balance recipient denom rest (c1 c' : C) d :
  convert_result recipient denom rest c1 c' -> d ≠ EvmDenom ->
  GetBalance (world c1) recipient d - (if String.eqb denom d then Z.max 0 rest else 0)
  <= GetBalance (world c') recipient d.
Proof.
  intros [[-> _]|(Hpos & _ & [(m & HM)|HM])] Hd; [case_match; lia|..];
    destruct (HM d Hd) as [-> _]; unfold δ_send, gain;
    rewrite String.eqb_refl, !amount_of_single; cbn; repeat case_match; lia.
Qed.

End onboarding_facts.

(** ** With x/coinswap and x/erc20 as they are modelled *)

(** The stores of the two modules, as app.go puts them beside each other. *)
Definition Modules : Type := Coinswap.Store * Erc20.Store.

Section composed.
Context {W A : Type} {SM : SdkMath} {SML : SdkMathLaws} {ST : SdkTypes} {STL : SdkTypesLaws}.
Context {HA : Hashes} {HAL : HashesLaws} {PS : ParamSubspace} {PSL : ParamSubspaceLaws}.
Context {ET : EthTypes} {ETL : EthTypesLaws} {AB : Abi} {IB : IbcTypes} {IBL : IbcLaws}.
Context {AK : AccountKeeper W} {BK : BankKeeper W} {BL : BankLaws W} {RL : ReserveLaws W}.
Context {BM : BankMetadata W} {BML : BankMetadataLaws W} {EV : EvmKeeper W} {EL : EvmLaws W}.
#[local] Abbreviation MC := (Chain W Modules).
#[local] Abbreviation C := (Chain W (Store Modules)).

Definition coinswap_part (c : MC) : Chain W Coinswap.Store := mkChain (world c) (store c).1 (events c).
Definition set_coinswap (m : Chain W Coinswap.Store) (c : MC) : MC :=
  mkChain (world m) (store m, (store c).2) (events m).
Definition erc20_part (c : MC) : Chain W Erc20.Store := mkChain (world c) (store c).2 (events c).
Definition set_erc20 (m : Chain W Erc20.Store) (c : MC) : MC :=
  mkChain (world m) ((store c).1, store m) (events m).

#[export] Instance coinswap_module : CoinwapKeeper W Modules := {
  TradeInputForExactOutput i o := zoom coinswap_part set_coinswap (Coinswap.TradeInputForExactOutput i o);
  GetStandardDenom := zoom coinswap_part set_coinswap Coinswap.GetStandardDenom
}.

#[export] Instance erc20_module : Erc20Keeper W Modules := {
  ConvertCoin msg := zoom erc20_part set_erc20 (Erc20.ConvertCoin msg);
  GetTokenPairID token := zoom erc20_part set_erc20 (Erc20.GetTokenPairID token);
  GetTokenPair id := zoom erc20_part set_erc20 (Erc20.GetTokenPair id)
}.

(** What x/coinswap promises holds of its model: [CoinswapFacts], [CoinswapTrade]. *)
#[export] Instance coinswap_module_laws : CoinwapLaws W Modules (fun m => params_ok m.1).
Proof.
  split.
  - intros input output r c c' Hok Hpos (mc & E & ->)%zoom_Ok.
    apply (TradeInputForExactOutput_Ok (mkMsgSwapOrder input output 0 true)) in E
      as (Hr & pool & s & t & Hs & Ht & _ & _ & Hst & HB & _); [|done|done].
    split; [done|]. cbn in *. rewrite Hst. split; [by destruct (store c)|]. eexists s, t, _. eauto.
  - intros input output e c c' Hok Hpos Hd E. cbn in E. unfold zoom in E.
    destruct (Coinswap.TradeInputForExactOutput _ _ _) as [r mc] eqn:Et. injection E as -> <-.
    apply TradeInputForExactOutput_Err in Et as ->; [|done..]. by destruct c as [w [p x] e'].
  - intros [w [p x] e]. done.
Qed.

(** What x/erc20 promises holds of its model: [Erc20Facts]. *)
#[export] Instance erc20_module_laws : Erc20Laws W Modules.
Proof.
  split.
  - intros msg c c' (mc & E & ->)%zoom_Ok.
    apply convert_coin_run in E as (tp & s & Hs & _ & _ & Hpos & _ & Hc). split; [done|].
    exists s. split; [done|]. destruct (has_code _ _); [right|left; by rewrite Hc].
    destruct Hc as (Hst & m & b & w1 & _ & _ & _ & HM & Ho). cbn in *.
    rewrite Hst. split; [by destruct (store c)|]. unfold taken.
    destruct (ContractOwner tp); [done|left; exists m; by rewrite Ho|right; apply Ho].
  - intros token [w [p x] e]. cbn. unfold Erc20.GetTokenPairID. by destruct (IsHexAddress token).
  - intros [id|] [w [p x] e]; done.
Qed.

(** C5: what a received packet sets off, for an enabled module, an allowed channel
    and a recipient that is no module account.  The acknowledgement is kept.  If
    the recipient can spend less of the standard coin than the threshold and
    x/coinswap can sell it that much for at most the received coins, exactly the
    threshold is bought from a pool; otherwise the swap changes nothing, also
    when x/coinswap fails.  Then all that is left of the received coins is
    converted by x/erc20, or nothing is. *)
Theorem onboarding_effect packet ack a recipient denom amount (c c' : C) :
  onboarding_ok (ready := fun m => params_ok m.1) c -> eligible packet c recipient denom amount ->
  OnRecvPacket packet ack c = (Ok a, c') ->
  a = ack ∧ ∃ p swapped c1, st_params (store c) = Some p ∧
    let standard := default "" (st_standardDenom (st_modules (store c)).1) in
    swap_result standard recipient denom amount (AutoSwapThreshold p) c c1 swapped ∧
    convert_result recipient denom (amount - swapped) c1 c'.
Proof.
  intros Hok (p & sender & s & r & data & Hp & Hen & Hw & Hsr & Hm & Hd & Hg) E.
  apply OnRecvPacket_run with (1 := Hp) (2 := Hen) (3 := Hw) (4 := Hsr) (5 := Hm) (6 := Hd) (7 := Hg) (8 := eq_refl) in E
    as (-> & std & swapped & c1 & Hstd & Hswap & Hconv).
  split; [done|]. exists p, swapped, c1. split; [done|]. injection Hstd as <-.
  apply transfer_recipient_ok in Hsr. split; [by eapply swap_received_Ok|by eapply convert_received_Ok].
Qed.

(** C25: the callback never takes more from the recipient than the coins it has just
    received: whatever the outcome of swap and conversion, in every denomination
    but the one the EVM keeps, the balance of the recipient falls by at most the
    amount received if it is the received denomination, and does not fall
    otherwise. *)
Theorem onboarding_never_overspends packet ack a recipient denom amount (c c' : C) d :
  onboarding_ok (ready := fun m => params_ok m.1) c -> eligible packet c recipient denom amount ->
  0 <= amount -> OnRecvPacket packet ack c = (Ok a, c') -> d ≠ EvmDenom ->
  GetBalance (world c) recipient d - (if String.eqb denom d then amount else 0)
  <= GetBalance (world c') recipient d.
Proof.
  intros Hok (p & sender & s & r & data & Hp & Hen & Hw & Hsr & Hm & Hd & Hg) Hamt E Hne.
  apply OnRecvPacket_run with (1 := Hp) (2 := Hen) (3 := Hw) (4 := Hsr) (5 := Hm) (6 := Hd) (7 := Hg) (8 := eq_refl) in E
    as (-> & std & swapped & c1 & Hstd & Hswap & Hconv).
  apply transfer_recipient_ok in Hsr. eapply swap_received_Ok in Hswap; [|done..].
  eapply convert_received_Ok in Hconv; [|done].
  destruct (swap_result_balance _ _ _ _ _ _ _ _ d (threshold_nonneg _ _ Hok Hp) Hswap) as [Hr Hb1].
  pose proof (convert_result_balance _ _ _ _ _ d Hconv Hne) as Hb2.
  destruct (String.eqb denom d); lia.
Qed.

(** C34: the acknowledgement.  The middleware returns the one of the transfer
    application untouched when that refused the packet, and so does the callback
    whenever it ends without a panic, except for packets whose data, sender or
    recipient cannot be decoded: these are refused, and leave no trace.  A module
    that is switched off, and packets on other channels, change nothing at all. *)
Theorem onboarding_acknowledges packet ack p (c : C) :
  st_params (store c) = Some p ->
  (EnableOnboarding p = false ∨ DestinationChannel packet ∉ WhitelistedChannels p ->
   OnRecvPacket packet ack c = (Ok ack, c)) ∧
  (∀ e, EnableOnboarding p = true -> DestinationChannel packet ∈ WhitelistedChannels p ->
   GetTransferSenderRecipient packet = Err e ->
   OnRecvPacket packet ack c = (Ok (NewErrorAcknowledgement e), c)) ∧
  (∀ a c', OnRecvPacket packet ack c = (Ok a, c') -> a = ack ∨
     c' = c ∧ ∃ e, GetTransferSenderRecipient packet = Err e ∧ a = NewErrorAcknowledgement e) ∧
  (∀ app c0, app packet c0 = (Ok (Some ack), c) ->
   Middleware_OnRecvPacket app packet c0 = if Ack_Success ack then OnRecvPacket packet ack c else (Ok ack, c)).
Proof.
  intros Hp. assert (Onboarding.GetParams c = (Ok p, c)) as HG.
  { unfold Onboarding.GetParams, bind, get_store, gets. by rewrite Hp. }
  split_and!.
  - intros Hor. unfold OnRecvPacket, bind. rewrite HG. destruct (EnableOnboarding p); [|done]. cbn [negb].
    destruct (whitelisted p _) eqn:Hw; [|done]. apply whitelisted_spec in Hw. by destruct Hor.
  - intros e Hen Hw%whitelisted_spec Hsr. unfold OnRecvPacket, bind. by rewrite HG, Hen, Hw, Hsr.
  - intros a c'. apply OnRecvPacket_ack.
  - intros app c0 E. unfold Middleware_OnRecvPacket, bind. rewrite E. by destruct (Ack_Success ack).
Qed.

End composed.

(** ** A concrete chain for the witnesses *)

(** Packet data is four fields between semicolons; a trace is the last part of a
    path. *)
#[export] Instance ref_ibc : IbcTypes := {
  UnmarshalPacketData data :=
    match Split data ";"%char with
    | [denom; amount; sender; receiver] => Ok (mkFungibleTokenPacketData denom amount sender receiver)
    | _ => Err (Plain "invalid packet data")
    end;
  ReceiverChainIsSource p ch d := HasPrefix d (p +:+ "/" +:+ ch +:+ "/");
  GetDenomPrefix p ch := p +:+ "/" +:+ ch +:+ "/";
  ParseDenomTrace d := mkDenomTrace (if Contains d "/" then "path" else "") (default "" (last (Split d "/"%char)));
  IBCDenom t := "ibc/" +:+ Trace_BaseDenom t;
  NewIntFromString s := if String.eqb s "" then None else parse_digits s 0;
  GetFromBech32 s hrp :=
    if HasPrefix s (hrp +:+ "1") then Ok (drop_bytes (S (String.length hrp)) s) else Err (Plain "invalid prefix");
  VerifyAddressFormat a :=
    if String.eqb a "" then Err (Plain "empty") else
    if (String.length a <=? 255)%nat then Ok tt else Err (Plain "too long");
  AttributeKeySrcChannel := "packet_src_channel";
  AttributeKeySrcPort := "packet_src_port";
  AttributeKeyDstChannel := "packet_dst_channel";
  AttributeKeyDstPort := "packet_dst_port"
}.

#[export] Instance ref_ibc_laws : IbcLaws.
Proof.
  split; [done|]. cbn. intros a. unfold acc_address_ok.
  destruct (String.eqb_spec a ""); [done|]. destruct (Nat.leb_spec (String.length a) 255); done.
Qed.

#[export] Instance ref_reserve_laws : ReserveLaws EvmWorld.
Proof.
  split.
  - intros f t cs e [w s] w' _ E. cbn in E. unfold on_bank, zoom in E. cbn in E.
    unfold ref_send in E. repeat case_match; simplify_eq; try done; by destruct w.
  - intros [w s] lpt d Hd. by apply ref_all_balances_amount.
Qed.

Definition onb_world : EvmWorld :=
  (mkRefWorld {[("bob", "atuc") := 500000%N; ("bob", "ibc/ABC") := 500000%N; (ex_alice, "ibc/ABC") := 1000%N]}
     {["atuc" := 500000%N; "ibc/ABC" := 501000%N]} {["bob" := false; ex_alice := false]},
   ex_erc20_world.2).
Definition onb_coinswap : Chain EvmWorld Coinswap.Store :=
  (Coinswap.msg_AddLiquidity (Coinswap.mkKeeper "fee_collector" ∅ "tuc1gov") (mkBlockCtx 0 1)
     (mkMsgAddLiquidity (mkCoin "ibc/ABC" 200000) 100000 1 10 "tuc1bob")
     (Coinswap.InitGenesis
        (CoinswapTypes.mkGenesisState
           (CoinswapTypes.mkParams (3 * 10 ^ 15) (mkCoin "atuc" 1000) (4 * 10 ^ 17) 1000000 [mkCoin "ibc/ABC" 5000])
           "atuc" [] 1)
        (mkChain onb_world (Coinswap.mkStore None None None ∅ ∅) [])).2).2.
Definition onb_chain : Chain EvmWorld (Store Modules) :=
  mkChain (world onb_coinswap)
    (mkStore (Some (mkParams true 400 ["channel-0"])) (store onb_coinswap, ex_erc20_store)) [].
Definition onb_packet : Packet :=
  mkPacket "transfer" "channel-7" "transfer" "channel-0" ("ABC;1000;cosmos1xyz;tuc1" +:+ ex_alice).
Definition onb_ack : Acknowledgement := AckResult "1".

Lemma onb_chain_ok : onboarding_ok (ready := fun m : Modules => params_ok m.1) onb_chain.
Proof.
  split.
  - intros p Hp. vm_compute in Hp. injection Hp as <-. repeat constructor.
  - intros p [= <-]. done.
Defined.

Lemma onb_eligible : eligible onb_packet onb_chain ex_alice "ibc/ABC" 1000.
Proof.
  eexists _, _, _, _, _. split_and!; [reflexivity|reflexivity| | | | |].
  - left.
  - vm_compute. reflexivity.
  - vm_compute. reflexivity.
  - vm_compute. reflexivity.
  - vm_compute. reflexivity.
Defined.

Lemma onboarding_effect_witness :
  ∃ p swapped c1, st_params (store onb_chain) = Some p ∧
    swap_result "atuc" ex_alice "ibc/ABC" 1000 (AutoSwapThreshold p) onb_chain c1 swapped ∧
    convert_result ex_alice "ibc/ABC" (1000 - swapped) c1 (OnRecvPacket onb_packet onb_ack onb_chain).2.
Proof.
  apply (onboarding_effect onb_packet onb_ack onb_ack ex_alice "ibc/ABC" 1000 onb_chain
           (OnRecvPacket onb_packet onb_ack onb_chain).2 onb_chain_ok onb_eligible).
  apply run_Ok. vm_compute. reflexivity.
Defined.

Lemma onboarding_never_overspends_witness :
  GetBalance (world onb_chain) ex_alice "ibc/ABC" - 1000
  <= GetBalance (world (OnRecvPacket onb_packet onb_ack onb_chain).2) ex_alice "ibc/ABC".
Proof.
  apply (onboarding_never_overspends onb_packet onb_ack onb_ack ex_alice "ibc/ABC" 1000 onb_chain
           (OnRecvPacket onb_packet onb_ack onb_chain).2 "ibc/ABC" onb_chain_ok onb_eligible);
    [lia| |discriminate].
  apply run_Ok. vm_compute. reflexivity.
Defined.

(** A packet whose receiver is no bech32 text. *)
Definition onb_refused : Packet :=
  mkPacket "transfer" "channel-7" "transfer" "channel-0" "ABC;1000;cosmos1xyz;nobody".

Lemma onboarding_acknowledges_witness :
  OnRecvPacket onb_refused onb_ack onb_chain
  = (Ok (NewErrorAcknowledgement (Foreign "ErrInvalidAddress")), onb_chain).
Proof.
  apply (onboarding_acknowledges onb_refused onb_ack (mkParams true 400 ["channel-0"]) onb_chain eq_refl);
    [reflexivity|left|vm_compute; reflexivity].
Defined.
