(* ===== verification/Govshuttle.v ===== *)
(** * x/govshuttle: governance proposals for the lending market

    A proposal that passes is written into a contract, the port, which the module
    deploys with its first proposal.  The store keeps the port's address.  The
    keeper is a client of x/erc20 through the interface of types/interfaces.go,
    the class [ERC20Keeper]; [X] is the store of that module. *)

From stdpp Require Import base gmap strings list.
From S2P Require Import Prelude Golang Sdk Ethereum Erc20Types.

#[local] Open Scope Z_scope.
#[local] Open Scope go_scope.

(** ** Types *)

Definition ModuleName : string := "govshuttle".
Definition Errgovshuttle : error := Registered ModuleName 1100.
Definition ProposalTypeLendingMarket : string := "Lending-Market".
Definition ProposalTypeTreasury : string := "Treasury".

Inductive Params := mkParams.
Record GenesisState := mkGenesisState { Gen_Params : Params; PortContractAddr : string }.

Record LendingMarketMetadata := mkLendingMarketMetadata {
  LM_Account : list string;
  LM_PropId : Z;
  LM_Values : list Z;
  LM_Calldatas : list string;
  LM_Signatures : list string
}.
Record TreasuryProposalMetadata := mkTreasuryProposalMetadata {
  T_PropID : Z;
  T_Recipient : string;
  T_Amount : Z;
  T_Denom : string
}.

(** The metadata of a proposal is a pointer, which may be nil. *)
Record LendingMarketProposal_content := mkLendingMarketProposal {
  LP_Title : string;
  LP_Description : string;
  LP_Metadata : option LendingMarketMetadata
}.
Record TreasuryProposal_content := mkTreasuryProposal {
  TP_Title : string;
  TP_Description : string;
  TP_Metadata : option TreasuryProposalMetadata
}.
Record MsgLendingMarketProposal := mkMsgLendingMarketProposal {
  ML_Authority : string;
  ML_Title : string;
  ML_Description : string;
  ML_Metadata : option LendingMarketMetadata
}.
Record MsgTreasuryProposal := mkMsgTreasuryProposal {
  MT_Authority : string;
  MT_Title : string;
  MT_Description : string;
  MT_Metadata : option TreasuryProposalMetadata
}.

(** The generated getters read a nil pointer as the zero value. *)
Definition lm_or_zero (m : option LendingMarketMetadata) : LendingMarketMetadata :=
  default (mkLendingMarketMetadata [] 0 [] [] []) m.
Definition tm_or_zero (m : option TreasuryProposalMetadata) : TreasuryProposalMetadata :=
  default (mkTreasuryProposalMetadata 0 "" 0 "") m.

(** *** proposal.go *)

Definition NewLendingMarketProposal (title description : string) (m : LendingMarketMetadata) :=
  mkLendingMarketProposal title description (Some m).
Definition NewTreasuryProposal (title description : string) (tm : TreasuryProposalMetadata) :=
  mkTreasuryProposal title description (Some tm).

(** The three lists of calls must have one length. *)
Definition same_lengths (m : option LendingMarketMetadata) : outcome unit :=
  let cd := length (LM_Calldatas (lm_or_zero m)) in
  let vals := length (LM_Values (lm_or_zero m)) in
  let sigs := length (LM_Signatures (lm_or_zero m)) in
  if negb (cd =? vals)%nat then Err (Foreign "ErrInvalidProposalContent")
  else if negb (vals =? sigs)%nat then Err (Foreign "ErrInvalidProposalContent")
  else Ok tt.

Definition valid_denom (m : option TreasuryProposalMetadata) : outcome unit :=
  let s := ToLower (T_Denom (tm_or_zero m)) in
  if negb (String.eqb s "canto") && negb (String.eqb s "note") then Err (Foreign "ErrInvalidProposalContent")
  else Ok tt.

(** [govv1beta1.ValidateAbstract] of title and description is x/gov's. *)
Definition LendingMarketProposal_ValidateBasic (validateAbstract : string -> string -> outcome unit)
    (lm : LendingMarketProposal_content) : outcome unit :=
  let? _ := validateAbstract (LP_Title lm) (LP_Description lm) in
  same_lengths (LP_Metadata lm).
Definition TreasuryProposal_ValidateBasic (validateAbstract : string -> string -> outcome unit)
    (tp : TreasuryProposal_content) : outcome unit :=
  let? _ := validateAbstract (TP_Title tp) (TP_Description tp) in
  valid_denom (TP_Metadata tp).

Definition treasury_metadata (m : option TreasuryProposalMetadata) : LendingMarketMetadata :=
  let m := tm_or_zero m in
  mkLendingMarketMetadata [T_Recipient m] (T_PropID m) [T_Amount m] [] [T_Denom m].

Definition FromTreasuryToLendingMarket_content (tp : TreasuryProposal_content) : LendingMarketProposal_content :=
  mkLendingMarketProposal (TP_Title tp) (TP_Description tp) (Some (treasury_metadata (TP_Metadata tp))).

Definition FromTreasuryToLendingMarket (tp : MsgTreasuryProposal) : MsgLendingMarketProposal :=
  mkMsgLendingMarketProposal (MT_Authority tp) (MT_Title tp) (MT_Description tp)
    (Some (treasury_metadata (MT_Metadata tp))).

(** *** params.go, genesis.go *)

Definition NewParams : Params := mkParams.
Definition DefaultParams : Params := NewParams.
Definition ParamSetPairs (p : Params) : list (outcome unit) := [].
Definition Params_Validate (p : Params) : outcome unit := Ok tt.
Definition DefaultGenesis : GenesisState := mkGenesisState DefaultParams "".
Definition GenesisState_Validate (gs : GenesisState) : outcome unit := Params_Validate (Gen_Params gs).

(** *** interfaces.go and what only this module uses: the counter of x/gov, whose
    [Peek] is the number of the next proposal, go-ethereum's [Hex2Bytes] *)

Class ERC20Keeper (W X : Type) := {
  CallEVM : string -> string -> string -> bool -> string -> list AbiArg -> M (Chain W X) EvmResponse;
  CallEVMWithData : string -> option string -> string -> bool -> M (Chain W X) EvmResponse
}.

Class GovDeps (W : Type) := {
  ProposalID_Peek : W -> outcome Z;
  Hex2Bytes : string -> string;
  Gov_GetModuleAccount : string -> M W (option Account)
}.

(** ** The keeper *)

Record Store (X : Type) := mkStore { st_port : option string; st_erc20 : X }.
Arguments mkStore {X} st_port st_erc20.
Arguments st_port {X} _.
Arguments st_erc20 {X} _.

Record Keeper := mkKeeper { authority : string }.

(** The variable [contracts.ProposalStoreContract]. *)
Definition port_abi : string := "ProposalStoreContract".

Section keeper.
Context {W X : Type} `{ParamSubspace} `{EthTypes} `{Abi}.
Context {AK : AccountKeeper W} {EK : ERC20Keeper W X} {GD : GovDeps W}.
#[local] Abbreviation C := (Chain W (Store X)).

Definition ModuleAddress : string := BytesToAddress (NewModuleAddress ModuleName).

Definition erc20_of (c : C) : Chain W X := mkChain (world c) (st_erc20 (store c)) (events c).
Definition set_erc20_of (m : Chain W X) (c : C) : C :=
  mkChain (world m) (mkStore (st_port (store c)) (store m)) (events m).
Definition call_erc20 {R} (m : M (Chain W X) R) : M C R := zoom erc20_of set_erc20_of m.

(** *** keeper.go, params.go *)

Definition NewKeeper (auth : string) : Keeper := mkKeeper auth.
Definition GetAuthority (k : Keeper) : string := authority k.

Definition GetPort : M C (option string) :=
  let* bz := get_store st_port in
  match bz with
  | None => ret None
  | Some bz => if String.eqb bz "" then ret None else ret (Some (BytesToAddress bz))
  end.
Definition SetPort (portAddr : string) : M C unit :=
  mod_store (fun s => mkStore (Some portAddr) (st_erc20 s)).

Definition GetParams : M C Params := ret NewParams.
(** There is no parameter to store. *)
Definition SetParams (params : Params) : M C unit := lift (SetParamSet_check (ParamSetPairs params)).

(** *** proposals.go *)

Definition ToAddress (addrs : list string) : list string := HexToAddress <$> addrs.
Definition ToBytes (strs : list string) : list string := Hex2Bytes <$> strs.
(** [NewIntFromUint64(a).BigInt()] *)
Definition ToBigInt (ints : list Z) : list Z := ints.

(** The arguments of the port's constructor and of [AddProposal]. *)
Definition proposal_args (lm : MsgLendingMarketProposal) : list AbiArg :=
  let m := lm_or_zero (ML_Metadata lm) in
  [ArgBig (LM_PropId m); ArgString (ML_Title lm); ArgString (ML_Description lm);
   ArgAddresses (ToAddress (LM_Account m)); ArgBigs (ToBigInt (LM_Values m));
   ArgStrings (LM_Signatures m); ArgByteArrays (ToBytes (LM_Calldatas m))].

Definition DeployMapContract (lm : MsgLendingMarketProposal) : M C string :=
  let* ctorArgs := match abi_Pack port_abi "" (proposal_args lm) with
                   | Ok a => ret a | Err _ => fail ErrABIPack | Panic => panic
                   end in
  let data := abi_Bin port_abi +:+ ctorArgs in
  let* nonce := get_world (fun w => GetSequence w ModuleAddress) in
  let* nonce := lift nonce in
  let contractAddr := CreateAddress ModuleAddress nonce in
  do! call_erc20 (CallEVMWithData ModuleAddress None data true);
  ret contractAddr.

(** [m.PropId, err = k.govKeeper.ProposalID.Peek(ctx)] for a proposal without a
    number: the assignment through a nil pointer panics. *)
Definition number_proposal (lm : MsgLendingMarketProposal) : M C MsgLendingMarketProposal :=
  if LM_PropId (lm_or_zero (ML_Metadata lm)) =? 0 then
    match ML_Metadata lm with
    | None => panic
    | Some m =>
        let* id := get_world ProposalID_Peek in
        let* id := lift id in
        ret (mkMsgLendingMarketProposal (ML_Authority lm) (ML_Title lm) (ML_Description lm)
          (Some (mkLendingMarketMetadata (LM_Account m) id (LM_Values m) (LM_Calldatas m) (LM_Signatures m))))
    end
  else ret lm.

Definition AppendLendingMarketProposal (lm : MsgLendingMarketProposal) : M C MsgLendingMarketProposal :=
  let* lm := number_proposal lm in
  let* port := GetPort in
  let* addr := match port with
               | Some addr => ret addr
               | None => let* addr := DeployMapContract lm in do! SetPort addr; ret addr
               end in
  do! call_erc20 (CallEVM port_abi ModuleAddress addr true "AddProposal" (proposal_args lm));
  ret lm.

(** *** msg_server.go *)

Definition check_authority (k : Keeper) (a : string) : M C unit :=
  reject (negb (String.eqb (GetAuthority k) a)) (Foreign "ErrInvalidSigner").

Definition LendingMarketProposal (k : Keeper) (req : MsgLendingMarketProposal) : M C unit :=
  do! check_authority k (ML_Authority req);
  do! lift (same_lengths (ML_Metadata req));
  do! AppendLendingMarketProposal req;
  ret tt.

Definition TreasuryProposal (k : Keeper) (req : MsgTreasuryProposal) : M C unit :=
  do! check_authority k (MT_Authority req);
  do! lift (valid_denom (MT_Metadata req));
  do! AppendLendingMarketProposal (FromTreasuryToLendingMarket req);
  ret tt.

(** *** grpc_query_params.go, genesis.go *)

Definition query_Params (req : option unit) : M C Params :=
  match req with None => fail (Foreign "codes.InvalidArgument") | Some _ => GetParams end.

Definition InitGenesis (genState : GenesisState) : M C unit :=
  do! SetParams (Gen_Params genState);
  do! (if negb (String.eqb (PortContractAddr genState) "")
       then SetPort (HexToAddress (PortContractAddr genState)) else ret tt);
  let* acc := ext (Gov_GetModuleAccount ModuleName) in
  match acc with None => panic | Some _ => ret tt end.

Definition ExportGenesis : M C GenesisState :=
  let* params := GetParams in
  let* port := GetPort in
  ret (mkGenesisState params
    (match port with Some portAddr => Address_String portAddr | None => PortContractAddr DefaultGenesis end)).

End keeper.
