(* ===== verification/GovshuttleFacts.v ===== *)
(** * Theorems about x/govshuttle

    The keeper runs on x/erc20 as it is modelled in [Erc20.v]: its contract calls
    are committed EVM messages of the module's account.  Every proposal that
    passes is written to one port contract, whose address never changes. *)

From stdpp Require Import base gmap strings list.
From S2P Require Import Prelude Golang Sdk Ethereum Erc20Types Erc20 Erc20Facts Reference ReferenceEvm.
From S2P Require Import Govshuttle.

#[local] Open Scope Z_scope.
#[local] Open Scope go_scope.

Section govshuttle_facts.
Context {W : Type} {ST : SdkTypes} {STL : SdkTypesLaws} {HA : Hashes}.
Context {PS : ParamSubspace} {PSL : ParamSubspaceLaws} {ET : EthTypes} {ETL : EthTypesLaws} {AB : Abi}.
Context {AK : AccountKeeper W} {BK : BankKeeper W} {BM : BankMetadata W} {EV : EvmKeeper W} {GD : GovDeps W}.
#[local] Abbreviation C := (Chain W (Store Erc20.Store)).

(** x/erc20 behind the interface of x/govshuttle. *)
#[export] Instance erc20_for_govshuttle : ERC20Keeper W Erc20.Store := {
  CallEVM := Erc20.CallEVM;
  CallEVMWithData := Erc20.CallEVMWithData
}.

(** ** Vocabulary *)

Definition port_of (s : Store Erc20.Store) : option string :=
  match st_port s with
  | Some bz => if String.eqb bz "" then None else Some (BytesToAddress bz)
  | None => None
  end.

(** A message from the module's account was executed and committed. *)
Definition committed (to : option string) (data : string) (w w' : W) : Prop :=
  ∃ nonce gas res, GetSequence w ModuleAddress = Ok nonce ∧
    ApplyMessage (mkEthMessage ModuleAddress to nonce 0 gas 0 data false) true w = (Ok res, w') ∧
    res_Failed res = false.

(** The metadata of a proposal and the number it is stored under: its own, or the
    next one of x/gov. *)
Definition numbered (w : W) (lm : MsgLendingMarketProposal) (m : LendingMarketMetadata) (id : Z) : Prop :=
  ML_Metadata lm = Some m ∧ if LM_PropId m =? 0 then ProposalID_Peek w = Ok id else id = LM_PropId m.

(** The fields of a proposal in the order of the port's constructor and of its
    method AddProposal: uint256 id, string title, string desc, address[] targets,
    uint256[] values, string[] signatures, bytes[] calldatas. *)
Definition port_fields (id : Z) (title desc : string) (m : LendingMarketMetadata) : list AbiArg :=
  [ArgBig id; ArgString title; ArgString desc;
   ArgAddresses (map HexToAddress (LM_Account m)); ArgBigs (LM_Values m);
   ArgStrings (LM_Signatures m); ArgByteArrays (map Hex2Bytes (LM_Calldatas m))].

(** The port [addr] is there before the proposal is added, or is created with the
    proposal's fields: a contract of the module's account at the address that
    follows from its nonce. *)
Definition port_ready (fields : list AbiArg) (addr : string) (s : Store Erc20.Store) (w w1 : W) : Prop :=
  (port_of s = Some addr ∧ w1 = w) ∨
  (port_of s = None ∧ ∃ nonce ctorArgs, GetSequence w ModuleAddress = Ok nonce ∧
     addr = CreateAddress ModuleAddress nonce ∧
     abi_Pack port_abi "" fields = Ok ctorArgs ∧
     committed None (abi_Bin port_abi +:+ ctorArgs) w w1).

(** What a proposal that is carried out does. *)
Definition proposal_stored (lm : MsgLendingMarketProposal) (c c' : C) : Prop :=
  ∃ m id addr w1 data, numbered (world c) lm m id ∧
    port_ready (port_fields id (ML_Title lm) (ML_Description lm) m) addr (store c) (world c) w1 ∧
    port_of (store c') = Some addr ∧ st_erc20 (store c') = st_erc20 (store c) ∧ events c' = events c ∧
    abi_Pack port_abi "AddProposal" (port_fields id (ML_Title lm) (ML_Description lm) m) = Ok data ∧
    committed (Some addr) data w1 (world c').

(** ** Lemmas *)

Lemma call_erc20_Ok {R} (m : M (Chain W Erc20.Store) R) a (c c' : C) :
  call_erc20 m c = (Ok a, c') -> ∃ mc, m (erc20_of c) = (Ok a, mc) ∧ c' = set_erc20_of mc c.
Proof. apply zoom_Ok. Qed.

(** A committed call of x/erc20 only changes the world. *)
Lemma port_call_commit to data res (c c' : Chain W Erc20.Store) :
  Erc20.CallEVMWithData ModuleAddress to data true c = (Ok res, c') ->
  store c' = store c ∧ events c' = events c ∧ committed to data (world c) (world c').
Proof.
  unfold Erc20.CallEVMWithData. intros E. cinv. split_and!; [done..|].
  eexists _, _, _. split_and!; [symmetry; eassumption|eassumption|done].
Qed.

Lemma call_erc20_commit to data res (c c' : C) :
  call_erc20 (CallEVMWithData ModuleAddress to data true) c = (Ok res, c') ->
  store c' = store c ∧ events c' = events c ∧ committed to data (world c) (world c').
Proof.
  intros (mc & (Hs & He & Hc)%port_call_commit & ->)%call_erc20_Ok. cbn in *.
  rewrite Hs. by destruct (store c).
Qed.

Lemma call_erc20_method addr method args res (c c' : C) :
  call_erc20 (CallEVM port_abi ModuleAddress addr true method args) c = (Ok res, c') ->
  store c' = store c ∧ events c' = events c ∧
  ∃ data, abi_Pack port_abi method args = Ok data ∧ committed (Some addr) data (world c) (world c').
Proof.
  intros (mc & E & ->)%call_erc20_Ok. cbn in E. unfold Erc20.CallEVM in E.
  destruct (abi_Pack _ _ _) as [data|e|] eqn:Hp; [|done|done].
  apply port_call_commit in E as (Hs & He & Hc). cbn in *. rewrite Hs.
  split; [by destruct (store c)|]. eauto.
Qed.

Lemma GetPort_run (c : C) : GetPort c = (Ok (port_of (store c)), c).
Proof.
  unfold GetPort, port_of, bind, get_store, gets. destruct (st_port (store c)) as [bz|]; [|done].
  by destruct (String.eqb bz "").
Qed.

Lemma GetPort_Ok r (c c' : C) : GetPort c = (Ok r, c') -> c' = c ∧ r = port_of (store c).
Proof. rewrite GetPort_run. by intros [= <- <-]. Qed.

(** The numbered proposal has the fields of the given one. *)
Lemma number_proposal_Ok lm lm' (c c' : C) :
  number_proposal lm c = (Ok lm', c') ->
  c' = c ∧ ∃ m id, numbered (world c) lm m id ∧
    proposal_args lm' = port_fields id (ML_Title lm) (ML_Description lm) m.
Proof.
  unfold number_proposal, numbered. destruct lm as [a t d [[acc id vals cds sigs]|]]; cbn; [|done].
  destruct (id =? 0) eqn:Hid; intros E; cinv; (split; [done|]);
    exists (mkLendingMarketMetadata acc id vals cds sigs); eexists; (split; [|reflexivity]); cbn; by rewrite Hid.
Qed.

Lemma port_of_SetPort addr (x : Erc20.Store) : address_ok addr -> port_of (mkStore (Some addr) x) = Some addr.
Proof.
  intros Ha. unfold port_of. cbn. destruct (String.eqb_spec addr "") as [->|_]; [done|].
  by rewrite BytesToAddress_id.
Qed.

Lemma DeployMapContract_Ok lm addr (c c' : C) :
  DeployMapContract lm c = (Ok addr, c') ->
  store c' = store c ∧ events c' = events c ∧ ∃ nonce ctorArgs, GetSequence (world c) ModuleAddress = Ok nonce ∧
    addr = CreateAddress ModuleAddress nonce ∧ abi_Pack port_abi "" (proposal_args lm) = Ok ctorArgs ∧
    committed None (abi_Bin port_abi +:+ ctorArgs) (world c) (world c').
Proof.
  unfold DeployMapContract. destruct (abi_Pack _ _ _) as [ctorArgs|e|]; intros E; cinv.
  match goal with H : call_erc20 _ _ = _ |- _ => apply call_erc20_commit in H as (-> & -> & ?) end.
  split_and!; [done..|]. eexists _, _. eauto.
Qed.

Lemma AppendLendingMarketProposal_Ok lm lm' (c c' : C) :
  AppendLendingMarketProposal lm c = (Ok lm', c') -> proposal_stored lm c c'.
Proof.
  unfold AppendLendingMarketProposal. intros E.
  apply bind_Ok in E as (lm1 & c1 & (-> & m & id & Hn & Hargs)%number_proposal_Ok & E).
  apply bind_Ok in E as (port & c2 & [-> ->]%GetPort_Ok & E).
  apply bind_Ok in E as (addr & c3 & Hp & E).
  assert (port_ready (proposal_args lm1) addr (store c) (world c) (world c3) ∧ port_of (store c3) = Some addr ∧
          st_erc20 (store c3) = st_erc20 (store c) ∧ events c3 = events c) as (Hr & Hport & Hx & He).
  { unfold port_ready. destruct (port_of (store c)) eqn:Hpo; [cinv; auto 6|].
    apply bind_Ok in Hp as (a & c4 & (Hs & He & nonce & ctor & Hd)%DeployMapContract_Ok & Hp).
    apply bind_Ok in Hp as (u & c5 & ->%mod_store_Ok & [-> <-]%ret_Ok).
    destruct Hd as (Hseq & -> & Hpack & Hcom).
    cbn [store world events set_store st_erc20]. rewrite port_of_SetPort by apply CreateAddress_ok. rewrite Hs.
    split_and!; [right|done..]. split; [done|]. eexists _, _. eauto. }
  apply bind_Ok in E as (res & c5 & (Hs & He' & data & Hpack & Hcom)%call_erc20_method & E). cinv.
  rewrite Hargs in *. exists m, id, addr, (world c3), data. rewrite Hs, He', He. by split_and!.
Qed.

Lemma govshuttle_lending_run k req (c c' : C) :
  LendingMarketProposal k req c = (Ok tt, c') -> proposal_stored req c c'.
Proof.
  unfold LendingMarketProposal, check_authority. intros E. cinv. by eapply AppendLendingMarketProposal_Ok.
Qed.

Lemma govshuttle_treasury_run k req (c c' : C) :
  TreasuryProposal k req c = (Ok tt, c') -> ∃ lm, proposal_stored lm c c'.
Proof.
  unfold TreasuryProposal, check_authority. intros E. cinv. eexists. by eapply AppendLendingMarketProposal_Ok.
Qed.

(** ** Theorems *)

(** C27: a lending-market proposal that is carried out comes from the authority and
    has lists of one length.  Its number (that of x/gov's counter if it has none),
    title, description, accounts as addresses, values, signatures and calldatas
    decoded from hexadecimals are passed in this order to AddProposal of the port,
    in a committed call of the module's account; the port is the contract stored before, or, for the
    first proposal, one newly deployed with the same fields at the address of
    the account's nonce, which is stored.  A treasury proposal that is carried out names the coin
    canto or note and is stored as the same call for its one recipient. *)
Theorem govshuttle_stores_proposal k (c c' : C) :
  (∀ req, LendingMarketProposal k req c = (Ok tt, c') ->
   ML_Authority req = authority k ∧
   (length (LM_Calldatas (lm_or_zero (ML_Metadata req))) = length (LM_Values (lm_or_zero (ML_Metadata req))) ∧
    length (LM_Values (lm_or_zero (ML_Metadata req))) = length (LM_Signatures (lm_or_zero (ML_Metadata req)))) ∧
   proposal_stored req c c') ∧
  (∀ req, TreasuryProposal k req c = (Ok tt, c') ->
   MT_Authority req = authority k ∧
   (∃ tm, MT_Metadata req = Some tm ∧ ToLower (T_Denom tm) ∈ ["canto"; "note"] ∧
      proposal_stored (mkMsgLendingMarketProposal (MT_Authority req) (MT_Title req) (MT_Description req)
        (Some (mkLendingMarketMetadata [T_Recipient tm] (T_PropID tm) [T_Amount tm] [] [T_Denom tm]))) c c')).
Proof.
  split; intros req E.
  - unfold LendingMarketProposal, check_authority in E. cinv. breflect. split; [done|].
    match goal with H : AppendLendingMarketProposal _ _ = _ |- _ =>
      apply AppendLendingMarketProposal_Ok in H as HP end.
    match goal with H : same_lengths _ = _ |- _ => unfold same_lengths in H; repeat case_match; try done end.
    breflect. by repeat match goal with H : (_ =? _)%nat = true |- _ => apply Nat.eqb_eq in H end.
  - unfold TreasuryProposal, check_authority in E. cinv. breflect. split; [done|].
    match goal with H : AppendLendingMarketProposal _ _ = _ |- _ =>
      apply AppendLendingMarketProposal_Ok in H as HP end.
    match goal with H : valid_denom _ = _ |- _ => unfold valid_denom in H; case_match eqn:Hd; [done|] end.
    unfold FromTreasuryToLendingMarket in HP. destruct (MT_Metadata req) as [tm|]; [|by vm_compute in Hd].
    exists tm. split_and!; [done| |done]. breflect. cbn in Hd.
    destruct Hd as [Hd|Hd]; breflect; rewrite Hd; set_solver.
Qed.

(** Transactions of the module, each undone if it fails. *)
Inductive gov_step (k : Keeper) (c : C) : C -> Prop :=
| step_lending req : gov_step k c (deliver (LendingMarketProposal k req) c).2
| step_treasury req : gov_step k c (deliver (TreasuryProposal k req) c).2.

Inductive gov_reach (k : Keeper) (c : C) : C -> Prop :=
| gov_reach_refl : gov_reach k c c
| gov_reach_step c1 c2 : gov_reach k c c1 -> gov_step k c1 c2 -> gov_reach k c c2.

Lemma stored_port lm (c c' : C) :
  proposal_stored lm c c' ->
  is_Some (port_of (store c')) ∧ ∀ a, port_of (store c) = Some a -> port_of (store c') = Some a.
Proof.
  intros (m & id & addr & w1 & data & _ & Hr & Hp & _). split; [by exists addr|].
  intros a Ha. destruct Hr as [[Hr _]|[Hr _]]; congruence.
Qed.

Lemma gov_step_port k (c c' : C) :
  gov_step k c c' -> c' = c ∨
  is_Some (port_of (store c')) ∧ ∀ a, port_of (store c) = Some a -> port_of (store c') = Some a.
Proof.
  intros [req|req]; unfold deliver.
  - destruct (LendingMarketProposal k req c) as [[[]|e|] c1] eqn:E; [right|by left|by left].
    apply govshuttle_lending_run in E. by eapply stored_port.
  - destruct (TreasuryProposal k req c) as [[[]|e|] c1] eqn:E; [right|by left|by left].
    apply govshuttle_treasury_run in E as [lm E]. by eapply stored_port.
Qed.

(** The port is deployed once.  Over any sequence of proposals, of which some
    fail, the address of the port is never replaced once it is stored, so every
    later proposal is added to the same contract; and as soon as one proposal has
    changed anything the port is there. *)
Theorem govshuttle_port_is_stable k (c c' : C) :
  gov_reach k c c' ->
  (∀ a, port_of (store c) = Some a -> port_of (store c') = Some a) ∧
  (c' = c ∨ is_Some (port_of (store c'))).
Proof.
  induction 1 as [|c1 c2 _ [IH1 IH2] [->|[Hs Hp]]%gov_step_port]; [by split; [|left]|done|].
  split; [|by right]. intros a Ha. by apply Hp, IH1.
Qed.

(** Proposals that are not acceptable are refused before anything is read or
    written: from another account than the authority, with lists of different
    lengths, or of a coin other than canto and note.  A lending-market proposal
    without metadata passes these checks and makes the handler panic. *)
Theorem govshuttle_refuses k (c : C) :
  (∀ req, ML_Authority req ≠ authority k ->
     LendingMarketProposal k req c = (Err (Foreign "ErrInvalidSigner"), c)) ∧
  (∀ req, MT_Authority req ≠ authority k -> TreasuryProposal k req c = (Err (Foreign "ErrInvalidSigner"), c)) ∧
  (∀ req m, ML_Authority req = authority k -> ML_Metadata req = Some m ->
     length (LM_Calldatas m) ≠ length (LM_Values m) ∨ length (LM_Values m) ≠ length (LM_Signatures m) ->
     LendingMarketProposal k req c = (Err (Foreign "ErrInvalidProposalContent"), c)) ∧
  (∀ req, MT_Authority req = authority k ->
     ToLower (T_Denom (tm_or_zero (MT_Metadata req))) ∉ ["canto"; "note"] ->
     TreasuryProposal k req c = (Err (Foreign "ErrInvalidProposalContent"), c)) ∧
  (∀ req, ML_Authority req = authority k -> ML_Metadata req = None ->
     (LendingMarketProposal k req c).1 = Panic).
Proof.
  unfold LendingMarketProposal, TreasuryProposal, check_authority, GetAuthority, bind, reject, lift, ret, fail.
  split_and!; intros req.
  - intros Hne. by rewrite (proj2 (String.eqb_neq _ _)) by congruence.
  - intros Hne. by rewrite (proj2 (String.eqb_neq _ _)) by congruence.
  - intros m -> -> Hl. rewrite String.eqb_refl. unfold same_lengths. cbn.
    destruct (Nat.eqb_spec (length (LM_Calldatas m)) (length (LM_Values m))); [|done].
    destruct (Nat.eqb_spec (length (LM_Values m)) (length (LM_Signatures m))); [|done]. by destruct Hl.
  - intros -> Hd. rewrite String.eqb_refl. unfold valid_denom. cbn.
    rewrite !(proj2 (String.eqb_neq _ _)); [done|set_solver..].
  - intros -> Hm. rewrite String.eqb_refl. unfold same_lengths. rewrite Hm. cbn.
    unfold AppendLendingMarketProposal, number_proposal, bind. by rewrite Hm.
Qed.

End govshuttle_facts.

(** ** A concrete chain for the witnesses *)

#[export] Instance ref_gov : GovDeps EvmWorld := {
  ProposalID_Peek _ := Ok 7;
  Hex2Bytes s := default "" (of_hex s);
  Gov_GetModuleAccount m := ret (Some (mkAccount (default "" (ref_module_address m)) true))
}.

Definition gov_keeper : Keeper := mkKeeper "tuc1gov".
Definition gov_chain : Chain EvmWorld (Store Erc20.Store) := mkChain ex_erc20_world (mkStore None ex_erc20_store) [].
Definition gov_lending : MsgLendingMarketProposal :=
  mkMsgLendingMarketProposal "tuc1gov" "title" "text"
    (Some (mkLendingMarketMetadata [Address_String ex_alice] 0 [5] ["00ff"] ["f()"])).
Definition gov_treasury : MsgTreasuryProposal :=
  mkMsgTreasuryProposal "tuc1gov" "title" "text"
    (Some (mkTreasuryProposalMetadata 3 (Address_String ex_alice) 100 "NOTE")).
Definition gov_first : Chain EvmWorld (Store Erc20.Store) := (LendingMarketProposal gov_keeper gov_lending gov_chain).2.
Definition gov_second : Chain EvmWorld (Store Erc20.Store) := (TreasuryProposal gov_keeper gov_treasury gov_first).2.

Lemma govshuttle_stores_proposal_witness : proposal_stored gov_lending gov_chain gov_first.
Proof.
  apply (govshuttle_stores_proposal gov_keeper gov_chain gov_first). apply run_Ok. vm_compute. reflexivity.
Defined.

Lemma govshuttle_port_is_stable_witness :
  port_of (store gov_second) = port_of (store gov_first) ∧ is_Some (port_of (store gov_second)).
Proof.
  assert (gov_reach gov_keeper gov_first gov_second) as Hr.
  { eapply gov_reach_step; [apply gov_reach_refl|].
    assert (gov_second = (deliver (TreasuryProposal gov_keeper gov_treasury) gov_first).2) as -> by (vm_compute; reflexivity).
    apply step_treasury. }
  destruct (govshuttle_port_is_stable gov_keeper gov_first gov_second Hr) as [H1 _].
  assert (port_of (store gov_first) = Some (CreateAddress ModuleAddress 0)) as Hp by (vm_compute; reflexivity).
  split; [rewrite Hp; by apply H1|]. eexists. by apply H1.
Defined.

Lemma govshuttle_refuses_witness :
  TreasuryProposal gov_keeper
    (mkMsgTreasuryProposal "tuc1gov" "" "" (Some (mkTreasuryProposalMetadata 0 "" 1 "atuc"))) gov_chain
  = (Err (Foreign "ErrInvalidProposalContent"), gov_chain).
Proof. apply (govshuttle_refuses gov_keeper gov_chain); [reflexivity|]. apply (bool_decide_unpack _). reflexivity. Defined.
