(* ===== verification/Ante.v ===== *)
(** * app/ante and app/sigverify.go: admission of transactions

    The choice of the decorator chain of a transaction, the limiter of authz
    messages (app/ante/cosmos/authz.go), and the gas of signature verification. *)

From stdpp Require Import base gmap strings list.
From S2P Require Import Prelude Golang Sdk Ibc.

#[local] Open Scope Z_scope.
#[local] Open Scope go_scope.

(** ** app/ante/cosmos/authz.go *)

Definition maxNestedMsgs : Z := 7.

(** A message as far as the type switch looks: an authz MsgExec with the messages
    [GetMessages] returns, a MsgGrant with the type of its authorization, or
    another message with its type; [None] where the getter returns an error. *)
Inductive Msg :=
| MsgExec (inner : option (list Msg))
| MsgGrant (authorization : option string)
| OtherMsg (url : string).

Record AuthzLimiterDecorator := mkAuthzLimiterDecorator { disabledMsgTypes : list string }.
Definition NewAuthzLimiterDecorator (disabled : list string) : AuthzLimiterDecorator :=
  mkAuthzLimiterDecorator disabled.

Definition isDisabledMsg (ald : AuthzLimiterDecorator) (msgTypeURL : string) : bool :=
  existsb (fun disabledType => String.eqb msgTypeURL disabledType) (disabledMsgTypes ald).

Definition ErrNestedMsgs : error := Plain "found more nested msgs than permited".
Definition ErrDisabledMsg : error := Plain "found disabled msg type".

(** The body of [checkDisabledMsgs] after its first test: the loop over the
    messages, with [check] for the recursive call.  The level is a variable of
    the call that every MsgExec of the list increments. *)
Fixpoint check_loop (ald : AuthzLimiterDecorator) (check : list Msg -> bool -> Z -> option (outcome unit))
    (msgs : list Msg) (isAuthzInnerMsg : bool) (nestedLvl : Z) : option (outcome unit) :=
  match msgs with
  | [] => Some (Ok tt)
  | msg :: msgs' =>
      match msg with
      | MsgExec None => Some (Err (Plain "GetMessages"))
      | MsgExec (Some innerMsgs) =>
          let nestedLvl := nestedLvl + 1 in
          match check innerMsgs true nestedLvl with
          | Some (Ok _) => check_loop ald check msgs' isAuthzInnerMsg nestedLvl
          | r => r
          end
      | MsgGrant None => Some (Err (Plain "GetAuthorization"))
      | MsgGrant (Some url) =>
          if isDisabledMsg ald url then Some (Err ErrDisabledMsg)
          else check_loop ald check msgs' isAuthzInnerMsg nestedLvl
      | OtherMsg url =>
          if isAuthzInnerMsg && isDisabledMsg ald url then Some (Err ErrDisabledMsg)
          else check_loop ald check msgs' isAuthzInnerMsg nestedLvl
      end
  end.

(** [depth] bounds the recursion, [None] is running out of it. *)
Fixpoint checkDisabledMsgs (depth : nat) (ald : AuthzLimiterDecorator) (msgs : list Msg)
    (isAuthzInnerMsg : bool) (nestedLvl : Z) : option (outcome unit) :=
  match depth with
  | O => None
  | S depth =>
      if maxNestedMsgs <=? nestedLvl then Some (Err ErrNestedMsgs)
      else check_loop ald (checkDisabledMsgs depth ald) msgs isAuthzInnerMsg nestedLvl
  end.

(** The call that [AnteHandle] makes returns after at most seven nested calls. *)
Definition check_tx (ald : AuthzLimiterDecorator) (msgs : list Msg) : option (outcome unit) :=
  checkDisabledMsgs (Z.to_nat maxNestedMsgs) ald msgs false 1.

Definition AnteHandle {Ctx} (ald : AuthzLimiterDecorator) (ctx : Ctx) (msgs : list Msg)
    (next : Ctx -> outcome Ctx) : option (outcome Ctx) :=
  match check_tx ald msgs with
  | None => None
  | Some (Ok _) => Some (next ctx)
  | Some _ => Some (Err (Foreign "ErrUnauthorized"))
  end.

(** ** app/ante/handler_options.go, ante.go

    A decorator stands for the one its constructor in ethermint, the SDK or ibc-go
    returns; the order in a chain is the one the code lists. *)
Inductive Decorator :=
| EthSetUpContext | EthMempoolFee | EthMinGasPrice | EthValidateBasic | EthSigVerification
| EthAccountVerification | CanTransfer | EthGasConsume | EthIncrementSenderSequence | GasWanted | EthEmitEvent
| RejectMessages | AuthzLimiter (disabled : list string) | SetUpContext | ExtensionOptions | ValidateBasic
| MinGasPrice | TxTimeoutHeight | ValidateMemo | ConsumeGasForTxSize | DeductFee | SetPubKey
| ValidateSigCount | SigGasConsume | SigVerification | IncrementSequence | RedundantRelay
| LegacyEip712SigVerification.

(** Which keepers are set, the two values the code uses, and whether it runs for
    the simulation. *)
Record HandlerOptions := mkHandlerOptions {
  has_AccountKeeper : bool;
  has_BankKeeper : bool;
  has_SignModeHandler : bool;
  has_FeeMarketKeeper : bool;
  has_EvmKeeper : bool;
  Simulation : bool;
  DisabledAuthzMsgs : list string
}.

Definition HandlerOptions_Validate (options : HandlerOptions) : outcome unit :=
  if negb (has_AccountKeeper options) then Err (Foreign "ErrLogic")
  else if negb (has_BankKeeper options) then Err (Foreign "ErrLogic")
  else if negb (has_SignModeHandler options) then Err (Foreign "ErrLogic")
  else if negb (has_FeeMarketKeeper options) then Err (Foreign "ErrLogic")
  else if negb (has_EvmKeeper options) then Err (Foreign "ErrLogic")
  else Ok tt.

Definition newEthAnteHandler (options : HandlerOptions) : list Decorator :=
  [EthSetUpContext; EthMempoolFee; EthMinGasPrice; EthValidateBasic; EthSigVerification;
   EthAccountVerification; CanTransfer; EthGasConsume; EthIncrementSenderSequence; GasWanted; EthEmitEvent].

Definition newCosmosAnteHandler (options : HandlerOptions) : list Decorator :=
  [RejectMessages; AuthzLimiter (DisabledAuthzMsgs options); SetUpContext; ExtensionOptions; ValidateBasic;
   MinGasPrice; TxTimeoutHeight; ValidateMemo; ConsumeGasForTxSize; DeductFee; SetPubKey; ValidateSigCount;
   SigGasConsume; SigVerification; IncrementSequence; RedundantRelay; GasWanted].

Definition newCosmosSimulationAnteHandler (options : HandlerOptions) : list Decorator :=
  [RejectMessages; AuthzLimiter (DisabledAuthzMsgs options); SetUpContext; ExtensionOptions; ValidateBasic;
   MinGasPrice; TxTimeoutHeight; ValidateMemo; ConsumeGasForTxSize; DeductFee; ValidateSigCount;
   IncrementSequence; RedundantRelay; GasWanted].

Definition newCosmosAnteHandlerEip712 (options : HandlerOptions) : list Decorator :=
  [RejectMessages; AuthzLimiter (DisabledAuthzMsgs options); SetUpContext; ValidateBasic;
   MinGasPrice; TxTimeoutHeight; ValidateMemo; ConsumeGasForTxSize; DeductFee; SetPubKey; ValidateSigCount;
   SigGasConsume; LegacyEip712SigVerification; IncrementSequence; RedundantRelay; GasWanted].

Section handler.
Context {Ctx Tx : Type}.
(** What a decorator does before it calls the next one; none of them does
    anything after. *)
Context (run_decorator : Decorator -> Ctx -> Tx -> bool -> outcome Ctx).
(** The type URLs of the extension options, [None] for a transaction without
    the interface. *)
Context (GetExtensionOptions : Tx -> option (list string)).

(** [sdk.ChainAnteDecorators] *)
Fixpoint ChainAnteDecorators (chain : list Decorator) (ctx : Ctx) (tx : Tx) (sim : bool) : outcome Ctx :=
  match chain with
  | [] => Ok ctx
  | d :: chain' => let? ctx := run_decorator d ctx tx sim in ChainAnteDecorators chain' ctx tx sim
  end.

(** The chain a transaction is sent to, or why there is none.  Every value of
    type [sdk.Tx] matches the type switch, so its default case is never taken. *)
Definition choose_chain (options : HandlerOptions) (opts : option (list string)) : outcome (list Decorator) :=
  match opts with
  | Some (typeURL :: _) =>
      if String.eqb typeURL "/ethermint.evm.v1.ExtensionOptionsEthereumTx" then Ok (newEthAnteHandler options)
      else if String.eqb typeURL "/ethermint.types.v1.ExtensionOptionsWeb3Tx"
      then Ok (newCosmosAnteHandlerEip712 options)
      else Err (Foreign "ErrUnknownExtensionOptions")
  | _ => if Simulation options then Ok (newCosmosSimulationAnteHandler options)
         else Ok (newCosmosAnteHandler options)
  end.

(** The returned function; [ethante.Recover] turns a panic into an error. *)
Definition AnteHandler (options : HandlerOptions) (ctx : Ctx) (tx : Tx) (sim : bool) : outcome Ctx :=
  match (let? chain := choose_chain options (GetExtensionOptions tx) in ChainAnteDecorators chain ctx tx sim) with
  | Panic => Err (Foreign "ErrPanic")
  | r => r
  end.

Definition NewAnteHandler (options : HandlerOptions) : outcome (Ctx -> Tx -> bool -> outcome Ctx) :=
  let? _ := HandlerOptions_Validate options in Ok (AnteHandler options).

End handler.

(** ** app/sigverify.go *)

Definition secp256k1VerifyCost : Z := 21000.

(** [signing.SignatureData]: a single signature, or one per set bit of the array. *)
Inductive SignatureData :=
| SingleSignatureData
| MultiSignatureData (bits : list bool) (signatures : list SignatureData).

(** [meter.ConsumeGas(amount, _)] over the state [G] of the meter. *)
Class GasMeter (G : Type) := { ConsumeGas : Z -> M G unit }.

Section sigverify.
Context {G : Type} `{GasMeter G} (SigVerifyCostED25519 : Z).

(** The loop of [ConsumeMultisignatureVerificationGas], [consume] for the call it
    makes.  Reading a key or a signature past the end of its list panics. *)
Definition multisig_loop (consume : PubKey -> SignatureData -> M G unit) :=
  fix loop (keys : list PubKey) (bits : list bool) (sigs : list SignatureData) : M G unit :=
    match keys, bits with
    | _, [] => ret tt
    | [], _ => if existsb id bits then panic else ret tt
    | _ :: keys', false :: bits' => loop keys' bits' sigs
    | key :: keys', true :: bits' =>
        match sigs with
        | [] => panic
        | sig :: sigs' => do! consume key sig; loop keys' bits' sigs'
        end
    end.

Fixpoint SigVerificationGasConsumer (pubkey : PubKey) (sig : SignatureData) : M G unit :=
  match pubkey with
  | PkEthSecp256k1 => ConsumeGas secp256k1VerifyCost
  | PkEd25519 => do! ConsumeGas SigVerifyCostED25519; fail (Foreign "ErrInvalidPubKey")
  | PkMultisig keys =>
      match sig with
      | SingleSignatureData => fail (Plain "expected MultiSignatureData")
      | MultiSignatureData bits sigs => multisig_loop SigVerificationGasConsumer keys bits sigs
      end
  | PkOther => fail (Foreign "ErrInvalidPubKey")
  end.

Definition ConsumeMultisignatureVerificationGas (bits : list bool) (sigs : list SignatureData)
    (keys : list PubKey) : M G unit := multisig_loop SigVerificationGasConsumer keys bits sigs.

End sigverify.
