(* ===== verification/AnteFacts.v ===== *)
(** * Theorems about the admission of transactions

    The authz limiter terminates and accepts exactly the clean transactions; a
    transaction is only admitted after a signature check; the gas of signatures. *)

From stdpp Require Import base gmap strings list.
From S2P Require Import Prelude Golang Sdk Ibc Ante.

#[local] Open Scope Z_scope.
#[local] Open Scope go_scope.

(** ** The authz limiter *)

(** What the limiter is to accept: every message can be read, no authorization is
    granted for a disabled type, and no disabled message is inside a MsgExec. *)
Inductive clean (ald : AuthzLimiterDecorator) : bool -> Msg -> Prop :=
| clean_other b url : (b = true -> url ∉ disabledMsgTypes ald) -> clean ald b (OtherMsg url)
| clean_grant b url : url ∉ disabledMsgTypes ald -> clean ald b (MsgGrant (Some url))
| clean_exec b inner : (∀ m, m ∈ inner -> clean ald true m) -> clean ald b (MsgExec (Some inner)).

(** What the level counts: along the list, every MsgExec adds one for itself and
    for all that follow it, not only for its own messages. *)
Definition counted (count : Msg -> nat) :=
  fix go (msgs : list Msg) : nat :=
    match msgs with
    | [] => 0%nat
    | msg :: msgs' =>
        match msg with MsgExec _ => S (Nat.max (count msg) (go msgs')) | _ => go msgs' end
    end.
Fixpoint msg_levels (m : Msg) : nat :=
  match m with MsgExec (Some inner) => counted msg_levels inner | _ => 0%nat end.
Definition levels (msgs : list Msg) : nat := counted msg_levels msgs.

Section authz.
Context (ald : AuthzLimiterDecorator).

Lemma isDisabledMsg_spec url : isDisabledMsg ald url = false <-> url ∉ disabledMsgTypes ald.
Proof.
  unfold isDisabledMsg. rewrite <-not_true_iff_false, existsb_exists. split.
  - intros Hn Hin. apply Hn. exists url. by rewrite String.eqb_refl, <-list_elem_of_In.
  - intros Hn (d & Hin & ->%String.eqb_eq). by apply Hn, list_elem_of_In.
Qed.

Lemma levels_exec inner msgs : levels (MsgExec (Some inner) :: msgs) = S (Nat.max (levels inner) (levels msgs)).
Proof. done. Qed.

(** The loop does not run out of depth if the recursive calls do not. *)
Lemma check_loop_total check msgs b lvl :
  (∀ ms b' l, lvl < l -> ∃ r, check ms b' l = Some r) ->
  ∃ r, check_loop ald check msgs b lvl = Some r.
Proof.
  revert lvl. induction msgs as [|m msgs IH]; intros lvl Hc; cbn; [by eexists|].
  destruct m as [[inner|]|[url|]|url]; try by eexists.
  - destruct (Hc inner true (lvl + 1)) as [[[]|e|] Hr]; [lia|rewrite Hr; eauto..].
    apply IH. intros ms b' l Hl. apply Hc. lia.
  - destruct (isDisabledMsg ald url); [by eexists|by apply IH].
  - destruct (b && isDisabledMsg ald url); [by eexists|by apply IH].
Qed.

Lemma check_total depth msgs b lvl :
  (1 <= depth)%nat -> maxNestedMsgs - lvl < Z.of_nat depth ->
  ∃ r, checkDisabledMsgs depth ald msgs b lvl = Some r.
Proof.
  revert msgs b lvl. induction depth as [|depth IH]; intros msgs b lvl Hd Hl; [lia|]. cbn [checkDisabledMsgs].
  destruct (Z.leb_spec maxNestedMsgs lvl); [by eexists|].
  apply check_loop_total. intros ms b' l Hlt. apply IH; lia.
Qed.

(** More depth does not change a result. *)
Lemma check_loop_mono (check check' : list Msg -> bool -> Z -> option (outcome unit)) msgs b lvl r :
  (∀ ms b' l r', check ms b' l = Some r' -> check' ms b' l = Some r') ->
  check_loop ald check msgs b lvl = Some r -> check_loop ald check' msgs b lvl = Some r.
Proof.
  intros Hc. revert lvl. induction msgs as [|m msgs IH]; intros lvl; cbn; [done|].
  destruct m as [[inner|]|[url|]|url]; try done.
  - destruct (check inner true (lvl + 1)) as [o|] eqn:E; [|done]. rewrite (Hc _ _ _ _ E).
    destruct o; [apply IH|done|done].
  - destruct (isDisabledMsg ald url); [done|apply IH].
  - destruct (b && isDisabledMsg ald url); [done|apply IH].
Qed.

Lemma check_mono depth depth' msgs b lvl r :
  (depth <= depth')%nat -> checkDisabledMsgs depth ald msgs b lvl = Some r ->
  checkDisabledMsgs depth' ald msgs b lvl = Some r.
Proof.
  revert depth' msgs b lvl r. induction depth as [|depth IH]; intros depth' msgs b lvl r Hd; [done|].
  destruct depth' as [|depth']; [lia|]. cbn. destruct (maxNestedMsgs <=? lvl); [done|].
  apply check_loop_mono. intros ms b' l r'. apply IH. lia.
Qed.

(** C36: the check of a transaction ends, with an answer, after at most seven calls
    inside each other, however deep its messages are nested: seven levels of
    recursion are enough and more of them do not change the answer. *)
Theorem authz_check_terminates msgs :
  ∃ r, check_tx ald msgs = Some r ∧
    ∀ depth, (7 <= depth)%nat -> checkDisabledMsgs depth ald msgs false 1 = Some r.
Proof.
  destruct (check_total 7 msgs false 1) as [r Hr]; [lia|unfold maxNestedMsgs; lia|].
  exists r. split; [done|]. intros depth Hd. by eapply check_mono.
Qed.

(** *** Exactly the clean transactions of few levels *)

Lemma check_loop_exact check msgs b lvl :
  (∀ ms l, lvl < l -> check ms true l = Some (Ok tt) <->
     (∀ m, m ∈ ms -> clean ald true m) ∧ l + Z.of_nat (levels ms) < maxNestedMsgs) ->
  lvl < maxNestedMsgs ->
  check_loop ald check msgs b lvl = Some (Ok tt) <->
  (∀ m, m ∈ msgs -> clean ald b m) ∧ lvl + Z.of_nat (levels msgs) < maxNestedMsgs.
Proof.
  revert lvl. induction msgs as [|m msgs IH]; intros lvl Hc Hl; cbn [check_loop].
  { split; [|done]. intros _. split; [set_solver|cbn; lia]. }
  assert (∀ P Q R : Prop, (P <-> (∀ m', m' ∈ msgs -> clean ald b m') ∧ R) ->
    (clean ald b m <-> Q) -> (Q ∧ P <-> (∀ m', m' ∈ m :: msgs -> clean ald b m') ∧ R)) as Hcons.
  { intros P Q R -> <-. setoid_rewrite elem_of_cons. naive_solver. }
  destruct m as [[inner|]|[url|]|url].
  - rewrite levels_exec. transitivity ((∀ m, m ∈ inner -> clean ald true m) ∧
      (lvl + 1 + Z.of_nat (levels inner) < maxNestedMsgs ∧
       check_loop ald check msgs b (lvl + 1) = Some (Ok tt))).
    { pose proof (Hc inner (lvl + 1) ltac:(lia)) as Hi.
      destruct (check inner true (lvl + 1)) as [[[]|e|]|]; naive_solver. }
    apply Hcons; [|split; [by inversion 1|by constructor]].
    split.
    + intros [Hi Hm]. apply IH in Hm as [Hm Hn]; [|intros; apply Hc; lia|lia]. split; [done|lia].
    + intros [Hm Hn]. split; [lia|]. apply IH; [intros; apply Hc; lia|lia|]. split; [done|lia].
  - split; [done|]. intros [Hm _]. specialize (Hm (MsgExec None) ltac:(left)). inversion Hm.
  - transitivity ((¬ url ∈ disabledMsgTypes ald) ∧ check_loop ald check msgs b lvl = Some (Ok tt)).
    { rewrite <-isDisabledMsg_spec. destruct (isDisabledMsg ald url); naive_solver. }
    apply Hcons; [by apply IH|]. split; [by inversion 1|by constructor].
  - split; [done|]. intros [Hm _]. specialize (Hm (MsgGrant None) ltac:(left)). inversion Hm.
  - transitivity ((b = true -> url ∉ disabledMsgTypes ald) ∧ check_loop ald check msgs b lvl = Some (Ok tt)).
    { rewrite <-isDisabledMsg_spec. destruct b, (isDisabledMsg ald url); cbn; naive_solver. }
    apply Hcons; [by apply IH|]. split; [by inversion 1|by constructor].
Qed.

Lemma check_exact depth msgs b lvl :
  (1 <= depth)%nat -> maxNestedMsgs - lvl < Z.of_nat depth ->
  checkDisabledMsgs depth ald msgs b lvl = Some (Ok tt) <->
  (∀ m, m ∈ msgs -> clean ald b m) ∧ lvl + Z.of_nat (levels msgs) < maxNestedMsgs.
Proof.
  revert msgs b lvl. induction depth as [|depth IH]; intros msgs b lvl Hd Hl; [lia|]. cbn [checkDisabledMsgs].
  destruct (Z.leb_spec maxNestedMsgs lvl); [split; [done|lia]|].
  apply check_loop_exact; [|done]. intros ms l Hlt. apply IH; lia.
Qed.

Lemma limiter_accepts msgs :
  check_tx ald msgs = Some (Ok tt) <-> (∀ m, m ∈ msgs -> clean ald false m) ∧ (levels msgs < 6)%nat.
Proof.
  unfold check_tx. rewrite check_exact by (unfold maxNestedMsgs; lia). unfold maxNestedMsgs.
  split; intros [? ?]; (split; [done|lia]).
Qed.

(** C28: the limiter passes a transaction on exactly when its messages are clean
    (no disabled message inside a MsgExec at any depth, no grant for a disabled
    type, everything readable) and the level stays below the limit; otherwise the
    transaction is refused as unauthorized.  The level counts every MsgExec of a
    list for all messages after it too, so that six MsgExec side by side, none
    inside another, are refused as too deeply nested. *)
Theorem authz_limiter_exact {Ctx} msgs (ctx : Ctx) next :
  (AnteHandle ald ctx msgs next = Some (next ctx) ∧ check_tx ald msgs = Some (Ok tt) <->
   (∀ m, m ∈ msgs -> clean ald false m) ∧ (levels msgs < 6)%nat) ∧
  (check_tx ald msgs ≠ Some (Ok tt) -> AnteHandle ald ctx msgs next = Some (Err (Foreign "ErrUnauthorized"))) ∧
  levels (replicate 6 (MsgExec (Some []))) = 6%nat.
Proof.
  pose proof (limiter_accepts msgs) as Hex.
  destruct (check_total 7 msgs false 1) as [r Hr]; [lia|unfold maxNestedMsgs; lia|].
  split_and!; [|intros Hne|done].
  - rewrite <-Hex. split; [by intros [_ ?]|]. intros Hok. split; [|done]. unfold AnteHandle. by rewrite Hok.
  - unfold AnteHandle. change (check_tx ald msgs) with (checkDisabledMsgs 7 ald msgs false 1) in *.
    rewrite Hr in *. by destruct r as [[]|e|].
Qed.

End authz.

(** ** The decorator chains *)

Section handler_facts.
Context {Ctx Tx : Type}.
Context (run_decorator : Decorator -> Ctx -> Tx -> bool -> outcome Ctx).
Context (GetExtensionOptions : Tx -> option (list string)).

(** A decorator of the chain chosen for the transaction accepted it, in the
    context that the decorators before it made of the handler's. *)
Definition passed (options : HandlerOptions) (ctx : Ctx) (tx : Tx) (sim : bool) (d : Decorator) : Prop :=
  ∃ before after ctx1 ctx2,
    choose_chain options (GetExtensionOptions tx) = Ok (before ++ d :: after) ∧
    ChainAnteDecorators run_decorator before ctx tx sim = Ok ctx1 ∧ run_decorator d ctx1 tx sim = Ok ctx2.

(** A chain accepts when both of its parts do, one after the other. *)
Lemma chain_app before after ctx tx sim :
  ChainAnteDecorators run_decorator (before ++ after) ctx tx sim =
  let? ctx1 := ChainAnteDecorators run_decorator before ctx tx sim in
  ChainAnteDecorators run_decorator after ctx1 tx sim.
Proof.
  revert ctx. induction before as [|d before IH]; intros ctx; cbn; [done|].
  destruct (run_decorator d ctx tx sim); cbn; [apply IH|done..].
Qed.

Lemma chain_passed options chain ctx tx sim ctx' :
  choose_chain options (GetExtensionOptions tx) = Ok chain ->
  ChainAnteDecorators run_decorator chain ctx tx sim = Ok ctx' -> ∀ d, d ∈ chain -> passed options ctx tx sim d.
Proof.
  intros Hc E d (before & after & ->)%list_elem_of_split. rewrite chain_app in E. cbn in E. minv.
  by eexists before, after, _, _.
Qed.

(** C33: a transaction the handler admits, outside of simulations, has passed one of
    the three signature checks, fee deduction or the gas check of Ethereum
    transactions, and the increment of the sequence; unless it is an Ethereum
    transaction it has passed the filters of Ethereum messages and of authz
    messages.  Transactions with an unknown first extension option are refused,
    and a panic of a decorator is an error. *)
Theorem admitted_transactions_are_checked options h ctx tx sim :
  NewAnteHandler run_decorator GetExtensionOptions options = Ok h -> Simulation options = false ->
  h ctx tx sim ≠ Panic ∧
  ∀ ctx', h ctx tx sim = Ok ctx' ->
  let passed := passed options ctx tx sim in
  (passed EthSigVerification ∧ passed EthGasConsume ∧ passed EthIncrementSenderSequence ∧
   ∃ opts, GetExtensionOptions tx = Some ("/ethermint.evm.v1.ExtensionOptionsEthereumTx" :: opts)) ∨
  ((passed SigVerification ∨ passed LegacyEip712SigVerification) ∧
   passed DeductFee ∧ passed IncrementSequence ∧ passed SetPubKey ∧
   passed RejectMessages ∧ passed (AuthzLimiter (DisabledAuthzMsgs options))).
Proof.
  unfold NewAnteHandler. intros Hnew Hsim. minv. unfold AnteHandler. split; [by repeat case_match|].
  intros ctx'. destruct (choose_chain _ _) as [chain|e|] eqn:Hc; cbn; [|done|done].
  destruct (ChainAnteDecorators _ _ _ _ _) as [r|e|] eqn:Er; [|done|done]. intros [= ->].
  pose proof (chain_passed options chain ctx tx sim _ Hc Er) as Hp. clear Er.
  unfold choose_chain in Hc. rewrite Hsim in Hc.
  destruct (GetExtensionOptions tx) as [[|url opts]|] eqn:Ho.
  - injection Hc as <-. right. split_and!; [left|..]; apply Hp; set_solver.
  - destruct (String.eqb_spec url "/ethermint.evm.v1.ExtensionOptionsEthereumTx") as [->|].
    + injection Hc as <-. left. split_and!; [apply Hp; set_solver..|by exists opts].
    + case_match; [|done]. injection Hc as <-. right. split_and!; [right|..]; apply Hp; set_solver.
  - injection Hc as <-. right. split_and!; [left|..]; apply Hp; set_solver.
Qed.

End handler_facts.

(** ** The gas of signatures *)

(** What a meter promises: gas it admits is added to what was used. *)
Class GasMeterLaws (G : Type) `{GasMeter G} (used : G -> Z) : Prop := {
  ConsumeGas_adds n g g' : ConsumeGas n g = (Ok tt, g') -> used g' = used g + n
}.

(** The keys that sign: those of the set bits, or the key itself. *)
Fixpoint selected (keys : list PubKey) (bits : list bool) : list PubKey :=
  match keys, bits with
  | key :: keys', b :: bits' => (if b then [key] else []) ++ selected keys' bits'
  | _, _ => []
  end.
Definition signers (pubkey : PubKey) (sig : SignatureData) : list PubKey :=
  match pubkey, sig with
  | PkMultisig keys, MultiSignatureData bits _ => selected keys bits
  | _, _ => [pubkey]
  end.

Section gas.
Context {G : Type} {GM : GasMeter G} {used : G -> Z} {GML : GasMeterLaws G used} (cost : Z).

(** A key that is not a multisig signs for the fixed cost, if it is an Ethereum
    key, and not at all otherwise. *)
Lemma single_key_gas pk sig (g g' : G) :
  single_key pk = true -> SigVerificationGasConsumer cost pk sig g = (Ok tt, g') ->
  pk = PkEthSecp256k1 ∧ used g' = used g + secp256k1VerifyCost.
Proof.
  destruct pk; cbn; [| |done|done]; intros _ E; [split; [done|by apply ConsumeGas_adds]|]. minv.
Qed.

Lemma multisig_gas keys bits sigs (g g' : G) :
  forallb single_key keys = true ->
  multisig_loop (SigVerificationGasConsumer cost) keys bits sigs g = (Ok tt, g') ->
  Forall (eq PkEthSecp256k1) (selected keys bits) ∧ (length (selected keys bits) <= length sigs)%nat ∧
  used g' = used g + secp256k1VerifyCost * Z.of_nat (length (selected keys bits)).
Proof.
  revert bits sigs g. induction keys as [|pk keys IH]; intros bits sigs g Hk E.
  - assert (g' = g) as ->; [|split_and!; [constructor|cbn; lia|cbn; lia]].
    destruct bits as [|b bits]; cbn in E; [by minv|]. case_match; by minv.
  - apply andb_true_iff in Hk as [Hpk Hk]. destruct bits as [|[] bits]; cbn in E.
    + minv. split_and!; [constructor|cbn; lia|cbn; lia].
    + destruct sigs as [|s sigs]; [by minv|]. minv1.
      destruct v. apply single_key_gas in E0 as [-> Hu]; [|done].
      apply IH in E as (Hf & Hl & Hu'); [|done]. cbn [selected app length].
      split_and!; [by constructor|lia|]. rewrite Hu', Hu. lia.
    + by apply IH in E.
Qed.

(** Verifying a signature of a supported key that is accepted costs 21000 gas
    for every key that signs, all of these are Ethereum keys, and a multisig has
    a signature for each of them.  In particular a signature of an ed25519 key is
    never accepted, alone or in a multisig. *)
Theorem signature_gas pk sig (g g' : G) :
  IsSupportedKey pk = true -> SigVerificationGasConsumer cost pk sig g = (Ok tt, g') ->
  Forall (eq PkEthSecp256k1) (signers pk sig) ∧
  used g' = used g + 21000 * Z.of_nat (length (signers pk sig)) ∧
  (∀ keys bits sigs, pk = PkMultisig keys -> sig = MultiSignatureData bits sigs ->
     (length (signers pk sig) <= length sigs)%nat).
Proof.
  intros Hs E. destruct pk as [| |keys|]; [| | |done].
  - apply single_key_gas in E as [_ Hu]; [|done]. split_and!; [by apply Forall_singleton|rewrite Hu; unfold secp256k1VerifyCost; destruct sig; cbn; lia|done].
  - by apply single_key_gas in E as [? _].
  - destruct sig as [|bits sigs]; [by minv|]. cbn [SigVerificationGasConsumer] in E.
    apply multisig_gas in E as (Hf & Hl & Hu); [|by destruct keys].
    split_and!; [done|done|]. intros ? ? ? _ [= -> ->]. done.
Qed.

End gas.

(** ** Witnesses *)

(** Every decorator accepts; the meter has a limit of a million. *)
Definition ex_run_decorator (d : Decorator) (ctx : nat) (tx : option (list string)) (sim : bool) : outcome nat :=
  Ok (S ctx).
Definition ex_options : HandlerOptions := mkHandlerOptions true true true true true false ["/evm.MsgEthereumTx"].

Lemma admitted_transactions_are_checked_witness :
  passed ex_run_decorator id ex_options 0%nat None false SigVerification ∨
  passed ex_run_decorator id ex_options 0%nat None false LegacyEip712SigVerification.
Proof.
  destruct (admitted_transactions_are_checked ex_run_decorator id ex_options
    (AnteHandler ex_run_decorator id ex_options) 0%nat None false eq_refl eq_refl) as [_ H].
  destruct (H 17%nat eq_refl) as [(_ & _ & _ & opts & Ho)|[Hs _]]; [discriminate Ho|exact Hs].
Defined.

#[export] Instance ref_meter : GasMeter Z := {
  ConsumeGas n := fun g => if g + n <=? 1000000 then (Ok tt, g + n) else (Panic, g)
}.
#[export] Instance ref_meter_laws : GasMeterLaws Z id.
Proof. split. intros n g g'. cbn. case_match; [|done]. by intros [= <-]. Qed.

Definition ex_multisig : PubKey := PkMultisig [PkEthSecp256k1; PkEd25519; PkEthSecp256k1].
Definition ex_multisignature : SignatureData :=
  MultiSignatureData [true; false; true] [SingleSignatureData; SingleSignatureData].

Lemma signature_gas_witness : id 42000 = id 0 + 21000 * Z.of_nat (length (signers ex_multisig ex_multisignature)).
Proof. apply (signature_gas (used := id) 590 ex_multisig ex_multisignature 0 42000); reflexivity. Defined.
