(* ===== verification/Tps.v ===== *)
(** * app/tps_counter.go: the counter of transactions

    Other goroutines increment two counters; a ticker reports how many
    transactions were seen since the last tick.  An execution is a sequence of
    the atomic steps the goroutines make, in any interleaving. *)

From stdpp Require Import base strings list.
From S2P Require Import Prelude.

#[local] Open Scope Z_scope.
#[local] Open Scope go_scope.

(** ** The model *)

Definition statusSuccess : string := "success".
Definition statusFailure : string := "failure".

(** Periods are in nanoseconds. *)
Definition defaultTPSReportPeriod : Z := 10 * 10 ^ 9.

(** Where [start] is in its loop: waiting for the ticker, between the two loads,
    or behind them with what it loaded. *)
Inductive start_point :=
| Waiting
| LoadedSuccessful (latestNSuccessful : Z)
| Loaded (latestNSuccessful latestNFailed : Z).

(** The counters, the local variables of [start], and what it has reported: the
    measurements recorded by status, and the transactions of every log line with
    the period they are divided by. *)
Record tpsCounter := mkTpsCounter {
  nSuccessful : Z;
  NFailed : Z;
  reportPeriod : Z;
  point : start_point;
  lastNSuccessful : Z;
  lastNFailed : Z;
  recorded : list (string * Z);
  logged : list (Z * Z)
}.

Definition newTPSCounter (period : Z) : tpsCounter := mkTpsCounter 0 0 period Waiting 0 0 [] [].

Definition incrementSuccess (t : tpsCounter) : tpsCounter :=
  mkTpsCounter (wrap64 (nSuccessful t + 1)) (NFailed t) (reportPeriod t) (point t) (lastNSuccessful t) (lastNFailed t)
    (recorded t) (logged t).
Definition incrementFailure (t : tpsCounter) : tpsCounter :=
  mkTpsCounter (nSuccessful t) (wrap64 (NFailed t + 1)) (reportPeriod t) (point t) (lastNSuccessful t) (lastNFailed t)
    (recorded t) (logged t).
Definition goto (p : start_point) (t : tpsCounter) : tpsCounter :=
  mkTpsCounter (nSuccessful t) (NFailed t) (reportPeriod t) p (lastNSuccessful t) (lastNFailed t) (recorded t) (logged t).

Section tps.
(** opencensus: [tag.New] with the status value. *)
Context (tag_New : string -> outcome unit).

(** The result and what [stats.Record] was given, if it was called.  The
    difference of two uint64 is taken as an int64. *)
Definition recordValue (latest previous : Z) (status : string) : outcome (Z * list (string * Z)) :=
  if latest <? previous then Ok (0, [])
  else
    let n := sint64 (wrap64 (latest - previous)) in
    if n <? 0 then Ok (0, [])
    else
      let statusValue := if String.eqb status statusFailure then "ERR" else "OK" in
      let? _ := tag_New statusValue in
      Ok (n, [(statusValue, n)]).

(** Behind the loads the case of the ticker reads and writes local variables only;
    an error panics. *)
Definition report (latestNSuccessful latestNFailed : Z) (t : tpsCounter) : outcome tpsCounter :=
  let tpsReportPeriod := if 0 <? reportPeriod t then reportPeriod t else defaultTPSReportPeriod in
  match recordValue latestNSuccessful (lastNSuccessful t) statusSuccess with
  | Ok (nSuccess, rec1) =>
      match recordValue latestNFailed (lastNFailed t) statusFailure with
      | Ok (nFailed, rec2) =>
          let nTxn := sint64 (sint64 (0 + nSuccess) + nFailed) in
          Ok (mkTpsCounter (nSuccessful t) (NFailed t) (reportPeriod t) Waiting latestNSuccessful latestNFailed
                (recorded t ++ rec1 ++ rec2)
                (if negb (nTxn =? 0) then logged t ++ [(nTxn, tpsReportPeriod)] else logged t))
      | _ => Panic
      end
  | _ => Panic
  end.

(** The next step of [start]: the tick and the first atomic load, the second
    atomic load, the report. *)
Definition start_step (t : tpsCounter) : outcome tpsCounter :=
  match point t with
  | Waiting => Ok (goto (LoadedSuccessful (nSuccessful t)) t)
  | LoadedSuccessful latestNSuccessful => Ok (goto (Loaded latestNSuccessful (NFailed t)) t)
  | Loaded latestNSuccessful latestNFailed => report latestNSuccessful latestNFailed t
  end.

(** The steps of the goroutines. *)
Inductive tps_event := IncSuccess | IncFailure | Start.
#[export] Instance tps_event_eq_dec : EqDecision tps_event.
Proof. solve_decision. Defined.

Definition tps_step (t : tpsCounter) (e : tps_event) : outcome tpsCounter :=
  match e with
  | IncSuccess => Ok (incrementSuccess t)
  | IncFailure => Ok (incrementFailure t)
  | Start => start_step t
  end.

Fixpoint tps_run (t : tpsCounter) (es : list tps_event) : outcome tpsCounter :=
  match es with
  | [] => Ok t
  | e :: es' => let? t := tps_step t e in tps_run t es'
  end.

(** ** What is reported *)

(** How often an event occurs, and what was recorded under a status. *)
Definition count (e : tps_event) (es : list tps_event) : Z := Z.of_nat (length (filter (fun e' => e' = e) es)).
Definition total (l : list (Z * Z)) : Z := foldr (fun x s => x.1 + s) 0 l.
Definition recorded_as (status : string) (l : list (string * Z)) : Z :=
  foldr (fun x s => (if String.eqb x.1 status then x.2 else 0) + s) 0 l.

(** [n] and [m] increments have happened; everything up to the last report has
    been reported once, and what was loaded is between that and the counters. *)
Record tps_ok (n m : Z) (t : tpsCounter) : Prop := {
  ok_successful : nSuccessful t = n;
  ok_failed : NFailed t = m;
  ok_point : match point t with
             | Waiting => 0 <= lastNSuccessful t <= n ∧ 0 <= lastNFailed t <= m
             | LoadedSuccessful s => 0 <= lastNSuccessful t <= s ∧ s <= n ∧ 0 <= lastNFailed t <= m
             | Loaded s f => 0 <= lastNSuccessful t <= s ∧ s <= n ∧ 0 <= lastNFailed t <= f ∧ f <= m
             end;
  ok_logged : total (logged t) = lastNSuccessful t + lastNFailed t;
  ok_recorded : recorded_as "OK" (recorded t) = lastNSuccessful t;
  ok_recorded_err : recorded_as "ERR" (recorded t) = lastNFailed t;
  ok_positive : Forall (fun x => 0 < x.1) (logged t)
}.

Lemma total_app l l' : total (l ++ l') = total l + total l'.
Proof. unfold total. induction l as [|x l IH]; cbn; [done|]. rewrite IH. lia. Qed.
Lemma recorded_as_app st l l' : recorded_as st (l ++ l') = recorded_as st l + recorded_as st l'.
Proof. unfold recorded_as. induction l as [|x l IH]; cbn; [done|]. rewrite IH. lia. Qed.

Context (tags_valid : tag_New "OK" = Ok tt ∧ tag_New "ERR" = Ok tt).

Lemma recordValue_diff latest previous status :
  0 <= previous <= latest -> latest < 2 ^ 63 ->
  recordValue latest previous status
  = Ok (latest - previous, [(if String.eqb status statusFailure then "ERR" else "OK", latest - previous)]).
Proof using tags_valid.
  intros Hp Hl. unfold recordValue. destruct (Z.ltb_spec latest previous); [lia|].
  rewrite wrap64_small by (unfold is_uint64; lia). rewrite sint64_small by (unfold is_int64; lia).
  destruct (Z.ltb_spec (latest - previous) 0); [lia|].
  destruct tags_valid as [H1 H2]. by destruct (String.eqb status statusFailure); rewrite ?H1, ?H2.
Qed.

Lemma report_ok n m t s f : tps_ok n m t -> point t = Loaded s f -> n + m < 2 ^ 63 ->
  ∃ t', report s f t = Ok t' ∧ tps_ok n m t' ∧ point t' = Waiting ∧ lastNSuccessful t' = s ∧ lastNFailed t' = f.
Proof using tags_valid.
  intros [Hn Hm Hpt Hl Hr He Hp] Hpoint Hb. rewrite Hpoint in Hpt. unfold report.
  rewrite !recordValue_diff by lia.
  change (String.eqb statusSuccess statusFailure) with false. change (String.eqb statusFailure statusFailure) with true.
  rewrite !sint64_small; [|unfold is_int64; lia..|unfold is_int64; rewrite ?sint64_small by (unfold is_int64; lia); lia].
  eexists. split; [done|]. split; [|done]. split; cbn [nSuccessful NFailed point lastNSuccessful lastNFailed logged recorded].
  - done.
  - done.
  - lia.
  - destruct (Z.eqb_spec (0 + (s - lastNSuccessful t) + (f - lastNFailed t)) 0); cbn [negb]; rewrite ?total_app; cbn; lia.
  - rewrite !recorded_as_app. cbn. lia.
  - rewrite !recorded_as_app. cbn. lia.
  - destruct (Z.eqb_spec (0 + (s - lastNSuccessful t) + (f - lastNFailed t)) 0); cbn [negb]; [done|].
    apply Forall_app. split; [done|]. apply Forall_singleton. cbn. lia.
Qed.

Lemma count_cons e e' es : count e (e' :: es) = (if decide (e' = e) then 1 else 0) + count e es.
Proof. unfold count. rewrite filter_cons. destruct (decide (e' = e)); cbn [length]; lia. Qed.
Lemma count_app e es es' : count e (es ++ es') = count e es + count e es'.
Proof. unfold count. rewrite filter_app, length_app. lia. Qed.
Lemma count_nonneg e es : 0 <= count e es.
Proof. unfold count. lia. Qed.

Lemma tps_step_ok n m t e : tps_ok n m t -> n + m + 1 < 2 ^ 63 ->
  ∃ t', tps_step t e = Ok t' ∧ tps_ok (n + count IncSuccess [e]) (m + count IncFailure [e]) t'.
Proof using tags_valid.
  intros Ht Hb. rewrite !count_cons. change (count IncSuccess []) with 0. change (count IncFailure []) with 0.
  destruct e; cbn [tps_step decide]; repeat case_decide; try done; rewrite ?Z.add_0_r.
  - eexists. split; [done|]. destruct Ht as [? ? Hpt]. split; cbn; try done.
    + rewrite wrap64_small; [lia|]. unfold is_uint64. destruct (point t); lia.
    + destruct (point t); lia.
  - eexists. split; [done|]. destruct Ht as [? ? Hpt]. split; cbn; try done.
    + rewrite wrap64_small; [lia|]. unfold is_uint64. destruct (point t); lia.
    + destruct (point t); lia.
  - unfold start_step. destruct (point t) as [|s|s f] eqn:Ep.
    + eexists. split; [done|]. destruct Ht as [? ? Hpt]. rewrite Ep in Hpt. split; cbn; try done. lia.
    + eexists. split; [done|]. destruct Ht as [? ? Hpt]. rewrite Ep in Hpt. split; cbn; try done. lia.
    + destruct (report_ok n m t s f Ht Ep) as (t' & Hr & Ht' & _); [lia|]. eauto.
Qed.

Lemma tps_run_ok n m t es : tps_ok n m t -> n + m + count IncSuccess es + count IncFailure es + 1 < 2 ^ 63 ->
  ∃ t', tps_run t es = Ok t' ∧ tps_ok (n + count IncSuccess es) (m + count IncFailure es) t'.
Proof using tags_valid.
  revert n m t. induction es as [|e es IH]; intros n m t Ht Hb; cbn [tps_run].
  - exists t. by rewrite !Z.add_0_r.
  - pose proof (count_nonneg IncSuccess es). pose proof (count_nonneg IncFailure es).
    pose proof (count_app IncSuccess [e] es) as E1. pose proof (count_app IncFailure [e] es) as E2. cbn [app] in E1, E2.
    pose proof (count_nonneg IncSuccess [e]). pose proof (count_nonneg IncFailure [e]).
    destruct (tps_step_ok n m t e Ht) as (t1 & Hs & Ht1); [lia|].
    rewrite Hs. cbn [obind]. destruct (IH _ _ _ Ht1) as (t2 & Hr & Ht2); [lia|].
    exists t2. split; [done|]. rewrite E1, E2, !Z.add_assoc. done.
Qed.

Lemma tps_run_app t es es' : tps_run t (es ++ es') = obind (tps_run t es) (fun t' => tps_run t' es').
Proof.
  revert t. induction es as [|e es IH]; intros t; cbn; [done|]. destruct (tps_step t e); cbn; [apply IH|done|done].
Qed.

(** Increments leave [start] where it is. *)
Lemma run_incs_point t es t' : Start ∉ es -> tps_run t es = Ok t' -> point t' = point t.
Proof.
  revert t. induction es as [|e es IH]; intros t Hes; cbn; [by intros [= ->]|].
  rewrite not_elem_of_cons in Hes. destruct Hes as [He Hes].
  destruct e; [| |done]; cbn; intros E; by rewrite (IH _ Hes E).
Qed.


End tps.

