(* ===== verification/Upgrades.v ===== *)
(** * app/upgrades: the handlers of the software upgrades

    Every handler runs the migrations of the module manager, a parameter here,
    and some of them set parameters of modules first or afterwards. *)

From stdpp Require Import base gmap strings list.
From S2P Require Import Prelude Golang Sdk Ethereum CoinswapTypes Coinswap Onboarding Govshuttle Reference.

#[local] Open Scope Z_scope.
#[local] Open Scope go_scope.

(** ** v2, v3, v5, v6: only migrations *)

Definition migrations_only {S VM} (RunMigrations : VM -> M S VM) (vm : VM) : M S VM := RunMigrations vm.

(** ** v4: the port of x/govshuttle *)

Definition v4_portAddr : string := "648a5Aa0C4FbF2C1CF5a3B432c2766EeaF8E402d".

Definition v4_CreateUpgradeHandler {W X VM} `{EthTypes} (FromHex : string -> string)
    (RunMigrations : VM -> M (Chain W (Govshuttle.Store X)) VM) (vm : VM)
    : M (Chain W (Govshuttle.Store X)) VM :=
  do! SetPort (BytesToAddress (FromHex ("0x" +:+ v4_portAddr)));
  RunMigrations vm.

(** ** v7: parameters of x/onboarding and x/coinswap *)

Section v7.
Context {W VM : Type} `{SdkMath} `{SdkTypes} `{Hashes} `{ParamSubspace}.
Context {AK : AccountKeeper W} {BK : BankKeeper W}.
#[local] Abbreviation C := (Chain W (Onboarding.Store Coinswap.Store)).

Definition v7_CreateUpgradeHandler (RunMigrations : VM -> M C VM) (vm : VM) : M C VM :=
  let* newVM := RunMigrations vm in
  do! Onboarding.SetParams Onboarding.DefaultParams;
  let* coinswapParams := lift CoinswapTypes.DefaultParams in
  do! call (Coinswap.SetParams coinswapParams);
  do! call (SetStandardDenom "atuc");
  ret newVM.

End v7.

(** ** v8: parameters of the IBC client and of x/staking *)

(** [exported.Localhost], the two keepers, and [baseapp.MigrateParams]. *)
Class V8Deps (S CP SP : Type) := {
  Localhost : string;
  Client_GetParams : S -> CP;
  Client_SetParams : CP -> M S unit;
  AllowedClients : CP -> list string;
  with_AllowedClients : list string -> CP -> CP;
  MigrateParams : M S unit;
  Staking_GetParams : M S SP;
  Staking_SetParams : SP -> M S unit;
  with_MinCommissionRate : Z -> SP -> SP
}.

Definition MinCommissionRate : Z := LegacyNewDecWithPrec 5 2.

(** The error of the last call is dropped. *)
Definition v8_CreateUpgradeHandler {S CP SP VM} `{V8Deps S CP SP} (RunMigrations : VM -> M S VM) (vm : VM) : M S VM :=
  let* updatedVM := RunMigrations vm in
  let* params := gets Client_GetParams in
  do! Client_SetParams (with_AllowedClients (AllowedClients params ++ [Localhost]) params);
  do! MigrateParams;
  let* params := Staking_GetParams in
  do! attempt (Staking_SetParams (with_MinCommissionRate MinCommissionRate params));
  ret updatedVM.

(** ** Lemmas *)

Section v7_facts.
Context {W VM : Type} {SM : SdkMath} {ST : SdkTypes} {HA : Hashes} {PS : ParamSubspace} {PSL : ParamSubspaceLaws}.
Context {AK : AccountKeeper W} {BK : BankKeeper W}.
#[local] Abbreviation C := (Chain W (Onboarding.Store Coinswap.Store)).

(** If the migrations succeed so does the upgrade, given that the default
    parameters pass their own validators.  Afterwards both modules have them, the standard coin is
    atuc, and pools are as the migrations left them. *)
Lemma v7_upgrade_effect (RunMigrations : VM -> M C VM) vm vm' p (c c1 : C) :
  CoinswapTypes.DefaultParams = Ok p -> Forall (fun r => r = Ok tt) (CoinswapTypes.ParamSetPairs p) ->
  RunMigrations vm c = (Ok vm', c1) ->
  let s := st_modules (store c1) in
  v7_CreateUpgradeHandler RunMigrations vm c =
  (Ok vm', mkChain (world c1)
     (Onboarding.mkStore (Some Onboarding.DefaultParams)
        (Coinswap.mkStore (Some p) (Some "atuc") (st_sequence s) (st_pools s) (st_lptDenoms s)))
     (events c1)).
Proof.
  intros Hd Hv Hm s. unfold v7_CreateUpgradeHandler, bind. rewrite Hm.
  unfold Onboarding.SetParams, bind, lift. rewrite SetParamSet_all by by repeat constructor. cbn.
  rewrite Hd. unfold call, zoom, Coinswap.SetParams, bind, lift. cbn. by rewrite SetParamSet_all by done.
Qed.

End v7_facts.

(** The default parameters are defined and pass their own validators. *)
Lemma default_params_pass :
  ∃ p, CoinswapTypes.DefaultParams = Ok p ∧ Forall (fun r => r = Ok tt) (CoinswapTypes.ParamSetPairs p).
Proof. eexists. split; [vm_compute; reflexivity|]. repeat constructor. Qed.
