(* ===== verification/Wire.v ===== *)
(** * The protobuf wire format of the generated code

    The files [*.pb.go] of the modules hold, for every message, the functions
    [Size], [MarshalToSizedBuffer], [Marshal], [MarshalTo] and [Unmarshal] that
    gogoproto generates.  They are unrolled copies of the same few fragments of
    code, one per kind of field.  This file has the fragments: reading and
    writing variable-length integers, skipping unknown fields, and for every
    kind of field what it adds to the size ([size_...]), how it is written
    ([put_...]) and how the [case] of its number reads it ([get_...]).  The
    files of the codecs assemble them message by message, in the order and with
    the tag bytes of the code; [WireFacts] has the lemmas.

    Buffers are lists of bytes with the indices of the code; an index out of
    range is a panic.  Lengths and indices are Go's [int], of 64 bits: sums with
    a length that was read from the input wrap around as they do there. *)

From Stdlib Require Import Ascii.
From stdpp Require Import base strings list.
From S2P Require Import Prelude.

#[local] Open Scope Z_scope.
#[local] Open Scope go_scope.

(** ** Byte slices *)

Abbreviation bytes := (list ascii).
Definition byte_val (b : ascii) : Z := Z.of_N (N_of_ascii b).
(** The conversion [uint8(z)]. *)
Definition to_byte (z : Z) : ascii := ascii_of_N (Z.to_N (uint8 z)).
(** [len(dAtA)] *)
Definition blen (dAtA : bytes) : Z := Z.of_nat (length dAtA).
(** The conversions [[]byte(s)] and [string(b)]. *)
Definition of_string (s : string) : bytes := String.list_ascii_of_string s.
Definition to_string (b : bytes) : string := String.string_of_list_ascii b.

(** [dAtA[i]] *)
Definition byte_at (dAtA : bytes) (i : Z) : outcome Z :=
  if i <? 0 then Panic
  else match dAtA !! Z.to_nat i with Some b => Ok (byte_val b) | None => Panic end.

(** [dAtA[i] = uint8(v)] *)
Definition set_byte (dAtA : bytes) (i v : Z) : outcome bytes :=
  if (0 <=? i) && (i <? blen dAtA) then Ok (<[Z.to_nat i := to_byte v]> dAtA) else Panic.

(** [dAtA[a:b]] *)
Definition slice (dAtA : bytes) (a b : Z) : outcome bytes :=
  if (0 <=? a) && (a <=? b) && (b <=? blen dAtA)
  then Ok (take (Z.to_nat (b - a)) (drop (Z.to_nat a) dAtA)) else Panic.

(** [copy(dAtA[i:], src)] *)
Definition copy_at (dAtA : bytes) (i : Z) (src : bytes) : outcome bytes :=
  if (0 <=? i) && (i <=? blen dAtA)
  then let n := Nat.min (length src) (length dAtA - Z.to_nat i) in
       Ok (take (Z.to_nat i) dAtA ++ take n src ++ drop (Z.to_nat i + n) dAtA)
  else Panic.

(** ** Errors of decoding; the numbers in their texts are left out *)

Definition ErrInvalidLength : error := Plain "proto: negative length found during unmarshaling".
Definition ErrIntOverflow : error := Plain "proto: integer overflow".
Definition ErrUnexpectedEndOfGroup : error := Plain "proto: unexpected end of group".
Definition ErrUnexpectedEOF : error := Foreign "io.ErrUnexpectedEOF".
Definition illegal_wire_type : error := Plain "proto: illegal wireType".
Definition wrong_wire_type (field : string) : error := Plain ("proto: wrong wireType for field " +:+ field).
Definition end_group (message : string) : error :=
  Plain ("proto: " +:+ message +:+ ": wiretype end group for non-group").
Definition illegal_tag (message : string) : error := Plain ("proto: " +:+ message +:+ ": illegal tag").

(** ** Variable-length integers *)

(** The number of bytes of [x]: [(math_bits.Len64(x|1) + 6) / 7]. *)
Definition sov (x : Z) : Z := (Z.log2 (Z.lor x 1) + 1 + 6) / 7.

(** [for v >= 1<<7 { dAtA[offset] = uint8(v&0x7f | 0x80); v >>= 7; offset++ };
    dAtA[offset] = uint8(v)]: the buffer and the offset after it.  A [uint64] has
    at most ten groups of seven bits. *)
Fixpoint encode_loop (fuel : nat) (dAtA : bytes) (offset v : Z) : outcome (bytes * Z) :=
  match fuel with
  | O => Panic
  | S fuel =>
      if v <? 128 then let? dAtA := set_byte dAtA offset v in Ok (dAtA, offset)
      else let? dAtA := set_byte dAtA offset (Z.lor (Z.land v 127) 128) in
           encode_loop fuel dAtA (offset + 1) (Z.shiftr v 7)
  end.

Definition encodeVarint (dAtA : bytes) (offset v : Z) : outcome (bytes * Z) :=
  let base := offset - sov v in
  let? '(dAtA, _) := encode_loop 10 dAtA base v in
  Ok (dAtA, base).

(** [for shift := uint(0); ; shift += 7 { ... }]: the value and the index after
    it.  [wrap] is the width of the variable the bits are collected in. *)
Fixpoint decode_loop (wrap : Z -> Z) (fuel : nat) (dAtA : bytes) (iNdEx shift v : Z) : outcome (Z * Z) :=
  match fuel with
  | O => Panic
  | S fuel =>
      if 64 <=? shift then Err ErrIntOverflow
      else if blen dAtA <=? iNdEx then Err ErrUnexpectedEOF
      else
        let? b := byte_at dAtA iNdEx in
        let iNdEx := iNdEx + 1 in
        let v := Z.lor v (wrap (Z.shiftl (Z.land b 127) shift)) in
        if b <? 128 then Ok (v, iNdEx) else decode_loop wrap fuel dAtA iNdEx (shift + 7) v
  end.

(** Ten rounds reach the check of [shift], so that eleven are enough. *)
Definition decode_varint (wrap : Z -> Z) (dAtA : bytes) (iNdEx : Z) : outcome (Z * Z) :=
  decode_loop wrap 11 dAtA iNdEx 0 0.

(** ** Skipping a field *)

Section skip.
Context (dAtA : bytes).

(** The [switch] of a round: the index and the depth of groups after it. *)
Definition skip_case (wireType iNdEx depth : Z) : outcome (Z * Z) :=
  match wireType with
  | 0 => let? '(_, iNdEx) := decode_varint wrap64 dAtA iNdEx in Ok (iNdEx, depth)
  | 1 => Ok (sint64 (iNdEx + 8), depth)
  | 2 => let? '(len, iNdEx) := decode_varint sint64 dAtA iNdEx in
         if len <? 0 then Err ErrInvalidLength else Ok (sint64 (iNdEx + len), depth)
  | 3 => Ok (iNdEx, depth + 1)
  | 4 => if depth =? 0 then Err ErrUnexpectedEndOfGroup else Ok (iNdEx, depth - 1)
  | 5 => Ok (sint64 (iNdEx + 4), depth)
  | _ => Err illegal_wire_type
  end.

(** [for iNdEx < l { ... }].  Every round reads a byte. *)
Fixpoint skip_loop (fuel : nat) (iNdEx depth : Z) : outcome Z :=
  match fuel with
  | O => Panic
  | S fuel =>
      if iNdEx <? blen dAtA then
        let? '(wire, iNdEx) := decode_varint wrap64 dAtA iNdEx in
        let? '(iNdEx, depth) := skip_case (Z.land wire 7) iNdEx depth in
        if iNdEx <? 0 then Err ErrInvalidLength
        else if depth =? 0 then Ok iNdEx
        else skip_loop fuel iNdEx depth
      else Err ErrUnexpectedEOF
  end.
End skip.

Definition skip (dAtA : bytes) : outcome Z := skip_loop dAtA (S (length dAtA)) 0 0.

(** ** Messages

    What the code of a message does with a field of another message, or of a
    type of another package, it does through these functions of that type. *)
Record Codec (A : Type) := mkCodec {
  (** Go's zero value *)
  zero : A;
  Size : A -> Z;
  (** writes at the end of the slice; the slice after it and the number of bytes *)
  MarshalToSizedBuffer : A -> bytes -> outcome (bytes * Z);
  (** writes at the start of the slice *)
  MarshalTo : A -> bytes -> outcome (bytes * Z);
  (** decodes into the given value *)
  Unmarshal : bytes -> A -> outcome A
}.
Arguments mkCodec {A} _ _ _ _ _.
Arguments zero {A} _.
Arguments Size {A} _ _.
Arguments MarshalToSizedBuffer {A} _ _ _.
Arguments MarshalTo {A} _ _ _.
Arguments Unmarshal {A} _ _ _.

(** [size := m.Size(); return m.MarshalToSizedBuffer(dAtA[:size])] *)
Definition generated_MarshalTo {A} (size : A -> Z) (sized : A -> bytes -> outcome (bytes * Z))
  (m : A) (dAtA : bytes) : outcome (bytes * Z) :=
  let size := size m in
  let? front := slice dAtA 0 size in
  let? '(front, n) := sized m front in
  Ok (front ++ drop (Z.to_nat size) dAtA, n).

Definition message_codec {A} (zero : A) (size : A -> Z) (sized : A -> bytes -> outcome (bytes * Z))
  (unmarshal : bytes -> A -> outcome A) : Codec A :=
  mkCodec zero size sized (generated_MarshalTo size sized) unmarshal.

(** [dAtA = make([]byte, size); n, err := m.MarshalToSizedBuffer(dAtA[:size]); return dAtA[:n]] *)
Definition Marshal {A} (c : Codec A) (m : A) : outcome bytes :=
  let size := Size c m in
  if size <? 0 then Panic else
  let dAtA := replicate (Z.to_nat size) (to_byte 0) in
  let? '(dAtA, n) := MarshalToSizedBuffer c m dAtA in
  slice dAtA 0 n.

(** ** Sizes of fields *)

(** [n += 1 + l + sov(uint64(l))] *)
Definition size_length (l : Z) : Z := 1 + l + sov l.
Definition size_string (s : string) : Z :=
  let l := blen (of_string s) in if 0 <? l then size_length l else 0.
(** [uint64(v)] of a negative [int64] has ten bytes *)
Definition size_varint (v : Z) : Z := if v =? 0 then 0 else 1 + sov (wrap64 v).
Definition size_bool (b : bool) : Z := if b then 2 else 0.
Definition size_message {A} (c : Codec A) (v : A) : Z := size_length (Size c v).
Definition size_pointer {A} (c : Codec A) (v : option A) : Z :=
  match v with Some v => size_message c v | None => 0 end.
(** [for _, e := range l { ... }] *)
Definition size_repeated {A} (size : A -> Z) (l : list A) : Z := foldl (fun n e => n + size e) 0 l.
Definition size_strings : list string -> Z := size_repeated (fun s => size_length (blen (of_string s))).
Definition size_messages {A} (c : Codec A) : list A -> Z := size_repeated (size_message c).
Definition size_packed (values : list Z) : Z :=
  if values is [] then 0 else let l := size_repeated sov values in 1 + sov l + l.

(** ** Writing fields, from the last one to the first *)

(** The buffer, and the index [i] below which it is not written yet. *)
Definition writer : Type := bytes * Z -> outcome (bytes * Z).

Definition done_writing : writer := Ok.
Definition then_write (w1 w2 : writer) : writer := fun b => let? b := w1 b in w2 b.
Infix ";>" := then_write (at level 60, right associativity) : go_scope.

(** [i--; dAtA[i] = v] *)
Definition put_byte (v : Z) : writer := fun '(dAtA, i) =>
  let i := i - 1 in let? dAtA := set_byte dAtA i v in Ok (dAtA, i).
(** [i = encodeVarint(dAtA, i, v)] *)
Definition put_uvarint (v : Z) : writer := fun '(dAtA, i) => encodeVarint dAtA i v.
(** [i -= len(s); copy(dAtA[i:], s)] *)
Definition put_raw (s : bytes) : writer := fun '(dAtA, i) =>
  let i := i - blen s in let? dAtA := copy_at dAtA i s in Ok (dAtA, i).

(** [i -= len(s); copy(dAtA[i:], s); i = encodeVarint(dAtA, i, uint64(len(s))); i--; dAtA[i] = tag] *)
Definition put_length_delimited (tag : Z) (s : bytes) : writer :=
  put_raw s ;> put_uvarint (blen s) ;> put_byte tag.
Definition put_string (tag : Z) (s : string) : writer :=
  if 0 <? blen (of_string s) then put_length_delimited tag (of_string s) else done_writing.
Definition put_varint (tag v : Z) : writer :=
  if v =? 0 then done_writing else put_uvarint (wrap64 v) ;> put_byte tag.
Definition put_bool (tag : Z) (b : bool) : writer :=
  if b then put_byte (if b then 1 else 0) ;> put_byte tag else done_writing.

(** [size, err := v.MarshalToSizedBuffer(dAtA[:i]); i -= size; i = encodeVarint(dAtA, i, uint64(size));
    i--; dAtA[i] = tag] *)
Definition put_message {A} (c : Codec A) (tag : Z) (v : A) : writer := fun '(dAtA, i) =>
  let? front := slice dAtA 0 i in
  let? '(front, size) := MarshalToSizedBuffer c v front in
  (put_uvarint size ;> put_byte tag) (front ++ drop (Z.to_nat i) dAtA, i - size).
Definition put_pointer {A} (c : Codec A) (tag : Z) (v : option A) : writer :=
  match v with Some v => put_message c tag v | None => done_writing end.

(** A field of a custom type: [size := v.Size(); i -= size; v.MarshalTo(dAtA[i:]);
    i = encodeVarint(dAtA, i, uint64(size)); i--; dAtA[i] = tag] *)
Definition put_custom {A} (c : Codec A) (tag : Z) (v : A) : writer := fun '(dAtA, i) =>
  let size := Size c v in
  let i := i - size in
  let? back := slice dAtA i (blen dAtA) in
  let? '(back, _) := MarshalTo c v back in
  (put_uvarint size ;> put_byte tag) (take (Z.to_nat i) dAtA ++ back, i).

(** A time or a duration: [n, err := StdTimeMarshalTo(v, dAtA[i-SizeOfStdTime(v):]); i -= n;
    i = encodeVarint(dAtA, i, uint64(n)); i--; dAtA[i] = tag] *)
Definition put_std {A} (c : Codec A) (tag : Z) (v : A) : writer := fun '(dAtA, i) =>
  let? back := slice dAtA (i - Size c v) (blen dAtA) in
  let? '(back, n) := MarshalTo c v back in
  (put_uvarint n ;> put_byte tag) (take (Z.to_nat (i - Size c v)) dAtA ++ back, i - n).

(** [for iNdEx := len(l) - 1; iNdEx >= 0; iNdEx-- { ... }] *)
Fixpoint put_repeated {A} (put : A -> writer) (l : list A) : writer :=
  match l with
  | [] => done_writing
  | e :: l' => put_repeated put l' ;> put e
  end.
Definition put_strings (tag : Z) : list string -> writer :=
  put_repeated (fun s => put_length_delimited tag (of_string s)).
Definition put_messages {A} (c : Codec A) (tag : Z) : list A -> writer := put_repeated (put_message c tag).

(** Packed integers are first written to a buffer of their own, in which an
    integer has room for ten bytes. *)
Fixpoint pack (values : list Z) (buffer : bytes) (j : Z) : outcome (bytes * Z) :=
  match values with
  | [] => Ok (buffer, j)
  | num :: values' =>
      let? '(buffer, j) := encode_loop 10 buffer j num in
      pack values' buffer (j + 1)
  end.
Definition put_packed (tag : Z) (values : list Z) : writer := fun b =>
  match values with
  | [] => Ok b
  | _ =>
      let? '(buffer, j) := pack values (replicate (length values * 10) (to_byte 0)) 0 in
      let? packed := slice buffer 0 j in
      put_length_delimited tag packed b
  end.

(** The body of [MarshalToSizedBuffer]: from [i := len(dAtA)] to [return len(dAtA) - i]. *)
Definition sized_buffer (w : writer) (dAtA : bytes) : outcome (bytes * Z) :=
  let? '(dAtA, i) := w (dAtA, blen dAtA) in Ok (dAtA, blen dAtA - i).

(** ** Reading fields *)

(** A [case] of [Unmarshal]: from the index after the tag, the message with the
    field changed and the index after it. *)
Definition reader (A : Type) : Type := bytes -> Z -> outcome (A * Z).

(** [postIndex := iNdEx + n] with its checks *)
Definition post_index (dAtA : bytes) (iNdEx n : Z) : outcome Z :=
  if n <? 0 then Err ErrInvalidLength else
  let postIndex := sint64 (iNdEx + n) in
  if postIndex <? 0 then Err ErrInvalidLength
  else if blen dAtA <? postIndex then Err ErrUnexpectedEOF
  else Ok postIndex.

(** A length that is collected as [uint64] and converted to [int], or collected
    as [int]; the bytes it announces are decoded by [k]. *)
Definition get_delimited {A} (wrap : Z -> Z) (field : string) (wireType : Z) (k : bytes -> outcome A) : reader A :=
  fun dAtA iNdEx =>
    if negb (wireType =? 2) then Err (wrong_wire_type field) else
    let? '(n, iNdEx) := decode_varint wrap dAtA iNdEx in
    let? postIndex := post_index dAtA iNdEx (sint64 n) in
    let? part := slice dAtA iNdEx postIndex in
    let? v := k part in
    Ok (v, postIndex).

Definition get_string {A} (field : string) (wireType : Z) (set : string -> A) : reader A :=
  get_delimited wrap64 field wireType (fun part => Ok (set (to_string part))).
(** A string is appended to a repeated field. *)
Definition get_strings {A} (field : string) (wireType : Z) (old : list string) (set : list string -> A) : reader A :=
  get_string field wireType (fun s => set (old ++ [s])).
(** A field of type [[]byte]: its length is an [int]. *)
Definition get_bytes {A} (field : string) (wireType : Z) (set : string -> A) : reader A :=
  get_delimited sint64 field wireType (fun part => Ok (set (to_string part))).
Definition get_message {A B} (c : Codec B) (field : string) (wireType : Z) (old : B) (set : B -> A) : reader A :=
  get_delimited sint64 field wireType (fun part => let? v := Unmarshal c part old in Ok (set v)).
(** A pointer is given a zero value first, if it is nil. *)
Definition get_pointer {A B} (c : Codec B) (field : string) (wireType : Z) (old : option B) (set : option B -> A) : reader A :=
  get_message c field wireType (default (zero c) old) (fun v => set (Some v)).
(** An element is appended to a repeated field. *)
Definition get_element {A B} (c : Codec B) (field : string) (wireType : Z) (old : list B) (set : list B -> A) : reader A :=
  get_message c field wireType (zero c) (fun v => set (old ++ [v])).
Definition get_custom {A B} (c : Codec B) (field : string) (wireType : Z) (old : B) (set : B -> A) : reader A :=
  get_delimited wrap64 field wireType (fun part => let? v := Unmarshal c part old in Ok (set v)).

Definition get_varint {A} (wrap : Z -> Z) (field : string) (wireType : Z) (set : Z -> A) : reader A :=
  fun dAtA iNdEx =>
    if negb (wireType =? 0) then Err (wrong_wire_type field) else
    let? '(v, iNdEx) := decode_varint wrap dAtA iNdEx in Ok (set v, iNdEx).
Definition get_bool {A} (field : string) (wireType : Z) (set : bool -> A) : reader A :=
  get_varint sint64 field wireType (fun v => set (negb (v =? 0))).

(** [for iNdEx < postIndex { ... m.Values = append(m.Values, v) }] *)
Fixpoint unpack (fuel : nat) (dAtA : bytes) (iNdEx postIndex : Z) (values : list Z) : outcome (list Z * Z) :=
  match fuel with
  | O => Panic
  | S fuel =>
      if iNdEx <? postIndex then
        let? '(v, iNdEx) := decode_varint wrap64 dAtA iNdEx in
        unpack fuel dAtA iNdEx postIndex (values ++ [v])
      else Ok (values, iNdEx)
  end.
(** Integers of a repeated field come one by one or packed. *)
Definition get_packed {A} (field : string) (wireType : Z) (old : list Z) (set : list Z -> A) : reader A :=
  fun dAtA iNdEx =>
    if wireType =? 0 then
      let? '(v, iNdEx) := decode_varint wrap64 dAtA iNdEx in Ok (set (old ++ [v]), iNdEx)
    else if wireType =? 2 then
      let? '(n, iNdEx) := decode_varint sint64 dAtA iNdEx in
      let? postIndex := post_index dAtA iNdEx n in
      let? '(values, iNdEx) := unpack (S (length dAtA)) dAtA iNdEx postIndex old in
      Ok (set values, iNdEx)
    else Err (wrong_wire_type field).

(** The [default] case, for numbers the message has no field for. *)
Definition skip_field {A} (m : A) (dAtA : bytes) (preIndex : Z) : outcome (A * Z) :=
  let? rest := slice dAtA preIndex (blen dAtA) in
  let? skippy := skip rest in
  let next := sint64 (preIndex + skippy) in
  if (skippy <? 0) || (next <? 0) then Err ErrInvalidLength
  else if blen dAtA <? next then Err ErrUnexpectedEOF
  else Ok (m, next).

(** The loop of [Unmarshal]: [cases m fieldNum wireType] is the [case] of a
    field, if the message has one of this number, [other m dAtA preIndex] what
    is done with a field that has none.  What was decoded before an error is left
    in the receiver by the code and dropped by every caller.  Every round reads a
    byte. *)
Section unmarshal.
Context {A : Type} (message : string) (cases : A -> Z -> Z -> option (reader A)).
Context (other : A -> bytes -> Z -> outcome (A * Z)) (dAtA : bytes).

Fixpoint unmarshal_loop (fuel : nat) (iNdEx : Z) (m : A) : outcome A :=
  match fuel with
  | O => Panic
  | S fuel =>
      if iNdEx <? blen dAtA then
        let preIndex := iNdEx in
        let? '(wire, iNdEx) := decode_varint wrap64 dAtA iNdEx in
        let fieldNum := sint32 (Z.shiftr wire 3) in
        let wireType := Z.land wire 7 in
        if wireType =? 4 then Err (end_group message)
        else if fieldNum <=? 0 then Err (illegal_tag message)
        else
          let? '(m, iNdEx) :=
            match cases m fieldNum wireType with
            | Some case => case dAtA iNdEx
            | None => other m dAtA preIndex
            end in
          unmarshal_loop fuel iNdEx m
      else if blen dAtA <? iNdEx then Err ErrUnexpectedEOF else Ok m
  end.
End unmarshal.

Definition unmarshal_with {A} (message : string) (cases : A -> Z -> Z -> option (reader A))
    (other : A -> bytes -> Z -> outcome (A * Z)) (dAtA : bytes) (m : A) : outcome A :=
  unmarshal_loop message cases other dAtA (S (length dAtA)) 0 m.
Definition unmarshal {A} (message : string) (cases : A -> Z -> Z -> option (reader A)) : bytes -> A -> outcome A :=
  unmarshal_with message cases skip_field.
