(* ===== verification/WireFacts.v ===== *)
(** * The wire format: integers, slices and skipping

    Variable-length integers: their bytes ([uvarint]), that [sov] is their
    number, that [encodeVarint] writes them and that the reading loop returns
    the integer, wrapped to the width of the variable it is collected in.
    Reading on arbitrary input: every step ends in a value or an error
    ([safe]), at an index further on. *)

From Stdlib Require Import Ascii.
From stdpp Require Import base strings list.
From S2P Require Import Prelude Wire.

#[local] Open Scope Z_scope.
#[local] Open Scope go_scope.

Create HintDb wire discriminated.
#[export] Hint Constants Opaque : wire.
Create Rewrite HintDb blen.

(** ** Byte slices *)

Lemma byte_val_range b : 0 <= byte_val b < 256.
Proof. unfold byte_val. pose proof (N_ascii_bounded b). lia. Qed.

Lemma byte_val_to_byte z : byte_val (to_byte z) = z mod 256.
Proof.
  unfold byte_val, to_byte, uint8. pose proof (Z.mod_pos_bound z 256). change (2 ^ 8) with 256.
  rewrite N_ascii_embedding; lia.
Qed.

Lemma of_to_string b : of_string (to_string b) = b.
Proof. apply String.list_ascii_of_string_of_list_ascii. Qed.
Lemma to_of_string s : to_string (of_string s) = s.
Proof. apply String.string_of_list_ascii_of_string. Qed.

Lemma blen_nonneg d : 0 <= blen d.
Proof. unfold blen. lia. Qed.
Lemma blen_app d e : blen (d ++ e) = blen d + blen e.
Proof. unfold blen. rewrite length_app. lia. Qed.
Lemma blen_cons b d : blen (b :: d) = 1 + blen d.
Proof. unfold blen. cbn. lia. Qed.
Lemma blen_snoc d b : blen (d ++ [b]) = blen d + 1.
Proof. unfold blen. rewrite length_app. cbn. lia. Qed.
Lemma to_nat_blen d : Z.to_nat (blen d) = length d.
Proof. unfold blen. lia. Qed.
#[export] Hint Rewrite blen_app blen_cons : blen.
Lemma blen_length d e : length d = length e <-> blen d = blen e.
Proof. unfold blen. lia. Qed.

(** Facts about the lengths in the goal, for [lia]. *)
Ltac blens :=
  autorewrite with blen in *;
  repeat match goal with
  | |- context [blen ?d] => lazymatch goal with _ : 0 <= blen d |- _ => fail | _ => pose proof (blen_nonneg d) end
  | _ : context [blen ?d] |- _ => lazymatch goal with _ : 0 <= blen d |- _ => fail | _ => pose proof (blen_nonneg d) end
  end.

Lemma byte_at_app before b after :
  byte_at (before ++ b :: after) (blen before) = Ok (byte_val b).
Proof.
  unfold byte_at. destruct (Z.ltb_spec (blen before) 0); [blens; lia|].
  by rewrite to_nat_blen, list_lookup_middle.
Qed.

Lemma set_byte_app before b after v :
  set_byte (before ++ b :: after) (blen before) v = Ok (before ++ to_byte v :: after).
Proof.
  unfold set_byte. blens. destruct (Z.leb_spec 0 (blen before)), (Z.ltb_spec (blen before) (blen before + (1 + blen after))); try lia.
  cbn. by rewrite to_nat_blen, insert_app_r_alt, Nat.sub_diag by lia.
Qed.

Lemma slice_app before mid after a b :
  a = blen before -> b = blen before + blen mid -> slice (before ++ mid ++ after) a b = Ok mid.
Proof.
  intros -> ->. unfold slice. blens.
  destruct (Z.leb_spec 0 (blen before)), (Z.leb_spec (blen before) (blen before + blen mid)),
    (Z.leb_spec (blen before + blen mid) (blen before + (blen mid + blen after))); try lia.
  cbn. rewrite to_nat_blen, drop_app_length.
  replace (Z.to_nat (blen before + blen mid - blen before)) with (length mid) by (unfold blen; lia).
  by rewrite take_app_length.
Qed.

Lemma copy_app before gap after src :
  length gap = length src -> copy_at (before ++ gap ++ after) (blen before) src = Ok (before ++ src ++ after).
Proof.
  intros Hl. unfold copy_at. blens.
  destruct (Z.leb_spec 0 (blen before)), (Z.leb_spec (blen before) (blen before + (blen gap + blen after))); try lia.
  cbn. rewrite to_nat_blen, take_app_length, !length_app.
  replace (Nat.min _ _) with (length src) by lia. rewrite firstn_all.
  do 3 f_equal. by rewrite <-drop_drop, drop_app_length, <-Hl, drop_app_length.
Qed.

(** Splitting a buffer at a length. *)
Lemma split_length {A} (l : list A) n : (n <= length l)%nat -> ∃ l1 l2, l = l1 ++ l2 ∧ length l1 = n.
Proof. intros Hn. exists (take n l), (drop n l). split; [by rewrite take_drop|]. rewrite length_take. lia. Qed.

(** ** Variable-length integers *)

(** The groups of seven bits of [v], lowest first. *)
Fixpoint varint (n : nat) (v : Z) : bytes :=
  match n with
  | O => []
  | S n => if v <? 128 then [to_byte v] else to_byte (Z.lor (Z.land v 127) 128) :: varint n (Z.shiftr v 7)
  end.
Definition uvarint (v : Z) : bytes := varint 10 v.

Lemma shiftr7_bound n v : 0 <= v < 2 ^ (7 * Z.of_nat (S n)) -> 0 <= Z.shiftr v 7 < 2 ^ (7 * Z.of_nat n).
Proof.
  intros [H0 H1]. rewrite Z.shiftr_div_pow2 by lia. split; [apply Z.div_pos; lia|].
  apply Z.div_lt_upper_bound; [lia|]. rewrite <-Z.pow_add_r by lia.
  by replace (7 + 7 * Z.of_nat n) with (7 * Z.of_nat (S n)) by lia.
Qed.

Lemma low_bits v : Z.land v 127 = v mod 128.
Proof. change 127 with (Z.ones 7). by rewrite Z.land_ones. Qed.

Lemma group_byte v : byte_val (to_byte (Z.lor (Z.land v 127) 128)) = v mod 128 + 128.
Proof.
  rewrite byte_val_to_byte, low_bits. pose proof (Z.mod_pos_bound v 128).
  replace (Z.lor (v mod 128) 128) with (v mod 128 + 128); [rewrite Z.mod_small; lia|].
  rewrite <-Z.lxor_lor; [rewrite Z.add_nocarry_lxor; [done|]|]; (apply Z.bits_inj'; intros i Hi;
    rewrite Z.land_spec, Z.bits_0; change 128 with (2 ^ 7) at 2; rewrite Z.pow2_bits_eqb by lia;
    destruct (Z.eqb_spec 7 i) as [<-|]; [|by rewrite andb_false_r];
    rewrite andb_true_r; apply (Z.mod_pow2_bits_high v 7 7); lia).
Qed.

Lemma log2_shiftr7 v : 128 <= v -> Z.log2 (Z.lor (Z.shiftr v 7) 1) = Z.log2 (Z.lor v 1) - 7.
Proof.
  intros Hv. assert (0 <= Z.shiftr v 7) by (apply Z.shiftr_nonneg; lia).
  rewrite !Z.log2_lor by lia. rewrite Z.log2_shiftr by lia.
  assert (7 <= Z.log2 v) by (apply Z.log2_le_pow2; lia). change (Z.log2 1) with 0. lia.
Qed.

(** [sov] is the length of the encoding. *)
Lemma varint_sov n v : 0 <= v < 2 ^ (7 * Z.of_nat (S n)) -> blen (varint (S n) v) = sov v.
Proof.
  revert v. induction n as [|n IH]; intros v Hv; cbn [varint]; destruct (Z.ltb_spec v 128).
  2: { change (2 ^ (7 * Z.of_nat 1)) with 128 in Hv. lia. }
  1-2: unfold sov; assert (0 <= Z.log2 (Z.lor v 1) <= 6) by
      (rewrite Z.log2_lor by lia; pose proof (Z.log2_nonneg v); change (Z.log2 1) with 0;
       destruct (decide (v = 0)) as [->|]; [cbn; lia|];
       assert (Z.log2 v < 7) by (apply Z.log2_lt_pow2; lia); lia);
    symmetry; unfold blen; cbn; symmetry; apply (Z.div_unique_pos _ 7 _ (Z.log2 (Z.lor v 1))); lia.
  rewrite blen_cons. change (if _ <? 128 then _ else _) with (varint (S n) (Z.shiftr v 7)).
  rewrite (IH (Z.shiftr v 7)) by by apply shiftr7_bound.
  unfold sov. rewrite log2_shiftr7 by lia. set (k := Z.log2 (Z.lor v 1)).
  replace (k + 1 + 6) with (k - 7 + 1 + 6 + 1 * 7) by lia. rewrite Z.div_add by lia. lia.
Qed.

Lemma uvarint_sov v : is_uint64 v -> blen (uvarint v) = sov v.
Proof. intros Hv. apply varint_sov. unfold is_uint64 in Hv. change (7 * Z.of_nat 10) with 70. lia. Qed.

(** The loop of [encodeVarint] fills a gap of the right length. *)
Lemma encode_loop_spec n v before gap after :
  0 <= v < 2 ^ (7 * Z.of_nat n) -> length gap = length (varint n v) -> (0 < n)%nat ->
  encode_loop n (before ++ gap ++ after) (blen before) v =
  Ok (before ++ varint n v ++ after, blen before + blen (varint n v) - 1).
Proof.
  revert v before gap. induction n as [|n IH]; intros v before gap Hv Hg Hn; [lia|]. cbn [encode_loop varint] in *.
  destruct (Z.ltb_spec v 128).
  - destruct gap as [|b [|? ?]]; cbn in Hg; try lia. cbn [app]. rewrite set_byte_app. cbn.
    do 2 f_equal. unfold blen. cbn. lia.
  - destruct gap as [|b gap]; cbn in Hg; [lia|]. cbn [app]. rewrite set_byte_app. cbn [obind].
    set (g := to_byte _). destruct n as [|n]; [change (2 ^ (7 * Z.of_nat 1)) with 128 in Hv; lia|].
    replace (before ++ g :: gap ++ after) with ((before ++ [g]) ++ gap ++ after) by by rewrite <-app_assoc.
    replace (blen before + 1) with (blen (before ++ [g])) by apply blen_snoc.
    rewrite IH; [|by apply shiftr7_bound|lia|lia]. do 2 f_equal; [by rewrite <-!app_assoc|].
    unfold blen. rewrite length_app. cbn [length]. lia.
Qed.

Lemma encodeVarint_spec v before gap after :
  is_uint64 v -> length gap = length (uvarint v) ->
  encodeVarint (before ++ gap ++ after) (blen (before ++ gap)) v = Ok (before ++ uvarint v ++ after, blen before).
Proof.
  intros Hv Hg. unfold encodeVarint. pose proof (uvarint_sov v Hv) as Hs. apply blen_length in Hg.
  replace (blen (before ++ gap) - sov v) with (blen before) by (rewrite blen_app; lia).
  rewrite encode_loop_spec; [done| |by apply blen_length|lia].
  unfold is_uint64 in Hv. change (7 * Z.of_nat 10) with 70. lia.
Qed.

(** Collecting the groups: [v] from position [shift] on. *)
Lemma lor_shift acc b shift : 0 <= shift -> 0 <= acc < 2 ^ shift -> Z.lor acc (b * 2 ^ shift) = acc + b * 2 ^ shift.
Proof.
  intros Hs Ha. rewrite <-!Z.shiftl_mul_pow2 by done.
  assert (Z.land acc (Z.shiftl b shift) = 0) as H0.
  { apply Z.bits_inj'. intros i Hi. rewrite Z.land_spec, Z.bits_0.
    destruct (Z.lt_ge_cases i shift); [by rewrite Z.shiftl_spec_low, andb_false_r|].
    replace acc with (acc mod 2 ^ shift) by by apply Z.mod_small. by rewrite Z.mod_pow2_bits_high. }
  by rewrite Z.add_nocarry_lxor, Z.lxor_lor.
Qed.

Lemma decode_loop_spec n v fuel before after shift acc :
  0 <= v < 2 ^ (7 * Z.of_nat n) -> v * 2 ^ shift < 2 ^ 64 -> 0 <= shift < 64 -> 0 <= acc < 2 ^ shift ->
  (0 < n <= fuel)%nat ->
  decode_loop wrap64 fuel (before ++ varint n v ++ after) (blen before) shift acc =
  Ok (acc + v * 2 ^ shift, blen before + blen (varint n v)).
Proof.
  revert v fuel before shift acc. induction n as [|n IH]; intros v fuel before shift acc Hv Hv64 Hs Ha Hn; [lia|].
  destruct fuel as [|fuel]; [lia|]. cbn [decode_loop varint].
  destruct (Z.leb_spec 64 shift); [lia|]. assert (0 < 2 ^ shift) by (apply Z.pow_pos_nonneg; lia).
  assert (∀ c l, blen before < blen (before ++ c :: l)) as Hlt by (intros; blens; lia).
  destruct (Z.ltb_spec v 128).
  - destruct (Z.leb_spec (blen (before ++ [to_byte v] ++ after)) (blen before)) as [Hc|_]; [specialize (Hlt (to_byte v) after); cbn in Hc; lia|].
    cbn [app]. rewrite byte_at_app. cbn [obind]. rewrite byte_val_to_byte, Z.mod_small by lia.
    destruct (Z.ltb_spec v 128); [|lia]. rewrite low_bits, Z.mod_small, Z.shiftl_mul_pow2 by lia.
    unfold wrap64. rewrite Z.mod_small by nia. rewrite lor_shift by lia.
    done.
  - set (g := to_byte _). cbn [app].
    destruct (Z.leb_spec (blen (before ++ g :: varint n (Z.shiftr v 7) ++ after)) (blen before)) as [Hc|_].
    { specialize (Hlt g (varint n (Z.shiftr v 7) ++ after)). lia. }
    rewrite byte_at_app. cbn [obind]. subst g. rewrite group_byte.
    pose proof (Z.mod_pos_bound v 128). destruct (Z.ltb_spec (v mod 128 + 128) 128); [lia|].
    set (g := to_byte _).
    rewrite low_bits. replace ((v mod 128 + 128) mod 128) with (v mod 128).
    2: { rewrite <-Z.add_mod_idemp_r by done. change (128 mod 128) with 0. by rewrite Z.add_0_r, Z.mod_mod. }
    assert (v = 128 * Z.shiftr v 7 + v mod 128) as Hdiv.
    { rewrite Z.shiftr_div_pow2 by lia. apply Z.div_mod. lia. }
    assert (1 <= Z.shiftr v 7) by nia.
    assert (0 <= v mod 128 * 2 ^ shift <= v * 2 ^ shift).
    { split; [apply Z.mul_nonneg_nonneg; lia|apply Z.mul_le_mono_nonneg_r; lia]. }
    rewrite Z.shiftl_mul_pow2, (wrap64_small (v mod 128 * _)), lor_shift by (unfold is_uint64; lia).
    assert (2 ^ (shift + 7) = 128 * 2 ^ shift) as Hp by (rewrite Z.pow_add_r by lia; lia).
    assert (shift + 7 < 64) by (apply (Z.pow_lt_mono_r_iff 2); nia).
    destruct n as [|n]; [change (2 ^ (7 * Z.of_nat 1)) with 128 in Hv; lia|].
    replace (before ++ g :: varint (S n) (Z.shiftr v 7) ++ after)
      with ((before ++ [g]) ++ varint (S n) (Z.shiftr v 7) ++ after) by by rewrite <-app_assoc.
    replace (blen before + 1) with (blen (before ++ [g])) by apply blen_snoc.
    rewrite IH; [|by apply shiftr7_bound|nia|lia|nia|lia].
    do 2 f_equal; [nia|]. unfold blen. rewrite length_app. cbn [length]. lia.
Qed.

Lemma decode_varint_spec v before after :
  is_uint64 v ->
  decode_varint wrap64 (before ++ uvarint v ++ after) (blen before) = Ok (v, blen before + blen (uvarint v)).
Proof.
  intros Hv. unfold is_uint64 in Hv. unfold decode_varint, uvarint. rewrite decode_loop_spec.
  - do 2 f_equal. lia.
  - change (7 * Z.of_nat 10) with 70. lia.
  - lia.
  - lia.
  - lia.
  - lia.
Qed.

(** ** Signed integers: the bits are collected at the width of the variable *)

Definition signed (w z : Z) : Z := (z + 2 ^ (w - 1)) mod 2 ^ w - 2 ^ (w - 1).

Section signed.
Context (w : Z) (Hw : 0 < w).

Lemma pow2_half : 2 ^ w = 2 * 2 ^ (w - 1).
Proof using Hw. rewrite <-Z.pow_succ_r by lia. f_equal. lia. Qed.

Lemma signed_range z : - 2 ^ (w - 1) <= signed w z < 2 ^ (w - 1).
Proof using Hw.
  unfold signed. pose proof (Z.mod_pos_bound (z + 2 ^ (w - 1)) (2 ^ w)). rewrite pow2_half in *. 
  assert (0 < 2 ^ (w - 1)) by (apply Z.pow_pos_nonneg; lia). lia.
Qed.

Lemma signed_mod z : signed w z mod 2 ^ w = z mod 2 ^ w.
Proof using Hw.
  assert (0 < 2 ^ w) by (apply Z.pow_pos_nonneg; lia).
  unfold signed. rewrite Zminus_mod_idemp_l. f_equal. lia.
Qed.

Lemma signed_id z : - 2 ^ (w - 1) <= z < 2 ^ (w - 1) -> signed w z = z.
Proof using Hw. intros Hz. unfold signed. rewrite Z.mod_small; [lia|]. rewrite pow2_half. lia. Qed.

Lemma signed_eq y z : y mod 2 ^ w = z mod 2 ^ w -> signed w y = signed w z.
Proof using Hw.
  intros Hm. unfold signed. rewrite <-(Zplus_mod_idemp_l y), Hm, Zplus_mod_idemp_l. done.
Qed.

(** Above the width all bits are the sign. *)
Lemma signed_high z n : - 2 ^ (w - 1) <= z < 2 ^ (w - 1) -> w - 1 <= n -> Z.testbit z n = (z <? 0).
Proof using Hw.
  assert (∀ y, 0 <= y < 2 ^ (w - 1) -> w - 1 <= n -> Z.testbit y n = false) as Hpos.
  { intros y Hy Hn. replace y with (y mod 2 ^ (w - 1)) by by apply Z.mod_small.
    apply Z.mod_pow2_bits_high. lia. }
  intros Hz Hn. destruct (Z.ltb_spec z 0); [|apply Hpos; lia].
  pose proof (Z.lnot_spec z n ltac:(lia)) as Hl. rewrite Hpos in Hl; [|unfold Z.lnot; lia|done].
  by destruct (Z.testbit z n).
Qed.

Lemma signed_lor a b : signed w (Z.lor a b) = Z.lor (signed w a) (signed w b).
Proof using Hw.
  assert (∀ z i, 0 <= i < w -> Z.testbit (signed w z) i = Z.testbit z i) as Hlow.
  { intros z i Hi. rewrite <-(Z.mod_pow2_bits_low (signed w z) w i), signed_mod, Z.mod_pow2_bits_low by lia. done. }
  assert (∀ z i, w - 1 <= i -> Z.testbit (signed w z) i = Z.testbit z (w - 1)) as Hhigh.
  { intros z i Hi. rewrite <-(Hlow z (w - 1)) by lia.
    rewrite !signed_high; try apply signed_range; try lia. }
  apply Z.bits_inj'. intros i Hi. rewrite Z.lor_spec. destruct (Z.lt_ge_cases i w).
  - rewrite !Hlow by lia. apply Z.lor_spec.
  - rewrite !Hhigh by lia. apply Z.lor_spec.
Qed.

End signed.

(** The variables the code collects bits in. *)
Inductive width (wrap : Z -> Z) : Prop :=
| width_uint64 : wrap = wrap64 -> width wrap
| width_signed w : 0 < w <= 64 -> wrap = signed w -> width wrap.

Lemma width_wrap64 : width wrap64.
Proof. by left. Qed.
Lemma width_sint64 : width sint64.
Proof. by apply (width_signed _ 64). Qed.
Lemma width_sint32 : width sint32.
Proof. by apply (width_signed _ 32). Qed.
#[export] Hint Resolve width_wrap64 width_sint64 width_sint32 : wire.

Lemma signed_wrap64 w z : 0 < w <= 64 -> signed w (wrap64 z) = signed w z.
Proof.
  intros Hw. apply signed_eq; [lia|]. unfold wrap64.
  replace (2 ^ 64) with (2 ^ (64 - w) * 2 ^ w) by (rewrite <-Z.pow_add_r by lia; f_equal; lia).
  rewrite Z.mul_comm, Z.rem_mul_r by (apply Z.pow_nonzero || apply Z.pow_pos_nonneg; lia).
  rewrite Z.mul_comm, Z.mod_add by (apply Z.pow_nonzero; lia). apply Z.mod_mod, Z.pow_nonzero; lia.
Qed.

(** Collecting the bits in a narrower variable wraps the value. *)
Lemma decode_loop_signed w fuel dAtA iNdEx shift v : 0 < w <= 64 ->
  decode_loop (signed w) fuel dAtA iNdEx shift (signed w v) =
  obind (decode_loop wrap64 fuel dAtA iNdEx shift v) (fun '(v, i) => Ok (signed w v, i)).
Proof.
  intros Hw. revert iNdEx shift v. induction fuel as [|fuel IH]; intros iNdEx shift v; cbn; [done|].
  case_match; [done|]. case_match; [done|]. destruct (byte_at dAtA iNdEx) as [b|e|]; cbn; [|done|done].
  replace (Z.lor (signed w v) (signed w (Z.land b 127 ≪ shift)))
    with (signed w (Z.lor v (wrap64 (Z.land b 127 ≪ shift)))).
  2: { by rewrite signed_lor, signed_wrap64 by lia. }
  case_match; [done|]. apply IH.
Qed.

Lemma decode_varint_signed w dAtA iNdEx : 0 < w <= 64 ->
  decode_varint (signed w) dAtA iNdEx =
  obind (decode_varint wrap64 dAtA iNdEx) (fun '(v, i) => Ok (signed w v, i)).
Proof.
  intros Hw. unfold decode_varint. rewrite <-decode_loop_signed by done.
  rewrite (signed_id w); [done|lia|]. assert (0 < 2 ^ (w - 1)) by (apply Z.pow_pos_nonneg; lia). lia.
Qed.

(** An integer is read back, at the width of the variable. *)
Lemma decode_width wrap v before after :
  width wrap ->
  decode_varint wrap (before ++ uvarint (wrap64 v) ++ after) (blen before) =
  Ok (wrap v, blen before + blen (uvarint (wrap64 v))).
Proof.
  assert (is_uint64 (wrap64 v)) by apply wrap64_range. intros [->|w Hw ->]; [by apply decode_varint_spec|].
  rewrite decode_varint_signed, decode_varint_spec by done. cbn. by rewrite signed_wrap64.
Qed.

Lemma is_uint64_wrap v : is_uint64 v <-> wrap64 v = v.
Proof. split; [apply wrap64_small|intros <-; apply wrap64_range]. Qed.
Lemma is_int64_wrap v : is_int64 v <-> sint64 v = v.
Proof. split; [apply sint64_small|intros <-; apply sint64_range]. Qed.

Lemma width_idemp wrap v : width wrap -> wrap (wrap v) = wrap v.
Proof.
  intros [->|w Hw ->]; [apply wrap64_small, wrap64_range|]. apply signed_id; [lia|]. apply signed_range. lia.
Qed.

(** ** Results that are a value or an error, never a panic *)

Definition safe {A} (P : A -> Prop) (o : outcome A) : Prop :=
  match o with Ok a => P a | Err _ => True | Panic => False end.

Lemma safe_bind {A B} (P : A -> Prop) (Q : B -> Prop) o k :
  safe P o -> (∀ a, P a -> safe Q (k a)) -> safe Q (obind o k).
Proof. destruct o; cbn; auto. Qed.

Lemma safe_mono {A} (P Q : A -> Prop) o : safe P o -> (∀ a, P a -> Q a) -> safe Q o.
Proof. destruct o; cbn; auto. Qed.

Lemma safe_not_panic {A} (P : A -> Prop) o : safe P o -> o ≠ Panic.
Proof. by intros H ->. Qed.

Lemma safe_Ok {A} (P : A -> Prop) o a : safe P o -> o = Ok a -> P a.
Proof. by intros H ->. Qed.

Lemma byte_at_safe dAtA i : 0 <= i < blen dAtA -> safe (fun _ => True) (byte_at dAtA i).
Proof.
  intros Hi. unfold byte_at. destruct (Z.ltb_spec i 0); [lia|].
  destruct (dAtA !! Z.to_nat i) eqn:E; [done|]. apply lookup_ge_None in E. unfold blen in Hi. lia.
Qed.

Lemma slice_safe dAtA a b : 0 <= a <= b -> b <= blen dAtA -> safe (fun d => blen d = b - a) (slice dAtA a b).
Proof.
  intros Ha Hb. unfold slice.
  destruct (Z.leb_spec 0 a), (Z.leb_spec a b), (Z.leb_spec b (blen dAtA)); try lia. cbn. unfold blen in *.
  rewrite length_take, length_drop. lia.
Qed.

Lemma lor_uint64 a b : is_uint64 a -> is_uint64 b -> is_uint64 (Z.lor a b).
Proof.
  unfold is_uint64. intros Ha Hb. split; [apply Z.lor_nonneg; lia|].
  destruct (decide (Z.lor a b = 0)) as [->|]; [lia|].
  assert (0 <= Z.lor a b) by (apply Z.lor_nonneg; lia).
  apply Z.log2_lt_pow2; [lia|]. rewrite Z.log2_lor by lia.
  assert (∀ x, 0 <= x < 2 ^ 64 -> Z.log2 x < 64); [|apply Z.max_lub_lt; auto].
  intros x Hx. destruct (decide (x = 0)) as [->|]; [cbn; lia|]. apply Z.log2_lt_pow2; lia.
Qed.

Lemma decode_loop_safe fuel dAtA iNdEx shift v :
  0 <= iNdEx -> 64 <= shift + 7 * (Z.of_nat fuel - 1) -> (0 < fuel)%nat -> is_uint64 v ->
  safe (fun '(v, i) => is_uint64 v ∧ iNdEx < i <= blen dAtA) (decode_loop wrap64 fuel dAtA iNdEx shift v).
Proof.
  revert iNdEx shift v. induction fuel as [|fuel IH]; intros iNdEx shift v Hi Hs Hf Hv; [lia|]. cbn [decode_loop].
  destruct (Z.leb_spec 64 shift); [done|]. destruct (Z.leb_spec (blen dAtA) iNdEx); [done|].
  eapply safe_bind; [by apply byte_at_safe|]. intros b _. cbn zeta.
  assert (is_uint64 (Z.lor v (wrap64 (Z.land b 127 ≪ shift)))) by (apply lor_uint64; [done|apply wrap64_range]).
  case_match; [cbn; split; [done|lia]|].
  eapply safe_mono; [apply IH; [lia|lia|lia|done]|]. intros [? ?]. intros [? ?]. split; [done|lia].
Qed.

(** Reading an integer ends in one of the right width, further on in the input. *)
Lemma decode_varint_safe wrap dAtA iNdEx :
  width wrap -> 0 <= iNdEx ->
  safe (fun '(v, i) => wrap v = v ∧ iNdEx < i <= blen dAtA) (decode_varint wrap dAtA iNdEx).
Proof.
  intros Hw Hi.
  assert (safe (fun '(v, i) => is_uint64 v ∧ iNdEx < i <= blen dAtA) (decode_varint wrap64 dAtA iNdEx)) as Hs
    by (apply decode_loop_safe; [done|lia|lia|unfold is_uint64; lia]).
  destruct Hw as [->|w Hw ->].
  - eapply safe_mono; [exact Hs|]. intros [v i]. by rewrite is_uint64_wrap.
  - rewrite decode_varint_signed by done. eapply safe_bind; [exact Hs|]. intros [v i] [_ ?]. cbn.
    split; [|done]. by apply width_idemp, (width_signed _ w).
Qed.

(** ** Skipping *)

Lemma sint64_sum a b : 0 <= a < 2 ^ 63 -> 0 <= b < 2 ^ 63 -> sint64 (a + b) = a + b ∨ sint64 (a + b) < 0.
Proof.
  intros Ha Hb. destruct (Z.lt_ge_cases (a + b) (2 ^ 63)).
  - left. apply sint64_small. unfold is_int64. lia.
  - right. unfold sint64. replace (a + b + 2 ^ 63) with ((a + b - 2 ^ 63) + 1 * 2 ^ 64) by lia.
    rewrite Z.mod_add, Z.mod_small by lia. lia.
Qed.

Section skip_facts.
Context (dAtA : bytes) (Hlen : blen dAtA < 2 ^ 63).

(** A round moves forward, or to a negative index, which ends the loop. *)
Lemma skip_case_safe wireType iNdEx depth :
  0 <= iNdEx <= blen dAtA -> 0 <= depth ->
  safe (fun '(i, depth') => (iNdEx <= i ∨ i < 0) ∧ i < 2 ^ 63 ∧ 0 <= depth') (skip_case dAtA wireType iNdEx depth).
Proof using Hlen.
  intros Hi Hd.
  assert (∀ n, 0 <= n < 2 ^ 63 -> ∃ i, sint64 (iNdEx + n) = i ∧ (iNdEx <= i ∨ i < 0) ∧ i < 2 ^ 63) as Hsum.
  { intros n Hn. eexists. split; [done|]. pose proof (sint64_range (iNdEx + n)) as [_ Hr].
    split; [|done]. destruct (sint64_sum iNdEx n) as [E|E]; [lia|done|left; lia|by right]. }
  assert (∀ n d, 0 <= n < 2 ^ 63 -> 0 <= d ->
    (iNdEx <= sint64 (iNdEx + n) ∨ sint64 (iNdEx + n) < 0) ∧ sint64 (iNdEx + n) < 2 ^ 63 ∧ 0 <= d) as Hsum'.
  { intros n d Hn ?. by destruct (Hsum n Hn) as (i & -> & ? & ?). }
  unfold skip_case. repeat case_match; cbn [safe]; try done; try (apply Hsum'; lia); try (split_and!; lia).
  - eapply safe_bind; [apply decode_varint_safe; [auto with wire|lia]|]. intros [v i] [_ ?]. cbn. split_and!; lia.
  - eapply safe_bind; [apply decode_varint_safe; [auto with wire|lia]|]. intros [v i] [Hv ?].
    apply is_int64_wrap in Hv. unfold is_int64 in Hv. destruct (Z.ltb_spec v 0); [done|]. cbn.
    pose proof (sint64_range (i + v)) as [_ Hr].
    split_and!; [|done|done]. destruct (sint64_sum i v) as [E|E]; [lia|lia|left; lia|by right].
Qed.

Lemma skip_loop_safe fuel iNdEx depth :
  0 <= iNdEx < 2 ^ 63 -> 0 <= depth -> blen dAtA - iNdEx < Z.of_nat fuel -> (0 < fuel)%nat ->
  safe (fun n => iNdEx < n < 2 ^ 63) (skip_loop dAtA fuel iNdEx depth).
Proof using Hlen.
  revert iNdEx depth. induction fuel as [|fuel IH]; intros iNdEx depth Hi Hd Hf Hp; [lia|]. cbn [skip_loop].
  destruct (Z.ltb_spec iNdEx (blen dAtA)); [|done].
  eapply safe_bind; [apply decode_varint_safe; [auto with wire|lia]|]. intros [wire i] [_ Hi1].
  eapply safe_bind; [apply skip_case_safe; lia|]. intros [i2 d] (Hi2 & Hb & Hd2).
  destruct (Z.ltb_spec i2 0); [done|]. case_match; [cbn; lia|].
  eapply safe_mono; [apply IH; lia|]. cbn. lia.
Qed.

Lemma skip_safe : safe (fun n => 0 < n < 2 ^ 63) (skip dAtA).
Proof using Hlen. apply skip_loop_safe; unfold blen in *; lia. Qed.

End skip_facts.
