(* ===== verification/WireCodec.v ===== *)
(** * The wire format: what is written is what is read

    A message is encoded by the concatenation of the encodings of its fields
    ([enc_...]).  [sizes], [writes] and [reads] say of a size, a writer and the
    cases of a message that they compute, write and read an encoding;
    [reader_ok] says of a case that it ends in a value or an error on every
    input.  The lemmas on the kinds of fields are in the hint database [wire],
    and [message_laws] puts them together: the laws of a message ([CodecLaws])
    follow from the laws of the messages in it. *)

From Stdlib Require Import Ascii.
From stdpp Require Import base strings list sets.
From S2P Require Import Prelude Wire WireFacts.

#[local] Open Scope Z_scope.
#[local] Open Scope go_scope.

(** ** Encodings *)

Definition enc_delimited (tag : Z) (s : bytes) : bytes := to_byte tag :: uvarint (blen s) ++ s.
Definition enc_string (tag : Z) (s : string) : bytes :=
  if String.eqb s "" then [] else enc_delimited tag (of_string s).
Definition enc_varint (tag v : Z) : bytes := if v =? 0 then [] else to_byte tag :: uvarint (wrap64 v).
Definition enc_bool (tag : Z) (b : bool) : bytes := if b then [to_byte tag; to_byte 1] else [].
Definition enc_message {A} (enc : A -> bytes) (tag : Z) (v : A) : bytes := enc_delimited tag (enc v).
(** The encodings of byte slices and of custom types do not differ from these. *)
Definition enc_bytes (tag : Z) (s : string) : bytes := enc_string tag s.
Definition enc_custom {A} (enc : A -> bytes) (tag : Z) (v : A) : bytes := enc_message enc tag v.
Definition enc_pointer {A} (enc : A -> bytes) (tag : Z) (v : option A) : bytes :=
  match v with Some v => enc_message enc tag v | None => [] end.
Definition enc_repeated {A} (enc : A -> bytes) (l : list A) : bytes := concat (enc <$> l).
Definition enc_strings (tag : Z) (l : list string) : bytes :=
  enc_repeated (fun s => enc_delimited tag (of_string s)) l.
Definition enc_messages {A} (enc : A -> bytes) (tag : Z) (l : list A) : bytes :=
  enc_repeated (enc_message enc tag) l.
Definition enc_packed (tag : Z) (values : list Z) : bytes :=
  if values is [] then [] else enc_delimited tag (enc_repeated uvarint values).

(** ** The laws of a type of messages

    For the values that satisfy [wf] and whose encoding fits in memory. *)
Record CodecLaws {A} (c : Codec A) (wf : A -> Prop) (enc : A -> bytes) : Prop := {
  zero_wf : wf (zero c);
  Size_law a : wf a -> blen (enc a) < 2 ^ 63 -> Size c a = blen (enc a);
  MarshalToSizedBuffer_law a before gap :
    wf a -> blen (enc a) < 2 ^ 63 -> length gap = length (enc a) ->
    MarshalToSizedBuffer c a (before ++ gap) = Ok (before ++ enc a, blen (enc a));
  MarshalTo_law a gap after :
    wf a -> blen (enc a) < 2 ^ 63 -> length gap = length (enc a) ->
    MarshalTo c a (gap ++ after) = Ok (enc a ++ after, blen (enc a));
  Unmarshal_law a : wf a -> blen (enc a) < 2 ^ 63 -> Unmarshal c (enc a) (zero c) = Ok a;
  Unmarshal_safe dAtA a : blen dAtA < 2 ^ 63 -> wf a -> safe wf (Unmarshal c dAtA a)
}.

(** Encoding succeeds with [enc], and decoding it gives the message back. *)
Lemma Marshal_law {A} (c : Codec A) wf enc a :
  CodecLaws c wf enc -> wf a -> blen (enc a) < 2 ^ 63 -> Marshal c a = Ok (enc a).
Proof.
  intros Hc Ha Hl. unfold Marshal. rewrite (Size_law _ _ _ Hc) by done. blens.
  destruct (Z.ltb_spec (blen (enc a)) 0); [lia|]. rewrite to_nat_blen.
  pose proof (MarshalToSizedBuffer_law _ _ _ Hc a [] (replicate (length (enc a)) (to_byte 0)) Ha Hl) as Hm.
  cbn [app] in Hm. rewrite Hm by apply length_replicate. cbn [obind].
  pose proof (slice_app [] (enc a) [] 0 (blen (enc a))) as Hs. rewrite app_nil_r in Hs. apply Hs; [done|].
  unfold blen. cbn. lia.
Qed.

Lemma codec_roundtrip {A} (c : Codec A) wf enc a :
  CodecLaws c wf enc -> wf a -> blen (enc a) < 2 ^ 63 ->
  obind (Marshal c a) (fun dAtA => Unmarshal c dAtA (zero c)) = Ok a.
Proof. intros Hc Ha Hl. rewrite (Marshal_law _ _ _ _ Hc) by done. by apply (Unmarshal_law _ _ _ Hc). Qed.

(** ** Sizes *)

Definition sizes (n : Z) (e : bytes) : Prop := blen e < 2 ^ 63 -> n = blen e.

Lemma sizes_app n1 n2 e1 e2 : sizes n1 e1 -> sizes n2 e2 -> sizes (n1 + n2) (e1 ++ e2).
Proof. intros H1 H2 Hl. blens. rewrite H1, H2; lia. Qed.

Lemma sizes_delimited tag s : sizes (size_length (blen s)) (enc_delimited tag s).
Proof.
  unfold enc_delimited, size_length. intros Hl. blens. rewrite uvarint_sov; [lia|]. unfold is_uint64. lia.
Qed.

Lemma blen_of_string_pos s : (0 <? blen (of_string s)) = negb (String.eqb s "").
Proof. destruct s; [done|]. unfold blen. cbn. destruct (Z.ltb_spec 0 (Z.pos (Pos.of_succ_nat (length (String.list_ascii_of_string s))))); [done|lia]. Qed.

Lemma sizes_string tag s : sizes (size_string s) (enc_string tag s).
Proof.
  unfold size_string, enc_string. rewrite blen_of_string_pos.
  destruct (String.eqb s ""); [done|apply sizes_delimited].
Qed.

Lemma sizes_varint tag v : sizes (size_varint v) (enc_varint tag v).
Proof.
  unfold size_varint, enc_varint. case_match; [done|]. intros _. rewrite blen_cons, uvarint_sov; [done|].
  apply wrap64_range.
Qed.

Lemma sizes_bool tag b : sizes (size_bool b) (enc_bool tag b).
Proof. by destruct b. Qed.

Lemma sizes_message {A} (c : Codec A) wf enc tag v :
  CodecLaws c wf enc -> wf v -> sizes (size_message c v) (enc_message enc tag v).
Proof.
  intros Hc Hv Hl. unfold size_message. rewrite (Size_law _ _ _ Hc) by (done || (unfold enc_message, enc_delimited in Hl; blens; lia)).
  by apply sizes_delimited.
Qed.

Lemma sizes_pointer {A} (c : Codec A) wf enc tag (v : option A) :
  CodecLaws c wf enc -> (∀ x, v = Some x -> wf x) -> sizes (size_pointer c v) (enc_pointer enc tag v).
Proof. intros Hc Hv. destruct v; cbn; [by eapply sizes_message; eauto|done]. Qed.

Lemma size_repeated_cons {A} (size : A -> Z) x l : size_repeated size (x :: l) = size x + size_repeated size l.
Proof.
  unfold size_repeated. cbn [foldl]. generalize (size x). intros z.
  assert (∀ a, foldl (fun n e => n + size e) (a + 0) l = a + foldl (fun n e => n + size e) 0 l) as H.
  { generalize 0. induction l as [|y l IH]; intros b a; cbn; [done|]. by rewrite <-IH, Z.add_assoc. }
  rewrite <-(H z). f_equal. lia.
Qed.

Lemma sizes_repeated {A} (size : A -> Z) enc l :
  (∀ x, x ∈ l -> sizes (size x) (enc x)) -> sizes (size_repeated size l) (enc_repeated enc l).
Proof.
  induction l as [|x l IH]; intros Hx; [done|]. rewrite size_repeated_cons.
  apply sizes_app; [apply Hx|apply IH; intros; apply Hx]; set_solver.
Qed.

Lemma sizes_strings tag l : sizes (size_strings l) (enc_strings tag l).
Proof. apply sizes_repeated. intros s _. apply sizes_delimited. Qed.

Lemma sizes_messages {A} (c : Codec A) wf enc tag (l : list A) :
  CodecLaws c wf enc -> Forall wf l -> sizes (size_messages c l) (enc_messages enc tag l).
Proof. rewrite Forall_forall. intros Hc Hl. apply sizes_repeated. intros. eapply sizes_message; eauto. Qed.

Lemma sizes_packed tag values : Forall is_uint64 values -> sizes (size_packed values) (enc_packed tag values).
Proof.
  rewrite Forall_forall. intros Hv. unfold size_packed, enc_packed. destruct values as [|v values]; [done|].
  intros Hl. assert (size_repeated sov (v :: values) = blen (enc_repeated uvarint (v :: values))) as ->.
  { apply sizes_repeated; [intros x ? _; by rewrite uvarint_sov by auto|]. unfold enc_delimited in Hl. blens. lia. }
  rewrite <-(sizes_delimited tag) by done. unfold size_length. lia.
Qed.

(** ** Writers *)

(** The writer fills the gap before [i] with [e]. *)
Definition writes (w : writer) (e : bytes) : Prop :=
  blen e < 2 ^ 63 -> ∀ before gap after, length gap = length e ->
  w (before ++ gap ++ after, blen (before ++ gap)) = Ok (before ++ e ++ after, blen before).

Lemma writes_nothing : writes done_writing [].
Proof. intros _ before gap after Hg. destruct gap; [|done]. by rewrite app_nil_r. Qed.

Lemma writes_then w1 w2 e1 e2 : writes w1 e1 -> writes w2 e2 -> writes (w1 ;> w2) (e2 ++ e1).
Proof.
  intros H1 H2 Hl before gap after Hg. rewrite length_app in Hg.
  destruct (split_length gap (length e2)) as (g2 & g1 & -> & Hg2); [lia|]. rewrite length_app in Hg.
  unfold then_write. rewrite <-(app_assoc g2), (app_assoc before), (app_assoc before).
  rewrite H1 by (blens; lia). cbn [obind]. rewrite <-(app_assoc before g2).
  rewrite H2 by (blens; lia). by rewrite <-app_assoc.
Qed.

Lemma writes_byte v : writes (put_byte v) [to_byte v].
Proof.
  intros _ before gap after Hg. destruct gap as [|b [|? ?]]; [done| |done]. unfold put_byte.
  rewrite blen_snoc. replace (blen before + 1 - 1) with (blen before) by lia. cbn [app].
  by rewrite set_byte_app.
Qed.

Lemma writes_uvarint v : is_uint64 v -> writes (put_uvarint v) (uvarint v).
Proof. intros Hv _ before gap after Hg. by apply encodeVarint_spec. Qed.

Lemma writes_raw s : writes (put_raw s) s.
Proof.
  intros _ before gap after Hg. unfold put_raw. rewrite blen_app, (proj1 (blen_length gap s)) by done.
  replace (blen before + blen s - blen s) with (blen before) by lia. by rewrite copy_app.
Qed.

(** The length and the tag in front of contents that are written already. *)
Lemma writes_header tag s : blen s < 2 ^ 63 ->
  writes (put_uvarint (blen s) ;> put_byte tag) (to_byte tag :: uvarint (blen s)).
Proof.
  intros Hs. apply (writes_then _ _ _ [_]); [|apply writes_byte].
  apply writes_uvarint. unfold is_uint64. blens. lia.
Qed.

Lemma enc_delimited_app tag s : enc_delimited tag s = (to_byte tag :: uvarint (blen s)) ++ s.
Proof. done. Qed.

Lemma enc_delimited_bound tag s : blen (enc_delimited tag s) < 2 ^ 63 -> blen s < 2 ^ 63.
Proof. unfold enc_delimited. intros. blens. lia. Qed.

Lemma writes_bounded w e : (blen e < 2 ^ 63 -> writes w e) -> writes w e.
Proof. intros H Hl. by apply H. Qed.

Lemma writes_delimited tag s : writes (put_length_delimited tag s) (enc_delimited tag s).
Proof.
  apply writes_bounded. intros Hs%enc_delimited_bound. rewrite enc_delimited_app.
  apply writes_then; [apply writes_raw|by apply writes_header].
Qed.

Lemma writes_string tag s : writes (put_string tag s) (enc_string tag s).
Proof.
  unfold put_string, enc_string. rewrite blen_of_string_pos.
  destruct (String.eqb s ""); [apply writes_nothing|apply writes_delimited].
Qed.

Lemma writes_varint tag v : writes (put_varint tag v) (enc_varint tag v).
Proof.
  unfold put_varint, enc_varint. case_match; [apply writes_nothing|].
  apply (writes_then _ _ _ [_]); [apply writes_uvarint, wrap64_range|apply writes_byte].
Qed.

Lemma writes_bool tag b : writes (put_bool tag b) (enc_bool tag b).
Proof. destruct b; [|apply writes_nothing]. apply (writes_then _ _ [_] [_]); apply writes_byte. Qed.

Section writes_codec.
Context {A : Type} (c : Codec A) (wf : A -> Prop) (enc : A -> bytes) (Hc : CodecLaws c wf enc).

(** The contents of a field are in place: what is left is the header. *)
Lemma write_contents (w : writer) tag v :
  (blen (enc v) < 2 ^ 63 -> ∀ before gap after, length gap = length (enc v) ->
   w (before ++ gap ++ after, blen (before ++ gap)) =
   (put_uvarint (blen (enc v)) ;> put_byte tag) (before ++ enc v ++ after, blen before)) ->
  writes w (enc_message enc tag v).
Proof.
  intros Hw. unfold enc_message. apply writes_bounded. intros Hs%enc_delimited_bound.
  rewrite enc_delimited_app. intros Hl before gap after Hg. rewrite length_app in Hg.
  destruct (split_length gap (length (to_byte tag :: uvarint (blen (enc v))))) as (g2 & g1 & -> & Hg2);
    [cbn [length] in *; lia|]. rewrite length_app in Hg.
  rewrite <-(app_assoc g2), (app_assoc before), (app_assoc before), Hw by lia.
  rewrite <-(app_assoc before g2), writes_header by (done || (blens; lia)). by rewrite <-app_assoc.
Qed.

Lemma writes_message tag v : wf v -> writes (put_message c tag v) (enc_message enc tag v).
Proof using Hc.
  intros Hv. apply write_contents. intros Hs before gap after Hg. unfold put_message.
  rewrite app_assoc. pose proof (slice_app [] (before ++ gap) after 0 (blen (before ++ gap))) as Hsl.
  cbn [app] in Hsl. rewrite Hsl by (done || (unfold blen; cbn; lia)). cbn [obind].
  rewrite (MarshalToSizedBuffer_law _ _ _ Hc) by done. cbn [obind].
  rewrite to_nat_blen, drop_app_length, <-app_assoc, blen_app, (proj1 (blen_length gap (enc v)) Hg).
  do 3 f_equal. lia.
Qed.

Lemma writes_pointer tag v : (∀ x, v = Some x -> wf x) -> writes (put_pointer c tag v) (enc_pointer enc tag v).
Proof using Hc. intros Hv. destruct v; cbn; [apply writes_message; auto|apply writes_nothing]. Qed.

Lemma slice_to_end (before rest : bytes) : slice (before ++ rest) (blen before) (blen (before ++ rest)) = Ok rest.
Proof.
  pose proof (slice_app before rest [] (blen before) (blen (before ++ rest))) as H.
  rewrite app_nil_r in H. apply H; [done|apply blen_app].
Qed.

Lemma writes_custom tag v : wf v -> writes (put_custom c tag v) (enc_message enc tag v).
Proof using Hc.
  intros Hv. apply write_contents. intros Hs before gap after Hg. unfold put_custom.
  rewrite (Size_law _ _ _ Hc), (blen_app before gap), (proj1 (blen_length gap (enc v)) Hg) by done.
  replace (blen before + blen (enc v) - blen (enc v)) with (blen before) by lia.
  rewrite slice_to_end. cbn [obind]. rewrite (MarshalTo_law _ _ _ Hc) by done. cbn [obind].
  by rewrite to_nat_blen, take_app_length.
Qed.

Lemma writes_std tag v : wf v -> writes (put_std c tag v) (enc_message enc tag v).
Proof using Hc.
  intros Hv. apply write_contents. intros Hs before gap after Hg. unfold put_std.
  rewrite (Size_law _ _ _ Hc), (blen_app before gap), (proj1 (blen_length gap (enc v)) Hg) by done.
  replace (blen before + blen (enc v) - blen (enc v)) with (blen before) by lia.
  rewrite slice_to_end. cbn [obind]. rewrite (MarshalTo_law _ _ _ Hc) by done. cbn [obind].
  rewrite to_nat_blen, take_app_length. do 2 f_equal. lia.
Qed.
End writes_codec.

Lemma writes_repeated {A} (put : A -> writer) enc l :
  (∀ x, x ∈ l -> writes (put x) (enc x)) -> writes (put_repeated put l) (enc_repeated enc l).
Proof.
  induction l as [|x l IH]; intros Hx; [apply writes_nothing|].
  apply writes_then; [apply IH; intros|]; apply Hx; set_solver.
Qed.

Lemma writes_strings tag l : writes (put_strings tag l) (enc_strings tag l).
Proof. apply writes_repeated. intros s _. apply writes_delimited. Qed.

Lemma writes_messages {A} (c : Codec A) wf enc tag l :
  CodecLaws c wf enc -> Forall wf l -> writes (put_messages c tag l) (enc_messages enc tag l).
Proof. rewrite Forall_forall. intros Hc Hl. apply writes_repeated. intros. eapply writes_message; eauto. Qed.

(** The buffer of packed integers has room for all of them. *)
Lemma varint_length n v : (length (varint n v) <= n)%nat.
Proof. revert v. induction n; intros v; cbn; [lia|]. case_match; cbn; [lia|]. specialize (IHn (v ≫ 7)). lia. Qed.

Lemma varint_nonempty v : (0 < length (uvarint v))%nat.
Proof. unfold uvarint. cbn [varint]. case_match; cbn; lia. Qed.

Lemma pack_spec values before gap :
  Forall is_uint64 values -> (length values * 10 <= length gap)%nat ->
  ∃ rest, pack values (before ++ gap) (blen before) =
    Ok (before ++ enc_repeated uvarint values ++ rest, blen (before ++ enc_repeated uvarint values)).
Proof.
  revert before gap. induction values as [|v values IH]; intros before gap Hv Hg; cbn [pack].
  { exists gap. cbn. by rewrite app_nil_r. }
  apply Forall_cons_1 in Hv as [Hv Hvs]. cbn [length] in Hg.
  pose proof (varint_length 10 v) as Hl. change (varint 10 v) with (uvarint v) in Hl.
  destruct (split_length gap (length (uvarint v))) as (g1 & g2 & -> & Hg1); [lia|]. rewrite length_app in Hg.
  rewrite encode_loop_spec; [|unfold is_uint64 in Hv; change (7 * Z.of_nat 10) with 70; lia|done|lia].
  cbn [obind]. change (varint 10 v) with (uvarint v). rewrite app_assoc.
  replace (blen before + blen (uvarint v) - 1 + 1) with (blen (before ++ uvarint v)) by (rewrite blen_app; lia).
  destruct (IH (before ++ uvarint v) g2) as [rest Hr]; [done|lia|]. rewrite Hr. exists rest.
  change (enc_repeated uvarint (v :: values)) with (uvarint v ++ enc_repeated uvarint values).
  by rewrite <-!app_assoc.
Qed.

Lemma writes_packed tag values : Forall is_uint64 values -> writes (put_packed tag values) (enc_packed tag values).
Proof.
  intros Hv. unfold put_packed, enc_packed. destruct values as [|v values]; [apply writes_nothing|].
  intros Hl before gap after Hg.
  destruct (pack_spec (v :: values) [] (replicate (length (v :: values) * 10) (to_byte 0))) as [rest Hr];
    [done|by rewrite length_replicate|].
  change (blen []) with 0 in Hr. cbn [app] in Hr. rewrite Hr. cbn [obind].
  pose proof (slice_app [] (enc_repeated uvarint (v :: values)) rest 0 (blen (enc_repeated uvarint (v :: values)))) as Hs.
  cbn [app] in Hs. rewrite Hs by (done || (unfold blen; cbn; lia)). cbn [obind]. by apply writes_delimited.
Qed.

(** A message that writes an encoding, at the end and at the start of a buffer. *)
Lemma sized_buffer_spec w e before gap :
  writes w e -> blen e < 2 ^ 63 -> length gap = length e ->
  sized_buffer w (before ++ gap) = Ok (before ++ e, blen e).
Proof.
  intros Hw Hl Hg. unfold sized_buffer. pose proof (Hw Hl before gap [] Hg) as H.
  rewrite !app_nil_r in H. rewrite H. cbn [obind]. do 2 f_equal. rewrite blen_app. lia.
Qed.

(** ** Readers *)

Lemma sint64_blen s : blen s < 2 ^ 63 -> sint64 (blen s) = blen s.
Proof. intros. apply sint64_small. unfold is_int64. blens. lia. Qed.

Lemma post_index_spec (before s after : bytes) :
  blen (before ++ s ++ after) < 2 ^ 63 ->
  post_index (before ++ s ++ after) (blen before) (blen s) = Ok (blen (before ++ s)).
Proof.
  intros Hl. unfold post_index. blens. destruct (Z.ltb_spec (blen s) 0); [lia|]. cbn zeta.
  rewrite sint64_small by (unfold is_int64; lia). destruct (Z.ltb_spec (blen before + blen s) 0); [lia|].
  by destruct (Z.ltb_spec (blen before + (blen s + blen after)) (blen before + blen s)); [lia|].
Qed.

(** A length and the bytes it announces. *)
Lemma decode_length wrap (before s after : bytes) :
  width wrap -> wrap = wrap64 ∨ wrap = sint64 -> blen s < 2 ^ 63 ->
  decode_varint wrap (before ++ uvarint (blen s) ++ s ++ after) (blen before) =
  Ok (blen s, blen (before ++ uvarint (blen s))).
Proof.
  intros Hw Hor Hs. assert (is_uint64 (blen s)) as Hu by (unfold is_uint64; blens; lia).
  rewrite <-(wrap64_small _ Hu) at 1. rewrite decode_width by done. rewrite wrap64_small, blen_app by done.
  do 2 f_equal. destruct Hor as [->| ->]; [by apply wrap64_small|by apply sint64_blen].
Qed.

Lemma get_delimited_spec {A} wrap field (k : bytes -> outcome A) before s after :
  width wrap -> wrap = wrap64 ∨ wrap = sint64 -> blen (before ++ uvarint (blen s) ++ s ++ after) < 2 ^ 63 ->
  get_delimited wrap field 2 k (before ++ uvarint (blen s) ++ s ++ after) (blen before) =
  obind (k s) (fun v => Ok (v, blen (before ++ uvarint (blen s) ++ s))).
Proof.
  intros Hw Hor Hl. assert (blen s < 2 ^ 63) as Hs by (blens; lia).
  unfold get_delimited. cbn [Z.eqb negb Pos.eqb]. rewrite decode_length by done. cbn [obind].
  rewrite sint64_blen, app_assoc by done. rewrite post_index_spec by by rewrite <-app_assoc. cbn [obind].
  rewrite slice_app by (done || apply blen_app). cbn [obind]. by rewrite <-app_assoc.
Qed.

Section reads.
Context {A : Type} (message : string) (cases : A -> Z -> Z -> option (reader A)).
Context (other : A -> bytes -> Z -> outcome (A * Z)).

(** From the start of [e] the loop gets to its end, with the message changed. *)
Definition reads (e : bytes) (m m' : A) : Prop :=
  ∀ before after, blen (before ++ e ++ after) < 2 ^ 63 ->
  ∃ k, (k <= length e)%nat ∧ ∀ fuel,
    unmarshal_loop message cases other (before ++ e ++ after) (k + fuel) (blen before) m =
    unmarshal_loop message cases other (before ++ e ++ after) fuel (blen (before ++ e)) m'.

Lemma reads_nothing m : reads [] m m.
Proof. intros before after _. exists O. split; [done|]. intros fuel. by rewrite app_nil_r. Qed.

Lemma reads_app e1 e2 m m1 m2 : reads e1 m m1 -> reads e2 m1 m2 -> reads (e1 ++ e2) m m2.
Proof.
  intros H1 H2 before after Hl. rewrite <-(app_assoc e1) in *.
  destruct (H1 before (e2 ++ after) Hl) as (k1 & Hk1 & E1).
  destruct (H2 (before ++ e1) after) as (k2 & Hk2 & E2); [by rewrite <-app_assoc|].
  rewrite <-!app_assoc in E2. exists (k1 + k2)%nat. split; [rewrite length_app; lia|].
  intros fuel. by rewrite <-Nat.add_assoc, E1, E2.
Qed.

(** One round: the tag [t] chooses the case. *)
Lemma reads_field t e m m' r :
  0 < t < 128 -> Z.land t 7 ≠ 4 -> 0 < Z.shiftr t 3 ->
  cases m (Z.shiftr t 3) (Z.land t 7) = Some r ->
  (∀ before after, blen (before ++ e ++ after) < 2 ^ 63 ->
   r (before ++ e ++ after) (blen before) = Ok (m', blen (before ++ e))) ->
  reads (to_byte t :: e) m m'.
Proof.
  intros Ht Hwt Hnum Hcase Hr before after Hl. exists 1%nat. split; [cbn; lia|]. intros fuel. cbn [plus unmarshal_loop].
  destruct (Z.ltb_spec (blen before) (blen (before ++ (to_byte t :: e) ++ after))) as [_|Hc]; [|blens; lia].
  assert (uvarint t = [to_byte t]) as Hu by (unfold uvarint; cbn [varint]; destruct (Z.ltb_spec t 128); [done|lia]).
  change ((to_byte t :: e) ++ after) with ([to_byte t] ++ (e ++ after)). rewrite <-Hu.
  rewrite decode_varint_spec by (unfold is_uint64; lia). rewrite Hu. cbn [obind].
  assert (sint32 (Z.shiftr t 3) = Z.shiftr t 3) as ->.
  { apply (signed_id 32); [lia|]. rewrite Z.shiftr_div_pow2 in * by lia.
    assert (t / 2 ^ 3 < 128) by (apply Z.div_lt_upper_bound; lia). cbn in *. lia. }
  destruct (Z.eqb_spec (Z.land t 7) 4); [done|]. destruct (Z.leb_spec (Z.shiftr t 3) 0); [lia|].
  rewrite Hcase, app_assoc, <-blen_app, Hr by by rewrite <-app_assoc. cbn [obind]. by rewrite <-(app_assoc before [_] e).
Qed.

(** At the end of the input the loop returns the message. *)
Lemma reads_unmarshal e m m' :
  reads e m m' -> blen e < 2 ^ 63 -> unmarshal_with message cases other e m = Ok m'.
Proof.
  intros Hr Hl. unfold unmarshal_with. destruct (Hr [] []) as (k & Hk & E); [by rewrite app_nil_r|].
  rewrite app_nil_r in E. cbn [app] in E. change (blen []) with 0 in E.
  replace (S (length e)) with (k + S (length e - k))%nat by lia. rewrite E. cbn.
  rewrite Z.ltb_irrefl. done.
Qed.

(** *** The kinds of fields

    [set v] is the message with the field changed to [v]; the field is at its
    zero value when it is read. *)

Lemma reads_delimited t wrap field k s m v :
  width wrap -> wrap = wrap64 ∨ wrap = sint64 ->
  0 < t < 128 -> Z.land t 7 = 2 -> 0 < Z.shiftr t 3 ->
  cases m (Z.shiftr t 3) 2 = Some (get_delimited wrap field 2 k) -> (blen s < 2 ^ 63 -> k s = Ok v) ->
  reads (enc_delimited t s) m v.
Proof.
  intros Hw Hor Ht Hwt Hn Hc Hk. eapply reads_field; [done|by rewrite Hwt|done|by rewrite Hwt|].
  intros before after Hl. rewrite <-app_assoc in *. rewrite get_delimited_spec by done.
  rewrite Hk by (blens; lia). cbn. by rewrite <-?app_assoc.
Qed.

Lemma reads_string t field s m set :
  0 < t < 128 -> Z.land t 7 = 2 -> 0 < Z.shiftr t 3 ->
  cases m (Z.shiftr t 3) 2 = Some (get_string field 2 set) -> m = set "" ->
  reads (enc_string t s) m (set s).
Proof.
  intros Ht Hw Hn Hc Hm. unfold enc_string. destruct (String.eqb_spec s "") as [->|].
  - rewrite <-Hm. apply reads_nothing.
  - eapply reads_delimited; [..|exact Hc|]; [auto with wire|auto|done|done|done|]. intros _. cbv beta. by rewrite to_of_string.
Qed.

Lemma reads_bytes t field s m set :
  0 < t < 128 -> Z.land t 7 = 2 -> 0 < Z.shiftr t 3 ->
  cases m (Z.shiftr t 3) 2 = Some (get_bytes field 2 set) -> m = set "" ->
  reads (enc_string t s) m (set s).
Proof.
  intros Ht Hw Hn Hc Hm. unfold enc_string. destruct (String.eqb_spec s "") as [->|].
  - rewrite <-Hm. apply reads_nothing.
  - eapply reads_delimited; [..|exact Hc|]; [auto with wire|auto|done|done|done|]. intros _. cbv beta. by rewrite to_of_string.
Qed.

Lemma reads_strings_from t field l old set :
  0 < t < 128 -> Z.land t 7 = 2 -> 0 < Z.shiftr t 3 ->
  (∀ old, cases (set old) (Z.shiftr t 3) 2 = Some (get_strings field 2 old set)) ->
  reads (enc_strings t l) (set old) (set (old ++ l)).
Proof.
  intros Ht Hw Hn Hc. revert old. induction l as [|s l IH]; intros old.
  { rewrite app_nil_r. apply reads_nothing. }
  change (enc_strings t (s :: l)) with (enc_delimited t (of_string s) ++ enc_strings t l).
  apply (reads_app _ _ _ (set (old ++ [s]))).
  - eapply reads_delimited; [..|exact (Hc old)|]; [auto with wire|auto|done|done|done|].
    intros _. cbv beta. by rewrite to_of_string.
  - replace (old ++ s :: l) with ((old ++ [s]) ++ l) by by rewrite <-app_assoc. apply IH.
Qed.

Lemma reads_strings t field l m set :
  0 < t < 128 -> Z.land t 7 = 2 -> 0 < Z.shiftr t 3 ->
  cases m (Z.shiftr t 3) 2 = Some (get_strings field 2 [] set) -> m = set [] ->
  (∀ old, cases (set old) (Z.shiftr t 3) 2 = Some (get_strings field 2 old set)) ->
  reads (enc_strings t l) m (set l).
Proof. intros ? ? ? _ -> Hc. by apply (reads_strings_from t field l []). Qed.

Lemma reads_varint t wrap field v m set :
  width wrap -> wrap v = v -> 0 < t < 128 -> Z.land t 7 = 0 -> 0 < Z.shiftr t 3 ->
  cases m (Z.shiftr t 3) 0 = Some (get_varint wrap field 0 set) -> m = set 0 ->
  reads (enc_varint t v) m (set v).
Proof.
  intros Hwd Hv Ht Hw Hn Hc Hm. unfold enc_varint. destruct (Z.eqb_spec v 0) as [->|].
  - rewrite <-Hm. apply reads_nothing.
  - eapply reads_field; [done|by rewrite Hw|done|by rewrite Hw|]. intros before after Hl.
    unfold get_varint. cbn [Z.eqb negb]. rewrite decode_width by done. cbn. by rewrite Hv, blen_app.
Qed.

Lemma reads_bool t field b m set :
  0 < t < 128 -> Z.land t 7 = 0 -> 0 < Z.shiftr t 3 ->
  cases m (Z.shiftr t 3) 0 = Some (get_bool field 0 set) -> m = set false ->
  reads (enc_bool t b) m (set b).
Proof.
  intros Ht Hw Hn Hc Hm. destruct b.
  - change (enc_bool t true) with (enc_varint t 1).
    apply (reads_varint t sint64 field 1 m (fun v => set (negb (v =? 0)))); auto with wire.
  - rewrite <-Hm. apply reads_nothing.
Qed.

Section codec.
Context {B : Type} (c : Codec B) (wf : B -> Prop) (enc : B -> bytes) (Hlaws : CodecLaws c wf enc).

Lemma reads_message t field v m set :
  wf v -> 0 < t < 128 -> Z.land t 7 = 2 -> 0 < Z.shiftr t 3 ->
  cases m (Z.shiftr t 3) 2 = Some (get_message c field 2 (zero c) set) ->
  reads (enc_message enc t v) m (set v).
Proof using Hlaws.
  intros Hv Ht Hw Hn Hc. eapply reads_delimited; [..|exact Hc|]; [auto with wire|auto|done|done|done|].
  intros Hl. cbn. by rewrite (Unmarshal_law _ _ _ Hlaws).
Qed.

Lemma reads_custom t field v m set :
  wf v -> 0 < t < 128 -> Z.land t 7 = 2 -> 0 < Z.shiftr t 3 ->
  cases m (Z.shiftr t 3) 2 = Some (get_custom c field 2 (zero c) set) ->
  reads (enc_message enc t v) m (set v).
Proof using Hlaws.
  intros Hv Ht Hw Hn Hc. eapply reads_delimited; [..|exact Hc|]; [auto with wire|auto|done|done|done|].
  intros Hl. cbn. by rewrite (Unmarshal_law _ _ _ Hlaws).
Qed.

Lemma reads_pointer t field v m set :
  (∀ x, v = Some x -> wf x) -> 0 < t < 128 -> Z.land t 7 = 2 -> 0 < Z.shiftr t 3 ->
  cases m (Z.shiftr t 3) 2 = Some (get_pointer c field 2 None set) -> m = set None ->
  reads (enc_pointer enc t v) m (set v).
Proof using Hlaws.
  intros Hv Ht Hw Hn Hc Hm. destruct v as [v|]; cbn; [|rewrite <-Hm; apply reads_nothing].
  by apply (reads_message t field v m (fun v => set (Some v))); auto.
Qed.

Lemma reads_elements_from t field l old set :
  Forall wf l -> 0 < t < 128 -> Z.land t 7 = 2 -> 0 < Z.shiftr t 3 ->
  (∀ old, cases (set old) (Z.shiftr t 3) 2 = Some (get_element c field 2 old set)) ->
  reads (enc_messages enc t l) (set old) (set (old ++ l)).
Proof using Hlaws.
  intros Hf Ht Hw Hn Hc. revert old. induction Hf as [|v l Hv Hf IH]; intros old.
  { rewrite app_nil_r. apply reads_nothing. }
  change (enc_messages enc t (v :: l)) with (enc_message enc t v ++ enc_messages enc t l). eapply reads_app.
  - apply (reads_message t field v _ (fun v => set (old ++ [v]))); auto.
  - cbn. replace (old ++ v :: l) with ((old ++ [v]) ++ l) by by rewrite <-app_assoc. apply IH.
Qed.

Lemma reads_elements t field l m set :
  Forall wf l -> 0 < t < 128 -> Z.land t 7 = 2 -> 0 < Z.shiftr t 3 ->
  cases m (Z.shiftr t 3) 2 = Some (get_element c field 2 [] set) -> m = set [] ->
  (∀ old, cases (set old) (Z.shiftr t 3) 2 = Some (get_element c field 2 old set)) ->
  reads (enc_messages enc t l) m (set l).
Proof using Hlaws. intros ? ? ? ? _ -> Hc. by apply (reads_elements_from t field l []). Qed.
End codec.

(** Packed integers are read up to the end of their bytes. *)
Lemma unpack_spec values fuel before after old :
  Forall is_uint64 values -> (length (enc_repeated uvarint values) < fuel)%nat ->
  unpack fuel (before ++ enc_repeated uvarint values ++ after) (blen before) (blen (before ++ enc_repeated uvarint values)) old =
  Ok (old ++ values, blen (before ++ enc_repeated uvarint values)).
Proof.
  intros Hv. revert fuel before old. induction Hv as [|v values Hv Hvs IH]; intros fuel before old Hf; (destruct fuel as [|fuel]; [lia|]); cbn [unpack].
  { cbn. rewrite !app_nil_r. by rewrite Z.ltb_irrefl. }
  change (enc_repeated uvarint (v :: values)) with (uvarint v ++ enc_repeated uvarint values) in *.
  pose proof (varint_nonempty v). rewrite length_app in Hf.
  destruct (Z.ltb_spec (blen before) (blen (before ++ uvarint v ++ enc_repeated uvarint values))) as [_|Hc];
    [|unfold blen in Hc; rewrite !length_app in Hc; lia].
  rewrite <-(app_assoc (uvarint v)), decode_varint_spec by done. cbn [obind].
  rewrite <-blen_app, (app_assoc before), (app_assoc before (uvarint v)), IH by lia. by rewrite <-app_assoc.
Qed.

Lemma reads_packed t field values m set :
  Forall is_uint64 values -> 0 < t < 128 -> Z.land t 7 = 2 -> 0 < Z.shiftr t 3 ->
  cases m (Z.shiftr t 3) 2 = Some (get_packed field 2 [] set) -> m = set [] ->
  reads (enc_packed t values) m (set values).
Proof.
  intros Hv Ht Hw Hn Hc Hm. unfold enc_packed. destruct values as [|v values].
  { rewrite <-Hm. apply reads_nothing. }
  set (l := v :: values) in *. eapply reads_field; [done|by rewrite Hw|done|by rewrite Hw|].
  intros before after Hl. unfold get_packed. cbn [Z.eqb Pos.eqb]. rewrite <-app_assoc in *.
  rewrite decode_length by (auto with wire; blens; lia). cbn [obind].
  rewrite app_assoc, post_index_spec by by rewrite <-app_assoc. cbn [obind].
  rewrite unpack_spec; [|done|rewrite !length_app; lia]. cbn. by rewrite <-app_assoc.
Qed.

End reads.

(** ** Arbitrary input *)

(** On every input that fits in memory, a case ends in an error or in a message
    that satisfies [Q] and an index between the old one and the end. *)
Definition reader_ok {A} (Q : A -> Prop) (r : reader A) : Prop :=
  ∀ dAtA i, blen dAtA < 2 ^ 63 -> 0 <= i <= blen dAtA ->
  safe (fun '(m, i') => Q m ∧ i <= i' <= blen dAtA) (r dAtA i).

Lemma post_index_safe dAtA i n :
  blen dAtA < 2 ^ 63 -> 0 <= i <= blen dAtA -> is_int64 n ->
  safe (fun p => i <= p <= blen dAtA) (post_index dAtA i n).
Proof.
  unfold is_int64. intros Hl Hi Hn. unfold post_index. destruct (Z.ltb_spec n 0); [done|]. cbn zeta.
  destruct (Z.ltb_spec (sint64 (i + n)) 0); [done|]. destruct (Z.ltb_spec (blen dAtA) (sint64 (i + n))); [done|]. cbn.
  destruct (sint64_sum i n); lia.
Qed.

Lemma reader_ok_delimited {A} (Q : A -> Prop) wrap field wireType k :
  width wrap -> (∀ part, blen part < 2 ^ 63 -> safe Q (k part)) -> reader_ok Q (get_delimited wrap field wireType k).
Proof.
  intros Hw Hk dAtA i Hl Hi. unfold get_delimited. case_match; [done|].
  eapply safe_bind; [apply decode_varint_safe; [done|lia]|]. intros [n i1] [_ Hi1].
  eapply safe_bind; [apply post_index_safe; [done|lia|apply sint64_range]|]. intros p Hp. cbn beta in Hp.
  eapply safe_bind; [apply slice_safe; lia|]. intros part Hpart. cbn beta in Hpart.
  eapply safe_bind; [apply Hk; lia|]. intros v Hv. cbn. split; [done|lia].
Qed.

Lemma reader_ok_string {A} (Q : A -> Prop) field wt set : (∀ s, Q (set s)) -> reader_ok Q (get_string field wt set).
Proof. intros HQ. apply reader_ok_delimited; [auto with wire|]. intros. apply HQ. Qed.

Lemma reader_ok_strings {A} (Q : A -> Prop) field wt old set :
  (∀ l, Q (set l)) -> reader_ok Q (get_strings field wt old set).
Proof. intros HQ. apply reader_ok_string. auto. Qed.

Lemma reader_ok_bytes {A} (Q : A -> Prop) field wt set : (∀ s, Q (set s)) -> reader_ok Q (get_bytes field wt set).
Proof. intros HQ. apply reader_ok_delimited; [auto with wire|]. intros. apply HQ. Qed.

Lemma reader_ok_varint {A} (Q : A -> Prop) wrap field wt set :
  width wrap -> (∀ v, wrap v = v -> Q (set v)) -> reader_ok Q (get_varint wrap field wt set).
Proof.
  intros Hw HQ dAtA i Hl Hi. unfold get_varint. case_match; [done|].
  eapply safe_bind; [apply decode_varint_safe; [done|lia]|]. intros [v i1] [Hv Hi1]. cbn. split; [auto|lia].
Qed.

Lemma reader_ok_uint64 {A} (Q : A -> Prop) field wt set :
  (∀ v, is_uint64 v -> Q (set v)) -> reader_ok Q (get_varint wrap64 field wt set).
Proof. intros HQ. apply reader_ok_varint; [auto with wire|]. intros v Hv. by apply HQ, is_uint64_wrap. Qed.

Lemma reader_ok_int64 {A} (Q : A -> Prop) field wt set :
  (∀ v, is_int64 v -> Q (set v)) -> reader_ok Q (get_varint sint64 field wt set).
Proof. intros HQ. apply reader_ok_varint; [auto with wire|]. intros v Hv. by apply HQ, is_int64_wrap. Qed.

Lemma reader_ok_bool {A} (Q : A -> Prop) field wt set : (∀ b, Q (set b)) -> reader_ok Q (get_bool field wt set).
Proof. intros HQ. apply reader_ok_varint; [auto with wire|]. auto. Qed.

Section reader_ok_codec.
Context {A B : Type} (Q : A -> Prop) (c : Codec B) (wf : B -> Prop) (enc : B -> bytes) (Hlaws : CodecLaws c wf enc).

Lemma reader_ok_message field wt old set :
  wf old -> (∀ v, wf v -> Q (set v)) -> reader_ok Q (get_message c field wt old set).
Proof using Hlaws.
  intros Ho HQ. apply reader_ok_delimited; [auto with wire|]. intros part Hp.
  eapply safe_bind; [by apply (Unmarshal_safe _ _ _ Hlaws)|]. auto.
Qed.

Lemma reader_ok_custom field wt old set :
  wf old -> (∀ v, wf v -> Q (set v)) -> reader_ok Q (get_custom c field wt old set).
Proof using Hlaws.
  intros Ho HQ. apply reader_ok_delimited; [auto with wire|]. intros part Hp.
  eapply safe_bind; [by apply (Unmarshal_safe _ _ _ Hlaws)|]. auto.
Qed.

Lemma reader_ok_pointer field wt old set :
  (∀ x, old = Some x -> wf x) -> (∀ v, wf v -> Q (set (Some v))) -> reader_ok Q (get_pointer c field wt old set).
Proof using Hlaws.
  intros Ho HQ. apply reader_ok_message; [|done]. destruct old; cbn; [auto|apply (zero_wf _ _ _ Hlaws)].
Qed.

Lemma reader_ok_element field wt old set :
  Forall wf old -> (∀ l, Forall wf l -> Q (set l)) -> reader_ok Q (get_element c field wt old set).
Proof using Hlaws.
  intros Ho HQ. apply reader_ok_message; [apply (zero_wf _ _ _ Hlaws)|]. intros v Hv.
  apply HQ, Forall_app_2; [done|by apply Forall_singleton].
Qed.
End reader_ok_codec.

Lemma unpack_safe fuel dAtA i p old :
  0 <= i <= blen dAtA -> p <= blen dAtA -> blen dAtA - i < Z.of_nat fuel -> (0 < fuel)%nat ->
  safe (fun '(l, i') => (Forall is_uint64 old -> Forall is_uint64 l) ∧ i <= i' <= blen dAtA) (unpack fuel dAtA i p old).
Proof.
  revert i old. induction fuel as [|fuel IH]; intros i old Hi Hp Hf Hpos; [lia|]. cbn [unpack].
  destruct (Z.ltb_spec i p); [|cbn; split; [done|lia]].
  eapply safe_bind; [apply decode_varint_safe; [auto with wire|lia]|]. intros [v i1] [Hv%is_uint64_wrap Hi1].
  eapply safe_mono; [apply IH; lia|]. intros [l i2] [Hl ?]. split; [|lia]. intros Ho.
  by apply Hl, Forall_app_2; [|apply Forall_singleton].
Qed.

Lemma get_packed_safe {A} (Q : A -> Prop) field wt old set :
  (∀ l, (Forall is_uint64 old -> Forall is_uint64 l) -> Q (set l)) -> reader_ok Q (get_packed field wt old set).
Proof.
  intros HQ dAtA i Hl Hi. unfold get_packed. case_match; [|case_match; [|done]].
  - eapply safe_bind; [apply decode_varint_safe; [auto with wire|lia]|]. intros [v i1] [Hv%is_uint64_wrap Hi1]. cbn.
    split; [|lia]. apply HQ. intros Ho. by apply Forall_app_2; [|apply Forall_singleton].
  - eapply safe_bind; [apply decode_varint_safe; [auto with wire|lia]|]. intros [n i1] [Hn%is_int64_wrap Hi1].
    eapply safe_bind; [apply post_index_safe; [done|lia|done]|]. intros p Hp. cbn beta in Hp.
    eapply safe_bind; [apply (unpack_safe _ _ _ p); [lia|lia|unfold blen; lia|lia]|].
    intros [l i2] [Hf Hi2]. cbn. split; [auto|lia].
Qed.

Lemma reader_ok_packed {A} (Q : A -> Prop) field wt old set :
  Forall is_uint64 old -> (∀ l, Forall is_uint64 l -> Q (set l)) -> reader_ok Q (get_packed field wt old set).
Proof. intros Ho HQ. apply get_packed_safe. auto. Qed.

Lemma skip_field_safe {A} (Q : A -> Prop) (m : A) dAtA i :
  blen dAtA < 2 ^ 63 -> 0 <= i <= blen dAtA -> Q m ->
  safe (fun '(m, i') => Q m ∧ i < i' <= blen dAtA) (skip_field m dAtA i).
Proof.
  intros Hl Hi HQ. unfold skip_field. eapply safe_bind; [apply slice_safe; lia|]. intros rest Hr. cbn beta in Hr.
  eapply safe_bind; [apply skip_safe; lia|]. intros n Hn. cbn beta in Hn. cbn zeta.
  destruct (Z.ltb_spec n 0); [done|]. destruct (Z.ltb_spec (sint64 (i + n)) 0); [done|]. cbn [orb].
  destruct (Z.ltb_spec (blen dAtA) (sint64 (i + n))); [done|]. cbn. split; [done|].
  destruct (sint64_sum i n); lia.
Qed.

(** ** Messages *)

(** Every case keeps the messages well formed. *)
Definition cases_ok {A} (Q : A -> Prop) (cases : A -> Z -> Z -> option (reader A)) : Prop :=
  ∀ m num wireType r, Q m -> cases m num wireType = Some r -> reader_ok Q r.

(** What is done with a field without a case ends in an error or behind it. *)
Definition other_ok {A} (Q : A -> Prop) (other : A -> bytes -> Z -> outcome (A * Z)) : Prop :=
  ∀ m dAtA i, blen dAtA < 2 ^ 63 -> 0 <= i <= blen dAtA -> Q m ->
  safe (fun '(m, i') => Q m ∧ i < i' <= blen dAtA) (other m dAtA i).

Lemma unmarshal_loop_safe {A} (Q : A -> Prop) message cases other dAtA fuel i (m : A) :
  cases_ok Q cases -> other_ok Q other ->
  blen dAtA < 2 ^ 63 -> 0 <= i <= blen dAtA -> blen dAtA - i < Z.of_nat fuel -> Q m ->
  safe Q (unmarshal_loop message cases other dAtA fuel i m).
Proof.
  intros Hc Ho Hl. revert i m. induction fuel as [|fuel IH]; intros i m Hi Hf HQ; [lia|]. cbn [unmarshal_loop].
  destruct (Z.ltb_spec i (blen dAtA)); [|case_match; done]. cbn zeta.
  eapply safe_bind; [apply decode_varint_safe; [auto with wire|lia]|]. intros [wire i1] [_ Hi1].
  case_match; [done|]. case_match; [done|].
  eapply (safe_bind (fun '(m, i') => Q m ∧ i < i' <= blen dAtA)).
  - destruct (cases m _ _) as [r|] eqn:E; [|apply Ho; [done|lia|done]].
    eapply safe_mono; [eapply (Hc _ _ _ _ HQ E); [done|lia]|]. intros [m' i2] [? ?]. split; [done|lia].
  - intros [m' i2] [HQ' Hi2]. apply IH; [lia|lia|done].
Qed.

Lemma unmarshal_safe {A} (Q : A -> Prop) message cases other dAtA (m : A) :
  cases_ok Q cases -> other_ok Q other -> blen dAtA < 2 ^ 63 -> Q m ->
  safe Q (unmarshal_with message cases other dAtA m).
Proof.
  intros. apply unmarshal_loop_safe; [done|done|done| |unfold blen; lia|done]. pose proof (blen_nonneg dAtA). lia.
Qed.

(** The laws of a generated message. *)
Lemma message_laws {A} (zero : A) size (w : A -> writer) message cases wf enc :
  wf zero ->
  (∀ m, wf m -> sizes (size m) (enc m)) ->
  (∀ m, wf m -> writes (w m) (enc m)) ->
  (∀ m, wf m -> reads message cases skip_field (enc m) zero m) ->
  cases_ok wf cases ->
  CodecLaws (message_codec zero size (fun m => sized_buffer (w m)) (unmarshal message cases)) wf enc.
Proof.
  intros Hz Hs Hw Hr Hc. split; cbn.
  - done.
  - intros a Ha Hl. by apply Hs.
  - intros a before gap Ha Hl Hg. apply sized_buffer_spec; auto.
  - intros a gap after Ha Hl Hg. unfold generated_MarshalTo. rewrite (Hs a Ha Hl).
    pose proof (slice_app [] gap after 0 (blen (enc a))) as Hsl. cbn [app] in Hsl.
    rewrite Hsl by (done || (unfold blen in *; cbn; lia)). cbn [obind].
    pose proof (sized_buffer_spec (w a) (enc a) [] gap (Hw a Ha) Hl Hg) as Hb. cbn [app] in Hb. rewrite Hb. cbn [obind].
    by rewrite to_nat_blen, <-Hg, drop_app_length.
  - intros a Ha Hl. by apply reads_unmarshal; auto.
  - intros dAtA a Hl Ha. apply unmarshal_safe; [done|intros ? ? ?; apply skip_field_safe|done|done].
Qed.

(** ** Unknown fields *)

(** A field with a number the message has no case for: an integer, or bytes
    with their length. *)
Inductive unknown_field : Type :=
| UnknownVarint (tag v : Z)
| UnknownBytes (tag : Z) (s : bytes).
Definition unknown_tag (f : unknown_field) : Z := match f with UnknownVarint t _ | UnknownBytes t _ => t end.
Definition enc_unknown (f : unknown_field) : bytes :=
  match f with
  | UnknownVarint tag v => to_byte tag :: uvarint v
  | UnknownBytes tag s => enc_delimited tag s
  end.
Definition unknown_ok (f : unknown_field) : Prop :=
  match f with
  | UnknownVarint tag v => 0 < tag < 128 ∧ Z.land tag 7 = 0 ∧ is_uint64 v
  | UnknownBytes tag _ => 0 < tag < 128 ∧ Z.land tag 7 = 2
  end.

Lemma uvarint_small t : 0 <= t < 128 -> uvarint t = [to_byte t].
Proof. intros Ht. unfold uvarint. cbn [varint]. by destruct (Z.ltb_spec t 128); [|lia]. Qed.

(** The first field of [rest] is skipped. *)
Lemma skip_unknown f after :
  unknown_ok f -> blen (enc_unknown f ++ after) < 2 ^ 63 -> skip (enc_unknown f ++ after) = Ok (blen (enc_unknown f)).
Proof.
  intros Hf Hl. unfold skip. cbn [skip_loop].
  assert (0 <= unknown_tag f < 128) as Ht by (destruct f; cbn in *; lia).
  assert (∃ body, enc_unknown f = to_byte (unknown_tag f) :: body) as [body Hb] by (destruct f; eexists; done).
  destruct (Z.ltb_spec 0 (blen (enc_unknown f ++ after))) as [_|Hc]; [|rewrite Hb in Hc; cbn [app] in Hc; blens; lia].
  assert (enc_unknown f ++ after = [] ++ uvarint (unknown_tag f) ++ (body ++ after)) as E
    by by rewrite uvarint_small, Hb.
  rewrite E at 1. change 0 with (blen []) at 1.
  rewrite decode_varint_spec by (unfold is_uint64; lia). cbn [obind]. change (blen []) with 0.
  rewrite uvarint_small by done. change (0 + blen [to_byte (unknown_tag f)]) with 1.
  assert (enc_unknown f ++ after = [to_byte (unknown_tag f)] ++ body ++ after) as E1 by by rewrite Hb.
  assert (skip_case (enc_unknown f ++ after) (Z.land (unknown_tag f) 7) 1 0 = Ok (blen (enc_unknown f), 0)) as ->.
  2: { cbn [obind]. rewrite Hb. blens. by destruct (Z.ltb_spec (1 + blen body) 0); [lia|]. }
  rewrite E1. change 1 with (blen [to_byte (unknown_tag f)]) at 1. destruct f as [tag v|tag s];
    cbn [unknown_ok] in Hf; cbn [enc_unknown unknown_tag] in Hb |- *; apply (f_equal tail) in Hb; cbn [tail enc_delimited] in Hb; subst body.
  - destruct Hf as (_ & -> & Hv). cbn [skip_case]. rewrite decode_varint_spec by done. cbn [obind].
    by rewrite (blen_cons _ (uvarint v)).
  - destruct Hf as (_ & ->). cbn [skip_case]. clear E E1. cbn [enc_unknown] in Hl. unfold enc_delimited in *.
    rewrite <-app_comm_cons, blen_cons, !blen_app in Hl. pose proof (blen_nonneg (uvarint (blen s))).
    pose proof (blen_nonneg after). pose proof (blen_nonneg s).
    rewrite <-(app_assoc (uvarint (blen s))), decode_length by (auto with wire; lia). cbn [obind].
    destruct (Z.ltb_spec (blen s) 0); [lia|]. rewrite blen_cons, !blen_app.
    change (blen [to_byte tag]) with 1.
    rewrite sint64_small; [do 2 f_equal; lia|]. unfold is_int64. lia.
Qed.

(** One round for a field without a case. *)
Lemma reads_other {A} message (cases : A -> Z -> Z -> option (reader A)) other f m m' :
  unknown_ok f -> 0 < Z.shiftr (unknown_tag f) 3 ->
  cases m (Z.shiftr (unknown_tag f) 3) (Z.land (unknown_tag f) 7) = None ->
  (∀ before after, blen (before ++ enc_unknown f ++ after) < 2 ^ 63 ->
   other m (before ++ enc_unknown f ++ after) (blen before) = Ok (m', blen (before ++ enc_unknown f))) ->
  reads message cases other (enc_unknown f) m m'.
Proof.
  intros Hf Hnum Hcase Ho before after Hl. exists 1%nat.
  assert (0 <= unknown_tag f < 128) as Ht by (destruct f; cbn in *; lia).
  assert (∃ body, enc_unknown f = to_byte (unknown_tag f) :: body) as [body Hb] by (destruct f; eexists; done).
  split; [rewrite Hb; cbn; lia|]. intros fuel. cbn [plus unmarshal_loop].
  destruct (Z.ltb_spec (blen before) (blen (before ++ enc_unknown f ++ after))) as [_|Hc];
    [|rewrite Hb, blen_app, blen_app, blen_cons in Hc; pose proof (blen_nonneg body); pose proof (blen_nonneg after); lia].
  assert (before ++ enc_unknown f ++ after = before ++ uvarint (unknown_tag f) ++ (body ++ after)) as E
    by by rewrite uvarint_small, Hb.
  rewrite E at 1. rewrite decode_varint_spec by (unfold is_uint64; lia). cbn [obind].
  assert (sint32 (Z.shiftr (unknown_tag f) 3) = Z.shiftr (unknown_tag f) 3) as ->.
  { apply (signed_id 32); [lia|]. rewrite Z.shiftr_div_pow2 in * by lia.
    assert (unknown_tag f / 2 ^ 3 < 128) by (apply Z.div_lt_upper_bound; lia). cbn in *. lia. }
  destruct (Z.eqb_spec (Z.land (unknown_tag f) 7) 4) as [E4|_].
  { destruct f; cbn in Hf, E4; rewrite E4 in Hf; lia. }
  destruct (Z.leb_spec (Z.shiftr (unknown_tag f) 3) 0); [lia|]. rewrite Hcase, Ho by done. done.
Qed.

(** The field is skipped: the index behind it passes the checks. *)
Lemma skip_field_spec {A} (m : A) f before after :
  unknown_ok f -> blen (before ++ enc_unknown f ++ after) < 2 ^ 63 ->
  skip_field m (before ++ enc_unknown f ++ after) (blen before) = Ok (m, blen (before ++ enc_unknown f)).
Proof.
  intros Hf Hl. unfold skip_field. rewrite slice_to_end. cbn [obind].
  rewrite !blen_app in Hl. pose proof (blen_nonneg before). pose proof (blen_nonneg (enc_unknown f)). pose proof (blen_nonneg after).
  rewrite skip_unknown by (done || (rewrite blen_app; lia)). cbn [obind].
  rewrite sint64_small by (unfold is_int64; lia).
  destruct (Z.ltb_spec (blen (enc_unknown f)) 0); [lia|]. destruct (Z.ltb_spec (blen before + blen (enc_unknown f)) 0); [lia|].
  destruct (Z.ltb_spec (blen (before ++ enc_unknown f ++ after)) (blen before + blen (enc_unknown f))) as [Hc|_];
    [rewrite !blen_app in Hc; lia|]. cbn. by rewrite blen_app.
Qed.

Lemma reads_unknown {A} message (cases : A -> Z -> Z -> option (reader A)) f m :
  unknown_ok f -> 0 < Z.shiftr (unknown_tag f) 3 ->
  cases m (Z.shiftr (unknown_tag f) 3) (Z.land (unknown_tag f) 7) = None ->
  reads message cases skip_field (enc_unknown f) m m.
Proof. intros Hf Hnum Hcase. apply reads_other; [done..|]. intros. by apply skip_field_spec. Qed.

(** ** Automation: the laws of a message, field by field

    The laws of the messages in a message are in the hint database
    [wire_laws]; that their values are well formed is in the context. *)

Arguments enc_string : simpl never.
Arguments enc_bytes : simpl never.
Arguments enc_bool : simpl never.
Arguments enc_varint : simpl never.
Arguments enc_strings : simpl never.
Arguments enc_packed : simpl never.
Arguments enc_message : simpl never.
Arguments enc_custom : simpl never.
Arguments enc_pointer : simpl never.
Arguments enc_messages : simpl never.

Create HintDb wire_laws discriminated.
#[export] Hint Constants Opaque : wire_laws.

Lemma writes_eq w e e' : writes w e' -> e = e' -> writes w e.
Proof. by intros ? ->. Qed.
Lemma reads_eq {A} message cases other e (m m1 m2 : A) :
  reads message cases other e m m1 -> m1 = m2 -> reads message cases other e m m2.
Proof. by intros ? ->. Qed.

Ltac wire_law := solve [eauto 2 with wire_laws].
Ltac wire_wf := solve [assumption | cbv beta; auto].

Ltac wire_size :=
  lazymatch goal with
  | |- sizes (size_string _) (enc_string _ _) => apply sizes_string
  | |- sizes (size_string ?s) (enc_bytes ?t ?s) => exact (sizes_string t s)
  | |- sizes (size_varint _) _ => apply sizes_varint
  | |- sizes (size_bool _) _ => apply sizes_bool
  | |- sizes (size_strings _) _ => apply sizes_strings
  | |- sizes (size_packed _) _ => apply sizes_packed; wire_wf
  | |- sizes (size_message _ _) (enc_message _ _ _) => eapply sizes_message; [wire_law|wire_wf]
  | |- sizes (size_message _ _) (enc_custom ?enc ?t ?v) =>
      change (enc_custom enc t v) with (enc_message enc t v); eapply sizes_message; [wire_law|wire_wf]
  | |- sizes (size_pointer _ _) _ => eapply sizes_pointer; [wire_law|wire_wf]
  | |- sizes (size_messages _ _) _ => eapply sizes_messages; [wire_law|wire_wf]
  end.
Ltac wire_sizes := rewrite <-?Z.add_assoc; repeat (apply sizes_app; [wire_size|]); wire_size.

Ltac wire_write :=
  lazymatch goal with
  | |- writes (put_string _ _) _ => apply writes_string
  | |- writes (put_varint _ _) _ => apply writes_varint
  | |- writes (put_bool _ _) _ => apply writes_bool
  | |- writes (put_strings _ _) _ => apply writes_strings
  | |- writes (put_packed _ _) _ => apply writes_packed; wire_wf
  | |- writes (put_message _ _ _) _ => eapply writes_message; [wire_law|wire_wf]
  | |- writes (put_custom _ _ _) _ => eapply writes_custom; [wire_law|wire_wf]
  | |- writes (put_std _ _ _) _ => eapply writes_std; [wire_law|wire_wf]
  | |- writes (put_pointer _ _ _) _ => eapply writes_pointer; [wire_law|wire_wf]
  | |- writes (put_messages _ _ _) _ => eapply writes_messages; [wire_law|wire_wf]
  end.
Ltac wire_writes :=
  eapply writes_eq; [repeat (eapply writes_then; [wire_write|]); wire_write|rewrite <-?app_assoc; reflexivity].

(** The number and the wire type of a tag are computed; the case of the number
    says which kind of field it is. *)
Ltac wire_tag := split; reflexivity.
Ltac wire_field :=
  lazymatch goal with
  | |- reads _ _ _ (enc_string _ _) _ _ =>
      eapply reads_string; [wire_tag|reflexivity|reflexivity|reflexivity|reflexivity]
  | |- reads _ _ _ (enc_bytes _ _) _ _ =>
      eapply reads_bytes; [wire_tag|reflexivity|reflexivity|reflexivity|reflexivity]
  | |- reads _ _ _ (enc_bool _ _) _ _ => eapply reads_bool; [wire_tag|reflexivity|reflexivity|reflexivity|reflexivity]
  | |- reads _ _ _ (enc_varint _ _) _ _ =>
      eapply reads_varint; [..|reflexivity|reflexivity];
      [auto with wire|by first [reflexivity|apply is_uint64_wrap|apply is_int64_wrap]|wire_tag|reflexivity|reflexivity]
  | |- reads _ _ _ (enc_strings _ _) _ _ =>
      eapply reads_strings; [wire_tag|reflexivity|reflexivity|reflexivity|reflexivity|intros; reflexivity]
  | |- reads _ _ _ (enc_packed _ _) _ _ =>
      eapply reads_packed; [wire_wf|wire_tag|reflexivity|reflexivity|reflexivity|reflexivity]
  | |- reads _ _ _ (enc_message _ _ _) _ _ =>
      eapply reads_message; [wire_law|wire_wf|wire_tag|reflexivity|reflexivity|reflexivity]
  | |- reads _ _ _ (enc_custom _ _ _) _ _ =>
      eapply reads_custom; [wire_law|wire_wf|wire_tag|reflexivity|reflexivity|reflexivity]
  | |- reads _ _ _ (enc_pointer _ _ _) _ _ =>
      eapply reads_pointer; [wire_law|wire_wf|wire_tag|reflexivity|reflexivity|reflexivity|reflexivity]
  | |- reads _ _ _ (enc_messages _ _ _) _ _ =>
      eapply reads_elements;
      [wire_law|wire_wf|wire_tag|reflexivity|reflexivity|reflexivity|reflexivity|intros; reflexivity]
  end.
Ltac wire_reads := repeat (eapply reads_app; [wire_field|]); eapply reads_eq; [wire_field|reflexivity].

Ltac wire_case :=
  match goal with
  | |- reader_ok _ (get_string _ _ _) => apply reader_ok_string
  | |- reader_ok _ (get_strings _ _ _ _) => apply reader_ok_strings
  | |- reader_ok _ (get_bytes _ _ _) => apply reader_ok_bytes
  | |- reader_ok _ (get_bool _ _ _) => apply reader_ok_bool
  | |- reader_ok _ (get_varint wrap64 _ _ _) => apply reader_ok_uint64
  | |- reader_ok _ (get_varint sint64 _ _ _) => apply reader_ok_int64
  | |- reader_ok _ (get_varint _ _ _ _) => apply reader_ok_varint; [auto with wire|]
  | |- reader_ok _ (get_message _ _ _ _ _) => eapply reader_ok_message; [wire_law|wire_wf|]
  | |- reader_ok _ (get_custom _ _ _ _ _) => eapply reader_ok_custom; [wire_law|wire_wf|]
  | |- reader_ok _ (get_pointer _ _ _ _ _) => eapply reader_ok_pointer; [wire_law|wire_wf|]
  | |- reader_ok _ (get_element _ _ _ _ _) => eapply reader_ok_element; [wire_law|wire_wf|]
  | |- reader_ok _ (get_packed _ _ _ _) => apply reader_ok_packed; [wire_wf|]
  end.
(** [E : cases m num wireType = Some r], with the cases unfolded. *)
Ltac wire_cases E :=
  repeat case_match; try discriminate E; injection E as <-; wire_case; intros; cbn in *; split_and?; first [assumption | intros; simplify_eq; auto].

Ltac wire_split := repeat match goal with H : _ ∧ _ |- _ => destruct H end.
Ltac wire_zero :=
  cbn -[zero]; split_and?;
  first [ done | unfold is_uint64, is_int64; lia | eapply zero_wf; wire_law | by constructor ].

(** The laws of a message from its well-formedness, encoding, size and cases. *)
Ltac wire_laws wf enc size cases :=
  apply message_laws;
  [ unfold wf; wire_zero
  | let m := fresh "m" in let Hm := fresh "Hm" in
    intros m Hm; unfold wf in Hm; wire_split; unfold size, enc; wire_sizes
  | let m := fresh "m" in let Hm := fresh "Hm" in
    intros m Hm; unfold wf in Hm; wire_split; unfold enc; wire_writes
  | let Hm := fresh "Hm" in
    intros [] Hm; unfold wf in Hm; cbn in Hm; wire_split; unfold enc; cbn; wire_reads
  | let num := fresh "num" in let wireType := fresh "wireType" in let r := fresh "r" in
    let Hm := fresh "Hm" in let E := fresh "E" in
    intros [] num wireType r Hm E; unfold wf in Hm |- *; cbn in Hm; wire_split; unfold cases in E; wire_cases E ].
