(* ===== verification/WireSdk.v ===== *)
(** * The wire format of the types of other packages

    Messages contain integers ([sdkmath.Int]) and decimals
    ([sdkmath.LegacyDec]), coins, times and durations, page requests and
    metadata of coins.  Their encodings belong to the SDK and to gogoproto; the generated code calls them through
    [SdkCodecs], and the theorems rely on [SdkCodecLaws].  A custom field that
    is missing from the input is left at the zero value of its type (a nil
    integer in Go).

    [ref_codecs] is an executable instance, for the witnesses: integers as
    decimal text, as [sdkmath.Int] encodes them, and coins as messages. *)

From Stdlib Require Import Ascii.
From stdpp Require Import base strings list.
From S2P Require Import Prelude Golang Sdk Erc20Types Wire WireFacts WireCodec.

#[local] Open Scope Z_scope.
#[local] Open Scope go_scope.

(** [query.PageRequest] and [query.PageResponse]; a [DecCoin] is a denomination
    and a decimal. *)
Record PageRequest := mkPageRequest {
  Page_Key : string;
  Page_Offset : Z;
  Page_Limit : Z;
  Page_CountTotal : bool;
  Page_Reverse : bool
}.
Record PageResponse := mkPageResponse { NextKey : string; Total : Z }.
Abbreviation DecCoin := (string * Z)%type.

Class SdkCodecs := {
  Int_codec : Codec Z;
  Dec_codec : Codec Z;
  Coin_codec : Codec Coin;
  Time_codec : Codec Z;
  Duration_codec : Codec Z;
  DecCoin_codec : Codec DecCoin;
  PageRequest_codec : Codec PageRequest;
  PageResponse_codec : Codec PageResponse;
  Metadata_codec : Codec Metadata
}.

Class SdkCodecLaws (SC : SdkCodecs) := {
  Int_wf : Z -> Prop;
  Dec_wf : Z -> Prop;
  Coin_wf : Coin -> Prop;
  Time_wf : Z -> Prop;
  Duration_wf : Z -> Prop;
  DecCoin_wf : DecCoin -> Prop;
  PageRequest_wf : PageRequest -> Prop;
  PageResponse_wf : PageResponse -> Prop;
  Metadata_wf : Metadata -> Prop;
  Int_enc : Z -> bytes;
  Dec_enc : Z -> bytes;
  Coin_enc : Coin -> bytes;
  Time_enc : Z -> bytes;
  Duration_enc : Z -> bytes;
  DecCoin_enc : DecCoin -> bytes;
  PageRequest_enc : PageRequest -> bytes;
  PageResponse_enc : PageResponse -> bytes;
  Metadata_enc : Metadata -> bytes;
  Int_laws : CodecLaws Int_codec Int_wf Int_enc;
  Dec_laws : CodecLaws Dec_codec Dec_wf Dec_enc;
  Coin_laws : CodecLaws Coin_codec Coin_wf Coin_enc;
  Time_laws : CodecLaws Time_codec Time_wf Time_enc;
  Duration_laws : CodecLaws Duration_codec Duration_wf Duration_enc;
  DecCoin_laws : CodecLaws DecCoin_codec DecCoin_wf DecCoin_enc;
  PageRequest_laws : CodecLaws PageRequest_codec PageRequest_wf PageRequest_enc;
  PageResponse_laws : CodecLaws PageResponse_codec PageResponse_wf PageResponse_enc;
  Metadata_laws : CodecLaws Metadata_codec Metadata_wf Metadata_enc
}.
#[export] Hint Resolve Int_laws Dec_laws Coin_laws Time_laws Duration_laws : wire_laws.
#[export] Hint Resolve DecCoin_laws PageRequest_laws PageResponse_laws Metadata_laws : wire_laws.

(** ** An executable instance *)

Definition text (z : Z) : bytes := of_string (Decimal z).
Definition text_codec : Codec Z :=
  mkCodec 0 (fun z => blen (text z))
    (fun z dAtA => let? dAtA := copy_at dAtA (blen dAtA - blen (text z)) (text z) in Ok (dAtA, blen (text z)))
    (fun z dAtA => let? dAtA := copy_at dAtA 0 (text z) in Ok (dAtA, blen (text z)))
    (fun dAtA _ => match parse_digits (to_string dAtA) 0 with
                   | Some z => Ok z
                   | None => Err (Foreign "math.Int.Unmarshal")
                   end).

Lemma parse_digits_nonneg s acc z : 0 <= acc -> parse_digits s acc = Some z -> 0 <= z.
Proof.
  revert acc. induction s as [|a s IH]; intros acc Ha; cbn; [by intros [= <-]|].
  destruct (digit_of a) as [d|] eqn:E; [|done]. apply IH. unfold digit_of in E. case_match; simplify_eq. breflect. lia.
Qed.

Lemma text_laws : CodecLaws text_codec (fun z => 0 <= z) text.
Proof.
  split; cbn.
  - lia.
  - done.
  - intros a before gap _ _ Hg. pose proof (copy_app before gap [] (text a) Hg) as Hc. rewrite !app_nil_r in Hc.
    replace (blen (before ++ gap) - blen (text a)) with (blen before).
    + rewrite Hc. done.
    + apply blen_length in Hg. rewrite blen_app. lia.
  - intros a gap after _ _ Hg. pose proof (copy_app [] gap after (text a) Hg) as Hc. cbn in Hc.
    change (blen []) with 0 in Hc. by rewrite Hc.
  - intros a Ha _. unfold text. by rewrite to_of_string, Decimal_parse.
  - intros dAtA a _ _. destruct (parse_digits _ _) eqn:E; cbn; [|done]. by apply parse_digits_nonneg in E.
Qed.

Definition ref_coin_cases (m : Coin) (fieldNum wireType : Z) : option (reader Coin) :=
  let '(mkCoin denom amount) := m in
  match fieldNum with
  | 1 => Some (get_string "Denom" wireType (fun v => mkCoin v amount))
  | 2 => Some (get_custom text_codec "Amount" wireType amount (fun v => mkCoin denom v))
  | _ => None
  end.
Definition ref_coin_codec : Codec Coin :=
  message_codec (mkCoin "" 0) (fun m => size_string (Denom m) + size_message text_codec (Amount m))
    (fun m => sized_buffer (put_custom text_codec 0x12 (Amount m) ;> put_string 0xa (Denom m)))
    (unmarshal "Coin" ref_coin_cases).
Definition ref_coin_enc (m : Coin) : bytes := enc_string 0xa (Denom m) ++ enc_custom text 0x12 (Amount m).

#[local] Hint Resolve text_laws : wire_laws.

Lemma ref_coin_laws : CodecLaws ref_coin_codec (fun m => 0 <= Amount m) ref_coin_enc.
Proof.
  apply (message_laws _ _ (fun m => put_custom text_codec 0x12 (Amount m) ;> put_string 0xa (Denom m))).
  - cbn. lia.
  - intros m Hm. cbn in Hm. unfold ref_coin_enc. wire_sizes.
  - intros m Hm. cbn in Hm. unfold ref_coin_enc. wire_writes.
  - intros [] Hm. unfold ref_coin_enc. cbn in *. wire_reads.
  - intros [] num wt r Hm E. unfold ref_coin_cases in E. cbn in Hm.
    wire_cases E.
Qed.

(** Decimal coins, pages and metadata, as messages with the fields of the SDK. *)
Definition ref_dec_coin_cases (m : DecCoin) (fieldNum wireType : Z) : option (reader DecCoin) :=
  let '(denom, amount) := m in
  match fieldNum with
  | 1 => Some (get_string "Denom" wireType (fun v => (v, amount)))
  | 2 => Some (get_custom text_codec "Amount" wireType amount (fun v => (denom, v)))
  | _ => None
  end.
Definition ref_dec_coin_wf (m : DecCoin) : Prop := 0 <= m.2.
Definition ref_dec_coin_enc (m : DecCoin) : bytes := enc_string 0xa m.1 ++ enc_custom text 0x12 m.2.
Definition ref_dec_coin_size (m : DecCoin) : Z := size_string m.1 + size_message text_codec m.2.
Definition ref_dec_coin_codec : Codec DecCoin :=
  message_codec ("", 0) ref_dec_coin_size
    (fun m => sized_buffer (put_custom text_codec 0x12 m.2 ;> put_string 0xa m.1)) (unmarshal "DecCoin" ref_dec_coin_cases).

Definition ref_page_request_cases (m : PageRequest) (fieldNum wireType : Z) : option (reader PageRequest) :=
  let '(mkPageRequest key offset limit countTotal reverse) := m in
  match fieldNum with
  | 1 => Some (get_bytes "Key" wireType (fun v => mkPageRequest v offset limit countTotal reverse))
  | 2 => Some (get_varint wrap64 "Offset" wireType (fun v => mkPageRequest key v limit countTotal reverse))
  | 3 => Some (get_varint wrap64 "Limit" wireType (fun v => mkPageRequest key offset v countTotal reverse))
  | 4 => Some (get_bool "CountTotal" wireType (fun v => mkPageRequest key offset limit v reverse))
  | 5 => Some (get_bool "Reverse" wireType (fun v => mkPageRequest key offset limit countTotal v))
  | _ => None
  end.
Definition ref_page_request_wf (m : PageRequest) : Prop := is_uint64 (Page_Offset m) ∧ is_uint64 (Page_Limit m).
Definition ref_page_request_enc (m : PageRequest) : bytes :=
  enc_bytes 0xa (Page_Key m) ++ enc_varint 0x10 (Page_Offset m) ++ enc_varint 0x18 (Page_Limit m) ++
  enc_bool 0x20 (Page_CountTotal m) ++ enc_bool 0x28 (Page_Reverse m).
Definition ref_page_request_size (m : PageRequest) : Z :=
  size_string (Page_Key m) + size_varint (Page_Offset m) + size_varint (Page_Limit m) +
  size_bool (Page_CountTotal m) + size_bool (Page_Reverse m).
Definition ref_page_request_codec : Codec PageRequest :=
  message_codec (mkPageRequest "" 0 0 false false) ref_page_request_size
    (fun m => sized_buffer (put_bool 0x28 (Page_Reverse m) ;> put_bool 0x20 (Page_CountTotal m) ;>
       put_varint 0x18 (Page_Limit m) ;> put_varint 0x10 (Page_Offset m) ;> put_string 0xa (Page_Key m)))
    (unmarshal "PageRequest" ref_page_request_cases).

Definition ref_page_response_cases (m : PageResponse) (fieldNum wireType : Z) : option (reader PageResponse) :=
  let '(mkPageResponse nextKey total) := m in
  match fieldNum with
  | 1 => Some (get_bytes "NextKey" wireType (fun v => mkPageResponse v total))
  | 2 => Some (get_varint wrap64 "Total" wireType (fun v => mkPageResponse nextKey v))
  | _ => None
  end.
Definition ref_page_response_wf (m : PageResponse) : Prop := is_uint64 (Total m).
Definition ref_page_response_enc (m : PageResponse) : bytes := enc_bytes 0xa (NextKey m) ++ enc_varint 0x10 (Total m).
Definition ref_page_response_size (m : PageResponse) : Z := size_string (NextKey m) + size_varint (Total m).
Definition ref_page_response_codec : Codec PageResponse :=
  message_codec (mkPageResponse "" 0) ref_page_response_size
    (fun m => sized_buffer (put_varint 0x10 (Total m) ;> put_string 0xa (NextKey m)))
    (unmarshal "PageResponse" ref_page_response_cases).

Definition ref_unit_cases (m : DenomUnit) (fieldNum wireType : Z) : option (reader DenomUnit) :=
  let '(mkDenomUnit denom exponent aliases) := m in
  match fieldNum with
  | 1 => Some (get_string "Denom" wireType (fun v => mkDenomUnit v exponent aliases))
  | 2 => Some (get_varint wrap64 "Exponent" wireType (fun v => mkDenomUnit denom v aliases))
  | 3 => Some (get_strings "Aliases" wireType aliases (fun v => mkDenomUnit denom exponent v))
  | _ => None
  end.
Definition ref_unit_wf (m : DenomUnit) : Prop := is_uint64 (Unit_Exponent m).
Definition ref_unit_enc (m : DenomUnit) : bytes :=
  enc_string 0xa (Unit_Denom m) ++ enc_varint 0x10 (Unit_Exponent m) ++ enc_strings 0x1a (Unit_Aliases m).
Definition ref_unit_size (m : DenomUnit) : Z :=
  size_string (Unit_Denom m) + size_varint (Unit_Exponent m) + size_strings (Unit_Aliases m).
Definition ref_unit_codec : Codec DenomUnit :=
  message_codec (mkDenomUnit "" 0 []) ref_unit_size
    (fun m => sized_buffer (put_strings 0x1a (Unit_Aliases m) ;> put_varint 0x10 (Unit_Exponent m) ;>
       put_string 0xa (Unit_Denom m)))
    (unmarshal "DenomUnit" ref_unit_cases).

Definition ref_metadata_cases (m : Metadata) (fieldNum wireType : Z) : option (reader Metadata) :=
  let '(mkMetadata description units base display name symbol uri uriHash) := m in
  match fieldNum with
  | 1 => Some (get_string "Description" wireType (fun v => mkMetadata v units base display name symbol uri uriHash))
  | 2 => Some (get_element ref_unit_codec "DenomUnits" wireType units (fun v => mkMetadata description v base display name symbol uri uriHash))
  | 3 => Some (get_string "Base" wireType (fun v => mkMetadata description units v display name symbol uri uriHash))
  | 4 => Some (get_string "Display" wireType (fun v => mkMetadata description units base v name symbol uri uriHash))
  | 5 => Some (get_string "Name" wireType (fun v => mkMetadata description units base display v symbol uri uriHash))
  | 6 => Some (get_string "Symbol" wireType (fun v => mkMetadata description units base display name v uri uriHash))
  | 7 => Some (get_string "URI" wireType (fun v => mkMetadata description units base display name symbol v uriHash))
  | 8 => Some (get_string "URIHash" wireType (fun v => mkMetadata description units base display name symbol uri v))
  | _ => None
  end.
Definition ref_metadata_wf (m : Metadata) : Prop := Forall ref_unit_wf (Meta_DenomUnits m).
Definition ref_metadata_enc (m : Metadata) : bytes :=
  enc_string 0xa (Meta_Description m) ++ enc_messages ref_unit_enc 0x12 (Meta_DenomUnits m) ++
  enc_string 0x1a (Meta_Base m) ++ enc_string 0x22 (Meta_Display m) ++ enc_string 0x2a (Meta_Name m) ++
  enc_string 0x32 (Meta_Symbol m) ++ enc_string 0x3a (Meta_URI m) ++ enc_string 0x42 (Meta_URIHash m).
Definition ref_metadata_size (m : Metadata) : Z :=
  size_string (Meta_Description m) + size_messages ref_unit_codec (Meta_DenomUnits m) + size_string (Meta_Base m) +
  size_string (Meta_Display m) + size_string (Meta_Name m) + size_string (Meta_Symbol m) + size_string (Meta_URI m) +
  size_string (Meta_URIHash m).
Definition ref_metadata_codec : Codec Metadata :=
  message_codec (mkMetadata "" [] "" "" "" "" "" "") ref_metadata_size
    (fun m => sized_buffer (put_string 0x42 (Meta_URIHash m) ;> put_string 0x3a (Meta_URI m) ;>
       put_string 0x32 (Meta_Symbol m) ;> put_string 0x2a (Meta_Name m) ;> put_string 0x22 (Meta_Display m) ;>
       put_string 0x1a (Meta_Base m) ;> put_messages ref_unit_codec 0x12 (Meta_DenomUnits m) ;>
       put_string 0xa (Meta_Description m)))
    (unmarshal "Metadata" ref_metadata_cases).

Lemma ref_dec_coin_laws : CodecLaws ref_dec_coin_codec ref_dec_coin_wf ref_dec_coin_enc.
Proof. wire_laws ref_dec_coin_wf ref_dec_coin_enc ref_dec_coin_size ref_dec_coin_cases. Qed.
Lemma ref_page_request_laws : CodecLaws ref_page_request_codec ref_page_request_wf ref_page_request_enc.
Proof. wire_laws ref_page_request_wf ref_page_request_enc ref_page_request_size ref_page_request_cases. Qed.
Lemma ref_page_response_laws : CodecLaws ref_page_response_codec ref_page_response_wf ref_page_response_enc.
Proof. wire_laws ref_page_response_wf ref_page_response_enc ref_page_response_size ref_page_response_cases. Qed.
Lemma ref_unit_laws : CodecLaws ref_unit_codec ref_unit_wf ref_unit_enc.
Proof. wire_laws ref_unit_wf ref_unit_enc ref_unit_size ref_unit_cases. Qed.
#[local] Hint Resolve ref_unit_laws : wire_laws.
Lemma ref_metadata_laws : CodecLaws ref_metadata_codec ref_metadata_wf ref_metadata_enc.
Proof. wire_laws ref_metadata_wf ref_metadata_enc ref_metadata_size ref_metadata_cases. Qed.

#[export] Instance ref_codecs : SdkCodecs := {
  Int_codec := text_codec; Dec_codec := text_codec; Coin_codec := ref_coin_codec;
  Time_codec := text_codec; Duration_codec := text_codec; DecCoin_codec := ref_dec_coin_codec;
  PageRequest_codec := ref_page_request_codec; PageResponse_codec := ref_page_response_codec;
  Metadata_codec := ref_metadata_codec
}.
#[export] Instance ref_codec_laws : SdkCodecLaws ref_codecs := {
  Int_laws := text_laws; Dec_laws := text_laws; Coin_laws := ref_coin_laws;
  Time_laws := text_laws; Duration_laws := text_laws; DecCoin_laws := ref_dec_coin_laws;
  PageRequest_laws := ref_page_request_laws; PageResponse_laws := ref_page_response_laws;
  Metadata_laws := ref_metadata_laws
}.
