(* ===== verification/CoinswapCodec.v ===== *)
(** * Encodings of the messages and the stored values of x/coinswap

    The generated code of [coinswap.pb.go], [genesis.pb.go], [tx.pb.go] and
    [query.pb.go]. *)

From Stdlib Require Import Ascii.
From stdpp Require Import base strings list.
From S2P Require Import Prelude Sdk CoinswapTypes Coinswap Wire WireFacts WireCodec WireSdk.

#[local] Open Scope Z_scope.
#[local] Open Scope go_scope.


Section codecs.
Context {SC : SdkCodecs}.

(** ** [Pool] *)

Definition Pool_MarshalToSizedBuffer (m : Pool) : bytes -> outcome (bytes * Z) :=
  sized_buffer (
    put_string 0x2a (Pool_LptDenom m) ;>
    put_string 0x22 (Pool_EscrowAddress m) ;>
    put_string 0x1a (Pool_CounterpartyDenom m) ;>
    put_string 0x12 (Pool_StandardDenom m) ;>
    put_string 0xa (Pool_Id m)).
Definition Pool_Size (m : Pool) : Z :=
  size_string (Pool_Id m) +
  size_string (Pool_StandardDenom m) +
  size_string (Pool_CounterpartyDenom m) +
  size_string (Pool_EscrowAddress m) +
  size_string (Pool_LptDenom m).
Definition Pool_cases (m : Pool) (fieldNum wireType : Z) : option (reader Pool) :=
  let '(mkPool id_ standardDenom counterpartyDenom escrowAddress lptDenom) := m in
  match fieldNum with
  | 1 => Some (get_string "Id" wireType (fun v => mkPool v standardDenom counterpartyDenom escrowAddress lptDenom))
  | 2 => Some (get_string "StandardDenom" wireType (fun v => mkPool id_ v counterpartyDenom escrowAddress lptDenom))
  | 3 => Some (get_string "CounterpartyDenom" wireType (fun v => mkPool id_ standardDenom v escrowAddress lptDenom))
  | 4 => Some (get_string "EscrowAddress" wireType (fun v => mkPool id_ standardDenom counterpartyDenom v lptDenom))
  | 5 => Some (get_string "LptDenom" wireType (fun v => mkPool id_ standardDenom counterpartyDenom escrowAddress v))
  | _ => None
  end.
Definition Pool_Unmarshal : bytes -> Pool -> outcome Pool := unmarshal "Pool" Pool_cases.
Definition Pool_codec : Codec Pool :=
  message_codec (mkPool "" "" "" "" "") Pool_Size Pool_MarshalToSizedBuffer Pool_Unmarshal.

(** ** [Params] *)

Definition Params_MarshalToSizedBuffer (m : Params) : bytes -> outcome (bytes * Z) :=
  sized_buffer (
    put_messages Coin_codec 0x32 (MaxSwapAmount m) ;>
    put_custom Int_codec 0x22 (MaxStandardCoinPerPool m) ;>
    put_custom Dec_codec 0x1a (TaxRate m) ;>
    put_message Coin_codec 0x12 (PoolCreationFee m) ;>
    put_custom Dec_codec 0xa (Fee m)).
Definition Params_Size (m : Params) : Z :=
  size_message Dec_codec (Fee m) +
  size_message Coin_codec (PoolCreationFee m) +
  size_message Dec_codec (TaxRate m) +
  size_message Int_codec (MaxStandardCoinPerPool m) +
  size_messages Coin_codec (MaxSwapAmount m).
Definition Params_cases (m : Params) (fieldNum wireType : Z) : option (reader Params) :=
  let '(mkParams fee poolCreationFee taxRate maxStandardCoinPerPool maxSwapAmount) := m in
  match fieldNum with
  | 1 => Some (get_custom Dec_codec "Fee" wireType fee (fun v => mkParams v poolCreationFee taxRate maxStandardCoinPerPool maxSwapAmount))
  | 2 => Some (get_message Coin_codec "PoolCreationFee" wireType poolCreationFee (fun v => mkParams fee v taxRate maxStandardCoinPerPool maxSwapAmount))
  | 3 => Some (get_custom Dec_codec "TaxRate" wireType taxRate (fun v => mkParams fee poolCreationFee v maxStandardCoinPerPool maxSwapAmount))
  | 4 => Some (get_custom Int_codec "MaxStandardCoinPerPool" wireType maxStandardCoinPerPool (fun v => mkParams fee poolCreationFee taxRate v maxSwapAmount))
  | 6 => Some (get_element Coin_codec "MaxSwapAmount" wireType maxSwapAmount (fun v => mkParams fee poolCreationFee taxRate maxStandardCoinPerPool v))
  | _ => None
  end.
Definition Params_Unmarshal : bytes -> Params -> outcome Params := unmarshal "Params" Params_cases.
Definition Params_codec : Codec Params :=
  message_codec (mkParams (zero Dec_codec) (zero Coin_codec) (zero Dec_codec) (zero Int_codec) []) Params_Size Params_MarshalToSizedBuffer Params_Unmarshal.

(** ** [Input] *)

Definition Input_MarshalToSizedBuffer (m : Input) : bytes -> outcome (bytes * Z) :=
  sized_buffer (
    put_message Coin_codec 0x12 (Input_Coin m) ;>
    put_string 0xa (Input_Address m)).
Definition Input_Size (m : Input) : Z :=
  size_string (Input_Address m) +
  size_message Coin_codec (Input_Coin m).
Definition Input_cases (m : Input) (fieldNum wireType : Z) : option (reader Input) :=
  let '(mkInput address coin) := m in
  match fieldNum with
  | 1 => Some (get_string "Address" wireType (fun v => mkInput v coin))
  | 2 => Some (get_message Coin_codec "Coin" wireType coin (fun v => mkInput address v))
  | _ => None
  end.
Definition Input_Unmarshal : bytes -> Input -> outcome Input := unmarshal "Input" Input_cases.
Definition Input_codec : Codec Input :=
  message_codec (mkInput "" (zero Coin_codec)) Input_Size Input_MarshalToSizedBuffer Input_Unmarshal.

(** ** [Output] *)

Definition Output_MarshalToSizedBuffer (m : Output) : bytes -> outcome (bytes * Z) :=
  sized_buffer (
    put_message Coin_codec 0x12 (Output_Coin m) ;>
    put_string 0xa (Output_Address m)).
Definition Output_Size (m : Output) : Z :=
  size_string (Output_Address m) +
  size_message Coin_codec (Output_Coin m).
Definition Output_cases (m : Output) (fieldNum wireType : Z) : option (reader Output) :=
  let '(mkOutput address coin) := m in
  match fieldNum with
  | 1 => Some (get_string "Address" wireType (fun v => mkOutput v coin))
  | 2 => Some (get_message Coin_codec "Coin" wireType coin (fun v => mkOutput address v))
  | _ => None
  end.
Definition Output_Unmarshal : bytes -> Output -> outcome Output := unmarshal "Output" Output_cases.
Definition Output_codec : Codec Output :=
  message_codec (mkOutput "" (zero Coin_codec)) Output_Size Output_MarshalToSizedBuffer Output_Unmarshal.

(** ** [GenesisState] *)

Definition GenesisState_MarshalToSizedBuffer (m : GenesisState) : bytes -> outcome (bytes * Z) :=
  sized_buffer (
    put_varint 0x20 (Gen_Sequence m) ;>
    put_messages Pool_codec 0x1a (Gen_Pool m) ;>
    put_string 0x12 (Gen_StandardDenom m) ;>
    put_message Params_codec 0xa (Gen_Params m)).
Definition GenesisState_Size (m : GenesisState) : Z :=
  size_message Params_codec (Gen_Params m) +
  size_string (Gen_StandardDenom m) +
  size_messages Pool_codec (Gen_Pool m) +
  size_varint (Gen_Sequence m).
Definition GenesisState_cases (m : GenesisState) (fieldNum wireType : Z) : option (reader GenesisState) :=
  let '(mkGenesisState params standardDenom pool sequence) := m in
  match fieldNum with
  | 1 => Some (get_message Params_codec "Params" wireType params (fun v => mkGenesisState v standardDenom pool sequence))
  | 2 => Some (get_string "StandardDenom" wireType (fun v => mkGenesisState params v pool sequence))
  | 3 => Some (get_element Pool_codec "Pool" wireType pool (fun v => mkGenesisState params standardDenom v sequence))
  | 4 => Some (get_varint wrap64 "Sequence" wireType (fun v => mkGenesisState params standardDenom pool v))
  | _ => None
  end.
Definition GenesisState_Unmarshal : bytes -> GenesisState -> outcome GenesisState := unmarshal "GenesisState" GenesisState_cases.
Definition GenesisState_codec : Codec GenesisState :=
  message_codec (mkGenesisState (zero Params_codec) "" [] 0) GenesisState_Size GenesisState_MarshalToSizedBuffer GenesisState_Unmarshal.

(** ** [MsgAddLiquidity] *)

Definition MsgAddLiquidity_MarshalToSizedBuffer (m : MsgAddLiquidity) : bytes -> outcome (bytes * Z) :=
  sized_buffer (
    put_string 0x2a (Add_Sender m) ;>
    put_varint 0x20 (Add_Deadline m) ;>
    put_custom Int_codec 0x1a (Add_MinLiquidity m) ;>
    put_custom Int_codec 0x12 (Add_ExactStandardAmt m) ;>
    put_message Coin_codec 0xa (Add_MaxToken m)).
Definition MsgAddLiquidity_Size (m : MsgAddLiquidity) : Z :=
  size_message Coin_codec (Add_MaxToken m) +
  size_message Int_codec (Add_ExactStandardAmt m) +
  size_message Int_codec (Add_MinLiquidity m) +
  size_varint (Add_Deadline m) +
  size_string (Add_Sender m).
Definition MsgAddLiquidity_cases (m : MsgAddLiquidity) (fieldNum wireType : Z) : option (reader MsgAddLiquidity) :=
  let '(mkMsgAddLiquidity maxToken exactStandardAmt minLiquidity deadline sender_) := m in
  match fieldNum with
  | 1 => Some (get_message Coin_codec "MaxToken" wireType maxToken (fun v => mkMsgAddLiquidity v exactStandardAmt minLiquidity deadline sender_))
  | 2 => Some (get_custom Int_codec "ExactStandardAmt" wireType exactStandardAmt (fun v => mkMsgAddLiquidity maxToken v minLiquidity deadline sender_))
  | 3 => Some (get_custom Int_codec "MinLiquidity" wireType minLiquidity (fun v => mkMsgAddLiquidity maxToken exactStandardAmt v deadline sender_))
  | 4 => Some (get_varint sint64 "Deadline" wireType (fun v => mkMsgAddLiquidity maxToken exactStandardAmt minLiquidity v sender_))
  | 5 => Some (get_string "Sender" wireType (fun v => mkMsgAddLiquidity maxToken exactStandardAmt minLiquidity deadline v))
  | _ => None
  end.
Definition MsgAddLiquidity_Unmarshal : bytes -> MsgAddLiquidity -> outcome MsgAddLiquidity := unmarshal "MsgAddLiquidity" MsgAddLiquidity_cases.
Definition MsgAddLiquidity_codec : Codec MsgAddLiquidity :=
  message_codec (mkMsgAddLiquidity (zero Coin_codec) (zero Int_codec) (zero Int_codec) 0 "") MsgAddLiquidity_Size MsgAddLiquidity_MarshalToSizedBuffer MsgAddLiquidity_Unmarshal.

(** ** [MsgRemoveLiquidity] *)

Definition MsgRemoveLiquidity_MarshalToSizedBuffer (m : MsgRemoveLiquidity) : bytes -> outcome (bytes * Z) :=
  sized_buffer (
    put_string 0x2a (Rem_Sender m) ;>
    put_varint 0x20 (Rem_Deadline m) ;>
    put_custom Int_codec 0x1a (Rem_MinStandardAmt m) ;>
    put_custom Int_codec 0x12 (Rem_MinToken m) ;>
    put_message Coin_codec 0xa (Rem_WithdrawLiquidity m)).
Definition MsgRemoveLiquidity_Size (m : MsgRemoveLiquidity) : Z :=
  size_message Coin_codec (Rem_WithdrawLiquidity m) +
  size_message Int_codec (Rem_MinToken m) +
  size_message Int_codec (Rem_MinStandardAmt m) +
  size_varint (Rem_Deadline m) +
  size_string (Rem_Sender m).
Definition MsgRemoveLiquidity_cases (m : MsgRemoveLiquidity) (fieldNum wireType : Z) : option (reader MsgRemoveLiquidity) :=
  let '(mkMsgRemoveLiquidity withdrawLiquidity minToken minStandardAmt deadline sender_) := m in
  match fieldNum with
  | 1 => Some (get_message Coin_codec "WithdrawLiquidity" wireType withdrawLiquidity (fun v => mkMsgRemoveLiquidity v minToken minStandardAmt deadline sender_))
  | 2 => Some (get_custom Int_codec "MinToken" wireType minToken (fun v => mkMsgRemoveLiquidity withdrawLiquidity v minStandardAmt deadline sender_))
  | 3 => Some (get_custom Int_codec "MinStandardAmt" wireType minStandardAmt (fun v => mkMsgRemoveLiquidity withdrawLiquidity minToken v deadline sender_))
  | 4 => Some (get_varint sint64 "Deadline" wireType (fun v => mkMsgRemoveLiquidity withdrawLiquidity minToken minStandardAmt v sender_))
  | 5 => Some (get_string "Sender" wireType (fun v => mkMsgRemoveLiquidity withdrawLiquidity minToken minStandardAmt deadline v))
  | _ => None
  end.
Definition MsgRemoveLiquidity_Unmarshal : bytes -> MsgRemoveLiquidity -> outcome MsgRemoveLiquidity := unmarshal "MsgRemoveLiquidity" MsgRemoveLiquidity_cases.
Definition MsgRemoveLiquidity_codec : Codec MsgRemoveLiquidity :=
  message_codec (mkMsgRemoveLiquidity (zero Coin_codec) (zero Int_codec) (zero Int_codec) 0 "") MsgRemoveLiquidity_Size MsgRemoveLiquidity_MarshalToSizedBuffer MsgRemoveLiquidity_Unmarshal.

(** ** [MsgSwapOrder] *)

Definition MsgSwapOrder_MarshalToSizedBuffer (m : MsgSwapOrder) : bytes -> outcome (bytes * Z) :=
  sized_buffer (
    put_bool 0x20 (Swap_IsBuyOrder m) ;>
    put_varint 0x18 (Swap_Deadline m) ;>
    put_message Output_codec 0x12 (Swap_Output m) ;>
    put_message Input_codec 0xa (Swap_Input m)).
Definition MsgSwapOrder_Size (m : MsgSwapOrder) : Z :=
  size_message Input_codec (Swap_Input m) +
  size_message Output_codec (Swap_Output m) +
  size_varint (Swap_Deadline m) +
  size_bool (Swap_IsBuyOrder m).
Definition MsgSwapOrder_cases (m : MsgSwapOrder) (fieldNum wireType : Z) : option (reader MsgSwapOrder) :=
  let '(mkMsgSwapOrder input_ output deadline isBuyOrder) := m in
  match fieldNum with
  | 1 => Some (get_message Input_codec "Input" wireType input_ (fun v => mkMsgSwapOrder v output deadline isBuyOrder))
  | 2 => Some (get_message Output_codec "Output" wireType output (fun v => mkMsgSwapOrder input_ v deadline isBuyOrder))
  | 3 => Some (get_varint sint64 "Deadline" wireType (fun v => mkMsgSwapOrder input_ output v isBuyOrder))
  | 4 => Some (get_bool "IsBuyOrder" wireType (fun v => mkMsgSwapOrder input_ output deadline v))
  | _ => None
  end.
Definition MsgSwapOrder_Unmarshal : bytes -> MsgSwapOrder -> outcome MsgSwapOrder := unmarshal "MsgSwapOrder" MsgSwapOrder_cases.
Definition MsgSwapOrder_codec : Codec MsgSwapOrder :=
  message_codec (mkMsgSwapOrder (zero Input_codec) (zero Output_codec) 0 false) MsgSwapOrder_Size MsgSwapOrder_MarshalToSizedBuffer MsgSwapOrder_Unmarshal.

(** ** [MsgUpdateParams] *)

Definition MsgUpdateParams_MarshalToSizedBuffer (m : MsgUpdateParams) : bytes -> outcome (bytes * Z) :=
  sized_buffer (
    put_message Params_codec 0x12 (Upd_Params m) ;>
    put_string 0xa (Upd_Authority m)).
Definition MsgUpdateParams_Size (m : MsgUpdateParams) : Z :=
  size_string (Upd_Authority m) +
  size_message Params_codec (Upd_Params m).
Definition MsgUpdateParams_cases (m : MsgUpdateParams) (fieldNum wireType : Z) : option (reader MsgUpdateParams) :=
  let '(mkMsgUpdateParams authority params) := m in
  match fieldNum with
  | 1 => Some (get_string "Authority" wireType (fun v => mkMsgUpdateParams v params))
  | 2 => Some (get_message Params_codec "Params" wireType params (fun v => mkMsgUpdateParams authority v))
  | _ => None
  end.
Definition MsgUpdateParams_Unmarshal : bytes -> MsgUpdateParams -> outcome MsgUpdateParams := unmarshal "MsgUpdateParams" MsgUpdateParams_cases.
Definition MsgUpdateParams_codec : Codec MsgUpdateParams :=
  message_codec (mkMsgUpdateParams "" (zero Params_codec)) MsgUpdateParams_Size MsgUpdateParams_MarshalToSizedBuffer MsgUpdateParams_Unmarshal.

(** ** [MsgAddLiquidityResponse] *)

Record MsgAddLiquidityResponse := mkMsgAddLiquidityResponse { MsgAddLiquidityResponse_MintToken : option Coin }.
Definition MsgAddLiquidityResponse_MarshalToSizedBuffer (m : MsgAddLiquidityResponse) : bytes -> outcome (bytes * Z) :=
  sized_buffer (
    put_pointer Coin_codec 0xa (MsgAddLiquidityResponse_MintToken m)).
Definition MsgAddLiquidityResponse_Size (m : MsgAddLiquidityResponse) : Z :=
  size_pointer Coin_codec (MsgAddLiquidityResponse_MintToken m).
Definition MsgAddLiquidityResponse_cases (m : MsgAddLiquidityResponse) (fieldNum wireType : Z) : option (reader MsgAddLiquidityResponse) :=
  let '(mkMsgAddLiquidityResponse mintToken) := m in
  match fieldNum with
  | 1 => Some (get_pointer Coin_codec "MintToken" wireType mintToken (fun v => mkMsgAddLiquidityResponse v))
  | _ => None
  end.
Definition MsgAddLiquidityResponse_Unmarshal : bytes -> MsgAddLiquidityResponse -> outcome MsgAddLiquidityResponse := unmarshal "MsgAddLiquidityResponse" MsgAddLiquidityResponse_cases.
Definition MsgAddLiquidityResponse_codec : Codec MsgAddLiquidityResponse :=
  message_codec (mkMsgAddLiquidityResponse None) MsgAddLiquidityResponse_Size MsgAddLiquidityResponse_MarshalToSizedBuffer MsgAddLiquidityResponse_Unmarshal.

(** ** [MsgRemoveLiquidityResponse] *)

Record MsgRemoveLiquidityResponse := mkMsgRemoveLiquidityResponse { MsgRemoveLiquidityResponse_WithdrawCoins : list Coin }.
Definition MsgRemoveLiquidityResponse_MarshalToSizedBuffer (m : MsgRemoveLiquidityResponse) : bytes -> outcome (bytes * Z) :=
  sized_buffer (
    put_messages Coin_codec 0xa (MsgRemoveLiquidityResponse_WithdrawCoins m)).
Definition MsgRemoveLiquidityResponse_Size (m : MsgRemoveLiquidityResponse) : Z :=
  size_messages Coin_codec (MsgRemoveLiquidityResponse_WithdrawCoins m).
Definition MsgRemoveLiquidityResponse_cases (m : MsgRemoveLiquidityResponse) (fieldNum wireType : Z) : option (reader MsgRemoveLiquidityResponse) :=
  let '(mkMsgRemoveLiquidityResponse withdrawCoins) := m in
  match fieldNum with
  | 1 => Some (get_element Coin_codec "WithdrawCoins" wireType withdrawCoins (fun v => mkMsgRemoveLiquidityResponse v))
  | _ => None
  end.
Definition MsgRemoveLiquidityResponse_Unmarshal : bytes -> MsgRemoveLiquidityResponse -> outcome MsgRemoveLiquidityResponse := unmarshal "MsgRemoveLiquidityResponse" MsgRemoveLiquidityResponse_cases.
Definition MsgRemoveLiquidityResponse_codec : Codec MsgRemoveLiquidityResponse :=
  message_codec (mkMsgRemoveLiquidityResponse []) MsgRemoveLiquidityResponse_Size MsgRemoveLiquidityResponse_MarshalToSizedBuffer MsgRemoveLiquidityResponse_Unmarshal.

(** ** [MsgSwapCoinResponse] *)

Record MsgSwapCoinResponse := mkMsgSwapCoinResponse {}.
Definition MsgSwapCoinResponse_MarshalToSizedBuffer (m : MsgSwapCoinResponse) : bytes -> outcome (bytes * Z) := sized_buffer done_writing.
Definition MsgSwapCoinResponse_Size (m : MsgSwapCoinResponse) : Z := 0.
Definition MsgSwapCoinResponse_cases (m : MsgSwapCoinResponse) (fieldNum wireType : Z) : option (reader MsgSwapCoinResponse) := None.
Definition MsgSwapCoinResponse_Unmarshal : bytes -> MsgSwapCoinResponse -> outcome MsgSwapCoinResponse := unmarshal "MsgSwapCoinResponse" MsgSwapCoinResponse_cases.
Definition MsgSwapCoinResponse_codec : Codec MsgSwapCoinResponse :=
  message_codec (mkMsgSwapCoinResponse) MsgSwapCoinResponse_Size MsgSwapCoinResponse_MarshalToSizedBuffer MsgSwapCoinResponse_Unmarshal.

(** ** [MsgUpdateParamsResponse] *)

Record MsgUpdateParamsResponse := mkMsgUpdateParamsResponse {}.
Definition MsgUpdateParamsResponse_MarshalToSizedBuffer (m : MsgUpdateParamsResponse) : bytes -> outcome (bytes * Z) := sized_buffer done_writing.
Definition MsgUpdateParamsResponse_Size (m : MsgUpdateParamsResponse) : Z := 0.
Definition MsgUpdateParamsResponse_cases (m : MsgUpdateParamsResponse) (fieldNum wireType : Z) : option (reader MsgUpdateParamsResponse) := None.
Definition MsgUpdateParamsResponse_Unmarshal : bytes -> MsgUpdateParamsResponse -> outcome MsgUpdateParamsResponse := unmarshal "MsgUpdateParamsResponse" MsgUpdateParamsResponse_cases.
Definition MsgUpdateParamsResponse_codec : Codec MsgUpdateParamsResponse :=
  message_codec (mkMsgUpdateParamsResponse) MsgUpdateParamsResponse_Size MsgUpdateParamsResponse_MarshalToSizedBuffer MsgUpdateParamsResponse_Unmarshal.

(** ** [PoolInfo] *)

Definition PoolInfo_MarshalToSizedBuffer (m : PoolInfo) : bytes -> outcome (bytes * Z) :=
  sized_buffer (
    put_string 0x32 (Info_Fee m) ;>
    put_message Coin_codec 0x2a (Info_Lpt m) ;>
    put_message Coin_codec 0x22 (Info_Token m) ;>
    put_message Coin_codec 0x1a (Info_Standard m) ;>
    put_string 0x12 (Info_EscrowAddress m) ;>
    put_string 0xa (Info_Id m)).
Definition PoolInfo_Size (m : PoolInfo) : Z :=
  size_string (Info_Id m) +
  size_string (Info_EscrowAddress m) +
  size_message Coin_codec (Info_Standard m) +
  size_message Coin_codec (Info_Token m) +
  size_message Coin_codec (Info_Lpt m) +
  size_string (Info_Fee m).
Definition PoolInfo_cases (m : PoolInfo) (fieldNum wireType : Z) : option (reader PoolInfo) :=
  let '(mkPoolInfo id_ escrowAddress standard token lpt fee) := m in
  match fieldNum with
  | 1 => Some (get_string "Id" wireType (fun v => mkPoolInfo v escrowAddress standard token lpt fee))
  | 2 => Some (get_string "EscrowAddress" wireType (fun v => mkPoolInfo id_ v standard token lpt fee))
  | 3 => Some (get_message Coin_codec "Standard" wireType standard (fun v => mkPoolInfo id_ escrowAddress v token lpt fee))
  | 4 => Some (get_message Coin_codec "Token" wireType token (fun v => mkPoolInfo id_ escrowAddress standard v lpt fee))
  | 5 => Some (get_message Coin_codec "Lpt" wireType lpt (fun v => mkPoolInfo id_ escrowAddress standard token v fee))
  | 6 => Some (get_string "Fee" wireType (fun v => mkPoolInfo id_ escrowAddress standard token lpt v))
  | _ => None
  end.
Definition PoolInfo_Unmarshal : bytes -> PoolInfo -> outcome PoolInfo := unmarshal "PoolInfo" PoolInfo_cases.
Definition PoolInfo_codec : Codec PoolInfo :=
  message_codec (mkPoolInfo "" "" (zero Coin_codec) (zero Coin_codec) (zero Coin_codec) "") PoolInfo_Size PoolInfo_MarshalToSizedBuffer PoolInfo_Unmarshal.

(** ** [QueryParamsRequest] *)

Record QueryParamsRequest := mkQueryParamsRequest {}.
Definition QueryParamsRequest_MarshalToSizedBuffer (m : QueryParamsRequest) : bytes -> outcome (bytes * Z) := sized_buffer done_writing.
Definition QueryParamsRequest_Size (m : QueryParamsRequest) : Z := 0.
Definition QueryParamsRequest_cases (m : QueryParamsRequest) (fieldNum wireType : Z) : option (reader QueryParamsRequest) := None.
Definition QueryParamsRequest_Unmarshal : bytes -> QueryParamsRequest -> outcome QueryParamsRequest := unmarshal "QueryParamsRequest" QueryParamsRequest_cases.
Definition QueryParamsRequest_codec : Codec QueryParamsRequest :=
  message_codec (mkQueryParamsRequest) QueryParamsRequest_Size QueryParamsRequest_MarshalToSizedBuffer QueryParamsRequest_Unmarshal.

(** ** [QueryParamsResponse] *)

Record QueryParamsResponse := mkQueryParamsResponse { QueryParamsResponse_Params : Params }.
Definition QueryParamsResponse_MarshalToSizedBuffer (m : QueryParamsResponse) : bytes -> outcome (bytes * Z) :=
  sized_buffer (
    put_message Params_codec 0xa (QueryParamsResponse_Params m)).
Definition QueryParamsResponse_Size (m : QueryParamsResponse) : Z :=
  size_message Params_codec (QueryParamsResponse_Params m).
Definition QueryParamsResponse_cases (m : QueryParamsResponse) (fieldNum wireType : Z) : option (reader QueryParamsResponse) :=
  let '(mkQueryParamsResponse params) := m in
  match fieldNum with
  | 1 => Some (get_message Params_codec "Params" wireType params (fun v => mkQueryParamsResponse v))
  | _ => None
  end.
Definition QueryParamsResponse_Unmarshal : bytes -> QueryParamsResponse -> outcome QueryParamsResponse := unmarshal "QueryParamsResponse" QueryParamsResponse_cases.
Definition QueryParamsResponse_codec : Codec QueryParamsResponse :=
  message_codec (mkQueryParamsResponse (zero Params_codec)) QueryParamsResponse_Size QueryParamsResponse_MarshalToSizedBuffer QueryParamsResponse_Unmarshal.

(** ** [QueryLiquidityPoolRequest] *)

Record QueryLiquidityPoolRequest := mkQueryLiquidityPoolRequest { QueryLiquidityPoolRequest_LptDenom : string }.
Definition QueryLiquidityPoolRequest_MarshalToSizedBuffer (m : QueryLiquidityPoolRequest) : bytes -> outcome (bytes * Z) :=
  sized_buffer (
    put_string 0xa (QueryLiquidityPoolRequest_LptDenom m)).
Definition QueryLiquidityPoolRequest_Size (m : QueryLiquidityPoolRequest) : Z :=
  size_string (QueryLiquidityPoolRequest_LptDenom m).
Definition QueryLiquidityPoolRequest_cases (m : QueryLiquidityPoolRequest) (fieldNum wireType : Z) : option (reader QueryLiquidityPoolRequest) :=
  let '(mkQueryLiquidityPoolRequest lptDenom) := m in
  match fieldNum with
  | 1 => Some (get_string "LptDenom" wireType (fun v => mkQueryLiquidityPoolRequest v))
  | _ => None
  end.
Definition QueryLiquidityPoolRequest_Unmarshal : bytes -> QueryLiquidityPoolRequest -> outcome QueryLiquidityPoolRequest := unmarshal "QueryLiquidityPoolRequest" QueryLiquidityPoolRequest_cases.
Definition QueryLiquidityPoolRequest_codec : Codec QueryLiquidityPoolRequest :=
  message_codec (mkQueryLiquidityPoolRequest "") QueryLiquidityPoolRequest_Size QueryLiquidityPoolRequest_MarshalToSizedBuffer QueryLiquidityPoolRequest_Unmarshal.

(** ** [QueryLiquidityPoolResponse] *)

Record QueryLiquidityPoolResponse := mkQueryLiquidityPoolResponse { QueryLiquidityPoolResponse_Pool : PoolInfo }.
Definition QueryLiquidityPoolResponse_MarshalToSizedBuffer (m : QueryLiquidityPoolResponse) : bytes -> outcome (bytes * Z) :=
  sized_buffer (
    put_message PoolInfo_codec 0xa (QueryLiquidityPoolResponse_Pool m)).
Definition QueryLiquidityPoolResponse_Size (m : QueryLiquidityPoolResponse) : Z :=
  size_message PoolInfo_codec (QueryLiquidityPoolResponse_Pool m).
Definition QueryLiquidityPoolResponse_cases (m : QueryLiquidityPoolResponse) (fieldNum wireType : Z) : option (reader QueryLiquidityPoolResponse) :=
  let '(mkQueryLiquidityPoolResponse pool) := m in
  match fieldNum with
  | 1 => Some (get_message PoolInfo_codec "Pool" wireType pool (fun v => mkQueryLiquidityPoolResponse v))
  | _ => None
  end.
Definition QueryLiquidityPoolResponse_Unmarshal : bytes -> QueryLiquidityPoolResponse -> outcome QueryLiquidityPoolResponse := unmarshal "QueryLiquidityPoolResponse" QueryLiquidityPoolResponse_cases.
Definition QueryLiquidityPoolResponse_codec : Codec QueryLiquidityPoolResponse :=
  message_codec (mkQueryLiquidityPoolResponse (zero PoolInfo_codec)) QueryLiquidityPoolResponse_Size QueryLiquidityPoolResponse_MarshalToSizedBuffer QueryLiquidityPoolResponse_Unmarshal.

(** ** [QueryLiquidityPoolsRequest] *)

Record QueryLiquidityPoolsRequest := mkQueryLiquidityPoolsRequest { QueryLiquidityPoolsRequest_Pagination : option PageRequest }.
Definition QueryLiquidityPoolsRequest_MarshalToSizedBuffer (m : QueryLiquidityPoolsRequest) : bytes -> outcome (bytes * Z) :=
  sized_buffer (
    put_pointer PageRequest_codec 0xa (QueryLiquidityPoolsRequest_Pagination m)).
Definition QueryLiquidityPoolsRequest_Size (m : QueryLiquidityPoolsRequest) : Z :=
  size_pointer PageRequest_codec (QueryLiquidityPoolsRequest_Pagination m).
Definition QueryLiquidityPoolsRequest_cases (m : QueryLiquidityPoolsRequest) (fieldNum wireType : Z) : option (reader QueryLiquidityPoolsRequest) :=
  let '(mkQueryLiquidityPoolsRequest pagination) := m in
  match fieldNum with
  | 1 => Some (get_pointer PageRequest_codec "Pagination" wireType pagination (fun v => mkQueryLiquidityPoolsRequest v))
  | _ => None
  end.
Definition QueryLiquidityPoolsRequest_Unmarshal : bytes -> QueryLiquidityPoolsRequest -> outcome QueryLiquidityPoolsRequest := unmarshal "QueryLiquidityPoolsRequest" QueryLiquidityPoolsRequest_cases.
Definition QueryLiquidityPoolsRequest_codec : Codec QueryLiquidityPoolsRequest :=
  message_codec (mkQueryLiquidityPoolsRequest None) QueryLiquidityPoolsRequest_Size QueryLiquidityPoolsRequest_MarshalToSizedBuffer QueryLiquidityPoolsRequest_Unmarshal.

(** ** [QueryLiquidityPoolsResponse] *)

Record QueryLiquidityPoolsResponse := mkQueryLiquidityPoolsResponse { QueryLiquidityPoolsResponse_Pools : list PoolInfo; QueryLiquidityPoolsResponse_Pagination : option PageResponse }.
Definition QueryLiquidityPoolsResponse_MarshalToSizedBuffer (m : QueryLiquidityPoolsResponse) : bytes -> outcome (bytes * Z) :=
  sized_buffer (
    put_pointer PageResponse_codec 0x12 (QueryLiquidityPoolsResponse_Pagination m) ;>
    put_messages PoolInfo_codec 0xa (QueryLiquidityPoolsResponse_Pools m)).
Definition QueryLiquidityPoolsResponse_Size (m : QueryLiquidityPoolsResponse) : Z :=
  size_messages PoolInfo_codec (QueryLiquidityPoolsResponse_Pools m) +
  size_pointer PageResponse_codec (QueryLiquidityPoolsResponse_Pagination m).
Definition QueryLiquidityPoolsResponse_cases (m : QueryLiquidityPoolsResponse) (fieldNum wireType : Z) : option (reader QueryLiquidityPoolsResponse) :=
  let '(mkQueryLiquidityPoolsResponse pools pagination) := m in
  match fieldNum with
  | 1 => Some (get_element PoolInfo_codec "Pools" wireType pools (fun v => mkQueryLiquidityPoolsResponse v pagination))
  | 2 => Some (get_pointer PageResponse_codec "Pagination" wireType pagination (fun v => mkQueryLiquidityPoolsResponse pools v))
  | _ => None
  end.
Definition QueryLiquidityPoolsResponse_Unmarshal : bytes -> QueryLiquidityPoolsResponse -> outcome QueryLiquidityPoolsResponse := unmarshal "QueryLiquidityPoolsResponse" QueryLiquidityPoolsResponse_cases.
Definition QueryLiquidityPoolsResponse_codec : Codec QueryLiquidityPoolsResponse :=
  message_codec (mkQueryLiquidityPoolsResponse [] None) QueryLiquidityPoolsResponse_Size QueryLiquidityPoolsResponse_MarshalToSizedBuffer QueryLiquidityPoolsResponse_Unmarshal.

(** ** Well-formed messages and their encodings *)

Context {SL : SdkCodecLaws SC}.

Definition Pool_wf (m : Pool) : Prop := True.
Definition Pool_enc (m : Pool) : bytes :=
  enc_string 0xa (Pool_Id m) ++
  enc_string 0x12 (Pool_StandardDenom m) ++
  enc_string 0x1a (Pool_CounterpartyDenom m) ++
  enc_string 0x22 (Pool_EscrowAddress m) ++
  enc_string 0x2a (Pool_LptDenom m).

Lemma coinswap_Pool_laws : CodecLaws Pool_codec Pool_wf Pool_enc.
Proof. wire_laws Pool_wf Pool_enc Pool_Size Pool_cases. Qed.
#[local] Hint Resolve coinswap_Pool_laws : wire_laws.

Definition Params_wf (m : Params) : Prop := Dec_wf (Fee m) ∧ Coin_wf (PoolCreationFee m) ∧ Dec_wf (TaxRate m) ∧ Int_wf (MaxStandardCoinPerPool m) ∧ Forall Coin_wf (MaxSwapAmount m).
Definition Params_enc (m : Params) : bytes :=
  enc_custom Dec_enc 0xa (Fee m) ++
  enc_message Coin_enc 0x12 (PoolCreationFee m) ++
  enc_custom Dec_enc 0x1a (TaxRate m) ++
  enc_custom Int_enc 0x22 (MaxStandardCoinPerPool m) ++
  enc_messages Coin_enc 0x32 (MaxSwapAmount m).

Lemma coinswap_Params_laws : CodecLaws Params_codec Params_wf Params_enc.
Proof. wire_laws Params_wf Params_enc Params_Size Params_cases. Qed.
#[local] Hint Resolve coinswap_Params_laws : wire_laws.

Definition Input_wf (m : Input) : Prop := Coin_wf (Input_Coin m).
Definition Input_enc (m : Input) : bytes :=
  enc_string 0xa (Input_Address m) ++
  enc_message Coin_enc 0x12 (Input_Coin m).

Lemma coinswap_Input_laws : CodecLaws Input_codec Input_wf Input_enc.
Proof. wire_laws Input_wf Input_enc Input_Size Input_cases. Qed.
#[local] Hint Resolve coinswap_Input_laws : wire_laws.

Definition Output_wf (m : Output) : Prop := Coin_wf (Output_Coin m).
Definition Output_enc (m : Output) : bytes :=
  enc_string 0xa (Output_Address m) ++
  enc_message Coin_enc 0x12 (Output_Coin m).

Lemma coinswap_Output_laws : CodecLaws Output_codec Output_wf Output_enc.
Proof. wire_laws Output_wf Output_enc Output_Size Output_cases. Qed.
#[local] Hint Resolve coinswap_Output_laws : wire_laws.

Definition GenesisState_wf (m : GenesisState) : Prop := Params_wf (Gen_Params m) ∧ Forall Pool_wf (Gen_Pool m) ∧ is_uint64 (Gen_Sequence m).
Definition GenesisState_enc (m : GenesisState) : bytes :=
  enc_message Params_enc 0xa (Gen_Params m) ++
  enc_string 0x12 (Gen_StandardDenom m) ++
  enc_messages Pool_enc 0x1a (Gen_Pool m) ++
  enc_varint 0x20 (Gen_Sequence m).

Lemma coinswap_GenesisState_laws : CodecLaws GenesisState_codec GenesisState_wf GenesisState_enc.
Proof. wire_laws GenesisState_wf GenesisState_enc GenesisState_Size GenesisState_cases. Qed.
#[local] Hint Resolve coinswap_GenesisState_laws : wire_laws.

Definition MsgAddLiquidity_wf (m : MsgAddLiquidity) : Prop := Coin_wf (Add_MaxToken m) ∧ Int_wf (Add_ExactStandardAmt m) ∧ Int_wf (Add_MinLiquidity m) ∧ is_int64 (Add_Deadline m).
Definition MsgAddLiquidity_enc (m : MsgAddLiquidity) : bytes :=
  enc_message Coin_enc 0xa (Add_MaxToken m) ++
  enc_custom Int_enc 0x12 (Add_ExactStandardAmt m) ++
  enc_custom Int_enc 0x1a (Add_MinLiquidity m) ++
  enc_varint 0x20 (Add_Deadline m) ++
  enc_string 0x2a (Add_Sender m).

Lemma coinswap_MsgAddLiquidity_laws : CodecLaws MsgAddLiquidity_codec MsgAddLiquidity_wf MsgAddLiquidity_enc.
Proof. wire_laws MsgAddLiquidity_wf MsgAddLiquidity_enc MsgAddLiquidity_Size MsgAddLiquidity_cases. Qed.
#[local] Hint Resolve coinswap_MsgAddLiquidity_laws : wire_laws.

Definition MsgRemoveLiquidity_wf (m : MsgRemoveLiquidity) : Prop := Coin_wf (Rem_WithdrawLiquidity m) ∧ Int_wf (Rem_MinToken m) ∧ Int_wf (Rem_MinStandardAmt m) ∧ is_int64 (Rem_Deadline m).
Definition MsgRemoveLiquidity_enc (m : MsgRemoveLiquidity) : bytes :=
  enc_message Coin_enc 0xa (Rem_WithdrawLiquidity m) ++
  enc_custom Int_enc 0x12 (Rem_MinToken m) ++
  enc_custom Int_enc 0x1a (Rem_MinStandardAmt m) ++
  enc_varint 0x20 (Rem_Deadline m) ++
  enc_string 0x2a (Rem_Sender m).

Lemma coinswap_MsgRemoveLiquidity_laws : CodecLaws MsgRemoveLiquidity_codec MsgRemoveLiquidity_wf MsgRemoveLiquidity_enc.
Proof. wire_laws MsgRemoveLiquidity_wf MsgRemoveLiquidity_enc MsgRemoveLiquidity_Size MsgRemoveLiquidity_cases. Qed.
#[local] Hint Resolve coinswap_MsgRemoveLiquidity_laws : wire_laws.

Definition MsgSwapOrder_wf (m : MsgSwapOrder) : Prop := Input_wf (Swap_Input m) ∧ Output_wf (Swap_Output m) ∧ is_int64 (Swap_Deadline m).
Definition MsgSwapOrder_enc (m : MsgSwapOrder) : bytes :=
  enc_message Input_enc 0xa (Swap_Input m) ++
  enc_message Output_enc 0x12 (Swap_Output m) ++
  enc_varint 0x18 (Swap_Deadline m) ++
  enc_bool 0x20 (Swap_IsBuyOrder m).

Lemma coinswap_MsgSwapOrder_laws : CodecLaws MsgSwapOrder_codec MsgSwapOrder_wf MsgSwapOrder_enc.
Proof. wire_laws MsgSwapOrder_wf MsgSwapOrder_enc MsgSwapOrder_Size MsgSwapOrder_cases. Qed.
#[local] Hint Resolve coinswap_MsgSwapOrder_laws : wire_laws.

Definition MsgUpdateParams_wf (m : MsgUpdateParams) : Prop := Params_wf (Upd_Params m).
Definition MsgUpdateParams_enc (m : MsgUpdateParams) : bytes :=
  enc_string 0xa (Upd_Authority m) ++
  enc_message Params_enc 0x12 (Upd_Params m).

Lemma coinswap_MsgUpdateParams_laws : CodecLaws MsgUpdateParams_codec MsgUpdateParams_wf MsgUpdateParams_enc.
Proof. wire_laws MsgUpdateParams_wf MsgUpdateParams_enc MsgUpdateParams_Size MsgUpdateParams_cases. Qed.
#[local] Hint Resolve coinswap_MsgUpdateParams_laws : wire_laws.

Definition MsgAddLiquidityResponse_wf (m : MsgAddLiquidityResponse) : Prop := (∀ x, MsgAddLiquidityResponse_MintToken m = Some x -> Coin_wf x).
Definition MsgAddLiquidityResponse_enc (m : MsgAddLiquidityResponse) : bytes :=
  enc_pointer Coin_enc 0xa (MsgAddLiquidityResponse_MintToken m).

Lemma coinswap_MsgAddLiquidityResponse_laws : CodecLaws MsgAddLiquidityResponse_codec MsgAddLiquidityResponse_wf MsgAddLiquidityResponse_enc.
Proof. wire_laws MsgAddLiquidityResponse_wf MsgAddLiquidityResponse_enc MsgAddLiquidityResponse_Size MsgAddLiquidityResponse_cases. Qed.
#[local] Hint Resolve coinswap_MsgAddLiquidityResponse_laws : wire_laws.

Definition MsgRemoveLiquidityResponse_wf (m : MsgRemoveLiquidityResponse) : Prop := Forall Coin_wf (MsgRemoveLiquidityResponse_WithdrawCoins m).
Definition MsgRemoveLiquidityResponse_enc (m : MsgRemoveLiquidityResponse) : bytes :=
  enc_messages Coin_enc 0xa (MsgRemoveLiquidityResponse_WithdrawCoins m).

Lemma coinswap_MsgRemoveLiquidityResponse_laws : CodecLaws MsgRemoveLiquidityResponse_codec MsgRemoveLiquidityResponse_wf MsgRemoveLiquidityResponse_enc.
Proof. wire_laws MsgRemoveLiquidityResponse_wf MsgRemoveLiquidityResponse_enc MsgRemoveLiquidityResponse_Size MsgRemoveLiquidityResponse_cases. Qed.
#[local] Hint Resolve coinswap_MsgRemoveLiquidityResponse_laws : wire_laws.

Definition MsgSwapCoinResponse_wf (m : MsgSwapCoinResponse) : Prop := True.
Definition MsgSwapCoinResponse_enc (m : MsgSwapCoinResponse) : bytes :=
  [].

Lemma coinswap_MsgSwapCoinResponse_laws : CodecLaws MsgSwapCoinResponse_codec MsgSwapCoinResponse_wf MsgSwapCoinResponse_enc.
Proof.
  apply message_laws; [done|done|intros; apply writes_nothing| |done]. intros [] _. apply reads_nothing.
Qed.
#[local] Hint Resolve coinswap_MsgSwapCoinResponse_laws : wire_laws.

Definition MsgUpdateParamsResponse_wf (m : MsgUpdateParamsResponse) : Prop := True.
Definition MsgUpdateParamsResponse_enc (m : MsgUpdateParamsResponse) : bytes :=
  [].

Lemma coinswap_MsgUpdateParamsResponse_laws : CodecLaws MsgUpdateParamsResponse_codec MsgUpdateParamsResponse_wf MsgUpdateParamsResponse_enc.
Proof.
  apply message_laws; [done|done|intros; apply writes_nothing| |done]. intros [] _. apply reads_nothing.
Qed.
#[local] Hint Resolve coinswap_MsgUpdateParamsResponse_laws : wire_laws.

Definition PoolInfo_wf (m : PoolInfo) : Prop := Coin_wf (Info_Standard m) ∧ Coin_wf (Info_Token m) ∧ Coin_wf (Info_Lpt m).
Definition PoolInfo_enc (m : PoolInfo) : bytes :=
  enc_string 0xa (Info_Id m) ++
  enc_string 0x12 (Info_EscrowAddress m) ++
  enc_message Coin_enc 0x1a (Info_Standard m) ++
  enc_message Coin_enc 0x22 (Info_Token m) ++
  enc_message Coin_enc 0x2a (Info_Lpt m) ++
  enc_string 0x32 (Info_Fee m).

Lemma coinswap_PoolInfo_laws : CodecLaws PoolInfo_codec PoolInfo_wf PoolInfo_enc.
Proof. wire_laws PoolInfo_wf PoolInfo_enc PoolInfo_Size PoolInfo_cases. Qed.
#[local] Hint Resolve coinswap_PoolInfo_laws : wire_laws.

Definition QueryParamsRequest_wf (m : QueryParamsRequest) : Prop := True.
Definition QueryParamsRequest_enc (m : QueryParamsRequest) : bytes :=
  [].

Lemma coinswap_QueryParamsRequest_laws : CodecLaws QueryParamsRequest_codec QueryParamsRequest_wf QueryParamsRequest_enc.
Proof.
  apply message_laws; [done|done|intros; apply writes_nothing| |done]. intros [] _. apply reads_nothing.
Qed.
#[local] Hint Resolve coinswap_QueryParamsRequest_laws : wire_laws.

Definition QueryParamsResponse_wf (m : QueryParamsResponse) : Prop := Params_wf (QueryParamsResponse_Params m).
Definition QueryParamsResponse_enc (m : QueryParamsResponse) : bytes :=
  enc_message Params_enc 0xa (QueryParamsResponse_Params m).

Lemma coinswap_QueryParamsResponse_laws : CodecLaws QueryParamsResponse_codec QueryParamsResponse_wf QueryParamsResponse_enc.
Proof. wire_laws QueryParamsResponse_wf QueryParamsResponse_enc QueryParamsResponse_Size QueryParamsResponse_cases. Qed.
#[local] Hint Resolve coinswap_QueryParamsResponse_laws : wire_laws.

Definition QueryLiquidityPoolRequest_wf (m : QueryLiquidityPoolRequest) : Prop := True.
Definition QueryLiquidityPoolRequest_enc (m : QueryLiquidityPoolRequest) : bytes :=
  enc_string 0xa (QueryLiquidityPoolRequest_LptDenom m).

Lemma coinswap_QueryLiquidityPoolRequest_laws : CodecLaws QueryLiquidityPoolRequest_codec QueryLiquidityPoolRequest_wf QueryLiquidityPoolRequest_enc.
Proof. wire_laws QueryLiquidityPoolRequest_wf QueryLiquidityPoolRequest_enc QueryLiquidityPoolRequest_Size QueryLiquidityPoolRequest_cases. Qed.
#[local] Hint Resolve coinswap_QueryLiquidityPoolRequest_laws : wire_laws.

Definition QueryLiquidityPoolResponse_wf (m : QueryLiquidityPoolResponse) : Prop := PoolInfo_wf (QueryLiquidityPoolResponse_Pool m).
Definition QueryLiquidityPoolResponse_enc (m : QueryLiquidityPoolResponse) : bytes :=
  enc_message PoolInfo_enc 0xa (QueryLiquidityPoolResponse_Pool m).

Lemma coinswap_QueryLiquidityPoolResponse_laws : CodecLaws QueryLiquidityPoolResponse_codec QueryLiquidityPoolResponse_wf QueryLiquidityPoolResponse_enc.
Proof. wire_laws QueryLiquidityPoolResponse_wf QueryLiquidityPoolResponse_enc QueryLiquidityPoolResponse_Size QueryLiquidityPoolResponse_cases. Qed.
#[local] Hint Resolve coinswap_QueryLiquidityPoolResponse_laws : wire_laws.

Definition QueryLiquidityPoolsRequest_wf (m : QueryLiquidityPoolsRequest) : Prop := (∀ x, QueryLiquidityPoolsRequest_Pagination m = Some x -> PageRequest_wf x).
Definition QueryLiquidityPoolsRequest_enc (m : QueryLiquidityPoolsRequest) : bytes :=
  enc_pointer PageRequest_enc 0xa (QueryLiquidityPoolsRequest_Pagination m).

Lemma coinswap_QueryLiquidityPoolsRequest_laws : CodecLaws QueryLiquidityPoolsRequest_codec QueryLiquidityPoolsRequest_wf QueryLiquidityPoolsRequest_enc.
Proof. wire_laws QueryLiquidityPoolsRequest_wf QueryLiquidityPoolsRequest_enc QueryLiquidityPoolsRequest_Size QueryLiquidityPoolsRequest_cases. Qed.
#[local] Hint Resolve coinswap_QueryLiquidityPoolsRequest_laws : wire_laws.

Definition QueryLiquidityPoolsResponse_wf (m : QueryLiquidityPoolsResponse) : Prop := Forall PoolInfo_wf (QueryLiquidityPoolsResponse_Pools m) ∧ (∀ x, QueryLiquidityPoolsResponse_Pagination m = Some x -> PageResponse_wf x).
Definition QueryLiquidityPoolsResponse_enc (m : QueryLiquidityPoolsResponse) : bytes :=
  enc_messages PoolInfo_enc 0xa (QueryLiquidityPoolsResponse_Pools m) ++
  enc_pointer PageResponse_enc 0x12 (QueryLiquidityPoolsResponse_Pagination m).

Lemma coinswap_QueryLiquidityPoolsResponse_laws : CodecLaws QueryLiquidityPoolsResponse_codec QueryLiquidityPoolsResponse_wf QueryLiquidityPoolsResponse_enc.
Proof. wire_laws QueryLiquidityPoolsResponse_wf QueryLiquidityPoolsResponse_enc QueryLiquidityPoolsResponse_Size QueryLiquidityPoolsResponse_cases. Qed.
#[local] Hint Resolve coinswap_QueryLiquidityPoolsResponse_laws : wire_laws.

End codecs.
#[export] Hint Resolve coinswap_Pool_laws coinswap_Params_laws coinswap_Input_laws coinswap_Output_laws coinswap_GenesisState_laws coinswap_MsgAddLiquidity_laws coinswap_MsgRemoveLiquidity_laws coinswap_MsgSwapOrder_laws coinswap_MsgUpdateParams_laws coinswap_MsgAddLiquidityResponse_laws coinswap_MsgRemoveLiquidityResponse_laws coinswap_MsgSwapCoinResponse_laws coinswap_MsgUpdateParamsResponse_laws coinswap_PoolInfo_laws coinswap_QueryParamsRequest_laws coinswap_QueryParamsResponse_laws coinswap_QueryLiquidityPoolRequest_laws coinswap_QueryLiquidityPoolResponse_laws coinswap_QueryLiquidityPoolsRequest_laws coinswap_QueryLiquidityPoolsResponse_laws : wire_laws.
