(* ===== verification/CsrCodec.v ===== *)
(** * Encodings of the messages and the stored values of x/csr

    The generated code of [csr.pb.go], [params.pb.go], [genesis.pb.go],
    [tx.pb.go] and [query.pb.go]. *)

From Stdlib Require Import Ascii.
From stdpp Require Import base strings list.
From S2P Require Import Prelude Sdk Csr Wire WireFacts WireCodec WireSdk.

#[local] Open Scope Z_scope.
#[local] Open Scope go_scope.


Section codecs.
Context {SC : SdkCodecs}.

(** ** [CSR] *)

Definition CSR_MarshalToSizedBuffer (m : CSR) : bytes -> outcome (bytes * Z) :=
  sized_buffer (
    put_custom Int_codec 0x22 (Revenue m) ;>
    put_varint 0x18 (Txs m) ;>
    put_varint 0x10 (Id m) ;>
    put_strings 0xa (Contracts m)).
Definition CSR_Size (m : CSR) : Z :=
  size_strings (Contracts m) +
  size_varint (Id m) +
  size_varint (Txs m) +
  size_message Int_codec (Revenue m).
Definition CSR_cases (m : CSR) (fieldNum wireType : Z) : option (reader CSR) :=
  let '(mkCSR contracts id_ txs revenue) := m in
  match fieldNum with
  | 1 => Some (get_strings "Contracts" wireType contracts (fun v => mkCSR v id_ txs revenue))
  | 2 => Some (get_varint wrap64 "Id" wireType (fun v => mkCSR contracts v txs revenue))
  | 3 => Some (get_varint wrap64 "Txs" wireType (fun v => mkCSR contracts id_ v revenue))
  | 4 => Some (get_custom Int_codec "Revenue" wireType revenue (fun v => mkCSR contracts id_ txs v))
  | _ => None
  end.
Definition CSR_Unmarshal : bytes -> CSR -> outcome CSR := unmarshal "CSR" CSR_cases.
Definition CSR_codec : Codec CSR :=
  message_codec (mkCSR [] 0 0 (zero Int_codec)) CSR_Size CSR_MarshalToSizedBuffer CSR_Unmarshal.

(** ** [Params] *)

Definition Params_MarshalToSizedBuffer (m : Params) : bytes -> outcome (bytes * Z) :=
  sized_buffer (
    put_custom Dec_codec 0x12 (CsrShares m) ;>
    put_bool 0x8 (EnableCsr m)).
Definition Params_Size (m : Params) : Z :=
  size_bool (EnableCsr m) +
  size_message Dec_codec (CsrShares m).
Definition Params_cases (m : Params) (fieldNum wireType : Z) : option (reader Params) :=
  let '(mkParams enableCsr csrShares) := m in
  match fieldNum with
  | 1 => Some (get_bool "EnableCsr" wireType (fun v => mkParams v csrShares))
  | 2 => Some (get_custom Dec_codec "CsrShares" wireType csrShares (fun v => mkParams enableCsr v))
  | _ => None
  end.
Definition Params_Unmarshal : bytes -> Params -> outcome Params := unmarshal "Params" Params_cases.
Definition Params_codec : Codec Params :=
  message_codec (mkParams false (zero Dec_codec)) Params_Size Params_MarshalToSizedBuffer Params_Unmarshal.

(** ** [GenesisState] *)

Definition GenesisState_MarshalToSizedBuffer (m : GenesisState) : bytes -> outcome (bytes * Z) :=
  sized_buffer (
    put_string 0x1a (Gen_TurnstileAddress m) ;>
    put_messages CSR_codec 0x12 (Gen_Csrs m) ;>
    put_message Params_codec 0xa (Gen_Params m)).
Definition GenesisState_Size (m : GenesisState) : Z :=
  size_message Params_codec (Gen_Params m) +
  size_messages CSR_codec (Gen_Csrs m) +
  size_string (Gen_TurnstileAddress m).
Definition GenesisState_cases (m : GenesisState) (fieldNum wireType : Z) : option (reader GenesisState) :=
  let '(mkGenesisState params csrs turnstileAddress) := m in
  match fieldNum with
  | 1 => Some (get_message Params_codec "Params" wireType params (fun v => mkGenesisState v csrs turnstileAddress))
  | 2 => Some (get_element CSR_codec "Csrs" wireType csrs (fun v => mkGenesisState params v turnstileAddress))
  | 3 => Some (get_string "TurnstileAddress" wireType (fun v => mkGenesisState params csrs v))
  | _ => None
  end.
Definition GenesisState_Unmarshal : bytes -> GenesisState -> outcome GenesisState := unmarshal "GenesisState" GenesisState_cases.
Definition GenesisState_codec : Codec GenesisState :=
  message_codec (mkGenesisState (zero Params_codec) [] "") GenesisState_Size GenesisState_MarshalToSizedBuffer GenesisState_Unmarshal.

(** ** [MsgUpdateParams] *)

Definition MsgUpdateParams_MarshalToSizedBuffer (m : MsgUpdateParams) : bytes -> outcome (bytes * Z) :=
  sized_buffer (
    put_message Params_codec 0x12 (Upd_Params m) ;>
    put_string 0xa (Upd_Authority m)).
Definition MsgUpdateParams_Size (m : MsgUpdateParams) : Z :=
  size_string (Upd_Authority m) +
  size_message Params_codec (Upd_Params m).
Definition MsgUpdateParams_cases (m : MsgUpdateParams) (fieldNum wireType : Z) : option (reader MsgUpdateParams) :=
  let '(mkMsgUpdateParams authority params) := m in
  match fieldNum with
  | 1 => Some (get_string "Authority" wireType (fun v => mkMsgUpdateParams v params))
  | 2 => Some (get_message Params_codec "Params" wireType params (fun v => mkMsgUpdateParams authority v))
  | _ => None
  end.
Definition MsgUpdateParams_Unmarshal : bytes -> MsgUpdateParams -> outcome MsgUpdateParams := unmarshal "MsgUpdateParams" MsgUpdateParams_cases.
Definition MsgUpdateParams_codec : Codec MsgUpdateParams :=
  message_codec (mkMsgUpdateParams "" (zero Params_codec)) MsgUpdateParams_Size MsgUpdateParams_MarshalToSizedBuffer MsgUpdateParams_Unmarshal.

(** ** [MsgUpdateParamsResponse] *)

Record MsgUpdateParamsResponse := mkMsgUpdateParamsResponse {}.
Definition MsgUpdateParamsResponse_MarshalToSizedBuffer (m : MsgUpdateParamsResponse) : bytes -> outcome (bytes * Z) := sized_buffer done_writing.
Definition MsgUpdateParamsResponse_Size (m : MsgUpdateParamsResponse) : Z := 0.
Definition MsgUpdateParamsResponse_cases (m : MsgUpdateParamsResponse) (fieldNum wireType : Z) : option (reader MsgUpdateParamsResponse) := None.
Definition MsgUpdateParamsResponse_Unmarshal : bytes -> MsgUpdateParamsResponse -> outcome MsgUpdateParamsResponse := unmarshal "MsgUpdateParamsResponse" MsgUpdateParamsResponse_cases.
Definition MsgUpdateParamsResponse_codec : Codec MsgUpdateParamsResponse :=
  message_codec (mkMsgUpdateParamsResponse) MsgUpdateParamsResponse_Size MsgUpdateParamsResponse_MarshalToSizedBuffer MsgUpdateParamsResponse_Unmarshal.

(** ** [QueryParamsRequest] *)

Record QueryParamsRequest := mkQueryParamsRequest {}.
Definition QueryParamsRequest_MarshalToSizedBuffer (m : QueryParamsRequest) : bytes -> outcome (bytes * Z) := sized_buffer done_writing.
Definition QueryParamsRequest_Size (m : QueryParamsRequest) : Z := 0.
Definition QueryParamsRequest_cases (m : QueryParamsRequest) (fieldNum wireType : Z) : option (reader QueryParamsRequest) := None.
Definition QueryParamsRequest_Unmarshal : bytes -> QueryParamsRequest -> outcome QueryParamsRequest := unmarshal "QueryParamsRequest" QueryParamsRequest_cases.
Definition QueryParamsRequest_codec : Codec QueryParamsRequest :=
  message_codec (mkQueryParamsRequest) QueryParamsRequest_Size QueryParamsRequest_MarshalToSizedBuffer QueryParamsRequest_Unmarshal.

(** ** [QueryParamsResponse] *)

Record QueryParamsResponse := mkQueryParamsResponse { QueryParamsResponse_Params : Params }.
Definition QueryParamsResponse_MarshalToSizedBuffer (m : QueryParamsResponse) : bytes -> outcome (bytes * Z) :=
  sized_buffer (
    put_message Params_codec 0xa (QueryParamsResponse_Params m)).
Definition QueryParamsResponse_Size (m : QueryParamsResponse) : Z :=
  size_message Params_codec (QueryParamsResponse_Params m).
Definition QueryParamsResponse_cases (m : QueryParamsResponse) (fieldNum wireType : Z) : option (reader QueryParamsResponse) :=
  let '(mkQueryParamsResponse params) := m in
  match fieldNum with
  | 1 => Some (get_message Params_codec "Params" wireType params (fun v => mkQueryParamsResponse v))
  | _ => None
  end.
Definition QueryParamsResponse_Unmarshal : bytes -> QueryParamsResponse -> outcome QueryParamsResponse := unmarshal "QueryParamsResponse" QueryParamsResponse_cases.
Definition QueryParamsResponse_codec : Codec QueryParamsResponse :=
  message_codec (mkQueryParamsResponse (zero Params_codec)) QueryParamsResponse_Size QueryParamsResponse_MarshalToSizedBuffer QueryParamsResponse_Unmarshal.

(** ** [QueryCSRsRequest] *)

Record QueryCSRsRequest := mkQueryCSRsRequest { QueryCSRsRequest_Pagination : option PageRequest }.
Definition QueryCSRsRequest_MarshalToSizedBuffer (m : QueryCSRsRequest) : bytes -> outcome (bytes * Z) :=
  sized_buffer (
    put_pointer PageRequest_codec 0xa (QueryCSRsRequest_Pagination m)).
Definition QueryCSRsRequest_Size (m : QueryCSRsRequest) : Z :=
  size_pointer PageRequest_codec (QueryCSRsRequest_Pagination m).
Definition QueryCSRsRequest_cases (m : QueryCSRsRequest) (fieldNum wireType : Z) : option (reader QueryCSRsRequest) :=
  let '(mkQueryCSRsRequest pagination) := m in
  match fieldNum with
  | 1 => Some (get_pointer PageRequest_codec "Pagination" wireType pagination (fun v => mkQueryCSRsRequest v))
  | _ => None
  end.
Definition QueryCSRsRequest_Unmarshal : bytes -> QueryCSRsRequest -> outcome QueryCSRsRequest := unmarshal "QueryCSRsRequest" QueryCSRsRequest_cases.
Definition QueryCSRsRequest_codec : Codec QueryCSRsRequest :=
  message_codec (mkQueryCSRsRequest None) QueryCSRsRequest_Size QueryCSRsRequest_MarshalToSizedBuffer QueryCSRsRequest_Unmarshal.

(** ** [QueryCSRsResponse] *)

Record QueryCSRsResponse := mkQueryCSRsResponse { QueryCSRsResponse_Csrs : list CSR; QueryCSRsResponse_Pagination : option PageResponse }.
Definition QueryCSRsResponse_MarshalToSizedBuffer (m : QueryCSRsResponse) : bytes -> outcome (bytes * Z) :=
  sized_buffer (
    put_pointer PageResponse_codec 0x12 (QueryCSRsResponse_Pagination m) ;>
    put_messages CSR_codec 0xa (QueryCSRsResponse_Csrs m)).
Definition QueryCSRsResponse_Size (m : QueryCSRsResponse) : Z :=
  size_messages CSR_codec (QueryCSRsResponse_Csrs m) +
  size_pointer PageResponse_codec (QueryCSRsResponse_Pagination m).
Definition QueryCSRsResponse_cases (m : QueryCSRsResponse) (fieldNum wireType : Z) : option (reader QueryCSRsResponse) :=
  let '(mkQueryCSRsResponse csrs pagination) := m in
  match fieldNum with
  | 1 => Some (get_element CSR_codec "Csrs" wireType csrs (fun v => mkQueryCSRsResponse v pagination))
  | 2 => Some (get_pointer PageResponse_codec "Pagination" wireType pagination (fun v => mkQueryCSRsResponse csrs v))
  | _ => None
  end.
Definition QueryCSRsResponse_Unmarshal : bytes -> QueryCSRsResponse -> outcome QueryCSRsResponse := unmarshal "QueryCSRsResponse" QueryCSRsResponse_cases.
Definition QueryCSRsResponse_codec : Codec QueryCSRsResponse :=
  message_codec (mkQueryCSRsResponse [] None) QueryCSRsResponse_Size QueryCSRsResponse_MarshalToSizedBuffer QueryCSRsResponse_Unmarshal.

(** ** [QueryCSRByNFTRequest] *)

Record QueryCSRByNFTRequest := mkQueryCSRByNFTRequest { QueryCSRByNFTRequest_NftId : Z }.
Definition QueryCSRByNFTRequest_MarshalToSizedBuffer (m : QueryCSRByNFTRequest) : bytes -> outcome (bytes * Z) :=
  sized_buffer (
    put_varint 0x8 (QueryCSRByNFTRequest_NftId m)).
Definition QueryCSRByNFTRequest_Size (m : QueryCSRByNFTRequest) : Z :=
  size_varint (QueryCSRByNFTRequest_NftId m).
Definition QueryCSRByNFTRequest_cases (m : QueryCSRByNFTRequest) (fieldNum wireType : Z) : option (reader QueryCSRByNFTRequest) :=
  let '(mkQueryCSRByNFTRequest nftId) := m in
  match fieldNum with
  | 1 => Some (get_varint wrap64 "NftId" wireType (fun v => mkQueryCSRByNFTRequest v))
  | _ => None
  end.
Definition QueryCSRByNFTRequest_Unmarshal : bytes -> QueryCSRByNFTRequest -> outcome QueryCSRByNFTRequest := unmarshal "QueryCSRByNFTRequest" QueryCSRByNFTRequest_cases.
Definition QueryCSRByNFTRequest_codec : Codec QueryCSRByNFTRequest :=
  message_codec (mkQueryCSRByNFTRequest 0) QueryCSRByNFTRequest_Size QueryCSRByNFTRequest_MarshalToSizedBuffer QueryCSRByNFTRequest_Unmarshal.

(** ** [QueryCSRByNFTResponse] *)

Record QueryCSRByNFTResponse := mkQueryCSRByNFTResponse { QueryCSRByNFTResponse_Csr : CSR }.
Definition QueryCSRByNFTResponse_MarshalToSizedBuffer (m : QueryCSRByNFTResponse) : bytes -> outcome (bytes * Z) :=
  sized_buffer (
    put_message CSR_codec 0xa (QueryCSRByNFTResponse_Csr m)).
Definition QueryCSRByNFTResponse_Size (m : QueryCSRByNFTResponse) : Z :=
  size_message CSR_codec (QueryCSRByNFTResponse_Csr m).
Definition QueryCSRByNFTResponse_cases (m : QueryCSRByNFTResponse) (fieldNum wireType : Z) : option (reader QueryCSRByNFTResponse) :=
  let '(mkQueryCSRByNFTResponse csr) := m in
  match fieldNum with
  | 1 => Some (get_message CSR_codec "Csr" wireType csr (fun v => mkQueryCSRByNFTResponse v))
  | _ => None
  end.
Definition QueryCSRByNFTResponse_Unmarshal : bytes -> QueryCSRByNFTResponse -> outcome QueryCSRByNFTResponse := unmarshal "QueryCSRByNFTResponse" QueryCSRByNFTResponse_cases.
Definition QueryCSRByNFTResponse_codec : Codec QueryCSRByNFTResponse :=
  message_codec (mkQueryCSRByNFTResponse (zero CSR_codec)) QueryCSRByNFTResponse_Size QueryCSRByNFTResponse_MarshalToSizedBuffer QueryCSRByNFTResponse_Unmarshal.

(** ** [QueryCSRByContractRequest] *)

Record QueryCSRByContractRequest := mkQueryCSRByContractRequest { QueryCSRByContractRequest_Address : string }.
Definition QueryCSRByContractRequest_MarshalToSizedBuffer (m : QueryCSRByContractRequest) : bytes -> outcome (bytes * Z) :=
  sized_buffer (
    put_string 0xa (QueryCSRByContractRequest_Address m)).
Definition QueryCSRByContractRequest_Size (m : QueryCSRByContractRequest) : Z :=
  size_string (QueryCSRByContractRequest_Address m).
Definition QueryCSRByContractRequest_cases (m : QueryCSRByContractRequest) (fieldNum wireType : Z) : option (reader QueryCSRByContractRequest) :=
  let '(mkQueryCSRByContractRequest address) := m in
  match fieldNum with
  | 1 => Some (get_string "Address" wireType (fun v => mkQueryCSRByContractRequest v))
  | _ => None
  end.
Definition QueryCSRByContractRequest_Unmarshal : bytes -> QueryCSRByContractRequest -> outcome QueryCSRByContractRequest := unmarshal "QueryCSRByContractRequest" QueryCSRByContractRequest_cases.
Definition QueryCSRByContractRequest_codec : Codec QueryCSRByContractRequest :=
  message_codec (mkQueryCSRByContractRequest "") QueryCSRByContractRequest_Size QueryCSRByContractRequest_MarshalToSizedBuffer QueryCSRByContractRequest_Unmarshal.

(** ** [QueryCSRByContractResponse] *)

Record QueryCSRByContractResponse := mkQueryCSRByContractResponse { QueryCSRByContractResponse_Csr : CSR }.
Definition QueryCSRByContractResponse_MarshalToSizedBuffer (m : QueryCSRByContractResponse) : bytes -> outcome (bytes * Z) :=
  sized_buffer (
    put_message CSR_codec 0xa (QueryCSRByContractResponse_Csr m)).
Definition QueryCSRByContractResponse_Size (m : QueryCSRByContractResponse) : Z :=
  size_message CSR_codec (QueryCSRByContractResponse_Csr m).
Definition QueryCSRByContractResponse_cases (m : QueryCSRByContractResponse) (fieldNum wireType : Z) : option (reader QueryCSRByContractResponse) :=
  let '(mkQueryCSRByContractResponse csr) := m in
  match fieldNum with
  | 1 => Some (get_message CSR_codec "Csr" wireType csr (fun v => mkQueryCSRByContractResponse v))
  | _ => None
  end.
Definition QueryCSRByContractResponse_Unmarshal : bytes -> QueryCSRByContractResponse -> outcome QueryCSRByContractResponse := unmarshal "QueryCSRByContractResponse" QueryCSRByContractResponse_cases.
Definition QueryCSRByContractResponse_codec : Codec QueryCSRByContractResponse :=
  message_codec (mkQueryCSRByContractResponse (zero CSR_codec)) QueryCSRByContractResponse_Size QueryCSRByContractResponse_MarshalToSizedBuffer QueryCSRByContractResponse_Unmarshal.

(** ** [QueryTurnstileRequest] *)

Record QueryTurnstileRequest := mkQueryTurnstileRequest {}.
Definition QueryTurnstileRequest_MarshalToSizedBuffer (m : QueryTurnstileRequest) : bytes -> outcome (bytes * Z) := sized_buffer done_writing.
Definition QueryTurnstileRequest_Size (m : QueryTurnstileRequest) : Z := 0.
Definition QueryTurnstileRequest_cases (m : QueryTurnstileRequest) (fieldNum wireType : Z) : option (reader QueryTurnstileRequest) := None.
Definition QueryTurnstileRequest_Unmarshal : bytes -> QueryTurnstileRequest -> outcome QueryTurnstileRequest := unmarshal "QueryTurnstileRequest" QueryTurnstileRequest_cases.
Definition QueryTurnstileRequest_codec : Codec QueryTurnstileRequest :=
  message_codec (mkQueryTurnstileRequest) QueryTurnstileRequest_Size QueryTurnstileRequest_MarshalToSizedBuffer QueryTurnstileRequest_Unmarshal.

(** ** [QueryTurnstileResponse] *)

Record QueryTurnstileResponse := mkQueryTurnstileResponse { QueryTurnstileResponse_Address : string }.
Definition QueryTurnstileResponse_MarshalToSizedBuffer (m : QueryTurnstileResponse) : bytes -> outcome (bytes * Z) :=
  sized_buffer (
    put_string 0xa (QueryTurnstileResponse_Address m)).
Definition QueryTurnstileResponse_Size (m : QueryTurnstileResponse) : Z :=
  size_string (QueryTurnstileResponse_Address m).
Definition QueryTurnstileResponse_cases (m : QueryTurnstileResponse) (fieldNum wireType : Z) : option (reader QueryTurnstileResponse) :=
  let '(mkQueryTurnstileResponse address) := m in
  match fieldNum with
  | 1 => Some (get_string "Address" wireType (fun v => mkQueryTurnstileResponse v))
  | _ => None
  end.
Definition QueryTurnstileResponse_Unmarshal : bytes -> QueryTurnstileResponse -> outcome QueryTurnstileResponse := unmarshal "QueryTurnstileResponse" QueryTurnstileResponse_cases.
Definition QueryTurnstileResponse_codec : Codec QueryTurnstileResponse :=
  message_codec (mkQueryTurnstileResponse "") QueryTurnstileResponse_Size QueryTurnstileResponse_MarshalToSizedBuffer QueryTurnstileResponse_Unmarshal.

(** ** Well-formed messages and their encodings *)

Context {SL : SdkCodecLaws SC}.

Definition CSR_wf (m : CSR) : Prop := is_uint64 (Id m) ∧ is_uint64 (Txs m) ∧ Int_wf (Revenue m).
Definition CSR_enc (m : CSR) : bytes :=
  enc_strings 0xa (Contracts m) ++
  enc_varint 0x10 (Id m) ++
  enc_varint 0x18 (Txs m) ++
  enc_custom Int_enc 0x22 (Revenue m).

Lemma csr_CSR_laws : CodecLaws CSR_codec CSR_wf CSR_enc.
Proof. wire_laws CSR_wf CSR_enc CSR_Size CSR_cases. Qed.
#[local] Hint Resolve csr_CSR_laws : wire_laws.

Definition Params_wf (m : Params) : Prop := Dec_wf (CsrShares m).
Definition Params_enc (m : Params) : bytes :=
  enc_bool 0x8 (EnableCsr m) ++
  enc_custom Dec_enc 0x12 (CsrShares m).

Lemma csr_Params_laws : CodecLaws Params_codec Params_wf Params_enc.
Proof. wire_laws Params_wf Params_enc Params_Size Params_cases. Qed.
#[local] Hint Resolve csr_Params_laws : wire_laws.

Definition GenesisState_wf (m : GenesisState) : Prop := Params_wf (Gen_Params m) ∧ Forall CSR_wf (Gen_Csrs m).
Definition GenesisState_enc (m : GenesisState) : bytes :=
  enc_message Params_enc 0xa (Gen_Params m) ++
  enc_messages CSR_enc 0x12 (Gen_Csrs m) ++
  enc_string 0x1a (Gen_TurnstileAddress m).

Lemma csr_GenesisState_laws : CodecLaws GenesisState_codec GenesisState_wf GenesisState_enc.
Proof. wire_laws GenesisState_wf GenesisState_enc GenesisState_Size GenesisState_cases. Qed.
#[local] Hint Resolve csr_GenesisState_laws : wire_laws.

Definition MsgUpdateParams_wf (m : MsgUpdateParams) : Prop := Params_wf (Upd_Params m).
Definition MsgUpdateParams_enc (m : MsgUpdateParams) : bytes :=
  enc_string 0xa (Upd_Authority m) ++
  enc_message Params_enc 0x12 (Upd_Params m).

Lemma csr_MsgUpdateParams_laws : CodecLaws MsgUpdateParams_codec MsgUpdateParams_wf MsgUpdateParams_enc.
Proof. wire_laws MsgUpdateParams_wf MsgUpdateParams_enc MsgUpdateParams_Size MsgUpdateParams_cases. Qed.
#[local] Hint Resolve csr_MsgUpdateParams_laws : wire_laws.

Definition MsgUpdateParamsResponse_wf (m : MsgUpdateParamsResponse) : Prop := True.
Definition MsgUpdateParamsResponse_enc (m : MsgUpdateParamsResponse) : bytes :=
  [].

Lemma csr_MsgUpdateParamsResponse_laws : CodecLaws MsgUpdateParamsResponse_codec MsgUpdateParamsResponse_wf MsgUpdateParamsResponse_enc.
Proof.
  apply message_laws; [done|done|intros; apply writes_nothing| |done]. intros [] _. apply reads_nothing.
Qed.
#[local] Hint Resolve csr_MsgUpdateParamsResponse_laws : wire_laws.

Definition QueryParamsRequest_wf (m : QueryParamsRequest) : Prop := True.
Definition QueryParamsRequest_enc (m : QueryParamsRequest) : bytes :=
  [].

Lemma csr_QueryParamsRequest_laws : CodecLaws QueryParamsRequest_codec QueryParamsRequest_wf QueryParamsRequest_enc.
Proof.
  apply message_laws; [done|done|intros; apply writes_nothing| |done]. intros [] _. apply reads_nothing.
Qed.
#[local] Hint Resolve csr_QueryParamsRequest_laws : wire_laws.

Definition QueryParamsResponse_wf (m : QueryParamsResponse) : Prop := Params_wf (QueryParamsResponse_Params m).
Definition QueryParamsResponse_enc (m : QueryParamsResponse) : bytes :=
  enc_message Params_enc 0xa (QueryParamsResponse_Params m).

Lemma csr_QueryParamsResponse_laws : CodecLaws QueryParamsResponse_codec QueryParamsResponse_wf QueryParamsResponse_enc.
Proof. wire_laws QueryParamsResponse_wf QueryParamsResponse_enc QueryParamsResponse_Size QueryParamsResponse_cases. Qed.
#[local] Hint Resolve csr_QueryParamsResponse_laws : wire_laws.

Definition QueryCSRsRequest_wf (m : QueryCSRsRequest) : Prop := (∀ x, QueryCSRsRequest_Pagination m = Some x -> PageRequest_wf x).
Definition QueryCSRsRequest_enc (m : QueryCSRsRequest) : bytes :=
  enc_pointer PageRequest_enc 0xa (QueryCSRsRequest_Pagination m).

Lemma csr_QueryCSRsRequest_laws : CodecLaws QueryCSRsRequest_codec QueryCSRsRequest_wf QueryCSRsRequest_enc.
Proof. wire_laws QueryCSRsRequest_wf QueryCSRsRequest_enc QueryCSRsRequest_Size QueryCSRsRequest_cases. Qed.
#[local] Hint Resolve csr_QueryCSRsRequest_laws : wire_laws.

Definition QueryCSRsResponse_wf (m : QueryCSRsResponse) : Prop := Forall CSR_wf (QueryCSRsResponse_Csrs m) ∧ (∀ x, QueryCSRsResponse_Pagination m = Some x -> PageResponse_wf x).
Definition QueryCSRsResponse_enc (m : QueryCSRsResponse) : bytes :=
  enc_messages CSR_enc 0xa (QueryCSRsResponse_Csrs m) ++
  enc_pointer PageResponse_enc 0x12 (QueryCSRsResponse_Pagination m).

Lemma csr_QueryCSRsResponse_laws : CodecLaws QueryCSRsResponse_codec QueryCSRsResponse_wf QueryCSRsResponse_enc.
Proof. wire_laws QueryCSRsResponse_wf QueryCSRsResponse_enc QueryCSRsResponse_Size QueryCSRsResponse_cases. Qed.
#[local] Hint Resolve csr_QueryCSRsResponse_laws : wire_laws.

Definition QueryCSRByNFTRequest_wf (m : QueryCSRByNFTRequest) : Prop := is_uint64 (QueryCSRByNFTRequest_NftId m).
Definition QueryCSRByNFTRequest_enc (m : QueryCSRByNFTRequest) : bytes :=
  enc_varint 0x8 (QueryCSRByNFTRequest_NftId m).

Lemma csr_QueryCSRByNFTRequest_laws : CodecLaws QueryCSRByNFTRequest_codec QueryCSRByNFTRequest_wf QueryCSRByNFTRequest_enc.
Proof. wire_laws QueryCSRByNFTRequest_wf QueryCSRByNFTRequest_enc QueryCSRByNFTRequest_Size QueryCSRByNFTRequest_cases. Qed.
#[local] Hint Resolve csr_QueryCSRByNFTRequest_laws : wire_laws.

Definition QueryCSRByNFTResponse_wf (m : QueryCSRByNFTResponse) : Prop := CSR_wf (QueryCSRByNFTResponse_Csr m).
Definition QueryCSRByNFTResponse_enc (m : QueryCSRByNFTResponse) : bytes :=
  enc_message CSR_enc 0xa (QueryCSRByNFTResponse_Csr m).

Lemma csr_QueryCSRByNFTResponse_laws : CodecLaws QueryCSRByNFTResponse_codec QueryCSRByNFTResponse_wf QueryCSRByNFTResponse_enc.
Proof. wire_laws QueryCSRByNFTResponse_wf QueryCSRByNFTResponse_enc QueryCSRByNFTResponse_Size QueryCSRByNFTResponse_cases. Qed.
#[local] Hint Resolve csr_QueryCSRByNFTResponse_laws : wire_laws.

Definition QueryCSRByContractRequest_wf (m : QueryCSRByContractRequest) : Prop := True.
Definition QueryCSRByContractRequest_enc (m : QueryCSRByContractRequest) : bytes :=
  enc_string 0xa (QueryCSRByContractRequest_Address m).

Lemma csr_QueryCSRByContractRequest_laws : CodecLaws QueryCSRByContractRequest_codec QueryCSRByContractRequest_wf QueryCSRByContractRequest_enc.
Proof. wire_laws QueryCSRByContractRequest_wf QueryCSRByContractRequest_enc QueryCSRByContractRequest_Size QueryCSRByContractRequest_cases. Qed.
#[local] Hint Resolve csr_QueryCSRByContractRequest_laws : wire_laws.

Definition QueryCSRByContractResponse_wf (m : QueryCSRByContractResponse) : Prop := CSR_wf (QueryCSRByContractResponse_Csr m).
Definition QueryCSRByContractResponse_enc (m : QueryCSRByContractResponse) : bytes :=
  enc_message CSR_enc 0xa (QueryCSRByContractResponse_Csr m).

Lemma csr_QueryCSRByContractResponse_laws : CodecLaws QueryCSRByContractResponse_codec QueryCSRByContractResponse_wf QueryCSRByContractResponse_enc.
Proof. wire_laws QueryCSRByContractResponse_wf QueryCSRByContractResponse_enc QueryCSRByContractResponse_Size QueryCSRByContractResponse_cases. Qed.
#[local] Hint Resolve csr_QueryCSRByContractResponse_laws : wire_laws.

Definition QueryTurnstileRequest_wf (m : QueryTurnstileRequest) : Prop := True.
Definition QueryTurnstileRequest_enc (m : QueryTurnstileRequest) : bytes :=
  [].

Lemma csr_QueryTurnstileRequest_laws : CodecLaws QueryTurnstileRequest_codec QueryTurnstileRequest_wf QueryTurnstileRequest_enc.
Proof.
  apply message_laws; [done|done|intros; apply writes_nothing| |done]. intros [] _. apply reads_nothing.
Qed.
#[local] Hint Resolve csr_QueryTurnstileRequest_laws : wire_laws.

Definition QueryTurnstileResponse_wf (m : QueryTurnstileResponse) : Prop := True.
Definition QueryTurnstileResponse_enc (m : QueryTurnstileResponse) : bytes :=
  enc_string 0xa (QueryTurnstileResponse_Address m).

Lemma csr_QueryTurnstileResponse_laws : CodecLaws QueryTurnstileResponse_codec QueryTurnstileResponse_wf QueryTurnstileResponse_enc.
Proof. wire_laws QueryTurnstileResponse_wf QueryTurnstileResponse_enc QueryTurnstileResponse_Size QueryTurnstileResponse_cases. Qed.
#[local] Hint Resolve csr_QueryTurnstileResponse_laws : wire_laws.

End codecs.
#[export] Hint Resolve csr_CSR_laws csr_Params_laws csr_GenesisState_laws csr_MsgUpdateParams_laws csr_MsgUpdateParamsResponse_laws csr_QueryParamsRequest_laws csr_QueryParamsResponse_laws csr_QueryCSRsRequest_laws csr_QueryCSRsResponse_laws csr_QueryCSRByNFTRequest_laws csr_QueryCSRByNFTResponse_laws csr_QueryCSRByContractRequest_laws csr_QueryCSRByContractResponse_laws csr_QueryTurnstileRequest_laws csr_QueryTurnstileResponse_laws : wire_laws.
