(* ===== verification/EpochsCodec.v ===== *)
(** * Encodings of the stored values of x/epochs

    The generated code of [genesis.pb.go] and [query.pb.go]. *)

From Stdlib Require Import Ascii.
From stdpp Require Import base strings list.
From S2P Require Import Prelude Sdk Epochs Wire WireFacts WireCodec WireSdk.

#[local] Open Scope Z_scope.
#[local] Open Scope go_scope.


Section codecs.
Context {SC : SdkCodecs}.

(** ** [EpochInfo] *)

Definition EpochInfo_MarshalToSizedBuffer (m : EpochInfo) : bytes -> outcome (bytes * Z) :=
  sized_buffer (
    put_varint 0x38 (CurrentEpochStartHeight m) ;>
    put_bool 0x30 (EpochCountingStarted m) ;>
    put_std Time_codec 0x2a (CurrentEpochStartTime m) ;>
    put_varint 0x20 (CurrentEpoch m) ;>
    put_std Duration_codec 0x1a (Duration m) ;>
    put_std Time_codec 0x12 (StartTime m) ;>
    put_string 0xa (Identifier m)).
Definition EpochInfo_Size (m : EpochInfo) : Z :=
  size_string (Identifier m) +
  size_message Time_codec (StartTime m) +
  size_message Duration_codec (Duration m) +
  size_varint (CurrentEpoch m) +
  size_message Time_codec (CurrentEpochStartTime m) +
  size_bool (EpochCountingStarted m) +
  size_varint (CurrentEpochStartHeight m).
Definition EpochInfo_cases (m : EpochInfo) (fieldNum wireType : Z) : option (reader EpochInfo) :=
  let '(mkEpochInfo identifier startTime duration currentEpoch currentEpochStartTime epochCountingStarted currentEpochStartHeight) := m in
  match fieldNum with
  | 1 => Some (get_string "Identifier" wireType (fun v => mkEpochInfo v startTime duration currentEpoch currentEpochStartTime epochCountingStarted currentEpochStartHeight))
  | 2 => Some (get_message Time_codec "StartTime" wireType startTime (fun v => mkEpochInfo identifier v duration currentEpoch currentEpochStartTime epochCountingStarted currentEpochStartHeight))
  | 3 => Some (get_message Duration_codec "Duration" wireType duration (fun v => mkEpochInfo identifier startTime v currentEpoch currentEpochStartTime epochCountingStarted currentEpochStartHeight))
  | 4 => Some (get_varint sint64 "CurrentEpoch" wireType (fun v => mkEpochInfo identifier startTime duration v currentEpochStartTime epochCountingStarted currentEpochStartHeight))
  | 5 => Some (get_message Time_codec "CurrentEpochStartTime" wireType currentEpochStartTime (fun v => mkEpochInfo identifier startTime duration currentEpoch v epochCountingStarted currentEpochStartHeight))
  | 6 => Some (get_bool "EpochCountingStarted" wireType (fun v => mkEpochInfo identifier startTime duration currentEpoch currentEpochStartTime v currentEpochStartHeight))
  | 7 => Some (get_varint sint64 "CurrentEpochStartHeight" wireType (fun v => mkEpochInfo identifier startTime duration currentEpoch currentEpochStartTime epochCountingStarted v))
  | _ => None
  end.
Definition EpochInfo_Unmarshal : bytes -> EpochInfo -> outcome EpochInfo := unmarshal "EpochInfo" EpochInfo_cases.
Definition EpochInfo_codec : Codec EpochInfo :=
  message_codec (mkEpochInfo "" (zero Time_codec) (zero Duration_codec) 0 (zero Time_codec) false 0) EpochInfo_Size EpochInfo_MarshalToSizedBuffer EpochInfo_Unmarshal.

(** ** [GenesisState] *)

Definition GenesisState_MarshalToSizedBuffer (m : GenesisState) : bytes -> outcome (bytes * Z) :=
  sized_buffer (
    put_messages EpochInfo_codec 0xa (Epochs m)).
Definition GenesisState_Size (m : GenesisState) : Z :=
  size_messages EpochInfo_codec (Epochs m).
Definition GenesisState_cases (m : GenesisState) (fieldNum wireType : Z) : option (reader GenesisState) :=
  let '(mkGenesisState epochs) := m in
  match fieldNum with
  | 1 => Some (get_element EpochInfo_codec "Epochs" wireType epochs (fun v => mkGenesisState v))
  | _ => None
  end.
Definition GenesisState_Unmarshal : bytes -> GenesisState -> outcome GenesisState := unmarshal "GenesisState" GenesisState_cases.
Definition GenesisState_codec : Codec GenesisState :=
  message_codec (mkGenesisState []) GenesisState_Size GenesisState_MarshalToSizedBuffer GenesisState_Unmarshal.

(** ** [QueryEpochsInfoRequest] *)

Record QueryEpochsInfoRequest := mkQueryEpochsInfoRequest { QueryEpochsInfoRequest_Pagination : option PageRequest }.
Definition QueryEpochsInfoRequest_MarshalToSizedBuffer (m : QueryEpochsInfoRequest) : bytes -> outcome (bytes * Z) :=
  sized_buffer (
    put_pointer PageRequest_codec 0xa (QueryEpochsInfoRequest_Pagination m)).
Definition QueryEpochsInfoRequest_Size (m : QueryEpochsInfoRequest) : Z :=
  size_pointer PageRequest_codec (QueryEpochsInfoRequest_Pagination m).
Definition QueryEpochsInfoRequest_cases (m : QueryEpochsInfoRequest) (fieldNum wireType : Z) : option (reader QueryEpochsInfoRequest) :=
  let '(mkQueryEpochsInfoRequest pagination) := m in
  match fieldNum with
  | 1 => Some (get_pointer PageRequest_codec "Pagination" wireType pagination (fun v => mkQueryEpochsInfoRequest v))
  | _ => None
  end.
Definition QueryEpochsInfoRequest_Unmarshal : bytes -> QueryEpochsInfoRequest -> outcome QueryEpochsInfoRequest := unmarshal "QueryEpochsInfoRequest" QueryEpochsInfoRequest_cases.
Definition QueryEpochsInfoRequest_codec : Codec QueryEpochsInfoRequest :=
  message_codec (mkQueryEpochsInfoRequest None) QueryEpochsInfoRequest_Size QueryEpochsInfoRequest_MarshalToSizedBuffer QueryEpochsInfoRequest_Unmarshal.

(** ** [QueryEpochsInfoResponse] *)

Record QueryEpochsInfoResponse := mkQueryEpochsInfoResponse { QueryEpochsInfoResponse_Epochs : list EpochInfo; QueryEpochsInfoResponse_Pagination : option PageResponse }.
Definition QueryEpochsInfoResponse_MarshalToSizedBuffer (m : QueryEpochsInfoResponse) : bytes -> outcome (bytes * Z) :=
  sized_buffer (
    put_pointer PageResponse_codec 0x12 (QueryEpochsInfoResponse_Pagination m) ;>
    put_messages EpochInfo_codec 0xa (QueryEpochsInfoResponse_Epochs m)).
Definition QueryEpochsInfoResponse_Size (m : QueryEpochsInfoResponse) : Z :=
  size_messages EpochInfo_codec (QueryEpochsInfoResponse_Epochs m) +
  size_pointer PageResponse_codec (QueryEpochsInfoResponse_Pagination m).
Definition QueryEpochsInfoResponse_cases (m : QueryEpochsInfoResponse) (fieldNum wireType : Z) : option (reader QueryEpochsInfoResponse) :=
  let '(mkQueryEpochsInfoResponse epochs pagination) := m in
  match fieldNum with
  | 1 => Some (get_element EpochInfo_codec "Epochs" wireType epochs (fun v => mkQueryEpochsInfoResponse v pagination))
  | 2 => Some (get_pointer PageResponse_codec "Pagination" wireType pagination (fun v => mkQueryEpochsInfoResponse epochs v))
  | _ => None
  end.
Definition QueryEpochsInfoResponse_Unmarshal : bytes -> QueryEpochsInfoResponse -> outcome QueryEpochsInfoResponse := unmarshal "QueryEpochsInfoResponse" QueryEpochsInfoResponse_cases.
Definition QueryEpochsInfoResponse_codec : Codec QueryEpochsInfoResponse :=
  message_codec (mkQueryEpochsInfoResponse [] None) QueryEpochsInfoResponse_Size QueryEpochsInfoResponse_MarshalToSizedBuffer QueryEpochsInfoResponse_Unmarshal.

(** ** [QueryCurrentEpochRequest] *)

Record QueryCurrentEpochRequest := mkQueryCurrentEpochRequest { QueryCurrentEpochRequest_Identifier : string }.
Definition QueryCurrentEpochRequest_MarshalToSizedBuffer (m : QueryCurrentEpochRequest) : bytes -> outcome (bytes * Z) :=
  sized_buffer (
    put_string 0xa (QueryCurrentEpochRequest_Identifier m)).
Definition QueryCurrentEpochRequest_Size (m : QueryCurrentEpochRequest) : Z :=
  size_string (QueryCurrentEpochRequest_Identifier m).
Definition QueryCurrentEpochRequest_cases (m : QueryCurrentEpochRequest) (fieldNum wireType : Z) : option (reader QueryCurrentEpochRequest) :=
  let '(mkQueryCurrentEpochRequest identifier) := m in
  match fieldNum with
  | 1 => Some (get_string "Identifier" wireType (fun v => mkQueryCurrentEpochRequest v))
  | _ => None
  end.
Definition QueryCurrentEpochRequest_Unmarshal : bytes -> QueryCurrentEpochRequest -> outcome QueryCurrentEpochRequest := unmarshal "QueryCurrentEpochRequest" QueryCurrentEpochRequest_cases.
Definition QueryCurrentEpochRequest_codec : Codec QueryCurrentEpochRequest :=
  message_codec (mkQueryCurrentEpochRequest "") QueryCurrentEpochRequest_Size QueryCurrentEpochRequest_MarshalToSizedBuffer QueryCurrentEpochRequest_Unmarshal.

(** ** [QueryCurrentEpochResponse] *)

Record QueryCurrentEpochResponse := mkQueryCurrentEpochResponse { QueryCurrentEpochResponse_CurrentEpoch : Z }.
Definition QueryCurrentEpochResponse_MarshalToSizedBuffer (m : QueryCurrentEpochResponse) : bytes -> outcome (bytes * Z) :=
  sized_buffer (
    put_varint 0x8 (QueryCurrentEpochResponse_CurrentEpoch m)).
Definition QueryCurrentEpochResponse_Size (m : QueryCurrentEpochResponse) : Z :=
  size_varint (QueryCurrentEpochResponse_CurrentEpoch m).
Definition QueryCurrentEpochResponse_cases (m : QueryCurrentEpochResponse) (fieldNum wireType : Z) : option (reader QueryCurrentEpochResponse) :=
  let '(mkQueryCurrentEpochResponse currentEpoch) := m in
  match fieldNum with
  | 1 => Some (get_varint sint64 "CurrentEpoch" wireType (fun v => mkQueryCurrentEpochResponse v))
  | _ => None
  end.
Definition QueryCurrentEpochResponse_Unmarshal : bytes -> QueryCurrentEpochResponse -> outcome QueryCurrentEpochResponse := unmarshal "QueryCurrentEpochResponse" QueryCurrentEpochResponse_cases.
Definition QueryCurrentEpochResponse_codec : Codec QueryCurrentEpochResponse :=
  message_codec (mkQueryCurrentEpochResponse 0) QueryCurrentEpochResponse_Size QueryCurrentEpochResponse_MarshalToSizedBuffer QueryCurrentEpochResponse_Unmarshal.

(** ** Well-formed messages and their encodings *)

Context {SL : SdkCodecLaws SC}.

Definition EpochInfo_wf (m : EpochInfo) : Prop := Time_wf (StartTime m) ∧ Duration_wf (Duration m) ∧ is_int64 (CurrentEpoch m) ∧ Time_wf (CurrentEpochStartTime m) ∧ is_int64 (CurrentEpochStartHeight m).
Definition EpochInfo_enc (m : EpochInfo) : bytes :=
  enc_string 0xa (Identifier m) ++
  enc_message Time_enc 0x12 (StartTime m) ++
  enc_message Duration_enc 0x1a (Duration m) ++
  enc_varint 0x20 (CurrentEpoch m) ++
  enc_message Time_enc 0x2a (CurrentEpochStartTime m) ++
  enc_bool 0x30 (EpochCountingStarted m) ++
  enc_varint 0x38 (CurrentEpochStartHeight m).

Lemma epochs_EpochInfo_laws : CodecLaws EpochInfo_codec EpochInfo_wf EpochInfo_enc.
Proof. wire_laws EpochInfo_wf EpochInfo_enc EpochInfo_Size EpochInfo_cases. Qed.
#[local] Hint Resolve epochs_EpochInfo_laws : wire_laws.

Definition GenesisState_wf (m : GenesisState) : Prop := Forall EpochInfo_wf (Epochs m).
Definition GenesisState_enc (m : GenesisState) : bytes :=
  enc_messages EpochInfo_enc 0xa (Epochs m).

Lemma epochs_GenesisState_laws : CodecLaws GenesisState_codec GenesisState_wf GenesisState_enc.
Proof. wire_laws GenesisState_wf GenesisState_enc GenesisState_Size GenesisState_cases. Qed.
#[local] Hint Resolve epochs_GenesisState_laws : wire_laws.

Definition QueryEpochsInfoRequest_wf (m : QueryEpochsInfoRequest) : Prop := (∀ x, QueryEpochsInfoRequest_Pagination m = Some x -> PageRequest_wf x).
Definition QueryEpochsInfoRequest_enc (m : QueryEpochsInfoRequest) : bytes :=
  enc_pointer PageRequest_enc 0xa (QueryEpochsInfoRequest_Pagination m).

Lemma epochs_QueryEpochsInfoRequest_laws : CodecLaws QueryEpochsInfoRequest_codec QueryEpochsInfoRequest_wf QueryEpochsInfoRequest_enc.
Proof. wire_laws QueryEpochsInfoRequest_wf QueryEpochsInfoRequest_enc QueryEpochsInfoRequest_Size QueryEpochsInfoRequest_cases. Qed.
#[local] Hint Resolve epochs_QueryEpochsInfoRequest_laws : wire_laws.

Definition QueryEpochsInfoResponse_wf (m : QueryEpochsInfoResponse) : Prop := Forall EpochInfo_wf (QueryEpochsInfoResponse_Epochs m) ∧ (∀ x, QueryEpochsInfoResponse_Pagination m = Some x -> PageResponse_wf x).
Definition QueryEpochsInfoResponse_enc (m : QueryEpochsInfoResponse) : bytes :=
  enc_messages EpochInfo_enc 0xa (QueryEpochsInfoResponse_Epochs m) ++
  enc_pointer PageResponse_enc 0x12 (QueryEpochsInfoResponse_Pagination m).

Lemma epochs_QueryEpochsInfoResponse_laws : CodecLaws QueryEpochsInfoResponse_codec QueryEpochsInfoResponse_wf QueryEpochsInfoResponse_enc.
Proof. wire_laws QueryEpochsInfoResponse_wf QueryEpochsInfoResponse_enc QueryEpochsInfoResponse_Size QueryEpochsInfoResponse_cases. Qed.
#[local] Hint Resolve epochs_QueryEpochsInfoResponse_laws : wire_laws.

Definition QueryCurrentEpochRequest_wf (m : QueryCurrentEpochRequest) : Prop := True.
Definition QueryCurrentEpochRequest_enc (m : QueryCurrentEpochRequest) : bytes :=
  enc_string 0xa (QueryCurrentEpochRequest_Identifier m).

Lemma epochs_QueryCurrentEpochRequest_laws : CodecLaws QueryCurrentEpochRequest_codec QueryCurrentEpochRequest_wf QueryCurrentEpochRequest_enc.
Proof. wire_laws QueryCurrentEpochRequest_wf QueryCurrentEpochRequest_enc QueryCurrentEpochRequest_Size QueryCurrentEpochRequest_cases. Qed.
#[local] Hint Resolve epochs_QueryCurrentEpochRequest_laws : wire_laws.

Definition QueryCurrentEpochResponse_wf (m : QueryCurrentEpochResponse) : Prop := is_int64 (QueryCurrentEpochResponse_CurrentEpoch m).
Definition QueryCurrentEpochResponse_enc (m : QueryCurrentEpochResponse) : bytes :=
  enc_varint 0x8 (QueryCurrentEpochResponse_CurrentEpoch m).

Lemma epochs_QueryCurrentEpochResponse_laws : CodecLaws QueryCurrentEpochResponse_codec QueryCurrentEpochResponse_wf QueryCurrentEpochResponse_enc.
Proof. wire_laws QueryCurrentEpochResponse_wf QueryCurrentEpochResponse_enc QueryCurrentEpochResponse_Size QueryCurrentEpochResponse_cases. Qed.
#[local] Hint Resolve epochs_QueryCurrentEpochResponse_laws : wire_laws.

End codecs.
#[export] Hint Resolve epochs_EpochInfo_laws epochs_GenesisState_laws epochs_QueryEpochsInfoRequest_laws epochs_QueryEpochsInfoResponse_laws epochs_QueryCurrentEpochRequest_laws epochs_QueryCurrentEpochResponse_laws : wire_laws.
