(* ===== verification/InflationCodec.v ===== *)
(** * Encodings of the messages and the stored values of x/inflation

    The generated code of [inflation.pb.go], [genesis.pb.go],
    [tx.pb.go] and [query.pb.go]. *)

From Stdlib Require Import Ascii.
From stdpp Require Import base strings list.
From S2P Require Import Prelude Sdk Inflation Wire WireFacts WireCodec WireSdk.

#[local] Open Scope Z_scope.
#[local] Open Scope go_scope.


Section codecs.
Context {SC : SdkCodecs}.

(** ** [InflationDistribution] *)

Definition InflationDistribution_MarshalToSizedBuffer (m : InflationDistribution) : bytes -> outcome (bytes * Z) :=
  sized_buffer (
    put_custom Dec_codec 0x1a (CommunityPool m) ;>
    put_custom Dec_codec 0xa (StakingRewards m)).
Definition InflationDistribution_Size (m : InflationDistribution) : Z :=
  size_message Dec_codec (StakingRewards m) +
  size_message Dec_codec (CommunityPool m).
Definition InflationDistribution_cases (m : InflationDistribution) (fieldNum wireType : Z) : option (reader InflationDistribution) :=
  let '(mkInflationDistribution stakingRewards communityPool) := m in
  match fieldNum with
  | 1 => Some (get_custom Dec_codec "StakingRewards" wireType stakingRewards (fun v => mkInflationDistribution v communityPool))
  | 3 => Some (get_custom Dec_codec "CommunityPool" wireType communityPool (fun v => mkInflationDistribution stakingRewards v))
  | _ => None
  end.
Definition InflationDistribution_Unmarshal : bytes -> InflationDistribution -> outcome InflationDistribution := unmarshal "InflationDistribution" InflationDistribution_cases.
Definition InflationDistribution_codec : Codec InflationDistribution :=
  message_codec (mkInflationDistribution (zero Dec_codec) (zero Dec_codec)) InflationDistribution_Size InflationDistribution_MarshalToSizedBuffer InflationDistribution_Unmarshal.

(** ** [ExponentialCalculation] *)

Definition ExponentialCalculation_MarshalToSizedBuffer (m : ExponentialCalculation) : bytes -> outcome (bytes * Z) :=
  sized_buffer (
    put_custom Dec_codec 0x2a (Exp_MaxVariance m) ;>
    put_custom Dec_codec 0x22 (Exp_BondingTarget m) ;>
    put_custom Dec_codec 0x1a (Exp_C m) ;>
    put_custom Dec_codec 0x12 (Exp_R m) ;>
    put_custom Dec_codec 0xa (Exp_A m)).
Definition ExponentialCalculation_Size (m : ExponentialCalculation) : Z :=
  size_message Dec_codec (Exp_A m) +
  size_message Dec_codec (Exp_R m) +
  size_message Dec_codec (Exp_C m) +
  size_message Dec_codec (Exp_BondingTarget m) +
  size_message Dec_codec (Exp_MaxVariance m).
Definition ExponentialCalculation_cases (m : ExponentialCalculation) (fieldNum wireType : Z) : option (reader ExponentialCalculation) :=
  let '(mkExponentialCalculation a r c bondingTarget maxVariance) := m in
  match fieldNum with
  | 1 => Some (get_custom Dec_codec "A" wireType a (fun v => mkExponentialCalculation v r c bondingTarget maxVariance))
  | 2 => Some (get_custom Dec_codec "R" wireType r (fun v => mkExponentialCalculation a v c bondingTarget maxVariance))
  | 3 => Some (get_custom Dec_codec "C" wireType c (fun v => mkExponentialCalculation a r v bondingTarget maxVariance))
  | 4 => Some (get_custom Dec_codec "BondingTarget" wireType bondingTarget (fun v => mkExponentialCalculation a r c v maxVariance))
  | 5 => Some (get_custom Dec_codec "MaxVariance" wireType maxVariance (fun v => mkExponentialCalculation a r c bondingTarget v))
  | _ => None
  end.
Definition ExponentialCalculation_Unmarshal : bytes -> ExponentialCalculation -> outcome ExponentialCalculation := unmarshal "ExponentialCalculation" ExponentialCalculation_cases.
Definition ExponentialCalculation_codec : Codec ExponentialCalculation :=
  message_codec (mkExponentialCalculation (zero Dec_codec) (zero Dec_codec) (zero Dec_codec) (zero Dec_codec) (zero Dec_codec)) ExponentialCalculation_Size ExponentialCalculation_MarshalToSizedBuffer ExponentialCalculation_Unmarshal.

(** ** [Params] *)

Definition Params_MarshalToSizedBuffer (m : Params) : bytes -> outcome (bytes * Z) :=
  sized_buffer (
    put_bool 0x20 (EnableInflation m) ;>
    put_message InflationDistribution_codec 0x1a (Distribution m) ;>
    put_message ExponentialCalculation_codec 0x12 (ExponentialCalc m) ;>
    put_string 0xa (MintDenom m)).
Definition Params_Size (m : Params) : Z :=
  size_string (MintDenom m) +
  size_message ExponentialCalculation_codec (ExponentialCalc m) +
  size_message InflationDistribution_codec (Distribution m) +
  size_bool (EnableInflation m).
Definition Params_cases (m : Params) (fieldNum wireType : Z) : option (reader Params) :=
  let '(mkParams mintDenom exponentialCalculation inflationDistribution enableInflation) := m in
  match fieldNum with
  | 1 => Some (get_string "MintDenom" wireType (fun v => mkParams v exponentialCalculation inflationDistribution enableInflation))
  | 2 => Some (get_message ExponentialCalculation_codec "ExponentialCalculation" wireType exponentialCalculation (fun v => mkParams mintDenom v inflationDistribution enableInflation))
  | 3 => Some (get_message InflationDistribution_codec "InflationDistribution" wireType inflationDistribution (fun v => mkParams mintDenom exponentialCalculation v enableInflation))
  | 4 => Some (get_bool "EnableInflation" wireType (fun v => mkParams mintDenom exponentialCalculation inflationDistribution v))
  | _ => None
  end.
Definition Params_Unmarshal : bytes -> Params -> outcome Params := unmarshal "Params" Params_cases.
Definition Params_codec : Codec Params :=
  message_codec (mkParams "" (zero ExponentialCalculation_codec) (zero InflationDistribution_codec) false) Params_Size Params_MarshalToSizedBuffer Params_Unmarshal.

(** ** [GenesisState] *)

Definition GenesisState_MarshalToSizedBuffer (m : GenesisState) : bytes -> outcome (bytes * Z) :=
  sized_buffer (
    put_varint 0x28 (Gen_SkippedEpochs m) ;>
    put_varint 0x20 (Gen_EpochsPerPeriod m) ;>
    put_string 0x1a (Gen_EpochIdentifier m) ;>
    put_varint 0x10 (Gen_Period m) ;>
    put_message Params_codec 0xa (Gen_Params m)).
Definition GenesisState_Size (m : GenesisState) : Z :=
  size_message Params_codec (Gen_Params m) +
  size_varint (Gen_Period m) +
  size_string (Gen_EpochIdentifier m) +
  size_varint (Gen_EpochsPerPeriod m) +
  size_varint (Gen_SkippedEpochs m).
Definition GenesisState_cases (m : GenesisState) (fieldNum wireType : Z) : option (reader GenesisState) :=
  let '(mkGenesisState params period epochIdentifier epochsPerPeriod skippedEpochs) := m in
  match fieldNum with
  | 1 => Some (get_message Params_codec "Params" wireType params (fun v => mkGenesisState v period epochIdentifier epochsPerPeriod skippedEpochs))
  | 2 => Some (get_varint wrap64 "Period" wireType (fun v => mkGenesisState params v epochIdentifier epochsPerPeriod skippedEpochs))
  | 3 => Some (get_string "EpochIdentifier" wireType (fun v => mkGenesisState params period v epochsPerPeriod skippedEpochs))
  | 4 => Some (get_varint sint64 "EpochsPerPeriod" wireType (fun v => mkGenesisState params period epochIdentifier v skippedEpochs))
  | 5 => Some (get_varint wrap64 "SkippedEpochs" wireType (fun v => mkGenesisState params period epochIdentifier epochsPerPeriod v))
  | _ => None
  end.
Definition GenesisState_Unmarshal : bytes -> GenesisState -> outcome GenesisState := unmarshal "GenesisState" GenesisState_cases.
Definition GenesisState_codec : Codec GenesisState :=
  message_codec (mkGenesisState (zero Params_codec) 0 "" 0 0) GenesisState_Size GenesisState_MarshalToSizedBuffer GenesisState_Unmarshal.

(** ** [MsgUpdateParams] *)

Definition MsgUpdateParams_MarshalToSizedBuffer (m : MsgUpdateParams) : bytes -> outcome (bytes * Z) :=
  sized_buffer (
    put_message Params_codec 0x12 (Upd_Params m) ;>
    put_string 0xa (Upd_Authority m)).
Definition MsgUpdateParams_Size (m : MsgUpdateParams) : Z :=
  size_string (Upd_Authority m) +
  size_message Params_codec (Upd_Params m).
Definition MsgUpdateParams_cases (m : MsgUpdateParams) (fieldNum wireType : Z) : option (reader MsgUpdateParams) :=
  let '(mkMsgUpdateParams authority params) := m in
  match fieldNum with
  | 1 => Some (get_string "Authority" wireType (fun v => mkMsgUpdateParams v params))
  | 2 => Some (get_message Params_codec "Params" wireType params (fun v => mkMsgUpdateParams authority v))
  | _ => None
  end.
Definition MsgUpdateParams_Unmarshal : bytes -> MsgUpdateParams -> outcome MsgUpdateParams := unmarshal "MsgUpdateParams" MsgUpdateParams_cases.
Definition MsgUpdateParams_codec : Codec MsgUpdateParams :=
  message_codec (mkMsgUpdateParams "" (zero Params_codec)) MsgUpdateParams_Size MsgUpdateParams_MarshalToSizedBuffer MsgUpdateParams_Unmarshal.

(** ** [MsgUpdateParamsResponse] *)

Record MsgUpdateParamsResponse := mkMsgUpdateParamsResponse {}.
Definition MsgUpdateParamsResponse_MarshalToSizedBuffer (m : MsgUpdateParamsResponse) : bytes -> outcome (bytes * Z) := sized_buffer done_writing.
Definition MsgUpdateParamsResponse_Size (m : MsgUpdateParamsResponse) : Z := 0.
Definition MsgUpdateParamsResponse_cases (m : MsgUpdateParamsResponse) (fieldNum wireType : Z) : option (reader MsgUpdateParamsResponse) := None.
Definition MsgUpdateParamsResponse_Unmarshal : bytes -> MsgUpdateParamsResponse -> outcome MsgUpdateParamsResponse := unmarshal "MsgUpdateParamsResponse" MsgUpdateParamsResponse_cases.
Definition MsgUpdateParamsResponse_codec : Codec MsgUpdateParamsResponse :=
  message_codec (mkMsgUpdateParamsResponse) MsgUpdateParamsResponse_Size MsgUpdateParamsResponse_MarshalToSizedBuffer MsgUpdateParamsResponse_Unmarshal.

(** ** [QueryPeriodRequest] *)

Record QueryPeriodRequest := mkQueryPeriodRequest {}.
Definition QueryPeriodRequest_MarshalToSizedBuffer (m : QueryPeriodRequest) : bytes -> outcome (bytes * Z) := sized_buffer done_writing.
Definition QueryPeriodRequest_Size (m : QueryPeriodRequest) : Z := 0.
Definition QueryPeriodRequest_cases (m : QueryPeriodRequest) (fieldNum wireType : Z) : option (reader QueryPeriodRequest) := None.
Definition QueryPeriodRequest_Unmarshal : bytes -> QueryPeriodRequest -> outcome QueryPeriodRequest := unmarshal "QueryPeriodRequest" QueryPeriodRequest_cases.
Definition QueryPeriodRequest_codec : Codec QueryPeriodRequest :=
  message_codec (mkQueryPeriodRequest) QueryPeriodRequest_Size QueryPeriodRequest_MarshalToSizedBuffer QueryPeriodRequest_Unmarshal.

(** ** [QueryPeriodResponse] *)

Record QueryPeriodResponse := mkQueryPeriodResponse { QueryPeriodResponse_Period : Z }.
Definition QueryPeriodResponse_MarshalToSizedBuffer (m : QueryPeriodResponse) : bytes -> outcome (bytes * Z) :=
  sized_buffer (
    put_varint 0x8 (QueryPeriodResponse_Period m)).
Definition QueryPeriodResponse_Size (m : QueryPeriodResponse) : Z :=
  size_varint (QueryPeriodResponse_Period m).
Definition QueryPeriodResponse_cases (m : QueryPeriodResponse) (fieldNum wireType : Z) : option (reader QueryPeriodResponse) :=
  let '(mkQueryPeriodResponse period) := m in
  match fieldNum with
  | 1 => Some (get_varint wrap64 "Period" wireType (fun v => mkQueryPeriodResponse v))
  | _ => None
  end.
Definition QueryPeriodResponse_Unmarshal : bytes -> QueryPeriodResponse -> outcome QueryPeriodResponse := unmarshal "QueryPeriodResponse" QueryPeriodResponse_cases.
Definition QueryPeriodResponse_codec : Codec QueryPeriodResponse :=
  message_codec (mkQueryPeriodResponse 0) QueryPeriodResponse_Size QueryPeriodResponse_MarshalToSizedBuffer QueryPeriodResponse_Unmarshal.

(** ** [QueryEpochMintProvisionRequest] *)

Record QueryEpochMintProvisionRequest := mkQueryEpochMintProvisionRequest {}.
Definition QueryEpochMintProvisionRequest_MarshalToSizedBuffer (m : QueryEpochMintProvisionRequest) : bytes -> outcome (bytes * Z) := sized_buffer done_writing.
Definition QueryEpochMintProvisionRequest_Size (m : QueryEpochMintProvisionRequest) : Z := 0.
Definition QueryEpochMintProvisionRequest_cases (m : QueryEpochMintProvisionRequest) (fieldNum wireType : Z) : option (reader QueryEpochMintProvisionRequest) := None.
Definition QueryEpochMintProvisionRequest_Unmarshal : bytes -> QueryEpochMintProvisionRequest -> outcome QueryEpochMintProvisionRequest := unmarshal "QueryEpochMintProvisionRequest" QueryEpochMintProvisionRequest_cases.
Definition QueryEpochMintProvisionRequest_codec : Codec QueryEpochMintProvisionRequest :=
  message_codec (mkQueryEpochMintProvisionRequest) QueryEpochMintProvisionRequest_Size QueryEpochMintProvisionRequest_MarshalToSizedBuffer QueryEpochMintProvisionRequest_Unmarshal.

(** ** [QueryEpochMintProvisionResponse] *)

Record QueryEpochMintProvisionResponse := mkQueryEpochMintProvisionResponse { QueryEpochMintProvisionResponse_EpochMintProvision : DecCoin }.
Definition QueryEpochMintProvisionResponse_MarshalToSizedBuffer (m : QueryEpochMintProvisionResponse) : bytes -> outcome (bytes * Z) :=
  sized_buffer (
    put_message DecCoin_codec 0xa (QueryEpochMintProvisionResponse_EpochMintProvision m)).
Definition QueryEpochMintProvisionResponse_Size (m : QueryEpochMintProvisionResponse) : Z :=
  size_message DecCoin_codec (QueryEpochMintProvisionResponse_EpochMintProvision m).
Definition QueryEpochMintProvisionResponse_cases (m : QueryEpochMintProvisionResponse) (fieldNum wireType : Z) : option (reader QueryEpochMintProvisionResponse) :=
  let '(mkQueryEpochMintProvisionResponse epochMintProvision) := m in
  match fieldNum with
  | 1 => Some (get_message DecCoin_codec "EpochMintProvision" wireType epochMintProvision (fun v => mkQueryEpochMintProvisionResponse v))
  | _ => None
  end.
Definition QueryEpochMintProvisionResponse_Unmarshal : bytes -> QueryEpochMintProvisionResponse -> outcome QueryEpochMintProvisionResponse := unmarshal "QueryEpochMintProvisionResponse" QueryEpochMintProvisionResponse_cases.
Definition QueryEpochMintProvisionResponse_codec : Codec QueryEpochMintProvisionResponse :=
  message_codec (mkQueryEpochMintProvisionResponse (zero DecCoin_codec)) QueryEpochMintProvisionResponse_Size QueryEpochMintProvisionResponse_MarshalToSizedBuffer QueryEpochMintProvisionResponse_Unmarshal.

(** ** [QuerySkippedEpochsRequest] *)

Record QuerySkippedEpochsRequest := mkQuerySkippedEpochsRequest {}.
Definition QuerySkippedEpochsRequest_MarshalToSizedBuffer (m : QuerySkippedEpochsRequest) : bytes -> outcome (bytes * Z) := sized_buffer done_writing.
Definition QuerySkippedEpochsRequest_Size (m : QuerySkippedEpochsRequest) : Z := 0.
Definition QuerySkippedEpochsRequest_cases (m : QuerySkippedEpochsRequest) (fieldNum wireType : Z) : option (reader QuerySkippedEpochsRequest) := None.
Definition QuerySkippedEpochsRequest_Unmarshal : bytes -> QuerySkippedEpochsRequest -> outcome QuerySkippedEpochsRequest := unmarshal "QuerySkippedEpochsRequest" QuerySkippedEpochsRequest_cases.
Definition QuerySkippedEpochsRequest_codec : Codec QuerySkippedEpochsRequest :=
  message_codec (mkQuerySkippedEpochsRequest) QuerySkippedEpochsRequest_Size QuerySkippedEpochsRequest_MarshalToSizedBuffer QuerySkippedEpochsRequest_Unmarshal.

(** ** [QuerySkippedEpochsResponse] *)

Record QuerySkippedEpochsResponse := mkQuerySkippedEpochsResponse { QuerySkippedEpochsResponse_SkippedEpochs : Z }.
Definition QuerySkippedEpochsResponse_MarshalToSizedBuffer (m : QuerySkippedEpochsResponse) : bytes -> outcome (bytes * Z) :=
  sized_buffer (
    put_varint 0x8 (QuerySkippedEpochsResponse_SkippedEpochs m)).
Definition QuerySkippedEpochsResponse_Size (m : QuerySkippedEpochsResponse) : Z :=
  size_varint (QuerySkippedEpochsResponse_SkippedEpochs m).
Definition QuerySkippedEpochsResponse_cases (m : QuerySkippedEpochsResponse) (fieldNum wireType : Z) : option (reader QuerySkippedEpochsResponse) :=
  let '(mkQuerySkippedEpochsResponse skippedEpochs) := m in
  match fieldNum with
  | 1 => Some (get_varint wrap64 "SkippedEpochs" wireType (fun v => mkQuerySkippedEpochsResponse v))
  | _ => None
  end.
Definition QuerySkippedEpochsResponse_Unmarshal : bytes -> QuerySkippedEpochsResponse -> outcome QuerySkippedEpochsResponse := unmarshal "QuerySkippedEpochsResponse" QuerySkippedEpochsResponse_cases.
Definition QuerySkippedEpochsResponse_codec : Codec QuerySkippedEpochsResponse :=
  message_codec (mkQuerySkippedEpochsResponse 0) QuerySkippedEpochsResponse_Size QuerySkippedEpochsResponse_MarshalToSizedBuffer QuerySkippedEpochsResponse_Unmarshal.

(** ** [QueryCirculatingSupplyRequest] *)

Record QueryCirculatingSupplyRequest := mkQueryCirculatingSupplyRequest {}.
Definition QueryCirculatingSupplyRequest_MarshalToSizedBuffer (m : QueryCirculatingSupplyRequest) : bytes -> outcome (bytes * Z) := sized_buffer done_writing.
Definition QueryCirculatingSupplyRequest_Size (m : QueryCirculatingSupplyRequest) : Z := 0.
Definition QueryCirculatingSupplyRequest_cases (m : QueryCirculatingSupplyRequest) (fieldNum wireType : Z) : option (reader QueryCirculatingSupplyRequest) := None.
Definition QueryCirculatingSupplyRequest_Unmarshal : bytes -> QueryCirculatingSupplyRequest -> outcome QueryCirculatingSupplyRequest := unmarshal "QueryCirculatingSupplyRequest" QueryCirculatingSupplyRequest_cases.
Definition QueryCirculatingSupplyRequest_codec : Codec QueryCirculatingSupplyRequest :=
  message_codec (mkQueryCirculatingSupplyRequest) QueryCirculatingSupplyRequest_Size QueryCirculatingSupplyRequest_MarshalToSizedBuffer QueryCirculatingSupplyRequest_Unmarshal.

(** ** [QueryCirculatingSupplyResponse] *)

Record QueryCirculatingSupplyResponse := mkQueryCirculatingSupplyResponse { QueryCirculatingSupplyResponse_CirculatingSupply : DecCoin }.
Definition QueryCirculatingSupplyResponse_MarshalToSizedBuffer (m : QueryCirculatingSupplyResponse) : bytes -> outcome (bytes * Z) :=
  sized_buffer (
    put_message DecCoin_codec 0xa (QueryCirculatingSupplyResponse_CirculatingSupply m)).
Definition QueryCirculatingSupplyResponse_Size (m : QueryCirculatingSupplyResponse) : Z :=
  size_message DecCoin_codec (QueryCirculatingSupplyResponse_CirculatingSupply m).
Definition QueryCirculatingSupplyResponse_cases (m : QueryCirculatingSupplyResponse) (fieldNum wireType : Z) : option (reader QueryCirculatingSupplyResponse) :=
  let '(mkQueryCirculatingSupplyResponse circulatingSupply) := m in
  match fieldNum with
  | 1 => Some (get_message DecCoin_codec "CirculatingSupply" wireType circulatingSupply (fun v => mkQueryCirculatingSupplyResponse v))
  | _ => None
  end.
Definition QueryCirculatingSupplyResponse_Unmarshal : bytes -> QueryCirculatingSupplyResponse -> outcome QueryCirculatingSupplyResponse := unmarshal "QueryCirculatingSupplyResponse" QueryCirculatingSupplyResponse_cases.
Definition QueryCirculatingSupplyResponse_codec : Codec QueryCirculatingSupplyResponse :=
  message_codec (mkQueryCirculatingSupplyResponse (zero DecCoin_codec)) QueryCirculatingSupplyResponse_Size QueryCirculatingSupplyResponse_MarshalToSizedBuffer QueryCirculatingSupplyResponse_Unmarshal.

(** ** [QueryInflationRateRequest] *)

Record QueryInflationRateRequest := mkQueryInflationRateRequest {}.
Definition QueryInflationRateRequest_MarshalToSizedBuffer (m : QueryInflationRateRequest) : bytes -> outcome (bytes * Z) := sized_buffer done_writing.
Definition QueryInflationRateRequest_Size (m : QueryInflationRateRequest) : Z := 0.
Definition QueryInflationRateRequest_cases (m : QueryInflationRateRequest) (fieldNum wireType : Z) : option (reader QueryInflationRateRequest) := None.
Definition QueryInflationRateRequest_Unmarshal : bytes -> QueryInflationRateRequest -> outcome QueryInflationRateRequest := unmarshal "QueryInflationRateRequest" QueryInflationRateRequest_cases.
Definition QueryInflationRateRequest_codec : Codec QueryInflationRateRequest :=
  message_codec (mkQueryInflationRateRequest) QueryInflationRateRequest_Size QueryInflationRateRequest_MarshalToSizedBuffer QueryInflationRateRequest_Unmarshal.

(** ** [QueryInflationRateResponse] *)

Record QueryInflationRateResponse := mkQueryInflationRateResponse { QueryInflationRateResponse_InflationRate : Z }.
Definition QueryInflationRateResponse_MarshalToSizedBuffer (m : QueryInflationRateResponse) : bytes -> outcome (bytes * Z) :=
  sized_buffer (
    put_custom Dec_codec 0xa (QueryInflationRateResponse_InflationRate m)).
Definition QueryInflationRateResponse_Size (m : QueryInflationRateResponse) : Z :=
  size_message Dec_codec (QueryInflationRateResponse_InflationRate m).
Definition QueryInflationRateResponse_cases (m : QueryInflationRateResponse) (fieldNum wireType : Z) : option (reader QueryInflationRateResponse) :=
  let '(mkQueryInflationRateResponse inflationRate) := m in
  match fieldNum with
  | 1 => Some (get_custom Dec_codec "InflationRate" wireType inflationRate (fun v => mkQueryInflationRateResponse v))
  | _ => None
  end.
Definition QueryInflationRateResponse_Unmarshal : bytes -> QueryInflationRateResponse -> outcome QueryInflationRateResponse := unmarshal "QueryInflationRateResponse" QueryInflationRateResponse_cases.
Definition QueryInflationRateResponse_codec : Codec QueryInflationRateResponse :=
  message_codec (mkQueryInflationRateResponse (zero Dec_codec)) QueryInflationRateResponse_Size QueryInflationRateResponse_MarshalToSizedBuffer QueryInflationRateResponse_Unmarshal.

(** ** [QueryParamsRequest] *)

Record QueryParamsRequest := mkQueryParamsRequest {}.
Definition QueryParamsRequest_MarshalToSizedBuffer (m : QueryParamsRequest) : bytes -> outcome (bytes * Z) := sized_buffer done_writing.
Definition QueryParamsRequest_Size (m : QueryParamsRequest) : Z := 0.
Definition QueryParamsRequest_cases (m : QueryParamsRequest) (fieldNum wireType : Z) : option (reader QueryParamsRequest) := None.
Definition QueryParamsRequest_Unmarshal : bytes -> QueryParamsRequest -> outcome QueryParamsRequest := unmarshal "QueryParamsRequest" QueryParamsRequest_cases.
Definition QueryParamsRequest_codec : Codec QueryParamsRequest :=
  message_codec (mkQueryParamsRequest) QueryParamsRequest_Size QueryParamsRequest_MarshalToSizedBuffer QueryParamsRequest_Unmarshal.

(** ** [QueryParamsResponse] *)

Record QueryParamsResponse := mkQueryParamsResponse { QueryParamsResponse_Params : Params }.
Definition QueryParamsResponse_MarshalToSizedBuffer (m : QueryParamsResponse) : bytes -> outcome (bytes * Z) :=
  sized_buffer (
    put_message Params_codec 0xa (QueryParamsResponse_Params m)).
Definition QueryParamsResponse_Size (m : QueryParamsResponse) : Z :=
  size_message Params_codec (QueryParamsResponse_Params m).
Definition QueryParamsResponse_cases (m : QueryParamsResponse) (fieldNum wireType : Z) : option (reader QueryParamsResponse) :=
  let '(mkQueryParamsResponse params) := m in
  match fieldNum with
  | 1 => Some (get_message Params_codec "Params" wireType params (fun v => mkQueryParamsResponse v))
  | _ => None
  end.
Definition QueryParamsResponse_Unmarshal : bytes -> QueryParamsResponse -> outcome QueryParamsResponse := unmarshal "QueryParamsResponse" QueryParamsResponse_cases.
Definition QueryParamsResponse_codec : Codec QueryParamsResponse :=
  message_codec (mkQueryParamsResponse (zero Params_codec)) QueryParamsResponse_Size QueryParamsResponse_MarshalToSizedBuffer QueryParamsResponse_Unmarshal.

(** ** Well-formed messages and their encodings *)

Context {SL : SdkCodecLaws SC}.

Definition InflationDistribution_wf (m : InflationDistribution) : Prop := Dec_wf (StakingRewards m) ∧ Dec_wf (CommunityPool m).
Definition InflationDistribution_enc (m : InflationDistribution) : bytes :=
  enc_custom Dec_enc 0xa (StakingRewards m) ++
  enc_custom Dec_enc 0x1a (CommunityPool m).

Lemma inflation_InflationDistribution_laws : CodecLaws InflationDistribution_codec InflationDistribution_wf InflationDistribution_enc.
Proof. wire_laws InflationDistribution_wf InflationDistribution_enc InflationDistribution_Size InflationDistribution_cases. Qed.
#[local] Hint Resolve inflation_InflationDistribution_laws : wire_laws.

Definition ExponentialCalculation_wf (m : ExponentialCalculation) : Prop := Dec_wf (Exp_A m) ∧ Dec_wf (Exp_R m) ∧ Dec_wf (Exp_C m) ∧ Dec_wf (Exp_BondingTarget m) ∧ Dec_wf (Exp_MaxVariance m).
Definition ExponentialCalculation_enc (m : ExponentialCalculation) : bytes :=
  enc_custom Dec_enc 0xa (Exp_A m) ++
  enc_custom Dec_enc 0x12 (Exp_R m) ++
  enc_custom Dec_enc 0x1a (Exp_C m) ++
  enc_custom Dec_enc 0x22 (Exp_BondingTarget m) ++
  enc_custom Dec_enc 0x2a (Exp_MaxVariance m).

Lemma inflation_ExponentialCalculation_laws : CodecLaws ExponentialCalculation_codec ExponentialCalculation_wf ExponentialCalculation_enc.
Proof. wire_laws ExponentialCalculation_wf ExponentialCalculation_enc ExponentialCalculation_Size ExponentialCalculation_cases. Qed.
#[local] Hint Resolve inflation_ExponentialCalculation_laws : wire_laws.

Definition Params_wf (m : Params) : Prop := ExponentialCalculation_wf (ExponentialCalc m) ∧ InflationDistribution_wf (Distribution m).
Definition Params_enc (m : Params) : bytes :=
  enc_string 0xa (MintDenom m) ++
  enc_message ExponentialCalculation_enc 0x12 (ExponentialCalc m) ++
  enc_message InflationDistribution_enc 0x1a (Distribution m) ++
  enc_bool 0x20 (EnableInflation m).

Lemma inflation_Params_laws : CodecLaws Params_codec Params_wf Params_enc.
Proof. wire_laws Params_wf Params_enc Params_Size Params_cases. Qed.
#[local] Hint Resolve inflation_Params_laws : wire_laws.

Definition GenesisState_wf (m : GenesisState) : Prop := Params_wf (Gen_Params m) ∧ is_uint64 (Gen_Period m) ∧ is_int64 (Gen_EpochsPerPeriod m) ∧ is_uint64 (Gen_SkippedEpochs m).
Definition GenesisState_enc (m : GenesisState) : bytes :=
  enc_message Params_enc 0xa (Gen_Params m) ++
  enc_varint 0x10 (Gen_Period m) ++
  enc_string 0x1a (Gen_EpochIdentifier m) ++
  enc_varint 0x20 (Gen_EpochsPerPeriod m) ++
  enc_varint 0x28 (Gen_SkippedEpochs m).

Lemma inflation_GenesisState_laws : CodecLaws GenesisState_codec GenesisState_wf GenesisState_enc.
Proof. wire_laws GenesisState_wf GenesisState_enc GenesisState_Size GenesisState_cases. Qed.
#[local] Hint Resolve inflation_GenesisState_laws : wire_laws.

Definition MsgUpdateParams_wf (m : MsgUpdateParams) : Prop := Params_wf (Upd_Params m).
Definition MsgUpdateParams_enc (m : MsgUpdateParams) : bytes :=
  enc_string 0xa (Upd_Authority m) ++
  enc_message Params_enc 0x12 (Upd_Params m).

Lemma inflation_MsgUpdateParams_laws : CodecLaws MsgUpdateParams_codec MsgUpdateParams_wf MsgUpdateParams_enc.
Proof. wire_laws MsgUpdateParams_wf MsgUpdateParams_enc MsgUpdateParams_Size MsgUpdateParams_cases. Qed.
#[local] Hint Resolve inflation_MsgUpdateParams_laws : wire_laws.

Definition MsgUpdateParamsResponse_wf (m : MsgUpdateParamsResponse) : Prop := True.
Definition MsgUpdateParamsResponse_enc (m : MsgUpdateParamsResponse) : bytes :=
  [].

Lemma inflation_MsgUpdateParamsResponse_laws : CodecLaws MsgUpdateParamsResponse_codec MsgUpdateParamsResponse_wf MsgUpdateParamsResponse_enc.
Proof.
  apply message_laws; [done|done|intros; apply writes_nothing| |done]. intros [] _. apply reads_nothing.
Qed.
#[local] Hint Resolve inflation_MsgUpdateParamsResponse_laws : wire_laws.

Definition QueryPeriodRequest_wf (m : QueryPeriodRequest) : Prop := True.
Definition QueryPeriodRequest_enc (m : QueryPeriodRequest) : bytes :=
  [].

Lemma inflation_QueryPeriodRequest_laws : CodecLaws QueryPeriodRequest_codec QueryPeriodRequest_wf QueryPeriodRequest_enc.
Proof.
  apply message_laws; [done|done|intros; apply writes_nothing| |done]. intros [] _. apply reads_nothing.
Qed.
#[local] Hint Resolve inflation_QueryPeriodRequest_laws : wire_laws.

Definition QueryPeriodResponse_wf (m : QueryPeriodResponse) : Prop := is_uint64 (QueryPeriodResponse_Period m).
Definition QueryPeriodResponse_enc (m : QueryPeriodResponse) : bytes :=
  enc_varint 0x8 (QueryPeriodResponse_Period m).

Lemma inflation_QueryPeriodResponse_laws : CodecLaws QueryPeriodResponse_codec QueryPeriodResponse_wf QueryPeriodResponse_enc.
Proof. wire_laws QueryPeriodResponse_wf QueryPeriodResponse_enc QueryPeriodResponse_Size QueryPeriodResponse_cases. Qed.
#[local] Hint Resolve inflation_QueryPeriodResponse_laws : wire_laws.

Definition QueryEpochMintProvisionRequest_wf (m : QueryEpochMintProvisionRequest) : Prop := True.
Definition QueryEpochMintProvisionRequest_enc (m : QueryEpochMintProvisionRequest) : bytes :=
  [].

Lemma inflation_QueryEpochMintProvisionRequest_laws : CodecLaws QueryEpochMintProvisionRequest_codec QueryEpochMintProvisionRequest_wf QueryEpochMintProvisionRequest_enc.
Proof.
  apply message_laws; [done|done|intros; apply writes_nothing| |done]. intros [] _. apply reads_nothing.
Qed.
#[local] Hint Resolve inflation_QueryEpochMintProvisionRequest_laws : wire_laws.

Definition QueryEpochMintProvisionResponse_wf (m : QueryEpochMintProvisionResponse) : Prop := DecCoin_wf (QueryEpochMintProvisionResponse_EpochMintProvision m).
Definition QueryEpochMintProvisionResponse_enc (m : QueryEpochMintProvisionResponse) : bytes :=
  enc_message DecCoin_enc 0xa (QueryEpochMintProvisionResponse_EpochMintProvision m).

Lemma inflation_QueryEpochMintProvisionResponse_laws : CodecLaws QueryEpochMintProvisionResponse_codec QueryEpochMintProvisionResponse_wf QueryEpochMintProvisionResponse_enc.
Proof. wire_laws QueryEpochMintProvisionResponse_wf QueryEpochMintProvisionResponse_enc QueryEpochMintProvisionResponse_Size QueryEpochMintProvisionResponse_cases. Qed.
#[local] Hint Resolve inflation_QueryEpochMintProvisionResponse_laws : wire_laws.

Definition QuerySkippedEpochsRequest_wf (m : QuerySkippedEpochsRequest) : Prop := True.
Definition QuerySkippedEpochsRequest_enc (m : QuerySkippedEpochsRequest) : bytes :=
  [].

Lemma inflation_QuerySkippedEpochsRequest_laws : CodecLaws QuerySkippedEpochsRequest_codec QuerySkippedEpochsRequest_wf QuerySkippedEpochsRequest_enc.
Proof.
  apply message_laws; [done|done|intros; apply writes_nothing| |done]. intros [] _. apply reads_nothing.
Qed.
#[local] Hint Resolve inflation_QuerySkippedEpochsRequest_laws : wire_laws.

Definition QuerySkippedEpochsResponse_wf (m : QuerySkippedEpochsResponse) : Prop := is_uint64 (QuerySkippedEpochsResponse_SkippedEpochs m).
Definition QuerySkippedEpochsResponse_enc (m : QuerySkippedEpochsResponse) : bytes :=
  enc_varint 0x8 (QuerySkippedEpochsResponse_SkippedEpochs m).

Lemma inflation_QuerySkippedEpochsResponse_laws : CodecLaws QuerySkippedEpochsResponse_codec QuerySkippedEpochsResponse_wf QuerySkippedEpochsResponse_enc.
Proof. wire_laws QuerySkippedEpochsResponse_wf QuerySkippedEpochsResponse_enc QuerySkippedEpochsResponse_Size QuerySkippedEpochsResponse_cases. Qed.
#[local] Hint Resolve inflation_QuerySkippedEpochsResponse_laws : wire_laws.

Definition QueryCirculatingSupplyRequest_wf (m : QueryCirculatingSupplyRequest) : Prop := True.
Definition QueryCirculatingSupplyRequest_enc (m : QueryCirculatingSupplyRequest) : bytes :=
  [].

Lemma inflation_QueryCirculatingSupplyRequest_laws : CodecLaws QueryCirculatingSupplyRequest_codec QueryCirculatingSupplyRequest_wf QueryCirculatingSupplyRequest_enc.
Proof.
  apply message_laws; [done|done|intros; apply writes_nothing| |done]. intros [] _. apply reads_nothing.
Qed.
#[local] Hint Resolve inflation_QueryCirculatingSupplyRequest_laws : wire_laws.

Definition QueryCirculatingSupplyResponse_wf (m : QueryCirculatingSupplyResponse) : Prop := DecCoin_wf (QueryCirculatingSupplyResponse_CirculatingSupply m).
Definition QueryCirculatingSupplyResponse_enc (m : QueryCirculatingSupplyResponse) : bytes :=
  enc_message DecCoin_enc 0xa (QueryCirculatingSupplyResponse_CirculatingSupply m).

Lemma inflation_QueryCirculatingSupplyResponse_laws : CodecLaws QueryCirculatingSupplyResponse_codec QueryCirculatingSupplyResponse_wf QueryCirculatingSupplyResponse_enc.
Proof. wire_laws QueryCirculatingSupplyResponse_wf QueryCirculatingSupplyResponse_enc QueryCirculatingSupplyResponse_Size QueryCirculatingSupplyResponse_cases. Qed.
#[local] Hint Resolve inflation_QueryCirculatingSupplyResponse_laws : wire_laws.

Definition QueryInflationRateRequest_wf (m : QueryInflationRateRequest) : Prop := True.
Definition QueryInflationRateRequest_enc (m : QueryInflationRateRequest) : bytes :=
  [].

Lemma inflation_QueryInflationRateRequest_laws : CodecLaws QueryInflationRateRequest_codec QueryInflationRateRequest_wf QueryInflationRateRequest_enc.
Proof.
  apply message_laws; [done|done|intros; apply writes_nothing| |done]. intros [] _. apply reads_nothing.
Qed.
#[local] Hint Resolve inflation_QueryInflationRateRequest_laws : wire_laws.

Definition QueryInflationRateResponse_wf (m : QueryInflationRateResponse) : Prop := Dec_wf (QueryInflationRateResponse_InflationRate m).
Definition QueryInflationRateResponse_enc (m : QueryInflationRateResponse) : bytes :=
  enc_custom Dec_enc 0xa (QueryInflationRateResponse_InflationRate m).

Lemma inflation_QueryInflationRateResponse_laws : CodecLaws QueryInflationRateResponse_codec QueryInflationRateResponse_wf QueryInflationRateResponse_enc.
Proof. wire_laws QueryInflationRateResponse_wf QueryInflationRateResponse_enc QueryInflationRateResponse_Size QueryInflationRateResponse_cases. Qed.
#[local] Hint Resolve inflation_QueryInflationRateResponse_laws : wire_laws.

Definition QueryParamsRequest_wf (m : QueryParamsRequest) : Prop := True.
Definition QueryParamsRequest_enc (m : QueryParamsRequest) : bytes :=
  [].

Lemma inflation_QueryParamsRequest_laws : CodecLaws QueryParamsRequest_codec QueryParamsRequest_wf QueryParamsRequest_enc.
Proof.
  apply message_laws; [done|done|intros; apply writes_nothing| |done]. intros [] _. apply reads_nothing.
Qed.
#[local] Hint Resolve inflation_QueryParamsRequest_laws : wire_laws.

Definition QueryParamsResponse_wf (m : QueryParamsResponse) : Prop := Params_wf (QueryParamsResponse_Params m).
Definition QueryParamsResponse_enc (m : QueryParamsResponse) : bytes :=
  enc_message Params_enc 0xa (QueryParamsResponse_Params m).

Lemma inflation_QueryParamsResponse_laws : CodecLaws QueryParamsResponse_codec QueryParamsResponse_wf QueryParamsResponse_enc.
Proof. wire_laws QueryParamsResponse_wf QueryParamsResponse_enc QueryParamsResponse_Size QueryParamsResponse_cases. Qed.
#[local] Hint Resolve inflation_QueryParamsResponse_laws : wire_laws.

End codecs.
#[export] Hint Resolve inflation_InflationDistribution_laws inflation_ExponentialCalculation_laws inflation_Params_laws inflation_GenesisState_laws inflation_MsgUpdateParams_laws inflation_MsgUpdateParamsResponse_laws inflation_QueryPeriodRequest_laws inflation_QueryPeriodResponse_laws inflation_QueryEpochMintProvisionRequest_laws inflation_QueryEpochMintProvisionResponse_laws inflation_QuerySkippedEpochsRequest_laws inflation_QuerySkippedEpochsResponse_laws inflation_QueryCirculatingSupplyRequest_laws inflation_QueryCirculatingSupplyResponse_laws inflation_QueryInflationRateRequest_laws inflation_QueryInflationRateResponse_laws inflation_QueryParamsRequest_laws inflation_QueryParamsResponse_laws : wire_laws.
