(* ===== verification/OnboardingCodec.v ===== *)
(** * Encodings of the messages and the stored values of x/onboarding

    The generated code of [genesis.pb.go], [tx.pb.go] and [query.pb.go]. *)

From Stdlib Require Import Ascii.
From stdpp Require Import base strings list.
From S2P Require Import Prelude Sdk Onboarding Wire WireFacts WireCodec WireSdk.

#[local] Open Scope Z_scope.
#[local] Open Scope go_scope.


Section codecs.
Context {SC : SdkCodecs}.

(** ** [Params] *)

Definition Params_MarshalToSizedBuffer (m : Params) : bytes -> outcome (bytes * Z) :=
  sized_buffer (
    put_strings 0x22 (WhitelistedChannels m) ;>
    put_custom Int_codec 0x1a (AutoSwapThreshold m) ;>
    put_bool 0x8 (EnableOnboarding m)).
Definition Params_Size (m : Params) : Z :=
  size_bool (EnableOnboarding m) +
  size_message Int_codec (AutoSwapThreshold m) +
  size_strings (WhitelistedChannels m).
Definition Params_cases (m : Params) (fieldNum wireType : Z) : option (reader Params) :=
  let '(mkParams enableOnboarding autoSwapThreshold whitelistedChannels) := m in
  match fieldNum with
  | 1 => Some (get_bool "EnableOnboarding" wireType (fun v => mkParams v autoSwapThreshold whitelistedChannels))
  | 3 => Some (get_custom Int_codec "AutoSwapThreshold" wireType autoSwapThreshold (fun v => mkParams enableOnboarding v whitelistedChannels))
  | 4 => Some (get_strings "WhitelistedChannels" wireType whitelistedChannels (fun v => mkParams enableOnboarding autoSwapThreshold v))
  | _ => None
  end.
Definition Params_Unmarshal : bytes -> Params -> outcome Params := unmarshal "Params" Params_cases.
Definition Params_codec : Codec Params :=
  message_codec (mkParams false (zero Int_codec) []) Params_Size Params_MarshalToSizedBuffer Params_Unmarshal.

(** ** [GenesisState] *)

Definition GenesisState_MarshalToSizedBuffer (m : GenesisState) : bytes -> outcome (bytes * Z) :=
  sized_buffer (
    put_message Params_codec 0xa (Gen_Params m)).
Definition GenesisState_Size (m : GenesisState) : Z :=
  size_message Params_codec (Gen_Params m).
Definition GenesisState_cases (m : GenesisState) (fieldNum wireType : Z) : option (reader GenesisState) :=
  let '(mkGenesisState params) := m in
  match fieldNum with
  | 1 => Some (get_message Params_codec "Params" wireType params (fun v => mkGenesisState v))
  | _ => None
  end.
Definition GenesisState_Unmarshal : bytes -> GenesisState -> outcome GenesisState := unmarshal "GenesisState" GenesisState_cases.
Definition GenesisState_codec : Codec GenesisState :=
  message_codec (mkGenesisState (zero Params_codec)) GenesisState_Size GenesisState_MarshalToSizedBuffer GenesisState_Unmarshal.

(** ** [MsgUpdateParams] *)

Definition MsgUpdateParams_MarshalToSizedBuffer (m : MsgUpdateParams) : bytes -> outcome (bytes * Z) :=
  sized_buffer (
    put_message Params_codec 0x12 (Upd_Params m) ;>
    put_string 0xa (Upd_Authority m)).
Definition MsgUpdateParams_Size (m : MsgUpdateParams) : Z :=
  size_string (Upd_Authority m) +
  size_message Params_codec (Upd_Params m).
Definition MsgUpdateParams_cases (m : MsgUpdateParams) (fieldNum wireType : Z) : option (reader MsgUpdateParams) :=
  let '(mkMsgUpdateParams authority params) := m in
  match fieldNum with
  | 1 => Some (get_string "Authority" wireType (fun v => mkMsgUpdateParams v params))
  | 2 => Some (get_message Params_codec "Params" wireType params (fun v => mkMsgUpdateParams authority v))
  | _ => None
  end.
Definition MsgUpdateParams_Unmarshal : bytes -> MsgUpdateParams -> outcome MsgUpdateParams := unmarshal "MsgUpdateParams" MsgUpdateParams_cases.
Definition MsgUpdateParams_codec : Codec MsgUpdateParams :=
  message_codec (mkMsgUpdateParams "" (zero Params_codec)) MsgUpdateParams_Size MsgUpdateParams_MarshalToSizedBuffer MsgUpdateParams_Unmarshal.

(** ** [MsgUpdateParamsResponse] *)

Record MsgUpdateParamsResponse := mkMsgUpdateParamsResponse {}.
Definition MsgUpdateParamsResponse_MarshalToSizedBuffer (m : MsgUpdateParamsResponse) : bytes -> outcome (bytes * Z) := sized_buffer done_writing.
Definition MsgUpdateParamsResponse_Size (m : MsgUpdateParamsResponse) : Z := 0.
Definition MsgUpdateParamsResponse_cases (m : MsgUpdateParamsResponse) (fieldNum wireType : Z) : option (reader MsgUpdateParamsResponse) := None.
Definition MsgUpdateParamsResponse_Unmarshal : bytes -> MsgUpdateParamsResponse -> outcome MsgUpdateParamsResponse := unmarshal "MsgUpdateParamsResponse" MsgUpdateParamsResponse_cases.
Definition MsgUpdateParamsResponse_codec : Codec MsgUpdateParamsResponse :=
  message_codec (mkMsgUpdateParamsResponse) MsgUpdateParamsResponse_Size MsgUpdateParamsResponse_MarshalToSizedBuffer MsgUpdateParamsResponse_Unmarshal.

(** ** [QueryParamsRequest] *)

Record QueryParamsRequest := mkQueryParamsRequest {}.
Definition QueryParamsRequest_MarshalToSizedBuffer (m : QueryParamsRequest) : bytes -> outcome (bytes * Z) := sized_buffer done_writing.
Definition QueryParamsRequest_Size (m : QueryParamsRequest) : Z := 0.
Definition QueryParamsRequest_cases (m : QueryParamsRequest) (fieldNum wireType : Z) : option (reader QueryParamsRequest) := None.
Definition QueryParamsRequest_Unmarshal : bytes -> QueryParamsRequest -> outcome QueryParamsRequest := unmarshal "QueryParamsRequest" QueryParamsRequest_cases.
Definition QueryParamsRequest_codec : Codec QueryParamsRequest :=
  message_codec (mkQueryParamsRequest) QueryParamsRequest_Size QueryParamsRequest_MarshalToSizedBuffer QueryParamsRequest_Unmarshal.

(** ** [QueryParamsResponse] *)

Record QueryParamsResponse := mkQueryParamsResponse { QueryParamsResponse_Params : Params }.
Definition QueryParamsResponse_MarshalToSizedBuffer (m : QueryParamsResponse) : bytes -> outcome (bytes * Z) :=
  sized_buffer (
    put_message Params_codec 0xa (QueryParamsResponse_Params m)).
Definition QueryParamsResponse_Size (m : QueryParamsResponse) : Z :=
  size_message Params_codec (QueryParamsResponse_Params m).
Definition QueryParamsResponse_cases (m : QueryParamsResponse) (fieldNum wireType : Z) : option (reader QueryParamsResponse) :=
  let '(mkQueryParamsResponse params) := m in
  match fieldNum with
  | 1 => Some (get_message Params_codec "Params" wireType params (fun v => mkQueryParamsResponse v))
  | _ => None
  end.
Definition QueryParamsResponse_Unmarshal : bytes -> QueryParamsResponse -> outcome QueryParamsResponse := unmarshal "QueryParamsResponse" QueryParamsResponse_cases.
Definition QueryParamsResponse_codec : Codec QueryParamsResponse :=
  message_codec (mkQueryParamsResponse (zero Params_codec)) QueryParamsResponse_Size QueryParamsResponse_MarshalToSizedBuffer QueryParamsResponse_Unmarshal.

(** ** Well-formed messages and their encodings *)

Context {SL : SdkCodecLaws SC}.

Definition Params_wf (m : Params) : Prop := Int_wf (AutoSwapThreshold m).
Definition Params_enc (m : Params) : bytes :=
  enc_bool 0x8 (EnableOnboarding m) ++
  enc_custom Int_enc 0x1a (AutoSwapThreshold m) ++
  enc_strings 0x22 (WhitelistedChannels m).

Lemma onboarding_Params_laws : CodecLaws Params_codec Params_wf Params_enc.
Proof. wire_laws Params_wf Params_enc Params_Size Params_cases. Qed.
#[local] Hint Resolve onboarding_Params_laws : wire_laws.

Definition GenesisState_wf (m : GenesisState) : Prop := Params_wf (Gen_Params m).
Definition GenesisState_enc (m : GenesisState) : bytes :=
  enc_message Params_enc 0xa (Gen_Params m).

Lemma onboarding_GenesisState_laws : CodecLaws GenesisState_codec GenesisState_wf GenesisState_enc.
Proof. wire_laws GenesisState_wf GenesisState_enc GenesisState_Size GenesisState_cases. Qed.
#[local] Hint Resolve onboarding_GenesisState_laws : wire_laws.

Definition MsgUpdateParams_wf (m : MsgUpdateParams) : Prop := Params_wf (Upd_Params m).
Definition MsgUpdateParams_enc (m : MsgUpdateParams) : bytes :=
  enc_string 0xa (Upd_Authority m) ++
  enc_message Params_enc 0x12 (Upd_Params m).

Lemma onboarding_MsgUpdateParams_laws : CodecLaws MsgUpdateParams_codec MsgUpdateParams_wf MsgUpdateParams_enc.
Proof. wire_laws MsgUpdateParams_wf MsgUpdateParams_enc MsgUpdateParams_Size MsgUpdateParams_cases. Qed.
#[local] Hint Resolve onboarding_MsgUpdateParams_laws : wire_laws.

Definition MsgUpdateParamsResponse_wf (m : MsgUpdateParamsResponse) : Prop := True.
Definition MsgUpdateParamsResponse_enc (m : MsgUpdateParamsResponse) : bytes :=
  [].

Lemma onboarding_MsgUpdateParamsResponse_laws : CodecLaws MsgUpdateParamsResponse_codec MsgUpdateParamsResponse_wf MsgUpdateParamsResponse_enc.
Proof.
  apply message_laws; [done|done|intros; apply writes_nothing| |done]. intros [] _. apply reads_nothing.
Qed.
#[local] Hint Resolve onboarding_MsgUpdateParamsResponse_laws : wire_laws.

Definition QueryParamsRequest_wf (m : QueryParamsRequest) : Prop := True.
Definition QueryParamsRequest_enc (m : QueryParamsRequest) : bytes :=
  [].

Lemma onboarding_QueryParamsRequest_laws : CodecLaws QueryParamsRequest_codec QueryParamsRequest_wf QueryParamsRequest_enc.
Proof.
  apply message_laws; [done|done|intros; apply writes_nothing| |done]. intros [] _. apply reads_nothing.
Qed.
#[local] Hint Resolve onboarding_QueryParamsRequest_laws : wire_laws.

Definition QueryParamsResponse_wf (m : QueryParamsResponse) : Prop := Params_wf (QueryParamsResponse_Params m).
Definition QueryParamsResponse_enc (m : QueryParamsResponse) : bytes :=
  enc_message Params_enc 0xa (QueryParamsResponse_Params m).

Lemma onboarding_QueryParamsResponse_laws : CodecLaws QueryParamsResponse_codec QueryParamsResponse_wf QueryParamsResponse_enc.
Proof. wire_laws QueryParamsResponse_wf QueryParamsResponse_enc QueryParamsResponse_Size QueryParamsResponse_cases. Qed.
#[local] Hint Resolve onboarding_QueryParamsResponse_laws : wire_laws.

End codecs.
#[export] Hint Resolve onboarding_Params_laws onboarding_GenesisState_laws onboarding_MsgUpdateParams_laws onboarding_MsgUpdateParamsResponse_laws onboarding_QueryParamsRequest_laws onboarding_QueryParamsResponse_laws : wire_laws.
