(* ===== verification/GovshuttleCodec.v ===== *)
(** * Encodings of the messages and the stored values of x/govshuttle

    The generated code of [govshuttle.pb.go], [genesis.pb.go], [tx.pb.go] and
    [query.pb.go]. *)

From Stdlib Require Import Ascii.
From stdpp Require Import base strings list.
From S2P Require Import Prelude Sdk Govshuttle Wire WireFacts WireCodec.

#[local] Open Scope Z_scope.
#[local] Open Scope go_scope.


(** ** [Params] *)

Definition Params_MarshalToSizedBuffer (m : Params) : bytes -> outcome (bytes * Z) := sized_buffer done_writing.
Definition Params_Size (m : Params) : Z := 0.
Definition Params_cases (m : Params) (fieldNum wireType : Z) : option (reader Params) := None.
Definition Params_Unmarshal : bytes -> Params -> outcome Params := unmarshal "Params" Params_cases.
Definition Params_codec : Codec Params :=
  message_codec (mkParams) Params_Size Params_MarshalToSizedBuffer Params_Unmarshal.

(** ** [TreasuryProposalMetadata] *)

Definition TreasuryProposalMetadata_MarshalToSizedBuffer (m : TreasuryProposalMetadata) : bytes -> outcome (bytes * Z) :=
  sized_buffer (
    put_string 0x22 (T_Denom m) ;>
    put_varint 0x18 (T_Amount m) ;>
    put_string 0x12 (T_Recipient m) ;>
    put_varint 0x8 (T_PropID m)).
Definition TreasuryProposalMetadata_Size (m : TreasuryProposalMetadata) : Z :=
  size_varint (T_PropID m) +
  size_string (T_Recipient m) +
  size_varint (T_Amount m) +
  size_string (T_Denom m).
Definition TreasuryProposalMetadata_cases (m : TreasuryProposalMetadata) (fieldNum wireType : Z) : option (reader TreasuryProposalMetadata) :=
  let '(mkTreasuryProposalMetadata propID recipient amount_ denom_) := m in
  match fieldNum with
  | 1 => Some (get_varint wrap64 "PropID" wireType (fun v => mkTreasuryProposalMetadata v recipient amount_ denom_))
  | 2 => Some (get_string "Recipient" wireType (fun v => mkTreasuryProposalMetadata propID v amount_ denom_))
  | 3 => Some (get_varint wrap64 "Amount" wireType (fun v => mkTreasuryProposalMetadata propID recipient v denom_))
  | 4 => Some (get_string "Denom" wireType (fun v => mkTreasuryProposalMetadata propID recipient amount_ v))
  | _ => None
  end.
Definition TreasuryProposalMetadata_Unmarshal : bytes -> TreasuryProposalMetadata -> outcome TreasuryProposalMetadata := unmarshal "TreasuryProposalMetadata" TreasuryProposalMetadata_cases.
Definition TreasuryProposalMetadata_codec : Codec TreasuryProposalMetadata :=
  message_codec (mkTreasuryProposalMetadata 0 "" 0 "") TreasuryProposalMetadata_Size TreasuryProposalMetadata_MarshalToSizedBuffer TreasuryProposalMetadata_Unmarshal.

(** ** [LendingMarketMetadata] *)

Definition LendingMarketMetadata_MarshalToSizedBuffer (m : LendingMarketMetadata) : bytes -> outcome (bytes * Z) :=
  sized_buffer (
    put_strings 0x2a (LM_Signatures m) ;>
    put_strings 0x22 (LM_Calldatas m) ;>
    put_packed 0x1a (LM_Values m) ;>
    put_varint 0x10 (LM_PropId m) ;>
    put_strings 0xa (LM_Account m)).
Definition LendingMarketMetadata_Size (m : LendingMarketMetadata) : Z :=
  size_strings (LM_Account m) +
  size_varint (LM_PropId m) +
  size_packed (LM_Values m) +
  size_strings (LM_Calldatas m) +
  size_strings (LM_Signatures m).
Definition LendingMarketMetadata_cases (m : LendingMarketMetadata) (fieldNum wireType : Z) : option (reader LendingMarketMetadata) :=
  let '(mkLendingMarketMetadata account_ propId values_ calldatas signatures_) := m in
  match fieldNum with
  | 1 => Some (get_strings "Account" wireType account_ (fun v => mkLendingMarketMetadata v propId values_ calldatas signatures_))
  | 2 => Some (get_varint wrap64 "PropId" wireType (fun v => mkLendingMarketMetadata account_ v values_ calldatas signatures_))
  | 3 => Some (get_packed "Values" wireType values_ (fun v => mkLendingMarketMetadata account_ propId v calldatas signatures_))
  | 4 => Some (get_strings "Calldatas" wireType calldatas (fun v => mkLendingMarketMetadata account_ propId values_ v signatures_))
  | 5 => Some (get_strings "Signatures" wireType signatures_ (fun v => mkLendingMarketMetadata account_ propId values_ calldatas v))
  | _ => None
  end.
Definition LendingMarketMetadata_Unmarshal : bytes -> LendingMarketMetadata -> outcome LendingMarketMetadata := unmarshal "LendingMarketMetadata" LendingMarketMetadata_cases.
Definition LendingMarketMetadata_codec : Codec LendingMarketMetadata :=
  message_codec (mkLendingMarketMetadata [] 0 [] [] []) LendingMarketMetadata_Size LendingMarketMetadata_MarshalToSizedBuffer LendingMarketMetadata_Unmarshal.

(** ** [LendingMarketProposal] *)

Definition LendingMarketProposal_MarshalToSizedBuffer (m : LendingMarketProposal_content) : bytes -> outcome (bytes * Z) :=
  sized_buffer (
    put_pointer LendingMarketMetadata_codec 0x1a (LP_Metadata m) ;>
    put_string 0x12 (LP_Description m) ;>
    put_string 0xa (LP_Title m)).
Definition LendingMarketProposal_Size (m : LendingMarketProposal_content) : Z :=
  size_string (LP_Title m) +
  size_string (LP_Description m) +
  size_pointer LendingMarketMetadata_codec (LP_Metadata m).
Definition LendingMarketProposal_cases (m : LendingMarketProposal_content) (fieldNum wireType : Z) : option (reader LendingMarketProposal_content) :=
  let '(mkLendingMarketProposal title_ description metadata) := m in
  match fieldNum with
  | 1 => Some (get_string "Title" wireType (fun v => mkLendingMarketProposal v description metadata))
  | 2 => Some (get_string "Description" wireType (fun v => mkLendingMarketProposal title_ v metadata))
  | 3 => Some (get_pointer LendingMarketMetadata_codec "Metadata" wireType metadata (fun v => mkLendingMarketProposal title_ description v))
  | _ => None
  end.
Definition LendingMarketProposal_Unmarshal : bytes -> LendingMarketProposal_content -> outcome LendingMarketProposal_content := unmarshal "LendingMarketProposal" LendingMarketProposal_cases.
Definition LendingMarketProposal_codec : Codec LendingMarketProposal_content :=
  message_codec (mkLendingMarketProposal "" "" None) LendingMarketProposal_Size LendingMarketProposal_MarshalToSizedBuffer LendingMarketProposal_Unmarshal.

(** ** [TreasuryProposal] *)

Definition TreasuryProposal_MarshalToSizedBuffer (m : TreasuryProposal_content) : bytes -> outcome (bytes * Z) :=
  sized_buffer (
    put_pointer TreasuryProposalMetadata_codec 0x1a (TP_Metadata m) ;>
    put_string 0x12 (TP_Description m) ;>
    put_string 0xa (TP_Title m)).
Definition TreasuryProposal_Size (m : TreasuryProposal_content) : Z :=
  size_string (TP_Title m) +
  size_string (TP_Description m) +
  size_pointer TreasuryProposalMetadata_codec (TP_Metadata m).
Definition TreasuryProposal_cases (m : TreasuryProposal_content) (fieldNum wireType : Z) : option (reader TreasuryProposal_content) :=
  let '(mkTreasuryProposal title_ description metadata) := m in
  match fieldNum with
  | 1 => Some (get_string "Title" wireType (fun v => mkTreasuryProposal v description metadata))
  | 2 => Some (get_string "Description" wireType (fun v => mkTreasuryProposal title_ v metadata))
  | 3 => Some (get_pointer TreasuryProposalMetadata_codec "Metadata" wireType metadata (fun v => mkTreasuryProposal title_ description v))
  | _ => None
  end.
Definition TreasuryProposal_Unmarshal : bytes -> TreasuryProposal_content -> outcome TreasuryProposal_content := unmarshal "TreasuryProposal" TreasuryProposal_cases.
Definition TreasuryProposal_codec : Codec TreasuryProposal_content :=
  message_codec (mkTreasuryProposal "" "" None) TreasuryProposal_Size TreasuryProposal_MarshalToSizedBuffer TreasuryProposal_Unmarshal.

(** ** [GenesisState] *)

Definition GenesisState_MarshalToSizedBuffer (m : GenesisState) : bytes -> outcome (bytes * Z) :=
  sized_buffer (
    put_string 0x12 (PortContractAddr m) ;>
    put_message Params_codec 0xa (Gen_Params m)).
Definition GenesisState_Size (m : GenesisState) : Z :=
  size_message Params_codec (Gen_Params m) +
  size_string (PortContractAddr m).
Definition GenesisState_cases (m : GenesisState) (fieldNum wireType : Z) : option (reader GenesisState) :=
  let '(mkGenesisState params portContractAddr) := m in
  match fieldNum with
  | 1 => Some (get_message Params_codec "Params" wireType params (fun v => mkGenesisState v portContractAddr))
  | 2 => Some (get_string "PortContractAddr" wireType (fun v => mkGenesisState params v))
  | _ => None
  end.
Definition GenesisState_Unmarshal : bytes -> GenesisState -> outcome GenesisState := unmarshal "GenesisState" GenesisState_cases.
Definition GenesisState_codec : Codec GenesisState :=
  message_codec (mkGenesisState (zero Params_codec) "") GenesisState_Size GenesisState_MarshalToSizedBuffer GenesisState_Unmarshal.

(** ** [MsgLendingMarketProposal] *)

Definition MsgLendingMarketProposal_MarshalToSizedBuffer (m : MsgLendingMarketProposal) : bytes -> outcome (bytes * Z) :=
  sized_buffer (
    put_pointer LendingMarketMetadata_codec 0x22 (ML_Metadata m) ;>
    put_string 0x1a (ML_Description m) ;>
    put_string 0x12 (ML_Title m) ;>
    put_string 0xa (ML_Authority m)).
Definition MsgLendingMarketProposal_Size (m : MsgLendingMarketProposal) : Z :=
  size_string (ML_Authority m) +
  size_string (ML_Title m) +
  size_string (ML_Description m) +
  size_pointer LendingMarketMetadata_codec (ML_Metadata m).
Definition MsgLendingMarketProposal_cases (m : MsgLendingMarketProposal) (fieldNum wireType : Z) : option (reader MsgLendingMarketProposal) :=
  let '(mkMsgLendingMarketProposal authority title_ description metadata) := m in
  match fieldNum with
  | 1 => Some (get_string "Authority" wireType (fun v => mkMsgLendingMarketProposal v title_ description metadata))
  | 2 => Some (get_string "Title" wireType (fun v => mkMsgLendingMarketProposal authority v description metadata))
  | 3 => Some (get_string "Description" wireType (fun v => mkMsgLendingMarketProposal authority title_ v metadata))
  | 4 => Some (get_pointer LendingMarketMetadata_codec "Metadata" wireType metadata (fun v => mkMsgLendingMarketProposal authority title_ description v))
  | _ => None
  end.
Definition MsgLendingMarketProposal_Unmarshal : bytes -> MsgLendingMarketProposal -> outcome MsgLendingMarketProposal := unmarshal "MsgLendingMarketProposal" MsgLendingMarketProposal_cases.
Definition MsgLendingMarketProposal_codec : Codec MsgLendingMarketProposal :=
  message_codec (mkMsgLendingMarketProposal "" "" "" None) MsgLendingMarketProposal_Size MsgLendingMarketProposal_MarshalToSizedBuffer MsgLendingMarketProposal_Unmarshal.

(** ** [MsgTreasuryProposal] *)

Definition MsgTreasuryProposal_MarshalToSizedBuffer (m : MsgTreasuryProposal) : bytes -> outcome (bytes * Z) :=
  sized_buffer (
    put_pointer TreasuryProposalMetadata_codec 0x22 (MT_Metadata m) ;>
    put_string 0x1a (MT_Description m) ;>
    put_string 0x12 (MT_Title m) ;>
    put_string 0xa (MT_Authority m)).
Definition MsgTreasuryProposal_Size (m : MsgTreasuryProposal) : Z :=
  size_string (MT_Authority m) +
  size_string (MT_Title m) +
  size_string (MT_Description m) +
  size_pointer TreasuryProposalMetadata_codec (MT_Metadata m).
Definition MsgTreasuryProposal_cases (m : MsgTreasuryProposal) (fieldNum wireType : Z) : option (reader MsgTreasuryProposal) :=
  let '(mkMsgTreasuryProposal authority title_ description metadata) := m in
  match fieldNum with
  | 1 => Some (get_string "Authority" wireType (fun v => mkMsgTreasuryProposal v title_ description metadata))
  | 2 => Some (get_string "Title" wireType (fun v => mkMsgTreasuryProposal authority v description metadata))
  | 3 => Some (get_string "Description" wireType (fun v => mkMsgTreasuryProposal authority title_ v metadata))
  | 4 => Some (get_pointer TreasuryProposalMetadata_codec "Metadata" wireType metadata (fun v => mkMsgTreasuryProposal authority title_ description v))
  | _ => None
  end.
Definition MsgTreasuryProposal_Unmarshal : bytes -> MsgTreasuryProposal -> outcome MsgTreasuryProposal := unmarshal "MsgTreasuryProposal" MsgTreasuryProposal_cases.
Definition MsgTreasuryProposal_codec : Codec MsgTreasuryProposal :=
  message_codec (mkMsgTreasuryProposal "" "" "" None) MsgTreasuryProposal_Size MsgTreasuryProposal_MarshalToSizedBuffer MsgTreasuryProposal_Unmarshal.

(** ** [MsgLendingMarketProposalResponse] *)

Record MsgLendingMarketProposalResponse := mkMsgLendingMarketProposalResponse {}.
Definition MsgLendingMarketProposalResponse_MarshalToSizedBuffer (m : MsgLendingMarketProposalResponse) : bytes -> outcome (bytes * Z) := sized_buffer done_writing.
Definition MsgLendingMarketProposalResponse_Size (m : MsgLendingMarketProposalResponse) : Z := 0.
Definition MsgLendingMarketProposalResponse_cases (m : MsgLendingMarketProposalResponse) (fieldNum wireType : Z) : option (reader MsgLendingMarketProposalResponse) := None.
Definition MsgLendingMarketProposalResponse_Unmarshal : bytes -> MsgLendingMarketProposalResponse -> outcome MsgLendingMarketProposalResponse := unmarshal "MsgLendingMarketProposalResponse" MsgLendingMarketProposalResponse_cases.
Definition MsgLendingMarketProposalResponse_codec : Codec MsgLendingMarketProposalResponse :=
  message_codec (mkMsgLendingMarketProposalResponse) MsgLendingMarketProposalResponse_Size MsgLendingMarketProposalResponse_MarshalToSizedBuffer MsgLendingMarketProposalResponse_Unmarshal.

(** ** [MsgTreasuryProposalResponse] *)

Record MsgTreasuryProposalResponse := mkMsgTreasuryProposalResponse {}.
Definition MsgTreasuryProposalResponse_MarshalToSizedBuffer (m : MsgTreasuryProposalResponse) : bytes -> outcome (bytes * Z) := sized_buffer done_writing.
Definition MsgTreasuryProposalResponse_Size (m : MsgTreasuryProposalResponse) : Z := 0.
Definition MsgTreasuryProposalResponse_cases (m : MsgTreasuryProposalResponse) (fieldNum wireType : Z) : option (reader MsgTreasuryProposalResponse) := None.
Definition MsgTreasuryProposalResponse_Unmarshal : bytes -> MsgTreasuryProposalResponse -> outcome MsgTreasuryProposalResponse := unmarshal "MsgTreasuryProposalResponse" MsgTreasuryProposalResponse_cases.
Definition MsgTreasuryProposalResponse_codec : Codec MsgTreasuryProposalResponse :=
  message_codec (mkMsgTreasuryProposalResponse) MsgTreasuryProposalResponse_Size MsgTreasuryProposalResponse_MarshalToSizedBuffer MsgTreasuryProposalResponse_Unmarshal.

(** ** [QueryParamsRequest] *)

Record QueryParamsRequest := mkQueryParamsRequest {}.
Definition QueryParamsRequest_MarshalToSizedBuffer (m : QueryParamsRequest) : bytes -> outcome (bytes * Z) := sized_buffer done_writing.
Definition QueryParamsRequest_Size (m : QueryParamsRequest) : Z := 0.
Definition QueryParamsRequest_cases (m : QueryParamsRequest) (fieldNum wireType : Z) : option (reader QueryParamsRequest) := None.
Definition QueryParamsRequest_Unmarshal : bytes -> QueryParamsRequest -> outcome QueryParamsRequest := unmarshal "QueryParamsRequest" QueryParamsRequest_cases.
Definition QueryParamsRequest_codec : Codec QueryParamsRequest :=
  message_codec (mkQueryParamsRequest) QueryParamsRequest_Size QueryParamsRequest_MarshalToSizedBuffer QueryParamsRequest_Unmarshal.

(** ** [QueryParamsResponse] *)

Record QueryParamsResponse := mkQueryParamsResponse { QueryParamsResponse_Params : Params }.
Definition QueryParamsResponse_MarshalToSizedBuffer (m : QueryParamsResponse) : bytes -> outcome (bytes * Z) :=
  sized_buffer (
    put_message Params_codec 0xa (QueryParamsResponse_Params m)).
Definition QueryParamsResponse_Size (m : QueryParamsResponse) : Z :=
  size_message Params_codec (QueryParamsResponse_Params m).
Definition QueryParamsResponse_cases (m : QueryParamsResponse) (fieldNum wireType : Z) : option (reader QueryParamsResponse) :=
  let '(mkQueryParamsResponse params) := m in
  match fieldNum with
  | 1 => Some (get_message Params_codec "Params" wireType params (fun v => mkQueryParamsResponse v))
  | _ => None
  end.
Definition QueryParamsResponse_Unmarshal : bytes -> QueryParamsResponse -> outcome QueryParamsResponse := unmarshal "QueryParamsResponse" QueryParamsResponse_cases.
Definition QueryParamsResponse_codec : Codec QueryParamsResponse :=
  message_codec (mkQueryParamsResponse (zero Params_codec)) QueryParamsResponse_Size QueryParamsResponse_MarshalToSizedBuffer QueryParamsResponse_Unmarshal.

(** ** Well-formed messages and their encodings *)

Definition Params_wf (m : Params) : Prop := True.
Definition Params_enc (m : Params) : bytes :=
  [].

Lemma govshuttle_Params_laws : CodecLaws Params_codec Params_wf Params_enc.
Proof.
  apply message_laws; [done|done|intros; apply writes_nothing| |done]. intros [] _. apply reads_nothing.
Qed.
#[local] Hint Resolve govshuttle_Params_laws : wire_laws.

Definition TreasuryProposalMetadata_wf (m : TreasuryProposalMetadata) : Prop := is_uint64 (T_PropID m) ∧ is_uint64 (T_Amount m).
Definition TreasuryProposalMetadata_enc (m : TreasuryProposalMetadata) : bytes :=
  enc_varint 0x8 (T_PropID m) ++
  enc_string 0x12 (T_Recipient m) ++
  enc_varint 0x18 (T_Amount m) ++
  enc_string 0x22 (T_Denom m).

Lemma govshuttle_TreasuryProposalMetadata_laws : CodecLaws TreasuryProposalMetadata_codec TreasuryProposalMetadata_wf TreasuryProposalMetadata_enc.
Proof. wire_laws TreasuryProposalMetadata_wf TreasuryProposalMetadata_enc TreasuryProposalMetadata_Size TreasuryProposalMetadata_cases. Qed.
#[local] Hint Resolve govshuttle_TreasuryProposalMetadata_laws : wire_laws.

Definition LendingMarketMetadata_wf (m : LendingMarketMetadata) : Prop := is_uint64 (LM_PropId m) ∧ Forall is_uint64 (LM_Values m).
Definition LendingMarketMetadata_enc (m : LendingMarketMetadata) : bytes :=
  enc_strings 0xa (LM_Account m) ++
  enc_varint 0x10 (LM_PropId m) ++
  enc_packed 0x1a (LM_Values m) ++
  enc_strings 0x22 (LM_Calldatas m) ++
  enc_strings 0x2a (LM_Signatures m).

Lemma govshuttle_LendingMarketMetadata_laws : CodecLaws LendingMarketMetadata_codec LendingMarketMetadata_wf LendingMarketMetadata_enc.
Proof. wire_laws LendingMarketMetadata_wf LendingMarketMetadata_enc LendingMarketMetadata_Size LendingMarketMetadata_cases. Qed.
#[local] Hint Resolve govshuttle_LendingMarketMetadata_laws : wire_laws.

Definition LendingMarketProposal_wf (m : LendingMarketProposal_content) : Prop := (∀ x, LP_Metadata m = Some x -> LendingMarketMetadata_wf x).
Definition LendingMarketProposal_enc (m : LendingMarketProposal_content) : bytes :=
  enc_string 0xa (LP_Title m) ++
  enc_string 0x12 (LP_Description m) ++
  enc_pointer LendingMarketMetadata_enc 0x1a (LP_Metadata m).

Lemma govshuttle_LendingMarketProposal_laws : CodecLaws LendingMarketProposal_codec LendingMarketProposal_wf LendingMarketProposal_enc.
Proof. wire_laws LendingMarketProposal_wf LendingMarketProposal_enc LendingMarketProposal_Size LendingMarketProposal_cases. Qed.
#[local] Hint Resolve govshuttle_LendingMarketProposal_laws : wire_laws.

Definition TreasuryProposal_wf (m : TreasuryProposal_content) : Prop := (∀ x, TP_Metadata m = Some x -> TreasuryProposalMetadata_wf x).
Definition TreasuryProposal_enc (m : TreasuryProposal_content) : bytes :=
  enc_string 0xa (TP_Title m) ++
  enc_string 0x12 (TP_Description m) ++
  enc_pointer TreasuryProposalMetadata_enc 0x1a (TP_Metadata m).

Lemma govshuttle_TreasuryProposal_laws : CodecLaws TreasuryProposal_codec TreasuryProposal_wf TreasuryProposal_enc.
Proof. wire_laws TreasuryProposal_wf TreasuryProposal_enc TreasuryProposal_Size TreasuryProposal_cases. Qed.
#[local] Hint Resolve govshuttle_TreasuryProposal_laws : wire_laws.

Definition GenesisState_wf (m : GenesisState) : Prop := Params_wf (Gen_Params m).
Definition GenesisState_enc (m : GenesisState) : bytes :=
  enc_message Params_enc 0xa (Gen_Params m) ++
  enc_string 0x12 (PortContractAddr m).

Lemma govshuttle_GenesisState_laws : CodecLaws GenesisState_codec GenesisState_wf GenesisState_enc.
Proof. wire_laws GenesisState_wf GenesisState_enc GenesisState_Size GenesisState_cases. Qed.
#[local] Hint Resolve govshuttle_GenesisState_laws : wire_laws.

Definition MsgLendingMarketProposal_wf (m : MsgLendingMarketProposal) : Prop := (∀ x, ML_Metadata m = Some x -> LendingMarketMetadata_wf x).
Definition MsgLendingMarketProposal_enc (m : MsgLendingMarketProposal) : bytes :=
  enc_string 0xa (ML_Authority m) ++
  enc_string 0x12 (ML_Title m) ++
  enc_string 0x1a (ML_Description m) ++
  enc_pointer LendingMarketMetadata_enc 0x22 (ML_Metadata m).

Lemma govshuttle_MsgLendingMarketProposal_laws : CodecLaws MsgLendingMarketProposal_codec MsgLendingMarketProposal_wf MsgLendingMarketProposal_enc.
Proof. wire_laws MsgLendingMarketProposal_wf MsgLendingMarketProposal_enc MsgLendingMarketProposal_Size MsgLendingMarketProposal_cases. Qed.
#[local] Hint Resolve govshuttle_MsgLendingMarketProposal_laws : wire_laws.

Definition MsgTreasuryProposal_wf (m : MsgTreasuryProposal) : Prop := (∀ x, MT_Metadata m = Some x -> TreasuryProposalMetadata_wf x).
Definition MsgTreasuryProposal_enc (m : MsgTreasuryProposal) : bytes :=
  enc_string 0xa (MT_Authority m) ++
  enc_string 0x12 (MT_Title m) ++
  enc_string 0x1a (MT_Description m) ++
  enc_pointer TreasuryProposalMetadata_enc 0x22 (MT_Metadata m).

Lemma govshuttle_MsgTreasuryProposal_laws : CodecLaws MsgTreasuryProposal_codec MsgTreasuryProposal_wf MsgTreasuryProposal_enc.
Proof. wire_laws MsgTreasuryProposal_wf MsgTreasuryProposal_enc MsgTreasuryProposal_Size MsgTreasuryProposal_cases. Qed.
#[local] Hint Resolve govshuttle_MsgTreasuryProposal_laws : wire_laws.

Definition MsgLendingMarketProposalResponse_wf (m : MsgLendingMarketProposalResponse) : Prop := True.
Definition MsgLendingMarketProposalResponse_enc (m : MsgLendingMarketProposalResponse) : bytes :=
  [].

Lemma govshuttle_MsgLendingMarketProposalResponse_laws : CodecLaws MsgLendingMarketProposalResponse_codec MsgLendingMarketProposalResponse_wf MsgLendingMarketProposalResponse_enc.
Proof.
  apply message_laws; [done|done|intros; apply writes_nothing| |done]. intros [] _. apply reads_nothing.
Qed.
#[local] Hint Resolve govshuttle_MsgLendingMarketProposalResponse_laws : wire_laws.

Definition MsgTreasuryProposalResponse_wf (m : MsgTreasuryProposalResponse) : Prop := True.
Definition MsgTreasuryProposalResponse_enc (m : MsgTreasuryProposalResponse) : bytes :=
  [].

Lemma govshuttle_MsgTreasuryProposalResponse_laws : CodecLaws MsgTreasuryProposalResponse_codec MsgTreasuryProposalResponse_wf MsgTreasuryProposalResponse_enc.
Proof.
  apply message_laws; [done|done|intros; apply writes_nothing| |done]. intros [] _. apply reads_nothing.
Qed.
#[local] Hint Resolve govshuttle_MsgTreasuryProposalResponse_laws : wire_laws.

Definition QueryParamsRequest_wf (m : QueryParamsRequest) : Prop := True.
Definition QueryParamsRequest_enc (m : QueryParamsRequest) : bytes :=
  [].

Lemma govshuttle_QueryParamsRequest_laws : CodecLaws QueryParamsRequest_codec QueryParamsRequest_wf QueryParamsRequest_enc.
Proof.
  apply message_laws; [done|done|intros; apply writes_nothing| |done]. intros [] _. apply reads_nothing.
Qed.
#[local] Hint Resolve govshuttle_QueryParamsRequest_laws : wire_laws.

Definition QueryParamsResponse_wf (m : QueryParamsResponse) : Prop := Params_wf (QueryParamsResponse_Params m).
Definition QueryParamsResponse_enc (m : QueryParamsResponse) : bytes :=
  enc_message Params_enc 0xa (QueryParamsResponse_Params m).

Lemma govshuttle_QueryParamsResponse_laws : CodecLaws QueryParamsResponse_codec QueryParamsResponse_wf QueryParamsResponse_enc.
Proof. wire_laws QueryParamsResponse_wf QueryParamsResponse_enc QueryParamsResponse_Size QueryParamsResponse_cases. Qed.
#[local] Hint Resolve govshuttle_QueryParamsResponse_laws : wire_laws.

#[export] Hint Resolve govshuttle_Params_laws govshuttle_TreasuryProposalMetadata_laws govshuttle_LendingMarketMetadata_laws govshuttle_LendingMarketProposal_laws govshuttle_TreasuryProposal_laws govshuttle_GenesisState_laws govshuttle_MsgLendingMarketProposal_laws govshuttle_MsgTreasuryProposal_laws govshuttle_MsgLendingMarketProposalResponse_laws govshuttle_MsgTreasuryProposalResponse_laws govshuttle_QueryParamsRequest_laws govshuttle_QueryParamsResponse_laws : wire_laws.
