(* ===== verification/Erc20Codec.v ===== *)
(** * Encodings of the messages and the stored values of x/erc20

    The generated code of [erc20.pb.go], [genesis.pb.go], [tx.pb.go] and
    [query.pb.go]. *)

From Stdlib Require Import Ascii.
From stdpp Require Import base strings list.
From S2P Require Import Prelude Sdk Erc20Types Wire WireFacts WireCodec WireSdk.

#[local] Open Scope Z_scope.
#[local] Open Scope go_scope.

(** The numbers of the enumeration [Owner].  The code keeps a number it has no
    name for; no function of the module tells it apart from
    [OWNER_UNSPECIFIED], as which it is read here. *)
Definition Owner_value (o : Owner) : Z :=
  match o with OWNER_UNSPECIFIED => 0 | OWNER_MODULE => 1 | OWNER_EXTERNAL => 2 end.
Definition Owner_of (v : Z) : Owner :=
  match v with 1 => OWNER_MODULE | 2 => OWNER_EXTERNAL | _ => OWNER_UNSPECIFIED end.

Section codecs.
Context {SC : SdkCodecs}.

(** ** [TokenPair] *)

Definition TokenPair_MarshalToSizedBuffer (m : TokenPair) : bytes -> outcome (bytes * Z) :=
  sized_buffer (
    put_varint 0x20 (Owner_value (ContractOwner m)) ;>
    put_bool 0x18 (Enabled m) ;>
    put_string 0x12 (Pair_Denom m) ;>
    put_string 0xa (Erc20Address m)).
Definition TokenPair_Size (m : TokenPair) : Z :=
  size_string (Erc20Address m) +
  size_string (Pair_Denom m) +
  size_bool (Enabled m) +
  size_varint (Owner_value (ContractOwner m)).
Definition TokenPair_cases (m : TokenPair) (fieldNum wireType : Z) : option (reader TokenPair) :=
  let '(mkTokenPair erc20Address denom_ enabled contractOwner) := m in
  match fieldNum with
  | 1 => Some (get_string "Erc20Address" wireType (fun v => mkTokenPair v denom_ enabled contractOwner))
  | 2 => Some (get_string "Denom" wireType (fun v => mkTokenPair erc20Address v enabled contractOwner))
  | 3 => Some (get_bool "Enabled" wireType (fun v => mkTokenPair erc20Address denom_ v contractOwner))
  | 4 => Some (get_varint sint32 "ContractOwner" wireType (fun v => mkTokenPair erc20Address denom_ enabled (Owner_of v)))
  | _ => None
  end.
Definition TokenPair_Unmarshal : bytes -> TokenPair -> outcome TokenPair := unmarshal "TokenPair" TokenPair_cases.
Definition TokenPair_codec : Codec TokenPair :=
  message_codec (mkTokenPair "" "" false OWNER_UNSPECIFIED) TokenPair_Size TokenPair_MarshalToSizedBuffer TokenPair_Unmarshal.

(** ** [TokenPairDenomIndex] *)

Definition TokenPairDenomIndex_MarshalToSizedBuffer (m : TokenPairDenomIndex) : bytes -> outcome (bytes * Z) :=
  sized_buffer (
    put_string 0x12 (DIdx_TokenPairId m) ;>
    put_string 0xa (DIdx_Denom m)).
Definition TokenPairDenomIndex_Size (m : TokenPairDenomIndex) : Z :=
  size_string (DIdx_Denom m) +
  size_string (DIdx_TokenPairId m).
Definition TokenPairDenomIndex_cases (m : TokenPairDenomIndex) (fieldNum wireType : Z) : option (reader TokenPairDenomIndex) :=
  let '(mkTokenPairDenomIndex denom_ tokenPairId) := m in
  match fieldNum with
  | 1 => Some (get_string "Denom" wireType (fun v => mkTokenPairDenomIndex v tokenPairId))
  | 2 => Some (get_bytes "TokenPairId" wireType (fun v => mkTokenPairDenomIndex denom_ v))
  | _ => None
  end.
Definition TokenPairDenomIndex_Unmarshal : bytes -> TokenPairDenomIndex -> outcome TokenPairDenomIndex := unmarshal "TokenPairDenomIndex" TokenPairDenomIndex_cases.
Definition TokenPairDenomIndex_codec : Codec TokenPairDenomIndex :=
  message_codec (mkTokenPairDenomIndex "" "") TokenPairDenomIndex_Size TokenPairDenomIndex_MarshalToSizedBuffer TokenPairDenomIndex_Unmarshal.

(** ** [TokenPairERC20AddressIndex] *)

Definition TokenPairERC20AddressIndex_MarshalToSizedBuffer (m : TokenPairERC20AddressIndex) : bytes -> outcome (bytes * Z) :=
  sized_buffer (
    put_string 0x12 (EIdx_TokenPairId m) ;>
    put_string 0xa (EIdx_Erc20Address m)).
Definition TokenPairERC20AddressIndex_Size (m : TokenPairERC20AddressIndex) : Z :=
  size_string (EIdx_Erc20Address m) +
  size_string (EIdx_TokenPairId m).
Definition TokenPairERC20AddressIndex_cases (m : TokenPairERC20AddressIndex) (fieldNum wireType : Z) : option (reader TokenPairERC20AddressIndex) :=
  let '(mkTokenPairERC20AddressIndex erc20Address tokenPairId) := m in
  match fieldNum with
  | 1 => Some (get_bytes "Erc20Address" wireType (fun v => mkTokenPairERC20AddressIndex v tokenPairId))
  | 2 => Some (get_bytes "TokenPairId" wireType (fun v => mkTokenPairERC20AddressIndex erc20Address v))
  | _ => None
  end.
Definition TokenPairERC20AddressIndex_Unmarshal : bytes -> TokenPairERC20AddressIndex -> outcome TokenPairERC20AddressIndex := unmarshal "TokenPairERC20AddressIndex" TokenPairERC20AddressIndex_cases.
Definition TokenPairERC20AddressIndex_codec : Codec TokenPairERC20AddressIndex :=
  message_codec (mkTokenPairERC20AddressIndex "" "") TokenPairERC20AddressIndex_Size TokenPairERC20AddressIndex_MarshalToSizedBuffer TokenPairERC20AddressIndex_Unmarshal.

(** ** [Params] *)

Definition Params_MarshalToSizedBuffer (m : Params) : bytes -> outcome (bytes * Z) :=
  sized_buffer (
    put_bool 0x10 (EnableEVMHook m) ;>
    put_bool 0x8 (EnableErc20 m)).
Definition Params_Size (m : Params) : Z :=
  size_bool (EnableErc20 m) +
  size_bool (EnableEVMHook m).
Definition Params_cases (m : Params) (fieldNum wireType : Z) : option (reader Params) :=
  let '(mkParams enableErc20 enableEVMHook) := m in
  match fieldNum with
  | 1 => Some (get_bool "EnableErc20" wireType (fun v => mkParams v enableEVMHook))
  | 2 => Some (get_bool "EnableEVMHook" wireType (fun v => mkParams enableErc20 v))
  | _ => None
  end.
Definition Params_Unmarshal : bytes -> Params -> outcome Params := unmarshal "Params" Params_cases.
Definition Params_codec : Codec Params :=
  message_codec (mkParams false false) Params_Size Params_MarshalToSizedBuffer Params_Unmarshal.

(** ** [GenesisState] *)

Definition GenesisState_MarshalToSizedBuffer (m : GenesisState) : bytes -> outcome (bytes * Z) :=
  sized_buffer (
    put_messages TokenPairERC20AddressIndex_codec 0x22 (Gen_Erc20AddressIndexes m) ;>
    put_messages TokenPairDenomIndex_codec 0x1a (Gen_DenomIndexes m) ;>
    put_messages TokenPair_codec 0x12 (Gen_TokenPairs m) ;>
    put_message Params_codec 0xa (Gen_Params m)).
Definition GenesisState_Size (m : GenesisState) : Z :=
  size_message Params_codec (Gen_Params m) +
  size_messages TokenPair_codec (Gen_TokenPairs m) +
  size_messages TokenPairDenomIndex_codec (Gen_DenomIndexes m) +
  size_messages TokenPairERC20AddressIndex_codec (Gen_Erc20AddressIndexes m).
Definition GenesisState_cases (m : GenesisState) (fieldNum wireType : Z) : option (reader GenesisState) :=
  let '(mkGenesisState params tokenPairs denomIndexes erc20AddressIndexes) := m in
  match fieldNum with
  | 1 => Some (get_message Params_codec "Params" wireType params (fun v => mkGenesisState v tokenPairs denomIndexes erc20AddressIndexes))
  | 2 => Some (get_element TokenPair_codec "TokenPairs" wireType tokenPairs (fun v => mkGenesisState params v denomIndexes erc20AddressIndexes))
  | 3 => Some (get_element TokenPairDenomIndex_codec "DenomIndexes" wireType denomIndexes (fun v => mkGenesisState params tokenPairs v erc20AddressIndexes))
  | 4 => Some (get_element TokenPairERC20AddressIndex_codec "Erc20AddressIndexes" wireType erc20AddressIndexes (fun v => mkGenesisState params tokenPairs denomIndexes v))
  | _ => None
  end.
Definition GenesisState_Unmarshal : bytes -> GenesisState -> outcome GenesisState := unmarshal "GenesisState" GenesisState_cases.
Definition GenesisState_codec : Codec GenesisState :=
  message_codec (mkGenesisState (zero Params_codec) [] [] []) GenesisState_Size GenesisState_MarshalToSizedBuffer GenesisState_Unmarshal.

(** ** [MsgConvertCoin] *)

Definition MsgConvertCoin_MarshalToSizedBuffer (m : MsgConvertCoin) : bytes -> outcome (bytes * Z) :=
  sized_buffer (
    put_string 0x1a (CC_Sender m) ;>
    put_string 0x12 (CC_Receiver m) ;>
    put_message Coin_codec 0xa (CC_Coin m)).
Definition MsgConvertCoin_Size (m : MsgConvertCoin) : Z :=
  size_message Coin_codec (CC_Coin m) +
  size_string (CC_Receiver m) +
  size_string (CC_Sender m).
Definition MsgConvertCoin_cases (m : MsgConvertCoin) (fieldNum wireType : Z) : option (reader MsgConvertCoin) :=
  let '(mkMsgConvertCoin coin receiver sender_) := m in
  match fieldNum with
  | 1 => Some (get_message Coin_codec "Coin" wireType coin (fun v => mkMsgConvertCoin v receiver sender_))
  | 2 => Some (get_string "Receiver" wireType (fun v => mkMsgConvertCoin coin v sender_))
  | 3 => Some (get_string "Sender" wireType (fun v => mkMsgConvertCoin coin receiver v))
  | _ => None
  end.
Definition MsgConvertCoin_Unmarshal : bytes -> MsgConvertCoin -> outcome MsgConvertCoin := unmarshal "MsgConvertCoin" MsgConvertCoin_cases.
Definition MsgConvertCoin_codec : Codec MsgConvertCoin :=
  message_codec (mkMsgConvertCoin (zero Coin_codec) "" "") MsgConvertCoin_Size MsgConvertCoin_MarshalToSizedBuffer MsgConvertCoin_Unmarshal.

(** ** [MsgConvertERC20] *)

Definition MsgConvertERC20_MarshalToSizedBuffer (m : MsgConvertERC20) : bytes -> outcome (bytes * Z) :=
  sized_buffer (
    put_string 0x22 (CE_Sender m) ;>
    put_string 0x1a (CE_Receiver m) ;>
    put_custom Int_codec 0x12 (CE_Amount m) ;>
    put_string 0xa (CE_ContractAddress m)).
Definition MsgConvertERC20_Size (m : MsgConvertERC20) : Z :=
  size_string (CE_ContractAddress m) +
  size_message Int_codec (CE_Amount m) +
  size_string (CE_Receiver m) +
  size_string (CE_Sender m).
Definition MsgConvertERC20_cases (m : MsgConvertERC20) (fieldNum wireType : Z) : option (reader MsgConvertERC20) :=
  let '(mkMsgConvertERC20 contractAddress amount_ receiver sender_) := m in
  match fieldNum with
  | 1 => Some (get_string "ContractAddress" wireType (fun v => mkMsgConvertERC20 v amount_ receiver sender_))
  | 2 => Some (get_custom Int_codec "Amount" wireType amount_ (fun v => mkMsgConvertERC20 contractAddress v receiver sender_))
  | 3 => Some (get_string "Receiver" wireType (fun v => mkMsgConvertERC20 contractAddress amount_ v sender_))
  | 4 => Some (get_string "Sender" wireType (fun v => mkMsgConvertERC20 contractAddress amount_ receiver v))
  | _ => None
  end.
Definition MsgConvertERC20_Unmarshal : bytes -> MsgConvertERC20 -> outcome MsgConvertERC20 := unmarshal "MsgConvertERC20" MsgConvertERC20_cases.
Definition MsgConvertERC20_codec : Codec MsgConvertERC20 :=
  message_codec (mkMsgConvertERC20 "" (zero Int_codec) "" "") MsgConvertERC20_Size MsgConvertERC20_MarshalToSizedBuffer MsgConvertERC20_Unmarshal.

(** ** [MsgUpdateParams] *)

Definition MsgUpdateParams_MarshalToSizedBuffer (m : MsgUpdateParams) : bytes -> outcome (bytes * Z) :=
  sized_buffer (
    put_message Params_codec 0x12 (Upd_Params m) ;>
    put_string 0xa (Upd_Authority m)).
Definition MsgUpdateParams_Size (m : MsgUpdateParams) : Z :=
  size_string (Upd_Authority m) +
  size_message Params_codec (Upd_Params m).
Definition MsgUpdateParams_cases (m : MsgUpdateParams) (fieldNum wireType : Z) : option (reader MsgUpdateParams) :=
  let '(mkMsgUpdateParams authority params) := m in
  match fieldNum with
  | 1 => Some (get_string "Authority" wireType (fun v => mkMsgUpdateParams v params))
  | 2 => Some (get_message Params_codec "Params" wireType params (fun v => mkMsgUpdateParams authority v))
  | _ => None
  end.
Definition MsgUpdateParams_Unmarshal : bytes -> MsgUpdateParams -> outcome MsgUpdateParams := unmarshal "MsgUpdateParams" MsgUpdateParams_cases.
Definition MsgUpdateParams_codec : Codec MsgUpdateParams :=
  message_codec (mkMsgUpdateParams "" (zero Params_codec)) MsgUpdateParams_Size MsgUpdateParams_MarshalToSizedBuffer MsgUpdateParams_Unmarshal.

(** ** [MsgUpdateParamsResponse] *)

Record MsgUpdateParamsResponse := mkMsgUpdateParamsResponse {}.
Definition MsgUpdateParamsResponse_MarshalToSizedBuffer (m : MsgUpdateParamsResponse) : bytes -> outcome (bytes * Z) := sized_buffer done_writing.
Definition MsgUpdateParamsResponse_Size (m : MsgUpdateParamsResponse) : Z := 0.
Definition MsgUpdateParamsResponse_cases (m : MsgUpdateParamsResponse) (fieldNum wireType : Z) : option (reader MsgUpdateParamsResponse) := None.
Definition MsgUpdateParamsResponse_Unmarshal : bytes -> MsgUpdateParamsResponse -> outcome MsgUpdateParamsResponse := unmarshal "MsgUpdateParamsResponse" MsgUpdateParamsResponse_cases.
Definition MsgUpdateParamsResponse_codec : Codec MsgUpdateParamsResponse :=
  message_codec (mkMsgUpdateParamsResponse) MsgUpdateParamsResponse_Size MsgUpdateParamsResponse_MarshalToSizedBuffer MsgUpdateParamsResponse_Unmarshal.

(** ** [MsgConvertCoinResponse] *)

Record MsgConvertCoinResponse := mkMsgConvertCoinResponse {}.
Definition MsgConvertCoinResponse_MarshalToSizedBuffer (m : MsgConvertCoinResponse) : bytes -> outcome (bytes * Z) := sized_buffer done_writing.
Definition MsgConvertCoinResponse_Size (m : MsgConvertCoinResponse) : Z := 0.
Definition MsgConvertCoinResponse_cases (m : MsgConvertCoinResponse) (fieldNum wireType : Z) : option (reader MsgConvertCoinResponse) := None.
Definition MsgConvertCoinResponse_Unmarshal : bytes -> MsgConvertCoinResponse -> outcome MsgConvertCoinResponse := unmarshal "MsgConvertCoinResponse" MsgConvertCoinResponse_cases.
Definition MsgConvertCoinResponse_codec : Codec MsgConvertCoinResponse :=
  message_codec (mkMsgConvertCoinResponse) MsgConvertCoinResponse_Size MsgConvertCoinResponse_MarshalToSizedBuffer MsgConvertCoinResponse_Unmarshal.

(** ** [MsgConvertERC20Response] *)

Record MsgConvertERC20Response := mkMsgConvertERC20Response {}.
Definition MsgConvertERC20Response_MarshalToSizedBuffer (m : MsgConvertERC20Response) : bytes -> outcome (bytes * Z) := sized_buffer done_writing.
Definition MsgConvertERC20Response_Size (m : MsgConvertERC20Response) : Z := 0.
Definition MsgConvertERC20Response_cases (m : MsgConvertERC20Response) (fieldNum wireType : Z) : option (reader MsgConvertERC20Response) := None.
Definition MsgConvertERC20Response_Unmarshal : bytes -> MsgConvertERC20Response -> outcome MsgConvertERC20Response := unmarshal "MsgConvertERC20Response" MsgConvertERC20Response_cases.
Definition MsgConvertERC20Response_codec : Codec MsgConvertERC20Response :=
  message_codec (mkMsgConvertERC20Response) MsgConvertERC20Response_Size MsgConvertERC20Response_MarshalToSizedBuffer MsgConvertERC20Response_Unmarshal.

(** ** [MsgRegisterCoin] *)

Definition MsgRegisterCoin_MarshalToSizedBuffer (m : MsgRegisterCoin) : bytes -> outcome (bytes * Z) :=
  sized_buffer (
    put_message Metadata_codec 0x22 (RC_Metadata m) ;>
    put_string 0x1a (RC_Description m) ;>
    put_string 0x12 (RC_Title m) ;>
    put_string 0xa (RC_Authority m)).
Definition MsgRegisterCoin_Size (m : MsgRegisterCoin) : Z :=
  size_string (RC_Authority m) +
  size_string (RC_Title m) +
  size_string (RC_Description m) +
  size_message Metadata_codec (RC_Metadata m).
Definition MsgRegisterCoin_cases (m : MsgRegisterCoin) (fieldNum wireType : Z) : option (reader MsgRegisterCoin) :=
  let '(mkMsgRegisterCoin authority title_ description metadata) := m in
  match fieldNum with
  | 1 => Some (get_string "Authority" wireType (fun v => mkMsgRegisterCoin v title_ description metadata))
  | 2 => Some (get_string "Title" wireType (fun v => mkMsgRegisterCoin authority v description metadata))
  | 3 => Some (get_string "Description" wireType (fun v => mkMsgRegisterCoin authority title_ v metadata))
  | 4 => Some (get_message Metadata_codec "Metadata" wireType metadata (fun v => mkMsgRegisterCoin authority title_ description v))
  | _ => None
  end.
Definition MsgRegisterCoin_Unmarshal : bytes -> MsgRegisterCoin -> outcome MsgRegisterCoin := unmarshal "MsgRegisterCoin" MsgRegisterCoin_cases.
Definition MsgRegisterCoin_codec : Codec MsgRegisterCoin :=
  message_codec (mkMsgRegisterCoin "" "" "" (zero Metadata_codec)) MsgRegisterCoin_Size MsgRegisterCoin_MarshalToSizedBuffer MsgRegisterCoin_Unmarshal.

(** ** [MsgRegisterCoinResponse] *)

Record MsgRegisterCoinResponse := mkMsgRegisterCoinResponse {}.
Definition MsgRegisterCoinResponse_MarshalToSizedBuffer (m : MsgRegisterCoinResponse) : bytes -> outcome (bytes * Z) := sized_buffer done_writing.
Definition MsgRegisterCoinResponse_Size (m : MsgRegisterCoinResponse) : Z := 0.
Definition MsgRegisterCoinResponse_cases (m : MsgRegisterCoinResponse) (fieldNum wireType : Z) : option (reader MsgRegisterCoinResponse) := None.
Definition MsgRegisterCoinResponse_Unmarshal : bytes -> MsgRegisterCoinResponse -> outcome MsgRegisterCoinResponse := unmarshal "MsgRegisterCoinResponse" MsgRegisterCoinResponse_cases.
Definition MsgRegisterCoinResponse_codec : Codec MsgRegisterCoinResponse :=
  message_codec (mkMsgRegisterCoinResponse) MsgRegisterCoinResponse_Size MsgRegisterCoinResponse_MarshalToSizedBuffer MsgRegisterCoinResponse_Unmarshal.

(** ** [MsgRegisterERC20] *)

Definition MsgRegisterERC20_MarshalToSizedBuffer (m : MsgRegisterERC20) : bytes -> outcome (bytes * Z) :=
  sized_buffer (
    put_string 0x22 (RE_Erc20Address m) ;>
    put_string 0x1a (RE_Description m) ;>
    put_string 0x12 (RE_Title m) ;>
    put_string 0xa (RE_Authority m)).
Definition MsgRegisterERC20_Size (m : MsgRegisterERC20) : Z :=
  size_string (RE_Authority m) +
  size_string (RE_Title m) +
  size_string (RE_Description m) +
  size_string (RE_Erc20Address m).
Definition MsgRegisterERC20_cases (m : MsgRegisterERC20) (fieldNum wireType : Z) : option (reader MsgRegisterERC20) :=
  let '(mkMsgRegisterERC20 authority title_ description erc20Address) := m in
  match fieldNum with
  | 1 => Some (get_string "Authority" wireType (fun v => mkMsgRegisterERC20 v title_ description erc20Address))
  | 2 => Some (get_string "Title" wireType (fun v => mkMsgRegisterERC20 authority v description erc20Address))
  | 3 => Some (get_string "Description" wireType (fun v => mkMsgRegisterERC20 authority title_ v erc20Address))
  | 4 => Some (get_string "Erc20Address" wireType (fun v => mkMsgRegisterERC20 authority title_ description v))
  | _ => None
  end.
Definition MsgRegisterERC20_Unmarshal : bytes -> MsgRegisterERC20 -> outcome MsgRegisterERC20 := unmarshal "MsgRegisterERC20" MsgRegisterERC20_cases.
Definition MsgRegisterERC20_codec : Codec MsgRegisterERC20 :=
  message_codec (mkMsgRegisterERC20 "" "" "" "") MsgRegisterERC20_Size MsgRegisterERC20_MarshalToSizedBuffer MsgRegisterERC20_Unmarshal.

(** ** [MsgRegisterERC20Response] *)

Record MsgRegisterERC20Response := mkMsgRegisterERC20Response {}.
Definition MsgRegisterERC20Response_MarshalToSizedBuffer (m : MsgRegisterERC20Response) : bytes -> outcome (bytes * Z) := sized_buffer done_writing.
Definition MsgRegisterERC20Response_Size (m : MsgRegisterERC20Response) : Z := 0.
Definition MsgRegisterERC20Response_cases (m : MsgRegisterERC20Response) (fieldNum wireType : Z) : option (reader MsgRegisterERC20Response) := None.
Definition MsgRegisterERC20Response_Unmarshal : bytes -> MsgRegisterERC20Response -> outcome MsgRegisterERC20Response := unmarshal "MsgRegisterERC20Response" MsgRegisterERC20Response_cases.
Definition MsgRegisterERC20Response_codec : Codec MsgRegisterERC20Response :=
  message_codec (mkMsgRegisterERC20Response) MsgRegisterERC20Response_Size MsgRegisterERC20Response_MarshalToSizedBuffer MsgRegisterERC20Response_Unmarshal.

(** ** [MsgToggleTokenConversion] *)

Definition MsgToggleTokenConversion_MarshalToSizedBuffer (m : MsgToggleTokenConversion) : bytes -> outcome (bytes * Z) :=
  sized_buffer (
    put_string 0x22 (TC_Token m) ;>
    put_string 0x1a (TC_Description m) ;>
    put_string 0x12 (TC_Title m) ;>
    put_string 0xa (TC_Authority m)).
Definition MsgToggleTokenConversion_Size (m : MsgToggleTokenConversion) : Z :=
  size_string (TC_Authority m) +
  size_string (TC_Title m) +
  size_string (TC_Description m) +
  size_string (TC_Token m).
Definition MsgToggleTokenConversion_cases (m : MsgToggleTokenConversion) (fieldNum wireType : Z) : option (reader MsgToggleTokenConversion) :=
  let '(mkMsgToggle authority title_ description token) := m in
  match fieldNum with
  | 1 => Some (get_string "Authority" wireType (fun v => mkMsgToggle v title_ description token))
  | 2 => Some (get_string "Title" wireType (fun v => mkMsgToggle authority v description token))
  | 3 => Some (get_string "Description" wireType (fun v => mkMsgToggle authority title_ v token))
  | 4 => Some (get_string "Token" wireType (fun v => mkMsgToggle authority title_ description v))
  | _ => None
  end.
Definition MsgToggleTokenConversion_Unmarshal : bytes -> MsgToggleTokenConversion -> outcome MsgToggleTokenConversion := unmarshal "MsgToggleTokenConversion" MsgToggleTokenConversion_cases.
Definition MsgToggleTokenConversion_codec : Codec MsgToggleTokenConversion :=
  message_codec (mkMsgToggle "" "" "" "") MsgToggleTokenConversion_Size MsgToggleTokenConversion_MarshalToSizedBuffer MsgToggleTokenConversion_Unmarshal.

(** ** [MsgToggleTokenConversionResponse] *)

Record MsgToggleTokenConversionResponse := mkMsgToggleTokenConversionResponse {}.
Definition MsgToggleTokenConversionResponse_MarshalToSizedBuffer (m : MsgToggleTokenConversionResponse) : bytes -> outcome (bytes * Z) := sized_buffer done_writing.
Definition MsgToggleTokenConversionResponse_Size (m : MsgToggleTokenConversionResponse) : Z := 0.
Definition MsgToggleTokenConversionResponse_cases (m : MsgToggleTokenConversionResponse) (fieldNum wireType : Z) : option (reader MsgToggleTokenConversionResponse) := None.
Definition MsgToggleTokenConversionResponse_Unmarshal : bytes -> MsgToggleTokenConversionResponse -> outcome MsgToggleTokenConversionResponse := unmarshal "MsgToggleTokenConversionResponse" MsgToggleTokenConversionResponse_cases.
Definition MsgToggleTokenConversionResponse_codec : Codec MsgToggleTokenConversionResponse :=
  message_codec (mkMsgToggleTokenConversionResponse) MsgToggleTokenConversionResponse_Size MsgToggleTokenConversionResponse_MarshalToSizedBuffer MsgToggleTokenConversionResponse_Unmarshal.

(** ** [RegisterCoinProposal] *)

Record RegisterCoinProposal_content := mkRegisterCoinProposal { RegisterCoinProposal_Title : string; RegisterCoinProposal_Description : string; RegisterCoinProposal_Metadata : Metadata }.
Definition RegisterCoinProposal_MarshalToSizedBuffer (m : RegisterCoinProposal_content) : bytes -> outcome (bytes * Z) :=
  sized_buffer (
    put_message Metadata_codec 0x1a (RegisterCoinProposal_Metadata m) ;>
    put_string 0x12 (RegisterCoinProposal_Description m) ;>
    put_string 0xa (RegisterCoinProposal_Title m)).
Definition RegisterCoinProposal_Size (m : RegisterCoinProposal_content) : Z :=
  size_string (RegisterCoinProposal_Title m) +
  size_string (RegisterCoinProposal_Description m) +
  size_message Metadata_codec (RegisterCoinProposal_Metadata m).
Definition RegisterCoinProposal_cases (m : RegisterCoinProposal_content) (fieldNum wireType : Z) : option (reader RegisterCoinProposal_content) :=
  let '(mkRegisterCoinProposal title_ description metadata) := m in
  match fieldNum with
  | 1 => Some (get_string "Title" wireType (fun v => mkRegisterCoinProposal v description metadata))
  | 2 => Some (get_string "Description" wireType (fun v => mkRegisterCoinProposal title_ v metadata))
  | 3 => Some (get_message Metadata_codec "Metadata" wireType metadata (fun v => mkRegisterCoinProposal title_ description v))
  | _ => None
  end.
Definition RegisterCoinProposal_Unmarshal : bytes -> RegisterCoinProposal_content -> outcome RegisterCoinProposal_content := unmarshal "RegisterCoinProposal" RegisterCoinProposal_cases.
Definition RegisterCoinProposal_codec : Codec RegisterCoinProposal_content :=
  message_codec (mkRegisterCoinProposal "" "" (zero Metadata_codec)) RegisterCoinProposal_Size RegisterCoinProposal_MarshalToSizedBuffer RegisterCoinProposal_Unmarshal.

(** ** [RegisterERC20Proposal] *)

Record RegisterERC20Proposal_content := mkRegisterERC20Proposal { RegisterERC20Proposal_Title : string; RegisterERC20Proposal_Description : string; RegisterERC20Proposal_Erc20Address : string }.
Definition RegisterERC20Proposal_MarshalToSizedBuffer (m : RegisterERC20Proposal_content) : bytes -> outcome (bytes * Z) :=
  sized_buffer (
    put_string 0x1a (RegisterERC20Proposal_Erc20Address m) ;>
    put_string 0x12 (RegisterERC20Proposal_Description m) ;>
    put_string 0xa (RegisterERC20Proposal_Title m)).
Definition RegisterERC20Proposal_Size (m : RegisterERC20Proposal_content) : Z :=
  size_string (RegisterERC20Proposal_Title m) +
  size_string (RegisterERC20Proposal_Description m) +
  size_string (RegisterERC20Proposal_Erc20Address m).
Definition RegisterERC20Proposal_cases (m : RegisterERC20Proposal_content) (fieldNum wireType : Z) : option (reader RegisterERC20Proposal_content) :=
  let '(mkRegisterERC20Proposal title_ description erc20Address) := m in
  match fieldNum with
  | 1 => Some (get_string "Title" wireType (fun v => mkRegisterERC20Proposal v description erc20Address))
  | 2 => Some (get_string "Description" wireType (fun v => mkRegisterERC20Proposal title_ v erc20Address))
  | 3 => Some (get_string "Erc20Address" wireType (fun v => mkRegisterERC20Proposal title_ description v))
  | _ => None
  end.
Definition RegisterERC20Proposal_Unmarshal : bytes -> RegisterERC20Proposal_content -> outcome RegisterERC20Proposal_content := unmarshal "RegisterERC20Proposal" RegisterERC20Proposal_cases.
Definition RegisterERC20Proposal_codec : Codec RegisterERC20Proposal_content :=
  message_codec (mkRegisterERC20Proposal "" "" "") RegisterERC20Proposal_Size RegisterERC20Proposal_MarshalToSizedBuffer RegisterERC20Proposal_Unmarshal.

(** ** [ToggleTokenConversionProposal] *)

Record ToggleTokenConversionProposal_content := mkToggleTokenConversionProposal { ToggleTokenConversionProposal_Title : string; ToggleTokenConversionProposal_Description : string; ToggleTokenConversionProposal_Token : string }.
Definition ToggleTokenConversionProposal_MarshalToSizedBuffer (m : ToggleTokenConversionProposal_content) : bytes -> outcome (bytes * Z) :=
  sized_buffer (
    put_string 0x1a (ToggleTokenConversionProposal_Token m) ;>
    put_string 0x12 (ToggleTokenConversionProposal_Description m) ;>
    put_string 0xa (ToggleTokenConversionProposal_Title m)).
Definition ToggleTokenConversionProposal_Size (m : ToggleTokenConversionProposal_content) : Z :=
  size_string (ToggleTokenConversionProposal_Title m) +
  size_string (ToggleTokenConversionProposal_Description m) +
  size_string (ToggleTokenConversionProposal_Token m).
Definition ToggleTokenConversionProposal_cases (m : ToggleTokenConversionProposal_content) (fieldNum wireType : Z) : option (reader ToggleTokenConversionProposal_content) :=
  let '(mkToggleTokenConversionProposal title_ description token) := m in
  match fieldNum with
  | 1 => Some (get_string "Title" wireType (fun v => mkToggleTokenConversionProposal v description token))
  | 2 => Some (get_string "Description" wireType (fun v => mkToggleTokenConversionProposal title_ v token))
  | 3 => Some (get_string "Token" wireType (fun v => mkToggleTokenConversionProposal title_ description v))
  | _ => None
  end.
Definition ToggleTokenConversionProposal_Unmarshal : bytes -> ToggleTokenConversionProposal_content -> outcome ToggleTokenConversionProposal_content := unmarshal "ToggleTokenConversionProposal" ToggleTokenConversionProposal_cases.
Definition ToggleTokenConversionProposal_codec : Codec ToggleTokenConversionProposal_content :=
  message_codec (mkToggleTokenConversionProposal "" "" "") ToggleTokenConversionProposal_Size ToggleTokenConversionProposal_MarshalToSizedBuffer ToggleTokenConversionProposal_Unmarshal.

(** ** [QueryTokenPairsRequest] *)

Record QueryTokenPairsRequest := mkQueryTokenPairsRequest { QueryTokenPairsRequest_Pagination : option PageRequest }.
Definition QueryTokenPairsRequest_MarshalToSizedBuffer (m : QueryTokenPairsRequest) : bytes -> outcome (bytes * Z) :=
  sized_buffer (
    put_pointer PageRequest_codec 0xa (QueryTokenPairsRequest_Pagination m)).
Definition QueryTokenPairsRequest_Size (m : QueryTokenPairsRequest) : Z :=
  size_pointer PageRequest_codec (QueryTokenPairsRequest_Pagination m).
Definition QueryTokenPairsRequest_cases (m : QueryTokenPairsRequest) (fieldNum wireType : Z) : option (reader QueryTokenPairsRequest) :=
  let '(mkQueryTokenPairsRequest pagination) := m in
  match fieldNum with
  | 1 => Some (get_pointer PageRequest_codec "Pagination" wireType pagination (fun v => mkQueryTokenPairsRequest v))
  | _ => None
  end.
Definition QueryTokenPairsRequest_Unmarshal : bytes -> QueryTokenPairsRequest -> outcome QueryTokenPairsRequest := unmarshal "QueryTokenPairsRequest" QueryTokenPairsRequest_cases.
Definition QueryTokenPairsRequest_codec : Codec QueryTokenPairsRequest :=
  message_codec (mkQueryTokenPairsRequest None) QueryTokenPairsRequest_Size QueryTokenPairsRequest_MarshalToSizedBuffer QueryTokenPairsRequest_Unmarshal.

(** ** [QueryTokenPairsResponse] *)

Record QueryTokenPairsResponse := mkQueryTokenPairsResponse { QueryTokenPairsResponse_TokenPairs : list TokenPair; QueryTokenPairsResponse_Pagination : option PageResponse }.
Definition QueryTokenPairsResponse_MarshalToSizedBuffer (m : QueryTokenPairsResponse) : bytes -> outcome (bytes * Z) :=
  sized_buffer (
    put_pointer PageResponse_codec 0x12 (QueryTokenPairsResponse_Pagination m) ;>
    put_messages TokenPair_codec 0xa (QueryTokenPairsResponse_TokenPairs m)).
Definition QueryTokenPairsResponse_Size (m : QueryTokenPairsResponse) : Z :=
  size_messages TokenPair_codec (QueryTokenPairsResponse_TokenPairs m) +
  size_pointer PageResponse_codec (QueryTokenPairsResponse_Pagination m).
Definition QueryTokenPairsResponse_cases (m : QueryTokenPairsResponse) (fieldNum wireType : Z) : option (reader QueryTokenPairsResponse) :=
  let '(mkQueryTokenPairsResponse tokenPairs pagination) := m in
  match fieldNum with
  | 1 => Some (get_element TokenPair_codec "TokenPairs" wireType tokenPairs (fun v => mkQueryTokenPairsResponse v pagination))
  | 2 => Some (get_pointer PageResponse_codec "Pagination" wireType pagination (fun v => mkQueryTokenPairsResponse tokenPairs v))
  | _ => None
  end.
Definition QueryTokenPairsResponse_Unmarshal : bytes -> QueryTokenPairsResponse -> outcome QueryTokenPairsResponse := unmarshal "QueryTokenPairsResponse" QueryTokenPairsResponse_cases.
Definition QueryTokenPairsResponse_codec : Codec QueryTokenPairsResponse :=
  message_codec (mkQueryTokenPairsResponse [] None) QueryTokenPairsResponse_Size QueryTokenPairsResponse_MarshalToSizedBuffer QueryTokenPairsResponse_Unmarshal.

(** ** [QueryTokenPairRequest] *)

Record QueryTokenPairRequest := mkQueryTokenPairRequest { QueryTokenPairRequest_Token : string }.
Definition QueryTokenPairRequest_MarshalToSizedBuffer (m : QueryTokenPairRequest) : bytes -> outcome (bytes * Z) :=
  sized_buffer (
    put_string 0xa (QueryTokenPairRequest_Token m)).
Definition QueryTokenPairRequest_Size (m : QueryTokenPairRequest) : Z :=
  size_string (QueryTokenPairRequest_Token m).
Definition QueryTokenPairRequest_cases (m : QueryTokenPairRequest) (fieldNum wireType : Z) : option (reader QueryTokenPairRequest) :=
  let '(mkQueryTokenPairRequest token) := m in
  match fieldNum with
  | 1 => Some (get_string "Token" wireType (fun v => mkQueryTokenPairRequest v))
  | _ => None
  end.
Definition QueryTokenPairRequest_Unmarshal : bytes -> QueryTokenPairRequest -> outcome QueryTokenPairRequest := unmarshal "QueryTokenPairRequest" QueryTokenPairRequest_cases.
Definition QueryTokenPairRequest_codec : Codec QueryTokenPairRequest :=
  message_codec (mkQueryTokenPairRequest "") QueryTokenPairRequest_Size QueryTokenPairRequest_MarshalToSizedBuffer QueryTokenPairRequest_Unmarshal.

(** ** [QueryTokenPairResponse] *)

Record QueryTokenPairResponse := mkQueryTokenPairResponse { QueryTokenPairResponse_TokenPair : TokenPair }.
Definition QueryTokenPairResponse_MarshalToSizedBuffer (m : QueryTokenPairResponse) : bytes -> outcome (bytes * Z) :=
  sized_buffer (
    put_message TokenPair_codec 0xa (QueryTokenPairResponse_TokenPair m)).
Definition QueryTokenPairResponse_Size (m : QueryTokenPairResponse) : Z :=
  size_message TokenPair_codec (QueryTokenPairResponse_TokenPair m).
Definition QueryTokenPairResponse_cases (m : QueryTokenPairResponse) (fieldNum wireType : Z) : option (reader QueryTokenPairResponse) :=
  let '(mkQueryTokenPairResponse tokenPair) := m in
  match fieldNum with
  | 1 => Some (get_message TokenPair_codec "TokenPair" wireType tokenPair (fun v => mkQueryTokenPairResponse v))
  | _ => None
  end.
Definition QueryTokenPairResponse_Unmarshal : bytes -> QueryTokenPairResponse -> outcome QueryTokenPairResponse := unmarshal "QueryTokenPairResponse" QueryTokenPairResponse_cases.
Definition QueryTokenPairResponse_codec : Codec QueryTokenPairResponse :=
  message_codec (mkQueryTokenPairResponse (zero TokenPair_codec)) QueryTokenPairResponse_Size QueryTokenPairResponse_MarshalToSizedBuffer QueryTokenPairResponse_Unmarshal.

(** ** [QueryParamsRequest] *)

Record QueryParamsRequest := mkQueryParamsRequest {}.
Definition QueryParamsRequest_MarshalToSizedBuffer (m : QueryParamsRequest) : bytes -> outcome (bytes * Z) := sized_buffer done_writing.
Definition QueryParamsRequest_Size (m : QueryParamsRequest) : Z := 0.
Definition QueryParamsRequest_cases (m : QueryParamsRequest) (fieldNum wireType : Z) : option (reader QueryParamsRequest) := None.
Definition QueryParamsRequest_Unmarshal : bytes -> QueryParamsRequest -> outcome QueryParamsRequest := unmarshal "QueryParamsRequest" QueryParamsRequest_cases.
Definition QueryParamsRequest_codec : Codec QueryParamsRequest :=
  message_codec (mkQueryParamsRequest) QueryParamsRequest_Size QueryParamsRequest_MarshalToSizedBuffer QueryParamsRequest_Unmarshal.

(** ** [QueryParamsResponse] *)

Record QueryParamsResponse := mkQueryParamsResponse { QueryParamsResponse_Params : Params }.
Definition QueryParamsResponse_MarshalToSizedBuffer (m : QueryParamsResponse) : bytes -> outcome (bytes * Z) :=
  sized_buffer (
    put_message Params_codec 0xa (QueryParamsResponse_Params m)).
Definition QueryParamsResponse_Size (m : QueryParamsResponse) : Z :=
  size_message Params_codec (QueryParamsResponse_Params m).
Definition QueryParamsResponse_cases (m : QueryParamsResponse) (fieldNum wireType : Z) : option (reader QueryParamsResponse) :=
  let '(mkQueryParamsResponse params) := m in
  match fieldNum with
  | 1 => Some (get_message Params_codec "Params" wireType params (fun v => mkQueryParamsResponse v))
  | _ => None
  end.
Definition QueryParamsResponse_Unmarshal : bytes -> QueryParamsResponse -> outcome QueryParamsResponse := unmarshal "QueryParamsResponse" QueryParamsResponse_cases.
Definition QueryParamsResponse_codec : Codec QueryParamsResponse :=
  message_codec (mkQueryParamsResponse (zero Params_codec)) QueryParamsResponse_Size QueryParamsResponse_MarshalToSizedBuffer QueryParamsResponse_Unmarshal.

(** ** Well-formed messages and their encodings *)

Context {SL : SdkCodecLaws SC}.

Definition TokenPair_wf (m : TokenPair) : Prop := True.
Definition TokenPair_enc (m : TokenPair) : bytes :=
  enc_string 0xa (Erc20Address m) ++
  enc_string 0x12 (Pair_Denom m) ++
  enc_bool 0x18 (Enabled m) ++
  enc_varint 0x20 (Owner_value (ContractOwner m)).

Lemma erc20_TokenPair_laws : CodecLaws TokenPair_codec TokenPair_wf TokenPair_enc.
Proof.
  apply message_laws.
  - done.
  - intros m _. unfold TokenPair_Size, TokenPair_enc. wire_sizes.
  - intros m _. unfold TokenPair_enc. wire_writes.
  - intros [? ? ? []] _; unfold TokenPair_enc; cbn; wire_reads.
  - intros [] num wireType r _ E. unfold TokenPair_cases in E. unfold TokenPair_wf. wire_cases E.
Qed.
#[local] Hint Resolve erc20_TokenPair_laws : wire_laws.

Definition TokenPairDenomIndex_wf (m : TokenPairDenomIndex) : Prop := True.
Definition TokenPairDenomIndex_enc (m : TokenPairDenomIndex) : bytes :=
  enc_string 0xa (DIdx_Denom m) ++
  enc_bytes 0x12 (DIdx_TokenPairId m).

Lemma erc20_TokenPairDenomIndex_laws : CodecLaws TokenPairDenomIndex_codec TokenPairDenomIndex_wf TokenPairDenomIndex_enc.
Proof. wire_laws TokenPairDenomIndex_wf TokenPairDenomIndex_enc TokenPairDenomIndex_Size TokenPairDenomIndex_cases. Qed.
#[local] Hint Resolve erc20_TokenPairDenomIndex_laws : wire_laws.

Definition TokenPairERC20AddressIndex_wf (m : TokenPairERC20AddressIndex) : Prop := True.
Definition TokenPairERC20AddressIndex_enc (m : TokenPairERC20AddressIndex) : bytes :=
  enc_bytes 0xa (EIdx_Erc20Address m) ++
  enc_bytes 0x12 (EIdx_TokenPairId m).

Lemma erc20_TokenPairERC20AddressIndex_laws : CodecLaws TokenPairERC20AddressIndex_codec TokenPairERC20AddressIndex_wf TokenPairERC20AddressIndex_enc.
Proof. wire_laws TokenPairERC20AddressIndex_wf TokenPairERC20AddressIndex_enc TokenPairERC20AddressIndex_Size TokenPairERC20AddressIndex_cases. Qed.
#[local] Hint Resolve erc20_TokenPairERC20AddressIndex_laws : wire_laws.

Definition Params_wf (m : Params) : Prop := True.
Definition Params_enc (m : Params) : bytes :=
  enc_bool 0x8 (EnableErc20 m) ++
  enc_bool 0x10 (EnableEVMHook m).

Lemma erc20_Params_laws : CodecLaws Params_codec Params_wf Params_enc.
Proof. wire_laws Params_wf Params_enc Params_Size Params_cases. Qed.
#[local] Hint Resolve erc20_Params_laws : wire_laws.

Definition GenesisState_wf (m : GenesisState) : Prop := Params_wf (Gen_Params m) ∧ Forall TokenPair_wf (Gen_TokenPairs m) ∧ Forall TokenPairDenomIndex_wf (Gen_DenomIndexes m) ∧ Forall TokenPairERC20AddressIndex_wf (Gen_Erc20AddressIndexes m).
Definition GenesisState_enc (m : GenesisState) : bytes :=
  enc_message Params_enc 0xa (Gen_Params m) ++
  enc_messages TokenPair_enc 0x12 (Gen_TokenPairs m) ++
  enc_messages TokenPairDenomIndex_enc 0x1a (Gen_DenomIndexes m) ++
  enc_messages TokenPairERC20AddressIndex_enc 0x22 (Gen_Erc20AddressIndexes m).

Lemma erc20_GenesisState_laws : CodecLaws GenesisState_codec GenesisState_wf GenesisState_enc.
Proof. wire_laws GenesisState_wf GenesisState_enc GenesisState_Size GenesisState_cases. Qed.
#[local] Hint Resolve erc20_GenesisState_laws : wire_laws.

Definition MsgConvertCoin_wf (m : MsgConvertCoin) : Prop := Coin_wf (CC_Coin m).
Definition MsgConvertCoin_enc (m : MsgConvertCoin) : bytes :=
  enc_message Coin_enc 0xa (CC_Coin m) ++
  enc_string 0x12 (CC_Receiver m) ++
  enc_string 0x1a (CC_Sender m).

Lemma erc20_MsgConvertCoin_laws : CodecLaws MsgConvertCoin_codec MsgConvertCoin_wf MsgConvertCoin_enc.
Proof. wire_laws MsgConvertCoin_wf MsgConvertCoin_enc MsgConvertCoin_Size MsgConvertCoin_cases. Qed.
#[local] Hint Resolve erc20_MsgConvertCoin_laws : wire_laws.

Definition MsgConvertERC20_wf (m : MsgConvertERC20) : Prop := Int_wf (CE_Amount m).
Definition MsgConvertERC20_enc (m : MsgConvertERC20) : bytes :=
  enc_string 0xa (CE_ContractAddress m) ++
  enc_custom Int_enc 0x12 (CE_Amount m) ++
  enc_string 0x1a (CE_Receiver m) ++
  enc_string 0x22 (CE_Sender m).

Lemma erc20_MsgConvertERC20_laws : CodecLaws MsgConvertERC20_codec MsgConvertERC20_wf MsgConvertERC20_enc.
Proof. wire_laws MsgConvertERC20_wf MsgConvertERC20_enc MsgConvertERC20_Size MsgConvertERC20_cases. Qed.
#[local] Hint Resolve erc20_MsgConvertERC20_laws : wire_laws.

Definition MsgUpdateParams_wf (m : MsgUpdateParams) : Prop := Params_wf (Upd_Params m).
Definition MsgUpdateParams_enc (m : MsgUpdateParams) : bytes :=
  enc_string 0xa (Upd_Authority m) ++
  enc_message Params_enc 0x12 (Upd_Params m).

Lemma erc20_MsgUpdateParams_laws : CodecLaws MsgUpdateParams_codec MsgUpdateParams_wf MsgUpdateParams_enc.
Proof. wire_laws MsgUpdateParams_wf MsgUpdateParams_enc MsgUpdateParams_Size MsgUpdateParams_cases. Qed.
#[local] Hint Resolve erc20_MsgUpdateParams_laws : wire_laws.

Definition MsgUpdateParamsResponse_wf (m : MsgUpdateParamsResponse) : Prop := True.
Definition MsgUpdateParamsResponse_enc (m : MsgUpdateParamsResponse) : bytes :=
  [].

Lemma erc20_MsgUpdateParamsResponse_laws : CodecLaws MsgUpdateParamsResponse_codec MsgUpdateParamsResponse_wf MsgUpdateParamsResponse_enc.
Proof.
  apply message_laws; [done|done|intros; apply writes_nothing| |done]. intros [] _. apply reads_nothing.
Qed.
#[local] Hint Resolve erc20_MsgUpdateParamsResponse_laws : wire_laws.

Definition MsgConvertCoinResponse_wf (m : MsgConvertCoinResponse) : Prop := True.
Definition MsgConvertCoinResponse_enc (m : MsgConvertCoinResponse) : bytes :=
  [].

Lemma erc20_MsgConvertCoinResponse_laws : CodecLaws MsgConvertCoinResponse_codec MsgConvertCoinResponse_wf MsgConvertCoinResponse_enc.
Proof.
  apply message_laws; [done|done|intros; apply writes_nothing| |done]. intros [] _. apply reads_nothing.
Qed.
#[local] Hint Resolve erc20_MsgConvertCoinResponse_laws : wire_laws.

Definition MsgConvertERC20Response_wf (m : MsgConvertERC20Response) : Prop := True.
Definition MsgConvertERC20Response_enc (m : MsgConvertERC20Response) : bytes :=
  [].

Lemma erc20_MsgConvertERC20Response_laws : CodecLaws MsgConvertERC20Response_codec MsgConvertERC20Response_wf MsgConvertERC20Response_enc.
Proof.
  apply message_laws; [done|done|intros; apply writes_nothing| |done]. intros [] _. apply reads_nothing.
Qed.
#[local] Hint Resolve erc20_MsgConvertERC20Response_laws : wire_laws.

Definition MsgRegisterCoin_wf (m : MsgRegisterCoin) : Prop := Metadata_wf (RC_Metadata m).
Definition MsgRegisterCoin_enc (m : MsgRegisterCoin) : bytes :=
  enc_string 0xa (RC_Authority m) ++
  enc_string 0x12 (RC_Title m) ++
  enc_string 0x1a (RC_Description m) ++
  enc_message Metadata_enc 0x22 (RC_Metadata m).

Lemma erc20_MsgRegisterCoin_laws : CodecLaws MsgRegisterCoin_codec MsgRegisterCoin_wf MsgRegisterCoin_enc.
Proof. wire_laws MsgRegisterCoin_wf MsgRegisterCoin_enc MsgRegisterCoin_Size MsgRegisterCoin_cases. Qed.
#[local] Hint Resolve erc20_MsgRegisterCoin_laws : wire_laws.

Definition MsgRegisterCoinResponse_wf (m : MsgRegisterCoinResponse) : Prop := True.
Definition MsgRegisterCoinResponse_enc (m : MsgRegisterCoinResponse) : bytes :=
  [].

Lemma erc20_MsgRegisterCoinResponse_laws : CodecLaws MsgRegisterCoinResponse_codec MsgRegisterCoinResponse_wf MsgRegisterCoinResponse_enc.
Proof.
  apply message_laws; [done|done|intros; apply writes_nothing| |done]. intros [] _. apply reads_nothing.
Qed.
#[local] Hint Resolve erc20_MsgRegisterCoinResponse_laws : wire_laws.

Definition MsgRegisterERC20_wf (m : MsgRegisterERC20) : Prop := True.
Definition MsgRegisterERC20_enc (m : MsgRegisterERC20) : bytes :=
  enc_string 0xa (RE_Authority m) ++
  enc_string 0x12 (RE_Title m) ++
  enc_string 0x1a (RE_Description m) ++
  enc_string 0x22 (RE_Erc20Address m).

Lemma erc20_MsgRegisterERC20_laws : CodecLaws MsgRegisterERC20_codec MsgRegisterERC20_wf MsgRegisterERC20_enc.
Proof. wire_laws MsgRegisterERC20_wf MsgRegisterERC20_enc MsgRegisterERC20_Size MsgRegisterERC20_cases. Qed.
#[local] Hint Resolve erc20_MsgRegisterERC20_laws : wire_laws.

Definition MsgRegisterERC20Response_wf (m : MsgRegisterERC20Response) : Prop := True.
Definition MsgRegisterERC20Response_enc (m : MsgRegisterERC20Response) : bytes :=
  [].

Lemma erc20_MsgRegisterERC20Response_laws : CodecLaws MsgRegisterERC20Response_codec MsgRegisterERC20Response_wf MsgRegisterERC20Response_enc.
Proof.
  apply message_laws; [done|done|intros; apply writes_nothing| |done]. intros [] _. apply reads_nothing.
Qed.
#[local] Hint Resolve erc20_MsgRegisterERC20Response_laws : wire_laws.

Definition MsgToggleTokenConversion_wf (m : MsgToggleTokenConversion) : Prop := True.
Definition MsgToggleTokenConversion_enc (m : MsgToggleTokenConversion) : bytes :=
  enc_string 0xa (TC_Authority m) ++
  enc_string 0x12 (TC_Title m) ++
  enc_string 0x1a (TC_Description m) ++
  enc_string 0x22 (TC_Token m).

Lemma erc20_MsgToggleTokenConversion_laws : CodecLaws MsgToggleTokenConversion_codec MsgToggleTokenConversion_wf MsgToggleTokenConversion_enc.
Proof. wire_laws MsgToggleTokenConversion_wf MsgToggleTokenConversion_enc MsgToggleTokenConversion_Size MsgToggleTokenConversion_cases. Qed.
#[local] Hint Resolve erc20_MsgToggleTokenConversion_laws : wire_laws.

Definition MsgToggleTokenConversionResponse_wf (m : MsgToggleTokenConversionResponse) : Prop := True.
Definition MsgToggleTokenConversionResponse_enc (m : MsgToggleTokenConversionResponse) : bytes :=
  [].

Lemma erc20_MsgToggleTokenConversionResponse_laws : CodecLaws MsgToggleTokenConversionResponse_codec MsgToggleTokenConversionResponse_wf MsgToggleTokenConversionResponse_enc.
Proof.
  apply message_laws; [done|done|intros; apply writes_nothing| |done]. intros [] _. apply reads_nothing.
Qed.
#[local] Hint Resolve erc20_MsgToggleTokenConversionResponse_laws : wire_laws.

Definition RegisterCoinProposal_wf (m : RegisterCoinProposal_content) : Prop := Metadata_wf (RegisterCoinProposal_Metadata m).
Definition RegisterCoinProposal_enc (m : RegisterCoinProposal_content) : bytes :=
  enc_string 0xa (RegisterCoinProposal_Title m) ++
  enc_string 0x12 (RegisterCoinProposal_Description m) ++
  enc_message Metadata_enc 0x1a (RegisterCoinProposal_Metadata m).

Lemma erc20_RegisterCoinProposal_laws : CodecLaws RegisterCoinProposal_codec RegisterCoinProposal_wf RegisterCoinProposal_enc.
Proof. wire_laws RegisterCoinProposal_wf RegisterCoinProposal_enc RegisterCoinProposal_Size RegisterCoinProposal_cases. Qed.
#[local] Hint Resolve erc20_RegisterCoinProposal_laws : wire_laws.

Definition RegisterERC20Proposal_wf (m : RegisterERC20Proposal_content) : Prop := True.
Definition RegisterERC20Proposal_enc (m : RegisterERC20Proposal_content) : bytes :=
  enc_string 0xa (RegisterERC20Proposal_Title m) ++
  enc_string 0x12 (RegisterERC20Proposal_Description m) ++
  enc_string 0x1a (RegisterERC20Proposal_Erc20Address m).

Lemma erc20_RegisterERC20Proposal_laws : CodecLaws RegisterERC20Proposal_codec RegisterERC20Proposal_wf RegisterERC20Proposal_enc.
Proof. wire_laws RegisterERC20Proposal_wf RegisterERC20Proposal_enc RegisterERC20Proposal_Size RegisterERC20Proposal_cases. Qed.
#[local] Hint Resolve erc20_RegisterERC20Proposal_laws : wire_laws.

Definition ToggleTokenConversionProposal_wf (m : ToggleTokenConversionProposal_content) : Prop := True.
Definition ToggleTokenConversionProposal_enc (m : ToggleTokenConversionProposal_content) : bytes :=
  enc_string 0xa (ToggleTokenConversionProposal_Title m) ++
  enc_string 0x12 (ToggleTokenConversionProposal_Description m) ++
  enc_string 0x1a (ToggleTokenConversionProposal_Token m).

Lemma erc20_ToggleTokenConversionProposal_laws : CodecLaws ToggleTokenConversionProposal_codec ToggleTokenConversionProposal_wf ToggleTokenConversionProposal_enc.
Proof. wire_laws ToggleTokenConversionProposal_wf ToggleTokenConversionProposal_enc ToggleTokenConversionProposal_Size ToggleTokenConversionProposal_cases. Qed.
#[local] Hint Resolve erc20_ToggleTokenConversionProposal_laws : wire_laws.

Definition QueryTokenPairsRequest_wf (m : QueryTokenPairsRequest) : Prop := (∀ x, QueryTokenPairsRequest_Pagination m = Some x -> PageRequest_wf x).
Definition QueryTokenPairsRequest_enc (m : QueryTokenPairsRequest) : bytes :=
  enc_pointer PageRequest_enc 0xa (QueryTokenPairsRequest_Pagination m).

Lemma erc20_QueryTokenPairsRequest_laws : CodecLaws QueryTokenPairsRequest_codec QueryTokenPairsRequest_wf QueryTokenPairsRequest_enc.
Proof. wire_laws QueryTokenPairsRequest_wf QueryTokenPairsRequest_enc QueryTokenPairsRequest_Size QueryTokenPairsRequest_cases. Qed.
#[local] Hint Resolve erc20_QueryTokenPairsRequest_laws : wire_laws.

Definition QueryTokenPairsResponse_wf (m : QueryTokenPairsResponse) : Prop := Forall TokenPair_wf (QueryTokenPairsResponse_TokenPairs m) ∧ (∀ x, QueryTokenPairsResponse_Pagination m = Some x -> PageResponse_wf x).
Definition QueryTokenPairsResponse_enc (m : QueryTokenPairsResponse) : bytes :=
  enc_messages TokenPair_enc 0xa (QueryTokenPairsResponse_TokenPairs m) ++
  enc_pointer PageResponse_enc 0x12 (QueryTokenPairsResponse_Pagination m).

Lemma erc20_QueryTokenPairsResponse_laws : CodecLaws QueryTokenPairsResponse_codec QueryTokenPairsResponse_wf QueryTokenPairsResponse_enc.
Proof. wire_laws QueryTokenPairsResponse_wf QueryTokenPairsResponse_enc QueryTokenPairsResponse_Size QueryTokenPairsResponse_cases. Qed.
#[local] Hint Resolve erc20_QueryTokenPairsResponse_laws : wire_laws.

Definition QueryTokenPairRequest_wf (m : QueryTokenPairRequest) : Prop := True.
Definition QueryTokenPairRequest_enc (m : QueryTokenPairRequest) : bytes :=
  enc_string 0xa (QueryTokenPairRequest_Token m).

Lemma erc20_QueryTokenPairRequest_laws : CodecLaws QueryTokenPairRequest_codec QueryTokenPairRequest_wf QueryTokenPairRequest_enc.
Proof. wire_laws QueryTokenPairRequest_wf QueryTokenPairRequest_enc QueryTokenPairRequest_Size QueryTokenPairRequest_cases. Qed.
#[local] Hint Resolve erc20_QueryTokenPairRequest_laws : wire_laws.

Definition QueryTokenPairResponse_wf (m : QueryTokenPairResponse) : Prop := TokenPair_wf (QueryTokenPairResponse_TokenPair m).
Definition QueryTokenPairResponse_enc (m : QueryTokenPairResponse) : bytes :=
  enc_message TokenPair_enc 0xa (QueryTokenPairResponse_TokenPair m).

Lemma erc20_QueryTokenPairResponse_laws : CodecLaws QueryTokenPairResponse_codec QueryTokenPairResponse_wf QueryTokenPairResponse_enc.
Proof. wire_laws QueryTokenPairResponse_wf QueryTokenPairResponse_enc QueryTokenPairResponse_Size QueryTokenPairResponse_cases. Qed.
#[local] Hint Resolve erc20_QueryTokenPairResponse_laws : wire_laws.

Definition QueryParamsRequest_wf (m : QueryParamsRequest) : Prop := True.
Definition QueryParamsRequest_enc (m : QueryParamsRequest) : bytes :=
  [].

Lemma erc20_QueryParamsRequest_laws : CodecLaws QueryParamsRequest_codec QueryParamsRequest_wf QueryParamsRequest_enc.
Proof.
  apply message_laws; [done|done|intros; apply writes_nothing| |done]. intros [] _. apply reads_nothing.
Qed.
#[local] Hint Resolve erc20_QueryParamsRequest_laws : wire_laws.

Definition QueryParamsResponse_wf (m : QueryParamsResponse) : Prop := Params_wf (QueryParamsResponse_Params m).
Definition QueryParamsResponse_enc (m : QueryParamsResponse) : bytes :=
  enc_message Params_enc 0xa (QueryParamsResponse_Params m).

Lemma erc20_QueryParamsResponse_laws : CodecLaws QueryParamsResponse_codec QueryParamsResponse_wf QueryParamsResponse_enc.
Proof. wire_laws QueryParamsResponse_wf QueryParamsResponse_enc QueryParamsResponse_Size QueryParamsResponse_cases. Qed.
#[local] Hint Resolve erc20_QueryParamsResponse_laws : wire_laws.

End codecs.
#[export] Hint Resolve erc20_TokenPair_laws erc20_TokenPairDenomIndex_laws erc20_TokenPairERC20AddressIndex_laws erc20_Params_laws erc20_GenesisState_laws erc20_MsgConvertCoin_laws erc20_MsgConvertERC20_laws erc20_MsgUpdateParams_laws erc20_MsgUpdateParamsResponse_laws erc20_MsgConvertCoinResponse_laws erc20_MsgConvertERC20Response_laws erc20_MsgRegisterCoin_laws erc20_MsgRegisterCoinResponse_laws erc20_MsgRegisterERC20_laws erc20_MsgRegisterERC20Response_laws erc20_MsgToggleTokenConversion_laws erc20_MsgToggleTokenConversionResponse_laws erc20_RegisterCoinProposal_laws erc20_RegisterERC20Proposal_laws erc20_ToggleTokenConversionProposal_laws erc20_QueryTokenPairsRequest_laws erc20_QueryTokenPairsResponse_laws erc20_QueryTokenPairRequest_laws erc20_QueryTokenPairResponse_laws erc20_QueryParamsRequest_laws erc20_QueryParamsResponse_laws : wire_laws.
