(* ===== verification/Grpc.v ===== *)
(** * Remote procedure calls

    What the generated stubs of a service use of google.golang.org/grpc, of the
    routers of the SDK and of the REST gateway.  A service is registered with a
    server by its description, and there are two kinds of servers: the router of
    queries runs a method on the bytes of a request, on a branch of the state that
    is thrown away; the router of messages runs it on the decoded messages of a
    transaction.  A connection for queries is a parameter: it carries the name of a
    method and the bytes of a request and brings back the bytes of a reply;
    [queries] is what it promises about the services registered.  [stub_answers]
    is the correctness of a query: encode, find the method, decode, run it,
    encode, decode. *)

From stdpp Require Import base gmap strings list.
From S2P Require Import Prelude Golang Wire WireFacts WireCodec.

#[local] Open Scope Z_scope.
#[local] Open Scope go_scope.

Section grpc.
Context {S : Type}.

(** ** Clients and servers *)

Record ClientConn := mkClientConn { roundTrip : string -> bytes -> M S bytes }.

(** [cc.Invoke(ctx, method, in, out)], with a new [out]. *)
Definition Invoke {A B} (cc : ClientConn) (cA : Codec A) (cB : Codec B) (method : string) (in_ : A) : M S B :=
  let* dAtA := lift (Marshal cA in_) in
  let* reply := roundTrip cc method dAtA in
  lift (Unmarshal cB reply (zero cB)).

(** [grpc.UnaryServerInterceptor], given the full name of the method; messages are
    in [Set]. *)
Definition Interceptor : Type := ∀ A B : Set, string -> A -> (A -> M S B) -> M S B.

(** [dec] decodes the request into the value it is given. *)
Record MethodDesc (Srv : Type) := mkMethodDesc {
  MethodName : string;
  Req : Set;
  Res : Set;
  Req_codec : Codec Req;
  Res_codec : Codec Res;
  Handler : Srv -> (Req -> outcome Req) -> option Interceptor -> M S Res
}.
Record ServiceDesc (Srv : Type) := mkServiceDesc { ServiceName : string; Methods : list (MethodDesc Srv) }.

(** The body of a generated handler [_Query_..._Handler] or [_Msg_..._Handler]. *)
Definition unary {A B : Set} (FullMethod : string) (new : A) (method : A -> M S B)
    (dec : A -> outcome A) (interceptor : option Interceptor) : M S B :=
  let* in_ := lift (dec new) in
  match interceptor with
  | None => method in_
  | Some interceptor => interceptor A B FullMethod in_ method
  end.

(** What a server does with the bytes of a request for a method. *)
Definition serve {A B} (cA : Codec A) (cB : Codec B) (handler : (A -> outcome A) -> option Interceptor -> M S B)
    (request : bytes) : M S bytes :=
  let* out := handler (fun in_ => Unmarshal cA request in_) None in
  lift (Marshal cB out).

(** [grpc1.Server], what services are registered with. *)
Class GrpcServer (R : Type) := {
  RegisterService {Srv} : R -> ServiceDesc Srv -> Srv -> R
}.

(** [baseapp.GRPCQueryRouter]: the methods by their full names. *)
Abbreviation QueryRouter := (list (string * (bytes -> M S bytes))).
Definition service_methods {Srv} (desc : ServiceDesc Srv) (srv : Srv) : QueryRouter :=
  map (fun m => ("/" +:+ ServiceName _ desc +:+ "/" +:+ MethodName _ m,
                 serve (Req_codec _ m) (Res_codec _ m) (Handler _ m srv))) (Methods _ desc).
#[global] Instance query_router : GrpcServer QueryRouter := {
  RegisterService _ s desc srv := s ++ service_methods desc srv
}.

(** [baseapp.MsgServiceRouter]: the methods by the types of their requests.  A
    message is decoded with its transaction and found by its type; the decoder
    the handler is given puts it in the place of the new request. *)
Record Route := mkRoute { route_Req : Set; route_Res : Set; route_handler : route_Req -> M S route_Res }.
Abbreviation MsgRouter := (list Route).
Definition service_routes {Srv} (desc : ServiceDesc Srv) (srv : Srv) : MsgRouter :=
  map (fun m => mkRoute (Req _ m) (Res _ m) (fun msg => Handler _ m srv (fun _ => Ok msg) None)) (Methods _ desc).
#[global] Instance msg_router : GrpcServer MsgRouter := {
  RegisterService _ s desc srv := s ++ service_routes desc srv
}.

(** ** What a connection for queries promises

    The method is run once on the request, and its reply or its error is brought
    back; [status] is what becomes of an error on its way.  What the method wrote
    is thrown away. *)
Definition queries (cc : ClientConn) (status : error -> error) (s : QueryRouter) : Prop :=
  ∀ name run request st, (name, run) ∈ s ->
  match (run request st).1 with
  | Ok reply => roundTrip cc name request st = (Ok reply, st)
  | Err e => roundTrip cc name request st = (Err (status e), st)
  | Panic => True
  end.

(** A client in the process of the router. *)
Definition local_conn (s : QueryRouter) : ClientConn :=
  mkClientConn (fun name request st =>
    match (list_to_map s : gmap string (bytes -> M S bytes)) !! name with
    | Some run => ((run request st).1, st)
    | None => (Err (Foreign "codes.Unimplemented"), st)
    end).

Lemma local_queries s : NoDup s.*1 -> queries (local_conn s) id s.
Proof.
  intros Hnd name run request st Hin. cbn. rewrite (elem_of_list_to_map_1 _ _ _ Hnd Hin).
  by destruct (run request st) as [[] ?].
Qed.

Lemma queries_mono cc status s1 s2 : s1 ⊆ s2 -> queries cc status s2 -> queries cc status s1.
Proof. intros Hsub Hc name run request st Hin. by apply Hc, Hsub. Qed.

(** ** The correctness of a query

    A well-formed request that fits in memory gets the answer of the method on
    it, and leaves the state as it is. *)
Definition answers {A B} (status : error -> error) (stub : A -> M S B) (method : option A -> M S B)
    (wfA : A -> Prop) (encA : A -> bytes) (wfB : B -> Prop) (encB : B -> bytes) : Prop :=
  ∀ in_ st, wfA in_ -> blen (encA in_) < 2 ^ 63 ->
  match (method (Some in_) st).1 with
  | Ok out => wfB out -> blen (encB out) < 2 ^ 63 -> stub in_ st = (Ok out, st)
  | Err e => stub in_ st = (Err (status e), st)
  | Panic => True
  end.

Lemma stub_answers {A B : Set} cc status s (cA : Codec A) (cB : Codec B) wfA encA wfB encB name fullMethod method :
  CodecLaws cA wfA encA -> CodecLaws cB wfB encB -> queries cc status s ->
  (name, serve cA cB (unary fullMethod (zero cA) (fun in_ => method (Some in_)))) ∈ s ->
  answers status (Invoke cc cA cB name) method wfA encA wfB encB.
Proof.
  intros HA HB Hc Hin in_ st Hwf Hl. specialize (Hc _ _ (encA in_) st Hin).
  unfold Invoke, bind, lift. rewrite (Marshal_law _ _ _ _ HA) by done.
  unfold serve, unary, bind, lift in Hc. rewrite (Unmarshal_law _ _ _ HA) in Hc by done.
  destruct (method (Some in_) st) as [[out|e|] st'] eqn:E; cbn in Hc |- *.
  - intros Hout Hlo. rewrite (Marshal_law _ _ _ _ HB) in Hc by done. cbn in Hc. rewrite Hc.
    by rewrite (Unmarshal_law _ _ _ HB).
  - by rewrite Hc.
  - done.
Qed.

End grpc.
Arguments ClientConn : clear implicits.
Arguments ServiceDesc : clear implicits.
Arguments MethodDesc : clear implicits.
Arguments GrpcServer : clear implicits.
Arguments Route : clear implicits.
Abbreviation QueryRouter S := (list (string * (bytes -> M S bytes))).
Abbreviation MsgRouter S := (list (Route S)).

(** [status.Errorf(codes.Unimplemented, ...)] *)
Definition unimplemented {S A} : M S A := fail (Foreign "codes.Unimplemented").

(** ** The REST gateway

    What the generated code uses of grpc-gateway/runtime and net/http. *)
Class Gateway := {
  HttpRequest : Type;
  (** the form of a request, and what [PopulateQueryParameters] makes of a message
      with it; the codec stands for the type of the message *)
  Form : Type;
  ParseForm : HttpRequest -> outcome Form;
  PopulateQueryParameters {A} : Codec A -> A -> Form -> outcome A;
  runtime_String : string -> outcome string;
  runtime_Uint64 : string -> outcome Z
}.
Abbreviation PathParams := (gmap string string).

(** [status.Errorf(codes.InvalidArgument, ...)] *)
Definition invalid_argument {A} (o : outcome A) : outcome A :=
  match o with Err _ => Err (Foreign "codes.InvalidArgument") | o => o end.

(** The parameters of a request, from its form or from its path. *)
Definition from_form `{Gateway} {A} (c : Codec A) (req : HttpRequest) : outcome A :=
  let? form := invalid_argument (ParseForm req) in
  invalid_argument (PopulateQueryParameters c (zero c) form).
Definition from_path {A B} (convert : string -> outcome B) (name : string) (set : B -> A) (pathParams : PathParams) : outcome A :=
  match pathParams !! name with
  | None => Err (Foreign "codes.InvalidArgument")
  | Some val => let? v := invalid_argument (convert val) in Ok (set v)
  end.

(** The gateway in front of a client gives what the gateway in front of the
    server itself gives, for requests it reads to well-formed messages. *)
Definition gateway_agrees {S A B} (status : error -> error) (params : outcome A) (remote local : M S B)
    (wfA : A -> Prop) (encA : A -> bytes) (wfB : B -> Prop) (encB : B -> bytes) : Prop :=
  (∀ in_, params = Ok in_ -> wfA in_ ∧ blen (encA in_) < 2 ^ 63) -> ∀ st,
  match (local st).1 with
  | Ok out => wfB out -> blen (encB out) < 2 ^ 63 -> remote st = (Ok out, st)
  | Err e => remote st = (Err (if is_Ok params then status e else e), st)
  | Panic => True
  end.

Lemma gateway_answers {S A B} status (params : outcome A) (stub : A -> M S B) method wfA encA wfB encB :
  answers status stub method wfA encA wfB encB ->
  gateway_agrees status params (let* in_ := lift params in stub in_) (let* in_ := lift params in method (Some in_))
    wfA encA wfB encB.
Proof.
  intros Ha Hp st. unfold bind, lift. destruct params as [in_|e|]; [|done..].
  destruct (Hp in_ eq_refl) as [Hw Hl]. exact (Ha in_ st Hw Hl).
Qed.

Ltac in_list := repeat first [apply list_elem_of_here | apply list_elem_of_further].
(** For the goals [answers status stub method ...] and their conjunctions, from the
    connection [Hc] and the methods of the service registered [Hs]. *)
Ltac stubs_correct Hc Hs :=
  split_and?;
  (eapply stub_answers; [wire_law|wire_law|exact Hc|apply Hs; cbn; in_list]).
