(* ===== verification/CoinswapService.v ===== *)
(** * The services of x/coinswap

    The generated clients, servers and handlers of [query.pb.go] and [tx.pb.go], and the
    gateway of [query.pb.gw.go]. *)

From stdpp Require Import base gmap strings list.
From S2P Require Import Prelude Golang Sdk CoinswapTypes Coinswap Wire WireFacts WireCodec WireSdk CoinswapCodec Grpc.

#[local] Open Scope Z_scope.
#[local] Open Scope go_scope.

Section service.
Context {S : Type} {SC : SdkCodecs}.

(** ** Query *)

Record QueryServer := mkQueryServer {
  QueryServer_Params : option QueryParamsRequest -> M S QueryParamsResponse;
  QueryServer_LiquidityPool : option QueryLiquidityPoolRequest -> M S QueryLiquidityPoolResponse;
  QueryServer_LiquidityPools : option QueryLiquidityPoolsRequest -> M S QueryLiquidityPoolsResponse
}.
Record QueryClient := mkQueryClient {
  QueryClient_Params : QueryParamsRequest -> M S QueryParamsResponse;
  QueryClient_LiquidityPool : QueryLiquidityPoolRequest -> M S QueryLiquidityPoolResponse;
  QueryClient_LiquidityPools : QueryLiquidityPoolsRequest -> M S QueryLiquidityPoolsResponse
}.

Definition queryClient_Params (cc : ClientConn S) : QueryParamsRequest -> M S QueryParamsResponse :=
  Invoke cc QueryParamsRequest_codec QueryParamsResponse_codec "/canto.coinswap.v1.Query/Params".
Definition queryClient_LiquidityPool (cc : ClientConn S) : QueryLiquidityPoolRequest -> M S QueryLiquidityPoolResponse :=
  Invoke cc QueryLiquidityPoolRequest_codec QueryLiquidityPoolResponse_codec "/canto.coinswap.v1.Query/LiquidityPool".
Definition queryClient_LiquidityPools (cc : ClientConn S) : QueryLiquidityPoolsRequest -> M S QueryLiquidityPoolsResponse :=
  Invoke cc QueryLiquidityPoolsRequest_codec QueryLiquidityPoolsResponse_codec "/canto.coinswap.v1.Query/LiquidityPools".
Definition NewQueryClient (cc : ClientConn S) : QueryClient :=
  mkQueryClient (queryClient_Params cc) (queryClient_LiquidityPool cc) (queryClient_LiquidityPools cc).

Definition UnimplementedQueryServer : QueryServer := mkQueryServer (fun _ => unimplemented) (fun _ => unimplemented) (fun _ => unimplemented).

Definition _Query_Params_Handler (srv : QueryServer) : (QueryParamsRequest -> outcome QueryParamsRequest) -> option Interceptor -> M S QueryParamsResponse :=
  unary "/canto.coinswap.v1.Query/Params" (zero QueryParamsRequest_codec) (fun in_ => QueryServer_Params srv (Some in_)).
Definition _Query_LiquidityPool_Handler (srv : QueryServer) : (QueryLiquidityPoolRequest -> outcome QueryLiquidityPoolRequest) -> option Interceptor -> M S QueryLiquidityPoolResponse :=
  unary "/canto.coinswap.v1.Query/LiquidityPool" (zero QueryLiquidityPoolRequest_codec) (fun in_ => QueryServer_LiquidityPool srv (Some in_)).
Definition _Query_LiquidityPools_Handler (srv : QueryServer) : (QueryLiquidityPoolsRequest -> outcome QueryLiquidityPoolsRequest) -> option Interceptor -> M S QueryLiquidityPoolsResponse :=
  unary "/canto.coinswap.v1.Query/LiquidityPools" (zero QueryLiquidityPoolsRequest_codec) (fun in_ => QueryServer_LiquidityPools srv (Some in_)).
Definition _Query_serviceDesc : ServiceDesc S QueryServer :=
  mkServiceDesc _ "canto.coinswap.v1.Query" [
    mkMethodDesc _ "Params" _ _ QueryParamsRequest_codec QueryParamsResponse_codec _Query_Params_Handler;
    mkMethodDesc _ "LiquidityPool" _ _ QueryLiquidityPoolRequest_codec QueryLiquidityPoolResponse_codec _Query_LiquidityPool_Handler;
    mkMethodDesc _ "LiquidityPools" _ _ QueryLiquidityPoolsRequest_codec QueryLiquidityPoolsResponse_codec _Query_LiquidityPools_Handler].
Definition RegisterQueryServer {R} {G : GrpcServer S R} (s : R) (srv : QueryServer) : R :=
  RegisterService s _Query_serviceDesc srv.

(** ** Msg *)

Record MsgServer := mkMsgServer {
  MsgServer_AddLiquidity : option MsgAddLiquidity -> M S MsgAddLiquidityResponse;
  MsgServer_RemoveLiquidity : option MsgRemoveLiquidity -> M S MsgRemoveLiquidityResponse;
  MsgServer_SwapCoin : option MsgSwapOrder -> M S MsgSwapCoinResponse;
  MsgServer_UpdateParams : option MsgUpdateParams -> M S MsgUpdateParamsResponse
}.
Record MsgClient := mkMsgClient {
  MsgClient_AddLiquidity : MsgAddLiquidity -> M S MsgAddLiquidityResponse;
  MsgClient_RemoveLiquidity : MsgRemoveLiquidity -> M S MsgRemoveLiquidityResponse;
  MsgClient_SwapCoin : MsgSwapOrder -> M S MsgSwapCoinResponse;
  MsgClient_UpdateParams : MsgUpdateParams -> M S MsgUpdateParamsResponse
}.

Definition msgClient_AddLiquidity (cc : ClientConn S) : MsgAddLiquidity -> M S MsgAddLiquidityResponse :=
  Invoke cc MsgAddLiquidity_codec MsgAddLiquidityResponse_codec "/canto.coinswap.v1.Msg/AddLiquidity".
Definition msgClient_RemoveLiquidity (cc : ClientConn S) : MsgRemoveLiquidity -> M S MsgRemoveLiquidityResponse :=
  Invoke cc MsgRemoveLiquidity_codec MsgRemoveLiquidityResponse_codec "/canto.coinswap.v1.Msg/RemoveLiquidity".
Definition msgClient_SwapCoin (cc : ClientConn S) : MsgSwapOrder -> M S MsgSwapCoinResponse :=
  Invoke cc MsgSwapOrder_codec MsgSwapCoinResponse_codec "/canto.coinswap.v1.Msg/SwapCoin".
Definition msgClient_UpdateParams (cc : ClientConn S) : MsgUpdateParams -> M S MsgUpdateParamsResponse :=
  Invoke cc MsgUpdateParams_codec MsgUpdateParamsResponse_codec "/canto.coinswap.v1.Msg/UpdateParams".
Definition NewMsgClient (cc : ClientConn S) : MsgClient :=
  mkMsgClient (msgClient_AddLiquidity cc) (msgClient_RemoveLiquidity cc) (msgClient_SwapCoin cc) (msgClient_UpdateParams cc).

Definition UnimplementedMsgServer : MsgServer := mkMsgServer (fun _ => unimplemented) (fun _ => unimplemented) (fun _ => unimplemented) (fun _ => unimplemented).

Definition _Msg_AddLiquidity_Handler (srv : MsgServer) : (MsgAddLiquidity -> outcome MsgAddLiquidity) -> option Interceptor -> M S MsgAddLiquidityResponse :=
  unary "/canto.coinswap.v1.Msg/AddLiquidity" (zero MsgAddLiquidity_codec) (fun in_ => MsgServer_AddLiquidity srv (Some in_)).
Definition _Msg_RemoveLiquidity_Handler (srv : MsgServer) : (MsgRemoveLiquidity -> outcome MsgRemoveLiquidity) -> option Interceptor -> M S MsgRemoveLiquidityResponse :=
  unary "/canto.coinswap.v1.Msg/RemoveLiquidity" (zero MsgRemoveLiquidity_codec) (fun in_ => MsgServer_RemoveLiquidity srv (Some in_)).
Definition _Msg_SwapCoin_Handler (srv : MsgServer) : (MsgSwapOrder -> outcome MsgSwapOrder) -> option Interceptor -> M S MsgSwapCoinResponse :=
  unary "/canto.coinswap.v1.Msg/SwapCoin" (zero MsgSwapOrder_codec) (fun in_ => MsgServer_SwapCoin srv (Some in_)).
Definition _Msg_UpdateParams_Handler (srv : MsgServer) : (MsgUpdateParams -> outcome MsgUpdateParams) -> option Interceptor -> M S MsgUpdateParamsResponse :=
  unary "/canto.coinswap.v1.Msg/UpdateParams" (zero MsgUpdateParams_codec) (fun in_ => MsgServer_UpdateParams srv (Some in_)).
Definition _Msg_serviceDesc : ServiceDesc S MsgServer :=
  mkServiceDesc _ "canto.coinswap.v1.Msg" [
    mkMethodDesc _ "AddLiquidity" _ _ MsgAddLiquidity_codec MsgAddLiquidityResponse_codec _Msg_AddLiquidity_Handler;
    mkMethodDesc _ "RemoveLiquidity" _ _ MsgRemoveLiquidity_codec MsgRemoveLiquidityResponse_codec _Msg_RemoveLiquidity_Handler;
    mkMethodDesc _ "SwapCoin" _ _ MsgSwapOrder_codec MsgSwapCoinResponse_codec _Msg_SwapCoin_Handler;
    mkMethodDesc _ "UpdateParams" _ _ MsgUpdateParams_codec MsgUpdateParamsResponse_codec _Msg_UpdateParams_Handler].
Definition RegisterMsgServer {R} {G : GrpcServer S R} (s : R) (srv : MsgServer) : R :=
  RegisterService s _Msg_serviceDesc srv.

(** ** The gateway *)

Context `{Gateway}.

Definition request_Query_Params_0 (client : QueryClient) (req : HttpRequest) (pathParams : PathParams) : M S QueryParamsResponse :=
  let* protoReq := lift (Ok (zero QueryParamsRequest_codec)) in QueryClient_Params client protoReq.
Definition local_request_Query_Params_0 (server : QueryServer) (req : HttpRequest) (pathParams : PathParams) : M S QueryParamsResponse :=
  let* protoReq := lift (Ok (zero QueryParamsRequest_codec)) in QueryServer_Params server (Some protoReq).
Definition request_Query_LiquidityPool_0 (client : QueryClient) (req : HttpRequest) (pathParams : PathParams) : M S QueryLiquidityPoolResponse :=
  let* protoReq := lift (from_path runtime_String "lpt_denom" mkQueryLiquidityPoolRequest pathParams) in QueryClient_LiquidityPool client protoReq.
Definition local_request_Query_LiquidityPool_0 (server : QueryServer) (req : HttpRequest) (pathParams : PathParams) : M S QueryLiquidityPoolResponse :=
  let* protoReq := lift (from_path runtime_String "lpt_denom" mkQueryLiquidityPoolRequest pathParams) in QueryServer_LiquidityPool server (Some protoReq).
Definition request_Query_LiquidityPools_0 (client : QueryClient) (req : HttpRequest) (pathParams : PathParams) : M S QueryLiquidityPoolsResponse :=
  let* protoReq := lift (from_form QueryLiquidityPoolsRequest_codec req) in QueryClient_LiquidityPools client protoReq.
Definition local_request_Query_LiquidityPools_0 (server : QueryServer) (req : HttpRequest) (pathParams : PathParams) : M S QueryLiquidityPoolsResponse :=
  let* protoReq := lift (from_form QueryLiquidityPoolsRequest_codec req) in QueryServer_LiquidityPools server (Some protoReq).

(** ** Messages are routed to the server *)

Definition msg_routed (r : MsgRouter S) (srv : MsgServer) : Prop :=
  mkRoute _ _ (fun msg => MsgServer_AddLiquidity srv (Some msg)) ∈ r ∧
  mkRoute _ _ (fun msg => MsgServer_RemoveLiquidity srv (Some msg)) ∈ r ∧
  mkRoute _ _ (fun msg => MsgServer_SwapCoin srv (Some msg)) ∈ r ∧
  mkRoute _ _ (fun msg => MsgServer_UpdateParams srv (Some msg)) ∈ r.

Lemma coinswap_msg_routed r srv : service_routes _Msg_serviceDesc srv ⊆ r -> msg_routed r srv.
Proof. intros Hr. unfold msg_routed. split_and?; apply Hr; cbn; in_list. Qed.

(** ** Queries get the answers of the server *)

Context {SL : SdkCodecLaws SC}.

Definition query_answered (cc : ClientConn S) (status : error -> error) (srv : QueryServer) : Prop :=
  answers status (queryClient_Params cc) (QueryServer_Params srv) QueryParamsRequest_wf QueryParamsRequest_enc QueryParamsResponse_wf QueryParamsResponse_enc ∧
  answers status (queryClient_LiquidityPool cc) (QueryServer_LiquidityPool srv) QueryLiquidityPoolRequest_wf QueryLiquidityPoolRequest_enc QueryLiquidityPoolResponse_wf QueryLiquidityPoolResponse_enc ∧
  answers status (queryClient_LiquidityPools cc) (QueryServer_LiquidityPools srv) QueryLiquidityPoolsRequest_wf QueryLiquidityPoolsRequest_enc QueryLiquidityPoolsResponse_wf QueryLiquidityPoolsResponse_enc.

Lemma coinswap_query_answered cc status s srv :
  queries cc status s -> service_methods _Query_serviceDesc srv ⊆ s -> query_answered cc status srv.
Proof. intros Hc Hs. unfold query_answered. stubs_correct Hc Hs. Qed.

Definition gateway_answered (cc : ClientConn S) (status : error -> error) (srv : QueryServer) : Prop := ∀ req pathParams,
  gateway_agrees status (Ok (zero QueryParamsRequest_codec))
    (request_Query_Params_0 (NewQueryClient cc) req pathParams) (local_request_Query_Params_0 srv req pathParams)
    QueryParamsRequest_wf QueryParamsRequest_enc QueryParamsResponse_wf QueryParamsResponse_enc ∧
  gateway_agrees status (from_path runtime_String "lpt_denom" mkQueryLiquidityPoolRequest pathParams)
    (request_Query_LiquidityPool_0 (NewQueryClient cc) req pathParams) (local_request_Query_LiquidityPool_0 srv req pathParams)
    QueryLiquidityPoolRequest_wf QueryLiquidityPoolRequest_enc QueryLiquidityPoolResponse_wf QueryLiquidityPoolResponse_enc ∧
  gateway_agrees status (from_form QueryLiquidityPoolsRequest_codec req)
    (request_Query_LiquidityPools_0 (NewQueryClient cc) req pathParams) (local_request_Query_LiquidityPools_0 srv req pathParams)
    QueryLiquidityPoolsRequest_wf QueryLiquidityPoolsRequest_enc QueryLiquidityPoolsResponse_wf QueryLiquidityPoolsResponse_enc.

Lemma coinswap_gateway_answered cc status s srv :
  queries cc status s -> service_methods _Query_serviceDesc srv ⊆ s -> gateway_answered cc status srv.
Proof.
  intros Hc Hs req pathParams. pose proof (coinswap_query_answered cc status s srv Hc Hs) as Ha. unfold query_answered in Ha.
  split_and?; apply gateway_answers; tauto.
Qed.

End service.
Arguments QueryServer : clear implicits.
Arguments QueryClient : clear implicits.
Arguments MsgServer : clear implicits.
Arguments MsgClient : clear implicits.
