(* ===== verification/CsrService.v ===== *)
(** * The services of x/csr

    The generated clients, servers and handlers of [query.pb.go] and [tx.pb.go], and the
    gateway of [query.pb.gw.go]. *)

From stdpp Require Import base gmap strings list.
From S2P Require Import Prelude Golang Sdk Csr Wire WireFacts WireCodec WireSdk CsrCodec Grpc.

#[local] Open Scope Z_scope.
#[local] Open Scope go_scope.

Section service.
Context {S : Type} {SC : SdkCodecs}.

(** ** Query *)

Record QueryServer := mkQueryServer {
  QueryServer_Params : option QueryParamsRequest -> M S QueryParamsResponse;
  QueryServer_CSRs : option QueryCSRsRequest -> M S QueryCSRsResponse;
  QueryServer_CSRByNFT : option QueryCSRByNFTRequest -> M S QueryCSRByNFTResponse;
  QueryServer_CSRByContract : option QueryCSRByContractRequest -> M S QueryCSRByContractResponse;
  QueryServer_Turnstile : option QueryTurnstileRequest -> M S QueryTurnstileResponse
}.
Record QueryClient := mkQueryClient {
  QueryClient_Params : QueryParamsRequest -> M S QueryParamsResponse;
  QueryClient_CSRs : QueryCSRsRequest -> M S QueryCSRsResponse;
  QueryClient_CSRByNFT : QueryCSRByNFTRequest -> M S QueryCSRByNFTResponse;
  QueryClient_CSRByContract : QueryCSRByContractRequest -> M S QueryCSRByContractResponse;
  QueryClient_Turnstile : QueryTurnstileRequest -> M S QueryTurnstileResponse
}.

Definition queryClient_Params (cc : ClientConn S) : QueryParamsRequest -> M S QueryParamsResponse :=
  Invoke cc QueryParamsRequest_codec QueryParamsResponse_codec "/canto.csr.v1.Query/Params".
Definition queryClient_CSRs (cc : ClientConn S) : QueryCSRsRequest -> M S QueryCSRsResponse :=
  Invoke cc QueryCSRsRequest_codec QueryCSRsResponse_codec "/canto.csr.v1.Query/CSRs".
Definition queryClient_CSRByNFT (cc : ClientConn S) : QueryCSRByNFTRequest -> M S QueryCSRByNFTResponse :=
  Invoke cc QueryCSRByNFTRequest_codec QueryCSRByNFTResponse_codec "/canto.csr.v1.Query/CSRByNFT".
Definition queryClient_CSRByContract (cc : ClientConn S) : QueryCSRByContractRequest -> M S QueryCSRByContractResponse :=
  Invoke cc QueryCSRByContractRequest_codec QueryCSRByContractResponse_codec "/canto.csr.v1.Query/CSRByContract".
Definition queryClient_Turnstile (cc : ClientConn S) : QueryTurnstileRequest -> M S QueryTurnstileResponse :=
  Invoke cc QueryTurnstileRequest_codec QueryTurnstileResponse_codec "/canto.csr.v1.Query/Turnstile".
Definition NewQueryClient (cc : ClientConn S) : QueryClient :=
  mkQueryClient (queryClient_Params cc) (queryClient_CSRs cc) (queryClient_CSRByNFT cc) (queryClient_CSRByContract cc) (queryClient_Turnstile cc).

Definition UnimplementedQueryServer : QueryServer := mkQueryServer (fun _ => unimplemented) (fun _ => unimplemented) (fun _ => unimplemented) (fun _ => unimplemented) (fun _ => unimplemented).

Definition _Query_Params_Handler (srv : QueryServer) : (QueryParamsRequest -> outcome QueryParamsRequest) -> option Interceptor -> M S QueryParamsResponse :=
  unary "/canto.csr.v1.Query/Params" (zero QueryParamsRequest_codec) (fun in_ => QueryServer_Params srv (Some in_)).
Definition _Query_CSRs_Handler (srv : QueryServer) : (QueryCSRsRequest -> outcome QueryCSRsRequest) -> option Interceptor -> M S QueryCSRsResponse :=
  unary "/canto.csr.v1.Query/CSRs" (zero QueryCSRsRequest_codec) (fun in_ => QueryServer_CSRs srv (Some in_)).
Definition _Query_CSRByNFT_Handler (srv : QueryServer) : (QueryCSRByNFTRequest -> outcome QueryCSRByNFTRequest) -> option Interceptor -> M S QueryCSRByNFTResponse :=
  unary "/canto.csr.v1.Query/CSRByNFT" (zero QueryCSRByNFTRequest_codec) (fun in_ => QueryServer_CSRByNFT srv (Some in_)).
Definition _Query_CSRByContract_Handler (srv : QueryServer) : (QueryCSRByContractRequest -> outcome QueryCSRByContractRequest) -> option Interceptor -> M S QueryCSRByContractResponse :=
  unary "/canto.csr.v1.Query/CSRByContract" (zero QueryCSRByContractRequest_codec) (fun in_ => QueryServer_CSRByContract srv (Some in_)).
Definition _Query_Turnstile_Handler (srv : QueryServer) : (QueryTurnstileRequest -> outcome QueryTurnstileRequest) -> option Interceptor -> M S QueryTurnstileResponse :=
  unary "/canto.csr.v1.Query/Turnstile" (zero QueryTurnstileRequest_codec) (fun in_ => QueryServer_Turnstile srv (Some in_)).
Definition _Query_serviceDesc : ServiceDesc S QueryServer :=
  mkServiceDesc _ "canto.csr.v1.Query" [
    mkMethodDesc _ "Params" _ _ QueryParamsRequest_codec QueryParamsResponse_codec _Query_Params_Handler;
    mkMethodDesc _ "CSRs" _ _ QueryCSRsRequest_codec QueryCSRsResponse_codec _Query_CSRs_Handler;
    mkMethodDesc _ "CSRByNFT" _ _ QueryCSRByNFTRequest_codec QueryCSRByNFTResponse_codec _Query_CSRByNFT_Handler;
    mkMethodDesc _ "CSRByContract" _ _ QueryCSRByContractRequest_codec QueryCSRByContractResponse_codec _Query_CSRByContract_Handler;
    mkMethodDesc _ "Turnstile" _ _ QueryTurnstileRequest_codec QueryTurnstileResponse_codec _Query_Turnstile_Handler].
Definition RegisterQueryServer {R} {G : GrpcServer S R} (s : R) (srv : QueryServer) : R :=
  RegisterService s _Query_serviceDesc srv.

(** ** Msg *)

Record MsgServer := mkMsgServer {
  MsgServer_UpdateParams : option MsgUpdateParams -> M S MsgUpdateParamsResponse
}.
Record MsgClient := mkMsgClient {
  MsgClient_UpdateParams : MsgUpdateParams -> M S MsgUpdateParamsResponse
}.

Definition msgClient_UpdateParams (cc : ClientConn S) : MsgUpdateParams -> M S MsgUpdateParamsResponse :=
  Invoke cc MsgUpdateParams_codec MsgUpdateParamsResponse_codec "/canto.csr.v1.Msg/UpdateParams".
Definition NewMsgClient (cc : ClientConn S) : MsgClient :=
  mkMsgClient (msgClient_UpdateParams cc).

Definition UnimplementedMsgServer : MsgServer := mkMsgServer (fun _ => unimplemented).

Definition _Msg_UpdateParams_Handler (srv : MsgServer) : (MsgUpdateParams -> outcome MsgUpdateParams) -> option Interceptor -> M S MsgUpdateParamsResponse :=
  unary "/canto.csr.v1.Msg/UpdateParams" (zero MsgUpdateParams_codec) (fun in_ => MsgServer_UpdateParams srv (Some in_)).
Definition _Msg_serviceDesc : ServiceDesc S MsgServer :=
  mkServiceDesc _ "canto.csr.v1.Msg" [
    mkMethodDesc _ "UpdateParams" _ _ MsgUpdateParams_codec MsgUpdateParamsResponse_codec _Msg_UpdateParams_Handler].
Definition RegisterMsgServer {R} {G : GrpcServer S R} (s : R) (srv : MsgServer) : R :=
  RegisterService s _Msg_serviceDesc srv.

(** ** The gateway *)

Context `{Gateway}.

Definition request_Query_Params_0 (client : QueryClient) (req : HttpRequest) (pathParams : PathParams) : M S QueryParamsResponse :=
  let* protoReq := lift (Ok (zero QueryParamsRequest_codec)) in QueryClient_Params client protoReq.
Definition local_request_Query_Params_0 (server : QueryServer) (req : HttpRequest) (pathParams : PathParams) : M S QueryParamsResponse :=
  let* protoReq := lift (Ok (zero QueryParamsRequest_codec)) in QueryServer_Params server (Some protoReq).
Definition request_Query_CSRs_0 (client : QueryClient) (req : HttpRequest) (pathParams : PathParams) : M S QueryCSRsResponse :=
  let* protoReq := lift (from_form QueryCSRsRequest_codec req) in QueryClient_CSRs client protoReq.
Definition local_request_Query_CSRs_0 (server : QueryServer) (req : HttpRequest) (pathParams : PathParams) : M S QueryCSRsResponse :=
  let* protoReq := lift (from_form QueryCSRsRequest_codec req) in QueryServer_CSRs server (Some protoReq).
Definition request_Query_CSRByNFT_0 (client : QueryClient) (req : HttpRequest) (pathParams : PathParams) : M S QueryCSRByNFTResponse :=
  let* protoReq := lift (from_path runtime_Uint64 "nftId" mkQueryCSRByNFTRequest pathParams) in QueryClient_CSRByNFT client protoReq.
Definition local_request_Query_CSRByNFT_0 (server : QueryServer) (req : HttpRequest) (pathParams : PathParams) : M S QueryCSRByNFTResponse :=
  let* protoReq := lift (from_path runtime_Uint64 "nftId" mkQueryCSRByNFTRequest pathParams) in QueryServer_CSRByNFT server (Some protoReq).
Definition request_Query_CSRByContract_0 (client : QueryClient) (req : HttpRequest) (pathParams : PathParams) : M S QueryCSRByContractResponse :=
  let* protoReq := lift (from_path runtime_String "address" mkQueryCSRByContractRequest pathParams) in QueryClient_CSRByContract client protoReq.
Definition local_request_Query_CSRByContract_0 (server : QueryServer) (req : HttpRequest) (pathParams : PathParams) : M S QueryCSRByContractResponse :=
  let* protoReq := lift (from_path runtime_String "address" mkQueryCSRByContractRequest pathParams) in QueryServer_CSRByContract server (Some protoReq).
Definition request_Query_Turnstile_0 (client : QueryClient) (req : HttpRequest) (pathParams : PathParams) : M S QueryTurnstileResponse :=
  let* protoReq := lift (Ok (zero QueryTurnstileRequest_codec)) in QueryClient_Turnstile client protoReq.
Definition local_request_Query_Turnstile_0 (server : QueryServer) (req : HttpRequest) (pathParams : PathParams) : M S QueryTurnstileResponse :=
  let* protoReq := lift (Ok (zero QueryTurnstileRequest_codec)) in QueryServer_Turnstile server (Some protoReq).

(** ** Messages are routed to the server *)

Definition msg_routed (r : MsgRouter S) (srv : MsgServer) : Prop :=
  mkRoute _ _ (fun msg => MsgServer_UpdateParams srv (Some msg)) ∈ r.

Lemma csr_msg_routed r srv : service_routes _Msg_serviceDesc srv ⊆ r -> msg_routed r srv.
Proof. intros Hr. unfold msg_routed. split_and?; apply Hr; cbn; in_list. Qed.

(** ** Queries get the answers of the server *)

Context {SL : SdkCodecLaws SC}.

Definition query_answered (cc : ClientConn S) (status : error -> error) (srv : QueryServer) : Prop :=
  answers status (queryClient_Params cc) (QueryServer_Params srv) QueryParamsRequest_wf QueryParamsRequest_enc QueryParamsResponse_wf QueryParamsResponse_enc ∧
  answers status (queryClient_CSRs cc) (QueryServer_CSRs srv) QueryCSRsRequest_wf QueryCSRsRequest_enc QueryCSRsResponse_wf QueryCSRsResponse_enc ∧
  answers status (queryClient_CSRByNFT cc) (QueryServer_CSRByNFT srv) QueryCSRByNFTRequest_wf QueryCSRByNFTRequest_enc QueryCSRByNFTResponse_wf QueryCSRByNFTResponse_enc ∧
  answers status (queryClient_CSRByContract cc) (QueryServer_CSRByContract srv) QueryCSRByContractRequest_wf QueryCSRByContractRequest_enc QueryCSRByContractResponse_wf QueryCSRByContractResponse_enc ∧
  answers status (queryClient_Turnstile cc) (QueryServer_Turnstile srv) QueryTurnstileRequest_wf QueryTurnstileRequest_enc QueryTurnstileResponse_wf QueryTurnstileResponse_enc.

Lemma csr_query_answered cc status s srv :
  queries cc status s -> service_methods _Query_serviceDesc srv ⊆ s -> query_answered cc status srv.
Proof. intros Hc Hs. unfold query_answered. stubs_correct Hc Hs. Qed.

Definition gateway_answered (cc : ClientConn S) (status : error -> error) (srv : QueryServer) : Prop := ∀ req pathParams,
  gateway_agrees status (Ok (zero QueryParamsRequest_codec))
    (request_Query_Params_0 (NewQueryClient cc) req pathParams) (local_request_Query_Params_0 srv req pathParams)
    QueryParamsRequest_wf QueryParamsRequest_enc QueryParamsResponse_wf QueryParamsResponse_enc ∧
  gateway_agrees status (from_form QueryCSRsRequest_codec req)
    (request_Query_CSRs_0 (NewQueryClient cc) req pathParams) (local_request_Query_CSRs_0 srv req pathParams)
    QueryCSRsRequest_wf QueryCSRsRequest_enc QueryCSRsResponse_wf QueryCSRsResponse_enc ∧
  gateway_agrees status (from_path runtime_Uint64 "nftId" mkQueryCSRByNFTRequest pathParams)
    (request_Query_CSRByNFT_0 (NewQueryClient cc) req pathParams) (local_request_Query_CSRByNFT_0 srv req pathParams)
    QueryCSRByNFTRequest_wf QueryCSRByNFTRequest_enc QueryCSRByNFTResponse_wf QueryCSRByNFTResponse_enc ∧
  gateway_agrees status (from_path runtime_String "address" mkQueryCSRByContractRequest pathParams)
    (request_Query_CSRByContract_0 (NewQueryClient cc) req pathParams) (local_request_Query_CSRByContract_0 srv req pathParams)
    QueryCSRByContractRequest_wf QueryCSRByContractRequest_enc QueryCSRByContractResponse_wf QueryCSRByContractResponse_enc ∧
  gateway_agrees status (Ok (zero QueryTurnstileRequest_codec))
    (request_Query_Turnstile_0 (NewQueryClient cc) req pathParams) (local_request_Query_Turnstile_0 srv req pathParams)
    QueryTurnstileRequest_wf QueryTurnstileRequest_enc QueryTurnstileResponse_wf QueryTurnstileResponse_enc.

Lemma csr_gateway_answered cc status s srv :
  queries cc status s -> service_methods _Query_serviceDesc srv ⊆ s -> gateway_answered cc status srv.
Proof.
  intros Hc Hs req pathParams. pose proof (csr_query_answered cc status s srv Hc Hs) as Ha. unfold query_answered in Ha.
  split_and?; apply gateway_answers; tauto.
Qed.

End service.
Arguments QueryServer : clear implicits.
Arguments QueryClient : clear implicits.
Arguments MsgServer : clear implicits.
Arguments MsgClient : clear implicits.
