(* ===== verification/EpochsService.v ===== *)
(** * The services of x/epochs

    The generated clients, servers and handlers of [query.pb.go], and the
    gateway of [query.pb.gw.go]. *)

From stdpp Require Import base gmap strings list.
From S2P Require Import Prelude Golang Sdk Epochs Wire WireFacts WireCodec WireSdk EpochsCodec Grpc.

#[local] Open Scope Z_scope.
#[local] Open Scope go_scope.

Section service.
Context {S : Type} {SC : SdkCodecs}.

(** ** Query *)

Record QueryServer := mkQueryServer {
  QueryServer_EpochInfos : option QueryEpochsInfoRequest -> M S QueryEpochsInfoResponse;
  QueryServer_CurrentEpoch : option QueryCurrentEpochRequest -> M S QueryCurrentEpochResponse
}.
Record QueryClient := mkQueryClient {
  QueryClient_EpochInfos : QueryEpochsInfoRequest -> M S QueryEpochsInfoResponse;
  QueryClient_CurrentEpoch : QueryCurrentEpochRequest -> M S QueryCurrentEpochResponse
}.

Definition queryClient_EpochInfos (cc : ClientConn S) : QueryEpochsInfoRequest -> M S QueryEpochsInfoResponse :=
  Invoke cc QueryEpochsInfoRequest_codec QueryEpochsInfoResponse_codec "/canto.epochs.v1.Query/EpochInfos".
Definition queryClient_CurrentEpoch (cc : ClientConn S) : QueryCurrentEpochRequest -> M S QueryCurrentEpochResponse :=
  Invoke cc QueryCurrentEpochRequest_codec QueryCurrentEpochResponse_codec "/canto.epochs.v1.Query/CurrentEpoch".
Definition NewQueryClient (cc : ClientConn S) : QueryClient :=
  mkQueryClient (queryClient_EpochInfos cc) (queryClient_CurrentEpoch cc).

Definition UnimplementedQueryServer : QueryServer := mkQueryServer (fun _ => unimplemented) (fun _ => unimplemented).

Definition _Query_EpochInfos_Handler (srv : QueryServer) : (QueryEpochsInfoRequest -> outcome QueryEpochsInfoRequest) -> option Interceptor -> M S QueryEpochsInfoResponse :=
  unary "/canto.epochs.v1.Query/EpochInfos" (zero QueryEpochsInfoRequest_codec) (fun in_ => QueryServer_EpochInfos srv (Some in_)).
Definition _Query_CurrentEpoch_Handler (srv : QueryServer) : (QueryCurrentEpochRequest -> outcome QueryCurrentEpochRequest) -> option Interceptor -> M S QueryCurrentEpochResponse :=
  unary "/canto.epochs.v1.Query/CurrentEpoch" (zero QueryCurrentEpochRequest_codec) (fun in_ => QueryServer_CurrentEpoch srv (Some in_)).
Definition _Query_serviceDesc : ServiceDesc S QueryServer :=
  mkServiceDesc _ "canto.epochs.v1.Query" [
    mkMethodDesc _ "EpochInfos" _ _ QueryEpochsInfoRequest_codec QueryEpochsInfoResponse_codec _Query_EpochInfos_Handler;
    mkMethodDesc _ "CurrentEpoch" _ _ QueryCurrentEpochRequest_codec QueryCurrentEpochResponse_codec _Query_CurrentEpoch_Handler].
Definition RegisterQueryServer {R} {G : GrpcServer S R} (s : R) (srv : QueryServer) : R :=
  RegisterService s _Query_serviceDesc srv.

(** ** The gateway *)

Context `{Gateway}.

Definition request_Query_EpochInfos_0 (client : QueryClient) (req : HttpRequest) (pathParams : PathParams) : M S QueryEpochsInfoResponse :=
  let* protoReq := lift (from_form QueryEpochsInfoRequest_codec req) in QueryClient_EpochInfos client protoReq.
Definition local_request_Query_EpochInfos_0 (server : QueryServer) (req : HttpRequest) (pathParams : PathParams) : M S QueryEpochsInfoResponse :=
  let* protoReq := lift (from_form QueryEpochsInfoRequest_codec req) in QueryServer_EpochInfos server (Some protoReq).
Definition request_Query_CurrentEpoch_0 (client : QueryClient) (req : HttpRequest) (pathParams : PathParams) : M S QueryCurrentEpochResponse :=
  let* protoReq := lift (from_form QueryCurrentEpochRequest_codec req) in QueryClient_CurrentEpoch client protoReq.
Definition local_request_Query_CurrentEpoch_0 (server : QueryServer) (req : HttpRequest) (pathParams : PathParams) : M S QueryCurrentEpochResponse :=
  let* protoReq := lift (from_form QueryCurrentEpochRequest_codec req) in QueryServer_CurrentEpoch server (Some protoReq).

(** ** Queries get the answers of the server *)

Context {SL : SdkCodecLaws SC}.

Definition query_answered (cc : ClientConn S) (status : error -> error) (srv : QueryServer) : Prop :=
  answers status (queryClient_EpochInfos cc) (QueryServer_EpochInfos srv) QueryEpochsInfoRequest_wf QueryEpochsInfoRequest_enc QueryEpochsInfoResponse_wf QueryEpochsInfoResponse_enc ∧
  answers status (queryClient_CurrentEpoch cc) (QueryServer_CurrentEpoch srv) QueryCurrentEpochRequest_wf QueryCurrentEpochRequest_enc QueryCurrentEpochResponse_wf QueryCurrentEpochResponse_enc.

Lemma epochs_query_answered cc status s srv :
  queries cc status s -> service_methods _Query_serviceDesc srv ⊆ s -> query_answered cc status srv.
Proof. intros Hc Hs. unfold query_answered. stubs_correct Hc Hs. Qed.

Definition gateway_answered (cc : ClientConn S) (status : error -> error) (srv : QueryServer) : Prop := ∀ req pathParams,
  gateway_agrees status (from_form QueryEpochsInfoRequest_codec req)
    (request_Query_EpochInfos_0 (NewQueryClient cc) req pathParams) (local_request_Query_EpochInfos_0 srv req pathParams)
    QueryEpochsInfoRequest_wf QueryEpochsInfoRequest_enc QueryEpochsInfoResponse_wf QueryEpochsInfoResponse_enc ∧
  gateway_agrees status (from_form QueryCurrentEpochRequest_codec req)
    (request_Query_CurrentEpoch_0 (NewQueryClient cc) req pathParams) (local_request_Query_CurrentEpoch_0 srv req pathParams)
    QueryCurrentEpochRequest_wf QueryCurrentEpochRequest_enc QueryCurrentEpochResponse_wf QueryCurrentEpochResponse_enc.

Lemma epochs_gateway_answered cc status s srv :
  queries cc status s -> service_methods _Query_serviceDesc srv ⊆ s -> gateway_answered cc status srv.
Proof.
  intros Hc Hs req pathParams. pose proof (epochs_query_answered cc status s srv Hc Hs) as Ha. unfold query_answered in Ha.
  split_and?; apply gateway_answers; tauto.
Qed.

End service.
Arguments QueryServer : clear implicits.
Arguments QueryClient : clear implicits.
