(* ===== verification/Erc20Service.v ===== *)
(** * The services of x/erc20

    The generated clients, servers and handlers of [query.pb.go] and [tx.pb.go], and the
    gateway of [query.pb.gw.go]. *)

From stdpp Require Import base gmap strings list.
From S2P Require Import Prelude Golang Sdk Erc20Types Wire WireFacts WireCodec WireSdk Erc20Codec Grpc.

#[local] Open Scope Z_scope.
#[local] Open Scope go_scope.

Section service.
Context {S : Type} {SC : SdkCodecs}.

(** ** Query *)

Record QueryServer := mkQueryServer {
  QueryServer_TokenPairs : option QueryTokenPairsRequest -> M S QueryTokenPairsResponse;
  QueryServer_TokenPair : option QueryTokenPairRequest -> M S QueryTokenPairResponse;
  QueryServer_Params : option QueryParamsRequest -> M S QueryParamsResponse
}.
Record QueryClient := mkQueryClient {
  QueryClient_TokenPairs : QueryTokenPairsRequest -> M S QueryTokenPairsResponse;
  QueryClient_TokenPair : QueryTokenPairRequest -> M S QueryTokenPairResponse;
  QueryClient_Params : QueryParamsRequest -> M S QueryParamsResponse
}.

Definition queryClient_TokenPairs (cc : ClientConn S) : QueryTokenPairsRequest -> M S QueryTokenPairsResponse :=
  Invoke cc QueryTokenPairsRequest_codec QueryTokenPairsResponse_codec "/canto.erc20.v1.Query/TokenPairs".
Definition queryClient_TokenPair (cc : ClientConn S) : QueryTokenPairRequest -> M S QueryTokenPairResponse :=
  Invoke cc QueryTokenPairRequest_codec QueryTokenPairResponse_codec "/canto.erc20.v1.Query/TokenPair".
Definition queryClient_Params (cc : ClientConn S) : QueryParamsRequest -> M S QueryParamsResponse :=
  Invoke cc QueryParamsRequest_codec QueryParamsResponse_codec "/canto.erc20.v1.Query/Params".
Definition NewQueryClient (cc : ClientConn S) : QueryClient :=
  mkQueryClient (queryClient_TokenPairs cc) (queryClient_TokenPair cc) (queryClient_Params cc).

Definition UnimplementedQueryServer : QueryServer := mkQueryServer (fun _ => unimplemented) (fun _ => unimplemented) (fun _ => unimplemented).

Definition _Query_TokenPairs_Handler (srv : QueryServer) : (QueryTokenPairsRequest -> outcome QueryTokenPairsRequest) -> option Interceptor -> M S QueryTokenPairsResponse :=
  unary "/canto.erc20.v1.Query/TokenPairs" (zero QueryTokenPairsRequest_codec) (fun in_ => QueryServer_TokenPairs srv (Some in_)).
Definition _Query_TokenPair_Handler (srv : QueryServer) : (QueryTokenPairRequest -> outcome QueryTokenPairRequest) -> option Interceptor -> M S QueryTokenPairResponse :=
  unary "/canto.erc20.v1.Query/TokenPair" (zero QueryTokenPairRequest_codec) (fun in_ => QueryServer_TokenPair srv (Some in_)).
Definition _Query_Params_Handler (srv : QueryServer) : (QueryParamsRequest -> outcome QueryParamsRequest) -> option Interceptor -> M S QueryParamsResponse :=
  unary "/canto.erc20.v1.Query/Params" (zero QueryParamsRequest_codec) (fun in_ => QueryServer_Params srv (Some in_)).
Definition _Query_serviceDesc : ServiceDesc S QueryServer :=
  mkServiceDesc _ "canto.erc20.v1.Query" [
    mkMethodDesc _ "TokenPairs" _ _ QueryTokenPairsRequest_codec QueryTokenPairsResponse_codec _Query_TokenPairs_Handler;
    mkMethodDesc _ "TokenPair" _ _ QueryTokenPairRequest_codec QueryTokenPairResponse_codec _Query_TokenPair_Handler;
    mkMethodDesc _ "Params" _ _ QueryParamsRequest_codec QueryParamsResponse_codec _Query_Params_Handler].
Definition RegisterQueryServer {R} {G : GrpcServer S R} (s : R) (srv : QueryServer) : R :=
  RegisterService s _Query_serviceDesc srv.

(** ** Msg *)

Record MsgServer := mkMsgServer {
  MsgServer_ConvertCoin : option MsgConvertCoin -> M S MsgConvertCoinResponse;
  MsgServer_ConvertERC20 : option MsgConvertERC20 -> M S MsgConvertERC20Response;
  MsgServer_UpdateParams : option MsgUpdateParams -> M S MsgUpdateParamsResponse;
  MsgServer_RegisterCoinProposal : option MsgRegisterCoin -> M S MsgRegisterCoinResponse;
  MsgServer_RegisterERC20Proposal : option MsgRegisterERC20 -> M S MsgRegisterERC20Response;
  MsgServer_ToggleTokenConversionProposal : option MsgToggleTokenConversion -> M S MsgToggleTokenConversionResponse
}.
Record MsgClient := mkMsgClient {
  MsgClient_ConvertCoin : MsgConvertCoin -> M S MsgConvertCoinResponse;
  MsgClient_ConvertERC20 : MsgConvertERC20 -> M S MsgConvertERC20Response;
  MsgClient_UpdateParams : MsgUpdateParams -> M S MsgUpdateParamsResponse;
  MsgClient_RegisterCoinProposal : MsgRegisterCoin -> M S MsgRegisterCoinResponse;
  MsgClient_RegisterERC20Proposal : MsgRegisterERC20 -> M S MsgRegisterERC20Response;
  MsgClient_ToggleTokenConversionProposal : MsgToggleTokenConversion -> M S MsgToggleTokenConversionResponse
}.

Definition msgClient_ConvertCoin (cc : ClientConn S) : MsgConvertCoin -> M S MsgConvertCoinResponse :=
  Invoke cc MsgConvertCoin_codec MsgConvertCoinResponse_codec "/canto.erc20.v1.Msg/ConvertCoin".
Definition msgClient_ConvertERC20 (cc : ClientConn S) : MsgConvertERC20 -> M S MsgConvertERC20Response :=
  Invoke cc MsgConvertERC20_codec MsgConvertERC20Response_codec "/canto.erc20.v1.Msg/ConvertERC20".
Definition msgClient_UpdateParams (cc : ClientConn S) : MsgUpdateParams -> M S MsgUpdateParamsResponse :=
  Invoke cc MsgUpdateParams_codec MsgUpdateParamsResponse_codec "/canto.erc20.v1.Msg/UpdateParams".
Definition msgClient_RegisterCoinProposal (cc : ClientConn S) : MsgRegisterCoin -> M S MsgRegisterCoinResponse :=
  Invoke cc MsgRegisterCoin_codec MsgRegisterCoinResponse_codec "/canto.erc20.v1.Msg/RegisterCoinProposal".
Definition msgClient_RegisterERC20Proposal (cc : ClientConn S) : MsgRegisterERC20 -> M S MsgRegisterERC20Response :=
  Invoke cc MsgRegisterERC20_codec MsgRegisterERC20Response_codec "/canto.erc20.v1.Msg/RegisterERC20Proposal".
Definition msgClient_ToggleTokenConversionProposal (cc : ClientConn S) : MsgToggleTokenConversion -> M S MsgToggleTokenConversionResponse :=
  Invoke cc MsgToggleTokenConversion_codec MsgToggleTokenConversionResponse_codec "/canto.erc20.v1.Msg/ToggleTokenConversionProposal".
Definition NewMsgClient (cc : ClientConn S) : MsgClient :=
  mkMsgClient (msgClient_ConvertCoin cc) (msgClient_ConvertERC20 cc) (msgClient_UpdateParams cc) (msgClient_RegisterCoinProposal cc) (msgClient_RegisterERC20Proposal cc) (msgClient_ToggleTokenConversionProposal cc).

Definition UnimplementedMsgServer : MsgServer := mkMsgServer (fun _ => unimplemented) (fun _ => unimplemented) (fun _ => unimplemented) (fun _ => unimplemented) (fun _ => unimplemented) (fun _ => unimplemented).

Definition _Msg_ConvertCoin_Handler (srv : MsgServer) : (MsgConvertCoin -> outcome MsgConvertCoin) -> option Interceptor -> M S MsgConvertCoinResponse :=
  unary "/canto.erc20.v1.Msg/ConvertCoin" (zero MsgConvertCoin_codec) (fun in_ => MsgServer_ConvertCoin srv (Some in_)).
Definition _Msg_ConvertERC20_Handler (srv : MsgServer) : (MsgConvertERC20 -> outcome MsgConvertERC20) -> option Interceptor -> M S MsgConvertERC20Response :=
  unary "/canto.erc20.v1.Msg/ConvertERC20" (zero MsgConvertERC20_codec) (fun in_ => MsgServer_ConvertERC20 srv (Some in_)).
Definition _Msg_UpdateParams_Handler (srv : MsgServer) : (MsgUpdateParams -> outcome MsgUpdateParams) -> option Interceptor -> M S MsgUpdateParamsResponse :=
  unary "/canto.erc20.v1.Msg/UpdateParams" (zero MsgUpdateParams_codec) (fun in_ => MsgServer_UpdateParams srv (Some in_)).
Definition _Msg_RegisterCoinProposal_Handler (srv : MsgServer) : (MsgRegisterCoin -> outcome MsgRegisterCoin) -> option Interceptor -> M S MsgRegisterCoinResponse :=
  unary "/canto.erc20.v1.Msg/RegisterCoinProposal" (zero MsgRegisterCoin_codec) (fun in_ => MsgServer_RegisterCoinProposal srv (Some in_)).
Definition _Msg_RegisterERC20Proposal_Handler (srv : MsgServer) : (MsgRegisterERC20 -> outcome MsgRegisterERC20) -> option Interceptor -> M S MsgRegisterERC20Response :=
  unary "/canto.erc20.v1.Msg/RegisterERC20Proposal" (zero MsgRegisterERC20_codec) (fun in_ => MsgServer_RegisterERC20Proposal srv (Some in_)).
Definition _Msg_ToggleTokenConversionProposal_Handler (srv : MsgServer) : (MsgToggleTokenConversion -> outcome MsgToggleTokenConversion) -> option Interceptor -> M S MsgToggleTokenConversionResponse :=
  unary "/canto.erc20.v1.Msg/ToggleTokenConversionProposal" (zero MsgToggleTokenConversion_codec) (fun in_ => MsgServer_ToggleTokenConversionProposal srv (Some in_)).
Definition _Msg_serviceDesc : ServiceDesc S MsgServer :=
  mkServiceDesc _ "canto.erc20.v1.Msg" [
    mkMethodDesc _ "ConvertCoin" _ _ MsgConvertCoin_codec MsgConvertCoinResponse_codec _Msg_ConvertCoin_Handler;
    mkMethodDesc _ "ConvertERC20" _ _ MsgConvertERC20_codec MsgConvertERC20Response_codec _Msg_ConvertERC20_Handler;
    mkMethodDesc _ "UpdateParams" _ _ MsgUpdateParams_codec MsgUpdateParamsResponse_codec _Msg_UpdateParams_Handler;
    mkMethodDesc _ "RegisterCoinProposal" _ _ MsgRegisterCoin_codec MsgRegisterCoinResponse_codec _Msg_RegisterCoinProposal_Handler;
    mkMethodDesc _ "RegisterERC20Proposal" _ _ MsgRegisterERC20_codec MsgRegisterERC20Response_codec _Msg_RegisterERC20Proposal_Handler;
    mkMethodDesc _ "ToggleTokenConversionProposal" _ _ MsgToggleTokenConversion_codec MsgToggleTokenConversionResponse_codec _Msg_ToggleTokenConversionProposal_Handler].
Definition RegisterMsgServer {R} {G : GrpcServer S R} (s : R) (srv : MsgServer) : R :=
  RegisterService s _Msg_serviceDesc srv.

(** ** The gateway *)

Context `{Gateway}.

Definition request_Query_TokenPairs_0 (client : QueryClient) (req : HttpRequest) (pathParams : PathParams) : M S QueryTokenPairsResponse :=
  let* protoReq := lift (from_form QueryTokenPairsRequest_codec req) in QueryClient_TokenPairs client protoReq.
Definition local_request_Query_TokenPairs_0 (server : QueryServer) (req : HttpRequest) (pathParams : PathParams) : M S QueryTokenPairsResponse :=
  let* protoReq := lift (from_form QueryTokenPairsRequest_codec req) in QueryServer_TokenPairs server (Some protoReq).
Definition request_Query_TokenPair_0 (client : QueryClient) (req : HttpRequest) (pathParams : PathParams) : M S QueryTokenPairResponse :=
  let* protoReq := lift (from_path runtime_String "token" mkQueryTokenPairRequest pathParams) in QueryClient_TokenPair client protoReq.
Definition local_request_Query_TokenPair_0 (server : QueryServer) (req : HttpRequest) (pathParams : PathParams) : M S QueryTokenPairResponse :=
  let* protoReq := lift (from_path runtime_String "token" mkQueryTokenPairRequest pathParams) in QueryServer_TokenPair server (Some protoReq).
Definition request_Query_Params_0 (client : QueryClient) (req : HttpRequest) (pathParams : PathParams) : M S QueryParamsResponse :=
  let* protoReq := lift (Ok (zero QueryParamsRequest_codec)) in QueryClient_Params client protoReq.
Definition local_request_Query_Params_0 (server : QueryServer) (req : HttpRequest) (pathParams : PathParams) : M S QueryParamsResponse :=
  let* protoReq := lift (Ok (zero QueryParamsRequest_codec)) in QueryServer_Params server (Some protoReq).

(** ** Messages are routed to the server *)

Definition msg_routed (r : MsgRouter S) (srv : MsgServer) : Prop :=
  mkRoute _ _ (fun msg => MsgServer_ConvertCoin srv (Some msg)) ∈ r ∧
  mkRoute _ _ (fun msg => MsgServer_ConvertERC20 srv (Some msg)) ∈ r ∧
  mkRoute _ _ (fun msg => MsgServer_UpdateParams srv (Some msg)) ∈ r ∧
  mkRoute _ _ (fun msg => MsgServer_RegisterCoinProposal srv (Some msg)) ∈ r ∧
  mkRoute _ _ (fun msg => MsgServer_RegisterERC20Proposal srv (Some msg)) ∈ r ∧
  mkRoute _ _ (fun msg => MsgServer_ToggleTokenConversionProposal srv (Some msg)) ∈ r.

Lemma erc20_msg_routed r srv : service_routes _Msg_serviceDesc srv ⊆ r -> msg_routed r srv.
Proof. intros Hr. unfold msg_routed. split_and?; apply Hr; cbn; in_list. Qed.

(** ** Queries get the answers of the server *)

Context {SL : SdkCodecLaws SC}.

Definition query_answered (cc : ClientConn S) (status : error -> error) (srv : QueryServer) : Prop :=
  answers status (queryClient_TokenPairs cc) (QueryServer_TokenPairs srv) QueryTokenPairsRequest_wf QueryTokenPairsRequest_enc QueryTokenPairsResponse_wf QueryTokenPairsResponse_enc ∧
  answers status (queryClient_TokenPair cc) (QueryServer_TokenPair srv) QueryTokenPairRequest_wf QueryTokenPairRequest_enc QueryTokenPairResponse_wf QueryTokenPairResponse_enc ∧
  answers status (queryClient_Params cc) (QueryServer_Params srv) QueryParamsRequest_wf QueryParamsRequest_enc QueryParamsResponse_wf QueryParamsResponse_enc.

Lemma erc20_query_answered cc status s srv :
  queries cc status s -> service_methods _Query_serviceDesc srv ⊆ s -> query_answered cc status srv.
Proof. intros Hc Hs. unfold query_answered. stubs_correct Hc Hs. Qed.

Definition gateway_answered (cc : ClientConn S) (status : error -> error) (srv : QueryServer) : Prop := ∀ req pathParams,
  gateway_agrees status (from_form QueryTokenPairsRequest_codec req)
    (request_Query_TokenPairs_0 (NewQueryClient cc) req pathParams) (local_request_Query_TokenPairs_0 srv req pathParams)
    QueryTokenPairsRequest_wf QueryTokenPairsRequest_enc QueryTokenPairsResponse_wf QueryTokenPairsResponse_enc ∧
  gateway_agrees status (from_path runtime_String "token" mkQueryTokenPairRequest pathParams)
    (request_Query_TokenPair_0 (NewQueryClient cc) req pathParams) (local_request_Query_TokenPair_0 srv req pathParams)
    QueryTokenPairRequest_wf QueryTokenPairRequest_enc QueryTokenPairResponse_wf QueryTokenPairResponse_enc ∧
  gateway_agrees status (Ok (zero QueryParamsRequest_codec))
    (request_Query_Params_0 (NewQueryClient cc) req pathParams) (local_request_Query_Params_0 srv req pathParams)
    QueryParamsRequest_wf QueryParamsRequest_enc QueryParamsResponse_wf QueryParamsResponse_enc.

Lemma erc20_gateway_answered cc status s srv :
  queries cc status s -> service_methods _Query_serviceDesc srv ⊆ s -> gateway_answered cc status srv.
Proof.
  intros Hc Hs req pathParams. pose proof (erc20_query_answered cc status s srv Hc Hs) as Ha. unfold query_answered in Ha.
  split_and?; apply gateway_answers; tauto.
Qed.

End service.
Arguments QueryServer : clear implicits.
Arguments QueryClient : clear implicits.
Arguments MsgServer : clear implicits.
Arguments MsgClient : clear implicits.
