(* ===== verification/GovshuttleService.v ===== *)
(** * The services of x/govshuttle

    The generated clients, servers and handlers of [query.pb.go] and [tx.pb.go], and the
    gateway of [query.pb.gw.go]. *)

From stdpp Require Import base gmap strings list.
From S2P Require Import Prelude Golang Sdk Govshuttle Wire WireFacts WireCodec WireSdk GovshuttleCodec Grpc.

#[local] Open Scope Z_scope.
#[local] Open Scope go_scope.

Section service.
Context {S : Type} {SC : SdkCodecs}.

(** ** Query *)

Record QueryServer := mkQueryServer {
  QueryServer_Params : option QueryParamsRequest -> M S QueryParamsResponse
}.
Record QueryClient := mkQueryClient {
  QueryClient_Params : QueryParamsRequest -> M S QueryParamsResponse
}.

Definition queryClient_Params (cc : ClientConn S) : QueryParamsRequest -> M S QueryParamsResponse :=
  Invoke cc QueryParamsRequest_codec QueryParamsResponse_codec "/canto.govshuttle.v1.Query/Params".
Definition NewQueryClient (cc : ClientConn S) : QueryClient :=
  mkQueryClient (queryClient_Params cc).

Definition UnimplementedQueryServer : QueryServer := mkQueryServer (fun _ => unimplemented).

Definition _Query_Params_Handler (srv : QueryServer) : (QueryParamsRequest -> outcome QueryParamsRequest) -> option Interceptor -> M S QueryParamsResponse :=
  unary "/canto.govshuttle.v1.Query/Params" (zero QueryParamsRequest_codec) (fun in_ => QueryServer_Params srv (Some in_)).
Definition _Query_serviceDesc : ServiceDesc S QueryServer :=
  mkServiceDesc _ "canto.govshuttle.v1.Query" [
    mkMethodDesc _ "Params" _ _ QueryParamsRequest_codec QueryParamsResponse_codec _Query_Params_Handler].
Definition RegisterQueryServer {R} {G : GrpcServer S R} (s : R) (srv : QueryServer) : R :=
  RegisterService s _Query_serviceDesc srv.

(** ** Msg *)

Record MsgServer := mkMsgServer {
  MsgServer_LendingMarketProposal : option MsgLendingMarketProposal -> M S MsgLendingMarketProposalResponse;
  MsgServer_TreasuryProposal : option MsgTreasuryProposal -> M S MsgTreasuryProposalResponse
}.
Record MsgClient := mkMsgClient {
  MsgClient_LendingMarketProposal : MsgLendingMarketProposal -> M S MsgLendingMarketProposalResponse;
  MsgClient_TreasuryProposal : MsgTreasuryProposal -> M S MsgTreasuryProposalResponse
}.

Definition msgClient_LendingMarketProposal (cc : ClientConn S) : MsgLendingMarketProposal -> M S MsgLendingMarketProposalResponse :=
  Invoke cc MsgLendingMarketProposal_codec MsgLendingMarketProposalResponse_codec "/canto.govshuttle.v1.Msg/LendingMarketProposal".
Definition msgClient_TreasuryProposal (cc : ClientConn S) : MsgTreasuryProposal -> M S MsgTreasuryProposalResponse :=
  Invoke cc MsgTreasuryProposal_codec MsgTreasuryProposalResponse_codec "/canto.govshuttle.v1.Msg/TreasuryProposal".
Definition NewMsgClient (cc : ClientConn S) : MsgClient :=
  mkMsgClient (msgClient_LendingMarketProposal cc) (msgClient_TreasuryProposal cc).

Definition UnimplementedMsgServer : MsgServer := mkMsgServer (fun _ => unimplemented) (fun _ => unimplemented).

Definition _Msg_LendingMarketProposal_Handler (srv : MsgServer) : (MsgLendingMarketProposal -> outcome MsgLendingMarketProposal) -> option Interceptor -> M S MsgLendingMarketProposalResponse :=
  unary "/canto.govshuttle.v1.Msg/LendingMarketProposal" (zero MsgLendingMarketProposal_codec) (fun in_ => MsgServer_LendingMarketProposal srv (Some in_)).
Definition _Msg_TreasuryProposal_Handler (srv : MsgServer) : (MsgTreasuryProposal -> outcome MsgTreasuryProposal) -> option Interceptor -> M S MsgTreasuryProposalResponse :=
  unary "/canto.govshuttle.v1.Msg/TreasuryProposal" (zero MsgTreasuryProposal_codec) (fun in_ => MsgServer_TreasuryProposal srv (Some in_)).
Definition _Msg_serviceDesc : ServiceDesc S MsgServer :=
  mkServiceDesc _ "canto.govshuttle.v1.Msg" [
    mkMethodDesc _ "LendingMarketProposal" _ _ MsgLendingMarketProposal_codec MsgLendingMarketProposalResponse_codec _Msg_LendingMarketProposal_Handler;
    mkMethodDesc _ "TreasuryProposal" _ _ MsgTreasuryProposal_codec MsgTreasuryProposalResponse_codec _Msg_TreasuryProposal_Handler].
Definition RegisterMsgServer {R} {G : GrpcServer S R} (s : R) (srv : MsgServer) : R :=
  RegisterService s _Msg_serviceDesc srv.

(** ** The gateway *)

Context `{Gateway}.

Definition request_Query_Params_0 (client : QueryClient) (req : HttpRequest) (pathParams : PathParams) : M S QueryParamsResponse :=
  let* protoReq := lift (Ok (zero QueryParamsRequest_codec)) in QueryClient_Params client protoReq.
Definition local_request_Query_Params_0 (server : QueryServer) (req : HttpRequest) (pathParams : PathParams) : M S QueryParamsResponse :=
  let* protoReq := lift (Ok (zero QueryParamsRequest_codec)) in QueryServer_Params server (Some protoReq).

(** ** Messages are routed to the server *)

Definition msg_routed (r : MsgRouter S) (srv : MsgServer) : Prop :=
  mkRoute _ _ (fun msg => MsgServer_LendingMarketProposal srv (Some msg)) ∈ r ∧
  mkRoute _ _ (fun msg => MsgServer_TreasuryProposal srv (Some msg)) ∈ r.

Lemma govshuttle_msg_routed r srv : service_routes _Msg_serviceDesc srv ⊆ r -> msg_routed r srv.
Proof. intros Hr. unfold msg_routed. split_and?; apply Hr; cbn; in_list. Qed.

(** ** Queries get the answers of the server *)

Context {SL : SdkCodecLaws SC}.

Definition query_answered (cc : ClientConn S) (status : error -> error) (srv : QueryServer) : Prop :=
  answers status (queryClient_Params cc) (QueryServer_Params srv) QueryParamsRequest_wf QueryParamsRequest_enc QueryParamsResponse_wf QueryParamsResponse_enc.

Lemma govshuttle_query_answered cc status s srv :
  queries cc status s -> service_methods _Query_serviceDesc srv ⊆ s -> query_answered cc status srv.
Proof. intros Hc Hs. unfold query_answered. stubs_correct Hc Hs. Qed.

Definition gateway_answered (cc : ClientConn S) (status : error -> error) (srv : QueryServer) : Prop := ∀ req pathParams,
  gateway_agrees status (Ok (zero QueryParamsRequest_codec))
    (request_Query_Params_0 (NewQueryClient cc) req pathParams) (local_request_Query_Params_0 srv req pathParams)
    QueryParamsRequest_wf QueryParamsRequest_enc QueryParamsResponse_wf QueryParamsResponse_enc.

Lemma govshuttle_gateway_answered cc status s srv :
  queries cc status s -> service_methods _Query_serviceDesc srv ⊆ s -> gateway_answered cc status srv.
Proof.
  intros Hc Hs req pathParams. pose proof (govshuttle_query_answered cc status s srv Hc Hs) as Ha. unfold query_answered in Ha.
  split_and?; apply gateway_answers; tauto.
Qed.

End service.
Arguments QueryServer : clear implicits.
Arguments QueryClient : clear implicits.
Arguments MsgServer : clear implicits.
Arguments MsgClient : clear implicits.
