(* ===== verification/InflationService.v ===== *)
(** * The services of x/inflation

    The generated clients, servers and handlers of [query.pb.go] and [tx.pb.go], and the
    gateway of [query.pb.gw.go]. *)

From stdpp Require Import base gmap strings list.
From S2P Require Import Prelude Golang Sdk Inflation Wire WireFacts WireCodec WireSdk InflationCodec Grpc.

#[local] Open Scope Z_scope.
#[local] Open Scope go_scope.

Section service.
Context {S : Type} {SC : SdkCodecs}.

(** ** Query *)

Record QueryServer := mkQueryServer {
  QueryServer_Period : option QueryPeriodRequest -> M S QueryPeriodResponse;
  QueryServer_EpochMintProvision : option QueryEpochMintProvisionRequest -> M S QueryEpochMintProvisionResponse;
  QueryServer_SkippedEpochs : option QuerySkippedEpochsRequest -> M S QuerySkippedEpochsResponse;
  QueryServer_CirculatingSupply : option QueryCirculatingSupplyRequest -> M S QueryCirculatingSupplyResponse;
  QueryServer_InflationRate : option QueryInflationRateRequest -> M S QueryInflationRateResponse;
  QueryServer_Params : option QueryParamsRequest -> M S QueryParamsResponse
}.
Record QueryClient := mkQueryClient {
  QueryClient_Period : QueryPeriodRequest -> M S QueryPeriodResponse;
  QueryClient_EpochMintProvision : QueryEpochMintProvisionRequest -> M S QueryEpochMintProvisionResponse;
  QueryClient_SkippedEpochs : QuerySkippedEpochsRequest -> M S QuerySkippedEpochsResponse;
  QueryClient_CirculatingSupply : QueryCirculatingSupplyRequest -> M S QueryCirculatingSupplyResponse;
  QueryClient_InflationRate : QueryInflationRateRequest -> M S QueryInflationRateResponse;
  QueryClient_Params : QueryParamsRequest -> M S QueryParamsResponse
}.

Definition queryClient_Period (cc : ClientConn S) : QueryPeriodRequest -> M S QueryPeriodResponse :=
  Invoke cc QueryPeriodRequest_codec QueryPeriodResponse_codec "/canto.inflation.v1.Query/Period".
Definition queryClient_EpochMintProvision (cc : ClientConn S) : QueryEpochMintProvisionRequest -> M S QueryEpochMintProvisionResponse :=
  Invoke cc QueryEpochMintProvisionRequest_codec QueryEpochMintProvisionResponse_codec "/canto.inflation.v1.Query/EpochMintProvision".
Definition queryClient_SkippedEpochs (cc : ClientConn S) : QuerySkippedEpochsRequest -> M S QuerySkippedEpochsResponse :=
  Invoke cc QuerySkippedEpochsRequest_codec QuerySkippedEpochsResponse_codec "/canto.inflation.v1.Query/SkippedEpochs".
Definition queryClient_CirculatingSupply (cc : ClientConn S) : QueryCirculatingSupplyRequest -> M S QueryCirculatingSupplyResponse :=
  Invoke cc QueryCirculatingSupplyRequest_codec QueryCirculatingSupplyResponse_codec "/canto.inflation.v1.Query/CirculatingSupply".
Definition queryClient_InflationRate (cc : ClientConn S) : QueryInflationRateRequest -> M S QueryInflationRateResponse :=
  Invoke cc QueryInflationRateRequest_codec QueryInflationRateResponse_codec "/canto.inflation.v1.Query/InflationRate".
Definition queryClient_Params (cc : ClientConn S) : QueryParamsRequest -> M S QueryParamsResponse :=
  Invoke cc QueryParamsRequest_codec QueryParamsResponse_codec "/canto.inflation.v1.Query/Params".
Definition NewQueryClient (cc : ClientConn S) : QueryClient :=
  mkQueryClient (queryClient_Period cc) (queryClient_EpochMintProvision cc) (queryClient_SkippedEpochs cc) (queryClient_CirculatingSupply cc) (queryClient_InflationRate cc) (queryClient_Params cc).

Definition UnimplementedQueryServer : QueryServer := mkQueryServer (fun _ => unimplemented) (fun _ => unimplemented) (fun _ => unimplemented) (fun _ => unimplemented) (fun _ => unimplemented) (fun _ => unimplemented).

Definition _Query_Period_Handler (srv : QueryServer) : (QueryPeriodRequest -> outcome QueryPeriodRequest) -> option Interceptor -> M S QueryPeriodResponse :=
  unary "/canto.inflation.v1.Query/Period" (zero QueryPeriodRequest_codec) (fun in_ => QueryServer_Period srv (Some in_)).
Definition _Query_EpochMintProvision_Handler (srv : QueryServer) : (QueryEpochMintProvisionRequest -> outcome QueryEpochMintProvisionRequest) -> option Interceptor -> M S QueryEpochMintProvisionResponse :=
  unary "/canto.inflation.v1.Query/EpochMintProvision" (zero QueryEpochMintProvisionRequest_codec) (fun in_ => QueryServer_EpochMintProvision srv (Some in_)).
Definition _Query_SkippedEpochs_Handler (srv : QueryServer) : (QuerySkippedEpochsRequest -> outcome QuerySkippedEpochsRequest) -> option Interceptor -> M S QuerySkippedEpochsResponse :=
  unary "/canto.inflation.v1.Query/SkippedEpochs" (zero QuerySkippedEpochsRequest_codec) (fun in_ => QueryServer_SkippedEpochs srv (Some in_)).
Definition _Query_CirculatingSupply_Handler (srv : QueryServer) : (QueryCirculatingSupplyRequest -> outcome QueryCirculatingSupplyRequest) -> option Interceptor -> M S QueryCirculatingSupplyResponse :=
  unary "/canto.inflation.v1.Query/CirculatingSupply" (zero QueryCirculatingSupplyRequest_codec) (fun in_ => QueryServer_CirculatingSupply srv (Some in_)).
Definition _Query_InflationRate_Handler (srv : QueryServer) : (QueryInflationRateRequest -> outcome QueryInflationRateRequest) -> option Interceptor -> M S QueryInflationRateResponse :=
  unary "/canto.inflation.v1.Query/InflationRate" (zero QueryInflationRateRequest_codec) (fun in_ => QueryServer_InflationRate srv (Some in_)).
Definition _Query_Params_Handler (srv : QueryServer) : (QueryParamsRequest -> outcome QueryParamsRequest) -> option Interceptor -> M S QueryParamsResponse :=
  unary "/canto.inflation.v1.Query/Params" (zero QueryParamsRequest_codec) (fun in_ => QueryServer_Params srv (Some in_)).
Definition _Query_serviceDesc : ServiceDesc S QueryServer :=
  mkServiceDesc _ "canto.inflation.v1.Query" [
    mkMethodDesc _ "Period" _ _ QueryPeriodRequest_codec QueryPeriodResponse_codec _Query_Period_Handler;
    mkMethodDesc _ "EpochMintProvision" _ _ QueryEpochMintProvisionRequest_codec QueryEpochMintProvisionResponse_codec _Query_EpochMintProvision_Handler;
    mkMethodDesc _ "SkippedEpochs" _ _ QuerySkippedEpochsRequest_codec QuerySkippedEpochsResponse_codec _Query_SkippedEpochs_Handler;
    mkMethodDesc _ "CirculatingSupply" _ _ QueryCirculatingSupplyRequest_codec QueryCirculatingSupplyResponse_codec _Query_CirculatingSupply_Handler;
    mkMethodDesc _ "InflationRate" _ _ QueryInflationRateRequest_codec QueryInflationRateResponse_codec _Query_InflationRate_Handler;
    mkMethodDesc _ "Params" _ _ QueryParamsRequest_codec QueryParamsResponse_codec _Query_Params_Handler].
Definition RegisterQueryServer {R} {G : GrpcServer S R} (s : R) (srv : QueryServer) : R :=
  RegisterService s _Query_serviceDesc srv.

(** ** Msg *)

Record MsgServer := mkMsgServer {
  MsgServer_UpdateParams : option MsgUpdateParams -> M S MsgUpdateParamsResponse
}.
Record MsgClient := mkMsgClient {
  MsgClient_UpdateParams : MsgUpdateParams -> M S MsgUpdateParamsResponse
}.

Definition msgClient_UpdateParams (cc : ClientConn S) : MsgUpdateParams -> M S MsgUpdateParamsResponse :=
  Invoke cc MsgUpdateParams_codec MsgUpdateParamsResponse_codec "/canto.inflation.v1.Msg/UpdateParams".
Definition NewMsgClient (cc : ClientConn S) : MsgClient :=
  mkMsgClient (msgClient_UpdateParams cc).

Definition UnimplementedMsgServer : MsgServer := mkMsgServer (fun _ => unimplemented).

Definition _Msg_UpdateParams_Handler (srv : MsgServer) : (MsgUpdateParams -> outcome MsgUpdateParams) -> option Interceptor -> M S MsgUpdateParamsResponse :=
  unary "/canto.inflation.v1.Msg/UpdateParams" (zero MsgUpdateParams_codec) (fun in_ => MsgServer_UpdateParams srv (Some in_)).
Definition _Msg_serviceDesc : ServiceDesc S MsgServer :=
  mkServiceDesc _ "canto.inflation.v1.Msg" [
    mkMethodDesc _ "UpdateParams" _ _ MsgUpdateParams_codec MsgUpdateParamsResponse_codec _Msg_UpdateParams_Handler].
Definition RegisterMsgServer {R} {G : GrpcServer S R} (s : R) (srv : MsgServer) : R :=
  RegisterService s _Msg_serviceDesc srv.

(** ** The gateway *)

Context `{Gateway}.

Definition request_Query_Period_0 (client : QueryClient) (req : HttpRequest) (pathParams : PathParams) : M S QueryPeriodResponse :=
  let* protoReq := lift (Ok (zero QueryPeriodRequest_codec)) in QueryClient_Period client protoReq.
Definition local_request_Query_Period_0 (server : QueryServer) (req : HttpRequest) (pathParams : PathParams) : M S QueryPeriodResponse :=
  let* protoReq := lift (Ok (zero QueryPeriodRequest_codec)) in QueryServer_Period server (Some protoReq).
Definition request_Query_EpochMintProvision_0 (client : QueryClient) (req : HttpRequest) (pathParams : PathParams) : M S QueryEpochMintProvisionResponse :=
  let* protoReq := lift (Ok (zero QueryEpochMintProvisionRequest_codec)) in QueryClient_EpochMintProvision client protoReq.
Definition local_request_Query_EpochMintProvision_0 (server : QueryServer) (req : HttpRequest) (pathParams : PathParams) : M S QueryEpochMintProvisionResponse :=
  let* protoReq := lift (Ok (zero QueryEpochMintProvisionRequest_codec)) in QueryServer_EpochMintProvision server (Some protoReq).
Definition request_Query_SkippedEpochs_0 (client : QueryClient) (req : HttpRequest) (pathParams : PathParams) : M S QuerySkippedEpochsResponse :=
  let* protoReq := lift (Ok (zero QuerySkippedEpochsRequest_codec)) in QueryClient_SkippedEpochs client protoReq.
Definition local_request_Query_SkippedEpochs_0 (server : QueryServer) (req : HttpRequest) (pathParams : PathParams) : M S QuerySkippedEpochsResponse :=
  let* protoReq := lift (Ok (zero QuerySkippedEpochsRequest_codec)) in QueryServer_SkippedEpochs server (Some protoReq).
Definition request_Query_CirculatingSupply_0 (client : QueryClient) (req : HttpRequest) (pathParams : PathParams) : M S QueryCirculatingSupplyResponse :=
  let* protoReq := lift (Ok (zero QueryCirculatingSupplyRequest_codec)) in QueryClient_CirculatingSupply client protoReq.
Definition local_request_Query_CirculatingSupply_0 (server : QueryServer) (req : HttpRequest) (pathParams : PathParams) : M S QueryCirculatingSupplyResponse :=
  let* protoReq := lift (Ok (zero QueryCirculatingSupplyRequest_codec)) in QueryServer_CirculatingSupply server (Some protoReq).
Definition request_Query_InflationRate_0 (client : QueryClient) (req : HttpRequest) (pathParams : PathParams) : M S QueryInflationRateResponse :=
  let* protoReq := lift (Ok (zero QueryInflationRateRequest_codec)) in QueryClient_InflationRate client protoReq.
Definition local_request_Query_InflationRate_0 (server : QueryServer) (req : HttpRequest) (pathParams : PathParams) : M S QueryInflationRateResponse :=
  let* protoReq := lift (Ok (zero QueryInflationRateRequest_codec)) in QueryServer_InflationRate server (Some protoReq).
Definition request_Query_Params_0 (client : QueryClient) (req : HttpRequest) (pathParams : PathParams) : M S QueryParamsResponse :=
  let* protoReq := lift (Ok (zero QueryParamsRequest_codec)) in QueryClient_Params client protoReq.
Definition local_request_Query_Params_0 (server : QueryServer) (req : HttpRequest) (pathParams : PathParams) : M S QueryParamsResponse :=
  let* protoReq := lift (Ok (zero QueryParamsRequest_codec)) in QueryServer_Params server (Some protoReq).

(** ** Messages are routed to the server *)

Definition msg_routed (r : MsgRouter S) (srv : MsgServer) : Prop :=
  mkRoute _ _ (fun msg => MsgServer_UpdateParams srv (Some msg)) ∈ r.

Lemma inflation_msg_routed r srv : service_routes _Msg_serviceDesc srv ⊆ r -> msg_routed r srv.
Proof. intros Hr. unfold msg_routed. split_and?; apply Hr; cbn; in_list. Qed.

(** ** Queries get the answers of the server *)

Context {SL : SdkCodecLaws SC}.

Definition query_answered (cc : ClientConn S) (status : error -> error) (srv : QueryServer) : Prop :=
  answers status (queryClient_Period cc) (QueryServer_Period srv) QueryPeriodRequest_wf QueryPeriodRequest_enc QueryPeriodResponse_wf QueryPeriodResponse_enc ∧
  answers status (queryClient_EpochMintProvision cc) (QueryServer_EpochMintProvision srv) QueryEpochMintProvisionRequest_wf QueryEpochMintProvisionRequest_enc QueryEpochMintProvisionResponse_wf QueryEpochMintProvisionResponse_enc ∧
  answers status (queryClient_SkippedEpochs cc) (QueryServer_SkippedEpochs srv) QuerySkippedEpochsRequest_wf QuerySkippedEpochsRequest_enc QuerySkippedEpochsResponse_wf QuerySkippedEpochsResponse_enc ∧
  answers status (queryClient_CirculatingSupply cc) (QueryServer_CirculatingSupply srv) QueryCirculatingSupplyRequest_wf QueryCirculatingSupplyRequest_enc QueryCirculatingSupplyResponse_wf QueryCirculatingSupplyResponse_enc ∧
  answers status (queryClient_InflationRate cc) (QueryServer_InflationRate srv) QueryInflationRateRequest_wf QueryInflationRateRequest_enc QueryInflationRateResponse_wf QueryInflationRateResponse_enc ∧
  answers status (queryClient_Params cc) (QueryServer_Params srv) QueryParamsRequest_wf QueryParamsRequest_enc QueryParamsResponse_wf QueryParamsResponse_enc.

Lemma inflation_query_answered cc status s srv :
  queries cc status s -> service_methods _Query_serviceDesc srv ⊆ s -> query_answered cc status srv.
Proof. intros Hc Hs. unfold query_answered. stubs_correct Hc Hs. Qed.

Definition gateway_answered (cc : ClientConn S) (status : error -> error) (srv : QueryServer) : Prop := ∀ req pathParams,
  gateway_agrees status (Ok (zero QueryPeriodRequest_codec))
    (request_Query_Period_0 (NewQueryClient cc) req pathParams) (local_request_Query_Period_0 srv req pathParams)
    QueryPeriodRequest_wf QueryPeriodRequest_enc QueryPeriodResponse_wf QueryPeriodResponse_enc ∧
  gateway_agrees status (Ok (zero QueryEpochMintProvisionRequest_codec))
    (request_Query_EpochMintProvision_0 (NewQueryClient cc) req pathParams) (local_request_Query_EpochMintProvision_0 srv req pathParams)
    QueryEpochMintProvisionRequest_wf QueryEpochMintProvisionRequest_enc QueryEpochMintProvisionResponse_wf QueryEpochMintProvisionResponse_enc ∧
  gateway_agrees status (Ok (zero QuerySkippedEpochsRequest_codec))
    (request_Query_SkippedEpochs_0 (NewQueryClient cc) req pathParams) (local_request_Query_SkippedEpochs_0 srv req pathParams)
    QuerySkippedEpochsRequest_wf QuerySkippedEpochsRequest_enc QuerySkippedEpochsResponse_wf QuerySkippedEpochsResponse_enc ∧
  gateway_agrees status (Ok (zero QueryCirculatingSupplyRequest_codec))
    (request_Query_CirculatingSupply_0 (NewQueryClient cc) req pathParams) (local_request_Query_CirculatingSupply_0 srv req pathParams)
    QueryCirculatingSupplyRequest_wf QueryCirculatingSupplyRequest_enc QueryCirculatingSupplyResponse_wf QueryCirculatingSupplyResponse_enc ∧
  gateway_agrees status (Ok (zero QueryInflationRateRequest_codec))
    (request_Query_InflationRate_0 (NewQueryClient cc) req pathParams) (local_request_Query_InflationRate_0 srv req pathParams)
    QueryInflationRateRequest_wf QueryInflationRateRequest_enc QueryInflationRateResponse_wf QueryInflationRateResponse_enc ∧
  gateway_agrees status (Ok (zero QueryParamsRequest_codec))
    (request_Query_Params_0 (NewQueryClient cc) req pathParams) (local_request_Query_Params_0 srv req pathParams)
    QueryParamsRequest_wf QueryParamsRequest_enc QueryParamsResponse_wf QueryParamsResponse_enc.

Lemma inflation_gateway_answered cc status s srv :
  queries cc status s -> service_methods _Query_serviceDesc srv ⊆ s -> gateway_answered cc status srv.
Proof.
  intros Hc Hs req pathParams. pose proof (inflation_query_answered cc status s srv Hc Hs) as Ha. unfold query_answered in Ha.
  split_and?; apply gateway_answers; tauto.
Qed.

End service.
Arguments QueryServer : clear implicits.
Arguments QueryClient : clear implicits.
Arguments MsgServer : clear implicits.
Arguments MsgClient : clear implicits.
