(* ===== verification/ByteStore.v ===== *)
(** * The stores hold bytes

    The models of the keepers keep records in their stores.  The code keeps
    their encodings: a setter stores [k.cdc.MustMarshal(&v)] and a getter
    decodes what it finds with [k.cdc.MustUnmarshal].  This file has the
    setters and getters of token pairs, pools, epochs and CSRs on byte stores,
    and proves that the models of the keepers are refined by them: as long as
    the byte store holds the encodings of the typed one, both give the same
    answers, and every write keeps them in step. *)

From Stdlib Require Import Ascii.
From stdpp Require Import base gmap strings list sorting.
From S2P Require Import Prelude Golang Sdk Ethereum CoinswapTypes Coinswap Epochs Erc20Types Erc20 Csr.
From S2P Require Import Wire WireFacts WireCodec WireSdk CoinswapCodec EpochsCodec Erc20Codec CsrCodec.

#[local] Open Scope Z_scope.
#[local] Open Scope go_scope.

(** A store of a module, below its prefix. *)
Abbreviation KVStore := (gmap string bytes).

(** ** Reading and writing values *)

Section values.
Context {A : Type} (c : Codec A).

(** [cdc.MustMarshal(&v)] and [cdc.MustUnmarshal(bz, &v)] panic on an error. *)
Definition MustMarshal (v : A) : outcome bytes :=
  match Marshal c v with Ok bz => Ok bz | _ => Panic end.
Definition MustUnmarshal (bz : bytes) : outcome A :=
  match Unmarshal c bz (zero c) with Ok v => Ok v | _ => Panic end.

(** [bz := store.Get(key); if len(bz) == 0 { return v, false }; cdc.MustUnmarshal(bz, &v)] *)
Definition get_value (key : string) (s : KVStore) : outcome (option A) :=
  match s !! key with
  | None | Some [] => Ok None
  | Some bz => let? v := MustUnmarshal bz in Ok (Some v)
  end.
(** [store.Set(key, cdc.MustMarshal(&v))] *)
Definition set_value (key : string) (v : A) (s : KVStore) : outcome KVStore :=
  let? bz := MustMarshal v in Ok (<[key := bz]> s).

(** [for ; iterator.Valid(); iterator.Next() { cdc.MustUnmarshal(iterator.Value(), &v); l = append(l, v) }] *)
Fixpoint decode_values (l : list bytes) : outcome (list A) :=
  match l with
  | [] => Ok []
  | bz :: l' => let? v := MustUnmarshal bz in let? vs := decode_values l' in Ok (v :: vs)
  end.
Definition all_values (s : KVStore) : outcome (list A) := decode_values (kv_iterate s).*2.
End values.

(** ** The keepers on byte stores *)

Section keepers.
Context {SC : SdkCodecs} `{Hashes}.

(** x/erc20 *)
Definition kv_GetTokenPair (id : option string) (s : KVStore) : outcome (option TokenPair) :=
  match id with None => Ok None | Some id => get_value TokenPair_codec id s end.
Definition kv_SetTokenPair (tokenPair : TokenPair) (s : KVStore) : outcome KVStore :=
  set_value TokenPair_codec (GetID tokenPair) tokenPair s.
Definition kv_GetTokenPairs (s : KVStore) : outcome (list TokenPair) := all_values TokenPair_codec s.
Definition kv_deleteTokenPair (id : string) (s : KVStore) : KVStore := delete id s.

(** x/epochs *)
Definition kv_GetEpochInfo (identifier : string) (s : KVStore) : outcome (option EpochInfo) :=
  get_value EpochInfo_codec identifier s.
Definition kv_SetEpochInfo (epoch : EpochInfo) (s : KVStore) : outcome KVStore :=
  set_value EpochInfo_codec (Identifier epoch) epoch s.
Definition kv_AllEpochInfos (s : KVStore) : outcome (list EpochInfo) := all_values EpochInfo_codec s.
Definition kv_DeleteEpochInfo (identifier : string) (s : KVStore) : KVStore := delete identifier s.

(** x/coinswap: only a nil slice is a missing pool *)
Definition kv_GetPool (poolId : string) (s : KVStore) : outcome (option Pool) :=
  match s !! GetPoolKey poolId with
  | None => Ok None
  | Some bz => let? pool := MustUnmarshal Pool_codec bz in Ok (Some pool)
  end.
Definition kv_GetAllPools (s : KVStore) : outcome (list Pool) := all_values Pool_codec s.
(** the first of the two writes of [setPool] *)
Definition kv_setPool (pool : Pool) (s : KVStore) : outcome KVStore :=
  set_value Pool_codec (GetPoolKey (Pool_Id pool)) pool s.

(** x/csr *)
Definition kv_GetAllCSRs (s : KVStore) : outcome (list CSR) := all_values CSR_codec s.

End keepers.

(** ** Encoded stores *)

#[local] Instance entry_le_trans {V} : Transitive (@entry_le V).
Proof. intros a b c. unfold entry_le. apply transitivity. Qed.

(** Iterating over an encoded store gives the encodings, in the same order. *)
Lemma kv_iterate_fmap {V V'} (f : V -> V') (m : gmap string V) :
  kv_iterate (f <$> m) = prod_map id f <$> kv_iterate m.
Proof.
  assert (∀ k v, (k, v) ∈ prod_map id f <$> kv_iterate m -> (f <$> m) !! k = Some v) as Hmap.
  { intros k v ([k' v'] & [= -> ->] & Hl%elem_of_kv_iterate)%list_elem_of_fmap. by rewrite lookup_fmap, Hl. }
  apply (Sorted_unique_strong entry_le).
  - intros [k1 v1] [k2 v2] H1%elem_of_kv_iterate H2%Hmap ? ?.
    assert (k1 = k2) as -> by by apply (anti_symm String.le). by simplify_eq.
  - apply kv_iterate_sorted.
  - clear Hmap. generalize (kv_iterate_sorted m). generalize (kv_iterate m) as l. intros l Hs.
    induction Hs as [|[k v] l Hs IH Hd]; cbn; [constructor|]. constructor; [done|].
    destruct Hd as [|[k' v'] l Hle]; constructor. done.
  - rewrite kv_iterate_Permutation, map_to_list_fmap. by rewrite kv_iterate_Permutation.
Qed.

Section refines.
Context {A : Type} (c : Codec A) (wf : A -> Prop) (enc : A -> bytes) (Hc : CodecLaws c wf enc).

(** What can be stored: the encoding is not empty and fits in memory. *)
Definition storable (v : A) : Prop := wf v ∧ enc v ≠ [] ∧ blen (enc v) < 2 ^ 63.

(** The byte store holds the encodings of the typed one. *)
Definition holds (s : KVStore) (m : gmap string A) : Prop :=
  s = enc <$> m ∧ map_Forall (fun _ => storable) m.

Lemma MustUnmarshal_enc v : storable v -> MustUnmarshal c (enc v) = Ok v.
Proof using Hc. intros (? & ? & ?). unfold MustUnmarshal. by rewrite (Unmarshal_law _ _ _ Hc). Qed.

Lemma get_value_holds key s m : holds s m -> get_value c key s = Ok (m !! key).
Proof using Hc.
  intros [-> Hf]. unfold get_value. rewrite lookup_fmap. destruct (m !! key) as [v|] eqn:E; cbn; [|done].
  pose proof (Hf _ _ E) as Hv. destruct (enc v) as [|b e] eqn:Ee; [by destruct Hv as (_ & ? & _)|].
  rewrite <-Ee, MustUnmarshal_enc by done. done.
Qed.

Lemma set_value_holds key v s m :
  holds s m -> storable v -> ∃ s', set_value c key v s = Ok s' ∧ holds s' (<[key := v]> m).
Proof using Hc.
  intros [-> Hf] Hv. exists (<[key := enc v]> (enc <$> m)). split.
  - unfold set_value, MustMarshal. destruct Hv as (? & ? & ?). by rewrite (Marshal_law _ _ _ _ Hc).
  - split; [by rewrite fmap_insert|]. by apply map_Forall_insert_2.
Qed.

Lemma delete_holds key s m : holds s m -> holds (delete key s) (delete key m).
Proof. intros [-> Hf]. split; [by rewrite fmap_delete|by apply map_Forall_delete]. Qed.

Lemma decode_values_enc l : Forall storable l -> decode_values c (enc <$> l) = Ok l.
Proof using Hc.
  induction 1 as [|v l Hv Hl IH]; cbn; [done|]. by rewrite MustUnmarshal_enc, IH.
Qed.

Lemma all_values_holds s m : holds s m -> all_values c s = Ok (kv_iterate m).*2.
Proof using Hc.
  intros [-> Hf]. unfold all_values. rewrite kv_iterate_fmap, <-list_fmap_compose.
  change (snd ∘ prod_map id enc) with (enc ∘ snd (A:=string) (B:=A)). rewrite list_fmap_compose. apply decode_values_enc.
  apply Forall_forall. intros v ([k v'] & -> & Hl%elem_of_kv_iterate)%list_elem_of_fmap. by apply (Hf k).
Qed.
End refines.

(** Which values have an empty encoding. *)
Lemma epoch_storable `{SdkCodecLaws} ei :
  EpochInfo_wf ei -> blen (EpochInfo_enc ei) < 2 ^ 63 -> storable EpochInfo_wf EpochInfo_enc ei.
Proof.
  intros Hw Hl. split_and!; [done| |done]. unfold EpochInfo_enc. intros [_ E]%app_eq_nil. discriminate E.
Qed.

Lemma enc_string_nil tag s : enc_string tag s = [] -> s = "".
Proof. unfold enc_string. by destruct (String.eqb_spec s ""). Qed.

Lemma pair_storable tp :
  Erc20Address tp ≠ "" -> blen (TokenPair_enc tp) < 2 ^ 63 -> storable TokenPair_wf TokenPair_enc tp.
Proof.
  intros Hne Hl. split_and!; [done| |done]. unfold TokenPair_enc. intros [E%enc_string_nil _]%app_eq_nil. done.
Qed.

(** ** The keepers refine *)

Section theorems.
Context {SC : SdkCodecs} {SL : SdkCodecLaws SC}.

(** The byte store of x/epochs refines the typed one of the model.  When it
    holds the encodings of the epochs, the code reads the epochs of the model,
    one by one and all of them in the order of the iterator, without a panic;
    storing and removing an epoch keeps it so. *)
Theorem epochs_store_refines_bytes {W} (c : Chain W Epochs.Store) (s : KVStore) :
  holds EpochInfo_wf EpochInfo_enc s (store c) ->
  (∀ id, kv_GetEpochInfo id s = (GetEpochInfo id c).1) ∧
  kv_AllEpochInfos s = (AllEpochInfos c).1 ∧
  (∀ ei, EpochInfo_wf ei -> blen (EpochInfo_enc ei) < 2 ^ 63 ->
     ∃ s', kv_SetEpochInfo ei s = Ok s' ∧
           holds EpochInfo_wf EpochInfo_enc s' (store (SetEpochInfo ei c).2)) ∧
  (∀ id, holds EpochInfo_wf EpochInfo_enc (kv_DeleteEpochInfo id s) (store (DeleteEpochInfo id c).2)).
Proof.
  intros Hs. pose proof epochs_EpochInfo_laws as Hc. split_and!.
  - intros id. by apply (get_value_holds _ _ _ Hc).
  - by apply (all_values_holds _ _ _ Hc).
  - intros ei Hw Hl. by apply (set_value_holds _ _ _ Hc), epoch_storable.
  - intros id. by apply delete_holds.
Qed.

(** C37: the byte store of token pairs of x/erc20 refines the typed one of the
    model.  When it holds the encodings of the pairs, the code reads the pairs of
    the model, by identifier and all of them in the order of the iterator,
    without a panic; storing a pair with a contract address and removing a pair
    keep it so. *)
Theorem token_pairs_store_refines_bytes {W} `{HA : Hashes} (c : Chain W Erc20.Store) (s : KVStore) :
  holds TokenPair_wf TokenPair_enc s (st_pairs (store c)) ->
  (∀ id, kv_GetTokenPair id s = (GetTokenPair id c).1) ∧
  kv_GetTokenPairs s = (GetTokenPairs c).1 ∧
  (∀ tp, Erc20Address tp ≠ "" -> blen (TokenPair_enc tp) < 2 ^ 63 ->
     ∃ s', kv_SetTokenPair tp s = Ok s' ∧
           holds TokenPair_wf TokenPair_enc s' (st_pairs (store (SetTokenPair tp c).2))) ∧
  (∀ id, holds TokenPair_wf TokenPair_enc (kv_deleteTokenPair id s) (st_pairs (store (deleteTokenPair id c).2))).
Proof.
  intros Hs. pose proof erc20_TokenPair_laws as Hc. split_and!.
  - intros [id|]; [|done]. by apply (get_value_holds _ _ _ Hc).
  - by apply (all_values_holds _ _ _ Hc).
  - intros tp Hne Hl. by apply (set_value_holds _ _ _ Hc), pair_storable.
  - intros id. by apply delete_holds.
Qed.

(** The same for the pools of x/coinswap and for reading the CSRs of x/csr. *)
Lemma pools_store_refines_bytes {W} (c : Chain W Coinswap.Store) (s : KVStore) :
  holds Pool_wf Pool_enc s (st_pools (store c)) ->
  (∀ id, kv_GetPool id s = (GetPool id c).1) ∧
  kv_GetAllPools s = (GetAllPools c).1 ∧
  (∀ pool, storable Pool_wf Pool_enc pool ->
     ∃ s', kv_setPool pool s = Ok s' ∧ holds Pool_wf Pool_enc s' (st_pools (store (setPool pool c).2))).
Proof.
  intros Hs. pose proof coinswap_Pool_laws as Hc. split_and!.
  - intros id. unfold kv_GetPool. destruct Hs as [-> Hf]. rewrite lookup_fmap. cbn.
    destruct (st_pools (store c) !! GetPoolKey id) as [pool|] eqn:E; cbn; [|done].
    by rewrite (MustUnmarshal_enc _ _ _ Hc) by by apply (Hf _ _ E).
  - by apply (all_values_holds _ _ _ Hc).
  - intros pool Hp. by apply (set_value_holds _ _ _ Hc).
Qed.

Lemma csrs_store_refines_bytes {W} (c : Chain W Csr.Store) (s : KVStore) :
  holds CSR_wf CSR_enc s (st_csrs (store c)) -> kv_GetAllCSRs s = (GetAllCSRs c).1.
Proof. intros Hs. by apply (all_values_holds _ _ _ csr_CSR_laws). Qed.

End theorems.

(** ** Witnesses *)

Definition ex_epoch : EpochInfo := mkEpochInfo "day" 0 86400 3 172800 true 12.
Definition ex_epochs : Chain unit Epochs.Store := mkChain tt {["day" := ex_epoch]} [].
Definition ex_epoch_bytes : KVStore := {["day" := EpochInfo_enc ex_epoch]}.

Lemma epochs_store_refines_bytes_witness :
  kv_GetEpochInfo "day" ex_epoch_bytes = Ok (Some ex_epoch) ∧ kv_AllEpochInfos ex_epoch_bytes = Ok [ex_epoch].
Proof.
  destruct (epochs_store_refines_bytes (SL := ref_codec_laws) ex_epochs ex_epoch_bytes) as (Hget & Hall & _).
  - split; [vm_compute; reflexivity|]. apply map_Forall_singleton.
    split; [vm_compute; repeat split; discriminate|]. split; [vm_compute; discriminate|vm_compute; reflexivity].
  - rewrite Hget, Hall. split; vm_compute; reflexivity.
Defined.

Definition ex_pair : TokenPair := mkTokenPair "0xc0ffee" "acoin" true OWNER_MODULE.
#[local] Instance ex_hashes : Hashes := { AddressHash := id; tmhash_Sum := id }.
Definition ex_pairs : Chain unit Erc20.Store := mkChain tt (Erc20.mkStore None {[GetID ex_pair := ex_pair]} ∅ ∅) [].
Definition ex_pair_bytes : KVStore := {[GetID ex_pair := TokenPair_enc ex_pair]}.

Lemma token_pairs_store_refines_bytes_witness :
  kv_GetTokenPair (Some (GetID ex_pair)) ex_pair_bytes = Ok (Some ex_pair) ∧ kv_GetTokenPairs ex_pair_bytes = Ok [ex_pair].
Proof.
  destruct (token_pairs_store_refines_bytes ex_pairs ex_pair_bytes) as (Hget & Hall & _).
  - split; [vm_compute; reflexivity|]. apply map_Forall_singleton.
    split; [exact I|]. split; [vm_compute; discriminate|vm_compute; reflexivity].
  - rewrite Hget, Hall. split; vm_compute; reflexivity.
Defined.
