(* ===== verification/Codecs.v ===== *)
(** * What is stored and sent is read back

    The theorems about the encodings of all modules: round trips of the stored
    values and of the messages of transactions, decoding of arbitrary input,
    and unknown fields. *)

From Stdlib Require Import Ascii.
From stdpp Require Import base strings list.
From S2P Require Import Prelude Golang Sdk Wire WireFacts WireCodec WireSdk.
From S2P Require Import CoinswapTypes Erc20Types Csr Epochs Inflation Onboarding Govshuttle.
From S2P Require Import CoinswapCodec Erc20Codec CsrCodec EpochsCodec InflationCodec OnboardingCodec GovshuttleCodec.

#[local] Open Scope Z_scope.
#[local] Open Scope go_scope.

(** [Marshal] succeeds on the well-formed values whose encoding fits in memory,
    with as many bytes as [Size] says, and [Unmarshal] gives the value back. *)
Definition round_trips {A} (c : Codec A) (wf : A -> Prop) (enc : A -> bytes) : Prop :=
  ∀ m, wf m -> blen (enc m) < 2 ^ 63 ->
  ∃ dAtA, Marshal c m = Ok dAtA ∧ blen dAtA = Size c m ∧ Unmarshal c dAtA (zero c) = Ok m.

(** [Unmarshal] ends in a well-formed value or in an error on every input. *)
Definition decodes_safely {A} (c : Codec A) (wf : A -> Prop) : Prop :=
  ∀ dAtA, blen dAtA < 2 ^ 63 ->
  Unmarshal c dAtA (zero c) ≠ Panic ∧ ∀ m, Unmarshal c dAtA (zero c) = Ok m -> wf m.

Lemma laws_round_trips {A} (c : Codec A) wf enc : CodecLaws c wf enc -> round_trips c wf enc.
Proof.
  intros Hc m Hm Hl. exists (enc m). split_and!; [by eapply Marshal_law|symmetry; by apply (Size_law _ _ _ Hc)|].
  by apply (Unmarshal_law _ _ _ Hc).
Qed.

Lemma laws_decode_safely {A} (c : Codec A) wf enc : CodecLaws c wf enc -> decodes_safely c wf.
Proof.
  intros Hc dAtA Hl. pose proof (Unmarshal_safe _ _ _ Hc dAtA (zero c) Hl (zero_wf _ _ _ Hc)) as Hs.
  split; [by eapply safe_not_panic|]. intros m E. by eapply safe_Ok.
Qed.

Ltac each_codec := split_and!; first [eapply laws_round_trips; wire_law | eapply laws_decode_safely; wire_law].

(** A variable-length integer takes between one and ten bytes, as many as
    [sov] says; [encodeVarint] writes exactly these bytes before the offset it
    is given, and reading them returns the integer and the offset after them. *)
Theorem varint_is_read_back v before gap after :
  is_uint64 v -> length gap = length (uvarint v) ->
  1 <= sov v <= 10 ∧ blen (uvarint v) = sov v ∧
  encodeVarint (before ++ gap ++ after) (blen (before ++ gap)) v = Ok (before ++ uvarint v ++ after, blen before) ∧
  decode_varint wrap64 (before ++ uvarint v ++ after) (blen before) = Ok (v, blen before + sov v).
Proof.
  intros Hv Hg. rewrite <-(uvarint_sov v) by done. split_and!.
  - pose proof (varint_nonempty v). unfold blen. lia.
  - pose proof (varint_length 10 v). unfold blen, uvarint. lia.
  - done.
  - by apply encodeVarint_spec.
  - by apply decode_varint_spec.
Qed.

Section theorems.
Context {SC : SdkCodecs} {SL : SdkCodecLaws SC}.

(** C15: every record the modules keep in their stores is encoded without an
    error or a panic, in as many bytes as computed beforehand, and decoding the
    bytes gives the record back. *)
Theorem stored_values_round_trip :
  round_trips Pool_codec Pool_wf Pool_enc ∧
  round_trips CoinswapCodec.Params_codec CoinswapCodec.Params_wf CoinswapCodec.Params_enc ∧
  round_trips TokenPair_codec TokenPair_wf TokenPair_enc ∧
  round_trips Erc20Codec.Params_codec Erc20Codec.Params_wf Erc20Codec.Params_enc ∧
  round_trips CSR_codec CSR_wf CSR_enc ∧
  round_trips CsrCodec.Params_codec CsrCodec.Params_wf CsrCodec.Params_enc ∧
  round_trips EpochInfo_codec EpochInfo_wf EpochInfo_enc ∧
  round_trips InflationCodec.Params_codec InflationCodec.Params_wf InflationCodec.Params_enc ∧
  round_trips OnboardingCodec.Params_codec OnboardingCodec.Params_wf OnboardingCodec.Params_enc ∧
  round_trips GovshuttleCodec.Params_codec GovshuttleCodec.Params_wf GovshuttleCodec.Params_enc.
Proof using SL. each_codec. Qed.

(** C16: the messages of transactions and proposals and the genesis states are
    encoded without an error or a panic, in as many bytes as computed
    beforehand, and decoding the bytes gives the message back: nested messages,
    repeated fields, packed integers, missing metadata and negative deadlines
    included. *)
Theorem messages_round_trip :
  round_trips MsgSwapOrder_codec MsgSwapOrder_wf MsgSwapOrder_enc ∧
  round_trips MsgAddLiquidity_codec MsgAddLiquidity_wf MsgAddLiquidity_enc ∧
  round_trips MsgRemoveLiquidity_codec MsgRemoveLiquidity_wf MsgRemoveLiquidity_enc ∧
  round_trips MsgConvertCoin_codec MsgConvertCoin_wf MsgConvertCoin_enc ∧
  round_trips MsgConvertERC20_codec MsgConvertERC20_wf MsgConvertERC20_enc ∧
  round_trips MsgRegisterCoin_codec MsgRegisterCoin_wf MsgRegisterCoin_enc ∧
  round_trips MsgRegisterERC20_codec MsgRegisterERC20_wf MsgRegisterERC20_enc ∧
  round_trips MsgToggleTokenConversion_codec MsgToggleTokenConversion_wf MsgToggleTokenConversion_enc ∧
  round_trips RegisterCoinProposal_codec RegisterCoinProposal_wf RegisterCoinProposal_enc ∧
  round_trips RegisterERC20Proposal_codec RegisterERC20Proposal_wf RegisterERC20Proposal_enc ∧
  round_trips ToggleTokenConversionProposal_codec ToggleTokenConversionProposal_wf ToggleTokenConversionProposal_enc ∧
  round_trips MsgLendingMarketProposal_codec MsgLendingMarketProposal_wf MsgLendingMarketProposal_enc ∧
  round_trips MsgTreasuryProposal_codec MsgTreasuryProposal_wf MsgTreasuryProposal_enc ∧
  round_trips LendingMarketProposal_codec LendingMarketProposal_wf LendingMarketProposal_enc ∧
  round_trips TreasuryProposal_codec TreasuryProposal_wf TreasuryProposal_enc ∧
  round_trips CoinswapCodec.MsgUpdateParams_codec CoinswapCodec.MsgUpdateParams_wf CoinswapCodec.MsgUpdateParams_enc ∧
  round_trips Erc20Codec.MsgUpdateParams_codec Erc20Codec.MsgUpdateParams_wf Erc20Codec.MsgUpdateParams_enc ∧
  round_trips CsrCodec.MsgUpdateParams_codec CsrCodec.MsgUpdateParams_wf CsrCodec.MsgUpdateParams_enc ∧
  round_trips InflationCodec.MsgUpdateParams_codec InflationCodec.MsgUpdateParams_wf InflationCodec.MsgUpdateParams_enc ∧
  round_trips OnboardingCodec.MsgUpdateParams_codec OnboardingCodec.MsgUpdateParams_wf OnboardingCodec.MsgUpdateParams_enc ∧
  round_trips CoinswapCodec.GenesisState_codec CoinswapCodec.GenesisState_wf CoinswapCodec.GenesisState_enc ∧
  round_trips Erc20Codec.GenesisState_codec Erc20Codec.GenesisState_wf Erc20Codec.GenesisState_enc ∧
  round_trips CsrCodec.GenesisState_codec CsrCodec.GenesisState_wf CsrCodec.GenesisState_enc ∧
  round_trips EpochsCodec.GenesisState_codec EpochsCodec.GenesisState_wf EpochsCodec.GenesisState_enc ∧
  round_trips InflationCodec.GenesisState_codec InflationCodec.GenesisState_wf InflationCodec.GenesisState_enc ∧
  round_trips OnboardingCodec.GenesisState_codec OnboardingCodec.GenesisState_wf OnboardingCodec.GenesisState_enc ∧
  round_trips GovshuttleCodec.GenesisState_codec GovshuttleCodec.GenesisState_wf GovshuttleCodec.GenesisState_enc.
Proof using SL. each_codec. Qed.

(** C17: decoding a message of a transaction terminates without a panic on every
    input: truncated integers, lengths beyond the input or past the largest
    integer, nested groups and unknown fields end in an error or in a message. *)
Theorem decoding_never_panics dAtA :
  blen dAtA < 2 ^ 63 ->
  MsgSwapOrder_Unmarshal dAtA (zero MsgSwapOrder_codec) ≠ Panic ∧
  MsgAddLiquidity_Unmarshal dAtA (zero MsgAddLiquidity_codec) ≠ Panic ∧
  MsgRemoveLiquidity_Unmarshal dAtA (zero MsgRemoveLiquidity_codec) ≠ Panic ∧
  MsgConvertCoin_Unmarshal dAtA (zero MsgConvertCoin_codec) ≠ Panic ∧
  MsgConvertERC20_Unmarshal dAtA (zero MsgConvertERC20_codec) ≠ Panic ∧
  MsgRegisterCoin_Unmarshal dAtA (zero MsgRegisterCoin_codec) ≠ Panic ∧
  MsgRegisterERC20_Unmarshal dAtA (zero MsgRegisterERC20_codec) ≠ Panic ∧
  MsgToggleTokenConversion_Unmarshal dAtA (zero MsgToggleTokenConversion_codec) ≠ Panic ∧
  MsgLendingMarketProposal_Unmarshal dAtA (zero MsgLendingMarketProposal_codec) ≠ Panic ∧
  MsgTreasuryProposal_Unmarshal dAtA (zero MsgTreasuryProposal_codec) ≠ Panic ∧
  CoinswapCodec.MsgUpdateParams_Unmarshal dAtA (zero CoinswapCodec.MsgUpdateParams_codec) ≠ Panic ∧
  Erc20Codec.MsgUpdateParams_Unmarshal dAtA (zero Erc20Codec.MsgUpdateParams_codec) ≠ Panic ∧
  CsrCodec.MsgUpdateParams_Unmarshal dAtA (zero CsrCodec.MsgUpdateParams_codec) ≠ Panic ∧
  InflationCodec.MsgUpdateParams_Unmarshal dAtA (zero InflationCodec.MsgUpdateParams_codec) ≠ Panic ∧
  OnboardingCodec.MsgUpdateParams_Unmarshal dAtA (zero OnboardingCodec.MsgUpdateParams_codec) ≠ Panic.
Proof using SL.
  intros Hl. split_and!.
  - by apply (laws_decode_safely _ _ _ coinswap_MsgSwapOrder_laws).
  - by apply (laws_decode_safely _ _ _ coinswap_MsgAddLiquidity_laws).
  - by apply (laws_decode_safely _ _ _ coinswap_MsgRemoveLiquidity_laws).
  - by apply (laws_decode_safely _ _ _ erc20_MsgConvertCoin_laws).
  - by apply (laws_decode_safely _ _ _ erc20_MsgConvertERC20_laws).
  - by apply (laws_decode_safely _ _ _ erc20_MsgRegisterCoin_laws).
  - by apply (laws_decode_safely _ _ _ erc20_MsgRegisterERC20_laws).
  - by apply (laws_decode_safely _ _ _ erc20_MsgToggleTokenConversion_laws).
  - by apply (laws_decode_safely _ _ _ govshuttle_MsgLendingMarketProposal_laws).
  - by apply (laws_decode_safely _ _ _ govshuttle_MsgTreasuryProposal_laws).
  - by apply (laws_decode_safely _ _ _ coinswap_MsgUpdateParams_laws).
  - by apply (laws_decode_safely _ _ _ erc20_MsgUpdateParams_laws).
  - by apply (laws_decode_safely _ _ _ csr_MsgUpdateParams_laws).
  - by apply (laws_decode_safely _ _ _ inflation_MsgUpdateParams_laws).
  - by apply (laws_decode_safely _ _ _ onboarding_MsgUpdateParams_laws).
Qed.

End theorems.

(** ** Unknown fields *)

(** After an encoding that is read to [m], fields without a case change nothing. *)
Lemma unmarshal_unknown {A} message (cases : A -> Z -> Z -> option (reader A)) e z m fields :
  reads message cases skip_field e z m ->
  Forall (fun f => unknown_ok f ∧ 0 < Z.shiftr (unknown_tag f) 3 ∧
    cases m (Z.shiftr (unknown_tag f) 3) (Z.land (unknown_tag f) 7) = None) fields ->
  blen (e ++ concat (enc_unknown <$> fields)) < 2 ^ 63 ->
  unmarshal message cases (e ++ concat (enc_unknown <$> fields)) z = Ok m.
Proof.
  intros He Hf. apply reads_unmarshal. eapply reads_app; [exact He|]. clear He e z.
  induction Hf as [|f fields (Hok & Hn & Hc) Hf IH]; cbn; [apply reads_nothing|].
  eapply reads_app; [by apply reads_unknown|done].
Qed.

Lemma app_bound (e f : bytes) : blen (e ++ f) < 2 ^ 63 -> blen e < 2 ^ 63.
Proof. rewrite blen_app. pose proof (blen_nonneg f). lia. Qed.

(** The fields of newer versions of a message that has [n] fields. *)
Definition newer_fields (n : Z) (fields : list unknown_field) : Prop :=
  Forall (fun f => unknown_ok f ∧ n < Z.shiftr (unknown_tag f) 3) fields.

Lemma Pool_newer pool n wireType : 5 < n -> Pool_cases pool n wireType = None.
Proof. intros. unfold Pool_cases. destruct pool. repeat case_match; (done || lia). Qed.
Lemma MsgSwapOrder_newer `{SdkCodecs} msg n wireType : 4 < n -> MsgSwapOrder_cases msg n wireType = None.
Proof. intros. unfold MsgSwapOrder_cases. destruct msg. repeat case_match; (done || lia). Qed.

Lemma newer_unknown {A} (cases : A -> Z -> Z -> option (reader A)) n m fields :
  0 <= n -> (∀ k wireType, n < k -> cases m k wireType = None) -> newer_fields n fields ->
  Forall (fun f => unknown_ok f ∧ 0 < Z.shiftr (unknown_tag f) 3 ∧
    cases m (Z.shiftr (unknown_tag f) 3) (Z.land (unknown_tag f) 7) = None) fields.
Proof. intros Hn Hc Hf. eapply Forall_impl; [exact Hf|]. intros f [? ?]. split_and!; [done|lia|by apply Hc]. Qed.

(** Fields of a newer version of a message, with numbers this version has no
    field for, are skipped: decoding an encoding with any number of them behind
    it gives the same pool, and the same swap order. *)
Theorem unknown_fields_are_skipped `{SL : SdkCodecLaws} fields :
  (∀ pool dAtA, Marshal Pool_codec pool = Ok dAtA -> newer_fields 5 fields ->
     blen (Pool_enc pool ++ concat (enc_unknown <$> fields)) < 2 ^ 63 ->
     Pool_Unmarshal (dAtA ++ concat (enc_unknown <$> fields)) (zero Pool_codec) = Ok pool) ∧
  (∀ msg dAtA, Marshal MsgSwapOrder_codec msg = Ok dAtA -> MsgSwapOrder_wf msg -> newer_fields 4 fields ->
     blen (MsgSwapOrder_enc msg ++ concat (enc_unknown <$> fields)) < 2 ^ 63 ->
     MsgSwapOrder_Unmarshal (dAtA ++ concat (enc_unknown <$> fields)) (zero MsgSwapOrder_codec) = Ok msg).
Proof.
  split.
  - intros pool dAtA E Hn Hl. rewrite (Marshal_law _ _ _ _ coinswap_Pool_laws) in E by (done || by eapply app_bound).
    injection E as <-. apply unmarshal_unknown; [|apply (newer_unknown _ 5); auto using Pool_newer; lia|done].
    destruct pool. unfold Pool_enc. cbn. wire_reads.
  - intros msg dAtA E Hm Hn Hl. rewrite (Marshal_law _ _ _ _ coinswap_MsgSwapOrder_laws) in E by (done || by eapply app_bound).
    injection E as <-. apply unmarshal_unknown; [|apply (newer_unknown _ 4); auto using MsgSwapOrder_newer; lia|done].
    destruct msg. unfold MsgSwapOrder_wf in Hm. cbn in Hm. wire_split. unfold MsgSwapOrder_enc. cbn. wire_reads.
Qed.

(** ** Witnesses *)

(** The integer 300 takes two bytes. *)
Lemma varint_is_read_back_witness :
  sov 300 = 2 ∧ decode_varint wrap64 (uvarint 300) 0 = Ok (300, 2).
Proof.
  destruct (varint_is_read_back 300 [] [to_byte 0; to_byte 0] []) as (_ & Hl & _ & Hd);
    [unfold is_uint64; lia|vm_compute; reflexivity|].
  split; [vm_compute; reflexivity|]. exact Hd.
Defined.

Definition ex_pool : Pool := mkPool "pool-1" "acanto" "usdc" "escrow" "lpt-1".
Definition ex_swap : MsgSwapOrder :=
  mkMsgSwapOrder (mkInput "alice" (mkCoin "usdc" 1000)) (mkOutput "bob" (mkCoin "acanto" 7)) (-1) true.

Lemma stored_values_round_trip_witness :
  ∃ dAtA, Marshal Pool_codec ex_pool = Ok dAtA ∧ blen dAtA = 37 ∧
          Pool_Unmarshal dAtA (zero Pool_codec) = Ok ex_pool.
Proof.
  destruct (proj1 (stored_values_round_trip (SL := ref_codec_laws)) ex_pool) as (dAtA & Hm & Hl & Hu);
    [exact I|vm_compute; reflexivity|].
  exists dAtA. split; [exact Hm|]. split; [rewrite Hl; vm_compute; reflexivity|exact Hu].
Defined.

Lemma messages_round_trip_witness :
  ∃ dAtA, Marshal MsgSwapOrder_codec ex_swap = Ok dAtA ∧
          MsgSwapOrder_Unmarshal dAtA (zero MsgSwapOrder_codec) = Ok ex_swap.
Proof.
  destruct (proj1 (messages_round_trip (SL := ref_codec_laws)) ex_swap) as (dAtA & Hm & _ & Hu);
    [vm_compute; repeat split; discriminate|vm_compute; reflexivity|].
  exists dAtA. split; [exact Hm|exact Hu].
Defined.

(** A string of 2^63 - 1 bytes that is not there. *)
Definition ex_truncated : bytes :=
  to_byte 10 :: uvarint (2 ^ 63 - 1) ++ of_string "alice".
Lemma decoding_never_panics_witness :
  blen ex_truncated < 2 ^ 63 ∧ MsgSwapOrder_Unmarshal ex_truncated (zero MsgSwapOrder_codec) ≠ Panic ∧
  MsgSwapOrder_Unmarshal ex_truncated (zero MsgSwapOrder_codec) = Err ErrInvalidLength.
Proof.
  split; [vm_compute; reflexivity|]. split; [|vm_compute; reflexivity].
  apply (decoding_never_panics (SL := ref_codec_laws) ex_truncated). vm_compute. reflexivity.
Defined.

Lemma unknown_fields_are_skipped_witness :
  Pool_Unmarshal (Pool_enc ex_pool ++ enc_unknown (UnknownBytes 0x32 (of_string "new"))) (zero Pool_codec) = Ok ex_pool.
Proof.
  destruct (unknown_fields_are_skipped (SL := ref_codec_laws) [UnknownBytes 0x32 (of_string "new")]) as [Hp _].
  specialize (Hp ex_pool (Pool_enc ex_pool)). cbn [fmap list_fmap concat] in Hp. rewrite app_nil_r in Hp. apply Hp.
  - vm_compute. reflexivity.
  - constructor; [|constructor]. split; [split; [split|]|]; vm_compute; reflexivity.
  - vm_compute. reflexivity.
Defined.
