(* ===== verification/App.v ===== *)
(** * app/app.go: the application

    [NewCanto] builds the keepers of the modules on the same keepers of the SDK,
    of ibc-go and of ethermint, connects them (hooks of x/epochs and of x/evm, the
    stack of IBC middlewares), fixes the order in which blocks run the modules,
    and chooses the checks of transactions.  [App] is the state of the whole
    chain: what the modules outside the repository keep, and one store per module
    of the repository.  The event manager of a transaction is not part of it; the
    models of the modules have the events. *)

From stdpp Require Import base gmap strings list.
From S2P Require Import Prelude Golang Sdk Ethereum Ibc CoinswapTypes Erc20Types.
From S2P Require Import Coinswap Epochs Inflation Erc20 Csr Onboarding Govshuttle.
From S2P Require Import OnboardingFacts GovshuttleFacts Ante.

#[local] Open Scope Z_scope.
#[local] Open Scope go_scope.

(** ** The modules, named after the packages of their [ModuleName] *)

Inductive AppModule :=
| mod_genutil | mod_auth | mod_bank | mod_crisis | mod_feegrant | mod_gov | mod_slashing | mod_distr | mod_staking
| mod_upgrade | mod_evidence | mod_params | mod_authz | mod_consensus | mod_ibc | mod_transfer | mod_capability
| mod_ibctm | mod_evm | mod_feemarket | mod_inflation | mod_erc20 | mod_epochs | mod_onboarding | mod_govshuttle
| mod_csr | mod_coinswap.

#[export] Instance AppModule_eq_dec : EqDecision AppModule.
Proof. solve_decision. Defined.

(** The arguments of [module.NewManager]. *)
Definition ModuleManager_Modules : list AppModule :=
  [mod_genutil; mod_auth; mod_bank; mod_crisis; mod_feegrant; mod_gov; mod_slashing; mod_distr; mod_staking;
   mod_upgrade; mod_evidence; mod_params; mod_authz; mod_consensus; mod_ibc; mod_transfer; mod_capability;
   mod_ibctm; mod_evm; mod_feemarket; mod_inflation; mod_erc20; mod_epochs; mod_onboarding; mod_govshuttle;
   mod_csr; mod_coinswap].

Definition OrderBeginBlockers : list AppModule :=
  [mod_epochs; mod_capability; mod_distr; mod_staking; mod_slashing; mod_ibc; mod_evm; mod_feemarket; mod_evidence;
   mod_authz; mod_csr; mod_auth; mod_bank; mod_gov; mod_genutil; mod_transfer; mod_feegrant; mod_params;
   mod_upgrade; mod_consensus; mod_crisis; mod_inflation; mod_erc20; mod_onboarding; mod_govshuttle; mod_coinswap].

Definition OrderEndBlockers : list AppModule :=
  [mod_crisis; mod_gov; mod_evm; mod_feemarket; mod_feegrant; mod_onboarding; mod_staking; mod_ibc; mod_transfer;
   mod_capability; mod_auth; mod_bank; mod_distr; mod_slashing; mod_genutil; mod_evidence; mod_authz; mod_params;
   mod_upgrade; mod_consensus; mod_inflation; mod_erc20; mod_govshuttle; mod_csr; mod_coinswap; mod_epochs].

Definition genesisModuleOrder : list AppModule :=
  [mod_capability; mod_auth; mod_bank; mod_distr; mod_staking; mod_slashing; mod_gov; mod_ibc; mod_evm;
   mod_feemarket; mod_genutil; mod_evidence; mod_transfer; mod_authz; mod_feegrant; mod_params; mod_upgrade;
   mod_consensus; mod_inflation; mod_erc20; mod_epochs; mod_onboarding; mod_govshuttle; mod_csr; mod_coinswap;
   mod_crisis].

(** ** Module accounts *)

Inductive Permission := Minter | Burner | Staking.

(** The names of packages outside the repository. *)
Class LibraryNames := {
  authtypes_FeeCollectorName : string;
  distrtypes_ModuleName : string;
  stakingtypes_BondedPoolName : string;
  stakingtypes_NotBondedPoolName : string;
  govtypes_ModuleName : string;
  ibctransfertypes_ModuleName : string;
  evmtypes_ModuleName : string
}.

Section accounts.
Context `{LibraryNames} `{SdkTypes} `{EthTypes}.

Definition maccPerms : list (string * list Permission) :=
  [(authtypes_FeeCollectorName, []);
   (distrtypes_ModuleName, []);
   (stakingtypes_BondedPoolName, [Burner; Staking]);
   (stakingtypes_NotBondedPoolName, [Burner; Staking]);
   (govtypes_ModuleName, [Burner]);
   (ibctransfertypes_ModuleName, [Minter; Burner]);
   (evmtypes_ModuleName, [Minter; Burner]);
   (Inflation.ModuleName, [Minter]);
   (Erc20Types.ModuleName, [Minter; Burner]);
   (Csr.ModuleName, [Minter; Burner]);
   (Govshuttle.ModuleName, [Minter; Burner]);
   (Onboarding.ModuleName, [Minter; Burner]);
   (CoinswapTypes.ModuleName, [Minter; Burner])].

(** A set of addresses is a map to [bool] in the code. *)
Definition ModuleAccountAddrs : gset string :=
  list_to_set ((fun acc => AccAddress_String (NewModuleAddress acc)) <$> maccPerms.*1).
Definition BlockedAddrs : gset string :=
  list_to_set ((fun acc => AccAddress_String (NewModuleAddress acc)) <$> maccPerms.*1).

End accounts.

(** ** The state *)

Record App (W : Type) := mkApp {
  app_world : W;
  app_coinswap : Coinswap.Store;
  app_inflation : Inflation.Store;
  app_erc20 : Erc20.Store;
  app_epochs : Epochs.Store;
  app_csr : Csr.Store;
  app_onboarding : option Onboarding.Params;
  app_port : option string
}.
Arguments mkApp {W} _ _ _ _ _ _ _ _.
Arguments app_world {W} _.
Arguments app_coinswap {W} _.
Arguments app_inflation {W} _.
Arguments app_erc20 {W} _.
Arguments app_epochs {W} _.
Arguments app_csr {W} _.
Arguments app_onboarding {W} _.
Arguments app_port {W} _.

(** What the keeper of a module reaches through its store key and the keepers it
    was given. *)
Section views.
Context {W : Type}.

Definition with_world (w : W) (a : App W) : App W :=
  mkApp w (app_coinswap a) (app_inflation a) (app_erc20 a) (app_epochs a) (app_csr a) (app_onboarding a) (app_port a).

Definition coinswap_of (a : App W) : Chain W Coinswap.Store := mkChain (app_world a) (app_coinswap a) [].
Definition put_coinswap (c : Chain W Coinswap.Store) (a : App W) : App W :=
  mkApp (world c) (store c) (app_inflation a) (app_erc20 a) (app_epochs a) (app_csr a) (app_onboarding a) (app_port a).

Definition erc20_of (a : App W) : Chain W Erc20.Store := mkChain (app_world a) (app_erc20 a) [].
Definition put_erc20 (c : Chain W Erc20.Store) (a : App W) : App W :=
  mkApp (world c) (app_coinswap a) (app_inflation a) (store c) (app_epochs a) (app_csr a) (app_onboarding a) (app_port a).

Definition csr_of (a : App W) : Chain W Csr.Store := mkChain (app_world a) (app_csr a) [].
Definition put_csr_of (c : Chain W Csr.Store) (a : App W) : App W :=
  mkApp (world c) (app_coinswap a) (app_inflation a) (app_erc20 a) (app_epochs a) (store c) (app_onboarding a) (app_port a).

(** x/epochs calls x/inflation. *)
Definition epochs_of (a : App W) : Chain (Chain W Inflation.Store) Epochs.Store :=
  mkChain (mkChain (app_world a) (app_inflation a) []) (app_epochs a) [].
Definition put_epochs (c : Chain (Chain W Inflation.Store) Epochs.Store) (a : App W) : App W :=
  mkApp (world (world c)) (app_coinswap a) (store (world c)) (app_erc20 a) (store c) (app_csr a)
    (app_onboarding a) (app_port a).

Definition inflation_of (a : App W) : Chain W Inflation.Store := mkChain (app_world a) (app_inflation a) [].
Definition put_inflation (c : Chain W Inflation.Store) (a : App W) : App W :=
  mkApp (world c) (app_coinswap a) (store c) (app_erc20 a) (app_epochs a) (app_csr a) (app_onboarding a) (app_port a).

(** x/onboarding calls x/coinswap and x/erc20. *)
Definition onboarding_of (a : App W) : Chain W (Onboarding.Store Modules) :=
  mkChain (app_world a) (Onboarding.mkStore (app_onboarding a) (app_coinswap a, app_erc20 a)) [].
Definition put_onboarding (c : Chain W (Onboarding.Store Modules)) (a : App W) : App W :=
  mkApp (world c) (st_modules (store c)).1 (app_inflation a) (st_modules (store c)).2 (app_epochs a) (app_csr a)
    (Onboarding.st_params (store c)) (app_port a).

(** x/govshuttle calls x/erc20. *)
Definition govshuttle_of (a : App W) : Chain W (Govshuttle.Store Erc20.Store) :=
  mkChain (app_world a) (Govshuttle.mkStore (app_port a) (app_erc20 a)) [].
Definition put_govshuttle (c : Chain W (Govshuttle.Store Erc20.Store)) (a : App W) : App W :=
  mkApp (world c) (app_coinswap a) (app_inflation a) (st_erc20 (store c)) (app_epochs a) (app_csr a)
    (app_onboarding a) (st_port (store c)).

End views.

(** ** The application *)

(** What the application uses of the SDK, ibc-go and ethermint beside the keepers:
    running the modules of a block and the hooks of a transaction, the blocks of
    their own modules, and the transfer application. *)
Class AppDeps (W : Type) := {
  manager_BeginBlock : list AppModule -> (AppModule -> M (App W) unit) -> M (App W) unit;
  NewMultiEvmHooks : list (TxMessage -> Receipt -> M (App W) unit) -> TxMessage -> Receipt -> M (App W) unit;
  lib_BeginBlock : AppModule -> M W unit;
  (** the transfer application, which only changes the state outside the repository *)
  Handshake : Type;
  transfer_IBCModule : IBCModule W Handshake
}.

(** The module manager runs the modules in the given order until one fails, and so
    does the list of hooks. *)
Class AppDepsLaws (W : Type) `{AppDeps W} : Prop := {
  manager_BeginBlock_spec order begin a : manager_BeginBlock order begin a = for_each order begin a;
  NewMultiEvmHooks_spec hooks msg receipt a :
    NewMultiEvmHooks hooks msg receipt a = for_each hooks (fun h => h msg receipt) a
}.

(** The keepers of the application. *)
Record Canto (W A : Type) := mkCanto {
  CoinswapKeeper : Coinswap.Keeper;
  InflationKeeper : Inflation.Keeper;
  Erc20Keeper : Erc20.Keeper;
  GovshuttleKeeper : Govshuttle.Keeper;
  CSRKeeper : Csr.Keeper;
  EpochsKeeper : Epochs.Keeper (Chain W Inflation.Store);
  OnboardingKeeper : Onboarding.Keeper (Chain W (Onboarding.Store Modules)) A
}.
Arguments mkCanto {W A} _ _ _ _ _ _ _.
Arguments CoinswapKeeper {W A} _.
Arguments InflationKeeper {W A} _.
Arguments Erc20Keeper {W A} _.
Arguments GovshuttleKeeper {W A} _.
Arguments CSRKeeper {W A} _.
Arguments EpochsKeeper {W A} _.
Arguments OnboardingKeeper {W A} _.

Section app.
Context {W A : Type} `{LibraryNames} `{SdkMath} `{SdkTypes} `{Hashes} `{ParamSubspace} `{EthTypes} `{Abi} `{IbcTypes}.
Context {AK : AccountKeeper W} {BK : BankKeeper W} {BM : BankMetadata W} {EV : EvmKeeper W}.
Context {ID : InflationDeps W} {CD : CsrDeps W} {GD : GovDeps W} {AD : AppDeps W}.

(** The part of [NewCanto] that builds the keepers of the repository;
    [channelKeeper] is the keeper of ibc-go that packets are sent through. *)
Definition NewCanto (channelKeeper : ICS4Wrapper (Chain W (Onboarding.Store Modules)) A) : outcome (Canto W A) :=
  let authority := AccAddress_String (NewModuleAddress govtypes_ModuleName) in
  let? coinswap := Coinswap.NewKeeper ModuleAccountAddrs authtypes_FeeCollectorName authority in
  let? inflation := Inflation.NewKeeper authtypes_FeeCollectorName authority in
  let erc20 := Erc20.NewKeeper authority in
  let govshuttle := Govshuttle.NewKeeper authority in
  let csr := Csr.NewKeeper authtypes_FeeCollectorName authority in
  let? epochs := Epochs.SetHooks Epochs.NewKeeper [Inflation.Hooks inflation] in
  let? onboarding := SetICS4Wrapper (Onboarding.NewKeeper authority) channelKeeper in
  Ok (mkCanto coinswap inflation erc20 govshuttle csr epochs onboarding).

(** The hooks given to x/evm. *)
Definition evm_hooks (app : Canto W A) : TxMessage -> Receipt -> M (App W) unit :=
  NewMultiEvmHooks
    [(fun msg receipt => zoom erc20_of put_erc20 (Erc20.PostTxProcessing (rcpt_Logs receipt)));
     (fun msg receipt => zoom csr_of put_csr_of (Csr.PostTxProcessing (CSRKeeper app) msg receipt))].

(** The transfer stack: the middleware of x/onboarding above
    [transfer.NewIBCModule(app.TransferKeeper)]. *)
Definition transferStack : IBCModule (Chain W (Onboarding.Store Modules)) Handshake :=
  NewIBCMiddleware
    (mkIBCModule (fun args => ext (OnChanOpenInit transfer_IBCModule args)) (fun args => ext (OnChanOpenTry transfer_IBCModule args))
      (fun args => ext (OnChanOpenAck transfer_IBCModule args)) (fun args => ext (OnChanOpenConfirm transfer_IBCModule args))
      (fun args => ext (OnChanCloseInit transfer_IBCModule args)) (fun args => ext (OnChanCloseConfirm transfer_IBCModule args))
      (fun packet relayer => ext (Ibc.OnRecvPacket transfer_IBCModule packet relayer))
      (fun packet ack relayer => ext (OnAcknowledgementPacket transfer_IBCModule packet ack relayer))
      (fun packet relayer => ext (OnTimeoutPacket transfer_IBCModule packet relayer))).

(** Of the modules of the repository x/epochs and x/csr implement [BeginBlock]. *)
Definition module_BeginBlock (app : Canto W A) (ctx : BlockCtx) (m : AppModule) : M (App W) unit :=
  match m with
  | mod_epochs => zoom epochs_of put_epochs (Epochs.BeginBlocker (EpochsKeeper app) ctx)
  | mod_csr => zoom csr_of put_csr_of Csr.BeginBlock
  | mod_inflation | mod_erc20 | mod_onboarding | mod_govshuttle | mod_coinswap => ret tt
  | _ => zoom app_world with_world (lib_BeginBlock m)
  end.

Definition BeginBlocker (app : Canto W A) (ctx : BlockCtx) : M (App W) unit :=
  manager_BeginBlock OrderBeginBlockers (module_BeginBlock app ctx).

End app.

(** ** Checks of transactions *)

(** [sdk.MsgTypeURL] of the four messages. *)
Definition DisabledAuthzMsgs_of_app : list string :=
  ["/ethermint.evm.v1.MsgEthereumTx"; "/cosmos.vesting.v1beta1.MsgCreateVestingAccount";
   "/cosmos.vesting.v1beta1.MsgCreatePermanentLockedAccount"; "/cosmos.vesting.v1beta1.MsgCreatePeriodicVestingAccount"].

Definition app_HandlerOptions (simulation : bool) : HandlerOptions :=
  mkHandlerOptions true true true true true simulation DisabledAuthzMsgs_of_app.

Definition setAnteHandler {Ctx Tx} (run_decorator : Decorator -> Ctx -> Tx -> bool -> outcome Ctx)
    (GetExtensionOptions : Tx -> option (list string)) (simulation : bool)
    : outcome (Ctx -> Tx -> bool -> outcome Ctx) :=
  match NewAnteHandler run_decorator GetExtensionOptions (app_HandlerOptions simulation) with
  | Ok anteHandler => Ok anteHandler
  | _ => Panic
  end.

(** ** Upgrades *)

(** The modules whose [StoreKey] is mounted. *)
Definition keys : list AppModule :=
  [mod_auth; mod_bank; mod_staking; mod_crisis; mod_distr; mod_slashing; mod_gov; mod_params; mod_consensus;
   mod_upgrade; mod_feegrant; mod_evidence; mod_authz; mod_ibc; mod_transfer; mod_capability; mod_evm;
   mod_feemarket; mod_inflation; mod_erc20; mod_epochs; mod_onboarding; mod_csr; mod_govshuttle; mod_coinswap].

(** The [switch] over the constants [UpgradeName] of the versions: the stores that
    are added, [None] for a nil pointer. *)
Definition storeUpgrades (name : string) : option (list AppModule) :=
  if String.eqb name "v2.0.0" then None
  else if String.eqb name "v3.0.0" then None
  else if String.eqb name "v4.0.0" then Some [mod_govshuttle]
  else if String.eqb name "v5.0.0" then Some [mod_csr]
  else if String.eqb name "v6.0.0" then None
  else if String.eqb name "v7.0.0" then Some [mod_onboarding; mod_coinswap]
  else if String.eqb name "v8.0.0" then Some [mod_crisis; mod_consensus]
  else None.

(** [setupUpgradeHandlers] after the registration of the handlers: the height and
    the stores of the loader it sets, if it sets one, given what was read from
    disk and the heights the operator skips. *)
Definition setupUpgradeHandlers (upgradeInfo : outcome (string * Z)) (IsSkipHeight : Z -> bool)
    : outcome (option (Z * list AppModule)) :=
  match upgradeInfo with
  | Ok (name, height) =>
      if IsSkipHeight height then Ok None
      else Ok ((fun added => (height, added)) <$> storeUpgrades name)
  | _ => Panic
  end.
