(* ===== verification/AppFacts.v ===== *)
(** * Theorems about the application

    The invariants of the modules hold together, in every state the chain
    reaches: whatever transactions, packets, proposals and blocks come in which
    order, and whatever the modules outside the repository do. *)

From stdpp Require Import base gmap strings list.
From S2P Require Import Prelude Golang Sdk Ethereum Ibc CoinswapTypes Erc20Types Reference ReferenceEvm.
From S2P Require Import Coinswap CoinswapFacts CoinswapStore CoinswapTrade Epochs Inflation.
From S2P Require Import Erc20 Erc20Facts Erc20Store Csr CsrFacts Onboarding OnboardingFacts Govshuttle GovshuttleFacts.
From S2P Require Import Ante AnteFacts App.

#[local] Open Scope Z_scope.
#[local] Open Scope go_scope.

(** ** The lists of [NewCanto] *)

(** Every module but the light client, which has neither state nor blocks, is in
    each of the orders once, as the module manager demands. *)
Lemma module_orders_complete :
  NoDup ModuleManager_Modules ∧
  mod_ibctm :: OrderBeginBlockers ≡ₚ ModuleManager_Modules ∧
  mod_ibctm :: OrderEndBlockers ≡ₚ ModuleManager_Modules ∧
  mod_ibctm :: genesisModuleOrder ≡ₚ ModuleManager_Modules.
Proof. split_and!; [apply (bool_decide_unpack _); by vm_compute|apply (bool_decide_unpack _); by vm_compute..]. Qed.

(** Stores that upgrades add are mounted. *)
Lemma upgrade_stores_mounted info skip height added :
  setupUpgradeHandlers info skip = Ok (Some (height, added)) -> added ⊆ keys.
Proof.
  unfold setupUpgradeHandlers, storeUpgrades. destruct info as [[name h]|e|]; [|done|done].
  destruct (skip h); [done|]. repeat case_match; cbn; intros E; simplify_eq; apply (bool_decide_unpack _); by vm_compute.
Qed.

Section app_facts.
Context {W A : Type} {LN : LibraryNames} {SM : SdkMath} {SML : SdkMathLaws} {ST : SdkTypes} {STL : SdkTypesLaws}.
Context {HA : Hashes} {HAL : HashesLaws} {PS : ParamSubspace} {PSL : ParamSubspaceLaws}.
Context {ET : EthTypes} {ETL : EthTypesLaws} {AB : Abi} {IB : IbcTypes} {IBL : IbcLaws}.
Context {AK : AccountKeeper W} {BK : BankKeeper W} {BL : BankLaws W} {RL : ReserveLaws W}.
Context {BM : BankMetadata W} {BML : BankMetadataLaws W} {EV : EvmKeeper W} {EL : EvmLaws W}.
Context {ID : InflationDeps W} {CD : CsrDeps W} {GD : GovDeps W} {AD : AppDeps W} {ADL : AppDepsLaws W}.
#[local] Abbreviation APP := (Canto W A).

(** ** What the modules do to each other's stores *)

Lemma keeps_trade input output :
  keeps_store (W:=W) (K:=Coinswap.Store) (Coinswap.TradeInputForExactOutput input output).
Proof.
  unfold Coinswap.TradeInputForExactOutput, calculateWithExactOutput, swapCoins, GetLptDenomFromDenoms,
    GetMaximumSwapAmount, GetPoolBalances, Coinswap.GetStandardDenom, GetPool, Coinswap.GetParams. keeps.
Qed.

(** Receiving a packet leaves the stores of x/coinswap and of x/onboarding alone
    and the pairs of x/erc20 consistent. *)
Definition packet_frame (x : Coinswap.Store) (p : option Onboarding.Params) (c : Chain W (Onboarding.Store Modules)) : Prop :=
  (st_modules (store c)).1 = x ∧ Onboarding.st_params (store c) = p ∧ pairs_ok (st_modules (store c)).2.

Lemma packet_frame_trade x p input output (c : Chain W (Onboarding.Store Modules)) :
  packet_frame x p c -> packet_frame x p (call (Onboarding.TradeInputForExactOutput input output) c).2.
Proof.
  intros (Hx & Hp & Ho). cbn. unfold call, zoom. cbn. 
  pose proof (keeps_trade input output (coinswap_part (modules_of c))) as Hk.
  destruct (Coinswap.TradeInputForExactOutput _ _ _) as [r m]. cbn in *. unfold packet_frame. cbn. by rewrite Hk.
Qed.

Lemma packet_frame_convert x p msg : invariant (packet_frame x p) (call (Onboarding.ConvertCoin msg)).
Proof.
  intros c u c' (Hx & Hp & Ho) (m & E & ->)%zoom_Ok. cbn in E. apply zoom_Ok in E as (m' & E & ->).
  apply ConvertCoin_ok in E; [|done]. by split_and!.
Qed.

Lemma packet_frame_ext {R} x p (m : M W R) : invariant (packet_frame x p) (ext m).
Proof. intros c r c' Hf (w & _ & ->)%ext_Ok. done. Qed.

Lemma packet_frame_emit x p e : invariant (packet_frame x p) (emit e).
Proof. by apply invariant_modify. Qed.
#[local] Hint Resolve packet_frame_ext packet_frame_emit packet_frame_convert : chain.

Lemma OnRecvPacket_frame x p packet ack : invariant (packet_frame x p) (Onboarding.OnRecvPacket packet ack).
Proof.
  assert (∀ token, readonly (call (W:=W) (X:=Modules) (Onboarding.GetTokenPairID token))) as Hid.
  { intros token. apply readonly_call, GetTokenPairID_readonly. }
  assert (∀ id, readonly (call (W:=W) (X:=Modules) (Onboarding.GetTokenPair id))) as Hpair.
  { intros id. apply readonly_call, GetTokenPair_readonly. }
  assert (readonly (call (W:=W) (X:=Modules) Onboarding.GetStandardDenom)) as Hstd.
  { apply readonly_call. apply (StandardDenom_readonly (ready := fun m => params_ok m.1)). }
  assert (readonly (S:=Chain W (Onboarding.Store Modules)) Onboarding.GetParams) as Hparams
    by (unfold Onboarding.GetParams; readonly).
  unfold Onboarding.OnRecvPacket, swap_received, convert_received, emit_onboarding, amount_of_received. invariants.
  all: first [by apply invariant_readonly, readonly_attempt | by apply invariant_attempt, packet_frame_trade].
Qed.

Lemma transferStack_frame x p packet relayer : invariant (packet_frame x p) (Ibc.OnRecvPacket transferStack packet relayer).
Proof.
  pose proof (OnRecvPacket_frame x p packet). cbn. unfold Middleware_OnRecvPacket, Module_OnRecvPacket. cbn. invariants.
Qed.

(** Proposals of x/govshuttle only add the port to the stores. *)
Lemma gov_step_erc20 k (c c' : Chain W (Govshuttle.Store Erc20.Store)) :
  gov_step k c c' -> st_erc20 (store c') = st_erc20 (store c).
Proof.
  set (P := fun c1 : Chain W (Govshuttle.Store Erc20.Store) => st_erc20 (store c1) = st_erc20 (store c)).
  assert (∀ to data, invariant P (call_erc20 (CallEVMWithData Govshuttle.ModuleAddress to data true))) as Hdata.
  { intros to data c1 r c2 Hc (m & E & ->)%call_erc20_Ok. 
    apply (keeps_store_run _ _ _ _ (keeps_CallEVMWithData _ _ _ _)) in E. unfold P. cbn. by rewrite E. }
  assert (∀ to meth args, invariant P (call_erc20 (CallEVM port_abi Govshuttle.ModuleAddress to true meth args))) as Hcall.
  { intros to meth args c1 r c2 Hc (m & E & ->)%call_erc20_Ok.
    apply keeps_store_run in E; [unfold P; cbn; by rewrite E|].
    pose proof keeps_CallEVMWithData. cbn. unfold Erc20.CallEVM. keeps. }
  assert (∀ a, invariant P (SetPort a)) as Hport by (intros a; by apply invariant_modify).
  assert (∀ lm, invariant P (AppendLendingMarketProposal lm)) as Happend.
  { intros lm. unfold AppendLendingMarketProposal, number_proposal, GetPort, DeployMapContract. invariants. }
  intros [req|req]; apply (invariant_deliver P); [|done| |done];
    unfold LendingMarketProposal, TreasuryProposal, check_authority; invariants.
Qed.

(** ** Runs of the chain *)

(** The transactions of a block are delivered between its begin blockers and its
    end blockers. *)
Inductive Phase := Delivering | Ending.

(** One step: the start or the end of a block, a transaction, or a part of one
    that a module handles.  Messages and packets that fail are undone.  A
    transaction of x/evm runs outside the repository, to the state [w], and then
    the hooks, whose failure undoes all of it.  Parameters of x/csr are set by the
    authority, the account of x/gov, whose messages run in its end blocker. *)
Inductive app_step (k : APP) : Phase * App W -> Phase * App W -> Prop :=
| app_begin_block ctx a a' :
    BeginBlocker k ctx a = (Ok tt, a') -> app_step k (Ending, a) (Delivering, a')
| app_end_block a : app_step k (Delivering, a) (Ending, a)
| app_library ph w a : app_step k (ph, a) (ph, with_world w a)
| app_evm_tx w msg receipt a :
    app_step k (Delivering, a)
      (Delivering, (deliver (do! modify (with_world w); evm_hooks k msg receipt) a).2)
| app_packet packet relayer a :
    app_step k (Delivering, a)
      (Delivering, (deliver (zoom onboarding_of put_onboarding (Ibc.OnRecvPacket transferStack packet relayer)) a).2)
| app_coinswap_msg ph a c :
    step (CoinswapKeeper k) (coinswap_of a) c -> app_step k (ph, a) (ph, put_coinswap c a)
| app_erc20_msg ph a c :
    erc20_step (Erc20Keeper k) (App.erc20_of a) c -> app_step k (ph, a) (ph, put_erc20 c a)
| app_govshuttle_msg ph a c :
    gov_step (GovshuttleKeeper k) (govshuttle_of a) c -> app_step k (ph, a) (ph, put_govshuttle c a)
| app_inflation_params ph req a :
    app_step k (ph, a)
      (ph, (deliver (zoom inflation_of put_inflation (Inflation.msg_UpdateParams (InflationKeeper k) req)) a).2)
| app_onboarding_params ph req a :
    app_step k (ph, a)
      (ph, (deliver (zoom onboarding_of put_onboarding (Onboarding.msg_UpdateParams (OnboardingKeeper k) req)) a).2)
| app_csr_params req a :
    app_step k (Ending, a)
      (Ending, (deliver (zoom csr_of put_csr_of (Csr.msg_UpdateParams (CSRKeeper k) req)) a).2).

Inductive app_reach (k : APP) (x : Phase * App W) : nat -> Phase * App W -> Prop :=
| app_reach_refl : app_reach k x 0 x
| app_reach_step n y z : app_reach k x n y -> app_step k y z -> app_reach k x (S n) z.

(** The stores of all modules are consistent. *)
Record app_ok (a : App W) : Prop := {
  ok_coinswap : store_ok (app_coinswap a);
  ok_erc20 : pairs_ok (app_erc20 a);
  ok_csr_store : csrs_ok (app_csr a);
  ok_onboarding p : app_onboarding a = Some p -> Onboarding.Params_Validate p = Ok tt
}.

(** What a step that creates no pool keeps. *)
Definition app_keeps (x : Coinswap.Store) (a : App W) : Prop := app_coinswap a = x ∧ app_ok a.

Lemma app_keeps_csr {R} x (m : M (Chain W Csr.Store) R) :
  (∀ c u c', csrs_ok (store c) -> m c = (Ok u, c') -> csrs_ok (store c')) ->
  invariant (app_keeps x) (zoom csr_of put_csr_of m).
Proof.
  intros Hm a u a' [Hx [? ? Hc ?]] (c & E & ->)%zoom_Ok. split; [done|]. split; [done..| |done]. by eapply Hm, E.
Qed.

Lemma app_keeps_erc20_hook x logs : invariant (app_keeps x) (zoom App.erc20_of put_erc20 (Erc20.PostTxProcessing logs)).
Proof.
  intros a u a' [Hx [? Hp ? ?]] (c & E & ->)%zoom_Ok. split; [done|]. split; [done| |done..].
  apply (keeps_store_run _ _ _ _ (keeps_PostTxProcessing _)) in E. cbn. by rewrite E.
Qed.

Lemma app_keeps_begin x (k : APP) ctx : invariant (app_keeps x) (BeginBlocker k ctx).
Proof.
  intros a u a' Ha E. unfold BeginBlocker in E. rewrite manager_BeginBlock_spec in E. revert a u a' Ha E.
  apply invariant_for_each. intros m.
  assert (∀ m', invariant (app_keeps x) (zoom app_world with_world (lib_BeginBlock m'))) as Hlib.
  { intros m'. apply invariant_zoom. intros a w [Hx [? ? ? ?]]. by split; [|split]. }
  destruct m; try apply Hlib; try by apply invariant_readonly.
  - apply invariant_zoom. intros a c [Hx [? ? ? ?]]. by split; [|split].
  - apply app_keeps_csr. intros c u c' Hok E. 
    destruct (csr_step_ok (CSRKeeper k) c c') as [? _]; [|done|done].
    pose proof (csr_begin_block (CSRKeeper k) c) as Hs. by rewrite (proj2 (deliver_Ok _ _ _ _) E) in Hs.
Qed.

Lemma app_keeps_hooks x (k : APP) w msg receipt :
  invariant (app_keeps x) (do! modify (with_world w); evm_hooks k msg receipt).
Proof.
  apply invariant_bind.
  { apply invariant_modify. intros a [Hx [? ? ? ?]]. by split; [|split]. }
  intros _ a u a' Ha E. unfold evm_hooks in E. rewrite NewMultiEvmHooks_spec in E. revert a u a' Ha E.
  cbn [for_each]. apply invariant_bind; [apply app_keeps_erc20_hook|intros _].
  apply invariant_bind; [|intros _; by apply invariant_readonly].
  apply app_keeps_csr. intros c u c' Hok E. by apply PostTxProcessing_frame in E as (? & _ & _).
Qed.

Lemma app_keeps_packet x packet relayer :
  invariant (app_keeps x) (zoom onboarding_of put_onboarding (Ibc.OnRecvPacket transferStack packet relayer)).
Proof.
  intros a ack a' [Hx [? Hp ? ?]] (c & E & ->)%zoom_Ok.
  apply (transferStack_frame x (app_onboarding a)) in E as (Hx' & Ho & Hp'); [|done].
  split; [done|]. split; cbn; [by rewrite Hx', <-Hx|done|done|by rewrite Ho].
Qed.

Lemma app_keeps_onboarding_params x (k : APP) req :
  invariant (app_keeps x) (zoom onboarding_of put_onboarding (Onboarding.msg_UpdateParams (OnboardingKeeper k) req)).
Proof.
  intros a u a' [Hx [? ? ? ?]] (c & E & ->)%zoom_Ok. unfold Onboarding.msg_UpdateParams, Onboarding.SetParams in E.
  cinv. split; [done|]. split; cbn; [done..|]. intros p [= <-]. by match goal with H : Onboarding.Params_Validate _ = Ok ?u |- _ => destruct u end.
Qed.

(** A step keeps the stores consistent, and creates at most one pool. *)
Lemma app_step_ok (k : APP) x y :
  app_step k x y -> app_ok x.2 -> next_sequence (app_coinswap x.2) + 1 < 2 ^ 64 ->
  app_ok y.2 ∧ next_sequence (app_coinswap y.2) <= next_sequence (app_coinswap x.2) + 1.
Proof.
  intros Hs Hok Hlt. assert (∀ a, app_keeps (app_coinswap x.2) a ->
    app_ok a ∧ next_sequence (app_coinswap a) <= next_sequence (app_coinswap x.2) + 1) as Hkeep.
  { intros a [-> ?]. split; [done|lia]. }
  destruct Hs as [ctx a a' E|a|ph w a|w msg receipt a|packet relayer a|ph a c Hs|ph a c Hs|ph a c Hs|ph req a|ph req a|req a];
    cbn in *; pose proof Hok as [Hc He Hr Ho].
  - by apply Hkeep, (app_keeps_begin _ k ctx a tt).
  - by apply Hkeep.
  - apply (Hkeep (with_world w a)). by split; [|split].
  - by apply Hkeep, invariant_deliver; [apply app_keeps_hooks|].
  - by apply Hkeep, invariant_deliver; [apply app_keeps_packet|].
  - apply step_store_ok in Hs as [? ?]; [|done..]. by split; [split|].
  - apply erc20_step_ok in Hs; [|done]. apply (Hkeep (put_erc20 c a)). by split; [|split].
  - apply gov_step_erc20 in Hs. apply (Hkeep (put_govshuttle c a)). split; [done|]. split; cbn; [done|by rewrite Hs|done..].
  - apply Hkeep, invariant_deliver; [|done]. apply invariant_zoom. intros a' c [Hx [? ? ? ?]]. by split; [|split].
  - by apply Hkeep, invariant_deliver; [apply app_keeps_onboarding_params|].
  - apply Hkeep, invariant_deliver; [|done]. apply app_keeps_csr. intros c u c' Hcs E.
    destruct (csr_step_ok (CSRKeeper k) c c') as [? _]; [|done|done].
    pose proof (csr_update_params (CSRKeeper k) c req) as Hs. by rewrite (proj2 (deliver_Ok _ _ _ _) E) in Hs.
Qed.

Lemma app_reach_ok (k : APP) n x y :
  app_reach k x n y -> app_ok x.2 -> next_sequence (app_coinswap x.2) + Z.of_nat n < 2 ^ 64 ->
  app_ok y.2 ∧ next_sequence (app_coinswap y.2) <= next_sequence (app_coinswap x.2) + Z.of_nat n.
Proof.
  intros Hr Hok Hn. induction Hr as [|n y z Hr IH Hs]; [split; [done|lia]|]. destruct IH as [IH1 IH2]; [lia|].
  apply app_step_ok in Hs as [? ?]; [split; [done|lia]|done|lia].
Qed.

(** C8: the invariants of all modules hold together in every state the chain
    reaches.  From consistent stores, any number of blocks with any transactions,
    packets, proposals and parameter updates, in any order and whatever the
    modules outside the repository do, lead to a state in which the pool index,
    the token pairs with their two indexes and the register of contracts are
    consistent and the parameters in force have passed validation (as long as
    fewer steps are made than the 64-bit number of pools has room for). *)
Theorem application_stores_stay_consistent (k : APP) n ph a ph' a' :
  app_reach k (ph, a) n (ph', a') -> app_ok a -> next_sequence (app_coinswap a) + Z.of_nat n < 2 ^ 64 -> app_ok a'.
Proof. intros Hr Hok Hn. by apply app_reach_ok in Hr as [? _]. Qed.

(** ** The Turnstile and the port *)

(** The register is consistent and the Turnstile [t0], if there was one, is kept. *)
Definition turnstile_kept (t0 : option string) (s : Csr.Store) : Prop :=
  csrs_ok s ∧ ∀ t, t0 = Some t -> turnstile_of s = Some t.

Lemma turnstile_kept_step t0 k (c c' : Chain W Csr.Store) :
  csr_step k c c' -> turnstile_kept t0 (store c) -> turnstile_kept t0 (store c').
Proof. intros Hs [Hok Ht]. apply csr_step_ok in Hs as [? Ht']; [|done]. split; [done|]. intros t E. by apply Ht', Ht. Qed.

(** The begin blockers keep it, and x/csr makes the module ready. *)
Lemma begin_module_csr (k : APP) ctx m (a a' : App W) :
  module_BeginBlock k ctx m a = (Ok tt, a') ->
  app_csr a' = app_csr a ∨ ∃ c, Csr.BeginBlock (csr_of a) = (Ok tt, c) ∧ app_csr a' = store c.
Proof.
  destruct m; cbn; intros E; try (apply zoom_Ok in E as (c & E & ->); by left); try (injection E as <-; by left).
  apply zoom_Ok in E as (c & E & ->). right. by exists c.
Qed.

Lemma begin_module_keeps (P : Csr.Store -> Prop) (k : APP) ctx m :
  (∀ c c' : Chain W Csr.Store, P (store c) -> Csr.BeginBlock c = (Ok tt, c') -> P (store c')) ->
  invariant (fun a => P (app_csr a)) (module_BeginBlock k ctx m).
Proof. intros HP a [] a' Ha [->|(c & E & ->)]%begin_module_csr; [done|]. by eapply HP, E. Qed.

Lemma begin_block_csr (k : APP) ctx t0 (a a' : App W) :
  BeginBlocker k ctx a = (Ok tt, a') -> turnstile_kept t0 (app_csr a) ->
  turnstile_kept t0 (app_csr a') ∧ csr_ready (app_csr a').
Proof.
  unfold BeginBlocker. rewrite manager_BeginBlock_spec. intros E Ha.
  assert (∀ c c' : Chain W Csr.Store, turnstile_kept t0 (store c) -> Csr.BeginBlock c = (Ok tt, c') ->
    turnstile_kept t0 (store c')) as Hbegin.
  { intros c c' Hc E'. eapply turnstile_kept_step; [|exact Hc].
    pose proof (csr_begin_block (CSRKeeper k) c) as Hs. by rewrite (proj2 (deliver_Ok _ _ _ _) E') in Hs. }
  change OrderBeginBlockers with (take 10 OrderBeginBlockers ++ mod_csr :: drop 11 OrderBeginBlockers) in E.
  apply for_each_app in E as (a1 & E1 & E). cbn [for_each] in E. apply bind_Ok in E as ([] & a2 & E2 & E3).
  eapply (invariant_for_each (fun a => turnstile_kept t0 (app_csr a))) in E1; [|intros m; by apply begin_module_keeps|done].
  cbn in E2. apply zoom_Ok in E2 as (c & E2 & ->). pose proof (BeginBlock_Ok _ _ _ E2) as [Hready _].
  apply Hbegin in E2; [|done].
  eapply (invariant_for_each (fun a => turnstile_kept t0 (app_csr a) ∧ csr_ready (app_csr a))) in E3; [done| |done].
  intros m. apply (begin_module_keeps (fun s => turnstile_kept t0 s ∧ csr_ready s)).
  intros c1 c2 [Hk _] Eb. pose proof (BeginBlock_Ok _ _ _ Eb) as [? _]. split; [by eapply Hbegin|done].
Qed.

(** A transaction of x/evm changes neither the Turnstile nor the parameters. *)
Lemma evm_tx_csr (k : APP) w msg receipt t0 (a : App W) :
  turnstile_kept t0 (app_csr a) ∧ csr_ready (app_csr a) ->
  let a' := (deliver (do! modify (with_world w); evm_hooks k msg receipt) a).2 in
  turnstile_kept t0 (app_csr a') ∧ csr_ready (app_csr a').
Proof.
  intros Ha. cbv zeta. revert Ha. set (P := fun a : App W => turnstile_kept t0 (app_csr a) ∧ csr_ready (app_csr a)).
  apply (invariant_deliver P), invariant_bind; [by apply invariant_modify|].
  intros _ a1 u a2 Ha E. unfold evm_hooks in E. rewrite NewMultiEvmHooks_spec in E. revert a1 u a2 Ha E.
  cbn [for_each]. apply invariant_bind; [by apply invariant_zoom|intros _].
  apply invariant_bind; [|intros _; by apply invariant_readonly].
  intros a1 [] a2 [[Hok Ht] Hr] (c & E & ->)%zoom_Ok. apply PostTxProcessing_frame in E as (Hok' & Hp' & Ht'); [|done].
  unfold P, turnstile_kept, csr_ready, turnstile_of in *. cbn in *. by rewrite Ht', Hp'.
Qed.

Definition port_of_app (a : App W) : option string := port_of (store (govshuttle_of a)).

Lemma app_step_kept (k : APP) t0 x y :
  app_step k x y -> turnstile_kept t0 (app_csr x.2) -> (x.1 = Delivering -> csr_ready (app_csr x.2)) ->
  turnstile_kept t0 (app_csr y.2) ∧ (y.1 = Delivering -> csr_ready (app_csr y.2)).
Proof.
  intros Hs Hk Hr.
  destruct Hs as [ctx a a' E|a|ph w a|w msg receipt a|packet relayer a|ph a c Hs|ph a c Hs|ph a c Hs|ph req a|ph req a|req a];
    cbn in *; try done.
  - by eapply begin_block_csr in E as [? ?].
  - destruct (evm_tx_csr k w msg receipt t0 a) as [? ?]; auto.
  - apply (invariant_deliver (fun a => turnstile_kept t0 (app_csr a) ∧ (Delivering = Delivering -> csr_ready (app_csr a))));
      [by apply invariant_zoom|done].
  - unfold deliver, zoom. by destruct (Inflation.msg_UpdateParams _ _ _) as [[] c].
  - unfold deliver, zoom. by destruct (Onboarding.msg_UpdateParams _ _ _) as [[] c].
  - split; [|done]. pose proof (csr_update_params (CSRKeeper k) (csr_of a) req) as Hs.
    apply (turnstile_kept_step t0) in Hs; [|done]. unfold deliver, zoom in *.
    by destruct (Csr.msg_UpdateParams _ _ _) as [[] c].
Qed.

Lemma app_step_port (k : APP) x y p :
  app_step k x y -> port_of_app x.2 = Some p -> port_of_app y.2 = Some p.
Proof.
  intros Hs. set (P := fun a : App W => port_of_app a = Some p).
  assert (∀ T (get : App W -> T) put R (m : M T R), (∀ t a, app_port (put t a) = app_port a) ->
    invariant P (zoom get put m)) as Hzoom.
  { intros T get put R m Hput. apply invariant_zoom. unfold P, port_of_app, port_of. cbn. intros a t. by rewrite Hput. }
  destruct Hs as [ctx a a' E|a|ph w a|w msg receipt a|packet relayer a|ph a c Hs|ph a c Hs|ph a c Hs|ph req a|ph req a|req a];
    cbn; try done.
  - unfold BeginBlocker in E. rewrite manager_BeginBlock_spec in E. intros Ha.
    refine (invariant_for_each P _ _ _ a tt a' Ha E). intros m.
    destruct m; try (by apply Hzoom); by apply invariant_readonly.
  - apply (invariant_deliver P), invariant_bind; [by apply invariant_modify|].
    intros _ a1 u a2 Ha E. unfold evm_hooks in E. rewrite NewMultiEvmHooks_spec in E. revert a1 u a2 Ha E.
    cbn [for_each]. apply invariant_bind; [by apply Hzoom|intros _].
    apply invariant_bind; [by apply Hzoom|intros _; by apply invariant_readonly].
  - by apply (invariant_deliver P), Hzoom.
  - intros Ha. apply gov_step_port in Hs as [->|[_ Hs]]; [done|by apply Hs].
  - by apply (invariant_deliver P), Hzoom.
  - by apply (invariant_deliver P), Hzoom.
  - by apply (invariant_deliver P), Hzoom.
Qed.

Lemma app_reach_kept (k : APP) n x y :
  app_reach k x n y -> csrs_ok (app_csr x.2) -> x.1 = Ending ->
  (turnstile_kept (turnstile_of (app_csr x.2)) (app_csr y.2) ∧ (y.1 = Delivering -> csr_ready (app_csr y.2))) ∧
  ∀ p, port_of_app x.2 = Some p -> port_of_app y.2 = Some p.
Proof.
  intros Hr Hok Hx. induction Hr as [|n y z Hr [[IH1 IH2] IH3] Hs]; [split; [split; [by split|by rewrite Hx]|done]|].
  split; [by eapply app_step_kept|]. intros p Hp. by eapply app_step_port, IH3.
Qed.


(** ** The hooks of a transaction *)

End app_facts.

(** ** Admission *)

(** The application's handler exists and admits only transactions that are
    Ethereum transactions, which have a chain of checks of their own, or whose
    messages are clean: no MsgEthereumTx and no message that creates a vesting
    account is granted or executed through authz, at any depth.  The hypothesis
    says that the decorator of the limiter is the one of app/ante/cosmos. *)
Theorem app_admits_clean_transactions {Ctx Tx} (run_decorator : Decorator -> Ctx -> Tx -> bool -> outcome Ctx)
    (GetExtensionOptions : Tx -> option (list string)) (GetMsgs : Tx -> list Msg) (simulation : bool) :
  (∀ disabled ctx tx sim ctx', run_decorator (AuthzLimiter disabled) ctx tx sim = Ok ctx' ->
   AnteHandle (NewAuthzLimiterDecorator disabled) ctx (GetMsgs tx) Ok = Some (Ok ctx')) ->
  ∃ h, setAnteHandler run_decorator GetExtensionOptions simulation = Ok h ∧
  ∀ ctx tx sim ctx', h ctx tx sim = Ok ctx' ->
  (∃ opts, GetExtensionOptions tx = Some ("/ethermint.evm.v1.ExtensionOptionsEthereumTx" :: opts)) ∨
  (∀ m, m ∈ GetMsgs tx -> clean (NewAuthzLimiterDecorator DisabledAuthzMsgs_of_app) false m) ∧
  (levels (GetMsgs tx) < 6)%nat.
Proof.
  intros Hlim. eexists. split; [reflexivity|]. intros ctx tx sim ctx'. unfold AnteHandler.
  destruct (choose_chain _ _) as [chain|e|] eqn:Hc; cbn; [|done|done].
  destruct (ChainAnteDecorators _ _ _ _ _) as [r|e|] eqn:Er; [|done|done]. intros _.
  pose proof (chain_passed _ _ _ chain ctx tx sim _ Hc Er) as Hp.
  assert (AuthzLimiter DisabledAuthzMsgs_of_app ∈ chain -> (∀ m, m ∈ GetMsgs tx ->
    clean (NewAuthzLimiterDecorator DisabledAuthzMsgs_of_app) false m) ∧ (levels (GetMsgs tx) < 6)%nat) as Hclean.
  { intros (before & after & ctx1 & ctx2 & _ & _ & Hrun%Hlim)%Hp. apply limiter_accepts. unfold AnteHandle in Hrun.
    by destruct (check_tx _ _) as [[[]|e|]|]. }
  unfold choose_chain in Hc. destruct (GetExtensionOptions tx) as [[|url opts]|] eqn:Ho.
  - right. apply Hclean. destruct simulation; injection Hc as <-; set_solver.
  - destruct (String.eqb_spec url "/ethermint.evm.v1.ExtensionOptionsEthereumTx") as [->|]; [left; by exists opts|].
    right. apply Hclean. case_match; [|done]. injection Hc as <-. set_solver.
  - right. apply Hclean. destruct simulation; injection Hc as <-; set_solver.
Qed.

(** ** Witnesses *)

#[export] Instance ref_names : LibraryNames := {
  authtypes_FeeCollectorName := "fee_collector";
  distrtypes_ModuleName := "distribution";
  stakingtypes_BondedPoolName := "bonded_tokens_pool";
  stakingtypes_NotBondedPoolName := "not_bonded_tokens_pool";
  govtypes_ModuleName := "gov";
  ibctransfertypes_ModuleName := "transfer";
  evmtypes_ModuleName := "evm"
}.

#[export] Instance ref_evm_inflation : InflationDeps EvmWorld := {
  GetModuleAccount m := ret (Some (mkAccount (default "" (ref_module_address m)) true));
  FundCommunityPool cs from := SendCoins from "module:distribution" cs;
  StakingTokenSupply _ := Ok 1000;
  TotalBondedTokens _ := Ok 500;
  PowerReduction := 10 ^ 18;
  NewDecCoinFromDec d a := Ok (d, a)
}.

#[export] Instance ref_app : AppDeps EvmWorld := {
  manager_BeginBlock order begin := for_each order begin;
  NewMultiEvmHooks hooks := fun msg receipt => for_each hooks (fun h => h msg receipt);
  lib_BeginBlock _ := ret tt;
  Handshake := unit;
  transfer_IBCModule := mkIBCModule (fun _ => ret "ics20-1") (fun _ => ret "ics20-1") (fun _ => ret tt) (fun _ => ret tt)
    (fun _ => ret tt) (fun _ => ret tt) (fun _ _ => ret None) (fun _ _ _ => ret tt) (fun _ _ => ret tt)
}.
#[export] Instance ref_app_laws : AppDepsLaws EvmWorld.
Proof. by split. Qed.

Definition ex_channel : ICS4Wrapper (Chain EvmWorld (Onboarding.Store Modules)) unit :=
  mkICS4Wrapper _ _ (fun _ => ret 1) (fun _ => ret tt) (fun _ _ _ => None).

(** The keepers [NewCanto] builds. *)
Definition ex_app : Canto EvmWorld unit :=
  mkCanto (Coinswap.mkKeeper "fee_collector" ModuleAccountAddrs (AccAddress_String (NewModuleAddress "gov")))
    (Inflation.mkKeeper "fee_collector" (AccAddress_String (NewModuleAddress "gov")))
    (Erc20.mkKeeper (AccAddress_String (NewModuleAddress "gov")))
    (Govshuttle.mkKeeper (AccAddress_String (NewModuleAddress "gov")))
    (Csr.mkKeeper "fee_collector" (AccAddress_String (NewModuleAddress "gov")))
    (Epochs.mkKeeper (Some [Inflation.Hooks (Inflation.mkKeeper "fee_collector" (AccAddress_String (NewModuleAddress "gov")))]))
    (Onboarding.mkKeeper (AccAddress_String (NewModuleAddress "gov")) (Some ex_channel)).
Lemma ex_app_built : NewCanto ex_channel = Ok ex_app.
Proof. reflexivity. Qed.

Definition ex_app_world : EvmWorld :=
  (mkRefWorld {[("module:fee_collector", "atuc") := 5000000%N]} {["atuc" := 9000000%N]} {[ex_alice := false]},
   mkEvmState ∅ {[ex_external := mkRefToken "ext" "EXT" 18; ex_app1 := mkRefToken "one" "ONE" 0]}
     {[(ex_external, ex_alice) := 500; (ex_external, Erc20Types.ModuleAddress) := 110]} ∅).
(** CSR is enabled with a share of one fifth; the Turnstile is stored or not. *)
Definition ex_app_state (turnstile : option string) : App EvmWorld :=
  mkApp ex_app_world (store CoinswapFacts.ex_start) (Inflation.mkStore None None None None None None) ex_erc20_store ∅
    (Csr.mkStore (Some (Csr.mkParams true (2 * 10 ^ 17))) {[UInt64ToBytes 7 := ex_csr]}
       {[Address_String ex_app1 := UInt64ToBytes 7]} turnstile)
    (Some Onboarding.DefaultParams) None.

Lemma ex_app_csr_ok turnstile : csrs_ok (app_csr (ex_app_state turnstile)).
Proof. destruct (ex_csr_store_ok (2 * 10 ^ 17)) as [Hc Hi]. by split. Qed.
Lemma ex_app_ok turnstile : app_ok (ex_app_state turnstile).
Proof.
  split; cbn; [apply ex_start_ok|apply ex_erc20_store_ok|apply ex_app_csr_ok|]. by intros p [= <-].
Qed.

(** A call of the registered contract in which 70 tokens reach x/erc20. *)
Definition ex_app_receipt : Receipt := mkReceipt 21000 [ex_transfer_log ex_alice].
Definition ex_app_block : App EvmWorld := (BeginBlocker ex_app (mkBlockCtx 0 1) (ex_app_state None)).2.
Definition ex_app_after : App EvmWorld :=
  (deliver (do! modify (with_world (app_world ex_app_block)); evm_hooks ex_app (mkTxMessage None 10) ex_app_receipt)
     ex_app_block).2.

Lemma ex_app_run : app_reach ex_app (Ending, ex_app_state None) 2 (Delivering, ex_app_after).
Proof.
  apply (app_reach_step _ _ 1 (Delivering, ex_app_block));
    [|exact (app_evm_tx ex_app (app_world ex_app_block) (mkTxMessage None 10) ex_app_receipt ex_app_block)].
  apply (app_reach_step _ _ 0 (Ending, ex_app_state None)); [apply app_reach_refl|].
  apply (app_begin_block _ (mkBlockCtx 0 1)). unfold ex_app_block.
  apply (run_Ok (BeginBlocker ex_app (mkBlockCtx 0 1))). vm_compute. reflexivity.
Qed.

Lemma application_stores_stay_consistent_witness : app_ok ex_app_after.
Proof.
  apply (application_stores_stay_consistent ex_app 2 Ending (ex_app_state None) Delivering ex_app_after).
  - apply ex_app_run.
  - apply ex_app_ok.
  - vm_compute. reflexivity.
Defined.



(** A handler whose decorators accept everything but what the limiter refuses. *)
Definition ex_run (d : Decorator) (ctx : nat) (tx : list Msg) (sim : bool) : outcome nat :=
  match d with
  | AuthzLimiter disabled =>
      match AnteHandle (NewAuthzLimiterDecorator disabled) ctx tx Ok with Some r => r | None => Panic end
  | _ => Ok (S ctx)
  end.
Lemma app_admits_clean_transactions_witness :
  ∃ h, setAnteHandler ex_run (fun _ => None) false = Ok h ∧
  is_Ok (h 0%nat [MsgExec (Some [OtherMsg "/ethermint.evm.v1.MsgEthereumTx"])] false) = false ∧
  is_Ok (h 0%nat [MsgExec (Some [OtherMsg "/canto.erc20.v1.MsgConvertCoin"])] false) = true ∧
  ∀ ctx', h 0%nat [MsgGrant (Some "/ethermint.evm.v1.MsgEthereumTx")] false ≠ Ok ctx'.
Proof.
  destruct (app_admits_clean_transactions ex_run (fun _ => None) id false) as (h & Hh & Hadmits).
  - intros disabled ctx tx sim ctx'. unfold ex_run. destruct (AnteHandle _ _ _ _); [|discriminate]. by intros ->.
  - exists h. split; [exact Hh|]. cbn in Hh. injection Hh as <-. split; [reflexivity|]. split; [reflexivity|].
    intros ctx' E. destruct (Hadmits _ _ _ _ E) as [[opts Ho]|[Hc _]]; [discriminate Ho|].
    specialize (Hc (MsgGrant (Some "/ethermint.evm.v1.MsgEthereumTx")) (list_elem_of_here _ _)).
    inversion Hc as [|b url Hn|]. apply Hn. by left.
Defined.
