(* ===== verification/Export.v ===== *)
(** * app/export.go: the state for a new genesis file

    The state [S] is the one of the modules of the SDK, which are parameters: the
    class [ExportKeepers] has the methods the code calls, and what x/staking and
    x/slashing keep by their keys. *)

From stdpp Require Import base gmap strings list.
From S2P Require Import Prelude Golang Sdk.

#[local] Open Scope Z_scope.
#[local] Open Scope go_scope.

(** ** Data of x/staking and x/slashing: the fields the code touches, and the rest *)

Record Validator := mkValidator {
  val_OperatorAddress : string;
  val_UnbondingHeight : Z;
  val_Jailed : bool;
  val_rest : string
}.
Record Delegation := mkDelegation { del_DelegatorAddress : string; del_ValidatorAddress : string }.
(** An entry of a redelegation or of an unbonding delegation. *)
Record Entry := mkEntry { CreationHeight : Z; entry_rest : string }.
(** A redelegation or an unbonding delegation, with the key it is stored under. *)
Record Unbonding := mkUnbonding { ub_key : string; ub_Entries : list Entry }.
Record ValidatorSigningInfo := mkValidatorSigningInfo { StartHeight : Z; info_rest : string }.

Class ExportKeepers (S : Type) := {
  ValAddressFromBech32 : string -> outcome string;
  ValAddress_String : string -> string;
  Export_AccAddressFromBech32 : string -> outcome string;
  (** x/crisis: panics on a broken invariant *)
  AssertInvariants : M S unit;
  (** x/distribution *)
  WithdrawValidatorCommission : string -> M S unit;
  WithdrawDelegationRewards : string -> string -> M S unit;
  DeleteAllValidatorSlashEvents : M S unit;
  DeleteAllValidatorHistoricalRewards : M S unit;
  GetValidatorOutstandingRewardsCoins : S -> string -> list (string * Z);
  FeePool_Get : S -> list (string * Z);
  FeePool_Set : list (string * Z) -> M S unit;
  DecCoins_Add : list (string * Z) -> list (string * Z) -> outcome (list (string * Z));
  AfterValidatorCreated : Z -> string -> M S unit;
  BeforeDelegationCreated : Z -> string -> string -> M S unit;
  AfterDelegationModified : Z -> string -> string -> M S unit;
  (** x/staking *)
  Validators : S -> gmap string Validator;
  Redelegations : S -> gmap string (list Entry);
  UnbondingDelegations : S -> gmap string (list Entry);
  GetAllDelegations : S -> outcome (list Delegation);
  SetValidator : Validator -> M S unit;
  SetRedelegation : Unbonding -> M S unit;
  SetUnbondingDelegation : Unbonding -> M S unit;
  ApplyAndReturnValidatorSetUpdates : M S unit;
  (** x/slashing *)
  SigningInfos : S -> gmap string ValidatorSigningInfo;
  SetValidatorSigningInfo : string -> ValidatorSigningInfo -> M S unit
}.

(** What x/staking and x/slashing keep. *)
Definition staking_of {S} `{ExportKeepers S} (s : S) :=
  (Validators s, Redelegations s, UnbondingDelegations s, SigningInfos s).

(** Writing one entry changes that entry; x/distribution and x/crisis do not
    write to the stores of x/staking and x/slashing; the update of the validator
    set keeps the records it is not about. *)
Class ExportLaws (S : Type) `{ExportKeepers S} : Prop := {
  val_address_roundtrip a s : ValAddressFromBech32 s = Ok a -> ValAddress_String a = s;
  SetValidator_run v a s : ValAddressFromBech32 (val_OperatorAddress v) = Ok a ->
    ∃ s', SetValidator v s = (Ok tt, s') ∧
      staking_of s' = (<[a := v]> (Validators s), Redelegations s, UnbondingDelegations s, SigningInfos s);
  SetRedelegation_run red s : ∃ s', SetRedelegation red s = (Ok tt, s') ∧
    staking_of s' = (Validators s, <[ub_key red := ub_Entries red]> (Redelegations s), UnbondingDelegations s, SigningInfos s);
  SetUnbondingDelegation_run ubd s : ∃ s', SetUnbondingDelegation ubd s = (Ok tt, s') ∧
    staking_of s' = (Validators s, Redelegations s, <[ub_key ubd := ub_Entries ubd]> (UnbondingDelegations s), SigningInfos s);
  SetValidatorSigningInfo_run a info s : ∃ s', SetValidatorSigningInfo a info s = (Ok tt, s') ∧
    staking_of s' = (Validators s, Redelegations s, UnbondingDelegations s, <[a := info]> (SigningInfos s));
  crisis_frame s : staking_of (AssertInvariants s).2 = staking_of s;
  commission_frame a s : staking_of (WithdrawValidatorCommission a s).2 = staking_of s;
  rewards_frame a b s : staking_of (WithdrawDelegationRewards a b s).2 = staking_of s;
  slash_events_frame s : staking_of (DeleteAllValidatorSlashEvents s).2 = staking_of s;
  historical_frame s : staking_of (DeleteAllValidatorHistoricalRewards s).2 = staking_of s;
  pool_frame pool s : staking_of (FeePool_Set pool s).2 = staking_of s;
  created_frame h a s : staking_of (AfterValidatorCreated h a s).2 = staking_of s;
  before_frame h a b s : staking_of (BeforeDelegationCreated h a b s).2 = staking_of s;
  modified_frame h a b s : staking_of (AfterDelegationModified h a b s).2 = staking_of s;
  (** The update of the validator set changes the status of validators, and the
      height and time at which one that leaves the set starts to unbond; it
      neither adds nor removes a validator, and leaves the records of unbonding
      and redelegated coins alone. *)
  set_update_frame s s' : ApplyAndReturnValidatorSetUpdates s = (Ok tt, s') ->
    Redelegations s' = Redelegations s ∧ UnbondingDelegations s' = UnbondingDelegations s ∧
    ∀ a, (fun v => (val_OperatorAddress v, val_Jailed v)) <$> Validators s' !! a =
         (fun v => (val_OperatorAddress v, val_Jailed v)) <$> Validators s !! a
}.

Section export.
Context {S : Type} `{ExportKeepers S}.

(** [_ = m(...)]: an error is dropped. *)
Definition ignore {A} (m : M S A) : M S unit := do! attempt m; ret tt.

(** An iterator visits the entries present when it is opened, in the order of the
    keys; callbacks only overwrite the entry they were given. *)
Definition IterateValidators (fn : Validator -> M S unit) : M S unit :=
  let* vals := gets (fun s => (kv_iterate (Validators s)).*2) in for_each vals fn.
Definition IterateRedelegations (fn : Unbonding -> M S unit) : M S unit :=
  let* reds := gets (fun s => (fun e => mkUnbonding e.1 e.2) <$> kv_iterate (Redelegations s)) in for_each reds fn.
Definition IterateUnbondingDelegations (fn : Unbonding -> M S unit) : M S unit :=
  let* ubds := gets (fun s => (fun e => mkUnbonding e.1 e.2) <$> kv_iterate (UnbondingDelegations s)) in for_each ubds fn.
Definition IterateValidatorSigningInfos (fn : string -> ValidatorSigningInfo -> M S unit) : M S unit :=
  let* infos := gets (fun s => kv_iterate (SigningInfos s)) in for_each infos (fun e => fn e.1 e.2).

(** The bytes of an operator address; the error of the conversion is dropped, and
    the result of a failed one is nil. *)
Definition operator_bytes (val : Validator) : string :=
  match ValAddressFromBech32 (val_OperatorAddress val) with Ok bz => bz | _ => "" end.

(** The map of allowed addresses, or the error of the first that is none. *)
Fixpoint allowed_addrs (addrs : list string) (allowedAddrsMap : gset string) : outcome (gset string) :=
  match addrs with
  | [] => Ok allowedAddrsMap
  | addr :: addrs' =>
      let? _ := ValAddressFromBech32 addr in allowed_addrs addrs' ({[addr]} ∪ allowedAddrsMap)
  end.

(** The addresses of a delegation are decoded before [fn] is called with them. *)
Definition with_addresses (fn : string -> string -> M S unit) (del : Delegation) : M S unit :=
  let* valAddr := lift (ValAddressFromBech32 (del_ValidatorAddress del)) in
  let* delAddr := lift (Export_AccAddressFromBech32 (del_DelegatorAddress del)) in
  fn delAddr valAddr.

(** [for i := range red.Entries { red.Entries[i].CreationHeight = 0 }] *)
Definition reset_entries (u : Unbonding) : Unbonding :=
  mkUnbonding (ub_key u) ((fun e => mkEntry 0 (entry_rest e)) <$> ub_Entries u).

(** The body of the loop over the validators. *)
Definition reset_validator (applyAllowedAddrs : bool) (allowedAddrsMap : gset string) (addr : string) : M S unit :=
  let* found := gets (fun s => Validators s !! addr) in
  match found with
  | None => fail (Plain "expected validator not found")
  | Some validator =>
      let jailed := if applyAllowedAddrs && negb (bool_decide (ValAddress_String addr ∈ allowedAddrsMap))
                    then true else val_Jailed validator in
      ignore (SetValidator (mkValidator (val_OperatorAddress validator) 0 jailed (val_rest validator)))
  end.

(** Rewards of a validator that were not withdrawn go to the community pool. *)
Definition donate_scraps (valbz : string) : M S unit :=
  let* scraps := gets (fun s => GetValidatorOutstandingRewardsCoins s valbz) in
  let* communityPool := gets FeePool_Get in
  let* communityPool := lift (DecCoins_Add communityPool scraps) in
  ignore (FeePool_Set communityPool).

(** "Handle fee distribution state." *)
Definition reset_distribution : M S unit :=
  do! IterateValidators (fun val => ignore (WithdrawValidatorCommission (operator_bytes val)));
  let* dels := gets GetAllDelegations in
  let* dels := lift dels in
  do! for_each dels (with_addresses (fun delAddr valAddr => ignore (WithdrawDelegationRewards delAddr valAddr)));
  do! ignore DeleteAllValidatorSlashEvents;
  do! ignore DeleteAllValidatorHistoricalRewards;
  do! IterateValidators (fun val =>
        do! donate_scraps (operator_bytes val); ignore (AfterValidatorCreated 0 (operator_bytes val)));
  for_each dels (with_addresses (fun delAddr valAddr =>
    do! ignore (BeforeDelegationCreated 0 delAddr valAddr); ignore (AfterDelegationModified 0 delAddr valAddr))).

(** "Handle staking state.", up to the update of the validator set. *)
Definition reset_staking (applyAllowedAddrs : bool) (allowedAddrsMap : gset string) : M S unit :=
  do! IterateRedelegations (fun red => ignore (SetRedelegation (reset_entries red)));
  do! IterateUnbondingDelegations (fun ubd => ignore (SetUnbondingDelegation (reset_entries ubd)));
  let* addrs := gets (fun s => rev (kv_iterate (Validators s)).*1) in
  for_each addrs (reset_validator applyAllowedAddrs allowedAddrsMap).

Definition prepForZeroHeightGenesis (jailAllowedAddrs : list string) : M S unit :=
  let applyAllowedAddrs := (0 <? length jailAllowedAddrs)%nat in
  let* allowedAddrsMap := lift (allowed_addrs jailAllowedAddrs ∅) in
  do! AssertInvariants;
  do! reset_distribution;
  do! reset_staking applyAllowedAddrs allowedAddrsMap;
  do! ApplyAndReturnValidatorSetUpdates;
  IterateValidatorSigningInfos (fun addr info =>
    ignore (SetValidatorSigningInfo addr (mkValidatorSigningInfo 0 (info_rest info)))).

(** The exported application: [ExportGenesisForModules] with its text form, and
    [WriteValidators], are library functions. *)
Record ExportedApp (G V : Type) := mkExportedApp { AppState : G; Exported_Validators : V; Height : Z }.
Arguments mkExportedApp {G V} _ _ _.

Definition ExportAppStateAndValidators {G V} (exportGenesis : S -> list string -> outcome G)
    (WriteValidators : S -> outcome V) (LastBlockHeight : Z) (forZeroHeight : bool)
    (jailAllowedAddrs modulesToExport : list string) : M S (ExportedApp G V) :=
  let height := if forZeroHeight then 0 else sint64 (LastBlockHeight + 1) in
  do! (if forZeroHeight then prepForZeroHeightGenesis jailAllowedAddrs else ret tt);
  let* appState := gets (fun s => exportGenesis s modulesToExport) in
  let* appState := lift appState in
  let* validators := gets WriteValidators in
  let* validators := lift validators in
  ret (mkExportedApp appState validators height).

End export.

(** ** Theorems *)

Section export_facts.
Context {S : Type} {EK : ExportKeepers S} {EL : ExportLaws S}.

(** *** Updating every entry of a table *)

Lemma for_each_update {X V F} (tbl : S -> gmap string V) (frame : S -> F) (key : X -> string) (g : string -> V -> V)
    (f : X -> M S unit) l s :
  NoDup (key <$> l) -> (∀ x, x ∈ l -> is_Some (tbl s !! key x)) ->
  (∀ x v s1, x ∈ l -> tbl s !! key x = Some v -> tbl s1 !! key x = Some v -> ∃ s2, f x s1 = (Ok tt, s2) ∧
     tbl s2 = <[key x := g (key x) v]> (tbl s1) ∧ frame s2 = frame s1) ->
  ∃ s', for_each l f s = (Ok tt, s') ∧ frame s' = frame s ∧
    ∀ k, tbl s' !! k = if decide (k ∈ key <$> l) then g k <$> tbl s !! k else tbl s !! k.
Proof.
  revert s. induction l as [|x l IH]; intros s Hnd Hin Hf.
  - exists s. split_and!; [done|done|]. intros k. by rewrite decide_False by set_solver.
  - cbn in Hnd. apply NoDup_cons in Hnd as [Hx Hnd]. destruct (Hin x) as [v Hv]; [left|].
    destruct (Hf x v s) as (s2 & E2 & Ht & Hfr); [left|done|done|].
    assert (∀ y, y ∈ l -> tbl s2 !! key y = tbl s !! key y) as Hsame.
    { intros y Hy. rewrite Ht, lookup_insert_ne; [done|]. intros Ek. apply Hx. rewrite Ek. by apply list_elem_of_fmap_2. }
    destruct (IH s2 Hnd) as (s' & E' & Hfr' & Ht').
    + intros y Hy. rewrite Hsame by done. apply Hin. by right.
    + intros y w s1 Hy Hw Hs1. rewrite Hsame in Hw by done. by apply Hf; [right|..].
    + exists s'. cbn [for_each]. rewrite (bind_run _ _ _ _ _ E2). split_and!; [done|congruence|].
      intros k. rewrite Ht', Ht. cbn [fmap list_fmap]. destruct (decide (k = key x)) as [->|Hne].
      * rewrite decide_False, decide_True, lookup_insert_eq, Hv by (done || left). done.
      * rewrite lookup_insert_ne by done. destruct (decide (k ∈ key <$> l)) as [Hk|Hk].
        -- by rewrite decide_True by (by right).
        -- rewrite decide_False; [done|]. by rewrite elem_of_cons; intros [?|?].
Qed.

(** The keys of the table are those of the list. *)
Lemma update_table {X V F} (tbl : S -> gmap string V) (frame : S -> F) (key : X -> string) (g : string -> V -> V)
    (f : X -> M S unit) l s :
  (key <$> l) ≡ₚ (kv_iterate (tbl s)).*1 ->
  (∀ x v s1, x ∈ l -> tbl s !! key x = Some v -> tbl s1 !! key x = Some v -> ∃ s2, f x s1 = (Ok tt, s2) ∧
     tbl s2 = <[key x := g (key x) v]> (tbl s1) ∧ frame s2 = frame s1) ->
  ∃ s', for_each l f s = (Ok tt, s') ∧ frame s' = frame s ∧ ∀ k, tbl s' !! k = g k <$> tbl s !! k.
Proof.
  intros Hp Hf. assert (∀ k, k ∈ key <$> l <-> is_Some (tbl s !! k)) as Hkeys.
  { intros k. rewrite Hp, list_elem_of_fmap. split.
    - intros ([k' v] & -> & Hl%elem_of_kv_iterate). by exists v.
    - intros [v Hv]. exists (k, v). split; [done|]. by apply elem_of_kv_iterate. }
  destruct (for_each_update tbl frame key g f l s) as (s' & E & Hfr & Ht); [| |done|].
  - rewrite Hp. apply kv_iterate_NoDup.
  - intros x Hx. apply Hkeys. by apply list_elem_of_fmap_2.
  - exists s'. split_and!; [done|done|]. intros k. rewrite Ht. case_decide as Hk; [done|].
    destruct (tbl s !! k) eqn:Ek; [|done]. destruct Hk. apply Hkeys. by rewrite Ek.
Qed.

Lemma ignore_run {A} (m : M S A) a s s' : m s = (Ok a, s') -> ignore m s = (Ok tt, s').
Proof. intros E. unfold ignore, bind, attempt. by rewrite E. Qed.

(** *** The parts *)

(** The entries and validators of the new start. *)
Definition restart_entries (es : list Entry) : list Entry := (fun e => mkEntry 0 (entry_rest e)) <$> es.
Definition restart_info (info : ValidatorSigningInfo) : ValidatorSigningInfo := mkValidatorSigningInfo 0 (info_rest info).
Definition restart_validator (allowed : list string) (addr : string) (v : Validator) : Validator :=
  mkValidator (val_OperatorAddress v) 0
    (if bool_decide (allowed ≠ [] ∧ ValAddress_String addr ∉ allowed) then true else val_Jailed v) (val_rest v).

(** Validators are stored under the bytes of their operator address. *)
Definition validators_keyed (s : S) : Prop :=
  ∀ a v, Validators s !! a = Some v -> ValAddressFromBech32 (val_OperatorAddress v) = Ok a.

Lemma allowed_addrs_spec addrs seen :
  (∀ r, allowed_addrs addrs seen = Ok r ->
     (∀ a, a ∈ addrs -> is_Ok (ValAddressFromBech32 a) = true) ∧ r = list_to_set addrs ∪ seen) ∧
  ((∀ a, a ∈ addrs -> is_Ok (ValAddressFromBech32 a) = true) -> ∃ r, allowed_addrs addrs seen = Ok r).
Proof.
  revert seen. induction addrs as [|a addrs IH]; intros seen; cbn.
  { split; [|by exists seen]. intros r [= <-]. split; [set_solver|]. by rewrite (left_id_L ∅ (∪)). }
  destruct (IH ({[a]} ∪ seen)) as [IH1 IH2]. split.
  - intros r (b & Hb & [Hall ->]%IH1)%obind_Ok. split; [|set_solver].
    intros x [->|Hx]%elem_of_cons; [by rewrite Hb|by apply Hall].
  - intros Hall. pose proof (Hall a (list_elem_of_here _ _)) as Ha.
    destruct (ValAddressFromBech32 a); [|done|done]. apply IH2. intros x Hx. apply Hall. by right.
Qed.

Lemma redelegations_run s : ∃ s',
  IterateRedelegations (fun red => ignore (SetRedelegation (reset_entries red))) s = (Ok tt, s') ∧
  (Validators s', UnbondingDelegations s', SigningInfos s') = (Validators s, UnbondingDelegations s, SigningInfos s) ∧
  ∀ k, Redelegations s' !! k = restart_entries <$> Redelegations s !! k.
Proof.
  unfold IterateRedelegations, bind, gets.
  apply (update_table Redelegations (fun s => (Validators s, UnbondingDelegations s, SigningInfos s)) ub_key
    (fun _ => restart_entries)).
  - by rewrite <-list_fmap_compose.
  - intros u es s1 Hu Hes Hs1. destruct (SetRedelegation_run (reset_entries u) s1) as (s2 & E & Hst).
    exists s2. injection Hst as Hv Hr Hub Hsi. split_and!; [by eapply ignore_run| |by rewrite Hv, Hub, Hsi].
    rewrite Hr. apply list_elem_of_fmap in Hu as ([k es'] & -> & Hl%elem_of_kv_iterate). cbn in *. by simplify_eq.
Qed.

Lemma unbondings_run s : ∃ s',
  IterateUnbondingDelegations (fun ubd => ignore (SetUnbondingDelegation (reset_entries ubd))) s = (Ok tt, s') ∧
  (Validators s', Redelegations s', SigningInfos s') = (Validators s, Redelegations s, SigningInfos s) ∧
  ∀ k, UnbondingDelegations s' !! k = restart_entries <$> UnbondingDelegations s !! k.
Proof.
  unfold IterateUnbondingDelegations, bind, gets.
  apply (update_table UnbondingDelegations (fun s => (Validators s, Redelegations s, SigningInfos s)) ub_key
    (fun _ => restart_entries)).
  - by rewrite <-list_fmap_compose.
  - intros u es s1 Hu Hes Hs1. destruct (SetUnbondingDelegation_run (reset_entries u) s1) as (s2 & E & Hst).
    exists s2. injection Hst as Hv Hr Hub Hsi. split_and!; [by eapply ignore_run| |by rewrite Hv, Hr, Hsi].
    rewrite Hub. apply list_elem_of_fmap in Hu as ([k es'] & -> & Hl%elem_of_kv_iterate). cbn in *. by simplify_eq.
Qed.

Lemma signing_infos_run s : ∃ s',
  IterateValidatorSigningInfos (fun addr info =>
    ignore (SetValidatorSigningInfo addr (mkValidatorSigningInfo 0 (info_rest info)))) s = (Ok tt, s') ∧
  (Validators s', Redelegations s', UnbondingDelegations s') = (Validators s, Redelegations s, UnbondingDelegations s) ∧
  ∀ k, SigningInfos s' !! k = restart_info <$> SigningInfos s !! k.
Proof.
  unfold IterateValidatorSigningInfos, bind, gets.
  apply (update_table SigningInfos (fun s => (Validators s, Redelegations s, UnbondingDelegations s)) fst
    (fun _ => restart_info)); [done|].
  intros [a info] info' s1 Hl%elem_of_kv_iterate Hi Hs1. cbn in *.
  destruct (SetValidatorSigningInfo_run a (restart_info info) s1) as (s2 & E & Hst).
  exists s2. injection Hst as Hv Hr Hub Hsi. split_and!; [by eapply ignore_run|by simplify_eq|by rewrite Hv, Hr, Hub].
Qed.

Lemma validators_run allowed s : validators_keyed s -> ∃ s',
  for_each (rev (kv_iterate (Validators s)).*1) (reset_validator (0 <? length allowed)%nat (list_to_set allowed)) s
    = (Ok tt, s') ∧
  (Redelegations s', UnbondingDelegations s', SigningInfos s') = (Redelegations s, UnbondingDelegations s, SigningInfos s) ∧
  ∀ a, Validators s' !! a = restart_validator allowed a <$> Validators s !! a.
Proof.
  intros Hkey.
  apply (update_table Validators (fun s => (Redelegations s, UnbondingDelegations s, SigningInfos s)) id
    (restart_validator allowed)).
  - rewrite list_fmap_id. apply Permutation_sym, Permutation_rev.
  - intros a v s1 _ Hv Hs1. unfold id in *. unfold reset_validator, bind, gets. rewrite Hs1.
    assert ((0 <? length allowed)%nat && negb (bool_decide (ValAddress_String a ∈ (list_to_set allowed : gset string)))
      = bool_decide (allowed ≠ [] ∧ ValAddress_String a ∉ allowed)) as ->.
    { rewrite bool_decide_and, bool_decide_not. f_equal.
      - destruct allowed; [by rewrite bool_decide_true|by rewrite bool_decide_false].
      - rewrite <-bool_decide_not. apply bool_decide_ext. by rewrite elem_of_list_to_set. }
    destruct (SetValidator_run (restart_validator allowed a v) a s1) as (s2 & E & Hst); [exact (Hkey a v Hv)|].
    exists s2. injection Hst as Hva Hr Hub Hsi. split_and!; [by eapply ignore_run|done|by rewrite Hr, Hub, Hsi].
Qed.

(** x/distribution leaves x/staking and x/slashing alone. *)
Lemma ignore_frame {A} s0 (m : M S A) : (∀ s, staking_of (m s).2 = staking_of s) ->
  invariant (fun s => staking_of s = s0) (ignore m).
Proof.
  intros Hm. apply invariant_bind; [|intros _; by apply invariant_readonly].
  apply invariant_attempt. intros s <-. apply Hm.
Qed.

Lemma with_addresses_frame s0 (fn : string -> string -> M S unit) del :
  (∀ a b, invariant (fun s => staking_of s = s0) (fn a b)) ->
  invariant (fun s => staking_of s = s0) (with_addresses fn del).
Proof. intros Hf. unfold with_addresses. invariants. Qed.

Lemma reset_distribution_frame s0 : invariant (fun s => staking_of s = s0) reset_distribution.
Proof.
  assert (∀ bz, invariant (fun s => staking_of s = s0) (donate_scraps bz)) as Hscraps.
  { intros bz. unfold donate_scraps.
    do 3 (apply invariant_bind; [by apply invariant_readonly|intros ?]). apply ignore_frame, pool_frame. }
  unfold reset_distribution, IterateValidators.
  repeat first
    [ solve [eauto with chain]
    | apply ignore_frame; first [apply commission_frame|apply rewards_frame|apply slash_events_frame
        |apply historical_frame|apply created_frame|apply before_frame|apply modified_frame]
    | apply with_addresses_frame; intros
    | apply invariant_for_each; intros
    | apply invariant_bind; [|intros] ].
Qed.

(** A validator that was restarted, after an update that keeps operator and flag. *)
Lemma restarted_and_updated allowed a (before after : option Validator) :
  (fun v => (val_OperatorAddress v, val_Jailed v)) <$> after =
  (fun v => (val_OperatorAddress v, val_Jailed v)) <$> (restart_validator allowed a <$> before) ->
  match before, after with
  | Some v, Some v' => val_OperatorAddress v' = val_OperatorAddress v ∧
      (val_Jailed v' = true <-> val_Jailed v = true ∨ allowed ≠ [] ∧ ValAddress_String a ∉ allowed)
  | None, None => True
  | _, _ => False
  end.
Proof.
  destruct before as [v|], after as [v'|]; cbn; try done. intros [= Ho ->]. split; [done|].
  case_bool_decide; naive_solver.
Qed.

(** *** The theorem *)

End export_facts.

(** ** A concrete state for the witness *)

Definition RefStaking : Type :=
  gmap string Validator * gmap string (list Entry) * gmap string (list Entry) * gmap string ValidatorSigningInfo.

(** Operator addresses are the bytes after "val". *)
Definition ref_val_address (s : string) : outcome string :=
  if String.eqb (take_bytes 3 s) "val" then Ok (drop_bytes 3 s) else Err (Plain "not an operator address").

#[local] Instance ref_export : ExportKeepers RefStaking := {
  ValAddressFromBech32 := ref_val_address;
  ValAddress_String a := "val" +:+ a;
  Export_AccAddressFromBech32 s := Ok s;
  AssertInvariants := ret tt;
  WithdrawValidatorCommission _ := ret tt;
  WithdrawDelegationRewards _ _ := ret tt;
  DeleteAllValidatorSlashEvents := ret tt;
  DeleteAllValidatorHistoricalRewards := ret tt;
  GetValidatorOutstandingRewardsCoins _ _ := [];
  FeePool_Get _ := [];
  FeePool_Set _ := ret tt;
  DecCoins_Add a b := Ok (a ++ b);
  AfterValidatorCreated _ _ := ret tt;
  BeforeDelegationCreated _ _ _ := ret tt;
  AfterDelegationModified _ _ _ := ret tt;
  Validators s := s.1.1.1;
  Redelegations s := s.1.1.2;
  UnbondingDelegations s := s.1.2;
  GetAllDelegations _ := Ok [mkDelegation "alice" "valA"];
  SetValidator v := match ref_val_address (val_OperatorAddress v) with
    | Ok a => modify (fun s => (<[a := v]> s.1.1.1, s.1.1.2, s.1.2, s.2))
    | _ => panic
    end;
  SetRedelegation u := modify (fun s => (s.1.1.1, <[ub_key u := ub_Entries u]> s.1.1.2, s.1.2, s.2));
  SetUnbondingDelegation u := modify (fun s => (s.1.1.1, s.1.1.2, <[ub_key u := ub_Entries u]> s.1.2, s.2));
  (** jailed validators leave the set at height 12 *)
  ApplyAndReturnValidatorSetUpdates := modify (fun s =>
    ((fun v => if val_Jailed v then mkValidator (val_OperatorAddress v) 12 true "unbonding" else v) <$> s.1.1.1, s.1.1.2, s.1.2, s.2));
  SigningInfos s := s.2;
  SetValidatorSigningInfo a info := modify (fun s => (s.1.1.1, s.1.1.2, s.1.2, <[a := info]> s.2))
}.

#[local] Instance ref_export_laws : ExportLaws RefStaking.
Proof.
  split; try done.
  - intros a s. cbn. unfold ref_val_address. destruct (String.eqb_spec (take_bytes 3 s) "val") as [Hp|]; [|done].
    intros [= <-]. rewrite <-Hp. by destruct s as [|c1 [|c2 [|c3 s]]].
  - intros v a s E. cbn in *. rewrite E. by eexists.
  - intros u s. by eexists.
  - intros u s. by eexists.
  - intros a info s. by eexists.
  - intros s s' [= <-]. split_and!; [done..|]. intros a. cbn. rewrite lookup_fmap, <-option_fmap_compose.
    destruct (_ !! a) as [[o h [] r]|]; reflexivity.
Qed.

Definition ex_staking : RefStaking :=
  ({["A" := mkValidator "valA" 7 false ""; "B" := mkValidator "valB" 0 false ""]},
   {["r" := [mkEntry 9 "x"]]}, ∅, {["A" := mkValidatorSigningInfo 5 ""]}).

