(* ===== verification/Queries.v ===== *)
(** * Queries that return a page of a store

    [query.Paginate] of the SDK walks over a part of a store and calls [onResult]
    with the entries; it is a parameter here, with its documented behaviour as a
    law.  The queries of the modules run it on their byte stores (as in
    [ByteStore.v]).  Following the key of the next page from answer to answer
    lists the whole store, each entry once and in order. *)

From Stdlib Require Import Ascii.
From stdpp Require Import base gmap strings list sorting.
From S2P Require Import Prelude Golang Sdk Ethereum CoinswapTypes Coinswap Epochs Erc20Types Erc20 Csr CsrFacts.
From S2P Require Import Wire WireFacts WireCodec WireSdk CoinswapCodec EpochsCodec Erc20Codec CsrCodec ByteStore.

#[local] Open Scope Z_scope.
#[local] Open Scope go_scope.

(** ** query.Paginate *)

(** A callback that appends a value to the answer, or fails. *)
Abbreviation on_result X := (string -> bytes -> outcome X).

Class Pagination := {
  (** [None] is a nil page request *)
  Paginate {X} : KVStore -> option PageRequest -> on_result X -> outcome (list X * PageResponse)
}.

Fixpoint collect {X} (onResult : on_result X) (l : list (string * bytes)) : outcome (list X) :=
  match l with
  | [] => Ok []
  | (key, value) :: l' => let? x := onResult key value in let? xs := collect onResult l' in Ok (x :: xs)
  end.

(** A page without a key starts with the first entry of the store, one with a key
    with the entry of that key; the answer has the key of the entry after the
    page, or none at the end. *)
Class PaginationLaws `{Pagination} : Prop := {
  Paginate_page {X} (s : KVStore) key i limit (onResult : on_result X) :
    (0 < limit)%nat ->
    (key = "" ∧ i = 0%nat ∨ key ≠ "" ∧ ∃ value, kv_iterate s !! i = Some (key, value)) ->
    Paginate s (Some (mkPageRequest key 0 (Z.of_nat limit) false false)) onResult =
    let rest := drop i (kv_iterate s) in
    let? xs := collect onResult (take limit rest) in
    Ok (xs, mkPageResponse (match rest !! limit with Some e => e.1 | None => "" end) 0)
}.

(** ** The queries

    [req] is the pointer to the request, whose only field is the page request. *)

(** [if err != nil { return nil, status.Error(codes.Internal, err.Error()) }] *)
Definition internal {A} (o : outcome A) : outcome A :=
  match o with Err _ => Err (Foreign "codes.Internal") | r => r end.

Definition empty_request : error := Foreign "codes.InvalidArgument".

Section queries.
Context {SC : SdkCodecs} {PG : Pagination}.

(** x/erc20 *)
Definition query_TokenPairs (req : option (option PageRequest)) (s : KVStore) : outcome (list TokenPair * PageResponse) :=
  match req with
  | None => Err empty_request
  | Some page => internal (Paginate s page (fun _ value => Unmarshal TokenPair_codec value (zero TokenPair_codec)))
  end.

(** x/epochs *)
Definition query_EpochInfos (req : option (option PageRequest)) (s : KVStore) : outcome (list EpochInfo * PageResponse) :=
  match req with
  | None => Err empty_request
  | Some page => internal (Paginate s page (fun _ value => Unmarshal EpochInfo_codec value (zero EpochInfo_codec)))
  end.

(** x/csr: the CSR is read again by its number, and dereferenced. *)
Definition kv_GetCSR (nftId : Z) (s : KVStore) : outcome (option CSR) := get_value CSR_codec (UInt64ToBytes nftId) s.

Definition query_CSRs (req : option (option PageRequest)) (s : KVStore) : outcome (list CSR * PageResponse) :=
  match req with
  | None => Err empty_request
  | Some page =>
      internal (Paginate s page (fun key _ =>
        let? nft := BytesToUInt64 key in
        let? csr := kv_GetCSR nft s in
        match csr with Some csr => Ok csr | None => Panic end))
  end.

(** x/coinswap: the information of a pool is computed as for a single one. *)
Definition pool_info {W} `{SdkMath, SdkTypes, Hashes, AccountKeeper W, BankKeeper W} (params : CoinswapTypes.Params)
    (c : Chain W Coinswap.Store) (pool : Pool) : outcome PoolInfo :=
  let? balances := (GetPoolBalancesByLptDenom (Pool_LptDenom pool) c).1 in
  let? standardAmt := Coins_AmountOf balances (Pool_StandardDenom pool) in
  let? standard := NewCoin (Pool_StandardDenom pool) standardAmt in
  let? tokenAmt := Coins_AmountOf balances (Pool_CounterpartyDenom pool) in
  let? token := NewCoin (Pool_CounterpartyDenom pool) tokenAmt in
  Ok (mkPoolInfo (Pool_Id pool) (Pool_EscrowAddress pool) standard token
        (mkCoin (Pool_LptDenom pool) (GetSupply (world c) (Pool_LptDenom pool))) (dec_String (Fee params))).

Definition query_LiquidityPools {W} `{SdkMath, SdkTypes, Hashes, AccountKeeper W, BankKeeper W}
    (req : option (option PageRequest)) (c : Chain W Coinswap.Store) (s : KVStore)
    : outcome (list PoolInfo * PageResponse) :=
  match req with
  | None => Err empty_request
  | Some page =>
      let? params := (Coinswap.GetParams c).1 in
      Paginate s page (fun _ value =>
        let? pool := MustUnmarshal Pool_codec value in pool_info params c pool)
  end.

End queries.

(** ** Following the pages *)

(** What a client does: ask for the next page until there is none. *)
Fixpoint all_pages {X} (query : PageRequest -> outcome (list X * PageResponse)) (fuel limit : nat) (key : string)
    : outcome (list X) :=
  match fuel with
  | O => Panic
  | S fuel =>
      let? '(xs, res) := query (mkPageRequest key 0 (Z.of_nat limit) false false) in
      if String.eqb (NextKey res) "" then Ok xs
      else let? ys := all_pages query fuel limit (NextKey res) in Ok (xs ++ ys)
  end.

(** Only the first key of a store can be empty. *)
Lemma string_le_empty s : String.le s "" -> s = "".
Proof. by destruct s. Qed.

#[local] Instance entry_le_trans' {V} : Transitive (@entry_le V).
Proof. intros a b c. unfold entry_le. apply transitivity. Qed.

Lemma later_key_nonempty {V} (m : gmap string V) i k v :
  (0 < i)%nat -> kv_iterate m !! i = Some (k, v) -> k ≠ "".
Proof.
  intros Hi Hl ->. pose proof (kv_iterate_sorted m) as Hs. pose proof (kv_iterate_NoDup m) as Hn.
  apply Sorted_StronglySorted in Hs; [|apply _].
  destruct (kv_iterate m) as [|[k0 v0] l]; [done|]. destruct i as [|i]; [lia|]. cbn in Hl.
  apply StronglySorted_inv in Hs as [_ Hf]. rewrite Forall_forall in Hf.
  apply list_elem_of_lookup_2 in Hl. pose proof (Hf _ Hl) as Hle. apply string_le_empty in Hle. cbn in Hle. subst.
  apply NoDup_cons in Hn as [Hn _]. apply Hn. by apply (list_elem_of_fmap_2 fst _ ("", v)).
Qed.

Lemma collect_Ok {X} (f : on_result X) (g : string * bytes -> X) l :
  (∀ k b, (k, b) ∈ l -> f k b = Ok (g (k, b))) -> collect f l = Ok (g <$> l).
Proof.
  induction l as [|[k b] l IH]; intros Hf; cbn; [done|]. rewrite Hf by left. cbn. rewrite IH; [done|].
  intros k' b' Hl. apply Hf. by right.
Qed.

Section paging.
Context {PG : Pagination} {PL : PaginationLaws}.

(** Pages of any size list everything that [onResult] makes of the store. *)
Lemma pages_complete {X} (s : KVStore) (f : on_result X) g (limit fuel : nat) :
  (0 < limit)%nat -> (∀ k b, s !! k = Some b -> f k b = Ok (g (k, b))) -> (size s < fuel)%nat ->
  all_pages (fun r => internal (Paginate s (Some r) f)) fuel limit "" = Ok (g <$> kv_iterate s).
Proof.
  intros Hlim Hf Hfuel. set (l := kv_iterate s).
  assert (length l = size s) as Hlen. { unfold l. rewrite kv_iterate_Permutation. apply length_map_to_list. }
  assert (∀ fuel i key, (length l - i < fuel)%nat -> (i <= length l)%nat ->
    (key = "" ∧ i = 0%nat ∨ key ≠ "" ∧ ∃ value, l !! i = Some (key, value)) ->
    all_pages (fun r => internal (Paginate s (Some r) f)) fuel limit key = Ok (g <$> drop i l)) as H.
  { clear fuel Hfuel. induction fuel as [|fuel IH]; intros i key Hfu Hi Hkey; [lia|]. cbn [all_pages].
    rewrite (Paginate_page s key i limit f) by done. cbv zeta. fold l.
    rewrite (collect_Ok f g).
    2: { intros k b Hkb. apply Hf, elem_of_kv_iterate. fold l.
         apply subseteq_take in Hkb. by apply subseteq_drop in Hkb. }
    cbn [obind internal]. destruct (drop i l !! limit) as [[k b]|] eqn:El; cbn [NextKey fst].
    - rewrite lookup_drop in El. pose proof (later_key_nonempty s (i + limit) k b ltac:(lia) El) as Hk.
      rewrite (proj2 (String.eqb_neq _ _) Hk). apply lookup_lt_Some in El as Hlt.
      rewrite (IH (i + limit)%nat k); [|lia|lia|right; split; [done|by exists b]]. cbn [obind].
      rewrite <-fmap_app. f_equal. f_equal. rewrite <-(take_drop limit (drop i l)) at 2. by rewrite drop_drop.
    - rewrite String.eqb_refl. f_equal. f_equal. apply lookup_ge_None in El. by apply take_ge. }
  rewrite (H fuel 0%nat ""); [by rewrite drop_0|lia|lia|by left].
Qed.

(** Pages of a byte store that holds the encodings of [m]. *)
Lemma pages_typed {A} (c : Codec A) wf enc (s : KVStore) (m : gmap string A) (f : on_result A) (limit fuel : nat) :
  (0 < limit)%nat -> (size s < fuel)%nat -> holds wf enc s m -> (∀ k v, m !! k = Some v -> f k (enc v) = Ok v) ->
  all_pages (fun r => internal (Paginate s (Some r) f)) fuel limit "" = Ok (kv_iterate m).*2.
Proof.
  intros Hlim Hfuel [-> Hwf] Hf.
  rewrite (pages_complete _ f (fun e => match f e.1 e.2 with Ok v => v | _ => zero c end)); [|done| |done].
  - rewrite kv_iterate_fmap, <-list_fmap_compose. f_equal. apply list_fmap_ext. intros i [k v] Hl. cbn.
    apply list_elem_of_lookup_2, elem_of_kv_iterate in Hl. by rewrite Hf.
  - intros k b. rewrite lookup_fmap. intros (v & Hv & ->)%fmap_Some. cbn. by rewrite Hf.
Qed.

(** C38: clients see the whole store.  When the byte stores hold the encodings of the
    typed ones of the models, following the pages of the queries for token pairs,
    epochs and CSRs to the end, with pages of any positive size, gives exactly the
    entries of the module in the order of its iterator, each once, without an
    error or a panic. *)
Theorem paging_lists_everything `{SL : SdkCodecLaws} {W} (limit fuel : nat)
    (erc20 : Chain W Erc20.Store) (epochs : Chain W Epochs.Store) (csr : Chain W Csr.Store) (s1 s2 s3 : KVStore) :
  (0 < limit)%nat -> (size s1 < fuel)%nat -> (size s2 < fuel)%nat -> (size s3 < fuel)%nat ->
  holds TokenPair_wf TokenPair_enc s1 (st_pairs (store erc20)) ->
  holds EpochInfo_wf EpochInfo_enc s2 (store epochs) ->
  holds CSR_wf CSR_enc s3 (st_csrs (store csr)) -> csrs_ok (store csr) ->
  all_pages (fun r => query_TokenPairs (Some (Some r)) s1) fuel limit "" = (GetTokenPairs erc20).1 ∧
  all_pages (fun r => query_EpochInfos (Some (Some r)) s2) fuel limit "" = (AllEpochInfos epochs).1 ∧
  all_pages (fun r => query_CSRs (Some (Some r)) s3) fuel limit "" = (GetAllCSRs csr).1.
Proof.
  intros Hlim Hf1 Hf2 Hf3 H1 H2 H3 Hok. split_and!.
  - apply (pages_typed TokenPair_codec _ _ _ _ _ _ _ Hlim Hf1 H1). intros k v Hv.
    destruct (proj2 H1 _ _ Hv) as (? & _ & ?). by apply (Unmarshal_law _ _ _ erc20_TokenPair_laws).
  - apply (pages_typed EpochInfo_codec _ _ _ _ _ _ _ Hlim Hf2 H2). intros k v Hv.
    destruct (proj2 H2 _ _ Hv) as (? & _ & ?). by apply (Unmarshal_law _ _ _ epochs_EpochInfo_laws).
  - apply (pages_typed CSR_codec _ _ _ _ _ _ _ Hlim Hf3 H3). intros k v Hv.
    destruct (ok_csr _ Hok _ _ Hv) as (-> & Hid & _). rewrite bytes_roundtrip by done. cbn [obind].
    unfold kv_GetCSR. by rewrite (get_value_holds _ _ _ csr_CSR_laws _ _ _ H3), Hv.
Qed.

End paging.

(** ** Witness *)

(** A reference [Paginate], for pages that start at a key. *)
Definition ref_start (key : string) (l : list (string * bytes)) : nat :=
  if String.eqb key "" then 0%nat
  else match list_find (fun e => e.1 = key) l with Some (i, _) => i | None => length l end.
#[local] Instance ref_pagination : Pagination := {
  Paginate X s req onResult :=
    let r := default (mkPageRequest "" 0 100 false false) req in
    let rest := drop (ref_start (Page_Key r) (kv_iterate s)) (kv_iterate s) in
    let limit := Z.to_nat (Page_Limit r) in
    let? xs := collect onResult (take limit rest) in
    Ok (xs, mkPageResponse (match rest !! limit with Some e => e.1 | None => "" end) 0)
}.

#[local] Instance ref_pagination_laws : PaginationLaws.
Proof.
  split. intros X s key i limit f Hlim Hkey. cbv zeta beta iota delta [Paginate ref_pagination from_option id Page_Key Page_Limit].
  rewrite Nat2Z.id. assert (ref_start key (kv_iterate s) = i) as ->; [|done]. unfold ref_start.
  destruct Hkey as [[-> ->]|[Hne [v Hv]]]; [done|]. rewrite (proj2 (String.eqb_neq _ _) Hne).
  pose proof (kv_iterate_NoDup s) as Hn.
  destruct (list_find_elem_of (fun e => e.1 = key) (kv_iterate s) (key, v)) as [[j e] Hj]; [by eapply list_elem_of_lookup_2|done|].
  rewrite Hj. apply list_find_Some in Hj as (Hj & He & _). destruct e as [k b]. cbn in He. subst k.
  apply (NoDup_lookup _ j i key) in Hn; [done|by rewrite list_lookup_fmap, Hj|by rewrite list_lookup_fmap, Hv].
Qed.

Definition ex_second : EpochInfo := mkEpochInfo "week" 0 604800 1 0 true 12.
Definition ex_two : Chain unit Epochs.Store := mkChain tt {["day" := ex_epoch; "week" := ex_second]} [].
Definition ex_two_bytes : KVStore := EpochInfo_enc <$> store ex_two.
Definition ex_no_csr : Chain unit Csr.Store := mkChain tt (Csr.mkStore None ∅ ∅ None) [].

Lemma paging_lists_everything_witness :
  query_EpochInfos (Some (Some (mkPageRequest "" 0 1 false false))) ex_two_bytes
    = Ok ([ex_epoch], mkPageResponse "week" 0) ∧
  all_pages (fun r => query_EpochInfos (Some (Some r)) ex_two_bytes) 3 1 "" = Ok [ex_epoch; ex_second].
Proof.
  split; [vm_compute; reflexivity|].
  destruct (paging_lists_everything (SL := ref_codec_laws) 1 3 ex_pairs ex_two ex_no_csr ex_pair_bytes ex_two_bytes ∅)
    as (_ & H & _).
  - lia.
  - vm_compute. lia.
  - vm_compute. lia.
  - vm_compute. lia.
  - split; [vm_compute; reflexivity|]. apply map_Forall_singleton.
    split; [exact I|]. split; [vm_compute; discriminate|vm_compute; reflexivity].
  - split; [reflexivity|]. apply map_Forall_insert_2; [|apply map_Forall_singleton];
      (split; [vm_compute; repeat split; discriminate|]; split; [vm_compute; discriminate|vm_compute; reflexivity]).
  - split; [reflexivity|apply map_Forall_empty].
  - by split.
  - rewrite H. vm_compute. reflexivity.
Defined.
