(* ===== verification/Services.v ===== *)
(** * The services of the application

    The modules register the services of their messages and of their queries
    with the configurator of the application ([RegisterServices] of the
    module.go files).  Whatever implements them, and in whatever order the module
    manager goes over the modules, messages are routed to the implementation, and
    a client of the generated query stubs and of the REST gateway gets its
    answers. *)

From stdpp Require Import base gmap strings list sorting.
From S2P Require Import Prelude Golang Sdk Wire WireFacts WireCodec WireSdk Grpc.
From S2P Require Import Epochs Inflation InflationFacts Reference InflationCodec.
From S2P Require CoinswapService CsrService EpochsService Erc20Service GovshuttleService InflationService OnboardingService.
From S2P Require Erc20Types.

#[local] Open Scope Z_scope.
#[local] Open Scope go_scope.

Section services.
Context {S : Type} {SC : SdkCodecs}.

(** [module.Configurator]: the routers of messages and of queries, and the
    migrations. *)
Context {Migrations : Type}.
Record Configurator := mkConfigurator {
  cfg_MsgServer : MsgRouter S;
  cfg_QueryServer : QueryRouter S;
  cfg_migrations : Migrations
}.
Context (RegisterMigration : string -> Z -> Configurator -> outcome Configurator).

(** [if err := cfg.RegisterMigration(...); err != nil { panic(...) }] *)
Definition must_register (moduleName : string) (fromVersion : Z) (cfg : Configurator) : outcome Configurator :=
  match RegisterMigration moduleName fromVersion cfg with Err _ => Panic | r => r end.

(** What the modules register. *)
Record Servers := mkServers {
  coinswap_Msg : CoinswapService.MsgServer S; coinswap_Query : CoinswapService.QueryServer S;
  csr_Msg : CsrService.MsgServer S; csr_Query : CsrService.QueryServer S;
  epochs_Query : EpochsService.QueryServer S;
  erc20_Msg : Erc20Service.MsgServer S; erc20_Query : Erc20Service.QueryServer S;
  govshuttle_Msg : GovshuttleService.MsgServer S; govshuttle_Query : GovshuttleService.QueryServer S;
  inflation_Msg : InflationService.MsgServer S; inflation_Query : InflationService.QueryServer S;
  onboarding_Msg : OnboardingService.MsgServer S; onboarding_Query : OnboardingService.QueryServer S
}.

Definition coinswap_RegisterServices (a : Servers) (cfg : Configurator) : outcome Configurator :=
  Ok (mkConfigurator (CoinswapService.RegisterMsgServer (cfg_MsgServer cfg) (coinswap_Msg a))
        (CoinswapService.RegisterQueryServer (cfg_QueryServer cfg) (coinswap_Query a)) (cfg_migrations cfg)).
Definition csr_RegisterServices (a : Servers) (cfg : Configurator) : outcome Configurator :=
  Ok (mkConfigurator (CsrService.RegisterMsgServer (cfg_MsgServer cfg) (csr_Msg a))
        (CsrService.RegisterQueryServer (cfg_QueryServer cfg) (csr_Query a)) (cfg_migrations cfg)).
Definition epochs_RegisterServices (a : Servers) (cfg : Configurator) : outcome Configurator :=
  Ok (mkConfigurator (cfg_MsgServer cfg)
        (EpochsService.RegisterQueryServer (cfg_QueryServer cfg) (epochs_Query a)) (cfg_migrations cfg)).
Definition erc20_RegisterServices (a : Servers) (cfg : Configurator) : outcome Configurator :=
  must_register Erc20Types.ModuleName 1
    (mkConfigurator (Erc20Service.RegisterMsgServer (cfg_MsgServer cfg) (erc20_Msg a))
       (Erc20Service.RegisterQueryServer (cfg_QueryServer cfg) (erc20_Query a)) (cfg_migrations cfg)).
Definition govshuttle_RegisterServices (a : Servers) (cfg : Configurator) : outcome Configurator :=
  Ok (mkConfigurator (GovshuttleService.RegisterMsgServer (cfg_MsgServer cfg) (govshuttle_Msg a))
        (GovshuttleService.RegisterQueryServer (cfg_QueryServer cfg) (govshuttle_Query a)) (cfg_migrations cfg)).
Definition inflation_RegisterServices (a : Servers) (cfg : Configurator) : outcome Configurator :=
  must_register Inflation.ModuleName 1
    (mkConfigurator (InflationService.RegisterMsgServer (cfg_MsgServer cfg) (inflation_Msg a))
       (InflationService.RegisterQueryServer (cfg_QueryServer cfg) (inflation_Query a)) (cfg_migrations cfg)).
Definition onboarding_RegisterServices (a : Servers) (cfg : Configurator) : outcome Configurator :=
  Ok (mkConfigurator (OnboardingService.RegisterMsgServer (cfg_MsgServer cfg) (onboarding_Msg a))
        (OnboardingService.RegisterQueryServer (cfg_QueryServer cfg) (onboarding_Query a)) (cfg_migrations cfg)).

(** The modules of the repository, with the services each registers. *)
Definition modules (a : Servers) : list (Configurator -> outcome Configurator) :=
  [coinswap_RegisterServices a; csr_RegisterServices a; epochs_RegisterServices a; erc20_RegisterServices a;
   govshuttle_RegisterServices a; inflation_RegisterServices a; onboarding_RegisterServices a].

(** [ModuleManager.RegisterServices]: a loop over a map of modules. *)
Fixpoint RegisterServices (order : list (Configurator -> outcome Configurator)) (cfg : Configurator) : outcome Configurator :=
  match order with
  | [] => Ok cfg
  | m :: order' => let? cfg := m cfg in RegisterServices order' cfg
  end.

(** Registering a migration registers no service. *)
Definition migrations_keep_services : Prop := ∀ name v cfg cfg',
  RegisterMigration name v cfg = Ok cfg' ->
  cfg_MsgServer cfg' = cfg_MsgServer cfg ∧ cfg_QueryServer cfg' = cfg_QueryServer cfg.

(** ** Everything registered is there in the end *)

Context (Hmig : migrations_keep_services).

(** The step keeps what is registered, and registers [ms] and [qs]. *)
Definition registers (ms : MsgRouter S) (qs : QueryRouter S) (m : Configurator -> outcome Configurator) : Prop :=
  ∀ cfg cfg', m cfg = Ok cfg' ->
  cfg_MsgServer cfg ++ ms ⊆ cfg_MsgServer cfg' ∧ cfg_QueryServer cfg ++ qs ⊆ cfg_QueryServer cfg'.

Lemma must_register_keeps name v cfg cfg' : must_register name v cfg = Ok cfg' ->
  cfg_MsgServer cfg' = cfg_MsgServer cfg ∧ cfg_QueryServer cfg' = cfg_QueryServer cfg.
Proof using Hmig. unfold must_register. destruct (RegisterMigration name v cfg) eqn:E; [|done..]. intros [= ->]. by eapply Hmig. Qed.

Ltac registered := intros cfg cfg' E; first
  [ injection E as <-; clear Hmig RegisterMigration; split; cbn; unfold RegisterService, query_router, msg_router; set_solver
  | apply must_register_keeps in E as [-> ->]; split; cbn; unfold RegisterService, query_router, msg_router; set_solver ].

Lemma coinswap_registers a : registers (service_routes CoinswapService._Msg_serviceDesc (coinswap_Msg a))
  (service_methods CoinswapService._Query_serviceDesc (coinswap_Query a)) (coinswap_RegisterServices a).
Proof using Type. registered. Qed.
Lemma csr_registers a : registers (service_routes CsrService._Msg_serviceDesc (csr_Msg a))
  (service_methods CsrService._Query_serviceDesc (csr_Query a)) (csr_RegisterServices a).
Proof using Type. registered. Qed.
Lemma epochs_registers a : registers [] (service_methods EpochsService._Query_serviceDesc (epochs_Query a)) (epochs_RegisterServices a).
Proof using Type. registered. Qed.
Lemma erc20_registers a : registers (service_routes Erc20Service._Msg_serviceDesc (erc20_Msg a))
  (service_methods Erc20Service._Query_serviceDesc (erc20_Query a)) (erc20_RegisterServices a).
Proof using Hmig. registered. Qed.
Lemma govshuttle_registers a : registers (service_routes GovshuttleService._Msg_serviceDesc (govshuttle_Msg a))
  (service_methods GovshuttleService._Query_serviceDesc (govshuttle_Query a)) (govshuttle_RegisterServices a).
Proof using Type. registered. Qed.
Lemma inflation_registers a : registers (service_routes InflationService._Msg_serviceDesc (inflation_Msg a))
  (service_methods InflationService._Query_serviceDesc (inflation_Query a)) (inflation_RegisterServices a).
Proof using Hmig. registered. Qed.
Lemma onboarding_registers a : registers (service_routes OnboardingService._Msg_serviceDesc (onboarding_Msg a))
  (service_methods OnboardingService._Query_serviceDesc (onboarding_Query a)) (onboarding_RegisterServices a).
Proof using Type. registered. Qed.

Lemma registers_nothing_less ms qs m : registers ms qs m -> registers [] [] m.
Proof using Type. clear Hmig RegisterMigration. intros H cfg cfg' E. destruct (H _ _ E) as [? ?]. rewrite !app_nil_r. set_solver. Qed.

Lemma modules_register a : Forall (registers [] []) (modules a).
Proof using Hmig.
  repeat first [apply Forall_nil_2 | apply Forall_cons_2]; eapply registers_nothing_less;
    first [apply coinswap_registers|apply csr_registers|apply epochs_registers|apply erc20_registers
          |apply govshuttle_registers|apply inflation_registers|apply onboarding_registers].
Qed.

Lemma order_grows order cfg cfg' : Forall (registers [] []) order -> RegisterServices order cfg = Ok cfg' ->
  cfg_MsgServer cfg ⊆ cfg_MsgServer cfg' ∧ cfg_QueryServer cfg ⊆ cfg_QueryServer cfg'.
Proof using Type.
  clear Hmig RegisterMigration. intros Ho. revert cfg. induction Ho as [|m order Hm Ho IH]; intros cfg; cbn; [by intros [= ->]|].
  destruct (m cfg) as [cfg1| |] eqn:E; [|done..]. cbn. intros E'. destruct (Hm _ _ E) as [H1 H2]. rewrite !app_nil_r in *.
  destruct (IH _ E'). split; set_solver.
Qed.

Lemma order_registers order m ms qs cfg cfg' :
  Forall (registers [] []) order -> m ∈ order -> registers ms qs m -> RegisterServices order cfg = Ok cfg' ->
  ms ⊆ cfg_MsgServer cfg' ∧ qs ⊆ cfg_QueryServer cfg'.
Proof using Type.
  clear Hmig RegisterMigration. intros Ho Hm Hr. revert cfg. induction Ho as [|m' order Hm' Ho IH]; intros cfg; cbn; [by apply not_elem_of_nil in Hm|].
  destruct (m' cfg) as [cfg1| |] eqn:E; [|done..]. cbn. intros E'.
  apply elem_of_cons in Hm as [->|Hm]; [|by eapply IH].
  destruct (Hr _ _ E), (order_grows _ _ _ Ho E'). split; set_solver.
Qed.

End services.
Arguments Configurator : clear implicits.
Arguments Servers : clear implicits.

(** x/inflation as the server of its queries ([var _ types.QueryServer = Keeper{}]). *)
Definition inflation_Keeper {W} `{SdkMath, SdkTypes, ParamSubspace} {AK : AccountKeeper W} {BK : BankKeeper W}
    {ID : InflationDeps W} : InflationService.QueryServer (Chain W Inflation.Store) :=
  InflationService.mkQueryServer
    (fun _ => let* period := query_Period in ret (mkQueryPeriodResponse period))
    (fun _ => let* coin := query_EpochMintProvision in ret (mkQueryEpochMintProvisionResponse coin))
    (fun _ => let* skipped := query_SkippedEpochs in ret (mkQuerySkippedEpochsResponse skipped))
    (fun _ => let* coin := query_CirculatingSupply in ret (mkQueryCirculatingSupplyResponse coin))
    (fun _ => let* rate := query_InflationRate in ret (mkQueryInflationRateResponse rate))
    (fun _ => let* params := Inflation.query_Params in ret (mkQueryParamsResponse params)).

Section theorem.
Context {S : Type} {SC : SdkCodecs} {SL : SdkCodecLaws SC} `{Gateway} {Migrations : Type}.
Context (RegisterMigration : string -> Z -> Configurator S Migrations -> outcome (Configurator S Migrations)).

Lemma modules_registered a order cfg0 cfg m ms qs :
  migrations_keep_services RegisterMigration ->
  order ≡ₚ modules RegisterMigration a -> RegisterServices order cfg0 = Ok cfg ->
  m ∈ modules RegisterMigration a -> registers ms qs m ->
  ms ⊆ cfg_MsgServer cfg ∧ qs ⊆ cfg_QueryServer cfg.
Proof.
  intros Hmig Ho E Hm Hr. apply (order_registers order m ms qs cfg0 cfg); [|by rewrite Ho|done|exact E].
  rewrite Ho. by apply modules_register.
Qed.

(** However the services of the seven modules are implemented, and in whatever
    order the module manager registers them, the router of messages runs, for the
    type of every message of the six message services, the method of the module
    on it; and over a connection for queries every call of a generated query
    client that sends a well-formed request comes back with the reply or the error
    of the method it names, the state unchanged.  The REST gateway in front of
    such a client answers like the gateway in front of the server itself. *)
Theorem clients_get_the_answers (a : Servers S) order cfg0 cfg cq status :
  migrations_keep_services RegisterMigration ->
  order ≡ₚ modules RegisterMigration a -> RegisterServices order cfg0 = Ok cfg ->
  queries cq status (cfg_QueryServer cfg) ->
  (CoinswapService.msg_routed (cfg_MsgServer cfg) (coinswap_Msg a) ∧
   CsrService.msg_routed (cfg_MsgServer cfg) (csr_Msg a) ∧
   Erc20Service.msg_routed (cfg_MsgServer cfg) (erc20_Msg a) ∧
   GovshuttleService.msg_routed (cfg_MsgServer cfg) (govshuttle_Msg a) ∧
   InflationService.msg_routed (cfg_MsgServer cfg) (inflation_Msg a) ∧
   OnboardingService.msg_routed (cfg_MsgServer cfg) (onboarding_Msg a)) ∧
  (CoinswapService.query_answered cq status (coinswap_Query a) ∧
   CsrService.query_answered cq status (csr_Query a) ∧
   EpochsService.query_answered cq status (epochs_Query a) ∧
   Erc20Service.query_answered cq status (erc20_Query a) ∧
   GovshuttleService.query_answered cq status (govshuttle_Query a) ∧
   InflationService.query_answered cq status (inflation_Query a) ∧
   OnboardingService.query_answered cq status (onboarding_Query a)) ∧
  (CoinswapService.gateway_answered cq status (coinswap_Query a) ∧
   CsrService.gateway_answered cq status (csr_Query a) ∧
   EpochsService.gateway_answered cq status (epochs_Query a) ∧
   Erc20Service.gateway_answered cq status (erc20_Query a) ∧
   GovshuttleService.gateway_answered cq status (govshuttle_Query a) ∧
   InflationService.gateway_answered cq status (inflation_Query a) ∧
   OnboardingService.gateway_answered cq status (onboarding_Query a)).
Proof using SL.
  intros Hmig Ho E Hq.
  pose proof (fun m ms qs => modules_registered a order cfg0 cfg m ms qs Hmig Ho E) as R. clear Ho E.
  destruct (R (coinswap_RegisterServices a) _ _ ltac:(in_list) (coinswap_registers a)) as [M1 Q1].
  destruct (R (csr_RegisterServices a) _ _ ltac:(in_list) (csr_registers a)) as [M2 Q2].
  destruct (R (epochs_RegisterServices a) _ _ ltac:(in_list) (epochs_registers a)) as [_ Q3].
  destruct (R (erc20_RegisterServices _ a) _ _ ltac:(in_list) (erc20_registers _ Hmig a)) as [M4 Q4].
  destruct (R (govshuttle_RegisterServices a) _ _ ltac:(in_list) (govshuttle_registers a)) as [M5 Q5].
  destruct (R (inflation_RegisterServices _ a) _ _ ltac:(in_list) (inflation_registers _ Hmig a)) as [M6 Q6].
  destruct (R (onboarding_RegisterServices a) _ _ ltac:(in_list) (onboarding_registers a)) as [M7 Q7].
  split_and!.
  - by apply CoinswapService.coinswap_msg_routed.
  - by apply CsrService.csr_msg_routed.
  - by apply Erc20Service.erc20_msg_routed.
  - by apply GovshuttleService.govshuttle_msg_routed.
  - by apply InflationService.inflation_msg_routed.
  - by apply OnboardingService.onboarding_msg_routed.
  - exact (CoinswapService.coinswap_query_answered _ _ _ _ Hq Q1).
  - exact (CsrService.csr_query_answered _ _ _ _ Hq Q2).
  - exact (EpochsService.epochs_query_answered _ _ _ _ Hq Q3).
  - exact (Erc20Service.erc20_query_answered _ _ _ _ Hq Q4).
  - exact (GovshuttleService.govshuttle_query_answered _ _ _ _ Hq Q5).
  - exact (InflationService.inflation_query_answered _ _ _ _ Hq Q6).
  - exact (OnboardingService.onboarding_query_answered _ _ _ _ Hq Q7).
  - exact (CoinswapService.coinswap_gateway_answered _ _ _ _ Hq Q1).
  - exact (CsrService.csr_gateway_answered _ _ _ _ Hq Q2).
  - exact (EpochsService.epochs_gateway_answered _ _ _ _ Hq Q3).
  - exact (Erc20Service.erc20_gateway_answered _ _ _ _ Hq Q4).
  - exact (GovshuttleService.govshuttle_gateway_answered _ _ _ _ Hq Q5).
  - exact (InflationService.inflation_gateway_answered _ _ _ _ Hq Q6).
  - exact (OnboardingService.onboarding_gateway_answered _ _ _ _ Hq Q7).
Qed.

End theorem.

(** ** Witness: x/inflation asked over an in-process connection

    The services of the other modules answer that they are not implemented. *)

#[export] Instance ref_gateway : Gateway := {
  HttpRequest := unit; Form := unit; ParseForm _ := Ok tt; PopulateQueryParameters _ _ a _ := Ok a;
  runtime_String := Ok; runtime_Uint64 := ParseUint64
}.

Definition ex_servers : Servers (Chain RefWorld Inflation.Store) :=
  mkServers CoinswapService.UnimplementedMsgServer CoinswapService.UnimplementedQueryServer
    CsrService.UnimplementedMsgServer CsrService.UnimplementedQueryServer EpochsService.UnimplementedQueryServer
    Erc20Service.UnimplementedMsgServer Erc20Service.UnimplementedQueryServer
    GovshuttleService.UnimplementedMsgServer GovshuttleService.UnimplementedQueryServer
    InflationService.UnimplementedMsgServer inflation_Keeper
    OnboardingService.UnimplementedMsgServer OnboardingService.UnimplementedQueryServer.
Definition ex_register : string -> Z -> Configurator (Chain RefWorld Inflation.Store) (list (string * Z)) ->
    outcome (Configurator (Chain RefWorld Inflation.Store) (list (string * Z))) :=
  fun name v cfg => Ok (mkConfigurator (cfg_MsgServer cfg) (cfg_QueryServer cfg) ((name, v) :: cfg_migrations cfg)).
Definition ex_configurator := RegisterServices (modules ex_register ex_servers) (mkConfigurator [] [] []).
Definition ex_cfg := match ex_configurator with Ok cfg => cfg | _ => mkConfigurator [] [] [] end.

(** A query of x/inflation, and the route of a message of x/erc20. *)
Lemma clients_get_the_answers_witness :
  InflationService.queryClient_Period (local_conn (cfg_QueryServer ex_cfg)) mkQueryPeriodRequest ex_minted
    = (Ok (mkQueryPeriodResponse 1), ex_minted) ∧
  mkRoute _ _ (fun msg => Erc20Service.MsgServer_ConvertCoin Erc20Service.UnimplementedMsgServer (Some msg))
    ∈ cfg_MsgServer ex_cfg.
Proof.
  destruct (clients_get_the_answers (SL := ref_codec_laws) ex_register ex_servers (modules ex_register ex_servers)
    (mkConfigurator [] [] []) ex_cfg (local_conn (cfg_QueryServer ex_cfg)) id) as (Hm & Hq & _).
  - intros name v cfg cfg' [= <-]. done.
  - done.
  - reflexivity.
  - apply local_queries. apply (bool_decide_unpack _). vm_compute. exact I.
  - split; [|destruct Hm as (_ & _ & He & _); apply He].
    assert (H1 : InflationCodec.QueryPeriodResponse_wf (mkQueryPeriodResponse 1)) by (unfold QueryPeriodResponse_wf, is_uint64; cbn; lia).
    assert (H2 : blen (InflationCodec.QueryPeriodResponse_enc (mkQueryPeriodResponse 1)) < 2 ^ 63) by (vm_compute; reflexivity).
    destruct Hq as (_ & _ & _ & _ & _ & Hi & _). destruct Hi as [Hp _].
    exact (Hp mkQueryPeriodRequest ex_minted I ltac:(vm_compute; reflexivity) H1 H2).
Defined.
