(* ===== verification/Pulsar.v ===== *)
(** * The messages of package api: encoding

    The files [*.pulsar.go] under src/api hold, for every message, the functions
    [size], [marshal] and [unmarshal] of its [ProtoMethods].  They are made of
    the same fragments as the generated code of the modules ([Wire.v]), with
    these differences: messages are pointers, with nil as a valid value; fields
    of other messages are encoded to bytes of their own first; the fields a
    message does not know are kept in [unknownFields] and written back, unless
    the caller discards them; numbers of custom types are strings.

    [runtime.Sov], [runtime.EncodeVarint] and [runtime.Skip] belong to
    cosmos-proto and are parameters ([ProtoRuntime]); so are the messages of
    other packages.  [options.Size], [options.Marshal] and [options.Unmarshal]
    call the methods of the message they are given. *)

From Stdlib Require Import Ascii.
From stdpp Require Import base strings list sets.
From S2P Require Import Prelude Wire WireFacts WireCodec.

#[local] Open Scope Z_scope.
#[local] Open Scope go_scope.

Class ProtoRuntime := {
  Sov : Z -> Z;
  EncodeVarint : bytes -> Z -> Z -> outcome (bytes * Z);
  Skip : bytes -> outcome Z
}.
(** The documented behaviour: the size of a variable-length integer, writing it
    before an offset, the length of the next field. *)
Class ProtoRuntimeLaws `{ProtoRuntime} : Prop := {
  Sov_spec v : is_uint64 v -> Sov v = blen (uvarint v);
  EncodeVarint_spec v before gap after : is_uint64 v -> length gap = length (uvarint v) ->
    EncodeVarint (before ++ gap ++ after) (blen (before ++ gap)) v = Ok (before ++ uvarint v ++ after, blen before);
  Skip_spec dAtA : Skip dAtA = skip dAtA
}.

(** ** Messages *)

(** [ProtoMethods] of a type of messages; pointers are options. *)
Record Methods (A : Type) := mkMethods {
  new : A;
  method_Size : option A -> Z;
  (** [input.Buf], with the encoding behind it *)
  method_Marshal : option A -> bytes -> outcome bytes;
  (** with [options.DiscardUnknown] *)
  method_Unmarshal : bool -> bytes -> option A -> outcome (option A)
}.
Arguments mkMethods {A}.
Arguments new {A}.
Arguments method_Size {A}.
Arguments method_Marshal {A}.
Arguments method_Unmarshal {A}.

(** [options.Marshal(x)] *)
Definition options_Marshal {A} (c : Methods A) (x : option A) : outcome bytes := method_Marshal c x [].

Section pulsar.
Context {RT : ProtoRuntime}.

(** *** Sizes *)

Definition api_size_length (l : Z) : Z := 1 + l + Sov l.
Definition api_size_string (s : string) : Z :=
  let l := blen (of_string s) in if 0 <? l then api_size_length l else 0.
Definition api_size_varint (v : Z) : Z := if v =? 0 then 0 else 1 + Sov (wrap64 v).
Definition api_size_message {A} (c : Methods A) (x : option A) : Z := api_size_length (method_Size c x).
Definition api_size_pointer {A} (c : Methods A) (x : option A) : Z :=
  match x with Some _ => api_size_message c x | None => 0 end.
Definition api_size_strings : list string -> Z := size_repeated (fun s => api_size_length (blen (of_string s))).
Definition api_size_messages {A} (c : Methods A) : list (option A) -> Z := size_repeated (api_size_message c).
Definition api_size_packed (values : list Z) : Z :=
  if values is [] then 0 else let l := size_repeated Sov values in 1 + Sov l + l.

(** *** Writing fields *)

Definition api_put_uvarint (v : Z) : writer := fun '(dAtA, i) => EncodeVarint dAtA i v.
Definition api_put_delimited (tag : Z) (s : bytes) : writer := put_raw s ;> api_put_uvarint (blen s) ;> put_byte tag.
Definition api_put_string (tag : Z) (s : string) : writer :=
  if 0 <? blen (of_string s) then api_put_delimited tag (of_string s) else done_writing.
Definition api_put_varint (tag v : Z) : writer :=
  if v =? 0 then done_writing else api_put_uvarint (wrap64 v) ;> put_byte tag.
Definition api_put_strings (tag : Z) : list string -> writer :=
  put_repeated (fun s => api_put_delimited tag (of_string s)).
(** [encoded, err := options.Marshal(x); i -= len(encoded); copy(dAtA[i:], encoded); ...] *)
Definition api_put_message {A} (c : Methods A) (tag : Z) (x : option A) : writer := fun b =>
  let? encoded := options_Marshal c x in api_put_delimited tag encoded b.
Definition api_put_pointer {A} (c : Methods A) (tag : Z) (x : option A) : writer :=
  match x with Some _ => api_put_message c tag x | None => done_writing end.
Definition api_put_messages {A} (c : Methods A) (tag : Z) : list (option A) -> writer := put_repeated (api_put_message c tag).
(** Packed integers are written in place, behind an index computed from their sizes. *)
Definition api_put_packed (tag : Z) (values : list Z) : writer := fun '(dAtA, i) =>
  match values with
  | [] => Ok (dAtA, i)
  | _ =>
      let pksize := size_repeated Sov values in
      let i := i - pksize in
      let? '(dAtA, _) := pack values dAtA i in
      (api_put_uvarint pksize ;> put_byte tag) (dAtA, i)
  end.

(** *** Reading fields *)

Definition api_get_pointer {A B} (c : Methods B) (discard : bool) (field : string) (wireType : Z) (old : option B)
    (set : option B -> A) : reader A :=
  get_delimited sint64 field wireType (fun part =>
    let? v := method_Unmarshal c discard part (Some (default (new c) old)) in Ok (set v)).
Definition api_get_element {A B} (c : Methods B) (discard : bool) (field : string) (wireType : Z) (old : list (option B))
    (set : list (option B) -> A) : reader A :=
  get_delimited sint64 field wireType (fun part =>
    let? v := method_Unmarshal c discard part (Some (new c)) in Ok (set (old ++ [v]))).

(** The [default] case: the bytes of the field are kept. *)
Definition keep_unknown {A} (append : bytes -> A -> A) (discard : bool) (x : A) (dAtA : bytes) (preIndex : Z) : outcome (A * Z) :=
  let? rest := slice dAtA preIndex (blen dAtA) in
  let? skippy := Skip rest in
  let next := sint64 (preIndex + skippy) in
  if (skippy <? 0) || (next <? 0) then Err ErrInvalidLength
  else if blen dAtA <? next then Err ErrUnexpectedEOF
  else if discard then Ok (x, next)
  else let? field := slice dAtA preIndex next in Ok (append field x, next).

(** *** The three methods *)

Definition api_size {A} (size : A -> Z) (x : option A) : Z :=
  match x with None => 0 | Some x => size x end.
(** [size := options.Size(x); dAtA := make([]byte, size); ...; append(input.Buf, dAtA...)] *)
Definition api_marshal {A} (size : A -> Z) (w : A -> writer) (x : option A) (buf : bytes) : outcome bytes :=
  match x with
  | None => Ok buf
  | Some x =>
      let size := size x in
      if size <? 0 then Panic else
      let dAtA := replicate (Z.to_nat size) (to_byte 0) in
      let? '(dAtA, _) := w x (dAtA, blen dAtA) in
      Ok (buf ++ dAtA)
  end.
Definition api_unmarshal {A} (message : string) (cases : bool -> A -> Z -> Z -> option (reader A))
    (append : bytes -> A -> A) (discard : bool) (dAtA : bytes) (x : option A) : outcome (option A) :=
  match x with
  | None => Ok None
  | Some x => let? x := unmarshal_with message (cases discard) (keep_unknown append discard) dAtA x in Ok (Some x)
  end.

End pulsar.

(** ** Laws *)

(** The fields a message with the fields [known] does not know. *)
Definition unknown_bytes (known : list Z) (u : bytes) : Prop :=
  ∃ fields, u = concat (enc_unknown <$> fields) ∧
  Forall (fun f => unknown_ok f ∧ 0 < Z.shiftr (unknown_tag f) 3 ∧ Z.shiftr (unknown_tag f) 3 ∉ known) fields.

Record MethodLaws {A} (c : Methods A) (wf : A -> Prop) (enc : A -> bytes) : Prop := {
  new_wf : wf (new c);
  method_Size_law x : wf x -> blen (enc x) < 2 ^ 63 -> method_Size c (Some x) = blen (enc x);
  method_Marshal_law x buf : wf x -> blen (enc x) < 2 ^ 63 -> method_Marshal c (Some x) buf = Ok (buf ++ enc x);
  method_Unmarshal_law x : wf x -> blen (enc x) < 2 ^ 63 -> method_Unmarshal c false (enc x) (Some (new c)) = Ok (Some x);
  method_Unmarshal_safe discard dAtA x : blen dAtA < 2 ^ 63 -> safe (fun _ => True) (method_Unmarshal c discard dAtA x)
}.

(** A message is encoded without error or panic in as many bytes as computed, its
    encoding is read back, and every input is read or refused. *)
Definition read_back {A} (c : Methods A) (wf : A -> Prop) (enc : A -> bytes) : Prop :=
  (∀ x, wf x -> blen (enc x) < 2 ^ 63 ->
   ∃ dAtA, options_Marshal c (Some x) = Ok dAtA ∧ method_Size c (Some x) = blen dAtA ∧
           method_Unmarshal c false dAtA (Some (new c)) = Ok (Some x)) ∧
  ∀ discard dAtA x, blen dAtA < 2 ^ 63 -> method_Unmarshal c discard dAtA x ≠ Panic.

Lemma laws_read_back {A} (c : Methods A) wf enc : MethodLaws c wf enc -> read_back c wf enc.
Proof.
  intros Hc. split.
  - intros x Hx Hl. exists (enc x). split_and!;
      [exact (method_Marshal_law _ _ _ Hc x [] Hx Hl)|by apply (method_Size_law _ _ _ Hc)|by apply (method_Unmarshal_law _ _ _ Hc)].
  - intros discard dAtA x Hl E. pose proof (method_Unmarshal_safe _ _ _ Hc discard dAtA x Hl) as Hs. by rewrite E in Hs.
Qed.

(** A pointer in a list points to a well-formed message. *)
Definition element_wf {A} (wf : A -> Prop) (x : option A) : Prop := ∃ a, x = Some a ∧ wf a.
Definition element_enc {A} (enc : A -> bytes) (x : option A) : bytes := match x with Some a => enc a | None => [] end.
Definition enc_elements {A} (enc : A -> bytes) (tag : Z) (l : list (option A)) : bytes :=
  enc_repeated (fun x => enc_delimited tag (element_enc enc x)) l.

Section laws.
Context `{RL : ProtoRuntimeLaws}.

(** *** Sizes *)

Lemma api_sizes_delimited tag s : sizes (api_size_length (blen s)) (enc_delimited tag s).
Proof using RL.
  unfold enc_delimited, api_size_length. intros Hl. rewrite Sov_spec; blens; [lia|]. unfold is_uint64. lia.
Qed.

Lemma api_sizes_string tag s : sizes (api_size_string s) (enc_string tag s).
Proof using RL.
  unfold api_size_string, enc_string. rewrite blen_of_string_pos.
  destruct (String.eqb s ""); [done|apply api_sizes_delimited].
Qed.

Lemma api_sizes_varint tag v : sizes (api_size_varint v) (enc_varint tag v).
Proof using RL.
  unfold api_size_varint, enc_varint. case_match; [done|]. intros _. rewrite blen_cons, Sov_spec; [done|].
  apply wrap64_range.
Qed.

Lemma api_sizes_message {A} (c : Methods A) wf enc tag x :
  MethodLaws c wf enc -> wf x -> sizes (api_size_message c (Some x)) (enc_delimited tag (enc x)).
Proof using RL.
  intros Hc Hx Hl. unfold api_size_message. rewrite (method_Size_law _ _ _ Hc) by (done || (unfold enc_delimited in Hl; blens; lia)).
  by apply api_sizes_delimited.
Qed.

Lemma api_sizes_pointer {A} (c : Methods A) wf enc tag (x : option A) :
  MethodLaws c wf enc -> (∀ a, x = Some a -> wf a) -> sizes (api_size_pointer c x) (enc_pointer enc tag x).
Proof using RL. intros Hc Hx. destruct x; cbn; [by eapply api_sizes_message; eauto|done]. Qed.

Lemma api_sizes_strings tag l : sizes (api_size_strings l) (enc_strings tag l).
Proof using RL. apply sizes_repeated. intros s _. apply api_sizes_delimited. Qed.

Lemma api_sizes_messages {A} (c : Methods A) wf enc tag (l : list (option A)) :
  MethodLaws c wf enc -> Forall (element_wf wf) l -> sizes (api_size_messages c l) (enc_elements enc tag l).
Proof using RL.
  rewrite Forall_forall. intros Hc Hl. apply sizes_repeated. intros x Hx. destruct (Hl x Hx) as (a & -> & Ha).
  exact (api_sizes_message c wf enc tag a Hc Ha).
Qed.

Lemma size_repeated_Sov values : Forall is_uint64 values -> size_repeated Sov values = blen (enc_repeated uvarint values).
Proof using RL.
  intros Hv. induction Hv as [|v values Hv Hvs IH]; [done|]. rewrite size_repeated_cons, IH, Sov_spec by done.
  change (enc_repeated uvarint (v :: values)) with (uvarint v ++ enc_repeated uvarint values). by rewrite blen_app.
Qed.

Lemma api_sizes_packed tag values : Forall is_uint64 values -> sizes (api_size_packed values) (enc_packed tag values).
Proof using RL.
  intros Hv. unfold api_size_packed, enc_packed. destruct values as [|v values]; [done|].
  intros Hl. cbn zeta. rewrite size_repeated_Sov by done. rewrite <-(api_sizes_delimited tag) by done.
  unfold api_size_length. lia.
Qed.

(** *** Writers *)

Lemma api_writes_uvarint v : is_uint64 v -> writes (api_put_uvarint v) (uvarint v).
Proof using RL. intros Hv _ before gap after Hg. by apply EncodeVarint_spec. Qed.

Lemma api_writes_header tag s : blen s < 2 ^ 63 ->
  writes (api_put_uvarint (blen s) ;> put_byte tag) (to_byte tag :: uvarint (blen s)).
Proof using RL.
  intros Hs. apply (writes_then _ _ _ [_]); [|apply writes_byte].
  apply api_writes_uvarint. unfold is_uint64. blens. lia.
Qed.

Lemma api_writes_delimited tag s : writes (api_put_delimited tag s) (enc_delimited tag s).
Proof using RL.
  apply writes_bounded. intros Hs%enc_delimited_bound. rewrite enc_delimited_app.
  apply writes_then; [apply writes_raw|by apply api_writes_header].
Qed.

Lemma api_writes_string tag s : writes (api_put_string tag s) (enc_string tag s).
Proof using RL.
  unfold api_put_string, enc_string. rewrite blen_of_string_pos.
  destruct (String.eqb s ""); [apply writes_nothing|apply api_writes_delimited].
Qed.

Lemma api_writes_varint tag v : writes (api_put_varint tag v) (enc_varint tag v).
Proof using RL.
  unfold api_put_varint, enc_varint. case_match; [apply writes_nothing|].
  apply (writes_then _ _ _ [_]); [apply api_writes_uvarint, wrap64_range|apply writes_byte].
Qed.

Lemma api_writes_strings tag l : writes (api_put_strings tag l) (enc_strings tag l).
Proof using RL. apply writes_repeated. intros s _. apply api_writes_delimited. Qed.

Lemma api_writes_message {A} (c : Methods A) wf enc tag x :
  MethodLaws c wf enc -> wf x -> writes (api_put_message c tag (Some x)) (enc_delimited tag (enc x)).
Proof using RL.
  intros Hc Hx Hl before gap after Hg. unfold api_put_message, options_Marshal.
  rewrite (method_Marshal_law _ _ _ Hc) by (done || by eapply enc_delimited_bound). cbn [obind app].
  by apply api_writes_delimited.
Qed.

Lemma api_writes_pointer {A} (c : Methods A) wf enc tag (x : option A) :
  MethodLaws c wf enc -> (∀ a, x = Some a -> wf a) -> writes (api_put_pointer c tag x) (enc_pointer enc tag x).
Proof using RL. intros Hc Hx. destruct x; cbn; [eapply api_writes_message; eauto|apply writes_nothing]. Qed.

Lemma api_writes_messages {A} (c : Methods A) wf enc tag (l : list (option A)) :
  MethodLaws c wf enc -> Forall (element_wf wf) l -> writes (api_put_messages c tag l) (enc_elements enc tag l).
Proof using RL.
  rewrite Forall_forall. intros Hc Hl. apply writes_repeated. intros x Hx. destruct (Hl x Hx) as (a & -> & Ha).
  exact (api_writes_message c wf enc tag a Hc Ha).
Qed.

(** Integers fill the gap that has the size of their encodings. *)
Lemma pack_exact values before gap after :
  Forall is_uint64 values -> length gap = length (enc_repeated uvarint values) ->
  ∃ j, pack values (before ++ gap ++ after) (blen before) = Ok (before ++ enc_repeated uvarint values ++ after, j).
Proof.
  intros Hv. revert before gap. induction Hv as [|v values Hv Hvs IH]; intros before gap Hg; cbn [pack].
  { destruct gap; [|done]. by eexists. }
  change (enc_repeated uvarint (v :: values)) with (uvarint v ++ enc_repeated uvarint values) in *. rewrite length_app in Hg.
  destruct (split_length gap (length (uvarint v))) as (g1 & g2 & -> & Hg1); [lia|]. rewrite length_app in Hg.
  rewrite <-(app_assoc g1), encode_loop_spec;
    [|unfold is_uint64 in Hv; change (7 * Z.of_nat 10) with 70; lia|done|lia].
  cbn [obind]. change (varint 10 v) with (uvarint v). rewrite app_assoc.
  replace (blen before + blen (uvarint v) - 1 + 1) with (blen (before ++ uvarint v)) by (rewrite blen_app; lia).
  destruct (IH (before ++ uvarint v) g2) as [j Hj]; [lia|]. rewrite Hj. exists j. by rewrite <-!app_assoc.
Qed.

Lemma api_writes_packed tag values : Forall is_uint64 values -> writes (api_put_packed tag values) (enc_packed tag values).
Proof using RL.
  intros Hv. unfold enc_packed. destruct values as [|v values]; [by intros _ ? [|] ? [=]; cbn; rewrite app_nil_r|].
  set (l := v :: values) in *. intros Hl before gap after Hg. unfold api_put_packed. subst l. cbv beta iota zeta.
  set (l := v :: values) in *. rewrite size_repeated_Sov by done.
  pose proof (enc_delimited_bound _ _ Hl) as Hs. rewrite enc_delimited_app, blen_app in Hl. rewrite enc_delimited_app, length_app in Hg.
  destruct (split_length gap (length (to_byte tag :: uvarint (blen (enc_repeated uvarint l))))) as (g2 & g1 & -> & Hg2);
    [cbn [length] in *; lia|]. rewrite length_app in Hg.
  assert (length g1 = length (enc_repeated uvarint l)) as Hg1 by lia.
  replace (blen (before ++ g2 ++ g1) - blen (enc_repeated uvarint l)) with (blen (before ++ g2))
    by (apply blen_length in Hg1; rewrite !blen_app; lia).
  rewrite <-(app_assoc g2), (app_assoc before). destruct (pack_exact l (before ++ g2) g1 after Hv Hg1) as [j Hj].
  rewrite Hj. cbn [obind]. rewrite <-(app_assoc before g2), api_writes_header by (done || (blens; lia)).
  by rewrite enc_delimited_app, <-!app_assoc.
Qed.

(** *** Readers *)

Lemma api_reads_pointer {A B} message cases other (c : Methods B) wf enc t field x (m : A) set :
  MethodLaws c wf enc -> (∀ a, x = Some a -> wf a) -> 0 < t < 128 -> Z.land t 7 = 2 -> 0 < Z.shiftr t 3 ->
  cases m (Z.shiftr t 3) 2 = Some (api_get_pointer c false field 2 None set) -> m = set None ->
  reads message cases other (enc_pointer enc t x) m (set x).
Proof.
  intros Hc Hx Ht Hw Hn E Hm. destruct x as [a|]; cbn; [|rewrite <-Hm; apply reads_nothing].
  eapply reads_delimited; [..|exact E|]; [auto with wire|auto|done|done|done|].
  intros Hl. cbn. by rewrite (method_Unmarshal_law _ _ _ Hc) by auto.
Qed.

Lemma api_reads_elements_from {A B} message cases other (c : Methods B) wf enc t field l old (set : list (option B) -> A) :
  MethodLaws c wf enc -> Forall (element_wf wf) l -> 0 < t < 128 -> Z.land t 7 = 2 -> 0 < Z.shiftr t 3 ->
  (∀ old, cases (set old) (Z.shiftr t 3) 2 = Some (api_get_element c false field 2 old set)) ->
  reads message cases other (enc_elements enc t l) (set old) (set (old ++ l)).
Proof.
  intros Hc Hf Ht Hw Hn E. revert old. induction Hf as [|x l (a & -> & Ha) Hf IH]; intros old.
  { rewrite app_nil_r. apply reads_nothing. }
  change (enc_elements enc t (Some a :: l)) with (enc_delimited t (enc a) ++ enc_elements enc t l).
  apply (reads_app _ _ _ _ _ _ (set (old ++ [Some a]))).
  - eapply reads_delimited; [..|exact (E old)|]; [auto with wire|auto|done|done|done|].
    intros Hl. cbn. by rewrite (method_Unmarshal_law _ _ _ Hc) by auto.
  - replace (old ++ Some a :: l) with ((old ++ [Some a]) ++ l) by by rewrite <-app_assoc. apply IH.
Qed.

Lemma api_reads_elements {A B} message cases other (c : Methods B) wf enc t field l (m : A) set :
  MethodLaws c wf enc -> Forall (element_wf wf) l -> 0 < t < 128 -> Z.land t 7 = 2 -> 0 < Z.shiftr t 3 ->
  cases m (Z.shiftr t 3) 2 = Some (api_get_element c false field 2 [] set) -> m = set [] ->
  (∀ old, cases (set old) (Z.shiftr t 3) 2 = Some (api_get_element c false field 2 old set)) ->
  reads message cases other (enc_elements enc t l) m (set l).
Proof. intros Hc Hf ? ? ? _ -> E. by apply (api_reads_elements_from message cases other c wf enc t field l []). Qed.

(** The bytes of unknown fields are appended one field after the other. *)
Lemma keep_unknown_spec {A} append (x : A) f before after :
  unknown_ok f -> blen (before ++ enc_unknown f ++ after) < 2 ^ 63 ->
  keep_unknown append false x (before ++ enc_unknown f ++ after) (blen before) =
  Ok (append (enc_unknown f) x, blen (before ++ enc_unknown f)).
Proof using RL.
  intros Hf Hl. pose proof (skip_field_spec x f before after Hf Hl) as Hs. unfold skip_field in Hs. unfold keep_unknown.
  rewrite slice_to_end in *. cbn [obind] in *. rewrite Skip_spec.
  destruct (skip (enc_unknown f ++ after)) as [n| |] eqn:E; [|done..]. cbn [obind] in *. cbn zeta in *.
  do 2 (case_match; [done|]). injection Hs as ->. by rewrite slice_app by (done || apply blen_app).
Qed.

Lemma api_reads_unknown {A} message (cases : A -> Z -> Z -> option (reader A)) append (known : list Z) fields x :
  (∀ n wireType y, n ∉ known -> cases y n wireType = None) ->
  Forall (fun f => unknown_ok f ∧ 0 < Z.shiftr (unknown_tag f) 3 ∧ Z.shiftr (unknown_tag f) 3 ∉ known) fields ->
  (∀ y, append [] y = y) -> (∀ u v y, append v (append u y) = append (u ++ v) y) ->
  reads message cases (keep_unknown append false) (concat (enc_unknown <$> fields)) x (append (concat (enc_unknown <$> fields)) x).
Proof using RL.
  intros Hk Hf H0 Happ. revert x. induction Hf as [|f fields (Hok & Hn & Hin) Hf IH]; intros x; cbn.
  { rewrite H0. apply reads_nothing. }
  rewrite <-Happ. eapply reads_app; [|apply IH]. apply reads_other; [done|done|by apply Hk|].
  intros. by apply keep_unknown_spec.
Qed.

(** *** Arbitrary input *)

Lemma api_reader_ok_pointer {A B} (c : Methods B) wf enc discard field wireType old (set : option B -> A) :
  MethodLaws c wf enc -> reader_ok (fun _ => True) (api_get_pointer c discard field wireType old set).
Proof.
  intros Hc. apply reader_ok_delimited; [auto with wire|]. intros part Hl.
  eapply safe_bind; [by apply (method_Unmarshal_safe _ _ _ Hc)|]. done.
Qed.

Lemma api_reader_ok_element {A B} (c : Methods B) wf enc discard field wireType old (set : list (option B) -> A) :
  MethodLaws c wf enc -> reader_ok (fun _ => True) (api_get_element c discard field wireType old set).
Proof.
  intros Hc. apply reader_ok_delimited; [auto with wire|]. intros part Hl.
  eapply safe_bind; [by apply (method_Unmarshal_safe _ _ _ Hc)|]. done.
Qed.

Lemma keep_unknown_ok {A} append discard : other_ok (fun _ : A => True) (keep_unknown append discard).
Proof using RL.
  intros x dAtA i Hl Hi _. unfold keep_unknown. eapply safe_bind; [apply slice_safe; lia|]. intros rest Hr. cbn beta in Hr.
  rewrite Skip_spec. eapply safe_bind; [apply skip_safe; lia|]. intros n Hn. cbn beta in Hn. cbn zeta.
  destruct (Z.ltb_spec n 0); [done|]. destruct (Z.ltb_spec (sint64 (i + n)) 0); [done|]. cbn [orb].
  destruct (Z.ltb_spec (blen dAtA) (sint64 (i + n))); [done|].
  assert (i < sint64 (i + n) <= blen dAtA) by (destruct (sint64_sum i n); lia).
  destruct discard; [done|]. eapply safe_bind; [apply slice_safe; lia|]. done.
Qed.

(** *** Messages *)

Lemma api_laws {A} (new : A) size (w : A -> writer) message cases append unknown (known : list Z) wf encf :
  wf new ->
  (∀ x, wf x -> sizes (size x) (encf x ++ unknown x)) ->
  (∀ x, wf x -> writes (w x) (encf x ++ unknown x)) ->
  (∀ x, wf x -> ∃ x', reads message (cases false) (keep_unknown append false) (encf x) new x' ∧ append (unknown x) x' = x) ->
  (∀ x, wf x -> unknown_bytes known (unknown x)) ->
  (∀ n wireType y, n ∉ known -> cases false y n wireType = None) ->
  (∀ y, append [] y = y) -> (∀ u v y, append v (append u y) = append (u ++ v) y) ->
  (∀ discard, cases_ok (fun _ => True) (cases discard)) ->
  MethodLaws (mkMethods new (api_size size) (api_marshal size w) (api_unmarshal message cases append)) wf
    (fun x => encf x ++ unknown x).
Proof using RL.
  intros Hn Hs Hw Hr Hu Hk H0 Happ Hc. split; cbn -[unmarshal_with].
  - done.
  - intros x Hx Hl. by apply Hs.
  - intros x buf Hx Hl. rewrite (Hs x Hx Hl). destruct (Z.ltb_spec (blen (encf x ++ unknown x)) 0); [blens; lia|].
    rewrite to_nat_blen. pose proof (Hw x Hx Hl [] (replicate (length (encf x ++ unknown x)) (to_byte 0)) []) as E.
    rewrite !app_nil_r in E. cbn [app] in E. rewrite E by apply length_replicate. done.
  - intros x Hx Hl. destruct (Hr x Hx) as (x' & Hr' & Hx'). destruct (Hu x Hx) as (fields & Hf & Hok).
    rewrite (reads_unmarshal _ _ _ _ _ x); [done| |done].
    eapply reads_app; [exact Hr'|]. rewrite <-Hx' at 2. rewrite Hf at 1 2. by apply (api_reads_unknown _ _ _ known).
  - intros discard dAtA [x|] Hl; [|done]. eapply safe_bind; [|done].
    apply (unmarshal_safe (fun _ => True)); [done|apply keep_unknown_ok|done|done].
Qed.
End laws.

(** ** Automation: the laws of a message, field by field *)

Arguments enc_elements : simpl never.
Create HintDb api_laws discriminated.
#[export] Hint Constants Opaque : api_laws.

Definition is_int32 (v : Z) : Prop := sint32 v = v.
Lemma sizes_raw u : sizes (blen u) u.
Proof. done. Qed.
Ltac api_law := solve [eauto 2 with api_laws].

Ltac api_size_field :=
  lazymatch goal with
  | |- sizes (api_size_string _) (enc_string _ _) => apply api_sizes_string
  | |- sizes (api_size_string ?s) (enc_bytes ?t ?s) => exact (api_sizes_string t s)
  | |- sizes (api_size_varint _) _ => apply api_sizes_varint
  | |- sizes (size_bool _) _ => apply sizes_bool
  | |- sizes (api_size_strings _) _ => apply api_sizes_strings
  | |- sizes (api_size_packed _) _ => apply api_sizes_packed; wire_wf
  | |- sizes (api_size_pointer _ _) _ => eapply api_sizes_pointer; [api_law|wire_wf]
  | |- sizes (api_size_messages _ _) _ => eapply api_sizes_messages; [api_law|wire_wf]
  | |- sizes (blen _) _ => apply sizes_raw
  end.
Ltac api_sizes := rewrite <-?Z.add_assoc, <-?app_assoc; repeat (apply sizes_app; [api_size_field|]); api_size_field.

Ltac api_write_field :=
  lazymatch goal with
  | |- writes (api_put_string _ _) _ => apply api_writes_string
  | |- writes (api_put_varint _ _) _ => apply api_writes_varint
  | |- writes (put_bool _ _) _ => apply writes_bool
  | |- writes (api_put_strings _ _) _ => apply api_writes_strings
  | |- writes (api_put_packed _ _) _ => apply api_writes_packed; wire_wf
  | |- writes (api_put_pointer _ _ _) _ => eapply api_writes_pointer; [api_law|wire_wf]
  | |- writes (api_put_messages _ _ _) _ => eapply api_writes_messages; [api_law|wire_wf]
  | |- writes (put_raw _) _ => apply writes_raw
  end.
Ltac api_writes :=
  eapply writes_eq; [repeat (eapply writes_then; [api_write_field|]); api_write_field|rewrite <-?app_assoc; reflexivity].

Ltac api_read_field :=
  lazymatch goal with
  | |- reads _ _ _ (enc_pointer _ _ _) _ _ =>
      eapply api_reads_pointer; [api_law|wire_wf|wire_tag|reflexivity|reflexivity|reflexivity|reflexivity]
  | |- reads _ _ _ (enc_elements _ _ _) _ _ =>
      eapply api_reads_elements;
      [api_law|wire_wf|wire_tag|reflexivity|reflexivity|reflexivity|reflexivity|intros; reflexivity]
  | |- reads _ _ _ (enc_varint _ _) _ _ =>
      eapply reads_varint; [..|reflexivity|reflexivity];
      [auto with wire|by first [assumption|apply is_uint64_wrap|apply is_int64_wrap]|wire_tag|reflexivity|reflexivity]
  | |- reads _ _ _ [] _ _ => apply reads_nothing
  | _ => wire_field
  end.
Ltac api_reads :=
  eexists; split; [repeat (eapply reads_app; [api_read_field|]); api_read_field|reflexivity].

Ltac api_case :=
  match goal with
  | |- reader_ok _ (api_get_pointer _ _ _ _ _ _) => eapply api_reader_ok_pointer; api_law
  | |- reader_ok _ (api_get_element _ _ _ _ _ _) => eapply api_reader_ok_element; api_law
  | |- reader_ok _ (get_packed _ _ _ _) => apply get_packed_safe; done
  | |- reader_ok _ (get_varint _ _ _ _) => apply reader_ok_varint; [auto with wire|done]
  | _ => wire_case; done
  end.

(** The laws of a message from its well-formedness, encoding, size, writer and cases. *)
Ltac api_message_laws wf enc fields size write cases append :=
  unfold enc; eapply api_laws;
  [ unfold wf; cbn; split_and?; first [done | exact (ex_intro _ [] (conj eq_refl (Forall_nil_2 _))) | intros; discriminate | by constructor
      | unfold is_uint64, is_int64; lia | reflexivity ]
  | let m := fresh "m" in let Hm := fresh "Hm" in
    intros m Hm; unfold wf in Hm; wire_split; unfold size, fields; api_sizes
  | let m := fresh "m" in let Hm := fresh "Hm" in
    intros m Hm; unfold wf in Hm; wire_split; unfold write, fields; api_writes
  | let Hm := fresh "Hm" in
    intros [] Hm; unfold wf in Hm; cbn in Hm; wire_split; unfold fields; cbn; api_reads
  | let Hm := fresh "Hm" in intros [] Hm; unfold wf in Hm; cbn in Hm |- *; wire_split; eassumption
  | let n := fresh "n" in let Hn := fresh "Hn" in
    intros n ? [] Hn; rewrite ?not_elem_of_cons in Hn; wire_split; unfold cases; repeat case_match; (done || lia)
  | intros []; unfold append; cbn; by rewrite app_nil_r
  | intros ? ? []; unfold append; cbn; by rewrite app_assoc
  | let E := fresh "E" in
    intros ? [] ? ? ? _ E; unfold cases in E; repeat case_match; try discriminate E; injection E as <-; api_case ].

(** ** Messages of other packages *)

(** The types of cosmossdk.io/api and of protobuf that occur in messages. *)
Class ApiSdk := {
  api_Coin : Type; api_Coin_methods : Methods api_Coin;
  api_DecCoin : Type; api_DecCoin_methods : Methods api_DecCoin;
  api_PageRequest : Type; api_PageRequest_methods : Methods api_PageRequest;
  api_PageResponse : Type; api_PageResponse_methods : Methods api_PageResponse;
  api_Metadata : Type; api_Metadata_methods : Methods api_Metadata;
  api_Timestamp : Type; api_Timestamp_methods : Methods api_Timestamp;
  api_Duration : Type; api_Duration_methods : Methods api_Duration
}.
Class ApiSdkLaws (AS : ApiSdk) := {
  api_Coin_wf : api_Coin -> Prop; api_Coin_enc : api_Coin -> bytes;
  api_Coin_laws : MethodLaws api_Coin_methods api_Coin_wf api_Coin_enc;
  api_DecCoin_wf : api_DecCoin -> Prop; api_DecCoin_enc : api_DecCoin -> bytes;
  api_DecCoin_laws : MethodLaws api_DecCoin_methods api_DecCoin_wf api_DecCoin_enc;
  api_PageRequest_wf : api_PageRequest -> Prop; api_PageRequest_enc : api_PageRequest -> bytes;
  api_PageRequest_laws : MethodLaws api_PageRequest_methods api_PageRequest_wf api_PageRequest_enc;
  api_PageResponse_wf : api_PageResponse -> Prop; api_PageResponse_enc : api_PageResponse -> bytes;
  api_PageResponse_laws : MethodLaws api_PageResponse_methods api_PageResponse_wf api_PageResponse_enc;
  api_Metadata_wf : api_Metadata -> Prop; api_Metadata_enc : api_Metadata -> bytes;
  api_Metadata_laws : MethodLaws api_Metadata_methods api_Metadata_wf api_Metadata_enc;
  api_Timestamp_wf : api_Timestamp -> Prop; api_Timestamp_enc : api_Timestamp -> bytes;
  api_Timestamp_laws : MethodLaws api_Timestamp_methods api_Timestamp_wf api_Timestamp_enc;
  api_Duration_wf : api_Duration -> Prop; api_Duration_enc : api_Duration -> bytes;
  api_Duration_laws : MethodLaws api_Duration_methods api_Duration_wf api_Duration_enc
}.
#[export] Hint Resolve api_Coin_laws api_DecCoin_laws api_PageRequest_laws api_PageResponse_laws api_Metadata_laws
  api_Timestamp_laws api_Duration_laws : api_laws.
