(* ===== verification/Reflect.v ===== *)
(** * The messages of package api: reflection

    Every message of src/api implements [protoreflect.Message]: [Has], [Clear],
    [Get], [Set], [Mutable], [NewField] and [Range] are switches over the full
    names of its fields, one case per field.  A [Field] holds the cases of one
    field, by kind of field; a message is the list of its fields in the order of
    the code, and the switches look a name up in it.

    A list is a pointer to a slice; [None] is the nil pointer of the empty,
    read-only list.  [Get] and [Mutable] give a view of what they point to;
    [Mutable] also gives the message, with the composite value allocated.  Nil
    and empty slices are not told apart. *)

From stdpp Require Import base strings list.
From S2P Require Import Prelude Wire.

#[local] Open Scope Z_scope.
#[local] Open Scope go_scope.

(** [protoreflect.Value]; [Msg] and [Lst] are the messages and the lists of a
    package. *)
Inductive Value (Msg Lst : Type) : Type :=
| VBool (b : bool)
| VInt64 (z : Z)
| VUint64 (z : Z)
| VString (s : string)
| VBytes (s : string)
| VEnum (z : Z)
| VMessage (m : Msg)
| VList (l : Lst).
Arguments VBool {Msg Lst}.
Arguments VInt64 {Msg Lst}.
Arguments VUint64 {Msg Lst}.
Arguments VString {Msg Lst}.
Arguments VBytes {Msg Lst}.
Arguments VEnum {Msg Lst}.
Arguments VMessage {Msg Lst}.
Arguments VList {Msg Lst}.

(** ** The cases of a field *)

Record Field (A V : Type) := mkField {
  FullName : string;
  field_Has : A -> bool;
  field_Clear : A -> A;
  field_Get : A -> V;
  field_Set : V -> A -> outcome A;
  field_Mutable : A -> outcome (A * V);
  field_New : V
}.
Arguments mkField {A V}.
Arguments FullName {A V}.
Arguments field_Has {A V}.
Arguments field_Clear {A V}.
Arguments field_Get {A V}.
Arguments field_Set {A V}.
Arguments field_Mutable {A V}.
Arguments field_New {A V}.

Section kinds.
Context {Msg Lst A : Type}.
Abbreviation F := (Field A (Value Msg Lst)).

(** A scalar is populated if it is not the zero value, and is not mutable. *)
Definition scalar {T} (zero : T) (is_zero : T -> bool) (wrap : T -> Value Msg Lst) (unwrap : Value Msg Lst -> outcome T)
    (name : string) (get : A -> T) (set : T -> A -> A) : F :=
  mkField name (fun x => negb (is_zero (get x))) (set zero) (fun x => wrap (get x))
    (fun v x => let? t := unwrap v in Ok (set t x)) (fun _ => Panic) (wrap zero).

Definition string_field : string -> (A -> string) -> (string -> A -> A) -> F :=
  scalar "" (fun s => String.eqb s "") VString (fun v => if v is VString s then Ok s else Panic).
Definition bytes_field : string -> (A -> string) -> (string -> A -> A) -> F :=
  scalar "" (fun s => String.eqb s "") VBytes (fun v => if v is VBytes s then Ok s else Panic).
Definition uint64_field : string -> (A -> Z) -> (Z -> A -> A) -> F :=
  scalar 0 (fun z => z =? 0) VUint64 (fun v => if v is VUint64 z then Ok z else Panic).
Definition int64_field : string -> (A -> Z) -> (Z -> A -> A) -> F :=
  scalar 0 (fun z => z =? 0) VInt64 (fun v => if v is VInt64 z then Ok z else Panic).
Definition enum_field : string -> (A -> Z) -> (Z -> A -> A) -> F :=
  scalar 0 (fun z => z =? 0) VEnum (fun v => if v is VEnum z then Ok z else Panic).
Definition bool_field : string -> (A -> bool) -> (bool -> A -> A) -> F :=
  scalar false negb VBool (fun v => if v is VBool b then Ok b else Panic).

(** A message is populated if the pointer is not nil.  [inj] and [proj] are the
    conversions [ProtoReflect()] and [Interface().( *T)]. *)
Definition message_field {T} (new : T) (inj : option T -> Msg) (proj : Msg -> outcome (option T))
    (name : string) (get : A -> option T) (set : option T -> A -> A) : F :=
  mkField name (fun x => bool_decide (is_Some (get x))) (set None) (fun x => VMessage (inj (get x)))
    (fun v x => match v with VMessage m => let? t := proj m in Ok (set t x) | _ => Panic end)
    (fun x => let t := default new (get x) in Ok (set (Some t) x, VMessage (inj (Some t))))
    (VMessage (inj (Some new))).

(** A list is populated if it is not empty. *)
Definition list_field {E} (inj : option (list E) -> Lst) (proj : Lst -> outcome (option (list E)))
    (name : string) (get : A -> list E) (set : list E -> A -> A) : F :=
  mkField name (fun x => negb (length (get x) =? 0)%nat) (set [])
    (fun x => VList (inj (if (length (get x) =? 0)%nat then None else Some (get x))))
    (fun v x => match v with
                | VList lv => let? clv := proj lv in
                              match clv with Some l => Ok (set l x) | None => Panic end
                | _ => Panic
                end)
    (fun x => Ok (x, VList (inj (Some (get x)))))
    (VList (inj (Some []))).
End kinds.

(** ** The switches of a message *)

Section message.
Context {A V : Type}.
Implicit Types (fields : list (Field A V)) (fd : string) (x : A).

(** A name that is not a field of the message panics. *)
Fixpoint find_field fields fd : outcome (Field A V) :=
  match fields with
  | [] => Panic
  | f :: fields' => if String.eqb (FullName f) fd then Ok f else find_field fields' fd
  end.

Definition reflect_Has fields x fd : outcome bool := let? f := find_field fields fd in Ok (field_Has f x).
Definition reflect_Clear fields x fd : outcome A := let? f := find_field fields fd in Ok (field_Clear f x).
Definition reflect_Get fields x fd : outcome V := let? f := find_field fields fd in Ok (field_Get f x).
Definition reflect_Set fields x fd (v : V) : outcome A := let? f := find_field fields fd in field_Set f v x.
Definition reflect_Mutable fields x fd : outcome (A * V) := let? f := find_field fields fd in field_Mutable f x.
Definition reflect_NewField fields fd : outcome V := let? f := find_field fields fd in Ok (field_New f).

(** [Range] calls [f] for the populated fields until it returns false. *)
Fixpoint reflect_Range {S} fields x (f : string -> V -> M S bool) : M S unit :=
  match fields with
  | [] => ret tt
  | fd :: fields' =>
      if field_Has fd x then
        let* continue := f (FullName fd) (field_Get fd x) in
        if continue then reflect_Range fields' x f else ret tt
      else reflect_Range fields' x f
  end.

(** No message has a oneof. *)
Definition reflect_WhichOneof (x : A) (d : string) : outcome string := Panic.

(** ** What reflection promises *)

(** A copy of a message: what [Range] visits is stored in a new message. *)
Definition copy fields new x : outcome A * A :=
  let '(r, y) := reflect_Range fields x (fun fd v y =>
    match reflect_Set fields y fd v with Ok y' => (Ok true, y') | Err e => (Err e, y) | Panic => (Panic, y) end) new in
  (match r with Ok _ => Ok y | Err e => Err e | Panic => Panic end, y).

(** The laws of the list of fields of a message, with [unknown] its unknown fields. *)
Record FieldLaws fields (unknown : A -> bytes) (new : A) : Prop := {
  names_distinct : NoDup (FullName <$> fields);
  (** a cleared field, and a field of a new message, is not populated *)
  Has_Clear f x : f ∈ fields -> field_Has f (field_Clear f x) = false;
  Has_new f : f ∈ fields -> field_Has f new = false;
  (** the value of a populated field can be stored in any message *)
  Set_Get f x y : f ∈ fields -> field_Has f x = true ->
    ∃ y', field_Set f (field_Get f x) y = Ok y' ∧ field_Get f y' = field_Get f x;
  (** fields that are not populated have the same value *)
  Get_default f x y : f ∈ fields -> field_Has f x = false -> field_Has f y = false -> field_Get f x = field_Get f y;
  (** storing and clearing a field leaves the others alone *)
  Set_other f g v x x' : f ∈ fields -> g ∈ fields -> FullName f ≠ FullName g -> field_Set f v x = Ok x' ->
    field_Get g x' = field_Get g x ∧ field_Has g x' = field_Has g x;
  Set_unknown f v x x' : f ∈ fields -> field_Set f v x = Ok x' -> unknown x' = unknown x;
  Clear_other f g x : f ∈ fields -> g ∈ fields -> FullName f ≠ FullName g ->
    field_Get g (field_Clear f x) = field_Get g x;
  Clear_unknown f x : f ∈ fields -> unknown (field_Clear f x) = unknown x;
  unknown_new : unknown new = [];
  (** a message has nothing but its fields and its unknown fields *)
  fields_determine x y : (∀ f, f ∈ fields -> field_Get f x = field_Get f y) -> unknown x = unknown y -> x = y
}.

Lemma find_field_spec fields f : NoDup (FullName <$> fields) -> f ∈ fields -> find_field fields (FullName f) = Ok f.
Proof.
  induction fields as [|g fields IH]; cbn; intros Hnd Hf; [by apply not_elem_of_nil in Hf|].
  apply NoDup_cons in Hnd as [Hg Hnd]. apply elem_of_cons in Hf as [->|Hf]; [by rewrite String.eqb_refl|].
  destruct (String.eqb_spec (FullName g) (FullName f)) as [E|_]; [|auto].
  destruct Hg. rewrite E. by apply list_elem_of_fmap_2.
Qed.

Section laws.
Context fields unknown new (L : FieldLaws fields unknown new).

(** The copy agrees with the message on the fields visited so far, and is as
    new on the others. *)
Lemma copy_loop fields' x y done_ :
  fields = done_ ++ fields' -> unknown y = [] ->
  (∀ f, f ∈ done_ -> field_Get f y = field_Get f x) -> (∀ f, f ∈ fields' -> field_Has f y = false) ->
  ∃ y', reflect_Range fields' x (fun fd v y =>
      match reflect_Set fields y fd v with Ok y' => (Ok true, y') | Err e => (Err e, y) | Panic => (Panic, y) end) y
    = (Ok tt, y') ∧ unknown y' = [] ∧ ∀ f, f ∈ fields -> field_Get f y' = field_Get f x.
Proof using L.
  revert y done_. induction fields' as [|f fields' IH]; intros y done_ E Hu Hd Hn.
  { rewrite app_nil_r in E. subst done_. by exists y. }
  assert (f ∈ fields) as Hf by (rewrite E; apply elem_of_app; right; apply elem_of_cons; by left).
  pose proof (names_distinct _ _ _ L) as Hnd. cbn [reflect_Range].
  assert (∀ g, g ∈ done_ ∨ g ∈ fields' -> g ∈ fields ∧ FullName f ≠ FullName g) as Hne.
  { intros g Hg. split; [rewrite E; apply elem_of_app; rewrite elem_of_cons; tauto|]. intros En.
    rewrite E, fmap_app, fmap_cons in Hnd. apply NoDup_app in Hnd as (_ & Hdis & [Hf' _]%NoDup_cons).
    destruct Hg as [Hg|Hg]; [|apply Hf'; rewrite En; by apply list_elem_of_fmap_2].
    apply (Hdis (FullName g)); [by apply list_elem_of_fmap_2|]. rewrite <-En. apply elem_of_cons. by left. }
  assert (fields = (done_ ++ [f]) ++ fields') as E' by by rewrite <-app_assoc.
  destruct (field_Has f x) eqn:Hx.
  - destruct (Set_Get _ _ _ L f x y Hf Hx) as (y' & Hs & Hg). unfold bind at 1, reflect_Set.
    rewrite (find_field_spec fields f) by done. cbn [obind]. rewrite Hs.
    apply (IH _ _ E'); [by rewrite (Set_unknown _ _ _ L _ _ _ _ Hf Hs)| |].
    + intros g [Hin|[->|[]%not_elem_of_nil]%elem_of_cons]%elem_of_app; [|done].
      destruct (Hne g (or_introl Hin)) as [? ?].
      destruct (Set_other _ _ _ L f g _ _ _ Hf ltac:(done) ltac:(done) Hs) as [-> _]. auto.
    + intros g Hin. destruct (Hne g (or_intror Hin)) as [? ?].
      destruct (Set_other _ _ _ L f g _ _ _ Hf ltac:(done) ltac:(done) Hs) as [_ ->]. apply Hn, elem_of_cons. by right.
  - apply (IH _ _ E'); [done| |intros g Hin; apply Hn, elem_of_cons; by right].
    intros g [Hin|[->|[]%not_elem_of_nil]%elem_of_cons]%elem_of_app; [auto|].
    apply (Get_default _ _ _ L); [done|apply Hn, elem_of_cons; by left|done].
Qed.

(** Reflection is complete: a copy made through it has all the fields of the
    message, and with the unknown fields stored too it is the message. *)
Lemma copy_complete (SetUnknown : bytes -> A -> A) x :
  (∀ y f, f ∈ fields -> field_Get f (SetUnknown (unknown x) y) = field_Get f y) ->
  (∀ y, unknown (SetUnknown (unknown x) y) = unknown x) ->
  ∃ y, (copy fields new x).1 = Ok y ∧ unknown y = [] ∧ SetUnknown (unknown x) y = x.
Proof using L.
  intros HU1 HU2. destruct (copy_loop fields x new [] eq_refl (unknown_new _ _ _ L)) as (y & E & Hu & Hy).
  - intros f []%not_elem_of_nil.
  - apply (Has_new _ _ _ L).
  - exists y. unfold copy. rewrite E. cbn. split_and!; [done|done|].
    apply (fields_determine _ _ _ L); [|apply HU2]. intros f Hf. rewrite HU1 by done. auto.
Qed.

Lemma find_field_cases fd : find_field fields fd = Panic ∨ ∃ f : Field A V, find_field fields fd = Ok f ∧ f ∈ fields ∧ FullName f = fd.
Proof.
  clear L. induction fields as [|g fields' IH]; [by left|]. cbn. destruct (String.eqb_spec (FullName g) fd) as [E|_].
  - right. exists g. split_and!; [done|apply elem_of_cons; by left|done].
  - destruct IH as [->|(f & -> & Hf & E)]; [by left|]. right. exists f. split_and!; [done|apply elem_of_cons; by right|done].
Qed.

Lemma get_other (f : Field A V) fd x y :
  (∀ g, g ∈ fields -> FullName f ≠ FullName g -> field_Get g y = field_Get g x) -> fd ≠ FullName f ->
  reflect_Get fields y fd = reflect_Get fields x fd.
Proof using Type.
  intros Hg Hne. unfold reflect_Get. destruct (find_field_cases fd) as [->|(g & -> & Hin & <-)]; [done|]. cbn. by rewrite Hg.
Qed.

(** Clearing a field of the message leaves it unpopulated and the rest alone. *)
Lemma clear_one f x : f ∈ fields ->
  ∃ y, reflect_Clear fields x (FullName f) = Ok y ∧ reflect_Has fields y (FullName f) = Ok false ∧ unknown y = unknown x ∧
       ∀ fd, fd ≠ FullName f -> reflect_Get fields y fd = reflect_Get fields x fd.
Proof using L.
  intros Hf. exists (field_Clear f x). unfold reflect_Clear, reflect_Has. rewrite (find_field_spec fields f) by (done || by apply L).
  cbn. split_and!; [done|by rewrite (Has_Clear _ _ _ L)| |].
  - unshelve epose proof (Clear_unknown _ _ _ L f x Hf) as ->; done.
  - intros fd. apply get_other. intros g Hg Hne. by apply (Clear_other _ _ _ L).
Qed.

(** Storing a value in a field leaves the rest alone. *)
Lemma set_one fd v x y : reflect_Set fields x fd v = Ok y ->
  unknown y = unknown x ∧ ∀ fd', fd' ≠ fd -> reflect_Get fields y fd' = reflect_Get fields x fd'.
Proof using L.
  unfold reflect_Set. destruct (find_field_cases fd) as [->|(f & -> & Hf & <-)]; [done|]. cbn. intros Hs.
  split; [by apply (Set_unknown _ _ _ L _ _ _ _ Hf Hs)|]. intros fd'. apply get_other. intros g Hg Hne.
  by destruct (Set_other _ _ _ L f g _ _ _ Hf Hg Hne Hs).
Qed.
End laws.
End message.

(** ** Lists *)

(** The elements of a list as values; [elem_new] is [Some] for messages. *)
Record Elem (E V : Type) := mkElem {
  elem_wrap : E -> V;
  elem_unwrap : V -> outcome E;
  elem_new : option E;
  elem_default : V
}.
Arguments mkElem {E V}.
Arguments elem_wrap {E V}.
Arguments elem_unwrap {E V}.
Arguments elem_new {E V}.
Arguments elem_default {E V}.

Definition string_elem {Msg Lst} : Elem string (Value Msg Lst) :=
  mkElem VString (fun v => if v is VString s then Ok s else Panic) None (VString "").
Definition uint64_elem {Msg Lst} : Elem Z (Value Msg Lst) :=
  mkElem VUint64 (fun v => if v is VUint64 z then Ok z else Panic) None (VUint64 0).
Definition message_elem {T Msg Lst} (new : T) (inj : option T -> Msg) (proj : Msg -> outcome (option T))
    : Elem (option T) (Value Msg Lst) :=
  mkElem (fun x => VMessage (inj x)) (fun v => match v with VMessage m => proj m | _ => Panic end)
    (Some (Some new)) (VMessage (inj (Some new))).

Section list.
Context {E V : Type} (e : Elem E V).
(** [x.list]: the slice it points to, if it is not nil *)
Implicit Types x : option (list E).

Definition list_Len x : Z := match x with None => 0 | Some l => Z.of_nat (length l) end.
Definition list_Get x (i : Z) : outcome V :=
  match x with
  | None => Panic
  | Some l => if i <? 0 then Panic else match l !! Z.to_nat i with Some a => Ok (elem_wrap e a) | None => Panic end
  end.
Definition list_Set x (i : Z) (value : V) : outcome (option (list E)) :=
  let? concreteValue := elem_unwrap e value in
  match x with
  | None => Panic
  | Some l => if (0 <=? i) && (i <? Z.of_nat (length l)) then Ok (Some (<[Z.to_nat i := concreteValue]> l)) else Panic
  end.
Definition list_Append x (value : V) : outcome (option (list E)) :=
  let? concreteValue := elem_unwrap e value in
  match x with None => Panic | Some l => Ok (Some (l ++ [concreteValue])) end.
Definition list_AppendMutable x : outcome (option (list E) * V) :=
  match elem_new e with
  | None => Panic
  | Some v => match x with None => Panic | Some l => Ok (Some (l ++ [v]), elem_wrap e v) end
  end.
(** [n] is at most the length: the interface only shortens lists *)
Definition list_Truncate x (n : Z) : outcome (option (list E)) :=
  match x with
  | None => Panic
  | Some l => if (0 <=? n) && (n <=? Z.of_nat (length l)) then Ok (Some (take (Z.to_nat n) l)) else Panic
  end.
Definition list_NewElement : V := elem_default e.
Definition list_IsValid x : bool := if x is None then false else true.
End list.

(** ** Automation: the laws of the fields of a message *)

(** What [Get] shows of a list determines it. *)
Lemma list_view_inj {E} (l1 l2 : list E) :
  (if (length l1 =? 0)%nat then None else Some l1) = (if (length l2 =? 0)%nat then None else Some l2) -> l1 = l2.
Proof. destruct l1, l2; cbn; congruence. Qed.

Lemma not_populated_list {E} (l : list E) : negb (length l =? 0)%nat = false -> l = [].
Proof. by destruct l. Qed.
Lemma not_populated_string s : negb (String.eqb s "") = false -> s = "".
Proof. by destruct (String.eqb_spec s ""). Qed.
Lemma not_populated_Z z : negb (z =? 0) = false -> z = 0.
Proof. by destruct (Z.eqb_spec z 0). Qed.
Lemma not_populated_bool b : negb (negb b) = false -> b = false.
Proof. by destruct b. Qed.
Lemma not_populated_message {T} (o : option T) : bool_decide (is_Some o) = false -> o = None.
Proof. rewrite bool_decide_eq_false, <-eq_None_not_Some. done. Qed.

(** One goal for each field of the message. *)
Ltac each_field H :=
  repeat (apply elem_of_cons in H as [->|H]); [..|by apply not_elem_of_nil in H].
Ltac unpopulated :=
  repeat match goal with
  | H : negb (length _ =? 0)%nat = false |- _ => apply not_populated_list in H
  | H : negb (String.eqb _ _) = false |- _ => apply not_populated_string in H
  | H : negb (_ =? _) = false |- _ => apply not_populated_Z in H
  | H : negb (negb _) = false |- _ => apply not_populated_bool in H
  | H : bool_decide _ = false |- _ => apply not_populated_message in H
  end.
(** [H : field_Set f v x = Ok x'] *)
Ltac stored v H := destruct v; cbn in H; unfold obind in H; repeat case_match; simplify_eq.

Ltac message_field_laws :=
  split;
  [ apply (bool_decide_unpack _); vm_compute; exact I
  | intros ? [] Hf; each_field Hf; reflexivity
  | intros ? Hf; each_field Hf; reflexivity
  | intros ? [] [] Hf Hx; each_field Hf; cbn in *;
    repeat match goal with H : negb ?b = true |- context [if ?b then _ else _] => apply negb_true_iff in H; rewrite H in * end;
    eexists; (split; [reflexivity|]); cbn; rewrite ?Hx; reflexivity
  | intros ? [] [] Hf H1 H2; each_field Hf; cbn in *; unpopulated; by simplify_eq
  | intros ? ? v [] ? Hf Hg Hne Hs; each_field Hf; each_field Hg; try (exfalso; by apply Hne); stored v Hs; done
  | intros ? v [] ? Hf Hs; each_field Hf; stored v Hs; done
  | intros ? ? [] Hf Hg Hne; each_field Hf; each_field Hg; try (exfalso; by apply Hne); done
  | intros ? [] Hf; each_field Hf; reflexivity
  | reflexivity
  | intros [] [] Hf Hu; apply Forall_forall in Hf; repeat (apply Forall_cons in Hf as [? Hf]);
    cbn in *; simplify_eq;
    repeat match goal with H : (if _ then None else Some _) = _ |- _ => apply list_view_inj in H end; by subst ].

(** What a message promises its users: a copy through reflection, with the unknown
    fields, is the message; [Clear] and [Set] change nothing but their field. *)
Definition reflects {A V} (fields : list (Field A V)) (unknown : A -> bytes) (SetUnknown : bytes -> A -> A) (new : A) : Prop :=
  (∀ x, ∃ y, (copy fields new x).1 = Ok y ∧ unknown y = [] ∧ SetUnknown (unknown x) y = x) ∧
  (∀ x fd, fd ∈ FullName <$> fields ->
   ∃ y, reflect_Clear fields x fd = Ok y ∧ reflect_Has fields y fd = Ok false ∧ unknown y = unknown x ∧
        ∀ fd', fd' ≠ fd -> reflect_Get fields y fd' = reflect_Get fields x fd') ∧
  (∀ x fd v y, reflect_Set fields x fd v = Ok y ->
   unknown y = unknown x ∧ ∀ fd', fd' ≠ fd -> reflect_Get fields y fd' = reflect_Get fields x fd').

Lemma laws_reflect {A V} (fields : list (Field A V)) unknown SetUnknown new :
  FieldLaws fields unknown new ->
  (∀ x y f, f ∈ fields -> field_Get f (SetUnknown (unknown x) y) = field_Get f y) ->
  (∀ x y, unknown (SetUnknown (unknown x) y) = unknown x) ->
  reflects fields unknown SetUnknown new.
Proof.
  intros L H1 H2. split_and!.
  - intros x. apply (copy_complete _ _ _ L); auto.
  - intros x fd (f & -> & Hf)%list_elem_of_fmap_1. by apply (clear_one _ _ _ L).
  - intros x fd v y. apply (set_one _ _ _ L).
Qed.
Ltac message_reflects L :=
  apply (laws_reflect _ _ _ _ L); [intros ? [] ? Hf; each_field Hf; reflexivity|intros ? []; reflexivity].
