(* ===== verification/ApiSame.v ===== *)
(** * The two encodings of a message

    The modules and package api both encode the messages of the chain: keepers
    store and clients send the types of the modules, while the application reads
    the signers of a transaction from the types of the package.  [agrees] says
    of a message that both write the same bytes and read each other's. *)

From Stdlib Require Import Ascii.
From stdpp Require Import base strings list.
From S2P Require Import Prelude Sdk Erc20Types Wire WireFacts WireCodec WireSdk Pulsar.

#[local] Open Scope Z_scope.
#[local] Open Scope go_scope.

(** [f a] is well formed and encoded as [a] is. *)
Definition same_encoding {A B} (f : A -> B) (wfA : A -> Prop) (encA : A -> bytes) (wfB : B -> Prop) (encB : B -> bytes) : Prop :=
  ∀ a, wfA a -> wfB (f a) ∧ encB (f a) = encA a.

Definition agrees {A B} (c : Codec A) (m : Methods B) (api : A -> B) (wf : A -> Prop) (enc : A -> bytes) : Prop :=
  ∀ x, wf x -> blen (enc x) < 2 ^ 63 ->
  ∃ dAtA, Marshal c x = Ok dAtA ∧ options_Marshal m (Some (api x)) = Ok dAtA ∧
          method_Unmarshal m false dAtA (Some (new m)) = Ok (Some (api x)) ∧ Unmarshal c dAtA (zero c) = Ok x.

Lemma laws_agree {A B} (c : Codec A) (m : Methods B) (api : A -> B) wfA encA wfB encB :
  CodecLaws c wfA encA -> MethodLaws m wfB encB -> same_encoding api wfA encA wfB encB -> agrees c m api wfA encA.
Proof.
  intros Hc Hm Hs x Hx Hl. destruct (Hs x Hx) as [Hw He]. exists (encA x).
  assert (blen (encB (api x)) < 2 ^ 63) by by rewrite He.
  split_and!; [by apply (Marshal_law _ _ _ _ Hc)| | |by apply (Unmarshal_law _ _ _ Hc)].
  - unfold options_Marshal. rewrite (method_Marshal_law _ _ _ Hm) by done. cbn. by rewrite He.
  - rewrite <-He. by apply (method_Unmarshal_law _ _ _ Hm).
Qed.

(** ** The types of other packages

    Integers and decimals are written as texts that are not empty; coins, times,
    pages and metadata of the SDK have the same encodings in both. *)
Class SameEncodings {SC : SdkCodecs} (SL : SdkCodecLaws SC) {AS : ApiSdk} (AL : ApiSdkLaws AS) := {
  Int_nonempty z : Int_wf z -> Int_enc z ≠ [];
  Dec_nonempty z : Dec_wf z -> Dec_enc z ≠ [];
  coin_api : Coin -> api_Coin;
  coin_same : same_encoding coin_api Coin_wf Coin_enc api_Coin_wf api_Coin_enc;
  dec_coin_api : DecCoin -> api_DecCoin;
  dec_coin_same : same_encoding dec_coin_api DecCoin_wf DecCoin_enc api_DecCoin_wf api_DecCoin_enc;
  page_request_api : PageRequest -> api_PageRequest;
  page_request_same : same_encoding page_request_api PageRequest_wf PageRequest_enc api_PageRequest_wf api_PageRequest_enc;
  page_response_api : PageResponse -> api_PageResponse;
  page_response_same : same_encoding page_response_api PageResponse_wf PageResponse_enc api_PageResponse_wf api_PageResponse_enc;
  metadata_api : Metadata -> api_Metadata;
  metadata_same : same_encoding metadata_api Metadata_wf Metadata_enc api_Metadata_wf api_Metadata_enc;
  time_api : Z -> api_Timestamp;
  time_same : same_encoding time_api Time_wf Time_enc api_Timestamp_wf api_Timestamp_enc;
  duration_api : Z -> api_Duration;
  duration_same : same_encoding duration_api Duration_wf Duration_enc api_Duration_wf api_Duration_enc
}.

Create HintDb api_same discriminated.
#[export] Hint Constants Opaque : api_same.
#[export] Hint Resolve coin_same dec_coin_same page_request_same page_response_same metadata_same time_same duration_same : api_same.

Section texts.
Context {SC : SdkCodecs} {SL : SdkCodecLaws SC}.
Definition Int_text (z : Z) : string := to_string (Int_enc z).
Definition Dec_text (z : Z) : string := to_string (Dec_enc z).
End texts.

(** ** Field by field *)

Lemma same_text t (e : bytes) : e ≠ [] -> enc_string t (to_string e) = enc_delimited t e.
Proof.
  intros He. unfold enc_string. destruct (String.eqb_spec (to_string e) "") as [E|_]; [|by rewrite of_to_string].
  destruct He. by rewrite <-(of_to_string e), E.
Qed.

Section fields.
Context {A B : Type} (f : A -> B) (wfA : A -> Prop) (encA : A -> bytes) (wfB : B -> Prop) (encB : B -> bytes).
Context (Hs : same_encoding f wfA encA wfB encB).

Lemma same_pointer t a : wfA a -> enc_pointer encB t (Some (f a)) = enc_message encA t a.
Proof using Hs. intros Ha. unfold enc_pointer, enc_message. by destruct (Hs a Ha) as [_ ->]. Qed.

Lemma same_option t (o : option A) : (∀ a, o = Some a -> wfA a) -> enc_pointer encB t (f <$> o) = enc_pointer encA t o.
Proof using Hs. intros Ho. destruct o as [a|]; [|done]. apply same_pointer. auto. Qed.

Lemma same_elements t (l : list A) : Forall wfA l -> enc_elements encB t ((fun a => Some (f a)) <$> l) = enc_messages encA t l.
Proof using Hs.
  intros Hl. unfold enc_elements, enc_messages, enc_repeated. f_equal. induction Hl as [|a l Ha Hl IH]; [done|].
  cbn. rewrite IH. f_equal. unfold enc_message. cbn. by destruct (Hs a Ha) as [_ ->].
Qed.

Lemma wf_pointer a : wfA a -> ∀ b, Some (f a) = Some b -> wfB b.
Proof using Hs. intros Ha b [= <-]. by apply Hs. Qed.
Lemma wf_option (o : option A) : (∀ a, o = Some a -> wfA a) -> ∀ b, f <$> o = Some b -> wfB b.
Proof using Hs. intros Ho b (a & -> & ->)%fmap_Some. by apply Hs, Ho. Qed.
Lemma wf_elements (l : list A) : Forall wfA l -> Forall (element_wf wfB) ((fun a => Some (f a)) <$> l).
Proof using Hs. intros Hl. apply Forall_fmap. eapply Forall_impl; [exact Hl|]. intros a Ha. exists (f a). split; [done|by apply Hs]. Qed.
End fields.

Lemma no_unknown known : unknown_bytes known [].
Proof. by exists []. Qed.

Ltac same_law := solve [eauto 2 with api_same].

Ltac same_wf :=
  lazymatch goal with
  | |- unknown_bytes _ [] => apply no_unknown
  | |- is_int32 (_ ?o) => destruct o; reflexivity
  | |- ∀ b, Some _ = Some b -> _ => eapply wf_pointer; [same_law|assumption]
  | |- ∀ b, _ <$> _ = Some b -> _ => eapply wf_option; [same_law|assumption]
  | |- Forall (element_wf _) _ => eapply wf_elements; [same_law|assumption]
  | _ => assumption
  end.
Ltac same_field :=
  lazymatch goal with
  | |- enc_string _ (Int_text _) = _ => apply same_text, Int_nonempty; assumption
  | |- enc_string _ (Dec_text _) = _ => apply same_text, Dec_nonempty; assumption
  | |- enc_pointer _ _ (Some _) = enc_message _ _ _ => eapply same_pointer; [same_law|assumption]
  | |- enc_pointer _ _ (_ <$> _) = enc_pointer _ _ _ => eapply same_option; [same_law|assumption]
  | |- enc_elements _ _ _ = _ => eapply same_elements; [same_law|assumption]
  | _ => reflexivity
  end.

Ltac same_message api wfm encm wf enc fields :=
  intros m Hm; unfold wfm in Hm; wire_split; split;
  [ unfold wf, api; cbn; split_and?; same_wf
  | unfold enc, fields, encm, api; cbn; rewrite ?app_nil_r; repeat (apply f_equal2; [same_field|]); same_field ].
