(* ===== verification/ApiCoinswap.v ===== *)
(** * Package api: the messages of canto.coinswap.v1

    The code of [coinswap.pulsar.go], [genesis.pulsar.go], [query.pulsar.go], [tx.pulsar.go] under
    src/api/canto/coinswap/v1: encoding ([Pulsar.v]), reflection ([Reflect.v]), and that
    the messages of the module and of the package have the same encodings. *)

From Stdlib Require Import Ascii.
From stdpp Require Import base strings list sets.
From S2P Require Import Prelude Golang Sdk Wire WireFacts WireCodec WireSdk Pulsar Reflect ApiSame.
From S2P Require CoinswapTypes Coinswap CoinswapCodec.

#[local] Open Scope Z_scope.
#[local] Open Scope go_scope.

Section api.
Context {RT : ProtoRuntime} {AS : ApiSdk}.

(** ** [Input] *)

Record Input := mkInput { Input_Address : string; Input_Coin : option api_Coin; Input_unknownFields : bytes }.
Definition Input_size (x : Input) : Z :=
  api_size_string (Input_Address x) + api_size_pointer api_Coin_methods (Input_Coin x) + blen (Input_unknownFields x).
Definition Input_marshal (x : Input) : writer :=
  put_raw (Input_unknownFields x) ;>
  api_put_pointer api_Coin_methods 0x12 (Input_Coin x) ;>
  api_put_string 0xa (Input_Address x).
Definition Input_cases (discard : bool) (x : Input) (fieldNum wireType : Z) : option (reader Input) :=
  let '(mkInput address_ coin_ unknown) := x in
  match fieldNum with
  | 1 => Some (get_string "Address" wireType (fun v => mkInput v coin_ unknown))
  | 2 => Some (api_get_pointer api_Coin_methods discard "Coin" wireType coin_ (fun v => mkInput address_ v unknown))
  | _ => None
  end.
Definition Input_append (u : bytes) (x : Input) : Input := let '(mkInput address_ coin_ unknown) := x in mkInput address_ coin_ (unknown ++ u).
Definition Input_unmarshal : bool -> bytes -> option Input -> outcome (option Input) := api_unmarshal "Input" Input_cases Input_append.
Definition Input_methods : Methods Input :=
  mkMethods (mkInput "" None []) (api_size Input_size) (api_marshal Input_size Input_marshal) Input_unmarshal.

(** ** [Output] *)

Record Output := mkOutput { Output_Address : string; Output_Coin : option api_Coin; Output_unknownFields : bytes }.
Definition Output_size (x : Output) : Z :=
  api_size_string (Output_Address x) + api_size_pointer api_Coin_methods (Output_Coin x) + blen (Output_unknownFields x).
Definition Output_marshal (x : Output) : writer :=
  put_raw (Output_unknownFields x) ;>
  api_put_pointer api_Coin_methods 0x12 (Output_Coin x) ;>
  api_put_string 0xa (Output_Address x).
Definition Output_cases (discard : bool) (x : Output) (fieldNum wireType : Z) : option (reader Output) :=
  let '(mkOutput address_ coin_ unknown) := x in
  match fieldNum with
  | 1 => Some (get_string "Address" wireType (fun v => mkOutput v coin_ unknown))
  | 2 => Some (api_get_pointer api_Coin_methods discard "Coin" wireType coin_ (fun v => mkOutput address_ v unknown))
  | _ => None
  end.
Definition Output_append (u : bytes) (x : Output) : Output := let '(mkOutput address_ coin_ unknown) := x in mkOutput address_ coin_ (unknown ++ u).
Definition Output_unmarshal : bool -> bytes -> option Output -> outcome (option Output) := api_unmarshal "Output" Output_cases Output_append.
Definition Output_methods : Methods Output :=
  mkMethods (mkOutput "" None []) (api_size Output_size) (api_marshal Output_size Output_marshal) Output_unmarshal.

(** ** [Pool] *)

Record Pool := mkPool { Pool_Id : string; Pool_StandardDenom : string; Pool_CounterpartyDenom : string; Pool_EscrowAddress : string; Pool_LptDenom : string; Pool_unknownFields : bytes }.
Definition Pool_size (x : Pool) : Z :=
  api_size_string (Pool_Id x) + api_size_string (Pool_StandardDenom x) + api_size_string (Pool_CounterpartyDenom x) + api_size_string (Pool_EscrowAddress x) + api_size_string (Pool_LptDenom x) + blen (Pool_unknownFields x).
Definition Pool_marshal (x : Pool) : writer :=
  put_raw (Pool_unknownFields x) ;>
  api_put_string 0x2a (Pool_LptDenom x) ;>
  api_put_string 0x22 (Pool_EscrowAddress x) ;>
  api_put_string 0x1a (Pool_CounterpartyDenom x) ;>
  api_put_string 0x12 (Pool_StandardDenom x) ;>
  api_put_string 0xa (Pool_Id x).
Definition Pool_cases (discard : bool) (x : Pool) (fieldNum wireType : Z) : option (reader Pool) :=
  let '(mkPool id_ standardDenom_ counterpartyDenom_ escrowAddress_ lptDenom_ unknown) := x in
  match fieldNum with
  | 1 => Some (get_string "Id" wireType (fun v => mkPool v standardDenom_ counterpartyDenom_ escrowAddress_ lptDenom_ unknown))
  | 2 => Some (get_string "StandardDenom" wireType (fun v => mkPool id_ v counterpartyDenom_ escrowAddress_ lptDenom_ unknown))
  | 3 => Some (get_string "CounterpartyDenom" wireType (fun v => mkPool id_ standardDenom_ v escrowAddress_ lptDenom_ unknown))
  | 4 => Some (get_string "EscrowAddress" wireType (fun v => mkPool id_ standardDenom_ counterpartyDenom_ v lptDenom_ unknown))
  | 5 => Some (get_string "LptDenom" wireType (fun v => mkPool id_ standardDenom_ counterpartyDenom_ escrowAddress_ v unknown))
  | _ => None
  end.
Definition Pool_append (u : bytes) (x : Pool) : Pool := let '(mkPool id_ standardDenom_ counterpartyDenom_ escrowAddress_ lptDenom_ unknown) := x in mkPool id_ standardDenom_ counterpartyDenom_ escrowAddress_ lptDenom_ (unknown ++ u).
Definition Pool_unmarshal : bool -> bytes -> option Pool -> outcome (option Pool) := api_unmarshal "Pool" Pool_cases Pool_append.
Definition Pool_methods : Methods Pool :=
  mkMethods (mkPool "" "" "" "" "" []) (api_size Pool_size) (api_marshal Pool_size Pool_marshal) Pool_unmarshal.

(** ** [Params] *)

Record Params := mkParams { Params_Fee : string; Params_PoolCreationFee : option api_Coin; Params_TaxRate : string; Params_MaxStandardCoinPerPool : string; Params_MaxSwapAmount : list (option api_Coin); Params_unknownFields : bytes }.
Definition Params_size (x : Params) : Z :=
  api_size_string (Params_Fee x) + api_size_pointer api_Coin_methods (Params_PoolCreationFee x) + api_size_string (Params_TaxRate x) + api_size_string (Params_MaxStandardCoinPerPool x) + api_size_messages api_Coin_methods (Params_MaxSwapAmount x) + blen (Params_unknownFields x).
Definition Params_marshal (x : Params) : writer :=
  put_raw (Params_unknownFields x) ;>
  api_put_messages api_Coin_methods 0x32 (Params_MaxSwapAmount x) ;>
  api_put_string 0x22 (Params_MaxStandardCoinPerPool x) ;>
  api_put_string 0x1a (Params_TaxRate x) ;>
  api_put_pointer api_Coin_methods 0x12 (Params_PoolCreationFee x) ;>
  api_put_string 0xa (Params_Fee x).
Definition Params_cases (discard : bool) (x : Params) (fieldNum wireType : Z) : option (reader Params) :=
  let '(mkParams fee_ poolCreationFee_ taxRate_ maxStandardCoinPerPool_ maxSwapAmount_ unknown) := x in
  match fieldNum with
  | 1 => Some (get_string "Fee" wireType (fun v => mkParams v poolCreationFee_ taxRate_ maxStandardCoinPerPool_ maxSwapAmount_ unknown))
  | 2 => Some (api_get_pointer api_Coin_methods discard "PoolCreationFee" wireType poolCreationFee_ (fun v => mkParams fee_ v taxRate_ maxStandardCoinPerPool_ maxSwapAmount_ unknown))
  | 3 => Some (get_string "TaxRate" wireType (fun v => mkParams fee_ poolCreationFee_ v maxStandardCoinPerPool_ maxSwapAmount_ unknown))
  | 4 => Some (get_string "MaxStandardCoinPerPool" wireType (fun v => mkParams fee_ poolCreationFee_ taxRate_ v maxSwapAmount_ unknown))
  | 6 => Some (api_get_element api_Coin_methods discard "MaxSwapAmount" wireType maxSwapAmount_ (fun v => mkParams fee_ poolCreationFee_ taxRate_ maxStandardCoinPerPool_ v unknown))
  | _ => None
  end.
Definition Params_append (u : bytes) (x : Params) : Params := let '(mkParams fee_ poolCreationFee_ taxRate_ maxStandardCoinPerPool_ maxSwapAmount_ unknown) := x in mkParams fee_ poolCreationFee_ taxRate_ maxStandardCoinPerPool_ maxSwapAmount_ (unknown ++ u).
Definition Params_unmarshal : bool -> bytes -> option Params -> outcome (option Params) := api_unmarshal "Params" Params_cases Params_append.
Definition Params_methods : Methods Params :=
  mkMethods (mkParams "" None "" "" [] []) (api_size Params_size) (api_marshal Params_size Params_marshal) Params_unmarshal.

(** ** [GenesisState] *)

Record GenesisState := mkGenesisState { GenesisState_Params : option Params; GenesisState_StandardDenom : string; GenesisState_Pool : list (option Pool); GenesisState_Sequence : Z; GenesisState_unknownFields : bytes }.
Definition GenesisState_size (x : GenesisState) : Z :=
  api_size_pointer Params_methods (GenesisState_Params x) + api_size_string (GenesisState_StandardDenom x) + api_size_messages Pool_methods (GenesisState_Pool x) + api_size_varint (GenesisState_Sequence x) + blen (GenesisState_unknownFields x).
Definition GenesisState_marshal (x : GenesisState) : writer :=
  put_raw (GenesisState_unknownFields x) ;>
  api_put_varint 0x20 (GenesisState_Sequence x) ;>
  api_put_messages Pool_methods 0x1a (GenesisState_Pool x) ;>
  api_put_string 0x12 (GenesisState_StandardDenom x) ;>
  api_put_pointer Params_methods 0xa (GenesisState_Params x).
Definition GenesisState_cases (discard : bool) (x : GenesisState) (fieldNum wireType : Z) : option (reader GenesisState) :=
  let '(mkGenesisState params_ standardDenom_ pool_ sequence_ unknown) := x in
  match fieldNum with
  | 1 => Some (api_get_pointer Params_methods discard "Params" wireType params_ (fun v => mkGenesisState v standardDenom_ pool_ sequence_ unknown))
  | 2 => Some (get_string "StandardDenom" wireType (fun v => mkGenesisState params_ v pool_ sequence_ unknown))
  | 3 => Some (api_get_element Pool_methods discard "Pool" wireType pool_ (fun v => mkGenesisState params_ standardDenom_ v sequence_ unknown))
  | 4 => Some (get_varint wrap64 "Sequence" wireType (fun v => mkGenesisState params_ standardDenom_ pool_ v unknown))
  | _ => None
  end.
Definition GenesisState_append (u : bytes) (x : GenesisState) : GenesisState := let '(mkGenesisState params_ standardDenom_ pool_ sequence_ unknown) := x in mkGenesisState params_ standardDenom_ pool_ sequence_ (unknown ++ u).
Definition GenesisState_unmarshal : bool -> bytes -> option GenesisState -> outcome (option GenesisState) := api_unmarshal "GenesisState" GenesisState_cases GenesisState_append.
Definition GenesisState_methods : Methods GenesisState :=
  mkMethods (mkGenesisState None "" [] 0 []) (api_size GenesisState_size) (api_marshal GenesisState_size GenesisState_marshal) GenesisState_unmarshal.

(** ** [QueryParamsRequest] *)

Record QueryParamsRequest := mkQueryParamsRequest { QueryParamsRequest_unknownFields : bytes }.
Definition QueryParamsRequest_size (x : QueryParamsRequest) : Z :=
  blen (QueryParamsRequest_unknownFields x).
Definition QueryParamsRequest_marshal (x : QueryParamsRequest) : writer :=
  put_raw (QueryParamsRequest_unknownFields x).
Definition QueryParamsRequest_cases (discard : bool) (x : QueryParamsRequest) (fieldNum wireType : Z) : option (reader QueryParamsRequest) := None.
Definition QueryParamsRequest_append (u : bytes) (x : QueryParamsRequest) : QueryParamsRequest := let '(mkQueryParamsRequest unknown) := x in mkQueryParamsRequest (unknown ++ u).
Definition QueryParamsRequest_unmarshal : bool -> bytes -> option QueryParamsRequest -> outcome (option QueryParamsRequest) := api_unmarshal "QueryParamsRequest" QueryParamsRequest_cases QueryParamsRequest_append.
Definition QueryParamsRequest_methods : Methods QueryParamsRequest :=
  mkMethods (mkQueryParamsRequest []) (api_size QueryParamsRequest_size) (api_marshal QueryParamsRequest_size QueryParamsRequest_marshal) QueryParamsRequest_unmarshal.

(** ** [QueryParamsResponse] *)

Record QueryParamsResponse := mkQueryParamsResponse { QueryParamsResponse_Params : option Params; QueryParamsResponse_unknownFields : bytes }.
Definition QueryParamsResponse_size (x : QueryParamsResponse) : Z :=
  api_size_pointer Params_methods (QueryParamsResponse_Params x) + blen (QueryParamsResponse_unknownFields x).
Definition QueryParamsResponse_marshal (x : QueryParamsResponse) : writer :=
  put_raw (QueryParamsResponse_unknownFields x) ;>
  api_put_pointer Params_methods 0xa (QueryParamsResponse_Params x).
Definition QueryParamsResponse_cases (discard : bool) (x : QueryParamsResponse) (fieldNum wireType : Z) : option (reader QueryParamsResponse) :=
  let '(mkQueryParamsResponse params_ unknown) := x in
  match fieldNum with
  | 1 => Some (api_get_pointer Params_methods discard "Params" wireType params_ (fun v => mkQueryParamsResponse v unknown))
  | _ => None
  end.
Definition QueryParamsResponse_append (u : bytes) (x : QueryParamsResponse) : QueryParamsResponse := let '(mkQueryParamsResponse params_ unknown) := x in mkQueryParamsResponse params_ (unknown ++ u).
Definition QueryParamsResponse_unmarshal : bool -> bytes -> option QueryParamsResponse -> outcome (option QueryParamsResponse) := api_unmarshal "QueryParamsResponse" QueryParamsResponse_cases QueryParamsResponse_append.
Definition QueryParamsResponse_methods : Methods QueryParamsResponse :=
  mkMethods (mkQueryParamsResponse None []) (api_size QueryParamsResponse_size) (api_marshal QueryParamsResponse_size QueryParamsResponse_marshal) QueryParamsResponse_unmarshal.

(** ** [QueryLiquidityPoolRequest] *)

Record QueryLiquidityPoolRequest := mkQueryLiquidityPoolRequest { QueryLiquidityPoolRequest_LptDenom : string; QueryLiquidityPoolRequest_unknownFields : bytes }.
Definition QueryLiquidityPoolRequest_size (x : QueryLiquidityPoolRequest) : Z :=
  api_size_string (QueryLiquidityPoolRequest_LptDenom x) + blen (QueryLiquidityPoolRequest_unknownFields x).
Definition QueryLiquidityPoolRequest_marshal (x : QueryLiquidityPoolRequest) : writer :=
  put_raw (QueryLiquidityPoolRequest_unknownFields x) ;>
  api_put_string 0xa (QueryLiquidityPoolRequest_LptDenom x).
Definition QueryLiquidityPoolRequest_cases (discard : bool) (x : QueryLiquidityPoolRequest) (fieldNum wireType : Z) : option (reader QueryLiquidityPoolRequest) :=
  let '(mkQueryLiquidityPoolRequest lptDenom_ unknown) := x in
  match fieldNum with
  | 1 => Some (get_string "LptDenom" wireType (fun v => mkQueryLiquidityPoolRequest v unknown))
  | _ => None
  end.
Definition QueryLiquidityPoolRequest_append (u : bytes) (x : QueryLiquidityPoolRequest) : QueryLiquidityPoolRequest := let '(mkQueryLiquidityPoolRequest lptDenom_ unknown) := x in mkQueryLiquidityPoolRequest lptDenom_ (unknown ++ u).
Definition QueryLiquidityPoolRequest_unmarshal : bool -> bytes -> option QueryLiquidityPoolRequest -> outcome (option QueryLiquidityPoolRequest) := api_unmarshal "QueryLiquidityPoolRequest" QueryLiquidityPoolRequest_cases QueryLiquidityPoolRequest_append.
Definition QueryLiquidityPoolRequest_methods : Methods QueryLiquidityPoolRequest :=
  mkMethods (mkQueryLiquidityPoolRequest "" []) (api_size QueryLiquidityPoolRequest_size) (api_marshal QueryLiquidityPoolRequest_size QueryLiquidityPoolRequest_marshal) QueryLiquidityPoolRequest_unmarshal.

(** ** [QueryLiquidityPoolsRequest] *)

Record QueryLiquidityPoolsRequest := mkQueryLiquidityPoolsRequest { QueryLiquidityPoolsRequest_Pagination : option api_PageRequest; QueryLiquidityPoolsRequest_unknownFields : bytes }.
Definition QueryLiquidityPoolsRequest_size (x : QueryLiquidityPoolsRequest) : Z :=
  api_size_pointer api_PageRequest_methods (QueryLiquidityPoolsRequest_Pagination x) + blen (QueryLiquidityPoolsRequest_unknownFields x).
Definition QueryLiquidityPoolsRequest_marshal (x : QueryLiquidityPoolsRequest) : writer :=
  put_raw (QueryLiquidityPoolsRequest_unknownFields x) ;>
  api_put_pointer api_PageRequest_methods 0xa (QueryLiquidityPoolsRequest_Pagination x).
Definition QueryLiquidityPoolsRequest_cases (discard : bool) (x : QueryLiquidityPoolsRequest) (fieldNum wireType : Z) : option (reader QueryLiquidityPoolsRequest) :=
  let '(mkQueryLiquidityPoolsRequest pagination_ unknown) := x in
  match fieldNum with
  | 1 => Some (api_get_pointer api_PageRequest_methods discard "Pagination" wireType pagination_ (fun v => mkQueryLiquidityPoolsRequest v unknown))
  | _ => None
  end.
Definition QueryLiquidityPoolsRequest_append (u : bytes) (x : QueryLiquidityPoolsRequest) : QueryLiquidityPoolsRequest := let '(mkQueryLiquidityPoolsRequest pagination_ unknown) := x in mkQueryLiquidityPoolsRequest pagination_ (unknown ++ u).
Definition QueryLiquidityPoolsRequest_unmarshal : bool -> bytes -> option QueryLiquidityPoolsRequest -> outcome (option QueryLiquidityPoolsRequest) := api_unmarshal "QueryLiquidityPoolsRequest" QueryLiquidityPoolsRequest_cases QueryLiquidityPoolsRequest_append.
Definition QueryLiquidityPoolsRequest_methods : Methods QueryLiquidityPoolsRequest :=
  mkMethods (mkQueryLiquidityPoolsRequest None []) (api_size QueryLiquidityPoolsRequest_size) (api_marshal QueryLiquidityPoolsRequest_size QueryLiquidityPoolsRequest_marshal) QueryLiquidityPoolsRequest_unmarshal.

(** ** [PoolInfo] *)

Record PoolInfo := mkPoolInfo { PoolInfo_Id : string; PoolInfo_EscrowAddress : string; PoolInfo_Standard : option api_Coin; PoolInfo_Token : option api_Coin; PoolInfo_Lpt : option api_Coin; PoolInfo_Fee : string; PoolInfo_unknownFields : bytes }.
Definition PoolInfo_size (x : PoolInfo) : Z :=
  api_size_string (PoolInfo_Id x) + api_size_string (PoolInfo_EscrowAddress x) + api_size_pointer api_Coin_methods (PoolInfo_Standard x) + api_size_pointer api_Coin_methods (PoolInfo_Token x) + api_size_pointer api_Coin_methods (PoolInfo_Lpt x) + api_size_string (PoolInfo_Fee x) + blen (PoolInfo_unknownFields x).
Definition PoolInfo_marshal (x : PoolInfo) : writer :=
  put_raw (PoolInfo_unknownFields x) ;>
  api_put_string 0x32 (PoolInfo_Fee x) ;>
  api_put_pointer api_Coin_methods 0x2a (PoolInfo_Lpt x) ;>
  api_put_pointer api_Coin_methods 0x22 (PoolInfo_Token x) ;>
  api_put_pointer api_Coin_methods 0x1a (PoolInfo_Standard x) ;>
  api_put_string 0x12 (PoolInfo_EscrowAddress x) ;>
  api_put_string 0xa (PoolInfo_Id x).
Definition PoolInfo_cases (discard : bool) (x : PoolInfo) (fieldNum wireType : Z) : option (reader PoolInfo) :=
  let '(mkPoolInfo id_ escrowAddress_ standard_ token_ lpt_ fee_ unknown) := x in
  match fieldNum with
  | 1 => Some (get_string "Id" wireType (fun v => mkPoolInfo v escrowAddress_ standard_ token_ lpt_ fee_ unknown))
  | 2 => Some (get_string "EscrowAddress" wireType (fun v => mkPoolInfo id_ v standard_ token_ lpt_ fee_ unknown))
  | 3 => Some (api_get_pointer api_Coin_methods discard "Standard" wireType standard_ (fun v => mkPoolInfo id_ escrowAddress_ v token_ lpt_ fee_ unknown))
  | 4 => Some (api_get_pointer api_Coin_methods discard "Token" wireType token_ (fun v => mkPoolInfo id_ escrowAddress_ standard_ v lpt_ fee_ unknown))
  | 5 => Some (api_get_pointer api_Coin_methods discard "Lpt" wireType lpt_ (fun v => mkPoolInfo id_ escrowAddress_ standard_ token_ v fee_ unknown))
  | 6 => Some (get_string "Fee" wireType (fun v => mkPoolInfo id_ escrowAddress_ standard_ token_ lpt_ v unknown))
  | _ => None
  end.
Definition PoolInfo_append (u : bytes) (x : PoolInfo) : PoolInfo := let '(mkPoolInfo id_ escrowAddress_ standard_ token_ lpt_ fee_ unknown) := x in mkPoolInfo id_ escrowAddress_ standard_ token_ lpt_ fee_ (unknown ++ u).
Definition PoolInfo_unmarshal : bool -> bytes -> option PoolInfo -> outcome (option PoolInfo) := api_unmarshal "PoolInfo" PoolInfo_cases PoolInfo_append.
Definition PoolInfo_methods : Methods PoolInfo :=
  mkMethods (mkPoolInfo "" "" None None None "" []) (api_size PoolInfo_size) (api_marshal PoolInfo_size PoolInfo_marshal) PoolInfo_unmarshal.

(** ** [QueryLiquidityPoolResponse] *)

Record QueryLiquidityPoolResponse := mkQueryLiquidityPoolResponse { QueryLiquidityPoolResponse_Pool : option PoolInfo; QueryLiquidityPoolResponse_unknownFields : bytes }.
Definition QueryLiquidityPoolResponse_size (x : QueryLiquidityPoolResponse) : Z :=
  api_size_pointer PoolInfo_methods (QueryLiquidityPoolResponse_Pool x) + blen (QueryLiquidityPoolResponse_unknownFields x).
Definition QueryLiquidityPoolResponse_marshal (x : QueryLiquidityPoolResponse) : writer :=
  put_raw (QueryLiquidityPoolResponse_unknownFields x) ;>
  api_put_pointer PoolInfo_methods 0xa (QueryLiquidityPoolResponse_Pool x).
Definition QueryLiquidityPoolResponse_cases (discard : bool) (x : QueryLiquidityPoolResponse) (fieldNum wireType : Z) : option (reader QueryLiquidityPoolResponse) :=
  let '(mkQueryLiquidityPoolResponse pool_ unknown) := x in
  match fieldNum with
  | 1 => Some (api_get_pointer PoolInfo_methods discard "Pool" wireType pool_ (fun v => mkQueryLiquidityPoolResponse v unknown))
  | _ => None
  end.
Definition QueryLiquidityPoolResponse_append (u : bytes) (x : QueryLiquidityPoolResponse) : QueryLiquidityPoolResponse := let '(mkQueryLiquidityPoolResponse pool_ unknown) := x in mkQueryLiquidityPoolResponse pool_ (unknown ++ u).
Definition QueryLiquidityPoolResponse_unmarshal : bool -> bytes -> option QueryLiquidityPoolResponse -> outcome (option QueryLiquidityPoolResponse) := api_unmarshal "QueryLiquidityPoolResponse" QueryLiquidityPoolResponse_cases QueryLiquidityPoolResponse_append.
Definition QueryLiquidityPoolResponse_methods : Methods QueryLiquidityPoolResponse :=
  mkMethods (mkQueryLiquidityPoolResponse None []) (api_size QueryLiquidityPoolResponse_size) (api_marshal QueryLiquidityPoolResponse_size QueryLiquidityPoolResponse_marshal) QueryLiquidityPoolResponse_unmarshal.

(** ** [QueryLiquidityPoolsResponse] *)

Record QueryLiquidityPoolsResponse := mkQueryLiquidityPoolsResponse { QueryLiquidityPoolsResponse_Pools : list (option PoolInfo); QueryLiquidityPoolsResponse_Pagination : option api_PageResponse; QueryLiquidityPoolsResponse_unknownFields : bytes }.
Definition QueryLiquidityPoolsResponse_size (x : QueryLiquidityPoolsResponse) : Z :=
  api_size_messages PoolInfo_methods (QueryLiquidityPoolsResponse_Pools x) + api_size_pointer api_PageResponse_methods (QueryLiquidityPoolsResponse_Pagination x) + blen (QueryLiquidityPoolsResponse_unknownFields x).
Definition QueryLiquidityPoolsResponse_marshal (x : QueryLiquidityPoolsResponse) : writer :=
  put_raw (QueryLiquidityPoolsResponse_unknownFields x) ;>
  api_put_pointer api_PageResponse_methods 0x12 (QueryLiquidityPoolsResponse_Pagination x) ;>
  api_put_messages PoolInfo_methods 0xa (QueryLiquidityPoolsResponse_Pools x).
Definition QueryLiquidityPoolsResponse_cases (discard : bool) (x : QueryLiquidityPoolsResponse) (fieldNum wireType : Z) : option (reader QueryLiquidityPoolsResponse) :=
  let '(mkQueryLiquidityPoolsResponse pools_ pagination_ unknown) := x in
  match fieldNum with
  | 1 => Some (api_get_element PoolInfo_methods discard "Pools" wireType pools_ (fun v => mkQueryLiquidityPoolsResponse v pagination_ unknown))
  | 2 => Some (api_get_pointer api_PageResponse_methods discard "Pagination" wireType pagination_ (fun v => mkQueryLiquidityPoolsResponse pools_ v unknown))
  | _ => None
  end.
Definition QueryLiquidityPoolsResponse_append (u : bytes) (x : QueryLiquidityPoolsResponse) : QueryLiquidityPoolsResponse := let '(mkQueryLiquidityPoolsResponse pools_ pagination_ unknown) := x in mkQueryLiquidityPoolsResponse pools_ pagination_ (unknown ++ u).
Definition QueryLiquidityPoolsResponse_unmarshal : bool -> bytes -> option QueryLiquidityPoolsResponse -> outcome (option QueryLiquidityPoolsResponse) := api_unmarshal "QueryLiquidityPoolsResponse" QueryLiquidityPoolsResponse_cases QueryLiquidityPoolsResponse_append.
Definition QueryLiquidityPoolsResponse_methods : Methods QueryLiquidityPoolsResponse :=
  mkMethods (mkQueryLiquidityPoolsResponse [] None []) (api_size QueryLiquidityPoolsResponse_size) (api_marshal QueryLiquidityPoolsResponse_size QueryLiquidityPoolsResponse_marshal) QueryLiquidityPoolsResponse_unmarshal.

(** ** [MsgAddLiquidity] *)

Record MsgAddLiquidity := mkMsgAddLiquidity { MsgAddLiquidity_MaxToken : option api_Coin; MsgAddLiquidity_ExactStandardAmt : string; MsgAddLiquidity_MinLiquidity : string; MsgAddLiquidity_Deadline : Z; MsgAddLiquidity_Sender : string; MsgAddLiquidity_unknownFields : bytes }.
Definition MsgAddLiquidity_size (x : MsgAddLiquidity) : Z :=
  api_size_pointer api_Coin_methods (MsgAddLiquidity_MaxToken x) + api_size_string (MsgAddLiquidity_ExactStandardAmt x) + api_size_string (MsgAddLiquidity_MinLiquidity x) + api_size_varint (MsgAddLiquidity_Deadline x) + api_size_string (MsgAddLiquidity_Sender x) + blen (MsgAddLiquidity_unknownFields x).
Definition MsgAddLiquidity_marshal (x : MsgAddLiquidity) : writer :=
  put_raw (MsgAddLiquidity_unknownFields x) ;>
  api_put_string 0x2a (MsgAddLiquidity_Sender x) ;>
  api_put_varint 0x20 (MsgAddLiquidity_Deadline x) ;>
  api_put_string 0x1a (MsgAddLiquidity_MinLiquidity x) ;>
  api_put_string 0x12 (MsgAddLiquidity_ExactStandardAmt x) ;>
  api_put_pointer api_Coin_methods 0xa (MsgAddLiquidity_MaxToken x).
Definition MsgAddLiquidity_cases (discard : bool) (x : MsgAddLiquidity) (fieldNum wireType : Z) : option (reader MsgAddLiquidity) :=
  let '(mkMsgAddLiquidity maxToken_ exactStandardAmt_ minLiquidity_ deadline_ sender_ unknown) := x in
  match fieldNum with
  | 1 => Some (api_get_pointer api_Coin_methods discard "MaxToken" wireType maxToken_ (fun v => mkMsgAddLiquidity v exactStandardAmt_ minLiquidity_ deadline_ sender_ unknown))
  | 2 => Some (get_string "ExactStandardAmt" wireType (fun v => mkMsgAddLiquidity maxToken_ v minLiquidity_ deadline_ sender_ unknown))
  | 3 => Some (get_string "MinLiquidity" wireType (fun v => mkMsgAddLiquidity maxToken_ exactStandardAmt_ v deadline_ sender_ unknown))
  | 4 => Some (get_varint sint64 "Deadline" wireType (fun v => mkMsgAddLiquidity maxToken_ exactStandardAmt_ minLiquidity_ v sender_ unknown))
  | 5 => Some (get_string "Sender" wireType (fun v => mkMsgAddLiquidity maxToken_ exactStandardAmt_ minLiquidity_ deadline_ v unknown))
  | _ => None
  end.
Definition MsgAddLiquidity_append (u : bytes) (x : MsgAddLiquidity) : MsgAddLiquidity := let '(mkMsgAddLiquidity maxToken_ exactStandardAmt_ minLiquidity_ deadline_ sender_ unknown) := x in mkMsgAddLiquidity maxToken_ exactStandardAmt_ minLiquidity_ deadline_ sender_ (unknown ++ u).
Definition MsgAddLiquidity_unmarshal : bool -> bytes -> option MsgAddLiquidity -> outcome (option MsgAddLiquidity) := api_unmarshal "MsgAddLiquidity" MsgAddLiquidity_cases MsgAddLiquidity_append.
Definition MsgAddLiquidity_methods : Methods MsgAddLiquidity :=
  mkMethods (mkMsgAddLiquidity None "" "" 0 "" []) (api_size MsgAddLiquidity_size) (api_marshal MsgAddLiquidity_size MsgAddLiquidity_marshal) MsgAddLiquidity_unmarshal.

(** ** [MsgAddLiquidityResponse] *)

Record MsgAddLiquidityResponse := mkMsgAddLiquidityResponse { MsgAddLiquidityResponse_MintToken : option api_Coin; MsgAddLiquidityResponse_unknownFields : bytes }.
Definition MsgAddLiquidityResponse_size (x : MsgAddLiquidityResponse) : Z :=
  api_size_pointer api_Coin_methods (MsgAddLiquidityResponse_MintToken x) + blen (MsgAddLiquidityResponse_unknownFields x).
Definition MsgAddLiquidityResponse_marshal (x : MsgAddLiquidityResponse) : writer :=
  put_raw (MsgAddLiquidityResponse_unknownFields x) ;>
  api_put_pointer api_Coin_methods 0xa (MsgAddLiquidityResponse_MintToken x).
Definition MsgAddLiquidityResponse_cases (discard : bool) (x : MsgAddLiquidityResponse) (fieldNum wireType : Z) : option (reader MsgAddLiquidityResponse) :=
  let '(mkMsgAddLiquidityResponse mintToken_ unknown) := x in
  match fieldNum with
  | 1 => Some (api_get_pointer api_Coin_methods discard "MintToken" wireType mintToken_ (fun v => mkMsgAddLiquidityResponse v unknown))
  | _ => None
  end.
Definition MsgAddLiquidityResponse_append (u : bytes) (x : MsgAddLiquidityResponse) : MsgAddLiquidityResponse := let '(mkMsgAddLiquidityResponse mintToken_ unknown) := x in mkMsgAddLiquidityResponse mintToken_ (unknown ++ u).
Definition MsgAddLiquidityResponse_unmarshal : bool -> bytes -> option MsgAddLiquidityResponse -> outcome (option MsgAddLiquidityResponse) := api_unmarshal "MsgAddLiquidityResponse" MsgAddLiquidityResponse_cases MsgAddLiquidityResponse_append.
Definition MsgAddLiquidityResponse_methods : Methods MsgAddLiquidityResponse :=
  mkMethods (mkMsgAddLiquidityResponse None []) (api_size MsgAddLiquidityResponse_size) (api_marshal MsgAddLiquidityResponse_size MsgAddLiquidityResponse_marshal) MsgAddLiquidityResponse_unmarshal.

(** ** [MsgRemoveLiquidity] *)

Record MsgRemoveLiquidity := mkMsgRemoveLiquidity { MsgRemoveLiquidity_WithdrawLiquidity : option api_Coin; MsgRemoveLiquidity_MinToken : string; MsgRemoveLiquidity_MinStandardAmt : string; MsgRemoveLiquidity_Deadline : Z; MsgRemoveLiquidity_Sender : string; MsgRemoveLiquidity_unknownFields : bytes }.
Definition MsgRemoveLiquidity_size (x : MsgRemoveLiquidity) : Z :=
  api_size_pointer api_Coin_methods (MsgRemoveLiquidity_WithdrawLiquidity x) + api_size_string (MsgRemoveLiquidity_MinToken x) + api_size_string (MsgRemoveLiquidity_MinStandardAmt x) + api_size_varint (MsgRemoveLiquidity_Deadline x) + api_size_string (MsgRemoveLiquidity_Sender x) + blen (MsgRemoveLiquidity_unknownFields x).
Definition MsgRemoveLiquidity_marshal (x : MsgRemoveLiquidity) : writer :=
  put_raw (MsgRemoveLiquidity_unknownFields x) ;>
  api_put_string 0x2a (MsgRemoveLiquidity_Sender x) ;>
  api_put_varint 0x20 (MsgRemoveLiquidity_Deadline x) ;>
  api_put_string 0x1a (MsgRemoveLiquidity_MinStandardAmt x) ;>
  api_put_string 0x12 (MsgRemoveLiquidity_MinToken x) ;>
  api_put_pointer api_Coin_methods 0xa (MsgRemoveLiquidity_WithdrawLiquidity x).
Definition MsgRemoveLiquidity_cases (discard : bool) (x : MsgRemoveLiquidity) (fieldNum wireType : Z) : option (reader MsgRemoveLiquidity) :=
  let '(mkMsgRemoveLiquidity withdrawLiquidity_ minToken_ minStandardAmt_ deadline_ sender_ unknown) := x in
  match fieldNum with
  | 1 => Some (api_get_pointer api_Coin_methods discard "WithdrawLiquidity" wireType withdrawLiquidity_ (fun v => mkMsgRemoveLiquidity v minToken_ minStandardAmt_ deadline_ sender_ unknown))
  | 2 => Some (get_string "MinToken" wireType (fun v => mkMsgRemoveLiquidity withdrawLiquidity_ v minStandardAmt_ deadline_ sender_ unknown))
  | 3 => Some (get_string "MinStandardAmt" wireType (fun v => mkMsgRemoveLiquidity withdrawLiquidity_ minToken_ v deadline_ sender_ unknown))
  | 4 => Some (get_varint sint64 "Deadline" wireType (fun v => mkMsgRemoveLiquidity withdrawLiquidity_ minToken_ minStandardAmt_ v sender_ unknown))
  | 5 => Some (get_string "Sender" wireType (fun v => mkMsgRemoveLiquidity withdrawLiquidity_ minToken_ minStandardAmt_ deadline_ v unknown))
  | _ => None
  end.
Definition MsgRemoveLiquidity_append (u : bytes) (x : MsgRemoveLiquidity) : MsgRemoveLiquidity := let '(mkMsgRemoveLiquidity withdrawLiquidity_ minToken_ minStandardAmt_ deadline_ sender_ unknown) := x in mkMsgRemoveLiquidity withdrawLiquidity_ minToken_ minStandardAmt_ deadline_ sender_ (unknown ++ u).
Definition MsgRemoveLiquidity_unmarshal : bool -> bytes -> option MsgRemoveLiquidity -> outcome (option MsgRemoveLiquidity) := api_unmarshal "MsgRemoveLiquidity" MsgRemoveLiquidity_cases MsgRemoveLiquidity_append.
Definition MsgRemoveLiquidity_methods : Methods MsgRemoveLiquidity :=
  mkMethods (mkMsgRemoveLiquidity None "" "" 0 "" []) (api_size MsgRemoveLiquidity_size) (api_marshal MsgRemoveLiquidity_size MsgRemoveLiquidity_marshal) MsgRemoveLiquidity_unmarshal.

(** ** [MsgRemoveLiquidityResponse] *)

Record MsgRemoveLiquidityResponse := mkMsgRemoveLiquidityResponse { MsgRemoveLiquidityResponse_WithdrawCoins : list (option api_Coin); MsgRemoveLiquidityResponse_unknownFields : bytes }.
Definition MsgRemoveLiquidityResponse_size (x : MsgRemoveLiquidityResponse) : Z :=
  api_size_messages api_Coin_methods (MsgRemoveLiquidityResponse_WithdrawCoins x) + blen (MsgRemoveLiquidityResponse_unknownFields x).
Definition MsgRemoveLiquidityResponse_marshal (x : MsgRemoveLiquidityResponse) : writer :=
  put_raw (MsgRemoveLiquidityResponse_unknownFields x) ;>
  api_put_messages api_Coin_methods 0xa (MsgRemoveLiquidityResponse_WithdrawCoins x).
Definition MsgRemoveLiquidityResponse_cases (discard : bool) (x : MsgRemoveLiquidityResponse) (fieldNum wireType : Z) : option (reader MsgRemoveLiquidityResponse) :=
  let '(mkMsgRemoveLiquidityResponse withdrawCoins_ unknown) := x in
  match fieldNum with
  | 1 => Some (api_get_element api_Coin_methods discard "WithdrawCoins" wireType withdrawCoins_ (fun v => mkMsgRemoveLiquidityResponse v unknown))
  | _ => None
  end.
Definition MsgRemoveLiquidityResponse_append (u : bytes) (x : MsgRemoveLiquidityResponse) : MsgRemoveLiquidityResponse := let '(mkMsgRemoveLiquidityResponse withdrawCoins_ unknown) := x in mkMsgRemoveLiquidityResponse withdrawCoins_ (unknown ++ u).
Definition MsgRemoveLiquidityResponse_unmarshal : bool -> bytes -> option MsgRemoveLiquidityResponse -> outcome (option MsgRemoveLiquidityResponse) := api_unmarshal "MsgRemoveLiquidityResponse" MsgRemoveLiquidityResponse_cases MsgRemoveLiquidityResponse_append.
Definition MsgRemoveLiquidityResponse_methods : Methods MsgRemoveLiquidityResponse :=
  mkMethods (mkMsgRemoveLiquidityResponse [] []) (api_size MsgRemoveLiquidityResponse_size) (api_marshal MsgRemoveLiquidityResponse_size MsgRemoveLiquidityResponse_marshal) MsgRemoveLiquidityResponse_unmarshal.

(** ** [MsgSwapOrder] *)

Record MsgSwapOrder := mkMsgSwapOrder { MsgSwapOrder_Input : option Input; MsgSwapOrder_Output : option Output; MsgSwapOrder_Deadline : Z; MsgSwapOrder_IsBuyOrder : bool; MsgSwapOrder_unknownFields : bytes }.
Definition MsgSwapOrder_size (x : MsgSwapOrder) : Z :=
  api_size_pointer Input_methods (MsgSwapOrder_Input x) + api_size_pointer Output_methods (MsgSwapOrder_Output x) + api_size_varint (MsgSwapOrder_Deadline x) + size_bool (MsgSwapOrder_IsBuyOrder x) + blen (MsgSwapOrder_unknownFields x).
Definition MsgSwapOrder_marshal (x : MsgSwapOrder) : writer :=
  put_raw (MsgSwapOrder_unknownFields x) ;>
  put_bool 0x20 (MsgSwapOrder_IsBuyOrder x) ;>
  api_put_varint 0x18 (MsgSwapOrder_Deadline x) ;>
  api_put_pointer Output_methods 0x12 (MsgSwapOrder_Output x) ;>
  api_put_pointer Input_methods 0xa (MsgSwapOrder_Input x).
Definition MsgSwapOrder_cases (discard : bool) (x : MsgSwapOrder) (fieldNum wireType : Z) : option (reader MsgSwapOrder) :=
  let '(mkMsgSwapOrder input_ output_ deadline_ isBuyOrder_ unknown) := x in
  match fieldNum with
  | 1 => Some (api_get_pointer Input_methods discard "Input" wireType input_ (fun v => mkMsgSwapOrder v output_ deadline_ isBuyOrder_ unknown))
  | 2 => Some (api_get_pointer Output_methods discard "Output" wireType output_ (fun v => mkMsgSwapOrder input_ v deadline_ isBuyOrder_ unknown))
  | 3 => Some (get_varint sint64 "Deadline" wireType (fun v => mkMsgSwapOrder input_ output_ v isBuyOrder_ unknown))
  | 4 => Some (get_bool "IsBuyOrder" wireType (fun v => mkMsgSwapOrder input_ output_ deadline_ v unknown))
  | _ => None
  end.
Definition MsgSwapOrder_append (u : bytes) (x : MsgSwapOrder) : MsgSwapOrder := let '(mkMsgSwapOrder input_ output_ deadline_ isBuyOrder_ unknown) := x in mkMsgSwapOrder input_ output_ deadline_ isBuyOrder_ (unknown ++ u).
Definition MsgSwapOrder_unmarshal : bool -> bytes -> option MsgSwapOrder -> outcome (option MsgSwapOrder) := api_unmarshal "MsgSwapOrder" MsgSwapOrder_cases MsgSwapOrder_append.
Definition MsgSwapOrder_methods : Methods MsgSwapOrder :=
  mkMethods (mkMsgSwapOrder None None 0 false []) (api_size MsgSwapOrder_size) (api_marshal MsgSwapOrder_size MsgSwapOrder_marshal) MsgSwapOrder_unmarshal.

(** ** [MsgSwapCoinResponse] *)

Record MsgSwapCoinResponse := mkMsgSwapCoinResponse { MsgSwapCoinResponse_unknownFields : bytes }.
Definition MsgSwapCoinResponse_size (x : MsgSwapCoinResponse) : Z :=
  blen (MsgSwapCoinResponse_unknownFields x).
Definition MsgSwapCoinResponse_marshal (x : MsgSwapCoinResponse) : writer :=
  put_raw (MsgSwapCoinResponse_unknownFields x).
Definition MsgSwapCoinResponse_cases (discard : bool) (x : MsgSwapCoinResponse) (fieldNum wireType : Z) : option (reader MsgSwapCoinResponse) := None.
Definition MsgSwapCoinResponse_append (u : bytes) (x : MsgSwapCoinResponse) : MsgSwapCoinResponse := let '(mkMsgSwapCoinResponse unknown) := x in mkMsgSwapCoinResponse (unknown ++ u).
Definition MsgSwapCoinResponse_unmarshal : bool -> bytes -> option MsgSwapCoinResponse -> outcome (option MsgSwapCoinResponse) := api_unmarshal "MsgSwapCoinResponse" MsgSwapCoinResponse_cases MsgSwapCoinResponse_append.
Definition MsgSwapCoinResponse_methods : Methods MsgSwapCoinResponse :=
  mkMethods (mkMsgSwapCoinResponse []) (api_size MsgSwapCoinResponse_size) (api_marshal MsgSwapCoinResponse_size MsgSwapCoinResponse_marshal) MsgSwapCoinResponse_unmarshal.

(** ** [MsgUpdateParams] *)

Record MsgUpdateParams := mkMsgUpdateParams { MsgUpdateParams_Authority : string; MsgUpdateParams_Params : option Params; MsgUpdateParams_unknownFields : bytes }.
Definition MsgUpdateParams_size (x : MsgUpdateParams) : Z :=
  api_size_string (MsgUpdateParams_Authority x) + api_size_pointer Params_methods (MsgUpdateParams_Params x) + blen (MsgUpdateParams_unknownFields x).
Definition MsgUpdateParams_marshal (x : MsgUpdateParams) : writer :=
  put_raw (MsgUpdateParams_unknownFields x) ;>
  api_put_pointer Params_methods 0x12 (MsgUpdateParams_Params x) ;>
  api_put_string 0xa (MsgUpdateParams_Authority x).
Definition MsgUpdateParams_cases (discard : bool) (x : MsgUpdateParams) (fieldNum wireType : Z) : option (reader MsgUpdateParams) :=
  let '(mkMsgUpdateParams authority_ params_ unknown) := x in
  match fieldNum with
  | 1 => Some (get_string "Authority" wireType (fun v => mkMsgUpdateParams v params_ unknown))
  | 2 => Some (api_get_pointer Params_methods discard "Params" wireType params_ (fun v => mkMsgUpdateParams authority_ v unknown))
  | _ => None
  end.
Definition MsgUpdateParams_append (u : bytes) (x : MsgUpdateParams) : MsgUpdateParams := let '(mkMsgUpdateParams authority_ params_ unknown) := x in mkMsgUpdateParams authority_ params_ (unknown ++ u).
Definition MsgUpdateParams_unmarshal : bool -> bytes -> option MsgUpdateParams -> outcome (option MsgUpdateParams) := api_unmarshal "MsgUpdateParams" MsgUpdateParams_cases MsgUpdateParams_append.
Definition MsgUpdateParams_methods : Methods MsgUpdateParams :=
  mkMethods (mkMsgUpdateParams "" None []) (api_size MsgUpdateParams_size) (api_marshal MsgUpdateParams_size MsgUpdateParams_marshal) MsgUpdateParams_unmarshal.

(** ** [MsgUpdateParamsResponse] *)

Record MsgUpdateParamsResponse := mkMsgUpdateParamsResponse { MsgUpdateParamsResponse_unknownFields : bytes }.
Definition MsgUpdateParamsResponse_size (x : MsgUpdateParamsResponse) : Z :=
  blen (MsgUpdateParamsResponse_unknownFields x).
Definition MsgUpdateParamsResponse_marshal (x : MsgUpdateParamsResponse) : writer :=
  put_raw (MsgUpdateParamsResponse_unknownFields x).
Definition MsgUpdateParamsResponse_cases (discard : bool) (x : MsgUpdateParamsResponse) (fieldNum wireType : Z) : option (reader MsgUpdateParamsResponse) := None.
Definition MsgUpdateParamsResponse_append (u : bytes) (x : MsgUpdateParamsResponse) : MsgUpdateParamsResponse := let '(mkMsgUpdateParamsResponse unknown) := x in mkMsgUpdateParamsResponse (unknown ++ u).
Definition MsgUpdateParamsResponse_unmarshal : bool -> bytes -> option MsgUpdateParamsResponse -> outcome (option MsgUpdateParamsResponse) := api_unmarshal "MsgUpdateParamsResponse" MsgUpdateParamsResponse_cases MsgUpdateParamsResponse_append.
Definition MsgUpdateParamsResponse_methods : Methods MsgUpdateParamsResponse :=
  mkMethods (mkMsgUpdateParamsResponse []) (api_size MsgUpdateParamsResponse_size) (api_marshal MsgUpdateParamsResponse_size MsgUpdateParamsResponse_marshal) MsgUpdateParamsResponse_unmarshal.

(** ** Well-formed messages and their encodings *)

Context {RL : ProtoRuntimeLaws} {AL : ApiSdkLaws AS}.

Definition Input_wf (x : Input) : Prop := (∀ a, Input_Coin x = Some a -> api_Coin_wf a) ∧ unknown_bytes [1; 2] (Input_unknownFields x).
Definition Input_fields_enc (x : Input) : bytes :=
  enc_string 0xa (Input_Address x) ++
  enc_pointer api_Coin_enc 0x12 (Input_Coin x).
Definition Input_enc (x : Input) : bytes := Input_fields_enc x ++ Input_unknownFields x.
Lemma coinswap_Input_api_laws : MethodLaws Input_methods Input_wf Input_enc.
Proof. api_message_laws Input_wf Input_enc Input_fields_enc Input_size Input_marshal Input_cases Input_append. Qed.
#[local] Hint Resolve coinswap_Input_api_laws : api_laws.

Definition Output_wf (x : Output) : Prop := (∀ a, Output_Coin x = Some a -> api_Coin_wf a) ∧ unknown_bytes [1; 2] (Output_unknownFields x).
Definition Output_fields_enc (x : Output) : bytes :=
  enc_string 0xa (Output_Address x) ++
  enc_pointer api_Coin_enc 0x12 (Output_Coin x).
Definition Output_enc (x : Output) : bytes := Output_fields_enc x ++ Output_unknownFields x.
Lemma coinswap_Output_api_laws : MethodLaws Output_methods Output_wf Output_enc.
Proof. api_message_laws Output_wf Output_enc Output_fields_enc Output_size Output_marshal Output_cases Output_append. Qed.
#[local] Hint Resolve coinswap_Output_api_laws : api_laws.

Definition Pool_wf (x : Pool) : Prop := unknown_bytes [1; 2; 3; 4; 5] (Pool_unknownFields x).
Definition Pool_fields_enc (x : Pool) : bytes :=
  enc_string 0xa (Pool_Id x) ++
  enc_string 0x12 (Pool_StandardDenom x) ++
  enc_string 0x1a (Pool_CounterpartyDenom x) ++
  enc_string 0x22 (Pool_EscrowAddress x) ++
  enc_string 0x2a (Pool_LptDenom x).
Definition Pool_enc (x : Pool) : bytes := Pool_fields_enc x ++ Pool_unknownFields x.
Lemma coinswap_Pool_api_laws : MethodLaws Pool_methods Pool_wf Pool_enc.
Proof. api_message_laws Pool_wf Pool_enc Pool_fields_enc Pool_size Pool_marshal Pool_cases Pool_append. Qed.
#[local] Hint Resolve coinswap_Pool_api_laws : api_laws.

Definition Params_wf (x : Params) : Prop := (∀ a, Params_PoolCreationFee x = Some a -> api_Coin_wf a) ∧ Forall (element_wf api_Coin_wf) (Params_MaxSwapAmount x) ∧ unknown_bytes [1; 2; 3; 4; 6] (Params_unknownFields x).
Definition Params_fields_enc (x : Params) : bytes :=
  enc_string 0xa (Params_Fee x) ++
  enc_pointer api_Coin_enc 0x12 (Params_PoolCreationFee x) ++
  enc_string 0x1a (Params_TaxRate x) ++
  enc_string 0x22 (Params_MaxStandardCoinPerPool x) ++
  enc_elements api_Coin_enc 0x32 (Params_MaxSwapAmount x).
Definition Params_enc (x : Params) : bytes := Params_fields_enc x ++ Params_unknownFields x.
Lemma coinswap_Params_api_laws : MethodLaws Params_methods Params_wf Params_enc.
Proof. api_message_laws Params_wf Params_enc Params_fields_enc Params_size Params_marshal Params_cases Params_append. Qed.
#[local] Hint Resolve coinswap_Params_api_laws : api_laws.

Definition GenesisState_wf (x : GenesisState) : Prop := (∀ a, GenesisState_Params x = Some a -> Params_wf a) ∧ Forall (element_wf Pool_wf) (GenesisState_Pool x) ∧ is_uint64 (GenesisState_Sequence x) ∧ unknown_bytes [1; 2; 3; 4] (GenesisState_unknownFields x).
Definition GenesisState_fields_enc (x : GenesisState) : bytes :=
  enc_pointer Params_enc 0xa (GenesisState_Params x) ++
  enc_string 0x12 (GenesisState_StandardDenom x) ++
  enc_elements Pool_enc 0x1a (GenesisState_Pool x) ++
  enc_varint 0x20 (GenesisState_Sequence x).
Definition GenesisState_enc (x : GenesisState) : bytes := GenesisState_fields_enc x ++ GenesisState_unknownFields x.
Lemma coinswap_GenesisState_api_laws : MethodLaws GenesisState_methods GenesisState_wf GenesisState_enc.
Proof. api_message_laws GenesisState_wf GenesisState_enc GenesisState_fields_enc GenesisState_size GenesisState_marshal GenesisState_cases GenesisState_append. Qed.
#[local] Hint Resolve coinswap_GenesisState_api_laws : api_laws.

Definition QueryParamsRequest_wf (x : QueryParamsRequest) : Prop := unknown_bytes [] (QueryParamsRequest_unknownFields x).
Definition QueryParamsRequest_fields_enc (x : QueryParamsRequest) : bytes :=
  [].
Definition QueryParamsRequest_enc (x : QueryParamsRequest) : bytes := QueryParamsRequest_fields_enc x ++ QueryParamsRequest_unknownFields x.
Lemma coinswap_QueryParamsRequest_api_laws : MethodLaws QueryParamsRequest_methods QueryParamsRequest_wf QueryParamsRequest_enc.
Proof. api_message_laws QueryParamsRequest_wf QueryParamsRequest_enc QueryParamsRequest_fields_enc QueryParamsRequest_size QueryParamsRequest_marshal QueryParamsRequest_cases QueryParamsRequest_append. Qed.
#[local] Hint Resolve coinswap_QueryParamsRequest_api_laws : api_laws.

Definition QueryParamsResponse_wf (x : QueryParamsResponse) : Prop := (∀ a, QueryParamsResponse_Params x = Some a -> Params_wf a) ∧ unknown_bytes [1] (QueryParamsResponse_unknownFields x).
Definition QueryParamsResponse_fields_enc (x : QueryParamsResponse) : bytes :=
  enc_pointer Params_enc 0xa (QueryParamsResponse_Params x).
Definition QueryParamsResponse_enc (x : QueryParamsResponse) : bytes := QueryParamsResponse_fields_enc x ++ QueryParamsResponse_unknownFields x.
Lemma coinswap_QueryParamsResponse_api_laws : MethodLaws QueryParamsResponse_methods QueryParamsResponse_wf QueryParamsResponse_enc.
Proof. api_message_laws QueryParamsResponse_wf QueryParamsResponse_enc QueryParamsResponse_fields_enc QueryParamsResponse_size QueryParamsResponse_marshal QueryParamsResponse_cases QueryParamsResponse_append. Qed.
#[local] Hint Resolve coinswap_QueryParamsResponse_api_laws : api_laws.

Definition QueryLiquidityPoolRequest_wf (x : QueryLiquidityPoolRequest) : Prop := unknown_bytes [1] (QueryLiquidityPoolRequest_unknownFields x).
Definition QueryLiquidityPoolRequest_fields_enc (x : QueryLiquidityPoolRequest) : bytes :=
  enc_string 0xa (QueryLiquidityPoolRequest_LptDenom x).
Definition QueryLiquidityPoolRequest_enc (x : QueryLiquidityPoolRequest) : bytes := QueryLiquidityPoolRequest_fields_enc x ++ QueryLiquidityPoolRequest_unknownFields x.
Lemma coinswap_QueryLiquidityPoolRequest_api_laws : MethodLaws QueryLiquidityPoolRequest_methods QueryLiquidityPoolRequest_wf QueryLiquidityPoolRequest_enc.
Proof. api_message_laws QueryLiquidityPoolRequest_wf QueryLiquidityPoolRequest_enc QueryLiquidityPoolRequest_fields_enc QueryLiquidityPoolRequest_size QueryLiquidityPoolRequest_marshal QueryLiquidityPoolRequest_cases QueryLiquidityPoolRequest_append. Qed.
#[local] Hint Resolve coinswap_QueryLiquidityPoolRequest_api_laws : api_laws.

Definition QueryLiquidityPoolsRequest_wf (x : QueryLiquidityPoolsRequest) : Prop := (∀ a, QueryLiquidityPoolsRequest_Pagination x = Some a -> api_PageRequest_wf a) ∧ unknown_bytes [1] (QueryLiquidityPoolsRequest_unknownFields x).
Definition QueryLiquidityPoolsRequest_fields_enc (x : QueryLiquidityPoolsRequest) : bytes :=
  enc_pointer api_PageRequest_enc 0xa (QueryLiquidityPoolsRequest_Pagination x).
Definition QueryLiquidityPoolsRequest_enc (x : QueryLiquidityPoolsRequest) : bytes := QueryLiquidityPoolsRequest_fields_enc x ++ QueryLiquidityPoolsRequest_unknownFields x.
Lemma coinswap_QueryLiquidityPoolsRequest_api_laws : MethodLaws QueryLiquidityPoolsRequest_methods QueryLiquidityPoolsRequest_wf QueryLiquidityPoolsRequest_enc.
Proof. api_message_laws QueryLiquidityPoolsRequest_wf QueryLiquidityPoolsRequest_enc QueryLiquidityPoolsRequest_fields_enc QueryLiquidityPoolsRequest_size QueryLiquidityPoolsRequest_marshal QueryLiquidityPoolsRequest_cases QueryLiquidityPoolsRequest_append. Qed.
#[local] Hint Resolve coinswap_QueryLiquidityPoolsRequest_api_laws : api_laws.

Definition PoolInfo_wf (x : PoolInfo) : Prop := (∀ a, PoolInfo_Standard x = Some a -> api_Coin_wf a) ∧ (∀ a, PoolInfo_Token x = Some a -> api_Coin_wf a) ∧ (∀ a, PoolInfo_Lpt x = Some a -> api_Coin_wf a) ∧ unknown_bytes [1; 2; 3; 4; 5; 6] (PoolInfo_unknownFields x).
Definition PoolInfo_fields_enc (x : PoolInfo) : bytes :=
  enc_string 0xa (PoolInfo_Id x) ++
  enc_string 0x12 (PoolInfo_EscrowAddress x) ++
  enc_pointer api_Coin_enc 0x1a (PoolInfo_Standard x) ++
  enc_pointer api_Coin_enc 0x22 (PoolInfo_Token x) ++
  enc_pointer api_Coin_enc 0x2a (PoolInfo_Lpt x) ++
  enc_string 0x32 (PoolInfo_Fee x).
Definition PoolInfo_enc (x : PoolInfo) : bytes := PoolInfo_fields_enc x ++ PoolInfo_unknownFields x.
Lemma coinswap_PoolInfo_api_laws : MethodLaws PoolInfo_methods PoolInfo_wf PoolInfo_enc.
Proof. api_message_laws PoolInfo_wf PoolInfo_enc PoolInfo_fields_enc PoolInfo_size PoolInfo_marshal PoolInfo_cases PoolInfo_append. Qed.
#[local] Hint Resolve coinswap_PoolInfo_api_laws : api_laws.

Definition QueryLiquidityPoolResponse_wf (x : QueryLiquidityPoolResponse) : Prop := (∀ a, QueryLiquidityPoolResponse_Pool x = Some a -> PoolInfo_wf a) ∧ unknown_bytes [1] (QueryLiquidityPoolResponse_unknownFields x).
Definition QueryLiquidityPoolResponse_fields_enc (x : QueryLiquidityPoolResponse) : bytes :=
  enc_pointer PoolInfo_enc 0xa (QueryLiquidityPoolResponse_Pool x).
Definition QueryLiquidityPoolResponse_enc (x : QueryLiquidityPoolResponse) : bytes := QueryLiquidityPoolResponse_fields_enc x ++ QueryLiquidityPoolResponse_unknownFields x.
Lemma coinswap_QueryLiquidityPoolResponse_api_laws : MethodLaws QueryLiquidityPoolResponse_methods QueryLiquidityPoolResponse_wf QueryLiquidityPoolResponse_enc.
Proof. api_message_laws QueryLiquidityPoolResponse_wf QueryLiquidityPoolResponse_enc QueryLiquidityPoolResponse_fields_enc QueryLiquidityPoolResponse_size QueryLiquidityPoolResponse_marshal QueryLiquidityPoolResponse_cases QueryLiquidityPoolResponse_append. Qed.
#[local] Hint Resolve coinswap_QueryLiquidityPoolResponse_api_laws : api_laws.

Definition QueryLiquidityPoolsResponse_wf (x : QueryLiquidityPoolsResponse) : Prop := Forall (element_wf PoolInfo_wf) (QueryLiquidityPoolsResponse_Pools x) ∧ (∀ a, QueryLiquidityPoolsResponse_Pagination x = Some a -> api_PageResponse_wf a) ∧ unknown_bytes [1; 2] (QueryLiquidityPoolsResponse_unknownFields x).
Definition QueryLiquidityPoolsResponse_fields_enc (x : QueryLiquidityPoolsResponse) : bytes :=
  enc_elements PoolInfo_enc 0xa (QueryLiquidityPoolsResponse_Pools x) ++
  enc_pointer api_PageResponse_enc 0x12 (QueryLiquidityPoolsResponse_Pagination x).
Definition QueryLiquidityPoolsResponse_enc (x : QueryLiquidityPoolsResponse) : bytes := QueryLiquidityPoolsResponse_fields_enc x ++ QueryLiquidityPoolsResponse_unknownFields x.
Lemma coinswap_QueryLiquidityPoolsResponse_api_laws : MethodLaws QueryLiquidityPoolsResponse_methods QueryLiquidityPoolsResponse_wf QueryLiquidityPoolsResponse_enc.
Proof. api_message_laws QueryLiquidityPoolsResponse_wf QueryLiquidityPoolsResponse_enc QueryLiquidityPoolsResponse_fields_enc QueryLiquidityPoolsResponse_size QueryLiquidityPoolsResponse_marshal QueryLiquidityPoolsResponse_cases QueryLiquidityPoolsResponse_append. Qed.
#[local] Hint Resolve coinswap_QueryLiquidityPoolsResponse_api_laws : api_laws.

Definition MsgAddLiquidity_wf (x : MsgAddLiquidity) : Prop := (∀ a, MsgAddLiquidity_MaxToken x = Some a -> api_Coin_wf a) ∧ is_int64 (MsgAddLiquidity_Deadline x) ∧ unknown_bytes [1; 2; 3; 4; 5] (MsgAddLiquidity_unknownFields x).
Definition MsgAddLiquidity_fields_enc (x : MsgAddLiquidity) : bytes :=
  enc_pointer api_Coin_enc 0xa (MsgAddLiquidity_MaxToken x) ++
  enc_string 0x12 (MsgAddLiquidity_ExactStandardAmt x) ++
  enc_string 0x1a (MsgAddLiquidity_MinLiquidity x) ++
  enc_varint 0x20 (MsgAddLiquidity_Deadline x) ++
  enc_string 0x2a (MsgAddLiquidity_Sender x).
Definition MsgAddLiquidity_enc (x : MsgAddLiquidity) : bytes := MsgAddLiquidity_fields_enc x ++ MsgAddLiquidity_unknownFields x.
Lemma coinswap_MsgAddLiquidity_api_laws : MethodLaws MsgAddLiquidity_methods MsgAddLiquidity_wf MsgAddLiquidity_enc.
Proof. api_message_laws MsgAddLiquidity_wf MsgAddLiquidity_enc MsgAddLiquidity_fields_enc MsgAddLiquidity_size MsgAddLiquidity_marshal MsgAddLiquidity_cases MsgAddLiquidity_append. Qed.
#[local] Hint Resolve coinswap_MsgAddLiquidity_api_laws : api_laws.

Definition MsgAddLiquidityResponse_wf (x : MsgAddLiquidityResponse) : Prop := (∀ a, MsgAddLiquidityResponse_MintToken x = Some a -> api_Coin_wf a) ∧ unknown_bytes [1] (MsgAddLiquidityResponse_unknownFields x).
Definition MsgAddLiquidityResponse_fields_enc (x : MsgAddLiquidityResponse) : bytes :=
  enc_pointer api_Coin_enc 0xa (MsgAddLiquidityResponse_MintToken x).
Definition MsgAddLiquidityResponse_enc (x : MsgAddLiquidityResponse) : bytes := MsgAddLiquidityResponse_fields_enc x ++ MsgAddLiquidityResponse_unknownFields x.
Lemma coinswap_MsgAddLiquidityResponse_api_laws : MethodLaws MsgAddLiquidityResponse_methods MsgAddLiquidityResponse_wf MsgAddLiquidityResponse_enc.
Proof. api_message_laws MsgAddLiquidityResponse_wf MsgAddLiquidityResponse_enc MsgAddLiquidityResponse_fields_enc MsgAddLiquidityResponse_size MsgAddLiquidityResponse_marshal MsgAddLiquidityResponse_cases MsgAddLiquidityResponse_append. Qed.
#[local] Hint Resolve coinswap_MsgAddLiquidityResponse_api_laws : api_laws.

Definition MsgRemoveLiquidity_wf (x : MsgRemoveLiquidity) : Prop := (∀ a, MsgRemoveLiquidity_WithdrawLiquidity x = Some a -> api_Coin_wf a) ∧ is_int64 (MsgRemoveLiquidity_Deadline x) ∧ unknown_bytes [1; 2; 3; 4; 5] (MsgRemoveLiquidity_unknownFields x).
Definition MsgRemoveLiquidity_fields_enc (x : MsgRemoveLiquidity) : bytes :=
  enc_pointer api_Coin_enc 0xa (MsgRemoveLiquidity_WithdrawLiquidity x) ++
  enc_string 0x12 (MsgRemoveLiquidity_MinToken x) ++
  enc_string 0x1a (MsgRemoveLiquidity_MinStandardAmt x) ++
  enc_varint 0x20 (MsgRemoveLiquidity_Deadline x) ++
  enc_string 0x2a (MsgRemoveLiquidity_Sender x).
Definition MsgRemoveLiquidity_enc (x : MsgRemoveLiquidity) : bytes := MsgRemoveLiquidity_fields_enc x ++ MsgRemoveLiquidity_unknownFields x.
Lemma coinswap_MsgRemoveLiquidity_api_laws : MethodLaws MsgRemoveLiquidity_methods MsgRemoveLiquidity_wf MsgRemoveLiquidity_enc.
Proof. api_message_laws MsgRemoveLiquidity_wf MsgRemoveLiquidity_enc MsgRemoveLiquidity_fields_enc MsgRemoveLiquidity_size MsgRemoveLiquidity_marshal MsgRemoveLiquidity_cases MsgRemoveLiquidity_append. Qed.
#[local] Hint Resolve coinswap_MsgRemoveLiquidity_api_laws : api_laws.

Definition MsgRemoveLiquidityResponse_wf (x : MsgRemoveLiquidityResponse) : Prop := Forall (element_wf api_Coin_wf) (MsgRemoveLiquidityResponse_WithdrawCoins x) ∧ unknown_bytes [1] (MsgRemoveLiquidityResponse_unknownFields x).
Definition MsgRemoveLiquidityResponse_fields_enc (x : MsgRemoveLiquidityResponse) : bytes :=
  enc_elements api_Coin_enc 0xa (MsgRemoveLiquidityResponse_WithdrawCoins x).
Definition MsgRemoveLiquidityResponse_enc (x : MsgRemoveLiquidityResponse) : bytes := MsgRemoveLiquidityResponse_fields_enc x ++ MsgRemoveLiquidityResponse_unknownFields x.
Lemma coinswap_MsgRemoveLiquidityResponse_api_laws : MethodLaws MsgRemoveLiquidityResponse_methods MsgRemoveLiquidityResponse_wf MsgRemoveLiquidityResponse_enc.
Proof. api_message_laws MsgRemoveLiquidityResponse_wf MsgRemoveLiquidityResponse_enc MsgRemoveLiquidityResponse_fields_enc MsgRemoveLiquidityResponse_size MsgRemoveLiquidityResponse_marshal MsgRemoveLiquidityResponse_cases MsgRemoveLiquidityResponse_append. Qed.
#[local] Hint Resolve coinswap_MsgRemoveLiquidityResponse_api_laws : api_laws.

Definition MsgSwapOrder_wf (x : MsgSwapOrder) : Prop := (∀ a, MsgSwapOrder_Input x = Some a -> Input_wf a) ∧ (∀ a, MsgSwapOrder_Output x = Some a -> Output_wf a) ∧ is_int64 (MsgSwapOrder_Deadline x) ∧ unknown_bytes [1; 2; 3; 4] (MsgSwapOrder_unknownFields x).
Definition MsgSwapOrder_fields_enc (x : MsgSwapOrder) : bytes :=
  enc_pointer Input_enc 0xa (MsgSwapOrder_Input x) ++
  enc_pointer Output_enc 0x12 (MsgSwapOrder_Output x) ++
  enc_varint 0x18 (MsgSwapOrder_Deadline x) ++
  enc_bool 0x20 (MsgSwapOrder_IsBuyOrder x).
Definition MsgSwapOrder_enc (x : MsgSwapOrder) : bytes := MsgSwapOrder_fields_enc x ++ MsgSwapOrder_unknownFields x.
Lemma coinswap_MsgSwapOrder_api_laws : MethodLaws MsgSwapOrder_methods MsgSwapOrder_wf MsgSwapOrder_enc.
Proof. api_message_laws MsgSwapOrder_wf MsgSwapOrder_enc MsgSwapOrder_fields_enc MsgSwapOrder_size MsgSwapOrder_marshal MsgSwapOrder_cases MsgSwapOrder_append. Qed.
#[local] Hint Resolve coinswap_MsgSwapOrder_api_laws : api_laws.

Definition MsgSwapCoinResponse_wf (x : MsgSwapCoinResponse) : Prop := unknown_bytes [] (MsgSwapCoinResponse_unknownFields x).
Definition MsgSwapCoinResponse_fields_enc (x : MsgSwapCoinResponse) : bytes :=
  [].
Definition MsgSwapCoinResponse_enc (x : MsgSwapCoinResponse) : bytes := MsgSwapCoinResponse_fields_enc x ++ MsgSwapCoinResponse_unknownFields x.
Lemma coinswap_MsgSwapCoinResponse_api_laws : MethodLaws MsgSwapCoinResponse_methods MsgSwapCoinResponse_wf MsgSwapCoinResponse_enc.
Proof. api_message_laws MsgSwapCoinResponse_wf MsgSwapCoinResponse_enc MsgSwapCoinResponse_fields_enc MsgSwapCoinResponse_size MsgSwapCoinResponse_marshal MsgSwapCoinResponse_cases MsgSwapCoinResponse_append. Qed.
#[local] Hint Resolve coinswap_MsgSwapCoinResponse_api_laws : api_laws.

Definition MsgUpdateParams_wf (x : MsgUpdateParams) : Prop := (∀ a, MsgUpdateParams_Params x = Some a -> Params_wf a) ∧ unknown_bytes [1; 2] (MsgUpdateParams_unknownFields x).
Definition MsgUpdateParams_fields_enc (x : MsgUpdateParams) : bytes :=
  enc_string 0xa (MsgUpdateParams_Authority x) ++
  enc_pointer Params_enc 0x12 (MsgUpdateParams_Params x).
Definition MsgUpdateParams_enc (x : MsgUpdateParams) : bytes := MsgUpdateParams_fields_enc x ++ MsgUpdateParams_unknownFields x.
Lemma coinswap_MsgUpdateParams_api_laws : MethodLaws MsgUpdateParams_methods MsgUpdateParams_wf MsgUpdateParams_enc.
Proof. api_message_laws MsgUpdateParams_wf MsgUpdateParams_enc MsgUpdateParams_fields_enc MsgUpdateParams_size MsgUpdateParams_marshal MsgUpdateParams_cases MsgUpdateParams_append. Qed.
#[local] Hint Resolve coinswap_MsgUpdateParams_api_laws : api_laws.

Definition MsgUpdateParamsResponse_wf (x : MsgUpdateParamsResponse) : Prop := unknown_bytes [] (MsgUpdateParamsResponse_unknownFields x).
Definition MsgUpdateParamsResponse_fields_enc (x : MsgUpdateParamsResponse) : bytes :=
  [].
Definition MsgUpdateParamsResponse_enc (x : MsgUpdateParamsResponse) : bytes := MsgUpdateParamsResponse_fields_enc x ++ MsgUpdateParamsResponse_unknownFields x.
Lemma coinswap_MsgUpdateParamsResponse_api_laws : MethodLaws MsgUpdateParamsResponse_methods MsgUpdateParamsResponse_wf MsgUpdateParamsResponse_enc.
Proof. api_message_laws MsgUpdateParamsResponse_wf MsgUpdateParamsResponse_enc MsgUpdateParamsResponse_fields_enc MsgUpdateParamsResponse_size MsgUpdateParamsResponse_marshal MsgUpdateParamsResponse_cases MsgUpdateParamsResponse_append. Qed.
#[local] Hint Resolve coinswap_MsgUpdateParamsResponse_api_laws : api_laws.

(** Messages are read back, with the fields they do not know, and no input makes decoding panic. *)
Definition api_round_trips : Prop :=
  read_back Input_methods Input_wf Input_enc ∧
  read_back Output_methods Output_wf Output_enc ∧
  read_back Pool_methods Pool_wf Pool_enc ∧
  read_back Params_methods Params_wf Params_enc ∧
  read_back GenesisState_methods GenesisState_wf GenesisState_enc ∧
  read_back QueryParamsRequest_methods QueryParamsRequest_wf QueryParamsRequest_enc ∧
  read_back QueryParamsResponse_methods QueryParamsResponse_wf QueryParamsResponse_enc ∧
  read_back QueryLiquidityPoolRequest_methods QueryLiquidityPoolRequest_wf QueryLiquidityPoolRequest_enc ∧
  read_back QueryLiquidityPoolsRequest_methods QueryLiquidityPoolsRequest_wf QueryLiquidityPoolsRequest_enc ∧
  read_back PoolInfo_methods PoolInfo_wf PoolInfo_enc ∧
  read_back QueryLiquidityPoolResponse_methods QueryLiquidityPoolResponse_wf QueryLiquidityPoolResponse_enc ∧
  read_back QueryLiquidityPoolsResponse_methods QueryLiquidityPoolsResponse_wf QueryLiquidityPoolsResponse_enc ∧
  read_back MsgAddLiquidity_methods MsgAddLiquidity_wf MsgAddLiquidity_enc ∧
  read_back MsgAddLiquidityResponse_methods MsgAddLiquidityResponse_wf MsgAddLiquidityResponse_enc ∧
  read_back MsgRemoveLiquidity_methods MsgRemoveLiquidity_wf MsgRemoveLiquidity_enc ∧
  read_back MsgRemoveLiquidityResponse_methods MsgRemoveLiquidityResponse_wf MsgRemoveLiquidityResponse_enc ∧
  read_back MsgSwapOrder_methods MsgSwapOrder_wf MsgSwapOrder_enc ∧
  read_back MsgSwapCoinResponse_methods MsgSwapCoinResponse_wf MsgSwapCoinResponse_enc ∧
  read_back MsgUpdateParams_methods MsgUpdateParams_wf MsgUpdateParams_enc ∧
  read_back MsgUpdateParamsResponse_methods MsgUpdateParamsResponse_wf MsgUpdateParamsResponse_enc.
Lemma coinswap_api_round_trips : api_round_trips.
Proof. unfold api_round_trips. split_and!; eapply laws_read_back; api_law. Qed.

(** ** Reflection *)

(** The messages that occur in messages, and the conversions to them. *)
Inductive Msg :=
| Msg_api_Coin (x : option api_Coin)
| Msg_Params (x : option Params)
| Msg_Pool (x : option Pool)
| Msg_api_PageRequest (x : option api_PageRequest)
| Msg_PoolInfo (x : option PoolInfo)
| Msg_api_PageResponse (x : option api_PageResponse)
| Msg_Input (x : option Input)
| Msg_Output (x : option Output).
Definition to_api_Coin (m : Msg) : outcome (option api_Coin) := if m is Msg_api_Coin x then Ok x else Panic.
Definition to_Params (m : Msg) : outcome (option Params) := if m is Msg_Params x then Ok x else Panic.
Definition to_Pool (m : Msg) : outcome (option Pool) := if m is Msg_Pool x then Ok x else Panic.
Definition to_api_PageRequest (m : Msg) : outcome (option api_PageRequest) := if m is Msg_api_PageRequest x then Ok x else Panic.
Definition to_PoolInfo (m : Msg) : outcome (option PoolInfo) := if m is Msg_PoolInfo x then Ok x else Panic.
Definition to_api_PageResponse (m : Msg) : outcome (option api_PageResponse) := if m is Msg_api_PageResponse x then Ok x else Panic.
Definition to_Input (m : Msg) : outcome (option Input) := if m is Msg_Input x then Ok x else Panic.
Definition to_Output (m : Msg) : outcome (option Output) := if m is Msg_Output x then Ok x else Panic.

Inductive Lst :=
| Lst_Params_6 (x : option (list (option api_Coin)))
| Lst_GenesisState_3 (x : option (list (option Pool)))
| Lst_QueryLiquidityPoolsResponse_1 (x : option (list (option PoolInfo)))
| Lst_MsgRemoveLiquidityResponse_1 (x : option (list (option api_Coin))).
Definition to_Params_6 (l : Lst) : outcome (option (list (option api_Coin))) := if l is Lst_Params_6 x then Ok x else Panic.
Definition to_GenesisState_3 (l : Lst) : outcome (option (list (option Pool))) := if l is Lst_GenesisState_3 x then Ok x else Panic.
Definition to_QueryLiquidityPoolsResponse_1 (l : Lst) : outcome (option (list (option PoolInfo))) := if l is Lst_QueryLiquidityPoolsResponse_1 x then Ok x else Panic.
Definition to_MsgRemoveLiquidityResponse_1 (l : Lst) : outcome (option (list (option api_Coin))) := if l is Lst_MsgRemoveLiquidityResponse_1 x then Ok x else Panic.
Abbreviation V := (Value Msg Lst).

Definition _Params_6_list : Elem (option api_Coin) V := message_elem (new api_Coin_methods) Msg_api_Coin to_api_Coin.
Definition _GenesisState_3_list : Elem (option Pool) V := message_elem (new Pool_methods) Msg_Pool to_Pool.
Definition _QueryLiquidityPoolsResponse_1_list : Elem (option PoolInfo) V := message_elem (new PoolInfo_methods) Msg_PoolInfo to_PoolInfo.
Definition _MsgRemoveLiquidityResponse_1_list : Elem (option api_Coin) V := message_elem (new api_Coin_methods) Msg_api_Coin to_api_Coin.

Definition fastReflection_Input_fields : list (Field Input V) :=
  [string_field "canto.coinswap.v1.Input.address" Input_Address
     (fun v x => let '(mkInput _ coin_ unknown) := x in mkInput v coin_ unknown);
   message_field (new api_Coin_methods) Msg_api_Coin to_api_Coin "canto.coinswap.v1.Input.coin" Input_Coin
     (fun v x => let '(mkInput address_ _ unknown) := x in mkInput address_ v unknown)].
Definition fastReflection_Input_Range {S} := reflect_Range (S := S) fastReflection_Input_fields.
Definition fastReflection_Input_Has := reflect_Has fastReflection_Input_fields.
Definition fastReflection_Input_Clear := reflect_Clear fastReflection_Input_fields.
Definition fastReflection_Input_Get := reflect_Get fastReflection_Input_fields.
Definition fastReflection_Input_Set := reflect_Set fastReflection_Input_fields.
Definition fastReflection_Input_Mutable := reflect_Mutable fastReflection_Input_fields.
Definition fastReflection_Input_NewField := reflect_NewField fastReflection_Input_fields.
Definition fastReflection_Input_SetUnknown (fields : bytes) (x : Input) : Input := let '(mkInput address_ coin_ _) := x in mkInput address_ coin_ fields.

Definition fastReflection_Output_fields : list (Field Output V) :=
  [string_field "canto.coinswap.v1.Output.address" Output_Address
     (fun v x => let '(mkOutput _ coin_ unknown) := x in mkOutput v coin_ unknown);
   message_field (new api_Coin_methods) Msg_api_Coin to_api_Coin "canto.coinswap.v1.Output.coin" Output_Coin
     (fun v x => let '(mkOutput address_ _ unknown) := x in mkOutput address_ v unknown)].
Definition fastReflection_Output_Range {S} := reflect_Range (S := S) fastReflection_Output_fields.
Definition fastReflection_Output_Has := reflect_Has fastReflection_Output_fields.
Definition fastReflection_Output_Clear := reflect_Clear fastReflection_Output_fields.
Definition fastReflection_Output_Get := reflect_Get fastReflection_Output_fields.
Definition fastReflection_Output_Set := reflect_Set fastReflection_Output_fields.
Definition fastReflection_Output_Mutable := reflect_Mutable fastReflection_Output_fields.
Definition fastReflection_Output_NewField := reflect_NewField fastReflection_Output_fields.
Definition fastReflection_Output_SetUnknown (fields : bytes) (x : Output) : Output := let '(mkOutput address_ coin_ _) := x in mkOutput address_ coin_ fields.

Definition fastReflection_Pool_fields : list (Field Pool V) :=
  [string_field "canto.coinswap.v1.Pool.id" Pool_Id
     (fun v x => let '(mkPool _ standardDenom_ counterpartyDenom_ escrowAddress_ lptDenom_ unknown) := x in mkPool v standardDenom_ counterpartyDenom_ escrowAddress_ lptDenom_ unknown);
   string_field "canto.coinswap.v1.Pool.standard_denom" Pool_StandardDenom
     (fun v x => let '(mkPool id_ _ counterpartyDenom_ escrowAddress_ lptDenom_ unknown) := x in mkPool id_ v counterpartyDenom_ escrowAddress_ lptDenom_ unknown);
   string_field "canto.coinswap.v1.Pool.counterparty_denom" Pool_CounterpartyDenom
     (fun v x => let '(mkPool id_ standardDenom_ _ escrowAddress_ lptDenom_ unknown) := x in mkPool id_ standardDenom_ v escrowAddress_ lptDenom_ unknown);
   string_field "canto.coinswap.v1.Pool.escrow_address" Pool_EscrowAddress
     (fun v x => let '(mkPool id_ standardDenom_ counterpartyDenom_ _ lptDenom_ unknown) := x in mkPool id_ standardDenom_ counterpartyDenom_ v lptDenom_ unknown);
   string_field "canto.coinswap.v1.Pool.lpt_denom" Pool_LptDenom
     (fun v x => let '(mkPool id_ standardDenom_ counterpartyDenom_ escrowAddress_ _ unknown) := x in mkPool id_ standardDenom_ counterpartyDenom_ escrowAddress_ v unknown)].
Definition fastReflection_Pool_Range {S} := reflect_Range (S := S) fastReflection_Pool_fields.
Definition fastReflection_Pool_Has := reflect_Has fastReflection_Pool_fields.
Definition fastReflection_Pool_Clear := reflect_Clear fastReflection_Pool_fields.
Definition fastReflection_Pool_Get := reflect_Get fastReflection_Pool_fields.
Definition fastReflection_Pool_Set := reflect_Set fastReflection_Pool_fields.
Definition fastReflection_Pool_Mutable := reflect_Mutable fastReflection_Pool_fields.
Definition fastReflection_Pool_NewField := reflect_NewField fastReflection_Pool_fields.
Definition fastReflection_Pool_SetUnknown (fields : bytes) (x : Pool) : Pool := let '(mkPool id_ standardDenom_ counterpartyDenom_ escrowAddress_ lptDenom_ _) := x in mkPool id_ standardDenom_ counterpartyDenom_ escrowAddress_ lptDenom_ fields.

Definition fastReflection_Params_fields : list (Field Params V) :=
  [string_field "canto.coinswap.v1.Params.fee" Params_Fee
     (fun v x => let '(mkParams _ poolCreationFee_ taxRate_ maxStandardCoinPerPool_ maxSwapAmount_ unknown) := x in mkParams v poolCreationFee_ taxRate_ maxStandardCoinPerPool_ maxSwapAmount_ unknown);
   message_field (new api_Coin_methods) Msg_api_Coin to_api_Coin "canto.coinswap.v1.Params.pool_creation_fee" Params_PoolCreationFee
     (fun v x => let '(mkParams fee_ _ taxRate_ maxStandardCoinPerPool_ maxSwapAmount_ unknown) := x in mkParams fee_ v taxRate_ maxStandardCoinPerPool_ maxSwapAmount_ unknown);
   string_field "canto.coinswap.v1.Params.tax_rate" Params_TaxRate
     (fun v x => let '(mkParams fee_ poolCreationFee_ _ maxStandardCoinPerPool_ maxSwapAmount_ unknown) := x in mkParams fee_ poolCreationFee_ v maxStandardCoinPerPool_ maxSwapAmount_ unknown);
   string_field "canto.coinswap.v1.Params.max_standard_coin_per_pool" Params_MaxStandardCoinPerPool
     (fun v x => let '(mkParams fee_ poolCreationFee_ taxRate_ _ maxSwapAmount_ unknown) := x in mkParams fee_ poolCreationFee_ taxRate_ v maxSwapAmount_ unknown);
   list_field Lst_Params_6 to_Params_6 "canto.coinswap.v1.Params.max_swap_amount" Params_MaxSwapAmount
     (fun v x => let '(mkParams fee_ poolCreationFee_ taxRate_ maxStandardCoinPerPool_ _ unknown) := x in mkParams fee_ poolCreationFee_ taxRate_ maxStandardCoinPerPool_ v unknown)].
Definition fastReflection_Params_Range {S} := reflect_Range (S := S) fastReflection_Params_fields.
Definition fastReflection_Params_Has := reflect_Has fastReflection_Params_fields.
Definition fastReflection_Params_Clear := reflect_Clear fastReflection_Params_fields.
Definition fastReflection_Params_Get := reflect_Get fastReflection_Params_fields.
Definition fastReflection_Params_Set := reflect_Set fastReflection_Params_fields.
Definition fastReflection_Params_Mutable := reflect_Mutable fastReflection_Params_fields.
Definition fastReflection_Params_NewField := reflect_NewField fastReflection_Params_fields.
Definition fastReflection_Params_SetUnknown (fields : bytes) (x : Params) : Params := let '(mkParams fee_ poolCreationFee_ taxRate_ maxStandardCoinPerPool_ maxSwapAmount_ _) := x in mkParams fee_ poolCreationFee_ taxRate_ maxStandardCoinPerPool_ maxSwapAmount_ fields.

Definition fastReflection_GenesisState_fields : list (Field GenesisState V) :=
  [message_field (new Params_methods) Msg_Params to_Params "canto.coinswap.v1.GenesisState.params" GenesisState_Params
     (fun v x => let '(mkGenesisState _ standardDenom_ pool_ sequence_ unknown) := x in mkGenesisState v standardDenom_ pool_ sequence_ unknown);
   string_field "canto.coinswap.v1.GenesisState.standard_denom" GenesisState_StandardDenom
     (fun v x => let '(mkGenesisState params_ _ pool_ sequence_ unknown) := x in mkGenesisState params_ v pool_ sequence_ unknown);
   list_field Lst_GenesisState_3 to_GenesisState_3 "canto.coinswap.v1.GenesisState.pool" GenesisState_Pool
     (fun v x => let '(mkGenesisState params_ standardDenom_ _ sequence_ unknown) := x in mkGenesisState params_ standardDenom_ v sequence_ unknown);
   uint64_field "canto.coinswap.v1.GenesisState.sequence" GenesisState_Sequence
     (fun v x => let '(mkGenesisState params_ standardDenom_ pool_ _ unknown) := x in mkGenesisState params_ standardDenom_ pool_ v unknown)].
Definition fastReflection_GenesisState_Range {S} := reflect_Range (S := S) fastReflection_GenesisState_fields.
Definition fastReflection_GenesisState_Has := reflect_Has fastReflection_GenesisState_fields.
Definition fastReflection_GenesisState_Clear := reflect_Clear fastReflection_GenesisState_fields.
Definition fastReflection_GenesisState_Get := reflect_Get fastReflection_GenesisState_fields.
Definition fastReflection_GenesisState_Set := reflect_Set fastReflection_GenesisState_fields.
Definition fastReflection_GenesisState_Mutable := reflect_Mutable fastReflection_GenesisState_fields.
Definition fastReflection_GenesisState_NewField := reflect_NewField fastReflection_GenesisState_fields.
Definition fastReflection_GenesisState_SetUnknown (fields : bytes) (x : GenesisState) : GenesisState := let '(mkGenesisState params_ standardDenom_ pool_ sequence_ _) := x in mkGenesisState params_ standardDenom_ pool_ sequence_ fields.

Definition fastReflection_QueryParamsRequest_fields : list (Field QueryParamsRequest V) :=
  [].
Definition fastReflection_QueryParamsRequest_Range {S} := reflect_Range (S := S) fastReflection_QueryParamsRequest_fields.
Definition fastReflection_QueryParamsRequest_Has := reflect_Has fastReflection_QueryParamsRequest_fields.
Definition fastReflection_QueryParamsRequest_Clear := reflect_Clear fastReflection_QueryParamsRequest_fields.
Definition fastReflection_QueryParamsRequest_Get := reflect_Get fastReflection_QueryParamsRequest_fields.
Definition fastReflection_QueryParamsRequest_Set := reflect_Set fastReflection_QueryParamsRequest_fields.
Definition fastReflection_QueryParamsRequest_Mutable := reflect_Mutable fastReflection_QueryParamsRequest_fields.
Definition fastReflection_QueryParamsRequest_NewField := reflect_NewField fastReflection_QueryParamsRequest_fields.
Definition fastReflection_QueryParamsRequest_SetUnknown (fields : bytes) (x : QueryParamsRequest) : QueryParamsRequest := let '(mkQueryParamsRequest _) := x in mkQueryParamsRequest fields.

Definition fastReflection_QueryParamsResponse_fields : list (Field QueryParamsResponse V) :=
  [message_field (new Params_methods) Msg_Params to_Params "canto.coinswap.v1.QueryParamsResponse.params" QueryParamsResponse_Params
     (fun v x => let '(mkQueryParamsResponse _ unknown) := x in mkQueryParamsResponse v unknown)].
Definition fastReflection_QueryParamsResponse_Range {S} := reflect_Range (S := S) fastReflection_QueryParamsResponse_fields.
Definition fastReflection_QueryParamsResponse_Has := reflect_Has fastReflection_QueryParamsResponse_fields.
Definition fastReflection_QueryParamsResponse_Clear := reflect_Clear fastReflection_QueryParamsResponse_fields.
Definition fastReflection_QueryParamsResponse_Get := reflect_Get fastReflection_QueryParamsResponse_fields.
Definition fastReflection_QueryParamsResponse_Set := reflect_Set fastReflection_QueryParamsResponse_fields.
Definition fastReflection_QueryParamsResponse_Mutable := reflect_Mutable fastReflection_QueryParamsResponse_fields.
Definition fastReflection_QueryParamsResponse_NewField := reflect_NewField fastReflection_QueryParamsResponse_fields.
Definition fastReflection_QueryParamsResponse_SetUnknown (fields : bytes) (x : QueryParamsResponse) : QueryParamsResponse := let '(mkQueryParamsResponse params_ _) := x in mkQueryParamsResponse params_ fields.

Definition fastReflection_QueryLiquidityPoolRequest_fields : list (Field QueryLiquidityPoolRequest V) :=
  [string_field "canto.coinswap.v1.QueryLiquidityPoolRequest.lpt_denom" QueryLiquidityPoolRequest_LptDenom
     (fun v x => let '(mkQueryLiquidityPoolRequest _ unknown) := x in mkQueryLiquidityPoolRequest v unknown)].
Definition fastReflection_QueryLiquidityPoolRequest_Range {S} := reflect_Range (S := S) fastReflection_QueryLiquidityPoolRequest_fields.
Definition fastReflection_QueryLiquidityPoolRequest_Has := reflect_Has fastReflection_QueryLiquidityPoolRequest_fields.
Definition fastReflection_QueryLiquidityPoolRequest_Clear := reflect_Clear fastReflection_QueryLiquidityPoolRequest_fields.
Definition fastReflection_QueryLiquidityPoolRequest_Get := reflect_Get fastReflection_QueryLiquidityPoolRequest_fields.
Definition fastReflection_QueryLiquidityPoolRequest_Set := reflect_Set fastReflection_QueryLiquidityPoolRequest_fields.
Definition fastReflection_QueryLiquidityPoolRequest_Mutable := reflect_Mutable fastReflection_QueryLiquidityPoolRequest_fields.
Definition fastReflection_QueryLiquidityPoolRequest_NewField := reflect_NewField fastReflection_QueryLiquidityPoolRequest_fields.
Definition fastReflection_QueryLiquidityPoolRequest_SetUnknown (fields : bytes) (x : QueryLiquidityPoolRequest) : QueryLiquidityPoolRequest := let '(mkQueryLiquidityPoolRequest lptDenom_ _) := x in mkQueryLiquidityPoolRequest lptDenom_ fields.

Definition fastReflection_QueryLiquidityPoolsRequest_fields : list (Field QueryLiquidityPoolsRequest V) :=
  [message_field (new api_PageRequest_methods) Msg_api_PageRequest to_api_PageRequest "canto.coinswap.v1.QueryLiquidityPoolsRequest.pagination" QueryLiquidityPoolsRequest_Pagination
     (fun v x => let '(mkQueryLiquidityPoolsRequest _ unknown) := x in mkQueryLiquidityPoolsRequest v unknown)].
Definition fastReflection_QueryLiquidityPoolsRequest_Range {S} := reflect_Range (S := S) fastReflection_QueryLiquidityPoolsRequest_fields.
Definition fastReflection_QueryLiquidityPoolsRequest_Has := reflect_Has fastReflection_QueryLiquidityPoolsRequest_fields.
Definition fastReflection_QueryLiquidityPoolsRequest_Clear := reflect_Clear fastReflection_QueryLiquidityPoolsRequest_fields.
Definition fastReflection_QueryLiquidityPoolsRequest_Get := reflect_Get fastReflection_QueryLiquidityPoolsRequest_fields.
Definition fastReflection_QueryLiquidityPoolsRequest_Set := reflect_Set fastReflection_QueryLiquidityPoolsRequest_fields.
Definition fastReflection_QueryLiquidityPoolsRequest_Mutable := reflect_Mutable fastReflection_QueryLiquidityPoolsRequest_fields.
Definition fastReflection_QueryLiquidityPoolsRequest_NewField := reflect_NewField fastReflection_QueryLiquidityPoolsRequest_fields.
Definition fastReflection_QueryLiquidityPoolsRequest_SetUnknown (fields : bytes) (x : QueryLiquidityPoolsRequest) : QueryLiquidityPoolsRequest := let '(mkQueryLiquidityPoolsRequest pagination_ _) := x in mkQueryLiquidityPoolsRequest pagination_ fields.

Definition fastReflection_PoolInfo_fields : list (Field PoolInfo V) :=
  [string_field "canto.coinswap.v1.PoolInfo.id" PoolInfo_Id
     (fun v x => let '(mkPoolInfo _ escrowAddress_ standard_ token_ lpt_ fee_ unknown) := x in mkPoolInfo v escrowAddress_ standard_ token_ lpt_ fee_ unknown);
   string_field "canto.coinswap.v1.PoolInfo.escrow_address" PoolInfo_EscrowAddress
     (fun v x => let '(mkPoolInfo id_ _ standard_ token_ lpt_ fee_ unknown) := x in mkPoolInfo id_ v standard_ token_ lpt_ fee_ unknown);
   message_field (new api_Coin_methods) Msg_api_Coin to_api_Coin "canto.coinswap.v1.PoolInfo.standard" PoolInfo_Standard
     (fun v x => let '(mkPoolInfo id_ escrowAddress_ _ token_ lpt_ fee_ unknown) := x in mkPoolInfo id_ escrowAddress_ v token_ lpt_ fee_ unknown);
   message_field (new api_Coin_methods) Msg_api_Coin to_api_Coin "canto.coinswap.v1.PoolInfo.token" PoolInfo_Token
     (fun v x => let '(mkPoolInfo id_ escrowAddress_ standard_ _ lpt_ fee_ unknown) := x in mkPoolInfo id_ escrowAddress_ standard_ v lpt_ fee_ unknown);
   message_field (new api_Coin_methods) Msg_api_Coin to_api_Coin "canto.coinswap.v1.PoolInfo.lpt" PoolInfo_Lpt
     (fun v x => let '(mkPoolInfo id_ escrowAddress_ standard_ token_ _ fee_ unknown) := x in mkPoolInfo id_ escrowAddress_ standard_ token_ v fee_ unknown);
   string_field "canto.coinswap.v1.PoolInfo.fee" PoolInfo_Fee
     (fun v x => let '(mkPoolInfo id_ escrowAddress_ standard_ token_ lpt_ _ unknown) := x in mkPoolInfo id_ escrowAddress_ standard_ token_ lpt_ v unknown)].
Definition fastReflection_PoolInfo_Range {S} := reflect_Range (S := S) fastReflection_PoolInfo_fields.
Definition fastReflection_PoolInfo_Has := reflect_Has fastReflection_PoolInfo_fields.
Definition fastReflection_PoolInfo_Clear := reflect_Clear fastReflection_PoolInfo_fields.
Definition fastReflection_PoolInfo_Get := reflect_Get fastReflection_PoolInfo_fields.
Definition fastReflection_PoolInfo_Set := reflect_Set fastReflection_PoolInfo_fields.
Definition fastReflection_PoolInfo_Mutable := reflect_Mutable fastReflection_PoolInfo_fields.
Definition fastReflection_PoolInfo_NewField := reflect_NewField fastReflection_PoolInfo_fields.
Definition fastReflection_PoolInfo_SetUnknown (fields : bytes) (x : PoolInfo) : PoolInfo := let '(mkPoolInfo id_ escrowAddress_ standard_ token_ lpt_ fee_ _) := x in mkPoolInfo id_ escrowAddress_ standard_ token_ lpt_ fee_ fields.

Definition fastReflection_QueryLiquidityPoolResponse_fields : list (Field QueryLiquidityPoolResponse V) :=
  [message_field (new PoolInfo_methods) Msg_PoolInfo to_PoolInfo "canto.coinswap.v1.QueryLiquidityPoolResponse.pool" QueryLiquidityPoolResponse_Pool
     (fun v x => let '(mkQueryLiquidityPoolResponse _ unknown) := x in mkQueryLiquidityPoolResponse v unknown)].
Definition fastReflection_QueryLiquidityPoolResponse_Range {S} := reflect_Range (S := S) fastReflection_QueryLiquidityPoolResponse_fields.
Definition fastReflection_QueryLiquidityPoolResponse_Has := reflect_Has fastReflection_QueryLiquidityPoolResponse_fields.
Definition fastReflection_QueryLiquidityPoolResponse_Clear := reflect_Clear fastReflection_QueryLiquidityPoolResponse_fields.
Definition fastReflection_QueryLiquidityPoolResponse_Get := reflect_Get fastReflection_QueryLiquidityPoolResponse_fields.
Definition fastReflection_QueryLiquidityPoolResponse_Set := reflect_Set fastReflection_QueryLiquidityPoolResponse_fields.
Definition fastReflection_QueryLiquidityPoolResponse_Mutable := reflect_Mutable fastReflection_QueryLiquidityPoolResponse_fields.
Definition fastReflection_QueryLiquidityPoolResponse_NewField := reflect_NewField fastReflection_QueryLiquidityPoolResponse_fields.
Definition fastReflection_QueryLiquidityPoolResponse_SetUnknown (fields : bytes) (x : QueryLiquidityPoolResponse) : QueryLiquidityPoolResponse := let '(mkQueryLiquidityPoolResponse pool_ _) := x in mkQueryLiquidityPoolResponse pool_ fields.

Definition fastReflection_QueryLiquidityPoolsResponse_fields : list (Field QueryLiquidityPoolsResponse V) :=
  [list_field Lst_QueryLiquidityPoolsResponse_1 to_QueryLiquidityPoolsResponse_1 "canto.coinswap.v1.QueryLiquidityPoolsResponse.pools" QueryLiquidityPoolsResponse_Pools
     (fun v x => let '(mkQueryLiquidityPoolsResponse _ pagination_ unknown) := x in mkQueryLiquidityPoolsResponse v pagination_ unknown);
   message_field (new api_PageResponse_methods) Msg_api_PageResponse to_api_PageResponse "canto.coinswap.v1.QueryLiquidityPoolsResponse.pagination" QueryLiquidityPoolsResponse_Pagination
     (fun v x => let '(mkQueryLiquidityPoolsResponse pools_ _ unknown) := x in mkQueryLiquidityPoolsResponse pools_ v unknown)].
Definition fastReflection_QueryLiquidityPoolsResponse_Range {S} := reflect_Range (S := S) fastReflection_QueryLiquidityPoolsResponse_fields.
Definition fastReflection_QueryLiquidityPoolsResponse_Has := reflect_Has fastReflection_QueryLiquidityPoolsResponse_fields.
Definition fastReflection_QueryLiquidityPoolsResponse_Clear := reflect_Clear fastReflection_QueryLiquidityPoolsResponse_fields.
Definition fastReflection_QueryLiquidityPoolsResponse_Get := reflect_Get fastReflection_QueryLiquidityPoolsResponse_fields.
Definition fastReflection_QueryLiquidityPoolsResponse_Set := reflect_Set fastReflection_QueryLiquidityPoolsResponse_fields.
Definition fastReflection_QueryLiquidityPoolsResponse_Mutable := reflect_Mutable fastReflection_QueryLiquidityPoolsResponse_fields.
Definition fastReflection_QueryLiquidityPoolsResponse_NewField := reflect_NewField fastReflection_QueryLiquidityPoolsResponse_fields.
Definition fastReflection_QueryLiquidityPoolsResponse_SetUnknown (fields : bytes) (x : QueryLiquidityPoolsResponse) : QueryLiquidityPoolsResponse := let '(mkQueryLiquidityPoolsResponse pools_ pagination_ _) := x in mkQueryLiquidityPoolsResponse pools_ pagination_ fields.

Definition fastReflection_MsgAddLiquidity_fields : list (Field MsgAddLiquidity V) :=
  [message_field (new api_Coin_methods) Msg_api_Coin to_api_Coin "canto.coinswap.v1.MsgAddLiquidity.max_token" MsgAddLiquidity_MaxToken
     (fun v x => let '(mkMsgAddLiquidity _ exactStandardAmt_ minLiquidity_ deadline_ sender_ unknown) := x in mkMsgAddLiquidity v exactStandardAmt_ minLiquidity_ deadline_ sender_ unknown);
   string_field "canto.coinswap.v1.MsgAddLiquidity.exact_standard_amt" MsgAddLiquidity_ExactStandardAmt
     (fun v x => let '(mkMsgAddLiquidity maxToken_ _ minLiquidity_ deadline_ sender_ unknown) := x in mkMsgAddLiquidity maxToken_ v minLiquidity_ deadline_ sender_ unknown);
   string_field "canto.coinswap.v1.MsgAddLiquidity.min_liquidity" MsgAddLiquidity_MinLiquidity
     (fun v x => let '(mkMsgAddLiquidity maxToken_ exactStandardAmt_ _ deadline_ sender_ unknown) := x in mkMsgAddLiquidity maxToken_ exactStandardAmt_ v deadline_ sender_ unknown);
   int64_field "canto.coinswap.v1.MsgAddLiquidity.deadline" MsgAddLiquidity_Deadline
     (fun v x => let '(mkMsgAddLiquidity maxToken_ exactStandardAmt_ minLiquidity_ _ sender_ unknown) := x in mkMsgAddLiquidity maxToken_ exactStandardAmt_ minLiquidity_ v sender_ unknown);
   string_field "canto.coinswap.v1.MsgAddLiquidity.sender" MsgAddLiquidity_Sender
     (fun v x => let '(mkMsgAddLiquidity maxToken_ exactStandardAmt_ minLiquidity_ deadline_ _ unknown) := x in mkMsgAddLiquidity maxToken_ exactStandardAmt_ minLiquidity_ deadline_ v unknown)].
Definition fastReflection_MsgAddLiquidity_Range {S} := reflect_Range (S := S) fastReflection_MsgAddLiquidity_fields.
Definition fastReflection_MsgAddLiquidity_Has := reflect_Has fastReflection_MsgAddLiquidity_fields.
Definition fastReflection_MsgAddLiquidity_Clear := reflect_Clear fastReflection_MsgAddLiquidity_fields.
Definition fastReflection_MsgAddLiquidity_Get := reflect_Get fastReflection_MsgAddLiquidity_fields.
Definition fastReflection_MsgAddLiquidity_Set := reflect_Set fastReflection_MsgAddLiquidity_fields.
Definition fastReflection_MsgAddLiquidity_Mutable := reflect_Mutable fastReflection_MsgAddLiquidity_fields.
Definition fastReflection_MsgAddLiquidity_NewField := reflect_NewField fastReflection_MsgAddLiquidity_fields.
Definition fastReflection_MsgAddLiquidity_SetUnknown (fields : bytes) (x : MsgAddLiquidity) : MsgAddLiquidity := let '(mkMsgAddLiquidity maxToken_ exactStandardAmt_ minLiquidity_ deadline_ sender_ _) := x in mkMsgAddLiquidity maxToken_ exactStandardAmt_ minLiquidity_ deadline_ sender_ fields.

Definition fastReflection_MsgAddLiquidityResponse_fields : list (Field MsgAddLiquidityResponse V) :=
  [message_field (new api_Coin_methods) Msg_api_Coin to_api_Coin "canto.coinswap.v1.MsgAddLiquidityResponse.mint_token" MsgAddLiquidityResponse_MintToken
     (fun v x => let '(mkMsgAddLiquidityResponse _ unknown) := x in mkMsgAddLiquidityResponse v unknown)].
Definition fastReflection_MsgAddLiquidityResponse_Range {S} := reflect_Range (S := S) fastReflection_MsgAddLiquidityResponse_fields.
Definition fastReflection_MsgAddLiquidityResponse_Has := reflect_Has fastReflection_MsgAddLiquidityResponse_fields.
Definition fastReflection_MsgAddLiquidityResponse_Clear := reflect_Clear fastReflection_MsgAddLiquidityResponse_fields.
Definition fastReflection_MsgAddLiquidityResponse_Get := reflect_Get fastReflection_MsgAddLiquidityResponse_fields.
Definition fastReflection_MsgAddLiquidityResponse_Set := reflect_Set fastReflection_MsgAddLiquidityResponse_fields.
Definition fastReflection_MsgAddLiquidityResponse_Mutable := reflect_Mutable fastReflection_MsgAddLiquidityResponse_fields.
Definition fastReflection_MsgAddLiquidityResponse_NewField := reflect_NewField fastReflection_MsgAddLiquidityResponse_fields.
Definition fastReflection_MsgAddLiquidityResponse_SetUnknown (fields : bytes) (x : MsgAddLiquidityResponse) : MsgAddLiquidityResponse := let '(mkMsgAddLiquidityResponse mintToken_ _) := x in mkMsgAddLiquidityResponse mintToken_ fields.

Definition fastReflection_MsgRemoveLiquidity_fields : list (Field MsgRemoveLiquidity V) :=
  [message_field (new api_Coin_methods) Msg_api_Coin to_api_Coin "canto.coinswap.v1.MsgRemoveLiquidity.withdraw_liquidity" MsgRemoveLiquidity_WithdrawLiquidity
     (fun v x => let '(mkMsgRemoveLiquidity _ minToken_ minStandardAmt_ deadline_ sender_ unknown) := x in mkMsgRemoveLiquidity v minToken_ minStandardAmt_ deadline_ sender_ unknown);
   string_field "canto.coinswap.v1.MsgRemoveLiquidity.min_token" MsgRemoveLiquidity_MinToken
     (fun v x => let '(mkMsgRemoveLiquidity withdrawLiquidity_ _ minStandardAmt_ deadline_ sender_ unknown) := x in mkMsgRemoveLiquidity withdrawLiquidity_ v minStandardAmt_ deadline_ sender_ unknown);
   string_field "canto.coinswap.v1.MsgRemoveLiquidity.min_standard_amt" MsgRemoveLiquidity_MinStandardAmt
     (fun v x => let '(mkMsgRemoveLiquidity withdrawLiquidity_ minToken_ _ deadline_ sender_ unknown) := x in mkMsgRemoveLiquidity withdrawLiquidity_ minToken_ v deadline_ sender_ unknown);
   int64_field "canto.coinswap.v1.MsgRemoveLiquidity.deadline" MsgRemoveLiquidity_Deadline
     (fun v x => let '(mkMsgRemoveLiquidity withdrawLiquidity_ minToken_ minStandardAmt_ _ sender_ unknown) := x in mkMsgRemoveLiquidity withdrawLiquidity_ minToken_ minStandardAmt_ v sender_ unknown);
   string_field "canto.coinswap.v1.MsgRemoveLiquidity.sender" MsgRemoveLiquidity_Sender
     (fun v x => let '(mkMsgRemoveLiquidity withdrawLiquidity_ minToken_ minStandardAmt_ deadline_ _ unknown) := x in mkMsgRemoveLiquidity withdrawLiquidity_ minToken_ minStandardAmt_ deadline_ v unknown)].
Definition fastReflection_MsgRemoveLiquidity_Range {S} := reflect_Range (S := S) fastReflection_MsgRemoveLiquidity_fields.
Definition fastReflection_MsgRemoveLiquidity_Has := reflect_Has fastReflection_MsgRemoveLiquidity_fields.
Definition fastReflection_MsgRemoveLiquidity_Clear := reflect_Clear fastReflection_MsgRemoveLiquidity_fields.
Definition fastReflection_MsgRemoveLiquidity_Get := reflect_Get fastReflection_MsgRemoveLiquidity_fields.
Definition fastReflection_MsgRemoveLiquidity_Set := reflect_Set fastReflection_MsgRemoveLiquidity_fields.
Definition fastReflection_MsgRemoveLiquidity_Mutable := reflect_Mutable fastReflection_MsgRemoveLiquidity_fields.
Definition fastReflection_MsgRemoveLiquidity_NewField := reflect_NewField fastReflection_MsgRemoveLiquidity_fields.
Definition fastReflection_MsgRemoveLiquidity_SetUnknown (fields : bytes) (x : MsgRemoveLiquidity) : MsgRemoveLiquidity := let '(mkMsgRemoveLiquidity withdrawLiquidity_ minToken_ minStandardAmt_ deadline_ sender_ _) := x in mkMsgRemoveLiquidity withdrawLiquidity_ minToken_ minStandardAmt_ deadline_ sender_ fields.

Definition fastReflection_MsgRemoveLiquidityResponse_fields : list (Field MsgRemoveLiquidityResponse V) :=
  [list_field Lst_MsgRemoveLiquidityResponse_1 to_MsgRemoveLiquidityResponse_1 "canto.coinswap.v1.MsgRemoveLiquidityResponse.withdraw_coins" MsgRemoveLiquidityResponse_WithdrawCoins
     (fun v x => let '(mkMsgRemoveLiquidityResponse _ unknown) := x in mkMsgRemoveLiquidityResponse v unknown)].
Definition fastReflection_MsgRemoveLiquidityResponse_Range {S} := reflect_Range (S := S) fastReflection_MsgRemoveLiquidityResponse_fields.
Definition fastReflection_MsgRemoveLiquidityResponse_Has := reflect_Has fastReflection_MsgRemoveLiquidityResponse_fields.
Definition fastReflection_MsgRemoveLiquidityResponse_Clear := reflect_Clear fastReflection_MsgRemoveLiquidityResponse_fields.
Definition fastReflection_MsgRemoveLiquidityResponse_Get := reflect_Get fastReflection_MsgRemoveLiquidityResponse_fields.
Definition fastReflection_MsgRemoveLiquidityResponse_Set := reflect_Set fastReflection_MsgRemoveLiquidityResponse_fields.
Definition fastReflection_MsgRemoveLiquidityResponse_Mutable := reflect_Mutable fastReflection_MsgRemoveLiquidityResponse_fields.
Definition fastReflection_MsgRemoveLiquidityResponse_NewField := reflect_NewField fastReflection_MsgRemoveLiquidityResponse_fields.
Definition fastReflection_MsgRemoveLiquidityResponse_SetUnknown (fields : bytes) (x : MsgRemoveLiquidityResponse) : MsgRemoveLiquidityResponse := let '(mkMsgRemoveLiquidityResponse withdrawCoins_ _) := x in mkMsgRemoveLiquidityResponse withdrawCoins_ fields.

Definition fastReflection_MsgSwapOrder_fields : list (Field MsgSwapOrder V) :=
  [message_field (new Input_methods) Msg_Input to_Input "canto.coinswap.v1.MsgSwapOrder.input" MsgSwapOrder_Input
     (fun v x => let '(mkMsgSwapOrder _ output_ deadline_ isBuyOrder_ unknown) := x in mkMsgSwapOrder v output_ deadline_ isBuyOrder_ unknown);
   message_field (new Output_methods) Msg_Output to_Output "canto.coinswap.v1.MsgSwapOrder.output" MsgSwapOrder_Output
     (fun v x => let '(mkMsgSwapOrder input_ _ deadline_ isBuyOrder_ unknown) := x in mkMsgSwapOrder input_ v deadline_ isBuyOrder_ unknown);
   int64_field "canto.coinswap.v1.MsgSwapOrder.deadline" MsgSwapOrder_Deadline
     (fun v x => let '(mkMsgSwapOrder input_ output_ _ isBuyOrder_ unknown) := x in mkMsgSwapOrder input_ output_ v isBuyOrder_ unknown);
   bool_field "canto.coinswap.v1.MsgSwapOrder.is_buy_order" MsgSwapOrder_IsBuyOrder
     (fun v x => let '(mkMsgSwapOrder input_ output_ deadline_ _ unknown) := x in mkMsgSwapOrder input_ output_ deadline_ v unknown)].
Definition fastReflection_MsgSwapOrder_Range {S} := reflect_Range (S := S) fastReflection_MsgSwapOrder_fields.
Definition fastReflection_MsgSwapOrder_Has := reflect_Has fastReflection_MsgSwapOrder_fields.
Definition fastReflection_MsgSwapOrder_Clear := reflect_Clear fastReflection_MsgSwapOrder_fields.
Definition fastReflection_MsgSwapOrder_Get := reflect_Get fastReflection_MsgSwapOrder_fields.
Definition fastReflection_MsgSwapOrder_Set := reflect_Set fastReflection_MsgSwapOrder_fields.
Definition fastReflection_MsgSwapOrder_Mutable := reflect_Mutable fastReflection_MsgSwapOrder_fields.
Definition fastReflection_MsgSwapOrder_NewField := reflect_NewField fastReflection_MsgSwapOrder_fields.
Definition fastReflection_MsgSwapOrder_SetUnknown (fields : bytes) (x : MsgSwapOrder) : MsgSwapOrder := let '(mkMsgSwapOrder input_ output_ deadline_ isBuyOrder_ _) := x in mkMsgSwapOrder input_ output_ deadline_ isBuyOrder_ fields.

Definition fastReflection_MsgSwapCoinResponse_fields : list (Field MsgSwapCoinResponse V) :=
  [].
Definition fastReflection_MsgSwapCoinResponse_Range {S} := reflect_Range (S := S) fastReflection_MsgSwapCoinResponse_fields.
Definition fastReflection_MsgSwapCoinResponse_Has := reflect_Has fastReflection_MsgSwapCoinResponse_fields.
Definition fastReflection_MsgSwapCoinResponse_Clear := reflect_Clear fastReflection_MsgSwapCoinResponse_fields.
Definition fastReflection_MsgSwapCoinResponse_Get := reflect_Get fastReflection_MsgSwapCoinResponse_fields.
Definition fastReflection_MsgSwapCoinResponse_Set := reflect_Set fastReflection_MsgSwapCoinResponse_fields.
Definition fastReflection_MsgSwapCoinResponse_Mutable := reflect_Mutable fastReflection_MsgSwapCoinResponse_fields.
Definition fastReflection_MsgSwapCoinResponse_NewField := reflect_NewField fastReflection_MsgSwapCoinResponse_fields.
Definition fastReflection_MsgSwapCoinResponse_SetUnknown (fields : bytes) (x : MsgSwapCoinResponse) : MsgSwapCoinResponse := let '(mkMsgSwapCoinResponse _) := x in mkMsgSwapCoinResponse fields.

Definition fastReflection_MsgUpdateParams_fields : list (Field MsgUpdateParams V) :=
  [string_field "canto.coinswap.v1.MsgUpdateParams.authority" MsgUpdateParams_Authority
     (fun v x => let '(mkMsgUpdateParams _ params_ unknown) := x in mkMsgUpdateParams v params_ unknown);
   message_field (new Params_methods) Msg_Params to_Params "canto.coinswap.v1.MsgUpdateParams.params" MsgUpdateParams_Params
     (fun v x => let '(mkMsgUpdateParams authority_ _ unknown) := x in mkMsgUpdateParams authority_ v unknown)].
Definition fastReflection_MsgUpdateParams_Range {S} := reflect_Range (S := S) fastReflection_MsgUpdateParams_fields.
Definition fastReflection_MsgUpdateParams_Has := reflect_Has fastReflection_MsgUpdateParams_fields.
Definition fastReflection_MsgUpdateParams_Clear := reflect_Clear fastReflection_MsgUpdateParams_fields.
Definition fastReflection_MsgUpdateParams_Get := reflect_Get fastReflection_MsgUpdateParams_fields.
Definition fastReflection_MsgUpdateParams_Set := reflect_Set fastReflection_MsgUpdateParams_fields.
Definition fastReflection_MsgUpdateParams_Mutable := reflect_Mutable fastReflection_MsgUpdateParams_fields.
Definition fastReflection_MsgUpdateParams_NewField := reflect_NewField fastReflection_MsgUpdateParams_fields.
Definition fastReflection_MsgUpdateParams_SetUnknown (fields : bytes) (x : MsgUpdateParams) : MsgUpdateParams := let '(mkMsgUpdateParams authority_ params_ _) := x in mkMsgUpdateParams authority_ params_ fields.

Definition fastReflection_MsgUpdateParamsResponse_fields : list (Field MsgUpdateParamsResponse V) :=
  [].
Definition fastReflection_MsgUpdateParamsResponse_Range {S} := reflect_Range (S := S) fastReflection_MsgUpdateParamsResponse_fields.
Definition fastReflection_MsgUpdateParamsResponse_Has := reflect_Has fastReflection_MsgUpdateParamsResponse_fields.
Definition fastReflection_MsgUpdateParamsResponse_Clear := reflect_Clear fastReflection_MsgUpdateParamsResponse_fields.
Definition fastReflection_MsgUpdateParamsResponse_Get := reflect_Get fastReflection_MsgUpdateParamsResponse_fields.
Definition fastReflection_MsgUpdateParamsResponse_Set := reflect_Set fastReflection_MsgUpdateParamsResponse_fields.
Definition fastReflection_MsgUpdateParamsResponse_Mutable := reflect_Mutable fastReflection_MsgUpdateParamsResponse_fields.
Definition fastReflection_MsgUpdateParamsResponse_NewField := reflect_NewField fastReflection_MsgUpdateParamsResponse_fields.
Definition fastReflection_MsgUpdateParamsResponse_SetUnknown (fields : bytes) (x : MsgUpdateParamsResponse) : MsgUpdateParamsResponse := let '(mkMsgUpdateParamsResponse _) := x in mkMsgUpdateParamsResponse fields.

Lemma coinswap_Input_field_laws : FieldLaws fastReflection_Input_fields Input_unknownFields (new Input_methods).
Proof. message_field_laws. Qed.
Lemma coinswap_Output_field_laws : FieldLaws fastReflection_Output_fields Output_unknownFields (new Output_methods).
Proof. message_field_laws. Qed.
Lemma coinswap_Pool_field_laws : FieldLaws fastReflection_Pool_fields Pool_unknownFields (new Pool_methods).
Proof. message_field_laws. Qed.
Lemma coinswap_Params_field_laws : FieldLaws fastReflection_Params_fields Params_unknownFields (new Params_methods).
Proof. message_field_laws. Qed.
Lemma coinswap_GenesisState_field_laws : FieldLaws fastReflection_GenesisState_fields GenesisState_unknownFields (new GenesisState_methods).
Proof. message_field_laws. Qed.
Lemma coinswap_QueryParamsRequest_field_laws : FieldLaws fastReflection_QueryParamsRequest_fields QueryParamsRequest_unknownFields (new QueryParamsRequest_methods).
Proof. message_field_laws. Qed.
Lemma coinswap_QueryParamsResponse_field_laws : FieldLaws fastReflection_QueryParamsResponse_fields QueryParamsResponse_unknownFields (new QueryParamsResponse_methods).
Proof. message_field_laws. Qed.
Lemma coinswap_QueryLiquidityPoolRequest_field_laws : FieldLaws fastReflection_QueryLiquidityPoolRequest_fields QueryLiquidityPoolRequest_unknownFields (new QueryLiquidityPoolRequest_methods).
Proof. message_field_laws. Qed.
Lemma coinswap_QueryLiquidityPoolsRequest_field_laws : FieldLaws fastReflection_QueryLiquidityPoolsRequest_fields QueryLiquidityPoolsRequest_unknownFields (new QueryLiquidityPoolsRequest_methods).
Proof. message_field_laws. Qed.
Lemma coinswap_PoolInfo_field_laws : FieldLaws fastReflection_PoolInfo_fields PoolInfo_unknownFields (new PoolInfo_methods).
Proof. message_field_laws. Qed.
Lemma coinswap_QueryLiquidityPoolResponse_field_laws : FieldLaws fastReflection_QueryLiquidityPoolResponse_fields QueryLiquidityPoolResponse_unknownFields (new QueryLiquidityPoolResponse_methods).
Proof. message_field_laws. Qed.
Lemma coinswap_QueryLiquidityPoolsResponse_field_laws : FieldLaws fastReflection_QueryLiquidityPoolsResponse_fields QueryLiquidityPoolsResponse_unknownFields (new QueryLiquidityPoolsResponse_methods).
Proof. message_field_laws. Qed.
Lemma coinswap_MsgAddLiquidity_field_laws : FieldLaws fastReflection_MsgAddLiquidity_fields MsgAddLiquidity_unknownFields (new MsgAddLiquidity_methods).
Proof. message_field_laws. Qed.
Lemma coinswap_MsgAddLiquidityResponse_field_laws : FieldLaws fastReflection_MsgAddLiquidityResponse_fields MsgAddLiquidityResponse_unknownFields (new MsgAddLiquidityResponse_methods).
Proof. message_field_laws. Qed.
Lemma coinswap_MsgRemoveLiquidity_field_laws : FieldLaws fastReflection_MsgRemoveLiquidity_fields MsgRemoveLiquidity_unknownFields (new MsgRemoveLiquidity_methods).
Proof. message_field_laws. Qed.
Lemma coinswap_MsgRemoveLiquidityResponse_field_laws : FieldLaws fastReflection_MsgRemoveLiquidityResponse_fields MsgRemoveLiquidityResponse_unknownFields (new MsgRemoveLiquidityResponse_methods).
Proof. message_field_laws. Qed.
Lemma coinswap_MsgSwapOrder_field_laws : FieldLaws fastReflection_MsgSwapOrder_fields MsgSwapOrder_unknownFields (new MsgSwapOrder_methods).
Proof. message_field_laws. Qed.
Lemma coinswap_MsgSwapCoinResponse_field_laws : FieldLaws fastReflection_MsgSwapCoinResponse_fields MsgSwapCoinResponse_unknownFields (new MsgSwapCoinResponse_methods).
Proof. message_field_laws. Qed.
Lemma coinswap_MsgUpdateParams_field_laws : FieldLaws fastReflection_MsgUpdateParams_fields MsgUpdateParams_unknownFields (new MsgUpdateParams_methods).
Proof. message_field_laws. Qed.
Lemma coinswap_MsgUpdateParamsResponse_field_laws : FieldLaws fastReflection_MsgUpdateParamsResponse_fields MsgUpdateParamsResponse_unknownFields (new MsgUpdateParamsResponse_methods).
Proof. message_field_laws. Qed.

(** What reflection promises, for every message. *)
Definition reflection_complete : Prop :=
  reflects fastReflection_Input_fields Input_unknownFields fastReflection_Input_SetUnknown (new Input_methods) ∧
  reflects fastReflection_Output_fields Output_unknownFields fastReflection_Output_SetUnknown (new Output_methods) ∧
  reflects fastReflection_Pool_fields Pool_unknownFields fastReflection_Pool_SetUnknown (new Pool_methods) ∧
  reflects fastReflection_Params_fields Params_unknownFields fastReflection_Params_SetUnknown (new Params_methods) ∧
  reflects fastReflection_GenesisState_fields GenesisState_unknownFields fastReflection_GenesisState_SetUnknown (new GenesisState_methods) ∧
  reflects fastReflection_QueryParamsRequest_fields QueryParamsRequest_unknownFields fastReflection_QueryParamsRequest_SetUnknown (new QueryParamsRequest_methods) ∧
  reflects fastReflection_QueryParamsResponse_fields QueryParamsResponse_unknownFields fastReflection_QueryParamsResponse_SetUnknown (new QueryParamsResponse_methods) ∧
  reflects fastReflection_QueryLiquidityPoolRequest_fields QueryLiquidityPoolRequest_unknownFields fastReflection_QueryLiquidityPoolRequest_SetUnknown (new QueryLiquidityPoolRequest_methods) ∧
  reflects fastReflection_QueryLiquidityPoolsRequest_fields QueryLiquidityPoolsRequest_unknownFields fastReflection_QueryLiquidityPoolsRequest_SetUnknown (new QueryLiquidityPoolsRequest_methods) ∧
  reflects fastReflection_PoolInfo_fields PoolInfo_unknownFields fastReflection_PoolInfo_SetUnknown (new PoolInfo_methods) ∧
  reflects fastReflection_QueryLiquidityPoolResponse_fields QueryLiquidityPoolResponse_unknownFields fastReflection_QueryLiquidityPoolResponse_SetUnknown (new QueryLiquidityPoolResponse_methods) ∧
  reflects fastReflection_QueryLiquidityPoolsResponse_fields QueryLiquidityPoolsResponse_unknownFields fastReflection_QueryLiquidityPoolsResponse_SetUnknown (new QueryLiquidityPoolsResponse_methods) ∧
  reflects fastReflection_MsgAddLiquidity_fields MsgAddLiquidity_unknownFields fastReflection_MsgAddLiquidity_SetUnknown (new MsgAddLiquidity_methods) ∧
  reflects fastReflection_MsgAddLiquidityResponse_fields MsgAddLiquidityResponse_unknownFields fastReflection_MsgAddLiquidityResponse_SetUnknown (new MsgAddLiquidityResponse_methods) ∧
  reflects fastReflection_MsgRemoveLiquidity_fields MsgRemoveLiquidity_unknownFields fastReflection_MsgRemoveLiquidity_SetUnknown (new MsgRemoveLiquidity_methods) ∧
  reflects fastReflection_MsgRemoveLiquidityResponse_fields MsgRemoveLiquidityResponse_unknownFields fastReflection_MsgRemoveLiquidityResponse_SetUnknown (new MsgRemoveLiquidityResponse_methods) ∧
  reflects fastReflection_MsgSwapOrder_fields MsgSwapOrder_unknownFields fastReflection_MsgSwapOrder_SetUnknown (new MsgSwapOrder_methods) ∧
  reflects fastReflection_MsgSwapCoinResponse_fields MsgSwapCoinResponse_unknownFields fastReflection_MsgSwapCoinResponse_SetUnknown (new MsgSwapCoinResponse_methods) ∧
  reflects fastReflection_MsgUpdateParams_fields MsgUpdateParams_unknownFields fastReflection_MsgUpdateParams_SetUnknown (new MsgUpdateParams_methods) ∧
  reflects fastReflection_MsgUpdateParamsResponse_fields MsgUpdateParamsResponse_unknownFields fastReflection_MsgUpdateParamsResponse_SetUnknown (new MsgUpdateParamsResponse_methods).
Lemma coinswap_reflection_complete : reflection_complete.
Proof.
  unfold reflection_complete. split_and!;
  [message_reflects coinswap_Input_field_laws
  |message_reflects coinswap_Output_field_laws
  |message_reflects coinswap_Pool_field_laws
  |message_reflects coinswap_Params_field_laws
  |message_reflects coinswap_GenesisState_field_laws
  |message_reflects coinswap_QueryParamsRequest_field_laws
  |message_reflects coinswap_QueryParamsResponse_field_laws
  |message_reflects coinswap_QueryLiquidityPoolRequest_field_laws
  |message_reflects coinswap_QueryLiquidityPoolsRequest_field_laws
  |message_reflects coinswap_PoolInfo_field_laws
  |message_reflects coinswap_QueryLiquidityPoolResponse_field_laws
  |message_reflects coinswap_QueryLiquidityPoolsResponse_field_laws
  |message_reflects coinswap_MsgAddLiquidity_field_laws
  |message_reflects coinswap_MsgAddLiquidityResponse_field_laws
  |message_reflects coinswap_MsgRemoveLiquidity_field_laws
  |message_reflects coinswap_MsgRemoveLiquidityResponse_field_laws
  |message_reflects coinswap_MsgSwapOrder_field_laws
  |message_reflects coinswap_MsgSwapCoinResponse_field_laws
  |message_reflects coinswap_MsgUpdateParams_field_laws
  |message_reflects coinswap_MsgUpdateParamsResponse_field_laws].
Qed.

(** ** The same encodings as the module *)

Context {SC : SdkCodecs} {SL : SdkCodecLaws SC} {SE : SameEncodings SL AL}.

Definition Input_api (m : CoinswapTypes.Input) : Input := mkInput (CoinswapTypes.Input_Address m) (Some (coin_api (CoinswapTypes.Input_Coin m))) [].
Lemma coinswap_Input_same : same_encoding Input_api CoinswapCodec.Input_wf CoinswapCodec.Input_enc Input_wf Input_enc.
Proof. same_message Input_api (@CoinswapCodec.Input_wf) (@CoinswapCodec.Input_enc) Input_wf Input_enc Input_fields_enc. Qed.
#[local] Hint Resolve coinswap_Input_same : api_same.
Definition Output_api (m : CoinswapTypes.Output) : Output := mkOutput (CoinswapTypes.Output_Address m) (Some (coin_api (CoinswapTypes.Output_Coin m))) [].
Lemma coinswap_Output_same : same_encoding Output_api CoinswapCodec.Output_wf CoinswapCodec.Output_enc Output_wf Output_enc.
Proof. same_message Output_api (@CoinswapCodec.Output_wf) (@CoinswapCodec.Output_enc) Output_wf Output_enc Output_fields_enc. Qed.
#[local] Hint Resolve coinswap_Output_same : api_same.
Definition Pool_api (m : CoinswapTypes.Pool) : Pool := mkPool (CoinswapTypes.Pool_Id m) (CoinswapTypes.Pool_StandardDenom m) (CoinswapTypes.Pool_CounterpartyDenom m) (CoinswapTypes.Pool_EscrowAddress m) (CoinswapTypes.Pool_LptDenom m) [].
Lemma coinswap_Pool_same : same_encoding Pool_api CoinswapCodec.Pool_wf CoinswapCodec.Pool_enc Pool_wf Pool_enc.
Proof. same_message Pool_api (@CoinswapCodec.Pool_wf) (@CoinswapCodec.Pool_enc) Pool_wf Pool_enc Pool_fields_enc. Qed.
#[local] Hint Resolve coinswap_Pool_same : api_same.
Definition Params_api (m : CoinswapTypes.Params) : Params := mkParams (Dec_text (CoinswapTypes.Fee m)) (Some (coin_api (CoinswapTypes.PoolCreationFee m))) (Dec_text (CoinswapTypes.TaxRate m)) (Int_text (CoinswapTypes.MaxStandardCoinPerPool m)) ((fun c => Some (coin_api c)) <$> (CoinswapTypes.MaxSwapAmount m)) [].
Lemma coinswap_Params_same : same_encoding Params_api CoinswapCodec.Params_wf CoinswapCodec.Params_enc Params_wf Params_enc.
Proof. same_message Params_api (@CoinswapCodec.Params_wf) (@CoinswapCodec.Params_enc) Params_wf Params_enc Params_fields_enc. Qed.
#[local] Hint Resolve coinswap_Params_same : api_same.
Definition GenesisState_api (m : CoinswapTypes.GenesisState) : GenesisState := mkGenesisState (Some (Params_api (CoinswapTypes.Gen_Params m))) (CoinswapTypes.Gen_StandardDenom m) ((fun c => Some (Pool_api c)) <$> (CoinswapTypes.Gen_Pool m)) (CoinswapTypes.Gen_Sequence m) [].
Lemma coinswap_GenesisState_same : same_encoding GenesisState_api CoinswapCodec.GenesisState_wf CoinswapCodec.GenesisState_enc GenesisState_wf GenesisState_enc.
Proof. same_message GenesisState_api (@CoinswapCodec.GenesisState_wf) (@CoinswapCodec.GenesisState_enc) GenesisState_wf GenesisState_enc GenesisState_fields_enc. Qed.
#[local] Hint Resolve coinswap_GenesisState_same : api_same.
Definition QueryParamsRequest_api (m : CoinswapCodec.QueryParamsRequest) : QueryParamsRequest := mkQueryParamsRequest [].
Lemma coinswap_QueryParamsRequest_same : same_encoding QueryParamsRequest_api CoinswapCodec.QueryParamsRequest_wf CoinswapCodec.QueryParamsRequest_enc QueryParamsRequest_wf QueryParamsRequest_enc.
Proof. same_message QueryParamsRequest_api (@CoinswapCodec.QueryParamsRequest_wf) (@CoinswapCodec.QueryParamsRequest_enc) QueryParamsRequest_wf QueryParamsRequest_enc QueryParamsRequest_fields_enc. Qed.
#[local] Hint Resolve coinswap_QueryParamsRequest_same : api_same.
Definition QueryParamsResponse_api (m : CoinswapCodec.QueryParamsResponse) : QueryParamsResponse := mkQueryParamsResponse (Some (Params_api (CoinswapCodec.QueryParamsResponse_Params m))) [].
Lemma coinswap_QueryParamsResponse_same : same_encoding QueryParamsResponse_api CoinswapCodec.QueryParamsResponse_wf CoinswapCodec.QueryParamsResponse_enc QueryParamsResponse_wf QueryParamsResponse_enc.
Proof. same_message QueryParamsResponse_api (@CoinswapCodec.QueryParamsResponse_wf) (@CoinswapCodec.QueryParamsResponse_enc) QueryParamsResponse_wf QueryParamsResponse_enc QueryParamsResponse_fields_enc. Qed.
#[local] Hint Resolve coinswap_QueryParamsResponse_same : api_same.
Definition QueryLiquidityPoolRequest_api (m : CoinswapCodec.QueryLiquidityPoolRequest) : QueryLiquidityPoolRequest := mkQueryLiquidityPoolRequest (CoinswapCodec.QueryLiquidityPoolRequest_LptDenom m) [].
Lemma coinswap_QueryLiquidityPoolRequest_same : same_encoding QueryLiquidityPoolRequest_api CoinswapCodec.QueryLiquidityPoolRequest_wf CoinswapCodec.QueryLiquidityPoolRequest_enc QueryLiquidityPoolRequest_wf QueryLiquidityPoolRequest_enc.
Proof. same_message QueryLiquidityPoolRequest_api (@CoinswapCodec.QueryLiquidityPoolRequest_wf) (@CoinswapCodec.QueryLiquidityPoolRequest_enc) QueryLiquidityPoolRequest_wf QueryLiquidityPoolRequest_enc QueryLiquidityPoolRequest_fields_enc. Qed.
#[local] Hint Resolve coinswap_QueryLiquidityPoolRequest_same : api_same.
Definition QueryLiquidityPoolsRequest_api (m : CoinswapCodec.QueryLiquidityPoolsRequest) : QueryLiquidityPoolsRequest := mkQueryLiquidityPoolsRequest (page_request_api <$> (CoinswapCodec.QueryLiquidityPoolsRequest_Pagination m)) [].
Lemma coinswap_QueryLiquidityPoolsRequest_same : same_encoding QueryLiquidityPoolsRequest_api CoinswapCodec.QueryLiquidityPoolsRequest_wf CoinswapCodec.QueryLiquidityPoolsRequest_enc QueryLiquidityPoolsRequest_wf QueryLiquidityPoolsRequest_enc.
Proof. same_message QueryLiquidityPoolsRequest_api (@CoinswapCodec.QueryLiquidityPoolsRequest_wf) (@CoinswapCodec.QueryLiquidityPoolsRequest_enc) QueryLiquidityPoolsRequest_wf QueryLiquidityPoolsRequest_enc QueryLiquidityPoolsRequest_fields_enc. Qed.
#[local] Hint Resolve coinswap_QueryLiquidityPoolsRequest_same : api_same.
Definition PoolInfo_api (m : Coinswap.PoolInfo) : PoolInfo := mkPoolInfo (Coinswap.Info_Id m) (Coinswap.Info_EscrowAddress m) (Some (coin_api (Coinswap.Info_Standard m))) (Some (coin_api (Coinswap.Info_Token m))) (Some (coin_api (Coinswap.Info_Lpt m))) (Coinswap.Info_Fee m) [].
Lemma coinswap_PoolInfo_same : same_encoding PoolInfo_api CoinswapCodec.PoolInfo_wf CoinswapCodec.PoolInfo_enc PoolInfo_wf PoolInfo_enc.
Proof. same_message PoolInfo_api (@CoinswapCodec.PoolInfo_wf) (@CoinswapCodec.PoolInfo_enc) PoolInfo_wf PoolInfo_enc PoolInfo_fields_enc. Qed.
#[local] Hint Resolve coinswap_PoolInfo_same : api_same.
Definition QueryLiquidityPoolResponse_api (m : CoinswapCodec.QueryLiquidityPoolResponse) : QueryLiquidityPoolResponse := mkQueryLiquidityPoolResponse (Some (PoolInfo_api (CoinswapCodec.QueryLiquidityPoolResponse_Pool m))) [].
Lemma coinswap_QueryLiquidityPoolResponse_same : same_encoding QueryLiquidityPoolResponse_api CoinswapCodec.QueryLiquidityPoolResponse_wf CoinswapCodec.QueryLiquidityPoolResponse_enc QueryLiquidityPoolResponse_wf QueryLiquidityPoolResponse_enc.
Proof. same_message QueryLiquidityPoolResponse_api (@CoinswapCodec.QueryLiquidityPoolResponse_wf) (@CoinswapCodec.QueryLiquidityPoolResponse_enc) QueryLiquidityPoolResponse_wf QueryLiquidityPoolResponse_enc QueryLiquidityPoolResponse_fields_enc. Qed.
#[local] Hint Resolve coinswap_QueryLiquidityPoolResponse_same : api_same.
Definition QueryLiquidityPoolsResponse_api (m : CoinswapCodec.QueryLiquidityPoolsResponse) : QueryLiquidityPoolsResponse := mkQueryLiquidityPoolsResponse ((fun c => Some (PoolInfo_api c)) <$> (CoinswapCodec.QueryLiquidityPoolsResponse_Pools m)) (page_response_api <$> (CoinswapCodec.QueryLiquidityPoolsResponse_Pagination m)) [].
Lemma coinswap_QueryLiquidityPoolsResponse_same : same_encoding QueryLiquidityPoolsResponse_api CoinswapCodec.QueryLiquidityPoolsResponse_wf CoinswapCodec.QueryLiquidityPoolsResponse_enc QueryLiquidityPoolsResponse_wf QueryLiquidityPoolsResponse_enc.
Proof. same_message QueryLiquidityPoolsResponse_api (@CoinswapCodec.QueryLiquidityPoolsResponse_wf) (@CoinswapCodec.QueryLiquidityPoolsResponse_enc) QueryLiquidityPoolsResponse_wf QueryLiquidityPoolsResponse_enc QueryLiquidityPoolsResponse_fields_enc. Qed.
#[local] Hint Resolve coinswap_QueryLiquidityPoolsResponse_same : api_same.
Definition MsgAddLiquidity_api (m : CoinswapTypes.MsgAddLiquidity) : MsgAddLiquidity := mkMsgAddLiquidity (Some (coin_api (CoinswapTypes.Add_MaxToken m))) (Int_text (CoinswapTypes.Add_ExactStandardAmt m)) (Int_text (CoinswapTypes.Add_MinLiquidity m)) (CoinswapTypes.Add_Deadline m) (CoinswapTypes.Add_Sender m) [].
Lemma coinswap_MsgAddLiquidity_same : same_encoding MsgAddLiquidity_api CoinswapCodec.MsgAddLiquidity_wf CoinswapCodec.MsgAddLiquidity_enc MsgAddLiquidity_wf MsgAddLiquidity_enc.
Proof. same_message MsgAddLiquidity_api (@CoinswapCodec.MsgAddLiquidity_wf) (@CoinswapCodec.MsgAddLiquidity_enc) MsgAddLiquidity_wf MsgAddLiquidity_enc MsgAddLiquidity_fields_enc. Qed.
#[local] Hint Resolve coinswap_MsgAddLiquidity_same : api_same.
Definition MsgAddLiquidityResponse_api (m : CoinswapCodec.MsgAddLiquidityResponse) : MsgAddLiquidityResponse := mkMsgAddLiquidityResponse (coin_api <$> (CoinswapCodec.MsgAddLiquidityResponse_MintToken m)) [].
Lemma coinswap_MsgAddLiquidityResponse_same : same_encoding MsgAddLiquidityResponse_api CoinswapCodec.MsgAddLiquidityResponse_wf CoinswapCodec.MsgAddLiquidityResponse_enc MsgAddLiquidityResponse_wf MsgAddLiquidityResponse_enc.
Proof. same_message MsgAddLiquidityResponse_api (@CoinswapCodec.MsgAddLiquidityResponse_wf) (@CoinswapCodec.MsgAddLiquidityResponse_enc) MsgAddLiquidityResponse_wf MsgAddLiquidityResponse_enc MsgAddLiquidityResponse_fields_enc. Qed.
#[local] Hint Resolve coinswap_MsgAddLiquidityResponse_same : api_same.
Definition MsgRemoveLiquidity_api (m : CoinswapTypes.MsgRemoveLiquidity) : MsgRemoveLiquidity := mkMsgRemoveLiquidity (Some (coin_api (CoinswapTypes.Rem_WithdrawLiquidity m))) (Int_text (CoinswapTypes.Rem_MinToken m)) (Int_text (CoinswapTypes.Rem_MinStandardAmt m)) (CoinswapTypes.Rem_Deadline m) (CoinswapTypes.Rem_Sender m) [].
Lemma coinswap_MsgRemoveLiquidity_same : same_encoding MsgRemoveLiquidity_api CoinswapCodec.MsgRemoveLiquidity_wf CoinswapCodec.MsgRemoveLiquidity_enc MsgRemoveLiquidity_wf MsgRemoveLiquidity_enc.
Proof. same_message MsgRemoveLiquidity_api (@CoinswapCodec.MsgRemoveLiquidity_wf) (@CoinswapCodec.MsgRemoveLiquidity_enc) MsgRemoveLiquidity_wf MsgRemoveLiquidity_enc MsgRemoveLiquidity_fields_enc. Qed.
#[local] Hint Resolve coinswap_MsgRemoveLiquidity_same : api_same.
Definition MsgRemoveLiquidityResponse_api (m : CoinswapCodec.MsgRemoveLiquidityResponse) : MsgRemoveLiquidityResponse := mkMsgRemoveLiquidityResponse ((fun c => Some (coin_api c)) <$> (CoinswapCodec.MsgRemoveLiquidityResponse_WithdrawCoins m)) [].
Lemma coinswap_MsgRemoveLiquidityResponse_same : same_encoding MsgRemoveLiquidityResponse_api CoinswapCodec.MsgRemoveLiquidityResponse_wf CoinswapCodec.MsgRemoveLiquidityResponse_enc MsgRemoveLiquidityResponse_wf MsgRemoveLiquidityResponse_enc.
Proof. same_message MsgRemoveLiquidityResponse_api (@CoinswapCodec.MsgRemoveLiquidityResponse_wf) (@CoinswapCodec.MsgRemoveLiquidityResponse_enc) MsgRemoveLiquidityResponse_wf MsgRemoveLiquidityResponse_enc MsgRemoveLiquidityResponse_fields_enc. Qed.
#[local] Hint Resolve coinswap_MsgRemoveLiquidityResponse_same : api_same.
Definition MsgSwapOrder_api (m : CoinswapTypes.MsgSwapOrder) : MsgSwapOrder := mkMsgSwapOrder (Some (Input_api (CoinswapTypes.Swap_Input m))) (Some (Output_api (CoinswapTypes.Swap_Output m))) (CoinswapTypes.Swap_Deadline m) (CoinswapTypes.Swap_IsBuyOrder m) [].
Lemma coinswap_MsgSwapOrder_same : same_encoding MsgSwapOrder_api CoinswapCodec.MsgSwapOrder_wf CoinswapCodec.MsgSwapOrder_enc MsgSwapOrder_wf MsgSwapOrder_enc.
Proof. same_message MsgSwapOrder_api (@CoinswapCodec.MsgSwapOrder_wf) (@CoinswapCodec.MsgSwapOrder_enc) MsgSwapOrder_wf MsgSwapOrder_enc MsgSwapOrder_fields_enc. Qed.
#[local] Hint Resolve coinswap_MsgSwapOrder_same : api_same.
Definition MsgSwapCoinResponse_api (m : CoinswapCodec.MsgSwapCoinResponse) : MsgSwapCoinResponse := mkMsgSwapCoinResponse [].
Lemma coinswap_MsgSwapCoinResponse_same : same_encoding MsgSwapCoinResponse_api CoinswapCodec.MsgSwapCoinResponse_wf CoinswapCodec.MsgSwapCoinResponse_enc MsgSwapCoinResponse_wf MsgSwapCoinResponse_enc.
Proof. same_message MsgSwapCoinResponse_api (@CoinswapCodec.MsgSwapCoinResponse_wf) (@CoinswapCodec.MsgSwapCoinResponse_enc) MsgSwapCoinResponse_wf MsgSwapCoinResponse_enc MsgSwapCoinResponse_fields_enc. Qed.
#[local] Hint Resolve coinswap_MsgSwapCoinResponse_same : api_same.
Definition MsgUpdateParams_api (m : CoinswapTypes.MsgUpdateParams) : MsgUpdateParams := mkMsgUpdateParams (CoinswapTypes.Upd_Authority m) (Some (Params_api (CoinswapTypes.Upd_Params m))) [].
Lemma coinswap_MsgUpdateParams_same : same_encoding MsgUpdateParams_api CoinswapCodec.MsgUpdateParams_wf CoinswapCodec.MsgUpdateParams_enc MsgUpdateParams_wf MsgUpdateParams_enc.
Proof. same_message MsgUpdateParams_api (@CoinswapCodec.MsgUpdateParams_wf) (@CoinswapCodec.MsgUpdateParams_enc) MsgUpdateParams_wf MsgUpdateParams_enc MsgUpdateParams_fields_enc. Qed.
#[local] Hint Resolve coinswap_MsgUpdateParams_same : api_same.
Definition MsgUpdateParamsResponse_api (m : CoinswapCodec.MsgUpdateParamsResponse) : MsgUpdateParamsResponse := mkMsgUpdateParamsResponse [].
Lemma coinswap_MsgUpdateParamsResponse_same : same_encoding MsgUpdateParamsResponse_api CoinswapCodec.MsgUpdateParamsResponse_wf CoinswapCodec.MsgUpdateParamsResponse_enc MsgUpdateParamsResponse_wf MsgUpdateParamsResponse_enc.
Proof. same_message MsgUpdateParamsResponse_api (@CoinswapCodec.MsgUpdateParamsResponse_wf) (@CoinswapCodec.MsgUpdateParamsResponse_enc) MsgUpdateParamsResponse_wf MsgUpdateParamsResponse_enc MsgUpdateParamsResponse_fields_enc. Qed.
#[local] Hint Resolve coinswap_MsgUpdateParamsResponse_same : api_same.

Definition api_agrees : Prop :=
  agrees CoinswapCodec.Input_codec Input_methods Input_api CoinswapCodec.Input_wf CoinswapCodec.Input_enc ∧
  agrees CoinswapCodec.Output_codec Output_methods Output_api CoinswapCodec.Output_wf CoinswapCodec.Output_enc ∧
  agrees CoinswapCodec.Pool_codec Pool_methods Pool_api CoinswapCodec.Pool_wf CoinswapCodec.Pool_enc ∧
  agrees CoinswapCodec.Params_codec Params_methods Params_api CoinswapCodec.Params_wf CoinswapCodec.Params_enc ∧
  agrees CoinswapCodec.GenesisState_codec GenesisState_methods GenesisState_api CoinswapCodec.GenesisState_wf CoinswapCodec.GenesisState_enc ∧
  agrees CoinswapCodec.QueryParamsRequest_codec QueryParamsRequest_methods QueryParamsRequest_api CoinswapCodec.QueryParamsRequest_wf CoinswapCodec.QueryParamsRequest_enc ∧
  agrees CoinswapCodec.QueryParamsResponse_codec QueryParamsResponse_methods QueryParamsResponse_api CoinswapCodec.QueryParamsResponse_wf CoinswapCodec.QueryParamsResponse_enc ∧
  agrees CoinswapCodec.QueryLiquidityPoolRequest_codec QueryLiquidityPoolRequest_methods QueryLiquidityPoolRequest_api CoinswapCodec.QueryLiquidityPoolRequest_wf CoinswapCodec.QueryLiquidityPoolRequest_enc ∧
  agrees CoinswapCodec.QueryLiquidityPoolsRequest_codec QueryLiquidityPoolsRequest_methods QueryLiquidityPoolsRequest_api CoinswapCodec.QueryLiquidityPoolsRequest_wf CoinswapCodec.QueryLiquidityPoolsRequest_enc ∧
  agrees CoinswapCodec.PoolInfo_codec PoolInfo_methods PoolInfo_api CoinswapCodec.PoolInfo_wf CoinswapCodec.PoolInfo_enc ∧
  agrees CoinswapCodec.QueryLiquidityPoolResponse_codec QueryLiquidityPoolResponse_methods QueryLiquidityPoolResponse_api CoinswapCodec.QueryLiquidityPoolResponse_wf CoinswapCodec.QueryLiquidityPoolResponse_enc ∧
  agrees CoinswapCodec.QueryLiquidityPoolsResponse_codec QueryLiquidityPoolsResponse_methods QueryLiquidityPoolsResponse_api CoinswapCodec.QueryLiquidityPoolsResponse_wf CoinswapCodec.QueryLiquidityPoolsResponse_enc ∧
  agrees CoinswapCodec.MsgAddLiquidity_codec MsgAddLiquidity_methods MsgAddLiquidity_api CoinswapCodec.MsgAddLiquidity_wf CoinswapCodec.MsgAddLiquidity_enc ∧
  agrees CoinswapCodec.MsgAddLiquidityResponse_codec MsgAddLiquidityResponse_methods MsgAddLiquidityResponse_api CoinswapCodec.MsgAddLiquidityResponse_wf CoinswapCodec.MsgAddLiquidityResponse_enc ∧
  agrees CoinswapCodec.MsgRemoveLiquidity_codec MsgRemoveLiquidity_methods MsgRemoveLiquidity_api CoinswapCodec.MsgRemoveLiquidity_wf CoinswapCodec.MsgRemoveLiquidity_enc ∧
  agrees CoinswapCodec.MsgRemoveLiquidityResponse_codec MsgRemoveLiquidityResponse_methods MsgRemoveLiquidityResponse_api CoinswapCodec.MsgRemoveLiquidityResponse_wf CoinswapCodec.MsgRemoveLiquidityResponse_enc ∧
  agrees CoinswapCodec.MsgSwapOrder_codec MsgSwapOrder_methods MsgSwapOrder_api CoinswapCodec.MsgSwapOrder_wf CoinswapCodec.MsgSwapOrder_enc ∧
  agrees CoinswapCodec.MsgSwapCoinResponse_codec MsgSwapCoinResponse_methods MsgSwapCoinResponse_api CoinswapCodec.MsgSwapCoinResponse_wf CoinswapCodec.MsgSwapCoinResponse_enc ∧
  agrees CoinswapCodec.MsgUpdateParams_codec MsgUpdateParams_methods MsgUpdateParams_api CoinswapCodec.MsgUpdateParams_wf CoinswapCodec.MsgUpdateParams_enc ∧
  agrees CoinswapCodec.MsgUpdateParamsResponse_codec MsgUpdateParamsResponse_methods MsgUpdateParamsResponse_api CoinswapCodec.MsgUpdateParamsResponse_wf CoinswapCodec.MsgUpdateParamsResponse_enc.
Lemma coinswap_api_agrees : api_agrees.
Proof.
  unfold api_agrees. split_and!;
  [exact (laws_agree _ _ _ _ _ _ _ CoinswapCodec.coinswap_Input_laws coinswap_Input_api_laws coinswap_Input_same)
  |exact (laws_agree _ _ _ _ _ _ _ CoinswapCodec.coinswap_Output_laws coinswap_Output_api_laws coinswap_Output_same)
  |exact (laws_agree _ _ _ _ _ _ _ CoinswapCodec.coinswap_Pool_laws coinswap_Pool_api_laws coinswap_Pool_same)
  |exact (laws_agree _ _ _ _ _ _ _ CoinswapCodec.coinswap_Params_laws coinswap_Params_api_laws coinswap_Params_same)
  |exact (laws_agree _ _ _ _ _ _ _ CoinswapCodec.coinswap_GenesisState_laws coinswap_GenesisState_api_laws coinswap_GenesisState_same)
  |exact (laws_agree _ _ _ _ _ _ _ CoinswapCodec.coinswap_QueryParamsRequest_laws coinswap_QueryParamsRequest_api_laws coinswap_QueryParamsRequest_same)
  |exact (laws_agree _ _ _ _ _ _ _ CoinswapCodec.coinswap_QueryParamsResponse_laws coinswap_QueryParamsResponse_api_laws coinswap_QueryParamsResponse_same)
  |exact (laws_agree _ _ _ _ _ _ _ CoinswapCodec.coinswap_QueryLiquidityPoolRequest_laws coinswap_QueryLiquidityPoolRequest_api_laws coinswap_QueryLiquidityPoolRequest_same)
  |exact (laws_agree _ _ _ _ _ _ _ CoinswapCodec.coinswap_QueryLiquidityPoolsRequest_laws coinswap_QueryLiquidityPoolsRequest_api_laws coinswap_QueryLiquidityPoolsRequest_same)
  |exact (laws_agree _ _ _ _ _ _ _ CoinswapCodec.coinswap_PoolInfo_laws coinswap_PoolInfo_api_laws coinswap_PoolInfo_same)
  |exact (laws_agree _ _ _ _ _ _ _ CoinswapCodec.coinswap_QueryLiquidityPoolResponse_laws coinswap_QueryLiquidityPoolResponse_api_laws coinswap_QueryLiquidityPoolResponse_same)
  |exact (laws_agree _ _ _ _ _ _ _ CoinswapCodec.coinswap_QueryLiquidityPoolsResponse_laws coinswap_QueryLiquidityPoolsResponse_api_laws coinswap_QueryLiquidityPoolsResponse_same)
  |exact (laws_agree _ _ _ _ _ _ _ CoinswapCodec.coinswap_MsgAddLiquidity_laws coinswap_MsgAddLiquidity_api_laws coinswap_MsgAddLiquidity_same)
  |exact (laws_agree _ _ _ _ _ _ _ CoinswapCodec.coinswap_MsgAddLiquidityResponse_laws coinswap_MsgAddLiquidityResponse_api_laws coinswap_MsgAddLiquidityResponse_same)
  |exact (laws_agree _ _ _ _ _ _ _ CoinswapCodec.coinswap_MsgRemoveLiquidity_laws coinswap_MsgRemoveLiquidity_api_laws coinswap_MsgRemoveLiquidity_same)
  |exact (laws_agree _ _ _ _ _ _ _ CoinswapCodec.coinswap_MsgRemoveLiquidityResponse_laws coinswap_MsgRemoveLiquidityResponse_api_laws coinswap_MsgRemoveLiquidityResponse_same)
  |exact (laws_agree _ _ _ _ _ _ _ CoinswapCodec.coinswap_MsgSwapOrder_laws coinswap_MsgSwapOrder_api_laws coinswap_MsgSwapOrder_same)
  |exact (laws_agree _ _ _ _ _ _ _ CoinswapCodec.coinswap_MsgSwapCoinResponse_laws coinswap_MsgSwapCoinResponse_api_laws coinswap_MsgSwapCoinResponse_same)
  |exact (laws_agree _ _ _ _ _ _ _ CoinswapCodec.coinswap_MsgUpdateParams_laws coinswap_MsgUpdateParams_api_laws coinswap_MsgUpdateParams_same)
  |exact (laws_agree _ _ _ _ _ _ _ CoinswapCodec.coinswap_MsgUpdateParamsResponse_laws coinswap_MsgUpdateParamsResponse_api_laws coinswap_MsgUpdateParamsResponse_same)].
Qed.
End api.
