(* ===== verification/ApiCsr.v ===== *)
(** * Package api: the messages of canto.csr.v1

    The code of [csr.pulsar.go], [genesis.pulsar.go], [params.pulsar.go], [query.pulsar.go], [tx.pulsar.go] under
    src/api/canto/csr/v1: encoding ([Pulsar.v]), reflection ([Reflect.v]), and that
    the messages of the module and of the package have the same encodings. *)

From Stdlib Require Import Ascii.
From stdpp Require Import base strings list sets.
From S2P Require Import Prelude Golang Sdk Wire WireFacts WireCodec WireSdk Pulsar Reflect ApiSame.
From S2P Require Csr CsrCodec.

#[local] Open Scope Z_scope.
#[local] Open Scope go_scope.

Section api.
Context {RT : ProtoRuntime} {AS : ApiSdk}.

(** ** [CSR] *)

Record CSR := mkCSR { CSR_Contracts : list string; CSR_Id : Z; CSR_Txs : Z; CSR_Revenue : string; CSR_unknownFields : bytes }.
Definition CSR_size (x : CSR) : Z :=
  api_size_strings (CSR_Contracts x) + api_size_varint (CSR_Id x) + api_size_varint (CSR_Txs x) + api_size_string (CSR_Revenue x) + blen (CSR_unknownFields x).
Definition CSR_marshal (x : CSR) : writer :=
  put_raw (CSR_unknownFields x) ;>
  api_put_string 0x22 (CSR_Revenue x) ;>
  api_put_varint 0x18 (CSR_Txs x) ;>
  api_put_varint 0x10 (CSR_Id x) ;>
  api_put_strings 0xa (CSR_Contracts x).
Definition CSR_cases (discard : bool) (x : CSR) (fieldNum wireType : Z) : option (reader CSR) :=
  let '(mkCSR contracts_ id_ txs_ revenue_ unknown) := x in
  match fieldNum with
  | 1 => Some (get_strings "Contracts" wireType contracts_ (fun v => mkCSR v id_ txs_ revenue_ unknown))
  | 2 => Some (get_varint wrap64 "Id" wireType (fun v => mkCSR contracts_ v txs_ revenue_ unknown))
  | 3 => Some (get_varint wrap64 "Txs" wireType (fun v => mkCSR contracts_ id_ v revenue_ unknown))
  | 4 => Some (get_string "Revenue" wireType (fun v => mkCSR contracts_ id_ txs_ v unknown))
  | _ => None
  end.
Definition CSR_append (u : bytes) (x : CSR) : CSR := let '(mkCSR contracts_ id_ txs_ revenue_ unknown) := x in mkCSR contracts_ id_ txs_ revenue_ (unknown ++ u).
Definition CSR_unmarshal : bool -> bytes -> option CSR -> outcome (option CSR) := api_unmarshal "CSR" CSR_cases CSR_append.
Definition CSR_methods : Methods CSR :=
  mkMethods (mkCSR [] 0 0 "" []) (api_size CSR_size) (api_marshal CSR_size CSR_marshal) CSR_unmarshal.

(** ** [Params] *)

Record Params := mkParams { Params_EnableCsr : bool; Params_CsrShares : string; Params_unknownFields : bytes }.
Definition Params_size (x : Params) : Z :=
  size_bool (Params_EnableCsr x) + api_size_string (Params_CsrShares x) + blen (Params_unknownFields x).
Definition Params_marshal (x : Params) : writer :=
  put_raw (Params_unknownFields x) ;>
  api_put_string 0x12 (Params_CsrShares x) ;>
  put_bool 0x8 (Params_EnableCsr x).
Definition Params_cases (discard : bool) (x : Params) (fieldNum wireType : Z) : option (reader Params) :=
  let '(mkParams enableCsr_ csrShares_ unknown) := x in
  match fieldNum with
  | 1 => Some (get_bool "EnableCsr" wireType (fun v => mkParams v csrShares_ unknown))
  | 2 => Some (get_string "CsrShares" wireType (fun v => mkParams enableCsr_ v unknown))
  | _ => None
  end.
Definition Params_append (u : bytes) (x : Params) : Params := let '(mkParams enableCsr_ csrShares_ unknown) := x in mkParams enableCsr_ csrShares_ (unknown ++ u).
Definition Params_unmarshal : bool -> bytes -> option Params -> outcome (option Params) := api_unmarshal "Params" Params_cases Params_append.
Definition Params_methods : Methods Params :=
  mkMethods (mkParams false "" []) (api_size Params_size) (api_marshal Params_size Params_marshal) Params_unmarshal.

(** ** [GenesisState] *)

Record GenesisState := mkGenesisState { GenesisState_Params : option Params; GenesisState_Csrs : list (option CSR); GenesisState_TurnstileAddress : string; GenesisState_unknownFields : bytes }.
Definition GenesisState_size (x : GenesisState) : Z :=
  api_size_pointer Params_methods (GenesisState_Params x) + api_size_messages CSR_methods (GenesisState_Csrs x) + api_size_string (GenesisState_TurnstileAddress x) + blen (GenesisState_unknownFields x).
Definition GenesisState_marshal (x : GenesisState) : writer :=
  put_raw (GenesisState_unknownFields x) ;>
  api_put_string 0x1a (GenesisState_TurnstileAddress x) ;>
  api_put_messages CSR_methods 0x12 (GenesisState_Csrs x) ;>
  api_put_pointer Params_methods 0xa (GenesisState_Params x).
Definition GenesisState_cases (discard : bool) (x : GenesisState) (fieldNum wireType : Z) : option (reader GenesisState) :=
  let '(mkGenesisState params_ csrs_ turnstileAddress_ unknown) := x in
  match fieldNum with
  | 1 => Some (api_get_pointer Params_methods discard "Params" wireType params_ (fun v => mkGenesisState v csrs_ turnstileAddress_ unknown))
  | 2 => Some (api_get_element CSR_methods discard "Csrs" wireType csrs_ (fun v => mkGenesisState params_ v turnstileAddress_ unknown))
  | 3 => Some (get_string "TurnstileAddress" wireType (fun v => mkGenesisState params_ csrs_ v unknown))
  | _ => None
  end.
Definition GenesisState_append (u : bytes) (x : GenesisState) : GenesisState := let '(mkGenesisState params_ csrs_ turnstileAddress_ unknown) := x in mkGenesisState params_ csrs_ turnstileAddress_ (unknown ++ u).
Definition GenesisState_unmarshal : bool -> bytes -> option GenesisState -> outcome (option GenesisState) := api_unmarshal "GenesisState" GenesisState_cases GenesisState_append.
Definition GenesisState_methods : Methods GenesisState :=
  mkMethods (mkGenesisState None [] "" []) (api_size GenesisState_size) (api_marshal GenesisState_size GenesisState_marshal) GenesisState_unmarshal.

(** ** [QueryParamsRequest] *)

Record QueryParamsRequest := mkQueryParamsRequest { QueryParamsRequest_unknownFields : bytes }.
Definition QueryParamsRequest_size (x : QueryParamsRequest) : Z :=
  blen (QueryParamsRequest_unknownFields x).
Definition QueryParamsRequest_marshal (x : QueryParamsRequest) : writer :=
  put_raw (QueryParamsRequest_unknownFields x).
Definition QueryParamsRequest_cases (discard : bool) (x : QueryParamsRequest) (fieldNum wireType : Z) : option (reader QueryParamsRequest) := None.
Definition QueryParamsRequest_append (u : bytes) (x : QueryParamsRequest) : QueryParamsRequest := let '(mkQueryParamsRequest unknown) := x in mkQueryParamsRequest (unknown ++ u).
Definition QueryParamsRequest_unmarshal : bool -> bytes -> option QueryParamsRequest -> outcome (option QueryParamsRequest) := api_unmarshal "QueryParamsRequest" QueryParamsRequest_cases QueryParamsRequest_append.
Definition QueryParamsRequest_methods : Methods QueryParamsRequest :=
  mkMethods (mkQueryParamsRequest []) (api_size QueryParamsRequest_size) (api_marshal QueryParamsRequest_size QueryParamsRequest_marshal) QueryParamsRequest_unmarshal.

(** ** [QueryParamsResponse] *)

Record QueryParamsResponse := mkQueryParamsResponse { QueryParamsResponse_Params : option Params; QueryParamsResponse_unknownFields : bytes }.
Definition QueryParamsResponse_size (x : QueryParamsResponse) : Z :=
  api_size_pointer Params_methods (QueryParamsResponse_Params x) + blen (QueryParamsResponse_unknownFields x).
Definition QueryParamsResponse_marshal (x : QueryParamsResponse) : writer :=
  put_raw (QueryParamsResponse_unknownFields x) ;>
  api_put_pointer Params_methods 0xa (QueryParamsResponse_Params x).
Definition QueryParamsResponse_cases (discard : bool) (x : QueryParamsResponse) (fieldNum wireType : Z) : option (reader QueryParamsResponse) :=
  let '(mkQueryParamsResponse params_ unknown) := x in
  match fieldNum with
  | 1 => Some (api_get_pointer Params_methods discard "Params" wireType params_ (fun v => mkQueryParamsResponse v unknown))
  | _ => None
  end.
Definition QueryParamsResponse_append (u : bytes) (x : QueryParamsResponse) : QueryParamsResponse := let '(mkQueryParamsResponse params_ unknown) := x in mkQueryParamsResponse params_ (unknown ++ u).
Definition QueryParamsResponse_unmarshal : bool -> bytes -> option QueryParamsResponse -> outcome (option QueryParamsResponse) := api_unmarshal "QueryParamsResponse" QueryParamsResponse_cases QueryParamsResponse_append.
Definition QueryParamsResponse_methods : Methods QueryParamsResponse :=
  mkMethods (mkQueryParamsResponse None []) (api_size QueryParamsResponse_size) (api_marshal QueryParamsResponse_size QueryParamsResponse_marshal) QueryParamsResponse_unmarshal.

(** ** [QueryCSRsRequest] *)

Record QueryCSRsRequest := mkQueryCSRsRequest { QueryCSRsRequest_Pagination : option api_PageRequest; QueryCSRsRequest_unknownFields : bytes }.
Definition QueryCSRsRequest_size (x : QueryCSRsRequest) : Z :=
  api_size_pointer api_PageRequest_methods (QueryCSRsRequest_Pagination x) + blen (QueryCSRsRequest_unknownFields x).
Definition QueryCSRsRequest_marshal (x : QueryCSRsRequest) : writer :=
  put_raw (QueryCSRsRequest_unknownFields x) ;>
  api_put_pointer api_PageRequest_methods 0xa (QueryCSRsRequest_Pagination x).
Definition QueryCSRsRequest_cases (discard : bool) (x : QueryCSRsRequest) (fieldNum wireType : Z) : option (reader QueryCSRsRequest) :=
  let '(mkQueryCSRsRequest pagination_ unknown) := x in
  match fieldNum with
  | 1 => Some (api_get_pointer api_PageRequest_methods discard "Pagination" wireType pagination_ (fun v => mkQueryCSRsRequest v unknown))
  | _ => None
  end.
Definition QueryCSRsRequest_append (u : bytes) (x : QueryCSRsRequest) : QueryCSRsRequest := let '(mkQueryCSRsRequest pagination_ unknown) := x in mkQueryCSRsRequest pagination_ (unknown ++ u).
Definition QueryCSRsRequest_unmarshal : bool -> bytes -> option QueryCSRsRequest -> outcome (option QueryCSRsRequest) := api_unmarshal "QueryCSRsRequest" QueryCSRsRequest_cases QueryCSRsRequest_append.
Definition QueryCSRsRequest_methods : Methods QueryCSRsRequest :=
  mkMethods (mkQueryCSRsRequest None []) (api_size QueryCSRsRequest_size) (api_marshal QueryCSRsRequest_size QueryCSRsRequest_marshal) QueryCSRsRequest_unmarshal.

(** ** [QueryCSRsResponse] *)

Record QueryCSRsResponse := mkQueryCSRsResponse { QueryCSRsResponse_Csrs : list (option CSR); QueryCSRsResponse_Pagination : option api_PageResponse; QueryCSRsResponse_unknownFields : bytes }.
Definition QueryCSRsResponse_size (x : QueryCSRsResponse) : Z :=
  api_size_messages CSR_methods (QueryCSRsResponse_Csrs x) + api_size_pointer api_PageResponse_methods (QueryCSRsResponse_Pagination x) + blen (QueryCSRsResponse_unknownFields x).
Definition QueryCSRsResponse_marshal (x : QueryCSRsResponse) : writer :=
  put_raw (QueryCSRsResponse_unknownFields x) ;>
  api_put_pointer api_PageResponse_methods 0x12 (QueryCSRsResponse_Pagination x) ;>
  api_put_messages CSR_methods 0xa (QueryCSRsResponse_Csrs x).
Definition QueryCSRsResponse_cases (discard : bool) (x : QueryCSRsResponse) (fieldNum wireType : Z) : option (reader QueryCSRsResponse) :=
  let '(mkQueryCSRsResponse csrs_ pagination_ unknown) := x in
  match fieldNum with
  | 1 => Some (api_get_element CSR_methods discard "Csrs" wireType csrs_ (fun v => mkQueryCSRsResponse v pagination_ unknown))
  | 2 => Some (api_get_pointer api_PageResponse_methods discard "Pagination" wireType pagination_ (fun v => mkQueryCSRsResponse csrs_ v unknown))
  | _ => None
  end.
Definition QueryCSRsResponse_append (u : bytes) (x : QueryCSRsResponse) : QueryCSRsResponse := let '(mkQueryCSRsResponse csrs_ pagination_ unknown) := x in mkQueryCSRsResponse csrs_ pagination_ (unknown ++ u).
Definition QueryCSRsResponse_unmarshal : bool -> bytes -> option QueryCSRsResponse -> outcome (option QueryCSRsResponse) := api_unmarshal "QueryCSRsResponse" QueryCSRsResponse_cases QueryCSRsResponse_append.
Definition QueryCSRsResponse_methods : Methods QueryCSRsResponse :=
  mkMethods (mkQueryCSRsResponse [] None []) (api_size QueryCSRsResponse_size) (api_marshal QueryCSRsResponse_size QueryCSRsResponse_marshal) QueryCSRsResponse_unmarshal.

(** ** [QueryCSRByNFTRequest] *)

Record QueryCSRByNFTRequest := mkQueryCSRByNFTRequest { QueryCSRByNFTRequest_NftId : Z; QueryCSRByNFTRequest_unknownFields : bytes }.
Definition QueryCSRByNFTRequest_size (x : QueryCSRByNFTRequest) : Z :=
  api_size_varint (QueryCSRByNFTRequest_NftId x) + blen (QueryCSRByNFTRequest_unknownFields x).
Definition QueryCSRByNFTRequest_marshal (x : QueryCSRByNFTRequest) : writer :=
  put_raw (QueryCSRByNFTRequest_unknownFields x) ;>
  api_put_varint 0x8 (QueryCSRByNFTRequest_NftId x).
Definition QueryCSRByNFTRequest_cases (discard : bool) (x : QueryCSRByNFTRequest) (fieldNum wireType : Z) : option (reader QueryCSRByNFTRequest) :=
  let '(mkQueryCSRByNFTRequest nftId_ unknown) := x in
  match fieldNum with
  | 1 => Some (get_varint wrap64 "NftId" wireType (fun v => mkQueryCSRByNFTRequest v unknown))
  | _ => None
  end.
Definition QueryCSRByNFTRequest_append (u : bytes) (x : QueryCSRByNFTRequest) : QueryCSRByNFTRequest := let '(mkQueryCSRByNFTRequest nftId_ unknown) := x in mkQueryCSRByNFTRequest nftId_ (unknown ++ u).
Definition QueryCSRByNFTRequest_unmarshal : bool -> bytes -> option QueryCSRByNFTRequest -> outcome (option QueryCSRByNFTRequest) := api_unmarshal "QueryCSRByNFTRequest" QueryCSRByNFTRequest_cases QueryCSRByNFTRequest_append.
Definition QueryCSRByNFTRequest_methods : Methods QueryCSRByNFTRequest :=
  mkMethods (mkQueryCSRByNFTRequest 0 []) (api_size QueryCSRByNFTRequest_size) (api_marshal QueryCSRByNFTRequest_size QueryCSRByNFTRequest_marshal) QueryCSRByNFTRequest_unmarshal.

(** ** [QueryCSRByNFTResponse] *)

Record QueryCSRByNFTResponse := mkQueryCSRByNFTResponse { QueryCSRByNFTResponse_Csr : option CSR; QueryCSRByNFTResponse_unknownFields : bytes }.
Definition QueryCSRByNFTResponse_size (x : QueryCSRByNFTResponse) : Z :=
  api_size_pointer CSR_methods (QueryCSRByNFTResponse_Csr x) + blen (QueryCSRByNFTResponse_unknownFields x).
Definition QueryCSRByNFTResponse_marshal (x : QueryCSRByNFTResponse) : writer :=
  put_raw (QueryCSRByNFTResponse_unknownFields x) ;>
  api_put_pointer CSR_methods 0xa (QueryCSRByNFTResponse_Csr x).
Definition QueryCSRByNFTResponse_cases (discard : bool) (x : QueryCSRByNFTResponse) (fieldNum wireType : Z) : option (reader QueryCSRByNFTResponse) :=
  let '(mkQueryCSRByNFTResponse csr_ unknown) := x in
  match fieldNum with
  | 1 => Some (api_get_pointer CSR_methods discard "Csr" wireType csr_ (fun v => mkQueryCSRByNFTResponse v unknown))
  | _ => None
  end.
Definition QueryCSRByNFTResponse_append (u : bytes) (x : QueryCSRByNFTResponse) : QueryCSRByNFTResponse := let '(mkQueryCSRByNFTResponse csr_ unknown) := x in mkQueryCSRByNFTResponse csr_ (unknown ++ u).
Definition QueryCSRByNFTResponse_unmarshal : bool -> bytes -> option QueryCSRByNFTResponse -> outcome (option QueryCSRByNFTResponse) := api_unmarshal "QueryCSRByNFTResponse" QueryCSRByNFTResponse_cases QueryCSRByNFTResponse_append.
Definition QueryCSRByNFTResponse_methods : Methods QueryCSRByNFTResponse :=
  mkMethods (mkQueryCSRByNFTResponse None []) (api_size QueryCSRByNFTResponse_size) (api_marshal QueryCSRByNFTResponse_size QueryCSRByNFTResponse_marshal) QueryCSRByNFTResponse_unmarshal.

(** ** [QueryCSRByContractRequest] *)

Record QueryCSRByContractRequest := mkQueryCSRByContractRequest { QueryCSRByContractRequest_Address : string; QueryCSRByContractRequest_unknownFields : bytes }.
Definition QueryCSRByContractRequest_size (x : QueryCSRByContractRequest) : Z :=
  api_size_string (QueryCSRByContractRequest_Address x) + blen (QueryCSRByContractRequest_unknownFields x).
Definition QueryCSRByContractRequest_marshal (x : QueryCSRByContractRequest) : writer :=
  put_raw (QueryCSRByContractRequest_unknownFields x) ;>
  api_put_string 0xa (QueryCSRByContractRequest_Address x).
Definition QueryCSRByContractRequest_cases (discard : bool) (x : QueryCSRByContractRequest) (fieldNum wireType : Z) : option (reader QueryCSRByContractRequest) :=
  let '(mkQueryCSRByContractRequest address_ unknown) := x in
  match fieldNum with
  | 1 => Some (get_string "Address" wireType (fun v => mkQueryCSRByContractRequest v unknown))
  | _ => None
  end.
Definition QueryCSRByContractRequest_append (u : bytes) (x : QueryCSRByContractRequest) : QueryCSRByContractRequest := let '(mkQueryCSRByContractRequest address_ unknown) := x in mkQueryCSRByContractRequest address_ (unknown ++ u).
Definition QueryCSRByContractRequest_unmarshal : bool -> bytes -> option QueryCSRByContractRequest -> outcome (option QueryCSRByContractRequest) := api_unmarshal "QueryCSRByContractRequest" QueryCSRByContractRequest_cases QueryCSRByContractRequest_append.
Definition QueryCSRByContractRequest_methods : Methods QueryCSRByContractRequest :=
  mkMethods (mkQueryCSRByContractRequest "" []) (api_size QueryCSRByContractRequest_size) (api_marshal QueryCSRByContractRequest_size QueryCSRByContractRequest_marshal) QueryCSRByContractRequest_unmarshal.

(** ** [QueryCSRByContractResponse] *)

Record QueryCSRByContractResponse := mkQueryCSRByContractResponse { QueryCSRByContractResponse_Csr : option CSR; QueryCSRByContractResponse_unknownFields : bytes }.
Definition QueryCSRByContractResponse_size (x : QueryCSRByContractResponse) : Z :=
  api_size_pointer CSR_methods (QueryCSRByContractResponse_Csr x) + blen (QueryCSRByContractResponse_unknownFields x).
Definition QueryCSRByContractResponse_marshal (x : QueryCSRByContractResponse) : writer :=
  put_raw (QueryCSRByContractResponse_unknownFields x) ;>
  api_put_pointer CSR_methods 0xa (QueryCSRByContractResponse_Csr x).
Definition QueryCSRByContractResponse_cases (discard : bool) (x : QueryCSRByContractResponse) (fieldNum wireType : Z) : option (reader QueryCSRByContractResponse) :=
  let '(mkQueryCSRByContractResponse csr_ unknown) := x in
  match fieldNum with
  | 1 => Some (api_get_pointer CSR_methods discard "Csr" wireType csr_ (fun v => mkQueryCSRByContractResponse v unknown))
  | _ => None
  end.
Definition QueryCSRByContractResponse_append (u : bytes) (x : QueryCSRByContractResponse) : QueryCSRByContractResponse := let '(mkQueryCSRByContractResponse csr_ unknown) := x in mkQueryCSRByContractResponse csr_ (unknown ++ u).
Definition QueryCSRByContractResponse_unmarshal : bool -> bytes -> option QueryCSRByContractResponse -> outcome (option QueryCSRByContractResponse) := api_unmarshal "QueryCSRByContractResponse" QueryCSRByContractResponse_cases QueryCSRByContractResponse_append.
Definition QueryCSRByContractResponse_methods : Methods QueryCSRByContractResponse :=
  mkMethods (mkQueryCSRByContractResponse None []) (api_size QueryCSRByContractResponse_size) (api_marshal QueryCSRByContractResponse_size QueryCSRByContractResponse_marshal) QueryCSRByContractResponse_unmarshal.

(** ** [QueryTurnstileRequest] *)

Record QueryTurnstileRequest := mkQueryTurnstileRequest { QueryTurnstileRequest_unknownFields : bytes }.
Definition QueryTurnstileRequest_size (x : QueryTurnstileRequest) : Z :=
  blen (QueryTurnstileRequest_unknownFields x).
Definition QueryTurnstileRequest_marshal (x : QueryTurnstileRequest) : writer :=
  put_raw (QueryTurnstileRequest_unknownFields x).
Definition QueryTurnstileRequest_cases (discard : bool) (x : QueryTurnstileRequest) (fieldNum wireType : Z) : option (reader QueryTurnstileRequest) := None.
Definition QueryTurnstileRequest_append (u : bytes) (x : QueryTurnstileRequest) : QueryTurnstileRequest := let '(mkQueryTurnstileRequest unknown) := x in mkQueryTurnstileRequest (unknown ++ u).
Definition QueryTurnstileRequest_unmarshal : bool -> bytes -> option QueryTurnstileRequest -> outcome (option QueryTurnstileRequest) := api_unmarshal "QueryTurnstileRequest" QueryTurnstileRequest_cases QueryTurnstileRequest_append.
Definition QueryTurnstileRequest_methods : Methods QueryTurnstileRequest :=
  mkMethods (mkQueryTurnstileRequest []) (api_size QueryTurnstileRequest_size) (api_marshal QueryTurnstileRequest_size QueryTurnstileRequest_marshal) QueryTurnstileRequest_unmarshal.

(** ** [QueryTurnstileResponse] *)

Record QueryTurnstileResponse := mkQueryTurnstileResponse { QueryTurnstileResponse_Address : string; QueryTurnstileResponse_unknownFields : bytes }.
Definition QueryTurnstileResponse_size (x : QueryTurnstileResponse) : Z :=
  api_size_string (QueryTurnstileResponse_Address x) + blen (QueryTurnstileResponse_unknownFields x).
Definition QueryTurnstileResponse_marshal (x : QueryTurnstileResponse) : writer :=
  put_raw (QueryTurnstileResponse_unknownFields x) ;>
  api_put_string 0xa (QueryTurnstileResponse_Address x).
Definition QueryTurnstileResponse_cases (discard : bool) (x : QueryTurnstileResponse) (fieldNum wireType : Z) : option (reader QueryTurnstileResponse) :=
  let '(mkQueryTurnstileResponse address_ unknown) := x in
  match fieldNum with
  | 1 => Some (get_string "Address" wireType (fun v => mkQueryTurnstileResponse v unknown))
  | _ => None
  end.
Definition QueryTurnstileResponse_append (u : bytes) (x : QueryTurnstileResponse) : QueryTurnstileResponse := let '(mkQueryTurnstileResponse address_ unknown) := x in mkQueryTurnstileResponse address_ (unknown ++ u).
Definition QueryTurnstileResponse_unmarshal : bool -> bytes -> option QueryTurnstileResponse -> outcome (option QueryTurnstileResponse) := api_unmarshal "QueryTurnstileResponse" QueryTurnstileResponse_cases QueryTurnstileResponse_append.
Definition QueryTurnstileResponse_methods : Methods QueryTurnstileResponse :=
  mkMethods (mkQueryTurnstileResponse "" []) (api_size QueryTurnstileResponse_size) (api_marshal QueryTurnstileResponse_size QueryTurnstileResponse_marshal) QueryTurnstileResponse_unmarshal.

(** ** [MsgUpdateParams] *)

Record MsgUpdateParams := mkMsgUpdateParams { MsgUpdateParams_Authority : string; MsgUpdateParams_Params : option Params; MsgUpdateParams_unknownFields : bytes }.
Definition MsgUpdateParams_size (x : MsgUpdateParams) : Z :=
  api_size_string (MsgUpdateParams_Authority x) + api_size_pointer Params_methods (MsgUpdateParams_Params x) + blen (MsgUpdateParams_unknownFields x).
Definition MsgUpdateParams_marshal (x : MsgUpdateParams) : writer :=
  put_raw (MsgUpdateParams_unknownFields x) ;>
  api_put_pointer Params_methods 0x12 (MsgUpdateParams_Params x) ;>
  api_put_string 0xa (MsgUpdateParams_Authority x).
Definition MsgUpdateParams_cases (discard : bool) (x : MsgUpdateParams) (fieldNum wireType : Z) : option (reader MsgUpdateParams) :=
  let '(mkMsgUpdateParams authority_ params_ unknown) := x in
  match fieldNum with
  | 1 => Some (get_string "Authority" wireType (fun v => mkMsgUpdateParams v params_ unknown))
  | 2 => Some (api_get_pointer Params_methods discard "Params" wireType params_ (fun v => mkMsgUpdateParams authority_ v unknown))
  | _ => None
  end.
Definition MsgUpdateParams_append (u : bytes) (x : MsgUpdateParams) : MsgUpdateParams := let '(mkMsgUpdateParams authority_ params_ unknown) := x in mkMsgUpdateParams authority_ params_ (unknown ++ u).
Definition MsgUpdateParams_unmarshal : bool -> bytes -> option MsgUpdateParams -> outcome (option MsgUpdateParams) := api_unmarshal "MsgUpdateParams" MsgUpdateParams_cases MsgUpdateParams_append.
Definition MsgUpdateParams_methods : Methods MsgUpdateParams :=
  mkMethods (mkMsgUpdateParams "" None []) (api_size MsgUpdateParams_size) (api_marshal MsgUpdateParams_size MsgUpdateParams_marshal) MsgUpdateParams_unmarshal.

(** ** [MsgUpdateParamsResponse] *)

Record MsgUpdateParamsResponse := mkMsgUpdateParamsResponse { MsgUpdateParamsResponse_unknownFields : bytes }.
Definition MsgUpdateParamsResponse_size (x : MsgUpdateParamsResponse) : Z :=
  blen (MsgUpdateParamsResponse_unknownFields x).
Definition MsgUpdateParamsResponse_marshal (x : MsgUpdateParamsResponse) : writer :=
  put_raw (MsgUpdateParamsResponse_unknownFields x).
Definition MsgUpdateParamsResponse_cases (discard : bool) (x : MsgUpdateParamsResponse) (fieldNum wireType : Z) : option (reader MsgUpdateParamsResponse) := None.
Definition MsgUpdateParamsResponse_append (u : bytes) (x : MsgUpdateParamsResponse) : MsgUpdateParamsResponse := let '(mkMsgUpdateParamsResponse unknown) := x in mkMsgUpdateParamsResponse (unknown ++ u).
Definition MsgUpdateParamsResponse_unmarshal : bool -> bytes -> option MsgUpdateParamsResponse -> outcome (option MsgUpdateParamsResponse) := api_unmarshal "MsgUpdateParamsResponse" MsgUpdateParamsResponse_cases MsgUpdateParamsResponse_append.
Definition MsgUpdateParamsResponse_methods : Methods MsgUpdateParamsResponse :=
  mkMethods (mkMsgUpdateParamsResponse []) (api_size MsgUpdateParamsResponse_size) (api_marshal MsgUpdateParamsResponse_size MsgUpdateParamsResponse_marshal) MsgUpdateParamsResponse_unmarshal.

(** ** Well-formed messages and their encodings *)

Context {RL : ProtoRuntimeLaws} {AL : ApiSdkLaws AS}.

Definition CSR_wf (x : CSR) : Prop := is_uint64 (CSR_Id x) ∧ is_uint64 (CSR_Txs x) ∧ unknown_bytes [1; 2; 3; 4] (CSR_unknownFields x).
Definition CSR_fields_enc (x : CSR) : bytes :=
  enc_strings 0xa (CSR_Contracts x) ++
  enc_varint 0x10 (CSR_Id x) ++
  enc_varint 0x18 (CSR_Txs x) ++
  enc_string 0x22 (CSR_Revenue x).
Definition CSR_enc (x : CSR) : bytes := CSR_fields_enc x ++ CSR_unknownFields x.
Lemma csr_CSR_api_laws : MethodLaws CSR_methods CSR_wf CSR_enc.
Proof. api_message_laws CSR_wf CSR_enc CSR_fields_enc CSR_size CSR_marshal CSR_cases CSR_append. Qed.
#[local] Hint Resolve csr_CSR_api_laws : api_laws.

Definition Params_wf (x : Params) : Prop := unknown_bytes [1; 2] (Params_unknownFields x).
Definition Params_fields_enc (x : Params) : bytes :=
  enc_bool 0x8 (Params_EnableCsr x) ++
  enc_string 0x12 (Params_CsrShares x).
Definition Params_enc (x : Params) : bytes := Params_fields_enc x ++ Params_unknownFields x.
Lemma csr_Params_api_laws : MethodLaws Params_methods Params_wf Params_enc.
Proof. api_message_laws Params_wf Params_enc Params_fields_enc Params_size Params_marshal Params_cases Params_append. Qed.
#[local] Hint Resolve csr_Params_api_laws : api_laws.

Definition GenesisState_wf (x : GenesisState) : Prop := (∀ a, GenesisState_Params x = Some a -> Params_wf a) ∧ Forall (element_wf CSR_wf) (GenesisState_Csrs x) ∧ unknown_bytes [1; 2; 3] (GenesisState_unknownFields x).
Definition GenesisState_fields_enc (x : GenesisState) : bytes :=
  enc_pointer Params_enc 0xa (GenesisState_Params x) ++
  enc_elements CSR_enc 0x12 (GenesisState_Csrs x) ++
  enc_string 0x1a (GenesisState_TurnstileAddress x).
Definition GenesisState_enc (x : GenesisState) : bytes := GenesisState_fields_enc x ++ GenesisState_unknownFields x.
Lemma csr_GenesisState_api_laws : MethodLaws GenesisState_methods GenesisState_wf GenesisState_enc.
Proof. api_message_laws GenesisState_wf GenesisState_enc GenesisState_fields_enc GenesisState_size GenesisState_marshal GenesisState_cases GenesisState_append. Qed.
#[local] Hint Resolve csr_GenesisState_api_laws : api_laws.

Definition QueryParamsRequest_wf (x : QueryParamsRequest) : Prop := unknown_bytes [] (QueryParamsRequest_unknownFields x).
Definition QueryParamsRequest_fields_enc (x : QueryParamsRequest) : bytes :=
  [].
Definition QueryParamsRequest_enc (x : QueryParamsRequest) : bytes := QueryParamsRequest_fields_enc x ++ QueryParamsRequest_unknownFields x.
Lemma csr_QueryParamsRequest_api_laws : MethodLaws QueryParamsRequest_methods QueryParamsRequest_wf QueryParamsRequest_enc.
Proof. api_message_laws QueryParamsRequest_wf QueryParamsRequest_enc QueryParamsRequest_fields_enc QueryParamsRequest_size QueryParamsRequest_marshal QueryParamsRequest_cases QueryParamsRequest_append. Qed.
#[local] Hint Resolve csr_QueryParamsRequest_api_laws : api_laws.

Definition QueryParamsResponse_wf (x : QueryParamsResponse) : Prop := (∀ a, QueryParamsResponse_Params x = Some a -> Params_wf a) ∧ unknown_bytes [1] (QueryParamsResponse_unknownFields x).
Definition QueryParamsResponse_fields_enc (x : QueryParamsResponse) : bytes :=
  enc_pointer Params_enc 0xa (QueryParamsResponse_Params x).
Definition QueryParamsResponse_enc (x : QueryParamsResponse) : bytes := QueryParamsResponse_fields_enc x ++ QueryParamsResponse_unknownFields x.
Lemma csr_QueryParamsResponse_api_laws : MethodLaws QueryParamsResponse_methods QueryParamsResponse_wf QueryParamsResponse_enc.
Proof. api_message_laws QueryParamsResponse_wf QueryParamsResponse_enc QueryParamsResponse_fields_enc QueryParamsResponse_size QueryParamsResponse_marshal QueryParamsResponse_cases QueryParamsResponse_append. Qed.
#[local] Hint Resolve csr_QueryParamsResponse_api_laws : api_laws.

Definition QueryCSRsRequest_wf (x : QueryCSRsRequest) : Prop := (∀ a, QueryCSRsRequest_Pagination x = Some a -> api_PageRequest_wf a) ∧ unknown_bytes [1] (QueryCSRsRequest_unknownFields x).
Definition QueryCSRsRequest_fields_enc (x : QueryCSRsRequest) : bytes :=
  enc_pointer api_PageRequest_enc 0xa (QueryCSRsRequest_Pagination x).
Definition QueryCSRsRequest_enc (x : QueryCSRsRequest) : bytes := QueryCSRsRequest_fields_enc x ++ QueryCSRsRequest_unknownFields x.
Lemma csr_QueryCSRsRequest_api_laws : MethodLaws QueryCSRsRequest_methods QueryCSRsRequest_wf QueryCSRsRequest_enc.
Proof. api_message_laws QueryCSRsRequest_wf QueryCSRsRequest_enc QueryCSRsRequest_fields_enc QueryCSRsRequest_size QueryCSRsRequest_marshal QueryCSRsRequest_cases QueryCSRsRequest_append. Qed.
#[local] Hint Resolve csr_QueryCSRsRequest_api_laws : api_laws.

Definition QueryCSRsResponse_wf (x : QueryCSRsResponse) : Prop := Forall (element_wf CSR_wf) (QueryCSRsResponse_Csrs x) ∧ (∀ a, QueryCSRsResponse_Pagination x = Some a -> api_PageResponse_wf a) ∧ unknown_bytes [1; 2] (QueryCSRsResponse_unknownFields x).
Definition QueryCSRsResponse_fields_enc (x : QueryCSRsResponse) : bytes :=
  enc_elements CSR_enc 0xa (QueryCSRsResponse_Csrs x) ++
  enc_pointer api_PageResponse_enc 0x12 (QueryCSRsResponse_Pagination x).
Definition QueryCSRsResponse_enc (x : QueryCSRsResponse) : bytes := QueryCSRsResponse_fields_enc x ++ QueryCSRsResponse_unknownFields x.
Lemma csr_QueryCSRsResponse_api_laws : MethodLaws QueryCSRsResponse_methods QueryCSRsResponse_wf QueryCSRsResponse_enc.
Proof. api_message_laws QueryCSRsResponse_wf QueryCSRsResponse_enc QueryCSRsResponse_fields_enc QueryCSRsResponse_size QueryCSRsResponse_marshal QueryCSRsResponse_cases QueryCSRsResponse_append. Qed.
#[local] Hint Resolve csr_QueryCSRsResponse_api_laws : api_laws.

Definition QueryCSRByNFTRequest_wf (x : QueryCSRByNFTRequest) : Prop := is_uint64 (QueryCSRByNFTRequest_NftId x) ∧ unknown_bytes [1] (QueryCSRByNFTRequest_unknownFields x).
Definition QueryCSRByNFTRequest_fields_enc (x : QueryCSRByNFTRequest) : bytes :=
  enc_varint 0x8 (QueryCSRByNFTRequest_NftId x).
Definition QueryCSRByNFTRequest_enc (x : QueryCSRByNFTRequest) : bytes := QueryCSRByNFTRequest_fields_enc x ++ QueryCSRByNFTRequest_unknownFields x.
Lemma csr_QueryCSRByNFTRequest_api_laws : MethodLaws QueryCSRByNFTRequest_methods QueryCSRByNFTRequest_wf QueryCSRByNFTRequest_enc.
Proof. api_message_laws QueryCSRByNFTRequest_wf QueryCSRByNFTRequest_enc QueryCSRByNFTRequest_fields_enc QueryCSRByNFTRequest_size QueryCSRByNFTRequest_marshal QueryCSRByNFTRequest_cases QueryCSRByNFTRequest_append. Qed.
#[local] Hint Resolve csr_QueryCSRByNFTRequest_api_laws : api_laws.

Definition QueryCSRByNFTResponse_wf (x : QueryCSRByNFTResponse) : Prop := (∀ a, QueryCSRByNFTResponse_Csr x = Some a -> CSR_wf a) ∧ unknown_bytes [1] (QueryCSRByNFTResponse_unknownFields x).
Definition QueryCSRByNFTResponse_fields_enc (x : QueryCSRByNFTResponse) : bytes :=
  enc_pointer CSR_enc 0xa (QueryCSRByNFTResponse_Csr x).
Definition QueryCSRByNFTResponse_enc (x : QueryCSRByNFTResponse) : bytes := QueryCSRByNFTResponse_fields_enc x ++ QueryCSRByNFTResponse_unknownFields x.
Lemma csr_QueryCSRByNFTResponse_api_laws : MethodLaws QueryCSRByNFTResponse_methods QueryCSRByNFTResponse_wf QueryCSRByNFTResponse_enc.
Proof. api_message_laws QueryCSRByNFTResponse_wf QueryCSRByNFTResponse_enc QueryCSRByNFTResponse_fields_enc QueryCSRByNFTResponse_size QueryCSRByNFTResponse_marshal QueryCSRByNFTResponse_cases QueryCSRByNFTResponse_append. Qed.
#[local] Hint Resolve csr_QueryCSRByNFTResponse_api_laws : api_laws.

Definition QueryCSRByContractRequest_wf (x : QueryCSRByContractRequest) : Prop := unknown_bytes [1] (QueryCSRByContractRequest_unknownFields x).
Definition QueryCSRByContractRequest_fields_enc (x : QueryCSRByContractRequest) : bytes :=
  enc_string 0xa (QueryCSRByContractRequest_Address x).
Definition QueryCSRByContractRequest_enc (x : QueryCSRByContractRequest) : bytes := QueryCSRByContractRequest_fields_enc x ++ QueryCSRByContractRequest_unknownFields x.
Lemma csr_QueryCSRByContractRequest_api_laws : MethodLaws QueryCSRByContractRequest_methods QueryCSRByContractRequest_wf QueryCSRByContractRequest_enc.
Proof. api_message_laws QueryCSRByContractRequest_wf QueryCSRByContractRequest_enc QueryCSRByContractRequest_fields_enc QueryCSRByContractRequest_size QueryCSRByContractRequest_marshal QueryCSRByContractRequest_cases QueryCSRByContractRequest_append. Qed.
#[local] Hint Resolve csr_QueryCSRByContractRequest_api_laws : api_laws.

Definition QueryCSRByContractResponse_wf (x : QueryCSRByContractResponse) : Prop := (∀ a, QueryCSRByContractResponse_Csr x = Some a -> CSR_wf a) ∧ unknown_bytes [1] (QueryCSRByContractResponse_unknownFields x).
Definition QueryCSRByContractResponse_fields_enc (x : QueryCSRByContractResponse) : bytes :=
  enc_pointer CSR_enc 0xa (QueryCSRByContractResponse_Csr x).
Definition QueryCSRByContractResponse_enc (x : QueryCSRByContractResponse) : bytes := QueryCSRByContractResponse_fields_enc x ++ QueryCSRByContractResponse_unknownFields x.
Lemma csr_QueryCSRByContractResponse_api_laws : MethodLaws QueryCSRByContractResponse_methods QueryCSRByContractResponse_wf QueryCSRByContractResponse_enc.
Proof. api_message_laws QueryCSRByContractResponse_wf QueryCSRByContractResponse_enc QueryCSRByContractResponse_fields_enc QueryCSRByContractResponse_size QueryCSRByContractResponse_marshal QueryCSRByContractResponse_cases QueryCSRByContractResponse_append. Qed.
#[local] Hint Resolve csr_QueryCSRByContractResponse_api_laws : api_laws.

Definition QueryTurnstileRequest_wf (x : QueryTurnstileRequest) : Prop := unknown_bytes [] (QueryTurnstileRequest_unknownFields x).
Definition QueryTurnstileRequest_fields_enc (x : QueryTurnstileRequest) : bytes :=
  [].
Definition QueryTurnstileRequest_enc (x : QueryTurnstileRequest) : bytes := QueryTurnstileRequest_fields_enc x ++ QueryTurnstileRequest_unknownFields x.
Lemma csr_QueryTurnstileRequest_api_laws : MethodLaws QueryTurnstileRequest_methods QueryTurnstileRequest_wf QueryTurnstileRequest_enc.
Proof. api_message_laws QueryTurnstileRequest_wf QueryTurnstileRequest_enc QueryTurnstileRequest_fields_enc QueryTurnstileRequest_size QueryTurnstileRequest_marshal QueryTurnstileRequest_cases QueryTurnstileRequest_append. Qed.
#[local] Hint Resolve csr_QueryTurnstileRequest_api_laws : api_laws.

Definition QueryTurnstileResponse_wf (x : QueryTurnstileResponse) : Prop := unknown_bytes [1] (QueryTurnstileResponse_unknownFields x).
Definition QueryTurnstileResponse_fields_enc (x : QueryTurnstileResponse) : bytes :=
  enc_string 0xa (QueryTurnstileResponse_Address x).
Definition QueryTurnstileResponse_enc (x : QueryTurnstileResponse) : bytes := QueryTurnstileResponse_fields_enc x ++ QueryTurnstileResponse_unknownFields x.
Lemma csr_QueryTurnstileResponse_api_laws : MethodLaws QueryTurnstileResponse_methods QueryTurnstileResponse_wf QueryTurnstileResponse_enc.
Proof. api_message_laws QueryTurnstileResponse_wf QueryTurnstileResponse_enc QueryTurnstileResponse_fields_enc QueryTurnstileResponse_size QueryTurnstileResponse_marshal QueryTurnstileResponse_cases QueryTurnstileResponse_append. Qed.
#[local] Hint Resolve csr_QueryTurnstileResponse_api_laws : api_laws.

Definition MsgUpdateParams_wf (x : MsgUpdateParams) : Prop := (∀ a, MsgUpdateParams_Params x = Some a -> Params_wf a) ∧ unknown_bytes [1; 2] (MsgUpdateParams_unknownFields x).
Definition MsgUpdateParams_fields_enc (x : MsgUpdateParams) : bytes :=
  enc_string 0xa (MsgUpdateParams_Authority x) ++
  enc_pointer Params_enc 0x12 (MsgUpdateParams_Params x).
Definition MsgUpdateParams_enc (x : MsgUpdateParams) : bytes := MsgUpdateParams_fields_enc x ++ MsgUpdateParams_unknownFields x.
Lemma csr_MsgUpdateParams_api_laws : MethodLaws MsgUpdateParams_methods MsgUpdateParams_wf MsgUpdateParams_enc.
Proof. api_message_laws MsgUpdateParams_wf MsgUpdateParams_enc MsgUpdateParams_fields_enc MsgUpdateParams_size MsgUpdateParams_marshal MsgUpdateParams_cases MsgUpdateParams_append. Qed.
#[local] Hint Resolve csr_MsgUpdateParams_api_laws : api_laws.

Definition MsgUpdateParamsResponse_wf (x : MsgUpdateParamsResponse) : Prop := unknown_bytes [] (MsgUpdateParamsResponse_unknownFields x).
Definition MsgUpdateParamsResponse_fields_enc (x : MsgUpdateParamsResponse) : bytes :=
  [].
Definition MsgUpdateParamsResponse_enc (x : MsgUpdateParamsResponse) : bytes := MsgUpdateParamsResponse_fields_enc x ++ MsgUpdateParamsResponse_unknownFields x.
Lemma csr_MsgUpdateParamsResponse_api_laws : MethodLaws MsgUpdateParamsResponse_methods MsgUpdateParamsResponse_wf MsgUpdateParamsResponse_enc.
Proof. api_message_laws MsgUpdateParamsResponse_wf MsgUpdateParamsResponse_enc MsgUpdateParamsResponse_fields_enc MsgUpdateParamsResponse_size MsgUpdateParamsResponse_marshal MsgUpdateParamsResponse_cases MsgUpdateParamsResponse_append. Qed.
#[local] Hint Resolve csr_MsgUpdateParamsResponse_api_laws : api_laws.

(** Messages are read back, with the fields they do not know, and no input makes decoding panic. *)
Definition api_round_trips : Prop :=
  read_back CSR_methods CSR_wf CSR_enc ∧
  read_back Params_methods Params_wf Params_enc ∧
  read_back GenesisState_methods GenesisState_wf GenesisState_enc ∧
  read_back QueryParamsRequest_methods QueryParamsRequest_wf QueryParamsRequest_enc ∧
  read_back QueryParamsResponse_methods QueryParamsResponse_wf QueryParamsResponse_enc ∧
  read_back QueryCSRsRequest_methods QueryCSRsRequest_wf QueryCSRsRequest_enc ∧
  read_back QueryCSRsResponse_methods QueryCSRsResponse_wf QueryCSRsResponse_enc ∧
  read_back QueryCSRByNFTRequest_methods QueryCSRByNFTRequest_wf QueryCSRByNFTRequest_enc ∧
  read_back QueryCSRByNFTResponse_methods QueryCSRByNFTResponse_wf QueryCSRByNFTResponse_enc ∧
  read_back QueryCSRByContractRequest_methods QueryCSRByContractRequest_wf QueryCSRByContractRequest_enc ∧
  read_back QueryCSRByContractResponse_methods QueryCSRByContractResponse_wf QueryCSRByContractResponse_enc ∧
  read_back QueryTurnstileRequest_methods QueryTurnstileRequest_wf QueryTurnstileRequest_enc ∧
  read_back QueryTurnstileResponse_methods QueryTurnstileResponse_wf QueryTurnstileResponse_enc ∧
  read_back MsgUpdateParams_methods MsgUpdateParams_wf MsgUpdateParams_enc ∧
  read_back MsgUpdateParamsResponse_methods MsgUpdateParamsResponse_wf MsgUpdateParamsResponse_enc.
Lemma csr_api_round_trips : api_round_trips.
Proof. unfold api_round_trips. split_and!; eapply laws_read_back; api_law. Qed.

(** ** Reflection *)

(** The messages that occur in messages, and the conversions to them. *)
Inductive Msg :=
| Msg_Params (x : option Params)
| Msg_CSR (x : option CSR)
| Msg_api_PageRequest (x : option api_PageRequest)
| Msg_api_PageResponse (x : option api_PageResponse).
Definition to_Params (m : Msg) : outcome (option Params) := if m is Msg_Params x then Ok x else Panic.
Definition to_CSR (m : Msg) : outcome (option CSR) := if m is Msg_CSR x then Ok x else Panic.
Definition to_api_PageRequest (m : Msg) : outcome (option api_PageRequest) := if m is Msg_api_PageRequest x then Ok x else Panic.
Definition to_api_PageResponse (m : Msg) : outcome (option api_PageResponse) := if m is Msg_api_PageResponse x then Ok x else Panic.

Inductive Lst :=
| Lst_CSR_1 (x : option (list (string)))
| Lst_GenesisState_2 (x : option (list (option CSR)))
| Lst_QueryCSRsResponse_1 (x : option (list (option CSR))).
Definition to_CSR_1 (l : Lst) : outcome (option (list (string))) := if l is Lst_CSR_1 x then Ok x else Panic.
Definition to_GenesisState_2 (l : Lst) : outcome (option (list (option CSR))) := if l is Lst_GenesisState_2 x then Ok x else Panic.
Definition to_QueryCSRsResponse_1 (l : Lst) : outcome (option (list (option CSR))) := if l is Lst_QueryCSRsResponse_1 x then Ok x else Panic.
Abbreviation V := (Value Msg Lst).

Definition _CSR_1_list : Elem (string) V := string_elem.
Definition _GenesisState_2_list : Elem (option CSR) V := message_elem (new CSR_methods) Msg_CSR to_CSR.
Definition _QueryCSRsResponse_1_list : Elem (option CSR) V := message_elem (new CSR_methods) Msg_CSR to_CSR.

Definition fastReflection_CSR_fields : list (Field CSR V) :=
  [list_field Lst_CSR_1 to_CSR_1 "canto.csr.v1.CSR.contracts" CSR_Contracts
     (fun v x => let '(mkCSR _ id_ txs_ revenue_ unknown) := x in mkCSR v id_ txs_ revenue_ unknown);
   uint64_field "canto.csr.v1.CSR.id" CSR_Id
     (fun v x => let '(mkCSR contracts_ _ txs_ revenue_ unknown) := x in mkCSR contracts_ v txs_ revenue_ unknown);
   uint64_field "canto.csr.v1.CSR.txs" CSR_Txs
     (fun v x => let '(mkCSR contracts_ id_ _ revenue_ unknown) := x in mkCSR contracts_ id_ v revenue_ unknown);
   string_field "canto.csr.v1.CSR.revenue" CSR_Revenue
     (fun v x => let '(mkCSR contracts_ id_ txs_ _ unknown) := x in mkCSR contracts_ id_ txs_ v unknown)].
Definition fastReflection_CSR_Range {S} := reflect_Range (S := S) fastReflection_CSR_fields.
Definition fastReflection_CSR_Has := reflect_Has fastReflection_CSR_fields.
Definition fastReflection_CSR_Clear := reflect_Clear fastReflection_CSR_fields.
Definition fastReflection_CSR_Get := reflect_Get fastReflection_CSR_fields.
Definition fastReflection_CSR_Set := reflect_Set fastReflection_CSR_fields.
Definition fastReflection_CSR_Mutable := reflect_Mutable fastReflection_CSR_fields.
Definition fastReflection_CSR_NewField := reflect_NewField fastReflection_CSR_fields.
Definition fastReflection_CSR_SetUnknown (fields : bytes) (x : CSR) : CSR := let '(mkCSR contracts_ id_ txs_ revenue_ _) := x in mkCSR contracts_ id_ txs_ revenue_ fields.

Definition fastReflection_Params_fields : list (Field Params V) :=
  [bool_field "canto.csr.v1.Params.enable_csr" Params_EnableCsr
     (fun v x => let '(mkParams _ csrShares_ unknown) := x in mkParams v csrShares_ unknown);
   string_field "canto.csr.v1.Params.csr_shares" Params_CsrShares
     (fun v x => let '(mkParams enableCsr_ _ unknown) := x in mkParams enableCsr_ v unknown)].
Definition fastReflection_Params_Range {S} := reflect_Range (S := S) fastReflection_Params_fields.
Definition fastReflection_Params_Has := reflect_Has fastReflection_Params_fields.
Definition fastReflection_Params_Clear := reflect_Clear fastReflection_Params_fields.
Definition fastReflection_Params_Get := reflect_Get fastReflection_Params_fields.
Definition fastReflection_Params_Set := reflect_Set fastReflection_Params_fields.
Definition fastReflection_Params_Mutable := reflect_Mutable fastReflection_Params_fields.
Definition fastReflection_Params_NewField := reflect_NewField fastReflection_Params_fields.
Definition fastReflection_Params_SetUnknown (fields : bytes) (x : Params) : Params := let '(mkParams enableCsr_ csrShares_ _) := x in mkParams enableCsr_ csrShares_ fields.

Definition fastReflection_GenesisState_fields : list (Field GenesisState V) :=
  [message_field (new Params_methods) Msg_Params to_Params "canto.csr.v1.GenesisState.params" GenesisState_Params
     (fun v x => let '(mkGenesisState _ csrs_ turnstileAddress_ unknown) := x in mkGenesisState v csrs_ turnstileAddress_ unknown);
   list_field Lst_GenesisState_2 to_GenesisState_2 "canto.csr.v1.GenesisState.csrs" GenesisState_Csrs
     (fun v x => let '(mkGenesisState params_ _ turnstileAddress_ unknown) := x in mkGenesisState params_ v turnstileAddress_ unknown);
   string_field "canto.csr.v1.GenesisState.turnstile_address" GenesisState_TurnstileAddress
     (fun v x => let '(mkGenesisState params_ csrs_ _ unknown) := x in mkGenesisState params_ csrs_ v unknown)].
Definition fastReflection_GenesisState_Range {S} := reflect_Range (S := S) fastReflection_GenesisState_fields.
Definition fastReflection_GenesisState_Has := reflect_Has fastReflection_GenesisState_fields.
Definition fastReflection_GenesisState_Clear := reflect_Clear fastReflection_GenesisState_fields.
Definition fastReflection_GenesisState_Get := reflect_Get fastReflection_GenesisState_fields.
Definition fastReflection_GenesisState_Set := reflect_Set fastReflection_GenesisState_fields.
Definition fastReflection_GenesisState_Mutable := reflect_Mutable fastReflection_GenesisState_fields.
Definition fastReflection_GenesisState_NewField := reflect_NewField fastReflection_GenesisState_fields.
Definition fastReflection_GenesisState_SetUnknown (fields : bytes) (x : GenesisState) : GenesisState := let '(mkGenesisState params_ csrs_ turnstileAddress_ _) := x in mkGenesisState params_ csrs_ turnstileAddress_ fields.

Definition fastReflection_QueryParamsRequest_fields : list (Field QueryParamsRequest V) :=
  [].
Definition fastReflection_QueryParamsRequest_Range {S} := reflect_Range (S := S) fastReflection_QueryParamsRequest_fields.
Definition fastReflection_QueryParamsRequest_Has := reflect_Has fastReflection_QueryParamsRequest_fields.
Definition fastReflection_QueryParamsRequest_Clear := reflect_Clear fastReflection_QueryParamsRequest_fields.
Definition fastReflection_QueryParamsRequest_Get := reflect_Get fastReflection_QueryParamsRequest_fields.
Definition fastReflection_QueryParamsRequest_Set := reflect_Set fastReflection_QueryParamsRequest_fields.
Definition fastReflection_QueryParamsRequest_Mutable := reflect_Mutable fastReflection_QueryParamsRequest_fields.
Definition fastReflection_QueryParamsRequest_NewField := reflect_NewField fastReflection_QueryParamsRequest_fields.
Definition fastReflection_QueryParamsRequest_SetUnknown (fields : bytes) (x : QueryParamsRequest) : QueryParamsRequest := let '(mkQueryParamsRequest _) := x in mkQueryParamsRequest fields.

Definition fastReflection_QueryParamsResponse_fields : list (Field QueryParamsResponse V) :=
  [message_field (new Params_methods) Msg_Params to_Params "canto.csr.v1.QueryParamsResponse.params" QueryParamsResponse_Params
     (fun v x => let '(mkQueryParamsResponse _ unknown) := x in mkQueryParamsResponse v unknown)].
Definition fastReflection_QueryParamsResponse_Range {S} := reflect_Range (S := S) fastReflection_QueryParamsResponse_fields.
Definition fastReflection_QueryParamsResponse_Has := reflect_Has fastReflection_QueryParamsResponse_fields.
Definition fastReflection_QueryParamsResponse_Clear := reflect_Clear fastReflection_QueryParamsResponse_fields.
Definition fastReflection_QueryParamsResponse_Get := reflect_Get fastReflection_QueryParamsResponse_fields.
Definition fastReflection_QueryParamsResponse_Set := reflect_Set fastReflection_QueryParamsResponse_fields.
Definition fastReflection_QueryParamsResponse_Mutable := reflect_Mutable fastReflection_QueryParamsResponse_fields.
Definition fastReflection_QueryParamsResponse_NewField := reflect_NewField fastReflection_QueryParamsResponse_fields.
Definition fastReflection_QueryParamsResponse_SetUnknown (fields : bytes) (x : QueryParamsResponse) : QueryParamsResponse := let '(mkQueryParamsResponse params_ _) := x in mkQueryParamsResponse params_ fields.

Definition fastReflection_QueryCSRsRequest_fields : list (Field QueryCSRsRequest V) :=
  [message_field (new api_PageRequest_methods) Msg_api_PageRequest to_api_PageRequest "canto.csr.v1.QueryCSRsRequest.pagination" QueryCSRsRequest_Pagination
     (fun v x => let '(mkQueryCSRsRequest _ unknown) := x in mkQueryCSRsRequest v unknown)].
Definition fastReflection_QueryCSRsRequest_Range {S} := reflect_Range (S := S) fastReflection_QueryCSRsRequest_fields.
Definition fastReflection_QueryCSRsRequest_Has := reflect_Has fastReflection_QueryCSRsRequest_fields.
Definition fastReflection_QueryCSRsRequest_Clear := reflect_Clear fastReflection_QueryCSRsRequest_fields.
Definition fastReflection_QueryCSRsRequest_Get := reflect_Get fastReflection_QueryCSRsRequest_fields.
Definition fastReflection_QueryCSRsRequest_Set := reflect_Set fastReflection_QueryCSRsRequest_fields.
Definition fastReflection_QueryCSRsRequest_Mutable := reflect_Mutable fastReflection_QueryCSRsRequest_fields.
Definition fastReflection_QueryCSRsRequest_NewField := reflect_NewField fastReflection_QueryCSRsRequest_fields.
Definition fastReflection_QueryCSRsRequest_SetUnknown (fields : bytes) (x : QueryCSRsRequest) : QueryCSRsRequest := let '(mkQueryCSRsRequest pagination_ _) := x in mkQueryCSRsRequest pagination_ fields.

Definition fastReflection_QueryCSRsResponse_fields : list (Field QueryCSRsResponse V) :=
  [list_field Lst_QueryCSRsResponse_1 to_QueryCSRsResponse_1 "canto.csr.v1.QueryCSRsResponse.csrs" QueryCSRsResponse_Csrs
     (fun v x => let '(mkQueryCSRsResponse _ pagination_ unknown) := x in mkQueryCSRsResponse v pagination_ unknown);
   message_field (new api_PageResponse_methods) Msg_api_PageResponse to_api_PageResponse "canto.csr.v1.QueryCSRsResponse.pagination" QueryCSRsResponse_Pagination
     (fun v x => let '(mkQueryCSRsResponse csrs_ _ unknown) := x in mkQueryCSRsResponse csrs_ v unknown)].
Definition fastReflection_QueryCSRsResponse_Range {S} := reflect_Range (S := S) fastReflection_QueryCSRsResponse_fields.
Definition fastReflection_QueryCSRsResponse_Has := reflect_Has fastReflection_QueryCSRsResponse_fields.
Definition fastReflection_QueryCSRsResponse_Clear := reflect_Clear fastReflection_QueryCSRsResponse_fields.
Definition fastReflection_QueryCSRsResponse_Get := reflect_Get fastReflection_QueryCSRsResponse_fields.
Definition fastReflection_QueryCSRsResponse_Set := reflect_Set fastReflection_QueryCSRsResponse_fields.
Definition fastReflection_QueryCSRsResponse_Mutable := reflect_Mutable fastReflection_QueryCSRsResponse_fields.
Definition fastReflection_QueryCSRsResponse_NewField := reflect_NewField fastReflection_QueryCSRsResponse_fields.
Definition fastReflection_QueryCSRsResponse_SetUnknown (fields : bytes) (x : QueryCSRsResponse) : QueryCSRsResponse := let '(mkQueryCSRsResponse csrs_ pagination_ _) := x in mkQueryCSRsResponse csrs_ pagination_ fields.

Definition fastReflection_QueryCSRByNFTRequest_fields : list (Field QueryCSRByNFTRequest V) :=
  [uint64_field "canto.csr.v1.QueryCSRByNFTRequest.nftId" QueryCSRByNFTRequest_NftId
     (fun v x => let '(mkQueryCSRByNFTRequest _ unknown) := x in mkQueryCSRByNFTRequest v unknown)].
Definition fastReflection_QueryCSRByNFTRequest_Range {S} := reflect_Range (S := S) fastReflection_QueryCSRByNFTRequest_fields.
Definition fastReflection_QueryCSRByNFTRequest_Has := reflect_Has fastReflection_QueryCSRByNFTRequest_fields.
Definition fastReflection_QueryCSRByNFTRequest_Clear := reflect_Clear fastReflection_QueryCSRByNFTRequest_fields.
Definition fastReflection_QueryCSRByNFTRequest_Get := reflect_Get fastReflection_QueryCSRByNFTRequest_fields.
Definition fastReflection_QueryCSRByNFTRequest_Set := reflect_Set fastReflection_QueryCSRByNFTRequest_fields.
Definition fastReflection_QueryCSRByNFTRequest_Mutable := reflect_Mutable fastReflection_QueryCSRByNFTRequest_fields.
Definition fastReflection_QueryCSRByNFTRequest_NewField := reflect_NewField fastReflection_QueryCSRByNFTRequest_fields.
Definition fastReflection_QueryCSRByNFTRequest_SetUnknown (fields : bytes) (x : QueryCSRByNFTRequest) : QueryCSRByNFTRequest := let '(mkQueryCSRByNFTRequest nftId_ _) := x in mkQueryCSRByNFTRequest nftId_ fields.

Definition fastReflection_QueryCSRByNFTResponse_fields : list (Field QueryCSRByNFTResponse V) :=
  [message_field (new CSR_methods) Msg_CSR to_CSR "canto.csr.v1.QueryCSRByNFTResponse.csr" QueryCSRByNFTResponse_Csr
     (fun v x => let '(mkQueryCSRByNFTResponse _ unknown) := x in mkQueryCSRByNFTResponse v unknown)].
Definition fastReflection_QueryCSRByNFTResponse_Range {S} := reflect_Range (S := S) fastReflection_QueryCSRByNFTResponse_fields.
Definition fastReflection_QueryCSRByNFTResponse_Has := reflect_Has fastReflection_QueryCSRByNFTResponse_fields.
Definition fastReflection_QueryCSRByNFTResponse_Clear := reflect_Clear fastReflection_QueryCSRByNFTResponse_fields.
Definition fastReflection_QueryCSRByNFTResponse_Get := reflect_Get fastReflection_QueryCSRByNFTResponse_fields.
Definition fastReflection_QueryCSRByNFTResponse_Set := reflect_Set fastReflection_QueryCSRByNFTResponse_fields.
Definition fastReflection_QueryCSRByNFTResponse_Mutable := reflect_Mutable fastReflection_QueryCSRByNFTResponse_fields.
Definition fastReflection_QueryCSRByNFTResponse_NewField := reflect_NewField fastReflection_QueryCSRByNFTResponse_fields.
Definition fastReflection_QueryCSRByNFTResponse_SetUnknown (fields : bytes) (x : QueryCSRByNFTResponse) : QueryCSRByNFTResponse := let '(mkQueryCSRByNFTResponse csr_ _) := x in mkQueryCSRByNFTResponse csr_ fields.

Definition fastReflection_QueryCSRByContractRequest_fields : list (Field QueryCSRByContractRequest V) :=
  [string_field "canto.csr.v1.QueryCSRByContractRequest.address" QueryCSRByContractRequest_Address
     (fun v x => let '(mkQueryCSRByContractRequest _ unknown) := x in mkQueryCSRByContractRequest v unknown)].
Definition fastReflection_QueryCSRByContractRequest_Range {S} := reflect_Range (S := S) fastReflection_QueryCSRByContractRequest_fields.
Definition fastReflection_QueryCSRByContractRequest_Has := reflect_Has fastReflection_QueryCSRByContractRequest_fields.
Definition fastReflection_QueryCSRByContractRequest_Clear := reflect_Clear fastReflection_QueryCSRByContractRequest_fields.
Definition fastReflection_QueryCSRByContractRequest_Get := reflect_Get fastReflection_QueryCSRByContractRequest_fields.
Definition fastReflection_QueryCSRByContractRequest_Set := reflect_Set fastReflection_QueryCSRByContractRequest_fields.
Definition fastReflection_QueryCSRByContractRequest_Mutable := reflect_Mutable fastReflection_QueryCSRByContractRequest_fields.
Definition fastReflection_QueryCSRByContractRequest_NewField := reflect_NewField fastReflection_QueryCSRByContractRequest_fields.
Definition fastReflection_QueryCSRByContractRequest_SetUnknown (fields : bytes) (x : QueryCSRByContractRequest) : QueryCSRByContractRequest := let '(mkQueryCSRByContractRequest address_ _) := x in mkQueryCSRByContractRequest address_ fields.

Definition fastReflection_QueryCSRByContractResponse_fields : list (Field QueryCSRByContractResponse V) :=
  [message_field (new CSR_methods) Msg_CSR to_CSR "canto.csr.v1.QueryCSRByContractResponse.csr" QueryCSRByContractResponse_Csr
     (fun v x => let '(mkQueryCSRByContractResponse _ unknown) := x in mkQueryCSRByContractResponse v unknown)].
Definition fastReflection_QueryCSRByContractResponse_Range {S} := reflect_Range (S := S) fastReflection_QueryCSRByContractResponse_fields.
Definition fastReflection_QueryCSRByContractResponse_Has := reflect_Has fastReflection_QueryCSRByContractResponse_fields.
Definition fastReflection_QueryCSRByContractResponse_Clear := reflect_Clear fastReflection_QueryCSRByContractResponse_fields.
Definition fastReflection_QueryCSRByContractResponse_Get := reflect_Get fastReflection_QueryCSRByContractResponse_fields.
Definition fastReflection_QueryCSRByContractResponse_Set := reflect_Set fastReflection_QueryCSRByContractResponse_fields.
Definition fastReflection_QueryCSRByContractResponse_Mutable := reflect_Mutable fastReflection_QueryCSRByContractResponse_fields.
Definition fastReflection_QueryCSRByContractResponse_NewField := reflect_NewField fastReflection_QueryCSRByContractResponse_fields.
Definition fastReflection_QueryCSRByContractResponse_SetUnknown (fields : bytes) (x : QueryCSRByContractResponse) : QueryCSRByContractResponse := let '(mkQueryCSRByContractResponse csr_ _) := x in mkQueryCSRByContractResponse csr_ fields.

Definition fastReflection_QueryTurnstileRequest_fields : list (Field QueryTurnstileRequest V) :=
  [].
Definition fastReflection_QueryTurnstileRequest_Range {S} := reflect_Range (S := S) fastReflection_QueryTurnstileRequest_fields.
Definition fastReflection_QueryTurnstileRequest_Has := reflect_Has fastReflection_QueryTurnstileRequest_fields.
Definition fastReflection_QueryTurnstileRequest_Clear := reflect_Clear fastReflection_QueryTurnstileRequest_fields.
Definition fastReflection_QueryTurnstileRequest_Get := reflect_Get fastReflection_QueryTurnstileRequest_fields.
Definition fastReflection_QueryTurnstileRequest_Set := reflect_Set fastReflection_QueryTurnstileRequest_fields.
Definition fastReflection_QueryTurnstileRequest_Mutable := reflect_Mutable fastReflection_QueryTurnstileRequest_fields.
Definition fastReflection_QueryTurnstileRequest_NewField := reflect_NewField fastReflection_QueryTurnstileRequest_fields.
Definition fastReflection_QueryTurnstileRequest_SetUnknown (fields : bytes) (x : QueryTurnstileRequest) : QueryTurnstileRequest := let '(mkQueryTurnstileRequest _) := x in mkQueryTurnstileRequest fields.

Definition fastReflection_QueryTurnstileResponse_fields : list (Field QueryTurnstileResponse V) :=
  [string_field "canto.csr.v1.QueryTurnstileResponse.address" QueryTurnstileResponse_Address
     (fun v x => let '(mkQueryTurnstileResponse _ unknown) := x in mkQueryTurnstileResponse v unknown)].
Definition fastReflection_QueryTurnstileResponse_Range {S} := reflect_Range (S := S) fastReflection_QueryTurnstileResponse_fields.
Definition fastReflection_QueryTurnstileResponse_Has := reflect_Has fastReflection_QueryTurnstileResponse_fields.
Definition fastReflection_QueryTurnstileResponse_Clear := reflect_Clear fastReflection_QueryTurnstileResponse_fields.
Definition fastReflection_QueryTurnstileResponse_Get := reflect_Get fastReflection_QueryTurnstileResponse_fields.
Definition fastReflection_QueryTurnstileResponse_Set := reflect_Set fastReflection_QueryTurnstileResponse_fields.
Definition fastReflection_QueryTurnstileResponse_Mutable := reflect_Mutable fastReflection_QueryTurnstileResponse_fields.
Definition fastReflection_QueryTurnstileResponse_NewField := reflect_NewField fastReflection_QueryTurnstileResponse_fields.
Definition fastReflection_QueryTurnstileResponse_SetUnknown (fields : bytes) (x : QueryTurnstileResponse) : QueryTurnstileResponse := let '(mkQueryTurnstileResponse address_ _) := x in mkQueryTurnstileResponse address_ fields.

Definition fastReflection_MsgUpdateParams_fields : list (Field MsgUpdateParams V) :=
  [string_field "canto.csr.v1.MsgUpdateParams.authority" MsgUpdateParams_Authority
     (fun v x => let '(mkMsgUpdateParams _ params_ unknown) := x in mkMsgUpdateParams v params_ unknown);
   message_field (new Params_methods) Msg_Params to_Params "canto.csr.v1.MsgUpdateParams.params" MsgUpdateParams_Params
     (fun v x => let '(mkMsgUpdateParams authority_ _ unknown) := x in mkMsgUpdateParams authority_ v unknown)].
Definition fastReflection_MsgUpdateParams_Range {S} := reflect_Range (S := S) fastReflection_MsgUpdateParams_fields.
Definition fastReflection_MsgUpdateParams_Has := reflect_Has fastReflection_MsgUpdateParams_fields.
Definition fastReflection_MsgUpdateParams_Clear := reflect_Clear fastReflection_MsgUpdateParams_fields.
Definition fastReflection_MsgUpdateParams_Get := reflect_Get fastReflection_MsgUpdateParams_fields.
Definition fastReflection_MsgUpdateParams_Set := reflect_Set fastReflection_MsgUpdateParams_fields.
Definition fastReflection_MsgUpdateParams_Mutable := reflect_Mutable fastReflection_MsgUpdateParams_fields.
Definition fastReflection_MsgUpdateParams_NewField := reflect_NewField fastReflection_MsgUpdateParams_fields.
Definition fastReflection_MsgUpdateParams_SetUnknown (fields : bytes) (x : MsgUpdateParams) : MsgUpdateParams := let '(mkMsgUpdateParams authority_ params_ _) := x in mkMsgUpdateParams authority_ params_ fields.

Definition fastReflection_MsgUpdateParamsResponse_fields : list (Field MsgUpdateParamsResponse V) :=
  [].
Definition fastReflection_MsgUpdateParamsResponse_Range {S} := reflect_Range (S := S) fastReflection_MsgUpdateParamsResponse_fields.
Definition fastReflection_MsgUpdateParamsResponse_Has := reflect_Has fastReflection_MsgUpdateParamsResponse_fields.
Definition fastReflection_MsgUpdateParamsResponse_Clear := reflect_Clear fastReflection_MsgUpdateParamsResponse_fields.
Definition fastReflection_MsgUpdateParamsResponse_Get := reflect_Get fastReflection_MsgUpdateParamsResponse_fields.
Definition fastReflection_MsgUpdateParamsResponse_Set := reflect_Set fastReflection_MsgUpdateParamsResponse_fields.
Definition fastReflection_MsgUpdateParamsResponse_Mutable := reflect_Mutable fastReflection_MsgUpdateParamsResponse_fields.
Definition fastReflection_MsgUpdateParamsResponse_NewField := reflect_NewField fastReflection_MsgUpdateParamsResponse_fields.
Definition fastReflection_MsgUpdateParamsResponse_SetUnknown (fields : bytes) (x : MsgUpdateParamsResponse) : MsgUpdateParamsResponse := let '(mkMsgUpdateParamsResponse _) := x in mkMsgUpdateParamsResponse fields.

Lemma csr_CSR_field_laws : FieldLaws fastReflection_CSR_fields CSR_unknownFields (new CSR_methods).
Proof. message_field_laws. Qed.
Lemma csr_Params_field_laws : FieldLaws fastReflection_Params_fields Params_unknownFields (new Params_methods).
Proof. message_field_laws. Qed.
Lemma csr_GenesisState_field_laws : FieldLaws fastReflection_GenesisState_fields GenesisState_unknownFields (new GenesisState_methods).
Proof. message_field_laws. Qed.
Lemma csr_QueryParamsRequest_field_laws : FieldLaws fastReflection_QueryParamsRequest_fields QueryParamsRequest_unknownFields (new QueryParamsRequest_methods).
Proof. message_field_laws. Qed.
Lemma csr_QueryParamsResponse_field_laws : FieldLaws fastReflection_QueryParamsResponse_fields QueryParamsResponse_unknownFields (new QueryParamsResponse_methods).
Proof. message_field_laws. Qed.
Lemma csr_QueryCSRsRequest_field_laws : FieldLaws fastReflection_QueryCSRsRequest_fields QueryCSRsRequest_unknownFields (new QueryCSRsRequest_methods).
Proof. message_field_laws. Qed.
Lemma csr_QueryCSRsResponse_field_laws : FieldLaws fastReflection_QueryCSRsResponse_fields QueryCSRsResponse_unknownFields (new QueryCSRsResponse_methods).
Proof. message_field_laws. Qed.
Lemma csr_QueryCSRByNFTRequest_field_laws : FieldLaws fastReflection_QueryCSRByNFTRequest_fields QueryCSRByNFTRequest_unknownFields (new QueryCSRByNFTRequest_methods).
Proof. message_field_laws. Qed.
Lemma csr_QueryCSRByNFTResponse_field_laws : FieldLaws fastReflection_QueryCSRByNFTResponse_fields QueryCSRByNFTResponse_unknownFields (new QueryCSRByNFTResponse_methods).
Proof. message_field_laws. Qed.
Lemma csr_QueryCSRByContractRequest_field_laws : FieldLaws fastReflection_QueryCSRByContractRequest_fields QueryCSRByContractRequest_unknownFields (new QueryCSRByContractRequest_methods).
Proof. message_field_laws. Qed.
Lemma csr_QueryCSRByContractResponse_field_laws : FieldLaws fastReflection_QueryCSRByContractResponse_fields QueryCSRByContractResponse_unknownFields (new QueryCSRByContractResponse_methods).
Proof. message_field_laws. Qed.
Lemma csr_QueryTurnstileRequest_field_laws : FieldLaws fastReflection_QueryTurnstileRequest_fields QueryTurnstileRequest_unknownFields (new QueryTurnstileRequest_methods).
Proof. message_field_laws. Qed.
Lemma csr_QueryTurnstileResponse_field_laws : FieldLaws fastReflection_QueryTurnstileResponse_fields QueryTurnstileResponse_unknownFields (new QueryTurnstileResponse_methods).
Proof. message_field_laws. Qed.
Lemma csr_MsgUpdateParams_field_laws : FieldLaws fastReflection_MsgUpdateParams_fields MsgUpdateParams_unknownFields (new MsgUpdateParams_methods).
Proof. message_field_laws. Qed.
Lemma csr_MsgUpdateParamsResponse_field_laws : FieldLaws fastReflection_MsgUpdateParamsResponse_fields MsgUpdateParamsResponse_unknownFields (new MsgUpdateParamsResponse_methods).
Proof. message_field_laws. Qed.

(** What reflection promises, for every message. *)
Definition reflection_complete : Prop :=
  reflects fastReflection_CSR_fields CSR_unknownFields fastReflection_CSR_SetUnknown (new CSR_methods) ∧
  reflects fastReflection_Params_fields Params_unknownFields fastReflection_Params_SetUnknown (new Params_methods) ∧
  reflects fastReflection_GenesisState_fields GenesisState_unknownFields fastReflection_GenesisState_SetUnknown (new GenesisState_methods) ∧
  reflects fastReflection_QueryParamsRequest_fields QueryParamsRequest_unknownFields fastReflection_QueryParamsRequest_SetUnknown (new QueryParamsRequest_methods) ∧
  reflects fastReflection_QueryParamsResponse_fields QueryParamsResponse_unknownFields fastReflection_QueryParamsResponse_SetUnknown (new QueryParamsResponse_methods) ∧
  reflects fastReflection_QueryCSRsRequest_fields QueryCSRsRequest_unknownFields fastReflection_QueryCSRsRequest_SetUnknown (new QueryCSRsRequest_methods) ∧
  reflects fastReflection_QueryCSRsResponse_fields QueryCSRsResponse_unknownFields fastReflection_QueryCSRsResponse_SetUnknown (new QueryCSRsResponse_methods) ∧
  reflects fastReflection_QueryCSRByNFTRequest_fields QueryCSRByNFTRequest_unknownFields fastReflection_QueryCSRByNFTRequest_SetUnknown (new QueryCSRByNFTRequest_methods) ∧
  reflects fastReflection_QueryCSRByNFTResponse_fields QueryCSRByNFTResponse_unknownFields fastReflection_QueryCSRByNFTResponse_SetUnknown (new QueryCSRByNFTResponse_methods) ∧
  reflects fastReflection_QueryCSRByContractRequest_fields QueryCSRByContractRequest_unknownFields fastReflection_QueryCSRByContractRequest_SetUnknown (new QueryCSRByContractRequest_methods) ∧
  reflects fastReflection_QueryCSRByContractResponse_fields QueryCSRByContractResponse_unknownFields fastReflection_QueryCSRByContractResponse_SetUnknown (new QueryCSRByContractResponse_methods) ∧
  reflects fastReflection_QueryTurnstileRequest_fields QueryTurnstileRequest_unknownFields fastReflection_QueryTurnstileRequest_SetUnknown (new QueryTurnstileRequest_methods) ∧
  reflects fastReflection_QueryTurnstileResponse_fields QueryTurnstileResponse_unknownFields fastReflection_QueryTurnstileResponse_SetUnknown (new QueryTurnstileResponse_methods) ∧
  reflects fastReflection_MsgUpdateParams_fields MsgUpdateParams_unknownFields fastReflection_MsgUpdateParams_SetUnknown (new MsgUpdateParams_methods) ∧
  reflects fastReflection_MsgUpdateParamsResponse_fields MsgUpdateParamsResponse_unknownFields fastReflection_MsgUpdateParamsResponse_SetUnknown (new MsgUpdateParamsResponse_methods).
Lemma csr_reflection_complete : reflection_complete.
Proof.
  unfold reflection_complete. split_and!;
  [message_reflects csr_CSR_field_laws
  |message_reflects csr_Params_field_laws
  |message_reflects csr_GenesisState_field_laws
  |message_reflects csr_QueryParamsRequest_field_laws
  |message_reflects csr_QueryParamsResponse_field_laws
  |message_reflects csr_QueryCSRsRequest_field_laws
  |message_reflects csr_QueryCSRsResponse_field_laws
  |message_reflects csr_QueryCSRByNFTRequest_field_laws
  |message_reflects csr_QueryCSRByNFTResponse_field_laws
  |message_reflects csr_QueryCSRByContractRequest_field_laws
  |message_reflects csr_QueryCSRByContractResponse_field_laws
  |message_reflects csr_QueryTurnstileRequest_field_laws
  |message_reflects csr_QueryTurnstileResponse_field_laws
  |message_reflects csr_MsgUpdateParams_field_laws
  |message_reflects csr_MsgUpdateParamsResponse_field_laws].
Qed.

(** ** The same encodings as the module *)

Context {SC : SdkCodecs} {SL : SdkCodecLaws SC} {SE : SameEncodings SL AL}.

Definition CSR_api (m : Csr.CSR) : CSR := mkCSR (Csr.Contracts m) (Csr.Id m) (Csr.Txs m) (Int_text (Csr.Revenue m)) [].
Lemma csr_CSR_same : same_encoding CSR_api CsrCodec.CSR_wf CsrCodec.CSR_enc CSR_wf CSR_enc.
Proof. same_message CSR_api (@CsrCodec.CSR_wf) (@CsrCodec.CSR_enc) CSR_wf CSR_enc CSR_fields_enc. Qed.
#[local] Hint Resolve csr_CSR_same : api_same.
Definition Params_api (m : Csr.Params) : Params := mkParams (Csr.EnableCsr m) (Dec_text (Csr.CsrShares m)) [].
Lemma csr_Params_same : same_encoding Params_api CsrCodec.Params_wf CsrCodec.Params_enc Params_wf Params_enc.
Proof. same_message Params_api (@CsrCodec.Params_wf) (@CsrCodec.Params_enc) Params_wf Params_enc Params_fields_enc. Qed.
#[local] Hint Resolve csr_Params_same : api_same.
Definition GenesisState_api (m : Csr.GenesisState) : GenesisState := mkGenesisState (Some (Params_api (Csr.Gen_Params m))) ((fun c => Some (CSR_api c)) <$> (Csr.Gen_Csrs m)) (Csr.Gen_TurnstileAddress m) [].
Lemma csr_GenesisState_same : same_encoding GenesisState_api CsrCodec.GenesisState_wf CsrCodec.GenesisState_enc GenesisState_wf GenesisState_enc.
Proof. same_message GenesisState_api (@CsrCodec.GenesisState_wf) (@CsrCodec.GenesisState_enc) GenesisState_wf GenesisState_enc GenesisState_fields_enc. Qed.
#[local] Hint Resolve csr_GenesisState_same : api_same.
Definition QueryParamsRequest_api (m : CsrCodec.QueryParamsRequest) : QueryParamsRequest := mkQueryParamsRequest [].
Lemma csr_QueryParamsRequest_same : same_encoding QueryParamsRequest_api CsrCodec.QueryParamsRequest_wf CsrCodec.QueryParamsRequest_enc QueryParamsRequest_wf QueryParamsRequest_enc.
Proof. same_message QueryParamsRequest_api (@CsrCodec.QueryParamsRequest_wf) (@CsrCodec.QueryParamsRequest_enc) QueryParamsRequest_wf QueryParamsRequest_enc QueryParamsRequest_fields_enc. Qed.
#[local] Hint Resolve csr_QueryParamsRequest_same : api_same.
Definition QueryParamsResponse_api (m : CsrCodec.QueryParamsResponse) : QueryParamsResponse := mkQueryParamsResponse (Some (Params_api (CsrCodec.QueryParamsResponse_Params m))) [].
Lemma csr_QueryParamsResponse_same : same_encoding QueryParamsResponse_api CsrCodec.QueryParamsResponse_wf CsrCodec.QueryParamsResponse_enc QueryParamsResponse_wf QueryParamsResponse_enc.
Proof. same_message QueryParamsResponse_api (@CsrCodec.QueryParamsResponse_wf) (@CsrCodec.QueryParamsResponse_enc) QueryParamsResponse_wf QueryParamsResponse_enc QueryParamsResponse_fields_enc. Qed.
#[local] Hint Resolve csr_QueryParamsResponse_same : api_same.
Definition QueryCSRsRequest_api (m : CsrCodec.QueryCSRsRequest) : QueryCSRsRequest := mkQueryCSRsRequest (page_request_api <$> (CsrCodec.QueryCSRsRequest_Pagination m)) [].
Lemma csr_QueryCSRsRequest_same : same_encoding QueryCSRsRequest_api CsrCodec.QueryCSRsRequest_wf CsrCodec.QueryCSRsRequest_enc QueryCSRsRequest_wf QueryCSRsRequest_enc.
Proof. same_message QueryCSRsRequest_api (@CsrCodec.QueryCSRsRequest_wf) (@CsrCodec.QueryCSRsRequest_enc) QueryCSRsRequest_wf QueryCSRsRequest_enc QueryCSRsRequest_fields_enc. Qed.
#[local] Hint Resolve csr_QueryCSRsRequest_same : api_same.
Definition QueryCSRsResponse_api (m : CsrCodec.QueryCSRsResponse) : QueryCSRsResponse := mkQueryCSRsResponse ((fun c => Some (CSR_api c)) <$> (CsrCodec.QueryCSRsResponse_Csrs m)) (page_response_api <$> (CsrCodec.QueryCSRsResponse_Pagination m)) [].
Lemma csr_QueryCSRsResponse_same : same_encoding QueryCSRsResponse_api CsrCodec.QueryCSRsResponse_wf CsrCodec.QueryCSRsResponse_enc QueryCSRsResponse_wf QueryCSRsResponse_enc.
Proof. same_message QueryCSRsResponse_api (@CsrCodec.QueryCSRsResponse_wf) (@CsrCodec.QueryCSRsResponse_enc) QueryCSRsResponse_wf QueryCSRsResponse_enc QueryCSRsResponse_fields_enc. Qed.
#[local] Hint Resolve csr_QueryCSRsResponse_same : api_same.
Definition QueryCSRByNFTRequest_api (m : CsrCodec.QueryCSRByNFTRequest) : QueryCSRByNFTRequest := mkQueryCSRByNFTRequest (CsrCodec.QueryCSRByNFTRequest_NftId m) [].
Lemma csr_QueryCSRByNFTRequest_same : same_encoding QueryCSRByNFTRequest_api CsrCodec.QueryCSRByNFTRequest_wf CsrCodec.QueryCSRByNFTRequest_enc QueryCSRByNFTRequest_wf QueryCSRByNFTRequest_enc.
Proof. same_message QueryCSRByNFTRequest_api (@CsrCodec.QueryCSRByNFTRequest_wf) (@CsrCodec.QueryCSRByNFTRequest_enc) QueryCSRByNFTRequest_wf QueryCSRByNFTRequest_enc QueryCSRByNFTRequest_fields_enc. Qed.
#[local] Hint Resolve csr_QueryCSRByNFTRequest_same : api_same.
Definition QueryCSRByNFTResponse_api (m : CsrCodec.QueryCSRByNFTResponse) : QueryCSRByNFTResponse := mkQueryCSRByNFTResponse (Some (CSR_api (CsrCodec.QueryCSRByNFTResponse_Csr m))) [].
Lemma csr_QueryCSRByNFTResponse_same : same_encoding QueryCSRByNFTResponse_api CsrCodec.QueryCSRByNFTResponse_wf CsrCodec.QueryCSRByNFTResponse_enc QueryCSRByNFTResponse_wf QueryCSRByNFTResponse_enc.
Proof. same_message QueryCSRByNFTResponse_api (@CsrCodec.QueryCSRByNFTResponse_wf) (@CsrCodec.QueryCSRByNFTResponse_enc) QueryCSRByNFTResponse_wf QueryCSRByNFTResponse_enc QueryCSRByNFTResponse_fields_enc. Qed.
#[local] Hint Resolve csr_QueryCSRByNFTResponse_same : api_same.
Definition QueryCSRByContractRequest_api (m : CsrCodec.QueryCSRByContractRequest) : QueryCSRByContractRequest := mkQueryCSRByContractRequest (CsrCodec.QueryCSRByContractRequest_Address m) [].
Lemma csr_QueryCSRByContractRequest_same : same_encoding QueryCSRByContractRequest_api CsrCodec.QueryCSRByContractRequest_wf CsrCodec.QueryCSRByContractRequest_enc QueryCSRByContractRequest_wf QueryCSRByContractRequest_enc.
Proof. same_message QueryCSRByContractRequest_api (@CsrCodec.QueryCSRByContractRequest_wf) (@CsrCodec.QueryCSRByContractRequest_enc) QueryCSRByContractRequest_wf QueryCSRByContractRequest_enc QueryCSRByContractRequest_fields_enc. Qed.
#[local] Hint Resolve csr_QueryCSRByContractRequest_same : api_same.
Definition QueryCSRByContractResponse_api (m : CsrCodec.QueryCSRByContractResponse) : QueryCSRByContractResponse := mkQueryCSRByContractResponse (Some (CSR_api (CsrCodec.QueryCSRByContractResponse_Csr m))) [].
Lemma csr_QueryCSRByContractResponse_same : same_encoding QueryCSRByContractResponse_api CsrCodec.QueryCSRByContractResponse_wf CsrCodec.QueryCSRByContractResponse_enc QueryCSRByContractResponse_wf QueryCSRByContractResponse_enc.
Proof. same_message QueryCSRByContractResponse_api (@CsrCodec.QueryCSRByContractResponse_wf) (@CsrCodec.QueryCSRByContractResponse_enc) QueryCSRByContractResponse_wf QueryCSRByContractResponse_enc QueryCSRByContractResponse_fields_enc. Qed.
#[local] Hint Resolve csr_QueryCSRByContractResponse_same : api_same.
Definition QueryTurnstileRequest_api (m : CsrCodec.QueryTurnstileRequest) : QueryTurnstileRequest := mkQueryTurnstileRequest [].
Lemma csr_QueryTurnstileRequest_same : same_encoding QueryTurnstileRequest_api CsrCodec.QueryTurnstileRequest_wf CsrCodec.QueryTurnstileRequest_enc QueryTurnstileRequest_wf QueryTurnstileRequest_enc.
Proof. same_message QueryTurnstileRequest_api (@CsrCodec.QueryTurnstileRequest_wf) (@CsrCodec.QueryTurnstileRequest_enc) QueryTurnstileRequest_wf QueryTurnstileRequest_enc QueryTurnstileRequest_fields_enc. Qed.
#[local] Hint Resolve csr_QueryTurnstileRequest_same : api_same.
Definition QueryTurnstileResponse_api (m : CsrCodec.QueryTurnstileResponse) : QueryTurnstileResponse := mkQueryTurnstileResponse (CsrCodec.QueryTurnstileResponse_Address m) [].
Lemma csr_QueryTurnstileResponse_same : same_encoding QueryTurnstileResponse_api CsrCodec.QueryTurnstileResponse_wf CsrCodec.QueryTurnstileResponse_enc QueryTurnstileResponse_wf QueryTurnstileResponse_enc.
Proof. same_message QueryTurnstileResponse_api (@CsrCodec.QueryTurnstileResponse_wf) (@CsrCodec.QueryTurnstileResponse_enc) QueryTurnstileResponse_wf QueryTurnstileResponse_enc QueryTurnstileResponse_fields_enc. Qed.
#[local] Hint Resolve csr_QueryTurnstileResponse_same : api_same.
Definition MsgUpdateParams_api (m : Csr.MsgUpdateParams) : MsgUpdateParams := mkMsgUpdateParams (Csr.Upd_Authority m) (Some (Params_api (Csr.Upd_Params m))) [].
Lemma csr_MsgUpdateParams_same : same_encoding MsgUpdateParams_api CsrCodec.MsgUpdateParams_wf CsrCodec.MsgUpdateParams_enc MsgUpdateParams_wf MsgUpdateParams_enc.
Proof. same_message MsgUpdateParams_api (@CsrCodec.MsgUpdateParams_wf) (@CsrCodec.MsgUpdateParams_enc) MsgUpdateParams_wf MsgUpdateParams_enc MsgUpdateParams_fields_enc. Qed.
#[local] Hint Resolve csr_MsgUpdateParams_same : api_same.
Definition MsgUpdateParamsResponse_api (m : CsrCodec.MsgUpdateParamsResponse) : MsgUpdateParamsResponse := mkMsgUpdateParamsResponse [].
Lemma csr_MsgUpdateParamsResponse_same : same_encoding MsgUpdateParamsResponse_api CsrCodec.MsgUpdateParamsResponse_wf CsrCodec.MsgUpdateParamsResponse_enc MsgUpdateParamsResponse_wf MsgUpdateParamsResponse_enc.
Proof. same_message MsgUpdateParamsResponse_api (@CsrCodec.MsgUpdateParamsResponse_wf) (@CsrCodec.MsgUpdateParamsResponse_enc) MsgUpdateParamsResponse_wf MsgUpdateParamsResponse_enc MsgUpdateParamsResponse_fields_enc. Qed.
#[local] Hint Resolve csr_MsgUpdateParamsResponse_same : api_same.

Definition api_agrees : Prop :=
  agrees CsrCodec.CSR_codec CSR_methods CSR_api CsrCodec.CSR_wf CsrCodec.CSR_enc ∧
  agrees CsrCodec.Params_codec Params_methods Params_api CsrCodec.Params_wf CsrCodec.Params_enc ∧
  agrees CsrCodec.GenesisState_codec GenesisState_methods GenesisState_api CsrCodec.GenesisState_wf CsrCodec.GenesisState_enc ∧
  agrees CsrCodec.QueryParamsRequest_codec QueryParamsRequest_methods QueryParamsRequest_api CsrCodec.QueryParamsRequest_wf CsrCodec.QueryParamsRequest_enc ∧
  agrees CsrCodec.QueryParamsResponse_codec QueryParamsResponse_methods QueryParamsResponse_api CsrCodec.QueryParamsResponse_wf CsrCodec.QueryParamsResponse_enc ∧
  agrees CsrCodec.QueryCSRsRequest_codec QueryCSRsRequest_methods QueryCSRsRequest_api CsrCodec.QueryCSRsRequest_wf CsrCodec.QueryCSRsRequest_enc ∧
  agrees CsrCodec.QueryCSRsResponse_codec QueryCSRsResponse_methods QueryCSRsResponse_api CsrCodec.QueryCSRsResponse_wf CsrCodec.QueryCSRsResponse_enc ∧
  agrees CsrCodec.QueryCSRByNFTRequest_codec QueryCSRByNFTRequest_methods QueryCSRByNFTRequest_api CsrCodec.QueryCSRByNFTRequest_wf CsrCodec.QueryCSRByNFTRequest_enc ∧
  agrees CsrCodec.QueryCSRByNFTResponse_codec QueryCSRByNFTResponse_methods QueryCSRByNFTResponse_api CsrCodec.QueryCSRByNFTResponse_wf CsrCodec.QueryCSRByNFTResponse_enc ∧
  agrees CsrCodec.QueryCSRByContractRequest_codec QueryCSRByContractRequest_methods QueryCSRByContractRequest_api CsrCodec.QueryCSRByContractRequest_wf CsrCodec.QueryCSRByContractRequest_enc ∧
  agrees CsrCodec.QueryCSRByContractResponse_codec QueryCSRByContractResponse_methods QueryCSRByContractResponse_api CsrCodec.QueryCSRByContractResponse_wf CsrCodec.QueryCSRByContractResponse_enc ∧
  agrees CsrCodec.QueryTurnstileRequest_codec QueryTurnstileRequest_methods QueryTurnstileRequest_api CsrCodec.QueryTurnstileRequest_wf CsrCodec.QueryTurnstileRequest_enc ∧
  agrees CsrCodec.QueryTurnstileResponse_codec QueryTurnstileResponse_methods QueryTurnstileResponse_api CsrCodec.QueryTurnstileResponse_wf CsrCodec.QueryTurnstileResponse_enc ∧
  agrees CsrCodec.MsgUpdateParams_codec MsgUpdateParams_methods MsgUpdateParams_api CsrCodec.MsgUpdateParams_wf CsrCodec.MsgUpdateParams_enc ∧
  agrees CsrCodec.MsgUpdateParamsResponse_codec MsgUpdateParamsResponse_methods MsgUpdateParamsResponse_api CsrCodec.MsgUpdateParamsResponse_wf CsrCodec.MsgUpdateParamsResponse_enc.
Lemma csr_api_agrees : api_agrees.
Proof.
  unfold api_agrees. split_and!;
  [exact (laws_agree _ _ _ _ _ _ _ CsrCodec.csr_CSR_laws csr_CSR_api_laws csr_CSR_same)
  |exact (laws_agree _ _ _ _ _ _ _ CsrCodec.csr_Params_laws csr_Params_api_laws csr_Params_same)
  |exact (laws_agree _ _ _ _ _ _ _ CsrCodec.csr_GenesisState_laws csr_GenesisState_api_laws csr_GenesisState_same)
  |exact (laws_agree _ _ _ _ _ _ _ CsrCodec.csr_QueryParamsRequest_laws csr_QueryParamsRequest_api_laws csr_QueryParamsRequest_same)
  |exact (laws_agree _ _ _ _ _ _ _ CsrCodec.csr_QueryParamsResponse_laws csr_QueryParamsResponse_api_laws csr_QueryParamsResponse_same)
  |exact (laws_agree _ _ _ _ _ _ _ CsrCodec.csr_QueryCSRsRequest_laws csr_QueryCSRsRequest_api_laws csr_QueryCSRsRequest_same)
  |exact (laws_agree _ _ _ _ _ _ _ CsrCodec.csr_QueryCSRsResponse_laws csr_QueryCSRsResponse_api_laws csr_QueryCSRsResponse_same)
  |exact (laws_agree _ _ _ _ _ _ _ CsrCodec.csr_QueryCSRByNFTRequest_laws csr_QueryCSRByNFTRequest_api_laws csr_QueryCSRByNFTRequest_same)
  |exact (laws_agree _ _ _ _ _ _ _ CsrCodec.csr_QueryCSRByNFTResponse_laws csr_QueryCSRByNFTResponse_api_laws csr_QueryCSRByNFTResponse_same)
  |exact (laws_agree _ _ _ _ _ _ _ CsrCodec.csr_QueryCSRByContractRequest_laws csr_QueryCSRByContractRequest_api_laws csr_QueryCSRByContractRequest_same)
  |exact (laws_agree _ _ _ _ _ _ _ CsrCodec.csr_QueryCSRByContractResponse_laws csr_QueryCSRByContractResponse_api_laws csr_QueryCSRByContractResponse_same)
  |exact (laws_agree _ _ _ _ _ _ _ CsrCodec.csr_QueryTurnstileRequest_laws csr_QueryTurnstileRequest_api_laws csr_QueryTurnstileRequest_same)
  |exact (laws_agree _ _ _ _ _ _ _ CsrCodec.csr_QueryTurnstileResponse_laws csr_QueryTurnstileResponse_api_laws csr_QueryTurnstileResponse_same)
  |exact (laws_agree _ _ _ _ _ _ _ CsrCodec.csr_MsgUpdateParams_laws csr_MsgUpdateParams_api_laws csr_MsgUpdateParams_same)
  |exact (laws_agree _ _ _ _ _ _ _ CsrCodec.csr_MsgUpdateParamsResponse_laws csr_MsgUpdateParamsResponse_api_laws csr_MsgUpdateParamsResponse_same)].
Qed.
End api.
