(* ===== verification/ApiEpochs.v ===== *)
(** * Package api: the messages of canto.epochs.v1

    The code of [genesis.pulsar.go], [query.pulsar.go] under
    src/api/canto/epochs/v1: encoding ([Pulsar.v]), reflection ([Reflect.v]), and that
    the messages of the module and of the package have the same encodings. *)

From Stdlib Require Import Ascii.
From stdpp Require Import base strings list sets.
From S2P Require Import Prelude Golang Sdk Wire WireFacts WireCodec WireSdk Pulsar Reflect ApiSame.
From S2P Require Epochs EpochsCodec.

#[local] Open Scope Z_scope.
#[local] Open Scope go_scope.

Section api.
Context {RT : ProtoRuntime} {AS : ApiSdk}.

(** ** [EpochInfo] *)

Record EpochInfo := mkEpochInfo { EpochInfo_Identifier : string; EpochInfo_StartTime : option api_Timestamp; EpochInfo_Duration : option api_Duration; EpochInfo_CurrentEpoch : Z; EpochInfo_CurrentEpochStartTime : option api_Timestamp; EpochInfo_EpochCountingStarted : bool; EpochInfo_CurrentEpochStartHeight : Z; EpochInfo_unknownFields : bytes }.
Definition EpochInfo_size (x : EpochInfo) : Z :=
  api_size_string (EpochInfo_Identifier x) + api_size_pointer api_Timestamp_methods (EpochInfo_StartTime x) + api_size_pointer api_Duration_methods (EpochInfo_Duration x) + api_size_varint (EpochInfo_CurrentEpoch x) + api_size_pointer api_Timestamp_methods (EpochInfo_CurrentEpochStartTime x) + size_bool (EpochInfo_EpochCountingStarted x) + api_size_varint (EpochInfo_CurrentEpochStartHeight x) + blen (EpochInfo_unknownFields x).
Definition EpochInfo_marshal (x : EpochInfo) : writer :=
  put_raw (EpochInfo_unknownFields x) ;>
  api_put_varint 0x38 (EpochInfo_CurrentEpochStartHeight x) ;>
  put_bool 0x30 (EpochInfo_EpochCountingStarted x) ;>
  api_put_pointer api_Timestamp_methods 0x2a (EpochInfo_CurrentEpochStartTime x) ;>
  api_put_varint 0x20 (EpochInfo_CurrentEpoch x) ;>
  api_put_pointer api_Duration_methods 0x1a (EpochInfo_Duration x) ;>
  api_put_pointer api_Timestamp_methods 0x12 (EpochInfo_StartTime x) ;>
  api_put_string 0xa (EpochInfo_Identifier x).
Definition EpochInfo_cases (discard : bool) (x : EpochInfo) (fieldNum wireType : Z) : option (reader EpochInfo) :=
  let '(mkEpochInfo identifier_ startTime_ duration_ currentEpoch_ currentEpochStartTime_ epochCountingStarted_ currentEpochStartHeight_ unknown) := x in
  match fieldNum with
  | 1 => Some (get_string "Identifier" wireType (fun v => mkEpochInfo v startTime_ duration_ currentEpoch_ currentEpochStartTime_ epochCountingStarted_ currentEpochStartHeight_ unknown))
  | 2 => Some (api_get_pointer api_Timestamp_methods discard "StartTime" wireType startTime_ (fun v => mkEpochInfo identifier_ v duration_ currentEpoch_ currentEpochStartTime_ epochCountingStarted_ currentEpochStartHeight_ unknown))
  | 3 => Some (api_get_pointer api_Duration_methods discard "Duration" wireType duration_ (fun v => mkEpochInfo identifier_ startTime_ v currentEpoch_ currentEpochStartTime_ epochCountingStarted_ currentEpochStartHeight_ unknown))
  | 4 => Some (get_varint sint64 "CurrentEpoch" wireType (fun v => mkEpochInfo identifier_ startTime_ duration_ v currentEpochStartTime_ epochCountingStarted_ currentEpochStartHeight_ unknown))
  | 5 => Some (api_get_pointer api_Timestamp_methods discard "CurrentEpochStartTime" wireType currentEpochStartTime_ (fun v => mkEpochInfo identifier_ startTime_ duration_ currentEpoch_ v epochCountingStarted_ currentEpochStartHeight_ unknown))
  | 6 => Some (get_bool "EpochCountingStarted" wireType (fun v => mkEpochInfo identifier_ startTime_ duration_ currentEpoch_ currentEpochStartTime_ v currentEpochStartHeight_ unknown))
  | 7 => Some (get_varint sint64 "CurrentEpochStartHeight" wireType (fun v => mkEpochInfo identifier_ startTime_ duration_ currentEpoch_ currentEpochStartTime_ epochCountingStarted_ v unknown))
  | _ => None
  end.
Definition EpochInfo_append (u : bytes) (x : EpochInfo) : EpochInfo := let '(mkEpochInfo identifier_ startTime_ duration_ currentEpoch_ currentEpochStartTime_ epochCountingStarted_ currentEpochStartHeight_ unknown) := x in mkEpochInfo identifier_ startTime_ duration_ currentEpoch_ currentEpochStartTime_ epochCountingStarted_ currentEpochStartHeight_ (unknown ++ u).
Definition EpochInfo_unmarshal : bool -> bytes -> option EpochInfo -> outcome (option EpochInfo) := api_unmarshal "EpochInfo" EpochInfo_cases EpochInfo_append.
Definition EpochInfo_methods : Methods EpochInfo :=
  mkMethods (mkEpochInfo "" None None 0 None false 0 []) (api_size EpochInfo_size) (api_marshal EpochInfo_size EpochInfo_marshal) EpochInfo_unmarshal.

(** ** [GenesisState] *)

Record GenesisState := mkGenesisState { GenesisState_Epochs : list (option EpochInfo); GenesisState_unknownFields : bytes }.
Definition GenesisState_size (x : GenesisState) : Z :=
  api_size_messages EpochInfo_methods (GenesisState_Epochs x) + blen (GenesisState_unknownFields x).
Definition GenesisState_marshal (x : GenesisState) : writer :=
  put_raw (GenesisState_unknownFields x) ;>
  api_put_messages EpochInfo_methods 0xa (GenesisState_Epochs x).
Definition GenesisState_cases (discard : bool) (x : GenesisState) (fieldNum wireType : Z) : option (reader GenesisState) :=
  let '(mkGenesisState epochs_ unknown) := x in
  match fieldNum with
  | 1 => Some (api_get_element EpochInfo_methods discard "Epochs" wireType epochs_ (fun v => mkGenesisState v unknown))
  | _ => None
  end.
Definition GenesisState_append (u : bytes) (x : GenesisState) : GenesisState := let '(mkGenesisState epochs_ unknown) := x in mkGenesisState epochs_ (unknown ++ u).
Definition GenesisState_unmarshal : bool -> bytes -> option GenesisState -> outcome (option GenesisState) := api_unmarshal "GenesisState" GenesisState_cases GenesisState_append.
Definition GenesisState_methods : Methods GenesisState :=
  mkMethods (mkGenesisState [] []) (api_size GenesisState_size) (api_marshal GenesisState_size GenesisState_marshal) GenesisState_unmarshal.

(** ** [QueryEpochsInfoRequest] *)

Record QueryEpochsInfoRequest := mkQueryEpochsInfoRequest { QueryEpochsInfoRequest_Pagination : option api_PageRequest; QueryEpochsInfoRequest_unknownFields : bytes }.
Definition QueryEpochsInfoRequest_size (x : QueryEpochsInfoRequest) : Z :=
  api_size_pointer api_PageRequest_methods (QueryEpochsInfoRequest_Pagination x) + blen (QueryEpochsInfoRequest_unknownFields x).
Definition QueryEpochsInfoRequest_marshal (x : QueryEpochsInfoRequest) : writer :=
  put_raw (QueryEpochsInfoRequest_unknownFields x) ;>
  api_put_pointer api_PageRequest_methods 0xa (QueryEpochsInfoRequest_Pagination x).
Definition QueryEpochsInfoRequest_cases (discard : bool) (x : QueryEpochsInfoRequest) (fieldNum wireType : Z) : option (reader QueryEpochsInfoRequest) :=
  let '(mkQueryEpochsInfoRequest pagination_ unknown) := x in
  match fieldNum with
  | 1 => Some (api_get_pointer api_PageRequest_methods discard "Pagination" wireType pagination_ (fun v => mkQueryEpochsInfoRequest v unknown))
  | _ => None
  end.
Definition QueryEpochsInfoRequest_append (u : bytes) (x : QueryEpochsInfoRequest) : QueryEpochsInfoRequest := let '(mkQueryEpochsInfoRequest pagination_ unknown) := x in mkQueryEpochsInfoRequest pagination_ (unknown ++ u).
Definition QueryEpochsInfoRequest_unmarshal : bool -> bytes -> option QueryEpochsInfoRequest -> outcome (option QueryEpochsInfoRequest) := api_unmarshal "QueryEpochsInfoRequest" QueryEpochsInfoRequest_cases QueryEpochsInfoRequest_append.
Definition QueryEpochsInfoRequest_methods : Methods QueryEpochsInfoRequest :=
  mkMethods (mkQueryEpochsInfoRequest None []) (api_size QueryEpochsInfoRequest_size) (api_marshal QueryEpochsInfoRequest_size QueryEpochsInfoRequest_marshal) QueryEpochsInfoRequest_unmarshal.

(** ** [QueryEpochsInfoResponse] *)

Record QueryEpochsInfoResponse := mkQueryEpochsInfoResponse { QueryEpochsInfoResponse_Epochs : list (option EpochInfo); QueryEpochsInfoResponse_Pagination : option api_PageResponse; QueryEpochsInfoResponse_unknownFields : bytes }.
Definition QueryEpochsInfoResponse_size (x : QueryEpochsInfoResponse) : Z :=
  api_size_messages EpochInfo_methods (QueryEpochsInfoResponse_Epochs x) + api_size_pointer api_PageResponse_methods (QueryEpochsInfoResponse_Pagination x) + blen (QueryEpochsInfoResponse_unknownFields x).
Definition QueryEpochsInfoResponse_marshal (x : QueryEpochsInfoResponse) : writer :=
  put_raw (QueryEpochsInfoResponse_unknownFields x) ;>
  api_put_pointer api_PageResponse_methods 0x12 (QueryEpochsInfoResponse_Pagination x) ;>
  api_put_messages EpochInfo_methods 0xa (QueryEpochsInfoResponse_Epochs x).
Definition QueryEpochsInfoResponse_cases (discard : bool) (x : QueryEpochsInfoResponse) (fieldNum wireType : Z) : option (reader QueryEpochsInfoResponse) :=
  let '(mkQueryEpochsInfoResponse epochs_ pagination_ unknown) := x in
  match fieldNum with
  | 1 => Some (api_get_element EpochInfo_methods discard "Epochs" wireType epochs_ (fun v => mkQueryEpochsInfoResponse v pagination_ unknown))
  | 2 => Some (api_get_pointer api_PageResponse_methods discard "Pagination" wireType pagination_ (fun v => mkQueryEpochsInfoResponse epochs_ v unknown))
  | _ => None
  end.
Definition QueryEpochsInfoResponse_append (u : bytes) (x : QueryEpochsInfoResponse) : QueryEpochsInfoResponse := let '(mkQueryEpochsInfoResponse epochs_ pagination_ unknown) := x in mkQueryEpochsInfoResponse epochs_ pagination_ (unknown ++ u).
Definition QueryEpochsInfoResponse_unmarshal : bool -> bytes -> option QueryEpochsInfoResponse -> outcome (option QueryEpochsInfoResponse) := api_unmarshal "QueryEpochsInfoResponse" QueryEpochsInfoResponse_cases QueryEpochsInfoResponse_append.
Definition QueryEpochsInfoResponse_methods : Methods QueryEpochsInfoResponse :=
  mkMethods (mkQueryEpochsInfoResponse [] None []) (api_size QueryEpochsInfoResponse_size) (api_marshal QueryEpochsInfoResponse_size QueryEpochsInfoResponse_marshal) QueryEpochsInfoResponse_unmarshal.

(** ** [QueryCurrentEpochRequest] *)

Record QueryCurrentEpochRequest := mkQueryCurrentEpochRequest { QueryCurrentEpochRequest_Identifier : string; QueryCurrentEpochRequest_unknownFields : bytes }.
Definition QueryCurrentEpochRequest_size (x : QueryCurrentEpochRequest) : Z :=
  api_size_string (QueryCurrentEpochRequest_Identifier x) + blen (QueryCurrentEpochRequest_unknownFields x).
Definition QueryCurrentEpochRequest_marshal (x : QueryCurrentEpochRequest) : writer :=
  put_raw (QueryCurrentEpochRequest_unknownFields x) ;>
  api_put_string 0xa (QueryCurrentEpochRequest_Identifier x).
Definition QueryCurrentEpochRequest_cases (discard : bool) (x : QueryCurrentEpochRequest) (fieldNum wireType : Z) : option (reader QueryCurrentEpochRequest) :=
  let '(mkQueryCurrentEpochRequest identifier_ unknown) := x in
  match fieldNum with
  | 1 => Some (get_string "Identifier" wireType (fun v => mkQueryCurrentEpochRequest v unknown))
  | _ => None
  end.
Definition QueryCurrentEpochRequest_append (u : bytes) (x : QueryCurrentEpochRequest) : QueryCurrentEpochRequest := let '(mkQueryCurrentEpochRequest identifier_ unknown) := x in mkQueryCurrentEpochRequest identifier_ (unknown ++ u).
Definition QueryCurrentEpochRequest_unmarshal : bool -> bytes -> option QueryCurrentEpochRequest -> outcome (option QueryCurrentEpochRequest) := api_unmarshal "QueryCurrentEpochRequest" QueryCurrentEpochRequest_cases QueryCurrentEpochRequest_append.
Definition QueryCurrentEpochRequest_methods : Methods QueryCurrentEpochRequest :=
  mkMethods (mkQueryCurrentEpochRequest "" []) (api_size QueryCurrentEpochRequest_size) (api_marshal QueryCurrentEpochRequest_size QueryCurrentEpochRequest_marshal) QueryCurrentEpochRequest_unmarshal.

(** ** [QueryCurrentEpochResponse] *)

Record QueryCurrentEpochResponse := mkQueryCurrentEpochResponse { QueryCurrentEpochResponse_CurrentEpoch : Z; QueryCurrentEpochResponse_unknownFields : bytes }.
Definition QueryCurrentEpochResponse_size (x : QueryCurrentEpochResponse) : Z :=
  api_size_varint (QueryCurrentEpochResponse_CurrentEpoch x) + blen (QueryCurrentEpochResponse_unknownFields x).
Definition QueryCurrentEpochResponse_marshal (x : QueryCurrentEpochResponse) : writer :=
  put_raw (QueryCurrentEpochResponse_unknownFields x) ;>
  api_put_varint 0x8 (QueryCurrentEpochResponse_CurrentEpoch x).
Definition QueryCurrentEpochResponse_cases (discard : bool) (x : QueryCurrentEpochResponse) (fieldNum wireType : Z) : option (reader QueryCurrentEpochResponse) :=
  let '(mkQueryCurrentEpochResponse currentEpoch_ unknown) := x in
  match fieldNum with
  | 1 => Some (get_varint sint64 "CurrentEpoch" wireType (fun v => mkQueryCurrentEpochResponse v unknown))
  | _ => None
  end.
Definition QueryCurrentEpochResponse_append (u : bytes) (x : QueryCurrentEpochResponse) : QueryCurrentEpochResponse := let '(mkQueryCurrentEpochResponse currentEpoch_ unknown) := x in mkQueryCurrentEpochResponse currentEpoch_ (unknown ++ u).
Definition QueryCurrentEpochResponse_unmarshal : bool -> bytes -> option QueryCurrentEpochResponse -> outcome (option QueryCurrentEpochResponse) := api_unmarshal "QueryCurrentEpochResponse" QueryCurrentEpochResponse_cases QueryCurrentEpochResponse_append.
Definition QueryCurrentEpochResponse_methods : Methods QueryCurrentEpochResponse :=
  mkMethods (mkQueryCurrentEpochResponse 0 []) (api_size QueryCurrentEpochResponse_size) (api_marshal QueryCurrentEpochResponse_size QueryCurrentEpochResponse_marshal) QueryCurrentEpochResponse_unmarshal.

(** ** Well-formed messages and their encodings *)

Context {RL : ProtoRuntimeLaws} {AL : ApiSdkLaws AS}.

Definition EpochInfo_wf (x : EpochInfo) : Prop := (∀ a, EpochInfo_StartTime x = Some a -> api_Timestamp_wf a) ∧ (∀ a, EpochInfo_Duration x = Some a -> api_Duration_wf a) ∧ is_int64 (EpochInfo_CurrentEpoch x) ∧ (∀ a, EpochInfo_CurrentEpochStartTime x = Some a -> api_Timestamp_wf a) ∧ is_int64 (EpochInfo_CurrentEpochStartHeight x) ∧ unknown_bytes [1; 2; 3; 4; 5; 6; 7] (EpochInfo_unknownFields x).
Definition EpochInfo_fields_enc (x : EpochInfo) : bytes :=
  enc_string 0xa (EpochInfo_Identifier x) ++
  enc_pointer api_Timestamp_enc 0x12 (EpochInfo_StartTime x) ++
  enc_pointer api_Duration_enc 0x1a (EpochInfo_Duration x) ++
  enc_varint 0x20 (EpochInfo_CurrentEpoch x) ++
  enc_pointer api_Timestamp_enc 0x2a (EpochInfo_CurrentEpochStartTime x) ++
  enc_bool 0x30 (EpochInfo_EpochCountingStarted x) ++
  enc_varint 0x38 (EpochInfo_CurrentEpochStartHeight x).
Definition EpochInfo_enc (x : EpochInfo) : bytes := EpochInfo_fields_enc x ++ EpochInfo_unknownFields x.
Lemma epochs_EpochInfo_api_laws : MethodLaws EpochInfo_methods EpochInfo_wf EpochInfo_enc.
Proof. api_message_laws EpochInfo_wf EpochInfo_enc EpochInfo_fields_enc EpochInfo_size EpochInfo_marshal EpochInfo_cases EpochInfo_append. Qed.
#[local] Hint Resolve epochs_EpochInfo_api_laws : api_laws.

Definition GenesisState_wf (x : GenesisState) : Prop := Forall (element_wf EpochInfo_wf) (GenesisState_Epochs x) ∧ unknown_bytes [1] (GenesisState_unknownFields x).
Definition GenesisState_fields_enc (x : GenesisState) : bytes :=
  enc_elements EpochInfo_enc 0xa (GenesisState_Epochs x).
Definition GenesisState_enc (x : GenesisState) : bytes := GenesisState_fields_enc x ++ GenesisState_unknownFields x.
Lemma epochs_GenesisState_api_laws : MethodLaws GenesisState_methods GenesisState_wf GenesisState_enc.
Proof. api_message_laws GenesisState_wf GenesisState_enc GenesisState_fields_enc GenesisState_size GenesisState_marshal GenesisState_cases GenesisState_append. Qed.
#[local] Hint Resolve epochs_GenesisState_api_laws : api_laws.

Definition QueryEpochsInfoRequest_wf (x : QueryEpochsInfoRequest) : Prop := (∀ a, QueryEpochsInfoRequest_Pagination x = Some a -> api_PageRequest_wf a) ∧ unknown_bytes [1] (QueryEpochsInfoRequest_unknownFields x).
Definition QueryEpochsInfoRequest_fields_enc (x : QueryEpochsInfoRequest) : bytes :=
  enc_pointer api_PageRequest_enc 0xa (QueryEpochsInfoRequest_Pagination x).
Definition QueryEpochsInfoRequest_enc (x : QueryEpochsInfoRequest) : bytes := QueryEpochsInfoRequest_fields_enc x ++ QueryEpochsInfoRequest_unknownFields x.
Lemma epochs_QueryEpochsInfoRequest_api_laws : MethodLaws QueryEpochsInfoRequest_methods QueryEpochsInfoRequest_wf QueryEpochsInfoRequest_enc.
Proof. api_message_laws QueryEpochsInfoRequest_wf QueryEpochsInfoRequest_enc QueryEpochsInfoRequest_fields_enc QueryEpochsInfoRequest_size QueryEpochsInfoRequest_marshal QueryEpochsInfoRequest_cases QueryEpochsInfoRequest_append. Qed.
#[local] Hint Resolve epochs_QueryEpochsInfoRequest_api_laws : api_laws.

Definition QueryEpochsInfoResponse_wf (x : QueryEpochsInfoResponse) : Prop := Forall (element_wf EpochInfo_wf) (QueryEpochsInfoResponse_Epochs x) ∧ (∀ a, QueryEpochsInfoResponse_Pagination x = Some a -> api_PageResponse_wf a) ∧ unknown_bytes [1; 2] (QueryEpochsInfoResponse_unknownFields x).
Definition QueryEpochsInfoResponse_fields_enc (x : QueryEpochsInfoResponse) : bytes :=
  enc_elements EpochInfo_enc 0xa (QueryEpochsInfoResponse_Epochs x) ++
  enc_pointer api_PageResponse_enc 0x12 (QueryEpochsInfoResponse_Pagination x).
Definition QueryEpochsInfoResponse_enc (x : QueryEpochsInfoResponse) : bytes := QueryEpochsInfoResponse_fields_enc x ++ QueryEpochsInfoResponse_unknownFields x.
Lemma epochs_QueryEpochsInfoResponse_api_laws : MethodLaws QueryEpochsInfoResponse_methods QueryEpochsInfoResponse_wf QueryEpochsInfoResponse_enc.
Proof. api_message_laws QueryEpochsInfoResponse_wf QueryEpochsInfoResponse_enc QueryEpochsInfoResponse_fields_enc QueryEpochsInfoResponse_size QueryEpochsInfoResponse_marshal QueryEpochsInfoResponse_cases QueryEpochsInfoResponse_append. Qed.
#[local] Hint Resolve epochs_QueryEpochsInfoResponse_api_laws : api_laws.

Definition QueryCurrentEpochRequest_wf (x : QueryCurrentEpochRequest) : Prop := unknown_bytes [1] (QueryCurrentEpochRequest_unknownFields x).
Definition QueryCurrentEpochRequest_fields_enc (x : QueryCurrentEpochRequest) : bytes :=
  enc_string 0xa (QueryCurrentEpochRequest_Identifier x).
Definition QueryCurrentEpochRequest_enc (x : QueryCurrentEpochRequest) : bytes := QueryCurrentEpochRequest_fields_enc x ++ QueryCurrentEpochRequest_unknownFields x.
Lemma epochs_QueryCurrentEpochRequest_api_laws : MethodLaws QueryCurrentEpochRequest_methods QueryCurrentEpochRequest_wf QueryCurrentEpochRequest_enc.
Proof. api_message_laws QueryCurrentEpochRequest_wf QueryCurrentEpochRequest_enc QueryCurrentEpochRequest_fields_enc QueryCurrentEpochRequest_size QueryCurrentEpochRequest_marshal QueryCurrentEpochRequest_cases QueryCurrentEpochRequest_append. Qed.
#[local] Hint Resolve epochs_QueryCurrentEpochRequest_api_laws : api_laws.

Definition QueryCurrentEpochResponse_wf (x : QueryCurrentEpochResponse) : Prop := is_int64 (QueryCurrentEpochResponse_CurrentEpoch x) ∧ unknown_bytes [1] (QueryCurrentEpochResponse_unknownFields x).
Definition QueryCurrentEpochResponse_fields_enc (x : QueryCurrentEpochResponse) : bytes :=
  enc_varint 0x8 (QueryCurrentEpochResponse_CurrentEpoch x).
Definition QueryCurrentEpochResponse_enc (x : QueryCurrentEpochResponse) : bytes := QueryCurrentEpochResponse_fields_enc x ++ QueryCurrentEpochResponse_unknownFields x.
Lemma epochs_QueryCurrentEpochResponse_api_laws : MethodLaws QueryCurrentEpochResponse_methods QueryCurrentEpochResponse_wf QueryCurrentEpochResponse_enc.
Proof. api_message_laws QueryCurrentEpochResponse_wf QueryCurrentEpochResponse_enc QueryCurrentEpochResponse_fields_enc QueryCurrentEpochResponse_size QueryCurrentEpochResponse_marshal QueryCurrentEpochResponse_cases QueryCurrentEpochResponse_append. Qed.
#[local] Hint Resolve epochs_QueryCurrentEpochResponse_api_laws : api_laws.

(** Messages are read back, with the fields they do not know, and no input makes decoding panic. *)
Definition api_round_trips : Prop :=
  read_back EpochInfo_methods EpochInfo_wf EpochInfo_enc ∧
  read_back GenesisState_methods GenesisState_wf GenesisState_enc ∧
  read_back QueryEpochsInfoRequest_methods QueryEpochsInfoRequest_wf QueryEpochsInfoRequest_enc ∧
  read_back QueryEpochsInfoResponse_methods QueryEpochsInfoResponse_wf QueryEpochsInfoResponse_enc ∧
  read_back QueryCurrentEpochRequest_methods QueryCurrentEpochRequest_wf QueryCurrentEpochRequest_enc ∧
  read_back QueryCurrentEpochResponse_methods QueryCurrentEpochResponse_wf QueryCurrentEpochResponse_enc.
Lemma epochs_api_round_trips : api_round_trips.
Proof. unfold api_round_trips. split_and!; eapply laws_read_back; api_law. Qed.

(** ** Reflection *)

(** The messages that occur in messages, and the conversions to them. *)
Inductive Msg :=
| Msg_api_Timestamp (x : option api_Timestamp)
| Msg_api_Duration (x : option api_Duration)
| Msg_EpochInfo (x : option EpochInfo)
| Msg_api_PageRequest (x : option api_PageRequest)
| Msg_api_PageResponse (x : option api_PageResponse).
Definition to_api_Timestamp (m : Msg) : outcome (option api_Timestamp) := if m is Msg_api_Timestamp x then Ok x else Panic.
Definition to_api_Duration (m : Msg) : outcome (option api_Duration) := if m is Msg_api_Duration x then Ok x else Panic.
Definition to_EpochInfo (m : Msg) : outcome (option EpochInfo) := if m is Msg_EpochInfo x then Ok x else Panic.
Definition to_api_PageRequest (m : Msg) : outcome (option api_PageRequest) := if m is Msg_api_PageRequest x then Ok x else Panic.
Definition to_api_PageResponse (m : Msg) : outcome (option api_PageResponse) := if m is Msg_api_PageResponse x then Ok x else Panic.

Inductive Lst :=
| Lst_GenesisState_1 (x : option (list (option EpochInfo)))
| Lst_QueryEpochsInfoResponse_1 (x : option (list (option EpochInfo))).
Definition to_GenesisState_1 (l : Lst) : outcome (option (list (option EpochInfo))) := if l is Lst_GenesisState_1 x then Ok x else Panic.
Definition to_QueryEpochsInfoResponse_1 (l : Lst) : outcome (option (list (option EpochInfo))) := if l is Lst_QueryEpochsInfoResponse_1 x then Ok x else Panic.
Abbreviation V := (Value Msg Lst).

Definition _GenesisState_1_list : Elem (option EpochInfo) V := message_elem (new EpochInfo_methods) Msg_EpochInfo to_EpochInfo.
Definition _QueryEpochsInfoResponse_1_list : Elem (option EpochInfo) V := message_elem (new EpochInfo_methods) Msg_EpochInfo to_EpochInfo.

Definition fastReflection_EpochInfo_fields : list (Field EpochInfo V) :=
  [string_field "canto.epochs.v1.EpochInfo.identifier" EpochInfo_Identifier
     (fun v x => let '(mkEpochInfo _ startTime_ duration_ currentEpoch_ currentEpochStartTime_ epochCountingStarted_ currentEpochStartHeight_ unknown) := x in mkEpochInfo v startTime_ duration_ currentEpoch_ currentEpochStartTime_ epochCountingStarted_ currentEpochStartHeight_ unknown);
   message_field (new api_Timestamp_methods) Msg_api_Timestamp to_api_Timestamp "canto.epochs.v1.EpochInfo.start_time" EpochInfo_StartTime
     (fun v x => let '(mkEpochInfo identifier_ _ duration_ currentEpoch_ currentEpochStartTime_ epochCountingStarted_ currentEpochStartHeight_ unknown) := x in mkEpochInfo identifier_ v duration_ currentEpoch_ currentEpochStartTime_ epochCountingStarted_ currentEpochStartHeight_ unknown);
   message_field (new api_Duration_methods) Msg_api_Duration to_api_Duration "canto.epochs.v1.EpochInfo.duration" EpochInfo_Duration
     (fun v x => let '(mkEpochInfo identifier_ startTime_ _ currentEpoch_ currentEpochStartTime_ epochCountingStarted_ currentEpochStartHeight_ unknown) := x in mkEpochInfo identifier_ startTime_ v currentEpoch_ currentEpochStartTime_ epochCountingStarted_ currentEpochStartHeight_ unknown);
   int64_field "canto.epochs.v1.EpochInfo.current_epoch" EpochInfo_CurrentEpoch
     (fun v x => let '(mkEpochInfo identifier_ startTime_ duration_ _ currentEpochStartTime_ epochCountingStarted_ currentEpochStartHeight_ unknown) := x in mkEpochInfo identifier_ startTime_ duration_ v currentEpochStartTime_ epochCountingStarted_ currentEpochStartHeight_ unknown);
   message_field (new api_Timestamp_methods) Msg_api_Timestamp to_api_Timestamp "canto.epochs.v1.EpochInfo.current_epoch_start_time" EpochInfo_CurrentEpochStartTime
     (fun v x => let '(mkEpochInfo identifier_ startTime_ duration_ currentEpoch_ _ epochCountingStarted_ currentEpochStartHeight_ unknown) := x in mkEpochInfo identifier_ startTime_ duration_ currentEpoch_ v epochCountingStarted_ currentEpochStartHeight_ unknown);
   bool_field "canto.epochs.v1.EpochInfo.epoch_counting_started" EpochInfo_EpochCountingStarted
     (fun v x => let '(mkEpochInfo identifier_ startTime_ duration_ currentEpoch_ currentEpochStartTime_ _ currentEpochStartHeight_ unknown) := x in mkEpochInfo identifier_ startTime_ duration_ currentEpoch_ currentEpochStartTime_ v currentEpochStartHeight_ unknown);
   int64_field "canto.epochs.v1.EpochInfo.current_epoch_start_height" EpochInfo_CurrentEpochStartHeight
     (fun v x => let '(mkEpochInfo identifier_ startTime_ duration_ currentEpoch_ currentEpochStartTime_ epochCountingStarted_ _ unknown) := x in mkEpochInfo identifier_ startTime_ duration_ currentEpoch_ currentEpochStartTime_ epochCountingStarted_ v unknown)].
Definition fastReflection_EpochInfo_Range {S} := reflect_Range (S := S) fastReflection_EpochInfo_fields.
Definition fastReflection_EpochInfo_Has := reflect_Has fastReflection_EpochInfo_fields.
Definition fastReflection_EpochInfo_Clear := reflect_Clear fastReflection_EpochInfo_fields.
Definition fastReflection_EpochInfo_Get := reflect_Get fastReflection_EpochInfo_fields.
Definition fastReflection_EpochInfo_Set := reflect_Set fastReflection_EpochInfo_fields.
Definition fastReflection_EpochInfo_Mutable := reflect_Mutable fastReflection_EpochInfo_fields.
Definition fastReflection_EpochInfo_NewField := reflect_NewField fastReflection_EpochInfo_fields.
Definition fastReflection_EpochInfo_SetUnknown (fields : bytes) (x : EpochInfo) : EpochInfo := let '(mkEpochInfo identifier_ startTime_ duration_ currentEpoch_ currentEpochStartTime_ epochCountingStarted_ currentEpochStartHeight_ _) := x in mkEpochInfo identifier_ startTime_ duration_ currentEpoch_ currentEpochStartTime_ epochCountingStarted_ currentEpochStartHeight_ fields.

Definition fastReflection_GenesisState_fields : list (Field GenesisState V) :=
  [list_field Lst_GenesisState_1 to_GenesisState_1 "canto.epochs.v1.GenesisState.epochs" GenesisState_Epochs
     (fun v x => let '(mkGenesisState _ unknown) := x in mkGenesisState v unknown)].
Definition fastReflection_GenesisState_Range {S} := reflect_Range (S := S) fastReflection_GenesisState_fields.
Definition fastReflection_GenesisState_Has := reflect_Has fastReflection_GenesisState_fields.
Definition fastReflection_GenesisState_Clear := reflect_Clear fastReflection_GenesisState_fields.
Definition fastReflection_GenesisState_Get := reflect_Get fastReflection_GenesisState_fields.
Definition fastReflection_GenesisState_Set := reflect_Set fastReflection_GenesisState_fields.
Definition fastReflection_GenesisState_Mutable := reflect_Mutable fastReflection_GenesisState_fields.
Definition fastReflection_GenesisState_NewField := reflect_NewField fastReflection_GenesisState_fields.
Definition fastReflection_GenesisState_SetUnknown (fields : bytes) (x : GenesisState) : GenesisState := let '(mkGenesisState epochs_ _) := x in mkGenesisState epochs_ fields.

Definition fastReflection_QueryEpochsInfoRequest_fields : list (Field QueryEpochsInfoRequest V) :=
  [message_field (new api_PageRequest_methods) Msg_api_PageRequest to_api_PageRequest "canto.epochs.v1.QueryEpochsInfoRequest.pagination" QueryEpochsInfoRequest_Pagination
     (fun v x => let '(mkQueryEpochsInfoRequest _ unknown) := x in mkQueryEpochsInfoRequest v unknown)].
Definition fastReflection_QueryEpochsInfoRequest_Range {S} := reflect_Range (S := S) fastReflection_QueryEpochsInfoRequest_fields.
Definition fastReflection_QueryEpochsInfoRequest_Has := reflect_Has fastReflection_QueryEpochsInfoRequest_fields.
Definition fastReflection_QueryEpochsInfoRequest_Clear := reflect_Clear fastReflection_QueryEpochsInfoRequest_fields.
Definition fastReflection_QueryEpochsInfoRequest_Get := reflect_Get fastReflection_QueryEpochsInfoRequest_fields.
Definition fastReflection_QueryEpochsInfoRequest_Set := reflect_Set fastReflection_QueryEpochsInfoRequest_fields.
Definition fastReflection_QueryEpochsInfoRequest_Mutable := reflect_Mutable fastReflection_QueryEpochsInfoRequest_fields.
Definition fastReflection_QueryEpochsInfoRequest_NewField := reflect_NewField fastReflection_QueryEpochsInfoRequest_fields.
Definition fastReflection_QueryEpochsInfoRequest_SetUnknown (fields : bytes) (x : QueryEpochsInfoRequest) : QueryEpochsInfoRequest := let '(mkQueryEpochsInfoRequest pagination_ _) := x in mkQueryEpochsInfoRequest pagination_ fields.

Definition fastReflection_QueryEpochsInfoResponse_fields : list (Field QueryEpochsInfoResponse V) :=
  [list_field Lst_QueryEpochsInfoResponse_1 to_QueryEpochsInfoResponse_1 "canto.epochs.v1.QueryEpochsInfoResponse.epochs" QueryEpochsInfoResponse_Epochs
     (fun v x => let '(mkQueryEpochsInfoResponse _ pagination_ unknown) := x in mkQueryEpochsInfoResponse v pagination_ unknown);
   message_field (new api_PageResponse_methods) Msg_api_PageResponse to_api_PageResponse "canto.epochs.v1.QueryEpochsInfoResponse.pagination" QueryEpochsInfoResponse_Pagination
     (fun v x => let '(mkQueryEpochsInfoResponse epochs_ _ unknown) := x in mkQueryEpochsInfoResponse epochs_ v unknown)].
Definition fastReflection_QueryEpochsInfoResponse_Range {S} := reflect_Range (S := S) fastReflection_QueryEpochsInfoResponse_fields.
Definition fastReflection_QueryEpochsInfoResponse_Has := reflect_Has fastReflection_QueryEpochsInfoResponse_fields.
Definition fastReflection_QueryEpochsInfoResponse_Clear := reflect_Clear fastReflection_QueryEpochsInfoResponse_fields.
Definition fastReflection_QueryEpochsInfoResponse_Get := reflect_Get fastReflection_QueryEpochsInfoResponse_fields.
Definition fastReflection_QueryEpochsInfoResponse_Set := reflect_Set fastReflection_QueryEpochsInfoResponse_fields.
Definition fastReflection_QueryEpochsInfoResponse_Mutable := reflect_Mutable fastReflection_QueryEpochsInfoResponse_fields.
Definition fastReflection_QueryEpochsInfoResponse_NewField := reflect_NewField fastReflection_QueryEpochsInfoResponse_fields.
Definition fastReflection_QueryEpochsInfoResponse_SetUnknown (fields : bytes) (x : QueryEpochsInfoResponse) : QueryEpochsInfoResponse := let '(mkQueryEpochsInfoResponse epochs_ pagination_ _) := x in mkQueryEpochsInfoResponse epochs_ pagination_ fields.

Definition fastReflection_QueryCurrentEpochRequest_fields : list (Field QueryCurrentEpochRequest V) :=
  [string_field "canto.epochs.v1.QueryCurrentEpochRequest.identifier" QueryCurrentEpochRequest_Identifier
     (fun v x => let '(mkQueryCurrentEpochRequest _ unknown) := x in mkQueryCurrentEpochRequest v unknown)].
Definition fastReflection_QueryCurrentEpochRequest_Range {S} := reflect_Range (S := S) fastReflection_QueryCurrentEpochRequest_fields.
Definition fastReflection_QueryCurrentEpochRequest_Has := reflect_Has fastReflection_QueryCurrentEpochRequest_fields.
Definition fastReflection_QueryCurrentEpochRequest_Clear := reflect_Clear fastReflection_QueryCurrentEpochRequest_fields.
Definition fastReflection_QueryCurrentEpochRequest_Get := reflect_Get fastReflection_QueryCurrentEpochRequest_fields.
Definition fastReflection_QueryCurrentEpochRequest_Set := reflect_Set fastReflection_QueryCurrentEpochRequest_fields.
Definition fastReflection_QueryCurrentEpochRequest_Mutable := reflect_Mutable fastReflection_QueryCurrentEpochRequest_fields.
Definition fastReflection_QueryCurrentEpochRequest_NewField := reflect_NewField fastReflection_QueryCurrentEpochRequest_fields.
Definition fastReflection_QueryCurrentEpochRequest_SetUnknown (fields : bytes) (x : QueryCurrentEpochRequest) : QueryCurrentEpochRequest := let '(mkQueryCurrentEpochRequest identifier_ _) := x in mkQueryCurrentEpochRequest identifier_ fields.

Definition fastReflection_QueryCurrentEpochResponse_fields : list (Field QueryCurrentEpochResponse V) :=
  [int64_field "canto.epochs.v1.QueryCurrentEpochResponse.current_epoch" QueryCurrentEpochResponse_CurrentEpoch
     (fun v x => let '(mkQueryCurrentEpochResponse _ unknown) := x in mkQueryCurrentEpochResponse v unknown)].
Definition fastReflection_QueryCurrentEpochResponse_Range {S} := reflect_Range (S := S) fastReflection_QueryCurrentEpochResponse_fields.
Definition fastReflection_QueryCurrentEpochResponse_Has := reflect_Has fastReflection_QueryCurrentEpochResponse_fields.
Definition fastReflection_QueryCurrentEpochResponse_Clear := reflect_Clear fastReflection_QueryCurrentEpochResponse_fields.
Definition fastReflection_QueryCurrentEpochResponse_Get := reflect_Get fastReflection_QueryCurrentEpochResponse_fields.
Definition fastReflection_QueryCurrentEpochResponse_Set := reflect_Set fastReflection_QueryCurrentEpochResponse_fields.
Definition fastReflection_QueryCurrentEpochResponse_Mutable := reflect_Mutable fastReflection_QueryCurrentEpochResponse_fields.
Definition fastReflection_QueryCurrentEpochResponse_NewField := reflect_NewField fastReflection_QueryCurrentEpochResponse_fields.
Definition fastReflection_QueryCurrentEpochResponse_SetUnknown (fields : bytes) (x : QueryCurrentEpochResponse) : QueryCurrentEpochResponse := let '(mkQueryCurrentEpochResponse currentEpoch_ _) := x in mkQueryCurrentEpochResponse currentEpoch_ fields.

Lemma epochs_EpochInfo_field_laws : FieldLaws fastReflection_EpochInfo_fields EpochInfo_unknownFields (new EpochInfo_methods).
Proof. message_field_laws. Qed.
Lemma epochs_GenesisState_field_laws : FieldLaws fastReflection_GenesisState_fields GenesisState_unknownFields (new GenesisState_methods).
Proof. message_field_laws. Qed.
Lemma epochs_QueryEpochsInfoRequest_field_laws : FieldLaws fastReflection_QueryEpochsInfoRequest_fields QueryEpochsInfoRequest_unknownFields (new QueryEpochsInfoRequest_methods).
Proof. message_field_laws. Qed.
Lemma epochs_QueryEpochsInfoResponse_field_laws : FieldLaws fastReflection_QueryEpochsInfoResponse_fields QueryEpochsInfoResponse_unknownFields (new QueryEpochsInfoResponse_methods).
Proof. message_field_laws. Qed.
Lemma epochs_QueryCurrentEpochRequest_field_laws : FieldLaws fastReflection_QueryCurrentEpochRequest_fields QueryCurrentEpochRequest_unknownFields (new QueryCurrentEpochRequest_methods).
Proof. message_field_laws. Qed.
Lemma epochs_QueryCurrentEpochResponse_field_laws : FieldLaws fastReflection_QueryCurrentEpochResponse_fields QueryCurrentEpochResponse_unknownFields (new QueryCurrentEpochResponse_methods).
Proof. message_field_laws. Qed.

(** What reflection promises, for every message. *)
Definition reflection_complete : Prop :=
  reflects fastReflection_EpochInfo_fields EpochInfo_unknownFields fastReflection_EpochInfo_SetUnknown (new EpochInfo_methods) ∧
  reflects fastReflection_GenesisState_fields GenesisState_unknownFields fastReflection_GenesisState_SetUnknown (new GenesisState_methods) ∧
  reflects fastReflection_QueryEpochsInfoRequest_fields QueryEpochsInfoRequest_unknownFields fastReflection_QueryEpochsInfoRequest_SetUnknown (new QueryEpochsInfoRequest_methods) ∧
  reflects fastReflection_QueryEpochsInfoResponse_fields QueryEpochsInfoResponse_unknownFields fastReflection_QueryEpochsInfoResponse_SetUnknown (new QueryEpochsInfoResponse_methods) ∧
  reflects fastReflection_QueryCurrentEpochRequest_fields QueryCurrentEpochRequest_unknownFields fastReflection_QueryCurrentEpochRequest_SetUnknown (new QueryCurrentEpochRequest_methods) ∧
  reflects fastReflection_QueryCurrentEpochResponse_fields QueryCurrentEpochResponse_unknownFields fastReflection_QueryCurrentEpochResponse_SetUnknown (new QueryCurrentEpochResponse_methods).
Lemma epochs_reflection_complete : reflection_complete.
Proof.
  unfold reflection_complete. split_and!;
  [message_reflects epochs_EpochInfo_field_laws
  |message_reflects epochs_GenesisState_field_laws
  |message_reflects epochs_QueryEpochsInfoRequest_field_laws
  |message_reflects epochs_QueryEpochsInfoResponse_field_laws
  |message_reflects epochs_QueryCurrentEpochRequest_field_laws
  |message_reflects epochs_QueryCurrentEpochResponse_field_laws].
Qed.

(** ** The same encodings as the module *)

Context {SC : SdkCodecs} {SL : SdkCodecLaws SC} {SE : SameEncodings SL AL}.

Definition EpochInfo_api (m : Epochs.EpochInfo) : EpochInfo := mkEpochInfo (Epochs.Identifier m) (Some (time_api (Epochs.StartTime m))) (Some (duration_api (Epochs.Duration m))) (Epochs.CurrentEpoch m) (Some (time_api (Epochs.CurrentEpochStartTime m))) (Epochs.EpochCountingStarted m) (Epochs.CurrentEpochStartHeight m) [].
Lemma epochs_EpochInfo_same : same_encoding EpochInfo_api EpochsCodec.EpochInfo_wf EpochsCodec.EpochInfo_enc EpochInfo_wf EpochInfo_enc.
Proof. same_message EpochInfo_api (@EpochsCodec.EpochInfo_wf) (@EpochsCodec.EpochInfo_enc) EpochInfo_wf EpochInfo_enc EpochInfo_fields_enc. Qed.
#[local] Hint Resolve epochs_EpochInfo_same : api_same.
Definition GenesisState_api (m : Epochs.GenesisState) : GenesisState := mkGenesisState ((fun c => Some (EpochInfo_api c)) <$> (Epochs.Epochs m)) [].
Lemma epochs_GenesisState_same : same_encoding GenesisState_api EpochsCodec.GenesisState_wf EpochsCodec.GenesisState_enc GenesisState_wf GenesisState_enc.
Proof. same_message GenesisState_api (@EpochsCodec.GenesisState_wf) (@EpochsCodec.GenesisState_enc) GenesisState_wf GenesisState_enc GenesisState_fields_enc. Qed.
#[local] Hint Resolve epochs_GenesisState_same : api_same.
Definition QueryEpochsInfoRequest_api (m : EpochsCodec.QueryEpochsInfoRequest) : QueryEpochsInfoRequest := mkQueryEpochsInfoRequest (page_request_api <$> (EpochsCodec.QueryEpochsInfoRequest_Pagination m)) [].
Lemma epochs_QueryEpochsInfoRequest_same : same_encoding QueryEpochsInfoRequest_api EpochsCodec.QueryEpochsInfoRequest_wf EpochsCodec.QueryEpochsInfoRequest_enc QueryEpochsInfoRequest_wf QueryEpochsInfoRequest_enc.
Proof. same_message QueryEpochsInfoRequest_api (@EpochsCodec.QueryEpochsInfoRequest_wf) (@EpochsCodec.QueryEpochsInfoRequest_enc) QueryEpochsInfoRequest_wf QueryEpochsInfoRequest_enc QueryEpochsInfoRequest_fields_enc. Qed.
#[local] Hint Resolve epochs_QueryEpochsInfoRequest_same : api_same.
Definition QueryEpochsInfoResponse_api (m : EpochsCodec.QueryEpochsInfoResponse) : QueryEpochsInfoResponse := mkQueryEpochsInfoResponse ((fun c => Some (EpochInfo_api c)) <$> (EpochsCodec.QueryEpochsInfoResponse_Epochs m)) (page_response_api <$> (EpochsCodec.QueryEpochsInfoResponse_Pagination m)) [].
Lemma epochs_QueryEpochsInfoResponse_same : same_encoding QueryEpochsInfoResponse_api EpochsCodec.QueryEpochsInfoResponse_wf EpochsCodec.QueryEpochsInfoResponse_enc QueryEpochsInfoResponse_wf QueryEpochsInfoResponse_enc.
Proof. same_message QueryEpochsInfoResponse_api (@EpochsCodec.QueryEpochsInfoResponse_wf) (@EpochsCodec.QueryEpochsInfoResponse_enc) QueryEpochsInfoResponse_wf QueryEpochsInfoResponse_enc QueryEpochsInfoResponse_fields_enc. Qed.
#[local] Hint Resolve epochs_QueryEpochsInfoResponse_same : api_same.
Definition QueryCurrentEpochRequest_api (m : EpochsCodec.QueryCurrentEpochRequest) : QueryCurrentEpochRequest := mkQueryCurrentEpochRequest (EpochsCodec.QueryCurrentEpochRequest_Identifier m) [].
Lemma epochs_QueryCurrentEpochRequest_same : same_encoding QueryCurrentEpochRequest_api EpochsCodec.QueryCurrentEpochRequest_wf EpochsCodec.QueryCurrentEpochRequest_enc QueryCurrentEpochRequest_wf QueryCurrentEpochRequest_enc.
Proof. same_message QueryCurrentEpochRequest_api (@EpochsCodec.QueryCurrentEpochRequest_wf) (@EpochsCodec.QueryCurrentEpochRequest_enc) QueryCurrentEpochRequest_wf QueryCurrentEpochRequest_enc QueryCurrentEpochRequest_fields_enc. Qed.
#[local] Hint Resolve epochs_QueryCurrentEpochRequest_same : api_same.
Definition QueryCurrentEpochResponse_api (m : EpochsCodec.QueryCurrentEpochResponse) : QueryCurrentEpochResponse := mkQueryCurrentEpochResponse (EpochsCodec.QueryCurrentEpochResponse_CurrentEpoch m) [].
Lemma epochs_QueryCurrentEpochResponse_same : same_encoding QueryCurrentEpochResponse_api EpochsCodec.QueryCurrentEpochResponse_wf EpochsCodec.QueryCurrentEpochResponse_enc QueryCurrentEpochResponse_wf QueryCurrentEpochResponse_enc.
Proof. same_message QueryCurrentEpochResponse_api (@EpochsCodec.QueryCurrentEpochResponse_wf) (@EpochsCodec.QueryCurrentEpochResponse_enc) QueryCurrentEpochResponse_wf QueryCurrentEpochResponse_enc QueryCurrentEpochResponse_fields_enc. Qed.
#[local] Hint Resolve epochs_QueryCurrentEpochResponse_same : api_same.

Definition api_agrees : Prop :=
  agrees EpochsCodec.EpochInfo_codec EpochInfo_methods EpochInfo_api EpochsCodec.EpochInfo_wf EpochsCodec.EpochInfo_enc ∧
  agrees EpochsCodec.GenesisState_codec GenesisState_methods GenesisState_api EpochsCodec.GenesisState_wf EpochsCodec.GenesisState_enc ∧
  agrees EpochsCodec.QueryEpochsInfoRequest_codec QueryEpochsInfoRequest_methods QueryEpochsInfoRequest_api EpochsCodec.QueryEpochsInfoRequest_wf EpochsCodec.QueryEpochsInfoRequest_enc ∧
  agrees EpochsCodec.QueryEpochsInfoResponse_codec QueryEpochsInfoResponse_methods QueryEpochsInfoResponse_api EpochsCodec.QueryEpochsInfoResponse_wf EpochsCodec.QueryEpochsInfoResponse_enc ∧
  agrees EpochsCodec.QueryCurrentEpochRequest_codec QueryCurrentEpochRequest_methods QueryCurrentEpochRequest_api EpochsCodec.QueryCurrentEpochRequest_wf EpochsCodec.QueryCurrentEpochRequest_enc ∧
  agrees EpochsCodec.QueryCurrentEpochResponse_codec QueryCurrentEpochResponse_methods QueryCurrentEpochResponse_api EpochsCodec.QueryCurrentEpochResponse_wf EpochsCodec.QueryCurrentEpochResponse_enc.
Lemma epochs_api_agrees : api_agrees.
Proof.
  unfold api_agrees. split_and!;
  [exact (laws_agree _ _ _ _ _ _ _ EpochsCodec.epochs_EpochInfo_laws epochs_EpochInfo_api_laws epochs_EpochInfo_same)
  |exact (laws_agree _ _ _ _ _ _ _ EpochsCodec.epochs_GenesisState_laws epochs_GenesisState_api_laws epochs_GenesisState_same)
  |exact (laws_agree _ _ _ _ _ _ _ EpochsCodec.epochs_QueryEpochsInfoRequest_laws epochs_QueryEpochsInfoRequest_api_laws epochs_QueryEpochsInfoRequest_same)
  |exact (laws_agree _ _ _ _ _ _ _ EpochsCodec.epochs_QueryEpochsInfoResponse_laws epochs_QueryEpochsInfoResponse_api_laws epochs_QueryEpochsInfoResponse_same)
  |exact (laws_agree _ _ _ _ _ _ _ EpochsCodec.epochs_QueryCurrentEpochRequest_laws epochs_QueryCurrentEpochRequest_api_laws epochs_QueryCurrentEpochRequest_same)
  |exact (laws_agree _ _ _ _ _ _ _ EpochsCodec.epochs_QueryCurrentEpochResponse_laws epochs_QueryCurrentEpochResponse_api_laws epochs_QueryCurrentEpochResponse_same)].
Qed.
End api.
