(* ===== verification/ApiErc20.v ===== *)
(** * Package api: the messages of canto.erc20.v1

    The code of [erc20.pulsar.go], [genesis.pulsar.go], [query.pulsar.go], [tx.pulsar.go] under
    src/api/canto/erc20/v1: encoding ([Pulsar.v]), reflection ([Reflect.v]), and that
    the messages of the module and of the package have the same encodings. *)

From Stdlib Require Import Ascii.
From stdpp Require Import base strings list sets.
From S2P Require Import Prelude Golang Sdk Wire WireFacts WireCodec WireSdk Pulsar Reflect ApiSame.
From S2P Require Erc20Types Erc20Codec.

#[local] Open Scope Z_scope.
#[local] Open Scope go_scope.

Section api.
Context {RT : ProtoRuntime} {AS : ApiSdk}.

(** ** [TokenPair] *)

Record TokenPair := mkTokenPair { TokenPair_Erc20Address : string; TokenPair_Denom : string; TokenPair_Enabled : bool; TokenPair_ContractOwner : Z; TokenPair_unknownFields : bytes }.
Definition TokenPair_size (x : TokenPair) : Z :=
  api_size_string (TokenPair_Erc20Address x) + api_size_string (TokenPair_Denom x) + size_bool (TokenPair_Enabled x) + api_size_varint (TokenPair_ContractOwner x) + blen (TokenPair_unknownFields x).
Definition TokenPair_marshal (x : TokenPair) : writer :=
  put_raw (TokenPair_unknownFields x) ;>
  api_put_varint 0x20 (TokenPair_ContractOwner x) ;>
  put_bool 0x18 (TokenPair_Enabled x) ;>
  api_put_string 0x12 (TokenPair_Denom x) ;>
  api_put_string 0xa (TokenPair_Erc20Address x).
Definition TokenPair_cases (discard : bool) (x : TokenPair) (fieldNum wireType : Z) : option (reader TokenPair) :=
  let '(mkTokenPair erc20Address_ denom_ enabled_ contractOwner_ unknown) := x in
  match fieldNum with
  | 1 => Some (get_string "Erc20Address" wireType (fun v => mkTokenPair v denom_ enabled_ contractOwner_ unknown))
  | 2 => Some (get_string "Denom" wireType (fun v => mkTokenPair erc20Address_ v enabled_ contractOwner_ unknown))
  | 3 => Some (get_bool "Enabled" wireType (fun v => mkTokenPair erc20Address_ denom_ v contractOwner_ unknown))
  | 4 => Some (get_varint sint32 "ContractOwner" wireType (fun v => mkTokenPair erc20Address_ denom_ enabled_ v unknown))
  | _ => None
  end.
Definition TokenPair_append (u : bytes) (x : TokenPair) : TokenPair := let '(mkTokenPair erc20Address_ denom_ enabled_ contractOwner_ unknown) := x in mkTokenPair erc20Address_ denom_ enabled_ contractOwner_ (unknown ++ u).
Definition TokenPair_unmarshal : bool -> bytes -> option TokenPair -> outcome (option TokenPair) := api_unmarshal "TokenPair" TokenPair_cases TokenPair_append.
Definition TokenPair_methods : Methods TokenPair :=
  mkMethods (mkTokenPair "" "" false 0 []) (api_size TokenPair_size) (api_marshal TokenPair_size TokenPair_marshal) TokenPair_unmarshal.

(** ** [TokenPairDenomIndex] *)

Record TokenPairDenomIndex := mkTokenPairDenomIndex { TokenPairDenomIndex_Denom : string; TokenPairDenomIndex_TokenPairId : string; TokenPairDenomIndex_unknownFields : bytes }.
Definition TokenPairDenomIndex_size (x : TokenPairDenomIndex) : Z :=
  api_size_string (TokenPairDenomIndex_Denom x) + api_size_string (TokenPairDenomIndex_TokenPairId x) + blen (TokenPairDenomIndex_unknownFields x).
Definition TokenPairDenomIndex_marshal (x : TokenPairDenomIndex) : writer :=
  put_raw (TokenPairDenomIndex_unknownFields x) ;>
  api_put_string 0x12 (TokenPairDenomIndex_TokenPairId x) ;>
  api_put_string 0xa (TokenPairDenomIndex_Denom x).
Definition TokenPairDenomIndex_cases (discard : bool) (x : TokenPairDenomIndex) (fieldNum wireType : Z) : option (reader TokenPairDenomIndex) :=
  let '(mkTokenPairDenomIndex denom_ tokenPairId_ unknown) := x in
  match fieldNum with
  | 1 => Some (get_string "Denom" wireType (fun v => mkTokenPairDenomIndex v tokenPairId_ unknown))
  | 2 => Some (get_bytes "TokenPairId" wireType (fun v => mkTokenPairDenomIndex denom_ v unknown))
  | _ => None
  end.
Definition TokenPairDenomIndex_append (u : bytes) (x : TokenPairDenomIndex) : TokenPairDenomIndex := let '(mkTokenPairDenomIndex denom_ tokenPairId_ unknown) := x in mkTokenPairDenomIndex denom_ tokenPairId_ (unknown ++ u).
Definition TokenPairDenomIndex_unmarshal : bool -> bytes -> option TokenPairDenomIndex -> outcome (option TokenPairDenomIndex) := api_unmarshal "TokenPairDenomIndex" TokenPairDenomIndex_cases TokenPairDenomIndex_append.
Definition TokenPairDenomIndex_methods : Methods TokenPairDenomIndex :=
  mkMethods (mkTokenPairDenomIndex "" "" []) (api_size TokenPairDenomIndex_size) (api_marshal TokenPairDenomIndex_size TokenPairDenomIndex_marshal) TokenPairDenomIndex_unmarshal.

(** ** [TokenPairERC20AddressIndex] *)

Record TokenPairERC20AddressIndex := mkTokenPairERC20AddressIndex { TokenPairERC20AddressIndex_Erc20Address : string; TokenPairERC20AddressIndex_TokenPairId : string; TokenPairERC20AddressIndex_unknownFields : bytes }.
Definition TokenPairERC20AddressIndex_size (x : TokenPairERC20AddressIndex) : Z :=
  api_size_string (TokenPairERC20AddressIndex_Erc20Address x) + api_size_string (TokenPairERC20AddressIndex_TokenPairId x) + blen (TokenPairERC20AddressIndex_unknownFields x).
Definition TokenPairERC20AddressIndex_marshal (x : TokenPairERC20AddressIndex) : writer :=
  put_raw (TokenPairERC20AddressIndex_unknownFields x) ;>
  api_put_string 0x12 (TokenPairERC20AddressIndex_TokenPairId x) ;>
  api_put_string 0xa (TokenPairERC20AddressIndex_Erc20Address x).
Definition TokenPairERC20AddressIndex_cases (discard : bool) (x : TokenPairERC20AddressIndex) (fieldNum wireType : Z) : option (reader TokenPairERC20AddressIndex) :=
  let '(mkTokenPairERC20AddressIndex erc20Address_ tokenPairId_ unknown) := x in
  match fieldNum with
  | 1 => Some (get_bytes "Erc20Address" wireType (fun v => mkTokenPairERC20AddressIndex v tokenPairId_ unknown))
  | 2 => Some (get_bytes "TokenPairId" wireType (fun v => mkTokenPairERC20AddressIndex erc20Address_ v unknown))
  | _ => None
  end.
Definition TokenPairERC20AddressIndex_append (u : bytes) (x : TokenPairERC20AddressIndex) : TokenPairERC20AddressIndex := let '(mkTokenPairERC20AddressIndex erc20Address_ tokenPairId_ unknown) := x in mkTokenPairERC20AddressIndex erc20Address_ tokenPairId_ (unknown ++ u).
Definition TokenPairERC20AddressIndex_unmarshal : bool -> bytes -> option TokenPairERC20AddressIndex -> outcome (option TokenPairERC20AddressIndex) := api_unmarshal "TokenPairERC20AddressIndex" TokenPairERC20AddressIndex_cases TokenPairERC20AddressIndex_append.
Definition TokenPairERC20AddressIndex_methods : Methods TokenPairERC20AddressIndex :=
  mkMethods (mkTokenPairERC20AddressIndex "" "" []) (api_size TokenPairERC20AddressIndex_size) (api_marshal TokenPairERC20AddressIndex_size TokenPairERC20AddressIndex_marshal) TokenPairERC20AddressIndex_unmarshal.

(** ** [RegisterCoinProposal] *)

Record RegisterCoinProposal := mkRegisterCoinProposal { RegisterCoinProposal_Title : string; RegisterCoinProposal_Description : string; RegisterCoinProposal_Metadata : option api_Metadata; RegisterCoinProposal_unknownFields : bytes }.
Definition RegisterCoinProposal_size (x : RegisterCoinProposal) : Z :=
  api_size_string (RegisterCoinProposal_Title x) + api_size_string (RegisterCoinProposal_Description x) + api_size_pointer api_Metadata_methods (RegisterCoinProposal_Metadata x) + blen (RegisterCoinProposal_unknownFields x).
Definition RegisterCoinProposal_marshal (x : RegisterCoinProposal) : writer :=
  put_raw (RegisterCoinProposal_unknownFields x) ;>
  api_put_pointer api_Metadata_methods 0x1a (RegisterCoinProposal_Metadata x) ;>
  api_put_string 0x12 (RegisterCoinProposal_Description x) ;>
  api_put_string 0xa (RegisterCoinProposal_Title x).
Definition RegisterCoinProposal_cases (discard : bool) (x : RegisterCoinProposal) (fieldNum wireType : Z) : option (reader RegisterCoinProposal) :=
  let '(mkRegisterCoinProposal title_ description_ metadata_ unknown) := x in
  match fieldNum with
  | 1 => Some (get_string "Title" wireType (fun v => mkRegisterCoinProposal v description_ metadata_ unknown))
  | 2 => Some (get_string "Description" wireType (fun v => mkRegisterCoinProposal title_ v metadata_ unknown))
  | 3 => Some (api_get_pointer api_Metadata_methods discard "Metadata" wireType metadata_ (fun v => mkRegisterCoinProposal title_ description_ v unknown))
  | _ => None
  end.
Definition RegisterCoinProposal_append (u : bytes) (x : RegisterCoinProposal) : RegisterCoinProposal := let '(mkRegisterCoinProposal title_ description_ metadata_ unknown) := x in mkRegisterCoinProposal title_ description_ metadata_ (unknown ++ u).
Definition RegisterCoinProposal_unmarshal : bool -> bytes -> option RegisterCoinProposal -> outcome (option RegisterCoinProposal) := api_unmarshal "RegisterCoinProposal" RegisterCoinProposal_cases RegisterCoinProposal_append.
Definition RegisterCoinProposal_methods : Methods RegisterCoinProposal :=
  mkMethods (mkRegisterCoinProposal "" "" None []) (api_size RegisterCoinProposal_size) (api_marshal RegisterCoinProposal_size RegisterCoinProposal_marshal) RegisterCoinProposal_unmarshal.

(** ** [RegisterERC20Proposal] *)

Record RegisterERC20Proposal := mkRegisterERC20Proposal { RegisterERC20Proposal_Title : string; RegisterERC20Proposal_Description : string; RegisterERC20Proposal_Erc20Address : string; RegisterERC20Proposal_unknownFields : bytes }.
Definition RegisterERC20Proposal_size (x : RegisterERC20Proposal) : Z :=
  api_size_string (RegisterERC20Proposal_Title x) + api_size_string (RegisterERC20Proposal_Description x) + api_size_string (RegisterERC20Proposal_Erc20Address x) + blen (RegisterERC20Proposal_unknownFields x).
Definition RegisterERC20Proposal_marshal (x : RegisterERC20Proposal) : writer :=
  put_raw (RegisterERC20Proposal_unknownFields x) ;>
  api_put_string 0x1a (RegisterERC20Proposal_Erc20Address x) ;>
  api_put_string 0x12 (RegisterERC20Proposal_Description x) ;>
  api_put_string 0xa (RegisterERC20Proposal_Title x).
Definition RegisterERC20Proposal_cases (discard : bool) (x : RegisterERC20Proposal) (fieldNum wireType : Z) : option (reader RegisterERC20Proposal) :=
  let '(mkRegisterERC20Proposal title_ description_ erc20Address_ unknown) := x in
  match fieldNum with
  | 1 => Some (get_string "Title" wireType (fun v => mkRegisterERC20Proposal v description_ erc20Address_ unknown))
  | 2 => Some (get_string "Description" wireType (fun v => mkRegisterERC20Proposal title_ v erc20Address_ unknown))
  | 3 => Some (get_string "Erc20Address" wireType (fun v => mkRegisterERC20Proposal title_ description_ v unknown))
  | _ => None
  end.
Definition RegisterERC20Proposal_append (u : bytes) (x : RegisterERC20Proposal) : RegisterERC20Proposal := let '(mkRegisterERC20Proposal title_ description_ erc20Address_ unknown) := x in mkRegisterERC20Proposal title_ description_ erc20Address_ (unknown ++ u).
Definition RegisterERC20Proposal_unmarshal : bool -> bytes -> option RegisterERC20Proposal -> outcome (option RegisterERC20Proposal) := api_unmarshal "RegisterERC20Proposal" RegisterERC20Proposal_cases RegisterERC20Proposal_append.
Definition RegisterERC20Proposal_methods : Methods RegisterERC20Proposal :=
  mkMethods (mkRegisterERC20Proposal "" "" "" []) (api_size RegisterERC20Proposal_size) (api_marshal RegisterERC20Proposal_size RegisterERC20Proposal_marshal) RegisterERC20Proposal_unmarshal.

(** ** [ToggleTokenConversionProposal] *)

Record ToggleTokenConversionProposal := mkToggleTokenConversionProposal { ToggleTokenConversionProposal_Title : string; ToggleTokenConversionProposal_Description : string; ToggleTokenConversionProposal_Token : string; ToggleTokenConversionProposal_unknownFields : bytes }.
Definition ToggleTokenConversionProposal_size (x : ToggleTokenConversionProposal) : Z :=
  api_size_string (ToggleTokenConversionProposal_Title x) + api_size_string (ToggleTokenConversionProposal_Description x) + api_size_string (ToggleTokenConversionProposal_Token x) + blen (ToggleTokenConversionProposal_unknownFields x).
Definition ToggleTokenConversionProposal_marshal (x : ToggleTokenConversionProposal) : writer :=
  put_raw (ToggleTokenConversionProposal_unknownFields x) ;>
  api_put_string 0x1a (ToggleTokenConversionProposal_Token x) ;>
  api_put_string 0x12 (ToggleTokenConversionProposal_Description x) ;>
  api_put_string 0xa (ToggleTokenConversionProposal_Title x).
Definition ToggleTokenConversionProposal_cases (discard : bool) (x : ToggleTokenConversionProposal) (fieldNum wireType : Z) : option (reader ToggleTokenConversionProposal) :=
  let '(mkToggleTokenConversionProposal title_ description_ token_ unknown) := x in
  match fieldNum with
  | 1 => Some (get_string "Title" wireType (fun v => mkToggleTokenConversionProposal v description_ token_ unknown))
  | 2 => Some (get_string "Description" wireType (fun v => mkToggleTokenConversionProposal title_ v token_ unknown))
  | 3 => Some (get_string "Token" wireType (fun v => mkToggleTokenConversionProposal title_ description_ v unknown))
  | _ => None
  end.
Definition ToggleTokenConversionProposal_append (u : bytes) (x : ToggleTokenConversionProposal) : ToggleTokenConversionProposal := let '(mkToggleTokenConversionProposal title_ description_ token_ unknown) := x in mkToggleTokenConversionProposal title_ description_ token_ (unknown ++ u).
Definition ToggleTokenConversionProposal_unmarshal : bool -> bytes -> option ToggleTokenConversionProposal -> outcome (option ToggleTokenConversionProposal) := api_unmarshal "ToggleTokenConversionProposal" ToggleTokenConversionProposal_cases ToggleTokenConversionProposal_append.
Definition ToggleTokenConversionProposal_methods : Methods ToggleTokenConversionProposal :=
  mkMethods (mkToggleTokenConversionProposal "" "" "" []) (api_size ToggleTokenConversionProposal_size) (api_marshal ToggleTokenConversionProposal_size ToggleTokenConversionProposal_marshal) ToggleTokenConversionProposal_unmarshal.

(** ** [Params] *)

Record Params := mkParams { Params_EnableErc20 : bool; Params_EnableEvmHook : bool; Params_unknownFields : bytes }.
Definition Params_size (x : Params) : Z :=
  size_bool (Params_EnableErc20 x) + size_bool (Params_EnableEvmHook x) + blen (Params_unknownFields x).
Definition Params_marshal (x : Params) : writer :=
  put_raw (Params_unknownFields x) ;>
  put_bool 0x10 (Params_EnableEvmHook x) ;>
  put_bool 0x8 (Params_EnableErc20 x).
Definition Params_cases (discard : bool) (x : Params) (fieldNum wireType : Z) : option (reader Params) :=
  let '(mkParams enableErc20_ enableEvmHook_ unknown) := x in
  match fieldNum with
  | 1 => Some (get_bool "EnableErc20" wireType (fun v => mkParams v enableEvmHook_ unknown))
  | 2 => Some (get_bool "EnableEvmHook" wireType (fun v => mkParams enableErc20_ v unknown))
  | _ => None
  end.
Definition Params_append (u : bytes) (x : Params) : Params := let '(mkParams enableErc20_ enableEvmHook_ unknown) := x in mkParams enableErc20_ enableEvmHook_ (unknown ++ u).
Definition Params_unmarshal : bool -> bytes -> option Params -> outcome (option Params) := api_unmarshal "Params" Params_cases Params_append.
Definition Params_methods : Methods Params :=
  mkMethods (mkParams false false []) (api_size Params_size) (api_marshal Params_size Params_marshal) Params_unmarshal.

(** ** [GenesisState] *)

Record GenesisState := mkGenesisState { GenesisState_Params : option Params; GenesisState_TokenPairs : list (option TokenPair); GenesisState_DenomIndexes : list (option TokenPairDenomIndex); GenesisState_Erc20AddressIndexes : list (option TokenPairERC20AddressIndex); GenesisState_unknownFields : bytes }.
Definition GenesisState_size (x : GenesisState) : Z :=
  api_size_pointer Params_methods (GenesisState_Params x) + api_size_messages TokenPair_methods (GenesisState_TokenPairs x) + api_size_messages TokenPairDenomIndex_methods (GenesisState_DenomIndexes x) + api_size_messages TokenPairERC20AddressIndex_methods (GenesisState_Erc20AddressIndexes x) + blen (GenesisState_unknownFields x).
Definition GenesisState_marshal (x : GenesisState) : writer :=
  put_raw (GenesisState_unknownFields x) ;>
  api_put_messages TokenPairERC20AddressIndex_methods 0x22 (GenesisState_Erc20AddressIndexes x) ;>
  api_put_messages TokenPairDenomIndex_methods 0x1a (GenesisState_DenomIndexes x) ;>
  api_put_messages TokenPair_methods 0x12 (GenesisState_TokenPairs x) ;>
  api_put_pointer Params_methods 0xa (GenesisState_Params x).
Definition GenesisState_cases (discard : bool) (x : GenesisState) (fieldNum wireType : Z) : option (reader GenesisState) :=
  let '(mkGenesisState params_ tokenPairs_ denomIndexes_ erc20AddressIndexes_ unknown) := x in
  match fieldNum with
  | 1 => Some (api_get_pointer Params_methods discard "Params" wireType params_ (fun v => mkGenesisState v tokenPairs_ denomIndexes_ erc20AddressIndexes_ unknown))
  | 2 => Some (api_get_element TokenPair_methods discard "TokenPairs" wireType tokenPairs_ (fun v => mkGenesisState params_ v denomIndexes_ erc20AddressIndexes_ unknown))
  | 3 => Some (api_get_element TokenPairDenomIndex_methods discard "DenomIndexes" wireType denomIndexes_ (fun v => mkGenesisState params_ tokenPairs_ v erc20AddressIndexes_ unknown))
  | 4 => Some (api_get_element TokenPairERC20AddressIndex_methods discard "Erc20AddressIndexes" wireType erc20AddressIndexes_ (fun v => mkGenesisState params_ tokenPairs_ denomIndexes_ v unknown))
  | _ => None
  end.
Definition GenesisState_append (u : bytes) (x : GenesisState) : GenesisState := let '(mkGenesisState params_ tokenPairs_ denomIndexes_ erc20AddressIndexes_ unknown) := x in mkGenesisState params_ tokenPairs_ denomIndexes_ erc20AddressIndexes_ (unknown ++ u).
Definition GenesisState_unmarshal : bool -> bytes -> option GenesisState -> outcome (option GenesisState) := api_unmarshal "GenesisState" GenesisState_cases GenesisState_append.
Definition GenesisState_methods : Methods GenesisState :=
  mkMethods (mkGenesisState None [] [] [] []) (api_size GenesisState_size) (api_marshal GenesisState_size GenesisState_marshal) GenesisState_unmarshal.

(** ** [QueryTokenPairsRequest] *)

Record QueryTokenPairsRequest := mkQueryTokenPairsRequest { QueryTokenPairsRequest_Pagination : option api_PageRequest; QueryTokenPairsRequest_unknownFields : bytes }.
Definition QueryTokenPairsRequest_size (x : QueryTokenPairsRequest) : Z :=
  api_size_pointer api_PageRequest_methods (QueryTokenPairsRequest_Pagination x) + blen (QueryTokenPairsRequest_unknownFields x).
Definition QueryTokenPairsRequest_marshal (x : QueryTokenPairsRequest) : writer :=
  put_raw (QueryTokenPairsRequest_unknownFields x) ;>
  api_put_pointer api_PageRequest_methods 0xa (QueryTokenPairsRequest_Pagination x).
Definition QueryTokenPairsRequest_cases (discard : bool) (x : QueryTokenPairsRequest) (fieldNum wireType : Z) : option (reader QueryTokenPairsRequest) :=
  let '(mkQueryTokenPairsRequest pagination_ unknown) := x in
  match fieldNum with
  | 1 => Some (api_get_pointer api_PageRequest_methods discard "Pagination" wireType pagination_ (fun v => mkQueryTokenPairsRequest v unknown))
  | _ => None
  end.
Definition QueryTokenPairsRequest_append (u : bytes) (x : QueryTokenPairsRequest) : QueryTokenPairsRequest := let '(mkQueryTokenPairsRequest pagination_ unknown) := x in mkQueryTokenPairsRequest pagination_ (unknown ++ u).
Definition QueryTokenPairsRequest_unmarshal : bool -> bytes -> option QueryTokenPairsRequest -> outcome (option QueryTokenPairsRequest) := api_unmarshal "QueryTokenPairsRequest" QueryTokenPairsRequest_cases QueryTokenPairsRequest_append.
Definition QueryTokenPairsRequest_methods : Methods QueryTokenPairsRequest :=
  mkMethods (mkQueryTokenPairsRequest None []) (api_size QueryTokenPairsRequest_size) (api_marshal QueryTokenPairsRequest_size QueryTokenPairsRequest_marshal) QueryTokenPairsRequest_unmarshal.

(** ** [QueryTokenPairsResponse] *)

Record QueryTokenPairsResponse := mkQueryTokenPairsResponse { QueryTokenPairsResponse_TokenPairs : list (option TokenPair); QueryTokenPairsResponse_Pagination : option api_PageResponse; QueryTokenPairsResponse_unknownFields : bytes }.
Definition QueryTokenPairsResponse_size (x : QueryTokenPairsResponse) : Z :=
  api_size_messages TokenPair_methods (QueryTokenPairsResponse_TokenPairs x) + api_size_pointer api_PageResponse_methods (QueryTokenPairsResponse_Pagination x) + blen (QueryTokenPairsResponse_unknownFields x).
Definition QueryTokenPairsResponse_marshal (x : QueryTokenPairsResponse) : writer :=
  put_raw (QueryTokenPairsResponse_unknownFields x) ;>
  api_put_pointer api_PageResponse_methods 0x12 (QueryTokenPairsResponse_Pagination x) ;>
  api_put_messages TokenPair_methods 0xa (QueryTokenPairsResponse_TokenPairs x).
Definition QueryTokenPairsResponse_cases (discard : bool) (x : QueryTokenPairsResponse) (fieldNum wireType : Z) : option (reader QueryTokenPairsResponse) :=
  let '(mkQueryTokenPairsResponse tokenPairs_ pagination_ unknown) := x in
  match fieldNum with
  | 1 => Some (api_get_element TokenPair_methods discard "TokenPairs" wireType tokenPairs_ (fun v => mkQueryTokenPairsResponse v pagination_ unknown))
  | 2 => Some (api_get_pointer api_PageResponse_methods discard "Pagination" wireType pagination_ (fun v => mkQueryTokenPairsResponse tokenPairs_ v unknown))
  | _ => None
  end.
Definition QueryTokenPairsResponse_append (u : bytes) (x : QueryTokenPairsResponse) : QueryTokenPairsResponse := let '(mkQueryTokenPairsResponse tokenPairs_ pagination_ unknown) := x in mkQueryTokenPairsResponse tokenPairs_ pagination_ (unknown ++ u).
Definition QueryTokenPairsResponse_unmarshal : bool -> bytes -> option QueryTokenPairsResponse -> outcome (option QueryTokenPairsResponse) := api_unmarshal "QueryTokenPairsResponse" QueryTokenPairsResponse_cases QueryTokenPairsResponse_append.
Definition QueryTokenPairsResponse_methods : Methods QueryTokenPairsResponse :=
  mkMethods (mkQueryTokenPairsResponse [] None []) (api_size QueryTokenPairsResponse_size) (api_marshal QueryTokenPairsResponse_size QueryTokenPairsResponse_marshal) QueryTokenPairsResponse_unmarshal.

(** ** [QueryTokenPairRequest] *)

Record QueryTokenPairRequest := mkQueryTokenPairRequest { QueryTokenPairRequest_Token : string; QueryTokenPairRequest_unknownFields : bytes }.
Definition QueryTokenPairRequest_size (x : QueryTokenPairRequest) : Z :=
  api_size_string (QueryTokenPairRequest_Token x) + blen (QueryTokenPairRequest_unknownFields x).
Definition QueryTokenPairRequest_marshal (x : QueryTokenPairRequest) : writer :=
  put_raw (QueryTokenPairRequest_unknownFields x) ;>
  api_put_string 0xa (QueryTokenPairRequest_Token x).
Definition QueryTokenPairRequest_cases (discard : bool) (x : QueryTokenPairRequest) (fieldNum wireType : Z) : option (reader QueryTokenPairRequest) :=
  let '(mkQueryTokenPairRequest token_ unknown) := x in
  match fieldNum with
  | 1 => Some (get_string "Token" wireType (fun v => mkQueryTokenPairRequest v unknown))
  | _ => None
  end.
Definition QueryTokenPairRequest_append (u : bytes) (x : QueryTokenPairRequest) : QueryTokenPairRequest := let '(mkQueryTokenPairRequest token_ unknown) := x in mkQueryTokenPairRequest token_ (unknown ++ u).
Definition QueryTokenPairRequest_unmarshal : bool -> bytes -> option QueryTokenPairRequest -> outcome (option QueryTokenPairRequest) := api_unmarshal "QueryTokenPairRequest" QueryTokenPairRequest_cases QueryTokenPairRequest_append.
Definition QueryTokenPairRequest_methods : Methods QueryTokenPairRequest :=
  mkMethods (mkQueryTokenPairRequest "" []) (api_size QueryTokenPairRequest_size) (api_marshal QueryTokenPairRequest_size QueryTokenPairRequest_marshal) QueryTokenPairRequest_unmarshal.

(** ** [QueryTokenPairResponse] *)

Record QueryTokenPairResponse := mkQueryTokenPairResponse { QueryTokenPairResponse_TokenPair : option TokenPair; QueryTokenPairResponse_unknownFields : bytes }.
Definition QueryTokenPairResponse_size (x : QueryTokenPairResponse) : Z :=
  api_size_pointer TokenPair_methods (QueryTokenPairResponse_TokenPair x) + blen (QueryTokenPairResponse_unknownFields x).
Definition QueryTokenPairResponse_marshal (x : QueryTokenPairResponse) : writer :=
  put_raw (QueryTokenPairResponse_unknownFields x) ;>
  api_put_pointer TokenPair_methods 0xa (QueryTokenPairResponse_TokenPair x).
Definition QueryTokenPairResponse_cases (discard : bool) (x : QueryTokenPairResponse) (fieldNum wireType : Z) : option (reader QueryTokenPairResponse) :=
  let '(mkQueryTokenPairResponse tokenPair_ unknown) := x in
  match fieldNum with
  | 1 => Some (api_get_pointer TokenPair_methods discard "TokenPair" wireType tokenPair_ (fun v => mkQueryTokenPairResponse v unknown))
  | _ => None
  end.
Definition QueryTokenPairResponse_append (u : bytes) (x : QueryTokenPairResponse) : QueryTokenPairResponse := let '(mkQueryTokenPairResponse tokenPair_ unknown) := x in mkQueryTokenPairResponse tokenPair_ (unknown ++ u).
Definition QueryTokenPairResponse_unmarshal : bool -> bytes -> option QueryTokenPairResponse -> outcome (option QueryTokenPairResponse) := api_unmarshal "QueryTokenPairResponse" QueryTokenPairResponse_cases QueryTokenPairResponse_append.
Definition QueryTokenPairResponse_methods : Methods QueryTokenPairResponse :=
  mkMethods (mkQueryTokenPairResponse None []) (api_size QueryTokenPairResponse_size) (api_marshal QueryTokenPairResponse_size QueryTokenPairResponse_marshal) QueryTokenPairResponse_unmarshal.

(** ** [QueryParamsRequest] *)

Record QueryParamsRequest := mkQueryParamsRequest { QueryParamsRequest_unknownFields : bytes }.
Definition QueryParamsRequest_size (x : QueryParamsRequest) : Z :=
  blen (QueryParamsRequest_unknownFields x).
Definition QueryParamsRequest_marshal (x : QueryParamsRequest) : writer :=
  put_raw (QueryParamsRequest_unknownFields x).
Definition QueryParamsRequest_cases (discard : bool) (x : QueryParamsRequest) (fieldNum wireType : Z) : option (reader QueryParamsRequest) := None.
Definition QueryParamsRequest_append (u : bytes) (x : QueryParamsRequest) : QueryParamsRequest := let '(mkQueryParamsRequest unknown) := x in mkQueryParamsRequest (unknown ++ u).
Definition QueryParamsRequest_unmarshal : bool -> bytes -> option QueryParamsRequest -> outcome (option QueryParamsRequest) := api_unmarshal "QueryParamsRequest" QueryParamsRequest_cases QueryParamsRequest_append.
Definition QueryParamsRequest_methods : Methods QueryParamsRequest :=
  mkMethods (mkQueryParamsRequest []) (api_size QueryParamsRequest_size) (api_marshal QueryParamsRequest_size QueryParamsRequest_marshal) QueryParamsRequest_unmarshal.

(** ** [QueryParamsResponse] *)

Record QueryParamsResponse := mkQueryParamsResponse { QueryParamsResponse_Params : option Params; QueryParamsResponse_unknownFields : bytes }.
Definition QueryParamsResponse_size (x : QueryParamsResponse) : Z :=
  api_size_pointer Params_methods (QueryParamsResponse_Params x) + blen (QueryParamsResponse_unknownFields x).
Definition QueryParamsResponse_marshal (x : QueryParamsResponse) : writer :=
  put_raw (QueryParamsResponse_unknownFields x) ;>
  api_put_pointer Params_methods 0xa (QueryParamsResponse_Params x).
Definition QueryParamsResponse_cases (discard : bool) (x : QueryParamsResponse) (fieldNum wireType : Z) : option (reader QueryParamsResponse) :=
  let '(mkQueryParamsResponse params_ unknown) := x in
  match fieldNum with
  | 1 => Some (api_get_pointer Params_methods discard "Params" wireType params_ (fun v => mkQueryParamsResponse v unknown))
  | _ => None
  end.
Definition QueryParamsResponse_append (u : bytes) (x : QueryParamsResponse) : QueryParamsResponse := let '(mkQueryParamsResponse params_ unknown) := x in mkQueryParamsResponse params_ (unknown ++ u).
Definition QueryParamsResponse_unmarshal : bool -> bytes -> option QueryParamsResponse -> outcome (option QueryParamsResponse) := api_unmarshal "QueryParamsResponse" QueryParamsResponse_cases QueryParamsResponse_append.
Definition QueryParamsResponse_methods : Methods QueryParamsResponse :=
  mkMethods (mkQueryParamsResponse None []) (api_size QueryParamsResponse_size) (api_marshal QueryParamsResponse_size QueryParamsResponse_marshal) QueryParamsResponse_unmarshal.

(** ** [MsgConvertCoin] *)

Record MsgConvertCoin := mkMsgConvertCoin { MsgConvertCoin_Coin : option api_Coin; MsgConvertCoin_Receiver : string; MsgConvertCoin_Sender : string; MsgConvertCoin_unknownFields : bytes }.
Definition MsgConvertCoin_size (x : MsgConvertCoin) : Z :=
  api_size_pointer api_Coin_methods (MsgConvertCoin_Coin x) + api_size_string (MsgConvertCoin_Receiver x) + api_size_string (MsgConvertCoin_Sender x) + blen (MsgConvertCoin_unknownFields x).
Definition MsgConvertCoin_marshal (x : MsgConvertCoin) : writer :=
  put_raw (MsgConvertCoin_unknownFields x) ;>
  api_put_string 0x1a (MsgConvertCoin_Sender x) ;>
  api_put_string 0x12 (MsgConvertCoin_Receiver x) ;>
  api_put_pointer api_Coin_methods 0xa (MsgConvertCoin_Coin x).
Definition MsgConvertCoin_cases (discard : bool) (x : MsgConvertCoin) (fieldNum wireType : Z) : option (reader MsgConvertCoin) :=
  let '(mkMsgConvertCoin coin_ receiver_ sender_ unknown) := x in
  match fieldNum with
  | 1 => Some (api_get_pointer api_Coin_methods discard "Coin" wireType coin_ (fun v => mkMsgConvertCoin v receiver_ sender_ unknown))
  | 2 => Some (get_string "Receiver" wireType (fun v => mkMsgConvertCoin coin_ v sender_ unknown))
  | 3 => Some (get_string "Sender" wireType (fun v => mkMsgConvertCoin coin_ receiver_ v unknown))
  | _ => None
  end.
Definition MsgConvertCoin_append (u : bytes) (x : MsgConvertCoin) : MsgConvertCoin := let '(mkMsgConvertCoin coin_ receiver_ sender_ unknown) := x in mkMsgConvertCoin coin_ receiver_ sender_ (unknown ++ u).
Definition MsgConvertCoin_unmarshal : bool -> bytes -> option MsgConvertCoin -> outcome (option MsgConvertCoin) := api_unmarshal "MsgConvertCoin" MsgConvertCoin_cases MsgConvertCoin_append.
Definition MsgConvertCoin_methods : Methods MsgConvertCoin :=
  mkMethods (mkMsgConvertCoin None "" "" []) (api_size MsgConvertCoin_size) (api_marshal MsgConvertCoin_size MsgConvertCoin_marshal) MsgConvertCoin_unmarshal.

(** ** [MsgConvertCoinResponse] *)

Record MsgConvertCoinResponse := mkMsgConvertCoinResponse { MsgConvertCoinResponse_unknownFields : bytes }.
Definition MsgConvertCoinResponse_size (x : MsgConvertCoinResponse) : Z :=
  blen (MsgConvertCoinResponse_unknownFields x).
Definition MsgConvertCoinResponse_marshal (x : MsgConvertCoinResponse) : writer :=
  put_raw (MsgConvertCoinResponse_unknownFields x).
Definition MsgConvertCoinResponse_cases (discard : bool) (x : MsgConvertCoinResponse) (fieldNum wireType : Z) : option (reader MsgConvertCoinResponse) := None.
Definition MsgConvertCoinResponse_append (u : bytes) (x : MsgConvertCoinResponse) : MsgConvertCoinResponse := let '(mkMsgConvertCoinResponse unknown) := x in mkMsgConvertCoinResponse (unknown ++ u).
Definition MsgConvertCoinResponse_unmarshal : bool -> bytes -> option MsgConvertCoinResponse -> outcome (option MsgConvertCoinResponse) := api_unmarshal "MsgConvertCoinResponse" MsgConvertCoinResponse_cases MsgConvertCoinResponse_append.
Definition MsgConvertCoinResponse_methods : Methods MsgConvertCoinResponse :=
  mkMethods (mkMsgConvertCoinResponse []) (api_size MsgConvertCoinResponse_size) (api_marshal MsgConvertCoinResponse_size MsgConvertCoinResponse_marshal) MsgConvertCoinResponse_unmarshal.

(** ** [MsgConvertERC20] *)

Record MsgConvertERC20 := mkMsgConvertERC20 { MsgConvertERC20_ContractAddress : string; MsgConvertERC20_Amount : string; MsgConvertERC20_Receiver : string; MsgConvertERC20_Sender : string; MsgConvertERC20_unknownFields : bytes }.
Definition MsgConvertERC20_size (x : MsgConvertERC20) : Z :=
  api_size_string (MsgConvertERC20_ContractAddress x) + api_size_string (MsgConvertERC20_Amount x) + api_size_string (MsgConvertERC20_Receiver x) + api_size_string (MsgConvertERC20_Sender x) + blen (MsgConvertERC20_unknownFields x).
Definition MsgConvertERC20_marshal (x : MsgConvertERC20) : writer :=
  put_raw (MsgConvertERC20_unknownFields x) ;>
  api_put_string 0x22 (MsgConvertERC20_Sender x) ;>
  api_put_string 0x1a (MsgConvertERC20_Receiver x) ;>
  api_put_string 0x12 (MsgConvertERC20_Amount x) ;>
  api_put_string 0xa (MsgConvertERC20_ContractAddress x).
Definition MsgConvertERC20_cases (discard : bool) (x : MsgConvertERC20) (fieldNum wireType : Z) : option (reader MsgConvertERC20) :=
  let '(mkMsgConvertERC20 contractAddress_ amount_ receiver_ sender_ unknown) := x in
  match fieldNum with
  | 1 => Some (get_string "ContractAddress" wireType (fun v => mkMsgConvertERC20 v amount_ receiver_ sender_ unknown))
  | 2 => Some (get_string "Amount" wireType (fun v => mkMsgConvertERC20 contractAddress_ v receiver_ sender_ unknown))
  | 3 => Some (get_string "Receiver" wireType (fun v => mkMsgConvertERC20 contractAddress_ amount_ v sender_ unknown))
  | 4 => Some (get_string "Sender" wireType (fun v => mkMsgConvertERC20 contractAddress_ amount_ receiver_ v unknown))
  | _ => None
  end.
Definition MsgConvertERC20_append (u : bytes) (x : MsgConvertERC20) : MsgConvertERC20 := let '(mkMsgConvertERC20 contractAddress_ amount_ receiver_ sender_ unknown) := x in mkMsgConvertERC20 contractAddress_ amount_ receiver_ sender_ (unknown ++ u).
Definition MsgConvertERC20_unmarshal : bool -> bytes -> option MsgConvertERC20 -> outcome (option MsgConvertERC20) := api_unmarshal "MsgConvertERC20" MsgConvertERC20_cases MsgConvertERC20_append.
Definition MsgConvertERC20_methods : Methods MsgConvertERC20 :=
  mkMethods (mkMsgConvertERC20 "" "" "" "" []) (api_size MsgConvertERC20_size) (api_marshal MsgConvertERC20_size MsgConvertERC20_marshal) MsgConvertERC20_unmarshal.

(** ** [MsgConvertERC20Response] *)

Record MsgConvertERC20Response := mkMsgConvertERC20Response { MsgConvertERC20Response_unknownFields : bytes }.
Definition MsgConvertERC20Response_size (x : MsgConvertERC20Response) : Z :=
  blen (MsgConvertERC20Response_unknownFields x).
Definition MsgConvertERC20Response_marshal (x : MsgConvertERC20Response) : writer :=
  put_raw (MsgConvertERC20Response_unknownFields x).
Definition MsgConvertERC20Response_cases (discard : bool) (x : MsgConvertERC20Response) (fieldNum wireType : Z) : option (reader MsgConvertERC20Response) := None.
Definition MsgConvertERC20Response_append (u : bytes) (x : MsgConvertERC20Response) : MsgConvertERC20Response := let '(mkMsgConvertERC20Response unknown) := x in mkMsgConvertERC20Response (unknown ++ u).
Definition MsgConvertERC20Response_unmarshal : bool -> bytes -> option MsgConvertERC20Response -> outcome (option MsgConvertERC20Response) := api_unmarshal "MsgConvertERC20Response" MsgConvertERC20Response_cases MsgConvertERC20Response_append.
Definition MsgConvertERC20Response_methods : Methods MsgConvertERC20Response :=
  mkMethods (mkMsgConvertERC20Response []) (api_size MsgConvertERC20Response_size) (api_marshal MsgConvertERC20Response_size MsgConvertERC20Response_marshal) MsgConvertERC20Response_unmarshal.

(** ** [MsgUpdateParams] *)

Record MsgUpdateParams := mkMsgUpdateParams { MsgUpdateParams_Authority : string; MsgUpdateParams_Params : option Params; MsgUpdateParams_unknownFields : bytes }.
Definition MsgUpdateParams_size (x : MsgUpdateParams) : Z :=
  api_size_string (MsgUpdateParams_Authority x) + api_size_pointer Params_methods (MsgUpdateParams_Params x) + blen (MsgUpdateParams_unknownFields x).
Definition MsgUpdateParams_marshal (x : MsgUpdateParams) : writer :=
  put_raw (MsgUpdateParams_unknownFields x) ;>
  api_put_pointer Params_methods 0x12 (MsgUpdateParams_Params x) ;>
  api_put_string 0xa (MsgUpdateParams_Authority x).
Definition MsgUpdateParams_cases (discard : bool) (x : MsgUpdateParams) (fieldNum wireType : Z) : option (reader MsgUpdateParams) :=
  let '(mkMsgUpdateParams authority_ params_ unknown) := x in
  match fieldNum with
  | 1 => Some (get_string "Authority" wireType (fun v => mkMsgUpdateParams v params_ unknown))
  | 2 => Some (api_get_pointer Params_methods discard "Params" wireType params_ (fun v => mkMsgUpdateParams authority_ v unknown))
  | _ => None
  end.
Definition MsgUpdateParams_append (u : bytes) (x : MsgUpdateParams) : MsgUpdateParams := let '(mkMsgUpdateParams authority_ params_ unknown) := x in mkMsgUpdateParams authority_ params_ (unknown ++ u).
Definition MsgUpdateParams_unmarshal : bool -> bytes -> option MsgUpdateParams -> outcome (option MsgUpdateParams) := api_unmarshal "MsgUpdateParams" MsgUpdateParams_cases MsgUpdateParams_append.
Definition MsgUpdateParams_methods : Methods MsgUpdateParams :=
  mkMethods (mkMsgUpdateParams "" None []) (api_size MsgUpdateParams_size) (api_marshal MsgUpdateParams_size MsgUpdateParams_marshal) MsgUpdateParams_unmarshal.

(** ** [MsgUpdateParamsResponse] *)

Record MsgUpdateParamsResponse := mkMsgUpdateParamsResponse { MsgUpdateParamsResponse_unknownFields : bytes }.
Definition MsgUpdateParamsResponse_size (x : MsgUpdateParamsResponse) : Z :=
  blen (MsgUpdateParamsResponse_unknownFields x).
Definition MsgUpdateParamsResponse_marshal (x : MsgUpdateParamsResponse) : writer :=
  put_raw (MsgUpdateParamsResponse_unknownFields x).
Definition MsgUpdateParamsResponse_cases (discard : bool) (x : MsgUpdateParamsResponse) (fieldNum wireType : Z) : option (reader MsgUpdateParamsResponse) := None.
Definition MsgUpdateParamsResponse_append (u : bytes) (x : MsgUpdateParamsResponse) : MsgUpdateParamsResponse := let '(mkMsgUpdateParamsResponse unknown) := x in mkMsgUpdateParamsResponse (unknown ++ u).
Definition MsgUpdateParamsResponse_unmarshal : bool -> bytes -> option MsgUpdateParamsResponse -> outcome (option MsgUpdateParamsResponse) := api_unmarshal "MsgUpdateParamsResponse" MsgUpdateParamsResponse_cases MsgUpdateParamsResponse_append.
Definition MsgUpdateParamsResponse_methods : Methods MsgUpdateParamsResponse :=
  mkMethods (mkMsgUpdateParamsResponse []) (api_size MsgUpdateParamsResponse_size) (api_marshal MsgUpdateParamsResponse_size MsgUpdateParamsResponse_marshal) MsgUpdateParamsResponse_unmarshal.

(** ** [MsgRegisterCoin] *)

Record MsgRegisterCoin := mkMsgRegisterCoin { MsgRegisterCoin_Authority : string; MsgRegisterCoin_Title : string; MsgRegisterCoin_Description : string; MsgRegisterCoin_Metadata : option api_Metadata; MsgRegisterCoin_unknownFields : bytes }.
Definition MsgRegisterCoin_size (x : MsgRegisterCoin) : Z :=
  api_size_string (MsgRegisterCoin_Authority x) + api_size_string (MsgRegisterCoin_Title x) + api_size_string (MsgRegisterCoin_Description x) + api_size_pointer api_Metadata_methods (MsgRegisterCoin_Metadata x) + blen (MsgRegisterCoin_unknownFields x).
Definition MsgRegisterCoin_marshal (x : MsgRegisterCoin) : writer :=
  put_raw (MsgRegisterCoin_unknownFields x) ;>
  api_put_pointer api_Metadata_methods 0x22 (MsgRegisterCoin_Metadata x) ;>
  api_put_string 0x1a (MsgRegisterCoin_Description x) ;>
  api_put_string 0x12 (MsgRegisterCoin_Title x) ;>
  api_put_string 0xa (MsgRegisterCoin_Authority x).
Definition MsgRegisterCoin_cases (discard : bool) (x : MsgRegisterCoin) (fieldNum wireType : Z) : option (reader MsgRegisterCoin) :=
  let '(mkMsgRegisterCoin authority_ title_ description_ metadata_ unknown) := x in
  match fieldNum with
  | 1 => Some (get_string "Authority" wireType (fun v => mkMsgRegisterCoin v title_ description_ metadata_ unknown))
  | 2 => Some (get_string "Title" wireType (fun v => mkMsgRegisterCoin authority_ v description_ metadata_ unknown))
  | 3 => Some (get_string "Description" wireType (fun v => mkMsgRegisterCoin authority_ title_ v metadata_ unknown))
  | 4 => Some (api_get_pointer api_Metadata_methods discard "Metadata" wireType metadata_ (fun v => mkMsgRegisterCoin authority_ title_ description_ v unknown))
  | _ => None
  end.
Definition MsgRegisterCoin_append (u : bytes) (x : MsgRegisterCoin) : MsgRegisterCoin := let '(mkMsgRegisterCoin authority_ title_ description_ metadata_ unknown) := x in mkMsgRegisterCoin authority_ title_ description_ metadata_ (unknown ++ u).
Definition MsgRegisterCoin_unmarshal : bool -> bytes -> option MsgRegisterCoin -> outcome (option MsgRegisterCoin) := api_unmarshal "MsgRegisterCoin" MsgRegisterCoin_cases MsgRegisterCoin_append.
Definition MsgRegisterCoin_methods : Methods MsgRegisterCoin :=
  mkMethods (mkMsgRegisterCoin "" "" "" None []) (api_size MsgRegisterCoin_size) (api_marshal MsgRegisterCoin_size MsgRegisterCoin_marshal) MsgRegisterCoin_unmarshal.

(** ** [MsgRegisterCoinResponse] *)

Record MsgRegisterCoinResponse := mkMsgRegisterCoinResponse { MsgRegisterCoinResponse_unknownFields : bytes }.
Definition MsgRegisterCoinResponse_size (x : MsgRegisterCoinResponse) : Z :=
  blen (MsgRegisterCoinResponse_unknownFields x).
Definition MsgRegisterCoinResponse_marshal (x : MsgRegisterCoinResponse) : writer :=
  put_raw (MsgRegisterCoinResponse_unknownFields x).
Definition MsgRegisterCoinResponse_cases (discard : bool) (x : MsgRegisterCoinResponse) (fieldNum wireType : Z) : option (reader MsgRegisterCoinResponse) := None.
Definition MsgRegisterCoinResponse_append (u : bytes) (x : MsgRegisterCoinResponse) : MsgRegisterCoinResponse := let '(mkMsgRegisterCoinResponse unknown) := x in mkMsgRegisterCoinResponse (unknown ++ u).
Definition MsgRegisterCoinResponse_unmarshal : bool -> bytes -> option MsgRegisterCoinResponse -> outcome (option MsgRegisterCoinResponse) := api_unmarshal "MsgRegisterCoinResponse" MsgRegisterCoinResponse_cases MsgRegisterCoinResponse_append.
Definition MsgRegisterCoinResponse_methods : Methods MsgRegisterCoinResponse :=
  mkMethods (mkMsgRegisterCoinResponse []) (api_size MsgRegisterCoinResponse_size) (api_marshal MsgRegisterCoinResponse_size MsgRegisterCoinResponse_marshal) MsgRegisterCoinResponse_unmarshal.

(** ** [MsgRegisterERC20] *)

Record MsgRegisterERC20 := mkMsgRegisterERC20 { MsgRegisterERC20_Authority : string; MsgRegisterERC20_Title : string; MsgRegisterERC20_Description : string; MsgRegisterERC20_Erc20Address : string; MsgRegisterERC20_unknownFields : bytes }.
Definition MsgRegisterERC20_size (x : MsgRegisterERC20) : Z :=
  api_size_string (MsgRegisterERC20_Authority x) + api_size_string (MsgRegisterERC20_Title x) + api_size_string (MsgRegisterERC20_Description x) + api_size_string (MsgRegisterERC20_Erc20Address x) + blen (MsgRegisterERC20_unknownFields x).
Definition MsgRegisterERC20_marshal (x : MsgRegisterERC20) : writer :=
  put_raw (MsgRegisterERC20_unknownFields x) ;>
  api_put_string 0x22 (MsgRegisterERC20_Erc20Address x) ;>
  api_put_string 0x1a (MsgRegisterERC20_Description x) ;>
  api_put_string 0x12 (MsgRegisterERC20_Title x) ;>
  api_put_string 0xa (MsgRegisterERC20_Authority x).
Definition MsgRegisterERC20_cases (discard : bool) (x : MsgRegisterERC20) (fieldNum wireType : Z) : option (reader MsgRegisterERC20) :=
  let '(mkMsgRegisterERC20 authority_ title_ description_ erc20Address_ unknown) := x in
  match fieldNum with
  | 1 => Some (get_string "Authority" wireType (fun v => mkMsgRegisterERC20 v title_ description_ erc20Address_ unknown))
  | 2 => Some (get_string "Title" wireType (fun v => mkMsgRegisterERC20 authority_ v description_ erc20Address_ unknown))
  | 3 => Some (get_string "Description" wireType (fun v => mkMsgRegisterERC20 authority_ title_ v erc20Address_ unknown))
  | 4 => Some (get_string "Erc20Address" wireType (fun v => mkMsgRegisterERC20 authority_ title_ description_ v unknown))
  | _ => None
  end.
Definition MsgRegisterERC20_append (u : bytes) (x : MsgRegisterERC20) : MsgRegisterERC20 := let '(mkMsgRegisterERC20 authority_ title_ description_ erc20Address_ unknown) := x in mkMsgRegisterERC20 authority_ title_ description_ erc20Address_ (unknown ++ u).
Definition MsgRegisterERC20_unmarshal : bool -> bytes -> option MsgRegisterERC20 -> outcome (option MsgRegisterERC20) := api_unmarshal "MsgRegisterERC20" MsgRegisterERC20_cases MsgRegisterERC20_append.
Definition MsgRegisterERC20_methods : Methods MsgRegisterERC20 :=
  mkMethods (mkMsgRegisterERC20 "" "" "" "" []) (api_size MsgRegisterERC20_size) (api_marshal MsgRegisterERC20_size MsgRegisterERC20_marshal) MsgRegisterERC20_unmarshal.

(** ** [MsgRegisterERC20Response] *)

Record MsgRegisterERC20Response := mkMsgRegisterERC20Response { MsgRegisterERC20Response_unknownFields : bytes }.
Definition MsgRegisterERC20Response_size (x : MsgRegisterERC20Response) : Z :=
  blen (MsgRegisterERC20Response_unknownFields x).
Definition MsgRegisterERC20Response_marshal (x : MsgRegisterERC20Response) : writer :=
  put_raw (MsgRegisterERC20Response_unknownFields x).
Definition MsgRegisterERC20Response_cases (discard : bool) (x : MsgRegisterERC20Response) (fieldNum wireType : Z) : option (reader MsgRegisterERC20Response) := None.
Definition MsgRegisterERC20Response_append (u : bytes) (x : MsgRegisterERC20Response) : MsgRegisterERC20Response := let '(mkMsgRegisterERC20Response unknown) := x in mkMsgRegisterERC20Response (unknown ++ u).
Definition MsgRegisterERC20Response_unmarshal : bool -> bytes -> option MsgRegisterERC20Response -> outcome (option MsgRegisterERC20Response) := api_unmarshal "MsgRegisterERC20Response" MsgRegisterERC20Response_cases MsgRegisterERC20Response_append.
Definition MsgRegisterERC20Response_methods : Methods MsgRegisterERC20Response :=
  mkMethods (mkMsgRegisterERC20Response []) (api_size MsgRegisterERC20Response_size) (api_marshal MsgRegisterERC20Response_size MsgRegisterERC20Response_marshal) MsgRegisterERC20Response_unmarshal.

(** ** [MsgToggleTokenConversion] *)

Record MsgToggleTokenConversion := mkMsgToggleTokenConversion { MsgToggleTokenConversion_Authority : string; MsgToggleTokenConversion_Title : string; MsgToggleTokenConversion_Description : string; MsgToggleTokenConversion_Token : string; MsgToggleTokenConversion_unknownFields : bytes }.
Definition MsgToggleTokenConversion_size (x : MsgToggleTokenConversion) : Z :=
  api_size_string (MsgToggleTokenConversion_Authority x) + api_size_string (MsgToggleTokenConversion_Title x) + api_size_string (MsgToggleTokenConversion_Description x) + api_size_string (MsgToggleTokenConversion_Token x) + blen (MsgToggleTokenConversion_unknownFields x).
Definition MsgToggleTokenConversion_marshal (x : MsgToggleTokenConversion) : writer :=
  put_raw (MsgToggleTokenConversion_unknownFields x) ;>
  api_put_string 0x22 (MsgToggleTokenConversion_Token x) ;>
  api_put_string 0x1a (MsgToggleTokenConversion_Description x) ;>
  api_put_string 0x12 (MsgToggleTokenConversion_Title x) ;>
  api_put_string 0xa (MsgToggleTokenConversion_Authority x).
Definition MsgToggleTokenConversion_cases (discard : bool) (x : MsgToggleTokenConversion) (fieldNum wireType : Z) : option (reader MsgToggleTokenConversion) :=
  let '(mkMsgToggleTokenConversion authority_ title_ description_ token_ unknown) := x in
  match fieldNum with
  | 1 => Some (get_string "Authority" wireType (fun v => mkMsgToggleTokenConversion v title_ description_ token_ unknown))
  | 2 => Some (get_string "Title" wireType (fun v => mkMsgToggleTokenConversion authority_ v description_ token_ unknown))
  | 3 => Some (get_string "Description" wireType (fun v => mkMsgToggleTokenConversion authority_ title_ v token_ unknown))
  | 4 => Some (get_string "Token" wireType (fun v => mkMsgToggleTokenConversion authority_ title_ description_ v unknown))
  | _ => None
  end.
Definition MsgToggleTokenConversion_append (u : bytes) (x : MsgToggleTokenConversion) : MsgToggleTokenConversion := let '(mkMsgToggleTokenConversion authority_ title_ description_ token_ unknown) := x in mkMsgToggleTokenConversion authority_ title_ description_ token_ (unknown ++ u).
Definition MsgToggleTokenConversion_unmarshal : bool -> bytes -> option MsgToggleTokenConversion -> outcome (option MsgToggleTokenConversion) := api_unmarshal "MsgToggleTokenConversion" MsgToggleTokenConversion_cases MsgToggleTokenConversion_append.
Definition MsgToggleTokenConversion_methods : Methods MsgToggleTokenConversion :=
  mkMethods (mkMsgToggleTokenConversion "" "" "" "" []) (api_size MsgToggleTokenConversion_size) (api_marshal MsgToggleTokenConversion_size MsgToggleTokenConversion_marshal) MsgToggleTokenConversion_unmarshal.

(** ** [MsgToggleTokenConversionResponse] *)

Record MsgToggleTokenConversionResponse := mkMsgToggleTokenConversionResponse { MsgToggleTokenConversionResponse_unknownFields : bytes }.
Definition MsgToggleTokenConversionResponse_size (x : MsgToggleTokenConversionResponse) : Z :=
  blen (MsgToggleTokenConversionResponse_unknownFields x).
Definition MsgToggleTokenConversionResponse_marshal (x : MsgToggleTokenConversionResponse) : writer :=
  put_raw (MsgToggleTokenConversionResponse_unknownFields x).
Definition MsgToggleTokenConversionResponse_cases (discard : bool) (x : MsgToggleTokenConversionResponse) (fieldNum wireType : Z) : option (reader MsgToggleTokenConversionResponse) := None.
Definition MsgToggleTokenConversionResponse_append (u : bytes) (x : MsgToggleTokenConversionResponse) : MsgToggleTokenConversionResponse := let '(mkMsgToggleTokenConversionResponse unknown) := x in mkMsgToggleTokenConversionResponse (unknown ++ u).
Definition MsgToggleTokenConversionResponse_unmarshal : bool -> bytes -> option MsgToggleTokenConversionResponse -> outcome (option MsgToggleTokenConversionResponse) := api_unmarshal "MsgToggleTokenConversionResponse" MsgToggleTokenConversionResponse_cases MsgToggleTokenConversionResponse_append.
Definition MsgToggleTokenConversionResponse_methods : Methods MsgToggleTokenConversionResponse :=
  mkMethods (mkMsgToggleTokenConversionResponse []) (api_size MsgToggleTokenConversionResponse_size) (api_marshal MsgToggleTokenConversionResponse_size MsgToggleTokenConversionResponse_marshal) MsgToggleTokenConversionResponse_unmarshal.

(** ** Well-formed messages and their encodings *)

Context {RL : ProtoRuntimeLaws} {AL : ApiSdkLaws AS}.

Definition TokenPair_wf (x : TokenPair) : Prop := is_int32 (TokenPair_ContractOwner x) ∧ unknown_bytes [1; 2; 3; 4] (TokenPair_unknownFields x).
Definition TokenPair_fields_enc (x : TokenPair) : bytes :=
  enc_string 0xa (TokenPair_Erc20Address x) ++
  enc_string 0x12 (TokenPair_Denom x) ++
  enc_bool 0x18 (TokenPair_Enabled x) ++
  enc_varint 0x20 (TokenPair_ContractOwner x).
Definition TokenPair_enc (x : TokenPair) : bytes := TokenPair_fields_enc x ++ TokenPair_unknownFields x.
Lemma erc20_TokenPair_api_laws : MethodLaws TokenPair_methods TokenPair_wf TokenPair_enc.
Proof. api_message_laws TokenPair_wf TokenPair_enc TokenPair_fields_enc TokenPair_size TokenPair_marshal TokenPair_cases TokenPair_append. Qed.
#[local] Hint Resolve erc20_TokenPair_api_laws : api_laws.

Definition TokenPairDenomIndex_wf (x : TokenPairDenomIndex) : Prop := unknown_bytes [1; 2] (TokenPairDenomIndex_unknownFields x).
Definition TokenPairDenomIndex_fields_enc (x : TokenPairDenomIndex) : bytes :=
  enc_string 0xa (TokenPairDenomIndex_Denom x) ++
  enc_bytes 0x12 (TokenPairDenomIndex_TokenPairId x).
Definition TokenPairDenomIndex_enc (x : TokenPairDenomIndex) : bytes := TokenPairDenomIndex_fields_enc x ++ TokenPairDenomIndex_unknownFields x.
Lemma erc20_TokenPairDenomIndex_api_laws : MethodLaws TokenPairDenomIndex_methods TokenPairDenomIndex_wf TokenPairDenomIndex_enc.
Proof. api_message_laws TokenPairDenomIndex_wf TokenPairDenomIndex_enc TokenPairDenomIndex_fields_enc TokenPairDenomIndex_size TokenPairDenomIndex_marshal TokenPairDenomIndex_cases TokenPairDenomIndex_append. Qed.
#[local] Hint Resolve erc20_TokenPairDenomIndex_api_laws : api_laws.

Definition TokenPairERC20AddressIndex_wf (x : TokenPairERC20AddressIndex) : Prop := unknown_bytes [1; 2] (TokenPairERC20AddressIndex_unknownFields x).
Definition TokenPairERC20AddressIndex_fields_enc (x : TokenPairERC20AddressIndex) : bytes :=
  enc_bytes 0xa (TokenPairERC20AddressIndex_Erc20Address x) ++
  enc_bytes 0x12 (TokenPairERC20AddressIndex_TokenPairId x).
Definition TokenPairERC20AddressIndex_enc (x : TokenPairERC20AddressIndex) : bytes := TokenPairERC20AddressIndex_fields_enc x ++ TokenPairERC20AddressIndex_unknownFields x.
Lemma erc20_TokenPairERC20AddressIndex_api_laws : MethodLaws TokenPairERC20AddressIndex_methods TokenPairERC20AddressIndex_wf TokenPairERC20AddressIndex_enc.
Proof. api_message_laws TokenPairERC20AddressIndex_wf TokenPairERC20AddressIndex_enc TokenPairERC20AddressIndex_fields_enc TokenPairERC20AddressIndex_size TokenPairERC20AddressIndex_marshal TokenPairERC20AddressIndex_cases TokenPairERC20AddressIndex_append. Qed.
#[local] Hint Resolve erc20_TokenPairERC20AddressIndex_api_laws : api_laws.

Definition RegisterCoinProposal_wf (x : RegisterCoinProposal) : Prop := (∀ a, RegisterCoinProposal_Metadata x = Some a -> api_Metadata_wf a) ∧ unknown_bytes [1; 2; 3] (RegisterCoinProposal_unknownFields x).
Definition RegisterCoinProposal_fields_enc (x : RegisterCoinProposal) : bytes :=
  enc_string 0xa (RegisterCoinProposal_Title x) ++
  enc_string 0x12 (RegisterCoinProposal_Description x) ++
  enc_pointer api_Metadata_enc 0x1a (RegisterCoinProposal_Metadata x).
Definition RegisterCoinProposal_enc (x : RegisterCoinProposal) : bytes := RegisterCoinProposal_fields_enc x ++ RegisterCoinProposal_unknownFields x.
Lemma erc20_RegisterCoinProposal_api_laws : MethodLaws RegisterCoinProposal_methods RegisterCoinProposal_wf RegisterCoinProposal_enc.
Proof. api_message_laws RegisterCoinProposal_wf RegisterCoinProposal_enc RegisterCoinProposal_fields_enc RegisterCoinProposal_size RegisterCoinProposal_marshal RegisterCoinProposal_cases RegisterCoinProposal_append. Qed.
#[local] Hint Resolve erc20_RegisterCoinProposal_api_laws : api_laws.

Definition RegisterERC20Proposal_wf (x : RegisterERC20Proposal) : Prop := unknown_bytes [1; 2; 3] (RegisterERC20Proposal_unknownFields x).
Definition RegisterERC20Proposal_fields_enc (x : RegisterERC20Proposal) : bytes :=
  enc_string 0xa (RegisterERC20Proposal_Title x) ++
  enc_string 0x12 (RegisterERC20Proposal_Description x) ++
  enc_string 0x1a (RegisterERC20Proposal_Erc20Address x).
Definition RegisterERC20Proposal_enc (x : RegisterERC20Proposal) : bytes := RegisterERC20Proposal_fields_enc x ++ RegisterERC20Proposal_unknownFields x.
Lemma erc20_RegisterERC20Proposal_api_laws : MethodLaws RegisterERC20Proposal_methods RegisterERC20Proposal_wf RegisterERC20Proposal_enc.
Proof. api_message_laws RegisterERC20Proposal_wf RegisterERC20Proposal_enc RegisterERC20Proposal_fields_enc RegisterERC20Proposal_size RegisterERC20Proposal_marshal RegisterERC20Proposal_cases RegisterERC20Proposal_append. Qed.
#[local] Hint Resolve erc20_RegisterERC20Proposal_api_laws : api_laws.

Definition ToggleTokenConversionProposal_wf (x : ToggleTokenConversionProposal) : Prop := unknown_bytes [1; 2; 3] (ToggleTokenConversionProposal_unknownFields x).
Definition ToggleTokenConversionProposal_fields_enc (x : ToggleTokenConversionProposal) : bytes :=
  enc_string 0xa (ToggleTokenConversionProposal_Title x) ++
  enc_string 0x12 (ToggleTokenConversionProposal_Description x) ++
  enc_string 0x1a (ToggleTokenConversionProposal_Token x).
Definition ToggleTokenConversionProposal_enc (x : ToggleTokenConversionProposal) : bytes := ToggleTokenConversionProposal_fields_enc x ++ ToggleTokenConversionProposal_unknownFields x.
Lemma erc20_ToggleTokenConversionProposal_api_laws : MethodLaws ToggleTokenConversionProposal_methods ToggleTokenConversionProposal_wf ToggleTokenConversionProposal_enc.
Proof. api_message_laws ToggleTokenConversionProposal_wf ToggleTokenConversionProposal_enc ToggleTokenConversionProposal_fields_enc ToggleTokenConversionProposal_size ToggleTokenConversionProposal_marshal ToggleTokenConversionProposal_cases ToggleTokenConversionProposal_append. Qed.
#[local] Hint Resolve erc20_ToggleTokenConversionProposal_api_laws : api_laws.

Definition Params_wf (x : Params) : Prop := unknown_bytes [1; 2] (Params_unknownFields x).
Definition Params_fields_enc (x : Params) : bytes :=
  enc_bool 0x8 (Params_EnableErc20 x) ++
  enc_bool 0x10 (Params_EnableEvmHook x).
Definition Params_enc (x : Params) : bytes := Params_fields_enc x ++ Params_unknownFields x.
Lemma erc20_Params_api_laws : MethodLaws Params_methods Params_wf Params_enc.
Proof. api_message_laws Params_wf Params_enc Params_fields_enc Params_size Params_marshal Params_cases Params_append. Qed.
#[local] Hint Resolve erc20_Params_api_laws : api_laws.

Definition GenesisState_wf (x : GenesisState) : Prop := (∀ a, GenesisState_Params x = Some a -> Params_wf a) ∧ Forall (element_wf TokenPair_wf) (GenesisState_TokenPairs x) ∧ Forall (element_wf TokenPairDenomIndex_wf) (GenesisState_DenomIndexes x) ∧ Forall (element_wf TokenPairERC20AddressIndex_wf) (GenesisState_Erc20AddressIndexes x) ∧ unknown_bytes [1; 2; 3; 4] (GenesisState_unknownFields x).
Definition GenesisState_fields_enc (x : GenesisState) : bytes :=
  enc_pointer Params_enc 0xa (GenesisState_Params x) ++
  enc_elements TokenPair_enc 0x12 (GenesisState_TokenPairs x) ++
  enc_elements TokenPairDenomIndex_enc 0x1a (GenesisState_DenomIndexes x) ++
  enc_elements TokenPairERC20AddressIndex_enc 0x22 (GenesisState_Erc20AddressIndexes x).
Definition GenesisState_enc (x : GenesisState) : bytes := GenesisState_fields_enc x ++ GenesisState_unknownFields x.
Lemma erc20_GenesisState_api_laws : MethodLaws GenesisState_methods GenesisState_wf GenesisState_enc.
Proof. api_message_laws GenesisState_wf GenesisState_enc GenesisState_fields_enc GenesisState_size GenesisState_marshal GenesisState_cases GenesisState_append. Qed.
#[local] Hint Resolve erc20_GenesisState_api_laws : api_laws.

Definition QueryTokenPairsRequest_wf (x : QueryTokenPairsRequest) : Prop := (∀ a, QueryTokenPairsRequest_Pagination x = Some a -> api_PageRequest_wf a) ∧ unknown_bytes [1] (QueryTokenPairsRequest_unknownFields x).
Definition QueryTokenPairsRequest_fields_enc (x : QueryTokenPairsRequest) : bytes :=
  enc_pointer api_PageRequest_enc 0xa (QueryTokenPairsRequest_Pagination x).
Definition QueryTokenPairsRequest_enc (x : QueryTokenPairsRequest) : bytes := QueryTokenPairsRequest_fields_enc x ++ QueryTokenPairsRequest_unknownFields x.
Lemma erc20_QueryTokenPairsRequest_api_laws : MethodLaws QueryTokenPairsRequest_methods QueryTokenPairsRequest_wf QueryTokenPairsRequest_enc.
Proof. api_message_laws QueryTokenPairsRequest_wf QueryTokenPairsRequest_enc QueryTokenPairsRequest_fields_enc QueryTokenPairsRequest_size QueryTokenPairsRequest_marshal QueryTokenPairsRequest_cases QueryTokenPairsRequest_append. Qed.
#[local] Hint Resolve erc20_QueryTokenPairsRequest_api_laws : api_laws.

Definition QueryTokenPairsResponse_wf (x : QueryTokenPairsResponse) : Prop := Forall (element_wf TokenPair_wf) (QueryTokenPairsResponse_TokenPairs x) ∧ (∀ a, QueryTokenPairsResponse_Pagination x = Some a -> api_PageResponse_wf a) ∧ unknown_bytes [1; 2] (QueryTokenPairsResponse_unknownFields x).
Definition QueryTokenPairsResponse_fields_enc (x : QueryTokenPairsResponse) : bytes :=
  enc_elements TokenPair_enc 0xa (QueryTokenPairsResponse_TokenPairs x) ++
  enc_pointer api_PageResponse_enc 0x12 (QueryTokenPairsResponse_Pagination x).
Definition QueryTokenPairsResponse_enc (x : QueryTokenPairsResponse) : bytes := QueryTokenPairsResponse_fields_enc x ++ QueryTokenPairsResponse_unknownFields x.
Lemma erc20_QueryTokenPairsResponse_api_laws : MethodLaws QueryTokenPairsResponse_methods QueryTokenPairsResponse_wf QueryTokenPairsResponse_enc.
Proof. api_message_laws QueryTokenPairsResponse_wf QueryTokenPairsResponse_enc QueryTokenPairsResponse_fields_enc QueryTokenPairsResponse_size QueryTokenPairsResponse_marshal QueryTokenPairsResponse_cases QueryTokenPairsResponse_append. Qed.
#[local] Hint Resolve erc20_QueryTokenPairsResponse_api_laws : api_laws.

Definition QueryTokenPairRequest_wf (x : QueryTokenPairRequest) : Prop := unknown_bytes [1] (QueryTokenPairRequest_unknownFields x).
Definition QueryTokenPairRequest_fields_enc (x : QueryTokenPairRequest) : bytes :=
  enc_string 0xa (QueryTokenPairRequest_Token x).
Definition QueryTokenPairRequest_enc (x : QueryTokenPairRequest) : bytes := QueryTokenPairRequest_fields_enc x ++ QueryTokenPairRequest_unknownFields x.
Lemma erc20_QueryTokenPairRequest_api_laws : MethodLaws QueryTokenPairRequest_methods QueryTokenPairRequest_wf QueryTokenPairRequest_enc.
Proof. api_message_laws QueryTokenPairRequest_wf QueryTokenPairRequest_enc QueryTokenPairRequest_fields_enc QueryTokenPairRequest_size QueryTokenPairRequest_marshal QueryTokenPairRequest_cases QueryTokenPairRequest_append. Qed.
#[local] Hint Resolve erc20_QueryTokenPairRequest_api_laws : api_laws.

Definition QueryTokenPairResponse_wf (x : QueryTokenPairResponse) : Prop := (∀ a, QueryTokenPairResponse_TokenPair x = Some a -> TokenPair_wf a) ∧ unknown_bytes [1] (QueryTokenPairResponse_unknownFields x).
Definition QueryTokenPairResponse_fields_enc (x : QueryTokenPairResponse) : bytes :=
  enc_pointer TokenPair_enc 0xa (QueryTokenPairResponse_TokenPair x).
Definition QueryTokenPairResponse_enc (x : QueryTokenPairResponse) : bytes := QueryTokenPairResponse_fields_enc x ++ QueryTokenPairResponse_unknownFields x.
Lemma erc20_QueryTokenPairResponse_api_laws : MethodLaws QueryTokenPairResponse_methods QueryTokenPairResponse_wf QueryTokenPairResponse_enc.
Proof. api_message_laws QueryTokenPairResponse_wf QueryTokenPairResponse_enc QueryTokenPairResponse_fields_enc QueryTokenPairResponse_size QueryTokenPairResponse_marshal QueryTokenPairResponse_cases QueryTokenPairResponse_append. Qed.
#[local] Hint Resolve erc20_QueryTokenPairResponse_api_laws : api_laws.

Definition QueryParamsRequest_wf (x : QueryParamsRequest) : Prop := unknown_bytes [] (QueryParamsRequest_unknownFields x).
Definition QueryParamsRequest_fields_enc (x : QueryParamsRequest) : bytes :=
  [].
Definition QueryParamsRequest_enc (x : QueryParamsRequest) : bytes := QueryParamsRequest_fields_enc x ++ QueryParamsRequest_unknownFields x.
Lemma erc20_QueryParamsRequest_api_laws : MethodLaws QueryParamsRequest_methods QueryParamsRequest_wf QueryParamsRequest_enc.
Proof. api_message_laws QueryParamsRequest_wf QueryParamsRequest_enc QueryParamsRequest_fields_enc QueryParamsRequest_size QueryParamsRequest_marshal QueryParamsRequest_cases QueryParamsRequest_append. Qed.
#[local] Hint Resolve erc20_QueryParamsRequest_api_laws : api_laws.

Definition QueryParamsResponse_wf (x : QueryParamsResponse) : Prop := (∀ a, QueryParamsResponse_Params x = Some a -> Params_wf a) ∧ unknown_bytes [1] (QueryParamsResponse_unknownFields x).
Definition QueryParamsResponse_fields_enc (x : QueryParamsResponse) : bytes :=
  enc_pointer Params_enc 0xa (QueryParamsResponse_Params x).
Definition QueryParamsResponse_enc (x : QueryParamsResponse) : bytes := QueryParamsResponse_fields_enc x ++ QueryParamsResponse_unknownFields x.
Lemma erc20_QueryParamsResponse_api_laws : MethodLaws QueryParamsResponse_methods QueryParamsResponse_wf QueryParamsResponse_enc.
Proof. api_message_laws QueryParamsResponse_wf QueryParamsResponse_enc QueryParamsResponse_fields_enc QueryParamsResponse_size QueryParamsResponse_marshal QueryParamsResponse_cases QueryParamsResponse_append. Qed.
#[local] Hint Resolve erc20_QueryParamsResponse_api_laws : api_laws.

Definition MsgConvertCoin_wf (x : MsgConvertCoin) : Prop := (∀ a, MsgConvertCoin_Coin x = Some a -> api_Coin_wf a) ∧ unknown_bytes [1; 2; 3] (MsgConvertCoin_unknownFields x).
Definition MsgConvertCoin_fields_enc (x : MsgConvertCoin) : bytes :=
  enc_pointer api_Coin_enc 0xa (MsgConvertCoin_Coin x) ++
  enc_string 0x12 (MsgConvertCoin_Receiver x) ++
  enc_string 0x1a (MsgConvertCoin_Sender x).
Definition MsgConvertCoin_enc (x : MsgConvertCoin) : bytes := MsgConvertCoin_fields_enc x ++ MsgConvertCoin_unknownFields x.
Lemma erc20_MsgConvertCoin_api_laws : MethodLaws MsgConvertCoin_methods MsgConvertCoin_wf MsgConvertCoin_enc.
Proof. api_message_laws MsgConvertCoin_wf MsgConvertCoin_enc MsgConvertCoin_fields_enc MsgConvertCoin_size MsgConvertCoin_marshal MsgConvertCoin_cases MsgConvertCoin_append. Qed.
#[local] Hint Resolve erc20_MsgConvertCoin_api_laws : api_laws.

Definition MsgConvertCoinResponse_wf (x : MsgConvertCoinResponse) : Prop := unknown_bytes [] (MsgConvertCoinResponse_unknownFields x).
Definition MsgConvertCoinResponse_fields_enc (x : MsgConvertCoinResponse) : bytes :=
  [].
Definition MsgConvertCoinResponse_enc (x : MsgConvertCoinResponse) : bytes := MsgConvertCoinResponse_fields_enc x ++ MsgConvertCoinResponse_unknownFields x.
Lemma erc20_MsgConvertCoinResponse_api_laws : MethodLaws MsgConvertCoinResponse_methods MsgConvertCoinResponse_wf MsgConvertCoinResponse_enc.
Proof. api_message_laws MsgConvertCoinResponse_wf MsgConvertCoinResponse_enc MsgConvertCoinResponse_fields_enc MsgConvertCoinResponse_size MsgConvertCoinResponse_marshal MsgConvertCoinResponse_cases MsgConvertCoinResponse_append. Qed.
#[local] Hint Resolve erc20_MsgConvertCoinResponse_api_laws : api_laws.

Definition MsgConvertERC20_wf (x : MsgConvertERC20) : Prop := unknown_bytes [1; 2; 3; 4] (MsgConvertERC20_unknownFields x).
Definition MsgConvertERC20_fields_enc (x : MsgConvertERC20) : bytes :=
  enc_string 0xa (MsgConvertERC20_ContractAddress x) ++
  enc_string 0x12 (MsgConvertERC20_Amount x) ++
  enc_string 0x1a (MsgConvertERC20_Receiver x) ++
  enc_string 0x22 (MsgConvertERC20_Sender x).
Definition MsgConvertERC20_enc (x : MsgConvertERC20) : bytes := MsgConvertERC20_fields_enc x ++ MsgConvertERC20_unknownFields x.
Lemma erc20_MsgConvertERC20_api_laws : MethodLaws MsgConvertERC20_methods MsgConvertERC20_wf MsgConvertERC20_enc.
Proof. api_message_laws MsgConvertERC20_wf MsgConvertERC20_enc MsgConvertERC20_fields_enc MsgConvertERC20_size MsgConvertERC20_marshal MsgConvertERC20_cases MsgConvertERC20_append. Qed.
#[local] Hint Resolve erc20_MsgConvertERC20_api_laws : api_laws.

Definition MsgConvertERC20Response_wf (x : MsgConvertERC20Response) : Prop := unknown_bytes [] (MsgConvertERC20Response_unknownFields x).
Definition MsgConvertERC20Response_fields_enc (x : MsgConvertERC20Response) : bytes :=
  [].
Definition MsgConvertERC20Response_enc (x : MsgConvertERC20Response) : bytes := MsgConvertERC20Response_fields_enc x ++ MsgConvertERC20Response_unknownFields x.
Lemma erc20_MsgConvertERC20Response_api_laws : MethodLaws MsgConvertERC20Response_methods MsgConvertERC20Response_wf MsgConvertERC20Response_enc.
Proof. api_message_laws MsgConvertERC20Response_wf MsgConvertERC20Response_enc MsgConvertERC20Response_fields_enc MsgConvertERC20Response_size MsgConvertERC20Response_marshal MsgConvertERC20Response_cases MsgConvertERC20Response_append. Qed.
#[local] Hint Resolve erc20_MsgConvertERC20Response_api_laws : api_laws.

Definition MsgUpdateParams_wf (x : MsgUpdateParams) : Prop := (∀ a, MsgUpdateParams_Params x = Some a -> Params_wf a) ∧ unknown_bytes [1; 2] (MsgUpdateParams_unknownFields x).
Definition MsgUpdateParams_fields_enc (x : MsgUpdateParams) : bytes :=
  enc_string 0xa (MsgUpdateParams_Authority x) ++
  enc_pointer Params_enc 0x12 (MsgUpdateParams_Params x).
Definition MsgUpdateParams_enc (x : MsgUpdateParams) : bytes := MsgUpdateParams_fields_enc x ++ MsgUpdateParams_unknownFields x.
Lemma erc20_MsgUpdateParams_api_laws : MethodLaws MsgUpdateParams_methods MsgUpdateParams_wf MsgUpdateParams_enc.
Proof. api_message_laws MsgUpdateParams_wf MsgUpdateParams_enc MsgUpdateParams_fields_enc MsgUpdateParams_size MsgUpdateParams_marshal MsgUpdateParams_cases MsgUpdateParams_append. Qed.
#[local] Hint Resolve erc20_MsgUpdateParams_api_laws : api_laws.

Definition MsgUpdateParamsResponse_wf (x : MsgUpdateParamsResponse) : Prop := unknown_bytes [] (MsgUpdateParamsResponse_unknownFields x).
Definition MsgUpdateParamsResponse_fields_enc (x : MsgUpdateParamsResponse) : bytes :=
  [].
Definition MsgUpdateParamsResponse_enc (x : MsgUpdateParamsResponse) : bytes := MsgUpdateParamsResponse_fields_enc x ++ MsgUpdateParamsResponse_unknownFields x.
Lemma erc20_MsgUpdateParamsResponse_api_laws : MethodLaws MsgUpdateParamsResponse_methods MsgUpdateParamsResponse_wf MsgUpdateParamsResponse_enc.
Proof. api_message_laws MsgUpdateParamsResponse_wf MsgUpdateParamsResponse_enc MsgUpdateParamsResponse_fields_enc MsgUpdateParamsResponse_size MsgUpdateParamsResponse_marshal MsgUpdateParamsResponse_cases MsgUpdateParamsResponse_append. Qed.
#[local] Hint Resolve erc20_MsgUpdateParamsResponse_api_laws : api_laws.

Definition MsgRegisterCoin_wf (x : MsgRegisterCoin) : Prop := (∀ a, MsgRegisterCoin_Metadata x = Some a -> api_Metadata_wf a) ∧ unknown_bytes [1; 2; 3; 4] (MsgRegisterCoin_unknownFields x).
Definition MsgRegisterCoin_fields_enc (x : MsgRegisterCoin) : bytes :=
  enc_string 0xa (MsgRegisterCoin_Authority x) ++
  enc_string 0x12 (MsgRegisterCoin_Title x) ++
  enc_string 0x1a (MsgRegisterCoin_Description x) ++
  enc_pointer api_Metadata_enc 0x22 (MsgRegisterCoin_Metadata x).
Definition MsgRegisterCoin_enc (x : MsgRegisterCoin) : bytes := MsgRegisterCoin_fields_enc x ++ MsgRegisterCoin_unknownFields x.
Lemma erc20_MsgRegisterCoin_api_laws : MethodLaws MsgRegisterCoin_methods MsgRegisterCoin_wf MsgRegisterCoin_enc.
Proof. api_message_laws MsgRegisterCoin_wf MsgRegisterCoin_enc MsgRegisterCoin_fields_enc MsgRegisterCoin_size MsgRegisterCoin_marshal MsgRegisterCoin_cases MsgRegisterCoin_append. Qed.
#[local] Hint Resolve erc20_MsgRegisterCoin_api_laws : api_laws.

Definition MsgRegisterCoinResponse_wf (x : MsgRegisterCoinResponse) : Prop := unknown_bytes [] (MsgRegisterCoinResponse_unknownFields x).
Definition MsgRegisterCoinResponse_fields_enc (x : MsgRegisterCoinResponse) : bytes :=
  [].
Definition MsgRegisterCoinResponse_enc (x : MsgRegisterCoinResponse) : bytes := MsgRegisterCoinResponse_fields_enc x ++ MsgRegisterCoinResponse_unknownFields x.
Lemma erc20_MsgRegisterCoinResponse_api_laws : MethodLaws MsgRegisterCoinResponse_methods MsgRegisterCoinResponse_wf MsgRegisterCoinResponse_enc.
Proof. api_message_laws MsgRegisterCoinResponse_wf MsgRegisterCoinResponse_enc MsgRegisterCoinResponse_fields_enc MsgRegisterCoinResponse_size MsgRegisterCoinResponse_marshal MsgRegisterCoinResponse_cases MsgRegisterCoinResponse_append. Qed.
#[local] Hint Resolve erc20_MsgRegisterCoinResponse_api_laws : api_laws.

Definition MsgRegisterERC20_wf (x : MsgRegisterERC20) : Prop := unknown_bytes [1; 2; 3; 4] (MsgRegisterERC20_unknownFields x).
Definition MsgRegisterERC20_fields_enc (x : MsgRegisterERC20) : bytes :=
  enc_string 0xa (MsgRegisterERC20_Authority x) ++
  enc_string 0x12 (MsgRegisterERC20_Title x) ++
  enc_string 0x1a (MsgRegisterERC20_Description x) ++
  enc_string 0x22 (MsgRegisterERC20_Erc20Address x).
Definition MsgRegisterERC20_enc (x : MsgRegisterERC20) : bytes := MsgRegisterERC20_fields_enc x ++ MsgRegisterERC20_unknownFields x.
Lemma erc20_MsgRegisterERC20_api_laws : MethodLaws MsgRegisterERC20_methods MsgRegisterERC20_wf MsgRegisterERC20_enc.
Proof. api_message_laws MsgRegisterERC20_wf MsgRegisterERC20_enc MsgRegisterERC20_fields_enc MsgRegisterERC20_size MsgRegisterERC20_marshal MsgRegisterERC20_cases MsgRegisterERC20_append. Qed.
#[local] Hint Resolve erc20_MsgRegisterERC20_api_laws : api_laws.

Definition MsgRegisterERC20Response_wf (x : MsgRegisterERC20Response) : Prop := unknown_bytes [] (MsgRegisterERC20Response_unknownFields x).
Definition MsgRegisterERC20Response_fields_enc (x : MsgRegisterERC20Response) : bytes :=
  [].
Definition MsgRegisterERC20Response_enc (x : MsgRegisterERC20Response) : bytes := MsgRegisterERC20Response_fields_enc x ++ MsgRegisterERC20Response_unknownFields x.
Lemma erc20_MsgRegisterERC20Response_api_laws : MethodLaws MsgRegisterERC20Response_methods MsgRegisterERC20Response_wf MsgRegisterERC20Response_enc.
Proof. api_message_laws MsgRegisterERC20Response_wf MsgRegisterERC20Response_enc MsgRegisterERC20Response_fields_enc MsgRegisterERC20Response_size MsgRegisterERC20Response_marshal MsgRegisterERC20Response_cases MsgRegisterERC20Response_append. Qed.
#[local] Hint Resolve erc20_MsgRegisterERC20Response_api_laws : api_laws.

Definition MsgToggleTokenConversion_wf (x : MsgToggleTokenConversion) : Prop := unknown_bytes [1; 2; 3; 4] (MsgToggleTokenConversion_unknownFields x).
Definition MsgToggleTokenConversion_fields_enc (x : MsgToggleTokenConversion) : bytes :=
  enc_string 0xa (MsgToggleTokenConversion_Authority x) ++
  enc_string 0x12 (MsgToggleTokenConversion_Title x) ++
  enc_string 0x1a (MsgToggleTokenConversion_Description x) ++
  enc_string 0x22 (MsgToggleTokenConversion_Token x).
Definition MsgToggleTokenConversion_enc (x : MsgToggleTokenConversion) : bytes := MsgToggleTokenConversion_fields_enc x ++ MsgToggleTokenConversion_unknownFields x.
Lemma erc20_MsgToggleTokenConversion_api_laws : MethodLaws MsgToggleTokenConversion_methods MsgToggleTokenConversion_wf MsgToggleTokenConversion_enc.
Proof. api_message_laws MsgToggleTokenConversion_wf MsgToggleTokenConversion_enc MsgToggleTokenConversion_fields_enc MsgToggleTokenConversion_size MsgToggleTokenConversion_marshal MsgToggleTokenConversion_cases MsgToggleTokenConversion_append. Qed.
#[local] Hint Resolve erc20_MsgToggleTokenConversion_api_laws : api_laws.

Definition MsgToggleTokenConversionResponse_wf (x : MsgToggleTokenConversionResponse) : Prop := unknown_bytes [] (MsgToggleTokenConversionResponse_unknownFields x).
Definition MsgToggleTokenConversionResponse_fields_enc (x : MsgToggleTokenConversionResponse) : bytes :=
  [].
Definition MsgToggleTokenConversionResponse_enc (x : MsgToggleTokenConversionResponse) : bytes := MsgToggleTokenConversionResponse_fields_enc x ++ MsgToggleTokenConversionResponse_unknownFields x.
Lemma erc20_MsgToggleTokenConversionResponse_api_laws : MethodLaws MsgToggleTokenConversionResponse_methods MsgToggleTokenConversionResponse_wf MsgToggleTokenConversionResponse_enc.
Proof. api_message_laws MsgToggleTokenConversionResponse_wf MsgToggleTokenConversionResponse_enc MsgToggleTokenConversionResponse_fields_enc MsgToggleTokenConversionResponse_size MsgToggleTokenConversionResponse_marshal MsgToggleTokenConversionResponse_cases MsgToggleTokenConversionResponse_append. Qed.
#[local] Hint Resolve erc20_MsgToggleTokenConversionResponse_api_laws : api_laws.

(** Messages are read back, with the fields they do not know, and no input makes decoding panic. *)
Definition api_round_trips : Prop :=
  read_back TokenPair_methods TokenPair_wf TokenPair_enc ∧
  read_back TokenPairDenomIndex_methods TokenPairDenomIndex_wf TokenPairDenomIndex_enc ∧
  read_back TokenPairERC20AddressIndex_methods TokenPairERC20AddressIndex_wf TokenPairERC20AddressIndex_enc ∧
  read_back RegisterCoinProposal_methods RegisterCoinProposal_wf RegisterCoinProposal_enc ∧
  read_back RegisterERC20Proposal_methods RegisterERC20Proposal_wf RegisterERC20Proposal_enc ∧
  read_back ToggleTokenConversionProposal_methods ToggleTokenConversionProposal_wf ToggleTokenConversionProposal_enc ∧
  read_back Params_methods Params_wf Params_enc ∧
  read_back GenesisState_methods GenesisState_wf GenesisState_enc ∧
  read_back QueryTokenPairsRequest_methods QueryTokenPairsRequest_wf QueryTokenPairsRequest_enc ∧
  read_back QueryTokenPairsResponse_methods QueryTokenPairsResponse_wf QueryTokenPairsResponse_enc ∧
  read_back QueryTokenPairRequest_methods QueryTokenPairRequest_wf QueryTokenPairRequest_enc ∧
  read_back QueryTokenPairResponse_methods QueryTokenPairResponse_wf QueryTokenPairResponse_enc ∧
  read_back QueryParamsRequest_methods QueryParamsRequest_wf QueryParamsRequest_enc ∧
  read_back QueryParamsResponse_methods QueryParamsResponse_wf QueryParamsResponse_enc ∧
  read_back MsgConvertCoin_methods MsgConvertCoin_wf MsgConvertCoin_enc ∧
  read_back MsgConvertCoinResponse_methods MsgConvertCoinResponse_wf MsgConvertCoinResponse_enc ∧
  read_back MsgConvertERC20_methods MsgConvertERC20_wf MsgConvertERC20_enc ∧
  read_back MsgConvertERC20Response_methods MsgConvertERC20Response_wf MsgConvertERC20Response_enc ∧
  read_back MsgUpdateParams_methods MsgUpdateParams_wf MsgUpdateParams_enc ∧
  read_back MsgUpdateParamsResponse_methods MsgUpdateParamsResponse_wf MsgUpdateParamsResponse_enc ∧
  read_back MsgRegisterCoin_methods MsgRegisterCoin_wf MsgRegisterCoin_enc ∧
  read_back MsgRegisterCoinResponse_methods MsgRegisterCoinResponse_wf MsgRegisterCoinResponse_enc ∧
  read_back MsgRegisterERC20_methods MsgRegisterERC20_wf MsgRegisterERC20_enc ∧
  read_back MsgRegisterERC20Response_methods MsgRegisterERC20Response_wf MsgRegisterERC20Response_enc ∧
  read_back MsgToggleTokenConversion_methods MsgToggleTokenConversion_wf MsgToggleTokenConversion_enc ∧
  read_back MsgToggleTokenConversionResponse_methods MsgToggleTokenConversionResponse_wf MsgToggleTokenConversionResponse_enc.
Lemma erc20_api_round_trips : api_round_trips.
Proof. unfold api_round_trips. split_and!; eapply laws_read_back; api_law. Qed.

(** ** Reflection *)

(** The messages that occur in messages, and the conversions to them. *)
Inductive Msg :=
| Msg_api_Metadata (x : option api_Metadata)
| Msg_Params (x : option Params)
| Msg_TokenPair (x : option TokenPair)
| Msg_TokenPairDenomIndex (x : option TokenPairDenomIndex)
| Msg_TokenPairERC20AddressIndex (x : option TokenPairERC20AddressIndex)
| Msg_api_PageRequest (x : option api_PageRequest)
| Msg_api_PageResponse (x : option api_PageResponse)
| Msg_api_Coin (x : option api_Coin).
Definition to_api_Metadata (m : Msg) : outcome (option api_Metadata) := if m is Msg_api_Metadata x then Ok x else Panic.
Definition to_Params (m : Msg) : outcome (option Params) := if m is Msg_Params x then Ok x else Panic.
Definition to_TokenPair (m : Msg) : outcome (option TokenPair) := if m is Msg_TokenPair x then Ok x else Panic.
Definition to_TokenPairDenomIndex (m : Msg) : outcome (option TokenPairDenomIndex) := if m is Msg_TokenPairDenomIndex x then Ok x else Panic.
Definition to_TokenPairERC20AddressIndex (m : Msg) : outcome (option TokenPairERC20AddressIndex) := if m is Msg_TokenPairERC20AddressIndex x then Ok x else Panic.
Definition to_api_PageRequest (m : Msg) : outcome (option api_PageRequest) := if m is Msg_api_PageRequest x then Ok x else Panic.
Definition to_api_PageResponse (m : Msg) : outcome (option api_PageResponse) := if m is Msg_api_PageResponse x then Ok x else Panic.
Definition to_api_Coin (m : Msg) : outcome (option api_Coin) := if m is Msg_api_Coin x then Ok x else Panic.

Inductive Lst :=
| Lst_GenesisState_2 (x : option (list (option TokenPair)))
| Lst_GenesisState_3 (x : option (list (option TokenPairDenomIndex)))
| Lst_GenesisState_4 (x : option (list (option TokenPairERC20AddressIndex)))
| Lst_QueryTokenPairsResponse_1 (x : option (list (option TokenPair))).
Definition to_GenesisState_2 (l : Lst) : outcome (option (list (option TokenPair))) := if l is Lst_GenesisState_2 x then Ok x else Panic.
Definition to_GenesisState_3 (l : Lst) : outcome (option (list (option TokenPairDenomIndex))) := if l is Lst_GenesisState_3 x then Ok x else Panic.
Definition to_GenesisState_4 (l : Lst) : outcome (option (list (option TokenPairERC20AddressIndex))) := if l is Lst_GenesisState_4 x then Ok x else Panic.
Definition to_QueryTokenPairsResponse_1 (l : Lst) : outcome (option (list (option TokenPair))) := if l is Lst_QueryTokenPairsResponse_1 x then Ok x else Panic.
Abbreviation V := (Value Msg Lst).

Definition _GenesisState_2_list : Elem (option TokenPair) V := message_elem (new TokenPair_methods) Msg_TokenPair to_TokenPair.
Definition _GenesisState_3_list : Elem (option TokenPairDenomIndex) V := message_elem (new TokenPairDenomIndex_methods) Msg_TokenPairDenomIndex to_TokenPairDenomIndex.
Definition _GenesisState_4_list : Elem (option TokenPairERC20AddressIndex) V := message_elem (new TokenPairERC20AddressIndex_methods) Msg_TokenPairERC20AddressIndex to_TokenPairERC20AddressIndex.
Definition _QueryTokenPairsResponse_1_list : Elem (option TokenPair) V := message_elem (new TokenPair_methods) Msg_TokenPair to_TokenPair.

Definition fastReflection_TokenPair_fields : list (Field TokenPair V) :=
  [string_field "canto.erc20.v1.TokenPair.erc20_address" TokenPair_Erc20Address
     (fun v x => let '(mkTokenPair _ denom_ enabled_ contractOwner_ unknown) := x in mkTokenPair v denom_ enabled_ contractOwner_ unknown);
   string_field "canto.erc20.v1.TokenPair.denom" TokenPair_Denom
     (fun v x => let '(mkTokenPair erc20Address_ _ enabled_ contractOwner_ unknown) := x in mkTokenPair erc20Address_ v enabled_ contractOwner_ unknown);
   bool_field "canto.erc20.v1.TokenPair.enabled" TokenPair_Enabled
     (fun v x => let '(mkTokenPair erc20Address_ denom_ _ contractOwner_ unknown) := x in mkTokenPair erc20Address_ denom_ v contractOwner_ unknown);
   enum_field "canto.erc20.v1.TokenPair.contract_owner" TokenPair_ContractOwner
     (fun v x => let '(mkTokenPair erc20Address_ denom_ enabled_ _ unknown) := x in mkTokenPair erc20Address_ denom_ enabled_ v unknown)].
Definition fastReflection_TokenPair_Range {S} := reflect_Range (S := S) fastReflection_TokenPair_fields.
Definition fastReflection_TokenPair_Has := reflect_Has fastReflection_TokenPair_fields.
Definition fastReflection_TokenPair_Clear := reflect_Clear fastReflection_TokenPair_fields.
Definition fastReflection_TokenPair_Get := reflect_Get fastReflection_TokenPair_fields.
Definition fastReflection_TokenPair_Set := reflect_Set fastReflection_TokenPair_fields.
Definition fastReflection_TokenPair_Mutable := reflect_Mutable fastReflection_TokenPair_fields.
Definition fastReflection_TokenPair_NewField := reflect_NewField fastReflection_TokenPair_fields.
Definition fastReflection_TokenPair_SetUnknown (fields : bytes) (x : TokenPair) : TokenPair := let '(mkTokenPair erc20Address_ denom_ enabled_ contractOwner_ _) := x in mkTokenPair erc20Address_ denom_ enabled_ contractOwner_ fields.

Definition fastReflection_TokenPairDenomIndex_fields : list (Field TokenPairDenomIndex V) :=
  [string_field "canto.erc20.v1.TokenPairDenomIndex.denom" TokenPairDenomIndex_Denom
     (fun v x => let '(mkTokenPairDenomIndex _ tokenPairId_ unknown) := x in mkTokenPairDenomIndex v tokenPairId_ unknown);
   bytes_field "canto.erc20.v1.TokenPairDenomIndex.token_pair_id" TokenPairDenomIndex_TokenPairId
     (fun v x => let '(mkTokenPairDenomIndex denom_ _ unknown) := x in mkTokenPairDenomIndex denom_ v unknown)].
Definition fastReflection_TokenPairDenomIndex_Range {S} := reflect_Range (S := S) fastReflection_TokenPairDenomIndex_fields.
Definition fastReflection_TokenPairDenomIndex_Has := reflect_Has fastReflection_TokenPairDenomIndex_fields.
Definition fastReflection_TokenPairDenomIndex_Clear := reflect_Clear fastReflection_TokenPairDenomIndex_fields.
Definition fastReflection_TokenPairDenomIndex_Get := reflect_Get fastReflection_TokenPairDenomIndex_fields.
Definition fastReflection_TokenPairDenomIndex_Set := reflect_Set fastReflection_TokenPairDenomIndex_fields.
Definition fastReflection_TokenPairDenomIndex_Mutable := reflect_Mutable fastReflection_TokenPairDenomIndex_fields.
Definition fastReflection_TokenPairDenomIndex_NewField := reflect_NewField fastReflection_TokenPairDenomIndex_fields.
Definition fastReflection_TokenPairDenomIndex_SetUnknown (fields : bytes) (x : TokenPairDenomIndex) : TokenPairDenomIndex := let '(mkTokenPairDenomIndex denom_ tokenPairId_ _) := x in mkTokenPairDenomIndex denom_ tokenPairId_ fields.

Definition fastReflection_TokenPairERC20AddressIndex_fields : list (Field TokenPairERC20AddressIndex V) :=
  [bytes_field "canto.erc20.v1.TokenPairERC20AddressIndex.erc20_address" TokenPairERC20AddressIndex_Erc20Address
     (fun v x => let '(mkTokenPairERC20AddressIndex _ tokenPairId_ unknown) := x in mkTokenPairERC20AddressIndex v tokenPairId_ unknown);
   bytes_field "canto.erc20.v1.TokenPairERC20AddressIndex.token_pair_id" TokenPairERC20AddressIndex_TokenPairId
     (fun v x => let '(mkTokenPairERC20AddressIndex erc20Address_ _ unknown) := x in mkTokenPairERC20AddressIndex erc20Address_ v unknown)].
Definition fastReflection_TokenPairERC20AddressIndex_Range {S} := reflect_Range (S := S) fastReflection_TokenPairERC20AddressIndex_fields.
Definition fastReflection_TokenPairERC20AddressIndex_Has := reflect_Has fastReflection_TokenPairERC20AddressIndex_fields.
Definition fastReflection_TokenPairERC20AddressIndex_Clear := reflect_Clear fastReflection_TokenPairERC20AddressIndex_fields.
Definition fastReflection_TokenPairERC20AddressIndex_Get := reflect_Get fastReflection_TokenPairERC20AddressIndex_fields.
Definition fastReflection_TokenPairERC20AddressIndex_Set := reflect_Set fastReflection_TokenPairERC20AddressIndex_fields.
Definition fastReflection_TokenPairERC20AddressIndex_Mutable := reflect_Mutable fastReflection_TokenPairERC20AddressIndex_fields.
Definition fastReflection_TokenPairERC20AddressIndex_NewField := reflect_NewField fastReflection_TokenPairERC20AddressIndex_fields.
Definition fastReflection_TokenPairERC20AddressIndex_SetUnknown (fields : bytes) (x : TokenPairERC20AddressIndex) : TokenPairERC20AddressIndex := let '(mkTokenPairERC20AddressIndex erc20Address_ tokenPairId_ _) := x in mkTokenPairERC20AddressIndex erc20Address_ tokenPairId_ fields.

Definition fastReflection_RegisterCoinProposal_fields : list (Field RegisterCoinProposal V) :=
  [string_field "canto.erc20.v1.RegisterCoinProposal.title" RegisterCoinProposal_Title
     (fun v x => let '(mkRegisterCoinProposal _ description_ metadata_ unknown) := x in mkRegisterCoinProposal v description_ metadata_ unknown);
   string_field "canto.erc20.v1.RegisterCoinProposal.description" RegisterCoinProposal_Description
     (fun v x => let '(mkRegisterCoinProposal title_ _ metadata_ unknown) := x in mkRegisterCoinProposal title_ v metadata_ unknown);
   message_field (new api_Metadata_methods) Msg_api_Metadata to_api_Metadata "canto.erc20.v1.RegisterCoinProposal.metadata" RegisterCoinProposal_Metadata
     (fun v x => let '(mkRegisterCoinProposal title_ description_ _ unknown) := x in mkRegisterCoinProposal title_ description_ v unknown)].
Definition fastReflection_RegisterCoinProposal_Range {S} := reflect_Range (S := S) fastReflection_RegisterCoinProposal_fields.
Definition fastReflection_RegisterCoinProposal_Has := reflect_Has fastReflection_RegisterCoinProposal_fields.
Definition fastReflection_RegisterCoinProposal_Clear := reflect_Clear fastReflection_RegisterCoinProposal_fields.
Definition fastReflection_RegisterCoinProposal_Get := reflect_Get fastReflection_RegisterCoinProposal_fields.
Definition fastReflection_RegisterCoinProposal_Set := reflect_Set fastReflection_RegisterCoinProposal_fields.
Definition fastReflection_RegisterCoinProposal_Mutable := reflect_Mutable fastReflection_RegisterCoinProposal_fields.
Definition fastReflection_RegisterCoinProposal_NewField := reflect_NewField fastReflection_RegisterCoinProposal_fields.
Definition fastReflection_RegisterCoinProposal_SetUnknown (fields : bytes) (x : RegisterCoinProposal) : RegisterCoinProposal := let '(mkRegisterCoinProposal title_ description_ metadata_ _) := x in mkRegisterCoinProposal title_ description_ metadata_ fields.

Definition fastReflection_RegisterERC20Proposal_fields : list (Field RegisterERC20Proposal V) :=
  [string_field "canto.erc20.v1.RegisterERC20Proposal.title" RegisterERC20Proposal_Title
     (fun v x => let '(mkRegisterERC20Proposal _ description_ erc20Address_ unknown) := x in mkRegisterERC20Proposal v description_ erc20Address_ unknown);
   string_field "canto.erc20.v1.RegisterERC20Proposal.description" RegisterERC20Proposal_Description
     (fun v x => let '(mkRegisterERC20Proposal title_ _ erc20Address_ unknown) := x in mkRegisterERC20Proposal title_ v erc20Address_ unknown);
   string_field "canto.erc20.v1.RegisterERC20Proposal.erc20address" RegisterERC20Proposal_Erc20Address
     (fun v x => let '(mkRegisterERC20Proposal title_ description_ _ unknown) := x in mkRegisterERC20Proposal title_ description_ v unknown)].
Definition fastReflection_RegisterERC20Proposal_Range {S} := reflect_Range (S := S) fastReflection_RegisterERC20Proposal_fields.
Definition fastReflection_RegisterERC20Proposal_Has := reflect_Has fastReflection_RegisterERC20Proposal_fields.
Definition fastReflection_RegisterERC20Proposal_Clear := reflect_Clear fastReflection_RegisterERC20Proposal_fields.
Definition fastReflection_RegisterERC20Proposal_Get := reflect_Get fastReflection_RegisterERC20Proposal_fields.
Definition fastReflection_RegisterERC20Proposal_Set := reflect_Set fastReflection_RegisterERC20Proposal_fields.
Definition fastReflection_RegisterERC20Proposal_Mutable := reflect_Mutable fastReflection_RegisterERC20Proposal_fields.
Definition fastReflection_RegisterERC20Proposal_NewField := reflect_NewField fastReflection_RegisterERC20Proposal_fields.
Definition fastReflection_RegisterERC20Proposal_SetUnknown (fields : bytes) (x : RegisterERC20Proposal) : RegisterERC20Proposal := let '(mkRegisterERC20Proposal title_ description_ erc20Address_ _) := x in mkRegisterERC20Proposal title_ description_ erc20Address_ fields.

Definition fastReflection_ToggleTokenConversionProposal_fields : list (Field ToggleTokenConversionProposal V) :=
  [string_field "canto.erc20.v1.ToggleTokenConversionProposal.title" ToggleTokenConversionProposal_Title
     (fun v x => let '(mkToggleTokenConversionProposal _ description_ token_ unknown) := x in mkToggleTokenConversionProposal v description_ token_ unknown);
   string_field "canto.erc20.v1.ToggleTokenConversionProposal.description" ToggleTokenConversionProposal_Description
     (fun v x => let '(mkToggleTokenConversionProposal title_ _ token_ unknown) := x in mkToggleTokenConversionProposal title_ v token_ unknown);
   string_field "canto.erc20.v1.ToggleTokenConversionProposal.token" ToggleTokenConversionProposal_Token
     (fun v x => let '(mkToggleTokenConversionProposal title_ description_ _ unknown) := x in mkToggleTokenConversionProposal title_ description_ v unknown)].
Definition fastReflection_ToggleTokenConversionProposal_Range {S} := reflect_Range (S := S) fastReflection_ToggleTokenConversionProposal_fields.
Definition fastReflection_ToggleTokenConversionProposal_Has := reflect_Has fastReflection_ToggleTokenConversionProposal_fields.
Definition fastReflection_ToggleTokenConversionProposal_Clear := reflect_Clear fastReflection_ToggleTokenConversionProposal_fields.
Definition fastReflection_ToggleTokenConversionProposal_Get := reflect_Get fastReflection_ToggleTokenConversionProposal_fields.
Definition fastReflection_ToggleTokenConversionProposal_Set := reflect_Set fastReflection_ToggleTokenConversionProposal_fields.
Definition fastReflection_ToggleTokenConversionProposal_Mutable := reflect_Mutable fastReflection_ToggleTokenConversionProposal_fields.
Definition fastReflection_ToggleTokenConversionProposal_NewField := reflect_NewField fastReflection_ToggleTokenConversionProposal_fields.
Definition fastReflection_ToggleTokenConversionProposal_SetUnknown (fields : bytes) (x : ToggleTokenConversionProposal) : ToggleTokenConversionProposal := let '(mkToggleTokenConversionProposal title_ description_ token_ _) := x in mkToggleTokenConversionProposal title_ description_ token_ fields.

Definition fastReflection_Params_fields : list (Field Params V) :=
  [bool_field "canto.erc20.v1.Params.enable_erc20" Params_EnableErc20
     (fun v x => let '(mkParams _ enableEvmHook_ unknown) := x in mkParams v enableEvmHook_ unknown);
   bool_field "canto.erc20.v1.Params.enable_evm_hook" Params_EnableEvmHook
     (fun v x => let '(mkParams enableErc20_ _ unknown) := x in mkParams enableErc20_ v unknown)].
Definition fastReflection_Params_Range {S} := reflect_Range (S := S) fastReflection_Params_fields.
Definition fastReflection_Params_Has := reflect_Has fastReflection_Params_fields.
Definition fastReflection_Params_Clear := reflect_Clear fastReflection_Params_fields.
Definition fastReflection_Params_Get := reflect_Get fastReflection_Params_fields.
Definition fastReflection_Params_Set := reflect_Set fastReflection_Params_fields.
Definition fastReflection_Params_Mutable := reflect_Mutable fastReflection_Params_fields.
Definition fastReflection_Params_NewField := reflect_NewField fastReflection_Params_fields.
Definition fastReflection_Params_SetUnknown (fields : bytes) (x : Params) : Params := let '(mkParams enableErc20_ enableEvmHook_ _) := x in mkParams enableErc20_ enableEvmHook_ fields.

Definition fastReflection_GenesisState_fields : list (Field GenesisState V) :=
  [message_field (new Params_methods) Msg_Params to_Params "canto.erc20.v1.GenesisState.params" GenesisState_Params
     (fun v x => let '(mkGenesisState _ tokenPairs_ denomIndexes_ erc20AddressIndexes_ unknown) := x in mkGenesisState v tokenPairs_ denomIndexes_ erc20AddressIndexes_ unknown);
   list_field Lst_GenesisState_2 to_GenesisState_2 "canto.erc20.v1.GenesisState.token_pairs" GenesisState_TokenPairs
     (fun v x => let '(mkGenesisState params_ _ denomIndexes_ erc20AddressIndexes_ unknown) := x in mkGenesisState params_ v denomIndexes_ erc20AddressIndexes_ unknown);
   list_field Lst_GenesisState_3 to_GenesisState_3 "canto.erc20.v1.GenesisState.denom_indexes" GenesisState_DenomIndexes
     (fun v x => let '(mkGenesisState params_ tokenPairs_ _ erc20AddressIndexes_ unknown) := x in mkGenesisState params_ tokenPairs_ v erc20AddressIndexes_ unknown);
   list_field Lst_GenesisState_4 to_GenesisState_4 "canto.erc20.v1.GenesisState.erc20_address_indexes" GenesisState_Erc20AddressIndexes
     (fun v x => let '(mkGenesisState params_ tokenPairs_ denomIndexes_ _ unknown) := x in mkGenesisState params_ tokenPairs_ denomIndexes_ v unknown)].
Definition fastReflection_GenesisState_Range {S} := reflect_Range (S := S) fastReflection_GenesisState_fields.
Definition fastReflection_GenesisState_Has := reflect_Has fastReflection_GenesisState_fields.
Definition fastReflection_GenesisState_Clear := reflect_Clear fastReflection_GenesisState_fields.
Definition fastReflection_GenesisState_Get := reflect_Get fastReflection_GenesisState_fields.
Definition fastReflection_GenesisState_Set := reflect_Set fastReflection_GenesisState_fields.
Definition fastReflection_GenesisState_Mutable := reflect_Mutable fastReflection_GenesisState_fields.
Definition fastReflection_GenesisState_NewField := reflect_NewField fastReflection_GenesisState_fields.
Definition fastReflection_GenesisState_SetUnknown (fields : bytes) (x : GenesisState) : GenesisState := let '(mkGenesisState params_ tokenPairs_ denomIndexes_ erc20AddressIndexes_ _) := x in mkGenesisState params_ tokenPairs_ denomIndexes_ erc20AddressIndexes_ fields.

Definition fastReflection_QueryTokenPairsRequest_fields : list (Field QueryTokenPairsRequest V) :=
  [message_field (new api_PageRequest_methods) Msg_api_PageRequest to_api_PageRequest "canto.erc20.v1.QueryTokenPairsRequest.pagination" QueryTokenPairsRequest_Pagination
     (fun v x => let '(mkQueryTokenPairsRequest _ unknown) := x in mkQueryTokenPairsRequest v unknown)].
Definition fastReflection_QueryTokenPairsRequest_Range {S} := reflect_Range (S := S) fastReflection_QueryTokenPairsRequest_fields.
Definition fastReflection_QueryTokenPairsRequest_Has := reflect_Has fastReflection_QueryTokenPairsRequest_fields.
Definition fastReflection_QueryTokenPairsRequest_Clear := reflect_Clear fastReflection_QueryTokenPairsRequest_fields.
Definition fastReflection_QueryTokenPairsRequest_Get := reflect_Get fastReflection_QueryTokenPairsRequest_fields.
Definition fastReflection_QueryTokenPairsRequest_Set := reflect_Set fastReflection_QueryTokenPairsRequest_fields.
Definition fastReflection_QueryTokenPairsRequest_Mutable := reflect_Mutable fastReflection_QueryTokenPairsRequest_fields.
Definition fastReflection_QueryTokenPairsRequest_NewField := reflect_NewField fastReflection_QueryTokenPairsRequest_fields.
Definition fastReflection_QueryTokenPairsRequest_SetUnknown (fields : bytes) (x : QueryTokenPairsRequest) : QueryTokenPairsRequest := let '(mkQueryTokenPairsRequest pagination_ _) := x in mkQueryTokenPairsRequest pagination_ fields.

Definition fastReflection_QueryTokenPairsResponse_fields : list (Field QueryTokenPairsResponse V) :=
  [list_field Lst_QueryTokenPairsResponse_1 to_QueryTokenPairsResponse_1 "canto.erc20.v1.QueryTokenPairsResponse.token_pairs" QueryTokenPairsResponse_TokenPairs
     (fun v x => let '(mkQueryTokenPairsResponse _ pagination_ unknown) := x in mkQueryTokenPairsResponse v pagination_ unknown);
   message_field (new api_PageResponse_methods) Msg_api_PageResponse to_api_PageResponse "canto.erc20.v1.QueryTokenPairsResponse.pagination" QueryTokenPairsResponse_Pagination
     (fun v x => let '(mkQueryTokenPairsResponse tokenPairs_ _ unknown) := x in mkQueryTokenPairsResponse tokenPairs_ v unknown)].
Definition fastReflection_QueryTokenPairsResponse_Range {S} := reflect_Range (S := S) fastReflection_QueryTokenPairsResponse_fields.
Definition fastReflection_QueryTokenPairsResponse_Has := reflect_Has fastReflection_QueryTokenPairsResponse_fields.
Definition fastReflection_QueryTokenPairsResponse_Clear := reflect_Clear fastReflection_QueryTokenPairsResponse_fields.
Definition fastReflection_QueryTokenPairsResponse_Get := reflect_Get fastReflection_QueryTokenPairsResponse_fields.
Definition fastReflection_QueryTokenPairsResponse_Set := reflect_Set fastReflection_QueryTokenPairsResponse_fields.
Definition fastReflection_QueryTokenPairsResponse_Mutable := reflect_Mutable fastReflection_QueryTokenPairsResponse_fields.
Definition fastReflection_QueryTokenPairsResponse_NewField := reflect_NewField fastReflection_QueryTokenPairsResponse_fields.
Definition fastReflection_QueryTokenPairsResponse_SetUnknown (fields : bytes) (x : QueryTokenPairsResponse) : QueryTokenPairsResponse := let '(mkQueryTokenPairsResponse tokenPairs_ pagination_ _) := x in mkQueryTokenPairsResponse tokenPairs_ pagination_ fields.

Definition fastReflection_QueryTokenPairRequest_fields : list (Field QueryTokenPairRequest V) :=
  [string_field "canto.erc20.v1.QueryTokenPairRequest.token" QueryTokenPairRequest_Token
     (fun v x => let '(mkQueryTokenPairRequest _ unknown) := x in mkQueryTokenPairRequest v unknown)].
Definition fastReflection_QueryTokenPairRequest_Range {S} := reflect_Range (S := S) fastReflection_QueryTokenPairRequest_fields.
Definition fastReflection_QueryTokenPairRequest_Has := reflect_Has fastReflection_QueryTokenPairRequest_fields.
Definition fastReflection_QueryTokenPairRequest_Clear := reflect_Clear fastReflection_QueryTokenPairRequest_fields.
Definition fastReflection_QueryTokenPairRequest_Get := reflect_Get fastReflection_QueryTokenPairRequest_fields.
Definition fastReflection_QueryTokenPairRequest_Set := reflect_Set fastReflection_QueryTokenPairRequest_fields.
Definition fastReflection_QueryTokenPairRequest_Mutable := reflect_Mutable fastReflection_QueryTokenPairRequest_fields.
Definition fastReflection_QueryTokenPairRequest_NewField := reflect_NewField fastReflection_QueryTokenPairRequest_fields.
Definition fastReflection_QueryTokenPairRequest_SetUnknown (fields : bytes) (x : QueryTokenPairRequest) : QueryTokenPairRequest := let '(mkQueryTokenPairRequest token_ _) := x in mkQueryTokenPairRequest token_ fields.

Definition fastReflection_QueryTokenPairResponse_fields : list (Field QueryTokenPairResponse V) :=
  [message_field (new TokenPair_methods) Msg_TokenPair to_TokenPair "canto.erc20.v1.QueryTokenPairResponse.token_pair" QueryTokenPairResponse_TokenPair
     (fun v x => let '(mkQueryTokenPairResponse _ unknown) := x in mkQueryTokenPairResponse v unknown)].
Definition fastReflection_QueryTokenPairResponse_Range {S} := reflect_Range (S := S) fastReflection_QueryTokenPairResponse_fields.
Definition fastReflection_QueryTokenPairResponse_Has := reflect_Has fastReflection_QueryTokenPairResponse_fields.
Definition fastReflection_QueryTokenPairResponse_Clear := reflect_Clear fastReflection_QueryTokenPairResponse_fields.
Definition fastReflection_QueryTokenPairResponse_Get := reflect_Get fastReflection_QueryTokenPairResponse_fields.
Definition fastReflection_QueryTokenPairResponse_Set := reflect_Set fastReflection_QueryTokenPairResponse_fields.
Definition fastReflection_QueryTokenPairResponse_Mutable := reflect_Mutable fastReflection_QueryTokenPairResponse_fields.
Definition fastReflection_QueryTokenPairResponse_NewField := reflect_NewField fastReflection_QueryTokenPairResponse_fields.
Definition fastReflection_QueryTokenPairResponse_SetUnknown (fields : bytes) (x : QueryTokenPairResponse) : QueryTokenPairResponse := let '(mkQueryTokenPairResponse tokenPair_ _) := x in mkQueryTokenPairResponse tokenPair_ fields.

Definition fastReflection_QueryParamsRequest_fields : list (Field QueryParamsRequest V) :=
  [].
Definition fastReflection_QueryParamsRequest_Range {S} := reflect_Range (S := S) fastReflection_QueryParamsRequest_fields.
Definition fastReflection_QueryParamsRequest_Has := reflect_Has fastReflection_QueryParamsRequest_fields.
Definition fastReflection_QueryParamsRequest_Clear := reflect_Clear fastReflection_QueryParamsRequest_fields.
Definition fastReflection_QueryParamsRequest_Get := reflect_Get fastReflection_QueryParamsRequest_fields.
Definition fastReflection_QueryParamsRequest_Set := reflect_Set fastReflection_QueryParamsRequest_fields.
Definition fastReflection_QueryParamsRequest_Mutable := reflect_Mutable fastReflection_QueryParamsRequest_fields.
Definition fastReflection_QueryParamsRequest_NewField := reflect_NewField fastReflection_QueryParamsRequest_fields.
Definition fastReflection_QueryParamsRequest_SetUnknown (fields : bytes) (x : QueryParamsRequest) : QueryParamsRequest := let '(mkQueryParamsRequest _) := x in mkQueryParamsRequest fields.

Definition fastReflection_QueryParamsResponse_fields : list (Field QueryParamsResponse V) :=
  [message_field (new Params_methods) Msg_Params to_Params "canto.erc20.v1.QueryParamsResponse.params" QueryParamsResponse_Params
     (fun v x => let '(mkQueryParamsResponse _ unknown) := x in mkQueryParamsResponse v unknown)].
Definition fastReflection_QueryParamsResponse_Range {S} := reflect_Range (S := S) fastReflection_QueryParamsResponse_fields.
Definition fastReflection_QueryParamsResponse_Has := reflect_Has fastReflection_QueryParamsResponse_fields.
Definition fastReflection_QueryParamsResponse_Clear := reflect_Clear fastReflection_QueryParamsResponse_fields.
Definition fastReflection_QueryParamsResponse_Get := reflect_Get fastReflection_QueryParamsResponse_fields.
Definition fastReflection_QueryParamsResponse_Set := reflect_Set fastReflection_QueryParamsResponse_fields.
Definition fastReflection_QueryParamsResponse_Mutable := reflect_Mutable fastReflection_QueryParamsResponse_fields.
Definition fastReflection_QueryParamsResponse_NewField := reflect_NewField fastReflection_QueryParamsResponse_fields.
Definition fastReflection_QueryParamsResponse_SetUnknown (fields : bytes) (x : QueryParamsResponse) : QueryParamsResponse := let '(mkQueryParamsResponse params_ _) := x in mkQueryParamsResponse params_ fields.

Definition fastReflection_MsgConvertCoin_fields : list (Field MsgConvertCoin V) :=
  [message_field (new api_Coin_methods) Msg_api_Coin to_api_Coin "canto.erc20.v1.MsgConvertCoin.coin" MsgConvertCoin_Coin
     (fun v x => let '(mkMsgConvertCoin _ receiver_ sender_ unknown) := x in mkMsgConvertCoin v receiver_ sender_ unknown);
   string_field "canto.erc20.v1.MsgConvertCoin.receiver" MsgConvertCoin_Receiver
     (fun v x => let '(mkMsgConvertCoin coin_ _ sender_ unknown) := x in mkMsgConvertCoin coin_ v sender_ unknown);
   string_field "canto.erc20.v1.MsgConvertCoin.sender" MsgConvertCoin_Sender
     (fun v x => let '(mkMsgConvertCoin coin_ receiver_ _ unknown) := x in mkMsgConvertCoin coin_ receiver_ v unknown)].
Definition fastReflection_MsgConvertCoin_Range {S} := reflect_Range (S := S) fastReflection_MsgConvertCoin_fields.
Definition fastReflection_MsgConvertCoin_Has := reflect_Has fastReflection_MsgConvertCoin_fields.
Definition fastReflection_MsgConvertCoin_Clear := reflect_Clear fastReflection_MsgConvertCoin_fields.
Definition fastReflection_MsgConvertCoin_Get := reflect_Get fastReflection_MsgConvertCoin_fields.
Definition fastReflection_MsgConvertCoin_Set := reflect_Set fastReflection_MsgConvertCoin_fields.
Definition fastReflection_MsgConvertCoin_Mutable := reflect_Mutable fastReflection_MsgConvertCoin_fields.
Definition fastReflection_MsgConvertCoin_NewField := reflect_NewField fastReflection_MsgConvertCoin_fields.
Definition fastReflection_MsgConvertCoin_SetUnknown (fields : bytes) (x : MsgConvertCoin) : MsgConvertCoin := let '(mkMsgConvertCoin coin_ receiver_ sender_ _) := x in mkMsgConvertCoin coin_ receiver_ sender_ fields.

Definition fastReflection_MsgConvertCoinResponse_fields : list (Field MsgConvertCoinResponse V) :=
  [].
Definition fastReflection_MsgConvertCoinResponse_Range {S} := reflect_Range (S := S) fastReflection_MsgConvertCoinResponse_fields.
Definition fastReflection_MsgConvertCoinResponse_Has := reflect_Has fastReflection_MsgConvertCoinResponse_fields.
Definition fastReflection_MsgConvertCoinResponse_Clear := reflect_Clear fastReflection_MsgConvertCoinResponse_fields.
Definition fastReflection_MsgConvertCoinResponse_Get := reflect_Get fastReflection_MsgConvertCoinResponse_fields.
Definition fastReflection_MsgConvertCoinResponse_Set := reflect_Set fastReflection_MsgConvertCoinResponse_fields.
Definition fastReflection_MsgConvertCoinResponse_Mutable := reflect_Mutable fastReflection_MsgConvertCoinResponse_fields.
Definition fastReflection_MsgConvertCoinResponse_NewField := reflect_NewField fastReflection_MsgConvertCoinResponse_fields.
Definition fastReflection_MsgConvertCoinResponse_SetUnknown (fields : bytes) (x : MsgConvertCoinResponse) : MsgConvertCoinResponse := let '(mkMsgConvertCoinResponse _) := x in mkMsgConvertCoinResponse fields.

Definition fastReflection_MsgConvertERC20_fields : list (Field MsgConvertERC20 V) :=
  [string_field "canto.erc20.v1.MsgConvertERC20.contract_address" MsgConvertERC20_ContractAddress
     (fun v x => let '(mkMsgConvertERC20 _ amount_ receiver_ sender_ unknown) := x in mkMsgConvertERC20 v amount_ receiver_ sender_ unknown);
   string_field "canto.erc20.v1.MsgConvertERC20.amount" MsgConvertERC20_Amount
     (fun v x => let '(mkMsgConvertERC20 contractAddress_ _ receiver_ sender_ unknown) := x in mkMsgConvertERC20 contractAddress_ v receiver_ sender_ unknown);
   string_field "canto.erc20.v1.MsgConvertERC20.receiver" MsgConvertERC20_Receiver
     (fun v x => let '(mkMsgConvertERC20 contractAddress_ amount_ _ sender_ unknown) := x in mkMsgConvertERC20 contractAddress_ amount_ v sender_ unknown);
   string_field "canto.erc20.v1.MsgConvertERC20.sender" MsgConvertERC20_Sender
     (fun v x => let '(mkMsgConvertERC20 contractAddress_ amount_ receiver_ _ unknown) := x in mkMsgConvertERC20 contractAddress_ amount_ receiver_ v unknown)].
Definition fastReflection_MsgConvertERC20_Range {S} := reflect_Range (S := S) fastReflection_MsgConvertERC20_fields.
Definition fastReflection_MsgConvertERC20_Has := reflect_Has fastReflection_MsgConvertERC20_fields.
Definition fastReflection_MsgConvertERC20_Clear := reflect_Clear fastReflection_MsgConvertERC20_fields.
Definition fastReflection_MsgConvertERC20_Get := reflect_Get fastReflection_MsgConvertERC20_fields.
Definition fastReflection_MsgConvertERC20_Set := reflect_Set fastReflection_MsgConvertERC20_fields.
Definition fastReflection_MsgConvertERC20_Mutable := reflect_Mutable fastReflection_MsgConvertERC20_fields.
Definition fastReflection_MsgConvertERC20_NewField := reflect_NewField fastReflection_MsgConvertERC20_fields.
Definition fastReflection_MsgConvertERC20_SetUnknown (fields : bytes) (x : MsgConvertERC20) : MsgConvertERC20 := let '(mkMsgConvertERC20 contractAddress_ amount_ receiver_ sender_ _) := x in mkMsgConvertERC20 contractAddress_ amount_ receiver_ sender_ fields.

Definition fastReflection_MsgConvertERC20Response_fields : list (Field MsgConvertERC20Response V) :=
  [].
Definition fastReflection_MsgConvertERC20Response_Range {S} := reflect_Range (S := S) fastReflection_MsgConvertERC20Response_fields.
Definition fastReflection_MsgConvertERC20Response_Has := reflect_Has fastReflection_MsgConvertERC20Response_fields.
Definition fastReflection_MsgConvertERC20Response_Clear := reflect_Clear fastReflection_MsgConvertERC20Response_fields.
Definition fastReflection_MsgConvertERC20Response_Get := reflect_Get fastReflection_MsgConvertERC20Response_fields.
Definition fastReflection_MsgConvertERC20Response_Set := reflect_Set fastReflection_MsgConvertERC20Response_fields.
Definition fastReflection_MsgConvertERC20Response_Mutable := reflect_Mutable fastReflection_MsgConvertERC20Response_fields.
Definition fastReflection_MsgConvertERC20Response_NewField := reflect_NewField fastReflection_MsgConvertERC20Response_fields.
Definition fastReflection_MsgConvertERC20Response_SetUnknown (fields : bytes) (x : MsgConvertERC20Response) : MsgConvertERC20Response := let '(mkMsgConvertERC20Response _) := x in mkMsgConvertERC20Response fields.

Definition fastReflection_MsgUpdateParams_fields : list (Field MsgUpdateParams V) :=
  [string_field "canto.erc20.v1.MsgUpdateParams.authority" MsgUpdateParams_Authority
     (fun v x => let '(mkMsgUpdateParams _ params_ unknown) := x in mkMsgUpdateParams v params_ unknown);
   message_field (new Params_methods) Msg_Params to_Params "canto.erc20.v1.MsgUpdateParams.params" MsgUpdateParams_Params
     (fun v x => let '(mkMsgUpdateParams authority_ _ unknown) := x in mkMsgUpdateParams authority_ v unknown)].
Definition fastReflection_MsgUpdateParams_Range {S} := reflect_Range (S := S) fastReflection_MsgUpdateParams_fields.
Definition fastReflection_MsgUpdateParams_Has := reflect_Has fastReflection_MsgUpdateParams_fields.
Definition fastReflection_MsgUpdateParams_Clear := reflect_Clear fastReflection_MsgUpdateParams_fields.
Definition fastReflection_MsgUpdateParams_Get := reflect_Get fastReflection_MsgUpdateParams_fields.
Definition fastReflection_MsgUpdateParams_Set := reflect_Set fastReflection_MsgUpdateParams_fields.
Definition fastReflection_MsgUpdateParams_Mutable := reflect_Mutable fastReflection_MsgUpdateParams_fields.
Definition fastReflection_MsgUpdateParams_NewField := reflect_NewField fastReflection_MsgUpdateParams_fields.
Definition fastReflection_MsgUpdateParams_SetUnknown (fields : bytes) (x : MsgUpdateParams) : MsgUpdateParams := let '(mkMsgUpdateParams authority_ params_ _) := x in mkMsgUpdateParams authority_ params_ fields.

Definition fastReflection_MsgUpdateParamsResponse_fields : list (Field MsgUpdateParamsResponse V) :=
  [].
Definition fastReflection_MsgUpdateParamsResponse_Range {S} := reflect_Range (S := S) fastReflection_MsgUpdateParamsResponse_fields.
Definition fastReflection_MsgUpdateParamsResponse_Has := reflect_Has fastReflection_MsgUpdateParamsResponse_fields.
Definition fastReflection_MsgUpdateParamsResponse_Clear := reflect_Clear fastReflection_MsgUpdateParamsResponse_fields.
Definition fastReflection_MsgUpdateParamsResponse_Get := reflect_Get fastReflection_MsgUpdateParamsResponse_fields.
Definition fastReflection_MsgUpdateParamsResponse_Set := reflect_Set fastReflection_MsgUpdateParamsResponse_fields.
Definition fastReflection_MsgUpdateParamsResponse_Mutable := reflect_Mutable fastReflection_MsgUpdateParamsResponse_fields.
Definition fastReflection_MsgUpdateParamsResponse_NewField := reflect_NewField fastReflection_MsgUpdateParamsResponse_fields.
Definition fastReflection_MsgUpdateParamsResponse_SetUnknown (fields : bytes) (x : MsgUpdateParamsResponse) : MsgUpdateParamsResponse := let '(mkMsgUpdateParamsResponse _) := x in mkMsgUpdateParamsResponse fields.

Definition fastReflection_MsgRegisterCoin_fields : list (Field MsgRegisterCoin V) :=
  [string_field "canto.erc20.v1.MsgRegisterCoin.authority" MsgRegisterCoin_Authority
     (fun v x => let '(mkMsgRegisterCoin _ title_ description_ metadata_ unknown) := x in mkMsgRegisterCoin v title_ description_ metadata_ unknown);
   string_field "canto.erc20.v1.MsgRegisterCoin.title" MsgRegisterCoin_Title
     (fun v x => let '(mkMsgRegisterCoin authority_ _ description_ metadata_ unknown) := x in mkMsgRegisterCoin authority_ v description_ metadata_ unknown);
   string_field "canto.erc20.v1.MsgRegisterCoin.description" MsgRegisterCoin_Description
     (fun v x => let '(mkMsgRegisterCoin authority_ title_ _ metadata_ unknown) := x in mkMsgRegisterCoin authority_ title_ v metadata_ unknown);
   message_field (new api_Metadata_methods) Msg_api_Metadata to_api_Metadata "canto.erc20.v1.MsgRegisterCoin.metadata" MsgRegisterCoin_Metadata
     (fun v x => let '(mkMsgRegisterCoin authority_ title_ description_ _ unknown) := x in mkMsgRegisterCoin authority_ title_ description_ v unknown)].
Definition fastReflection_MsgRegisterCoin_Range {S} := reflect_Range (S := S) fastReflection_MsgRegisterCoin_fields.
Definition fastReflection_MsgRegisterCoin_Has := reflect_Has fastReflection_MsgRegisterCoin_fields.
Definition fastReflection_MsgRegisterCoin_Clear := reflect_Clear fastReflection_MsgRegisterCoin_fields.
Definition fastReflection_MsgRegisterCoin_Get := reflect_Get fastReflection_MsgRegisterCoin_fields.
Definition fastReflection_MsgRegisterCoin_Set := reflect_Set fastReflection_MsgRegisterCoin_fields.
Definition fastReflection_MsgRegisterCoin_Mutable := reflect_Mutable fastReflection_MsgRegisterCoin_fields.
Definition fastReflection_MsgRegisterCoin_NewField := reflect_NewField fastReflection_MsgRegisterCoin_fields.
Definition fastReflection_MsgRegisterCoin_SetUnknown (fields : bytes) (x : MsgRegisterCoin) : MsgRegisterCoin := let '(mkMsgRegisterCoin authority_ title_ description_ metadata_ _) := x in mkMsgRegisterCoin authority_ title_ description_ metadata_ fields.

Definition fastReflection_MsgRegisterCoinResponse_fields : list (Field MsgRegisterCoinResponse V) :=
  [].
Definition fastReflection_MsgRegisterCoinResponse_Range {S} := reflect_Range (S := S) fastReflection_MsgRegisterCoinResponse_fields.
Definition fastReflection_MsgRegisterCoinResponse_Has := reflect_Has fastReflection_MsgRegisterCoinResponse_fields.
Definition fastReflection_MsgRegisterCoinResponse_Clear := reflect_Clear fastReflection_MsgRegisterCoinResponse_fields.
Definition fastReflection_MsgRegisterCoinResponse_Get := reflect_Get fastReflection_MsgRegisterCoinResponse_fields.
Definition fastReflection_MsgRegisterCoinResponse_Set := reflect_Set fastReflection_MsgRegisterCoinResponse_fields.
Definition fastReflection_MsgRegisterCoinResponse_Mutable := reflect_Mutable fastReflection_MsgRegisterCoinResponse_fields.
Definition fastReflection_MsgRegisterCoinResponse_NewField := reflect_NewField fastReflection_MsgRegisterCoinResponse_fields.
Definition fastReflection_MsgRegisterCoinResponse_SetUnknown (fields : bytes) (x : MsgRegisterCoinResponse) : MsgRegisterCoinResponse := let '(mkMsgRegisterCoinResponse _) := x in mkMsgRegisterCoinResponse fields.

Definition fastReflection_MsgRegisterERC20_fields : list (Field MsgRegisterERC20 V) :=
  [string_field "canto.erc20.v1.MsgRegisterERC20.authority" MsgRegisterERC20_Authority
     (fun v x => let '(mkMsgRegisterERC20 _ title_ description_ erc20Address_ unknown) := x in mkMsgRegisterERC20 v title_ description_ erc20Address_ unknown);
   string_field "canto.erc20.v1.MsgRegisterERC20.title" MsgRegisterERC20_Title
     (fun v x => let '(mkMsgRegisterERC20 authority_ _ description_ erc20Address_ unknown) := x in mkMsgRegisterERC20 authority_ v description_ erc20Address_ unknown);
   string_field "canto.erc20.v1.MsgRegisterERC20.description" MsgRegisterERC20_Description
     (fun v x => let '(mkMsgRegisterERC20 authority_ title_ _ erc20Address_ unknown) := x in mkMsgRegisterERC20 authority_ title_ v erc20Address_ unknown);
   string_field "canto.erc20.v1.MsgRegisterERC20.erc20address" MsgRegisterERC20_Erc20Address
     (fun v x => let '(mkMsgRegisterERC20 authority_ title_ description_ _ unknown) := x in mkMsgRegisterERC20 authority_ title_ description_ v unknown)].
Definition fastReflection_MsgRegisterERC20_Range {S} := reflect_Range (S := S) fastReflection_MsgRegisterERC20_fields.
Definition fastReflection_MsgRegisterERC20_Has := reflect_Has fastReflection_MsgRegisterERC20_fields.
Definition fastReflection_MsgRegisterERC20_Clear := reflect_Clear fastReflection_MsgRegisterERC20_fields.
Definition fastReflection_MsgRegisterERC20_Get := reflect_Get fastReflection_MsgRegisterERC20_fields.
Definition fastReflection_MsgRegisterERC20_Set := reflect_Set fastReflection_MsgRegisterERC20_fields.
Definition fastReflection_MsgRegisterERC20_Mutable := reflect_Mutable fastReflection_MsgRegisterERC20_fields.
Definition fastReflection_MsgRegisterERC20_NewField := reflect_NewField fastReflection_MsgRegisterERC20_fields.
Definition fastReflection_MsgRegisterERC20_SetUnknown (fields : bytes) (x : MsgRegisterERC20) : MsgRegisterERC20 := let '(mkMsgRegisterERC20 authority_ title_ description_ erc20Address_ _) := x in mkMsgRegisterERC20 authority_ title_ description_ erc20Address_ fields.

Definition fastReflection_MsgRegisterERC20Response_fields : list (Field MsgRegisterERC20Response V) :=
  [].
Definition fastReflection_MsgRegisterERC20Response_Range {S} := reflect_Range (S := S) fastReflection_MsgRegisterERC20Response_fields.
Definition fastReflection_MsgRegisterERC20Response_Has := reflect_Has fastReflection_MsgRegisterERC20Response_fields.
Definition fastReflection_MsgRegisterERC20Response_Clear := reflect_Clear fastReflection_MsgRegisterERC20Response_fields.
Definition fastReflection_MsgRegisterERC20Response_Get := reflect_Get fastReflection_MsgRegisterERC20Response_fields.
Definition fastReflection_MsgRegisterERC20Response_Set := reflect_Set fastReflection_MsgRegisterERC20Response_fields.
Definition fastReflection_MsgRegisterERC20Response_Mutable := reflect_Mutable fastReflection_MsgRegisterERC20Response_fields.
Definition fastReflection_MsgRegisterERC20Response_NewField := reflect_NewField fastReflection_MsgRegisterERC20Response_fields.
Definition fastReflection_MsgRegisterERC20Response_SetUnknown (fields : bytes) (x : MsgRegisterERC20Response) : MsgRegisterERC20Response := let '(mkMsgRegisterERC20Response _) := x in mkMsgRegisterERC20Response fields.

Definition fastReflection_MsgToggleTokenConversion_fields : list (Field MsgToggleTokenConversion V) :=
  [string_field "canto.erc20.v1.MsgToggleTokenConversion.authority" MsgToggleTokenConversion_Authority
     (fun v x => let '(mkMsgToggleTokenConversion _ title_ description_ token_ unknown) := x in mkMsgToggleTokenConversion v title_ description_ token_ unknown);
   string_field "canto.erc20.v1.MsgToggleTokenConversion.title" MsgToggleTokenConversion_Title
     (fun v x => let '(mkMsgToggleTokenConversion authority_ _ description_ token_ unknown) := x in mkMsgToggleTokenConversion authority_ v description_ token_ unknown);
   string_field "canto.erc20.v1.MsgToggleTokenConversion.description" MsgToggleTokenConversion_Description
     (fun v x => let '(mkMsgToggleTokenConversion authority_ title_ _ token_ unknown) := x in mkMsgToggleTokenConversion authority_ title_ v token_ unknown);
   string_field "canto.erc20.v1.MsgToggleTokenConversion.token" MsgToggleTokenConversion_Token
     (fun v x => let '(mkMsgToggleTokenConversion authority_ title_ description_ _ unknown) := x in mkMsgToggleTokenConversion authority_ title_ description_ v unknown)].
Definition fastReflection_MsgToggleTokenConversion_Range {S} := reflect_Range (S := S) fastReflection_MsgToggleTokenConversion_fields.
Definition fastReflection_MsgToggleTokenConversion_Has := reflect_Has fastReflection_MsgToggleTokenConversion_fields.
Definition fastReflection_MsgToggleTokenConversion_Clear := reflect_Clear fastReflection_MsgToggleTokenConversion_fields.
Definition fastReflection_MsgToggleTokenConversion_Get := reflect_Get fastReflection_MsgToggleTokenConversion_fields.
Definition fastReflection_MsgToggleTokenConversion_Set := reflect_Set fastReflection_MsgToggleTokenConversion_fields.
Definition fastReflection_MsgToggleTokenConversion_Mutable := reflect_Mutable fastReflection_MsgToggleTokenConversion_fields.
Definition fastReflection_MsgToggleTokenConversion_NewField := reflect_NewField fastReflection_MsgToggleTokenConversion_fields.
Definition fastReflection_MsgToggleTokenConversion_SetUnknown (fields : bytes) (x : MsgToggleTokenConversion) : MsgToggleTokenConversion := let '(mkMsgToggleTokenConversion authority_ title_ description_ token_ _) := x in mkMsgToggleTokenConversion authority_ title_ description_ token_ fields.

Definition fastReflection_MsgToggleTokenConversionResponse_fields : list (Field MsgToggleTokenConversionResponse V) :=
  [].
Definition fastReflection_MsgToggleTokenConversionResponse_Range {S} := reflect_Range (S := S) fastReflection_MsgToggleTokenConversionResponse_fields.
Definition fastReflection_MsgToggleTokenConversionResponse_Has := reflect_Has fastReflection_MsgToggleTokenConversionResponse_fields.
Definition fastReflection_MsgToggleTokenConversionResponse_Clear := reflect_Clear fastReflection_MsgToggleTokenConversionResponse_fields.
Definition fastReflection_MsgToggleTokenConversionResponse_Get := reflect_Get fastReflection_MsgToggleTokenConversionResponse_fields.
Definition fastReflection_MsgToggleTokenConversionResponse_Set := reflect_Set fastReflection_MsgToggleTokenConversionResponse_fields.
Definition fastReflection_MsgToggleTokenConversionResponse_Mutable := reflect_Mutable fastReflection_MsgToggleTokenConversionResponse_fields.
Definition fastReflection_MsgToggleTokenConversionResponse_NewField := reflect_NewField fastReflection_MsgToggleTokenConversionResponse_fields.
Definition fastReflection_MsgToggleTokenConversionResponse_SetUnknown (fields : bytes) (x : MsgToggleTokenConversionResponse) : MsgToggleTokenConversionResponse := let '(mkMsgToggleTokenConversionResponse _) := x in mkMsgToggleTokenConversionResponse fields.

Lemma erc20_TokenPair_field_laws : FieldLaws fastReflection_TokenPair_fields TokenPair_unknownFields (new TokenPair_methods).
Proof. message_field_laws. Qed.
Lemma erc20_TokenPairDenomIndex_field_laws : FieldLaws fastReflection_TokenPairDenomIndex_fields TokenPairDenomIndex_unknownFields (new TokenPairDenomIndex_methods).
Proof. message_field_laws. Qed.
Lemma erc20_TokenPairERC20AddressIndex_field_laws : FieldLaws fastReflection_TokenPairERC20AddressIndex_fields TokenPairERC20AddressIndex_unknownFields (new TokenPairERC20AddressIndex_methods).
Proof. message_field_laws. Qed.
Lemma erc20_RegisterCoinProposal_field_laws : FieldLaws fastReflection_RegisterCoinProposal_fields RegisterCoinProposal_unknownFields (new RegisterCoinProposal_methods).
Proof. message_field_laws. Qed.
Lemma erc20_RegisterERC20Proposal_field_laws : FieldLaws fastReflection_RegisterERC20Proposal_fields RegisterERC20Proposal_unknownFields (new RegisterERC20Proposal_methods).
Proof. message_field_laws. Qed.
Lemma erc20_ToggleTokenConversionProposal_field_laws : FieldLaws fastReflection_ToggleTokenConversionProposal_fields ToggleTokenConversionProposal_unknownFields (new ToggleTokenConversionProposal_methods).
Proof. message_field_laws. Qed.
Lemma erc20_Params_field_laws : FieldLaws fastReflection_Params_fields Params_unknownFields (new Params_methods).
Proof. message_field_laws. Qed.
Lemma erc20_GenesisState_field_laws : FieldLaws fastReflection_GenesisState_fields GenesisState_unknownFields (new GenesisState_methods).
Proof. message_field_laws. Qed.
Lemma erc20_QueryTokenPairsRequest_field_laws : FieldLaws fastReflection_QueryTokenPairsRequest_fields QueryTokenPairsRequest_unknownFields (new QueryTokenPairsRequest_methods).
Proof. message_field_laws. Qed.
Lemma erc20_QueryTokenPairsResponse_field_laws : FieldLaws fastReflection_QueryTokenPairsResponse_fields QueryTokenPairsResponse_unknownFields (new QueryTokenPairsResponse_methods).
Proof. message_field_laws. Qed.
Lemma erc20_QueryTokenPairRequest_field_laws : FieldLaws fastReflection_QueryTokenPairRequest_fields QueryTokenPairRequest_unknownFields (new QueryTokenPairRequest_methods).
Proof. message_field_laws. Qed.
Lemma erc20_QueryTokenPairResponse_field_laws : FieldLaws fastReflection_QueryTokenPairResponse_fields QueryTokenPairResponse_unknownFields (new QueryTokenPairResponse_methods).
Proof. message_field_laws. Qed.
Lemma erc20_QueryParamsRequest_field_laws : FieldLaws fastReflection_QueryParamsRequest_fields QueryParamsRequest_unknownFields (new QueryParamsRequest_methods).
Proof. message_field_laws. Qed.
Lemma erc20_QueryParamsResponse_field_laws : FieldLaws fastReflection_QueryParamsResponse_fields QueryParamsResponse_unknownFields (new QueryParamsResponse_methods).
Proof. message_field_laws. Qed.
Lemma erc20_MsgConvertCoin_field_laws : FieldLaws fastReflection_MsgConvertCoin_fields MsgConvertCoin_unknownFields (new MsgConvertCoin_methods).
Proof. message_field_laws. Qed.
Lemma erc20_MsgConvertCoinResponse_field_laws : FieldLaws fastReflection_MsgConvertCoinResponse_fields MsgConvertCoinResponse_unknownFields (new MsgConvertCoinResponse_methods).
Proof. message_field_laws. Qed.
Lemma erc20_MsgConvertERC20_field_laws : FieldLaws fastReflection_MsgConvertERC20_fields MsgConvertERC20_unknownFields (new MsgConvertERC20_methods).
Proof. message_field_laws. Qed.
Lemma erc20_MsgConvertERC20Response_field_laws : FieldLaws fastReflection_MsgConvertERC20Response_fields MsgConvertERC20Response_unknownFields (new MsgConvertERC20Response_methods).
Proof. message_field_laws. Qed.
Lemma erc20_MsgUpdateParams_field_laws : FieldLaws fastReflection_MsgUpdateParams_fields MsgUpdateParams_unknownFields (new MsgUpdateParams_methods).
Proof. message_field_laws. Qed.
Lemma erc20_MsgUpdateParamsResponse_field_laws : FieldLaws fastReflection_MsgUpdateParamsResponse_fields MsgUpdateParamsResponse_unknownFields (new MsgUpdateParamsResponse_methods).
Proof. message_field_laws. Qed.
Lemma erc20_MsgRegisterCoin_field_laws : FieldLaws fastReflection_MsgRegisterCoin_fields MsgRegisterCoin_unknownFields (new MsgRegisterCoin_methods).
Proof. message_field_laws. Qed.
Lemma erc20_MsgRegisterCoinResponse_field_laws : FieldLaws fastReflection_MsgRegisterCoinResponse_fields MsgRegisterCoinResponse_unknownFields (new MsgRegisterCoinResponse_methods).
Proof. message_field_laws. Qed.
Lemma erc20_MsgRegisterERC20_field_laws : FieldLaws fastReflection_MsgRegisterERC20_fields MsgRegisterERC20_unknownFields (new MsgRegisterERC20_methods).
Proof. message_field_laws. Qed.
Lemma erc20_MsgRegisterERC20Response_field_laws : FieldLaws fastReflection_MsgRegisterERC20Response_fields MsgRegisterERC20Response_unknownFields (new MsgRegisterERC20Response_methods).
Proof. message_field_laws. Qed.
Lemma erc20_MsgToggleTokenConversion_field_laws : FieldLaws fastReflection_MsgToggleTokenConversion_fields MsgToggleTokenConversion_unknownFields (new MsgToggleTokenConversion_methods).
Proof. message_field_laws. Qed.
Lemma erc20_MsgToggleTokenConversionResponse_field_laws : FieldLaws fastReflection_MsgToggleTokenConversionResponse_fields MsgToggleTokenConversionResponse_unknownFields (new MsgToggleTokenConversionResponse_methods).
Proof. message_field_laws. Qed.

(** What reflection promises, for every message. *)
Definition reflection_complete : Prop :=
  reflects fastReflection_TokenPair_fields TokenPair_unknownFields fastReflection_TokenPair_SetUnknown (new TokenPair_methods) ∧
  reflects fastReflection_TokenPairDenomIndex_fields TokenPairDenomIndex_unknownFields fastReflection_TokenPairDenomIndex_SetUnknown (new TokenPairDenomIndex_methods) ∧
  reflects fastReflection_TokenPairERC20AddressIndex_fields TokenPairERC20AddressIndex_unknownFields fastReflection_TokenPairERC20AddressIndex_SetUnknown (new TokenPairERC20AddressIndex_methods) ∧
  reflects fastReflection_RegisterCoinProposal_fields RegisterCoinProposal_unknownFields fastReflection_RegisterCoinProposal_SetUnknown (new RegisterCoinProposal_methods) ∧
  reflects fastReflection_RegisterERC20Proposal_fields RegisterERC20Proposal_unknownFields fastReflection_RegisterERC20Proposal_SetUnknown (new RegisterERC20Proposal_methods) ∧
  reflects fastReflection_ToggleTokenConversionProposal_fields ToggleTokenConversionProposal_unknownFields fastReflection_ToggleTokenConversionProposal_SetUnknown (new ToggleTokenConversionProposal_methods) ∧
  reflects fastReflection_Params_fields Params_unknownFields fastReflection_Params_SetUnknown (new Params_methods) ∧
  reflects fastReflection_GenesisState_fields GenesisState_unknownFields fastReflection_GenesisState_SetUnknown (new GenesisState_methods) ∧
  reflects fastReflection_QueryTokenPairsRequest_fields QueryTokenPairsRequest_unknownFields fastReflection_QueryTokenPairsRequest_SetUnknown (new QueryTokenPairsRequest_methods) ∧
  reflects fastReflection_QueryTokenPairsResponse_fields QueryTokenPairsResponse_unknownFields fastReflection_QueryTokenPairsResponse_SetUnknown (new QueryTokenPairsResponse_methods) ∧
  reflects fastReflection_QueryTokenPairRequest_fields QueryTokenPairRequest_unknownFields fastReflection_QueryTokenPairRequest_SetUnknown (new QueryTokenPairRequest_methods) ∧
  reflects fastReflection_QueryTokenPairResponse_fields QueryTokenPairResponse_unknownFields fastReflection_QueryTokenPairResponse_SetUnknown (new QueryTokenPairResponse_methods) ∧
  reflects fastReflection_QueryParamsRequest_fields QueryParamsRequest_unknownFields fastReflection_QueryParamsRequest_SetUnknown (new QueryParamsRequest_methods) ∧
  reflects fastReflection_QueryParamsResponse_fields QueryParamsResponse_unknownFields fastReflection_QueryParamsResponse_SetUnknown (new QueryParamsResponse_methods) ∧
  reflects fastReflection_MsgConvertCoin_fields MsgConvertCoin_unknownFields fastReflection_MsgConvertCoin_SetUnknown (new MsgConvertCoin_methods) ∧
  reflects fastReflection_MsgConvertCoinResponse_fields MsgConvertCoinResponse_unknownFields fastReflection_MsgConvertCoinResponse_SetUnknown (new MsgConvertCoinResponse_methods) ∧
  reflects fastReflection_MsgConvertERC20_fields MsgConvertERC20_unknownFields fastReflection_MsgConvertERC20_SetUnknown (new MsgConvertERC20_methods) ∧
  reflects fastReflection_MsgConvertERC20Response_fields MsgConvertERC20Response_unknownFields fastReflection_MsgConvertERC20Response_SetUnknown (new MsgConvertERC20Response_methods) ∧
  reflects fastReflection_MsgUpdateParams_fields MsgUpdateParams_unknownFields fastReflection_MsgUpdateParams_SetUnknown (new MsgUpdateParams_methods) ∧
  reflects fastReflection_MsgUpdateParamsResponse_fields MsgUpdateParamsResponse_unknownFields fastReflection_MsgUpdateParamsResponse_SetUnknown (new MsgUpdateParamsResponse_methods) ∧
  reflects fastReflection_MsgRegisterCoin_fields MsgRegisterCoin_unknownFields fastReflection_MsgRegisterCoin_SetUnknown (new MsgRegisterCoin_methods) ∧
  reflects fastReflection_MsgRegisterCoinResponse_fields MsgRegisterCoinResponse_unknownFields fastReflection_MsgRegisterCoinResponse_SetUnknown (new MsgRegisterCoinResponse_methods) ∧
  reflects fastReflection_MsgRegisterERC20_fields MsgRegisterERC20_unknownFields fastReflection_MsgRegisterERC20_SetUnknown (new MsgRegisterERC20_methods) ∧
  reflects fastReflection_MsgRegisterERC20Response_fields MsgRegisterERC20Response_unknownFields fastReflection_MsgRegisterERC20Response_SetUnknown (new MsgRegisterERC20Response_methods) ∧
  reflects fastReflection_MsgToggleTokenConversion_fields MsgToggleTokenConversion_unknownFields fastReflection_MsgToggleTokenConversion_SetUnknown (new MsgToggleTokenConversion_methods) ∧
  reflects fastReflection_MsgToggleTokenConversionResponse_fields MsgToggleTokenConversionResponse_unknownFields fastReflection_MsgToggleTokenConversionResponse_SetUnknown (new MsgToggleTokenConversionResponse_methods).
Lemma erc20_reflection_complete : reflection_complete.
Proof.
  unfold reflection_complete. split_and!;
  [message_reflects erc20_TokenPair_field_laws
  |message_reflects erc20_TokenPairDenomIndex_field_laws
  |message_reflects erc20_TokenPairERC20AddressIndex_field_laws
  |message_reflects erc20_RegisterCoinProposal_field_laws
  |message_reflects erc20_RegisterERC20Proposal_field_laws
  |message_reflects erc20_ToggleTokenConversionProposal_field_laws
  |message_reflects erc20_Params_field_laws
  |message_reflects erc20_GenesisState_field_laws
  |message_reflects erc20_QueryTokenPairsRequest_field_laws
  |message_reflects erc20_QueryTokenPairsResponse_field_laws
  |message_reflects erc20_QueryTokenPairRequest_field_laws
  |message_reflects erc20_QueryTokenPairResponse_field_laws
  |message_reflects erc20_QueryParamsRequest_field_laws
  |message_reflects erc20_QueryParamsResponse_field_laws
  |message_reflects erc20_MsgConvertCoin_field_laws
  |message_reflects erc20_MsgConvertCoinResponse_field_laws
  |message_reflects erc20_MsgConvertERC20_field_laws
  |message_reflects erc20_MsgConvertERC20Response_field_laws
  |message_reflects erc20_MsgUpdateParams_field_laws
  |message_reflects erc20_MsgUpdateParamsResponse_field_laws
  |message_reflects erc20_MsgRegisterCoin_field_laws
  |message_reflects erc20_MsgRegisterCoinResponse_field_laws
  |message_reflects erc20_MsgRegisterERC20_field_laws
  |message_reflects erc20_MsgRegisterERC20Response_field_laws
  |message_reflects erc20_MsgToggleTokenConversion_field_laws
  |message_reflects erc20_MsgToggleTokenConversionResponse_field_laws].
Qed.

(** ** The same encodings as the module *)

Context {SC : SdkCodecs} {SL : SdkCodecLaws SC} {SE : SameEncodings SL AL}.

Definition TokenPair_api (m : Erc20Types.TokenPair) : TokenPair := mkTokenPair (Erc20Types.Erc20Address m) (Erc20Types.Pair_Denom m) (Erc20Types.Enabled m) (Erc20Codec.Owner_value (Erc20Types.ContractOwner m)) [].
Lemma erc20_TokenPair_same : same_encoding TokenPair_api Erc20Codec.TokenPair_wf Erc20Codec.TokenPair_enc TokenPair_wf TokenPair_enc.
Proof. same_message TokenPair_api (@Erc20Codec.TokenPair_wf) (@Erc20Codec.TokenPair_enc) TokenPair_wf TokenPair_enc TokenPair_fields_enc. Qed.
#[local] Hint Resolve erc20_TokenPair_same : api_same.
Definition TokenPairDenomIndex_api (m : Erc20Types.TokenPairDenomIndex) : TokenPairDenomIndex := mkTokenPairDenomIndex (Erc20Types.DIdx_Denom m) (Erc20Types.DIdx_TokenPairId m) [].
Lemma erc20_TokenPairDenomIndex_same : same_encoding TokenPairDenomIndex_api Erc20Codec.TokenPairDenomIndex_wf Erc20Codec.TokenPairDenomIndex_enc TokenPairDenomIndex_wf TokenPairDenomIndex_enc.
Proof. same_message TokenPairDenomIndex_api (@Erc20Codec.TokenPairDenomIndex_wf) (@Erc20Codec.TokenPairDenomIndex_enc) TokenPairDenomIndex_wf TokenPairDenomIndex_enc TokenPairDenomIndex_fields_enc. Qed.
#[local] Hint Resolve erc20_TokenPairDenomIndex_same : api_same.
Definition TokenPairERC20AddressIndex_api (m : Erc20Types.TokenPairERC20AddressIndex) : TokenPairERC20AddressIndex := mkTokenPairERC20AddressIndex (Erc20Types.EIdx_Erc20Address m) (Erc20Types.EIdx_TokenPairId m) [].
Lemma erc20_TokenPairERC20AddressIndex_same : same_encoding TokenPairERC20AddressIndex_api Erc20Codec.TokenPairERC20AddressIndex_wf Erc20Codec.TokenPairERC20AddressIndex_enc TokenPairERC20AddressIndex_wf TokenPairERC20AddressIndex_enc.
Proof. same_message TokenPairERC20AddressIndex_api (@Erc20Codec.TokenPairERC20AddressIndex_wf) (@Erc20Codec.TokenPairERC20AddressIndex_enc) TokenPairERC20AddressIndex_wf TokenPairERC20AddressIndex_enc TokenPairERC20AddressIndex_fields_enc. Qed.
#[local] Hint Resolve erc20_TokenPairERC20AddressIndex_same : api_same.
Definition RegisterCoinProposal_api (m : Erc20Codec.RegisterCoinProposal_content) : RegisterCoinProposal := mkRegisterCoinProposal (Erc20Codec.RegisterCoinProposal_Title m) (Erc20Codec.RegisterCoinProposal_Description m) (Some (metadata_api (Erc20Codec.RegisterCoinProposal_Metadata m))) [].
Lemma erc20_RegisterCoinProposal_same : same_encoding RegisterCoinProposal_api Erc20Codec.RegisterCoinProposal_wf Erc20Codec.RegisterCoinProposal_enc RegisterCoinProposal_wf RegisterCoinProposal_enc.
Proof. same_message RegisterCoinProposal_api (@Erc20Codec.RegisterCoinProposal_wf) (@Erc20Codec.RegisterCoinProposal_enc) RegisterCoinProposal_wf RegisterCoinProposal_enc RegisterCoinProposal_fields_enc. Qed.
#[local] Hint Resolve erc20_RegisterCoinProposal_same : api_same.
Definition RegisterERC20Proposal_api (m : Erc20Codec.RegisterERC20Proposal_content) : RegisterERC20Proposal := mkRegisterERC20Proposal (Erc20Codec.RegisterERC20Proposal_Title m) (Erc20Codec.RegisterERC20Proposal_Description m) (Erc20Codec.RegisterERC20Proposal_Erc20Address m) [].
Lemma erc20_RegisterERC20Proposal_same : same_encoding RegisterERC20Proposal_api Erc20Codec.RegisterERC20Proposal_wf Erc20Codec.RegisterERC20Proposal_enc RegisterERC20Proposal_wf RegisterERC20Proposal_enc.
Proof. same_message RegisterERC20Proposal_api (@Erc20Codec.RegisterERC20Proposal_wf) (@Erc20Codec.RegisterERC20Proposal_enc) RegisterERC20Proposal_wf RegisterERC20Proposal_enc RegisterERC20Proposal_fields_enc. Qed.
#[local] Hint Resolve erc20_RegisterERC20Proposal_same : api_same.
Definition ToggleTokenConversionProposal_api (m : Erc20Codec.ToggleTokenConversionProposal_content) : ToggleTokenConversionProposal := mkToggleTokenConversionProposal (Erc20Codec.ToggleTokenConversionProposal_Title m) (Erc20Codec.ToggleTokenConversionProposal_Description m) (Erc20Codec.ToggleTokenConversionProposal_Token m) [].
Lemma erc20_ToggleTokenConversionProposal_same : same_encoding ToggleTokenConversionProposal_api Erc20Codec.ToggleTokenConversionProposal_wf Erc20Codec.ToggleTokenConversionProposal_enc ToggleTokenConversionProposal_wf ToggleTokenConversionProposal_enc.
Proof. same_message ToggleTokenConversionProposal_api (@Erc20Codec.ToggleTokenConversionProposal_wf) (@Erc20Codec.ToggleTokenConversionProposal_enc) ToggleTokenConversionProposal_wf ToggleTokenConversionProposal_enc ToggleTokenConversionProposal_fields_enc. Qed.
#[local] Hint Resolve erc20_ToggleTokenConversionProposal_same : api_same.
Definition Params_api (m : Erc20Types.Params) : Params := mkParams (Erc20Types.EnableErc20 m) (Erc20Types.EnableEVMHook m) [].
Lemma erc20_Params_same : same_encoding Params_api Erc20Codec.Params_wf Erc20Codec.Params_enc Params_wf Params_enc.
Proof. same_message Params_api (@Erc20Codec.Params_wf) (@Erc20Codec.Params_enc) Params_wf Params_enc Params_fields_enc. Qed.
#[local] Hint Resolve erc20_Params_same : api_same.
Definition GenesisState_api (m : Erc20Types.GenesisState) : GenesisState := mkGenesisState (Some (Params_api (Erc20Types.Gen_Params m))) ((fun c => Some (TokenPair_api c)) <$> (Erc20Types.Gen_TokenPairs m)) ((fun c => Some (TokenPairDenomIndex_api c)) <$> (Erc20Types.Gen_DenomIndexes m)) ((fun c => Some (TokenPairERC20AddressIndex_api c)) <$> (Erc20Types.Gen_Erc20AddressIndexes m)) [].
Lemma erc20_GenesisState_same : same_encoding GenesisState_api Erc20Codec.GenesisState_wf Erc20Codec.GenesisState_enc GenesisState_wf GenesisState_enc.
Proof. same_message GenesisState_api (@Erc20Codec.GenesisState_wf) (@Erc20Codec.GenesisState_enc) GenesisState_wf GenesisState_enc GenesisState_fields_enc. Qed.
#[local] Hint Resolve erc20_GenesisState_same : api_same.
Definition QueryTokenPairsRequest_api (m : Erc20Codec.QueryTokenPairsRequest) : QueryTokenPairsRequest := mkQueryTokenPairsRequest (page_request_api <$> (Erc20Codec.QueryTokenPairsRequest_Pagination m)) [].
Lemma erc20_QueryTokenPairsRequest_same : same_encoding QueryTokenPairsRequest_api Erc20Codec.QueryTokenPairsRequest_wf Erc20Codec.QueryTokenPairsRequest_enc QueryTokenPairsRequest_wf QueryTokenPairsRequest_enc.
Proof. same_message QueryTokenPairsRequest_api (@Erc20Codec.QueryTokenPairsRequest_wf) (@Erc20Codec.QueryTokenPairsRequest_enc) QueryTokenPairsRequest_wf QueryTokenPairsRequest_enc QueryTokenPairsRequest_fields_enc. Qed.
#[local] Hint Resolve erc20_QueryTokenPairsRequest_same : api_same.
Definition QueryTokenPairsResponse_api (m : Erc20Codec.QueryTokenPairsResponse) : QueryTokenPairsResponse := mkQueryTokenPairsResponse ((fun c => Some (TokenPair_api c)) <$> (Erc20Codec.QueryTokenPairsResponse_TokenPairs m)) (page_response_api <$> (Erc20Codec.QueryTokenPairsResponse_Pagination m)) [].
Lemma erc20_QueryTokenPairsResponse_same : same_encoding QueryTokenPairsResponse_api Erc20Codec.QueryTokenPairsResponse_wf Erc20Codec.QueryTokenPairsResponse_enc QueryTokenPairsResponse_wf QueryTokenPairsResponse_enc.
Proof. same_message QueryTokenPairsResponse_api (@Erc20Codec.QueryTokenPairsResponse_wf) (@Erc20Codec.QueryTokenPairsResponse_enc) QueryTokenPairsResponse_wf QueryTokenPairsResponse_enc QueryTokenPairsResponse_fields_enc. Qed.
#[local] Hint Resolve erc20_QueryTokenPairsResponse_same : api_same.
Definition QueryTokenPairRequest_api (m : Erc20Codec.QueryTokenPairRequest) : QueryTokenPairRequest := mkQueryTokenPairRequest (Erc20Codec.QueryTokenPairRequest_Token m) [].
Lemma erc20_QueryTokenPairRequest_same : same_encoding QueryTokenPairRequest_api Erc20Codec.QueryTokenPairRequest_wf Erc20Codec.QueryTokenPairRequest_enc QueryTokenPairRequest_wf QueryTokenPairRequest_enc.
Proof. same_message QueryTokenPairRequest_api (@Erc20Codec.QueryTokenPairRequest_wf) (@Erc20Codec.QueryTokenPairRequest_enc) QueryTokenPairRequest_wf QueryTokenPairRequest_enc QueryTokenPairRequest_fields_enc. Qed.
#[local] Hint Resolve erc20_QueryTokenPairRequest_same : api_same.
Definition QueryTokenPairResponse_api (m : Erc20Codec.QueryTokenPairResponse) : QueryTokenPairResponse := mkQueryTokenPairResponse (Some (TokenPair_api (Erc20Codec.QueryTokenPairResponse_TokenPair m))) [].
Lemma erc20_QueryTokenPairResponse_same : same_encoding QueryTokenPairResponse_api Erc20Codec.QueryTokenPairResponse_wf Erc20Codec.QueryTokenPairResponse_enc QueryTokenPairResponse_wf QueryTokenPairResponse_enc.
Proof. same_message QueryTokenPairResponse_api (@Erc20Codec.QueryTokenPairResponse_wf) (@Erc20Codec.QueryTokenPairResponse_enc) QueryTokenPairResponse_wf QueryTokenPairResponse_enc QueryTokenPairResponse_fields_enc. Qed.
#[local] Hint Resolve erc20_QueryTokenPairResponse_same : api_same.
Definition QueryParamsRequest_api (m : Erc20Codec.QueryParamsRequest) : QueryParamsRequest := mkQueryParamsRequest [].
Lemma erc20_QueryParamsRequest_same : same_encoding QueryParamsRequest_api Erc20Codec.QueryParamsRequest_wf Erc20Codec.QueryParamsRequest_enc QueryParamsRequest_wf QueryParamsRequest_enc.
Proof. same_message QueryParamsRequest_api (@Erc20Codec.QueryParamsRequest_wf) (@Erc20Codec.QueryParamsRequest_enc) QueryParamsRequest_wf QueryParamsRequest_enc QueryParamsRequest_fields_enc. Qed.
#[local] Hint Resolve erc20_QueryParamsRequest_same : api_same.
Definition QueryParamsResponse_api (m : Erc20Codec.QueryParamsResponse) : QueryParamsResponse := mkQueryParamsResponse (Some (Params_api (Erc20Codec.QueryParamsResponse_Params m))) [].
Lemma erc20_QueryParamsResponse_same : same_encoding QueryParamsResponse_api Erc20Codec.QueryParamsResponse_wf Erc20Codec.QueryParamsResponse_enc QueryParamsResponse_wf QueryParamsResponse_enc.
Proof. same_message QueryParamsResponse_api (@Erc20Codec.QueryParamsResponse_wf) (@Erc20Codec.QueryParamsResponse_enc) QueryParamsResponse_wf QueryParamsResponse_enc QueryParamsResponse_fields_enc. Qed.
#[local] Hint Resolve erc20_QueryParamsResponse_same : api_same.
Definition MsgConvertCoin_api (m : Erc20Types.MsgConvertCoin) : MsgConvertCoin := mkMsgConvertCoin (Some (coin_api (Erc20Types.CC_Coin m))) (Erc20Types.CC_Receiver m) (Erc20Types.CC_Sender m) [].
Lemma erc20_MsgConvertCoin_same : same_encoding MsgConvertCoin_api Erc20Codec.MsgConvertCoin_wf Erc20Codec.MsgConvertCoin_enc MsgConvertCoin_wf MsgConvertCoin_enc.
Proof. same_message MsgConvertCoin_api (@Erc20Codec.MsgConvertCoin_wf) (@Erc20Codec.MsgConvertCoin_enc) MsgConvertCoin_wf MsgConvertCoin_enc MsgConvertCoin_fields_enc. Qed.
#[local] Hint Resolve erc20_MsgConvertCoin_same : api_same.
Definition MsgConvertCoinResponse_api (m : Erc20Codec.MsgConvertCoinResponse) : MsgConvertCoinResponse := mkMsgConvertCoinResponse [].
Lemma erc20_MsgConvertCoinResponse_same : same_encoding MsgConvertCoinResponse_api Erc20Codec.MsgConvertCoinResponse_wf Erc20Codec.MsgConvertCoinResponse_enc MsgConvertCoinResponse_wf MsgConvertCoinResponse_enc.
Proof. same_message MsgConvertCoinResponse_api (@Erc20Codec.MsgConvertCoinResponse_wf) (@Erc20Codec.MsgConvertCoinResponse_enc) MsgConvertCoinResponse_wf MsgConvertCoinResponse_enc MsgConvertCoinResponse_fields_enc. Qed.
#[local] Hint Resolve erc20_MsgConvertCoinResponse_same : api_same.
Definition MsgConvertERC20_api (m : Erc20Types.MsgConvertERC20) : MsgConvertERC20 := mkMsgConvertERC20 (Erc20Types.CE_ContractAddress m) (Int_text (Erc20Types.CE_Amount m)) (Erc20Types.CE_Receiver m) (Erc20Types.CE_Sender m) [].
Lemma erc20_MsgConvertERC20_same : same_encoding MsgConvertERC20_api Erc20Codec.MsgConvertERC20_wf Erc20Codec.MsgConvertERC20_enc MsgConvertERC20_wf MsgConvertERC20_enc.
Proof. same_message MsgConvertERC20_api (@Erc20Codec.MsgConvertERC20_wf) (@Erc20Codec.MsgConvertERC20_enc) MsgConvertERC20_wf MsgConvertERC20_enc MsgConvertERC20_fields_enc. Qed.
#[local] Hint Resolve erc20_MsgConvertERC20_same : api_same.
Definition MsgConvertERC20Response_api (m : Erc20Codec.MsgConvertERC20Response) : MsgConvertERC20Response := mkMsgConvertERC20Response [].
Lemma erc20_MsgConvertERC20Response_same : same_encoding MsgConvertERC20Response_api Erc20Codec.MsgConvertERC20Response_wf Erc20Codec.MsgConvertERC20Response_enc MsgConvertERC20Response_wf MsgConvertERC20Response_enc.
Proof. same_message MsgConvertERC20Response_api (@Erc20Codec.MsgConvertERC20Response_wf) (@Erc20Codec.MsgConvertERC20Response_enc) MsgConvertERC20Response_wf MsgConvertERC20Response_enc MsgConvertERC20Response_fields_enc. Qed.
#[local] Hint Resolve erc20_MsgConvertERC20Response_same : api_same.
Definition MsgUpdateParams_api (m : Erc20Types.MsgUpdateParams) : MsgUpdateParams := mkMsgUpdateParams (Erc20Types.Upd_Authority m) (Some (Params_api (Erc20Types.Upd_Params m))) [].
Lemma erc20_MsgUpdateParams_same : same_encoding MsgUpdateParams_api Erc20Codec.MsgUpdateParams_wf Erc20Codec.MsgUpdateParams_enc MsgUpdateParams_wf MsgUpdateParams_enc.
Proof. same_message MsgUpdateParams_api (@Erc20Codec.MsgUpdateParams_wf) (@Erc20Codec.MsgUpdateParams_enc) MsgUpdateParams_wf MsgUpdateParams_enc MsgUpdateParams_fields_enc. Qed.
#[local] Hint Resolve erc20_MsgUpdateParams_same : api_same.
Definition MsgUpdateParamsResponse_api (m : Erc20Codec.MsgUpdateParamsResponse) : MsgUpdateParamsResponse := mkMsgUpdateParamsResponse [].
Lemma erc20_MsgUpdateParamsResponse_same : same_encoding MsgUpdateParamsResponse_api Erc20Codec.MsgUpdateParamsResponse_wf Erc20Codec.MsgUpdateParamsResponse_enc MsgUpdateParamsResponse_wf MsgUpdateParamsResponse_enc.
Proof. same_message MsgUpdateParamsResponse_api (@Erc20Codec.MsgUpdateParamsResponse_wf) (@Erc20Codec.MsgUpdateParamsResponse_enc) MsgUpdateParamsResponse_wf MsgUpdateParamsResponse_enc MsgUpdateParamsResponse_fields_enc. Qed.
#[local] Hint Resolve erc20_MsgUpdateParamsResponse_same : api_same.
Definition MsgRegisterCoin_api (m : Erc20Types.MsgRegisterCoin) : MsgRegisterCoin := mkMsgRegisterCoin (Erc20Types.RC_Authority m) (Erc20Types.RC_Title m) (Erc20Types.RC_Description m) (Some (metadata_api (Erc20Types.RC_Metadata m))) [].
Lemma erc20_MsgRegisterCoin_same : same_encoding MsgRegisterCoin_api Erc20Codec.MsgRegisterCoin_wf Erc20Codec.MsgRegisterCoin_enc MsgRegisterCoin_wf MsgRegisterCoin_enc.
Proof. same_message MsgRegisterCoin_api (@Erc20Codec.MsgRegisterCoin_wf) (@Erc20Codec.MsgRegisterCoin_enc) MsgRegisterCoin_wf MsgRegisterCoin_enc MsgRegisterCoin_fields_enc. Qed.
#[local] Hint Resolve erc20_MsgRegisterCoin_same : api_same.
Definition MsgRegisterCoinResponse_api (m : Erc20Codec.MsgRegisterCoinResponse) : MsgRegisterCoinResponse := mkMsgRegisterCoinResponse [].
Lemma erc20_MsgRegisterCoinResponse_same : same_encoding MsgRegisterCoinResponse_api Erc20Codec.MsgRegisterCoinResponse_wf Erc20Codec.MsgRegisterCoinResponse_enc MsgRegisterCoinResponse_wf MsgRegisterCoinResponse_enc.
Proof. same_message MsgRegisterCoinResponse_api (@Erc20Codec.MsgRegisterCoinResponse_wf) (@Erc20Codec.MsgRegisterCoinResponse_enc) MsgRegisterCoinResponse_wf MsgRegisterCoinResponse_enc MsgRegisterCoinResponse_fields_enc. Qed.
#[local] Hint Resolve erc20_MsgRegisterCoinResponse_same : api_same.
Definition MsgRegisterERC20_api (m : Erc20Types.MsgRegisterERC20) : MsgRegisterERC20 := mkMsgRegisterERC20 (Erc20Types.RE_Authority m) (Erc20Types.RE_Title m) (Erc20Types.RE_Description m) (Erc20Types.RE_Erc20Address m) [].
Lemma erc20_MsgRegisterERC20_same : same_encoding MsgRegisterERC20_api Erc20Codec.MsgRegisterERC20_wf Erc20Codec.MsgRegisterERC20_enc MsgRegisterERC20_wf MsgRegisterERC20_enc.
Proof. same_message MsgRegisterERC20_api (@Erc20Codec.MsgRegisterERC20_wf) (@Erc20Codec.MsgRegisterERC20_enc) MsgRegisterERC20_wf MsgRegisterERC20_enc MsgRegisterERC20_fields_enc. Qed.
#[local] Hint Resolve erc20_MsgRegisterERC20_same : api_same.
Definition MsgRegisterERC20Response_api (m : Erc20Codec.MsgRegisterERC20Response) : MsgRegisterERC20Response := mkMsgRegisterERC20Response [].
Lemma erc20_MsgRegisterERC20Response_same : same_encoding MsgRegisterERC20Response_api Erc20Codec.MsgRegisterERC20Response_wf Erc20Codec.MsgRegisterERC20Response_enc MsgRegisterERC20Response_wf MsgRegisterERC20Response_enc.
Proof. same_message MsgRegisterERC20Response_api (@Erc20Codec.MsgRegisterERC20Response_wf) (@Erc20Codec.MsgRegisterERC20Response_enc) MsgRegisterERC20Response_wf MsgRegisterERC20Response_enc MsgRegisterERC20Response_fields_enc. Qed.
#[local] Hint Resolve erc20_MsgRegisterERC20Response_same : api_same.
Definition MsgToggleTokenConversion_api (m : Erc20Types.MsgToggleTokenConversion) : MsgToggleTokenConversion := mkMsgToggleTokenConversion (Erc20Types.TC_Authority m) (Erc20Types.TC_Title m) (Erc20Types.TC_Description m) (Erc20Types.TC_Token m) [].
Lemma erc20_MsgToggleTokenConversion_same : same_encoding MsgToggleTokenConversion_api Erc20Codec.MsgToggleTokenConversion_wf Erc20Codec.MsgToggleTokenConversion_enc MsgToggleTokenConversion_wf MsgToggleTokenConversion_enc.
Proof. same_message MsgToggleTokenConversion_api (@Erc20Codec.MsgToggleTokenConversion_wf) (@Erc20Codec.MsgToggleTokenConversion_enc) MsgToggleTokenConversion_wf MsgToggleTokenConversion_enc MsgToggleTokenConversion_fields_enc. Qed.
#[local] Hint Resolve erc20_MsgToggleTokenConversion_same : api_same.
Definition MsgToggleTokenConversionResponse_api (m : Erc20Codec.MsgToggleTokenConversionResponse) : MsgToggleTokenConversionResponse := mkMsgToggleTokenConversionResponse [].
Lemma erc20_MsgToggleTokenConversionResponse_same : same_encoding MsgToggleTokenConversionResponse_api Erc20Codec.MsgToggleTokenConversionResponse_wf Erc20Codec.MsgToggleTokenConversionResponse_enc MsgToggleTokenConversionResponse_wf MsgToggleTokenConversionResponse_enc.
Proof. same_message MsgToggleTokenConversionResponse_api (@Erc20Codec.MsgToggleTokenConversionResponse_wf) (@Erc20Codec.MsgToggleTokenConversionResponse_enc) MsgToggleTokenConversionResponse_wf MsgToggleTokenConversionResponse_enc MsgToggleTokenConversionResponse_fields_enc. Qed.
#[local] Hint Resolve erc20_MsgToggleTokenConversionResponse_same : api_same.

Definition api_agrees : Prop :=
  agrees Erc20Codec.TokenPair_codec TokenPair_methods TokenPair_api Erc20Codec.TokenPair_wf Erc20Codec.TokenPair_enc ∧
  agrees Erc20Codec.TokenPairDenomIndex_codec TokenPairDenomIndex_methods TokenPairDenomIndex_api Erc20Codec.TokenPairDenomIndex_wf Erc20Codec.TokenPairDenomIndex_enc ∧
  agrees Erc20Codec.TokenPairERC20AddressIndex_codec TokenPairERC20AddressIndex_methods TokenPairERC20AddressIndex_api Erc20Codec.TokenPairERC20AddressIndex_wf Erc20Codec.TokenPairERC20AddressIndex_enc ∧
  agrees Erc20Codec.RegisterCoinProposal_codec RegisterCoinProposal_methods RegisterCoinProposal_api Erc20Codec.RegisterCoinProposal_wf Erc20Codec.RegisterCoinProposal_enc ∧
  agrees Erc20Codec.RegisterERC20Proposal_codec RegisterERC20Proposal_methods RegisterERC20Proposal_api Erc20Codec.RegisterERC20Proposal_wf Erc20Codec.RegisterERC20Proposal_enc ∧
  agrees Erc20Codec.ToggleTokenConversionProposal_codec ToggleTokenConversionProposal_methods ToggleTokenConversionProposal_api Erc20Codec.ToggleTokenConversionProposal_wf Erc20Codec.ToggleTokenConversionProposal_enc ∧
  agrees Erc20Codec.Params_codec Params_methods Params_api Erc20Codec.Params_wf Erc20Codec.Params_enc ∧
  agrees Erc20Codec.GenesisState_codec GenesisState_methods GenesisState_api Erc20Codec.GenesisState_wf Erc20Codec.GenesisState_enc ∧
  agrees Erc20Codec.QueryTokenPairsRequest_codec QueryTokenPairsRequest_methods QueryTokenPairsRequest_api Erc20Codec.QueryTokenPairsRequest_wf Erc20Codec.QueryTokenPairsRequest_enc ∧
  agrees Erc20Codec.QueryTokenPairsResponse_codec QueryTokenPairsResponse_methods QueryTokenPairsResponse_api Erc20Codec.QueryTokenPairsResponse_wf Erc20Codec.QueryTokenPairsResponse_enc ∧
  agrees Erc20Codec.QueryTokenPairRequest_codec QueryTokenPairRequest_methods QueryTokenPairRequest_api Erc20Codec.QueryTokenPairRequest_wf Erc20Codec.QueryTokenPairRequest_enc ∧
  agrees Erc20Codec.QueryTokenPairResponse_codec QueryTokenPairResponse_methods QueryTokenPairResponse_api Erc20Codec.QueryTokenPairResponse_wf Erc20Codec.QueryTokenPairResponse_enc ∧
  agrees Erc20Codec.QueryParamsRequest_codec QueryParamsRequest_methods QueryParamsRequest_api Erc20Codec.QueryParamsRequest_wf Erc20Codec.QueryParamsRequest_enc ∧
  agrees Erc20Codec.QueryParamsResponse_codec QueryParamsResponse_methods QueryParamsResponse_api Erc20Codec.QueryParamsResponse_wf Erc20Codec.QueryParamsResponse_enc ∧
  agrees Erc20Codec.MsgConvertCoin_codec MsgConvertCoin_methods MsgConvertCoin_api Erc20Codec.MsgConvertCoin_wf Erc20Codec.MsgConvertCoin_enc ∧
  agrees Erc20Codec.MsgConvertCoinResponse_codec MsgConvertCoinResponse_methods MsgConvertCoinResponse_api Erc20Codec.MsgConvertCoinResponse_wf Erc20Codec.MsgConvertCoinResponse_enc ∧
  agrees Erc20Codec.MsgConvertERC20_codec MsgConvertERC20_methods MsgConvertERC20_api Erc20Codec.MsgConvertERC20_wf Erc20Codec.MsgConvertERC20_enc ∧
  agrees Erc20Codec.MsgConvertERC20Response_codec MsgConvertERC20Response_methods MsgConvertERC20Response_api Erc20Codec.MsgConvertERC20Response_wf Erc20Codec.MsgConvertERC20Response_enc ∧
  agrees Erc20Codec.MsgUpdateParams_codec MsgUpdateParams_methods MsgUpdateParams_api Erc20Codec.MsgUpdateParams_wf Erc20Codec.MsgUpdateParams_enc ∧
  agrees Erc20Codec.MsgUpdateParamsResponse_codec MsgUpdateParamsResponse_methods MsgUpdateParamsResponse_api Erc20Codec.MsgUpdateParamsResponse_wf Erc20Codec.MsgUpdateParamsResponse_enc ∧
  agrees Erc20Codec.MsgRegisterCoin_codec MsgRegisterCoin_methods MsgRegisterCoin_api Erc20Codec.MsgRegisterCoin_wf Erc20Codec.MsgRegisterCoin_enc ∧
  agrees Erc20Codec.MsgRegisterCoinResponse_codec MsgRegisterCoinResponse_methods MsgRegisterCoinResponse_api Erc20Codec.MsgRegisterCoinResponse_wf Erc20Codec.MsgRegisterCoinResponse_enc ∧
  agrees Erc20Codec.MsgRegisterERC20_codec MsgRegisterERC20_methods MsgRegisterERC20_api Erc20Codec.MsgRegisterERC20_wf Erc20Codec.MsgRegisterERC20_enc ∧
  agrees Erc20Codec.MsgRegisterERC20Response_codec MsgRegisterERC20Response_methods MsgRegisterERC20Response_api Erc20Codec.MsgRegisterERC20Response_wf Erc20Codec.MsgRegisterERC20Response_enc ∧
  agrees Erc20Codec.MsgToggleTokenConversion_codec MsgToggleTokenConversion_methods MsgToggleTokenConversion_api Erc20Codec.MsgToggleTokenConversion_wf Erc20Codec.MsgToggleTokenConversion_enc ∧
  agrees Erc20Codec.MsgToggleTokenConversionResponse_codec MsgToggleTokenConversionResponse_methods MsgToggleTokenConversionResponse_api Erc20Codec.MsgToggleTokenConversionResponse_wf Erc20Codec.MsgToggleTokenConversionResponse_enc.
Lemma erc20_api_agrees : api_agrees.
Proof.
  unfold api_agrees. split_and!;
  [exact (laws_agree _ _ _ _ _ _ _ Erc20Codec.erc20_TokenPair_laws erc20_TokenPair_api_laws erc20_TokenPair_same)
  |exact (laws_agree _ _ _ _ _ _ _ Erc20Codec.erc20_TokenPairDenomIndex_laws erc20_TokenPairDenomIndex_api_laws erc20_TokenPairDenomIndex_same)
  |exact (laws_agree _ _ _ _ _ _ _ Erc20Codec.erc20_TokenPairERC20AddressIndex_laws erc20_TokenPairERC20AddressIndex_api_laws erc20_TokenPairERC20AddressIndex_same)
  |exact (laws_agree _ _ _ _ _ _ _ Erc20Codec.erc20_RegisterCoinProposal_laws erc20_RegisterCoinProposal_api_laws erc20_RegisterCoinProposal_same)
  |exact (laws_agree _ _ _ _ _ _ _ Erc20Codec.erc20_RegisterERC20Proposal_laws erc20_RegisterERC20Proposal_api_laws erc20_RegisterERC20Proposal_same)
  |exact (laws_agree _ _ _ _ _ _ _ Erc20Codec.erc20_ToggleTokenConversionProposal_laws erc20_ToggleTokenConversionProposal_api_laws erc20_ToggleTokenConversionProposal_same)
  |exact (laws_agree _ _ _ _ _ _ _ Erc20Codec.erc20_Params_laws erc20_Params_api_laws erc20_Params_same)
  |exact (laws_agree _ _ _ _ _ _ _ Erc20Codec.erc20_GenesisState_laws erc20_GenesisState_api_laws erc20_GenesisState_same)
  |exact (laws_agree _ _ _ _ _ _ _ Erc20Codec.erc20_QueryTokenPairsRequest_laws erc20_QueryTokenPairsRequest_api_laws erc20_QueryTokenPairsRequest_same)
  |exact (laws_agree _ _ _ _ _ _ _ Erc20Codec.erc20_QueryTokenPairsResponse_laws erc20_QueryTokenPairsResponse_api_laws erc20_QueryTokenPairsResponse_same)
  |exact (laws_agree _ _ _ _ _ _ _ Erc20Codec.erc20_QueryTokenPairRequest_laws erc20_QueryTokenPairRequest_api_laws erc20_QueryTokenPairRequest_same)
  |exact (laws_agree _ _ _ _ _ _ _ Erc20Codec.erc20_QueryTokenPairResponse_laws erc20_QueryTokenPairResponse_api_laws erc20_QueryTokenPairResponse_same)
  |exact (laws_agree _ _ _ _ _ _ _ Erc20Codec.erc20_QueryParamsRequest_laws erc20_QueryParamsRequest_api_laws erc20_QueryParamsRequest_same)
  |exact (laws_agree _ _ _ _ _ _ _ Erc20Codec.erc20_QueryParamsResponse_laws erc20_QueryParamsResponse_api_laws erc20_QueryParamsResponse_same)
  |exact (laws_agree _ _ _ _ _ _ _ Erc20Codec.erc20_MsgConvertCoin_laws erc20_MsgConvertCoin_api_laws erc20_MsgConvertCoin_same)
  |exact (laws_agree _ _ _ _ _ _ _ Erc20Codec.erc20_MsgConvertCoinResponse_laws erc20_MsgConvertCoinResponse_api_laws erc20_MsgConvertCoinResponse_same)
  |exact (laws_agree _ _ _ _ _ _ _ Erc20Codec.erc20_MsgConvertERC20_laws erc20_MsgConvertERC20_api_laws erc20_MsgConvertERC20_same)
  |exact (laws_agree _ _ _ _ _ _ _ Erc20Codec.erc20_MsgConvertERC20Response_laws erc20_MsgConvertERC20Response_api_laws erc20_MsgConvertERC20Response_same)
  |exact (laws_agree _ _ _ _ _ _ _ Erc20Codec.erc20_MsgUpdateParams_laws erc20_MsgUpdateParams_api_laws erc20_MsgUpdateParams_same)
  |exact (laws_agree _ _ _ _ _ _ _ Erc20Codec.erc20_MsgUpdateParamsResponse_laws erc20_MsgUpdateParamsResponse_api_laws erc20_MsgUpdateParamsResponse_same)
  |exact (laws_agree _ _ _ _ _ _ _ Erc20Codec.erc20_MsgRegisterCoin_laws erc20_MsgRegisterCoin_api_laws erc20_MsgRegisterCoin_same)
  |exact (laws_agree _ _ _ _ _ _ _ Erc20Codec.erc20_MsgRegisterCoinResponse_laws erc20_MsgRegisterCoinResponse_api_laws erc20_MsgRegisterCoinResponse_same)
  |exact (laws_agree _ _ _ _ _ _ _ Erc20Codec.erc20_MsgRegisterERC20_laws erc20_MsgRegisterERC20_api_laws erc20_MsgRegisterERC20_same)
  |exact (laws_agree _ _ _ _ _ _ _ Erc20Codec.erc20_MsgRegisterERC20Response_laws erc20_MsgRegisterERC20Response_api_laws erc20_MsgRegisterERC20Response_same)
  |exact (laws_agree _ _ _ _ _ _ _ Erc20Codec.erc20_MsgToggleTokenConversion_laws erc20_MsgToggleTokenConversion_api_laws erc20_MsgToggleTokenConversion_same)
  |exact (laws_agree _ _ _ _ _ _ _ Erc20Codec.erc20_MsgToggleTokenConversionResponse_laws erc20_MsgToggleTokenConversionResponse_api_laws erc20_MsgToggleTokenConversionResponse_same)].
Qed.
End api.
