(* ===== verification/ApiGovshuttle.v ===== *)
(** * Package api: the messages of canto.govshuttle.v1

    The code of [genesis.pulsar.go], [govshuttle.pulsar.go], [query.pulsar.go], [tx.pulsar.go] under
    src/api/canto/govshuttle/v1: encoding ([Pulsar.v]), reflection ([Reflect.v]), and that
    the messages of the module and of the package have the same encodings. *)

From Stdlib Require Import Ascii.
From stdpp Require Import base strings list sets.
From S2P Require Import Prelude Golang Sdk Wire WireFacts WireCodec WireSdk Pulsar Reflect ApiSame.
From S2P Require Govshuttle GovshuttleCodec.

#[local] Open Scope Z_scope.
#[local] Open Scope go_scope.

Section api.
Context {RT : ProtoRuntime} {AS : ApiSdk}.

(** ** [Params] *)

Record Params := mkParams { Params_unknownFields : bytes }.
Definition Params_size (x : Params) : Z :=
  blen (Params_unknownFields x).
Definition Params_marshal (x : Params) : writer :=
  put_raw (Params_unknownFields x).
Definition Params_cases (discard : bool) (x : Params) (fieldNum wireType : Z) : option (reader Params) := None.
Definition Params_append (u : bytes) (x : Params) : Params := let '(mkParams unknown) := x in mkParams (unknown ++ u).
Definition Params_unmarshal : bool -> bytes -> option Params -> outcome (option Params) := api_unmarshal "Params" Params_cases Params_append.
Definition Params_methods : Methods Params :=
  mkMethods (mkParams []) (api_size Params_size) (api_marshal Params_size Params_marshal) Params_unmarshal.

(** ** [GenesisState] *)

Record GenesisState := mkGenesisState { GenesisState_Params : option Params; GenesisState_PortContractAddr : string; GenesisState_unknownFields : bytes }.
Definition GenesisState_size (x : GenesisState) : Z :=
  api_size_pointer Params_methods (GenesisState_Params x) + api_size_string (GenesisState_PortContractAddr x) + blen (GenesisState_unknownFields x).
Definition GenesisState_marshal (x : GenesisState) : writer :=
  put_raw (GenesisState_unknownFields x) ;>
  api_put_string 0x12 (GenesisState_PortContractAddr x) ;>
  api_put_pointer Params_methods 0xa (GenesisState_Params x).
Definition GenesisState_cases (discard : bool) (x : GenesisState) (fieldNum wireType : Z) : option (reader GenesisState) :=
  let '(mkGenesisState params_ portContractAddr_ unknown) := x in
  match fieldNum with
  | 1 => Some (api_get_pointer Params_methods discard "Params" wireType params_ (fun v => mkGenesisState v portContractAddr_ unknown))
  | 2 => Some (get_string "PortContractAddr" wireType (fun v => mkGenesisState params_ v unknown))
  | _ => None
  end.
Definition GenesisState_append (u : bytes) (x : GenesisState) : GenesisState := let '(mkGenesisState params_ portContractAddr_ unknown) := x in mkGenesisState params_ portContractAddr_ (unknown ++ u).
Definition GenesisState_unmarshal : bool -> bytes -> option GenesisState -> outcome (option GenesisState) := api_unmarshal "GenesisState" GenesisState_cases GenesisState_append.
Definition GenesisState_methods : Methods GenesisState :=
  mkMethods (mkGenesisState None "" []) (api_size GenesisState_size) (api_marshal GenesisState_size GenesisState_marshal) GenesisState_unmarshal.

(** ** [TreasuryProposalMetadata] *)

Record TreasuryProposalMetadata := mkTreasuryProposalMetadata { TreasuryProposalMetadata_PropID : Z; TreasuryProposalMetadata_Recipient : string; TreasuryProposalMetadata_Amount : Z; TreasuryProposalMetadata_Denom : string; TreasuryProposalMetadata_unknownFields : bytes }.
Definition TreasuryProposalMetadata_size (x : TreasuryProposalMetadata) : Z :=
  api_size_varint (TreasuryProposalMetadata_PropID x) + api_size_string (TreasuryProposalMetadata_Recipient x) + api_size_varint (TreasuryProposalMetadata_Amount x) + api_size_string (TreasuryProposalMetadata_Denom x) + blen (TreasuryProposalMetadata_unknownFields x).
Definition TreasuryProposalMetadata_marshal (x : TreasuryProposalMetadata) : writer :=
  put_raw (TreasuryProposalMetadata_unknownFields x) ;>
  api_put_string 0x22 (TreasuryProposalMetadata_Denom x) ;>
  api_put_varint 0x18 (TreasuryProposalMetadata_Amount x) ;>
  api_put_string 0x12 (TreasuryProposalMetadata_Recipient x) ;>
  api_put_varint 0x8 (TreasuryProposalMetadata_PropID x).
Definition TreasuryProposalMetadata_cases (discard : bool) (x : TreasuryProposalMetadata) (fieldNum wireType : Z) : option (reader TreasuryProposalMetadata) :=
  let '(mkTreasuryProposalMetadata propID_ recipient_ amount_ denom_ unknown) := x in
  match fieldNum with
  | 1 => Some (get_varint wrap64 "PropID" wireType (fun v => mkTreasuryProposalMetadata v recipient_ amount_ denom_ unknown))
  | 2 => Some (get_string "Recipient" wireType (fun v => mkTreasuryProposalMetadata propID_ v amount_ denom_ unknown))
  | 3 => Some (get_varint wrap64 "Amount" wireType (fun v => mkTreasuryProposalMetadata propID_ recipient_ v denom_ unknown))
  | 4 => Some (get_string "Denom" wireType (fun v => mkTreasuryProposalMetadata propID_ recipient_ amount_ v unknown))
  | _ => None
  end.
Definition TreasuryProposalMetadata_append (u : bytes) (x : TreasuryProposalMetadata) : TreasuryProposalMetadata := let '(mkTreasuryProposalMetadata propID_ recipient_ amount_ denom_ unknown) := x in mkTreasuryProposalMetadata propID_ recipient_ amount_ denom_ (unknown ++ u).
Definition TreasuryProposalMetadata_unmarshal : bool -> bytes -> option TreasuryProposalMetadata -> outcome (option TreasuryProposalMetadata) := api_unmarshal "TreasuryProposalMetadata" TreasuryProposalMetadata_cases TreasuryProposalMetadata_append.
Definition TreasuryProposalMetadata_methods : Methods TreasuryProposalMetadata :=
  mkMethods (mkTreasuryProposalMetadata 0 "" 0 "" []) (api_size TreasuryProposalMetadata_size) (api_marshal TreasuryProposalMetadata_size TreasuryProposalMetadata_marshal) TreasuryProposalMetadata_unmarshal.

(** ** [TreasuryProposal] *)

Record TreasuryProposal := mkTreasuryProposal { TreasuryProposal_Title : string; TreasuryProposal_Description : string; TreasuryProposal_Metadata : option TreasuryProposalMetadata; TreasuryProposal_unknownFields : bytes }.
Definition TreasuryProposal_size (x : TreasuryProposal) : Z :=
  api_size_string (TreasuryProposal_Title x) + api_size_string (TreasuryProposal_Description x) + api_size_pointer TreasuryProposalMetadata_methods (TreasuryProposal_Metadata x) + blen (TreasuryProposal_unknownFields x).
Definition TreasuryProposal_marshal (x : TreasuryProposal) : writer :=
  put_raw (TreasuryProposal_unknownFields x) ;>
  api_put_pointer TreasuryProposalMetadata_methods 0x1a (TreasuryProposal_Metadata x) ;>
  api_put_string 0x12 (TreasuryProposal_Description x) ;>
  api_put_string 0xa (TreasuryProposal_Title x).
Definition TreasuryProposal_cases (discard : bool) (x : TreasuryProposal) (fieldNum wireType : Z) : option (reader TreasuryProposal) :=
  let '(mkTreasuryProposal title_ description_ metadata_ unknown) := x in
  match fieldNum with
  | 1 => Some (get_string "Title" wireType (fun v => mkTreasuryProposal v description_ metadata_ unknown))
  | 2 => Some (get_string "Description" wireType (fun v => mkTreasuryProposal title_ v metadata_ unknown))
  | 3 => Some (api_get_pointer TreasuryProposalMetadata_methods discard "Metadata" wireType metadata_ (fun v => mkTreasuryProposal title_ description_ v unknown))
  | _ => None
  end.
Definition TreasuryProposal_append (u : bytes) (x : TreasuryProposal) : TreasuryProposal := let '(mkTreasuryProposal title_ description_ metadata_ unknown) := x in mkTreasuryProposal title_ description_ metadata_ (unknown ++ u).
Definition TreasuryProposal_unmarshal : bool -> bytes -> option TreasuryProposal -> outcome (option TreasuryProposal) := api_unmarshal "TreasuryProposal" TreasuryProposal_cases TreasuryProposal_append.
Definition TreasuryProposal_methods : Methods TreasuryProposal :=
  mkMethods (mkTreasuryProposal "" "" None []) (api_size TreasuryProposal_size) (api_marshal TreasuryProposal_size TreasuryProposal_marshal) TreasuryProposal_unmarshal.

(** ** [LendingMarketMetadata] *)

Record LendingMarketMetadata := mkLendingMarketMetadata { LendingMarketMetadata_Account : list string; LendingMarketMetadata_PropId : Z; LendingMarketMetadata_Values : list Z; LendingMarketMetadata_Calldatas : list string; LendingMarketMetadata_Signatures : list string; LendingMarketMetadata_unknownFields : bytes }.
Definition LendingMarketMetadata_size (x : LendingMarketMetadata) : Z :=
  api_size_strings (LendingMarketMetadata_Account x) + api_size_varint (LendingMarketMetadata_PropId x) + api_size_packed (LendingMarketMetadata_Values x) + api_size_strings (LendingMarketMetadata_Calldatas x) + api_size_strings (LendingMarketMetadata_Signatures x) + blen (LendingMarketMetadata_unknownFields x).
Definition LendingMarketMetadata_marshal (x : LendingMarketMetadata) : writer :=
  put_raw (LendingMarketMetadata_unknownFields x) ;>
  api_put_strings 0x2a (LendingMarketMetadata_Signatures x) ;>
  api_put_strings 0x22 (LendingMarketMetadata_Calldatas x) ;>
  api_put_packed 0x1a (LendingMarketMetadata_Values x) ;>
  api_put_varint 0x10 (LendingMarketMetadata_PropId x) ;>
  api_put_strings 0xa (LendingMarketMetadata_Account x).
Definition LendingMarketMetadata_cases (discard : bool) (x : LendingMarketMetadata) (fieldNum wireType : Z) : option (reader LendingMarketMetadata) :=
  let '(mkLendingMarketMetadata account_ propId_ values_ calldatas_ signatures_ unknown) := x in
  match fieldNum with
  | 1 => Some (get_strings "Account" wireType account_ (fun v => mkLendingMarketMetadata v propId_ values_ calldatas_ signatures_ unknown))
  | 2 => Some (get_varint wrap64 "PropId" wireType (fun v => mkLendingMarketMetadata account_ v values_ calldatas_ signatures_ unknown))
  | 3 => Some (get_packed "Values" wireType values_ (fun v => mkLendingMarketMetadata account_ propId_ v calldatas_ signatures_ unknown))
  | 4 => Some (get_strings "Calldatas" wireType calldatas_ (fun v => mkLendingMarketMetadata account_ propId_ values_ v signatures_ unknown))
  | 5 => Some (get_strings "Signatures" wireType signatures_ (fun v => mkLendingMarketMetadata account_ propId_ values_ calldatas_ v unknown))
  | _ => None
  end.
Definition LendingMarketMetadata_append (u : bytes) (x : LendingMarketMetadata) : LendingMarketMetadata := let '(mkLendingMarketMetadata account_ propId_ values_ calldatas_ signatures_ unknown) := x in mkLendingMarketMetadata account_ propId_ values_ calldatas_ signatures_ (unknown ++ u).
Definition LendingMarketMetadata_unmarshal : bool -> bytes -> option LendingMarketMetadata -> outcome (option LendingMarketMetadata) := api_unmarshal "LendingMarketMetadata" LendingMarketMetadata_cases LendingMarketMetadata_append.
Definition LendingMarketMetadata_methods : Methods LendingMarketMetadata :=
  mkMethods (mkLendingMarketMetadata [] 0 [] [] [] []) (api_size LendingMarketMetadata_size) (api_marshal LendingMarketMetadata_size LendingMarketMetadata_marshal) LendingMarketMetadata_unmarshal.

(** ** [LendingMarketProposal] *)

Record LendingMarketProposal := mkLendingMarketProposal { LendingMarketProposal_Title : string; LendingMarketProposal_Description : string; LendingMarketProposal_Metadata : option LendingMarketMetadata; LendingMarketProposal_unknownFields : bytes }.
Definition LendingMarketProposal_size (x : LendingMarketProposal) : Z :=
  api_size_string (LendingMarketProposal_Title x) + api_size_string (LendingMarketProposal_Description x) + api_size_pointer LendingMarketMetadata_methods (LendingMarketProposal_Metadata x) + blen (LendingMarketProposal_unknownFields x).
Definition LendingMarketProposal_marshal (x : LendingMarketProposal) : writer :=
  put_raw (LendingMarketProposal_unknownFields x) ;>
  api_put_pointer LendingMarketMetadata_methods 0x1a (LendingMarketProposal_Metadata x) ;>
  api_put_string 0x12 (LendingMarketProposal_Description x) ;>
  api_put_string 0xa (LendingMarketProposal_Title x).
Definition LendingMarketProposal_cases (discard : bool) (x : LendingMarketProposal) (fieldNum wireType : Z) : option (reader LendingMarketProposal) :=
  let '(mkLendingMarketProposal title_ description_ metadata_ unknown) := x in
  match fieldNum with
  | 1 => Some (get_string "Title" wireType (fun v => mkLendingMarketProposal v description_ metadata_ unknown))
  | 2 => Some (get_string "Description" wireType (fun v => mkLendingMarketProposal title_ v metadata_ unknown))
  | 3 => Some (api_get_pointer LendingMarketMetadata_methods discard "Metadata" wireType metadata_ (fun v => mkLendingMarketProposal title_ description_ v unknown))
  | _ => None
  end.
Definition LendingMarketProposal_append (u : bytes) (x : LendingMarketProposal) : LendingMarketProposal := let '(mkLendingMarketProposal title_ description_ metadata_ unknown) := x in mkLendingMarketProposal title_ description_ metadata_ (unknown ++ u).
Definition LendingMarketProposal_unmarshal : bool -> bytes -> option LendingMarketProposal -> outcome (option LendingMarketProposal) := api_unmarshal "LendingMarketProposal" LendingMarketProposal_cases LendingMarketProposal_append.
Definition LendingMarketProposal_methods : Methods LendingMarketProposal :=
  mkMethods (mkLendingMarketProposal "" "" None []) (api_size LendingMarketProposal_size) (api_marshal LendingMarketProposal_size LendingMarketProposal_marshal) LendingMarketProposal_unmarshal.

(** ** [QueryParamsRequest] *)

Record QueryParamsRequest := mkQueryParamsRequest { QueryParamsRequest_unknownFields : bytes }.
Definition QueryParamsRequest_size (x : QueryParamsRequest) : Z :=
  blen (QueryParamsRequest_unknownFields x).
Definition QueryParamsRequest_marshal (x : QueryParamsRequest) : writer :=
  put_raw (QueryParamsRequest_unknownFields x).
Definition QueryParamsRequest_cases (discard : bool) (x : QueryParamsRequest) (fieldNum wireType : Z) : option (reader QueryParamsRequest) := None.
Definition QueryParamsRequest_append (u : bytes) (x : QueryParamsRequest) : QueryParamsRequest := let '(mkQueryParamsRequest unknown) := x in mkQueryParamsRequest (unknown ++ u).
Definition QueryParamsRequest_unmarshal : bool -> bytes -> option QueryParamsRequest -> outcome (option QueryParamsRequest) := api_unmarshal "QueryParamsRequest" QueryParamsRequest_cases QueryParamsRequest_append.
Definition QueryParamsRequest_methods : Methods QueryParamsRequest :=
  mkMethods (mkQueryParamsRequest []) (api_size QueryParamsRequest_size) (api_marshal QueryParamsRequest_size QueryParamsRequest_marshal) QueryParamsRequest_unmarshal.

(** ** [QueryParamsResponse] *)

Record QueryParamsResponse := mkQueryParamsResponse { QueryParamsResponse_Params : option Params; QueryParamsResponse_unknownFields : bytes }.
Definition QueryParamsResponse_size (x : QueryParamsResponse) : Z :=
  api_size_pointer Params_methods (QueryParamsResponse_Params x) + blen (QueryParamsResponse_unknownFields x).
Definition QueryParamsResponse_marshal (x : QueryParamsResponse) : writer :=
  put_raw (QueryParamsResponse_unknownFields x) ;>
  api_put_pointer Params_methods 0xa (QueryParamsResponse_Params x).
Definition QueryParamsResponse_cases (discard : bool) (x : QueryParamsResponse) (fieldNum wireType : Z) : option (reader QueryParamsResponse) :=
  let '(mkQueryParamsResponse params_ unknown) := x in
  match fieldNum with
  | 1 => Some (api_get_pointer Params_methods discard "Params" wireType params_ (fun v => mkQueryParamsResponse v unknown))
  | _ => None
  end.
Definition QueryParamsResponse_append (u : bytes) (x : QueryParamsResponse) : QueryParamsResponse := let '(mkQueryParamsResponse params_ unknown) := x in mkQueryParamsResponse params_ (unknown ++ u).
Definition QueryParamsResponse_unmarshal : bool -> bytes -> option QueryParamsResponse -> outcome (option QueryParamsResponse) := api_unmarshal "QueryParamsResponse" QueryParamsResponse_cases QueryParamsResponse_append.
Definition QueryParamsResponse_methods : Methods QueryParamsResponse :=
  mkMethods (mkQueryParamsResponse None []) (api_size QueryParamsResponse_size) (api_marshal QueryParamsResponse_size QueryParamsResponse_marshal) QueryParamsResponse_unmarshal.

(** ** [MsgLendingMarketProposal] *)

Record MsgLendingMarketProposal := mkMsgLendingMarketProposal { MsgLendingMarketProposal_Authority : string; MsgLendingMarketProposal_Title : string; MsgLendingMarketProposal_Description : string; MsgLendingMarketProposal_Metadata : option LendingMarketMetadata; MsgLendingMarketProposal_unknownFields : bytes }.
Definition MsgLendingMarketProposal_size (x : MsgLendingMarketProposal) : Z :=
  api_size_string (MsgLendingMarketProposal_Authority x) + api_size_string (MsgLendingMarketProposal_Title x) + api_size_string (MsgLendingMarketProposal_Description x) + api_size_pointer LendingMarketMetadata_methods (MsgLendingMarketProposal_Metadata x) + blen (MsgLendingMarketProposal_unknownFields x).
Definition MsgLendingMarketProposal_marshal (x : MsgLendingMarketProposal) : writer :=
  put_raw (MsgLendingMarketProposal_unknownFields x) ;>
  api_put_pointer LendingMarketMetadata_methods 0x22 (MsgLendingMarketProposal_Metadata x) ;>
  api_put_string 0x1a (MsgLendingMarketProposal_Description x) ;>
  api_put_string 0x12 (MsgLendingMarketProposal_Title x) ;>
  api_put_string 0xa (MsgLendingMarketProposal_Authority x).
Definition MsgLendingMarketProposal_cases (discard : bool) (x : MsgLendingMarketProposal) (fieldNum wireType : Z) : option (reader MsgLendingMarketProposal) :=
  let '(mkMsgLendingMarketProposal authority_ title_ description_ metadata_ unknown) := x in
  match fieldNum with
  | 1 => Some (get_string "Authority" wireType (fun v => mkMsgLendingMarketProposal v title_ description_ metadata_ unknown))
  | 2 => Some (get_string "Title" wireType (fun v => mkMsgLendingMarketProposal authority_ v description_ metadata_ unknown))
  | 3 => Some (get_string "Description" wireType (fun v => mkMsgLendingMarketProposal authority_ title_ v metadata_ unknown))
  | 4 => Some (api_get_pointer LendingMarketMetadata_methods discard "Metadata" wireType metadata_ (fun v => mkMsgLendingMarketProposal authority_ title_ description_ v unknown))
  | _ => None
  end.
Definition MsgLendingMarketProposal_append (u : bytes) (x : MsgLendingMarketProposal) : MsgLendingMarketProposal := let '(mkMsgLendingMarketProposal authority_ title_ description_ metadata_ unknown) := x in mkMsgLendingMarketProposal authority_ title_ description_ metadata_ (unknown ++ u).
Definition MsgLendingMarketProposal_unmarshal : bool -> bytes -> option MsgLendingMarketProposal -> outcome (option MsgLendingMarketProposal) := api_unmarshal "MsgLendingMarketProposal" MsgLendingMarketProposal_cases MsgLendingMarketProposal_append.
Definition MsgLendingMarketProposal_methods : Methods MsgLendingMarketProposal :=
  mkMethods (mkMsgLendingMarketProposal "" "" "" None []) (api_size MsgLendingMarketProposal_size) (api_marshal MsgLendingMarketProposal_size MsgLendingMarketProposal_marshal) MsgLendingMarketProposal_unmarshal.

(** ** [MsgLendingMarketProposalResponse] *)

Record MsgLendingMarketProposalResponse := mkMsgLendingMarketProposalResponse { MsgLendingMarketProposalResponse_unknownFields : bytes }.
Definition MsgLendingMarketProposalResponse_size (x : MsgLendingMarketProposalResponse) : Z :=
  blen (MsgLendingMarketProposalResponse_unknownFields x).
Definition MsgLendingMarketProposalResponse_marshal (x : MsgLendingMarketProposalResponse) : writer :=
  put_raw (MsgLendingMarketProposalResponse_unknownFields x).
Definition MsgLendingMarketProposalResponse_cases (discard : bool) (x : MsgLendingMarketProposalResponse) (fieldNum wireType : Z) : option (reader MsgLendingMarketProposalResponse) := None.
Definition MsgLendingMarketProposalResponse_append (u : bytes) (x : MsgLendingMarketProposalResponse) : MsgLendingMarketProposalResponse := let '(mkMsgLendingMarketProposalResponse unknown) := x in mkMsgLendingMarketProposalResponse (unknown ++ u).
Definition MsgLendingMarketProposalResponse_unmarshal : bool -> bytes -> option MsgLendingMarketProposalResponse -> outcome (option MsgLendingMarketProposalResponse) := api_unmarshal "MsgLendingMarketProposalResponse" MsgLendingMarketProposalResponse_cases MsgLendingMarketProposalResponse_append.
Definition MsgLendingMarketProposalResponse_methods : Methods MsgLendingMarketProposalResponse :=
  mkMethods (mkMsgLendingMarketProposalResponse []) (api_size MsgLendingMarketProposalResponse_size) (api_marshal MsgLendingMarketProposalResponse_size MsgLendingMarketProposalResponse_marshal) MsgLendingMarketProposalResponse_unmarshal.

(** ** [MsgTreasuryProposal] *)

Record MsgTreasuryProposal := mkMsgTreasuryProposal { MsgTreasuryProposal_Authority : string; MsgTreasuryProposal_Title : string; MsgTreasuryProposal_Description : string; MsgTreasuryProposal_Metadata : option TreasuryProposalMetadata; MsgTreasuryProposal_unknownFields : bytes }.
Definition MsgTreasuryProposal_size (x : MsgTreasuryProposal) : Z :=
  api_size_string (MsgTreasuryProposal_Authority x) + api_size_string (MsgTreasuryProposal_Title x) + api_size_string (MsgTreasuryProposal_Description x) + api_size_pointer TreasuryProposalMetadata_methods (MsgTreasuryProposal_Metadata x) + blen (MsgTreasuryProposal_unknownFields x).
Definition MsgTreasuryProposal_marshal (x : MsgTreasuryProposal) : writer :=
  put_raw (MsgTreasuryProposal_unknownFields x) ;>
  api_put_pointer TreasuryProposalMetadata_methods 0x22 (MsgTreasuryProposal_Metadata x) ;>
  api_put_string 0x1a (MsgTreasuryProposal_Description x) ;>
  api_put_string 0x12 (MsgTreasuryProposal_Title x) ;>
  api_put_string 0xa (MsgTreasuryProposal_Authority x).
Definition MsgTreasuryProposal_cases (discard : bool) (x : MsgTreasuryProposal) (fieldNum wireType : Z) : option (reader MsgTreasuryProposal) :=
  let '(mkMsgTreasuryProposal authority_ title_ description_ metadata_ unknown) := x in
  match fieldNum with
  | 1 => Some (get_string "Authority" wireType (fun v => mkMsgTreasuryProposal v title_ description_ metadata_ unknown))
  | 2 => Some (get_string "Title" wireType (fun v => mkMsgTreasuryProposal authority_ v description_ metadata_ unknown))
  | 3 => Some (get_string "Description" wireType (fun v => mkMsgTreasuryProposal authority_ title_ v metadata_ unknown))
  | 4 => Some (api_get_pointer TreasuryProposalMetadata_methods discard "Metadata" wireType metadata_ (fun v => mkMsgTreasuryProposal authority_ title_ description_ v unknown))
  | _ => None
  end.
Definition MsgTreasuryProposal_append (u : bytes) (x : MsgTreasuryProposal) : MsgTreasuryProposal := let '(mkMsgTreasuryProposal authority_ title_ description_ metadata_ unknown) := x in mkMsgTreasuryProposal authority_ title_ description_ metadata_ (unknown ++ u).
Definition MsgTreasuryProposal_unmarshal : bool -> bytes -> option MsgTreasuryProposal -> outcome (option MsgTreasuryProposal) := api_unmarshal "MsgTreasuryProposal" MsgTreasuryProposal_cases MsgTreasuryProposal_append.
Definition MsgTreasuryProposal_methods : Methods MsgTreasuryProposal :=
  mkMethods (mkMsgTreasuryProposal "" "" "" None []) (api_size MsgTreasuryProposal_size) (api_marshal MsgTreasuryProposal_size MsgTreasuryProposal_marshal) MsgTreasuryProposal_unmarshal.

(** ** [MsgTreasuryProposalResponse] *)

Record MsgTreasuryProposalResponse := mkMsgTreasuryProposalResponse { MsgTreasuryProposalResponse_unknownFields : bytes }.
Definition MsgTreasuryProposalResponse_size (x : MsgTreasuryProposalResponse) : Z :=
  blen (MsgTreasuryProposalResponse_unknownFields x).
Definition MsgTreasuryProposalResponse_marshal (x : MsgTreasuryProposalResponse) : writer :=
  put_raw (MsgTreasuryProposalResponse_unknownFields x).
Definition MsgTreasuryProposalResponse_cases (discard : bool) (x : MsgTreasuryProposalResponse) (fieldNum wireType : Z) : option (reader MsgTreasuryProposalResponse) := None.
Definition MsgTreasuryProposalResponse_append (u : bytes) (x : MsgTreasuryProposalResponse) : MsgTreasuryProposalResponse := let '(mkMsgTreasuryProposalResponse unknown) := x in mkMsgTreasuryProposalResponse (unknown ++ u).
Definition MsgTreasuryProposalResponse_unmarshal : bool -> bytes -> option MsgTreasuryProposalResponse -> outcome (option MsgTreasuryProposalResponse) := api_unmarshal "MsgTreasuryProposalResponse" MsgTreasuryProposalResponse_cases MsgTreasuryProposalResponse_append.
Definition MsgTreasuryProposalResponse_methods : Methods MsgTreasuryProposalResponse :=
  mkMethods (mkMsgTreasuryProposalResponse []) (api_size MsgTreasuryProposalResponse_size) (api_marshal MsgTreasuryProposalResponse_size MsgTreasuryProposalResponse_marshal) MsgTreasuryProposalResponse_unmarshal.

(** ** Well-formed messages and their encodings *)

Context {RL : ProtoRuntimeLaws} {AL : ApiSdkLaws AS}.

Definition Params_wf (x : Params) : Prop := unknown_bytes [] (Params_unknownFields x).
Definition Params_fields_enc (x : Params) : bytes :=
  [].
Definition Params_enc (x : Params) : bytes := Params_fields_enc x ++ Params_unknownFields x.
Lemma govshuttle_Params_api_laws : MethodLaws Params_methods Params_wf Params_enc.
Proof. api_message_laws Params_wf Params_enc Params_fields_enc Params_size Params_marshal Params_cases Params_append. Qed.
#[local] Hint Resolve govshuttle_Params_api_laws : api_laws.

Definition GenesisState_wf (x : GenesisState) : Prop := (∀ a, GenesisState_Params x = Some a -> Params_wf a) ∧ unknown_bytes [1; 2] (GenesisState_unknownFields x).
Definition GenesisState_fields_enc (x : GenesisState) : bytes :=
  enc_pointer Params_enc 0xa (GenesisState_Params x) ++
  enc_string 0x12 (GenesisState_PortContractAddr x).
Definition GenesisState_enc (x : GenesisState) : bytes := GenesisState_fields_enc x ++ GenesisState_unknownFields x.
Lemma govshuttle_GenesisState_api_laws : MethodLaws GenesisState_methods GenesisState_wf GenesisState_enc.
Proof. api_message_laws GenesisState_wf GenesisState_enc GenesisState_fields_enc GenesisState_size GenesisState_marshal GenesisState_cases GenesisState_append. Qed.
#[local] Hint Resolve govshuttle_GenesisState_api_laws : api_laws.

Definition TreasuryProposalMetadata_wf (x : TreasuryProposalMetadata) : Prop := is_uint64 (TreasuryProposalMetadata_PropID x) ∧ is_uint64 (TreasuryProposalMetadata_Amount x) ∧ unknown_bytes [1; 2; 3; 4] (TreasuryProposalMetadata_unknownFields x).
Definition TreasuryProposalMetadata_fields_enc (x : TreasuryProposalMetadata) : bytes :=
  enc_varint 0x8 (TreasuryProposalMetadata_PropID x) ++
  enc_string 0x12 (TreasuryProposalMetadata_Recipient x) ++
  enc_varint 0x18 (TreasuryProposalMetadata_Amount x) ++
  enc_string 0x22 (TreasuryProposalMetadata_Denom x).
Definition TreasuryProposalMetadata_enc (x : TreasuryProposalMetadata) : bytes := TreasuryProposalMetadata_fields_enc x ++ TreasuryProposalMetadata_unknownFields x.
Lemma govshuttle_TreasuryProposalMetadata_api_laws : MethodLaws TreasuryProposalMetadata_methods TreasuryProposalMetadata_wf TreasuryProposalMetadata_enc.
Proof. api_message_laws TreasuryProposalMetadata_wf TreasuryProposalMetadata_enc TreasuryProposalMetadata_fields_enc TreasuryProposalMetadata_size TreasuryProposalMetadata_marshal TreasuryProposalMetadata_cases TreasuryProposalMetadata_append. Qed.
#[local] Hint Resolve govshuttle_TreasuryProposalMetadata_api_laws : api_laws.

Definition TreasuryProposal_wf (x : TreasuryProposal) : Prop := (∀ a, TreasuryProposal_Metadata x = Some a -> TreasuryProposalMetadata_wf a) ∧ unknown_bytes [1; 2; 3] (TreasuryProposal_unknownFields x).
Definition TreasuryProposal_fields_enc (x : TreasuryProposal) : bytes :=
  enc_string 0xa (TreasuryProposal_Title x) ++
  enc_string 0x12 (TreasuryProposal_Description x) ++
  enc_pointer TreasuryProposalMetadata_enc 0x1a (TreasuryProposal_Metadata x).
Definition TreasuryProposal_enc (x : TreasuryProposal) : bytes := TreasuryProposal_fields_enc x ++ TreasuryProposal_unknownFields x.
Lemma govshuttle_TreasuryProposal_api_laws : MethodLaws TreasuryProposal_methods TreasuryProposal_wf TreasuryProposal_enc.
Proof. api_message_laws TreasuryProposal_wf TreasuryProposal_enc TreasuryProposal_fields_enc TreasuryProposal_size TreasuryProposal_marshal TreasuryProposal_cases TreasuryProposal_append. Qed.
#[local] Hint Resolve govshuttle_TreasuryProposal_api_laws : api_laws.

Definition LendingMarketMetadata_wf (x : LendingMarketMetadata) : Prop := is_uint64 (LendingMarketMetadata_PropId x) ∧ Forall is_uint64 (LendingMarketMetadata_Values x) ∧ unknown_bytes [1; 2; 3; 4; 5] (LendingMarketMetadata_unknownFields x).
Definition LendingMarketMetadata_fields_enc (x : LendingMarketMetadata) : bytes :=
  enc_strings 0xa (LendingMarketMetadata_Account x) ++
  enc_varint 0x10 (LendingMarketMetadata_PropId x) ++
  enc_packed 0x1a (LendingMarketMetadata_Values x) ++
  enc_strings 0x22 (LendingMarketMetadata_Calldatas x) ++
  enc_strings 0x2a (LendingMarketMetadata_Signatures x).
Definition LendingMarketMetadata_enc (x : LendingMarketMetadata) : bytes := LendingMarketMetadata_fields_enc x ++ LendingMarketMetadata_unknownFields x.
Lemma govshuttle_LendingMarketMetadata_api_laws : MethodLaws LendingMarketMetadata_methods LendingMarketMetadata_wf LendingMarketMetadata_enc.
Proof. api_message_laws LendingMarketMetadata_wf LendingMarketMetadata_enc LendingMarketMetadata_fields_enc LendingMarketMetadata_size LendingMarketMetadata_marshal LendingMarketMetadata_cases LendingMarketMetadata_append. Qed.
#[local] Hint Resolve govshuttle_LendingMarketMetadata_api_laws : api_laws.

Definition LendingMarketProposal_wf (x : LendingMarketProposal) : Prop := (∀ a, LendingMarketProposal_Metadata x = Some a -> LendingMarketMetadata_wf a) ∧ unknown_bytes [1; 2; 3] (LendingMarketProposal_unknownFields x).
Definition LendingMarketProposal_fields_enc (x : LendingMarketProposal) : bytes :=
  enc_string 0xa (LendingMarketProposal_Title x) ++
  enc_string 0x12 (LendingMarketProposal_Description x) ++
  enc_pointer LendingMarketMetadata_enc 0x1a (LendingMarketProposal_Metadata x).
Definition LendingMarketProposal_enc (x : LendingMarketProposal) : bytes := LendingMarketProposal_fields_enc x ++ LendingMarketProposal_unknownFields x.
Lemma govshuttle_LendingMarketProposal_api_laws : MethodLaws LendingMarketProposal_methods LendingMarketProposal_wf LendingMarketProposal_enc.
Proof. api_message_laws LendingMarketProposal_wf LendingMarketProposal_enc LendingMarketProposal_fields_enc LendingMarketProposal_size LendingMarketProposal_marshal LendingMarketProposal_cases LendingMarketProposal_append. Qed.
#[local] Hint Resolve govshuttle_LendingMarketProposal_api_laws : api_laws.

Definition QueryParamsRequest_wf (x : QueryParamsRequest) : Prop := unknown_bytes [] (QueryParamsRequest_unknownFields x).
Definition QueryParamsRequest_fields_enc (x : QueryParamsRequest) : bytes :=
  [].
Definition QueryParamsRequest_enc (x : QueryParamsRequest) : bytes := QueryParamsRequest_fields_enc x ++ QueryParamsRequest_unknownFields x.
Lemma govshuttle_QueryParamsRequest_api_laws : MethodLaws QueryParamsRequest_methods QueryParamsRequest_wf QueryParamsRequest_enc.
Proof. api_message_laws QueryParamsRequest_wf QueryParamsRequest_enc QueryParamsRequest_fields_enc QueryParamsRequest_size QueryParamsRequest_marshal QueryParamsRequest_cases QueryParamsRequest_append. Qed.
#[local] Hint Resolve govshuttle_QueryParamsRequest_api_laws : api_laws.

Definition QueryParamsResponse_wf (x : QueryParamsResponse) : Prop := (∀ a, QueryParamsResponse_Params x = Some a -> Params_wf a) ∧ unknown_bytes [1] (QueryParamsResponse_unknownFields x).
Definition QueryParamsResponse_fields_enc (x : QueryParamsResponse) : bytes :=
  enc_pointer Params_enc 0xa (QueryParamsResponse_Params x).
Definition QueryParamsResponse_enc (x : QueryParamsResponse) : bytes := QueryParamsResponse_fields_enc x ++ QueryParamsResponse_unknownFields x.
Lemma govshuttle_QueryParamsResponse_api_laws : MethodLaws QueryParamsResponse_methods QueryParamsResponse_wf QueryParamsResponse_enc.
Proof. api_message_laws QueryParamsResponse_wf QueryParamsResponse_enc QueryParamsResponse_fields_enc QueryParamsResponse_size QueryParamsResponse_marshal QueryParamsResponse_cases QueryParamsResponse_append. Qed.
#[local] Hint Resolve govshuttle_QueryParamsResponse_api_laws : api_laws.

Definition MsgLendingMarketProposal_wf (x : MsgLendingMarketProposal) : Prop := (∀ a, MsgLendingMarketProposal_Metadata x = Some a -> LendingMarketMetadata_wf a) ∧ unknown_bytes [1; 2; 3; 4] (MsgLendingMarketProposal_unknownFields x).
Definition MsgLendingMarketProposal_fields_enc (x : MsgLendingMarketProposal) : bytes :=
  enc_string 0xa (MsgLendingMarketProposal_Authority x) ++
  enc_string 0x12 (MsgLendingMarketProposal_Title x) ++
  enc_string 0x1a (MsgLendingMarketProposal_Description x) ++
  enc_pointer LendingMarketMetadata_enc 0x22 (MsgLendingMarketProposal_Metadata x).
Definition MsgLendingMarketProposal_enc (x : MsgLendingMarketProposal) : bytes := MsgLendingMarketProposal_fields_enc x ++ MsgLendingMarketProposal_unknownFields x.
Lemma govshuttle_MsgLendingMarketProposal_api_laws : MethodLaws MsgLendingMarketProposal_methods MsgLendingMarketProposal_wf MsgLendingMarketProposal_enc.
Proof. api_message_laws MsgLendingMarketProposal_wf MsgLendingMarketProposal_enc MsgLendingMarketProposal_fields_enc MsgLendingMarketProposal_size MsgLendingMarketProposal_marshal MsgLendingMarketProposal_cases MsgLendingMarketProposal_append. Qed.
#[local] Hint Resolve govshuttle_MsgLendingMarketProposal_api_laws : api_laws.

Definition MsgLendingMarketProposalResponse_wf (x : MsgLendingMarketProposalResponse) : Prop := unknown_bytes [] (MsgLendingMarketProposalResponse_unknownFields x).
Definition MsgLendingMarketProposalResponse_fields_enc (x : MsgLendingMarketProposalResponse) : bytes :=
  [].
Definition MsgLendingMarketProposalResponse_enc (x : MsgLendingMarketProposalResponse) : bytes := MsgLendingMarketProposalResponse_fields_enc x ++ MsgLendingMarketProposalResponse_unknownFields x.
Lemma govshuttle_MsgLendingMarketProposalResponse_api_laws : MethodLaws MsgLendingMarketProposalResponse_methods MsgLendingMarketProposalResponse_wf MsgLendingMarketProposalResponse_enc.
Proof. api_message_laws MsgLendingMarketProposalResponse_wf MsgLendingMarketProposalResponse_enc MsgLendingMarketProposalResponse_fields_enc MsgLendingMarketProposalResponse_size MsgLendingMarketProposalResponse_marshal MsgLendingMarketProposalResponse_cases MsgLendingMarketProposalResponse_append. Qed.
#[local] Hint Resolve govshuttle_MsgLendingMarketProposalResponse_api_laws : api_laws.

Definition MsgTreasuryProposal_wf (x : MsgTreasuryProposal) : Prop := (∀ a, MsgTreasuryProposal_Metadata x = Some a -> TreasuryProposalMetadata_wf a) ∧ unknown_bytes [1; 2; 3; 4] (MsgTreasuryProposal_unknownFields x).
Definition MsgTreasuryProposal_fields_enc (x : MsgTreasuryProposal) : bytes :=
  enc_string 0xa (MsgTreasuryProposal_Authority x) ++
  enc_string 0x12 (MsgTreasuryProposal_Title x) ++
  enc_string 0x1a (MsgTreasuryProposal_Description x) ++
  enc_pointer TreasuryProposalMetadata_enc 0x22 (MsgTreasuryProposal_Metadata x).
Definition MsgTreasuryProposal_enc (x : MsgTreasuryProposal) : bytes := MsgTreasuryProposal_fields_enc x ++ MsgTreasuryProposal_unknownFields x.
Lemma govshuttle_MsgTreasuryProposal_api_laws : MethodLaws MsgTreasuryProposal_methods MsgTreasuryProposal_wf MsgTreasuryProposal_enc.
Proof. api_message_laws MsgTreasuryProposal_wf MsgTreasuryProposal_enc MsgTreasuryProposal_fields_enc MsgTreasuryProposal_size MsgTreasuryProposal_marshal MsgTreasuryProposal_cases MsgTreasuryProposal_append. Qed.
#[local] Hint Resolve govshuttle_MsgTreasuryProposal_api_laws : api_laws.

Definition MsgTreasuryProposalResponse_wf (x : MsgTreasuryProposalResponse) : Prop := unknown_bytes [] (MsgTreasuryProposalResponse_unknownFields x).
Definition MsgTreasuryProposalResponse_fields_enc (x : MsgTreasuryProposalResponse) : bytes :=
  [].
Definition MsgTreasuryProposalResponse_enc (x : MsgTreasuryProposalResponse) : bytes := MsgTreasuryProposalResponse_fields_enc x ++ MsgTreasuryProposalResponse_unknownFields x.
Lemma govshuttle_MsgTreasuryProposalResponse_api_laws : MethodLaws MsgTreasuryProposalResponse_methods MsgTreasuryProposalResponse_wf MsgTreasuryProposalResponse_enc.
Proof. api_message_laws MsgTreasuryProposalResponse_wf MsgTreasuryProposalResponse_enc MsgTreasuryProposalResponse_fields_enc MsgTreasuryProposalResponse_size MsgTreasuryProposalResponse_marshal MsgTreasuryProposalResponse_cases MsgTreasuryProposalResponse_append. Qed.
#[local] Hint Resolve govshuttle_MsgTreasuryProposalResponse_api_laws : api_laws.

(** Messages are read back, with the fields they do not know, and no input makes decoding panic. *)
Definition api_round_trips : Prop :=
  read_back Params_methods Params_wf Params_enc ∧
  read_back GenesisState_methods GenesisState_wf GenesisState_enc ∧
  read_back TreasuryProposalMetadata_methods TreasuryProposalMetadata_wf TreasuryProposalMetadata_enc ∧
  read_back TreasuryProposal_methods TreasuryProposal_wf TreasuryProposal_enc ∧
  read_back LendingMarketMetadata_methods LendingMarketMetadata_wf LendingMarketMetadata_enc ∧
  read_back LendingMarketProposal_methods LendingMarketProposal_wf LendingMarketProposal_enc ∧
  read_back QueryParamsRequest_methods QueryParamsRequest_wf QueryParamsRequest_enc ∧
  read_back QueryParamsResponse_methods QueryParamsResponse_wf QueryParamsResponse_enc ∧
  read_back MsgLendingMarketProposal_methods MsgLendingMarketProposal_wf MsgLendingMarketProposal_enc ∧
  read_back MsgLendingMarketProposalResponse_methods MsgLendingMarketProposalResponse_wf MsgLendingMarketProposalResponse_enc ∧
  read_back MsgTreasuryProposal_methods MsgTreasuryProposal_wf MsgTreasuryProposal_enc ∧
  read_back MsgTreasuryProposalResponse_methods MsgTreasuryProposalResponse_wf MsgTreasuryProposalResponse_enc.
Lemma govshuttle_api_round_trips : api_round_trips.
Proof. unfold api_round_trips. split_and!; eapply laws_read_back; api_law. Qed.

(** ** Reflection *)

(** The messages that occur in messages, and the conversions to them. *)
Inductive Msg :=
| Msg_Params (x : option Params)
| Msg_TreasuryProposalMetadata (x : option TreasuryProposalMetadata)
| Msg_LendingMarketMetadata (x : option LendingMarketMetadata).
Definition to_Params (m : Msg) : outcome (option Params) := if m is Msg_Params x then Ok x else Panic.
Definition to_TreasuryProposalMetadata (m : Msg) : outcome (option TreasuryProposalMetadata) := if m is Msg_TreasuryProposalMetadata x then Ok x else Panic.
Definition to_LendingMarketMetadata (m : Msg) : outcome (option LendingMarketMetadata) := if m is Msg_LendingMarketMetadata x then Ok x else Panic.

Inductive Lst :=
| Lst_LendingMarketMetadata_1 (x : option (list (string)))
| Lst_LendingMarketMetadata_3 (x : option (list (Z)))
| Lst_LendingMarketMetadata_4 (x : option (list (string)))
| Lst_LendingMarketMetadata_5 (x : option (list (string))).
Definition to_LendingMarketMetadata_1 (l : Lst) : outcome (option (list (string))) := if l is Lst_LendingMarketMetadata_1 x then Ok x else Panic.
Definition to_LendingMarketMetadata_3 (l : Lst) : outcome (option (list (Z))) := if l is Lst_LendingMarketMetadata_3 x then Ok x else Panic.
Definition to_LendingMarketMetadata_4 (l : Lst) : outcome (option (list (string))) := if l is Lst_LendingMarketMetadata_4 x then Ok x else Panic.
Definition to_LendingMarketMetadata_5 (l : Lst) : outcome (option (list (string))) := if l is Lst_LendingMarketMetadata_5 x then Ok x else Panic.
Abbreviation V := (Value Msg Lst).

Definition _LendingMarketMetadata_1_list : Elem (string) V := string_elem.
Definition _LendingMarketMetadata_3_list : Elem (Z) V := uint64_elem.
Definition _LendingMarketMetadata_4_list : Elem (string) V := string_elem.
Definition _LendingMarketMetadata_5_list : Elem (string) V := string_elem.

Definition fastReflection_Params_fields : list (Field Params V) :=
  [].
Definition fastReflection_Params_Range {S} := reflect_Range (S := S) fastReflection_Params_fields.
Definition fastReflection_Params_Has := reflect_Has fastReflection_Params_fields.
Definition fastReflection_Params_Clear := reflect_Clear fastReflection_Params_fields.
Definition fastReflection_Params_Get := reflect_Get fastReflection_Params_fields.
Definition fastReflection_Params_Set := reflect_Set fastReflection_Params_fields.
Definition fastReflection_Params_Mutable := reflect_Mutable fastReflection_Params_fields.
Definition fastReflection_Params_NewField := reflect_NewField fastReflection_Params_fields.
Definition fastReflection_Params_SetUnknown (fields : bytes) (x : Params) : Params := let '(mkParams _) := x in mkParams fields.

Definition fastReflection_GenesisState_fields : list (Field GenesisState V) :=
  [message_field (new Params_methods) Msg_Params to_Params "canto.govshuttle.v1.GenesisState.params" GenesisState_Params
     (fun v x => let '(mkGenesisState _ portContractAddr_ unknown) := x in mkGenesisState v portContractAddr_ unknown);
   string_field "canto.govshuttle.v1.GenesisState.port_contract_addr" GenesisState_PortContractAddr
     (fun v x => let '(mkGenesisState params_ _ unknown) := x in mkGenesisState params_ v unknown)].
Definition fastReflection_GenesisState_Range {S} := reflect_Range (S := S) fastReflection_GenesisState_fields.
Definition fastReflection_GenesisState_Has := reflect_Has fastReflection_GenesisState_fields.
Definition fastReflection_GenesisState_Clear := reflect_Clear fastReflection_GenesisState_fields.
Definition fastReflection_GenesisState_Get := reflect_Get fastReflection_GenesisState_fields.
Definition fastReflection_GenesisState_Set := reflect_Set fastReflection_GenesisState_fields.
Definition fastReflection_GenesisState_Mutable := reflect_Mutable fastReflection_GenesisState_fields.
Definition fastReflection_GenesisState_NewField := reflect_NewField fastReflection_GenesisState_fields.
Definition fastReflection_GenesisState_SetUnknown (fields : bytes) (x : GenesisState) : GenesisState := let '(mkGenesisState params_ portContractAddr_ _) := x in mkGenesisState params_ portContractAddr_ fields.

Definition fastReflection_TreasuryProposalMetadata_fields : list (Field TreasuryProposalMetadata V) :=
  [uint64_field "canto.govshuttle.v1.TreasuryProposalMetadata.PropID" TreasuryProposalMetadata_PropID
     (fun v x => let '(mkTreasuryProposalMetadata _ recipient_ amount_ denom_ unknown) := x in mkTreasuryProposalMetadata v recipient_ amount_ denom_ unknown);
   string_field "canto.govshuttle.v1.TreasuryProposalMetadata.recipient" TreasuryProposalMetadata_Recipient
     (fun v x => let '(mkTreasuryProposalMetadata propID_ _ amount_ denom_ unknown) := x in mkTreasuryProposalMetadata propID_ v amount_ denom_ unknown);
   uint64_field "canto.govshuttle.v1.TreasuryProposalMetadata.amount" TreasuryProposalMetadata_Amount
     (fun v x => let '(mkTreasuryProposalMetadata propID_ recipient_ _ denom_ unknown) := x in mkTreasuryProposalMetadata propID_ recipient_ v denom_ unknown);
   string_field "canto.govshuttle.v1.TreasuryProposalMetadata.denom" TreasuryProposalMetadata_Denom
     (fun v x => let '(mkTreasuryProposalMetadata propID_ recipient_ amount_ _ unknown) := x in mkTreasuryProposalMetadata propID_ recipient_ amount_ v unknown)].
Definition fastReflection_TreasuryProposalMetadata_Range {S} := reflect_Range (S := S) fastReflection_TreasuryProposalMetadata_fields.
Definition fastReflection_TreasuryProposalMetadata_Has := reflect_Has fastReflection_TreasuryProposalMetadata_fields.
Definition fastReflection_TreasuryProposalMetadata_Clear := reflect_Clear fastReflection_TreasuryProposalMetadata_fields.
Definition fastReflection_TreasuryProposalMetadata_Get := reflect_Get fastReflection_TreasuryProposalMetadata_fields.
Definition fastReflection_TreasuryProposalMetadata_Set := reflect_Set fastReflection_TreasuryProposalMetadata_fields.
Definition fastReflection_TreasuryProposalMetadata_Mutable := reflect_Mutable fastReflection_TreasuryProposalMetadata_fields.
Definition fastReflection_TreasuryProposalMetadata_NewField := reflect_NewField fastReflection_TreasuryProposalMetadata_fields.
Definition fastReflection_TreasuryProposalMetadata_SetUnknown (fields : bytes) (x : TreasuryProposalMetadata) : TreasuryProposalMetadata := let '(mkTreasuryProposalMetadata propID_ recipient_ amount_ denom_ _) := x in mkTreasuryProposalMetadata propID_ recipient_ amount_ denom_ fields.

Definition fastReflection_TreasuryProposal_fields : list (Field TreasuryProposal V) :=
  [string_field "canto.govshuttle.v1.TreasuryProposal.title" TreasuryProposal_Title
     (fun v x => let '(mkTreasuryProposal _ description_ metadata_ unknown) := x in mkTreasuryProposal v description_ metadata_ unknown);
   string_field "canto.govshuttle.v1.TreasuryProposal.description" TreasuryProposal_Description
     (fun v x => let '(mkTreasuryProposal title_ _ metadata_ unknown) := x in mkTreasuryProposal title_ v metadata_ unknown);
   message_field (new TreasuryProposalMetadata_methods) Msg_TreasuryProposalMetadata to_TreasuryProposalMetadata "canto.govshuttle.v1.TreasuryProposal.metadata" TreasuryProposal_Metadata
     (fun v x => let '(mkTreasuryProposal title_ description_ _ unknown) := x in mkTreasuryProposal title_ description_ v unknown)].
Definition fastReflection_TreasuryProposal_Range {S} := reflect_Range (S := S) fastReflection_TreasuryProposal_fields.
Definition fastReflection_TreasuryProposal_Has := reflect_Has fastReflection_TreasuryProposal_fields.
Definition fastReflection_TreasuryProposal_Clear := reflect_Clear fastReflection_TreasuryProposal_fields.
Definition fastReflection_TreasuryProposal_Get := reflect_Get fastReflection_TreasuryProposal_fields.
Definition fastReflection_TreasuryProposal_Set := reflect_Set fastReflection_TreasuryProposal_fields.
Definition fastReflection_TreasuryProposal_Mutable := reflect_Mutable fastReflection_TreasuryProposal_fields.
Definition fastReflection_TreasuryProposal_NewField := reflect_NewField fastReflection_TreasuryProposal_fields.
Definition fastReflection_TreasuryProposal_SetUnknown (fields : bytes) (x : TreasuryProposal) : TreasuryProposal := let '(mkTreasuryProposal title_ description_ metadata_ _) := x in mkTreasuryProposal title_ description_ metadata_ fields.

Definition fastReflection_LendingMarketMetadata_fields : list (Field LendingMarketMetadata V) :=
  [list_field Lst_LendingMarketMetadata_1 to_LendingMarketMetadata_1 "canto.govshuttle.v1.LendingMarketMetadata.Account" LendingMarketMetadata_Account
     (fun v x => let '(mkLendingMarketMetadata _ propId_ values_ calldatas_ signatures_ unknown) := x in mkLendingMarketMetadata v propId_ values_ calldatas_ signatures_ unknown);
   uint64_field "canto.govshuttle.v1.LendingMarketMetadata.PropId" LendingMarketMetadata_PropId
     (fun v x => let '(mkLendingMarketMetadata account_ _ values_ calldatas_ signatures_ unknown) := x in mkLendingMarketMetadata account_ v values_ calldatas_ signatures_ unknown);
   list_field Lst_LendingMarketMetadata_3 to_LendingMarketMetadata_3 "canto.govshuttle.v1.LendingMarketMetadata.values" LendingMarketMetadata_Values
     (fun v x => let '(mkLendingMarketMetadata account_ propId_ _ calldatas_ signatures_ unknown) := x in mkLendingMarketMetadata account_ propId_ v calldatas_ signatures_ unknown);
   list_field Lst_LendingMarketMetadata_4 to_LendingMarketMetadata_4 "canto.govshuttle.v1.LendingMarketMetadata.calldatas" LendingMarketMetadata_Calldatas
     (fun v x => let '(mkLendingMarketMetadata account_ propId_ values_ _ signatures_ unknown) := x in mkLendingMarketMetadata account_ propId_ values_ v signatures_ unknown);
   list_field Lst_LendingMarketMetadata_5 to_LendingMarketMetadata_5 "canto.govshuttle.v1.LendingMarketMetadata.signatures" LendingMarketMetadata_Signatures
     (fun v x => let '(mkLendingMarketMetadata account_ propId_ values_ calldatas_ _ unknown) := x in mkLendingMarketMetadata account_ propId_ values_ calldatas_ v unknown)].
Definition fastReflection_LendingMarketMetadata_Range {S} := reflect_Range (S := S) fastReflection_LendingMarketMetadata_fields.
Definition fastReflection_LendingMarketMetadata_Has := reflect_Has fastReflection_LendingMarketMetadata_fields.
Definition fastReflection_LendingMarketMetadata_Clear := reflect_Clear fastReflection_LendingMarketMetadata_fields.
Definition fastReflection_LendingMarketMetadata_Get := reflect_Get fastReflection_LendingMarketMetadata_fields.
Definition fastReflection_LendingMarketMetadata_Set := reflect_Set fastReflection_LendingMarketMetadata_fields.
Definition fastReflection_LendingMarketMetadata_Mutable := reflect_Mutable fastReflection_LendingMarketMetadata_fields.
Definition fastReflection_LendingMarketMetadata_NewField := reflect_NewField fastReflection_LendingMarketMetadata_fields.
Definition fastReflection_LendingMarketMetadata_SetUnknown (fields : bytes) (x : LendingMarketMetadata) : LendingMarketMetadata := let '(mkLendingMarketMetadata account_ propId_ values_ calldatas_ signatures_ _) := x in mkLendingMarketMetadata account_ propId_ values_ calldatas_ signatures_ fields.

Definition fastReflection_LendingMarketProposal_fields : list (Field LendingMarketProposal V) :=
  [string_field "canto.govshuttle.v1.LendingMarketProposal.title" LendingMarketProposal_Title
     (fun v x => let '(mkLendingMarketProposal _ description_ metadata_ unknown) := x in mkLendingMarketProposal v description_ metadata_ unknown);
   string_field "canto.govshuttle.v1.LendingMarketProposal.description" LendingMarketProposal_Description
     (fun v x => let '(mkLendingMarketProposal title_ _ metadata_ unknown) := x in mkLendingMarketProposal title_ v metadata_ unknown);
   message_field (new LendingMarketMetadata_methods) Msg_LendingMarketMetadata to_LendingMarketMetadata "canto.govshuttle.v1.LendingMarketProposal.metadata" LendingMarketProposal_Metadata
     (fun v x => let '(mkLendingMarketProposal title_ description_ _ unknown) := x in mkLendingMarketProposal title_ description_ v unknown)].
Definition fastReflection_LendingMarketProposal_Range {S} := reflect_Range (S := S) fastReflection_LendingMarketProposal_fields.
Definition fastReflection_LendingMarketProposal_Has := reflect_Has fastReflection_LendingMarketProposal_fields.
Definition fastReflection_LendingMarketProposal_Clear := reflect_Clear fastReflection_LendingMarketProposal_fields.
Definition fastReflection_LendingMarketProposal_Get := reflect_Get fastReflection_LendingMarketProposal_fields.
Definition fastReflection_LendingMarketProposal_Set := reflect_Set fastReflection_LendingMarketProposal_fields.
Definition fastReflection_LendingMarketProposal_Mutable := reflect_Mutable fastReflection_LendingMarketProposal_fields.
Definition fastReflection_LendingMarketProposal_NewField := reflect_NewField fastReflection_LendingMarketProposal_fields.
Definition fastReflection_LendingMarketProposal_SetUnknown (fields : bytes) (x : LendingMarketProposal) : LendingMarketProposal := let '(mkLendingMarketProposal title_ description_ metadata_ _) := x in mkLendingMarketProposal title_ description_ metadata_ fields.

Definition fastReflection_QueryParamsRequest_fields : list (Field QueryParamsRequest V) :=
  [].
Definition fastReflection_QueryParamsRequest_Range {S} := reflect_Range (S := S) fastReflection_QueryParamsRequest_fields.
Definition fastReflection_QueryParamsRequest_Has := reflect_Has fastReflection_QueryParamsRequest_fields.
Definition fastReflection_QueryParamsRequest_Clear := reflect_Clear fastReflection_QueryParamsRequest_fields.
Definition fastReflection_QueryParamsRequest_Get := reflect_Get fastReflection_QueryParamsRequest_fields.
Definition fastReflection_QueryParamsRequest_Set := reflect_Set fastReflection_QueryParamsRequest_fields.
Definition fastReflection_QueryParamsRequest_Mutable := reflect_Mutable fastReflection_QueryParamsRequest_fields.
Definition fastReflection_QueryParamsRequest_NewField := reflect_NewField fastReflection_QueryParamsRequest_fields.
Definition fastReflection_QueryParamsRequest_SetUnknown (fields : bytes) (x : QueryParamsRequest) : QueryParamsRequest := let '(mkQueryParamsRequest _) := x in mkQueryParamsRequest fields.

Definition fastReflection_QueryParamsResponse_fields : list (Field QueryParamsResponse V) :=
  [message_field (new Params_methods) Msg_Params to_Params "canto.govshuttle.v1.QueryParamsResponse.params" QueryParamsResponse_Params
     (fun v x => let '(mkQueryParamsResponse _ unknown) := x in mkQueryParamsResponse v unknown)].
Definition fastReflection_QueryParamsResponse_Range {S} := reflect_Range (S := S) fastReflection_QueryParamsResponse_fields.
Definition fastReflection_QueryParamsResponse_Has := reflect_Has fastReflection_QueryParamsResponse_fields.
Definition fastReflection_QueryParamsResponse_Clear := reflect_Clear fastReflection_QueryParamsResponse_fields.
Definition fastReflection_QueryParamsResponse_Get := reflect_Get fastReflection_QueryParamsResponse_fields.
Definition fastReflection_QueryParamsResponse_Set := reflect_Set fastReflection_QueryParamsResponse_fields.
Definition fastReflection_QueryParamsResponse_Mutable := reflect_Mutable fastReflection_QueryParamsResponse_fields.
Definition fastReflection_QueryParamsResponse_NewField := reflect_NewField fastReflection_QueryParamsResponse_fields.
Definition fastReflection_QueryParamsResponse_SetUnknown (fields : bytes) (x : QueryParamsResponse) : QueryParamsResponse := let '(mkQueryParamsResponse params_ _) := x in mkQueryParamsResponse params_ fields.

Definition fastReflection_MsgLendingMarketProposal_fields : list (Field MsgLendingMarketProposal V) :=
  [string_field "canto.govshuttle.v1.MsgLendingMarketProposal.authority" MsgLendingMarketProposal_Authority
     (fun v x => let '(mkMsgLendingMarketProposal _ title_ description_ metadata_ unknown) := x in mkMsgLendingMarketProposal v title_ description_ metadata_ unknown);
   string_field "canto.govshuttle.v1.MsgLendingMarketProposal.title" MsgLendingMarketProposal_Title
     (fun v x => let '(mkMsgLendingMarketProposal authority_ _ description_ metadata_ unknown) := x in mkMsgLendingMarketProposal authority_ v description_ metadata_ unknown);
   string_field "canto.govshuttle.v1.MsgLendingMarketProposal.description" MsgLendingMarketProposal_Description
     (fun v x => let '(mkMsgLendingMarketProposal authority_ title_ _ metadata_ unknown) := x in mkMsgLendingMarketProposal authority_ title_ v metadata_ unknown);
   message_field (new LendingMarketMetadata_methods) Msg_LendingMarketMetadata to_LendingMarketMetadata "canto.govshuttle.v1.MsgLendingMarketProposal.metadata" MsgLendingMarketProposal_Metadata
     (fun v x => let '(mkMsgLendingMarketProposal authority_ title_ description_ _ unknown) := x in mkMsgLendingMarketProposal authority_ title_ description_ v unknown)].
Definition fastReflection_MsgLendingMarketProposal_Range {S} := reflect_Range (S := S) fastReflection_MsgLendingMarketProposal_fields.
Definition fastReflection_MsgLendingMarketProposal_Has := reflect_Has fastReflection_MsgLendingMarketProposal_fields.
Definition fastReflection_MsgLendingMarketProposal_Clear := reflect_Clear fastReflection_MsgLendingMarketProposal_fields.
Definition fastReflection_MsgLendingMarketProposal_Get := reflect_Get fastReflection_MsgLendingMarketProposal_fields.
Definition fastReflection_MsgLendingMarketProposal_Set := reflect_Set fastReflection_MsgLendingMarketProposal_fields.
Definition fastReflection_MsgLendingMarketProposal_Mutable := reflect_Mutable fastReflection_MsgLendingMarketProposal_fields.
Definition fastReflection_MsgLendingMarketProposal_NewField := reflect_NewField fastReflection_MsgLendingMarketProposal_fields.
Definition fastReflection_MsgLendingMarketProposal_SetUnknown (fields : bytes) (x : MsgLendingMarketProposal) : MsgLendingMarketProposal := let '(mkMsgLendingMarketProposal authority_ title_ description_ metadata_ _) := x in mkMsgLendingMarketProposal authority_ title_ description_ metadata_ fields.

Definition fastReflection_MsgLendingMarketProposalResponse_fields : list (Field MsgLendingMarketProposalResponse V) :=
  [].
Definition fastReflection_MsgLendingMarketProposalResponse_Range {S} := reflect_Range (S := S) fastReflection_MsgLendingMarketProposalResponse_fields.
Definition fastReflection_MsgLendingMarketProposalResponse_Has := reflect_Has fastReflection_MsgLendingMarketProposalResponse_fields.
Definition fastReflection_MsgLendingMarketProposalResponse_Clear := reflect_Clear fastReflection_MsgLendingMarketProposalResponse_fields.
Definition fastReflection_MsgLendingMarketProposalResponse_Get := reflect_Get fastReflection_MsgLendingMarketProposalResponse_fields.
Definition fastReflection_MsgLendingMarketProposalResponse_Set := reflect_Set fastReflection_MsgLendingMarketProposalResponse_fields.
Definition fastReflection_MsgLendingMarketProposalResponse_Mutable := reflect_Mutable fastReflection_MsgLendingMarketProposalResponse_fields.
Definition fastReflection_MsgLendingMarketProposalResponse_NewField := reflect_NewField fastReflection_MsgLendingMarketProposalResponse_fields.
Definition fastReflection_MsgLendingMarketProposalResponse_SetUnknown (fields : bytes) (x : MsgLendingMarketProposalResponse) : MsgLendingMarketProposalResponse := let '(mkMsgLendingMarketProposalResponse _) := x in mkMsgLendingMarketProposalResponse fields.

Definition fastReflection_MsgTreasuryProposal_fields : list (Field MsgTreasuryProposal V) :=
  [string_field "canto.govshuttle.v1.MsgTreasuryProposal.authority" MsgTreasuryProposal_Authority
     (fun v x => let '(mkMsgTreasuryProposal _ title_ description_ metadata_ unknown) := x in mkMsgTreasuryProposal v title_ description_ metadata_ unknown);
   string_field "canto.govshuttle.v1.MsgTreasuryProposal.title" MsgTreasuryProposal_Title
     (fun v x => let '(mkMsgTreasuryProposal authority_ _ description_ metadata_ unknown) := x in mkMsgTreasuryProposal authority_ v description_ metadata_ unknown);
   string_field "canto.govshuttle.v1.MsgTreasuryProposal.description" MsgTreasuryProposal_Description
     (fun v x => let '(mkMsgTreasuryProposal authority_ title_ _ metadata_ unknown) := x in mkMsgTreasuryProposal authority_ title_ v metadata_ unknown);
   message_field (new TreasuryProposalMetadata_methods) Msg_TreasuryProposalMetadata to_TreasuryProposalMetadata "canto.govshuttle.v1.MsgTreasuryProposal.metadata" MsgTreasuryProposal_Metadata
     (fun v x => let '(mkMsgTreasuryProposal authority_ title_ description_ _ unknown) := x in mkMsgTreasuryProposal authority_ title_ description_ v unknown)].
Definition fastReflection_MsgTreasuryProposal_Range {S} := reflect_Range (S := S) fastReflection_MsgTreasuryProposal_fields.
Definition fastReflection_MsgTreasuryProposal_Has := reflect_Has fastReflection_MsgTreasuryProposal_fields.
Definition fastReflection_MsgTreasuryProposal_Clear := reflect_Clear fastReflection_MsgTreasuryProposal_fields.
Definition fastReflection_MsgTreasuryProposal_Get := reflect_Get fastReflection_MsgTreasuryProposal_fields.
Definition fastReflection_MsgTreasuryProposal_Set := reflect_Set fastReflection_MsgTreasuryProposal_fields.
Definition fastReflection_MsgTreasuryProposal_Mutable := reflect_Mutable fastReflection_MsgTreasuryProposal_fields.
Definition fastReflection_MsgTreasuryProposal_NewField := reflect_NewField fastReflection_MsgTreasuryProposal_fields.
Definition fastReflection_MsgTreasuryProposal_SetUnknown (fields : bytes) (x : MsgTreasuryProposal) : MsgTreasuryProposal := let '(mkMsgTreasuryProposal authority_ title_ description_ metadata_ _) := x in mkMsgTreasuryProposal authority_ title_ description_ metadata_ fields.

Definition fastReflection_MsgTreasuryProposalResponse_fields : list (Field MsgTreasuryProposalResponse V) :=
  [].
Definition fastReflection_MsgTreasuryProposalResponse_Range {S} := reflect_Range (S := S) fastReflection_MsgTreasuryProposalResponse_fields.
Definition fastReflection_MsgTreasuryProposalResponse_Has := reflect_Has fastReflection_MsgTreasuryProposalResponse_fields.
Definition fastReflection_MsgTreasuryProposalResponse_Clear := reflect_Clear fastReflection_MsgTreasuryProposalResponse_fields.
Definition fastReflection_MsgTreasuryProposalResponse_Get := reflect_Get fastReflection_MsgTreasuryProposalResponse_fields.
Definition fastReflection_MsgTreasuryProposalResponse_Set := reflect_Set fastReflection_MsgTreasuryProposalResponse_fields.
Definition fastReflection_MsgTreasuryProposalResponse_Mutable := reflect_Mutable fastReflection_MsgTreasuryProposalResponse_fields.
Definition fastReflection_MsgTreasuryProposalResponse_NewField := reflect_NewField fastReflection_MsgTreasuryProposalResponse_fields.
Definition fastReflection_MsgTreasuryProposalResponse_SetUnknown (fields : bytes) (x : MsgTreasuryProposalResponse) : MsgTreasuryProposalResponse := let '(mkMsgTreasuryProposalResponse _) := x in mkMsgTreasuryProposalResponse fields.

Lemma govshuttle_Params_field_laws : FieldLaws fastReflection_Params_fields Params_unknownFields (new Params_methods).
Proof. message_field_laws. Qed.
Lemma govshuttle_GenesisState_field_laws : FieldLaws fastReflection_GenesisState_fields GenesisState_unknownFields (new GenesisState_methods).
Proof. message_field_laws. Qed.
Lemma govshuttle_TreasuryProposalMetadata_field_laws : FieldLaws fastReflection_TreasuryProposalMetadata_fields TreasuryProposalMetadata_unknownFields (new TreasuryProposalMetadata_methods).
Proof. message_field_laws. Qed.
Lemma govshuttle_TreasuryProposal_field_laws : FieldLaws fastReflection_TreasuryProposal_fields TreasuryProposal_unknownFields (new TreasuryProposal_methods).
Proof. message_field_laws. Qed.
Lemma govshuttle_LendingMarketMetadata_field_laws : FieldLaws fastReflection_LendingMarketMetadata_fields LendingMarketMetadata_unknownFields (new LendingMarketMetadata_methods).
Proof. message_field_laws. Qed.
Lemma govshuttle_LendingMarketProposal_field_laws : FieldLaws fastReflection_LendingMarketProposal_fields LendingMarketProposal_unknownFields (new LendingMarketProposal_methods).
Proof. message_field_laws. Qed.
Lemma govshuttle_QueryParamsRequest_field_laws : FieldLaws fastReflection_QueryParamsRequest_fields QueryParamsRequest_unknownFields (new QueryParamsRequest_methods).
Proof. message_field_laws. Qed.
Lemma govshuttle_QueryParamsResponse_field_laws : FieldLaws fastReflection_QueryParamsResponse_fields QueryParamsResponse_unknownFields (new QueryParamsResponse_methods).
Proof. message_field_laws. Qed.
Lemma govshuttle_MsgLendingMarketProposal_field_laws : FieldLaws fastReflection_MsgLendingMarketProposal_fields MsgLendingMarketProposal_unknownFields (new MsgLendingMarketProposal_methods).
Proof. message_field_laws. Qed.
Lemma govshuttle_MsgLendingMarketProposalResponse_field_laws : FieldLaws fastReflection_MsgLendingMarketProposalResponse_fields MsgLendingMarketProposalResponse_unknownFields (new MsgLendingMarketProposalResponse_methods).
Proof. message_field_laws. Qed.
Lemma govshuttle_MsgTreasuryProposal_field_laws : FieldLaws fastReflection_MsgTreasuryProposal_fields MsgTreasuryProposal_unknownFields (new MsgTreasuryProposal_methods).
Proof. message_field_laws. Qed.
Lemma govshuttle_MsgTreasuryProposalResponse_field_laws : FieldLaws fastReflection_MsgTreasuryProposalResponse_fields MsgTreasuryProposalResponse_unknownFields (new MsgTreasuryProposalResponse_methods).
Proof. message_field_laws. Qed.

(** What reflection promises, for every message. *)
Definition reflection_complete : Prop :=
  reflects fastReflection_Params_fields Params_unknownFields fastReflection_Params_SetUnknown (new Params_methods) ∧
  reflects fastReflection_GenesisState_fields GenesisState_unknownFields fastReflection_GenesisState_SetUnknown (new GenesisState_methods) ∧
  reflects fastReflection_TreasuryProposalMetadata_fields TreasuryProposalMetadata_unknownFields fastReflection_TreasuryProposalMetadata_SetUnknown (new TreasuryProposalMetadata_methods) ∧
  reflects fastReflection_TreasuryProposal_fields TreasuryProposal_unknownFields fastReflection_TreasuryProposal_SetUnknown (new TreasuryProposal_methods) ∧
  reflects fastReflection_LendingMarketMetadata_fields LendingMarketMetadata_unknownFields fastReflection_LendingMarketMetadata_SetUnknown (new LendingMarketMetadata_methods) ∧
  reflects fastReflection_LendingMarketProposal_fields LendingMarketProposal_unknownFields fastReflection_LendingMarketProposal_SetUnknown (new LendingMarketProposal_methods) ∧
  reflects fastReflection_QueryParamsRequest_fields QueryParamsRequest_unknownFields fastReflection_QueryParamsRequest_SetUnknown (new QueryParamsRequest_methods) ∧
  reflects fastReflection_QueryParamsResponse_fields QueryParamsResponse_unknownFields fastReflection_QueryParamsResponse_SetUnknown (new QueryParamsResponse_methods) ∧
  reflects fastReflection_MsgLendingMarketProposal_fields MsgLendingMarketProposal_unknownFields fastReflection_MsgLendingMarketProposal_SetUnknown (new MsgLendingMarketProposal_methods) ∧
  reflects fastReflection_MsgLendingMarketProposalResponse_fields MsgLendingMarketProposalResponse_unknownFields fastReflection_MsgLendingMarketProposalResponse_SetUnknown (new MsgLendingMarketProposalResponse_methods) ∧
  reflects fastReflection_MsgTreasuryProposal_fields MsgTreasuryProposal_unknownFields fastReflection_MsgTreasuryProposal_SetUnknown (new MsgTreasuryProposal_methods) ∧
  reflects fastReflection_MsgTreasuryProposalResponse_fields MsgTreasuryProposalResponse_unknownFields fastReflection_MsgTreasuryProposalResponse_SetUnknown (new MsgTreasuryProposalResponse_methods).
Lemma govshuttle_reflection_complete : reflection_complete.
Proof.
  unfold reflection_complete. split_and!;
  [message_reflects govshuttle_Params_field_laws
  |message_reflects govshuttle_GenesisState_field_laws
  |message_reflects govshuttle_TreasuryProposalMetadata_field_laws
  |message_reflects govshuttle_TreasuryProposal_field_laws
  |message_reflects govshuttle_LendingMarketMetadata_field_laws
  |message_reflects govshuttle_LendingMarketProposal_field_laws
  |message_reflects govshuttle_QueryParamsRequest_field_laws
  |message_reflects govshuttle_QueryParamsResponse_field_laws
  |message_reflects govshuttle_MsgLendingMarketProposal_field_laws
  |message_reflects govshuttle_MsgLendingMarketProposalResponse_field_laws
  |message_reflects govshuttle_MsgTreasuryProposal_field_laws
  |message_reflects govshuttle_MsgTreasuryProposalResponse_field_laws].
Qed.

(** ** The same encodings as the module *)

Context {SC : SdkCodecs} {SL : SdkCodecLaws SC} {SE : SameEncodings SL AL}.

Definition Params_api (m : Govshuttle.Params) : Params := mkParams [].
Lemma govshuttle_Params_same : same_encoding Params_api GovshuttleCodec.Params_wf GovshuttleCodec.Params_enc Params_wf Params_enc.
Proof. same_message Params_api (@GovshuttleCodec.Params_wf) (@GovshuttleCodec.Params_enc) Params_wf Params_enc Params_fields_enc. Qed.
#[local] Hint Resolve govshuttle_Params_same : api_same.
Definition GenesisState_api (m : Govshuttle.GenesisState) : GenesisState := mkGenesisState (Some (Params_api (Govshuttle.Gen_Params m))) (Govshuttle.PortContractAddr m) [].
Lemma govshuttle_GenesisState_same : same_encoding GenesisState_api GovshuttleCodec.GenesisState_wf GovshuttleCodec.GenesisState_enc GenesisState_wf GenesisState_enc.
Proof. same_message GenesisState_api (@GovshuttleCodec.GenesisState_wf) (@GovshuttleCodec.GenesisState_enc) GenesisState_wf GenesisState_enc GenesisState_fields_enc. Qed.
#[local] Hint Resolve govshuttle_GenesisState_same : api_same.
Definition TreasuryProposalMetadata_api (m : Govshuttle.TreasuryProposalMetadata) : TreasuryProposalMetadata := mkTreasuryProposalMetadata (Govshuttle.T_PropID m) (Govshuttle.T_Recipient m) (Govshuttle.T_Amount m) (Govshuttle.T_Denom m) [].
Lemma govshuttle_TreasuryProposalMetadata_same : same_encoding TreasuryProposalMetadata_api GovshuttleCodec.TreasuryProposalMetadata_wf GovshuttleCodec.TreasuryProposalMetadata_enc TreasuryProposalMetadata_wf TreasuryProposalMetadata_enc.
Proof. same_message TreasuryProposalMetadata_api (@GovshuttleCodec.TreasuryProposalMetadata_wf) (@GovshuttleCodec.TreasuryProposalMetadata_enc) TreasuryProposalMetadata_wf TreasuryProposalMetadata_enc TreasuryProposalMetadata_fields_enc. Qed.
#[local] Hint Resolve govshuttle_TreasuryProposalMetadata_same : api_same.
Definition TreasuryProposal_api (m : Govshuttle.TreasuryProposal_content) : TreasuryProposal := mkTreasuryProposal (Govshuttle.TP_Title m) (Govshuttle.TP_Description m) (TreasuryProposalMetadata_api <$> (Govshuttle.TP_Metadata m)) [].
Lemma govshuttle_TreasuryProposal_same : same_encoding TreasuryProposal_api GovshuttleCodec.TreasuryProposal_wf GovshuttleCodec.TreasuryProposal_enc TreasuryProposal_wf TreasuryProposal_enc.
Proof. same_message TreasuryProposal_api (@GovshuttleCodec.TreasuryProposal_wf) (@GovshuttleCodec.TreasuryProposal_enc) TreasuryProposal_wf TreasuryProposal_enc TreasuryProposal_fields_enc. Qed.
#[local] Hint Resolve govshuttle_TreasuryProposal_same : api_same.
Definition LendingMarketMetadata_api (m : Govshuttle.LendingMarketMetadata) : LendingMarketMetadata := mkLendingMarketMetadata (Govshuttle.LM_Account m) (Govshuttle.LM_PropId m) (Govshuttle.LM_Values m) (Govshuttle.LM_Calldatas m) (Govshuttle.LM_Signatures m) [].
Lemma govshuttle_LendingMarketMetadata_same : same_encoding LendingMarketMetadata_api GovshuttleCodec.LendingMarketMetadata_wf GovshuttleCodec.LendingMarketMetadata_enc LendingMarketMetadata_wf LendingMarketMetadata_enc.
Proof. same_message LendingMarketMetadata_api (@GovshuttleCodec.LendingMarketMetadata_wf) (@GovshuttleCodec.LendingMarketMetadata_enc) LendingMarketMetadata_wf LendingMarketMetadata_enc LendingMarketMetadata_fields_enc. Qed.
#[local] Hint Resolve govshuttle_LendingMarketMetadata_same : api_same.
Definition LendingMarketProposal_api (m : Govshuttle.LendingMarketProposal_content) : LendingMarketProposal := mkLendingMarketProposal (Govshuttle.LP_Title m) (Govshuttle.LP_Description m) (LendingMarketMetadata_api <$> (Govshuttle.LP_Metadata m)) [].
Lemma govshuttle_LendingMarketProposal_same : same_encoding LendingMarketProposal_api GovshuttleCodec.LendingMarketProposal_wf GovshuttleCodec.LendingMarketProposal_enc LendingMarketProposal_wf LendingMarketProposal_enc.
Proof. same_message LendingMarketProposal_api (@GovshuttleCodec.LendingMarketProposal_wf) (@GovshuttleCodec.LendingMarketProposal_enc) LendingMarketProposal_wf LendingMarketProposal_enc LendingMarketProposal_fields_enc. Qed.
#[local] Hint Resolve govshuttle_LendingMarketProposal_same : api_same.
Definition QueryParamsRequest_api (m : GovshuttleCodec.QueryParamsRequest) : QueryParamsRequest := mkQueryParamsRequest [].
Lemma govshuttle_QueryParamsRequest_same : same_encoding QueryParamsRequest_api GovshuttleCodec.QueryParamsRequest_wf GovshuttleCodec.QueryParamsRequest_enc QueryParamsRequest_wf QueryParamsRequest_enc.
Proof. same_message QueryParamsRequest_api (@GovshuttleCodec.QueryParamsRequest_wf) (@GovshuttleCodec.QueryParamsRequest_enc) QueryParamsRequest_wf QueryParamsRequest_enc QueryParamsRequest_fields_enc. Qed.
#[local] Hint Resolve govshuttle_QueryParamsRequest_same : api_same.
Definition QueryParamsResponse_api (m : GovshuttleCodec.QueryParamsResponse) : QueryParamsResponse := mkQueryParamsResponse (Some (Params_api (GovshuttleCodec.QueryParamsResponse_Params m))) [].
Lemma govshuttle_QueryParamsResponse_same : same_encoding QueryParamsResponse_api GovshuttleCodec.QueryParamsResponse_wf GovshuttleCodec.QueryParamsResponse_enc QueryParamsResponse_wf QueryParamsResponse_enc.
Proof. same_message QueryParamsResponse_api (@GovshuttleCodec.QueryParamsResponse_wf) (@GovshuttleCodec.QueryParamsResponse_enc) QueryParamsResponse_wf QueryParamsResponse_enc QueryParamsResponse_fields_enc. Qed.
#[local] Hint Resolve govshuttle_QueryParamsResponse_same : api_same.
Definition MsgLendingMarketProposal_api (m : Govshuttle.MsgLendingMarketProposal) : MsgLendingMarketProposal := mkMsgLendingMarketProposal (Govshuttle.ML_Authority m) (Govshuttle.ML_Title m) (Govshuttle.ML_Description m) (LendingMarketMetadata_api <$> (Govshuttle.ML_Metadata m)) [].
Lemma govshuttle_MsgLendingMarketProposal_same : same_encoding MsgLendingMarketProposal_api GovshuttleCodec.MsgLendingMarketProposal_wf GovshuttleCodec.MsgLendingMarketProposal_enc MsgLendingMarketProposal_wf MsgLendingMarketProposal_enc.
Proof. same_message MsgLendingMarketProposal_api (@GovshuttleCodec.MsgLendingMarketProposal_wf) (@GovshuttleCodec.MsgLendingMarketProposal_enc) MsgLendingMarketProposal_wf MsgLendingMarketProposal_enc MsgLendingMarketProposal_fields_enc. Qed.
#[local] Hint Resolve govshuttle_MsgLendingMarketProposal_same : api_same.
Definition MsgLendingMarketProposalResponse_api (m : GovshuttleCodec.MsgLendingMarketProposalResponse) : MsgLendingMarketProposalResponse := mkMsgLendingMarketProposalResponse [].
Lemma govshuttle_MsgLendingMarketProposalResponse_same : same_encoding MsgLendingMarketProposalResponse_api GovshuttleCodec.MsgLendingMarketProposalResponse_wf GovshuttleCodec.MsgLendingMarketProposalResponse_enc MsgLendingMarketProposalResponse_wf MsgLendingMarketProposalResponse_enc.
Proof. same_message MsgLendingMarketProposalResponse_api (@GovshuttleCodec.MsgLendingMarketProposalResponse_wf) (@GovshuttleCodec.MsgLendingMarketProposalResponse_enc) MsgLendingMarketProposalResponse_wf MsgLendingMarketProposalResponse_enc MsgLendingMarketProposalResponse_fields_enc. Qed.
#[local] Hint Resolve govshuttle_MsgLendingMarketProposalResponse_same : api_same.
Definition MsgTreasuryProposal_api (m : Govshuttle.MsgTreasuryProposal) : MsgTreasuryProposal := mkMsgTreasuryProposal (Govshuttle.MT_Authority m) (Govshuttle.MT_Title m) (Govshuttle.MT_Description m) (TreasuryProposalMetadata_api <$> (Govshuttle.MT_Metadata m)) [].
Lemma govshuttle_MsgTreasuryProposal_same : same_encoding MsgTreasuryProposal_api GovshuttleCodec.MsgTreasuryProposal_wf GovshuttleCodec.MsgTreasuryProposal_enc MsgTreasuryProposal_wf MsgTreasuryProposal_enc.
Proof. same_message MsgTreasuryProposal_api (@GovshuttleCodec.MsgTreasuryProposal_wf) (@GovshuttleCodec.MsgTreasuryProposal_enc) MsgTreasuryProposal_wf MsgTreasuryProposal_enc MsgTreasuryProposal_fields_enc. Qed.
#[local] Hint Resolve govshuttle_MsgTreasuryProposal_same : api_same.
Definition MsgTreasuryProposalResponse_api (m : GovshuttleCodec.MsgTreasuryProposalResponse) : MsgTreasuryProposalResponse := mkMsgTreasuryProposalResponse [].
Lemma govshuttle_MsgTreasuryProposalResponse_same : same_encoding MsgTreasuryProposalResponse_api GovshuttleCodec.MsgTreasuryProposalResponse_wf GovshuttleCodec.MsgTreasuryProposalResponse_enc MsgTreasuryProposalResponse_wf MsgTreasuryProposalResponse_enc.
Proof. same_message MsgTreasuryProposalResponse_api (@GovshuttleCodec.MsgTreasuryProposalResponse_wf) (@GovshuttleCodec.MsgTreasuryProposalResponse_enc) MsgTreasuryProposalResponse_wf MsgTreasuryProposalResponse_enc MsgTreasuryProposalResponse_fields_enc. Qed.
#[local] Hint Resolve govshuttle_MsgTreasuryProposalResponse_same : api_same.

Definition api_agrees : Prop :=
  agrees GovshuttleCodec.Params_codec Params_methods Params_api GovshuttleCodec.Params_wf GovshuttleCodec.Params_enc ∧
  agrees GovshuttleCodec.GenesisState_codec GenesisState_methods GenesisState_api GovshuttleCodec.GenesisState_wf GovshuttleCodec.GenesisState_enc ∧
  agrees GovshuttleCodec.TreasuryProposalMetadata_codec TreasuryProposalMetadata_methods TreasuryProposalMetadata_api GovshuttleCodec.TreasuryProposalMetadata_wf GovshuttleCodec.TreasuryProposalMetadata_enc ∧
  agrees GovshuttleCodec.TreasuryProposal_codec TreasuryProposal_methods TreasuryProposal_api GovshuttleCodec.TreasuryProposal_wf GovshuttleCodec.TreasuryProposal_enc ∧
  agrees GovshuttleCodec.LendingMarketMetadata_codec LendingMarketMetadata_methods LendingMarketMetadata_api GovshuttleCodec.LendingMarketMetadata_wf GovshuttleCodec.LendingMarketMetadata_enc ∧
  agrees GovshuttleCodec.LendingMarketProposal_codec LendingMarketProposal_methods LendingMarketProposal_api GovshuttleCodec.LendingMarketProposal_wf GovshuttleCodec.LendingMarketProposal_enc ∧
  agrees GovshuttleCodec.QueryParamsRequest_codec QueryParamsRequest_methods QueryParamsRequest_api GovshuttleCodec.QueryParamsRequest_wf GovshuttleCodec.QueryParamsRequest_enc ∧
  agrees GovshuttleCodec.QueryParamsResponse_codec QueryParamsResponse_methods QueryParamsResponse_api GovshuttleCodec.QueryParamsResponse_wf GovshuttleCodec.QueryParamsResponse_enc ∧
  agrees GovshuttleCodec.MsgLendingMarketProposal_codec MsgLendingMarketProposal_methods MsgLendingMarketProposal_api GovshuttleCodec.MsgLendingMarketProposal_wf GovshuttleCodec.MsgLendingMarketProposal_enc ∧
  agrees GovshuttleCodec.MsgLendingMarketProposalResponse_codec MsgLendingMarketProposalResponse_methods MsgLendingMarketProposalResponse_api GovshuttleCodec.MsgLendingMarketProposalResponse_wf GovshuttleCodec.MsgLendingMarketProposalResponse_enc ∧
  agrees GovshuttleCodec.MsgTreasuryProposal_codec MsgTreasuryProposal_methods MsgTreasuryProposal_api GovshuttleCodec.MsgTreasuryProposal_wf GovshuttleCodec.MsgTreasuryProposal_enc ∧
  agrees GovshuttleCodec.MsgTreasuryProposalResponse_codec MsgTreasuryProposalResponse_methods MsgTreasuryProposalResponse_api GovshuttleCodec.MsgTreasuryProposalResponse_wf GovshuttleCodec.MsgTreasuryProposalResponse_enc.
Lemma govshuttle_api_agrees : api_agrees.
Proof.
  unfold api_agrees. split_and!;
  [exact (laws_agree _ _ _ _ _ _ _ GovshuttleCodec.govshuttle_Params_laws govshuttle_Params_api_laws govshuttle_Params_same)
  |exact (laws_agree _ _ _ _ _ _ _ GovshuttleCodec.govshuttle_GenesisState_laws govshuttle_GenesisState_api_laws govshuttle_GenesisState_same)
  |exact (laws_agree _ _ _ _ _ _ _ GovshuttleCodec.govshuttle_TreasuryProposalMetadata_laws govshuttle_TreasuryProposalMetadata_api_laws govshuttle_TreasuryProposalMetadata_same)
  |exact (laws_agree _ _ _ _ _ _ _ GovshuttleCodec.govshuttle_TreasuryProposal_laws govshuttle_TreasuryProposal_api_laws govshuttle_TreasuryProposal_same)
  |exact (laws_agree _ _ _ _ _ _ _ GovshuttleCodec.govshuttle_LendingMarketMetadata_laws govshuttle_LendingMarketMetadata_api_laws govshuttle_LendingMarketMetadata_same)
  |exact (laws_agree _ _ _ _ _ _ _ GovshuttleCodec.govshuttle_LendingMarketProposal_laws govshuttle_LendingMarketProposal_api_laws govshuttle_LendingMarketProposal_same)
  |exact (laws_agree _ _ _ _ _ _ _ GovshuttleCodec.govshuttle_QueryParamsRequest_laws govshuttle_QueryParamsRequest_api_laws govshuttle_QueryParamsRequest_same)
  |exact (laws_agree _ _ _ _ _ _ _ GovshuttleCodec.govshuttle_QueryParamsResponse_laws govshuttle_QueryParamsResponse_api_laws govshuttle_QueryParamsResponse_same)
  |exact (laws_agree _ _ _ _ _ _ _ GovshuttleCodec.govshuttle_MsgLendingMarketProposal_laws govshuttle_MsgLendingMarketProposal_api_laws govshuttle_MsgLendingMarketProposal_same)
  |exact (laws_agree _ _ _ _ _ _ _ GovshuttleCodec.govshuttle_MsgLendingMarketProposalResponse_laws govshuttle_MsgLendingMarketProposalResponse_api_laws govshuttle_MsgLendingMarketProposalResponse_same)
  |exact (laws_agree _ _ _ _ _ _ _ GovshuttleCodec.govshuttle_MsgTreasuryProposal_laws govshuttle_MsgTreasuryProposal_api_laws govshuttle_MsgTreasuryProposal_same)
  |exact (laws_agree _ _ _ _ _ _ _ GovshuttleCodec.govshuttle_MsgTreasuryProposalResponse_laws govshuttle_MsgTreasuryProposalResponse_api_laws govshuttle_MsgTreasuryProposalResponse_same)].
Qed.
End api.
