(* ===== verification/ApiInflation.v ===== *)
(** * Package api: the messages of canto.inflation.v1

    The code of [genesis.pulsar.go], [inflation.pulsar.go], [query.pulsar.go], [tx.pulsar.go] under
    src/api/canto/inflation/v1: encoding ([Pulsar.v]), reflection ([Reflect.v]), and that
    the messages of the module and of the package have the same encodings. *)

From Stdlib Require Import Ascii.
From stdpp Require Import base strings list sets.
From S2P Require Import Prelude Golang Sdk Wire WireFacts WireCodec WireSdk Pulsar Reflect ApiSame.
From S2P Require Inflation InflationCodec.

#[local] Open Scope Z_scope.
#[local] Open Scope go_scope.

Section api.
Context {RT : ProtoRuntime} {AS : ApiSdk}.

(** ** [InflationDistribution] *)

Record InflationDistribution := mkInflationDistribution { InflationDistribution_StakingRewards : string; InflationDistribution_CommunityPool : string; InflationDistribution_unknownFields : bytes }.
Definition InflationDistribution_size (x : InflationDistribution) : Z :=
  api_size_string (InflationDistribution_StakingRewards x) + api_size_string (InflationDistribution_CommunityPool x) + blen (InflationDistribution_unknownFields x).
Definition InflationDistribution_marshal (x : InflationDistribution) : writer :=
  put_raw (InflationDistribution_unknownFields x) ;>
  api_put_string 0x1a (InflationDistribution_CommunityPool x) ;>
  api_put_string 0xa (InflationDistribution_StakingRewards x).
Definition InflationDistribution_cases (discard : bool) (x : InflationDistribution) (fieldNum wireType : Z) : option (reader InflationDistribution) :=
  let '(mkInflationDistribution stakingRewards_ communityPool_ unknown) := x in
  match fieldNum with
  | 1 => Some (get_string "StakingRewards" wireType (fun v => mkInflationDistribution v communityPool_ unknown))
  | 3 => Some (get_string "CommunityPool" wireType (fun v => mkInflationDistribution stakingRewards_ v unknown))
  | _ => None
  end.
Definition InflationDistribution_append (u : bytes) (x : InflationDistribution) : InflationDistribution := let '(mkInflationDistribution stakingRewards_ communityPool_ unknown) := x in mkInflationDistribution stakingRewards_ communityPool_ (unknown ++ u).
Definition InflationDistribution_unmarshal : bool -> bytes -> option InflationDistribution -> outcome (option InflationDistribution) := api_unmarshal "InflationDistribution" InflationDistribution_cases InflationDistribution_append.
Definition InflationDistribution_methods : Methods InflationDistribution :=
  mkMethods (mkInflationDistribution "" "" []) (api_size InflationDistribution_size) (api_marshal InflationDistribution_size InflationDistribution_marshal) InflationDistribution_unmarshal.

(** ** [ExponentialCalculation] *)

Record ExponentialCalculation := mkExponentialCalculation { ExponentialCalculation_A : string; ExponentialCalculation_R : string; ExponentialCalculation_C : string; ExponentialCalculation_BondingTarget : string; ExponentialCalculation_MaxVariance : string; ExponentialCalculation_unknownFields : bytes }.
Definition ExponentialCalculation_size (x : ExponentialCalculation) : Z :=
  api_size_string (ExponentialCalculation_A x) + api_size_string (ExponentialCalculation_R x) + api_size_string (ExponentialCalculation_C x) + api_size_string (ExponentialCalculation_BondingTarget x) + api_size_string (ExponentialCalculation_MaxVariance x) + blen (ExponentialCalculation_unknownFields x).
Definition ExponentialCalculation_marshal (x : ExponentialCalculation) : writer :=
  put_raw (ExponentialCalculation_unknownFields x) ;>
  api_put_string 0x2a (ExponentialCalculation_MaxVariance x) ;>
  api_put_string 0x22 (ExponentialCalculation_BondingTarget x) ;>
  api_put_string 0x1a (ExponentialCalculation_C x) ;>
  api_put_string 0x12 (ExponentialCalculation_R x) ;>
  api_put_string 0xa (ExponentialCalculation_A x).
Definition ExponentialCalculation_cases (discard : bool) (x : ExponentialCalculation) (fieldNum wireType : Z) : option (reader ExponentialCalculation) :=
  let '(mkExponentialCalculation a_ r_ c_ bondingTarget_ maxVariance_ unknown) := x in
  match fieldNum with
  | 1 => Some (get_string "A" wireType (fun v => mkExponentialCalculation v r_ c_ bondingTarget_ maxVariance_ unknown))
  | 2 => Some (get_string "R" wireType (fun v => mkExponentialCalculation a_ v c_ bondingTarget_ maxVariance_ unknown))
  | 3 => Some (get_string "C" wireType (fun v => mkExponentialCalculation a_ r_ v bondingTarget_ maxVariance_ unknown))
  | 4 => Some (get_string "BondingTarget" wireType (fun v => mkExponentialCalculation a_ r_ c_ v maxVariance_ unknown))
  | 5 => Some (get_string "MaxVariance" wireType (fun v => mkExponentialCalculation a_ r_ c_ bondingTarget_ v unknown))
  | _ => None
  end.
Definition ExponentialCalculation_append (u : bytes) (x : ExponentialCalculation) : ExponentialCalculation := let '(mkExponentialCalculation a_ r_ c_ bondingTarget_ maxVariance_ unknown) := x in mkExponentialCalculation a_ r_ c_ bondingTarget_ maxVariance_ (unknown ++ u).
Definition ExponentialCalculation_unmarshal : bool -> bytes -> option ExponentialCalculation -> outcome (option ExponentialCalculation) := api_unmarshal "ExponentialCalculation" ExponentialCalculation_cases ExponentialCalculation_append.
Definition ExponentialCalculation_methods : Methods ExponentialCalculation :=
  mkMethods (mkExponentialCalculation "" "" "" "" "" []) (api_size ExponentialCalculation_size) (api_marshal ExponentialCalculation_size ExponentialCalculation_marshal) ExponentialCalculation_unmarshal.

(** ** [Params] *)

Record Params := mkParams { Params_MintDenom : string; Params_ExponentialCalculation : option ExponentialCalculation; Params_InflationDistribution : option InflationDistribution; Params_EnableInflation : bool; Params_unknownFields : bytes }.
Definition Params_size (x : Params) : Z :=
  api_size_string (Params_MintDenom x) + api_size_pointer ExponentialCalculation_methods (Params_ExponentialCalculation x) + api_size_pointer InflationDistribution_methods (Params_InflationDistribution x) + size_bool (Params_EnableInflation x) + blen (Params_unknownFields x).
Definition Params_marshal (x : Params) : writer :=
  put_raw (Params_unknownFields x) ;>
  put_bool 0x20 (Params_EnableInflation x) ;>
  api_put_pointer InflationDistribution_methods 0x1a (Params_InflationDistribution x) ;>
  api_put_pointer ExponentialCalculation_methods 0x12 (Params_ExponentialCalculation x) ;>
  api_put_string 0xa (Params_MintDenom x).
Definition Params_cases (discard : bool) (x : Params) (fieldNum wireType : Z) : option (reader Params) :=
  let '(mkParams mintDenom_ exponentialCalculation_ inflationDistribution_ enableInflation_ unknown) := x in
  match fieldNum with
  | 1 => Some (get_string "MintDenom" wireType (fun v => mkParams v exponentialCalculation_ inflationDistribution_ enableInflation_ unknown))
  | 2 => Some (api_get_pointer ExponentialCalculation_methods discard "ExponentialCalculation" wireType exponentialCalculation_ (fun v => mkParams mintDenom_ v inflationDistribution_ enableInflation_ unknown))
  | 3 => Some (api_get_pointer InflationDistribution_methods discard "InflationDistribution" wireType inflationDistribution_ (fun v => mkParams mintDenom_ exponentialCalculation_ v enableInflation_ unknown))
  | 4 => Some (get_bool "EnableInflation" wireType (fun v => mkParams mintDenom_ exponentialCalculation_ inflationDistribution_ v unknown))
  | _ => None
  end.
Definition Params_append (u : bytes) (x : Params) : Params := let '(mkParams mintDenom_ exponentialCalculation_ inflationDistribution_ enableInflation_ unknown) := x in mkParams mintDenom_ exponentialCalculation_ inflationDistribution_ enableInflation_ (unknown ++ u).
Definition Params_unmarshal : bool -> bytes -> option Params -> outcome (option Params) := api_unmarshal "Params" Params_cases Params_append.
Definition Params_methods : Methods Params :=
  mkMethods (mkParams "" None None false []) (api_size Params_size) (api_marshal Params_size Params_marshal) Params_unmarshal.

(** ** [GenesisState] *)

Record GenesisState := mkGenesisState { GenesisState_Params : option Params; GenesisState_Period : Z; GenesisState_EpochIdentifier : string; GenesisState_EpochsPerPeriod : Z; GenesisState_SkippedEpochs : Z; GenesisState_unknownFields : bytes }.
Definition GenesisState_size (x : GenesisState) : Z :=
  api_size_pointer Params_methods (GenesisState_Params x) + api_size_varint (GenesisState_Period x) + api_size_string (GenesisState_EpochIdentifier x) + api_size_varint (GenesisState_EpochsPerPeriod x) + api_size_varint (GenesisState_SkippedEpochs x) + blen (GenesisState_unknownFields x).
Definition GenesisState_marshal (x : GenesisState) : writer :=
  put_raw (GenesisState_unknownFields x) ;>
  api_put_varint 0x28 (GenesisState_SkippedEpochs x) ;>
  api_put_varint 0x20 (GenesisState_EpochsPerPeriod x) ;>
  api_put_string 0x1a (GenesisState_EpochIdentifier x) ;>
  api_put_varint 0x10 (GenesisState_Period x) ;>
  api_put_pointer Params_methods 0xa (GenesisState_Params x).
Definition GenesisState_cases (discard : bool) (x : GenesisState) (fieldNum wireType : Z) : option (reader GenesisState) :=
  let '(mkGenesisState params_ period_ epochIdentifier_ epochsPerPeriod_ skippedEpochs_ unknown) := x in
  match fieldNum with
  | 1 => Some (api_get_pointer Params_methods discard "Params" wireType params_ (fun v => mkGenesisState v period_ epochIdentifier_ epochsPerPeriod_ skippedEpochs_ unknown))
  | 2 => Some (get_varint wrap64 "Period" wireType (fun v => mkGenesisState params_ v epochIdentifier_ epochsPerPeriod_ skippedEpochs_ unknown))
  | 3 => Some (get_string "EpochIdentifier" wireType (fun v => mkGenesisState params_ period_ v epochsPerPeriod_ skippedEpochs_ unknown))
  | 4 => Some (get_varint sint64 "EpochsPerPeriod" wireType (fun v => mkGenesisState params_ period_ epochIdentifier_ v skippedEpochs_ unknown))
  | 5 => Some (get_varint wrap64 "SkippedEpochs" wireType (fun v => mkGenesisState params_ period_ epochIdentifier_ epochsPerPeriod_ v unknown))
  | _ => None
  end.
Definition GenesisState_append (u : bytes) (x : GenesisState) : GenesisState := let '(mkGenesisState params_ period_ epochIdentifier_ epochsPerPeriod_ skippedEpochs_ unknown) := x in mkGenesisState params_ period_ epochIdentifier_ epochsPerPeriod_ skippedEpochs_ (unknown ++ u).
Definition GenesisState_unmarshal : bool -> bytes -> option GenesisState -> outcome (option GenesisState) := api_unmarshal "GenesisState" GenesisState_cases GenesisState_append.
Definition GenesisState_methods : Methods GenesisState :=
  mkMethods (mkGenesisState None 0 "" 0 0 []) (api_size GenesisState_size) (api_marshal GenesisState_size GenesisState_marshal) GenesisState_unmarshal.

(** ** [QueryPeriodRequest] *)

Record QueryPeriodRequest := mkQueryPeriodRequest { QueryPeriodRequest_unknownFields : bytes }.
Definition QueryPeriodRequest_size (x : QueryPeriodRequest) : Z :=
  blen (QueryPeriodRequest_unknownFields x).
Definition QueryPeriodRequest_marshal (x : QueryPeriodRequest) : writer :=
  put_raw (QueryPeriodRequest_unknownFields x).
Definition QueryPeriodRequest_cases (discard : bool) (x : QueryPeriodRequest) (fieldNum wireType : Z) : option (reader QueryPeriodRequest) := None.
Definition QueryPeriodRequest_append (u : bytes) (x : QueryPeriodRequest) : QueryPeriodRequest := let '(mkQueryPeriodRequest unknown) := x in mkQueryPeriodRequest (unknown ++ u).
Definition QueryPeriodRequest_unmarshal : bool -> bytes -> option QueryPeriodRequest -> outcome (option QueryPeriodRequest) := api_unmarshal "QueryPeriodRequest" QueryPeriodRequest_cases QueryPeriodRequest_append.
Definition QueryPeriodRequest_methods : Methods QueryPeriodRequest :=
  mkMethods (mkQueryPeriodRequest []) (api_size QueryPeriodRequest_size) (api_marshal QueryPeriodRequest_size QueryPeriodRequest_marshal) QueryPeriodRequest_unmarshal.

(** ** [QueryPeriodResponse] *)

Record QueryPeriodResponse := mkQueryPeriodResponse { QueryPeriodResponse_Period : Z; QueryPeriodResponse_unknownFields : bytes }.
Definition QueryPeriodResponse_size (x : QueryPeriodResponse) : Z :=
  api_size_varint (QueryPeriodResponse_Period x) + blen (QueryPeriodResponse_unknownFields x).
Definition QueryPeriodResponse_marshal (x : QueryPeriodResponse) : writer :=
  put_raw (QueryPeriodResponse_unknownFields x) ;>
  api_put_varint 0x8 (QueryPeriodResponse_Period x).
Definition QueryPeriodResponse_cases (discard : bool) (x : QueryPeriodResponse) (fieldNum wireType : Z) : option (reader QueryPeriodResponse) :=
  let '(mkQueryPeriodResponse period_ unknown) := x in
  match fieldNum with
  | 1 => Some (get_varint wrap64 "Period" wireType (fun v => mkQueryPeriodResponse v unknown))
  | _ => None
  end.
Definition QueryPeriodResponse_append (u : bytes) (x : QueryPeriodResponse) : QueryPeriodResponse := let '(mkQueryPeriodResponse period_ unknown) := x in mkQueryPeriodResponse period_ (unknown ++ u).
Definition QueryPeriodResponse_unmarshal : bool -> bytes -> option QueryPeriodResponse -> outcome (option QueryPeriodResponse) := api_unmarshal "QueryPeriodResponse" QueryPeriodResponse_cases QueryPeriodResponse_append.
Definition QueryPeriodResponse_methods : Methods QueryPeriodResponse :=
  mkMethods (mkQueryPeriodResponse 0 []) (api_size QueryPeriodResponse_size) (api_marshal QueryPeriodResponse_size QueryPeriodResponse_marshal) QueryPeriodResponse_unmarshal.

(** ** [QueryEpochMintProvisionRequest] *)

Record QueryEpochMintProvisionRequest := mkQueryEpochMintProvisionRequest { QueryEpochMintProvisionRequest_unknownFields : bytes }.
Definition QueryEpochMintProvisionRequest_size (x : QueryEpochMintProvisionRequest) : Z :=
  blen (QueryEpochMintProvisionRequest_unknownFields x).
Definition QueryEpochMintProvisionRequest_marshal (x : QueryEpochMintProvisionRequest) : writer :=
  put_raw (QueryEpochMintProvisionRequest_unknownFields x).
Definition QueryEpochMintProvisionRequest_cases (discard : bool) (x : QueryEpochMintProvisionRequest) (fieldNum wireType : Z) : option (reader QueryEpochMintProvisionRequest) := None.
Definition QueryEpochMintProvisionRequest_append (u : bytes) (x : QueryEpochMintProvisionRequest) : QueryEpochMintProvisionRequest := let '(mkQueryEpochMintProvisionRequest unknown) := x in mkQueryEpochMintProvisionRequest (unknown ++ u).
Definition QueryEpochMintProvisionRequest_unmarshal : bool -> bytes -> option QueryEpochMintProvisionRequest -> outcome (option QueryEpochMintProvisionRequest) := api_unmarshal "QueryEpochMintProvisionRequest" QueryEpochMintProvisionRequest_cases QueryEpochMintProvisionRequest_append.
Definition QueryEpochMintProvisionRequest_methods : Methods QueryEpochMintProvisionRequest :=
  mkMethods (mkQueryEpochMintProvisionRequest []) (api_size QueryEpochMintProvisionRequest_size) (api_marshal QueryEpochMintProvisionRequest_size QueryEpochMintProvisionRequest_marshal) QueryEpochMintProvisionRequest_unmarshal.

(** ** [QueryEpochMintProvisionResponse] *)

Record QueryEpochMintProvisionResponse := mkQueryEpochMintProvisionResponse { QueryEpochMintProvisionResponse_EpochMintProvision : option api_DecCoin; QueryEpochMintProvisionResponse_unknownFields : bytes }.
Definition QueryEpochMintProvisionResponse_size (x : QueryEpochMintProvisionResponse) : Z :=
  api_size_pointer api_DecCoin_methods (QueryEpochMintProvisionResponse_EpochMintProvision x) + blen (QueryEpochMintProvisionResponse_unknownFields x).
Definition QueryEpochMintProvisionResponse_marshal (x : QueryEpochMintProvisionResponse) : writer :=
  put_raw (QueryEpochMintProvisionResponse_unknownFields x) ;>
  api_put_pointer api_DecCoin_methods 0xa (QueryEpochMintProvisionResponse_EpochMintProvision x).
Definition QueryEpochMintProvisionResponse_cases (discard : bool) (x : QueryEpochMintProvisionResponse) (fieldNum wireType : Z) : option (reader QueryEpochMintProvisionResponse) :=
  let '(mkQueryEpochMintProvisionResponse epochMintProvision_ unknown) := x in
  match fieldNum with
  | 1 => Some (api_get_pointer api_DecCoin_methods discard "EpochMintProvision" wireType epochMintProvision_ (fun v => mkQueryEpochMintProvisionResponse v unknown))
  | _ => None
  end.
Definition QueryEpochMintProvisionResponse_append (u : bytes) (x : QueryEpochMintProvisionResponse) : QueryEpochMintProvisionResponse := let '(mkQueryEpochMintProvisionResponse epochMintProvision_ unknown) := x in mkQueryEpochMintProvisionResponse epochMintProvision_ (unknown ++ u).
Definition QueryEpochMintProvisionResponse_unmarshal : bool -> bytes -> option QueryEpochMintProvisionResponse -> outcome (option QueryEpochMintProvisionResponse) := api_unmarshal "QueryEpochMintProvisionResponse" QueryEpochMintProvisionResponse_cases QueryEpochMintProvisionResponse_append.
Definition QueryEpochMintProvisionResponse_methods : Methods QueryEpochMintProvisionResponse :=
  mkMethods (mkQueryEpochMintProvisionResponse None []) (api_size QueryEpochMintProvisionResponse_size) (api_marshal QueryEpochMintProvisionResponse_size QueryEpochMintProvisionResponse_marshal) QueryEpochMintProvisionResponse_unmarshal.

(** ** [QuerySkippedEpochsRequest] *)

Record QuerySkippedEpochsRequest := mkQuerySkippedEpochsRequest { QuerySkippedEpochsRequest_unknownFields : bytes }.
Definition QuerySkippedEpochsRequest_size (x : QuerySkippedEpochsRequest) : Z :=
  blen (QuerySkippedEpochsRequest_unknownFields x).
Definition QuerySkippedEpochsRequest_marshal (x : QuerySkippedEpochsRequest) : writer :=
  put_raw (QuerySkippedEpochsRequest_unknownFields x).
Definition QuerySkippedEpochsRequest_cases (discard : bool) (x : QuerySkippedEpochsRequest) (fieldNum wireType : Z) : option (reader QuerySkippedEpochsRequest) := None.
Definition QuerySkippedEpochsRequest_append (u : bytes) (x : QuerySkippedEpochsRequest) : QuerySkippedEpochsRequest := let '(mkQuerySkippedEpochsRequest unknown) := x in mkQuerySkippedEpochsRequest (unknown ++ u).
Definition QuerySkippedEpochsRequest_unmarshal : bool -> bytes -> option QuerySkippedEpochsRequest -> outcome (option QuerySkippedEpochsRequest) := api_unmarshal "QuerySkippedEpochsRequest" QuerySkippedEpochsRequest_cases QuerySkippedEpochsRequest_append.
Definition QuerySkippedEpochsRequest_methods : Methods QuerySkippedEpochsRequest :=
  mkMethods (mkQuerySkippedEpochsRequest []) (api_size QuerySkippedEpochsRequest_size) (api_marshal QuerySkippedEpochsRequest_size QuerySkippedEpochsRequest_marshal) QuerySkippedEpochsRequest_unmarshal.

(** ** [QuerySkippedEpochsResponse] *)

Record QuerySkippedEpochsResponse := mkQuerySkippedEpochsResponse { QuerySkippedEpochsResponse_SkippedEpochs : Z; QuerySkippedEpochsResponse_unknownFields : bytes }.
Definition QuerySkippedEpochsResponse_size (x : QuerySkippedEpochsResponse) : Z :=
  api_size_varint (QuerySkippedEpochsResponse_SkippedEpochs x) + blen (QuerySkippedEpochsResponse_unknownFields x).
Definition QuerySkippedEpochsResponse_marshal (x : QuerySkippedEpochsResponse) : writer :=
  put_raw (QuerySkippedEpochsResponse_unknownFields x) ;>
  api_put_varint 0x8 (QuerySkippedEpochsResponse_SkippedEpochs x).
Definition QuerySkippedEpochsResponse_cases (discard : bool) (x : QuerySkippedEpochsResponse) (fieldNum wireType : Z) : option (reader QuerySkippedEpochsResponse) :=
  let '(mkQuerySkippedEpochsResponse skippedEpochs_ unknown) := x in
  match fieldNum with
  | 1 => Some (get_varint wrap64 "SkippedEpochs" wireType (fun v => mkQuerySkippedEpochsResponse v unknown))
  | _ => None
  end.
Definition QuerySkippedEpochsResponse_append (u : bytes) (x : QuerySkippedEpochsResponse) : QuerySkippedEpochsResponse := let '(mkQuerySkippedEpochsResponse skippedEpochs_ unknown) := x in mkQuerySkippedEpochsResponse skippedEpochs_ (unknown ++ u).
Definition QuerySkippedEpochsResponse_unmarshal : bool -> bytes -> option QuerySkippedEpochsResponse -> outcome (option QuerySkippedEpochsResponse) := api_unmarshal "QuerySkippedEpochsResponse" QuerySkippedEpochsResponse_cases QuerySkippedEpochsResponse_append.
Definition QuerySkippedEpochsResponse_methods : Methods QuerySkippedEpochsResponse :=
  mkMethods (mkQuerySkippedEpochsResponse 0 []) (api_size QuerySkippedEpochsResponse_size) (api_marshal QuerySkippedEpochsResponse_size QuerySkippedEpochsResponse_marshal) QuerySkippedEpochsResponse_unmarshal.

(** ** [QueryCirculatingSupplyRequest] *)

Record QueryCirculatingSupplyRequest := mkQueryCirculatingSupplyRequest { QueryCirculatingSupplyRequest_unknownFields : bytes }.
Definition QueryCirculatingSupplyRequest_size (x : QueryCirculatingSupplyRequest) : Z :=
  blen (QueryCirculatingSupplyRequest_unknownFields x).
Definition QueryCirculatingSupplyRequest_marshal (x : QueryCirculatingSupplyRequest) : writer :=
  put_raw (QueryCirculatingSupplyRequest_unknownFields x).
Definition QueryCirculatingSupplyRequest_cases (discard : bool) (x : QueryCirculatingSupplyRequest) (fieldNum wireType : Z) : option (reader QueryCirculatingSupplyRequest) := None.
Definition QueryCirculatingSupplyRequest_append (u : bytes) (x : QueryCirculatingSupplyRequest) : QueryCirculatingSupplyRequest := let '(mkQueryCirculatingSupplyRequest unknown) := x in mkQueryCirculatingSupplyRequest (unknown ++ u).
Definition QueryCirculatingSupplyRequest_unmarshal : bool -> bytes -> option QueryCirculatingSupplyRequest -> outcome (option QueryCirculatingSupplyRequest) := api_unmarshal "QueryCirculatingSupplyRequest" QueryCirculatingSupplyRequest_cases QueryCirculatingSupplyRequest_append.
Definition QueryCirculatingSupplyRequest_methods : Methods QueryCirculatingSupplyRequest :=
  mkMethods (mkQueryCirculatingSupplyRequest []) (api_size QueryCirculatingSupplyRequest_size) (api_marshal QueryCirculatingSupplyRequest_size QueryCirculatingSupplyRequest_marshal) QueryCirculatingSupplyRequest_unmarshal.

(** ** [QueryCirculatingSupplyResponse] *)

Record QueryCirculatingSupplyResponse := mkQueryCirculatingSupplyResponse { QueryCirculatingSupplyResponse_CirculatingSupply : option api_DecCoin; QueryCirculatingSupplyResponse_unknownFields : bytes }.
Definition QueryCirculatingSupplyResponse_size (x : QueryCirculatingSupplyResponse) : Z :=
  api_size_pointer api_DecCoin_methods (QueryCirculatingSupplyResponse_CirculatingSupply x) + blen (QueryCirculatingSupplyResponse_unknownFields x).
Definition QueryCirculatingSupplyResponse_marshal (x : QueryCirculatingSupplyResponse) : writer :=
  put_raw (QueryCirculatingSupplyResponse_unknownFields x) ;>
  api_put_pointer api_DecCoin_methods 0xa (QueryCirculatingSupplyResponse_CirculatingSupply x).
Definition QueryCirculatingSupplyResponse_cases (discard : bool) (x : QueryCirculatingSupplyResponse) (fieldNum wireType : Z) : option (reader QueryCirculatingSupplyResponse) :=
  let '(mkQueryCirculatingSupplyResponse circulatingSupply_ unknown) := x in
  match fieldNum with
  | 1 => Some (api_get_pointer api_DecCoin_methods discard "CirculatingSupply" wireType circulatingSupply_ (fun v => mkQueryCirculatingSupplyResponse v unknown))
  | _ => None
  end.
Definition QueryCirculatingSupplyResponse_append (u : bytes) (x : QueryCirculatingSupplyResponse) : QueryCirculatingSupplyResponse := let '(mkQueryCirculatingSupplyResponse circulatingSupply_ unknown) := x in mkQueryCirculatingSupplyResponse circulatingSupply_ (unknown ++ u).
Definition QueryCirculatingSupplyResponse_unmarshal : bool -> bytes -> option QueryCirculatingSupplyResponse -> outcome (option QueryCirculatingSupplyResponse) := api_unmarshal "QueryCirculatingSupplyResponse" QueryCirculatingSupplyResponse_cases QueryCirculatingSupplyResponse_append.
Definition QueryCirculatingSupplyResponse_methods : Methods QueryCirculatingSupplyResponse :=
  mkMethods (mkQueryCirculatingSupplyResponse None []) (api_size QueryCirculatingSupplyResponse_size) (api_marshal QueryCirculatingSupplyResponse_size QueryCirculatingSupplyResponse_marshal) QueryCirculatingSupplyResponse_unmarshal.

(** ** [QueryInflationRateRequest] *)

Record QueryInflationRateRequest := mkQueryInflationRateRequest { QueryInflationRateRequest_unknownFields : bytes }.
Definition QueryInflationRateRequest_size (x : QueryInflationRateRequest) : Z :=
  blen (QueryInflationRateRequest_unknownFields x).
Definition QueryInflationRateRequest_marshal (x : QueryInflationRateRequest) : writer :=
  put_raw (QueryInflationRateRequest_unknownFields x).
Definition QueryInflationRateRequest_cases (discard : bool) (x : QueryInflationRateRequest) (fieldNum wireType : Z) : option (reader QueryInflationRateRequest) := None.
Definition QueryInflationRateRequest_append (u : bytes) (x : QueryInflationRateRequest) : QueryInflationRateRequest := let '(mkQueryInflationRateRequest unknown) := x in mkQueryInflationRateRequest (unknown ++ u).
Definition QueryInflationRateRequest_unmarshal : bool -> bytes -> option QueryInflationRateRequest -> outcome (option QueryInflationRateRequest) := api_unmarshal "QueryInflationRateRequest" QueryInflationRateRequest_cases QueryInflationRateRequest_append.
Definition QueryInflationRateRequest_methods : Methods QueryInflationRateRequest :=
  mkMethods (mkQueryInflationRateRequest []) (api_size QueryInflationRateRequest_size) (api_marshal QueryInflationRateRequest_size QueryInflationRateRequest_marshal) QueryInflationRateRequest_unmarshal.

(** ** [QueryInflationRateResponse] *)

Record QueryInflationRateResponse := mkQueryInflationRateResponse { QueryInflationRateResponse_InflationRate : string; QueryInflationRateResponse_unknownFields : bytes }.
Definition QueryInflationRateResponse_size (x : QueryInflationRateResponse) : Z :=
  api_size_string (QueryInflationRateResponse_InflationRate x) + blen (QueryInflationRateResponse_unknownFields x).
Definition QueryInflationRateResponse_marshal (x : QueryInflationRateResponse) : writer :=
  put_raw (QueryInflationRateResponse_unknownFields x) ;>
  api_put_string 0xa (QueryInflationRateResponse_InflationRate x).
Definition QueryInflationRateResponse_cases (discard : bool) (x : QueryInflationRateResponse) (fieldNum wireType : Z) : option (reader QueryInflationRateResponse) :=
  let '(mkQueryInflationRateResponse inflationRate_ unknown) := x in
  match fieldNum with
  | 1 => Some (get_string "InflationRate" wireType (fun v => mkQueryInflationRateResponse v unknown))
  | _ => None
  end.
Definition QueryInflationRateResponse_append (u : bytes) (x : QueryInflationRateResponse) : QueryInflationRateResponse := let '(mkQueryInflationRateResponse inflationRate_ unknown) := x in mkQueryInflationRateResponse inflationRate_ (unknown ++ u).
Definition QueryInflationRateResponse_unmarshal : bool -> bytes -> option QueryInflationRateResponse -> outcome (option QueryInflationRateResponse) := api_unmarshal "QueryInflationRateResponse" QueryInflationRateResponse_cases QueryInflationRateResponse_append.
Definition QueryInflationRateResponse_methods : Methods QueryInflationRateResponse :=
  mkMethods (mkQueryInflationRateResponse "" []) (api_size QueryInflationRateResponse_size) (api_marshal QueryInflationRateResponse_size QueryInflationRateResponse_marshal) QueryInflationRateResponse_unmarshal.

(** ** [QueryParamsRequest] *)

Record QueryParamsRequest := mkQueryParamsRequest { QueryParamsRequest_unknownFields : bytes }.
Definition QueryParamsRequest_size (x : QueryParamsRequest) : Z :=
  blen (QueryParamsRequest_unknownFields x).
Definition QueryParamsRequest_marshal (x : QueryParamsRequest) : writer :=
  put_raw (QueryParamsRequest_unknownFields x).
Definition QueryParamsRequest_cases (discard : bool) (x : QueryParamsRequest) (fieldNum wireType : Z) : option (reader QueryParamsRequest) := None.
Definition QueryParamsRequest_append (u : bytes) (x : QueryParamsRequest) : QueryParamsRequest := let '(mkQueryParamsRequest unknown) := x in mkQueryParamsRequest (unknown ++ u).
Definition QueryParamsRequest_unmarshal : bool -> bytes -> option QueryParamsRequest -> outcome (option QueryParamsRequest) := api_unmarshal "QueryParamsRequest" QueryParamsRequest_cases QueryParamsRequest_append.
Definition QueryParamsRequest_methods : Methods QueryParamsRequest :=
  mkMethods (mkQueryParamsRequest []) (api_size QueryParamsRequest_size) (api_marshal QueryParamsRequest_size QueryParamsRequest_marshal) QueryParamsRequest_unmarshal.

(** ** [QueryParamsResponse] *)

Record QueryParamsResponse := mkQueryParamsResponse { QueryParamsResponse_Params : option Params; QueryParamsResponse_unknownFields : bytes }.
Definition QueryParamsResponse_size (x : QueryParamsResponse) : Z :=
  api_size_pointer Params_methods (QueryParamsResponse_Params x) + blen (QueryParamsResponse_unknownFields x).
Definition QueryParamsResponse_marshal (x : QueryParamsResponse) : writer :=
  put_raw (QueryParamsResponse_unknownFields x) ;>
  api_put_pointer Params_methods 0xa (QueryParamsResponse_Params x).
Definition QueryParamsResponse_cases (discard : bool) (x : QueryParamsResponse) (fieldNum wireType : Z) : option (reader QueryParamsResponse) :=
  let '(mkQueryParamsResponse params_ unknown) := x in
  match fieldNum with
  | 1 => Some (api_get_pointer Params_methods discard "Params" wireType params_ (fun v => mkQueryParamsResponse v unknown))
  | _ => None
  end.
Definition QueryParamsResponse_append (u : bytes) (x : QueryParamsResponse) : QueryParamsResponse := let '(mkQueryParamsResponse params_ unknown) := x in mkQueryParamsResponse params_ (unknown ++ u).
Definition QueryParamsResponse_unmarshal : bool -> bytes -> option QueryParamsResponse -> outcome (option QueryParamsResponse) := api_unmarshal "QueryParamsResponse" QueryParamsResponse_cases QueryParamsResponse_append.
Definition QueryParamsResponse_methods : Methods QueryParamsResponse :=
  mkMethods (mkQueryParamsResponse None []) (api_size QueryParamsResponse_size) (api_marshal QueryParamsResponse_size QueryParamsResponse_marshal) QueryParamsResponse_unmarshal.

(** ** [MsgUpdateParams] *)

Record MsgUpdateParams := mkMsgUpdateParams { MsgUpdateParams_Authority : string; MsgUpdateParams_Params : option Params; MsgUpdateParams_unknownFields : bytes }.
Definition MsgUpdateParams_size (x : MsgUpdateParams) : Z :=
  api_size_string (MsgUpdateParams_Authority x) + api_size_pointer Params_methods (MsgUpdateParams_Params x) + blen (MsgUpdateParams_unknownFields x).
Definition MsgUpdateParams_marshal (x : MsgUpdateParams) : writer :=
  put_raw (MsgUpdateParams_unknownFields x) ;>
  api_put_pointer Params_methods 0x12 (MsgUpdateParams_Params x) ;>
  api_put_string 0xa (MsgUpdateParams_Authority x).
Definition MsgUpdateParams_cases (discard : bool) (x : MsgUpdateParams) (fieldNum wireType : Z) : option (reader MsgUpdateParams) :=
  let '(mkMsgUpdateParams authority_ params_ unknown) := x in
  match fieldNum with
  | 1 => Some (get_string "Authority" wireType (fun v => mkMsgUpdateParams v params_ unknown))
  | 2 => Some (api_get_pointer Params_methods discard "Params" wireType params_ (fun v => mkMsgUpdateParams authority_ v unknown))
  | _ => None
  end.
Definition MsgUpdateParams_append (u : bytes) (x : MsgUpdateParams) : MsgUpdateParams := let '(mkMsgUpdateParams authority_ params_ unknown) := x in mkMsgUpdateParams authority_ params_ (unknown ++ u).
Definition MsgUpdateParams_unmarshal : bool -> bytes -> option MsgUpdateParams -> outcome (option MsgUpdateParams) := api_unmarshal "MsgUpdateParams" MsgUpdateParams_cases MsgUpdateParams_append.
Definition MsgUpdateParams_methods : Methods MsgUpdateParams :=
  mkMethods (mkMsgUpdateParams "" None []) (api_size MsgUpdateParams_size) (api_marshal MsgUpdateParams_size MsgUpdateParams_marshal) MsgUpdateParams_unmarshal.

(** ** [MsgUpdateParamsResponse] *)

Record MsgUpdateParamsResponse := mkMsgUpdateParamsResponse { MsgUpdateParamsResponse_unknownFields : bytes }.
Definition MsgUpdateParamsResponse_size (x : MsgUpdateParamsResponse) : Z :=
  blen (MsgUpdateParamsResponse_unknownFields x).
Definition MsgUpdateParamsResponse_marshal (x : MsgUpdateParamsResponse) : writer :=
  put_raw (MsgUpdateParamsResponse_unknownFields x).
Definition MsgUpdateParamsResponse_cases (discard : bool) (x : MsgUpdateParamsResponse) (fieldNum wireType : Z) : option (reader MsgUpdateParamsResponse) := None.
Definition MsgUpdateParamsResponse_append (u : bytes) (x : MsgUpdateParamsResponse) : MsgUpdateParamsResponse := let '(mkMsgUpdateParamsResponse unknown) := x in mkMsgUpdateParamsResponse (unknown ++ u).
Definition MsgUpdateParamsResponse_unmarshal : bool -> bytes -> option MsgUpdateParamsResponse -> outcome (option MsgUpdateParamsResponse) := api_unmarshal "MsgUpdateParamsResponse" MsgUpdateParamsResponse_cases MsgUpdateParamsResponse_append.
Definition MsgUpdateParamsResponse_methods : Methods MsgUpdateParamsResponse :=
  mkMethods (mkMsgUpdateParamsResponse []) (api_size MsgUpdateParamsResponse_size) (api_marshal MsgUpdateParamsResponse_size MsgUpdateParamsResponse_marshal) MsgUpdateParamsResponse_unmarshal.

(** ** Well-formed messages and their encodings *)

Context {RL : ProtoRuntimeLaws} {AL : ApiSdkLaws AS}.

Definition InflationDistribution_wf (x : InflationDistribution) : Prop := unknown_bytes [1; 3] (InflationDistribution_unknownFields x).
Definition InflationDistribution_fields_enc (x : InflationDistribution) : bytes :=
  enc_string 0xa (InflationDistribution_StakingRewards x) ++
  enc_string 0x1a (InflationDistribution_CommunityPool x).
Definition InflationDistribution_enc (x : InflationDistribution) : bytes := InflationDistribution_fields_enc x ++ InflationDistribution_unknownFields x.
Lemma inflation_InflationDistribution_api_laws : MethodLaws InflationDistribution_methods InflationDistribution_wf InflationDistribution_enc.
Proof. api_message_laws InflationDistribution_wf InflationDistribution_enc InflationDistribution_fields_enc InflationDistribution_size InflationDistribution_marshal InflationDistribution_cases InflationDistribution_append. Qed.
#[local] Hint Resolve inflation_InflationDistribution_api_laws : api_laws.

Definition ExponentialCalculation_wf (x : ExponentialCalculation) : Prop := unknown_bytes [1; 2; 3; 4; 5] (ExponentialCalculation_unknownFields x).
Definition ExponentialCalculation_fields_enc (x : ExponentialCalculation) : bytes :=
  enc_string 0xa (ExponentialCalculation_A x) ++
  enc_string 0x12 (ExponentialCalculation_R x) ++
  enc_string 0x1a (ExponentialCalculation_C x) ++
  enc_string 0x22 (ExponentialCalculation_BondingTarget x) ++
  enc_string 0x2a (ExponentialCalculation_MaxVariance x).
Definition ExponentialCalculation_enc (x : ExponentialCalculation) : bytes := ExponentialCalculation_fields_enc x ++ ExponentialCalculation_unknownFields x.
Lemma inflation_ExponentialCalculation_api_laws : MethodLaws ExponentialCalculation_methods ExponentialCalculation_wf ExponentialCalculation_enc.
Proof. api_message_laws ExponentialCalculation_wf ExponentialCalculation_enc ExponentialCalculation_fields_enc ExponentialCalculation_size ExponentialCalculation_marshal ExponentialCalculation_cases ExponentialCalculation_append. Qed.
#[local] Hint Resolve inflation_ExponentialCalculation_api_laws : api_laws.

Definition Params_wf (x : Params) : Prop := (∀ a, Params_ExponentialCalculation x = Some a -> ExponentialCalculation_wf a) ∧ (∀ a, Params_InflationDistribution x = Some a -> InflationDistribution_wf a) ∧ unknown_bytes [1; 2; 3; 4] (Params_unknownFields x).
Definition Params_fields_enc (x : Params) : bytes :=
  enc_string 0xa (Params_MintDenom x) ++
  enc_pointer ExponentialCalculation_enc 0x12 (Params_ExponentialCalculation x) ++
  enc_pointer InflationDistribution_enc 0x1a (Params_InflationDistribution x) ++
  enc_bool 0x20 (Params_EnableInflation x).
Definition Params_enc (x : Params) : bytes := Params_fields_enc x ++ Params_unknownFields x.
Lemma inflation_Params_api_laws : MethodLaws Params_methods Params_wf Params_enc.
Proof. api_message_laws Params_wf Params_enc Params_fields_enc Params_size Params_marshal Params_cases Params_append. Qed.
#[local] Hint Resolve inflation_Params_api_laws : api_laws.

Definition GenesisState_wf (x : GenesisState) : Prop := (∀ a, GenesisState_Params x = Some a -> Params_wf a) ∧ is_uint64 (GenesisState_Period x) ∧ is_int64 (GenesisState_EpochsPerPeriod x) ∧ is_uint64 (GenesisState_SkippedEpochs x) ∧ unknown_bytes [1; 2; 3; 4; 5] (GenesisState_unknownFields x).
Definition GenesisState_fields_enc (x : GenesisState) : bytes :=
  enc_pointer Params_enc 0xa (GenesisState_Params x) ++
  enc_varint 0x10 (GenesisState_Period x) ++
  enc_string 0x1a (GenesisState_EpochIdentifier x) ++
  enc_varint 0x20 (GenesisState_EpochsPerPeriod x) ++
  enc_varint 0x28 (GenesisState_SkippedEpochs x).
Definition GenesisState_enc (x : GenesisState) : bytes := GenesisState_fields_enc x ++ GenesisState_unknownFields x.
Lemma inflation_GenesisState_api_laws : MethodLaws GenesisState_methods GenesisState_wf GenesisState_enc.
Proof. api_message_laws GenesisState_wf GenesisState_enc GenesisState_fields_enc GenesisState_size GenesisState_marshal GenesisState_cases GenesisState_append. Qed.
#[local] Hint Resolve inflation_GenesisState_api_laws : api_laws.

Definition QueryPeriodRequest_wf (x : QueryPeriodRequest) : Prop := unknown_bytes [] (QueryPeriodRequest_unknownFields x).
Definition QueryPeriodRequest_fields_enc (x : QueryPeriodRequest) : bytes :=
  [].
Definition QueryPeriodRequest_enc (x : QueryPeriodRequest) : bytes := QueryPeriodRequest_fields_enc x ++ QueryPeriodRequest_unknownFields x.
Lemma inflation_QueryPeriodRequest_api_laws : MethodLaws QueryPeriodRequest_methods QueryPeriodRequest_wf QueryPeriodRequest_enc.
Proof. api_message_laws QueryPeriodRequest_wf QueryPeriodRequest_enc QueryPeriodRequest_fields_enc QueryPeriodRequest_size QueryPeriodRequest_marshal QueryPeriodRequest_cases QueryPeriodRequest_append. Qed.
#[local] Hint Resolve inflation_QueryPeriodRequest_api_laws : api_laws.

Definition QueryPeriodResponse_wf (x : QueryPeriodResponse) : Prop := is_uint64 (QueryPeriodResponse_Period x) ∧ unknown_bytes [1] (QueryPeriodResponse_unknownFields x).
Definition QueryPeriodResponse_fields_enc (x : QueryPeriodResponse) : bytes :=
  enc_varint 0x8 (QueryPeriodResponse_Period x).
Definition QueryPeriodResponse_enc (x : QueryPeriodResponse) : bytes := QueryPeriodResponse_fields_enc x ++ QueryPeriodResponse_unknownFields x.
Lemma inflation_QueryPeriodResponse_api_laws : MethodLaws QueryPeriodResponse_methods QueryPeriodResponse_wf QueryPeriodResponse_enc.
Proof. api_message_laws QueryPeriodResponse_wf QueryPeriodResponse_enc QueryPeriodResponse_fields_enc QueryPeriodResponse_size QueryPeriodResponse_marshal QueryPeriodResponse_cases QueryPeriodResponse_append. Qed.
#[local] Hint Resolve inflation_QueryPeriodResponse_api_laws : api_laws.

Definition QueryEpochMintProvisionRequest_wf (x : QueryEpochMintProvisionRequest) : Prop := unknown_bytes [] (QueryEpochMintProvisionRequest_unknownFields x).
Definition QueryEpochMintProvisionRequest_fields_enc (x : QueryEpochMintProvisionRequest) : bytes :=
  [].
Definition QueryEpochMintProvisionRequest_enc (x : QueryEpochMintProvisionRequest) : bytes := QueryEpochMintProvisionRequest_fields_enc x ++ QueryEpochMintProvisionRequest_unknownFields x.
Lemma inflation_QueryEpochMintProvisionRequest_api_laws : MethodLaws QueryEpochMintProvisionRequest_methods QueryEpochMintProvisionRequest_wf QueryEpochMintProvisionRequest_enc.
Proof. api_message_laws QueryEpochMintProvisionRequest_wf QueryEpochMintProvisionRequest_enc QueryEpochMintProvisionRequest_fields_enc QueryEpochMintProvisionRequest_size QueryEpochMintProvisionRequest_marshal QueryEpochMintProvisionRequest_cases QueryEpochMintProvisionRequest_append. Qed.
#[local] Hint Resolve inflation_QueryEpochMintProvisionRequest_api_laws : api_laws.

Definition QueryEpochMintProvisionResponse_wf (x : QueryEpochMintProvisionResponse) : Prop := (∀ a, QueryEpochMintProvisionResponse_EpochMintProvision x = Some a -> api_DecCoin_wf a) ∧ unknown_bytes [1] (QueryEpochMintProvisionResponse_unknownFields x).
Definition QueryEpochMintProvisionResponse_fields_enc (x : QueryEpochMintProvisionResponse) : bytes :=
  enc_pointer api_DecCoin_enc 0xa (QueryEpochMintProvisionResponse_EpochMintProvision x).
Definition QueryEpochMintProvisionResponse_enc (x : QueryEpochMintProvisionResponse) : bytes := QueryEpochMintProvisionResponse_fields_enc x ++ QueryEpochMintProvisionResponse_unknownFields x.
Lemma inflation_QueryEpochMintProvisionResponse_api_laws : MethodLaws QueryEpochMintProvisionResponse_methods QueryEpochMintProvisionResponse_wf QueryEpochMintProvisionResponse_enc.
Proof. api_message_laws QueryEpochMintProvisionResponse_wf QueryEpochMintProvisionResponse_enc QueryEpochMintProvisionResponse_fields_enc QueryEpochMintProvisionResponse_size QueryEpochMintProvisionResponse_marshal QueryEpochMintProvisionResponse_cases QueryEpochMintProvisionResponse_append. Qed.
#[local] Hint Resolve inflation_QueryEpochMintProvisionResponse_api_laws : api_laws.

Definition QuerySkippedEpochsRequest_wf (x : QuerySkippedEpochsRequest) : Prop := unknown_bytes [] (QuerySkippedEpochsRequest_unknownFields x).
Definition QuerySkippedEpochsRequest_fields_enc (x : QuerySkippedEpochsRequest) : bytes :=
  [].
Definition QuerySkippedEpochsRequest_enc (x : QuerySkippedEpochsRequest) : bytes := QuerySkippedEpochsRequest_fields_enc x ++ QuerySkippedEpochsRequest_unknownFields x.
Lemma inflation_QuerySkippedEpochsRequest_api_laws : MethodLaws QuerySkippedEpochsRequest_methods QuerySkippedEpochsRequest_wf QuerySkippedEpochsRequest_enc.
Proof. api_message_laws QuerySkippedEpochsRequest_wf QuerySkippedEpochsRequest_enc QuerySkippedEpochsRequest_fields_enc QuerySkippedEpochsRequest_size QuerySkippedEpochsRequest_marshal QuerySkippedEpochsRequest_cases QuerySkippedEpochsRequest_append. Qed.
#[local] Hint Resolve inflation_QuerySkippedEpochsRequest_api_laws : api_laws.

Definition QuerySkippedEpochsResponse_wf (x : QuerySkippedEpochsResponse) : Prop := is_uint64 (QuerySkippedEpochsResponse_SkippedEpochs x) ∧ unknown_bytes [1] (QuerySkippedEpochsResponse_unknownFields x).
Definition QuerySkippedEpochsResponse_fields_enc (x : QuerySkippedEpochsResponse) : bytes :=
  enc_varint 0x8 (QuerySkippedEpochsResponse_SkippedEpochs x).
Definition QuerySkippedEpochsResponse_enc (x : QuerySkippedEpochsResponse) : bytes := QuerySkippedEpochsResponse_fields_enc x ++ QuerySkippedEpochsResponse_unknownFields x.
Lemma inflation_QuerySkippedEpochsResponse_api_laws : MethodLaws QuerySkippedEpochsResponse_methods QuerySkippedEpochsResponse_wf QuerySkippedEpochsResponse_enc.
Proof. api_message_laws QuerySkippedEpochsResponse_wf QuerySkippedEpochsResponse_enc QuerySkippedEpochsResponse_fields_enc QuerySkippedEpochsResponse_size QuerySkippedEpochsResponse_marshal QuerySkippedEpochsResponse_cases QuerySkippedEpochsResponse_append. Qed.
#[local] Hint Resolve inflation_QuerySkippedEpochsResponse_api_laws : api_laws.

Definition QueryCirculatingSupplyRequest_wf (x : QueryCirculatingSupplyRequest) : Prop := unknown_bytes [] (QueryCirculatingSupplyRequest_unknownFields x).
Definition QueryCirculatingSupplyRequest_fields_enc (x : QueryCirculatingSupplyRequest) : bytes :=
  [].
Definition QueryCirculatingSupplyRequest_enc (x : QueryCirculatingSupplyRequest) : bytes := QueryCirculatingSupplyRequest_fields_enc x ++ QueryCirculatingSupplyRequest_unknownFields x.
Lemma inflation_QueryCirculatingSupplyRequest_api_laws : MethodLaws QueryCirculatingSupplyRequest_methods QueryCirculatingSupplyRequest_wf QueryCirculatingSupplyRequest_enc.
Proof. api_message_laws QueryCirculatingSupplyRequest_wf QueryCirculatingSupplyRequest_enc QueryCirculatingSupplyRequest_fields_enc QueryCirculatingSupplyRequest_size QueryCirculatingSupplyRequest_marshal QueryCirculatingSupplyRequest_cases QueryCirculatingSupplyRequest_append. Qed.
#[local] Hint Resolve inflation_QueryCirculatingSupplyRequest_api_laws : api_laws.

Definition QueryCirculatingSupplyResponse_wf (x : QueryCirculatingSupplyResponse) : Prop := (∀ a, QueryCirculatingSupplyResponse_CirculatingSupply x = Some a -> api_DecCoin_wf a) ∧ unknown_bytes [1] (QueryCirculatingSupplyResponse_unknownFields x).
Definition QueryCirculatingSupplyResponse_fields_enc (x : QueryCirculatingSupplyResponse) : bytes :=
  enc_pointer api_DecCoin_enc 0xa (QueryCirculatingSupplyResponse_CirculatingSupply x).
Definition QueryCirculatingSupplyResponse_enc (x : QueryCirculatingSupplyResponse) : bytes := QueryCirculatingSupplyResponse_fields_enc x ++ QueryCirculatingSupplyResponse_unknownFields x.
Lemma inflation_QueryCirculatingSupplyResponse_api_laws : MethodLaws QueryCirculatingSupplyResponse_methods QueryCirculatingSupplyResponse_wf QueryCirculatingSupplyResponse_enc.
Proof. api_message_laws QueryCirculatingSupplyResponse_wf QueryCirculatingSupplyResponse_enc QueryCirculatingSupplyResponse_fields_enc QueryCirculatingSupplyResponse_size QueryCirculatingSupplyResponse_marshal QueryCirculatingSupplyResponse_cases QueryCirculatingSupplyResponse_append. Qed.
#[local] Hint Resolve inflation_QueryCirculatingSupplyResponse_api_laws : api_laws.

Definition QueryInflationRateRequest_wf (x : QueryInflationRateRequest) : Prop := unknown_bytes [] (QueryInflationRateRequest_unknownFields x).
Definition QueryInflationRateRequest_fields_enc (x : QueryInflationRateRequest) : bytes :=
  [].
Definition QueryInflationRateRequest_enc (x : QueryInflationRateRequest) : bytes := QueryInflationRateRequest_fields_enc x ++ QueryInflationRateRequest_unknownFields x.
Lemma inflation_QueryInflationRateRequest_api_laws : MethodLaws QueryInflationRateRequest_methods QueryInflationRateRequest_wf QueryInflationRateRequest_enc.
Proof. api_message_laws QueryInflationRateRequest_wf QueryInflationRateRequest_enc QueryInflationRateRequest_fields_enc QueryInflationRateRequest_size QueryInflationRateRequest_marshal QueryInflationRateRequest_cases QueryInflationRateRequest_append. Qed.
#[local] Hint Resolve inflation_QueryInflationRateRequest_api_laws : api_laws.

Definition QueryInflationRateResponse_wf (x : QueryInflationRateResponse) : Prop := unknown_bytes [1] (QueryInflationRateResponse_unknownFields x).
Definition QueryInflationRateResponse_fields_enc (x : QueryInflationRateResponse) : bytes :=
  enc_string 0xa (QueryInflationRateResponse_InflationRate x).
Definition QueryInflationRateResponse_enc (x : QueryInflationRateResponse) : bytes := QueryInflationRateResponse_fields_enc x ++ QueryInflationRateResponse_unknownFields x.
Lemma inflation_QueryInflationRateResponse_api_laws : MethodLaws QueryInflationRateResponse_methods QueryInflationRateResponse_wf QueryInflationRateResponse_enc.
Proof. api_message_laws QueryInflationRateResponse_wf QueryInflationRateResponse_enc QueryInflationRateResponse_fields_enc QueryInflationRateResponse_size QueryInflationRateResponse_marshal QueryInflationRateResponse_cases QueryInflationRateResponse_append. Qed.
#[local] Hint Resolve inflation_QueryInflationRateResponse_api_laws : api_laws.

Definition QueryParamsRequest_wf (x : QueryParamsRequest) : Prop := unknown_bytes [] (QueryParamsRequest_unknownFields x).
Definition QueryParamsRequest_fields_enc (x : QueryParamsRequest) : bytes :=
  [].
Definition QueryParamsRequest_enc (x : QueryParamsRequest) : bytes := QueryParamsRequest_fields_enc x ++ QueryParamsRequest_unknownFields x.
Lemma inflation_QueryParamsRequest_api_laws : MethodLaws QueryParamsRequest_methods QueryParamsRequest_wf QueryParamsRequest_enc.
Proof. api_message_laws QueryParamsRequest_wf QueryParamsRequest_enc QueryParamsRequest_fields_enc QueryParamsRequest_size QueryParamsRequest_marshal QueryParamsRequest_cases QueryParamsRequest_append. Qed.
#[local] Hint Resolve inflation_QueryParamsRequest_api_laws : api_laws.

Definition QueryParamsResponse_wf (x : QueryParamsResponse) : Prop := (∀ a, QueryParamsResponse_Params x = Some a -> Params_wf a) ∧ unknown_bytes [1] (QueryParamsResponse_unknownFields x).
Definition QueryParamsResponse_fields_enc (x : QueryParamsResponse) : bytes :=
  enc_pointer Params_enc 0xa (QueryParamsResponse_Params x).
Definition QueryParamsResponse_enc (x : QueryParamsResponse) : bytes := QueryParamsResponse_fields_enc x ++ QueryParamsResponse_unknownFields x.
Lemma inflation_QueryParamsResponse_api_laws : MethodLaws QueryParamsResponse_methods QueryParamsResponse_wf QueryParamsResponse_enc.
Proof. api_message_laws QueryParamsResponse_wf QueryParamsResponse_enc QueryParamsResponse_fields_enc QueryParamsResponse_size QueryParamsResponse_marshal QueryParamsResponse_cases QueryParamsResponse_append. Qed.
#[local] Hint Resolve inflation_QueryParamsResponse_api_laws : api_laws.

Definition MsgUpdateParams_wf (x : MsgUpdateParams) : Prop := (∀ a, MsgUpdateParams_Params x = Some a -> Params_wf a) ∧ unknown_bytes [1; 2] (MsgUpdateParams_unknownFields x).
Definition MsgUpdateParams_fields_enc (x : MsgUpdateParams) : bytes :=
  enc_string 0xa (MsgUpdateParams_Authority x) ++
  enc_pointer Params_enc 0x12 (MsgUpdateParams_Params x).
Definition MsgUpdateParams_enc (x : MsgUpdateParams) : bytes := MsgUpdateParams_fields_enc x ++ MsgUpdateParams_unknownFields x.
Lemma inflation_MsgUpdateParams_api_laws : MethodLaws MsgUpdateParams_methods MsgUpdateParams_wf MsgUpdateParams_enc.
Proof. api_message_laws MsgUpdateParams_wf MsgUpdateParams_enc MsgUpdateParams_fields_enc MsgUpdateParams_size MsgUpdateParams_marshal MsgUpdateParams_cases MsgUpdateParams_append. Qed.
#[local] Hint Resolve inflation_MsgUpdateParams_api_laws : api_laws.

Definition MsgUpdateParamsResponse_wf (x : MsgUpdateParamsResponse) : Prop := unknown_bytes [] (MsgUpdateParamsResponse_unknownFields x).
Definition MsgUpdateParamsResponse_fields_enc (x : MsgUpdateParamsResponse) : bytes :=
  [].
Definition MsgUpdateParamsResponse_enc (x : MsgUpdateParamsResponse) : bytes := MsgUpdateParamsResponse_fields_enc x ++ MsgUpdateParamsResponse_unknownFields x.
Lemma inflation_MsgUpdateParamsResponse_api_laws : MethodLaws MsgUpdateParamsResponse_methods MsgUpdateParamsResponse_wf MsgUpdateParamsResponse_enc.
Proof. api_message_laws MsgUpdateParamsResponse_wf MsgUpdateParamsResponse_enc MsgUpdateParamsResponse_fields_enc MsgUpdateParamsResponse_size MsgUpdateParamsResponse_marshal MsgUpdateParamsResponse_cases MsgUpdateParamsResponse_append. Qed.
#[local] Hint Resolve inflation_MsgUpdateParamsResponse_api_laws : api_laws.

(** Messages are read back, with the fields they do not know, and no input makes decoding panic. *)
Definition api_round_trips : Prop :=
  read_back InflationDistribution_methods InflationDistribution_wf InflationDistribution_enc ∧
  read_back ExponentialCalculation_methods ExponentialCalculation_wf ExponentialCalculation_enc ∧
  read_back Params_methods Params_wf Params_enc ∧
  read_back GenesisState_methods GenesisState_wf GenesisState_enc ∧
  read_back QueryPeriodRequest_methods QueryPeriodRequest_wf QueryPeriodRequest_enc ∧
  read_back QueryPeriodResponse_methods QueryPeriodResponse_wf QueryPeriodResponse_enc ∧
  read_back QueryEpochMintProvisionRequest_methods QueryEpochMintProvisionRequest_wf QueryEpochMintProvisionRequest_enc ∧
  read_back QueryEpochMintProvisionResponse_methods QueryEpochMintProvisionResponse_wf QueryEpochMintProvisionResponse_enc ∧
  read_back QuerySkippedEpochsRequest_methods QuerySkippedEpochsRequest_wf QuerySkippedEpochsRequest_enc ∧
  read_back QuerySkippedEpochsResponse_methods QuerySkippedEpochsResponse_wf QuerySkippedEpochsResponse_enc ∧
  read_back QueryCirculatingSupplyRequest_methods QueryCirculatingSupplyRequest_wf QueryCirculatingSupplyRequest_enc ∧
  read_back QueryCirculatingSupplyResponse_methods QueryCirculatingSupplyResponse_wf QueryCirculatingSupplyResponse_enc ∧
  read_back QueryInflationRateRequest_methods QueryInflationRateRequest_wf QueryInflationRateRequest_enc ∧
  read_back QueryInflationRateResponse_methods QueryInflationRateResponse_wf QueryInflationRateResponse_enc ∧
  read_back QueryParamsRequest_methods QueryParamsRequest_wf QueryParamsRequest_enc ∧
  read_back QueryParamsResponse_methods QueryParamsResponse_wf QueryParamsResponse_enc ∧
  read_back MsgUpdateParams_methods MsgUpdateParams_wf MsgUpdateParams_enc ∧
  read_back MsgUpdateParamsResponse_methods MsgUpdateParamsResponse_wf MsgUpdateParamsResponse_enc.
Lemma inflation_api_round_trips : api_round_trips.
Proof. unfold api_round_trips. split_and!; eapply laws_read_back; api_law. Qed.

(** ** Reflection *)

(** The messages that occur in messages, and the conversions to them. *)
Inductive Msg :=
| Msg_ExponentialCalculation (x : option ExponentialCalculation)
| Msg_InflationDistribution (x : option InflationDistribution)
| Msg_Params (x : option Params)
| Msg_api_DecCoin (x : option api_DecCoin).
Definition to_ExponentialCalculation (m : Msg) : outcome (option ExponentialCalculation) := if m is Msg_ExponentialCalculation x then Ok x else Panic.
Definition to_InflationDistribution (m : Msg) : outcome (option InflationDistribution) := if m is Msg_InflationDistribution x then Ok x else Panic.
Definition to_Params (m : Msg) : outcome (option Params) := if m is Msg_Params x then Ok x else Panic.
Definition to_api_DecCoin (m : Msg) : outcome (option api_DecCoin) := if m is Msg_api_DecCoin x then Ok x else Panic.

Definition Lst : Type := Empty_set.
Abbreviation V := (Value Msg Lst).


Definition fastReflection_InflationDistribution_fields : list (Field InflationDistribution V) :=
  [string_field "canto.inflation.v1.InflationDistribution.staking_rewards" InflationDistribution_StakingRewards
     (fun v x => let '(mkInflationDistribution _ communityPool_ unknown) := x in mkInflationDistribution v communityPool_ unknown);
   string_field "canto.inflation.v1.InflationDistribution.community_pool" InflationDistribution_CommunityPool
     (fun v x => let '(mkInflationDistribution stakingRewards_ _ unknown) := x in mkInflationDistribution stakingRewards_ v unknown)].
Definition fastReflection_InflationDistribution_Range {S} := reflect_Range (S := S) fastReflection_InflationDistribution_fields.
Definition fastReflection_InflationDistribution_Has := reflect_Has fastReflection_InflationDistribution_fields.
Definition fastReflection_InflationDistribution_Clear := reflect_Clear fastReflection_InflationDistribution_fields.
Definition fastReflection_InflationDistribution_Get := reflect_Get fastReflection_InflationDistribution_fields.
Definition fastReflection_InflationDistribution_Set := reflect_Set fastReflection_InflationDistribution_fields.
Definition fastReflection_InflationDistribution_Mutable := reflect_Mutable fastReflection_InflationDistribution_fields.
Definition fastReflection_InflationDistribution_NewField := reflect_NewField fastReflection_InflationDistribution_fields.
Definition fastReflection_InflationDistribution_SetUnknown (fields : bytes) (x : InflationDistribution) : InflationDistribution := let '(mkInflationDistribution stakingRewards_ communityPool_ _) := x in mkInflationDistribution stakingRewards_ communityPool_ fields.

Definition fastReflection_ExponentialCalculation_fields : list (Field ExponentialCalculation V) :=
  [string_field "canto.inflation.v1.ExponentialCalculation.a" ExponentialCalculation_A
     (fun v x => let '(mkExponentialCalculation _ r_ c_ bondingTarget_ maxVariance_ unknown) := x in mkExponentialCalculation v r_ c_ bondingTarget_ maxVariance_ unknown);
   string_field "canto.inflation.v1.ExponentialCalculation.r" ExponentialCalculation_R
     (fun v x => let '(mkExponentialCalculation a_ _ c_ bondingTarget_ maxVariance_ unknown) := x in mkExponentialCalculation a_ v c_ bondingTarget_ maxVariance_ unknown);
   string_field "canto.inflation.v1.ExponentialCalculation.c" ExponentialCalculation_C
     (fun v x => let '(mkExponentialCalculation a_ r_ _ bondingTarget_ maxVariance_ unknown) := x in mkExponentialCalculation a_ r_ v bondingTarget_ maxVariance_ unknown);
   string_field "canto.inflation.v1.ExponentialCalculation.bonding_target" ExponentialCalculation_BondingTarget
     (fun v x => let '(mkExponentialCalculation a_ r_ c_ _ maxVariance_ unknown) := x in mkExponentialCalculation a_ r_ c_ v maxVariance_ unknown);
   string_field "canto.inflation.v1.ExponentialCalculation.max_variance" ExponentialCalculation_MaxVariance
     (fun v x => let '(mkExponentialCalculation a_ r_ c_ bondingTarget_ _ unknown) := x in mkExponentialCalculation a_ r_ c_ bondingTarget_ v unknown)].
Definition fastReflection_ExponentialCalculation_Range {S} := reflect_Range (S := S) fastReflection_ExponentialCalculation_fields.
Definition fastReflection_ExponentialCalculation_Has := reflect_Has fastReflection_ExponentialCalculation_fields.
Definition fastReflection_ExponentialCalculation_Clear := reflect_Clear fastReflection_ExponentialCalculation_fields.
Definition fastReflection_ExponentialCalculation_Get := reflect_Get fastReflection_ExponentialCalculation_fields.
Definition fastReflection_ExponentialCalculation_Set := reflect_Set fastReflection_ExponentialCalculation_fields.
Definition fastReflection_ExponentialCalculation_Mutable := reflect_Mutable fastReflection_ExponentialCalculation_fields.
Definition fastReflection_ExponentialCalculation_NewField := reflect_NewField fastReflection_ExponentialCalculation_fields.
Definition fastReflection_ExponentialCalculation_SetUnknown (fields : bytes) (x : ExponentialCalculation) : ExponentialCalculation := let '(mkExponentialCalculation a_ r_ c_ bondingTarget_ maxVariance_ _) := x in mkExponentialCalculation a_ r_ c_ bondingTarget_ maxVariance_ fields.

Definition fastReflection_Params_fields : list (Field Params V) :=
  [string_field "canto.inflation.v1.Params.mint_denom" Params_MintDenom
     (fun v x => let '(mkParams _ exponentialCalculation_ inflationDistribution_ enableInflation_ unknown) := x in mkParams v exponentialCalculation_ inflationDistribution_ enableInflation_ unknown);
   message_field (new ExponentialCalculation_methods) Msg_ExponentialCalculation to_ExponentialCalculation "canto.inflation.v1.Params.exponential_calculation" Params_ExponentialCalculation
     (fun v x => let '(mkParams mintDenom_ _ inflationDistribution_ enableInflation_ unknown) := x in mkParams mintDenom_ v inflationDistribution_ enableInflation_ unknown);
   message_field (new InflationDistribution_methods) Msg_InflationDistribution to_InflationDistribution "canto.inflation.v1.Params.inflation_distribution" Params_InflationDistribution
     (fun v x => let '(mkParams mintDenom_ exponentialCalculation_ _ enableInflation_ unknown) := x in mkParams mintDenom_ exponentialCalculation_ v enableInflation_ unknown);
   bool_field "canto.inflation.v1.Params.enable_inflation" Params_EnableInflation
     (fun v x => let '(mkParams mintDenom_ exponentialCalculation_ inflationDistribution_ _ unknown) := x in mkParams mintDenom_ exponentialCalculation_ inflationDistribution_ v unknown)].
Definition fastReflection_Params_Range {S} := reflect_Range (S := S) fastReflection_Params_fields.
Definition fastReflection_Params_Has := reflect_Has fastReflection_Params_fields.
Definition fastReflection_Params_Clear := reflect_Clear fastReflection_Params_fields.
Definition fastReflection_Params_Get := reflect_Get fastReflection_Params_fields.
Definition fastReflection_Params_Set := reflect_Set fastReflection_Params_fields.
Definition fastReflection_Params_Mutable := reflect_Mutable fastReflection_Params_fields.
Definition fastReflection_Params_NewField := reflect_NewField fastReflection_Params_fields.
Definition fastReflection_Params_SetUnknown (fields : bytes) (x : Params) : Params := let '(mkParams mintDenom_ exponentialCalculation_ inflationDistribution_ enableInflation_ _) := x in mkParams mintDenom_ exponentialCalculation_ inflationDistribution_ enableInflation_ fields.

Definition fastReflection_GenesisState_fields : list (Field GenesisState V) :=
  [message_field (new Params_methods) Msg_Params to_Params "canto.inflation.v1.GenesisState.params" GenesisState_Params
     (fun v x => let '(mkGenesisState _ period_ epochIdentifier_ epochsPerPeriod_ skippedEpochs_ unknown) := x in mkGenesisState v period_ epochIdentifier_ epochsPerPeriod_ skippedEpochs_ unknown);
   uint64_field "canto.inflation.v1.GenesisState.period" GenesisState_Period
     (fun v x => let '(mkGenesisState params_ _ epochIdentifier_ epochsPerPeriod_ skippedEpochs_ unknown) := x in mkGenesisState params_ v epochIdentifier_ epochsPerPeriod_ skippedEpochs_ unknown);
   string_field "canto.inflation.v1.GenesisState.epoch_identifier" GenesisState_EpochIdentifier
     (fun v x => let '(mkGenesisState params_ period_ _ epochsPerPeriod_ skippedEpochs_ unknown) := x in mkGenesisState params_ period_ v epochsPerPeriod_ skippedEpochs_ unknown);
   int64_field "canto.inflation.v1.GenesisState.epochs_per_period" GenesisState_EpochsPerPeriod
     (fun v x => let '(mkGenesisState params_ period_ epochIdentifier_ _ skippedEpochs_ unknown) := x in mkGenesisState params_ period_ epochIdentifier_ v skippedEpochs_ unknown);
   uint64_field "canto.inflation.v1.GenesisState.skipped_epochs" GenesisState_SkippedEpochs
     (fun v x => let '(mkGenesisState params_ period_ epochIdentifier_ epochsPerPeriod_ _ unknown) := x in mkGenesisState params_ period_ epochIdentifier_ epochsPerPeriod_ v unknown)].
Definition fastReflection_GenesisState_Range {S} := reflect_Range (S := S) fastReflection_GenesisState_fields.
Definition fastReflection_GenesisState_Has := reflect_Has fastReflection_GenesisState_fields.
Definition fastReflection_GenesisState_Clear := reflect_Clear fastReflection_GenesisState_fields.
Definition fastReflection_GenesisState_Get := reflect_Get fastReflection_GenesisState_fields.
Definition fastReflection_GenesisState_Set := reflect_Set fastReflection_GenesisState_fields.
Definition fastReflection_GenesisState_Mutable := reflect_Mutable fastReflection_GenesisState_fields.
Definition fastReflection_GenesisState_NewField := reflect_NewField fastReflection_GenesisState_fields.
Definition fastReflection_GenesisState_SetUnknown (fields : bytes) (x : GenesisState) : GenesisState := let '(mkGenesisState params_ period_ epochIdentifier_ epochsPerPeriod_ skippedEpochs_ _) := x in mkGenesisState params_ period_ epochIdentifier_ epochsPerPeriod_ skippedEpochs_ fields.

Definition fastReflection_QueryPeriodRequest_fields : list (Field QueryPeriodRequest V) :=
  [].
Definition fastReflection_QueryPeriodRequest_Range {S} := reflect_Range (S := S) fastReflection_QueryPeriodRequest_fields.
Definition fastReflection_QueryPeriodRequest_Has := reflect_Has fastReflection_QueryPeriodRequest_fields.
Definition fastReflection_QueryPeriodRequest_Clear := reflect_Clear fastReflection_QueryPeriodRequest_fields.
Definition fastReflection_QueryPeriodRequest_Get := reflect_Get fastReflection_QueryPeriodRequest_fields.
Definition fastReflection_QueryPeriodRequest_Set := reflect_Set fastReflection_QueryPeriodRequest_fields.
Definition fastReflection_QueryPeriodRequest_Mutable := reflect_Mutable fastReflection_QueryPeriodRequest_fields.
Definition fastReflection_QueryPeriodRequest_NewField := reflect_NewField fastReflection_QueryPeriodRequest_fields.
Definition fastReflection_QueryPeriodRequest_SetUnknown (fields : bytes) (x : QueryPeriodRequest) : QueryPeriodRequest := let '(mkQueryPeriodRequest _) := x in mkQueryPeriodRequest fields.

Definition fastReflection_QueryPeriodResponse_fields : list (Field QueryPeriodResponse V) :=
  [uint64_field "canto.inflation.v1.QueryPeriodResponse.period" QueryPeriodResponse_Period
     (fun v x => let '(mkQueryPeriodResponse _ unknown) := x in mkQueryPeriodResponse v unknown)].
Definition fastReflection_QueryPeriodResponse_Range {S} := reflect_Range (S := S) fastReflection_QueryPeriodResponse_fields.
Definition fastReflection_QueryPeriodResponse_Has := reflect_Has fastReflection_QueryPeriodResponse_fields.
Definition fastReflection_QueryPeriodResponse_Clear := reflect_Clear fastReflection_QueryPeriodResponse_fields.
Definition fastReflection_QueryPeriodResponse_Get := reflect_Get fastReflection_QueryPeriodResponse_fields.
Definition fastReflection_QueryPeriodResponse_Set := reflect_Set fastReflection_QueryPeriodResponse_fields.
Definition fastReflection_QueryPeriodResponse_Mutable := reflect_Mutable fastReflection_QueryPeriodResponse_fields.
Definition fastReflection_QueryPeriodResponse_NewField := reflect_NewField fastReflection_QueryPeriodResponse_fields.
Definition fastReflection_QueryPeriodResponse_SetUnknown (fields : bytes) (x : QueryPeriodResponse) : QueryPeriodResponse := let '(mkQueryPeriodResponse period_ _) := x in mkQueryPeriodResponse period_ fields.

Definition fastReflection_QueryEpochMintProvisionRequest_fields : list (Field QueryEpochMintProvisionRequest V) :=
  [].
Definition fastReflection_QueryEpochMintProvisionRequest_Range {S} := reflect_Range (S := S) fastReflection_QueryEpochMintProvisionRequest_fields.
Definition fastReflection_QueryEpochMintProvisionRequest_Has := reflect_Has fastReflection_QueryEpochMintProvisionRequest_fields.
Definition fastReflection_QueryEpochMintProvisionRequest_Clear := reflect_Clear fastReflection_QueryEpochMintProvisionRequest_fields.
Definition fastReflection_QueryEpochMintProvisionRequest_Get := reflect_Get fastReflection_QueryEpochMintProvisionRequest_fields.
Definition fastReflection_QueryEpochMintProvisionRequest_Set := reflect_Set fastReflection_QueryEpochMintProvisionRequest_fields.
Definition fastReflection_QueryEpochMintProvisionRequest_Mutable := reflect_Mutable fastReflection_QueryEpochMintProvisionRequest_fields.
Definition fastReflection_QueryEpochMintProvisionRequest_NewField := reflect_NewField fastReflection_QueryEpochMintProvisionRequest_fields.
Definition fastReflection_QueryEpochMintProvisionRequest_SetUnknown (fields : bytes) (x : QueryEpochMintProvisionRequest) : QueryEpochMintProvisionRequest := let '(mkQueryEpochMintProvisionRequest _) := x in mkQueryEpochMintProvisionRequest fields.

Definition fastReflection_QueryEpochMintProvisionResponse_fields : list (Field QueryEpochMintProvisionResponse V) :=
  [message_field (new api_DecCoin_methods) Msg_api_DecCoin to_api_DecCoin "canto.inflation.v1.QueryEpochMintProvisionResponse.epoch_mint_provision" QueryEpochMintProvisionResponse_EpochMintProvision
     (fun v x => let '(mkQueryEpochMintProvisionResponse _ unknown) := x in mkQueryEpochMintProvisionResponse v unknown)].
Definition fastReflection_QueryEpochMintProvisionResponse_Range {S} := reflect_Range (S := S) fastReflection_QueryEpochMintProvisionResponse_fields.
Definition fastReflection_QueryEpochMintProvisionResponse_Has := reflect_Has fastReflection_QueryEpochMintProvisionResponse_fields.
Definition fastReflection_QueryEpochMintProvisionResponse_Clear := reflect_Clear fastReflection_QueryEpochMintProvisionResponse_fields.
Definition fastReflection_QueryEpochMintProvisionResponse_Get := reflect_Get fastReflection_QueryEpochMintProvisionResponse_fields.
Definition fastReflection_QueryEpochMintProvisionResponse_Set := reflect_Set fastReflection_QueryEpochMintProvisionResponse_fields.
Definition fastReflection_QueryEpochMintProvisionResponse_Mutable := reflect_Mutable fastReflection_QueryEpochMintProvisionResponse_fields.
Definition fastReflection_QueryEpochMintProvisionResponse_NewField := reflect_NewField fastReflection_QueryEpochMintProvisionResponse_fields.
Definition fastReflection_QueryEpochMintProvisionResponse_SetUnknown (fields : bytes) (x : QueryEpochMintProvisionResponse) : QueryEpochMintProvisionResponse := let '(mkQueryEpochMintProvisionResponse epochMintProvision_ _) := x in mkQueryEpochMintProvisionResponse epochMintProvision_ fields.

Definition fastReflection_QuerySkippedEpochsRequest_fields : list (Field QuerySkippedEpochsRequest V) :=
  [].
Definition fastReflection_QuerySkippedEpochsRequest_Range {S} := reflect_Range (S := S) fastReflection_QuerySkippedEpochsRequest_fields.
Definition fastReflection_QuerySkippedEpochsRequest_Has := reflect_Has fastReflection_QuerySkippedEpochsRequest_fields.
Definition fastReflection_QuerySkippedEpochsRequest_Clear := reflect_Clear fastReflection_QuerySkippedEpochsRequest_fields.
Definition fastReflection_QuerySkippedEpochsRequest_Get := reflect_Get fastReflection_QuerySkippedEpochsRequest_fields.
Definition fastReflection_QuerySkippedEpochsRequest_Set := reflect_Set fastReflection_QuerySkippedEpochsRequest_fields.
Definition fastReflection_QuerySkippedEpochsRequest_Mutable := reflect_Mutable fastReflection_QuerySkippedEpochsRequest_fields.
Definition fastReflection_QuerySkippedEpochsRequest_NewField := reflect_NewField fastReflection_QuerySkippedEpochsRequest_fields.
Definition fastReflection_QuerySkippedEpochsRequest_SetUnknown (fields : bytes) (x : QuerySkippedEpochsRequest) : QuerySkippedEpochsRequest := let '(mkQuerySkippedEpochsRequest _) := x in mkQuerySkippedEpochsRequest fields.

Definition fastReflection_QuerySkippedEpochsResponse_fields : list (Field QuerySkippedEpochsResponse V) :=
  [uint64_field "canto.inflation.v1.QuerySkippedEpochsResponse.skipped_epochs" QuerySkippedEpochsResponse_SkippedEpochs
     (fun v x => let '(mkQuerySkippedEpochsResponse _ unknown) := x in mkQuerySkippedEpochsResponse v unknown)].
Definition fastReflection_QuerySkippedEpochsResponse_Range {S} := reflect_Range (S := S) fastReflection_QuerySkippedEpochsResponse_fields.
Definition fastReflection_QuerySkippedEpochsResponse_Has := reflect_Has fastReflection_QuerySkippedEpochsResponse_fields.
Definition fastReflection_QuerySkippedEpochsResponse_Clear := reflect_Clear fastReflection_QuerySkippedEpochsResponse_fields.
Definition fastReflection_QuerySkippedEpochsResponse_Get := reflect_Get fastReflection_QuerySkippedEpochsResponse_fields.
Definition fastReflection_QuerySkippedEpochsResponse_Set := reflect_Set fastReflection_QuerySkippedEpochsResponse_fields.
Definition fastReflection_QuerySkippedEpochsResponse_Mutable := reflect_Mutable fastReflection_QuerySkippedEpochsResponse_fields.
Definition fastReflection_QuerySkippedEpochsResponse_NewField := reflect_NewField fastReflection_QuerySkippedEpochsResponse_fields.
Definition fastReflection_QuerySkippedEpochsResponse_SetUnknown (fields : bytes) (x : QuerySkippedEpochsResponse) : QuerySkippedEpochsResponse := let '(mkQuerySkippedEpochsResponse skippedEpochs_ _) := x in mkQuerySkippedEpochsResponse skippedEpochs_ fields.

Definition fastReflection_QueryCirculatingSupplyRequest_fields : list (Field QueryCirculatingSupplyRequest V) :=
  [].
Definition fastReflection_QueryCirculatingSupplyRequest_Range {S} := reflect_Range (S := S) fastReflection_QueryCirculatingSupplyRequest_fields.
Definition fastReflection_QueryCirculatingSupplyRequest_Has := reflect_Has fastReflection_QueryCirculatingSupplyRequest_fields.
Definition fastReflection_QueryCirculatingSupplyRequest_Clear := reflect_Clear fastReflection_QueryCirculatingSupplyRequest_fields.
Definition fastReflection_QueryCirculatingSupplyRequest_Get := reflect_Get fastReflection_QueryCirculatingSupplyRequest_fields.
Definition fastReflection_QueryCirculatingSupplyRequest_Set := reflect_Set fastReflection_QueryCirculatingSupplyRequest_fields.
Definition fastReflection_QueryCirculatingSupplyRequest_Mutable := reflect_Mutable fastReflection_QueryCirculatingSupplyRequest_fields.
Definition fastReflection_QueryCirculatingSupplyRequest_NewField := reflect_NewField fastReflection_QueryCirculatingSupplyRequest_fields.
Definition fastReflection_QueryCirculatingSupplyRequest_SetUnknown (fields : bytes) (x : QueryCirculatingSupplyRequest) : QueryCirculatingSupplyRequest := let '(mkQueryCirculatingSupplyRequest _) := x in mkQueryCirculatingSupplyRequest fields.

Definition fastReflection_QueryCirculatingSupplyResponse_fields : list (Field QueryCirculatingSupplyResponse V) :=
  [message_field (new api_DecCoin_methods) Msg_api_DecCoin to_api_DecCoin "canto.inflation.v1.QueryCirculatingSupplyResponse.circulating_supply" QueryCirculatingSupplyResponse_CirculatingSupply
     (fun v x => let '(mkQueryCirculatingSupplyResponse _ unknown) := x in mkQueryCirculatingSupplyResponse v unknown)].
Definition fastReflection_QueryCirculatingSupplyResponse_Range {S} := reflect_Range (S := S) fastReflection_QueryCirculatingSupplyResponse_fields.
Definition fastReflection_QueryCirculatingSupplyResponse_Has := reflect_Has fastReflection_QueryCirculatingSupplyResponse_fields.
Definition fastReflection_QueryCirculatingSupplyResponse_Clear := reflect_Clear fastReflection_QueryCirculatingSupplyResponse_fields.
Definition fastReflection_QueryCirculatingSupplyResponse_Get := reflect_Get fastReflection_QueryCirculatingSupplyResponse_fields.
Definition fastReflection_QueryCirculatingSupplyResponse_Set := reflect_Set fastReflection_QueryCirculatingSupplyResponse_fields.
Definition fastReflection_QueryCirculatingSupplyResponse_Mutable := reflect_Mutable fastReflection_QueryCirculatingSupplyResponse_fields.
Definition fastReflection_QueryCirculatingSupplyResponse_NewField := reflect_NewField fastReflection_QueryCirculatingSupplyResponse_fields.
Definition fastReflection_QueryCirculatingSupplyResponse_SetUnknown (fields : bytes) (x : QueryCirculatingSupplyResponse) : QueryCirculatingSupplyResponse := let '(mkQueryCirculatingSupplyResponse circulatingSupply_ _) := x in mkQueryCirculatingSupplyResponse circulatingSupply_ fields.

Definition fastReflection_QueryInflationRateRequest_fields : list (Field QueryInflationRateRequest V) :=
  [].
Definition fastReflection_QueryInflationRateRequest_Range {S} := reflect_Range (S := S) fastReflection_QueryInflationRateRequest_fields.
Definition fastReflection_QueryInflationRateRequest_Has := reflect_Has fastReflection_QueryInflationRateRequest_fields.
Definition fastReflection_QueryInflationRateRequest_Clear := reflect_Clear fastReflection_QueryInflationRateRequest_fields.
Definition fastReflection_QueryInflationRateRequest_Get := reflect_Get fastReflection_QueryInflationRateRequest_fields.
Definition fastReflection_QueryInflationRateRequest_Set := reflect_Set fastReflection_QueryInflationRateRequest_fields.
Definition fastReflection_QueryInflationRateRequest_Mutable := reflect_Mutable fastReflection_QueryInflationRateRequest_fields.
Definition fastReflection_QueryInflationRateRequest_NewField := reflect_NewField fastReflection_QueryInflationRateRequest_fields.
Definition fastReflection_QueryInflationRateRequest_SetUnknown (fields : bytes) (x : QueryInflationRateRequest) : QueryInflationRateRequest := let '(mkQueryInflationRateRequest _) := x in mkQueryInflationRateRequest fields.

Definition fastReflection_QueryInflationRateResponse_fields : list (Field QueryInflationRateResponse V) :=
  [string_field "canto.inflation.v1.QueryInflationRateResponse.inflation_rate" QueryInflationRateResponse_InflationRate
     (fun v x => let '(mkQueryInflationRateResponse _ unknown) := x in mkQueryInflationRateResponse v unknown)].
Definition fastReflection_QueryInflationRateResponse_Range {S} := reflect_Range (S := S) fastReflection_QueryInflationRateResponse_fields.
Definition fastReflection_QueryInflationRateResponse_Has := reflect_Has fastReflection_QueryInflationRateResponse_fields.
Definition fastReflection_QueryInflationRateResponse_Clear := reflect_Clear fastReflection_QueryInflationRateResponse_fields.
Definition fastReflection_QueryInflationRateResponse_Get := reflect_Get fastReflection_QueryInflationRateResponse_fields.
Definition fastReflection_QueryInflationRateResponse_Set := reflect_Set fastReflection_QueryInflationRateResponse_fields.
Definition fastReflection_QueryInflationRateResponse_Mutable := reflect_Mutable fastReflection_QueryInflationRateResponse_fields.
Definition fastReflection_QueryInflationRateResponse_NewField := reflect_NewField fastReflection_QueryInflationRateResponse_fields.
Definition fastReflection_QueryInflationRateResponse_SetUnknown (fields : bytes) (x : QueryInflationRateResponse) : QueryInflationRateResponse := let '(mkQueryInflationRateResponse inflationRate_ _) := x in mkQueryInflationRateResponse inflationRate_ fields.

Definition fastReflection_QueryParamsRequest_fields : list (Field QueryParamsRequest V) :=
  [].
Definition fastReflection_QueryParamsRequest_Range {S} := reflect_Range (S := S) fastReflection_QueryParamsRequest_fields.
Definition fastReflection_QueryParamsRequest_Has := reflect_Has fastReflection_QueryParamsRequest_fields.
Definition fastReflection_QueryParamsRequest_Clear := reflect_Clear fastReflection_QueryParamsRequest_fields.
Definition fastReflection_QueryParamsRequest_Get := reflect_Get fastReflection_QueryParamsRequest_fields.
Definition fastReflection_QueryParamsRequest_Set := reflect_Set fastReflection_QueryParamsRequest_fields.
Definition fastReflection_QueryParamsRequest_Mutable := reflect_Mutable fastReflection_QueryParamsRequest_fields.
Definition fastReflection_QueryParamsRequest_NewField := reflect_NewField fastReflection_QueryParamsRequest_fields.
Definition fastReflection_QueryParamsRequest_SetUnknown (fields : bytes) (x : QueryParamsRequest) : QueryParamsRequest := let '(mkQueryParamsRequest _) := x in mkQueryParamsRequest fields.

Definition fastReflection_QueryParamsResponse_fields : list (Field QueryParamsResponse V) :=
  [message_field (new Params_methods) Msg_Params to_Params "canto.inflation.v1.QueryParamsResponse.params" QueryParamsResponse_Params
     (fun v x => let '(mkQueryParamsResponse _ unknown) := x in mkQueryParamsResponse v unknown)].
Definition fastReflection_QueryParamsResponse_Range {S} := reflect_Range (S := S) fastReflection_QueryParamsResponse_fields.
Definition fastReflection_QueryParamsResponse_Has := reflect_Has fastReflection_QueryParamsResponse_fields.
Definition fastReflection_QueryParamsResponse_Clear := reflect_Clear fastReflection_QueryParamsResponse_fields.
Definition fastReflection_QueryParamsResponse_Get := reflect_Get fastReflection_QueryParamsResponse_fields.
Definition fastReflection_QueryParamsResponse_Set := reflect_Set fastReflection_QueryParamsResponse_fields.
Definition fastReflection_QueryParamsResponse_Mutable := reflect_Mutable fastReflection_QueryParamsResponse_fields.
Definition fastReflection_QueryParamsResponse_NewField := reflect_NewField fastReflection_QueryParamsResponse_fields.
Definition fastReflection_QueryParamsResponse_SetUnknown (fields : bytes) (x : QueryParamsResponse) : QueryParamsResponse := let '(mkQueryParamsResponse params_ _) := x in mkQueryParamsResponse params_ fields.

Definition fastReflection_MsgUpdateParams_fields : list (Field MsgUpdateParams V) :=
  [string_field "canto.inflation.v1.MsgUpdateParams.authority" MsgUpdateParams_Authority
     (fun v x => let '(mkMsgUpdateParams _ params_ unknown) := x in mkMsgUpdateParams v params_ unknown);
   message_field (new Params_methods) Msg_Params to_Params "canto.inflation.v1.MsgUpdateParams.params" MsgUpdateParams_Params
     (fun v x => let '(mkMsgUpdateParams authority_ _ unknown) := x in mkMsgUpdateParams authority_ v unknown)].
Definition fastReflection_MsgUpdateParams_Range {S} := reflect_Range (S := S) fastReflection_MsgUpdateParams_fields.
Definition fastReflection_MsgUpdateParams_Has := reflect_Has fastReflection_MsgUpdateParams_fields.
Definition fastReflection_MsgUpdateParams_Clear := reflect_Clear fastReflection_MsgUpdateParams_fields.
Definition fastReflection_MsgUpdateParams_Get := reflect_Get fastReflection_MsgUpdateParams_fields.
Definition fastReflection_MsgUpdateParams_Set := reflect_Set fastReflection_MsgUpdateParams_fields.
Definition fastReflection_MsgUpdateParams_Mutable := reflect_Mutable fastReflection_MsgUpdateParams_fields.
Definition fastReflection_MsgUpdateParams_NewField := reflect_NewField fastReflection_MsgUpdateParams_fields.
Definition fastReflection_MsgUpdateParams_SetUnknown (fields : bytes) (x : MsgUpdateParams) : MsgUpdateParams := let '(mkMsgUpdateParams authority_ params_ _) := x in mkMsgUpdateParams authority_ params_ fields.

Definition fastReflection_MsgUpdateParamsResponse_fields : list (Field MsgUpdateParamsResponse V) :=
  [].
Definition fastReflection_MsgUpdateParamsResponse_Range {S} := reflect_Range (S := S) fastReflection_MsgUpdateParamsResponse_fields.
Definition fastReflection_MsgUpdateParamsResponse_Has := reflect_Has fastReflection_MsgUpdateParamsResponse_fields.
Definition fastReflection_MsgUpdateParamsResponse_Clear := reflect_Clear fastReflection_MsgUpdateParamsResponse_fields.
Definition fastReflection_MsgUpdateParamsResponse_Get := reflect_Get fastReflection_MsgUpdateParamsResponse_fields.
Definition fastReflection_MsgUpdateParamsResponse_Set := reflect_Set fastReflection_MsgUpdateParamsResponse_fields.
Definition fastReflection_MsgUpdateParamsResponse_Mutable := reflect_Mutable fastReflection_MsgUpdateParamsResponse_fields.
Definition fastReflection_MsgUpdateParamsResponse_NewField := reflect_NewField fastReflection_MsgUpdateParamsResponse_fields.
Definition fastReflection_MsgUpdateParamsResponse_SetUnknown (fields : bytes) (x : MsgUpdateParamsResponse) : MsgUpdateParamsResponse := let '(mkMsgUpdateParamsResponse _) := x in mkMsgUpdateParamsResponse fields.

Lemma inflation_InflationDistribution_field_laws : FieldLaws fastReflection_InflationDistribution_fields InflationDistribution_unknownFields (new InflationDistribution_methods).
Proof. message_field_laws. Qed.
Lemma inflation_ExponentialCalculation_field_laws : FieldLaws fastReflection_ExponentialCalculation_fields ExponentialCalculation_unknownFields (new ExponentialCalculation_methods).
Proof. message_field_laws. Qed.
Lemma inflation_Params_field_laws : FieldLaws fastReflection_Params_fields Params_unknownFields (new Params_methods).
Proof. message_field_laws. Qed.
Lemma inflation_GenesisState_field_laws : FieldLaws fastReflection_GenesisState_fields GenesisState_unknownFields (new GenesisState_methods).
Proof. message_field_laws. Qed.
Lemma inflation_QueryPeriodRequest_field_laws : FieldLaws fastReflection_QueryPeriodRequest_fields QueryPeriodRequest_unknownFields (new QueryPeriodRequest_methods).
Proof. message_field_laws. Qed.
Lemma inflation_QueryPeriodResponse_field_laws : FieldLaws fastReflection_QueryPeriodResponse_fields QueryPeriodResponse_unknownFields (new QueryPeriodResponse_methods).
Proof. message_field_laws. Qed.
Lemma inflation_QueryEpochMintProvisionRequest_field_laws : FieldLaws fastReflection_QueryEpochMintProvisionRequest_fields QueryEpochMintProvisionRequest_unknownFields (new QueryEpochMintProvisionRequest_methods).
Proof. message_field_laws. Qed.
Lemma inflation_QueryEpochMintProvisionResponse_field_laws : FieldLaws fastReflection_QueryEpochMintProvisionResponse_fields QueryEpochMintProvisionResponse_unknownFields (new QueryEpochMintProvisionResponse_methods).
Proof. message_field_laws. Qed.
Lemma inflation_QuerySkippedEpochsRequest_field_laws : FieldLaws fastReflection_QuerySkippedEpochsRequest_fields QuerySkippedEpochsRequest_unknownFields (new QuerySkippedEpochsRequest_methods).
Proof. message_field_laws. Qed.
Lemma inflation_QuerySkippedEpochsResponse_field_laws : FieldLaws fastReflection_QuerySkippedEpochsResponse_fields QuerySkippedEpochsResponse_unknownFields (new QuerySkippedEpochsResponse_methods).
Proof. message_field_laws. Qed.
Lemma inflation_QueryCirculatingSupplyRequest_field_laws : FieldLaws fastReflection_QueryCirculatingSupplyRequest_fields QueryCirculatingSupplyRequest_unknownFields (new QueryCirculatingSupplyRequest_methods).
Proof. message_field_laws. Qed.
Lemma inflation_QueryCirculatingSupplyResponse_field_laws : FieldLaws fastReflection_QueryCirculatingSupplyResponse_fields QueryCirculatingSupplyResponse_unknownFields (new QueryCirculatingSupplyResponse_methods).
Proof. message_field_laws. Qed.
Lemma inflation_QueryInflationRateRequest_field_laws : FieldLaws fastReflection_QueryInflationRateRequest_fields QueryInflationRateRequest_unknownFields (new QueryInflationRateRequest_methods).
Proof. message_field_laws. Qed.
Lemma inflation_QueryInflationRateResponse_field_laws : FieldLaws fastReflection_QueryInflationRateResponse_fields QueryInflationRateResponse_unknownFields (new QueryInflationRateResponse_methods).
Proof. message_field_laws. Qed.
Lemma inflation_QueryParamsRequest_field_laws : FieldLaws fastReflection_QueryParamsRequest_fields QueryParamsRequest_unknownFields (new QueryParamsRequest_methods).
Proof. message_field_laws. Qed.
Lemma inflation_QueryParamsResponse_field_laws : FieldLaws fastReflection_QueryParamsResponse_fields QueryParamsResponse_unknownFields (new QueryParamsResponse_methods).
Proof. message_field_laws. Qed.
Lemma inflation_MsgUpdateParams_field_laws : FieldLaws fastReflection_MsgUpdateParams_fields MsgUpdateParams_unknownFields (new MsgUpdateParams_methods).
Proof. message_field_laws. Qed.
Lemma inflation_MsgUpdateParamsResponse_field_laws : FieldLaws fastReflection_MsgUpdateParamsResponse_fields MsgUpdateParamsResponse_unknownFields (new MsgUpdateParamsResponse_methods).
Proof. message_field_laws. Qed.

(** What reflection promises, for every message. *)
Definition reflection_complete : Prop :=
  reflects fastReflection_InflationDistribution_fields InflationDistribution_unknownFields fastReflection_InflationDistribution_SetUnknown (new InflationDistribution_methods) ∧
  reflects fastReflection_ExponentialCalculation_fields ExponentialCalculation_unknownFields fastReflection_ExponentialCalculation_SetUnknown (new ExponentialCalculation_methods) ∧
  reflects fastReflection_Params_fields Params_unknownFields fastReflection_Params_SetUnknown (new Params_methods) ∧
  reflects fastReflection_GenesisState_fields GenesisState_unknownFields fastReflection_GenesisState_SetUnknown (new GenesisState_methods) ∧
  reflects fastReflection_QueryPeriodRequest_fields QueryPeriodRequest_unknownFields fastReflection_QueryPeriodRequest_SetUnknown (new QueryPeriodRequest_methods) ∧
  reflects fastReflection_QueryPeriodResponse_fields QueryPeriodResponse_unknownFields fastReflection_QueryPeriodResponse_SetUnknown (new QueryPeriodResponse_methods) ∧
  reflects fastReflection_QueryEpochMintProvisionRequest_fields QueryEpochMintProvisionRequest_unknownFields fastReflection_QueryEpochMintProvisionRequest_SetUnknown (new QueryEpochMintProvisionRequest_methods) ∧
  reflects fastReflection_QueryEpochMintProvisionResponse_fields QueryEpochMintProvisionResponse_unknownFields fastReflection_QueryEpochMintProvisionResponse_SetUnknown (new QueryEpochMintProvisionResponse_methods) ∧
  reflects fastReflection_QuerySkippedEpochsRequest_fields QuerySkippedEpochsRequest_unknownFields fastReflection_QuerySkippedEpochsRequest_SetUnknown (new QuerySkippedEpochsRequest_methods) ∧
  reflects fastReflection_QuerySkippedEpochsResponse_fields QuerySkippedEpochsResponse_unknownFields fastReflection_QuerySkippedEpochsResponse_SetUnknown (new QuerySkippedEpochsResponse_methods) ∧
  reflects fastReflection_QueryCirculatingSupplyRequest_fields QueryCirculatingSupplyRequest_unknownFields fastReflection_QueryCirculatingSupplyRequest_SetUnknown (new QueryCirculatingSupplyRequest_methods) ∧
  reflects fastReflection_QueryCirculatingSupplyResponse_fields QueryCirculatingSupplyResponse_unknownFields fastReflection_QueryCirculatingSupplyResponse_SetUnknown (new QueryCirculatingSupplyResponse_methods) ∧
  reflects fastReflection_QueryInflationRateRequest_fields QueryInflationRateRequest_unknownFields fastReflection_QueryInflationRateRequest_SetUnknown (new QueryInflationRateRequest_methods) ∧
  reflects fastReflection_QueryInflationRateResponse_fields QueryInflationRateResponse_unknownFields fastReflection_QueryInflationRateResponse_SetUnknown (new QueryInflationRateResponse_methods) ∧
  reflects fastReflection_QueryParamsRequest_fields QueryParamsRequest_unknownFields fastReflection_QueryParamsRequest_SetUnknown (new QueryParamsRequest_methods) ∧
  reflects fastReflection_QueryParamsResponse_fields QueryParamsResponse_unknownFields fastReflection_QueryParamsResponse_SetUnknown (new QueryParamsResponse_methods) ∧
  reflects fastReflection_MsgUpdateParams_fields MsgUpdateParams_unknownFields fastReflection_MsgUpdateParams_SetUnknown (new MsgUpdateParams_methods) ∧
  reflects fastReflection_MsgUpdateParamsResponse_fields MsgUpdateParamsResponse_unknownFields fastReflection_MsgUpdateParamsResponse_SetUnknown (new MsgUpdateParamsResponse_methods).
Lemma inflation_reflection_complete : reflection_complete.
Proof.
  unfold reflection_complete. split_and!;
  [message_reflects inflation_InflationDistribution_field_laws
  |message_reflects inflation_ExponentialCalculation_field_laws
  |message_reflects inflation_Params_field_laws
  |message_reflects inflation_GenesisState_field_laws
  |message_reflects inflation_QueryPeriodRequest_field_laws
  |message_reflects inflation_QueryPeriodResponse_field_laws
  |message_reflects inflation_QueryEpochMintProvisionRequest_field_laws
  |message_reflects inflation_QueryEpochMintProvisionResponse_field_laws
  |message_reflects inflation_QuerySkippedEpochsRequest_field_laws
  |message_reflects inflation_QuerySkippedEpochsResponse_field_laws
  |message_reflects inflation_QueryCirculatingSupplyRequest_field_laws
  |message_reflects inflation_QueryCirculatingSupplyResponse_field_laws
  |message_reflects inflation_QueryInflationRateRequest_field_laws
  |message_reflects inflation_QueryInflationRateResponse_field_laws
  |message_reflects inflation_QueryParamsRequest_field_laws
  |message_reflects inflation_QueryParamsResponse_field_laws
  |message_reflects inflation_MsgUpdateParams_field_laws
  |message_reflects inflation_MsgUpdateParamsResponse_field_laws].
Qed.

(** ** The same encodings as the module *)

Context {SC : SdkCodecs} {SL : SdkCodecLaws SC} {SE : SameEncodings SL AL}.

Definition InflationDistribution_api (m : Inflation.InflationDistribution) : InflationDistribution := mkInflationDistribution (Dec_text (Inflation.StakingRewards m)) (Dec_text (Inflation.CommunityPool m)) [].
Lemma inflation_InflationDistribution_same : same_encoding InflationDistribution_api InflationCodec.InflationDistribution_wf InflationCodec.InflationDistribution_enc InflationDistribution_wf InflationDistribution_enc.
Proof. same_message InflationDistribution_api (@InflationCodec.InflationDistribution_wf) (@InflationCodec.InflationDistribution_enc) InflationDistribution_wf InflationDistribution_enc InflationDistribution_fields_enc. Qed.
#[local] Hint Resolve inflation_InflationDistribution_same : api_same.
Definition ExponentialCalculation_api (m : Inflation.ExponentialCalculation) : ExponentialCalculation := mkExponentialCalculation (Dec_text (Inflation.Exp_A m)) (Dec_text (Inflation.Exp_R m)) (Dec_text (Inflation.Exp_C m)) (Dec_text (Inflation.Exp_BondingTarget m)) (Dec_text (Inflation.Exp_MaxVariance m)) [].
Lemma inflation_ExponentialCalculation_same : same_encoding ExponentialCalculation_api InflationCodec.ExponentialCalculation_wf InflationCodec.ExponentialCalculation_enc ExponentialCalculation_wf ExponentialCalculation_enc.
Proof. same_message ExponentialCalculation_api (@InflationCodec.ExponentialCalculation_wf) (@InflationCodec.ExponentialCalculation_enc) ExponentialCalculation_wf ExponentialCalculation_enc ExponentialCalculation_fields_enc. Qed.
#[local] Hint Resolve inflation_ExponentialCalculation_same : api_same.
Definition Params_api (m : Inflation.Params) : Params := mkParams (Inflation.MintDenom m) (Some (ExponentialCalculation_api (Inflation.ExponentialCalc m))) (Some (InflationDistribution_api (Inflation.Distribution m))) (Inflation.EnableInflation m) [].
Lemma inflation_Params_same : same_encoding Params_api InflationCodec.Params_wf InflationCodec.Params_enc Params_wf Params_enc.
Proof. same_message Params_api (@InflationCodec.Params_wf) (@InflationCodec.Params_enc) Params_wf Params_enc Params_fields_enc. Qed.
#[local] Hint Resolve inflation_Params_same : api_same.
Definition GenesisState_api (m : Inflation.GenesisState) : GenesisState := mkGenesisState (Some (Params_api (Inflation.Gen_Params m))) (Inflation.Gen_Period m) (Inflation.Gen_EpochIdentifier m) (Inflation.Gen_EpochsPerPeriod m) (Inflation.Gen_SkippedEpochs m) [].
Lemma inflation_GenesisState_same : same_encoding GenesisState_api InflationCodec.GenesisState_wf InflationCodec.GenesisState_enc GenesisState_wf GenesisState_enc.
Proof. same_message GenesisState_api (@InflationCodec.GenesisState_wf) (@InflationCodec.GenesisState_enc) GenesisState_wf GenesisState_enc GenesisState_fields_enc. Qed.
#[local] Hint Resolve inflation_GenesisState_same : api_same.
Definition QueryPeriodRequest_api (m : InflationCodec.QueryPeriodRequest) : QueryPeriodRequest := mkQueryPeriodRequest [].
Lemma inflation_QueryPeriodRequest_same : same_encoding QueryPeriodRequest_api InflationCodec.QueryPeriodRequest_wf InflationCodec.QueryPeriodRequest_enc QueryPeriodRequest_wf QueryPeriodRequest_enc.
Proof. same_message QueryPeriodRequest_api (@InflationCodec.QueryPeriodRequest_wf) (@InflationCodec.QueryPeriodRequest_enc) QueryPeriodRequest_wf QueryPeriodRequest_enc QueryPeriodRequest_fields_enc. Qed.
#[local] Hint Resolve inflation_QueryPeriodRequest_same : api_same.
Definition QueryPeriodResponse_api (m : InflationCodec.QueryPeriodResponse) : QueryPeriodResponse := mkQueryPeriodResponse (InflationCodec.QueryPeriodResponse_Period m) [].
Lemma inflation_QueryPeriodResponse_same : same_encoding QueryPeriodResponse_api InflationCodec.QueryPeriodResponse_wf InflationCodec.QueryPeriodResponse_enc QueryPeriodResponse_wf QueryPeriodResponse_enc.
Proof. same_message QueryPeriodResponse_api (@InflationCodec.QueryPeriodResponse_wf) (@InflationCodec.QueryPeriodResponse_enc) QueryPeriodResponse_wf QueryPeriodResponse_enc QueryPeriodResponse_fields_enc. Qed.
#[local] Hint Resolve inflation_QueryPeriodResponse_same : api_same.
Definition QueryEpochMintProvisionRequest_api (m : InflationCodec.QueryEpochMintProvisionRequest) : QueryEpochMintProvisionRequest := mkQueryEpochMintProvisionRequest [].
Lemma inflation_QueryEpochMintProvisionRequest_same : same_encoding QueryEpochMintProvisionRequest_api InflationCodec.QueryEpochMintProvisionRequest_wf InflationCodec.QueryEpochMintProvisionRequest_enc QueryEpochMintProvisionRequest_wf QueryEpochMintProvisionRequest_enc.
Proof. same_message QueryEpochMintProvisionRequest_api (@InflationCodec.QueryEpochMintProvisionRequest_wf) (@InflationCodec.QueryEpochMintProvisionRequest_enc) QueryEpochMintProvisionRequest_wf QueryEpochMintProvisionRequest_enc QueryEpochMintProvisionRequest_fields_enc. Qed.
#[local] Hint Resolve inflation_QueryEpochMintProvisionRequest_same : api_same.
Definition QueryEpochMintProvisionResponse_api (m : InflationCodec.QueryEpochMintProvisionResponse) : QueryEpochMintProvisionResponse := mkQueryEpochMintProvisionResponse (Some (dec_coin_api (InflationCodec.QueryEpochMintProvisionResponse_EpochMintProvision m))) [].
Lemma inflation_QueryEpochMintProvisionResponse_same : same_encoding QueryEpochMintProvisionResponse_api InflationCodec.QueryEpochMintProvisionResponse_wf InflationCodec.QueryEpochMintProvisionResponse_enc QueryEpochMintProvisionResponse_wf QueryEpochMintProvisionResponse_enc.
Proof. same_message QueryEpochMintProvisionResponse_api (@InflationCodec.QueryEpochMintProvisionResponse_wf) (@InflationCodec.QueryEpochMintProvisionResponse_enc) QueryEpochMintProvisionResponse_wf QueryEpochMintProvisionResponse_enc QueryEpochMintProvisionResponse_fields_enc. Qed.
#[local] Hint Resolve inflation_QueryEpochMintProvisionResponse_same : api_same.
Definition QuerySkippedEpochsRequest_api (m : InflationCodec.QuerySkippedEpochsRequest) : QuerySkippedEpochsRequest := mkQuerySkippedEpochsRequest [].
Lemma inflation_QuerySkippedEpochsRequest_same : same_encoding QuerySkippedEpochsRequest_api InflationCodec.QuerySkippedEpochsRequest_wf InflationCodec.QuerySkippedEpochsRequest_enc QuerySkippedEpochsRequest_wf QuerySkippedEpochsRequest_enc.
Proof. same_message QuerySkippedEpochsRequest_api (@InflationCodec.QuerySkippedEpochsRequest_wf) (@InflationCodec.QuerySkippedEpochsRequest_enc) QuerySkippedEpochsRequest_wf QuerySkippedEpochsRequest_enc QuerySkippedEpochsRequest_fields_enc. Qed.
#[local] Hint Resolve inflation_QuerySkippedEpochsRequest_same : api_same.
Definition QuerySkippedEpochsResponse_api (m : InflationCodec.QuerySkippedEpochsResponse) : QuerySkippedEpochsResponse := mkQuerySkippedEpochsResponse (InflationCodec.QuerySkippedEpochsResponse_SkippedEpochs m) [].
Lemma inflation_QuerySkippedEpochsResponse_same : same_encoding QuerySkippedEpochsResponse_api InflationCodec.QuerySkippedEpochsResponse_wf InflationCodec.QuerySkippedEpochsResponse_enc QuerySkippedEpochsResponse_wf QuerySkippedEpochsResponse_enc.
Proof. same_message QuerySkippedEpochsResponse_api (@InflationCodec.QuerySkippedEpochsResponse_wf) (@InflationCodec.QuerySkippedEpochsResponse_enc) QuerySkippedEpochsResponse_wf QuerySkippedEpochsResponse_enc QuerySkippedEpochsResponse_fields_enc. Qed.
#[local] Hint Resolve inflation_QuerySkippedEpochsResponse_same : api_same.
Definition QueryCirculatingSupplyRequest_api (m : InflationCodec.QueryCirculatingSupplyRequest) : QueryCirculatingSupplyRequest := mkQueryCirculatingSupplyRequest [].
Lemma inflation_QueryCirculatingSupplyRequest_same : same_encoding QueryCirculatingSupplyRequest_api InflationCodec.QueryCirculatingSupplyRequest_wf InflationCodec.QueryCirculatingSupplyRequest_enc QueryCirculatingSupplyRequest_wf QueryCirculatingSupplyRequest_enc.
Proof. same_message QueryCirculatingSupplyRequest_api (@InflationCodec.QueryCirculatingSupplyRequest_wf) (@InflationCodec.QueryCirculatingSupplyRequest_enc) QueryCirculatingSupplyRequest_wf QueryCirculatingSupplyRequest_enc QueryCirculatingSupplyRequest_fields_enc. Qed.
#[local] Hint Resolve inflation_QueryCirculatingSupplyRequest_same : api_same.
Definition QueryCirculatingSupplyResponse_api (m : InflationCodec.QueryCirculatingSupplyResponse) : QueryCirculatingSupplyResponse := mkQueryCirculatingSupplyResponse (Some (dec_coin_api (InflationCodec.QueryCirculatingSupplyResponse_CirculatingSupply m))) [].
Lemma inflation_QueryCirculatingSupplyResponse_same : same_encoding QueryCirculatingSupplyResponse_api InflationCodec.QueryCirculatingSupplyResponse_wf InflationCodec.QueryCirculatingSupplyResponse_enc QueryCirculatingSupplyResponse_wf QueryCirculatingSupplyResponse_enc.
Proof. same_message QueryCirculatingSupplyResponse_api (@InflationCodec.QueryCirculatingSupplyResponse_wf) (@InflationCodec.QueryCirculatingSupplyResponse_enc) QueryCirculatingSupplyResponse_wf QueryCirculatingSupplyResponse_enc QueryCirculatingSupplyResponse_fields_enc. Qed.
#[local] Hint Resolve inflation_QueryCirculatingSupplyResponse_same : api_same.
Definition QueryInflationRateRequest_api (m : InflationCodec.QueryInflationRateRequest) : QueryInflationRateRequest := mkQueryInflationRateRequest [].
Lemma inflation_QueryInflationRateRequest_same : same_encoding QueryInflationRateRequest_api InflationCodec.QueryInflationRateRequest_wf InflationCodec.QueryInflationRateRequest_enc QueryInflationRateRequest_wf QueryInflationRateRequest_enc.
Proof. same_message QueryInflationRateRequest_api (@InflationCodec.QueryInflationRateRequest_wf) (@InflationCodec.QueryInflationRateRequest_enc) QueryInflationRateRequest_wf QueryInflationRateRequest_enc QueryInflationRateRequest_fields_enc. Qed.
#[local] Hint Resolve inflation_QueryInflationRateRequest_same : api_same.
Definition QueryInflationRateResponse_api (m : InflationCodec.QueryInflationRateResponse) : QueryInflationRateResponse := mkQueryInflationRateResponse (Dec_text (InflationCodec.QueryInflationRateResponse_InflationRate m)) [].
Lemma inflation_QueryInflationRateResponse_same : same_encoding QueryInflationRateResponse_api InflationCodec.QueryInflationRateResponse_wf InflationCodec.QueryInflationRateResponse_enc QueryInflationRateResponse_wf QueryInflationRateResponse_enc.
Proof. same_message QueryInflationRateResponse_api (@InflationCodec.QueryInflationRateResponse_wf) (@InflationCodec.QueryInflationRateResponse_enc) QueryInflationRateResponse_wf QueryInflationRateResponse_enc QueryInflationRateResponse_fields_enc. Qed.
#[local] Hint Resolve inflation_QueryInflationRateResponse_same : api_same.
Definition QueryParamsRequest_api (m : InflationCodec.QueryParamsRequest) : QueryParamsRequest := mkQueryParamsRequest [].
Lemma inflation_QueryParamsRequest_same : same_encoding QueryParamsRequest_api InflationCodec.QueryParamsRequest_wf InflationCodec.QueryParamsRequest_enc QueryParamsRequest_wf QueryParamsRequest_enc.
Proof. same_message QueryParamsRequest_api (@InflationCodec.QueryParamsRequest_wf) (@InflationCodec.QueryParamsRequest_enc) QueryParamsRequest_wf QueryParamsRequest_enc QueryParamsRequest_fields_enc. Qed.
#[local] Hint Resolve inflation_QueryParamsRequest_same : api_same.
Definition QueryParamsResponse_api (m : InflationCodec.QueryParamsResponse) : QueryParamsResponse := mkQueryParamsResponse (Some (Params_api (InflationCodec.QueryParamsResponse_Params m))) [].
Lemma inflation_QueryParamsResponse_same : same_encoding QueryParamsResponse_api InflationCodec.QueryParamsResponse_wf InflationCodec.QueryParamsResponse_enc QueryParamsResponse_wf QueryParamsResponse_enc.
Proof. same_message QueryParamsResponse_api (@InflationCodec.QueryParamsResponse_wf) (@InflationCodec.QueryParamsResponse_enc) QueryParamsResponse_wf QueryParamsResponse_enc QueryParamsResponse_fields_enc. Qed.
#[local] Hint Resolve inflation_QueryParamsResponse_same : api_same.
Definition MsgUpdateParams_api (m : Inflation.MsgUpdateParams) : MsgUpdateParams := mkMsgUpdateParams (Inflation.Upd_Authority m) (Some (Params_api (Inflation.Upd_Params m))) [].
Lemma inflation_MsgUpdateParams_same : same_encoding MsgUpdateParams_api InflationCodec.MsgUpdateParams_wf InflationCodec.MsgUpdateParams_enc MsgUpdateParams_wf MsgUpdateParams_enc.
Proof. same_message MsgUpdateParams_api (@InflationCodec.MsgUpdateParams_wf) (@InflationCodec.MsgUpdateParams_enc) MsgUpdateParams_wf MsgUpdateParams_enc MsgUpdateParams_fields_enc. Qed.
#[local] Hint Resolve inflation_MsgUpdateParams_same : api_same.
Definition MsgUpdateParamsResponse_api (m : InflationCodec.MsgUpdateParamsResponse) : MsgUpdateParamsResponse := mkMsgUpdateParamsResponse [].
Lemma inflation_MsgUpdateParamsResponse_same : same_encoding MsgUpdateParamsResponse_api InflationCodec.MsgUpdateParamsResponse_wf InflationCodec.MsgUpdateParamsResponse_enc MsgUpdateParamsResponse_wf MsgUpdateParamsResponse_enc.
Proof. same_message MsgUpdateParamsResponse_api (@InflationCodec.MsgUpdateParamsResponse_wf) (@InflationCodec.MsgUpdateParamsResponse_enc) MsgUpdateParamsResponse_wf MsgUpdateParamsResponse_enc MsgUpdateParamsResponse_fields_enc. Qed.
#[local] Hint Resolve inflation_MsgUpdateParamsResponse_same : api_same.

Definition api_agrees : Prop :=
  agrees InflationCodec.InflationDistribution_codec InflationDistribution_methods InflationDistribution_api InflationCodec.InflationDistribution_wf InflationCodec.InflationDistribution_enc ∧
  agrees InflationCodec.ExponentialCalculation_codec ExponentialCalculation_methods ExponentialCalculation_api InflationCodec.ExponentialCalculation_wf InflationCodec.ExponentialCalculation_enc ∧
  agrees InflationCodec.Params_codec Params_methods Params_api InflationCodec.Params_wf InflationCodec.Params_enc ∧
  agrees InflationCodec.GenesisState_codec GenesisState_methods GenesisState_api InflationCodec.GenesisState_wf InflationCodec.GenesisState_enc ∧
  agrees InflationCodec.QueryPeriodRequest_codec QueryPeriodRequest_methods QueryPeriodRequest_api InflationCodec.QueryPeriodRequest_wf InflationCodec.QueryPeriodRequest_enc ∧
  agrees InflationCodec.QueryPeriodResponse_codec QueryPeriodResponse_methods QueryPeriodResponse_api InflationCodec.QueryPeriodResponse_wf InflationCodec.QueryPeriodResponse_enc ∧
  agrees InflationCodec.QueryEpochMintProvisionRequest_codec QueryEpochMintProvisionRequest_methods QueryEpochMintProvisionRequest_api InflationCodec.QueryEpochMintProvisionRequest_wf InflationCodec.QueryEpochMintProvisionRequest_enc ∧
  agrees InflationCodec.QueryEpochMintProvisionResponse_codec QueryEpochMintProvisionResponse_methods QueryEpochMintProvisionResponse_api InflationCodec.QueryEpochMintProvisionResponse_wf InflationCodec.QueryEpochMintProvisionResponse_enc ∧
  agrees InflationCodec.QuerySkippedEpochsRequest_codec QuerySkippedEpochsRequest_methods QuerySkippedEpochsRequest_api InflationCodec.QuerySkippedEpochsRequest_wf InflationCodec.QuerySkippedEpochsRequest_enc ∧
  agrees InflationCodec.QuerySkippedEpochsResponse_codec QuerySkippedEpochsResponse_methods QuerySkippedEpochsResponse_api InflationCodec.QuerySkippedEpochsResponse_wf InflationCodec.QuerySkippedEpochsResponse_enc ∧
  agrees InflationCodec.QueryCirculatingSupplyRequest_codec QueryCirculatingSupplyRequest_methods QueryCirculatingSupplyRequest_api InflationCodec.QueryCirculatingSupplyRequest_wf InflationCodec.QueryCirculatingSupplyRequest_enc ∧
  agrees InflationCodec.QueryCirculatingSupplyResponse_codec QueryCirculatingSupplyResponse_methods QueryCirculatingSupplyResponse_api InflationCodec.QueryCirculatingSupplyResponse_wf InflationCodec.QueryCirculatingSupplyResponse_enc ∧
  agrees InflationCodec.QueryInflationRateRequest_codec QueryInflationRateRequest_methods QueryInflationRateRequest_api InflationCodec.QueryInflationRateRequest_wf InflationCodec.QueryInflationRateRequest_enc ∧
  agrees InflationCodec.QueryInflationRateResponse_codec QueryInflationRateResponse_methods QueryInflationRateResponse_api InflationCodec.QueryInflationRateResponse_wf InflationCodec.QueryInflationRateResponse_enc ∧
  agrees InflationCodec.QueryParamsRequest_codec QueryParamsRequest_methods QueryParamsRequest_api InflationCodec.QueryParamsRequest_wf InflationCodec.QueryParamsRequest_enc ∧
  agrees InflationCodec.QueryParamsResponse_codec QueryParamsResponse_methods QueryParamsResponse_api InflationCodec.QueryParamsResponse_wf InflationCodec.QueryParamsResponse_enc ∧
  agrees InflationCodec.MsgUpdateParams_codec MsgUpdateParams_methods MsgUpdateParams_api InflationCodec.MsgUpdateParams_wf InflationCodec.MsgUpdateParams_enc ∧
  agrees InflationCodec.MsgUpdateParamsResponse_codec MsgUpdateParamsResponse_methods MsgUpdateParamsResponse_api InflationCodec.MsgUpdateParamsResponse_wf InflationCodec.MsgUpdateParamsResponse_enc.
Lemma inflation_api_agrees : api_agrees.
Proof.
  unfold api_agrees. split_and!;
  [exact (laws_agree _ _ _ _ _ _ _ InflationCodec.inflation_InflationDistribution_laws inflation_InflationDistribution_api_laws inflation_InflationDistribution_same)
  |exact (laws_agree _ _ _ _ _ _ _ InflationCodec.inflation_ExponentialCalculation_laws inflation_ExponentialCalculation_api_laws inflation_ExponentialCalculation_same)
  |exact (laws_agree _ _ _ _ _ _ _ InflationCodec.inflation_Params_laws inflation_Params_api_laws inflation_Params_same)
  |exact (laws_agree _ _ _ _ _ _ _ InflationCodec.inflation_GenesisState_laws inflation_GenesisState_api_laws inflation_GenesisState_same)
  |exact (laws_agree _ _ _ _ _ _ _ InflationCodec.inflation_QueryPeriodRequest_laws inflation_QueryPeriodRequest_api_laws inflation_QueryPeriodRequest_same)
  |exact (laws_agree _ _ _ _ _ _ _ InflationCodec.inflation_QueryPeriodResponse_laws inflation_QueryPeriodResponse_api_laws inflation_QueryPeriodResponse_same)
  |exact (laws_agree _ _ _ _ _ _ _ InflationCodec.inflation_QueryEpochMintProvisionRequest_laws inflation_QueryEpochMintProvisionRequest_api_laws inflation_QueryEpochMintProvisionRequest_same)
  |exact (laws_agree _ _ _ _ _ _ _ InflationCodec.inflation_QueryEpochMintProvisionResponse_laws inflation_QueryEpochMintProvisionResponse_api_laws inflation_QueryEpochMintProvisionResponse_same)
  |exact (laws_agree _ _ _ _ _ _ _ InflationCodec.inflation_QuerySkippedEpochsRequest_laws inflation_QuerySkippedEpochsRequest_api_laws inflation_QuerySkippedEpochsRequest_same)
  |exact (laws_agree _ _ _ _ _ _ _ InflationCodec.inflation_QuerySkippedEpochsResponse_laws inflation_QuerySkippedEpochsResponse_api_laws inflation_QuerySkippedEpochsResponse_same)
  |exact (laws_agree _ _ _ _ _ _ _ InflationCodec.inflation_QueryCirculatingSupplyRequest_laws inflation_QueryCirculatingSupplyRequest_api_laws inflation_QueryCirculatingSupplyRequest_same)
  |exact (laws_agree _ _ _ _ _ _ _ InflationCodec.inflation_QueryCirculatingSupplyResponse_laws inflation_QueryCirculatingSupplyResponse_api_laws inflation_QueryCirculatingSupplyResponse_same)
  |exact (laws_agree _ _ _ _ _ _ _ InflationCodec.inflation_QueryInflationRateRequest_laws inflation_QueryInflationRateRequest_api_laws inflation_QueryInflationRateRequest_same)
  |exact (laws_agree _ _ _ _ _ _ _ InflationCodec.inflation_QueryInflationRateResponse_laws inflation_QueryInflationRateResponse_api_laws inflation_QueryInflationRateResponse_same)
  |exact (laws_agree _ _ _ _ _ _ _ InflationCodec.inflation_QueryParamsRequest_laws inflation_QueryParamsRequest_api_laws inflation_QueryParamsRequest_same)
  |exact (laws_agree _ _ _ _ _ _ _ InflationCodec.inflation_QueryParamsResponse_laws inflation_QueryParamsResponse_api_laws inflation_QueryParamsResponse_same)
  |exact (laws_agree _ _ _ _ _ _ _ InflationCodec.inflation_MsgUpdateParams_laws inflation_MsgUpdateParams_api_laws inflation_MsgUpdateParams_same)
  |exact (laws_agree _ _ _ _ _ _ _ InflationCodec.inflation_MsgUpdateParamsResponse_laws inflation_MsgUpdateParamsResponse_api_laws inflation_MsgUpdateParamsResponse_same)].
Qed.
End api.
