(* ===== verification/ApiOnboarding.v ===== *)
(** * Package api: the messages of canto.onboarding.v1

    The code of [genesis.pulsar.go], [query.pulsar.go], [tx.pulsar.go] under
    src/api/canto/onboarding/v1: encoding ([Pulsar.v]), reflection ([Reflect.v]), and that
    the messages of the module and of the package have the same encodings. *)

From Stdlib Require Import Ascii.
From stdpp Require Import base strings list sets.
From S2P Require Import Prelude Golang Sdk Wire WireFacts WireCodec WireSdk Pulsar Reflect ApiSame.
From S2P Require Onboarding OnboardingCodec.

#[local] Open Scope Z_scope.
#[local] Open Scope go_scope.

Section api.
Context {RT : ProtoRuntime} {AS : ApiSdk}.

(** ** [Params] *)

Record Params := mkParams { Params_EnableOnboarding : bool; Params_AutoSwapThreshold : string; Params_WhitelistedChannels : list string; Params_unknownFields : bytes }.
Definition Params_size (x : Params) : Z :=
  size_bool (Params_EnableOnboarding x) + api_size_string (Params_AutoSwapThreshold x) + api_size_strings (Params_WhitelistedChannels x) + blen (Params_unknownFields x).
Definition Params_marshal (x : Params) : writer :=
  put_raw (Params_unknownFields x) ;>
  api_put_strings 0x22 (Params_WhitelistedChannels x) ;>
  api_put_string 0x1a (Params_AutoSwapThreshold x) ;>
  put_bool 0x8 (Params_EnableOnboarding x).
Definition Params_cases (discard : bool) (x : Params) (fieldNum wireType : Z) : option (reader Params) :=
  let '(mkParams enableOnboarding_ autoSwapThreshold_ whitelistedChannels_ unknown) := x in
  match fieldNum with
  | 1 => Some (get_bool "EnableOnboarding" wireType (fun v => mkParams v autoSwapThreshold_ whitelistedChannels_ unknown))
  | 3 => Some (get_string "AutoSwapThreshold" wireType (fun v => mkParams enableOnboarding_ v whitelistedChannels_ unknown))
  | 4 => Some (get_strings "WhitelistedChannels" wireType whitelistedChannels_ (fun v => mkParams enableOnboarding_ autoSwapThreshold_ v unknown))
  | _ => None
  end.
Definition Params_append (u : bytes) (x : Params) : Params := let '(mkParams enableOnboarding_ autoSwapThreshold_ whitelistedChannels_ unknown) := x in mkParams enableOnboarding_ autoSwapThreshold_ whitelistedChannels_ (unknown ++ u).
Definition Params_unmarshal : bool -> bytes -> option Params -> outcome (option Params) := api_unmarshal "Params" Params_cases Params_append.
Definition Params_methods : Methods Params :=
  mkMethods (mkParams false "" [] []) (api_size Params_size) (api_marshal Params_size Params_marshal) Params_unmarshal.

(** ** [GenesisState] *)

Record GenesisState := mkGenesisState { GenesisState_Params : option Params; GenesisState_unknownFields : bytes }.
Definition GenesisState_size (x : GenesisState) : Z :=
  api_size_pointer Params_methods (GenesisState_Params x) + blen (GenesisState_unknownFields x).
Definition GenesisState_marshal (x : GenesisState) : writer :=
  put_raw (GenesisState_unknownFields x) ;>
  api_put_pointer Params_methods 0xa (GenesisState_Params x).
Definition GenesisState_cases (discard : bool) (x : GenesisState) (fieldNum wireType : Z) : option (reader GenesisState) :=
  let '(mkGenesisState params_ unknown) := x in
  match fieldNum with
  | 1 => Some (api_get_pointer Params_methods discard "Params" wireType params_ (fun v => mkGenesisState v unknown))
  | _ => None
  end.
Definition GenesisState_append (u : bytes) (x : GenesisState) : GenesisState := let '(mkGenesisState params_ unknown) := x in mkGenesisState params_ (unknown ++ u).
Definition GenesisState_unmarshal : bool -> bytes -> option GenesisState -> outcome (option GenesisState) := api_unmarshal "GenesisState" GenesisState_cases GenesisState_append.
Definition GenesisState_methods : Methods GenesisState :=
  mkMethods (mkGenesisState None []) (api_size GenesisState_size) (api_marshal GenesisState_size GenesisState_marshal) GenesisState_unmarshal.

(** ** [QueryParamsRequest] *)

Record QueryParamsRequest := mkQueryParamsRequest { QueryParamsRequest_unknownFields : bytes }.
Definition QueryParamsRequest_size (x : QueryParamsRequest) : Z :=
  blen (QueryParamsRequest_unknownFields x).
Definition QueryParamsRequest_marshal (x : QueryParamsRequest) : writer :=
  put_raw (QueryParamsRequest_unknownFields x).
Definition QueryParamsRequest_cases (discard : bool) (x : QueryParamsRequest) (fieldNum wireType : Z) : option (reader QueryParamsRequest) := None.
Definition QueryParamsRequest_append (u : bytes) (x : QueryParamsRequest) : QueryParamsRequest := let '(mkQueryParamsRequest unknown) := x in mkQueryParamsRequest (unknown ++ u).
Definition QueryParamsRequest_unmarshal : bool -> bytes -> option QueryParamsRequest -> outcome (option QueryParamsRequest) := api_unmarshal "QueryParamsRequest" QueryParamsRequest_cases QueryParamsRequest_append.
Definition QueryParamsRequest_methods : Methods QueryParamsRequest :=
  mkMethods (mkQueryParamsRequest []) (api_size QueryParamsRequest_size) (api_marshal QueryParamsRequest_size QueryParamsRequest_marshal) QueryParamsRequest_unmarshal.

(** ** [QueryParamsResponse] *)

Record QueryParamsResponse := mkQueryParamsResponse { QueryParamsResponse_Params : option Params; QueryParamsResponse_unknownFields : bytes }.
Definition QueryParamsResponse_size (x : QueryParamsResponse) : Z :=
  api_size_pointer Params_methods (QueryParamsResponse_Params x) + blen (QueryParamsResponse_unknownFields x).
Definition QueryParamsResponse_marshal (x : QueryParamsResponse) : writer :=
  put_raw (QueryParamsResponse_unknownFields x) ;>
  api_put_pointer Params_methods 0xa (QueryParamsResponse_Params x).
Definition QueryParamsResponse_cases (discard : bool) (x : QueryParamsResponse) (fieldNum wireType : Z) : option (reader QueryParamsResponse) :=
  let '(mkQueryParamsResponse params_ unknown) := x in
  match fieldNum with
  | 1 => Some (api_get_pointer Params_methods discard "Params" wireType params_ (fun v => mkQueryParamsResponse v unknown))
  | _ => None
  end.
Definition QueryParamsResponse_append (u : bytes) (x : QueryParamsResponse) : QueryParamsResponse := let '(mkQueryParamsResponse params_ unknown) := x in mkQueryParamsResponse params_ (unknown ++ u).
Definition QueryParamsResponse_unmarshal : bool -> bytes -> option QueryParamsResponse -> outcome (option QueryParamsResponse) := api_unmarshal "QueryParamsResponse" QueryParamsResponse_cases QueryParamsResponse_append.
Definition QueryParamsResponse_methods : Methods QueryParamsResponse :=
  mkMethods (mkQueryParamsResponse None []) (api_size QueryParamsResponse_size) (api_marshal QueryParamsResponse_size QueryParamsResponse_marshal) QueryParamsResponse_unmarshal.

(** ** [MsgUpdateParams] *)

Record MsgUpdateParams := mkMsgUpdateParams { MsgUpdateParams_Authority : string; MsgUpdateParams_Params : option Params; MsgUpdateParams_unknownFields : bytes }.
Definition MsgUpdateParams_size (x : MsgUpdateParams) : Z :=
  api_size_string (MsgUpdateParams_Authority x) + api_size_pointer Params_methods (MsgUpdateParams_Params x) + blen (MsgUpdateParams_unknownFields x).
Definition MsgUpdateParams_marshal (x : MsgUpdateParams) : writer :=
  put_raw (MsgUpdateParams_unknownFields x) ;>
  api_put_pointer Params_methods 0x12 (MsgUpdateParams_Params x) ;>
  api_put_string 0xa (MsgUpdateParams_Authority x).
Definition MsgUpdateParams_cases (discard : bool) (x : MsgUpdateParams) (fieldNum wireType : Z) : option (reader MsgUpdateParams) :=
  let '(mkMsgUpdateParams authority_ params_ unknown) := x in
  match fieldNum with
  | 1 => Some (get_string "Authority" wireType (fun v => mkMsgUpdateParams v params_ unknown))
  | 2 => Some (api_get_pointer Params_methods discard "Params" wireType params_ (fun v => mkMsgUpdateParams authority_ v unknown))
  | _ => None
  end.
Definition MsgUpdateParams_append (u : bytes) (x : MsgUpdateParams) : MsgUpdateParams := let '(mkMsgUpdateParams authority_ params_ unknown) := x in mkMsgUpdateParams authority_ params_ (unknown ++ u).
Definition MsgUpdateParams_unmarshal : bool -> bytes -> option MsgUpdateParams -> outcome (option MsgUpdateParams) := api_unmarshal "MsgUpdateParams" MsgUpdateParams_cases MsgUpdateParams_append.
Definition MsgUpdateParams_methods : Methods MsgUpdateParams :=
  mkMethods (mkMsgUpdateParams "" None []) (api_size MsgUpdateParams_size) (api_marshal MsgUpdateParams_size MsgUpdateParams_marshal) MsgUpdateParams_unmarshal.

(** ** [MsgUpdateParamsResponse] *)

Record MsgUpdateParamsResponse := mkMsgUpdateParamsResponse { MsgUpdateParamsResponse_unknownFields : bytes }.
Definition MsgUpdateParamsResponse_size (x : MsgUpdateParamsResponse) : Z :=
  blen (MsgUpdateParamsResponse_unknownFields x).
Definition MsgUpdateParamsResponse_marshal (x : MsgUpdateParamsResponse) : writer :=
  put_raw (MsgUpdateParamsResponse_unknownFields x).
Definition MsgUpdateParamsResponse_cases (discard : bool) (x : MsgUpdateParamsResponse) (fieldNum wireType : Z) : option (reader MsgUpdateParamsResponse) := None.
Definition MsgUpdateParamsResponse_append (u : bytes) (x : MsgUpdateParamsResponse) : MsgUpdateParamsResponse := let '(mkMsgUpdateParamsResponse unknown) := x in mkMsgUpdateParamsResponse (unknown ++ u).
Definition MsgUpdateParamsResponse_unmarshal : bool -> bytes -> option MsgUpdateParamsResponse -> outcome (option MsgUpdateParamsResponse) := api_unmarshal "MsgUpdateParamsResponse" MsgUpdateParamsResponse_cases MsgUpdateParamsResponse_append.
Definition MsgUpdateParamsResponse_methods : Methods MsgUpdateParamsResponse :=
  mkMethods (mkMsgUpdateParamsResponse []) (api_size MsgUpdateParamsResponse_size) (api_marshal MsgUpdateParamsResponse_size MsgUpdateParamsResponse_marshal) MsgUpdateParamsResponse_unmarshal.

(** ** Well-formed messages and their encodings *)

Context {RL : ProtoRuntimeLaws} {AL : ApiSdkLaws AS}.

Definition Params_wf (x : Params) : Prop := unknown_bytes [1; 3; 4] (Params_unknownFields x).
Definition Params_fields_enc (x : Params) : bytes :=
  enc_bool 0x8 (Params_EnableOnboarding x) ++
  enc_string 0x1a (Params_AutoSwapThreshold x) ++
  enc_strings 0x22 (Params_WhitelistedChannels x).
Definition Params_enc (x : Params) : bytes := Params_fields_enc x ++ Params_unknownFields x.
Lemma onboarding_Params_api_laws : MethodLaws Params_methods Params_wf Params_enc.
Proof. api_message_laws Params_wf Params_enc Params_fields_enc Params_size Params_marshal Params_cases Params_append. Qed.
#[local] Hint Resolve onboarding_Params_api_laws : api_laws.

Definition GenesisState_wf (x : GenesisState) : Prop := (∀ a, GenesisState_Params x = Some a -> Params_wf a) ∧ unknown_bytes [1] (GenesisState_unknownFields x).
Definition GenesisState_fields_enc (x : GenesisState) : bytes :=
  enc_pointer Params_enc 0xa (GenesisState_Params x).
Definition GenesisState_enc (x : GenesisState) : bytes := GenesisState_fields_enc x ++ GenesisState_unknownFields x.
Lemma onboarding_GenesisState_api_laws : MethodLaws GenesisState_methods GenesisState_wf GenesisState_enc.
Proof. api_message_laws GenesisState_wf GenesisState_enc GenesisState_fields_enc GenesisState_size GenesisState_marshal GenesisState_cases GenesisState_append. Qed.
#[local] Hint Resolve onboarding_GenesisState_api_laws : api_laws.

Definition QueryParamsRequest_wf (x : QueryParamsRequest) : Prop := unknown_bytes [] (QueryParamsRequest_unknownFields x).
Definition QueryParamsRequest_fields_enc (x : QueryParamsRequest) : bytes :=
  [].
Definition QueryParamsRequest_enc (x : QueryParamsRequest) : bytes := QueryParamsRequest_fields_enc x ++ QueryParamsRequest_unknownFields x.
Lemma onboarding_QueryParamsRequest_api_laws : MethodLaws QueryParamsRequest_methods QueryParamsRequest_wf QueryParamsRequest_enc.
Proof. api_message_laws QueryParamsRequest_wf QueryParamsRequest_enc QueryParamsRequest_fields_enc QueryParamsRequest_size QueryParamsRequest_marshal QueryParamsRequest_cases QueryParamsRequest_append. Qed.
#[local] Hint Resolve onboarding_QueryParamsRequest_api_laws : api_laws.

Definition QueryParamsResponse_wf (x : QueryParamsResponse) : Prop := (∀ a, QueryParamsResponse_Params x = Some a -> Params_wf a) ∧ unknown_bytes [1] (QueryParamsResponse_unknownFields x).
Definition QueryParamsResponse_fields_enc (x : QueryParamsResponse) : bytes :=
  enc_pointer Params_enc 0xa (QueryParamsResponse_Params x).
Definition QueryParamsResponse_enc (x : QueryParamsResponse) : bytes := QueryParamsResponse_fields_enc x ++ QueryParamsResponse_unknownFields x.
Lemma onboarding_QueryParamsResponse_api_laws : MethodLaws QueryParamsResponse_methods QueryParamsResponse_wf QueryParamsResponse_enc.
Proof. api_message_laws QueryParamsResponse_wf QueryParamsResponse_enc QueryParamsResponse_fields_enc QueryParamsResponse_size QueryParamsResponse_marshal QueryParamsResponse_cases QueryParamsResponse_append. Qed.
#[local] Hint Resolve onboarding_QueryParamsResponse_api_laws : api_laws.

Definition MsgUpdateParams_wf (x : MsgUpdateParams) : Prop := (∀ a, MsgUpdateParams_Params x = Some a -> Params_wf a) ∧ unknown_bytes [1; 2] (MsgUpdateParams_unknownFields x).
Definition MsgUpdateParams_fields_enc (x : MsgUpdateParams) : bytes :=
  enc_string 0xa (MsgUpdateParams_Authority x) ++
  enc_pointer Params_enc 0x12 (MsgUpdateParams_Params x).
Definition MsgUpdateParams_enc (x : MsgUpdateParams) : bytes := MsgUpdateParams_fields_enc x ++ MsgUpdateParams_unknownFields x.
Lemma onboarding_MsgUpdateParams_api_laws : MethodLaws MsgUpdateParams_methods MsgUpdateParams_wf MsgUpdateParams_enc.
Proof. api_message_laws MsgUpdateParams_wf MsgUpdateParams_enc MsgUpdateParams_fields_enc MsgUpdateParams_size MsgUpdateParams_marshal MsgUpdateParams_cases MsgUpdateParams_append. Qed.
#[local] Hint Resolve onboarding_MsgUpdateParams_api_laws : api_laws.

Definition MsgUpdateParamsResponse_wf (x : MsgUpdateParamsResponse) : Prop := unknown_bytes [] (MsgUpdateParamsResponse_unknownFields x).
Definition MsgUpdateParamsResponse_fields_enc (x : MsgUpdateParamsResponse) : bytes :=
  [].
Definition MsgUpdateParamsResponse_enc (x : MsgUpdateParamsResponse) : bytes := MsgUpdateParamsResponse_fields_enc x ++ MsgUpdateParamsResponse_unknownFields x.
Lemma onboarding_MsgUpdateParamsResponse_api_laws : MethodLaws MsgUpdateParamsResponse_methods MsgUpdateParamsResponse_wf MsgUpdateParamsResponse_enc.
Proof. api_message_laws MsgUpdateParamsResponse_wf MsgUpdateParamsResponse_enc MsgUpdateParamsResponse_fields_enc MsgUpdateParamsResponse_size MsgUpdateParamsResponse_marshal MsgUpdateParamsResponse_cases MsgUpdateParamsResponse_append. Qed.
#[local] Hint Resolve onboarding_MsgUpdateParamsResponse_api_laws : api_laws.

(** Messages are read back, with the fields they do not know, and no input makes decoding panic. *)
Definition api_round_trips : Prop :=
  read_back Params_methods Params_wf Params_enc ∧
  read_back GenesisState_methods GenesisState_wf GenesisState_enc ∧
  read_back QueryParamsRequest_methods QueryParamsRequest_wf QueryParamsRequest_enc ∧
  read_back QueryParamsResponse_methods QueryParamsResponse_wf QueryParamsResponse_enc ∧
  read_back MsgUpdateParams_methods MsgUpdateParams_wf MsgUpdateParams_enc ∧
  read_back MsgUpdateParamsResponse_methods MsgUpdateParamsResponse_wf MsgUpdateParamsResponse_enc.
Lemma onboarding_api_round_trips : api_round_trips.
Proof. unfold api_round_trips. split_and!; eapply laws_read_back; api_law. Qed.

(** ** Reflection *)

(** The messages that occur in messages, and the conversions to them. *)
Inductive Msg :=
| Msg_Params (x : option Params).
Definition to_Params (m : Msg) : outcome (option Params) := let '(Msg_Params x) := m in Ok x.

Inductive Lst :=
| Lst_Params_4 (x : option (list (string))).
Definition to_Params_4 (l : Lst) : outcome (option (list (string))) := let '(Lst_Params_4 x) := l in Ok x.
Abbreviation V := (Value Msg Lst).

Definition _Params_4_list : Elem (string) V := string_elem.

Definition fastReflection_Params_fields : list (Field Params V) :=
  [bool_field "canto.onboarding.v1.Params.enable_onboarding" Params_EnableOnboarding
     (fun v x => let '(mkParams _ autoSwapThreshold_ whitelistedChannels_ unknown) := x in mkParams v autoSwapThreshold_ whitelistedChannels_ unknown);
   string_field "canto.onboarding.v1.Params.auto_swap_threshold" Params_AutoSwapThreshold
     (fun v x => let '(mkParams enableOnboarding_ _ whitelistedChannels_ unknown) := x in mkParams enableOnboarding_ v whitelistedChannels_ unknown);
   list_field Lst_Params_4 to_Params_4 "canto.onboarding.v1.Params.whitelisted_channels" Params_WhitelistedChannels
     (fun v x => let '(mkParams enableOnboarding_ autoSwapThreshold_ _ unknown) := x in mkParams enableOnboarding_ autoSwapThreshold_ v unknown)].
Definition fastReflection_Params_Range {S} := reflect_Range (S := S) fastReflection_Params_fields.
Definition fastReflection_Params_Has := reflect_Has fastReflection_Params_fields.
Definition fastReflection_Params_Clear := reflect_Clear fastReflection_Params_fields.
Definition fastReflection_Params_Get := reflect_Get fastReflection_Params_fields.
Definition fastReflection_Params_Set := reflect_Set fastReflection_Params_fields.
Definition fastReflection_Params_Mutable := reflect_Mutable fastReflection_Params_fields.
Definition fastReflection_Params_NewField := reflect_NewField fastReflection_Params_fields.
Definition fastReflection_Params_SetUnknown (fields : bytes) (x : Params) : Params := let '(mkParams enableOnboarding_ autoSwapThreshold_ whitelistedChannels_ _) := x in mkParams enableOnboarding_ autoSwapThreshold_ whitelistedChannels_ fields.

Definition fastReflection_GenesisState_fields : list (Field GenesisState V) :=
  [message_field (new Params_methods) Msg_Params to_Params "canto.onboarding.v1.GenesisState.params" GenesisState_Params
     (fun v x => let '(mkGenesisState _ unknown) := x in mkGenesisState v unknown)].
Definition fastReflection_GenesisState_Range {S} := reflect_Range (S := S) fastReflection_GenesisState_fields.
Definition fastReflection_GenesisState_Has := reflect_Has fastReflection_GenesisState_fields.
Definition fastReflection_GenesisState_Clear := reflect_Clear fastReflection_GenesisState_fields.
Definition fastReflection_GenesisState_Get := reflect_Get fastReflection_GenesisState_fields.
Definition fastReflection_GenesisState_Set := reflect_Set fastReflection_GenesisState_fields.
Definition fastReflection_GenesisState_Mutable := reflect_Mutable fastReflection_GenesisState_fields.
Definition fastReflection_GenesisState_NewField := reflect_NewField fastReflection_GenesisState_fields.
Definition fastReflection_GenesisState_SetUnknown (fields : bytes) (x : GenesisState) : GenesisState := let '(mkGenesisState params_ _) := x in mkGenesisState params_ fields.

Definition fastReflection_QueryParamsRequest_fields : list (Field QueryParamsRequest V) :=
  [].
Definition fastReflection_QueryParamsRequest_Range {S} := reflect_Range (S := S) fastReflection_QueryParamsRequest_fields.
Definition fastReflection_QueryParamsRequest_Has := reflect_Has fastReflection_QueryParamsRequest_fields.
Definition fastReflection_QueryParamsRequest_Clear := reflect_Clear fastReflection_QueryParamsRequest_fields.
Definition fastReflection_QueryParamsRequest_Get := reflect_Get fastReflection_QueryParamsRequest_fields.
Definition fastReflection_QueryParamsRequest_Set := reflect_Set fastReflection_QueryParamsRequest_fields.
Definition fastReflection_QueryParamsRequest_Mutable := reflect_Mutable fastReflection_QueryParamsRequest_fields.
Definition fastReflection_QueryParamsRequest_NewField := reflect_NewField fastReflection_QueryParamsRequest_fields.
Definition fastReflection_QueryParamsRequest_SetUnknown (fields : bytes) (x : QueryParamsRequest) : QueryParamsRequest := let '(mkQueryParamsRequest _) := x in mkQueryParamsRequest fields.

Definition fastReflection_QueryParamsResponse_fields : list (Field QueryParamsResponse V) :=
  [message_field (new Params_methods) Msg_Params to_Params "canto.onboarding.v1.QueryParamsResponse.params" QueryParamsResponse_Params
     (fun v x => let '(mkQueryParamsResponse _ unknown) := x in mkQueryParamsResponse v unknown)].
Definition fastReflection_QueryParamsResponse_Range {S} := reflect_Range (S := S) fastReflection_QueryParamsResponse_fields.
Definition fastReflection_QueryParamsResponse_Has := reflect_Has fastReflection_QueryParamsResponse_fields.
Definition fastReflection_QueryParamsResponse_Clear := reflect_Clear fastReflection_QueryParamsResponse_fields.
Definition fastReflection_QueryParamsResponse_Get := reflect_Get fastReflection_QueryParamsResponse_fields.
Definition fastReflection_QueryParamsResponse_Set := reflect_Set fastReflection_QueryParamsResponse_fields.
Definition fastReflection_QueryParamsResponse_Mutable := reflect_Mutable fastReflection_QueryParamsResponse_fields.
Definition fastReflection_QueryParamsResponse_NewField := reflect_NewField fastReflection_QueryParamsResponse_fields.
Definition fastReflection_QueryParamsResponse_SetUnknown (fields : bytes) (x : QueryParamsResponse) : QueryParamsResponse := let '(mkQueryParamsResponse params_ _) := x in mkQueryParamsResponse params_ fields.

Definition fastReflection_MsgUpdateParams_fields : list (Field MsgUpdateParams V) :=
  [string_field "canto.onboarding.v1.MsgUpdateParams.authority" MsgUpdateParams_Authority
     (fun v x => let '(mkMsgUpdateParams _ params_ unknown) := x in mkMsgUpdateParams v params_ unknown);
   message_field (new Params_methods) Msg_Params to_Params "canto.onboarding.v1.MsgUpdateParams.params" MsgUpdateParams_Params
     (fun v x => let '(mkMsgUpdateParams authority_ _ unknown) := x in mkMsgUpdateParams authority_ v unknown)].
Definition fastReflection_MsgUpdateParams_Range {S} := reflect_Range (S := S) fastReflection_MsgUpdateParams_fields.
Definition fastReflection_MsgUpdateParams_Has := reflect_Has fastReflection_MsgUpdateParams_fields.
Definition fastReflection_MsgUpdateParams_Clear := reflect_Clear fastReflection_MsgUpdateParams_fields.
Definition fastReflection_MsgUpdateParams_Get := reflect_Get fastReflection_MsgUpdateParams_fields.
Definition fastReflection_MsgUpdateParams_Set := reflect_Set fastReflection_MsgUpdateParams_fields.
Definition fastReflection_MsgUpdateParams_Mutable := reflect_Mutable fastReflection_MsgUpdateParams_fields.
Definition fastReflection_MsgUpdateParams_NewField := reflect_NewField fastReflection_MsgUpdateParams_fields.
Definition fastReflection_MsgUpdateParams_SetUnknown (fields : bytes) (x : MsgUpdateParams) : MsgUpdateParams := let '(mkMsgUpdateParams authority_ params_ _) := x in mkMsgUpdateParams authority_ params_ fields.

Definition fastReflection_MsgUpdateParamsResponse_fields : list (Field MsgUpdateParamsResponse V) :=
  [].
Definition fastReflection_MsgUpdateParamsResponse_Range {S} := reflect_Range (S := S) fastReflection_MsgUpdateParamsResponse_fields.
Definition fastReflection_MsgUpdateParamsResponse_Has := reflect_Has fastReflection_MsgUpdateParamsResponse_fields.
Definition fastReflection_MsgUpdateParamsResponse_Clear := reflect_Clear fastReflection_MsgUpdateParamsResponse_fields.
Definition fastReflection_MsgUpdateParamsResponse_Get := reflect_Get fastReflection_MsgUpdateParamsResponse_fields.
Definition fastReflection_MsgUpdateParamsResponse_Set := reflect_Set fastReflection_MsgUpdateParamsResponse_fields.
Definition fastReflection_MsgUpdateParamsResponse_Mutable := reflect_Mutable fastReflection_MsgUpdateParamsResponse_fields.
Definition fastReflection_MsgUpdateParamsResponse_NewField := reflect_NewField fastReflection_MsgUpdateParamsResponse_fields.
Definition fastReflection_MsgUpdateParamsResponse_SetUnknown (fields : bytes) (x : MsgUpdateParamsResponse) : MsgUpdateParamsResponse := let '(mkMsgUpdateParamsResponse _) := x in mkMsgUpdateParamsResponse fields.

Lemma onboarding_Params_field_laws : FieldLaws fastReflection_Params_fields Params_unknownFields (new Params_methods).
Proof. message_field_laws. Qed.
Lemma onboarding_GenesisState_field_laws : FieldLaws fastReflection_GenesisState_fields GenesisState_unknownFields (new GenesisState_methods).
Proof. message_field_laws. Qed.
Lemma onboarding_QueryParamsRequest_field_laws : FieldLaws fastReflection_QueryParamsRequest_fields QueryParamsRequest_unknownFields (new QueryParamsRequest_methods).
Proof. message_field_laws. Qed.
Lemma onboarding_QueryParamsResponse_field_laws : FieldLaws fastReflection_QueryParamsResponse_fields QueryParamsResponse_unknownFields (new QueryParamsResponse_methods).
Proof. message_field_laws. Qed.
Lemma onboarding_MsgUpdateParams_field_laws : FieldLaws fastReflection_MsgUpdateParams_fields MsgUpdateParams_unknownFields (new MsgUpdateParams_methods).
Proof. message_field_laws. Qed.
Lemma onboarding_MsgUpdateParamsResponse_field_laws : FieldLaws fastReflection_MsgUpdateParamsResponse_fields MsgUpdateParamsResponse_unknownFields (new MsgUpdateParamsResponse_methods).
Proof. message_field_laws. Qed.

(** What reflection promises, for every message. *)
Definition reflection_complete : Prop :=
  reflects fastReflection_Params_fields Params_unknownFields fastReflection_Params_SetUnknown (new Params_methods) ∧
  reflects fastReflection_GenesisState_fields GenesisState_unknownFields fastReflection_GenesisState_SetUnknown (new GenesisState_methods) ∧
  reflects fastReflection_QueryParamsRequest_fields QueryParamsRequest_unknownFields fastReflection_QueryParamsRequest_SetUnknown (new QueryParamsRequest_methods) ∧
  reflects fastReflection_QueryParamsResponse_fields QueryParamsResponse_unknownFields fastReflection_QueryParamsResponse_SetUnknown (new QueryParamsResponse_methods) ∧
  reflects fastReflection_MsgUpdateParams_fields MsgUpdateParams_unknownFields fastReflection_MsgUpdateParams_SetUnknown (new MsgUpdateParams_methods) ∧
  reflects fastReflection_MsgUpdateParamsResponse_fields MsgUpdateParamsResponse_unknownFields fastReflection_MsgUpdateParamsResponse_SetUnknown (new MsgUpdateParamsResponse_methods).
Lemma onboarding_reflection_complete : reflection_complete.
Proof.
  unfold reflection_complete. split_and!;
  [message_reflects onboarding_Params_field_laws
  |message_reflects onboarding_GenesisState_field_laws
  |message_reflects onboarding_QueryParamsRequest_field_laws
  |message_reflects onboarding_QueryParamsResponse_field_laws
  |message_reflects onboarding_MsgUpdateParams_field_laws
  |message_reflects onboarding_MsgUpdateParamsResponse_field_laws].
Qed.

(** ** The same encodings as the module *)

Context {SC : SdkCodecs} {SL : SdkCodecLaws SC} {SE : SameEncodings SL AL}.

Definition Params_api (m : Onboarding.Params) : Params := mkParams (Onboarding.EnableOnboarding m) (Int_text (Onboarding.AutoSwapThreshold m)) (Onboarding.WhitelistedChannels m) [].
Lemma onboarding_Params_same : same_encoding Params_api OnboardingCodec.Params_wf OnboardingCodec.Params_enc Params_wf Params_enc.
Proof. same_message Params_api (@OnboardingCodec.Params_wf) (@OnboardingCodec.Params_enc) Params_wf Params_enc Params_fields_enc. Qed.
#[local] Hint Resolve onboarding_Params_same : api_same.
Definition GenesisState_api (m : Onboarding.GenesisState) : GenesisState := mkGenesisState (Some (Params_api (Onboarding.Gen_Params m))) [].
Lemma onboarding_GenesisState_same : same_encoding GenesisState_api OnboardingCodec.GenesisState_wf OnboardingCodec.GenesisState_enc GenesisState_wf GenesisState_enc.
Proof. same_message GenesisState_api (@OnboardingCodec.GenesisState_wf) (@OnboardingCodec.GenesisState_enc) GenesisState_wf GenesisState_enc GenesisState_fields_enc. Qed.
#[local] Hint Resolve onboarding_GenesisState_same : api_same.
Definition QueryParamsRequest_api (m : OnboardingCodec.QueryParamsRequest) : QueryParamsRequest := mkQueryParamsRequest [].
Lemma onboarding_QueryParamsRequest_same : same_encoding QueryParamsRequest_api OnboardingCodec.QueryParamsRequest_wf OnboardingCodec.QueryParamsRequest_enc QueryParamsRequest_wf QueryParamsRequest_enc.
Proof. same_message QueryParamsRequest_api (@OnboardingCodec.QueryParamsRequest_wf) (@OnboardingCodec.QueryParamsRequest_enc) QueryParamsRequest_wf QueryParamsRequest_enc QueryParamsRequest_fields_enc. Qed.
#[local] Hint Resolve onboarding_QueryParamsRequest_same : api_same.
Definition QueryParamsResponse_api (m : OnboardingCodec.QueryParamsResponse) : QueryParamsResponse := mkQueryParamsResponse (Some (Params_api (OnboardingCodec.QueryParamsResponse_Params m))) [].
Lemma onboarding_QueryParamsResponse_same : same_encoding QueryParamsResponse_api OnboardingCodec.QueryParamsResponse_wf OnboardingCodec.QueryParamsResponse_enc QueryParamsResponse_wf QueryParamsResponse_enc.
Proof. same_message QueryParamsResponse_api (@OnboardingCodec.QueryParamsResponse_wf) (@OnboardingCodec.QueryParamsResponse_enc) QueryParamsResponse_wf QueryParamsResponse_enc QueryParamsResponse_fields_enc. Qed.
#[local] Hint Resolve onboarding_QueryParamsResponse_same : api_same.
Definition MsgUpdateParams_api (m : Onboarding.MsgUpdateParams) : MsgUpdateParams := mkMsgUpdateParams (Onboarding.Upd_Authority m) (Some (Params_api (Onboarding.Upd_Params m))) [].
Lemma onboarding_MsgUpdateParams_same : same_encoding MsgUpdateParams_api OnboardingCodec.MsgUpdateParams_wf OnboardingCodec.MsgUpdateParams_enc MsgUpdateParams_wf MsgUpdateParams_enc.
Proof. same_message MsgUpdateParams_api (@OnboardingCodec.MsgUpdateParams_wf) (@OnboardingCodec.MsgUpdateParams_enc) MsgUpdateParams_wf MsgUpdateParams_enc MsgUpdateParams_fields_enc. Qed.
#[local] Hint Resolve onboarding_MsgUpdateParams_same : api_same.
Definition MsgUpdateParamsResponse_api (m : OnboardingCodec.MsgUpdateParamsResponse) : MsgUpdateParamsResponse := mkMsgUpdateParamsResponse [].
Lemma onboarding_MsgUpdateParamsResponse_same : same_encoding MsgUpdateParamsResponse_api OnboardingCodec.MsgUpdateParamsResponse_wf OnboardingCodec.MsgUpdateParamsResponse_enc MsgUpdateParamsResponse_wf MsgUpdateParamsResponse_enc.
Proof. same_message MsgUpdateParamsResponse_api (@OnboardingCodec.MsgUpdateParamsResponse_wf) (@OnboardingCodec.MsgUpdateParamsResponse_enc) MsgUpdateParamsResponse_wf MsgUpdateParamsResponse_enc MsgUpdateParamsResponse_fields_enc. Qed.
#[local] Hint Resolve onboarding_MsgUpdateParamsResponse_same : api_same.

Definition api_agrees : Prop :=
  agrees OnboardingCodec.Params_codec Params_methods Params_api OnboardingCodec.Params_wf OnboardingCodec.Params_enc ∧
  agrees OnboardingCodec.GenesisState_codec GenesisState_methods GenesisState_api OnboardingCodec.GenesisState_wf OnboardingCodec.GenesisState_enc ∧
  agrees OnboardingCodec.QueryParamsRequest_codec QueryParamsRequest_methods QueryParamsRequest_api OnboardingCodec.QueryParamsRequest_wf OnboardingCodec.QueryParamsRequest_enc ∧
  agrees OnboardingCodec.QueryParamsResponse_codec QueryParamsResponse_methods QueryParamsResponse_api OnboardingCodec.QueryParamsResponse_wf OnboardingCodec.QueryParamsResponse_enc ∧
  agrees OnboardingCodec.MsgUpdateParams_codec MsgUpdateParams_methods MsgUpdateParams_api OnboardingCodec.MsgUpdateParams_wf OnboardingCodec.MsgUpdateParams_enc ∧
  agrees OnboardingCodec.MsgUpdateParamsResponse_codec MsgUpdateParamsResponse_methods MsgUpdateParamsResponse_api OnboardingCodec.MsgUpdateParamsResponse_wf OnboardingCodec.MsgUpdateParamsResponse_enc.
Lemma onboarding_api_agrees : api_agrees.
Proof.
  unfold api_agrees. split_and!;
  [exact (laws_agree _ _ _ _ _ _ _ OnboardingCodec.onboarding_Params_laws onboarding_Params_api_laws onboarding_Params_same)
  |exact (laws_agree _ _ _ _ _ _ _ OnboardingCodec.onboarding_GenesisState_laws onboarding_GenesisState_api_laws onboarding_GenesisState_same)
  |exact (laws_agree _ _ _ _ _ _ _ OnboardingCodec.onboarding_QueryParamsRequest_laws onboarding_QueryParamsRequest_api_laws onboarding_QueryParamsRequest_same)
  |exact (laws_agree _ _ _ _ _ _ _ OnboardingCodec.onboarding_QueryParamsResponse_laws onboarding_QueryParamsResponse_api_laws onboarding_QueryParamsResponse_same)
  |exact (laws_agree _ _ _ _ _ _ _ OnboardingCodec.onboarding_MsgUpdateParams_laws onboarding_MsgUpdateParams_api_laws onboarding_MsgUpdateParams_same)
  |exact (laws_agree _ _ _ _ _ _ _ OnboardingCodec.onboarding_MsgUpdateParamsResponse_laws onboarding_MsgUpdateParamsResponse_api_laws onboarding_MsgUpdateParamsResponse_same)].
Qed.
End api.
