(* ===== verification/Api.v ===== *)
(** * Package api

    The theorems on the messages of src/api, over the seven packages: they have
    the encodings of the messages of the modules, they are read back with the
    fields they do not know, and reflection sees all of a message. *)

From Stdlib Require Import Ascii.
From stdpp Require Import base strings list sets.
From S2P Require Import Prelude Golang Sdk Wire WireFacts WireCodec WireSdk Pulsar Reflect ApiSame.
From S2P Require ApiCoinswap ApiCsr ApiEpochs ApiErc20 ApiGovshuttle ApiInflation ApiOnboarding.
From S2P Require Coinswap CoinswapCodec Csr CsrCodec.

#[local] Open Scope Z_scope.
#[local] Open Scope go_scope.

Section theorems.
Context {RT : ProtoRuntime} {RL : ProtoRuntimeLaws} {AS : ApiSdk} {AL : ApiSdkLaws AS}.

(** C19: package api and the modules agree on the encoding of every message.  For
    every message type of the seven packages (stored records, genesis states,
    parameters, proposals, messages of transactions and of queries), a well-formed
    message of the module and the message of package api with the same contents
    are encoded as the same bytes, each by its own generated code, and each reads
    what the other wrote: clients that use package api and the chain understand
    each other. *)
Theorem api_and_modules_agree {SC : SdkCodecs} {SL : SdkCodecLaws SC} {SE : SameEncodings SL AL} :
  ApiCoinswap.api_agrees ∧ ApiCsr.api_agrees ∧ ApiEpochs.api_agrees ∧ ApiErc20.api_agrees ∧
  ApiGovshuttle.api_agrees ∧ ApiInflation.api_agrees ∧ ApiOnboarding.api_agrees.
Proof using RL.
  split_and!; [apply ApiCoinswap.coinswap_api_agrees|apply ApiCsr.csr_api_agrees|apply ApiEpochs.epochs_api_agrees
    |apply ApiErc20.erc20_api_agrees|apply ApiGovshuttle.govshuttle_api_agrees|apply ApiInflation.inflation_api_agrees
    |apply ApiOnboarding.onboarding_api_agrees].
Qed.

(** C20: messages of package api are read back whole.  Every well-formed message of
    the seven packages, nil messages and empty lists in it and the fields it does
    not know included, is encoded in exactly as many bytes as computed and decoded
    to itself; on any input shorter than 2^63 bytes, and into any message, decoding
    ends in a message or in an error and does not panic. *)
Theorem api_messages_round_trip :
  ApiCoinswap.api_round_trips ∧ ApiCsr.api_round_trips ∧ ApiEpochs.api_round_trips ∧ ApiErc20.api_round_trips ∧
  ApiGovshuttle.api_round_trips ∧ ApiInflation.api_round_trips ∧ ApiOnboarding.api_round_trips.
Proof using RL.
  split_and!; [apply ApiCoinswap.coinswap_api_round_trips|apply ApiCsr.csr_api_round_trips
    |apply ApiEpochs.epochs_api_round_trips|apply ApiErc20.erc20_api_round_trips
    |apply ApiGovshuttle.govshuttle_api_round_trips|apply ApiInflation.inflation_api_round_trips
    |apply ApiOnboarding.onboarding_api_round_trips].
Qed.
End theorems.

(** C21: reflection is complete.  For every message of the seven packages, storing
    through [Set] in a new message what [Range] visits never panics, and gives,
    once the unknown fields are set too, the message itself; [Clear] of a field
    leaves it unpopulated, and [Clear] and [Set] leave all other fields and the
    unknown fields alone: the switches miss no field and mix up no two. *)
Theorem reflection_is_complete {RT : ProtoRuntime} {AS : ApiSdk} :
  ApiCoinswap.reflection_complete ∧ ApiCsr.reflection_complete ∧ ApiEpochs.reflection_complete ∧
  ApiErc20.reflection_complete ∧ ApiGovshuttle.reflection_complete ∧ ApiInflation.reflection_complete ∧
  ApiOnboarding.reflection_complete.
Proof.
  split_and!; [apply ApiCoinswap.coinswap_reflection_complete|apply ApiCsr.csr_reflection_complete
    |apply ApiEpochs.epochs_reflection_complete|apply ApiErc20.erc20_reflection_complete
    |apply ApiGovshuttle.govshuttle_reflection_complete|apply ApiInflation.inflation_reflection_complete
    |apply ApiOnboarding.onboarding_reflection_complete].
Qed.

(** ** An executable instance *)

#[export] Instance ref_runtime : ProtoRuntime := { Sov := sov; EncodeVarint := encodeVarint; Skip := skip }.
#[export] Instance ref_runtime_laws : ProtoRuntimeLaws.
Proof.
  split; [|exact encodeVarint_spec|done]. intros v Hv. symmetry. by apply uvarint_sov.
Qed.

(** The methods of a message that the other code encodes as well. *)
Definition methods_of_codec {A} (c : Codec A) : Methods A :=
  mkMethods (zero c)
    (fun x => match x with Some x => Size c x | None => 0 end)
    (fun x buf => match x with Some x => let? dAtA := Marshal c x in Ok (buf ++ dAtA) | None => Ok buf end)
    (fun _ dAtA x => match x with Some _ => let? y := Unmarshal c dAtA (zero c) in Ok (Some y) | None => Ok None end).
Lemma methods_of_codec_laws {A} (c : Codec A) wf enc : CodecLaws c wf enc -> MethodLaws (methods_of_codec c) wf enc.
Proof.
  intros Hc. split; cbn.
  - apply (zero_wf _ _ _ Hc).
  - apply (Size_law _ _ _ Hc).
  - intros x buf Hx Hl. by rewrite (Marshal_law _ _ _ _ Hc Hx Hl).
  - intros x Hx Hl. by rewrite (Unmarshal_law _ _ _ Hc x Hx Hl).
  - intros _ dAtA [x|] Hl; [|done].
    apply (safe_bind wf); [|done]. by apply (Unmarshal_safe _ _ _ Hc), (zero_wf _ _ _ Hc).
Qed.

#[export] Instance ref_api : ApiSdk := {
  api_Coin_methods := methods_of_codec Coin_codec; api_DecCoin_methods := methods_of_codec DecCoin_codec;
  api_PageRequest_methods := methods_of_codec PageRequest_codec;
  api_PageResponse_methods := methods_of_codec PageResponse_codec;
  api_Metadata_methods := methods_of_codec Metadata_codec; api_Timestamp_methods := methods_of_codec Time_codec;
  api_Duration_methods := methods_of_codec Duration_codec
}.
#[export] Instance ref_api_laws : ApiSdkLaws ref_api := {
  api_Coin_laws := methods_of_codec_laws _ _ _ Coin_laws; api_DecCoin_laws := methods_of_codec_laws _ _ _ DecCoin_laws;
  api_PageRequest_laws := methods_of_codec_laws _ _ _ PageRequest_laws;
  api_PageResponse_laws := methods_of_codec_laws _ _ _ PageResponse_laws;
  api_Metadata_laws := methods_of_codec_laws _ _ _ Metadata_laws;
  api_Timestamp_laws := methods_of_codec_laws _ _ _ Time_laws;
  api_Duration_laws := methods_of_codec_laws _ _ _ Duration_laws
}.

Lemma same_identity {A} (wf : A -> Prop) enc : same_encoding (fun x => x) wf enc wf enc.
Proof. by intros x Hx. Qed.

Lemma text_nonempty z : 0 <= z -> text z ≠ [].
Proof. intros _ E. apply (Decimal_nonempty z). rewrite <-(to_of_string (Decimal z)). unfold text in E. by rewrite E. Qed.

#[export] Instance ref_same : SameEncodings ref_codec_laws ref_api_laws := {
  Int_nonempty := text_nonempty; Dec_nonempty := text_nonempty;
  coin_same := same_identity _ _; dec_coin_same := same_identity _ _;
  page_request_same := same_identity _ _; page_response_same := same_identity _ _;
  metadata_same := same_identity _ _; time_same := same_identity _ _; duration_same := same_identity _ _
}.

(** ** Witnesses *)

Definition ex_csr : Csr.CSR := Csr.mkCSR ["0xaa"; "0xbb"] 7 300 5.

Lemma api_and_modules_agree_witness :
  ∃ dAtA, Marshal CsrCodec.CSR_codec ex_csr = Ok dAtA ∧ blen dAtA = 20 ∧
          options_Marshal ApiCsr.CSR_methods (Some (ApiCsr.mkCSR ["0xaa"; "0xbb"] 7 300 "5" [])) = Ok dAtA ∧
          CsrCodec.CSR_Unmarshal dAtA (zero CsrCodec.CSR_codec) = Ok ex_csr.
Proof.
  destruct (proj1 (proj1 (proj2 (api_and_modules_agree (SL := ref_codec_laws) (SE := ref_same)))) ex_csr)
    as (dAtA & Hm & Ha & _ & Hu); [vm_compute; repeat split; discriminate|vm_compute; reflexivity|].
  exists dAtA. split; [exact Hm|]. split; [|split; [exact Ha|exact Hu]].
  vm_compute in Hm. injection Hm as <-. vm_compute. reflexivity.
Defined.

(** A CSR with a field of a later version, which has the number 5. *)
Definition ex_later : ApiCsr.CSR := ApiCsr.mkCSR ["0xaa"] 7 300 "5" (enc_unknown (UnknownVarint 0x28 1)).

Lemma api_messages_round_trip_witness :
  ∃ dAtA, options_Marshal ApiCsr.CSR_methods (Some ex_later) = Ok dAtA ∧
          ApiCsr.CSR_unmarshal false dAtA (Some (new ApiCsr.CSR_methods)) = Ok (Some ex_later) ∧
          ApiCsr.CSR_unmarshal true dAtA (Some (new ApiCsr.CSR_methods)) = Ok (Some (ApiCsr.mkCSR ["0xaa"] 7 300 "5" [])).
Proof.
  destruct (proj1 (proj1 (proj1 (proj2 api_messages_round_trip))) ex_later) as (dAtA & Hm & _ & Hu).
  - split_and!; [vm_compute; split; [discriminate|reflexivity]..|].
    exists [UnknownVarint 0x28 1]. split; [reflexivity|]. repeat constructor; try (vm_compute; congruence). vm_compute. set_solver.
  - vm_compute. reflexivity.
  - exists dAtA. split; [exact Hm|]. split; [exact Hu|]. vm_compute in Hm. injection Hm as <-. vm_compute. reflexivity.
Defined.
